(* ===== verification/_CoqProject ===== *)
-Q . S2P
Prelude.v
Mem.v
MemRefine.v
MemProps.v
Memp.v
Pbuf.v
PbufLemmas.v
PbufAlloc.v
PbufOps.v
PbufProps.v
Kernel.v
CmsisOs.v
SysArch.v
HalEth.v
Ethernetif.v
EthOutput.v
EthTransmit.v
EthInput.v
EthTask.v
Chksum.v
ChksumProps.v
Def.v
Ip4Addr.v
Timeouts.v
TimeoutsProps.v
TimeoutsExpiry.v
Etharp.v
EtharpTable.v
EtharpProps.v
EtharpInv.v
EtharpResolve.v
LinkedList.v
Netifs.v
NetifProps.v
Ip4.v
Ip4Props.v
Ip4Output.v
Ip4Examples.v
Udp.v
UdpList.v
UdpProps.v
UdpInv.v
UdpSend.v
Icmp.v
IcmpProps.v
Igmp.v
IgmpInv.v
IgmpLists.v
IgmpSteps.v
IgmpProps.v
IgmpQuery.v
Multicast.v
IgmpExamples.v
Tcpip.v
TcpipProps.v
TcpipFifo.v
TcpipExamples.v
TcpBase.v
TcpOut.v
Tcp.v
TcpIn.v
TcpLemmas.v
TcpStates.v
TcpTyped.v
TcpTrim.v
TcpReceive.v
TcpOptions.v
TcpWindow.v
TcpAck.v
TcpQueue.v
TcpRexmit.v
TcpStream.v
TcpExamples.v
TcpQueueExamples.v
TcpFindings.v
Stack.v
StackExamples.v
