(* ===== verification/Prelude.v ===== *)
(** * Verification of the network firmware of stm32f7_myproj

    The program is the firmware of an STM32F746 board: an ITRON kernel, an
    adaptation layer to it, the lwIP network stack in the configuration of
    inc/lwipopts.h, the Ethernet driver, and an application on top.  This
    library models the path of a packet through the firmware, from the DMA
    descriptors of the Ethernet controller through Ethernet, ARP, IP, ICMP
    and IGMP up to the callbacks of UDP and TCP and back down, with
    everything it stands on: memory, packet buffers, checksums, addresses,
    interfaces, timers, and the mailboxes and semaphores that join the
    threads.

    ** The parts and how they interact

    - Memory: core/mem.c is the heap, core/memp.c the pools.  pbuf.c takes
      packet buffers from both; timeouts.c takes its entries from a pool.
    - Packet buffers: core/pbuf.c; chains of reference counted buffers over
      the byte memory.  The driver, the checksums and ARP work on them.
    - Operating system layer: sys_arch.c gives lwIP its mailboxes,
      semaphores, threads and the critical section, on the CMSIS wrapper
      cmsis_os_itron_wrap.c, on the kernel.
    - Driver: src/ethernetif.c copies chains to and from the DMA buffers
      with stm32f7xx_hal_eth.c.  The receive interrupt signals a semaphore,
      the input task waits for it and hands frames to the stack.
    - Stack: netif/ethernet.c and core/ipv4/etharp.c put Ethernet headers on
      packets and resolve addresses; core/netif.c keeps the interfaces;
      core/ipv4/ip4.c routes packets and gives received ones to icmp.c,
      igmp.c, udp.c or tcp_in.c, of which the last two give them to the
      applications; inet_chksum.c, def.c and ip4_addr.c are helpers; timeouts.c runs the
      timers of all protocols.
    - TCP: tcp.c keeps the lists of connections and the timers, tcp_in.c
      finds the connection of a segment and runs its state machine,
      tcp_out.c queues, sends and sends again.  The application is called
      through the functions it has set in the control block.
    - Thread of the stack: api/tcpip.c takes messages (received packets,
      function calls, timers) from one mailbox and runs them one by one
      under the core lock, between them the expired timers.

    ** Files

    - [Prelude]: machine integers with their wrap-around, the monad [prog]
      of programs that may get stuck, byte memory, shared lemmas, tactics.
    - [Mem] models core/mem.c: the array [ram] as a map from indices to
      [struct mem], [lfree], [mem_mutex]; [mem_init], [mem_malloc],
      [mem_free], [mem_trim], [mem_calloc], [plug_holes] (as [plug_forward]
      and [plug_backward]).  [MemRefine] proves each operation against an
      abstract first-fit allocator on a list of blocks, [MemProps] states
      the simulation of call sequences and what clients rely on.
    - [Memp] models core/memp.c and proves its exclusive hand-out.
    - [Pbuf] models core/pbuf.c, every function of the build.  [PbufLemmas]
      has the chains ([pchain]) and their contents, [PbufAlloc] the
      ownership invariant ([owned]) over heap and pools, [PbufOps] the
      lemmas per operation, [PbufProps] the theorems.
    - [Kernel] is the interface of the kernel: the class [Kernel] of its
      service calls, [KernelLaws] of their documented behaviour, and module
      [Sim], a kernel that satisfies the laws.
    - [CmsisOs] models src/cmsis_os_itron_wrap.c, [SysArch] models
      src/sys_arch.c (and sys_msleep of core/sys.c) over that interface.
    - [HalEth] models the descriptor rings, [HAL_ETH_TransmitFrame],
      [HAL_ETH_GetReceivedFrame_IT] and the interrupt handler;
      [Ethernetif] models [low_level_output], [low_level_input],
      [ethernetif_input] and the callback.  [EthOutput] and [EthTransmit]
      prove the transmission, [EthInput] the reception, [EthTask] the
      interplay of interrupt and task.
    - [Chksum] models core/inet_chksum.c; [ChksumProps] proves it.
    - [Def] models core/def.c, [Ip4Addr] models core/ipv4/ip4_addr.c, each
      with its theorems.
    - [Timeouts] models core/timeouts.c; [TimeoutsProps] has the list of
      deadlines and its changes, [TimeoutsExpiry] the calls of handlers.
    - [Etharp] models core/ipv4/etharp.c and netif/ethernet.c;
      [EtharpTable] has the invariant of the ARP table and the search,
      [EtharpProps] the operations, [EtharpInv] the invariant over all
      reachable states, [EtharpResolve] the promises to users.
    - [LinkedList] has the lemmas on lists of structures linked by pointers
      that interfaces, control blocks and groups share.
    - [Netifs] models core/netif.c over the state [istate] of the IP layer;
      [NetifProps] proves that the list of interfaces implements a sequence.
    - [Ip4] models core/ipv4/ip4.c; [Ip4Props] has routing and reception,
      [Ip4Output] sending, [Ip4Examples] a host with two interfaces.
    - [Udp] models core/udp.c; [UdpList] has the list of control blocks and
      the ports, [UdpProps] the search for the receiver, [UdpInv] the
      invariant over all calls, [UdpSend] the headers of sent datagrams.
    - [Icmp] models core/ipv4/icmp.c, [IcmpProps] proves the echo reply.
    - [Igmp] models core/ipv4/igmp.c over any state that has its groups
      (class [HasIgmp]); [IgmpInv] has the changes of single groups,
      [IgmpLists] the lists of groups and the memberships they stand for,
      [IgmpSteps] joining, leaving, starting and stopping, [IgmpProps] the
      refinement over call sequences, [IgmpQuery] the queries, [Multicast]
      the group code under [ip4_input], [IgmpExamples] a host in a group.
    - [Tcpip] models api/tcpip.c over the mailboxes of [SysArch] and the
      pools; [TcpipProps] has the life of messages and the passes of the
      thread, [TcpipFifo] the order of messages over all interleavings of
      posts and passes, [TcpipExamples] a running thread.
    - [TcpBase] has the data of TCP (control blocks, segments, the static
      variables), the accessors, and what the three source files share;
      [TcpOut] models core/tcp_out.c, [Tcp] core/tcp.c, [TcpIn]
      core/tcp_in.c.  The state is any that has the variables of TCP (class
      [HasTcp]); the callbacks of the application and the output function
      of the interface are the class [TcpEnv].
    - [TcpLemmas] has the lemmas on accessors and sequence numbers,
      [TcpStates] the state machine, [TcpTyped] the types of the fields,
      [TcpTrim] and [TcpReceive] the cutting and the acceptance of a
      segment, [TcpOptions] the options, [TcpWindow] the announced window,
      [TcpAck] the acknowledgements that are sent, [TcpQueue] those that
      are received and the queues of segments, [TcpRexmit] the segments
      that are sent again, [TcpStream] the received stream, [TcpExamples]
      and [TcpQueueExamples] a host with a connection, [TcpFindings] the
      runs that show the defects of the code.
    - [Stack] instantiates the parameters of the layers by each other and
      follows a datagram from the sender's socket to the receiver's;
      [StackExamples] has the concrete hosts for UDP, ICMP and the stack.
      TCP and IGMP are parameters there, as they are of [ip4_input].

    ** How the code is represented

    A function of the source is a definition with its name, a [prog] over
    the state that its component keeps; [None] is an invalid memory access
    or a loop that has used up its fuel, so a theorem that gives a result
    [Some] also says that the code does neither.  Pointers are [Z], [NULL]
    is 0; structures are records in maps at their addresses, and a freed
    pbuf or timer entry leaves the map.  Unsigned types are [Z] with [u8],
    [u16], [u32] where the code wraps.  Assertions are compiled out
    (LWIP_PLATFORM_ASSERT is empty in arch/cc.h) and have no effect here
    either.  Code under preprocessor switches that lwipopts.h leaves off is
    left out.  Functions passed as pointers, and code outside of the
    repository, are parameters with named laws as hypotheses.

    ** Fuel

    Loops over linked structures carry fuel.  The functions compute it from
    the state: [walk_fuel] of [Mem] and [chain_fuel] of [Pbuf] are the
    number of structures plus two, [tfuel] of [Timeouts] likewise, which is
    enough for a list without cycles; the theorems about operations give
    results and so prove that it is enough.  [netif_fuel], [pcb_fuel] and
    [group_fuel] do the same for interfaces, control blocks and groups, and
    [udp_new_port] has one unit for each port of its range; [cb_fuel] and
    [seg_fuel] of TCP count its control blocks and segments, and the options
    have one unit for each byte.  The timers of TCP take their fuel as an
    argument, because the callbacks of the application make them start over.  Loops over lengths use the
    length plus one.  [sys_check_timeouts] takes its fuel as an argument
    because handlers may add timeouts; its theorem gives an amount that
    suffices.  Tasks that never return are modelled by their passes.

    ** Theorems

    - Heap: every legal sequence of calls behaves like the first-fit
      allocator on block lists ([heap_simulation]); blocks handed out are
      aligned, inside and disjoint ([mem_malloc_fresh]); sizes near 65536
      wrap ([mem_malloc_wraps]).
    - Pools: [memp_malloc_exclusive], over all reachable states.
    - Packet buffers: allocation, release, truncation, coalescing and the
      round trip of data ([pbuf_alloc_pool_correct], [pbuf_free_chain],
      [pbuf_realloc_truncates], [pbuf_coalesce_contents],
      [pbuf_take_copy_partial]).
    - Operating system layer: a mailbox refines a bounded queue
      ([mailbox_refines_queue]), a semaphore counts ([semaphore_counts]),
      threads are bounded ([threads_bounded]).
    - Driver: what is sent is what the chain holds
      ([low_level_output_sends]), with the error case
      ([low_level_output_busy]); what is received is what the frame holds
      ([low_level_input_receives]); the rings are built right
      ([desc_lists_are_rings]); when the task fetches frames
      ([input_task_drains]).
    - Checksums: the versions agree with the ones' complement sum
      ([chksum_versions_agree]), chains are summed as their contents
      ([chain_checksums]), a stored checksum verifies
      ([stored_checksum_verifies]).
    - Addresses and strings: [ntoa_aton_roundtrip], [aton_dotted_quad],
      [netmask_valid_iff_prefix], [lwip_itoa_decimal],
      [string_comparisons].
    - Timeouts: [sys_timeout_deadlines], and termination with exactly the due handlers called in order
      ([check_timeouts_runs_expired]).
    - ARP: the table invariant in all reachable states
      ([arp_table_invariant]), the life of entries ([arp_entries_age]), the
      choice of an entry ([find_entry_policy]), update and look-up
      ([update_then_find]), the next hop ([output_next_hop]).
    - Interfaces: the list implements a sequence of interfaces
      ([netif_list_refines]).
    - IP: the choice of the interface ([ip4_route_first]), which packets
      are given to which protocol and in which form ([ip4_input_delivers],
      [multicast_for_members]) and which are freed
      ([ip4_input_discards]), the header of sent packets
      ([ip4_output_header]).
    - UDP: who gets a datagram ([udp_input_demux]), the list of control
      blocks in all reachable states ([udp_list_invariant]), ports
      ([udp_new_port_free], [udp_bind_outcome]); ICMP: the echo reply
      ([icmp_echo_answered]).
    - IGMP: sequences of calls implement the counting of memberships
      ([igmp_memberships_refine]), a query schedules reports
      ([igmp_query_schedules]).
    - Thread of the stack: messages are served in the order of their posts
      ([tcpip_messages_fifo]), a pass runs the first one
      ([tcpip_pass_runs_first]), a packet is either queued or refused
      without leaking its message ([tcpip_inpkt_outcome]).
    - TCP: what is handed to the application is a prefix of the stream that
      the peer sends, whatever arrives ([tcp_receive_prefix]); what one
      segment does ([tcp_receive_segment]); the states of a connection
      ([tcp_process_transitions]); the announced window
      ([tcp_window_edge]) and the acknowledgements ([tcp_ack_header]);
      what an acknowledgement of the peer releases ([tcp_ack_releases]) and
      what is sent again ([tcp_rexmit_requeues]); the options
      ([tcp_parseopt_mss]); the types of all fields
      ([tcp_receive_typed]).
    - The layers together: a datagram sent on one host reaches the receive
      function on another with its data and the sender's address and port
      ([datagram_end_to_end]).

    ** Not modelled

    The kernel (an empty submodule) is an interface.  The functions that
    only program registers (clock and pin set-up, MAC and PHY
    configuration, main.c, the other HAL drivers) have no behaviour apart
    from the hardware.  IPv6, fragmentation, PPP, AutoIP and the debug and
    statistics code are not compiled.  mbedtls, the DSP library, the board
    packages and the lwIP applications are third-party code off this path.
    The C++ framework and application only call the above.  DHCP, DNS
    and the sequential API (api/ apart from tcpip.c) are clients of the
    modelled layers: DHCP appears as [dhcp_arp_reply] of ARP, the others
    only as callbacks.  Of TCP, the code under switches that are off (the
    queue of segments out of order, window scaling, timestamps, the
    backlog, address reuse) is left out; [tcp_write], [tcp_output] and the
    timers are modelled and run in [TcpFindings], the theorems concern
    reception, acknowledgements and the queues. *)

From Stdlib Require Import ZArith Lia Bool.
From stdpp Require Import base numbers list gmap option.

#[global] Open Scope Z_scope.
#[global] Set Default Proof Using "Type".

(** ** Machine integers

    An unsigned [w]-bit value is a [Z] in [0 .. 2^w - 1]; the conversions
    below are the C conversions to the fixed width types. *)

Definition u8 (z : Z) : Z := z mod 256.
Definition u16 (z : Z) : Z := z mod 65536.
Definition u32 (z : Z) : Z := z mod 4294967296.
Definition u64 (z : Z) : Z := z mod 18446744073709551616.

(** Conversion to the two's complement type [int32_t]. *)
Definition s32 (z : Z) : Z := (z + 2147483648) mod 4294967296 - 2147483648.

(** ** Programs over a state that may get stuck

    [prog S A] is a C function over the global state [S]: [None] is an
    invalid memory access (a [NULL] or dangling dereference, an access
    outside the mapped bytes) or a loop that ran out of its fuel. *)

Definition prog (S A : Type) : Type := S → option (A * S).

#[global] Instance prog_ret {S} : MRet (prog S) := λ A a s, Some (a, s).
#[global] Instance prog_bind {S} : MBind (prog S) :=
  λ A B f m s, match m s with Some (a, s') => f a s' | None => None end.

Definition stuck {S A} : prog S A := λ _, None.
Definition get {S} : prog S S := λ s, Some (s, s).
Definition gets {S A} (f : S → A) : prog S A := λ s, Some (f s, s).
Definition modify {S} (f : S → S) : prog S unit := λ s, Some (tt, f s).
Definition lift {S A} (o : option A) : prog S A :=
  λ s, match o with Some a => Some (a, s) | None => None end.
Definition when {S} (b : bool) (m : prog S unit) : prog S unit :=
  if b then m else mret tt.

(** ** Byte-addressed memory

    The bytes of the machine that the modelled code reads and writes, at
    their addresses; an address outside the domain is not accessible. *)

Abbreviation bytes := (list Z).
Abbreviation bmem := (gmap Z Z).

Definition byte_ok (b : Z) : Prop := 0 ≤ b < 256.

Fixpoint load_bytes (m : bmem) (a : Z) (n : nat) : option bytes :=
  match n with
  | O => Some []
  | S n' => match m !! a with
            | None => None
            | Some b => match load_bytes m (a + 1) n' with
                        | None => None
                        | Some bs => Some (b :: bs)
                        end
            end
  end.

Fixpoint store_bytes (m : bmem) (a : Z) (bs : bytes) : option bmem :=
  match bs with
  | [] => Some m
  | b :: bs' => match m !! a with
                | None => None
                | Some _ => store_bytes (<[a := b]> m) (a + 1) bs'
                end
  end.

(** The ranges [a .. a+n) and [b .. b+k) have no address in common. *)
Definition disjoint_rangeb (a n b k : Z) : bool :=
  (n <=? 0) || (k <=? 0) || (a + n <=? b) || (b + k <=? a).
Definition disjoint_range (a n b k : Z) : Prop :=
  n ≤ 0 ∨ k ≤ 0 ∨ a + n ≤ b ∨ b + k ≤ a.

(** [memcpy]: undefined (stuck) when the two areas overlap. *)
Definition memcpy (m : bmem) (dst src n : Z) : option bmem :=
  if disjoint_rangeb dst n src n
  then match load_bytes m src (Z.to_nat n) with
       | None => None
       | Some bs => store_bytes m dst bs
       end
  else None.

(** ** Automation *)

Create HintDb fw.

(** Boolean comparisons of the code turned into propositions. *)
Ltac reflect_bool :=
  repeat match goal with
  | H : _ && _ = true |- _ => apply andb_prop in H; destruct H
  | H : _ || _ = false |- _ => apply orb_false_elim in H; destruct H
  | H : negb _ = true |- _ => apply negb_true_iff in H
  | H : negb _ = false |- _ => apply negb_false_iff in H
  | H : (_ <=? _) = true |- _ => apply Z.leb_le in H
  | H : (_ <=? _) = false |- _ => apply Z.leb_gt in H
  | H : (_ <? _) = true |- _ => apply Z.ltb_lt in H
  | H : (_ <? _) = false |- _ => apply Z.ltb_ge in H
  | H : (_ =? _) = true |- _ => apply Z.eqb_eq in H
  | H : (_ =? _) = false |- _ => apply Z.eqb_neq in H
  | H : (_ >? _) = _ |- _ => rewrite Z.gtb_ltb in H
  | H : (_ >=? _) = _ |- _ => rewrite Z.geb_leb in H
  end.

(** Case analysis on the innermost boolean comparison of the goal. *)
Ltac case_cmp :=
  match goal with
  | |- context [?a <=? ?b] => destruct (Z.leb_spec a b)
  | |- context [?a <? ?b] => destruct (Z.ltb_spec a b)
  | |- context [?a =? ?b] => destruct (Z.eqb_spec a b)
  end.

Ltac unwrap := unfold u8, u16, u32, u64, s32 in *.
Ltac zmod := unwrap; Z.to_euclidean_division_equations; lia.

(** ** Lemmas on machine integers *)

Lemma u8_range z : 0 ≤ u8 z < 256.
Proof. unfold u8. apply Z.mod_pos_bound. lia. Qed.
Lemma u16_range z : 0 ≤ u16 z < 65536.
Proof. unfold u16. apply Z.mod_pos_bound. lia. Qed.
Lemma u32_range z : 0 ≤ u32 z < 4294967296.
Proof. unfold u32. apply Z.mod_pos_bound. lia. Qed.
Lemma u8_small z : 0 ≤ z < 256 → u8 z = z.
Proof. apply Z.mod_small. Qed.
Lemma u16_small z : 0 ≤ z < 65536 → u16 z = z.
Proof. apply Z.mod_small. Qed.
Lemma u32_small z : 0 ≤ z < 4294967296 → u32 z = z.
Proof. apply Z.mod_small. Qed.
#[export] Hint Resolve u8_range u16_range u32_range : fw.

(** Rounding up to a multiple of 4, as the masks of the code do it. *)
Lemma land_align4 z : Z.land (z + 3) (Z.lnot 3) = (z + 3) / 4 * 4.
Proof.
  rewrite <- Z.ldiff_land. change 3 with (Z.ones 2) at 2.
  rewrite Z.ldiff_ones_r, Z.shiftl_mul_pow2, Z.shiftr_div_pow2 by lia. done.
Qed.

Lemma lor_shiftl_add a b n :
  0 ≤ n → 0 ≤ a < 2 ^ n → Z.lor a (Z.shiftl b n) = a + b * 2 ^ n.
Proof.
  intros Hn Ha. rewrite <- Z.shiftl_mul_pow2 by lia.
  symmetry. rewrite Z.add_nocarry_lxor.
  - apply Z.bits_inj'. intros i Hi.
    rewrite Z.lxor_spec, Z.lor_spec.
    destruct (Z.lt_ge_cases i n).
    + rewrite Z.shiftl_spec_low by lia. by rewrite xorb_false_r, orb_false_r.
    + rewrite <- (Z.mod_small a (2 ^ n)) by lia.
      rewrite Z.mod_pow2_bits_high by lia. done.
  - apply Z.bits_inj'. intros i Hi. rewrite Z.land_spec, Z.bits_0.
    destruct (Z.lt_ge_cases i n).
    + rewrite Z.shiftl_spec_low by lia. by rewrite andb_false_r.
    + rewrite <- (Z.mod_small a (2 ^ n)) by lia.
      rewrite Z.mod_pow2_bits_high by lia. done.
Qed.

Lemma land_ones_mod a n : 0 ≤ n → Z.land a (2 ^ n - 1) = a mod 2 ^ n.
Proof.
  intros. rewrite <- Z.land_ones by done. f_equal.
  rewrite Z.ones_equiv. lia.
Qed.

(** ** Lemmas on programs *)

Section prog_lemmas.
Context {S A B : Type}.
Implicit Types (m : prog S A) (f : A → prog S B) (s : S).

Lemma prog_bind_step m f s a s' :
  m s = Some (a, s') → (m ≫= f) s = f a s'.
Proof. intros H. unfold mbind, prog_bind. by rewrite H. Qed.

Lemma prog_bind_Some m f s b s2 :
  (m ≫= f) s = Some (b, s2) ↔
  ∃ a s1, m s = Some (a, s1) ∧ f a s1 = Some (b, s2).
Proof.
  unfold mbind, prog_bind. split.
  - destruct (m s) as [[a s1]|]; [eauto | done].
  - intros (a & s1 & -> & ?). done.
Qed.

Lemma prog_bind_assoc {C} m f (g : B → prog S C) s :
  ((m ≫= f) ≫= g) s = (m ≫= λ a, f a ≫= g) s.
Proof. unfold mbind, prog_bind. by destruct (m s) as [[? ?]|]. Qed.

(** A step that binds several reads and then continues with [g]. *)
Lemma prog_seq_step {C} m f (g : B → prog S C) s b s' :
  (m ≫= f) s = Some (b, s') → (m ≫= λ a, f a ≫= g) s = g b s'.
Proof.
  unfold mbind, prog_bind. destruct (m s) as [[? ?]|]; [|done].
  by intros ->.
Qed.
End prog_lemmas.

Ltac prog_simpl :=
  cbv beta iota zeta delta
    [mbind prog_bind mret prog_ret get gets modify lift when stuck].

(** ** Lemmas on the byte memory *)

Lemma disjoint_rangeb_true a n b k :
  disjoint_rangeb a n b k = true ↔ disjoint_range a n b k.
Proof.
  unfold disjoint_rangeb, disjoint_range.
  rewrite !orb_true_iff, !Z.leb_le. tauto.
Qed.

Lemma disjoint_range_sym a n b k :
  disjoint_range a n b k → disjoint_range b k a n.
Proof. unfold disjoint_range. lia. Qed.

Lemma load_bytes_length m a n bs : load_bytes m a n = Some bs → length bs = n.
Proof.
  revert a bs. induction n as [|n IH]; simpl; intros a bs H.
  - by inversion H.
  - destruct (m !! a); [|done].
    destruct (load_bytes m (a + 1) n) eqn:E; [|done].
    inversion H; subst. simpl. by rewrite (IH _ _ E).
Qed.

Lemma load_bytes_app m a n k :
  load_bytes m a (n + k) =
  match load_bytes m a n, load_bytes m (a + Z.of_nat n) k with
  | Some x, Some y => Some (x ++ y)
  | _, _ => None
  end.
Proof.
  revert a. induction n as [|n IH]; intros a; simpl.
  - rewrite Z.add_0_r. by destruct (load_bytes m a k).
  - destruct (m !! a); [|done]. rewrite IH.
    replace (a + 1 + Z.of_nat n) with (a + Z.of_nat (S n)) by lia.
    change (Z.pos (Pos.of_succ_nat n)) with (Z.of_nat (S n)).
    destruct (load_bytes m (a + 1) n); [|done].
    by destruct (load_bytes m (a + Z.of_nat (S n)) k).
Qed.

Lemma load_bytes_insert_ne m a n c b :
  c < a ∨ a + Z.of_nat n ≤ c →
  load_bytes (<[c := b]> m) a n = load_bytes m a n.
Proof.
  revert a. induction n as [|n IH]; intros a H; simpl; [done|].
  rewrite lookup_insert_ne by lia. rewrite IH by lia. done.
Qed.

Lemma store_bytes_lookup_ne m a bs m' c :
  store_bytes m a bs = Some m' →
  c < a ∨ a + Z.of_nat (length bs) ≤ c → m' !! c = m !! c.
Proof.
  revert m a. induction bs as [|b bs IH]; intros m a H Hc; simpl in *.
  - by inversion H.
  - destruct (m !! a) eqn:E; [|done].
    rewrite (IH _ _ H) by lia. by rewrite lookup_insert_ne by lia.
Qed.

Lemma store_bytes_is_Some m a bs :
  (∀ i, a ≤ i < a + Z.of_nat (length bs) → is_Some (m !! i)) →
  is_Some (store_bytes m a bs).
Proof.
  revert m a. induction bs as [|b bs IH]; intros m a H; simpl; [eauto|].
  destruct (H a) as [x ->]; [simpl; lia|].
  apply IH. intros i Hi. rewrite lookup_insert.
  case_decide; [eauto|]. apply H. simpl. lia.
Qed.

Lemma store_bytes_dom m a bs m' :
  store_bytes m a bs = Some m' → ∀ i, is_Some (m' !! i) ↔ is_Some (m !! i).
Proof.
  revert m a. induction bs as [|b bs IH]; intros m a H i; simpl in *.
  - by inversion H.
  - destruct (m !! a) eqn:E; [|done].
    rewrite (IH _ _ H i), lookup_insert. case_decide; [|done].
    subst. split; eauto.
Qed.

Lemma load_bytes_is_Some m a n :
  is_Some (load_bytes m a n) ↔
  (∀ i, a ≤ i < a + Z.of_nat n → is_Some (m !! i)).
Proof.
  revert a. induction n as [|n IH]; intros a; simpl; split.
  - intros _ i Hi. lia.
  - eauto.
  - destruct (m !! a) eqn:E; [|by intros [? ?]].
    destruct (load_bytes m (a + 1) n) eqn:E2; [|by intros [? ?]].
    intros _ i Hi. destruct (decide (i = a)) as [->|]; [by rewrite E|].
    apply (proj1 (IH (a + 1))); [by rewrite E2 | lia].
  - intros H. destruct (H a) as [x ->]; [lia|].
    destruct (proj2 (IH (a + 1))) as [y ->]; [|eauto].
    intros i Hi. apply H. lia.
Qed.

(** Reading back what was stored, and reading elsewhere. *)
Lemma load_store_same m a bs m' :
  store_bytes m a bs = Some m' → load_bytes m' a (length bs) = Some bs.
Proof.
  revert m a. induction bs as [|b bs IH]; intros m a H; simpl in *; [done|].
  destruct (m !! a) eqn:E; [|done].
  rewrite (store_bytes_lookup_ne _ _ _ _ a H) by lia.
  rewrite lookup_insert_eq. by rewrite (IH _ _ H).
Qed.

Lemma load_bytes_ext m m' a n :
  (∀ i, a ≤ i < a + Z.of_nat n → m' !! i = m !! i) →
  load_bytes m' a n = load_bytes m a n.
Proof.
  revert a. induction n as [|n IH]; intros a H; simpl; [done|].
  rewrite H by lia. rewrite IH; [done|]. intros i Hi. apply H. lia.
Qed.

Lemma load_store_disjoint m a bs m' b n :
  store_bytes m a bs = Some m' →
  disjoint_range a (Z.of_nat (length bs)) b (Z.of_nat n) →
  load_bytes m' b n = load_bytes m b n.
Proof.
  intros H Hd. apply load_bytes_ext. intros i Hi.
  apply (store_bytes_lookup_ne _ _ _ _ _ H). unfold disjoint_range in Hd. lia.
Qed.

Lemma load_bytes_split m a n bs k :
  load_bytes m a n = Some bs → (k ≤ n)%nat →
  load_bytes m a k = Some (take k bs) ∧
  load_bytes m (a + Z.of_nat k) (n - k) = Some (drop k bs).
Proof.
  intros H Hk. replace n with (k + (n - k))%nat in H by lia.
  rewrite load_bytes_app in H.
  destruct (load_bytes m a k) as [x|] eqn:E1; [|done].
  destruct (load_bytes m (a + Z.of_nat k) (n - k)) as [y|] eqn:E2; [|done].
  apply load_bytes_length in E1. inversion H; subst.
  by rewrite take_app_length, drop_app_length.
Qed.

Lemma load_bytes_ok m a n bs :
  map_Forall (λ _, byte_ok) m → load_bytes m a n = Some bs → Forall byte_ok bs.
Proof.
  intros Hm. revert a bs. induction n as [|n IH]; simpl; intros a bs H.
  - inversion H. constructor.
  - destruct (m !! a) eqn:E; [|done].
    destruct (load_bytes m (a + 1) n) eqn:E2; [|done].
    inversion H; subst. constructor; [exact (Hm _ _ E) | exact (IH _ _ E2)].
Qed.

(** [memcpy] between disjoint mapped areas succeeds, leaves the source
    bytes in the destination and touches nothing else. *)
Lemma memcpy_spec m dst src n bs :
  0 ≤ n → disjoint_range dst n src n →
  load_bytes m src (Z.to_nat n) = Some bs →
  (∀ i, dst ≤ i < dst + n → is_Some (m !! i)) →
  ∃ m', memcpy m dst src n = Some m' ∧ store_bytes m dst bs = Some m'.
Proof.
  intros Hn Hd Hl Hm. unfold memcpy.
  rewrite (proj2 (disjoint_rangeb_true _ _ _ _) Hd), Hl.
  pose proof (load_bytes_length _ _ _ _ Hl) as Hlen.
  destruct (store_bytes_is_Some m dst bs) as [m' Hs]; [|eauto].
  intros i Hi. apply Hm. lia.
Qed.

(** ** Filters that keep everything or nothing *)

Lemma filter_all {A} (P : A → Prop) `{!∀ x, Decision (P x)} (l : list A) : Forall P l → filter P l = l.
Proof. induction 1 as [|x l Hx _ IH]; [done|]. by rewrite filter_cons_True, IH. Qed.
Lemma filter_none {A} (P : A → Prop) `{!∀ x, Decision (P x)} (l : list A) : Forall (λ x, ¬ P x) l → filter P l = [].
Proof. induction 1 as [|x l Hx _ IH]; [done|]. by rewrite filter_cons_False. Qed.
