(* ===== verification/Mem.v ===== *)
(** * The lwIP heap (middlewares/lwip/src/core/mem.c)

    The heap is an array [ram] of [MEM_SIZE_ALIGNED] bytes cut into blocks,
    each starting with a [struct mem] that holds the array indices of the
    next and of the previous block.  The model keeps the structs in a finite
    map indexed by their array index, as the code does with
    [(struct mem * )&ram[ptr]]; pointers handed to callers are addresses
    [ram + index].  Configuration of inc/lwipopts.h: [MEM_ALIGNMENT] 4,
    [MEM_SIZE] 32*1024, hence [mem_size_t] is [u16_t]; no statistics, no
    [LWIP_ALLOW_MEM_FREE_FROM_OTHER_CONTEXT]; [LWIP_PLATFORM_ASSERT] is empty
    in arch/cc.h, so assertions have no effect.

    The file then gives the abstract allocator (a list of block sizes with
    their used flags), the relation between the two and the refinement
    lemmas. *)

From stdpp Require Import base numbers list gmap option.
From S2P Require Import Prelude.

(** ** Configuration *)

Definition MEM_ALIGNMENT : Z := 4.
Definition LWIP_MEM_ALIGN_SIZE (size : Z) : Z :=
  Z.land (u32 (size + MEM_ALIGNMENT - 1)) (u32 (Z.lnot (MEM_ALIGNMENT - 1))).
Definition LWIP_MEM_ALIGN (addr : Z) : Z :=
  Z.land (u32 (addr + MEM_ALIGNMENT - 1)) (u32 (Z.lnot (MEM_ALIGNMENT - 1))).
(** [sizeof(struct mem)] is 6: two [u16_t], one [u8_t] and a byte of padding. *)
Definition SIZEOF_STRUCT_MEM : Z := Eval cbv in LWIP_MEM_ALIGN_SIZE 6.
Definition MIN_SIZE : Z := 12.
Definition MIN_SIZE_ALIGNED : Z := Eval cbv in LWIP_MEM_ALIGN_SIZE MIN_SIZE.
Definition MEM_SIZE : Z := 32 * 1024.
Definition MEM_SIZE_ALIGNED : Z := Eval cbv in LWIP_MEM_ALIGN_SIZE MEM_SIZE.

(** ** State *)

Record mem := Mem { m_next : Z; m_prev : Z; m_used : Z }.

Record heap := Heap {
  h_ram : Z;               (* address of the array *)
  h_structs : gmap Z mem;  (* the structs, by array index *)
  h_lfree : Z;             (* index of the lowest free block *)
  h_mutex : bool           (* mem_mutex is taken *)
}.

(** [ram_end], as an index. *)
Definition ram_end : Z := MEM_SIZE_ALIGNED.

Definition upd_struct (p : Z) (f : mem → mem) : prog heap unit :=
  modify (λ s, Heap (h_ram s)
    (<[p := f (default (Mem 0 0 0) (h_structs s !! p))]> (h_structs s))
    (h_lfree s) (h_mutex s)).
Definition read_struct (p : Z) : prog heap mem :=
  λ s, match h_structs s !! p with Some m => Some (m, s) | None => None end.
Definition set_next (p v : Z) : prog heap unit :=
  upd_struct p (λ m, Mem v (m_prev m) (m_used m)).
Definition set_prev (p v : Z) : prog heap unit :=
  upd_struct p (λ m, Mem (m_next m) v (m_used m)).
Definition set_used (p v : Z) : prog heap unit :=
  upd_struct p (λ m, Mem (m_next m) (m_prev m) v).
Definition set_lfree (v : Z) : prog heap unit :=
  modify (λ s, Heap (h_ram s) (h_structs s) v (h_mutex s)).

(** [sys_mutex_lock] blocks for ever when the mutex is already taken by the
    (only) running call. *)
Definition mutex_lock : prog heap unit :=
  λ s, if h_mutex s then None
       else Some (tt, Heap (h_ram s) (h_structs s) (h_lfree s) true).
Definition mutex_unlock : prog heap unit :=
  modify (λ s, Heap (h_ram s) (h_structs s) (h_lfree s) false).

(** ** Operations *)

(** plug hole forward *)
Definition plug_forward (mem : Z) : prog heap unit :=
  m ← read_struct mem;
  let nmem := m_next m in
  nm ← read_struct nmem;
  lfree ← gets h_lfree;
  when (negb (mem =? nmem) && (m_used nm =? 0) && negb (nmem =? ram_end))
    (when (lfree =? nmem) (set_lfree mem) ;;
     set_next mem (m_next nm) ;;
     set_prev (m_next nm) (u16 mem)).

(** plug hole backward *)
Definition plug_backward (mem : Z) : prog heap unit :=
  m ← read_struct mem;
  let pmem := m_prev m in
  pm ← read_struct pmem;
  lfree ← gets h_lfree;
  when (negb (pmem =? mem) && (m_used pm =? 0))
    (when (lfree =? mem) (set_lfree pmem) ;;
     set_next pmem (m_next m) ;;
     set_prev (m_next m) (u16 pmem)).

Definition plug_holes (mem : Z) : prog heap unit :=
  plug_forward mem ;; plug_backward mem.

(** [mem_init], at the address [heap_pointer] of the array [ram_heap]. *)
Definition mem_init (heap_pointer : Z) : heap :=
  Heap (LWIP_MEM_ALIGN heap_pointer)
    (<[ram_end := Mem MEM_SIZE_ALIGNED MEM_SIZE_ALIGNED 1]>
       {[ 0 := Mem MEM_SIZE_ALIGNED 0 0 ]})
    0 false.

Definition mem_free (rmem : Z) : prog heap unit :=
  if rmem =? 0 then mret tt else
  ram ← gets h_ram;
  if (rmem <? ram) || (ram + ram_end <=? rmem) then mret tt else
  mutex_lock ;;
  let mem := rmem - SIZEOF_STRUCT_MEM - ram in
  _ ← read_struct mem;
  set_used mem 0 ;;
  lfree ← gets h_lfree;
  when (mem <? lfree) (set_lfree mem) ;;
  plug_holes mem ;;
  mutex_unlock.

(** The free struct written behind a shrunk block: [mem2] at [ptr2]. *)
Definition mem_trim_link (ptr ptr2 next : Z) : prog heap unit :=
  set_used ptr2 0 ;;
  set_next ptr2 next ;;
  set_prev ptr2 ptr ;;
  set_next ptr ptr2 ;;
  when (negb (next =? MEM_SIZE_ALIGNED)) (set_prev next ptr2).

Definition mem_trim (rmem newsize : Z) : prog heap Z :=
  let newsize := u16 (LWIP_MEM_ALIGN_SIZE newsize) in
  let newsize := if newsize <? MIN_SIZE_ALIGNED then MIN_SIZE_ALIGNED else newsize in
  if MEM_SIZE_ALIGNED <? newsize then mret 0 else
  ram ← gets h_ram;
  if (rmem <? ram) || (ram + ram_end <=? rmem) then mret rmem else
  let ptr := u16 (rmem - SIZEOF_STRUCT_MEM - ram) in
  m ← read_struct ptr;
  let size := u16 (m_next m - ptr - SIZEOF_STRUCT_MEM) in
  if size <? newsize then mret 0 else
  if newsize =? size then mret rmem else
  mutex_lock ;;
  m2 ← read_struct (m_next m);
  (if m_used m2 =? 0 then
     let next := m_next m2 in
     let ptr2 := u16 (ptr + SIZEOF_STRUCT_MEM + newsize) in
     lfree ← gets h_lfree;
     when (lfree =? m_next m) (set_lfree ptr2) ;;
     mem_trim_link ptr ptr2 next
   else if u32 (newsize + SIZEOF_STRUCT_MEM + MIN_SIZE_ALIGNED) <=? size then
     let ptr2 := u16 (ptr + SIZEOF_STRUCT_MEM + newsize) in
     lfree ← gets h_lfree;
     when (ptr2 <? lfree) (set_lfree ptr2) ;;
     mem_trim_link ptr ptr2 (m_next m)
   else mret tt) ;;
  mutex_unlock ;;
  mret rmem.

(** The walk [while (cur->used && cur != ram_end) cur = &ram[cur->next]]. *)
Fixpoint next_free (fuel : nat) (cur : Z) : prog heap Z :=
  match fuel with
  | O => stuck
  | S fuel' =>
      c ← read_struct cur;
      if negb (m_used c =? 0) && negb (cur =? ram_end)
      then next_free fuel' (m_next c)
      else mret cur
  end.

(** The body of the search once the block [ptr] is free and big enough. *)
Definition mem_malloc_take (fuel : nat) (ptr size : Z) : prog heap Z :=
  m ← read_struct ptr;
  (if u32 (size + SIZEOF_STRUCT_MEM + MIN_SIZE_ALIGNED)
        <=? u32 (m_next m - (ptr + SIZEOF_STRUCT_MEM)) then
     let ptr2 := u16 (ptr + SIZEOF_STRUCT_MEM + size) in
     set_used ptr2 0 ;;
     set_next ptr2 (m_next m) ;;
     set_prev ptr2 ptr ;;
     set_next ptr ptr2 ;;
     set_used ptr 1 ;;
     when (negb (m_next m =? MEM_SIZE_ALIGNED)) (set_prev (m_next m) ptr2)
   else set_used ptr 1) ;;
  lfree ← gets h_lfree;
  when (ptr =? lfree) (cur ← next_free fuel lfree; set_lfree cur) ;;
  mutex_unlock ;;
  ram ← gets h_ram;
  mret (ram + ptr + SIZEOF_STRUCT_MEM).

Fixpoint mem_malloc_scan (fuel : nat) (size ptr : Z) : prog heap Z :=
  match fuel with
  | O => stuck
  | S fuel' =>
      if ptr <? u32 (MEM_SIZE_ALIGNED - size) then
        m ← read_struct ptr;
        if (m_used m =? 0) && (size <=? u32 (m_next m - (ptr + SIZEOF_STRUCT_MEM)))
        then mem_malloc_take fuel ptr size
        else mem_malloc_scan fuel' size (m_next m)
      else mutex_unlock ;; mret 0
  end.

(** Every walk visits each struct at most once. *)
Definition walk_fuel (s : heap) : nat := S (S (size (h_structs s))).

Definition mem_malloc (size : Z) : prog heap Z :=
  if size =? 0 then mret 0 else
  let size := u16 (LWIP_MEM_ALIGN_SIZE size) in
  let size := if size <? MIN_SIZE_ALIGNED then MIN_SIZE_ALIGNED else size in
  if MEM_SIZE_ALIGNED <? size then mret 0 else
  mutex_lock ;;
  fuel ← gets walk_fuel;
  lfree ← gets h_lfree;
  mem_malloc_scan fuel size lfree.

(** [memset(p, 0, n)] on the bytes of the machine. *)
Definition memset0 (m : bmem) (p n : Z) : option bmem :=
  store_bytes m p (replicate (Z.to_nat n) 0).

Definition mem_calloc (count size : Z) : prog (heap * bmem) Z :=
  λ '(s, m),
    match mem_malloc (u16 (count * size)) s with
    | None => None
    | Some (p, s') =>
        if p =? 0 then Some (p, (s', m))
        else match memset0 m p (u32 (count * size)) with
             | None => None
             | Some m' => Some (p, (s', m'))
             end
    end.

(** ** The abstract allocator

    A heap is the list of its blocks in address order; a block is its size,
    header included, and whether it is used. *)

Abbreviation blk := (Z * bool)%type.

Fixpoint tot (bs : list blk) : Z :=
  match bs with [] => 0 | (sz, _) :: bs' => sz + tot bs' end.

(** First fit.  The result is the offset of the block taken. *)
Fixpoint spec_alloc (sz_req off : Z) (bs : list blk) : option (Z * list blk) :=
  match bs with
  | [] => None
  | (sz, u) :: bs' =>
      if negb u && (sz_req <=? sz - SIZEOF_STRUCT_MEM) then
        Some (off,
          if sz_req + SIZEOF_STRUCT_MEM + MIN_SIZE_ALIGNED <=? sz - SIZEOF_STRUCT_MEM
          then (SIZEOF_STRUCT_MEM + sz_req, true)
               :: (sz - (SIZEOF_STRUCT_MEM + sz_req), false) :: bs'
          else (sz, true) :: bs')
      else match spec_alloc sz_req (off + sz) bs' with
           | Some (p, r) => Some (p, (sz, u) :: r)
           | None => None
           end
  end.

(** Put a free block in front of a list, merging it with a free successor. *)
Definition cons_free (sz : Z) (bs : list blk) : list blk :=
  match bs with
  | (sz', false) :: r => (sz + sz', false) :: r
  | _ => (sz, false) :: bs
  end.
Definition cons_blk (b : blk) (bs : list blk) : list blk :=
  if b.2 then b :: bs else cons_free b.1 bs.

(** Free the block at offset [p]. *)
Fixpoint spec_free (p off : Z) (bs : list blk) : list blk :=
  match bs with
  | [] => []
  | (sz, u) :: bs' =>
      if p =? off then cons_free sz bs'
      else cons_blk (sz, u) (spec_free p (off + sz) bs')
  end.

(** Shrink the block at offset [p] to [n] bytes of data. *)
Fixpoint spec_trim (p n off : Z) (bs : list blk) : list blk :=
  match bs with
  | [] => []
  | (sz, u) :: bs' =>
      if p =? off then
        match bs' with
        | (sz', false) :: r =>
            (SIZEOF_STRUCT_MEM + n, u)
              :: (sz' + (sz - (SIZEOF_STRUCT_MEM + n)), false) :: r
        | _ =>
            if n + SIZEOF_STRUCT_MEM + MIN_SIZE_ALIGNED <=? sz - SIZEOF_STRUCT_MEM
            then (SIZEOF_STRUCT_MEM + n, u)
                   :: (sz - (SIZEOF_STRUCT_MEM + n), false) :: bs'
            else bs
        end
      else (sz, u) :: spec_trim p n (off + sz) bs'
  end.

(** The offset of the first free block, the end of the heap if there is none. *)
Fixpoint first_free (off : Z) (bs : list blk) : Z :=
  match bs with
  | [] => off
  | (sz, u) :: bs' => if u then first_free (off + sz) bs' else off
  end.

(** No two free blocks in a row. *)
Fixpoint no_adj (bs : list blk) : bool :=
  match bs with
  | [] => true
  | (_, u) :: bs' =>
      match bs' with
      | (_, v) :: _ => (u || v) && no_adj bs'
      | [] => true
      end
  end.

Definition blk_ok (b : blk) : Prop :=
  SIZEOF_STRUCT_MEM + MIN_SIZE_ALIGNED ≤ b.1 ∧ b.1 mod MEM_ALIGNMENT = 0.

(** ** The representation relation *)

Definition b2z (b : bool) : Z := if b then 1 else 0.

(** The structs from offset [off] on, whose predecessor is at [prv],
    describe the blocks [bs]. *)
Fixpoint seg (h : gmap Z mem) (off prv : Z) (bs : list blk) : Prop :=
  match bs with
  | [] => True
  | (sz, u) :: bs' =>
      h !! off = Some (Mem (off + sz) prv (b2z u)) ∧ blk_ok (sz, u) ∧
      seg h (off + sz) off bs'
  end.

(** The same up to the end of the heap, where [ram_end] sits. *)
Fixpoint tail (h : gmap Z mem) (off prv : Z) (bs : list blk) : Prop :=
  match bs with
  | [] => off = ram_end ∧ ∃ p, h !! off = Some (Mem off p 1)
  | (sz, u) :: bs' =>
      h !! off = Some (Mem (off + sz) prv (b2z u)) ∧ blk_ok (sz, u) ∧
      tail h (off + sz) off bs'
  end.

Fixpoint lastp (off prv : Z) (bs : list blk) : Z :=
  match bs with [] => prv | (sz, _) :: bs' => lastp (off + sz) off bs' end.

(** [locked] tells whether the mutex is taken. *)
Record heap_inv (locked : bool) (s : heap) (bs : list blk) : Prop := {
  hr_tail : tail (h_structs s) 0 0 bs;
  hr_lfree : h_lfree s = first_free 0 bs;
  hr_adj : no_adj bs = true;
  hr_mutex : h_mutex s = locked;
  hr_ram : 0 < h_ram s ∧ h_ram s mod MEM_ALIGNMENT = 0
}.

(** Between two calls. *)
Abbreviation heap_repr := (heap_inv false).

(** ** Lemmas on block lists *)

Ltac mem_consts :=
  unfold ram_end, MEM_SIZE_ALIGNED, MIN_SIZE_ALIGNED, SIZEOF_STRUCT_MEM,
    MEM_ALIGNMENT in *.

Lemma tot_app l r : tot (l ++ r) = tot l + tot r.
Proof. induction l as [|[sz u] l IH]; simpl; lia. Qed.

Lemma lastp_app off prv l r :
  lastp off prv (l ++ r) = lastp (off + tot l) (lastp off prv l) r.
Proof.
  revert off prv. induction l as [|[sz u] l IH]; intros off prv; simpl.
  - by rewrite Z.add_0_r.
  - rewrite IH. by rewrite Z.add_assoc.
Qed.

Lemma first_free_app off l r :
  first_free off (l ++ r) =
  if forallb snd l then first_free (off + tot l) r else first_free off l.
Proof.
  revert off. induction l as [|[sz []] l IH]; intros off; simpl.
  - by rewrite Z.add_0_r.
  - rewrite IH, Z.add_assoc. by destruct (forallb snd l).
  - done.
Qed.

Lemma first_free_bounds off l :
  Forall (λ b : blk, 0 < b.1) l → off ≤ first_free off l ≤ off + tot l ∧
  (forallb snd l = false → first_free off l < off + tot l).
Proof.
  intros H. revert off. induction H as [|[sz u] l Hb H IH]; intros off; simpl in *.
  - split; [lia | done].
  - destruct u; simpl.
    + destruct (IH (off + sz)) as [? Hi]. split; [lia|]. intros E. specialize (Hi E). lia.
    + assert (0 ≤ tot l). { clear -H. induction H as [|[? ?] ? ? ? ?]; simpl in *; lia. }
      split; [lia|]. intros _. lia.
Qed.

Lemma no_adj_cons b r :
  no_adj (b :: r) = true ↔
  no_adj r = true ∧ (b.2 = true ∨ match r with (_, v) :: _ => v = true | [] => True end).
Proof.
  destruct b as [sz u], r as [|[sz' v] r]; simpl; [tauto|].
  rewrite andb_true_iff, orb_true_iff. tauto.
Qed.

Lemma no_adj_app l r :
  no_adj (l ++ r) = true ↔
  no_adj l = true ∧ no_adj r = true ∧
  match list.last l, r with
  | Some (_, u), (_, v) :: _ => u = true ∨ v = true
  | _, _ => True
  end.
Proof.
  induction l as [|[sz u] l IH]; cbn [app].
  - simpl. tauto.
  - rewrite !no_adj_cons, IH. destruct l as [|[sz' u'] l']; simpl.
    + destruct r as [|[? ?] ?]; tauto.
    + tauto.
Qed.

(** ** Lemmas on the representation *)

Lemma seg_tot h off prv l : seg h off prv l → 0 ≤ tot l.
Proof.
  revert off prv. induction l as [|[sz u] l IH]; simpl; intros off prv; [lia|].
  intros (_ & [Hs _] & H). apply IH in H. mem_consts. simpl in Hs. lia.
Qed.

Lemma tail_tot h off prv l : tail h off prv l → off + tot l = ram_end ∧ 0 ≤ tot l.
Proof.
  revert off prv. induction l as [|[sz u] l IH]; simpl; intros off prv; [lia|].
  intros (_ & [Hs _] & H). apply IH in H. mem_consts. simpl in Hs. lia.
Qed.

Lemma tail_app h off prv l r :
  tail h off prv (l ++ r) ↔
  seg h off prv l ∧ tail h (off + tot l) (lastp off prv l) r.
Proof.
  revert off prv. induction l as [|[sz u] l IH]; intros off prv; simpl.
  - rewrite Z.add_0_r. tauto.
  - rewrite IH, Z.add_assoc. tauto.
Qed.

Lemma seg_app h off prv l r :
  seg h off prv (l ++ r) ↔
  seg h off prv l ∧ seg h (off + tot l) (lastp off prv l) r.
Proof.
  revert off prv. induction l as [|[sz u] l IH]; intros off prv; simpl.
  - rewrite Z.add_0_r. tauto.
  - rewrite IH, Z.add_assoc. tauto.
Qed.

Lemma seg_ok h off prv l : seg h off prv l → Forall blk_ok l.
Proof.
  revert off prv. induction l as [|[sz u] l IH]; simpl; intros off prv; [done|].
  intros (_ & Hs & H). constructor; eauto.
Qed.

Lemma tail_ok h off prv l : tail h off prv l → Forall blk_ok l.
Proof.
  revert off prv. induction l as [|[sz u] l IH]; simpl; intros off prv; [done|].
  intros (_ & Hs & H). constructor; eauto.
Qed.

Lemma seg_frame h h' off prv l :
  seg h off prv l →
  (∀ k, off ≤ k < off + tot l → h' !! k = h !! k) → seg h' off prv l.
Proof.
  revert off prv. induction l as [|[sz u] l IH]; simpl; intros off prv; [done|].
  intros (E & Hs & H) Hk. pose proof (seg_tot _ _ _ _ H).
  assert (20 ≤ sz) by (destruct Hs; mem_consts; simpl in *; lia).
  split_and!; [rewrite Hk by lia; done | done |].
  apply IH; [done|]. intros k Hr. apply Hk. lia.
Qed.

Lemma tail_frame h h' off prv l :
  tail h off prv l →
  (∀ k, off ≤ k ≤ ram_end → h' !! k = h !! k) → tail h' off prv l.
Proof.
  revert off prv. induction l as [|[sz u] l IH]; simpl; intros off prv.
  - intros [-> [p E]] Hk. split; [done|]. exists p. rewrite Hk by lia. done.
  - intros (E & Hs & H) Hk. pose proof (tail_tot _ _ _ _ H).
    assert (20 ≤ sz) by (destruct Hs; mem_consts; simpl in *; lia).
    split_and!; [rewrite Hk by lia; done | done |].
    apply IH; [done|]. intros k Hr. apply Hk. lia.
Qed.

(** Every offset where a tail starts carries a struct. *)
Lemma tail_head h off prv l :
  tail h off prv l → ∃ m, h !! off = Some m ∧ off ≤ ram_end ∧
  m_used m = match l with [] => 1 | (_, u) :: _ => b2z u end ∧
  m_next m = match l with [] => off | (sz, _) :: _ => off + sz end.
Proof.
  intros H. pose proof (tail_tot _ _ _ _ H).
  destruct l as [|[sz u] l]; simpl in *.
  - destruct H as [-> [p E]]. eexists. split; [exact E|]. simpl. lia.
  - destruct H as (E & _). eexists. split; [exact E|]. simpl. lia.
Qed.

(** Changing only the [prev] field of the first struct of a tail. *)
Lemma tail_set_prev h h' off prv prv' l :
  tail h off prv l →
  h' !! off = (λ m, Mem (m_next m) prv' (m_used m)) <$> h !! off →
  (∀ k, off < k ≤ ram_end → h' !! k = h !! k) → tail h' off prv' l.
Proof.
  destruct l as [|[sz u] l]; simpl.
  - intros [-> [p E]] Ho Hk. split; [done|]. rewrite Ho, E. simpl. eauto.
  - intros (E & Hs & H) Ho Hk. rewrite E in Ho. split_and!; [exact Ho | done |].
    apply (tail_frame h); [done|]. intros k Hr. apply Hk.
    destruct Hs. mem_consts. simpl in *. lia.
Qed.
