(* ===== verification/MemRefine.v ===== *)
(** * The heap of mem.c implements the abstract allocator

    Each operation of [Mem] run on a heap that represents a block list gives
    a heap that represents the block list of the abstract operation, and
    releases [mem_mutex]. *)

From stdpp Require Import base numbers list gmap option.
From S2P Require Import Prelude Mem.

(** ** Sizes *)

Lemma align_size_val n :
  0 ≤ n < 4294967293 → LWIP_MEM_ALIGN_SIZE n = (n + 3) / 4 * 4.
Proof.
  intros Hn. unfold LWIP_MEM_ALIGN_SIZE. mem_consts.
  replace (n + 4 - 1) with (n + 3) by lia. rewrite u32_small by lia.
  rewrite <- land_align4.
  change (u32 (Z.lnot (4 - 1))) with (Z.land (Z.lnot 3) (Z.ones 32)).
  rewrite Z.land_assoc, Z.land_ones by lia.
  rewrite Z.mod_small; [done|].
  rewrite land_align4. Z.to_euclidean_division_equations. lia.
Qed.

(** The number of data bytes reserved for a request of [n] bytes. *)
Definition req_size (n : Z) : Z := Z.max MIN_SIZE_ALIGNED ((n + 3) / 4 * 4).

Lemma req_size_code n :
  0 ≤ n ≤ 65532 →
  (let a := u16 (LWIP_MEM_ALIGN_SIZE n) in
   if a <? MIN_SIZE_ALIGNED then MIN_SIZE_ALIGNED else a) = req_size n.
Proof.
  intros Hn. unfold req_size. rewrite align_size_val by lia. cbv zeta.
  rewrite u16_small by (Z.to_euclidean_division_equations; lia).
  mem_consts. case_cmp; lia.
Qed.

Lemma req_size_ok n :
  0 ≤ n ≤ 65532 →
  MIN_SIZE_ALIGNED ≤ req_size n ∧ n ≤ req_size n ∧ req_size n ≤ 65532 ∧
  req_size n mod MEM_ALIGNMENT = 0.
Proof.
  intros Hn. unfold req_size. mem_consts.
  Z.to_euclidean_division_equations. lia.
Qed.

Lemma blk_ok_pos l : Forall blk_ok l → Forall (λ b : blk, 0 < b.1) l.
Proof. intros H. induction H as [|b l [Hb _]]; constructor; [mem_consts; lia | done]. Qed.

(** ** Lengths and fuel *)

Fixpoint offs (off : Z) (bs : list blk) : list Z :=
  match bs with [] => [off] | (sz, _) :: bs' => off :: offs (off + sz) bs' end.

Lemma offs_length off bs : length (offs off bs) = S (length bs).
Proof. revert off. induction bs as [|[? ?] bs IH]; simpl; intros; [done|]. by rewrite IH. Qed.

Lemma offs_ge off bs k : Forall blk_ok bs → k ∈ offs off bs → off ≤ k.
Proof.
  intros H. revert off. induction H as [|[sz u] bs [Hs _] H IH]; simpl; intros off.
  - rewrite list_elem_of_singleton. lia.
  - mem_consts. simpl in Hs. intros [->|Hk]%elem_of_cons; [lia|].
    apply IH in Hk. lia.
Qed.

Lemma offs_NoDup off bs : Forall blk_ok bs → NoDup (offs off bs).
Proof.
  intros H. revert off. induction H as [|[sz u] bs [Hs Hm] H IH]; simpl; intros off.
  - apply NoDup_singleton.
  - constructor; [|done]. intros Hk. apply offs_ge in Hk; [|done].
    mem_consts. simpl in Hs. lia.
Qed.

Lemma tail_offs h off prv bs k :
  tail h off prv bs → k ∈ offs off bs → k ∈ dom h.
Proof.
  revert off prv. induction bs as [|[sz u] bs IH]; simpl; intros off prv.
  - intros [-> [p E]]. rewrite list_elem_of_singleton. intros ->.
    apply elem_of_dom. eauto.
  - intros (E & _ & H) [->|Hk]%elem_of_cons; [apply elem_of_dom; eauto | eauto].
Qed.

(** The chain has no more structs than the map holds. *)
Lemma tail_length h off prv bs :
  tail h off prv bs → (S (length bs) ≤ size h)%nat.
Proof.
  intros H. rewrite <- (offs_length off bs), <- (size_dom h).
  rewrite <- (size_list_to_set (C := gset Z) (offs off bs))
    by (apply offs_NoDup, (tail_ok _ _ _ _ H)).
  apply subseteq_size. intros k Hk. apply elem_of_list_to_set in Hk.
  eapply tail_offs; eauto.
Qed.

Lemma next_free_spec s off prv r fuel :
  tail (h_structs s) off prv r → (length r < fuel)%nat →
  next_free fuel off s = Some (first_free off r, s).
Proof.
  revert off prv fuel. induction r as [|[sz u] r IH];
    intros off prv [|fuel] H Hf; simpl in *; try lia.
  - destruct H as [-> [p E]]. prog_simpl. unfold read_struct. rewrite E. simpl.
    by rewrite ?Z.eqb_refl.
  - destruct H as (E & Hs & H). prog_simpl. unfold read_struct. rewrite E. simpl.
    destruct u; simpl.
    + pose proof (tail_tot _ _ _ _ H) as [Ht ?].
      destruct Hs as [Hs _]. mem_consts. simpl in Hs.
      rewrite (proj2 (Z.eqb_neq _ _)) by lia. simpl.
      apply (IH _ off); [done | lia].
    + done.
Qed.

(** ** mem_init *)

Lemma mem_init_repr a :
  0 < a < 4294967293 → heap_repr (mem_init a) [(MEM_SIZE_ALIGNED, false)].
Proof.
  intros Ha. split; try done.
  - repeat split; try done. by exists 32768.
  - simpl. change (LWIP_MEM_ALIGN a) with (LWIP_MEM_ALIGN_SIZE a).
    rewrite align_size_val by lia. mem_consts. Z.to_euclidean_division_equations. lia.
Qed.

(** ** mem_malloc *)

Lemma tail_split h off prv l sz u r :
  tail h off prv (l ++ (sz, u) :: r) ↔
  seg h off prv l ∧
  h !! (off + tot l) = Some (Mem (off + tot l + sz) (lastp off prv l) (b2z u)) ∧
  blk_ok (sz, u) ∧ tail h (off + tot l + sz) (off + tot l) r.
Proof. rewrite tail_app. simpl. tauto. Qed.

Lemma spec_alloc_used sz off l r :
  forallb snd l = true →
  spec_alloc sz off (l ++ r) =
  match spec_alloc sz (off + tot l) r with
  | Some (p, r') => Some (p, l ++ r')
  | None => None
  end.
Proof.
  revert off. induction l as [|[z []] l IH]; intros off H; simpl in *; [|auto|done].
  - rewrite Z.add_0_r. by destruct (spec_alloc sz off r) as [[? ?]|].
  - rewrite (IH _ H), Z.add_assoc.
    by destruct (spec_alloc sz (off + z + tot l) r) as [[? ?]|].
Qed.

Lemma first_free_used l off : Forall blk_ok l →
  first_free off l = off + tot l → forallb snd l = true.
Proof.
  intros H. revert off. induction H as [|[sz u] l [Hs _] H IH]; intros off E; simpl in *; [done|].
  assert (0 ≤ tot l).
  { clear -H. induction H as [|[? ?] ? [? _] ? ?]; simpl in *; mem_consts; lia. }
  mem_consts. destruct u; [|lia]. simpl. apply (IH (off + sz)). lia.
Qed.

(** Splitting a block list at its first free block. *)
Lemma first_free_split off bs :
  ∃ l r, bs = l ++ r ∧ forallb snd l = true ∧ first_free off bs = off + tot l ∧
         match r with [] => True | (_, u) :: _ => u = false end.
Proof.
  revert off. induction bs as [|[sz u] bs IH]; intros off.
  - exists [], []. simpl. split_and!; [done|done|lia|done].
  - destruct u.
    + destruct (IH (off + sz)) as (l & r & -> & Hl & E & Hr).
      exists ((sz, true) :: l), r. simpl. split_and!; [done|done|lia|done].
    + exists [], ((sz, false) :: bs). simpl. split_and!; [done|done|lia|done].
Qed.

(** Taking the free block that follows the blocks [l]. *)
Definition taken (n sz : Z) (r : list blk) : list blk :=
  if n + SIZEOF_STRUCT_MEM + MIN_SIZE_ALIGNED <=? sz - SIZEOF_STRUCT_MEM
  then (SIZEOF_STRUCT_MEM + n, true) :: (sz - (SIZEOF_STRUCT_MEM + n), false) :: r
  else (sz, true) :: r.

Lemma taken_no_adj l n sz r :
  no_adj (l ++ (sz, false) :: r) = true → no_adj (l ++ taken n sz r) = true.
Proof.
  rewrite !no_adj_app. intros (Hl & Hr & Hb). apply no_adj_cons in Hr as [Hr Hv].
  simpl in Hv. unfold taken. split_and!; [done | |].
  - destruct (_ <=? _); rewrite !no_adj_cons; simpl; destruct Hv; try done; tauto.
  - destruct (_ <=? _); destruct (list.last l) as [[? ?]|]; tauto.
Qed.

(** Lookups in a map built by successive writes. *)
Ltac lk :=
  repeat (match goal with
  | |- context [<[?i := ?x]> ?m !! ?j] =>
      first [ rewrite (lookup_insert_ne m i j x) by lia
            | replace j with i by lia; rewrite (lookup_insert_eq m i x) ]
  end; cbn [default m_next m_prev m_used]).

Ltac run :=
  prog_simpl; unfold set_used, set_next, set_prev, set_lfree, upd_struct, modify;
  cbn [h_structs h_ram h_lfree h_mutex].

(** The [prev] field of [ram_end] does not matter. *)
Definition no_prev (m : mem) : Z * Z := (m_next m, m_used m).

Lemma tail_end h h' prv prv' r :
  tail h ram_end prv r → no_prev <$> h' !! ram_end = no_prev <$> h !! ram_end →
  tail h' ram_end prv' r.
Proof.
  destruct r as [|[sz u] r].
  - intros [_ [p E]] Hn. split; [done|]. rewrite E in Hn.
    destruct (h' !! ram_end) as [[nx pv us]|]; [|done].
    injection Hn as -> ->. eauto.
  - intros H. pose proof (tail_tot _ _ _ _ H) as [Ht ?]. destruct H as (_ & [Hs _] & H).
    pose proof (tail_tot _ _ _ _ H). mem_consts. simpl in *. lia.
Qed.

(** The structs written when the block after [l] is split in two: the new
    block list, for any way of writing them that has this effect. *)
Lemma split_tail h h' l sz u r n v :
  tail h 0 0 (l ++ (sz, u) :: r) →
  MIN_SIZE_ALIGNED ≤ n → n mod MEM_ALIGNMENT = 0 →
  n + SIZEOF_STRUCT_MEM + MIN_SIZE_ALIGNED ≤ sz - SIZEOF_STRUCT_MEM →
  let p := tot l in let p2 := p + SIZEOF_STRUCT_MEM + n in
  h' !! p = Some (Mem p2 (lastp 0 0 l) (b2z v)) →
  h' !! p2 = Some (Mem (p + sz) p 0) →
  (if p + sz =? ram_end then no_prev <$> h' !! (p + sz) = no_prev <$> h !! (p + sz)
   else h' !! (p + sz) = (λ m, Mem (m_next m) p2 (m_used m)) <$> h !! (p + sz)) →
  (∀ k, k < p ∨ p + sz < k → h' !! k = h !! k) →
  tail h' 0 0 (l ++ (SIZEOF_STRUCT_MEM + n, v)
                 :: (sz - (SIZEOF_STRUCT_MEM + n), false) :: r).
Proof.
  intros H Hn Hn4 Hfit p p2 E1 E2 E3 Hk.
  apply tail_split in H as (Hl & E & [Hsz Hsz4] & Hr). rewrite Z.add_0_l in *.
  pose proof (seg_tot _ _ _ _ Hl). cbn [fst] in *.
  apply tail_split. rewrite Z.add_0_l. subst p p2. mem_consts.
  replace (tot l + 8 + n) with (tot l + (8 + n)) in * by lia.
  assert (blk_ok (8 + n, v)) by (split; mem_consts; simpl; Z.to_euclidean_division_equations; lia).
  assert (blk_ok (sz - (8 + n), false)) by (split; mem_consts; simpl; Z.to_euclidean_division_equations; lia).
  split_and!; [| done | done |].
  { apply (seg_frame h); [done|]. intros k ?. apply Hk. lia. }
  simpl. replace (tot l + (8 + n) + (sz - (8 + n))) with (tot l + sz) by lia.
  split_and!; [done | done |].
  destruct (Z.eqb_spec (tot l + sz) 32768) as [Hend|Hend].
  - rewrite Hend in *. by apply (tail_end h _ (tot l)).
  - apply (tail_set_prev h _ _ (tot l)); [done | done |].
    intros k ?. apply Hk. lia.
Qed.

(** Changing only the used flag of the block after [l]. *)
Lemma flag_tail h h' l sz u r v :
  tail h 0 0 (l ++ (sz, u) :: r) →
  h' !! tot l = Some (Mem (tot l + sz) (lastp 0 0 l) (b2z v)) →
  (∀ k, k ≠ tot l → h' !! k = h !! k) →
  tail h' 0 0 (l ++ (sz, v) :: r).
Proof.
  intros H E1 Hk. apply tail_split in H as (Hl & E & Hs & Hr).
  pose proof Hs as [Hs1 _]. rewrite Z.add_0_l in *. mem_consts. simpl in Hs1.
  apply tail_split. rewrite Z.add_0_l. split_and!; [| done | done |].
  - apply (seg_frame h); [done|]. intros k ?. apply Hk. lia.
  - apply (tail_frame h); [done|]. intros k ?. apply Hk. lia.
Qed.

(** What [mem_malloc_take] does to the structs. *)
Lemma take_structs s l sz r n :
  tail (h_structs s) 0 0 (l ++ (sz, false) :: r) →
  MIN_SIZE_ALIGNED ≤ n → n mod MEM_ALIGNMENT = 0 → n ≤ sz - SIZEOF_STRUCT_MEM →
  ∃ h', tail h' 0 0 (l ++ taken n sz r) ∧
    (m ← read_struct (tot l);
     if u32 (n + SIZEOF_STRUCT_MEM + MIN_SIZE_ALIGNED)
        <=? u32 (m_next m - (tot l + SIZEOF_STRUCT_MEM)) then
       let ptr2 := u16 (tot l + SIZEOF_STRUCT_MEM + n) in
       set_used ptr2 0 ;;
       set_next ptr2 (m_next m) ;;
       set_prev ptr2 (tot l) ;;
       set_next (tot l) ptr2 ;;
       set_used (tot l) 1 ;;
       when (negb (m_next m =? MEM_SIZE_ALIGNED)) (set_prev (m_next m) ptr2)
     else set_used (tot l) 1) s
    = Some (tt, Heap (h_ram s) h' (h_lfree s) (h_mutex s)).
Proof.
  intros H Hn Hn4 Hfit.
  pose proof (tail_tot _ _ _ _ H) as [Ht _]. rewrite tot_app in Ht. simpl in Ht.
  pose proof (proj1 (tail_split _ _ _ _ _ _ _) H) as (Hl & E & [Hsz Hsz4] & Hr).
  pose proof (seg_tot _ _ _ _ Hl) as Hl0. rewrite Z.add_0_l in *.
  pose proof (tail_tot _ _ _ _ Hr) as [_ Hr0]. cbn [fst] in *.
  destruct (tail_head _ _ _ _ Hr) as (mn & En & _).
  unfold taken. erewrite prog_bind_step by (unfold read_struct; rewrite E; reflexivity).
  cbn [m_next m_prev m_used]. rewrite u32_small by (mem_consts; lia).
  rewrite u32_small by (mem_consts; lia).
  replace (tot l + sz - (tot l + SIZEOF_STRUCT_MEM)) with (sz - SIZEOF_STRUCT_MEM) by lia.
  case_cmp.
  - rewrite u16_small by (mem_consts; lia).
    destruct (Z.eqb_spec (tot l + sz) MEM_SIZE_ALIGNED) as [Ee|Ee]; cbn [negb];
      (eexists; split; [|run; reflexivity]);
      (apply (split_tail (h_structs s) _ l sz false r n true);
       [done | done | done | done | | | | ]); mem_consts;
      [lk; rewrite E; done | lk; done | | intros; lk; done
      |lk; rewrite E; done | lk; done | | intros; lk; done].
    + rewrite (proj2 (Z.eqb_eq _ _)) by lia. lk. done.
    + rewrite (proj2 (Z.eqb_neq _ _)) by lia. lk. rewrite En. done.
  - eexists. split; [|run; reflexivity].
    apply (flag_tail (h_structs s) _ l sz false r true); [done | |].
    + lk. rewrite E. done.
    + intros k ?. lk. done.
Qed.

Lemma mem_malloc_take_spec s l sz r n fuel :
  heap_inv true s (l ++ (sz, false) :: r) →
  MIN_SIZE_ALIGNED ≤ n → n mod MEM_ALIGNMENT = 0 → n ≤ sz - SIZEOF_STRUCT_MEM →
  (length r + 2 < fuel)%nat →
  ∃ s', mem_malloc_take fuel (tot l) n s
        = Some (h_ram s + tot l + SIZEOF_STRUCT_MEM, s') ∧
        heap_inv false s' (l ++ taken n sz r) ∧ h_ram s' = h_ram s.
Proof.
  intros [H Hlf Hadj Hmx Hram] Hn Hn4 Hfit Hfuel.
  destruct (take_structs s l sz r n H Hn Hn4 Hfit) as (h' & Ht' & Estep).
  pose proof (tail_ok _ _ _ _ H) as Hok. apply Forall_app in Hok as [Hokl _].
  assert (Hlf' : h_lfree s = if forallb snd l then tot l else first_free 0 l).
  { rewrite Hlf, first_free_app. simpl. by rewrite Z.add_0_l. }
  pose proof (proj2 (first_free_bounds 0 l (blk_ok_pos _ Hokl))) as Hbd.
  assert (Hff : first_free 0 (l ++ taken n sz r) =
    if forallb snd l then first_free (tot l) (taken n sz r) else first_free 0 l).
  { by rewrite first_free_app, Z.add_0_l. }
  unfold mem_malloc_take.
  erewrite prog_seq_step by exact Estep.
  pose proof (taken_no_adj l n sz r Hadj) as Hadj'.
  prog_simpl. cbn [h_lfree]. destruct (forallb snd l) eqn:Eu.
  - rewrite Hlf', Z.eqb_refl.
    rewrite (next_free_spec _ (tot l) (lastp 0 0 l) (taken n sz r)).
    + run. eexists. split; [reflexivity|]. split; [|done]. by split.
    + apply tail_app in Ht' as [_ Ht']. exact Ht'.
    + unfold taken. destruct (_ <=? _); simpl; lia.
  - specialize (Hbd eq_refl). rewrite (proj2 (Z.eqb_neq _ _)) by lia.
    run. eexists. split; [reflexivity|]. split; [|done].
    split; simpl; try done. congruence.
Qed.

Lemma spec_alloc_none n off r :
  Forall blk_ok r → tot r < n + SIZEOF_STRUCT_MEM → spec_alloc n off r = None.
Proof.
  intros H. revert off. induction H as [|[sz u] r [Hs _] H IH]; intros off Ht; [done|].
  assert (0 ≤ tot r).
  { clear -H. induction H as [|[? ?] ? [? _] ? ?]; simpl in *; mem_consts; lia. }
  simpl in *. mem_consts. rewrite (proj2 (Z.leb_gt _ _)) by lia.
  rewrite andb_false_r, IH by lia. done.
Qed.

(** The search from the block after [l], with enough fuel. *)
Lemma mem_malloc_scan_spec s n r l fuel :
  heap_inv true s (l ++ r) →
  MIN_SIZE_ALIGNED ≤ n ≤ MEM_SIZE_ALIGNED → n mod MEM_ALIGNMENT = 0 →
  (length r + 2 ≤ fuel)%nat →
  ∃ s', h_ram s' = h_ram s ∧
    match spec_alloc n (tot l) r with
    | Some (p, r') =>
        mem_malloc_scan fuel n (tot l) s
          = Some (h_ram s + p + SIZEOF_STRUCT_MEM, s') ∧
        heap_inv false s' (l ++ r')
    | None => mem_malloc_scan fuel n (tot l) s = Some (0, s') ∧
        heap_inv false s' (l ++ r)
    end.
Proof.
  revert l fuel. induction r as [|[sz u] r IH]; intros l fuel Hi Hn Hn4 Hf.
  all: destruct fuel as [|fuel]; [simpl in Hf; lia|].
  all: pose proof (tail_tot _ _ _ _ (hr_tail _ _ _ Hi)) as [Ht _];
    rewrite tot_app in Ht; simpl in Ht; cbn [mem_malloc_scan spec_alloc].
  - rewrite (proj2 (Z.ltb_ge _ _)) by (rewrite u32_small; mem_consts; lia).
    destruct Hi as [H1 H2 H3 H4 H5]. eexists. split; [|split; [run; reflexivity|by split]]. done.
  - pose proof (proj1 (tail_split _ _ _ _ _ _ _) (hr_tail _ _ _ Hi)) as (Hl & E & [Hsz Hsz4] & Hr).
    pose proof (seg_tot _ _ _ _ Hl) as Hl0. rewrite Z.add_0_l in *.
    pose proof (tail_tot _ _ _ _ Hr) as [_ Hr0]. cbn [fst] in *.
    rewrite (u32_small (MEM_SIZE_ALIGNED - n)) by (mem_consts; lia).
    destruct (Z.ltb_spec (tot l) (MEM_SIZE_ALIGNED - n)) as [Hlt|Hge].
    + erewrite prog_bind_step by (unfold read_struct; rewrite E; reflexivity).
      cbn [m_next m_used]. rewrite u32_small by (mem_consts; lia).
      replace (tot l + sz - (tot l + SIZEOF_STRUCT_MEM)) with (sz - SIZEOF_STRUCT_MEM) by lia.
      destruct u; cbn [b2z negb andb]; [|destruct (Z.leb_spec n (sz - SIZEOF_STRUCT_MEM))].
      3: { destruct (IH (l ++ [(sz, false)]) fuel) as (s' & Hs' & IH');
           [by rewrite <- app_assoc | done | done | simpl in Hf; lia |].
           rewrite tot_app in IH'. simpl in IH'. rewrite Z.add_0_r in IH'.
           exists s'. split; [done|].
           destruct (spec_alloc n (tot l + sz) r) as [[p r']|];
             rewrite <- app_assoc in IH'; exact IH'. }
      * destruct (IH (l ++ [(sz, true)]) fuel) as (s' & Hs' & IH');
           [by rewrite <- app_assoc | done | done | simpl in Hf; lia |].
        rewrite tot_app in IH'. simpl in IH'. rewrite Z.add_0_r in IH'.
        exists s'. split; [done|].
        destruct (spec_alloc n (tot l + sz) r) as [[p r']|];
          rewrite <- app_assoc in IH'; exact IH'.
      * destruct (mem_malloc_take_spec s l sz r n (S fuel)) as (s' & E' & Hi' & Hr');
          try done; simpl in Hf; try lia.
        exists s'. split; [done|]. split; [exact E' | exact Hi'].
    + pose proof (spec_alloc_none n (tot l) ((sz, u) :: r)) as En. simpl in En.
      rewrite En; [| by eapply Forall_app, tail_ok, Hi | mem_consts; lia].
      destruct Hi as [H1 H2 H3 H4 H5].
      eexists. split; [|split; [run; reflexivity|by split]]. done.
Qed.


(** [mem_malloc] is first fit on the block list. *)
Lemma mem_malloc_spec s bs n :
  heap_repr s bs → 0 < n ≤ 65532 →
  ∃ s', h_ram s' = h_ram s ∧
    match spec_alloc (req_size n) 0 bs with
    | Some (p, bs') =>
        mem_malloc n s = Some (h_ram s + p + SIZEOF_STRUCT_MEM, s') ∧ heap_repr s' bs'
    | None => mem_malloc n s = Some (0, s') ∧ heap_repr s' bs
    end.
Proof.
  intros Hi Hn. pose proof (req_size_ok n ltac:(lia)) as (R1 & R2 & R3 & R4).
  unfold mem_malloc. rewrite (proj2 (Z.eqb_neq _ _)) by lia.
  rewrite req_size_code by lia. cbv zeta.
  destruct (Z.ltb_spec MEM_SIZE_ALIGNED (req_size n)) as [Hbig|Hsmall].
  - rewrite spec_alloc_none.
    + exists s. done.
    + eapply tail_ok, Hi.
    + pose proof (tail_tot _ _ _ _ (hr_tail _ _ _ Hi)). mem_consts. lia.
  - destruct (first_free_split 0 bs) as (l & r & -> & Hl & Eff & _).
    rewrite spec_alloc_used by done. destruct Hi as [H1 H2 H3 H4 H5].
    set (s1 := Heap (h_ram s) (h_structs s) (h_lfree s) true).
    destruct (mem_malloc_scan_spec s1 (req_size n) r l (walk_fuel s1))
      as (s' & Hr' & Hs'); [by split | lia | done | |].
    { apply tail_length in H1. rewrite length_app in H1. unfold walk_fuel. simpl. lia. }
    exists s'. split; [done|].
    assert (E : (mutex_lock;; fuel ← gets walk_fuel; lfree ← gets h_lfree;
                 mem_malloc_scan fuel (req_size n) lfree) s
              = mem_malloc_scan (walk_fuel s1) (req_size n) (tot l) s1).
    { unfold mutex_lock. prog_simpl. rewrite H4. subst s1. cbn [h_lfree].
      rewrite H2, Eff, Z.add_0_l. done. }
    rewrite E, Z.add_0_l. destruct (spec_alloc _ _ r) as [[p r']|]; exact Hs'.
Qed.

(** ** mem_free *)

(** Two neighbouring blocks become one. *)
Lemma merge_tail h h' l a u b v r w :
  tail h 0 0 (l ++ (a, u) :: (b, v) :: r) →
  h' !! tot l = Some (Mem (tot l + (a + b)) (lastp 0 0 l) (b2z w)) →
  h' !! (tot l + (a + b)) =
    (λ m, Mem (m_next m) (tot l) (m_used m)) <$> h !! (tot l + (a + b)) →
  (∀ k, k ≠ tot l → k ≠ tot l + (a + b) → h' !! k = h !! k) →
  tail h' 0 0 (l ++ (a + b, w) :: r).
Proof.
  intros H E1 E2 Hk. apply tail_split in H as (Hl & E & [Ha Ha4] & Hr).
  rewrite Z.add_0_l in *. simpl in Hr. destruct Hr as (_ & [Hb Hb4] & Hr).
  pose proof (seg_tot _ _ _ _ Hl). pose proof (tail_tot _ _ _ _ Hr) as [? ?].
  mem_consts. simpl in Ha, Ha4, Hb, Hb4.
  rewrite <- Z.add_assoc in Hr.
  apply tail_split. rewrite Z.add_0_l. split_and!; [| done | |].
  - apply (seg_frame h); [done|]. intros k ?. apply Hk; lia.
  - split; mem_consts; simpl; Z.to_euclidean_division_equations; lia.
  - apply (tail_set_prev h _ _ (tot l + a)); [done | done |].
    intros k ?. apply Hk; lia.
Qed.

(** The block after [l] merged with what follows it. *)
Lemma plug_forward_spec s l sz r :
  tail (h_structs s) 0 0 (l ++ (sz, false) :: r) → h_lfree s ≤ tot l →
  ∃ h', plug_forward (tot l) s = Some (tt, Heap (h_ram s) h' (h_lfree s) (h_mutex s)) ∧
        tail h' 0 0 (l ++ cons_free sz r).
Proof.
  intros H Hlf.
  pose proof (proj1 (tail_split _ _ _ _ _ _ _) H) as (Hl & E & [Hsz Hsz4] & Hr).
  pose proof (seg_tot _ _ _ _ Hl) as Hl0. rewrite Z.add_0_l in *.
  pose proof (tail_tot _ _ _ _ Hr) as [Hrt Hr0]. cbn [fst] in *.
  destruct (tail_head _ _ _ _ Hr) as (mn & En & Hend & Hu & Hnx).
  unfold plug_forward.
  erewrite prog_bind_step by (unfold read_struct; rewrite E; reflexivity). cbv zeta.
  cbn [m_next].
  erewrite prog_bind_step by (unfold read_struct; rewrite En; reflexivity).
  assert (Hsz0 : 0 < sz) by (mem_consts; lia).
  destruct r as [|[b []] r]; rewrite Hu; cbn [cons_free b2z].
  1-2: rewrite andb_false_r; exists (h_structs s); split; [run; by destruct s | done].
  simpl in Hr. destruct Hr as (_ & [Hb _] & Hr). simpl in Hb.
  pose proof (tail_tot _ _ _ _ Hr) as [Hrt' Hr0'].
  destruct (tail_head _ _ _ _ Hr) as (mm & Em & _).
  rewrite <- Z.add_assoc in *.
  rewrite (proj2 (Z.eqb_neq (tot l) (tot l + sz))) by lia.
  rewrite (proj2 (Z.eqb_neq (tot l + sz) ram_end)) by (mem_consts; lia).
  cbn [negb andb Z.eqb]. run.
  rewrite (proj2 (Z.eqb_neq (h_lfree s) (tot l + sz))) by lia.
  rewrite Hnx, u16_small by (mem_consts; lia).
  eexists. split; [reflexivity|]. mem_consts.
  apply (merge_tail (h_structs s) _ l sz false b false r false); [done | | |].
  - lk. rewrite E. done.
  - lk. rewrite Em. done.
  - intros k ? ?. lk. done.
Qed.

(** A free block of size [sz] put after [l], merged with the last block of
    [l] when that one is free. *)
Fixpoint snoc_free (l : list blk) (sz : Z) (r : list blk) : list blk :=
  match l with
  | [] => (sz, false) :: r
  | b :: l' =>
      match l', b.2 with
      | [], false => (b.1 + sz, false) :: r
      | _, _ => b :: snoc_free l' sz r
      end
  end.

Lemma snoc_free_app l b sz r :
  snoc_free (l ++ [b]) sz r =
  if b.2 then (l ++ [b]) ++ (sz, false) :: r else l ++ (b.1 + sz, false) :: r.
Proof.
  induction l as [|c l IH]; [by destruct b as [? []]|].
  cbn [app snoc_free]. rewrite IH.
  destruct (l ++ [b]) eqn:E; [by destruct l|]. by destruct b as [? []].
Qed.

Lemma plug_backward_spec s l sz r :
  tail (h_structs s) 0 0 (l ++ (sz, false) :: r) →
  (forallb snd l = false → h_lfree s < tot l) →
  ∃ h', plug_backward (tot l) s = Some (tt, Heap (h_ram s) h' (h_lfree s) (h_mutex s)) ∧
        tail h' 0 0 (snoc_free l sz r).
Proof.
  intros H Hlf. unfold plug_backward.
  destruct l as [|[pz u] l _] using rev_ind.
  { pose proof H as (E & _). exists (h_structs s). split; [|done].
    cbn [tot]. erewrite prog_bind_step by (unfold read_struct; rewrite E; reflexivity).
    erewrite prog_bind_step by (unfold read_struct; cbn [m_prev]; rewrite E; reflexivity).
    run. by destruct s. }
  pose proof (proj1 (tail_split _ _ _ _ _ _ _) H) as (Hl & E & [Hsz Hsz4] & Hr).
  apply seg_app in Hl as [Hl (Ep & [Hpz Hpz4] & _)]. cbn [fst snd] in *.
  rewrite snoc_free_app. rewrite Z.add_0_l in *. rewrite forallb_app, tot_app in *.
  rewrite lastp_app in E. simpl in E, Hr, Hlf. rewrite Z.add_0_r, Z.add_0_l in *.
  pose proof (seg_tot _ _ _ _ Hl) as Hl0.
  pose proof (tail_tot _ _ _ _ Hr) as [Hrt Hr0].
  destruct (tail_head _ _ _ _ Hr) as (mm & Em & _). cbn [tot]. rewrite Z.add_0_r.
  erewrite prog_bind_step by (unfold read_struct; rewrite E; reflexivity).
  cbv zeta. cbn [m_prev].
  erewrite prog_bind_step by (unfold read_struct; rewrite Ep; reflexivity).
  cbn [m_used]. destruct u; cbn [b2z snd fst].
  { exists (h_structs s). rewrite andb_false_r. split; [run; by destruct s | done]. }
  rewrite andb_false_r in Hlf. specialize (Hlf eq_refl).
  rewrite (proj2 (Z.eqb_neq _ _)) by (mem_consts; lia). run. cbn [negb andb Z.eqb m_next].
  rewrite (proj2 (Z.eqb_neq _ _)) by lia. rewrite u16_small by (mem_consts; lia).
  eexists. split; [reflexivity|]. rewrite <- app_assoc in H. simpl in H.
  rewrite <- Z.add_assoc in *. mem_consts.
  apply (merge_tail (h_structs s) _ l pz false sz false r false); [done | | |].
  - lk. rewrite Ep. done.
  - lk. rewrite Em. done.
  - intros k ? ?. lk. done.
Qed.

Lemma cons_free_eq sz r : ∃ sz' r', cons_free sz r = (sz', false) :: r'.
Proof. destruct r as [|[b []] r]; simpl; eauto. Qed.

Lemma cons_blk_no_adj b r :
  no_adj (b :: r) = true → cons_blk b r = b :: r.
Proof.
  destruct b as [sz u], r as [|[sz' v] r]; unfold cons_blk; destruct u; simpl; try done.
  by destruct v.
Qed.

Lemma spec_free_split l sz r : Forall blk_ok l →
  no_adj (l ++ (sz, true) :: r) = true → ∀ off,
  spec_free (off + tot l) off (l ++ (sz, true) :: r) =
  match cons_free sz r with
  | (sz', _) :: r' => snoc_free l sz' r'
  | [] => []
  end.
Proof.
  intros Hok. destruct (cons_free_eq sz r) as (sz' & r' & Ec). rewrite Ec.
  induction Hok as [|[z u] l [Hz _] Hok IH]; intros Hadj off.
  - simpl. rewrite Z.add_0_r, Z.eqb_refl. exact Ec.
  - cbn [app] in Hadj. apply no_adj_cons in Hadj as [Hadj Hb].
    assert (0 ≤ tot l).
    { clear -Hok. induction Hok as [|[? ?] ? [? _] ? ?]; simpl in *; mem_consts; lia. }
    cbn [app spec_free tot]. simpl in Hz.
    rewrite (proj2 (Z.eqb_neq _ _)) by (mem_consts; lia).
    rewrite Z.add_assoc, IH by done.
    destruct u; [by destruct l|]. destruct Hb as [Hb|Hb]; [done|].
    destruct l as [|[z2 u2] l]; [done|]. simpl in Hb. subst u2.
    cbn [snoc_free snd]. by destruct l.
Qed.

Lemma snoc_free_no_adj l sz r :
  no_adj l = true → no_adj ((sz, false) :: r) = true →
  no_adj (snoc_free l sz r) = true.
Proof.
  intros Hl Hr. destruct l as [|[pz u] l _] using rev_ind; [done|].
  rewrite snoc_free_app. cbn [snd fst].
  apply no_adj_cons in Hr as [Hr Hb]. simpl in Hb.
  destruct u; rewrite no_adj_app.
  - rewrite last_snoc, no_adj_cons. simpl. tauto.
  - rewrite no_adj_app in Hl. destruct Hl as (Hl & _ & Hv).
    rewrite no_adj_cons. simpl. split_and!; [done | done | done |].
    destruct (list.last l) as [[? ?]|]; done.
Qed.

Lemma snoc_free_first_free l sz r off :
  first_free off (snoc_free l sz r) =
  if forallb snd l then off + tot l else first_free off l.
Proof.
  destruct l as [|[pz u] l _] using rev_ind; [simpl; lia|].
  rewrite snoc_free_app, forallb_app, tot_app. cbn [snd fst forallb tot].
  rewrite !first_free_app. cbn [first_free].
  destruct u; [rewrite <- app_assoc|]; rewrite ?first_free_app; simpl;
    destruct (forallb snd l); simpl; lia.
Qed.

Lemma cons_free_no_adj sz r : no_adj r = true → no_adj (cons_free sz r) = true.
Proof.
  destruct r as [|[b []] r]; cbn [cons_free]; rewrite ?no_adj_cons; simpl; tauto.
Qed.


(** [mem_free] of a used block is [spec_free] of it. *)
Lemma mem_free_spec s l sz r :
  heap_repr s (l ++ (sz, true) :: r) →
  ∃ s', mem_free (h_ram s + tot l + SIZEOF_STRUCT_MEM) s = Some (tt, s') ∧
        heap_repr s' (spec_free (tot l) 0 (l ++ (sz, true) :: r)) ∧
        h_ram s' = h_ram s.
Proof.
  intros [H Hlf Hadj Hmx [Hram Hram4]].
  pose proof (tail_ok _ _ _ _ H) as Hok. apply Forall_app in Hok as [Hokl Hokr].
  pose proof (proj1 (tail_split _ _ _ _ _ _ _) H) as (Hl & E & [Hsz _] & Hr).
  pose proof (seg_tot _ _ _ _ Hl). pose proof (tail_tot _ _ _ _ Hr).
  pose proof (first_free_bounds 0 l (blk_ok_pos _ Hokl)) as Hbd.
  rewrite Z.add_0_l in *. cbn [fst] in Hsz.
  pose proof (spec_free_split l sz r Hokl Hadj 0) as Esp. rewrite Z.add_0_l in Esp.
  rewrite Esp. clear Esp.
  unfold mem_free. rewrite (proj2 (Z.eqb_neq _ _)) by (mem_consts; lia).
  unfold gets at 1. rewrite (prog_bind_step _ _ s (h_ram s) s) by done.
  rewrite (proj2 (Z.ltb_ge _ _)) by (mem_consts; lia).
  rewrite (proj2 (Z.leb_gt _ _)) by (mem_consts; lia). cbn [orb].
  erewrite prog_bind_step by (unfold mutex_lock; rewrite Hmx; reflexivity).
  replace (h_ram s + tot l + SIZEOF_STRUCT_MEM - SIZEOF_STRUCT_MEM - h_ram s)
    with (tot l) by lia.
  erewrite prog_bind_step by (unfold read_struct; cbn [h_structs]; rewrite E; reflexivity).
  set (h1 := <[tot l := Mem (tot l + sz) (lastp 0 0 l) 0]> (h_structs s)).
  set (lf := if forallb snd l then tot l else h_lfree s).
  assert (T1 : tail h1 0 0 (l ++ (sz, false) :: r)).
  { apply (flag_tail (h_structs s) _ l sz true r false); [done | |];
      subst h1; intros; lk; done. }
  assert (Hlf1 : lf ≤ tot l ∧ (forallb snd l = false → lf < tot l)).
  { subst lf. rewrite Hlf, first_free_app. destruct (forallb snd l); [lia|].
    destruct Hbd as [? Hbd]. split; [lia|]. intros _. specialize (Hbd eq_refl). lia. }
  destruct (plug_forward_spec (Heap (h_ram s) h1 lf true) l sz r T1 (proj1 Hlf1))
    as (h2 & E2 & T2).
  destruct (cons_free_eq sz r) as (sz' & r' & Ec). rewrite Ec in *.
  destruct (plug_backward_spec (Heap (h_ram s) h2 lf true) l sz' r' T2 (proj2 Hlf1))
    as (h3 & E3 & T3). cbn [h_ram h_lfree h_mutex] in *.
  exists (Heap (h_ram s) h3 lf false). split.
  - unfold set_used, upd_struct, modify.
    rewrite (prog_bind_step _ _ _ tt (Heap (h_ram s) h1 (h_lfree s) true))
      by (cbn [h_structs]; rewrite E; done).
    rewrite (prog_bind_step _ _ _ (h_lfree s) (Heap (h_ram s) h1 (h_lfree s) true)) by done.
    rewrite (prog_bind_step _ _ _ tt (Heap (h_ram s) h1 lf true)).
    + unfold plug_holes. rewrite (prog_bind_step _ _ _ tt (Heap (h_ram s) h3 lf true)); [reflexivity|].
      erewrite prog_bind_step by exact E2. exact E3.
    + subst lf. rewrite Hlf, first_free_app. rewrite Z.add_0_l. simpl.
      destruct (forallb snd l) eqn:Eu.
      * assert (0 ≤ tot r) by lia.
        pose proof (proj1 (first_free_bounds (tot l + sz) r (blk_ok_pos _ (Forall_inv_tail Hokr)))).
        rewrite (proj2 (Z.ltb_lt _ _)) by (mem_consts; lia). done.
      * destruct Hlf1 as [_ Hlf1]. specialize (Hlf1 eq_refl).
        rewrite Hlf, first_free_app, Eu in Hlf1.
        rewrite (proj2 (Z.ltb_ge _ _)) by lia. done.
  - split; [|done]. apply no_adj_app in Hadj as (Ha1 & Ha2 & _).
    split; cbn [h_structs h_lfree h_mutex h_ram]; try done.
    + subst lf. rewrite snoc_free_first_free, Z.add_0_l, Hlf, first_free_app.
      by destruct (forallb snd l).
    + apply snoc_free_no_adj; [done|]. rewrite <- Ec. apply cons_free_no_adj.
      by apply no_adj_cons in Ha2 as [? _].
Qed.

(** ** mem_trim *)

Lemma mem_trim_link_spec s ptr ptr2 next p u mn :
  h_structs s !! ptr = Some (Mem (p : Z) (u : Z) mn) →
  ptr < ptr2 → ptr2 < next → is_Some (h_structs s !! next) →
  ∃ h', mem_trim_link ptr ptr2 next s
        = Some (tt, Heap (h_ram s) h' (h_lfree s) (h_mutex s)) ∧
    h' !! ptr = Some (Mem ptr2 u mn) ∧
    h' !! ptr2 = Some (Mem next ptr 0) ∧
    h' !! next = (if next =? ram_end then h_structs s !! next
       else (λ m, Mem (m_next m) ptr2 (m_used m)) <$> h_structs s !! next) ∧
    (∀ k, k ≠ ptr → k ≠ ptr2 → k ≠ next → h' !! k = h_structs s !! k).
Proof.
  intros E H1 H2 [m2 En]. unfold mem_trim_link, ram_end.
  destruct (Z.eqb_spec next MEM_SIZE_ALIGNED); cbn [negb];
    (eexists; split; [run; reflexivity|]);
    (split_and!; [lk; rewrite E; done | lk; done | | intros; lk; done]).
  - lk. done.
  - lk. rewrite En. done.
Qed.

(** Shrinking the block after [l] over its free successor, or in two. *)
Lemma trim_tail_move h h' l sz u b r n :
  tail h 0 0 (l ++ (sz, u) :: (b, false) :: r) →
  MIN_SIZE_ALIGNED ≤ n → n mod MEM_ALIGNMENT = 0 → n < sz - SIZEOF_STRUCT_MEM →
  let p := tot l in let p2 := p + SIZEOF_STRUCT_MEM + n in
  h' !! p = Some (Mem p2 (lastp 0 0 l) (b2z u)) →
  h' !! p2 = Some (Mem (p + (sz + b)) p 0) →
  h' !! (p + (sz + b)) = (if p + (sz + b) =? ram_end then h !! (p + (sz + b))
     else (λ m, Mem (m_next m) p2 (m_used m)) <$> h !! (p + (sz + b))) →
  (∀ k, k ≠ p → k ≠ p2 → k ≠ p + (sz + b) → h' !! k = h !! k) →
  tail h' 0 0 (l ++ (SIZEOF_STRUCT_MEM + n, u)
                 :: (b + (sz - (SIZEOF_STRUCT_MEM + n)), false) :: r).
Proof.
  intros H Hn Hn4 Hfit p p2 E1 E2 E3 Hk.
  pose proof (proj1 (tail_split _ _ _ _ _ _ _) H) as (Hl & E & [Hsz Hsz4] & Hr).
  simpl in Hr. destruct Hr as (_ & [Hb _] & Hr). rewrite Z.add_0_l in *.
  rewrite <- Z.add_assoc in Hr. cbn [fst] in *.
  pose proof (tail_tot _ _ _ _ Hr) as [Hrt Hr0].
  destruct (tail_head _ _ _ _ Hr) as (mm & Em & _). subst p p2.
  set (hm := <[tot l + (sz + b) := Mem (m_next mm) (tot l) (m_used mm)]>
             (<[tot l := Mem (tot l + (sz + b)) (lastp 0 0 l) (b2z u)]> h)).
  assert (Tm : tail hm 0 0 (l ++ (sz + b, u) :: r)).
  { mem_consts. apply (merge_tail h _ l sz u b false r u); [done| | |]; subst hm; intros; lk; try done.
    rewrite Em. done. }
  replace (b + (sz - (SIZEOF_STRUCT_MEM + n)))
    with (sz + b - (SIZEOF_STRUCT_MEM + n)) by lia.
  apply (split_tail hm h' l (sz + b) u r n u); try done; mem_consts; try lia.
  - subst hm. destruct (Z.eqb_spec (tot l + (sz + b)) 32768) as [Hend|Hend]; rewrite E3; lk.
    + rewrite Em. done.
    + rewrite Em. done.
  - intros k ?. subst hm. lk. apply Hk; lia.
Qed.

Definition trimmed (n sz : Z) (r : list blk) : list blk :=
  match r with
  | (b, false) :: r' =>
      (SIZEOF_STRUCT_MEM + n, true) :: (b + (sz - (SIZEOF_STRUCT_MEM + n)), false) :: r'
  | _ => taken n sz r
  end.

Lemma tot_nonneg l : Forall blk_ok l → 0 ≤ tot l.
Proof. intros H. induction H as [|[? ?] ? [? _] ? ?]; simpl in *; mem_consts; lia. Qed.

Lemma spec_trim_split l sz r n : Forall blk_ok l → ∀ off,
  spec_trim (off + tot l) n off (l ++ (sz, true) :: r) = l ++ trimmed n sz r.
Proof.
  intros H. induction H as [|[z u] l [Hz _] H IH]; intros off; cbn [app spec_trim tot].
  - rewrite Z.add_0_r, Z.eqb_refl. unfold trimmed, taken.
    destruct r as [|[? []] ?]; done.
  - pose proof (tot_nonneg _ H). simpl in Hz.
    rewrite (proj2 (Z.eqb_neq _ _)) by (mem_consts; lia).
    by rewrite Z.add_assoc, IH.
Qed.

(** What shrinking does to the free list pointer. *)
Lemma trimmed_first_free n sz r off :
  n < sz - SIZEOF_STRUCT_MEM → blk_ok (sz, true) → Forall blk_ok r →
  first_free off (trimmed n sz r) =
  match r with
  | (_, false) :: _ => off + SIZEOF_STRUCT_MEM + n
  | _ => if n + SIZEOF_STRUCT_MEM + MIN_SIZE_ALIGNED <=? sz - SIZEOF_STRUCT_MEM
         then off + SIZEOF_STRUCT_MEM + n else first_free (off + sz) r
  end.
Proof.
  intros. unfold trimmed, taken. destruct r as [|[? []] ?]; simpl.
  all: try destruct (_ <=? _); simpl; try done; try lia.
Qed.

Lemma trimmed_no_adj l n sz r :
  no_adj (l ++ (sz, true) :: r) = true → no_adj (l ++ trimmed n sz r) = true.
Proof.
  rewrite !no_adj_app. intros (Hl & Hr & Hb). apply no_adj_cons in Hr as [Hr Hv].
  split_and!; [done| |].
  - unfold trimmed, taken. destruct r as [|[? []] r]; simpl in *;
      try destruct (_ <=? _); simpl; done.
  - unfold trimmed, taken. destruct r as [|[? []] r]; simpl in *;
      try destruct (_ <=? _); destruct (list.last l) as [[? ?]|]; simpl; tauto.
Qed.

(** The shrinking itself, with the mutex taken, on a block that is too big. *)
Definition mem_trim_body (ptr newsize size next : Z) : prog heap unit :=
  m2 ← read_struct next;
  if m_used m2 =? 0 then
    lfree ← gets h_lfree;
    when (lfree =? next) (set_lfree (u16 (ptr + SIZEOF_STRUCT_MEM + newsize))) ;;
    mem_trim_link ptr (u16 (ptr + SIZEOF_STRUCT_MEM + newsize)) (m_next m2)
  else if u32 (newsize + SIZEOF_STRUCT_MEM + MIN_SIZE_ALIGNED) <=? size then
    lfree ← gets h_lfree;
    when (u16 (ptr + SIZEOF_STRUCT_MEM + newsize) <? lfree)
      (set_lfree (u16 (ptr + SIZEOF_STRUCT_MEM + newsize))) ;;
    mem_trim_link ptr (u16 (ptr + SIZEOF_STRUCT_MEM + newsize)) next
  else mret tt.

Lemma mem_trim_body_spec s l sz r n :
  heap_inv true s (l ++ (sz, true) :: r) →
  MIN_SIZE_ALIGNED ≤ n → n mod MEM_ALIGNMENT = 0 → n < sz - SIZEOF_STRUCT_MEM →
  ∃ s', mem_trim_body (tot l) n (sz - SIZEOF_STRUCT_MEM) (tot l + sz) s = Some (tt, s') ∧
        heap_inv true s' (l ++ trimmed n sz r) ∧ h_ram s' = h_ram s.
Proof.
  intros [H Hlf Hadj Hmx Hram] Hn Hn4 Hfit.
  pose proof (tail_ok _ _ _ _ H) as Hok. apply Forall_app in Hok as [Hokl Hokr].
  pose proof (proj1 (tail_split _ _ _ _ _ _ _) H) as (Hl & E & [Hsz Hsz4] & Hr).
  pose proof (trimmed_no_adj l n sz r Hadj) as Hadj'.
  pose proof (seg_tot _ _ _ _ Hl) as Hl0. rewrite Z.add_0_l in *.
  pose proof (tail_tot _ _ _ _ Hr) as [Hrt Hr0]. cbn [fst] in *.
  destruct (tail_head _ _ _ _ Hr) as (mn & En & _ & Hu & Hnx).
  pose proof (proj2 (first_free_bounds 0 l (blk_ok_pos _ Hokl))) as Hbd.
  pose proof (trimmed_first_free n sz r (tot l) Hfit (Forall_inv Hokr) (Forall_inv_tail Hokr)) as Hff.
  pose proof (proj1 (first_free_bounds (tot l + sz) r (blk_ok_pos _ (Forall_inv_tail Hokr)))) as Hbr.
  rewrite first_free_app in Hlf. rewrite Z.add_0_l in *. simpl in Hlf.
  assert (Hff' := first_free_app 0 l (trimmed n sz r)). rewrite Z.add_0_l in Hff'.
  unfold mem_trim_body.
  erewrite prog_bind_step by (unfold read_struct; rewrite En; reflexivity).
  rewrite (u16_small (tot l + SIZEOF_STRUCT_MEM + n)) by (mem_consts; lia).
  rewrite u32_small by (mem_consts; lia).
  set (lf := if forallb snd l then first_free (tot l) (trimmed n sz r) else h_lfree s).
  assert (Hgoal : ∀ h', tail h' 0 0 (l ++ trimmed n sz r) →
    heap_inv true (Heap (h_ram s) h' lf true) (l ++ trimmed n sz r)).
  { intros h' Ht'. split; try done. subst lf. rewrite Hff'. cbn [h_lfree].
    by destruct (forallb snd l). }
  assert (Hcase : (∃ b r', r = (b, false) :: r') ∨
    m_used mn = 1 ∧ match r with (_, false) :: _ => False | _ => True end).
  { destruct r as [|[b []] r']; simpl in Hu; eauto. }
  destruct Hcase as [(b & r' & ->) | [Hu1 Hnf]].
  - rewrite Hu. cbn [b2z Z.eqb]. unfold gets.
    rewrite (prog_bind_step _ _ s (h_lfree s) s) by done.
    rewrite (prog_bind_step _ _ _ tt (Heap (h_ram s) (h_structs s) lf true)).
    2: { subst lf. rewrite Hff. simpl in Hlf. rewrite Hlf. destruct (forallb snd l) eqn:Eu.
      - rewrite Z.eqb_refl. unfold when, set_lfree, modify. by rewrite Hmx.
      - specialize (Hbd eq_refl). rewrite (proj2 (Z.eqb_neq _ _)) by (mem_consts; lia).
        unfold when. rewrite <- Hlf. destruct s; simpl in *; by subst. }
    rewrite Hnx, <- !Z.add_assoc.
    simpl in Hr. destruct Hr as (_ & [Hb _] & Hr). simpl in Hb, Hrt, Hr0.
    rewrite <- Z.add_assoc in Hr. destruct (tail_head _ _ _ _ Hr) as (mm & Em & _).
    destruct (mem_trim_link_spec (Heap (h_ram s) (h_structs s) lf true)
      (tot l) (tot l + (SIZEOF_STRUCT_MEM + n)) (tot l + (sz + b)) _ _ _ E)
      as (h' & -> & E1 & E2 & E3 & E4); [mem_consts; lia | mem_consts; lia | eauto |].
    eexists. split; [reflexivity|]. split; [|done]. apply Hgoal.
    apply (trim_tail_move (h_structs s) h' l sz true b r' n); try done.
    all: rewrite <- Z.add_assoc; try done.
  - rewrite Hu1. change (1 =? 0) with false. cbv iota.
    assert (Etr : trimmed n sz r = taken n sz r) by (by destruct r as [|[? []] ?]).
    rewrite Etr in *. unfold taken in *.
    destruct (Z.leb_spec (n + SIZEOF_STRUCT_MEM + MIN_SIZE_ALIGNED) (sz - SIZEOF_STRUCT_MEM)).
    + unfold gets. rewrite (prog_bind_step _ _ s (h_lfree s) s) by done.
      rewrite (prog_bind_step _ _ _ tt (Heap (h_ram s) (h_structs s) lf true)).
      2: { subst lf. rewrite ?Etr. rewrite Hlf. destruct (forallb snd l) eqn:Eu.
        - rewrite (proj2 (Z.ltb_lt _ _)) by (mem_consts; lia).
          unfold when, set_lfree, modify. rewrite Hmx. cbn [first_free]. by rewrite <- Z.add_assoc.
        - specialize (Hbd eq_refl). rewrite (proj2 (Z.ltb_ge _ _)) by (mem_consts; lia).
          unfold when. rewrite <- Hlf. destruct s; simpl in *; by subst. }
      destruct (mem_trim_link_spec (Heap (h_ram s) (h_structs s) lf true)
        (tot l) (tot l + SIZEOF_STRUCT_MEM + n) (tot l + sz) _ _ _ E)
        as (h' & -> & E1 & E2 & E3 & E4); [mem_consts; lia | mem_consts; lia | eauto |].
      eexists. split; [reflexivity|]. split; [|done]. apply Hgoal.
      apply (split_tail (h_structs s) h' l sz true r n true); try done.
      * rewrite E3. by destruct (_ =? _).
      * intros k ?. apply E4; mem_consts; lia.
    + exists s. split; [done|]. split; [|done]. replace s with (Heap (h_ram s) (h_structs s) lf true).
      * by apply Hgoal.
      * subst lf. rewrite ?Etr. simpl. destruct s; simpl in *; subst. by destruct (forallb snd l).
Qed.

(** [mem_trim] of a used block is [spec_trim] of it, when the new size fits;
    it fails without any effect otherwise. *)
Lemma mem_trim_spec s l sz r n :
  heap_repr s (l ++ (sz, true) :: r) → 0 ≤ n ≤ 65532 →
  let rmem := h_ram s + tot l + SIZEOF_STRUCT_MEM in
  if req_size n <=? sz - SIZEOF_STRUCT_MEM then
    ∃ s', mem_trim rmem n s = Some (rmem, s') ∧
          heap_repr s' (l ++ trimmed (req_size n) sz r) ∧ h_ram s' = h_ram s
  else mem_trim rmem n s = Some (0, s).
Proof.
  intros Hi Hn rmem. pose proof (req_size_ok n Hn) as (R1 & R2 & R3 & R4).
  pose proof Hi as [H Hlf Hadj Hmx [Hram Hram4]].
  pose proof (proj1 (tail_split _ _ _ _ _ _ _) H) as (Hl & E & [Hsz Hsz4] & Hr).
  pose proof (seg_tot _ _ _ _ Hl) as Hl0. rewrite Z.add_0_l in *.
  pose proof (tail_tot _ _ _ _ Hr) as [Hrt Hr0]. cbn [fst] in *.
  pose proof (req_size_code n Hn) as Er. cbv zeta in Er.
  unfold mem_trim. cbv zeta. rewrite Er.
  destruct (Z.ltb_spec MEM_SIZE_ALIGNED (req_size n)).
  { rewrite (proj2 (Z.leb_gt _ _)) by (mem_consts; lia). done. }
  rewrite (prog_bind_step _ _ s (h_ram s) s) by done. subst rmem.
  rewrite (proj2 (Z.ltb_ge _ _)) by (mem_consts; lia).
  rewrite (proj2 (Z.leb_gt (h_ram s + ram_end) _)) by (mem_consts; lia). cbn [orb].
  replace (h_ram s + tot l + SIZEOF_STRUCT_MEM - SIZEOF_STRUCT_MEM - h_ram s)
    with (tot l) by lia.
  rewrite (u16_small (tot l)) by (mem_consts; lia).
  erewrite prog_bind_step by (unfold read_struct; rewrite E; reflexivity).
  cbn [m_next]. replace (tot l + sz - tot l - SIZEOF_STRUCT_MEM)
    with (sz - SIZEOF_STRUCT_MEM) by lia.
  rewrite (u16_small (sz - SIZEOF_STRUCT_MEM)) by (mem_consts; lia).
  destruct (Z.leb_spec (req_size n) (sz - SIZEOF_STRUCT_MEM)) as [Hfit|Hfit].
  2: { rewrite (proj2 (Z.ltb_lt _ _)) by lia. done. }
  rewrite (proj2 (Z.ltb_ge _ _)) by lia.
  destruct (Z.eqb_spec (req_size n) (sz - SIZEOF_STRUCT_MEM)) as [Heq|Hne].
  { exists s. split; [done|]. split; [|done]. unfold trimmed, taken.
    rewrite Heq, (proj2 (Z.leb_gt _ _)) by (mem_consts; lia).
    replace (SIZEOF_STRUCT_MEM + (sz - SIZEOF_STRUCT_MEM)) with sz by lia.
    rewrite Z.sub_diag. by destruct r as [|[b []] r]; rewrite ?Z.add_0_r. }
  erewrite prog_bind_step by (unfold mutex_lock; rewrite Hmx; reflexivity).
  destruct (mem_trim_body_spec (Heap (h_ram s) (h_structs s) (h_lfree s) true)
    l sz r (req_size n)) as (s' & Eb & Hi' & Hr'); [by split | done | done | lia |].
  unfold mem_trim_body in Eb. cbv zeta. erewrite prog_seq_step by exact Eb.
  exists (Heap (h_ram s') (h_structs s') (h_lfree s') false).
  split; [done|]. destruct Hi'. by split.
Qed.
