(* ===== verification/MemProps.v ===== *)
(** * What the heap of mem.c promises to its clients

    The abstract allocator as a transition function on call sequences, the
    simulation of every call sequence by the code, the guarantees on the
    block returned by [mem_malloc], and the behaviour outside of the range
    where the size computation is exact. *)

From stdpp Require Import base numbers list gmap option.
From S2P Require Import Prelude Mem MemRefine.

(** ** Calls and their abstract meaning *)

(** A block is named by its offset; the pointer given to the client is
    [blk_ptr]. *)
Definition blk_ptr (s : heap) (p : Z) : Z := h_ram s + p + SIZEOF_STRUCT_MEM.

Inductive call :=
| CMalloc (n : Z)
| CFree (p : Z)
| CTrim (p n : Z).

Fixpoint blk_at (p off : Z) (bs : list blk) : option blk :=
  match bs with
  | [] => None
  | (sz, u) :: bs' => if p =? off then Some (sz, u) else blk_at p (off + sz) bs'
  end.

(** The abstract allocator: the offset answered, if any, and the new block
    list.  A call on an offset that is not a used block is not a legal call. *)
Definition spec_call (c : call) (bs : list blk) : option (option Z * list blk) :=
  match c with
  | CMalloc n =>
      if (0 <? n) && (n <=? 65532) then
        Some match spec_alloc (req_size n) 0 bs with
             | Some (p, bs') => (Some p, bs')
             | None => (None, bs)
             end
      else None
  | CFree p =>
      match blk_at p 0 bs with
      | Some (_, true) => Some (None, spec_free p 0 bs)
      | _ => None
      end
  | CTrim p n =>
      match blk_at p 0 bs with
      | Some (sz, true) =>
          if (0 <=? n) && (n <=? 65532) then
            if req_size n <=? sz - SIZEOF_STRUCT_MEM
            then Some (Some p, spec_trim p (req_size n) 0 bs)
            else Some (None, bs)
          else None
      | _ => None
      end
  end.

Fixpoint spec_calls (cs : list call) (bs : list blk)
    : option (list (option Z) * list blk) :=
  match cs with
  | [] => Some ([], bs)
  | c :: cs' =>
      match spec_call c bs with
      | None => None
      | Some (r, bs1) =>
          match spec_calls cs' bs1 with
          | None => None
          | Some (rs, bs2) => Some (r :: rs, bs2)
          end
      end
  end.

(** The same calls on the code. *)
Definition run_call (c : call) : prog heap Z :=
  match c with
  | CMalloc n => mem_malloc n
  | CFree p => s ← get; mem_free (blk_ptr s p) ;; mret 0
  | CTrim p n => s ← get; mem_trim (blk_ptr s p) n
  end.

Fixpoint run_calls (cs : list call) : prog heap (list Z) :=
  match cs with
  | [] => mret []
  | c :: cs' => r ← run_call c; rs ← run_calls cs'; mret (r :: rs)
  end.

(** The pointer that corresponds to an abstract answer. *)
Definition answer (ram : Z) (r : option Z) : Z :=
  match r with Some p => ram + p + SIZEOF_STRUCT_MEM | None => 0 end.

(** ** Lemmas *)

Lemma blk_at_split p off bs b :
  blk_at p off bs = Some b → ∃ l r, bs = l ++ b :: r ∧ p = off + tot l.
Proof.
  revert off. induction bs as [|[sz u] bs IH]; intros off; simpl; [done|].
  case_cmp; intros H.
  - injection H as <-. exists [], bs. simpl. split; [done | lia].
  - destruct (IH _ H) as (l & r & -> & ->). exists ((sz, u) :: l), r.
    simpl. split; [done | lia].
Qed.

Lemma run_call_spec c s bs r bs' :
  heap_repr s bs → spec_call c bs = Some (r, bs') →
  ∃ s', run_call c s = Some (answer (h_ram s) r, s') ∧ heap_repr s' bs' ∧
        h_ram s' = h_ram s.
Proof.
  intros Hi. destruct c as [n|p|p n]; cbn [spec_call run_call].
  - destruct (_ && _) eqn:En; [|done]. reflect_bool. intros Hs.
    destruct (mem_malloc_spec s bs n Hi) as (s' & Hr & Hm); [lia|]. exists s'.
    destruct (spec_alloc _ _ _) as [[p bs1]|]; injection Hs as <- <-; tauto.
  - destruct (blk_at p 0 bs) as [[sz []]|] eqn:Eb; try done. intros [= <- <-].
    apply blk_at_split in Eb as (l & r' & -> & ->). rewrite Z.add_0_l.
    destruct (mem_free_spec s l sz r' Hi) as (s' & E & Hi' & Hr).
    exists s'. split_and!; [|done..]. unfold get. prog_simpl. unfold blk_ptr.
    rewrite E. done.
  - destruct (blk_at p 0 bs) as [[sz []]|] eqn:Eb; try done.
    apply blk_at_split in Eb as (l & r' & -> & ->). rewrite Z.add_0_l.
    destruct (_ && _) eqn:En; [|done]. reflect_bool.
    pose proof (mem_trim_spec s l sz r' n Hi ltac:(lia)) as Ht. cbv zeta in Ht.
    pose proof (tail_ok _ _ _ _ (hr_tail _ _ _ Hi)) as Hok. apply Forall_app in Hok as [Hok _].
    pose proof (spec_trim_split l sz r' (req_size n) Hok 0) as Es. rewrite Z.add_0_l in Es.
    destruct (_ <=? _); intros [= <- <-]; unfold get; prog_simpl; unfold blk_ptr.
    + rewrite Es. exact Ht.
    + exists s. done.
Qed.

Lemma spec_alloc_inv n off bs p bs' :
  spec_alloc n off bs = Some (p, bs') →
  ∃ l sz r, bs = l ++ (sz, false) :: r ∧ bs' = l ++ taken n sz r ∧
            p = off + tot l ∧ n ≤ sz - SIZEOF_STRUCT_MEM.
Proof.
  revert off bs'. induction bs as [|[sz u] bs IH]; intros off bs'; cbn [spec_alloc]; [done|].
  destruct (negb u && _) eqn:E.
  - intros [= <- <-]. reflect_bool. subst u. exists [], sz, bs. simpl.
    split_and!; [done | done | lia | done].
  - destruct (spec_alloc n (off + sz) bs) as [[q bs1]|] eqn:Ea; [|done].
    intros [= <- <-]. destruct (IH _ _ Ea) as (l & z & r & -> & -> & -> & ?).
    exists ((sz, u) :: l), z, r. simpl. split_and!; [done | done | lia | done].
Qed.

(** Freeing the block just taken restores the block list. *)
Lemma spec_alloc_free n bs p bs' :
  no_adj bs = true → Forall blk_ok bs →
  spec_alloc n 0 bs = Some (p, bs') → spec_free p 0 bs' = bs.
Proof.
  intros Ha Hok Hs. apply spec_alloc_inv in Hs as (l & sz & r & -> & -> & -> & Hn).
  pose proof (taken_no_adj l n sz r Ha) as Ha'.
  apply Forall_app in Hok as [Hok _].
  apply no_adj_app in Ha as (_ & Har & Hl). apply no_adj_cons in Har as [Har Hv].
  simpl in Hv. destruct Hv as [?|Hv]; [done|].
  assert (Hsn : snoc_free l sz r = l ++ (sz, false) :: r).
  { destruct l as [|[pz u] l _] using rev_ind; [done|]. rewrite last_snoc in Hl.
    rewrite snoc_free_app. simpl. destruct u, Hl; done. }
  unfold taken in *. destruct (_ <=? _); rewrite spec_free_split by done; cbn [cons_free].
  - replace (SIZEOF_STRUCT_MEM + n + (sz - (SIZEOF_STRUCT_MEM + n))) with sz by lia. done.
  - destruct r as [|[b v] r]; [done|]. by subst v.
Qed.

(** The used blocks of a list, with their offsets. *)
Fixpoint live (off : Z) (bs : list blk) : list (Z * Z) :=
  match bs with
  | [] => []
  | (sz, u) :: bs' => (if u then [(off, sz)] else []) ++ live (off + sz) bs'
  end.

Lemma live_app off l r : live off (l ++ r) = live off l ++ live (off + tot l) r.
Proof.
  revert off. induction l as [|[sz u] l IH]; intros off; simpl.
  - by rewrite Z.add_0_r.
  - by rewrite IH, <- app_assoc, Z.add_assoc.
Qed.

Lemma live_bounds off bs q z :
  Forall blk_ok bs → (q, z) ∈ live off bs →
  off ≤ q ∧ SIZEOF_STRUCT_MEM < z ∧ q + z ≤ off + tot bs.
Proof.
  intros H. revert off. induction H as [|[sz u] bs [Hs _] H IH]; intros off; simpl.
  - by intros ?%elem_of_nil.
  - pose proof (tot_nonneg _ H). simpl in Hs. mem_consts.
    rewrite elem_of_app. intros [Hq|Hq].
    + destruct u; [|by apply elem_of_nil in Hq].
      apply list_elem_of_singleton in Hq as [= -> ->]. lia.
    + apply IH in Hq. lia.
Qed.

Lemma live_taken n sz r off :
  live off (taken n sz r) =
  (off, if n + SIZEOF_STRUCT_MEM + MIN_SIZE_ALIGNED <=? sz - SIZEOF_STRUCT_MEM
        then SIZEOF_STRUCT_MEM + n else sz) :: live (off + sz) r.
Proof.
  unfold taken. destruct (_ <=? _); simpl; [|done].
  do 2 f_equal. lia.
Qed.

(** What [mem_malloc] answers, in terms of the live blocks. *)
Lemma mem_malloc_live s bs n a s' :
  heap_repr s bs → 0 < n ≤ 65532 → mem_malloc n s = Some (a, s') → a ≠ 0 →
  ∃ p z bs', heap_repr s' bs' ∧ a = blk_ptr s' p ∧ h_ram s' = h_ram s ∧
    a mod MEM_ALIGNMENT = 0 ∧
    n ≤ z - SIZEOF_STRUCT_MEM ∧ 0 ≤ p ∧ p + z ≤ MEM_SIZE_ALIGNED ∧
    (∀ q x, (q, x) ∈ live 0 bs' ↔ (q, x) ∈ live 0 bs ∨ (q, x) = (p, z)) ∧
    (∀ q x, (q, x) ∈ live 0 bs → q + x ≤ p ∨ p + z ≤ q).
Proof.
  intros Hi Hn Hm Ha0. pose proof (req_size_ok n ltac:(lia)) as (R1 & R2 & R3 & R4).
  destruct (mem_malloc_spec s bs n Hi Hn) as (s1 & Hr & Hs).
  destruct (spec_alloc _ _ _) as [[p bs']|] eqn:Ea;
    destruct Hs as [E Hi']; rewrite E in Hm; injection Hm as <- <-; [|done].
  apply spec_alloc_inv in Ea as (l & sz & r & -> & -> & -> & Hfit).
  pose proof (hr_tail _ _ _ Hi) as T. pose proof (tail_tot _ _ _ _ T) as [Ht _].
  pose proof (tail_ok _ _ _ _ T) as Hok. apply Forall_app in Hok as [Hl Hr'].
  pose proof (Forall_inv_tail Hr') as Hokr.
  pose proof (tot_nonneg _ Hl). pose proof (tot_nonneg _ Hokr).
  rewrite tot_app in Ht. simpl in Ht.
  assert (Hdiv : tot l mod MEM_ALIGNMENT = 0).
  { clear -Hl. induction Hl as [|[z u] l [_ Hz] Hl IH]; [done|]. simpl in *.
    mem_consts. Z.to_euclidean_division_equations. lia. }
  exists (0 + tot l), (if req_size n + SIZEOF_STRUCT_MEM + MIN_SIZE_ALIGNED
              <=? sz - SIZEOF_STRUCT_MEM then SIZEOF_STRUCT_MEM + req_size n else sz),
         (l ++ taken (req_size n) sz r).
  destruct (hr_ram _ _ _ Hi) as [_ Hal]. unfold blk_ptr. rewrite Z.add_0_l in *.
  split_and!; try done; try lia.
  - mem_consts. Z.to_euclidean_division_equations. lia.
  - case_cmp; lia.
  - case_cmp; mem_consts; lia.
  - intros q x. rewrite !live_app, live_taken, !elem_of_app. simpl.
    rewrite elem_of_cons, Z.add_0_l. tauto.
  - intros q x. rewrite live_app, elem_of_app, Z.add_0_l. intros [Hq|Hq].
    + apply live_bounds in Hq; [|done]. lia.
    + simpl in Hq. apply live_bounds in Hq; [|done].
      right. mem_consts. case_cmp; lia.
Qed.

(** ** Properties *)

(** C1: Every sequence of calls to [mem_malloc], [mem_free] and [mem_trim]
    that is legal for the abstract allocator runs to its end in the code,
    answers the pointers the abstract allocator answers, and leaves a heap
    that represents its block list (so in particular the chain of structs
    stays well formed, no two free blocks are neighbours, [lfree] is the
    lowest free block and [mem_mutex] is released). *)
Theorem heap_simulation cs a rs bs :
  0 < a < 4294967293 →
  spec_calls cs [(MEM_SIZE_ALIGNED, false)] = Some (rs, bs) →
  ∃ s, run_calls cs (mem_init a)
       = Some (answer (h_ram (mem_init a)) <$> rs, s) ∧ heap_repr s bs.
Proof.
  intros Ha. pose proof (mem_init_repr a Ha) as Hi.
  revert Hi. generalize [(MEM_SIZE_ALIGNED, false)] as bs0. generalize (mem_init a) as s0.
  revert rs. induction cs as [|c cs IH]; intros rs s0 bs0 Hi; simpl.
  - intros [= <- <-]. exists s0. done.
  - destruct (spec_call c bs0) as [[r bs1]|] eqn:Ec; [|done].
    destruct (spec_calls cs bs1) as [[rs' bs2]|] eqn:Es; [|done]. intros [= <- <-].
    destruct (run_call_spec _ _ _ _ _ Hi Ec) as (s1 & E1 & Hi1 & Hr1).
    destruct (IH rs' s1 bs1 Hi1 Es) as (s2 & E2 & Hi2).
    exists s2. split; [|done]. prog_simpl. rewrite E1, E2. by rewrite Hr1.
Qed.

Lemma heap_simulation_witness :
  ∃ s, run_calls [CMalloc 100; CMalloc 5; CMalloc 700; CFree 0; CTrim 128 200;
                  CMalloc 50; CFree 128; CFree 0]
         (mem_init 536870912)
       = Some ([536870920; 536871028; 536871048; 0; 536871048; 536870920; 0; 0], s) ∧
       heap_repr s [(108, false); (20, true); (32640, false)].
Proof.
  apply (heap_simulation
    [CMalloc 100; CMalloc 5; CMalloc 700; CFree 0; CTrim 128 200;
     CMalloc 50; CFree 128; CFree 0] 536870912
    [Some 0; Some 108; Some 128; None; Some 128; Some 0; None; None]);
    [lia | vm_compute; reflexivity].
Defined.

(** The block returned by [mem_malloc] is fresh: the pointer is aligned,
    the [n] bytes behind it lie inside the heap array, they overlap neither
    a live block nor its header, and every block that was live stays live
    with its offset and size, the new one being the only addition. *)
Theorem mem_malloc_fresh s bs n a s' :
  heap_repr s bs → 0 < n ≤ 65532 → mem_malloc n s = Some (a, s') → a ≠ 0 →
  ∃ p z bs', heap_repr s' bs' ∧ a = blk_ptr s' p ∧ h_ram s' = h_ram s ∧
    a mod MEM_ALIGNMENT = 0 ∧
    n ≤ z - SIZEOF_STRUCT_MEM ∧ 0 ≤ p ∧ p + z ≤ MEM_SIZE_ALIGNED ∧
    (∀ q x, (q, x) ∈ live 0 bs' ↔ (q, x) ∈ live 0 bs ∨ (q, x) = (p, z)) ∧
    (∀ q x, (q, x) ∈ live 0 bs → q + x ≤ p ∨ p + z ≤ q).
Proof.
  intros Hi Hn Hm Ha.
  destruct (mem_malloc_live s bs n a s' Hi Hn Hm Ha)
    as (p & z & bs' & R1 & R2 & R3 & R4 & R5 & R6 & R7 & R8 & R9).
  exists p, z, bs'. auto 10.
Qed.

Lemma mem_malloc_fresh_witness :
  let s := mem_init 536870912 in
  ∃ s' p z bs', mem_malloc 100 s = Some (536870920, s') ∧ heap_repr s' bs' ∧
    536870920 = blk_ptr s' p ∧ 100 ≤ z - SIZEOF_STRUCT_MEM.
Proof.
  pose proof (mem_init_repr 536870912 ltac:(lia)) as Hi. cbv zeta.
  destruct (mem_malloc 100 (mem_init 536870912)) as [[a s']|] eqn:E;
    [|vm_compute in E; discriminate].
  assert (Ea : a = 536870920) by (vm_compute in E; injection E as <- _; reflexivity).
  subst a.
  destruct (mem_malloc_fresh _ _ 100 _ _ Hi ltac:(lia) E ltac:(lia))
    as (p & z & bs' & H1 & H2 & _ & _ & H3 & _).
  exists s', p, z, bs'. auto.
Defined.

(** [mem_free] undoes [mem_malloc]: after a successful allocation,
    freeing the pointer gives back a heap with the very block list it had,
    so allocation and release never fragment it by themselves. *)
Theorem mem_malloc_free s bs n a s' :
  heap_repr s bs → 0 < n ≤ 65532 → mem_malloc n s = Some (a, s') → a ≠ 0 →
  ∃ s'', mem_free a s' = Some (tt, s'') ∧ heap_repr s'' bs.
Proof.
  intros Hi Hn Hm Ha0.
  destruct (mem_malloc_spec s bs n Hi Hn) as (s1 & Hr & Hs).
  pose proof (tail_ok _ _ _ _ (hr_tail _ _ _ Hi)) as Hok.
  destruct (spec_alloc _ _ _) as [[p bs']|] eqn:Ea;
    destruct Hs as [E Hi']; rewrite E in Hm; injection Hm as <- <-; [|done].
  pose proof (spec_alloc_free _ _ _ _ (hr_adj _ _ _ Hi) Hok Ea) as Ef.
  apply spec_alloc_inv in Ea as (l & sz & r & Ebs & -> & -> & Hfit).
  assert (∃ z r', taken (req_size n) sz r = (z, true) :: r') as (z & r' & Et).
  { unfold taken. destruct (_ <=? _); eauto. }
  rewrite Et, ?Z.add_0_l in *.
  destruct (mem_free_spec s1 l z r' Hi') as (s2 & E2 & Hi2 & _).
  exists s2. rewrite <- Hr, E2. split; [done|]. by rewrite Ef in Hi2.
Qed.

Lemma mem_malloc_free_witness :
  ∃ s' s'', mem_malloc 1500 (mem_init 536870912) = Some (536870920, s') ∧
    mem_free 536870920 s' = Some (tt, s'') ∧
    heap_repr s'' [(MEM_SIZE_ALIGNED, false)].
Proof.
  pose proof (mem_init_repr 536870912 ltac:(lia)) as Hi.
  destruct (mem_malloc 1500 (mem_init 536870912)) as [[a s']|] eqn:E;
    [|vm_compute in E; discriminate].
  assert (Ea : a = 536870920) by (vm_compute in E; injection E as <- _; reflexivity).
  subst a.
  destruct (mem_malloc_free _ _ 1500 _ _ Hi ltac:(lia) E ltac:(lia)) as (s'' & H1 & H2).
  exists s', s''. auto.
Defined.

(** For the three largest values of [mem_size_t] the rounding of the
    request wraps to 0, and [mem_malloc] answers a block that is smaller
    than the request: from the fresh heap, a 12 byte block. *)
Theorem mem_malloc_wraps n a :
  65533 ≤ n ≤ 65535 → 0 < a < 4294967293 →
  ∃ s, mem_malloc n (mem_init a) = Some (h_ram (mem_init a) + SIZEOF_STRUCT_MEM, s) ∧
       heap_repr s [(SIZEOF_STRUCT_MEM + MIN_SIZE_ALIGNED, true);
                    (MEM_SIZE_ALIGNED - (SIZEOF_STRUCT_MEM + MIN_SIZE_ALIGNED), false)].
Proof.
  intros Hn Ha. pose proof (mem_init_repr a Ha) as Hi.
  assert (E : mem_malloc n (mem_init a) = mem_malloc 1 (mem_init a)).
  { unfold mem_malloc. rewrite (proj2 (Z.eqb_neq n 0)) by lia.
    rewrite !align_size_val by lia.
    replace ((n + 3) / 4 * 4) with 65536 by (Z.to_euclidean_division_equations; lia).
    done. }
  destruct (mem_malloc_spec _ _ 1 Hi ltac:(lia)) as (s & _ & Hs).
  exists s. rewrite E. change (spec_alloc (req_size 1) 0 [(MEM_SIZE_ALIGNED, false)])
    with (Some (0, [(20, true); (32748, false)])) in Hs.
  destruct Hs as [-> Hs]. rewrite Z.add_0_r. done.
Qed.

Lemma mem_malloc_wraps_witness :
  ∃ s, mem_malloc 65534 (mem_init 536870912) = Some (536870920, s) ∧
       heap_repr s [(20, true); (32748, false)].
Proof. apply (mem_malloc_wraps 65534 536870912); lia. Defined.
