(* ===== verification/Memp.v ===== *)
(** * The lwIP memory pools (middlewares/lwip/src/core/memp.c)

    A pool is an array of equal elements; the free ones are linked through
    their first word ([struct memp] holds only [next], since
    [MEMP_OVERFLOW_CHECK] is 0 and [MEMP_SIZE] is 0).  The addresses and the
    sizes of the arrays are fixed by the linker and by the C structures, so
    the descriptors [memp_pools] are a field of the state that no operation
    changes.  [SYS_LIGHTWEIGHT_PROT] is 0: [SYS_ARCH_PROTECT] does nothing. *)

From stdpp Require Import base numbers list gmap option sorting.
From S2P Require Import Prelude Mem MemRefine.

(** ** State *)

Record memp_desc := MempDesc { d_size : Z; d_num : Z; d_base : Z }.

Record pools := Pools {
  p_descs : list memp_desc;    (* memp_pools, constant *)
  p_tab : list Z;              (* *memp_pools[i]->tab *)
  p_next : gmap Z Z            (* memp->next, by address *)
}.

Definition MEMP_SIZE : Z := 0.

(** [memp_t], in the order of priv/memp_std.h for this configuration. *)
Definition MEMP_UDP_PCB : nat := 0.
Definition MEMP_TCP_PCB : nat := 1.
Definition MEMP_TCP_PCB_LISTEN : nat := 2.
Definition MEMP_TCP_SEG : nat := 3.
Definition MEMP_NETBUF : nat := 4.
Definition MEMP_NETCONN : nat := 5.
Definition MEMP_TCPIP_MSG_API : nat := 6.
Definition MEMP_TCPIP_MSG_INPKT : nat := 7.
Definition MEMP_IGMP_GROUP : nat := 8.
Definition MEMP_SYS_TIMEOUT : nat := 9.
Definition MEMP_PBUF : nat := 10.
Definition MEMP_PBUF_POOL : nat := 11.

Definition MEMP_MAX (s : pools) : nat := length (p_descs s).

Definition get_tab (i : nat) : prog pools Z :=
  λ s, match p_tab s !! i with Some p => Some (p, s) | None => None end.
Definition set_tab (i : nat) (p : Z) : prog pools unit :=
  modify (λ s, Pools (p_descs s) (<[i := p]> (p_tab s)) (p_next s)).
Definition get_memp_next (a : Z) : prog pools Z :=
  λ s, match p_next s !! a with Some p => Some (p, s) | None => None end.
Definition set_memp_next (a p : Z) : prog pools unit :=
  modify (λ s, Pools (p_descs s) (p_tab s) (<[a := p]> (p_next s))).

(** ** Operations *)

(** The loop that links the elements, [memp] being the current one. *)
Fixpoint memp_init_loop (n : nat) (i : nat) (size memp : Z) : prog pools unit :=
  match n with
  | O => mret tt
  | S n' =>
      t ← get_tab i;
      set_memp_next memp t ;;
      set_tab i memp ;;
      memp_init_loop n' i size (memp + MEMP_SIZE + size)
  end.

Definition memp_init_pool (i : nat) (desc : memp_desc) : prog pools unit :=
  set_tab i 0 ;;
  memp_init_loop (Z.to_nat (d_num desc)) i (d_size desc) (LWIP_MEM_ALIGN (d_base desc)).

Fixpoint memp_init_all (i : nat) (ds : list memp_desc) : prog pools unit :=
  match ds with
  | [] => mret tt
  | d :: ds' => memp_init_pool i d ;; memp_init_all (S i) ds'
  end.

Definition memp_init : prog pools unit :=
  ds ← gets p_descs; memp_init_all 0 ds.

(** A pool descriptor is named by its index in [memp_pools]. *)
Definition do_memp_malloc_pool (i : nat) : prog pools Z :=
  memp ← get_tab i;
  if negb (memp =? 0) then
    nx ← get_memp_next memp;
    set_tab i nx ;;
    mret (memp + MEMP_SIZE)
  else mret 0.

Definition memp_malloc_pool (desc : option nat) : prog pools Z :=
  match desc with
  | None => mret 0
  | Some i => do_memp_malloc_pool i
  end.

Definition memp_malloc (type : nat) : prog pools Z :=
  max ← gets MEMP_MAX;
  if (type <? max)%nat then do_memp_malloc_pool type else mret 0.

Definition do_memp_free_pool (i : nat) (mem : Z) : prog pools unit :=
  let memp := mem - MEMP_SIZE in
  t ← get_tab i;
  set_memp_next memp t ;;
  set_tab i memp.

Definition memp_free_pool (desc : option nat) (mem : Z) : prog pools unit :=
  match desc with
  | None => mret tt
  | Some i => if mem =? 0 then mret tt else do_memp_free_pool i mem
  end.

Definition memp_free (type : nat) (mem : Z) : prog pools unit :=
  max ← gets MEMP_MAX;
  if (type <? max)%nat then
    if mem =? 0 then mret tt else do_memp_free_pool type mem
  else mret tt.

(** ** Invariant

    For every pool, the free list and the elements handed out are together
    exactly the elements of its array. *)

Fixpoint elems_from (n : nat) (size a : Z) : list Z :=
  match n with O => [] | S n' => a :: elems_from n' size (a + MEMP_SIZE + size) end.

Definition elems (d : memp_desc) : list Z :=
  elems_from (Z.to_nat (d_num d)) (d_size d) (LWIP_MEM_ALIGN (d_base d)).

(** The arrays are disjoint and none holds the null address. *)
Definition descs_ok (ds : list memp_desc) : Prop :=
  NoDup (concat (elems <$> ds)) ∧ 0 ∉ concat (elems <$> ds).

Fixpoint flist (nx : gmap Z Z) (p : Z) (l : list Z) : Prop :=
  match l with
  | [] => p = 0
  | a :: l' => p = a ∧ a ≠ 0 ∧ ∃ q, nx !! a = Some q ∧ flist nx q l'
  end.

Definition pool_inv (s : pools) (i : nat) (d : memp_desc) (fl out : list Z) : Prop :=
  ∃ p, p_tab s !! i = Some p ∧ flist (p_next s) p fl ∧ fl ++ out ≡ₚ elems d.

(** [fl i] is the free list of pool [i], [out i] what it has handed out. *)
Definition pools_inv (s : pools) (fl out : nat → list Z) : Prop :=
  descs_ok (p_descs s) ∧
  ∀ i d, p_descs s !! i = Some d → pool_inv s i d (fl i) (out i).

Definition fupd {A} (f : nat → A) (i : nat) (x : A) : nat → A :=
  λ j, if decide (j = i) then x else f j.

(** ** Lemmas *)

Lemma fupd_eq {A} (f : nat → A) i x : fupd f i x i = x.
Proof. unfold fupd. by rewrite decide_True. Qed.
Lemma fupd_ne {A} (f : nat → A) i j x : j ≠ i → fupd f i x j = f j.
Proof. intros. unfold fupd. by rewrite decide_False. Qed.

Lemma flist_frame nx a v p l : a ∉ l → flist nx p l → flist (<[a := v]> nx) p l.
Proof.
  revert p. induction l as [|b l IH]; intros p Ha; simpl; [done|].
  apply not_elem_of_cons in Ha as [Hb Ha].
  intros (-> & H0 & q & E & H). split_and!; [done | done |].
  exists q. rewrite lookup_insert_ne by done. auto.
Qed.

Lemma elem_of_concat_lookup (ds : list memp_desc) i d a :
  ds !! i = Some d → a ∈ elems d → a ∈ concat (elems <$> ds).
Proof.
  intros Hi Ha. apply list_elem_of_In, in_concat. exists (elems d).
  split; [|by apply list_elem_of_In].
  apply list_elem_of_In, list_elem_of_fmap. exists d.
  split; [done|]. by eapply list_elem_of_lookup_2.
Qed.

Lemma descs_disjoint ds i j d d' a :
  NoDup (concat (elems <$> ds)) → ds !! i = Some d → ds !! j = Some d' → i ≠ j →
  a ∈ elems d → a ∉ elems d'.
Proof.
  revert i j. induction ds as [|e ds IH]; intros [|i] [|j] Hn Hi Hj Hij Ha Ha';
    simpl in *; try done.
  all: apply NoDup_app in Hn as (H1 & H2 & H3).
  - injection Hi as ->. apply (H2 a Ha). by eapply elem_of_concat_lookup.
  - injection Hj as ->. apply (H2 a Ha'). by eapply elem_of_concat_lookup.
  - by apply (IH i j H3 Hi Hj ltac:(congruence) Ha).
Qed.

Lemma elems_NoDup ds i d : NoDup (concat (elems <$> ds)) → ds !! i = Some d → NoDup (elems d).
Proof.
  revert i. induction ds as [|e ds IH]; intros [|i] Hn Hi; simpl in *; try done.
  all: apply NoDup_app in Hn as (H1 & H2 & H3).
  - by injection Hi as ->.
  - eauto.
Qed.

(** Two pools never hold the same element. *)
Lemma pools_inv_disjoint s fl out i j a :
  pools_inv s fl out → (i < MEMP_MAX s)%nat → (j < MEMP_MAX s)%nat → i ≠ j →
  a ∈ fl i ++ out i → a ∉ fl j ++ out j.
Proof.
  intros [[Hn H0] H] Hi Hj Hij Ha Ha'.
  apply lookup_lt_is_Some_2 in Hi as [d Hi]. apply lookup_lt_is_Some_2 in Hj as [d' Hj].
  destruct (H _ _ Hi) as (? & _ & _ & Pi). destruct (H _ _ Hj) as (? & _ & _ & Pj).
  rewrite Pi in Ha. rewrite Pj in Ha'. by eapply (descs_disjoint _ i j).
Qed.

Lemma pools_inv_NoDup s fl out i :
  pools_inv s fl out → (i < MEMP_MAX s)%nat →
  NoDup (fl i ++ out i) ∧ 0 ∉ fl i ++ out i.
Proof.
  intros [[Hn H0] H] Hi. apply lookup_lt_is_Some_2 in Hi as [d Hi].
  destruct (H _ _ Hi) as (? & _ & _ & Pi). rewrite Pi.
  split; [by eapply elems_NoDup|]. intros Hz. apply H0. by eapply elem_of_concat_lookup.
Qed.

Lemma flist_nil nx l : flist nx 0 l → l = [].
Proof. destruct l; [done|]. intros (<- & H & _). done. Qed.

(** [memp_malloc] pops the free list. *)
Lemma memp_malloc_spec s fl out i :
  pools_inv s fl out → (i < MEMP_MAX s)%nat →
  match fl i with
  | [] => memp_malloc i s = Some (0, s)
  | a :: l => ∃ s', memp_malloc i s = Some (a, s') ∧ a ≠ 0 ∧
      p_descs s' = p_descs s ∧ pools_inv s' (fupd fl i l) (fupd out i (a :: out i))
  end.
Proof.
  intros Hinv Hi. pose proof Hinv as [Hok H].
  pose proof Hi as Hi'. apply lookup_lt_is_Some_2 in Hi' as [d Hd].
  destruct (H _ _ Hd) as (p & Et & Hf & Hp).
  unfold memp_malloc, do_memp_malloc_pool. prog_simpl.
  rewrite (proj2 (Nat.ltb_lt _ _)) by done. unfold get_tab. rewrite Et.
  destruct (fl i) as [|a l] eqn:Ef; cbn [flist] in Hf.
  - by subst p.
  - destruct Hf as (-> & H0 & q & En & Hf).
    rewrite (proj2 (Z.eqb_neq _ _)) by done. cbn [negb]. unfold get_memp_next.
    rewrite En. unfold MEMP_SIZE. rewrite Z.add_0_r.
    eexists. split_and!; [reflexivity | done | done |]. split; [done|].
    cbn [p_descs]. intros j e Hj. destruct (decide (j = i)) as [->|Hji].
    + rewrite !fupd_eq. exists q. cbn [p_tab p_next].
      rewrite list_lookup_insert_eq by (by eapply lookup_lt_Some).
      rewrite Hd in Hj. injection Hj as <-.
      split_and!; [done | done |]. by rewrite <- Hp, <- Permutation_middle.
    + rewrite !fupd_ne by done. destruct (H _ _ Hj) as (p' & Et' & Hf' & Hp').
      exists p'. cbn [p_tab p_next]. by rewrite list_lookup_insert_ne.
Qed.

(** [memp_free] pushes an element that was handed out. *)
Lemma memp_free_spec s fl out i a l :
  pools_inv s fl out → (i < MEMP_MAX s)%nat → out i ≡ₚ a :: l →
  ∃ s', memp_free i a s = Some (tt, s') ∧ p_descs s' = p_descs s ∧
        pools_inv s' (fupd fl i (a :: fl i)) (fupd out i l).
Proof.
  intros Hinv Hi Ho. pose proof Hinv as [Hok H].
  pose proof Hi as Hi'. apply lookup_lt_is_Some_2 in Hi' as [d Hd].
  destruct (H _ _ Hd) as (p & Et & Hf & Hp).
  destruct (pools_inv_NoDup _ _ _ _ Hinv Hi) as [Hnd Hz].
  assert (Ha : a ∈ fl i ++ out i) by (rewrite Ho; set_solver).
  assert (Ha0 : a ≠ 0) by congruence.
  unfold memp_free, do_memp_free_pool. prog_simpl.
  rewrite (proj2 (Nat.ltb_lt _ _)) by done.
  rewrite (proj2 (Z.eqb_neq _ _)) by done. unfold get_tab. rewrite Et.
  unfold MEMP_SIZE. rewrite Z.sub_0_r. eexists. split; [reflexivity|].
  cbn [p_descs p_tab p_next]. split; [done|]. split; [done|].
  cbn [p_descs p_tab p_next]. intros j e Hj.
  assert (Hfr : a ∉ fl j).
  { intros Hj'. destruct (decide (j = i)) as [->|Hji].
    - apply NoDup_app in Hnd as (_ & Hd' & _). apply (Hd' a Hj'). rewrite Ho. by left.
    - apply (pools_inv_disjoint _ _ _ i j a Hinv Hi (lookup_lt_Some _ _ _ Hj) (not_eq_sym Hji) Ha).
      apply elem_of_app. by left. }
  destruct (decide (j = i)) as [->|Hji].
  - rewrite !fupd_eq. exists a. cbn [p_tab p_next].
    rewrite list_lookup_insert_eq by (by eapply lookup_lt_Some).
    rewrite Hd in Hj. injection Hj as <-. split; [done|]. split.
    + simpl. split_and!; [done | done |]. exists p.
      rewrite lookup_insert_eq. split; [done | by apply flist_frame].
    + rewrite <- Hp, Ho. simpl. by rewrite Permutation_middle.
  - rewrite !fupd_ne by done. destruct (H _ _ Hj) as (p' & Et' & Hf' & Hp').
    exists p'. cbn [p_tab p_next]. rewrite list_lookup_insert_ne by done.
    split_and!; [done | by apply flist_frame | done].
Qed.

(** ** Initialisation *)

Lemma memp_init_loop_spec n i size a s :
  (i < length (p_tab s))%nat →
  ∀ l, NoDup (elems_from n size a ++ l) → 0 ∉ elems_from n size a →
  (∃ p, p_tab s !! i = Some p ∧ flist (p_next s) p l) →
  ∃ s', memp_init_loop n i size a s = Some (tt, s') ∧
    p_descs s' = p_descs s ∧ length (p_tab s') = length (p_tab s) ∧
    (∀ j, j ≠ i → p_tab s' !! j = p_tab s !! j) ∧
    (∀ b, b ∉ elems_from n size a → p_next s' !! b = p_next s !! b) ∧
    (∃ p, p_tab s' !! i = Some p ∧ flist (p_next s') p (rev (elems_from n size a) ++ l)).
Proof.
  revert a s. induction n as [|n IH]; intros a s Hi l Hnd Hz (p & Et & Hf).
  - exists s. split_and!; try done. eauto.
  - cbn [memp_init_loop elems_from app] in *.
    apply NoDup_cons in Hnd as [Ha Hnd]. apply not_elem_of_cons in Hz as [Ha0 Hz].
    unfold get_tab. prog_simpl. rewrite Et. unfold set_memp_next, set_tab, modify.
    cbn [p_descs p_tab p_next].
    destruct (IH (a + MEMP_SIZE + size)
      (Pools (p_descs s) (<[i := a]> (p_tab s)) (<[a := p]> (p_next s)))) with (l := a :: l)
      as (s' & E & Hd & Hl & Ht & Hn & p' & Et' & Hf').
    + cbn [p_tab]. by rewrite length_insert.
    + rewrite <- Permutation_middle. apply NoDup_cons. done.
    + done.
    + exists a. cbn [p_tab p_next]. rewrite list_lookup_insert_eq by done. split; [done|].
      simpl. split_and!; [done | done |]. exists p. rewrite lookup_insert_eq. split; [done|].
      apply flist_frame; [|done]. set_solver.
    + exists s'. split_and!; [exact E | done | | | |].
      * rewrite Hl. cbn [p_tab]. by rewrite length_insert.
      * intros j Hj. rewrite (Ht j Hj). cbn [p_tab]. by rewrite list_lookup_insert_ne.
      * intros b Hb. apply not_elem_of_cons in Hb as [Hb1 Hb2]. rewrite (Hn b Hb2).
        cbn [p_next]. by rewrite lookup_insert_ne.
      * exists p'. split; [done|]. simpl. by rewrite <- app_assoc.
Qed.

Definition pool_fresh (s : pools) (i : nat) (d : memp_desc) : Prop :=
  pool_inv s i d (rev (elems d)) [].

Lemma memp_init_all_spec ds s i :
  length (p_tab s) = length (p_descs s) → drop i (p_descs s) = ds →
  descs_ok (p_descs s) →
  (∀ j d, (j < i)%nat → p_descs s !! j = Some d → pool_fresh s j d) →
  ∃ s', memp_init_all i ds s = Some (tt, s') ∧ p_descs s' = p_descs s ∧
        ∀ j d, p_descs s' !! j = Some d → pool_fresh s' j d.
Proof.
  revert s i. induction ds as [|d ds IH]; intros s i Hl Hd Hok Hj.
  - exists s. split_and!; [done..|]. intros j e He. apply Hj; [|done].
    apply (f_equal length) in Hd. rewrite length_drop in Hd. simpl in Hd.
    apply lookup_lt_Some in He. lia.
  - assert (Hdi : p_descs s !! i = Some d).
    { rewrite <- (Nat.add_0_r i), <- lookup_drop, Hd. done. }
    assert (Hi : (i < length (p_tab s))%nat) by (rewrite Hl; by eapply lookup_lt_Some).
    cbn [memp_init_all]. unfold memp_init_pool, set_tab, modify.
    set (s0 := Pools (p_descs s) (<[i := 0]> (p_tab s)) (p_next s)).
    destruct (memp_init_loop_spec (Z.to_nat (d_num d)) i (d_size d)
      (LWIP_MEM_ALIGN (d_base d)) s0) with (l := @nil Z)
      as (s1 & E & Hd1 & Hl1 & Ht & Hn & p & Et & Hf).
    + subst s0. cbn [p_tab]. by rewrite length_insert.
    + rewrite app_nil_r. by apply (elems_NoDup _ _ _ (proj1 Hok) Hdi).
    + intros Hz. apply (proj2 Hok). by eapply elem_of_concat_lookup.
    + exists 0. subst s0. cbn [p_tab p_next]. by rewrite list_lookup_insert_eq.
    + subst s0. cbn [p_descs p_tab p_next] in *. rewrite app_nil_r in Hf.
      destruct (IH s1 (S i)) as (s2 & E2 & Hd2 & H2).
      * rewrite Hl1, Hd1, length_insert. done.
      * rewrite Hd1. apply (f_equal (drop 1)) in Hd. rewrite drop_drop in Hd.
        by rewrite Nat.add_1_r in Hd.
      * by rewrite Hd1.
      * intros j e Hji He. rewrite Hd1 in He. destruct (decide (j = i)) as [->|Hne].
        -- rewrite Hdi in He. injection He as <-. exists p. split_and!; [done | done |].
           rewrite app_nil_r. apply Permutation_sym, Permutation_rev.
        -- destruct (Hj j e ltac:(lia) He) as (p' & Et' & Hf' & Hp').
           exists p'. rewrite Ht by done. rewrite list_lookup_insert_ne by done.
           split_and!; [done | | done].
           assert (Hfr : ∀ b, b ∈ rev (elems e) → p_next s1 !! b = p_next s !! b).
           { intros b Hb. apply Hn. intros Hb'. rewrite <- Permutation_rev in Hb.
             exact (descs_disjoint _ _ _ _ _ _ (proj1 Hok) He Hdi Hne Hb Hb'). }
           clear -Hf' Hfr. revert p' Hf'.
           induction (rev (elems e)) as [|b l IH]; intros p'; simpl; [done|].
           intros (-> & H0 & q & Eq & Hq). split_and!; [done..|].
           exists q. rewrite Hfr by set_solver. split; [done|].
           apply IH; [|done]. intros. apply Hfr. set_solver.
      * exists s2. split_and!; [|congruence|done].
        prog_simpl. rewrite E. exact E2.
Qed.

Lemma memp_init_spec s :
  descs_ok (p_descs s) → length (p_tab s) = length (p_descs s) →
  ∃ s', memp_init s = Some (tt, s') ∧ p_descs s' = p_descs s ∧
    pools_inv s' (λ i, rev (default [] (elems <$> p_descs s !! i))) (λ _, []).
Proof.
  intros Hok Hl. destruct (memp_init_all_spec (p_descs s) s 0) as (s' & E & Hd & H);
    [done | done | done | intros; lia |].
  exists s'. split_and!; [exact E | done |]. split; [by rewrite Hd|].
  intros i d Hi. rewrite <- Hd, Hi. simpl. by apply H.
Qed.

(** ** Reachable states

    [out i] is the list of the elements of pool [i] that clients hold.  A
    client may overwrite the first word of an element it holds, and may only
    free what it holds. *)
Inductive memp_reach (s0 : pools) : pools → (nat → list Z) → Prop :=
| reach_init s : memp_init s0 = Some (tt, s) → memp_reach s0 s (λ _, [])
| reach_malloc s out i a s' :
    memp_reach s0 s out → (i < MEMP_MAX s)%nat →
    memp_malloc i s = Some (a, s') → a ≠ 0 →
    memp_reach s0 s' (fupd out i (a :: out i))
| reach_malloc_null s out i s' :
    memp_reach s0 s out → memp_malloc i s = Some (0, s') → memp_reach s0 s' out
| reach_free s out i a l r s' :
    memp_reach s0 s out → (i < MEMP_MAX s)%nat → out i = l ++ a :: r →
    memp_free i a s = Some (tt, s') → memp_reach s0 s' (fupd out i (l ++ r))
| reach_write s out i a v :
    memp_reach s0 s out → (i < MEMP_MAX s)%nat → a ∈ out i →
    memp_reach s0 (Pools (p_descs s) (p_tab s) (<[a := v]> (p_next s))) out.

Lemma memp_reach_inv s0 s out :
  descs_ok (p_descs s0) → length (p_tab s0) = length (p_descs s0) →
  memp_reach s0 s out →
  p_descs s = p_descs s0 ∧ ∃ fl, pools_inv s fl out.
Proof.
  intros Hok Hl. induction 1 as [s E|s out i a s' _ [Hd [fl IH]] Hi E Ha
    |s out i s' _ [Hd [fl IH]] E|s out i a l r s' _ [Hd [fl IH]] Hi Ho E
    |s out i a v _ [Hd [fl IH]] Hi Ha].
  - destruct (memp_init_spec s0 Hok Hl) as (s' & E' & Hd & Hi).
    rewrite E in E'. injection E' as <-. eauto.
  - pose proof (memp_malloc_spec _ _ _ _ IH Hi) as Hm.
    destruct (fl i) as [|b l]; [congruence|].
    destruct Hm as (s1 & E1 & _ & Hd1 & Hi1). rewrite E in E1. injection E1 as <- <-.
    split; [congruence | eauto].
  - destruct (decide (i < MEMP_MAX s)%nat) as [Hi|Hi].
    + pose proof (memp_malloc_spec _ _ _ _ IH Hi) as Hm.
      destruct (fl i) as [|b l].
      * rewrite E in Hm. injection Hm as ->. eauto.
      * destruct Hm as (s1 & E1 & Hb & _). congruence.
    + unfold memp_malloc in E. revert E. prog_simpl.
      rewrite (proj2 (Nat.ltb_ge _ _)) by lia. intros [= ->]. eauto.
  - destruct (memp_free_spec s fl out i a (l ++ r) IH Hi) as (s1 & E1 & Hd1 & Hi1).
    { rewrite Ho. by rewrite Permutation_middle. }
    rewrite E in E1. injection E1 as <-. split; [congruence | eauto].
  - split; [done|]. exists fl. destruct IH as [Hok' H]. split; [done|].
    cbn [p_descs]. intros j d Hj. destruct (H j d Hj) as (p & Et & Hf & Hp).
    exists p. split_and!; [done | | done]. apply flist_frame; [|done].
    intros Hin. assert (Hinv : pools_inv s fl out) by done.
    destruct (decide (j = i)) as [->|Hne].
    + destruct (pools_inv_NoDup _ _ _ _ Hinv Hi) as [Hnd _].
      apply NoDup_app in Hnd as (_ & Hdj & _). exact (Hdj a Hin Ha).
    + apply (pools_inv_disjoint _ _ _ i j a Hinv Hi (lookup_lt_Some _ _ _ Hj) (not_eq_sym Hne)).
      * apply elem_of_app. by right.
      * apply elem_of_app. by left.
Qed.

(** C26: In every state reached by initialising the pools and then calling
    [memp_malloc] and [memp_free] in any order (freeing only what is held,
    and with clients overwriting the elements they hold), [memp_malloc]
    returns: either an element of that pool's array that nobody holds, or
    [NULL], and [NULL] exactly when all [num] elements are held. *)
Theorem memp_malloc_exclusive s0 s out i d :
  descs_ok (p_descs s0) → length (p_tab s0) = length (p_descs s0) →
  memp_reach s0 s out → p_descs s0 !! i = Some d →
  ∃ a s', memp_malloc i s = Some (a, s') ∧
    (a = 0 ↔ length (out i) = Z.to_nat (d_num d)) ∧
    (a ≠ 0 → a ∈ elems d ∧ ∀ j, (j < length (p_descs s0))%nat → a ∉ out j).
Proof.
  intros Hok Hl Hr Hd. destruct (memp_reach_inv _ _ _ Hok Hl Hr) as [Hds [fl Hi]].
  rewrite <- Hds in Hd.
  assert (Hlt : (i < MEMP_MAX s)%nat) by (by eapply lookup_lt_Some).
  destruct (proj2 Hi _ _ Hd) as (p & _ & _ & Hp).
  assert (Hlen : length (fl i ++ out i) = Z.to_nat (d_num d)).
  { rewrite Hp. unfold elems. generalize (LWIP_MEM_ALIGN (d_base d)).
    induction (Z.to_nat (d_num d)); intros; simpl; auto. }
  rewrite length_app in Hlen.
  pose proof (memp_malloc_spec _ _ _ _ Hi Hlt) as Hm.
  destruct (fl i) as [|a l] eqn:Ef.
  - exists 0, s. split_and!; [done | split; [intros; simpl in Hlen; lia | done] | done].
  - destruct Hm as (s' & E & Ha & _). exists a, s'. split_and!; [done | |].
    + split; [done|]. simpl in Hlen. lia.
    + intros _. rewrite <- Hp. split; [by left|]. intros j Hj Hin.
      destruct (decide (j = i)) as [->|Hne].
      * destruct (pools_inv_NoDup _ _ _ _ Hi Hlt) as [Hnd _]. rewrite Ef in Hnd.
        apply NoDup_app in Hnd as (_ & Hdj & _). apply (Hdj a); [by left | done].
      * unfold MEMP_MAX in *. rewrite <- Hds in Hj.
        apply (pools_inv_disjoint _ _ _ i j a Hi Hlt Hj (not_eq_sym Hne)).
        -- rewrite Ef. by left.
        -- apply elem_of_app. by right.
Qed.

(** The pbuf pools of the configuration, at example addresses. *)
Definition example_pools : pools :=
  Pools [MempDesc 16 100 537000001; MempDesc 1540 10 537010000] [0; 0] ∅.

Lemma memp_malloc_exclusive_witness :
  ∃ s, memp_init example_pools = Some (tt, s) ∧
  ∃ a s', memp_malloc 1 s = Some (a, s') ∧ (a = 0 ↔ 0%nat = 10%nat) ∧
          (a ≠ 0 → a ∈ elems (MempDesc 1540 10 537010000)).
Proof.
  destruct (memp_init example_pools) as [[[] s]|] eqn:E; [|vm_compute in E; discriminate].
  exists s. split; [done|].
  assert (Hok : descs_ok (p_descs example_pools)).
  { split; refine (bool_decide_unpack _ _); vm_compute; exact I. }
  destruct (memp_malloc_exclusive example_pools s (λ _, []) 1
    (MempDesc 1540 10 537010000) Hok eq_refl (reach_init _ _ E) eq_refl)
    as (a & s' & H1 & H2 & H3).
  exists a, s'. split_and!; [done | exact H2 | intros Ha; apply (H3 Ha)].
Defined.
