(* ===== verification/Pbuf.v ===== *)
(** * Packet buffers (middlewares/lwip/src/core/pbuf.c)

    A pbuf is a [struct pbuf] at an address; the structs are kept in a map,
    from which a freed pbuf is removed, so that using it again is stuck.  The
    payload bytes are in the byte memory.  The heap and the pools are the
    states of [Mem] and [Memp].  Configuration: no custom pbufs, no
    out-of-sequence queueing, [ETH_PAD_SIZE] 0, IPv4 only.

    Loops over a chain carry fuel; [chain_fuel] is enough for every chain
    that ends (lemma [pchain_fuel] of [PbufLemmas]). *)

From stdpp Require Import base numbers list gmap option.
From S2P Require Import Prelude Mem Memp.

(** ** Data *)

Inductive pbuf_layer := PBUF_TRANSPORT | PBUF_IP | PBUF_LINK | PBUF_RAW_TX | PBUF_RAW.
Inductive pbuf_type := PBUF_RAM | PBUF_ROM | PBUF_REF | PBUF_POOL.

#[global] Instance pbuf_type_eq_dec : EqDecision pbuf_type.
Proof. solve_decision. Defined.

Record pbuf := MkPbuf {
  pb_next : Z;
  pb_payload : Z;
  pb_tot_len : Z;
  pb_len : Z;
  pb_type : pbuf_type;
  pb_flags : Z;
  pb_ref : Z
}.

Record pstate := PState {
  ps_pbufs : gmap Z pbuf;
  ps_bytes : bmem;
  ps_heap : heap;
  ps_pools : pools
}.

(** ** Constants *)

Definition PBUF_LINK_ENCAPSULATION_HLEN : Z := 0.
Definition PBUF_LINK_HLEN : Z := 14.
Definition PBUF_IP_HLEN : Z := 20.
Definition PBUF_TRANSPORT_HLEN : Z := 20.
(** [sizeof(struct pbuf)] is 16. *)
Definition SIZEOF_STRUCT_PBUF : Z := Eval cbv in LWIP_MEM_ALIGN_SIZE 16.
Definition PBUF_POOL_BUFSIZE : Z := 1524.
Definition PBUF_POOL_BUFSIZE_ALIGNED : Z := Eval cbv in LWIP_MEM_ALIGN_SIZE PBUF_POOL_BUFSIZE.

Definition ERR_OK : Z := 0.
Definition ERR_MEM : Z := -1.
Definition ERR_VAL : Z := -6.
Definition ERR_USE : Z := -8.
Definition ERR_ARG : Z := -16.

(** ** Access to the state *)

Definition on_heap {A} (m : prog heap A) : prog pstate A :=
  λ s, match m (ps_heap s) with
       | Some (a, h) => Some (a, PState (ps_pbufs s) (ps_bytes s) h (ps_pools s))
       | None => None
       end.
Definition on_pools {A} (m : prog pools A) : prog pstate A :=
  λ s, match m (ps_pools s) with
       | Some (a, q) => Some (a, PState (ps_pbufs s) (ps_bytes s) (ps_heap s) q)
       | None => None
       end.

(** [*p]; stuck when there is no pbuf at [p]. *)
Definition deref (p : Z) : prog pstate pbuf :=
  λ s, match ps_pbufs s !! p with Some b => Some (b, s) | None => None end.
Definition set_pbufs (m : gmap Z pbuf) : prog pstate unit :=
  modify (λ s, PState m (ps_bytes s) (ps_heap s) (ps_pools s)).
Definition upd_pbuf (p : Z) (f : pbuf → pbuf) : prog pstate unit :=
  b ← deref p; m ← gets ps_pbufs; set_pbufs (<[p := f b]> m).

(** The contents of a pbuf that has just been allocated: garbage. *)
Definition pbuf_uninit : pbuf :=
  MkPbuf 3452816845 3452816845 52685 52685 PBUF_REF 205 52685.
Definition new_pbuf (p : Z) : prog pstate unit :=
  m ← gets ps_pbufs; set_pbufs (<[p := pbuf_uninit]> m).
Definition del_pbuf (p : Z) : prog pstate unit :=
  m ← gets ps_pbufs; set_pbufs (delete p m).

Definition with_next (v : Z) (b : pbuf) : pbuf :=
  MkPbuf v (pb_payload b) (pb_tot_len b) (pb_len b) (pb_type b) (pb_flags b) (pb_ref b).
Definition with_payload (v : Z) (b : pbuf) : pbuf :=
  MkPbuf (pb_next b) v (pb_tot_len b) (pb_len b) (pb_type b) (pb_flags b) (pb_ref b).
Definition with_tot_len (v : Z) (b : pbuf) : pbuf :=
  MkPbuf (pb_next b) (pb_payload b) v (pb_len b) (pb_type b) (pb_flags b) (pb_ref b).
Definition with_len (v : Z) (b : pbuf) : pbuf :=
  MkPbuf (pb_next b) (pb_payload b) (pb_tot_len b) v (pb_type b) (pb_flags b) (pb_ref b).
Definition with_type (v : pbuf_type) (b : pbuf) : pbuf :=
  MkPbuf (pb_next b) (pb_payload b) (pb_tot_len b) (pb_len b) v (pb_flags b) (pb_ref b).
Definition with_flags (v : Z) (b : pbuf) : pbuf :=
  MkPbuf (pb_next b) (pb_payload b) (pb_tot_len b) (pb_len b) (pb_type b) v (pb_ref b).
Definition with_ref (v : Z) (b : pbuf) : pbuf :=
  MkPbuf (pb_next b) (pb_payload b) (pb_tot_len b) (pb_len b) (pb_type b) (pb_flags b) v.

(** [MEMCPY] on the byte memory. *)
Definition MEMCPY (dst src n : Z) : prog pstate unit :=
  λ s, match memcpy (ps_bytes s) dst src n with
       | Some m => Some (tt, PState (ps_pbufs s) m (ps_heap s) (ps_pools s))
       | None => None
       end.
Definition load8 (a : Z) : prog pstate Z :=
  λ s, match ps_bytes s !! a with Some b => Some (b, s) | None => None end.
Definition store8 (a v : Z) : prog pstate unit :=
  λ s, match store_bytes (ps_bytes s) a [v] with
       | Some m => Some (tt, PState (ps_pbufs s) m (ps_heap s) (ps_pools s))
       | None => None
       end.

Definition chain_fuel (s : pstate) : nat := S (S (size (ps_pbufs s))).

(** ** pbuf_free *)

(** The release of one pbuf, according to where it came from. *)
Definition pbuf_dealloc (p : Z) (type : pbuf_type) : prog pstate unit :=
  del_pbuf p ;;
  match type with
  | PBUF_POOL => on_pools (memp_free MEMP_PBUF_POOL p)
  | PBUF_ROM | PBUF_REF => on_pools (memp_free MEMP_PBUF p)
  | PBUF_RAM => on_heap (mem_free p)
  end.

Fixpoint pbuf_free_loop (fuel : nat) (p count : Z) : prog pstate Z :=
  match fuel with
  | O => stuck
  | S fuel' =>
      if p =? 0 then mret count else
      b ← deref p;
      let ref := u16 (pb_ref b - 1) in
      upd_pbuf p (with_ref ref) ;;
      if ref =? 0 then
        pbuf_dealloc p (pb_type b) ;;
        pbuf_free_loop fuel' (pb_next b) (u8 (count + 1))
      else mret count
  end.

Definition pbuf_free (p : Z) : prog pstate Z :=
  if p =? 0 then mret 0 else
  fuel ← gets chain_fuel;
  pbuf_free_loop fuel p 0.

(** ** pbuf_alloc *)

Definition layer_offset (layer : pbuf_layer) : Z :=
  match layer with
  | PBUF_TRANSPORT =>
      PBUF_LINK_ENCAPSULATION_HLEN + PBUF_LINK_HLEN + PBUF_IP_HLEN + PBUF_TRANSPORT_HLEN
  | PBUF_IP => PBUF_LINK_ENCAPSULATION_HLEN + PBUF_LINK_HLEN + PBUF_IP_HLEN
  | PBUF_LINK => PBUF_LINK_ENCAPSULATION_HLEN + PBUF_LINK_HLEN
  | PBUF_RAW_TX => PBUF_LINK_ENCAPSULATION_HLEN
  | PBUF_RAW => 0
  end.

(** The tail of a pool chain: [p] is its head, [r] the last pbuf so far. *)
Fixpoint pbuf_alloc_tail (fuel : nat) (p r rem_len : Z) : prog pstate bool :=
  match fuel with
  | O => stuck
  | S fuel' =>
      if 0 <? rem_len then
        q ← on_pools (memp_malloc MEMP_PBUF_POOL);
        if q =? 0 then pbuf_free p ;; mret false else
        new_pbuf q ;;
        upd_pbuf q (with_type PBUF_POOL) ;;
        upd_pbuf q (with_flags 0) ;;
        upd_pbuf q (with_next 0) ;;
        upd_pbuf r (with_next q) ;;
        upd_pbuf q (with_tot_len (u16 rem_len)) ;;
        let len := Z.min (u16 rem_len) PBUF_POOL_BUFSIZE_ALIGNED in
        upd_pbuf q (with_len len) ;;
        upd_pbuf q (with_payload (q + SIZEOF_STRUCT_PBUF)) ;;
        upd_pbuf q (with_ref 1) ;;
        pbuf_alloc_tail fuel' p q (rem_len - len)
      else mret true
  end.

Definition pbuf_alloc_pool (offset length : Z) : prog pstate Z :=
  p ← on_pools (memp_malloc MEMP_PBUF_POOL);
  if p =? 0 then mret 0 else
  new_pbuf p ;;
  upd_pbuf p (with_type PBUF_POOL) ;;
  upd_pbuf p (with_next 0) ;;
  upd_pbuf p (with_payload (LWIP_MEM_ALIGN (p + (SIZEOF_STRUCT_PBUF + offset)))) ;;
  upd_pbuf p (with_tot_len length) ;;
  let len := Z.min length (PBUF_POOL_BUFSIZE_ALIGNED - LWIP_MEM_ALIGN_SIZE offset) in
  upd_pbuf p (with_len len) ;;
  upd_pbuf p (with_ref 1) ;;
  ok ← pbuf_alloc_tail (S (Z.to_nat length)) p p (length - len);
  mret (if ok : bool then p else 0).

Definition pbuf_alloc_ram (offset length : Z) : prog pstate Z :=
  let alloc_len := u16 (LWIP_MEM_ALIGN_SIZE (SIZEOF_STRUCT_PBUF + offset)
                        + LWIP_MEM_ALIGN_SIZE length) in
  if alloc_len <? LWIP_MEM_ALIGN_SIZE length then mret 0 else
  p ← on_heap (mem_malloc alloc_len);
  if p =? 0 then mret 0 else
  new_pbuf p ;;
  upd_pbuf p (with_payload (LWIP_MEM_ALIGN (p + SIZEOF_STRUCT_PBUF + offset))) ;;
  upd_pbuf p (with_tot_len length) ;;
  upd_pbuf p (with_len length) ;;
  upd_pbuf p (with_next 0) ;;
  upd_pbuf p (with_type PBUF_RAM) ;;
  mret p.

Definition pbuf_alloc_ref (length : Z) (type : pbuf_type) : prog pstate Z :=
  p ← on_pools (memp_malloc MEMP_PBUF);
  if p =? 0 then mret 0 else
  new_pbuf p ;;
  upd_pbuf p (with_payload 0) ;;
  upd_pbuf p (with_tot_len length) ;;
  upd_pbuf p (with_len length) ;;
  upd_pbuf p (with_next 0) ;;
  upd_pbuf p (with_type type) ;;
  mret p.

Definition pbuf_alloc (layer : pbuf_layer) (length : Z) (type : pbuf_type) : prog pstate Z :=
  let offset := layer_offset layer in
  p ← match type with
      | PBUF_POOL => pbuf_alloc_pool offset length
      | PBUF_RAM => pbuf_alloc_ram offset length
      | PBUF_ROM | PBUF_REF => pbuf_alloc_ref length type
      end;
  if p =? 0 then mret 0 else
  upd_pbuf p (with_ref 1) ;;
  upd_pbuf p (with_flags 0) ;;
  mret p.

(** ** pbuf_realloc *)

(** Step over the pbufs that stay whole; answers the last one and what is
    left of the length there. *)
Fixpoint pbuf_realloc_walk (fuel : nat) (q rem_len grow : Z) : prog pstate (Z * Z) :=
  match fuel with
  | O => stuck
  | S fuel' =>
      b ← deref q;
      if pb_len b <? rem_len then
        upd_pbuf q (λ b, with_tot_len (u16 (pb_tot_len b + u16 grow)) b) ;;
        pbuf_realloc_walk fuel' (pb_next b) (u16 (rem_len - pb_len b)) grow
      else mret (q, rem_len)
  end.

Definition pbuf_realloc (p new_len : Z) : prog pstate unit :=
  b ← deref p;
  if pb_tot_len b <=? new_len then mret tt else
  let grow := new_len - pb_tot_len b in
  fuel ← gets chain_fuel;
  '(q, rem_len) ← pbuf_realloc_walk fuel p new_len grow;
  b ← deref q;
  q ← (if bool_decide (pb_type b = PBUF_RAM) && negb (rem_len =? pb_len b)
       then on_heap (mem_trim q (u16 (u16 (pb_payload b - q) + rem_len)))
       else mret q);
  upd_pbuf q (with_len rem_len) ;;
  upd_pbuf q (with_tot_len rem_len) ;;
  b ← deref q;
  when (negb (pb_next b =? 0)) (_ ← pbuf_free (pb_next b); mret tt) ;;
  upd_pbuf q (with_next 0).

(** ** pbuf_header *)

Definition pbuf_header_impl (p header_size_increment : Z) (force : bool) : prog pstate Z :=
  if (header_size_increment =? 0) || (p =? 0) then mret 0 else
  b ← deref p;
  let increment_magnitude :=
    if header_size_increment <? 0 then u16 (- header_size_increment)
    else u16 header_size_increment in
  if (header_size_increment <? 0) && negb (increment_magnitude <=? pb_len b) then mret 1 else
  ok ← match pb_type b with
       | PBUF_RAM | PBUF_POOL =>
           upd_pbuf p (with_payload (pb_payload b - header_size_increment)) ;;
           if pb_payload b - header_size_increment <? p + SIZEOF_STRUCT_PBUF then
             upd_pbuf p (with_payload (pb_payload b)) ;; mret false
           else mret true
       | PBUF_REF | PBUF_ROM =>
           if (header_size_increment <? 0) && (increment_magnitude <=? pb_len b) then
             upd_pbuf p (with_payload (pb_payload b - header_size_increment)) ;; mret true
           else if (0 <? header_size_increment) && force then
             upd_pbuf p (with_payload (pb_payload b - header_size_increment)) ;; mret true
           else mret false
       end;
  if negb ok then mret 1 else
  upd_pbuf p (λ b, with_len (u16 (pb_len b + header_size_increment)) b) ;;
  upd_pbuf p (λ b, with_tot_len (u16 (pb_tot_len b + header_size_increment)) b) ;;
  mret 0.

Definition pbuf_header (p header_size_increment : Z) : prog pstate Z :=
  pbuf_header_impl p header_size_increment false.
Definition pbuf_header_force (p header_size_increment : Z) : prog pstate Z :=
  pbuf_header_impl p header_size_increment true.

(** ** Chains *)

Fixpoint pbuf_clen_loop (fuel : nat) (p len : Z) : prog pstate Z :=
  match fuel with
  | O => stuck
  | S fuel' =>
      if p =? 0 then mret len else
      b ← deref p; pbuf_clen_loop fuel' (pb_next b) (u16 (len + 1))
  end.
Definition pbuf_clen (p : Z) : prog pstate Z :=
  fuel ← gets chain_fuel; pbuf_clen_loop fuel p 0.

Definition pbuf_ref (p : Z) : prog pstate unit :=
  when (negb (p =? 0)) (upd_pbuf p (λ b, with_ref (u16 (pb_ref b + 1)) b)).

(** The walk of [pbuf_cat] to the last pbuf. *)
Fixpoint pbuf_cat_loop (fuel : nat) (p t : Z) : prog pstate Z :=
  match fuel with
  | O => stuck
  | S fuel' =>
      b ← deref p;
      if pb_next b =? 0 then mret p else
      tb ← deref t;
      upd_pbuf p (λ b, with_tot_len (u16 (pb_tot_len b + pb_tot_len tb)) b) ;;
      pbuf_cat_loop fuel' (pb_next b) t
  end.

Definition pbuf_cat (h t : Z) : prog pstate unit :=
  if negb (negb (h =? 0) && negb (t =? 0)) then mret tt else
  fuel ← gets chain_fuel;
  p ← pbuf_cat_loop fuel h t;
  tb ← deref t;
  upd_pbuf p (λ b, with_tot_len (u16 (pb_tot_len b + pb_tot_len tb)) b) ;;
  upd_pbuf p (with_next t).

Definition pbuf_chain (h t : Z) : prog pstate unit :=
  pbuf_cat h t ;; pbuf_ref t.

Definition pbuf_dechain (p : Z) : prog pstate Z :=
  b ← deref p;
  let q := pb_next b in
  tail_gone ← (if negb (q =? 0) then
    upd_pbuf q (with_tot_len (u16 (pb_tot_len b - pb_len b))) ;;
    upd_pbuf p (with_next 0) ;;
    upd_pbuf p (with_tot_len (pb_len b)) ;;
    pbuf_free q
  else mret 1);
  mret (if 0 <? tail_gone then 0 else q).

(** ** Copying *)

(** The body of [pbuf_copy] is a [do ... while (p_from)] loop. *)
Fixpoint pbuf_copy_loop (fuel : nat) (p_to offset_to p_from offset_from : Z) : prog pstate Z :=
  match fuel with
  | O => stuck
  | S fuel' =>
      bt ← deref p_to;
      bf ← deref p_from;
      let len := if pb_len bf - offset_from <=? pb_len bt - offset_to
                 then u16 (pb_len bf - offset_from) else u16 (pb_len bt - offset_to) in
      MEMCPY (pb_payload bt + offset_to) (pb_payload bf + offset_from) len ;;
      let offset_to := u16 (offset_to + len) in
      let offset_from := u16 (offset_from + len) in
      let '(p_from, offset_from) :=
        if pb_len bf <=? offset_from then (pb_next bf, 0) else (p_from, offset_from) in
      let '(p_to', offset_to) :=
        if offset_to =? pb_len bt then (pb_next bt, 0) else (p_to, offset_to) in
      if (offset_to =? 0) && (p_to' =? 0) && negb (p_from =? 0) then mret ERR_ARG else
      qf ← (if negb (p_from =? 0) then
              bf ← deref p_from;
              mret ((pb_len bf =? pb_tot_len bf) && negb (pb_next bf =? 0))
            else mret false);
      if qf : bool then mret ERR_VAL else
      qt ← (if negb (p_to' =? 0) then
              bt ← deref p_to';
              mret ((pb_len bt =? pb_tot_len bt) && negb (pb_next bt =? 0))
            else mret false);
      if qt : bool then mret ERR_VAL else
      if negb (p_from =? 0) then pbuf_copy_loop fuel' p_to' offset_to p_from offset_from
      else mret ERR_OK
  end.

Definition pbuf_copy (p_to p_from : Z) : prog pstate Z :=
  if (p_to =? 0) || (p_from =? 0) then mret ERR_ARG else
  bt ← deref p_to;
  bf ← deref p_from;
  if pb_tot_len bt <? pb_tot_len bf then mret ERR_ARG else
  fuel ← gets chain_fuel;
  pbuf_copy_loop (fuel + fuel) p_to 0 p_from 0.

Fixpoint pbuf_copy_partial_loop (fuel : nat) (p dataptr left len offset copied_total : Z)
    : prog pstate Z :=
  match fuel with
  | O => stuck
  | S fuel' =>
      if negb (len =? 0) && negb (p =? 0) then
        b ← deref p;
        if negb (offset =? 0) && (pb_len b <=? offset) then
          pbuf_copy_partial_loop fuel' (pb_next b) dataptr left len
            (u16 (offset - pb_len b)) copied_total
        else
          let buf_copy_len := u16 (pb_len b - offset) in
          let buf_copy_len := if len <? buf_copy_len then len else buf_copy_len in
          MEMCPY (dataptr + left) (pb_payload b + offset) buf_copy_len ;;
          pbuf_copy_partial_loop fuel' (pb_next b) dataptr (u16 (left + buf_copy_len))
            (u16 (len - buf_copy_len)) 0 (u16 (copied_total + buf_copy_len))
      else mret copied_total
  end.

Definition pbuf_copy_partial (buf dataptr len offset : Z) : prog pstate Z :=
  if buf =? 0 then mret 0 else
  if dataptr =? 0 then mret 0 else
  fuel ← gets chain_fuel;
  pbuf_copy_partial_loop fuel buf dataptr 0 len offset 0.

Fixpoint pbuf_skip_loop (fuel : nat) (q offset_left : Z) : prog pstate (Z * Z) :=
  match fuel with
  | O => stuck
  | S fuel' =>
      if q =? 0 then mret (q, offset_left) else
      b ← deref q;
      if pb_len b <=? offset_left
      then pbuf_skip_loop fuel' (pb_next b) (u16 (offset_left - pb_len b))
      else mret (q, offset_left)
  end.

(** The pbuf and [*out_offset]. *)
Definition pbuf_skip_const (p_in in_offset : Z) : prog pstate (Z * Z) :=
  fuel ← gets chain_fuel; pbuf_skip_loop fuel p_in in_offset.
Definition pbuf_skip (p_in in_offset : Z) : prog pstate (Z * Z) :=
  pbuf_skip_const p_in in_offset.

Fixpoint pbuf_take_loop (fuel : nat) (p dataptr total_copy_len copied_total : Z)
    : prog pstate unit :=
  match fuel with
  | O => stuck
  | S fuel' =>
      if total_copy_len =? 0 then mret tt else
      b ← deref p;
      let buf_copy_len := if pb_len b <? total_copy_len then pb_len b else total_copy_len in
      MEMCPY (pb_payload b) (dataptr + copied_total) buf_copy_len ;;
      pbuf_take_loop fuel' (pb_next b) dataptr (u16 (total_copy_len - buf_copy_len))
        (u16 (copied_total + buf_copy_len))
  end.

Definition pbuf_take (buf dataptr len : Z) : prog pstate Z :=
  if buf =? 0 then mret ERR_ARG else
  if dataptr =? 0 then mret ERR_ARG else
  b ← deref buf;
  if pb_tot_len b <? len then mret ERR_MEM else
  fuel ← gets chain_fuel;
  pbuf_take_loop fuel buf dataptr len 0 ;;
  mret ERR_OK.

Definition pbuf_take_at (buf dataptr len offset : Z) : prog pstate Z :=
  '(q, target_offset) ← pbuf_skip buf offset;
  if q =? 0 then mret ERR_MEM else
  b ← deref q;
  if target_offset + len <=? pb_tot_len b then
    let first_copy_len := u16 (Z.min (pb_len b - target_offset) len) in
    MEMCPY (pb_payload b + target_offset) dataptr first_copy_len ;;
    let remaining_len := u16 (len - first_copy_len) in
    if 0 <? remaining_len
    then pbuf_take (pb_next b) (dataptr + first_copy_len) remaining_len
    else mret ERR_OK
  else mret ERR_MEM.

Definition pbuf_coalesce (p : Z) (layer : pbuf_layer) : prog pstate Z :=
  b ← deref p;
  if pb_next b =? 0 then mret p else
  q ← pbuf_alloc layer (pb_tot_len b) PBUF_RAM;
  if q =? 0 then mret p else
  _ ← pbuf_copy q p;
  _ ← pbuf_free p;
  mret q.

(** ** Bytes of a chain *)

Definition pbuf_try_get_at (p offset : Z) : prog pstate Z :=
  '(q, q_idx) ← pbuf_skip_const p offset;
  if q =? 0 then mret (-1) else
  b ← deref q;
  if q_idx <? pb_len b then load8 (pb_payload b + q_idx) else mret (-1).

Definition pbuf_get_at (p offset : Z) : prog pstate Z :=
  ret ← pbuf_try_get_at p offset;
  mret (if 0 <=? ret then u8 ret else 0).

Definition pbuf_put_at (p offset data : Z) : prog pstate unit :=
  '(q, q_idx) ← pbuf_skip p offset;
  if q =? 0 then mret tt else
  b ← deref q;
  if q_idx <? pb_len b then store8 (pb_payload b + q_idx) data else mret tt.

(** The comparison loop, [k] iterations from [i] on. *)
Fixpoint pbuf_memcmp_loop (k : nat) (q start s2 i : Z) : prog pstate Z :=
  match k with
  | O => mret 0
  | S k' =>
      a ← pbuf_get_at q (u16 (start + i));
      b ← load8 (s2 + i);
      if negb (a =? b) then mret (u16 (i + 1))
      else pbuf_memcmp_loop k' q start s2 (i + 1)
  end.

Definition pbuf_memcmp (p offset s2 n : Z) : prog pstate Z :=
  b ← deref p;
  if pb_tot_len b <? offset + n then mret 65535 else
  fuel ← gets chain_fuel;
  '(q, start) ← pbuf_skip_loop fuel p offset;
  pbuf_memcmp_loop (Z.to_nat n) q start s2 0.

Fixpoint pbuf_memfind_loop (fuel : nat) (p mem mem_len i max : Z) : prog pstate Z :=
  match fuel with
  | O => stuck
  | S fuel' =>
      if i <=? max then
        plus ← pbuf_memcmp p i mem mem_len;
        if plus =? 0 then mret i
        else pbuf_memfind_loop fuel' p mem mem_len (u16 (i + 1)) max
      else mret 65535
  end.

Definition pbuf_memfind (p mem mem_len start_offset : Z) : prog pstate Z :=
  b ← deref p;
  let max := u16 (pb_tot_len b - mem_len) in
  if mem_len + start_offset <=? pb_tot_len b
  then pbuf_memfind_loop (Z.to_nat 65537) p mem mem_len start_offset max
  else mret 65535.

(** [strlen], reading at most [fuel] bytes. *)
Fixpoint strlen_from (fuel : nat) (a : Z) : prog pstate Z :=
  match fuel with
  | O => stuck
  | S fuel' =>
      c ← load8 a;
      if c =? 0 then mret 0 else n ← strlen_from fuel' (a + 1); mret (n + 1)
  end.

Definition pbuf_strstr (p substr : Z) : prog pstate Z :=
  if substr =? 0 then mret 65535 else
  c ← load8 substr;
  if c =? 0 then mret 65535 else
  b ← deref p;
  if pb_tot_len b =? 65535 then mret 65535 else
  fuel ← gets (λ s, S (size (ps_bytes s)));
  substr_len ← strlen_from fuel substr;
  if 65535 <=? substr_len then mret 65535 else
  pbuf_memfind p substr (u16 substr_len) 0.
