(* ===== verification/PbufLemmas.v ===== *)
(** * Chains of pbufs: representation and shared lemmas

    A chain is the list of its pbufs with their addresses; its contents are
    the concatenated payloads.  The lemmas here carry the properties of
    [PbufProps]. *)

From stdpp Require Import base numbers list gmap option.
From S2P Require Import Prelude Mem Memp Pbuf.

Abbreviation chain := (list (Z * pbuf)).

Fixpoint pchain (m : gmap Z pbuf) (p : Z) (l : chain) : Prop :=
  match l with
  | [] => p = 0
  | (a, b) :: l' => p = a ∧ a ≠ 0 ∧ m !! a = Some b ∧ pchain m (pb_next b) l'
  end.

Fixpoint lens (l : chain) : Z :=
  match l with [] => 0 | (_, b) :: l' => pb_len b + lens l' end.

(** [tot_len] is the length of the rest of the chain, and 16 bits hold it. *)
Fixpoint lens_ok (l : chain) : Prop :=
  match l with
  | [] => True
  | (_, b) :: l' => 0 ≤ pb_len b ∧ pb_tot_len b = lens ((0, b) :: l') ∧
                    pb_tot_len b < 65536 ∧ lens_ok l'
  end.

(** The contents. *)
Fixpoint pbytes (m : bmem) (l : chain) : option bytes :=
  match l with
  | [] => Some []
  | (_, b) :: l' =>
      match load_bytes m (pb_payload b) (Z.to_nat (pb_len b)), pbytes m l' with
      | Some x, Some y => Some (x ++ y)
      | _, _ => None
      end
  end.

(** The area [a .. a+n) meets no payload of the chain. *)
Definition clear_of (a n : Z) (l : chain) : Prop :=
  Forall (λ '(_, b), disjoint_range a n (pb_payload b) (pb_len b)) l.

(** The payloads do not overlap each other. *)
Fixpoint payloads_disjoint (l : chain) : Prop :=
  match l with
  | [] => True
  | (_, b) :: l' => clear_of (pb_payload b) (pb_len b) l' ∧ payloads_disjoint l'
  end.

Definition mapped (m : bmem) (a n : Z) : Prop :=
  ∀ i, a ≤ i < a + n → is_Some (m !! i).

Definition set_bytes (s : pstate) (m : bmem) : pstate :=
  PState (ps_pbufs s) m (ps_heap s) (ps_pools s).

(** ** The list behind a chain *)

Lemma pchain_det m p l1 l2 : pchain m p l1 → pchain m p l2 → l1 = l2.
Proof.
  revert p l2. induction l1 as [|[a b] l1 IH]; intros p [|[a' b'] l2]; simpl.
  - done.
  - intros -> (<- & H & _). done.
  - intros (<- & H & _) ->. done.
  - intros (-> & _ & E & H1) (<- & _ & E' & H2). rewrite E in E'. injection E' as <-.
    f_equal. eauto.
Qed.

Lemma pchain_app m p l1 l2 :
  pchain m p (l1 ++ l2) → ∃ q, pchain m q l2.
Proof.
  revert p. induction l1 as [|[a b] l1 IH]; intros p; simpl; [eauto|].
  intros (_ & _ & _ & H). eauto.
Qed.

Lemma pchain_NoDup m p l : pchain m p l → NoDup l.*1.
Proof.
  revert p. induction l as [|[a b] l IH]; intros p H; simpl; [constructor|].
  constructor; [|destruct H as (_ & _ & _ & H); eauto].
  intros ([a' b'] & Ha & Hin)%list_elem_of_fmap. simpl in Ha. subst a'.
  pose proof H as (_ & _ & E & Ht).
  apply list_elem_of_split in Hin as (l1 & l2 & ->).
  apply pchain_app in Ht as [q Hq]. pose proof Hq as (-> & H0 & E' & Hq').
  rewrite E in E'. injection E' as <-.
  pose proof (pchain_det m a ((a, b) :: l1 ++ (a, b) :: l2) ((a, b) :: l2)) as Hd.
  assert (Hl : length ((a, b) :: l1 ++ (a, b) :: l2) = length ((a, b) :: l2)).
  { f_equal. apply Hd; [|exact Hq]. destruct H as (_ & ? & ? & ?). done. }
  simpl in Hl. rewrite length_app in Hl. simpl in Hl. lia.
Qed.

Lemma pchain_lookup m p l a b : pchain m p l → (a, b) ∈ l → m !! a = Some b ∧ a ≠ 0.
Proof.
  revert p. induction l as [|[a' b'] l IH]; intros p; simpl.
  - by intros _ ?%elem_of_nil.
  - intros (_ & H0 & E & H) [[= -> ->]|Hin]%elem_of_cons; eauto.
Qed.

Lemma pchain_size m p l : pchain m p l → (length l ≤ size m)%nat.
Proof.
  intros H. rewrite <- (length_fmap fst), <- size_dom.
  rewrite <- (size_list_to_set (C := gset Z) (l.*1)) by (by eapply pchain_NoDup).
  apply subseteq_size. intros k Hk. apply elem_of_list_to_set in Hk.
  apply list_elem_of_fmap in Hk as ([a b] & -> & Hin).
  apply elem_of_dom. eexists. by eapply pchain_lookup.
Qed.

Lemma pchain_fuel s p l : pchain (ps_pbufs s) p l → (length l + 2 ≤ chain_fuel s)%nat.
Proof. intros H. apply pchain_size in H. unfold chain_fuel. lia. Qed.

Lemma pchain_frame m m' p l :
  pchain m p l → (∀ a, a ∈ l.*1 → m' !! a = m !! a) → pchain m' p l.
Proof.
  revert p. induction l as [|[a b] l IH]; intros p; simpl; [done|].
  intros (-> & H0 & E & H) Hf. split_and!; [done | done | rewrite Hf by (by left); done |].
  apply IH; [done|]. intros. apply Hf. by right.
Qed.

Lemma pchain_null m l : pchain m 0 l → l = [].
Proof. destruct l as [|[a b] l]; [done|]. intros (<- & H & _). done. Qed.

(** ** Lengths and contents *)

Lemma lens_nonneg l : lens_ok l → 0 ≤ lens l.
Proof. induction l as [|[a b] l IH]; simpl; [lia|]. intros (? & _ & _ & H). apply IH in H. lia. Qed.

Lemma lens_ok_bound l : lens_ok l → lens l < 65536.
Proof. destruct l as [|[a b] l]; simpl; [lia|]. intros (? & E & ? & H). simpl in E. lia. Qed.

Lemma pbytes_length m l d : lens_ok l → pbytes m l = Some d → Z.of_nat (length d) = lens l.
Proof.
  revert d. induction l as [|[a b] l IH]; intros d; simpl.
  - by intros _ [= <-].
  - intros (H0 & _ & _ & Hl). destruct (load_bytes _ _ _) as [x|] eqn:Ex; [|done].
    destruct (pbytes m l) as [y|] eqn:Ey; [|done]. intros [= <-].
    apply load_bytes_length in Ex. rewrite length_app, Nat2Z.inj_add, (IH y) by done. lia.
Qed.

Lemma pbytes_cons m a b l d :
  pbytes m ((a, b) :: l) = Some d →
  ∃ x y, d = x ++ y ∧ load_bytes m (pb_payload b) (Z.to_nat (pb_len b)) = Some x ∧
         pbytes m l = Some y ∧ length x = Z.to_nat (pb_len b).
Proof.
  simpl. destruct (load_bytes _ _ _) as [x|] eqn:Ex; [|done].
  destruct (pbytes m l) as [y|] eqn:Ey; [|done]. intros [= <-].
  exists x, y. split_and!; try done. by eapply load_bytes_length.
Qed.

Lemma pbytes_frame m m' a x l :
  store_bytes m a x = Some m' → lens_ok l →
  clear_of a (Z.of_nat (length x)) l → pbytes m' l = pbytes m l.
Proof.
  intros Hs. induction l as [|[p b] l IH]; simpl; [done|].
  intros (H0 & _ & _ & Hl) Hc. apply Forall_cons_1 in Hc as [Hd Hc].
  rewrite IH by done. rewrite (load_store_disjoint _ _ _ _ _ _ Hs); [done|].
  rewrite Z2Nat.id by lia. done.
Qed.

Lemma store_bytes_app m a x y :
  store_bytes m a (x ++ y) =
  match store_bytes m a x with
  | Some m1 => store_bytes m1 (a + Z.of_nat (length x)) y
  | None => None
  end.
Proof.
  revert m a. induction x as [|b x IH]; intros m a; simpl.
  - by rewrite Z.add_0_r.
  - destruct (m !! a); [|done]. rewrite IH.
    destruct (store_bytes _ _ x); [|done]. f_equal. lia.
Qed.

Lemma clear_of_sub a n a' n' l :
  clear_of a n l → a ≤ a' → a' + n' ≤ a + n → clear_of a' n' l.
Proof.
  intros H H1 H2. revert H. apply Forall_impl. intros [? b].
  unfold disjoint_range. lia.
Qed.

Lemma mapped_store m a x m' b n :
  store_bytes m a x = Some m' → mapped m b n → mapped m' b n.
Proof. intros Hs Hm i Hi. rewrite (store_bytes_dom _ _ _ _ Hs). auto. Qed.

Lemma mapped_sub m a n a' n' : mapped m a n → a ≤ a' → a' + n' ≤ a + n → mapped m a' n'.
Proof. intros H ? ? i Hi. apply H. lia. Qed.

(** [MEMCPY] between an area and a payload. *)
Lemma MEMCPY_ok s dst src n x :
  0 ≤ n → disjoint_range dst n src n →
  load_bytes (ps_bytes s) src (Z.to_nat n) = Some x → mapped (ps_bytes s) dst n →
  ∃ m', store_bytes (ps_bytes s) dst x = Some m' ∧
        MEMCPY dst src n s = Some (tt, set_bytes s m').
Proof.
  intros Hn Hd Hl Hm. destruct (memcpy_spec _ _ _ _ _ Hn Hd Hl Hm) as (m' & E1 & E2).
  exists m'. split; [done|]. unfold MEMCPY. by rewrite E1.
Qed.

(** ** Copying out of a chain *)

Lemma pbuf_copy_partial_loop_spec l s p dst left len offset d fuel :
  pchain (ps_pbufs s) p l → lens_ok l → pbytes (ps_bytes s) l = Some d →
  0 ≤ left → 0 ≤ len → left + len < 65536 → 0 ≤ offset < 65536 →
  mapped (ps_bytes s) (dst + left) len → clear_of (dst + left) len l →
  (length l < fuel)%nat →
  let out := take (Z.to_nat len) (drop (Z.to_nat offset) d) in
  ∃ m', store_bytes (ps_bytes s) (dst + left) out = Some m' ∧
    pbuf_copy_partial_loop fuel p dst left len offset left s
    = Some (left + Z.of_nat (length out), set_bytes s m').
Proof.
  revert s p left len offset d fuel.
  induction l as [|[a b] l IH]; intros s p left len offset d [|fuel] Hp Hl Hd H0 H1 H2 H3 Hm Hc Hf out;
    [simpl in Hf; lia| |simpl in Hf; lia|]; cbn [pbuf_copy_partial_loop].
  - simpl in Hd. injection Hd as <-. subst out. rewrite drop_nil, take_nil. simpl.
    simpl in Hp. subst p. rewrite andb_false_r. exists (ps_bytes s).
    rewrite Z.add_0_r. by destruct s.
  - destruct (Z.eqb_spec len 0) as [->|Hlen].
    { subst out. rewrite take_0. simpl. exists (ps_bytes s). rewrite Z.add_0_r. by destruct s. }
    destruct Hp as (-> & Ha & Eb & Hp). destruct Hl as (Hb0 & Hbt & Hbm & Hl).
    rewrite (proj2 (Z.eqb_neq a 0)) by done. cbn [negb andb].
    erewrite prog_bind_step by (unfold deref; rewrite Eb; reflexivity).
    destruct (pbytes_cons _ _ _ _ _ Hd) as (x & y & -> & Ex & Ey & Hx).
    pose proof (lens_nonneg _ Hl). simpl in Hbt. apply Forall_cons_1 in Hc as [Hcb Hc].
    destruct (negb (offset =? 0) && (pb_len b <=? offset)) eqn:Esk.
    + reflect_bool. rewrite u16_small by lia.
      assert (Eo : out = take (Z.to_nat len) (drop (Z.to_nat (offset - pb_len b)) y)).
      { subst out. rewrite drop_app_ge by lia. do 2 f_equal. lia. }
      rewrite Eo. apply IH; try done; [lia | simpl in Hf; lia].
    + rewrite (u16_small (pb_len b - offset)).
      2: { destruct (Z.eqb_spec offset 0); simpl in Esk; [lia|]. reflect_bool. lia. }
      assert (Hoff : offset ≤ pb_len b).
      { destruct (Z.eqb_spec offset 0); simpl in Esk; [lia|]. reflect_bool. lia. }
      set (n := if len <? pb_len b - offset then len else pb_len b - offset).
      assert (Hn : n = Z.min len (pb_len b - offset)) by (subst n; case_cmp; lia).
      assert (Eld : load_bytes (ps_bytes s) (pb_payload b + offset) (Z.to_nat n)
                    = Some (take (Z.to_nat n) (drop (Z.to_nat offset) x))).
      { destruct (load_bytes_split _ _ _ _ (Z.to_nat offset) Ex) as [_ E1]; [lia|].
        rewrite Z2Nat.id in E1 by lia.
        apply (load_bytes_split _ _ _ _ (Z.to_nat n) E1). lia. }
      destruct (MEMCPY_ok s (dst + left) (pb_payload b + offset) n
        (take (Z.to_nat n) (drop (Z.to_nat offset) x))) as (m1 & Em & Ecp); [lia | | done | |].
      { unfold disjoint_range in *. lia. }
      { apply (mapped_sub _ _ _ _ _ Hm); lia. }
      erewrite prog_bind_step by exact Ecp.
      assert (Hln : length (take (Z.to_nat n) (drop (Z.to_nat offset) x)) = Z.to_nat n).
      { rewrite length_take, length_drop. lia. }
      rewrite (u16_small (left + n)), (u16_small (len - n)) by lia.
      assert (Hc1 : clear_of (dst + left) n l) by (apply (clear_of_sub _ _ _ _ _ Hc); lia).
      destruct (IH (set_bytes s m1) (pb_next b) (left + n) (len - n) 0 y fuel)
        as (m' & Es & El); try done; try lia.
      * cbn [set_bytes ps_bytes]. rewrite <- Ey. eapply pbytes_frame; [exact Em | done |].
        rewrite Hln, Z2Nat.id by lia. done.
      * cbn [set_bytes ps_bytes]. eapply mapped_store; [exact Em|].
        apply (mapped_sub _ _ _ _ _ Hm); lia.
      * apply (clear_of_sub _ _ _ _ _ Hc); lia.
      * simpl in Hf. lia.
      * cbn [set_bytes ps_bytes] in *. rewrite drop_0 in *.
        assert (Eo : out = take (Z.to_nat n) (drop (Z.to_nat offset) x)
                           ++ take (Z.to_nat (len - n)) y).
        { subst out. rewrite drop_app_le by lia.
          destruct (Z.le_gt_cases len (pb_len b - offset)).
          - rewrite take_app_le by (rewrite length_drop; lia).
            replace n with len by lia. rewrite Z.sub_diag, take_0. by rewrite app_nil_r.
          - rewrite take_app_ge by (rewrite length_drop; lia).
            replace n with (pb_len b - offset) by lia.
            rewrite (take_ge (drop _ x)) by (rewrite length_drop; lia).
            f_equal. f_equal. rewrite length_drop. lia. }
        exists m'. split.
        -- rewrite Eo, store_bytes_app, Em, Hln, Z2Nat.id by lia.
           rewrite <- Z.add_assoc. exact Es.
        -- rewrite El, Eo, length_app, Hln. f_equal. f_equal. lia.
Qed.

(** ** Copying into a chain *)

(** Writing inside an area that is read back as a whole. *)
Lemma load_store_inside m a k z m1 n x :
  load_bytes m a n = Some x → store_bytes m (a + Z.of_nat k) z = Some m1 →
  (k + length z ≤ n)%nat →
  load_bytes m1 a n = Some (take k x ++ z ++ drop (k + length z) x).
Proof.
  intros Hl Hs Hk. pose proof (load_bytes_length _ _ _ _ Hl) as Hx.
  replace n with (k + (length z + (n - k - length z)))%nat by lia.
  rewrite !load_bytes_app.
  rewrite (load_store_disjoint _ _ _ _ a k Hs) by (unfold disjoint_range; lia).
  rewrite (load_store_same _ _ _ _ Hs).
  rewrite (load_store_disjoint _ _ _ _ _ (n - k - length z) Hs)
    by (unfold disjoint_range; lia).
  destruct (load_bytes_split _ _ _ _ k Hl) as [-> _]; [lia|].
  destruct (load_bytes_split _ _ _ _ (k + length z) Hl) as [_ E]; [lia|].
  replace (a + Z.of_nat k + Z.of_nat (length z)) with (a + Z.of_nat (k + length z)) by lia.
  replace (n - k - length z)%nat with (n - (k + length z))%nat by lia.
  rewrite E. done.
Qed.

Lemma pbytes_mapped m l d b a :
  pbytes m l = Some d → lens_ok l → (a, b) ∈ l → mapped m (pb_payload b) (pb_len b).
Proof.
  revert d. induction l as [|[a' b'] l IH]; intros d Hd Hl.
  - by intros ?%elem_of_nil.
  - destruct (pbytes_cons _ _ _ _ _ Hd) as (x & y & _ & Ex & Ey & Hx).
    destruct Hl as (H0 & _ & _ & Hl). intros [[= -> ->]|Hin]%elem_of_cons; [|eauto].
    intros i Hi. apply (proj1 (load_bytes_is_Some m (pb_payload b') (Z.to_nat (pb_len b'))));
      [eauto | lia].
Qed.

(** An address outside of all payloads. *)
Definition outside (i : Z) (l : chain) : Prop :=
  Forall (λ '(_, b), i < pb_payload b ∨ pb_payload b + pb_len b ≤ i) l.

Lemma clear_outside a n l i : clear_of a n l → lens_ok l → a ≤ i < a + n → outside i l.
Proof.
  revert l. induction l as [|[p b] l IH]; intros Hc Hl Hi; constructor.
  - apply Forall_cons_1 in Hc as [Hd _]. destruct Hl as (? & _).
    unfold disjoint_range in Hd. lia.
  - apply Forall_cons_1 in Hc as [_ Hc]. destruct Hl as (_ & _ & _ & Hl). apply IH; auto.
Qed.

Lemma pbuf_take_loop_spec l s p src n copied d data fuel :
  pchain (ps_pbufs s) p l → lens_ok l → payloads_disjoint l →
  pbytes (ps_bytes s) l = Some d →
  0 ≤ n ≤ lens l → 0 ≤ copied → copied + n < 65536 →
  load_bytes (ps_bytes s) (src + copied) (Z.to_nat n) = Some data →
  clear_of (src + copied) n l → (length l < fuel)%nat →
  ∃ m', pbuf_take_loop fuel p src n copied s = Some (tt, set_bytes s m') ∧
    pbytes m' l = Some (data ++ drop (Z.to_nat n) d) ∧
    (∀ i, outside i l → m' !! i = ps_bytes s !! i).
Proof.
  revert s p n copied d data fuel.
  induction l as [|[a b] l IH]; intros s p n copied d data [|fuel] Hp Hl Hdj Hd Hn Hc0 Hc1 Hsrc Hc Hf;
    [simpl in Hf; lia| |simpl in Hf; lia|]; cbn [pbuf_take_loop].
  - simpl in Hn, Hd. injection Hd as <-. replace n with 0 in * by lia.
    rewrite Z.eqb_refl. simpl in Hsrc. injection Hsrc as <-.
    exists (ps_bytes s). by destruct s.
  - destruct (Z.eqb_spec n 0) as [->|Hn0].
    { simpl in Hsrc. injection Hsrc as <-. exists (ps_bytes s).
      split_and!; [by destruct s | exact Hd | done]. }
    destruct Hp as (-> & Ha & Eb & Hp). destruct Hl as (Hb0 & Hbt & Hbm & Hl).
    destruct Hdj as [Hdb Hdj]. simpl in Hbt, Hn.
    erewrite prog_bind_step by (unfold deref; rewrite Eb; reflexivity).
    destruct (pbytes_cons _ _ _ _ _ Hd) as (x & y & -> & Ex & Ey & Hx).
    pose proof (lens_nonneg _ Hl) as Hln. apply Forall_cons_1 in Hc as [Hcb Hc].
    set (c := if pb_len b <? n then pb_len b else n).
    assert (Hcm : c = Z.min n (pb_len b)) by (subst c; case_cmp; lia).
    pose proof (load_bytes_length _ _ _ _ Hsrc) as Hdl.
    destruct (load_bytes_split _ _ _ _ (Z.to_nat c) Hsrc) as [Es1 Es2]; [lia|].
    rewrite Z2Nat.id in Es2 by lia.
    destruct (MEMCPY_ok s (pb_payload b) (src + copied) c (take (Z.to_nat c) data))
      as (m1 & Em & Ecp); [lia | | done | |].
    { unfold disjoint_range in *. lia. }
    { intros i Hi. apply (proj1 (load_bytes_is_Some (ps_bytes s) (pb_payload b)
        (Z.to_nat (pb_len b)))); [eauto | lia]. }
    erewrite prog_bind_step by exact Ecp.
    assert (Htl : length (take (Z.to_nat c) data) = Z.to_nat c) by (rewrite length_take; lia).
    rewrite !u16_small by lia.
    destruct (IH (set_bytes s m1) (pb_next b) (n - c) (copied + c) y
                 (drop (Z.to_nat c) data) fuel) as (m' & El & Ep & Hfr); try done; try lia.
    + cbn [set_bytes ps_bytes]. rewrite <- Ey. eapply pbytes_frame; [exact Em | done |].
      rewrite Htl, Z2Nat.id by lia. apply (clear_of_sub _ _ _ _ _ Hdb); lia.
    + cbn [set_bytes ps_bytes]. rewrite (load_store_disjoint _ _ _ _ _ _ Em).
      * rewrite Z.add_assoc. rewrite <- Es2. f_equal. lia.
      * rewrite Htl. unfold disjoint_range in *. lia.
    + apply (clear_of_sub _ _ _ _ _ Hc); lia.
    + simpl in Hf. lia.
    + cbn [set_bytes ps_bytes] in *. exists m'. split; [exact El|]. split.
      * cbn [pbytes].
        rewrite (load_bytes_ext m1 m' (pb_payload b)).
        2: { intros i Hi. apply Hfr. eapply clear_outside; [exact Hdb | done | lia]. }
        assert (Em0 : store_bytes (ps_bytes s) (pb_payload b + Z.of_nat 0)
                        (take (Z.to_nat c) data) = Some m1) by (by rewrite Z.add_0_r).
        rewrite (load_store_inside _ _ 0 _ _ _ _ Ex Em0) by lia.
        rewrite Ep, Htl. simpl. f_equal.
        rewrite <- app_assoc.
        destruct (Z.le_gt_cases n (pb_len b)) as [Hle|Hgt].
        -- replace c with n in * by lia. rewrite Z.sub_diag, drop_0.
           rewrite take_ge by lia. rewrite (drop_ge data) by lia. simpl.
           by rewrite (drop_app_le x) by lia.
        -- replace c with (pb_len b) in * by lia.
           rewrite (drop_ge x) by lia. simpl.
           rewrite app_assoc, take_drop. f_equal. rewrite drop_app_ge by lia. f_equal. lia.
      * intros i Ho. apply Forall_cons_1 in Ho as [Hob Ho]. rewrite (Hfr i Ho).
        apply (store_bytes_lookup_ne _ _ _ _ _ Em). lia.
Qed.
