(* ===== verification/PbufAlloc.v ===== *)
(** * Ownership of pbufs: allocation and release

    The invariant [owned]: every pbuf is an element its pool has handed out
    or a live block of the heap, and every element handed out by the two
    pbuf pools is a pbuf.  [pbuf_alloc] and [pbuf_free] preserve it, so no
    pbuf is leaked or freed twice by them. *)

From stdpp Require Import base numbers list gmap option sorting.
From S2P Require Import Prelude Mem MemRefine MemProps Memp Pbuf PbufLemmas.

Definition is_ref_type (t : pbuf_type) : bool :=
  match t with PBUF_ROM | PBUF_REF => true | _ => false end.

(** How the linker places the heap array and the two pbuf pools: aligned,
    apart from each other, in the 32 bit address space; the elements of
    [PBUF_POOL] hold a struct and a buffer. *)
Definition layout_ok (ram : Z) (ds : list memp_desc) : Prop :=
  ram + MEM_SIZE_ALIGNED + 8 < 4294967000 ∧
  (∀ i d a, i = MEMP_PBUF ∨ i = MEMP_PBUF_POOL → ds !! i = Some d → a ∈ elems d →
     0 < a < 4294960000 ∧ a mod MEM_ALIGNMENT = 0 ∧
     (a < ram ∨ ram + MEM_SIZE_ALIGNED ≤ a)) ∧
  (∀ d, ds !! MEMP_PBUF_POOL = Some d →
     d_size d = SIZEOF_STRUCT_PBUF + PBUF_POOL_BUFSIZE_ALIGNED).

Record owned (s : pstate) (fl out : nat → list Z) (bs : list blk) : Prop := {
  ow_pools : pools_inv (ps_pools s) fl out;
  ow_max : (MEMP_PBUF_POOL < MEMP_MAX (ps_pools s))%nat;
  ow_heap : heap_repr (ps_heap s) bs;
  ow_pool : ∀ a, a ∈ out MEMP_PBUF_POOL ↔
      ∃ b, ps_pbufs s !! a = Some b ∧ pb_type b = PBUF_POOL;
  ow_ref : ∀ a, a ∈ out MEMP_PBUF ↔
      ∃ b, ps_pbufs s !! a = Some b ∧ is_ref_type (pb_type b) = true;
  ow_ram : ∀ a b, ps_pbufs s !! a = Some b → pb_type b = PBUF_RAM →
      ∃ off sz, (off, sz) ∈ live 0 bs ∧ a = blk_ptr (ps_heap s) off;
  ow_layout : layout_ok (h_ram (ps_heap s)) (p_descs (ps_pools s))
}.

(** ** The blocks that stay live when one is freed *)

Lemma live_snoc_free l sz r off :
  live off (snoc_free l sz r) = live off l ++ live (off + tot l + sz) r.
Proof.
  destruct l as [|[pz u] l _] using rev_ind.
  - simpl. do 2 f_equal. lia.
  - rewrite snoc_free_app, live_app, tot_app. cbn [snd fst].
    destruct u; rewrite ?live_app; simpl; rewrite ?app_nil_r.
    + rewrite tot_app. simpl. by rewrite Z.add_0_r.
    + do 2 f_equal. lia.
Qed.

Lemma live_cons_free sz r sz' r' off :
  cons_free sz r = (sz', false) :: r' → live (off + sz') r' = live (off + sz) r.
Proof.
  destruct r as [|[b []] r]; simpl; intros [= <- <-]; [done | done |].
  by rewrite Z.add_assoc.
Qed.

Lemma live_split off bs q z :
  (q, z) ∈ live off bs → ∃ l r, bs = l ++ (z, true) :: r ∧ q = off + tot l.
Proof.
  revert off. induction bs as [|[sz u] bs IH]; intros off; simpl.
  - by intros ?%elem_of_nil.
  - rewrite elem_of_app. intros [H|H].
    + destruct u; [|by apply elem_of_nil in H].
      apply list_elem_of_singleton in H as [= -> ->]. exists [], bs. simpl. split; [done|lia].
    + destruct (IH _ H) as (l & r & -> & ->). exists ((sz, u) :: l), r. simpl. split; [done|lia].
Qed.

(** Freeing a live block succeeds and keeps the other ones. *)
Lemma mem_free_live s bs p z :
  heap_repr s bs → (p, z) ∈ live 0 bs →
  ∃ s' bs', mem_free (blk_ptr s p) s = Some (tt, s') ∧ heap_repr s' bs' ∧
    h_ram s' = h_ram s ∧
    ∀ q x, q ≠ p → (q, x) ∈ live 0 bs → (q, x) ∈ live 0 bs'.
Proof.
  intros Hi Hp. apply live_split in Hp as (l & r & -> & ->). rewrite Z.add_0_l.
  destruct (mem_free_spec s l z r Hi) as (s' & E & Hi' & Hr).
  pose proof (tail_ok _ _ _ _ (hr_tail _ _ _ Hi)) as Hok. apply Forall_app in Hok as [Hok _].
  pose proof (spec_free_split l z r Hok (hr_adj _ _ _ Hi) 0) as Ef. rewrite Z.add_0_l in Ef.
  destruct (cons_free_eq z r) as (sz' & r' & Ec). rewrite Ec in Ef.
  eexists s', _. split_and!; [exact E | exact Hi' | done |].
  intros q x Hq. rewrite Ef, live_snoc_free, live_app, (live_cons_free _ _ _ _ _ Ec).
  rewrite Z.add_0_l. simpl. rewrite !elem_of_app, elem_of_cons.
  intros [H|[[= -> ->]|H]]; [by left | done | by right].
Qed.

(** ** Release of one pbuf *)

(** The pool a pbuf comes from, if any. *)
Definition pool_of (t : pbuf_type) : option nat :=
  match t with
  | PBUF_RAM => None
  | PBUF_ROM | PBUF_REF => Some MEMP_PBUF
  | PBUF_POOL => Some MEMP_PBUF_POOL
  end.

Lemma owned_out s fl out bs i a :
  owned s fl out bs → i = MEMP_PBUF ∨ i = MEMP_PBUF_POOL →
  a ∈ out i ↔ ∃ b, ps_pbufs s !! a = Some b ∧ pool_of (pb_type b) = Some i.
Proof.
  intros H [->| ->]; [rewrite (ow_ref _ _ _ _ H) | rewrite (ow_pool _ _ _ _ H)];
    (split; intros (b & E & Hb); exists b; split; [done| |done|]); by destruct (pb_type b).
Qed.

Lemma lookup_delete_ex (m : gmap Z pbuf) p a (P : pbuf → Prop) :
  (∃ c, delete p m !! a = Some c ∧ P c) ↔ a ≠ p ∧ ∃ c, m !! a = Some c ∧ P c.
Proof.
  split.
  - intros (c & [Hne E]%lookup_delete_Some & Hc). eauto.
  - intros (Hne & c & E & Hc). exists c. by rewrite lookup_delete_ne.
Qed.

(** The other pools have handed out the same. *)
Definition others_same (out out' : nat → list Z) : Prop :=
  ∀ j, j ≠ MEMP_PBUF → j ≠ MEMP_PBUF_POOL → out' j = out j.

Lemma memp_free_owned s fl out bs i p b :
  owned s fl out bs → ps_pbufs s !! p = Some b → pool_of (pb_type b) = Some i →
  ∃ q fl' out', memp_free i p (ps_pools s) = Some (tt, q) ∧ others_same out out' ∧
    owned (PState (delete p (ps_pbufs s)) (ps_bytes s) (ps_heap s) q) fl' out' bs.
Proof.
  intros H E Hi. pose proof H as [Hp Hmax Hh H1 H2 H3 H4].
  assert (Hic : i = MEMP_PBUF ∨ i = MEMP_PBUF_POOL) by (destruct (pb_type b); naive_solver).
  assert (Him : (i < MEMP_MAX (ps_pools s))%nat).
  { unfold MEMP_PBUF, MEMP_PBUF_POOL in *. lia. }
  assert (Hin : p ∈ out i) by (apply (owned_out _ _ _ _ _ _ H Hic); eauto).
  pose proof (proj1 (pools_inv_NoDup _ _ _ _ Hp Him)) as Hnd.
  apply NoDup_app in Hnd as (_ & _ & Hnd).
  apply list_elem_of_split in Hin as (l1 & l2 & El).
  destruct (memp_free_spec _ _ _ i p (l1 ++ l2) Hp Him) as (q & Eq & Hd & Hq).
  { rewrite El. by rewrite Permutation_middle. }
  assert (Hl : ∀ a, a ∈ l1 ++ l2 ↔ a ≠ p ∧ a ∈ out i).
  { intros a. rewrite El in *. rewrite <- Permutation_middle in *.
    apply NoDup_cons in Hnd as [Hnp _]. rewrite elem_of_cons. naive_solver. }
  assert (Ho : ∀ j a, j = MEMP_PBUF ∨ j = MEMP_PBUF_POOL →
    a ∈ fupd out i (l1 ++ l2) j ↔
    ∃ c, delete p (ps_pbufs s) !! a = Some c ∧ pool_of (pb_type c) = Some j).
  { intros j a Hj. rewrite lookup_delete_ex. rewrite <- (owned_out _ _ _ _ _ _ H Hj).
    destruct (decide (j = i)) as [->|Hne]; [by rewrite fupd_eq, Hl|].
    rewrite fupd_ne by done. split; [|naive_solver]. intros Ha. split; [|done]. intros ->.
    apply (owned_out _ _ _ _ _ _ H Hj) in Ha as (c & Ec & Hc). congruence. }
  exists q, (fupd fl i (p :: fl i)), (fupd out i (l1 ++ l2)). split; [done|].
  split; [intros j Hj1 Hj2; apply fupd_ne; naive_solver|].
  split; cbn [ps_pools ps_pbufs ps_heap]; [exact Hq | | done | | | | by rewrite Hd].
  - unfold MEMP_MAX in *. by rewrite Hd.
  - intros a. rewrite (Ho MEMP_PBUF_POOL) by auto.
    split; intros (c & Ec & Hc); exists c; (split; [done|]); by destruct (pb_type c).
  - intros a. rewrite (Ho MEMP_PBUF) by auto.
    split; intros (c & Ec & Hc); exists c; (split; [done|]); by destruct (pb_type c).
  - intros a c [Hap Ec]%lookup_delete_Some Hc. cbn [ps_heap]. eauto.
Qed.

Lemma mem_free_owned s fl out bs p b :
  owned s fl out bs → ps_pbufs s !! p = Some b → pb_type b = PBUF_RAM →
  ∃ h bs', mem_free p (ps_heap s) = Some (tt, h) ∧
    owned (PState (delete p (ps_pbufs s)) (ps_bytes s) h (ps_pools s)) fl out bs'.
Proof.
  intros [Hp Hmax Hh H1 H2 H3 H4] E Et. destruct (H3 _ _ E Et) as (off & sz & Hin & Ea).
  destruct (mem_free_live _ _ _ _ Hh Hin) as (h' & bs' & Ef & Hh' & Hr & Hlive).
  exists h', bs'. rewrite Ea at 1. split; [done|].
  split; cbn [ps_pools ps_pbufs ps_heap]; try done.
  - intros a. rewrite lookup_delete_ex, <- H1. split; [|naive_solver].
    intros Ha. split; [|done]. intros ->. apply H1 in Ha as (c & Ec & Hc). congruence.
  - intros a. rewrite lookup_delete_ex, <- H2. split; [|naive_solver].
    intros Ha. split; [|done]. intros ->. apply H2 in Ha as (c & Ec & Hc).
    rewrite E in Ec. injection Ec as <-. by rewrite Et in Hc.
  - intros a c [Hap Ec]%lookup_delete_Some Hc.
    destruct (H3 _ _ Ec Hc) as (off' & sz' & Hin' & Ea').
    exists off', sz'. unfold blk_ptr in *. rewrite Hr. split; [|done].
    apply Hlive; [|done]. intros ->. congruence.
  - by rewrite Hr.
Qed.

Lemma pbuf_dealloc_spec s fl out bs p b :
  owned s fl out bs → ps_pbufs s !! p = Some b →
  ∃ s' fl' out' bs', pbuf_dealloc p (pb_type b) s = Some (tt, s') ∧
    owned s' fl' out' bs' ∧ ps_pbufs s' = delete p (ps_pbufs s) ∧
    ps_bytes s' = ps_bytes s ∧ others_same out out'.
Proof.
  intros H E. unfold pbuf_dealloc, del_pbuf, set_pbufs, modify. prog_simpl.
  unfold on_heap, on_pools. cbn [ps_heap ps_pbufs ps_bytes ps_pools].
  destruct (pool_of (pb_type b)) as [i|] eqn:Ei.
  - destruct (memp_free_owned _ _ _ _ _ _ _ H E Ei) as (q & fl' & out' & Ef & Hs & Ho).
    eexists _, fl', out', bs. split_and!; [|exact Ho|done|done|done].
    destruct (pb_type b); simplify_eq/=; by rewrite Ef.
  - destruct (pb_type b) eqn:Et; try done.
    destruct (mem_free_owned _ _ _ _ _ _ H E Et) as (h & bs' & Ef & Ho).
    eexists _, fl, out, bs'. split_and!; [|exact Ho|done|done|done].
    cbn [ps_heap ps_pbufs ps_bytes ps_pools]. by rewrite Ef.
Qed.

(** ** pbuf_free *)

(** Changing fields other than the type keeps the ownership. *)
Lemma owned_upd s fl out bs p b b' :
  owned s fl out bs → ps_pbufs s !! p = Some b → pb_type b' = pb_type b →
  owned (PState (<[p := b']> (ps_pbufs s)) (ps_bytes s) (ps_heap s) (ps_pools s)) fl out bs.
Proof.
  intros [Hp Hmax Hh H1 H2 H3 H4] E Et. 
  assert (Hex : ∀ a (P : pbuf_type → Prop),
    (∃ c, <[p := b']> (ps_pbufs s) !! a = Some c ∧ P (pb_type c)) ↔
    (∃ c, ps_pbufs s !! a = Some c ∧ P (pb_type c))).
  { intros a P. rewrite lookup_insert. case_decide as Hd; [|done]. subst a. split.
    - intros (c & [= <-] & Hc). rewrite Et in Hc. eauto.
    - intros (c & Ec & Hc). rewrite E in Ec. injection Ec as <-. exists b'.
      by rewrite Et. }
  split; cbn [ps_pools ps_pbufs ps_heap]; try done.
  - intros a. by rewrite H1, (Hex a (λ t, t = PBUF_POOL)).
  - intros a. by rewrite H2, (Hex a (λ t, is_ref_type t = true)).
  - intros a c. rewrite lookup_insert. case_decide as Hd; [|eauto].
    subst a. intros [= <-] Hc. rewrite Et in Hc. eauto.
Qed.

Lemma upd_pbuf_step s p b f :
  ps_pbufs s !! p = Some b →
  upd_pbuf p f s = Some (tt, PState (<[p := f b]> (ps_pbufs s)) (ps_bytes s) (ps_heap s) (ps_pools s)).
Proof.
  intros E. unfold upd_pbuf, set_pbufs, modify, deref. prog_simpl. by rewrite E.
Qed.

Definition ref_ok (c : Z * pbuf) : Prop := 0 < pb_ref c.2 < 65536.

Lemma pbuf_free_loop_run l1 : ∀ s fl out bs p rest count fuel,
  owned s fl out bs → pchain (ps_pbufs s) p (l1 ++ rest) →
  Forall (λ c, pb_ref c.2 = 1) l1 →
  match rest with [] => True | c :: _ => 1 < pb_ref c.2 < 65536 end →
  (length l1 + 2 ≤ fuel)%nat → 0 ≤ count →
  ∃ s' fl' out' bs', pbuf_free_loop fuel p (u8 count) s
        = Some (u8 (count + Z.of_nat (length l1)), s') ∧
    owned s' fl' out' bs' ∧ others_same out out' ∧ ps_bytes s' = ps_bytes s ∧
    ps_pbufs s' =
      match rest with
      | [] => foldr delete (ps_pbufs s) l1.*1
      | (a, b) :: _ =>
          <[a := with_ref (pb_ref b - 1) b]> (foldr delete (ps_pbufs s) l1.*1)
      end.
Proof.
  induction l1 as [|[a b] l1 IH]; intros s fl out bs p rest count [|fuel] Ho Hp H1 Hr Hf Hc;
    try (simpl in Hf; lia); cbn [pbuf_free_loop].
  - simpl in Hp. rewrite Z.add_0_r. destruct rest as [|[a b] rest].
    + simpl in Hp. subst p. rewrite Z.eqb_refl. exists s, fl, out, bs. done.
    + destruct Hp as (-> & Ha & Eb & Hp). rewrite (proj2 (Z.eqb_neq a 0)) by done.
      erewrite prog_bind_step by (unfold deref; rewrite Eb; reflexivity).
      simpl in Hr. rewrite u16_small by lia. cbv zeta.
      erewrite prog_bind_step by (by apply upd_pbuf_step).
      rewrite (proj2 (Z.eqb_neq _ 0)) by lia. cbv iota.
      eexists _, fl, out, bs. split_and!; [reflexivity| |done|done|done].
      by apply (owned_upd _ _ _ _ _ b).
  - destruct Hp as (-> & Ha & Eb & Hp). rewrite (proj2 (Z.eqb_neq a 0)) by done.
    erewrite prog_bind_step by (unfold deref; rewrite Eb; reflexivity).
    apply Forall_cons_1 in H1 as [Hb1 H1]. simpl in Hb1.
    rewrite Hb1. change (u16 (1 - 1)) with 0. cbv zeta.
    erewrite prog_bind_step by (by apply upd_pbuf_step). cbn [Z.eqb].
    set (s1 := PState (<[a := with_ref 0 b]> (ps_pbufs s)) (ps_bytes s) (ps_heap s) (ps_pools s)).
    assert (Ho1 : owned s1 fl out bs) by (by apply (owned_upd _ _ _ _ _ b)).
    destruct (pbuf_dealloc_spec s1 fl out bs a (with_ref 0 b) Ho1)
      as (s2 & fl2 & out2 & bs2 & E2 & Ho2 & Hp2 & Hb2 & Hs2).
    { subst s1. cbn [ps_pbufs]. by rewrite lookup_insert_eq. }
    erewrite prog_bind_step by exact E2.
    replace (u8 (u8 count + 1)) with (u8 (count + 1)) by zmod.
    assert (Hdel : ps_pbufs s2 = delete a (ps_pbufs s)).
    { rewrite Hp2. subst s1. cbn [ps_pbufs]. apply delete_insert_eq. }
    pose proof (pchain_NoDup _ a ((a, b) :: l1 ++ rest)
      ltac:(split_and!; [done|done|exact Eb|exact Hp])) as Hnd.
    simpl in Hnd. apply NoDup_cons in Hnd as [Hna Hnd].
    destruct (IH s2 fl2 out2 bs2 (pb_next b) rest (count + 1) fuel Ho2)
      as (s' & fl' & out' & bs' & El & Ho' & Hs' & Hb' & Hp'); try done; try lia.
    + rewrite Hdel. apply (pchain_frame (ps_pbufs s)); [done|].
      intros c Hc'. rewrite lookup_delete_ne; [done|]. intros ->. by apply Hna.
    + simpl in Hf. lia.
    + exists s', fl', out', bs'. split_and!; [|done| |by rewrite Hb', Hb2|].
      * rewrite El. f_equal. f_equal. f_equal. simpl. lia.
      * intros k Hk1 Hk2. by rewrite Hs', Hs2.
      * rewrite Hp', Hdel. simpl.
        assert (Hcomm : foldr delete (delete a (ps_pbufs s)) l1.*1
                        = delete a (foldr delete (ps_pbufs s) l1.*1)).
        { clear. induction (l1.*1) as [|k ks IHk]; simpl; [done|].
          rewrite IHk. apply delete_delete. }
        rewrite Hcomm. done.
Qed.

Lemma pbuf_free_loop_spec l1 s fl out bs p rest count fuel :
  owned s fl out bs → pchain (ps_pbufs s) p (l1 ++ rest) →
  Forall (λ c, pb_ref c.2 = 1) l1 →
  match rest with [] => True | c :: _ => 1 < pb_ref c.2 < 65536 end →
  (length l1 + 2 ≤ fuel)%nat → 0 ≤ count →
  ∃ s' fl' out' bs', pbuf_free_loop fuel p (u8 count) s
        = Some (u8 (count + Z.of_nat (length l1)), s') ∧
    owned s' fl' out' bs' ∧ ps_bytes s' = ps_bytes s ∧
    ps_pbufs s' =
      match rest with
      | [] => foldr delete (ps_pbufs s) l1.*1
      | (a, b) :: _ =>
          <[a := with_ref (pb_ref b - 1) b]> (foldr delete (ps_pbufs s) l1.*1)
      end.
Proof.
  intros H1 H2 H3 H4 H5 H6. destruct (pbuf_free_loop_run l1 s fl out bs p rest count fuel H1 H2 H3 H4 H5 H6)
    as (s' & fl' & out' & bs' & E & Ho & _ & H). by exists s', fl', out', bs'.
Qed.

(** ** pbuf_alloc from the pool *)

Lemma lookup_foldr_delete (m : gmap Z pbuf) ks k :
  foldr delete m ks !! k = if decide (k ∈ ks) then None else m !! k.
Proof.
  induction ks as [|a ks IH]; cbn [foldr].
  - case_decide as Hk; [by apply elem_of_nil in Hk | done].
  - destruct (decide (k = a)) as [->|Hne].
    + rewrite lookup_delete_eq. clear IH. case_decide as Hk; [done|]. destruct Hk. by left.
    + rewrite lookup_delete_ne, IH by done. do 2 case_decide; set_solver.
Qed.

(** A pbuf just taken from a pool is a new one. *)
Lemma memp_malloc_owned s fl out bs i :
  owned s fl out bs → i = MEMP_PBUF ∨ i = MEMP_PBUF_POOL →
  match fl i with
  | [] => memp_malloc i (ps_pools s) = Some (0, ps_pools s)
  | a :: l => ∃ q d, memp_malloc i (ps_pools s) = Some (a, q) ∧ a ≠ 0 ∧
      ps_pbufs s !! a = None ∧ p_descs (ps_pools s) !! i = Some d ∧ a ∈ elems d ∧
      ∀ b, pool_of (pb_type b) = Some i →
        owned (PState (<[a := b]> (ps_pbufs s)) (ps_bytes s) (ps_heap s) q)
              (fupd fl i l) (fupd out i (a :: out i)) bs
  end.
Proof.
  intros H Hic. pose proof H as [Hp Hmax Hh H1 H2 H3 H4].
  assert (Him : (i < MEMP_MAX (ps_pools s))%nat) by (unfold MEMP_PBUF, MEMP_PBUF_POOL in *; lia).
  pose proof (memp_malloc_spec _ _ _ _ Hp Him) as Hm.
  destruct (fl i) as [|a l] eqn:Efl; [done|].
  destruct Hm as (q & Eq & Ha & Hd & Hq).
  pose proof Him as Hlt. apply lookup_lt_is_Some_2 in Hlt as [d Ed].
  assert (Had : a ∈ elems d).
  { destruct (proj2 Hp _ _ Ed) as (? & _ & _ & <-). rewrite Efl. by left. }
  assert (Hno : ∀ j, j = MEMP_PBUF ∨ j = MEMP_PBUF_POOL → a ∉ out j).
  { intros j Hj Hin. destruct (decide (j = i)) as [->|Hne].
    - pose proof (proj1 (pools_inv_NoDup _ _ _ _ Hp Him)) as Hnd. rewrite Efl in Hnd.
      apply NoDup_app in Hnd as (_ & Hdj & _). apply (Hdj a); [by left | done].
    - refine (pools_inv_disjoint _ _ _ i j a Hp Him _ (not_eq_sym Hne) _ _).
      + unfold MEMP_PBUF, MEMP_PBUF_POOL in *. lia.
      + rewrite Efl. by left.
      + apply elem_of_app. by right. }
  assert (Hnew : ps_pbufs s !! a = None).
  { destruct (ps_pbufs s !! a) as [b|] eqn:Eb; [|done]. exfalso.
    destruct (pool_of (pb_type b)) as [j|] eqn:Ej.
    - assert (Hj : j = MEMP_PBUF ∨ j = MEMP_PBUF_POOL) by (destruct (pb_type b); naive_solver).
      apply (Hno j Hj). apply (owned_out _ _ _ _ _ _ H Hj). eauto.
    - destruct (H3 a b Eb) as (off & sz & Hin & Ea); [by destruct (pb_type b)|].
      destruct H4 as (_ & Hl & _). destruct (Hl i d a Hic Ed Had) as (_ & _ & Hsep).
      pose proof (tail_ok _ _ _ _ (hr_tail _ _ _ Hh)) as Hok.
      apply live_bounds in Hin; [|done].
      pose proof (tail_tot _ _ _ _ (hr_tail _ _ _ Hh)). unfold blk_ptr in Ea.
      mem_consts. lia. }
  exists q, d. split_and!; try done. intros b Hb.
  assert (Ho : ∀ j x, j = MEMP_PBUF ∨ j = MEMP_PBUF_POOL →
    x ∈ fupd out i (a :: out i) j ↔
    ∃ c, <[a := b]> (ps_pbufs s) !! x = Some c ∧ pool_of (pb_type c) = Some j).
  { intros j x Hj. rewrite lookup_insert. destruct (decide (a = x)) as [->|Hne].
    - destruct (decide (j = i)) as [->|Hji].
      + rewrite fupd_eq, elem_of_cons. naive_solver.
      + rewrite fupd_ne by done. split; [intros []%Hno; done|].
        intros (c & [= <-] & Hc). congruence.
    - rewrite <- (owned_out _ _ _ _ _ _ H Hj). destruct (decide (j = i)) as [->|Hji].
      + rewrite fupd_eq, elem_of_cons. naive_solver.
      + by rewrite fupd_ne. }
  split; cbn [ps_pools ps_pbufs ps_heap]; [done | | done | | | | by rewrite Hd].
  - unfold MEMP_MAX in *. by rewrite Hd.
  - intros x. rewrite (Ho MEMP_PBUF_POOL) by auto.
    split; intros (c & Ec & Hc); exists c; (split; [done|]); by destruct (pb_type c).
  - intros x. rewrite (Ho MEMP_PBUF) by auto.
    split; intros (c & Ec & Hc); exists c; (split; [done|]); by destruct (pb_type c).
  - intros x c. rewrite lookup_insert. case_decide; [|eauto].
    intros [= <-] Hc. by rewrite Hc in Hb.
Qed.

(** What [pbuf_alloc] builds from pool elements. *)
Definition pool_elem (c : Z * pbuf) : Prop :=
  pb_type c.2 = PBUF_POOL ∧ pb_ref c.2 = 1 ∧
  c.1 + SIZEOF_STRUCT_PBUF ≤ pb_payload c.2 ∧
  pb_payload c.2 mod MEM_ALIGNMENT = 0 ∧
  pb_payload c.2 + pb_len c.2 ≤ c.1 + SIZEOF_STRUCT_PBUF + PBUF_POOL_BUFSIZE_ALIGNED.

Fixpoint lens_rem (rem : Z) (l : chain) : Prop :=
  match l with
  | [] => True
  | (_, b) :: l' => 0 ≤ pb_len b ∧ pb_tot_len b = lens ((0, b) :: l') + rem ∧
                    pb_tot_len b < 65536 ∧ lens_rem rem l'
  end.

Lemma lens_rem_0 l : lens_rem 0 l ↔ lens_ok l.
Proof. induction l as [|[a b] l IH]; simpl; [done|]. rewrite IH, Z.add_0_r. done. Qed.

Lemma lens_app l1 l2 : lens (l1 ++ l2) = lens l1 + lens l2.
Proof. induction l1 as [|[a b] l IH]; simpl; lia. Qed.

Lemma lens_rem_snoc rem l a b :
  lens_rem rem l → pb_tot_len b = rem → 0 ≤ pb_len b → rem < 65536 →
  lens_rem (rem - pb_len b) (l ++ [(a, b)]).
Proof.
  intros H Ht H0 H1. induction l as [|[c e] l IH]; simpl in *.
  - split_and!; [done | lia | lia | done].
  - destruct H as (? & ? & ? & ?). rewrite lens_app. simpl. split_and!; [done|lia|done|auto].
Qed.

(** Extending a chain at its end. *)
Lemma pchain_snoc m p l r br q bq :
  pchain m p (l ++ [(r, br)]) → q ≠ 0 → m !! q = None → pb_next bq = 0 →
  pchain (<[q := bq]> (<[r := with_next q br]> m)) p (l ++ [(r, with_next q br)] ++ [(q, bq)]).
Proof.
  intros Hp Hq Hn Hz.
  assert (Hr : m !! r = Some br ∧ r ≠ 0).
  { apply (pchain_lookup m p _ _ _ Hp). apply elem_of_app. right. by left. }
  assert (Hqr : q ≠ r) by (intros ->; destruct Hr; congruence).
  pose proof (pchain_NoDup _ _ _ Hp) as Hnd. rewrite fmap_app in Hnd. simpl in Hnd.
  revert p Hp. induction l as [|[a b] l IH]; intros p Hp.
  - simpl in Hp. destruct Hp as (-> & Hr0 & Er & Hnx). simpl.
    rewrite lookup_insert_ne by done. rewrite !lookup_insert_eq. done.
  - simpl in Hp. destruct Hp as (-> & Ha & Ea & Hp). simpl in Hnd.
    apply NoDup_cons in Hnd as [Hna Hnd].
    assert (Har : a ≠ r). { intros ->. apply Hna, elem_of_app. right. by left. }
    assert (Haq : q ≠ a) by (intros ->; congruence).
    simpl. rewrite !lookup_insert_ne by done. split_and!; [done..|]. by apply IH.
Qed.

Lemma lens_rem_with_next rem l r br q :
  lens_rem rem (l ++ [(r, br)]) → lens_rem rem (l ++ [(r, with_next q br)]).
Proof.
  induction l as [|[a b] l IH]; simpl; [done|].
  intros (? & H2 & ? & H4). rewrite lens_app in *. simpl in *. auto.
Qed.

Lemma ref1_all l : Forall pool_elem l → Forall (λ c : Z * pbuf, pb_ref c.2 = 1) l.
Proof. intros H. induction H as [|c l (? & ? & _) H IH]; constructor; auto. Qed.

(** The successive assignments to a fresh pbuf, as one write. *)
Ltac step_upd :=
  match goal with
  | |- context [(upd_pbuf ?q ?f ≫= _) ?s] =>
      erewrite (prog_bind_step (upd_pbuf q f)) by
        (apply upd_pbuf_step; cbn [ps_pbufs];
         first [ apply lookup_insert_eq
               | rewrite lookup_insert_ne by done; (apply lookup_insert_eq || eassumption)
               | eassumption ]);
      cbn [ps_pbufs ps_bytes ps_heap ps_pools];
      rewrite ?insert_insert_eq
  end.

Definition pb_of_pool (q rem_len : Z) : pbuf :=
  MkPbuf 0 (q + SIZEOF_STRUCT_PBUF) (u16 rem_len)
    (Z.min (u16 rem_len) PBUF_POOL_BUFSIZE_ALIGNED) PBUF_POOL 0 1.

(** One round of the loop. *)
Lemma pbuf_alloc_tail_step fuel s p r br rem q pl :
  0 < rem → memp_malloc MEMP_PBUF_POOL (ps_pools s) = Some (q, pl) → q ≠ 0 →
  ps_pbufs s !! r = Some br → ps_pbufs s !! q = None →
  pbuf_alloc_tail (S fuel) p r rem s =
  pbuf_alloc_tail fuel p q (rem - Z.min (u16 rem) PBUF_POOL_BUFSIZE_ALIGNED)
    (PState (<[q := pb_of_pool q rem]> (<[r := with_next q br]> (ps_pbufs s)))
            (ps_bytes s) (ps_heap s) pl).
Proof.
  intros Hr Em Hq Er Eq. assert (Hqr : q ≠ r) by congruence.
  cbn [pbuf_alloc_tail]. rewrite (proj2 (Z.ltb_lt _ _)) by done.
  erewrite prog_bind_step by (unfold on_pools; rewrite Em; reflexivity).
  rewrite (proj2 (Z.eqb_neq _ _)) by done.
  erewrite (prog_bind_step (new_pbuf q)) by
    (unfold new_pbuf, set_pbufs, modify; prog_simpl; reflexivity).
  cbn [ps_pbufs ps_bytes ps_heap ps_pools]. do 4 step_upd.
  rewrite (insert_insert_ne (ps_pbufs s) r q) by done.
  do 4 step_upd. reflexivity.
Qed.

Lemma pb_of_pool_elem q rem :
  0 < rem < 65536 → q mod MEM_ALIGNMENT = 0 → pool_elem (q, pb_of_pool q rem).
Proof.
  intros Hr Hq. unfold pool_elem, pb_of_pool. cbn [fst snd pb_type pb_ref pb_payload pb_len].
  rewrite u16_small by lia. split_and!; try done; try lia.
  unfold SIZEOF_STRUCT_PBUF, MEM_ALIGNMENT in *. Z.to_euclidean_division_equations. lia.
Qed.

Lemma pool_elem_with_next c q : pool_elem c → pool_elem (c.1, with_next q c.2).
Proof. done. Qed.

(** The chain under construction from [pb0] on: its pbufs are new. *)
Definition grown (pb0 m : gmap Z pbuf) (l : chain) : Prop :=
  (∀ k, k ∉ l.*1 → m !! k = pb0 !! k) ∧ (∀ k, k ∈ l.*1 → pb0 !! k = None).

Lemma grown_snoc pb0 m l r br q bq :
  grown pb0 m (l ++ [(r, br)]) → m !! q = None → q ∉ (l ++ [(r, br)]).*1 →
  grown pb0 (<[q := bq]> (<[r := with_next q br]> m)) (l ++ [(r, with_next q br)] ++ [(q, bq)]).
Proof.
  intros [H1 H2] Hq Hnq. rewrite fmap_app in *. simpl in *.
  split; intros k Hk; rewrite fmap_app in Hk; simpl in Hk.
  - rewrite !lookup_insert_ne by set_solver. apply H1. set_solver.
  - destruct (decide (k = q)) as [->|Hne].
    + rewrite <- (H1 q Hnq). done.
    + apply H2. set_solver.
Qed.

(** Freeing a whole chain of pool pbufs gives back the state before it. *)
Lemma free_grown s fl out bs p l pb0 :
  owned s fl out bs → pchain (ps_pbufs s) p l → Forall pool_elem l → l ≠ [] →
  grown pb0 (ps_pbufs s) l →
  ∃ c s' fl' out' bs', pbuf_free p s = Some (c, s') ∧ owned s' fl' out' bs' ∧
    ps_bytes s' = ps_bytes s ∧ ps_pbufs s' = pb0.
Proof.
  intros Ho Hp Hel Hne [Hg1 Hg2].
  destruct (pbuf_free_loop_spec l s fl out bs p [] 0 (chain_fuel s) Ho)
    as (s' & fl' & out' & bs' & E & Ho' & Hb & Hpb); try done.
  - by rewrite app_nil_r.
  - by apply ref1_all.
  - by eapply pchain_fuel.
  - eexists _, s', fl', out', bs'. split_and!; [|exact Ho'|done|].
    + unfold pbuf_free. destruct l as [|[a b] l]; [done|].
      destruct Hp as (-> & Ha & _). rewrite (proj2 (Z.eqb_neq a 0)) by done. exact E.
    + rewrite Hpb. apply map_eq. intros k. rewrite lookup_foldr_delete.
      case_decide as Hk; [by rewrite Hg2 | by apply Hg1].
Qed.

Definition head_payload (l : chain) : Z :=
  match l with (_, b) :: _ => pb_payload b | [] => 0 end.

Lemma pbuf_alloc_tail_spec fuel : ∀ s fl out bs p l r br rem pb0,
  owned s fl out bs → pchain (ps_pbufs s) p (l ++ [(r, br)]) →
  Forall pool_elem (l ++ [(r, br)]) → lens_rem rem (l ++ [(r, br)]) →
  0 ≤ rem < 65536 → (Z.to_nat rem < fuel)%nat →
  grown pb0 (ps_pbufs s) (l ++ [(r, br)]) →
  ∃ s' fl' out' bs',
    pbuf_alloc_tail fuel p r rem s
      = Some (rem <=? Z.of_nat (length (fl MEMP_PBUF_POOL)) * PBUF_POOL_BUFSIZE_ALIGNED, s') ∧
    owned s' fl' out' bs' ∧ ps_bytes s' = ps_bytes s ∧
    if rem <=? Z.of_nat (length (fl MEMP_PBUF_POOL)) * PBUF_POOL_BUFSIZE_ALIGNED then
      ∃ l', pchain (ps_pbufs s') p l' ∧ Forall pool_elem l' ∧ lens_ok l' ∧
        lens l' = lens (l ++ [(r, br)]) + rem ∧
        head_payload l' = head_payload (l ++ [(r, br)]) ∧ grown pb0 (ps_pbufs s') l'
    else ps_pbufs s' = pb0.
Proof.
  induction fuel as [|fuel IH]; intros s fl out bs p l r br rem pb0 Ho Hp Hel Hlen Hrem Hf Hg;
    [lia|].
  destruct (Z.eq_dec rem 0) as [->|Hr0].
  { exists s, fl, out, bs. rewrite (proj2 (Z.leb_le _ _)) by (unfold PBUF_POOL_BUFSIZE_ALIGNED; lia).
    split_and!; try done. exists (l ++ [(r, br)]). split_and!; try done; [by apply lens_rem_0 | lia]. }
  pose proof (memp_malloc_owned _ _ _ _ MEMP_PBUF_POOL Ho (or_intror eq_refl)) as Hm.
  destruct (fl MEMP_PBUF_POOL) as [|q fll] eqn:Efl.
  - destruct (free_grown _ _ _ _ _ _ _ Ho Hp Hel ltac:(by destruct l) Hg)
      as (c & s' & fl' & out' & bs' & Ef & Ho' & Hb & Hpb).
    rewrite (proj2 (Z.leb_gt _ _)) by (simpl; lia).
    exists s', fl', out', bs'. split_and!; try done. cbn [pbuf_alloc_tail].
    rewrite (proj2 (Z.ltb_lt _ _)) by lia.
    rewrite (prog_bind_step _ _ s 0 s) by (unfold on_pools; rewrite Hm; by destruct s).
    cbn [Z.eqb]. erewrite prog_bind_step by exact Ef. done.
  - destruct Hm as (pl & d & Em & Hq0 & Hqn & Hd & Hqd & Hown).
    destruct (ow_layout _ _ _ _ Ho) as (_ & Hlay & _).
    destruct (Hlay _ _ _ (or_intror eq_refl) Hd Hqd) as (Hqr & Hq4 & _).
    assert (Er : ps_pbufs s !! r = Some br).
    { apply (pchain_lookup _ _ _ _ _ Hp). apply elem_of_app. right. by left. }
    assert (Hqr' : q ≠ r) by congruence.
    assert (Hrp : 0 < rem) by lia.
    rewrite (pbuf_alloc_tail_step _ _ _ _ _ _ _ _ Hrp Em Hq0 Er Hqn).
    set (bq := pb_of_pool q rem).
    assert (Hlq : pb_len bq = Z.min rem PBUF_POOL_BUFSIZE_ALIGNED).
    { unfold bq, pb_of_pool. cbn [pb_len]. by rewrite u16_small by lia. }
    rewrite (u16_small rem) by lia. rewrite <- Hlq.
    set (s1 := PState _ _ _ _).
    assert (Hdec : 1 ≤ pb_len bq ≤ rem).
    { rewrite Hlq. unfold PBUF_POOL_BUFSIZE_ALIGNED. lia. }
    destruct (IH s1 (fupd fl MEMP_PBUF_POOL fll)
      (fupd out MEMP_PBUF_POOL (q :: out MEMP_PBUF_POOL)) bs p
      (l ++ [(r, with_next q br)]) q bq (rem - pb_len bq) pb0)
      as (s' & fl' & out' & bs' & E & Ho' & Hb & Hres).
    + subst s1. rewrite insert_insert_ne by done.
      pose proof (owned_upd _ _ _ _ r br (with_next q br) (Hown bq eq_refl)) as Hu.
      cbn [ps_pbufs ps_bytes ps_heap ps_pools] in Hu. apply Hu; [|done].
      by rewrite lookup_insert_ne.
    + subst s1. cbn [ps_pbufs]. rewrite <- app_assoc. by apply pchain_snoc.
    + apply Forall_app. apply Forall_app in Hel as [Hel1 Hel2]. split.
      * apply Forall_app. split; [done|]. constructor; [|done].
        apply Forall_inv in Hel2. exact Hel2.
      * constructor; [|done]. apply pb_of_pool_elem; [lia | done].
    + apply lens_rem_snoc; [by apply lens_rem_with_next | | lia | lia].
      unfold bq, pb_of_pool. cbn [pb_tot_len]. by apply u16_small.
    + lia.
    + lia.
    + subst s1. cbn [ps_pbufs]. rewrite <- app_assoc. apply grown_snoc; [done | done |].
      intros Hin. apply list_elem_of_fmap in Hin as ([a b] & Ha & Hin). simpl in Ha. subst a.
      apply (pchain_lookup _ _ _ _ _ Hp) in Hin as [? _]. congruence.
    + rewrite fupd_eq in *.
      assert (Eb : (rem <=? Z.of_nat (length (q :: fll)) * PBUF_POOL_BUFSIZE_ALIGNED)
                   = (rem - pb_len bq <=? Z.of_nat (length fll) * PBUF_POOL_BUFSIZE_ALIGNED)).
      { rewrite Hlq. cbn [length]. unfold PBUF_POOL_BUFSIZE_ALIGNED.
        destruct (Z.leb_spec rem (Z.of_nat (S (length fll)) * 1524));
        destruct (Z.leb_spec (rem - rem `min` 1524) (Z.of_nat (length fll) * 1524)); lia. }
      rewrite Eb. exists s', fl', out', bs'. split_and!; try done.
      destruct (_ <=? _); [|done].
      destruct Hres as (l' & R1 & R2 & R3 & R4 & R5 & R6). exists l'. split_and!; try done.
      * rewrite R4, !lens_app. simpl. lia.
      * rewrite R5. by destruct l.
Qed.

(** Elements of one pool are at least an element apart. *)
Lemma elems_from_ge n size a x : 0 ≤ size → x ∈ elems_from n size a → a ≤ x.
Proof.
  intros Hs. revert a. induction n as [|n IH]; intros a; simpl.
  - by intros ?%elem_of_nil.
  - unfold MEMP_SIZE. intros [->|Hx]%elem_of_cons; [lia|]. apply IH in Hx. lia.
Qed.

Lemma elems_apart n size a x y :
  0 ≤ size → x ∈ elems_from n size a → y ∈ elems_from n size a → x ≠ y →
  x + size ≤ y ∨ y + size ≤ x.
Proof.
  intros Hs. revert a. induction n as [|n IH]; intros a; simpl.
  - by intros ?%elem_of_nil.
  - unfold MEMP_SIZE in *. intros [->|Hx]%elem_of_cons [->|Hy]%elem_of_cons Hne; [done| | |eauto].
    + apply elems_from_ge in Hy; lia.
    + apply elems_from_ge in Hx; lia.
Qed.

Lemma pool_chain_disjoint s fl out bs p l :
  owned s fl out bs → pchain (ps_pbufs s) p l → Forall pool_elem l → lens_ok l →
  payloads_disjoint l.
Proof.
  intros Ho Hp Hel Hl.
  assert (Hlt : (MEMP_PBUF_POOL < MEMP_MAX (ps_pools s))%nat) by apply (ow_max _ _ _ _ Ho).
  apply lookup_lt_is_Some_2 in Hlt as [d Ed].
  destruct (ow_layout _ _ _ _ Ho) as (_ & _ & Hsz). specialize (Hsz _ Ed).
  assert (Hin : ∀ a b, (a, b) ∈ l → a ∈ elems d).
  { intros a b Hab. destruct (proj2 (ow_pools _ _ _ _ Ho) _ _ Ed) as (? & _ & _ & <-).
    apply elem_of_app. right. apply (ow_pool _ _ _ _ Ho). exists b.
    split; [by eapply pchain_lookup|].
    rewrite Forall_forall in Hel. by apply Hel in Hab as [? _]. }
  pose proof (pchain_NoDup _ _ _ Hp) as Hnd. clear Hp.
  unfold elems in Hin. rewrite Hsz in Hin.
  induction l as [|[a b] l IH]; [done|]. simpl in Hnd. apply NoDup_cons in Hnd as [Hna Hnd].
  apply Forall_cons_1 in Hel as [(_ & _ & P1 & _ & P2) Hel].
  destruct Hl as (Hb0 & _ & _ & Hl). split.
  - unfold clear_of. apply Forall_forall. intros [a' b'] Hin'.
    assert (Hne : a ≠ a').
    { intros ->. apply Hna, list_elem_of_fmap. exists (a', b'). done. }
    rewrite Forall_forall in Hel. pose proof (Hel _ Hin') as (_ & _ & P1' & _ & P2').
    cbn [fst snd] in *.
    assert (Ha : (a, b) ∈ (a, b) :: l) by (by left).
    assert (Ha' : (a', b') ∈ (a, b) :: l) by (by right).
    apply Hin in Ha. apply Hin in Ha'.
    pose proof (elems_apart _ _ _ a a' (ltac:(by compute) :
      0 ≤ SIZEOF_STRUCT_PBUF + PBUF_POOL_BUFSIZE_ALIGNED) Ha Ha' Hne) as Hap.
    unfold disjoint_range, SIZEOF_STRUCT_PBUF, PBUF_POOL_BUFSIZE_ALIGNED in *. lia.
  - apply IH; try done. intros a' b' Hin'. apply (Hin a' b'). by right.
Qed.

Lemma align_val a : 0 ≤ a < 4294967293 → LWIP_MEM_ALIGN a = (a + 3) / 4 * 4.
Proof. apply align_size_val. Qed.

Lemma pchain_upd_head m p b b' l :
  pchain m p ((p, b) :: l) → pb_next b' = pb_next b →
  pchain (<[p := b']> m) p ((p, b') :: l).
Proof.
  intros H En. pose proof (pchain_NoDup _ _ _ H) as Hnd. simpl in Hnd.
  apply NoDup_cons in Hnd as [Hn _]. destruct H as (_ & H0 & E & H).
  simpl. rewrite lookup_insert_eq, En. split_and!; [done..|].
  apply (pchain_frame m); [done|]. intros a Ha. rewrite lookup_insert_ne; [done|].
  intros ->. done.
Qed.

(** The room of a pool with [n] free elements behind a header of [off] bytes. *)
Definition pool_room (n off : Z) : Z :=
  n * PBUF_POOL_BUFSIZE_ALIGNED - LWIP_MEM_ALIGN_SIZE off.

Lemma pbuf_alloc_pool_spec s fl out bs layer len :
  owned s fl out bs → 0 ≤ len < 65536 →
  let n := Z.of_nat (length (fl MEMP_PBUF_POOL)) in
  ∃ p s' fl' out' bs', pbuf_alloc layer len PBUF_POOL s = Some (p, s') ∧
    owned s' fl' out' bs' ∧ ps_bytes s' = ps_bytes s ∧
    if (0 <? n) && (len <=? pool_room n (layer_offset layer)) then
      p ≠ 0 ∧ ∃ l, pchain (ps_pbufs s') p l ∧ Forall pool_elem l ∧ lens_ok l ∧
        lens l = len ∧ payloads_disjoint l ∧ grown (ps_pbufs s) (ps_pbufs s') l ∧
        head_payload l = p + SIZEOF_STRUCT_PBUF + LWIP_MEM_ALIGN_SIZE (layer_offset layer)
    else p = 0 ∧ ps_pbufs s' = ps_pbufs s.
Proof.
  intros Ho Hlen n. unfold pbuf_alloc, pbuf_alloc_pool.
  pose proof (memp_malloc_owned _ _ _ _ MEMP_PBUF_POOL Ho (or_intror eq_refl)) as Hm.
  subst n. destruct (fl MEMP_PBUF_POOL) as [|p fll] eqn:Efl.
  { exists 0, s, fl, out, bs. split_and!; try done.
    rewrite (prog_bind_step _ _ s 0 s); [done|].
    rewrite (prog_bind_step _ _ s 0 s); [done|]. unfold on_pools. rewrite Hm. by destruct s. }
  destruct Hm as (pl & d & Em & Hp0 & Hpn & Hd & Hpd & Hown).
  destruct (ow_layout _ _ _ _ Ho) as (_ & Hlay & _).
  destruct (Hlay _ _ _ (or_intror eq_refl) Hd Hpd) as (Hpr & Hp4 & _).
  set (off := layer_offset layer).
  assert (Hoff : 0 ≤ off ≤ 54) by (subst off; destruct layer; cbv; done).
  assert (Eal : LWIP_MEM_ALIGN_SIZE off = (off + 3) / 4 * 4) by (apply align_size_val; lia).
  assert (Hal : off ≤ LWIP_MEM_ALIGN_SIZE off ≤ 56).
  { rewrite Eal. Z.to_euclidean_division_equations. lia. }
  assert (Epay : LWIP_MEM_ALIGN (p + (SIZEOF_STRUCT_PBUF + off))
                 = p + SIZEOF_STRUCT_PBUF + LWIP_MEM_ALIGN_SIZE off).
  { rewrite align_val by (unfold SIZEOF_STRUCT_PBUF; lia). rewrite Eal.
    unfold SIZEOF_STRUCT_PBUF, MEM_ALIGNMENT in *. Z.to_euclidean_division_equations. lia. }
  set (ln := Z.min len (PBUF_POOL_BUFSIZE_ALIGNED - LWIP_MEM_ALIGN_SIZE off)).
  set (b0 := MkPbuf 0 (p + SIZEOF_STRUCT_PBUF + LWIP_MEM_ALIGN_SIZE off) len ln PBUF_POOL 205 1).
  set (s1 := PState (<[p := b0]> (ps_pbufs s)) (ps_bytes s) (ps_heap s) pl).
  assert (Hln : 0 ≤ ln ≤ len) by (subst ln; unfold PBUF_POOL_BUFSIZE_ALIGNED; lia).
  destruct (pbuf_alloc_tail_spec (S (Z.to_nat len)) s1 (fupd fl MEMP_PBUF_POOL fll)
    (fupd out MEMP_PBUF_POOL (p :: out MEMP_PBUF_POOL)) bs p [] p b0 (len - ln) (ps_pbufs s))
    as (s2 & fl2 & out2 & bs2 & E2 & Ho2 & Hb2 & Hres); try lia.
  - by apply Hown.
  - subst s1. simpl. rewrite lookup_insert_eq. done.
  - constructor; [|done]. subst b0. unfold pool_elem. cbn [fst snd pb_type pb_ref pb_payload pb_len].
    split_and!; try done; try lia.
    + rewrite Eal. unfold SIZEOF_STRUCT_PBUF, MEM_ALIGNMENT in *.
      Z.to_euclidean_division_equations. lia.
  - simpl. split_and!; try lia; done.
  - subst s1. split; simpl; intros k Hk.
    + rewrite lookup_insert_ne; [done|]. set_solver.
    + apply list_elem_of_singleton in Hk as ->. done.
  - rewrite fupd_eq in *.
    assert (Ebool : (0 <? Z.of_nat (length (p :: fll)))
       && (len <=? pool_room (Z.of_nat (length (p :: fll))) off)
       = (len - ln <=? Z.of_nat (length fll) * PBUF_POOL_BUFSIZE_ALIGNED)).
    { rewrite (proj2 (Z.ltb_lt _ _)) by (cbn [length]; lia). cbn [andb].
      unfold pool_room. subst ln. unfold PBUF_POOL_BUFSIZE_ALIGNED. cbn [length].
      apply eq_true_iff_eq. rewrite !Z.leb_le. lia. }
    rewrite Ebool.
    assert (Ealloc : pbuf_alloc_pool off len s
      = Some (if len - ln <=? Z.of_nat (length fll) * PBUF_POOL_BUFSIZE_ALIGNED
              then p else 0, s2)).
    { unfold pbuf_alloc_pool.
      erewrite prog_bind_step by (unfold on_pools; rewrite Em; reflexivity).
      rewrite (proj2 (Z.eqb_neq _ _)) by done.
      erewrite (prog_bind_step (new_pbuf p)) by
        (unfold new_pbuf, set_pbufs, modify; prog_simpl; reflexivity).
      cbn [ps_pbufs ps_bytes ps_heap ps_pools]. do 6 step_upd.
      rewrite Epay. fold ln. cbv zeta. erewrite prog_bind_step by exact E2. done. }
    unfold pbuf_alloc_pool in Ealloc. fold off. cbv zeta.
    erewrite prog_bind_step by exact Ealloc.
    destruct (_ <=? _).
    2: { exists 0, s2, fl2, out2, bs2. done. }
    destruct Hres as (l & R1 & R2 & R3 & R4 & R5 & R6).
    rewrite (proj2 (Z.eqb_neq _ _)) by done.
    destruct l as [|[p' bh] l]; [simpl in R1; done|].
    pose proof R1 as (<- & _ & Ep & _). do 2 step_upd.
    apply Forall_cons_1 in R2 as [R2h R2].
    set (bh' := with_flags 0 (with_ref 1 bh)).
    exists p. eexists _, fl2, out2, bs2. split; [reflexivity|]. split; [|split].
    + by apply (owned_upd _ _ _ _ _ bh).
    + exact Hb2.
    + split; [done|]. exists ((p, bh') :: l). cbn [ps_pbufs].
      assert (Hpc : pchain (<[p := bh']> (ps_pbufs s2)) p ((p, bh') :: l))
        by (by apply (pchain_upd_head _ _ bh)).
      assert (Hfa : Forall pool_elem ((p, bh') :: l)).
      { constructor; [|done]. destruct R2h as (? & ? & ? & ? & ?). by split_and!. }
      assert (Hlo : lens_ok ((p, bh') :: l)) by done.
      split_and!; try done.
      * rewrite <- (Z.add_0_r len). simpl in R4. simpl. lia.
      * refine (pool_chain_disjoint (PState (<[p := bh']> (ps_pbufs s2)) (ps_bytes s2)
          (ps_heap s2) (ps_pools s2)) fl2 out2 bs2 p _ _ Hpc Hfa Hlo).
        by apply (owned_upd _ _ _ _ _ bh).
      * destruct R6 as [G1 G2]. split; simpl in *; intros k Hk.
        -- rewrite lookup_insert_ne by set_solver. by apply G1.
        -- by apply G2.
Qed.

(** ** pbuf_alloc from the heap *)

Lemma mem_malloc_owned s fl out bs n :
  owned s fl out bs → 0 < n ≤ 65532 →
  ∃ p h bs', mem_malloc n (ps_heap s) = Some (p, h) ∧ heap_repr h bs' ∧
    h_ram h = h_ram (ps_heap s) ∧
    (p = 0 → ∀ m, owned (PState m (ps_bytes s) (ps_heap s) (ps_pools s)) fl out bs →
             owned (PState m (ps_bytes s) h (ps_pools s)) fl out bs') ∧
    (p ≠ 0 → ps_pbufs s !! p = None ∧ p mod MEM_ALIGNMENT = 0 ∧
       h_ram h + SIZEOF_STRUCT_MEM ≤ p ∧ p + n ≤ h_ram h + MEM_SIZE_ALIGNED ∧
       ∀ b, pb_type b = PBUF_RAM →
         owned (PState (<[p := b]> (ps_pbufs s)) (ps_bytes s) h (ps_pools s)) fl out bs').
Proof.
  intros [Hp Hmax Hh H1 H2 H3 H4] Hn.
  destruct (mem_malloc_spec _ _ n Hh Hn) as (h & Hr & Hs).
  destruct (spec_alloc _ _ _) as [[off bs1]|] eqn:Ea; destruct Hs as [E Hi'].
  2: { exists 0, h, bs. split_and!; try done. intros _ m [? ? ? ? ? ? ?].
       split; cbn [ps_heap ps_pbufs ps_pools] in *; try done.
       - intros a b Hab Hb. unfold blk_ptr in *. rewrite Hr. eauto.
       - by rewrite Hr. }
  assert (Hnz : h_ram (ps_heap s) + off + SIZEOF_STRUCT_MEM ≠ 0).
  { apply spec_alloc_inv in Ea as (l & sz & r & -> & _ & -> & _).
    pose proof (tail_ok _ _ _ _ (hr_tail _ _ _ Hh)) as Hok. apply Forall_app in Hok as [Hok _].
    apply tot_nonneg in Hok. destruct (hr_ram _ _ _ Hh). mem_consts. lia. }
  destruct (mem_malloc_live _ _ _ _ _ Hh Hn E Hnz)
    as (p & z & bs' & R1 & R2 & R3 & R4 & R5 & R6 & R7 & R8 & R9).
  exists (blk_ptr h p), h, bs'. rewrite E, <- R2. split_and!; try done.
  intros _. rewrite R2.
  pose proof (tail_tot _ _ _ _ (hr_tail _ _ _ Hh)) as Htot.
  pose proof (tail_ok _ _ _ _ (hr_tail _ _ _ Hh)) as Hok.
  assert (Hnew : ps_pbufs s !! blk_ptr h p = None).
  { destruct (ps_pbufs s !! blk_ptr h p) as [b|] eqn:Eb; [|done]. exfalso.
    destruct (pb_type b) eqn:Et.
    1: { destruct (H3 _ _ Eb Et) as (q & x & Hin & Eq). unfold blk_ptr in Eq.
         pose proof (live_bounds _ _ _ _ Hok Hin). apply R9 in Hin. mem_consts. lia. }
    all: assert (Hj : ∃ j, pool_of (pb_type b) = Some j) by (rewrite Et; simpl; eauto).
    all: destruct Hj as [j Hj].
    all: assert (Hjc : j = MEMP_PBUF ∨ j = MEMP_PBUF_POOL) by (rewrite Et in Hj; simpl in Hj; naive_solver).
    all: assert (Hjo : blk_ptr h p ∈ out j)
      by (apply (owned_out s fl out bs j _ (Build_owned _ _ _ _ Hp Hmax Hh H1 H2 H3 H4) Hjc); eauto).
    all: assert (Hlt : (j < MEMP_MAX (ps_pools s))%nat) by (unfold MEMP_PBUF, MEMP_PBUF_POOL in *; lia).
    all: apply lookup_lt_is_Some_2 in Hlt as [d Ed].
    all: assert (Hje : blk_ptr h p ∈ elems d)
      by (destruct (proj2 Hp _ _ Ed) as (? & _ & _ & <-); apply elem_of_app; by right).
    all: destruct H4 as (_ & Hl & _); destruct (Hl j d _ Hjc Ed Hje) as (_ & _ & Hsep).
    all: unfold blk_ptr in Hsep; mem_consts; lia. }
  split_and!; [done | by rewrite <- R2 | unfold blk_ptr; mem_consts; lia
              | unfold blk_ptr; mem_consts; lia |].
  intros b Hb. split; cbn [ps_heap ps_pbufs ps_pools]; try done.
  - intros a. rewrite H1. rewrite lookup_insert. case_decide as Hd; [|done]. subst a.
    rewrite Hnew. naive_solver congruence.
  - intros a. rewrite H2. rewrite lookup_insert. case_decide as Hd; [|done]. subst a.
    rewrite Hnew. split; [naive_solver|]. intros (c & [= <-] & Hc). by rewrite Hb in Hc.
  - intros a c. rewrite lookup_insert. case_decide as Hd.
    + subst a. intros _ _. exists p, z. split; [|done]. apply R8. by right.
    + intros Ec Hc. destruct (H3 _ _ Ec Hc) as (q & x & Hin & Eq).
      exists q, x. split; [apply R8; by left|]. unfold blk_ptr in *. by rewrite R3.
  - by rewrite R3.
Qed.

(** The pbuf built by [pbuf_alloc] in RAM. *)
Definition ram_pbuf (p : Z) (layer : pbuf_layer) (len : Z) : pbuf :=
  MkPbuf 0 (p + LWIP_MEM_ALIGN_SIZE (SIZEOF_STRUCT_PBUF + layer_offset layer))
    len len PBUF_RAM 0 1.

Lemma pbuf_alloc_ram_spec s fl out bs layer len :
  owned s fl out bs → 0 ≤ len < 65536 →
  ∃ p s' bs', pbuf_alloc layer len PBUF_RAM s = Some (p, s') ∧
    owned s' fl out bs' ∧ ps_bytes s' = ps_bytes s ∧
    (p = 0 → ps_pbufs s' = ps_pbufs s) ∧
    (p ≠ 0 → ps_pbufs s !! p = None ∧
       ps_pbufs s' = <[p := ram_pbuf p layer len]> (ps_pbufs s) ∧
       p mod MEM_ALIGNMENT = 0 ∧ h_ram (ps_heap s') = h_ram (ps_heap s) ∧
       h_ram (ps_heap s') ≤ p ∧
       pb_payload (ram_pbuf p layer len) + len ≤ h_ram (ps_heap s') + MEM_SIZE_ALIGNED).
Proof.
  intros Ho Hlen. unfold pbuf_alloc, pbuf_alloc_ram.
  set (off := layer_offset layer).
  assert (Hoff : 0 ≤ off ≤ 54) by (subst off; destruct layer; cbv; done).
  set (hd := LWIP_MEM_ALIGN_SIZE (SIZEOF_STRUCT_PBUF + off)).
  set (al := LWIP_MEM_ALIGN_SIZE len).
  assert (Ehd : hd = (SIZEOF_STRUCT_PBUF + off + 3) / 4 * 4)
    by (apply align_size_val; unfold SIZEOF_STRUCT_PBUF; lia).
  assert (Eal : al = (len + 3) / 4 * 4) by (apply align_size_val; lia).
  assert (Hhd : 16 ≤ hd ≤ 72 ∧ hd mod 4 = 0 ∧ len ≤ al ≤ 65536 ∧ al mod 4 = 0).
  { rewrite Ehd, Eal. unfold SIZEOF_STRUCT_PBUF. Z.to_euclidean_division_equations. lia. }
  destruct (Z.ltb_spec (u16 (hd + al)) al) as [Hw|Hw].
  { exists 0, s, bs. done. }
  assert (Hfit : hd + al < 65536).
  { destruct (Z.lt_ge_cases (hd + al) 65536); [done|]. exfalso.
    assert (u16 (hd + al) = hd + al - 65536) as Hu by zmod. lia. }
  rewrite u16_small in * by lia.
  assert (Hn : 0 < hd + al ≤ 65532) by (Z.to_euclidean_division_equations; lia).
  destruct (mem_malloc_owned _ _ _ _ _ Ho Hn) as (p & h & bs' & Em & Hh & Hr & Hz & Hnz).
  destruct (Z.eq_dec p 0) as [->|Hp0].
  { exists 0, (PState (ps_pbufs s) (ps_bytes s) h (ps_pools s)), bs'. split.
    - rewrite (prog_bind_step _ _ s 0 (PState (ps_pbufs s) (ps_bytes s) h (ps_pools s)));
        [reflexivity|].
      erewrite prog_bind_step by (unfold on_heap; rewrite Em; reflexivity). reflexivity.
    - split; [|done]. apply Hz; [done|]. by destruct s. }
  destruct (Hnz Hp0) as (Hnew & Hp4 & Hlo & Hhi & Hown).
  assert (Epay : LWIP_MEM_ALIGN (p + SIZEOF_STRUCT_PBUF + off) = p + hd).
  { destruct (ow_layout _ _ _ _ Ho) as (Hl & _). destruct (hr_ram _ _ _ Hh).
    rewrite align_val by (unfold SIZEOF_STRUCT_PBUF; mem_consts; lia). rewrite Ehd.
    unfold SIZEOF_STRUCT_PBUF, MEM_ALIGNMENT in *. Z.to_euclidean_division_equations. lia. }
  set (b1 := with_type PBUF_RAM (with_next 0 (with_len len
      (with_tot_len len (with_payload (LWIP_MEM_ALIGN (p + SIZEOF_STRUCT_PBUF + off))
        pbuf_uninit))))).
  exists p. eexists _, bs'. split.
  - rewrite (prog_bind_step _ _ s p
      (PState (<[p := b1]> (ps_pbufs s)) (ps_bytes s) h (ps_pools s))).
    + rewrite (proj2 (Z.eqb_neq _ _)) by done. do 2 step_upd. reflexivity.
    + erewrite prog_bind_step by (unfold on_heap; rewrite Em; reflexivity).
      rewrite (proj2 (Z.eqb_neq _ _)) by done.
      erewrite (prog_bind_step (new_pbuf p)) by
        (unfold new_pbuf, set_pbufs, modify; prog_simpl; reflexivity).
      cbn [ps_pbufs ps_bytes ps_heap ps_pools]. do 5 step_upd. reflexivity.
  - cbn [ps_pbufs ps_bytes ps_heap ps_pools].
    assert (Eb : with_flags 0 (with_ref 1 b1) = ram_pbuf p layer len).
    { subst b1. rewrite Epay. done. }
    rewrite Eb. split; [by apply Hown|]. split; [done|]. split; [done|].
    intros _. split_and!; try done.
    + mem_consts. lia.
    + unfold ram_pbuf. cbn [pb_payload]. fold off hd. lia.
Qed.
