(* ===== verification/PbufOps.v ===== *)
(** * Operations on chains: reading, searching, joining, shrinking

    Functional lemmas for the operations of [Pbuf] on a well formed chain. *)

From stdpp Require Import base numbers list gmap option sorting.
From S2P Require Import Prelude Mem MemRefine MemProps Memp Pbuf PbufLemmas PbufAlloc.

(** A chain with its contents. *)
Record chain_at (s : pstate) (p : Z) (l : chain) (d : bytes) : Prop := {
  ca_chain : pchain (ps_pbufs s) p l;
  ca_lens : lens_ok l;
  ca_bytes : pbytes (ps_bytes s) l = Some d
}.

Lemma pbytes_app m l1 l2 d :
  pbytes m (l1 ++ l2) = Some d ↔
  ∃ x y, d = x ++ y ∧ pbytes m l1 = Some x ∧ pbytes m l2 = Some y.
Proof.
  revert d. induction l1 as [|[a b] l1 IH]; intros d; cbn [app pbytes].
  - split; [intros H; exists [], d; done | intros (x & y & -> & [= <-] & H); done].
  - destruct (load_bytes _ _ _) as [x|]; [|naive_solver].
    destruct (pbytes m (l1 ++ l2)) as [y|] eqn:E.
    + destruct (proj1 (IH y) eq_refl) as (u & v & -> & Eu & Ev). rewrite Eu. split.
      * intros [= <-]. exists (x ++ u), v. by rewrite app_assoc.
      * intros (u' & v' & -> & [= <-] & Ev'). rewrite Ev in Ev'. injection Ev' as <-.
        by rewrite app_assoc.
    + split; [done|]. intros (u & v & -> & Eu & Ev).
      destruct (pbytes m l1) as [w|] eqn:Ew; [|done].
      assert (None = Some (w ++ v)) by (apply IH; eauto). done.
Qed.

Lemma lens_ok_app l1 l2 : lens_ok (l1 ++ l2) → lens_ok l2.
Proof. induction l1 as [|[a b] l1 IH]; simpl; [done|]. intros (_ & _ & _ & H). auto. Qed.

Lemma chain_at_length s p l d : chain_at s p l d → Z.of_nat (length d) = lens l.
Proof. intros [_ Hl Hd]. by eapply pbytes_length. Qed.

Lemma chain_at_head s p a b l d :
  chain_at s p ((a, b) :: l) d →
  p = a ∧ a ≠ 0 ∧ ps_pbufs s !! a = Some b ∧ pb_tot_len b = Z.of_nat (length d).
Proof.
  intros H. pose proof (chain_at_length _ _ _ _ H) as E.
  destruct H as [(-> & H0 & Eb & _) (_ & Ht & _) _]. rewrite E. done.
Qed.

(** ** Skipping *)

Lemma pbuf_skip_loop_spec l s p off fuel :
  pchain (ps_pbufs s) p l → lens_ok l → 0 ≤ off < 65536 → (length l < fuel)%nat →
  ∃ l1 l2 q o, l = l1 ++ l2 ∧ pbuf_skip_loop fuel p off s = Some ((q, o), s) ∧
    pchain (ps_pbufs s) q l2 ∧ lens l1 + o = off ∧ 0 ≤ o ∧
    match l2 with [] => True | (_, b) :: _ => o < pb_len b end.
Proof.
  revert p off fuel. induction l as [|[a b] l IH]; intros p off [|fuel] Hp Hl Ho Hf;
    try (simpl in Hf; lia); cbn [pbuf_skip_loop].
  - simpl in Hp. subst p. rewrite Z.eqb_refl. exists [], [], 0, off. split_and!; try done; lia.
  - pose proof Hp as (-> & Ha & Eb & Hp'). destruct Hl as (Hb & Ht & Hm & Hl).
    rewrite (proj2 (Z.eqb_neq _ _)) by done.
    erewrite prog_bind_step by (unfold deref; rewrite Eb; reflexivity).
    destruct (Z.leb_spec (pb_len b) off) as [Hle|Hgt].
    + rewrite u16_small by lia.
      destruct (IH (pb_next b) (off - pb_len b) fuel) as (l1 & l2 & q & o & -> & E & R1 & R2 & R3 & R4);
        try done; try lia; [simpl in Hf; lia|].
      exists ((a, b) :: l1), l2, q, o. split_and!; try done. simpl. lia.
    + exists [], ((a, b) :: l), a, off. split_and!; try done; simpl; lia.
Qed.

Lemma pbuf_skip_spec s p l d off :
  chain_at s p l d → 0 ≤ off < 65536 →
  ∃ l1 l2 x y q o, l = l1 ++ l2 ∧ d = x ++ y ∧ pbuf_skip_const p off s = Some ((q, o), s) ∧
    pbytes (ps_bytes s) l1 = Some x ∧ chain_at s q l2 y ∧
    Z.of_nat (length x) + o = off ∧ 0 ≤ o ∧
    match l2 with [] => q = 0 | (_, b) :: _ => o < pb_len b end.
Proof.
  intros [Hp Hl Hd] Ho. pose proof (pchain_fuel _ _ _ Hp) as Hf.
  destruct (pbuf_skip_loop_spec l s p off (chain_fuel s) Hp Hl Ho ltac:(lia))
    as (l1 & l2 & q & o & -> & E & R1 & R2 & R3 & R4).
  apply pbytes_app in Hd as (x & y & -> & Ex & Ey).
  exists l1, l2, x, y, q, o.
  assert (Hlx : Z.of_nat (length x) = lens l1).
  { clear -Ex Hl. revert x Ex. induction l1 as [|[a b] l1 IH]; intros x; cbn [pbytes lens].
    - by intros [= <-].
    - destruct Hl as (H0 & _ & _ & Hl). destruct (load_bytes _ _ _) as [u|] eqn:Eu; [|done].
      destruct (pbytes _ l1) as [v|] eqn:Ev; [|done]. intros [= <-].
      rewrite length_app, Nat2Z.inj_add, (IH Hl v eq_refl).
      apply load_bytes_length in Eu. lia. }
  split_and!; try done.
  - split; [done | by eapply lens_ok_app | done].
  - lia.
  - destruct l2 as [|[? ?] ?]; done.
Qed.

(** ** Reading and writing one byte *)

Lemma load_bytes_lookup m a n x k v :
  load_bytes m a n = Some x → x !! k = Some v → m !! (a + Z.of_nat k) = Some v.
Proof.
  revert a x k. induction n as [|n IH]; intros a x k; simpl.
  - by intros [= <-].
  - destruct (m !! a) as [b|] eqn:E; [|done].
    destruct (load_bytes m (a + 1) n) as [y|] eqn:Ey; [|done]. intros [= <-].
    destruct k as [|k]; simpl.
    + intros [= <-]. by rewrite Z.add_0_r.
    + intros Hk. rewrite <- (IH _ _ _ Ey Hk). f_equal. lia.
Qed.

Lemma pbuf_try_get_at_spec s p l d off :
  chain_at s p l d → 0 ≤ off < 65536 →
  pbuf_try_get_at p off s = Some (default (-1) (d !! Z.to_nat off), s).
Proof.
  intros Hc Ho.
  destruct (pbuf_skip_spec _ _ _ _ _ Hc Ho)
    as (l1 & l2 & x & y & q & o & -> & -> & E & Ex & Hq & Hx & Ho0 & Hm).
  unfold pbuf_try_get_at. erewrite prog_bind_step by exact E. cbv beta iota.
  rewrite lookup_app_r by lia. replace (Z.to_nat off - length x)%nat with (Z.to_nat o) by lia.
  destruct l2 as [|[a b] l2].
  - subst q. destruct Hq as [_ _ [= <-]]. by rewrite Z.eqb_refl.
  - destruct (chain_at_head _ _ _ _ _ _ Hq) as (-> & Ha & Eb & _).
    rewrite (proj2 (Z.eqb_neq _ _)) by done.
    erewrite prog_bind_step by (unfold deref; rewrite Eb; reflexivity).
    rewrite (proj2 (Z.ltb_lt _ _)) by done.
    destruct (pbytes_cons _ _ _ _ _ (ca_bytes _ _ _ _ Hq)) as (u & v & -> & Eu & Ev & Hu).
    rewrite lookup_app_l by lia.
    destruct (u !! Z.to_nat o) as [w|] eqn:Ew.
    + unfold load8. pose proof (load_bytes_lookup _ _ _ _ _ _ Eu Ew) as Hld.
      rewrite Z2Nat.id in Hld by lia. rewrite Hld. done.
    + apply lookup_ge_None in Ew. lia.
Qed.

Lemma pbuf_get_at_spec s p l d off :
  chain_at s p l d → Forall byte_ok d → 0 ≤ off < 65536 →
  pbuf_get_at p off s = Some (default 0 (d !! Z.to_nat off), s).
Proof.
  intros Hc Hb Ho. unfold pbuf_get_at.
  erewrite prog_bind_step by (by eapply pbuf_try_get_at_spec).
  destruct (d !! Z.to_nat off) as [v|] eqn:E; simpl; [|done].
  rewrite Forall_lookup in Hb. specialize (Hb _ _ E). unfold byte_ok in Hb.
  rewrite (proj2 (Z.leb_le _ _)) by lia. by rewrite u8_small.
Qed.

(** ** Comparing and searching *)

(** The result of comparing two byte strings of the same length, from
    position [i] on. *)
Fixpoint first_diff (i : Z) (x y : bytes) : Z :=
  match x, y with
  | a :: x', b :: y' => if negb (a =? b) then i + 1 else first_diff (i + 1) x' y'
  | _, _ => 0
  end.

Lemma first_diff_0 i x y :
  0 ≤ i → length x = length y → first_diff i x y = 0 ↔ x = y.
Proof.
  revert i y. induction x as [|a x IH]; intros i [|b y] Hi Hl; simpl in *; try done.
  destruct (Z.eqb_spec a b) as [->|Hne]; simpl.
  - rewrite IH by lia. naive_solver.
  - split; [lia | naive_solver].
Qed.

Lemma pbuf_memcmp_loop_spec z s q l d start s2 i :
  chain_at s q l d → Forall byte_ok d →
  0 ≤ i → 0 ≤ start → start + i + Z.of_nat (length z) ≤ Z.of_nat (length d) →
  load_bytes (ps_bytes s) (s2 + i) (length z) = Some z →
  pbuf_memcmp_loop (length z) q start s2 i s =
  Some (first_diff i (take (length z) (drop (Z.to_nat (start + i)) d)) z, s).
Proof.
  intros Hc Hb. revert i. induction z as [|b z IH]; intros i Hi Hs Hl Hz; cbn [pbuf_memcmp_loop length take].
  - done.
  - pose proof (chain_at_length _ _ _ _ Hc) as El.
    pose proof (lens_ok_bound _ (ca_lens _ _ _ _ Hc)). simpl in Hl.
    erewrite prog_bind_step by
      (eapply pbuf_get_at_spec; [done | done | rewrite u16_small; lia]).
    rewrite u16_small by lia.
    destruct (d !! Z.to_nat (start + i)) as [a|] eqn:Ea.
    2: { apply lookup_ge_None in Ea. lia. }
    simpl in Hz. destruct (ps_bytes s !! (s2 + i)) as [b'|] eqn:Eb'; [|done].
    destruct (load_bytes _ _ _) as [z'|] eqn:Ez; [|done]. injection Hz as -> ->.
    erewrite prog_bind_step by (unfold load8; rewrite Eb'; reflexivity).
    rewrite (drop_S _ a) by done. cbn [first_diff take]. simpl (default 0 (Some a)).
    destruct (negb (a =? b)) eqn:Ene; [rewrite u16_small by lia; done|].
    rewrite IH by (try lia; rewrite <- Ez; f_equal; lia).
    do 4 f_equal. replace (Z.to_nat (start + (i + 1))) with (S (Z.to_nat (start + i))) by lia. done.
Qed.

Lemma pbuf_memcmp_spec s p l d off s2 n z :
  chain_at s p l d → l ≠ [] → Forall byte_ok d → 0 ≤ off < 65536 → 0 ≤ n →
  load_bytes (ps_bytes s) s2 (Z.to_nat n) = Some z →
  pbuf_memcmp p off s2 n s =
  Some (if Z.of_nat (length d) <? off + n then 65535
        else first_diff 0 (take (Z.to_nat n) (drop (Z.to_nat off) d)) z, s).
Proof.
  intros Hc Hne Hb Ho Hn Hz. destruct l as [|[a b] l0] eqn:El; [done|]. rewrite <- El in Hc.
  unfold pbuf_memcmp. rewrite El in Hc.
  destruct (chain_at_head _ _ _ _ _ _ Hc) as (-> & Ha & Eb & Ht).
  erewrite prog_bind_step by (unfold deref; rewrite Eb; reflexivity). rewrite Ht.
  destruct (Z.ltb_spec (Z.of_nat (length d)) (off + n)) as [Hlt|Hge]; [done|].
  unfold gets. rewrite (prog_bind_step _ _ s (chain_fuel s) s) by done.
  destruct (pbuf_skip_spec _ _ _ _ _ Hc Ho)
    as (l1 & l2 & x & y & q & o & _ & -> & E & _ & Hq & Hx & Ho0 & _).
  unfold pbuf_skip_const, gets in E.
  rewrite (prog_bind_step _ _ s (chain_fuel s) s) in E by done.
  erewrite prog_bind_step by exact E. cbv beta iota.
  pose proof (load_bytes_length _ _ _ _ Hz) as Hlz. rewrite <- Hlz in *.
  rewrite length_app in Hge.
  rewrite (pbuf_memcmp_loop_spec z s q l2 y o s2 0); try done; try lia.
  - do 3 f_equal. rewrite drop_app_ge by lia. f_equal. f_equal. lia.
  - by apply Forall_app in Hb as [_ ?].
  - by rewrite Z.add_0_r.
Qed.

(** [z] occurs in [d] at [i]. *)
Definition occurs (z d : bytes) (i : Z) : Prop :=
  take (length z) (drop (Z.to_nat i) d) = z.

Lemma pbuf_memfind_loop_spec k : ∀ s p l d mem z i fuel,
  chain_at s p l d → l ≠ [] → Forall byte_ok d → Z.of_nat (length d) < 65535 →
  load_bytes (ps_bytes s) mem (length z) = Some z → (length z ≤ length d)%nat →
  0 ≤ i → i + Z.of_nat k = Z.of_nat (length d) - Z.of_nat (length z) + 1 →
  (k < fuel)%nat →
  ∃ r, pbuf_memfind_loop fuel p mem (Z.of_nat (length z)) i
         (Z.of_nat (length d) - Z.of_nat (length z)) s = Some (r, s) ∧
    (r = 65535 ∧ (∀ j, i ≤ j ≤ Z.of_nat (length d) - Z.of_nat (length z) → ¬ occurs z d j) ∨
     i ≤ r ≤ Z.of_nat (length d) - Z.of_nat (length z) ∧ occurs z d r ∧
     ∀ j, i ≤ j < r → ¬ occurs z d j).
Proof.
  induction k as [|k IH]; intros s p l d mem z i [|fuel] Hc Hne Hb Hd Hz Hzl Hi Hk Hf; try lia;
    cbn [pbuf_memfind_loop].
  - rewrite (proj2 (Z.leb_gt _ _)) by lia. exists 65535. split; [done|]. left. split; [done|]. lia.
  - rewrite (proj2 (Z.leb_le _ _)) by lia.
    assert (Hi2 : 0 ≤ i < 65536) by lia.
    assert (Hn2 : 0 ≤ Z.of_nat (length z)) by lia.
    assert (Hz2 : load_bytes (ps_bytes s) mem (Z.to_nat (Z.of_nat (length z))) = Some z)
      by (by rewrite Nat2Z.id).
    erewrite prog_bind_step by exact (pbuf_memcmp_spec _ _ _ _ _ _ _ _ Hc Hne Hb Hi2 Hn2 Hz2).
    rewrite (proj2 (Z.ltb_ge _ _)) by lia. rewrite Nat2Z.id.
    assert (Hlen : length (take (length z) (drop (Z.to_nat i) d)) = length z).
    { rewrite length_take, length_drop. lia. }
    destruct (Z.eqb_spec (first_diff 0 (take (length z) (drop (Z.to_nat i) d)) z) 0) as [E|E].
    + apply first_diff_0 in E; [|lia|done]. exists i. split; [done|]. right.
      split_and!; [lia | lia | done | lia].
    + rewrite first_diff_0 in E by (lia || done). rewrite u16_small by lia.
      destruct (IH s p l d mem z (i + 1) fuel) as (r & Er & Hr); try done; try lia.
      exists r. split; [done|]. destruct Hr as [[-> Hr]|(Hr1 & Hr2 & Hr3)].
      * left. split; [done|]. intros j Hj. destruct (Z.eq_dec j i) as [->|]; [done|]. apply Hr. lia.
      * right. split_and!; [lia | lia | done |]. intros j Hj.
        destruct (Z.eq_dec j i) as [->|]; [done|]. apply Hr3. lia.
Qed.

(** ** Joining chains *)

(** The pbufs [l] are linked from [p] to [q]. *)
Fixpoint linked (p : Z) (l : chain) (q : Z) : Prop :=
  match l with
  | [] => p = q
  | (a, b) :: l' => p = a ∧ a ≠ 0 ∧ linked (pb_next b) l' q
  end.

Definition stored (m : gmap Z pbuf) (l : chain) : Prop :=
  ∀ a b, (a, b) ∈ l → m !! a = Some b.

Lemma pchain_split m p l1 l2 :
  pchain m p (l1 ++ l2) ↔ ∃ q, linked p l1 q ∧ stored m l1 ∧ pchain m q l2.
Proof.
  revert p. induction l1 as [|[a b] l1 IH]; intros p; cbn [app pchain linked].
  - split.
    + intros H. exists p. split_and!; [done | | done]. intros a b Hab. by apply elem_of_nil in Hab.
    + by intros (q & -> & _ & H).
  - rewrite IH. split.
    + intros (-> & Ha & E & q & H1 & H2 & H3). exists q. split_and!; try done.
      intros x y [[= -> ->]|Hin]%elem_of_cons; auto.
    + intros (q & (-> & Ha & H1) & H2 & H3). split_and!; [done | done | |].
      * apply H2. by left.
      * exists q. split_and!; [done | | done]. intros x y Hin. apply H2. by right.
Qed.

Lemma linked_last p l a b q : linked p (l ++ [(a, b)]) q ↔ linked p l a ∧ a ≠ 0 ∧ pb_next b = q.
Proof.
  revert p. induction l as [|[x y] l IH]; intros p; simpl; [naive_solver|].
  rewrite IH. naive_solver.
Qed.

(** [pbuf_cat] adds [T] to every total of the chain and links its end to [t]. *)
Fixpoint cat_chain (T t : Z) (l : chain) : chain :=
  match l with
  | [] => []
  | (a, b) :: l' =>
      let b' := with_tot_len (u16 (pb_tot_len b + T)) b in
      match l' with
      | [] => [(a, with_next t b')]
      | _ => (a, b') :: cat_chain T t l'
      end
  end.

Lemma cat_chain_fst T t l : (cat_chain T t l).*1 = l.*1.
Proof.
  induction l as [|[a b] l IH]; [done|]. cbn [cat_chain]. destruct l as [|c l]; [done|].
  cbn [fmap list_fmap fst]. f_equal. exact IH.
Qed.

Lemma cat_chain_lens T t l : lens (cat_chain T t l) = lens l.
Proof.
  induction l as [|[a b] l IH]; [done|]. cbn [cat_chain]. destruct l as [|c l]; [done|].
  cbn [lens]. f_equal. exact IH.
Qed.

Lemma cat_chain_bytes m T t l : pbytes m (cat_chain T t l) = pbytes m l.
Proof.
  induction l as [|[a b] l IH]; [done|]. cbn [cat_chain]. destruct l as [|c l]; [done|].
  cbn [pbytes]. cbn [pbytes] in IH. rewrite IH. done.
Qed.

Lemma cat_chain_linked T t p l q : l ≠ [] → linked p l q → linked p (cat_chain T t l) t.
Proof.
  revert p. induction l as [|[a b] l IH]; intros p Hne; [done|]. intros (-> & Ha & H).
  cbn [cat_chain]. destruct l as [|c l]; [done|].
  cbn [linked]. split_and!; [done | done |]. cbn [pb_next with_tot_len]. by apply IH.
Qed.

Lemma cat_chain_ok T t l lt :
  lens_ok l → lens_ok lt → lens lt = T → lens l + T < 65536 →
  lens_ok (cat_chain T t l ++ lt).
Proof.
  intros Hl Ht HT. induction l as [|[a b] l IH]; intros Hs; [done|].
  destruct Hl as (H0 & Etot & Hm & Hl). pose proof (lens_nonneg _ Hl). pose proof (lens_nonneg _ Ht).
  cbn [lens] in *. cbn [cat_chain]. destruct l as [|c l].
  - simpl in *. split_and!; try done; rewrite u16_small; lia.
  - specialize (IH Hl ltac:(lia)).
    change (((a, with_tot_len (u16 (pb_tot_len b + T)) b) :: cat_chain T t (c :: l)) ++ lt)
      with ((a, with_tot_len (u16 (pb_tot_len b + T)) b) :: (cat_chain T t (c :: l) ++ lt)).
    cbn [lens_ok lens pb_len pb_tot_len with_tot_len].
    rewrite lens_app, cat_chain_lens. split_and!; [done | | | exact IH];
      rewrite u16_small; lia.
Qed.

Lemma pbuf_cat_comp l : ∀ s p q t bt fuel,
  linked p l 0 → stored (ps_pbufs s) l → NoDup l.*1 → l ≠ [] →
  ps_pbufs s !! t = Some bt → t ∉ l.*1 → (length l < fuel)%nat → q = 0 →
  ∃ m', (x ← pbuf_cat_loop fuel p t; tb ← deref t;
         upd_pbuf x (λ b, with_tot_len (u16 (pb_tot_len b + pb_tot_len tb)) b) ;;
         upd_pbuf x (with_next t)) s
        = Some (tt, PState m' (ps_bytes s) (ps_heap s) (ps_pools s)) ∧
    stored m' (cat_chain (pb_tot_len bt) t l) ∧
    (∀ k, k ∉ l.*1 → m' !! k = ps_pbufs s !! k).
Proof.
  induction l as [|[a b] l IH]; intros s p q t bt [|fuel] Hlk Hst Hnd Hne Ht Htn Hf Hq; try done;
    [simpl in Hf; lia|].
  destruct Hlk as (-> & Ha & Hlk). cbn [pbuf_cat_loop].
  assert (Ea : ps_pbufs s !! a = Some b) by (apply Hst; by left).
  simpl in Htn, Hnd. apply not_elem_of_cons in Htn as [Hta Htn].
  apply NoDup_cons in Hnd as [Hna Hnd].
  rewrite prog_bind_assoc.
  erewrite prog_bind_step by (unfold deref; rewrite Ea; reflexivity).
  destruct l as [|[a2 b2] l].
  - simpl in Hlk. rewrite Hlk, Z.eqb_refl.
    rewrite (prog_bind_step _ _ s a s) by done.
    erewrite prog_bind_step by (unfold deref; rewrite Ht; reflexivity).
    erewrite prog_bind_step by (by apply upd_pbuf_step).
    rewrite (upd_pbuf_step _ _ (with_tot_len (u16 (pb_tot_len b + pb_tot_len bt)) b)) by
      (cbn [ps_pbufs]; by rewrite lookup_insert_eq).
    cbn [ps_pbufs ps_bytes ps_heap ps_pools]. rewrite insert_insert_eq.
    eexists. split; [reflexivity|]. split.
    + intros x y Hin. cbn [cat_chain] in Hin.
      apply list_elem_of_singleton in Hin as [= -> ->]. by rewrite lookup_insert_eq.
    + intros k Hk. simpl in Hk. rewrite lookup_insert_ne; [done|]. set_solver.
  - pose proof Hlk as (Hn & Ha2 & _). rewrite Hn in *.
    rewrite (proj2 (Z.eqb_neq _ _)) by done. rewrite prog_bind_assoc.
    erewrite prog_bind_step by (unfold deref; rewrite Ht; reflexivity).
    rewrite prog_bind_assoc.
    erewrite prog_bind_step by (by apply upd_pbuf_step).
    set (s1 := PState _ _ _ _).
    destruct (IH s1 a2 0 t bt fuel) as (m' & E & Hst' & Hfr); try done.
    + intros x y Hin. subst s1. cbn [ps_pbufs].
      assert (Hxa : x ≠ a). { intros ->. apply Hna, list_elem_of_fmap. exists (a, y). done. }
      rewrite lookup_insert_ne by done. apply Hst. by right.
    + subst s1. cbn [ps_pbufs]. by rewrite lookup_insert_ne.
    + simpl in *. lia.
    + exists m'. split; [exact E|]. split.
      * intros x y Hin.
        change (cat_chain (pb_tot_len bt) t ((a, b) :: (a2, b2) :: l)) with
          ((a, with_tot_len (u16 (pb_tot_len b + pb_tot_len bt)) b)
             :: cat_chain (pb_tot_len bt) t ((a2, b2) :: l)) in Hin.
        apply elem_of_cons in Hin as [[= -> ->]|Hin]; [|by apply Hst'].
        rewrite Hfr by done. subst s1. cbn [ps_pbufs]. by rewrite lookup_insert_eq.
      * intros k Hk. simpl in Hk. rewrite Hfr by set_solver. subst s1. cbn [ps_pbufs].
        rewrite lookup_insert_ne; [done|]. set_solver.
Qed.

Lemma pbuf_cat_spec s h t lh lt dh dt :
  chain_at s h lh dh → chain_at s t lt dt → lh ≠ [] → lt ≠ [] →
  lh.*1 ## lt.*1 → lens lh + lens lt < 65536 →
  ∃ m', let s' := PState m' (ps_bytes s) (ps_heap s) (ps_pools s) in
    pbuf_cat h t s = Some (tt, s') ∧
    chain_at s' h (cat_chain (lens lt) t lh ++ lt) (dh ++ dt) ∧
    (∀ k, k ∉ lh.*1 → m' !! k = ps_pbufs s !! k).
Proof.
  intros [Hp Hl Hd] Ht Hne Htne Hdj Hsum.
  destruct lt as [|[t' bt] lt]; [done|].
  destruct (chain_at_head _ _ _ _ _ _ Ht) as (<- & Ht0 & Et & Htt).
  rewrite (chain_at_length _ _ _ _ Ht) in Htt.
  assert (Hh0 : h ≠ 0).
  { destruct lh as [|[a b] lh]; [done|]. destruct Hp as (-> & ? & _). done. }
  pose proof Hp as Hp'. rewrite <- (app_nil_r lh) in Hp'.
  apply pchain_split in Hp' as (q & Hlk & Hst & Hq). simpl in Hq. subst q.
  assert (Htn : t ∉ lh.*1). { intros Hin. apply (Hdj t Hin). by left. }
  destruct (pbuf_cat_comp lh s h 0 t bt (chain_fuel s) Hlk Hst (pchain_NoDup _ _ _ Hp) Hne Et Htn)
    as (m' & E & Hst' & Hfr); [pose proof (pchain_fuel _ _ _ Hp); lia | done |].
  exists m'. cbv zeta. split; [|split; [|done]].
  - unfold pbuf_cat. rewrite (proj2 (Z.eqb_neq h 0)), (proj2 (Z.eqb_neq t 0)) by done.
    cbn [negb andb]. exact E.
  - rewrite Htt in Hst'. destruct Ht as [Htp Htl Htd]. split; cbn [ps_pbufs ps_bytes].
    + apply pchain_split. exists t. split_and!; [by eapply cat_chain_linked | done |].
      apply (pchain_frame (ps_pbufs s)); [done|]. intros a Ha. apply Hfr.
      intros Hin. exact (Hdj a Hin Ha).
    + by apply cat_chain_ok.
    + apply pbytes_app. exists dh, dt. rewrite cat_chain_bytes. done.
Qed.

(** ** Shrinking a chain *)

Definition shrink_chain (g : Z) (l : chain) : chain :=
  (λ '(a, b), (a, with_tot_len (u16 (pb_tot_len b + u16 g)) b)) <$> l.

Lemma shrink_chain_fst g l : (shrink_chain g l).*1 = l.*1.
Proof. induction l as [|[a b] l IH]; [done|]. simpl. f_equal. exact IH. Qed.

Lemma shrink_chain_bytes m g l : pbytes m (shrink_chain g l) = pbytes m l.
Proof. induction l as [|[a b] l IH]; [done|]. simpl. by rewrite IH. Qed.

Lemma shrink_chain_linked g p l q : linked p (shrink_chain g l) q ↔ linked p l q.
Proof. revert p. induction l as [|[a b] l IH]; intros p; simpl; [done|]. by rewrite IH. Qed.

Lemma lens_ok_shrink l1 q b l2 b' g rem :
  lens_ok (l1 ++ (q, b) :: l2) → g = rem - pb_len b - lens l2 → 0 ≤ rem ≤ pb_len b →
  pb_len b' = rem → pb_tot_len b' = rem →
  lens_ok (shrink_chain g l1 ++ [(q, b')]) ∧
  lens (shrink_chain g l1 ++ [(q, b')]) = lens l1 + rem.
Proof.
  intros H Hg Hr E1 E2. induction l1 as [|[a c] l1 IH].
  - simpl in *. destruct H as (? & ? & ? & H). pose proof (lens_nonneg _ H).
    rewrite E1, E2. split; [split_and!; try done; lia | lia].
  - cbn [app lens_ok] in H. destruct H as (H0 & Ht & Hm & H).
    destruct (IH H) as [IH1 IH2]. cbn [lens] in Ht. rewrite lens_app in Ht. cbn [lens] in Ht.
    assert (Hn : 0 ≤ lens l1 + rem) by (rewrite <- IH2; by apply lens_nonneg).
    assert (Hl2 : 0 ≤ lens l2).
    { apply lens_nonneg. apply lens_ok_app in H. by destruct H as (_ & _ & _ & ?). }
    cbn [shrink_chain fmap list_fmap app lens_ok lens pb_len pb_tot_len with_tot_len].
    fold (shrink_chain g l1). rewrite IH2.
    assert (Eu : u16 (pb_tot_len c + u16 g) = pb_tot_len c + g) by zmod.
    split; [split_and!; try done|]; lia.
Qed.

Lemma pbuf_realloc_walk_spec l : ∀ s p rem g fuel,
  pchain (ps_pbufs s) p l → lens_ok l → 0 ≤ rem ≤ lens l → l ≠ [] → (length l < fuel)%nat →
  ∃ l1 q b l2 m', l = l1 ++ (q, b) :: l2 ∧
    pbuf_realloc_walk fuel p rem g s
      = Some ((q, rem - lens l1), PState m' (ps_bytes s) (ps_heap s) (ps_pools s)) ∧
    0 ≤ rem - lens l1 ≤ pb_len b ∧
    stored m' (shrink_chain g l1) ∧ (∀ k, k ∉ l1.*1 → m' !! k = ps_pbufs s !! k).
Proof.
  induction l as [|[a b] l IH]; intros s p rem g [|fuel] Hp Hl Hr Hne Hf; try done;
    [simpl in Hf; lia|].
  pose proof (pchain_NoDup _ _ _ Hp) as Hnd. simpl in Hnd. apply NoDup_cons in Hnd as [Hna Hnd].
  destruct Hp as (-> & Ha & Eb & Hp). destruct Hl as (Hb & Ht & Hm & Hl).
  cbn [pbuf_realloc_walk].
  erewrite prog_bind_step by (unfold deref; rewrite Eb; reflexivity).
  cbn [lens] in *. pose proof (lens_ok_bound _ Hl). pose proof (lens_nonneg _ Hl).
  destruct (Z.ltb_spec (pb_len b) rem) as [Hlt|Hge].
  - erewrite prog_bind_step by (by apply upd_pbuf_step). rewrite u16_small by lia.
    set (s1 := PState _ _ _ _).
    assert (Hl' : l ≠ []). { intros ->. simpl in *. lia. }
    destruct (IH s1 (pb_next b) (rem - pb_len b) g fuel)
      as (l1 & q & c & l2 & m' & -> & E & R1 & R2 & R3); try done; try lia.
    + subst s1. cbn [ps_pbufs]. apply (pchain_frame (ps_pbufs s)); [done|].
      intros k Hk. rewrite lookup_insert_ne; [done|]. intros ->. done.
    + simpl in Hf. lia.
    + exists ((a, b) :: l1), q, c, l2, m'. split; [done|]. split.
      { rewrite E. do 3 f_equal. cbn [lens]. lia. }
      cbn [lens]. split; [lia|].
      assert (Hal : a ∉ l1.*1). { intros Hin. apply Hna. rewrite fmap_app. apply elem_of_app. by left. }
      split.
      * intros x y [[= -> ->]|Hin]%elem_of_cons; [|by apply R2].
        rewrite R3 by done. subst s1. cbn [ps_pbufs]. by rewrite lookup_insert_eq.
      * intros k Hk. simpl in Hk. apply not_elem_of_cons in Hk as [Hka Hk].
        rewrite R3 by done. subst s1. cbn [ps_pbufs]. by rewrite lookup_insert_ne.
  - exists [], a, b, l, (ps_pbufs s). cbn [lens]. rewrite Z.sub_0_r.
    split_and!; try done; try lia.
    + by destruct s.
    + intros x y Hin. by apply elem_of_nil in Hin.
Qed.

Lemma live_trimmed n sz r off :
  SIZEOF_STRUCT_MEM + n ≤ sz →
  ∃ z, live off (trimmed n sz r) = (off, z) :: live (off + sz) r ∧ SIZEOF_STRUCT_MEM + n ≤ z.
Proof.
  intros Hn. unfold trimmed. destruct r as [|[b []] r].
  3: { simpl. exists (SIZEOF_STRUCT_MEM + n). split; [|lia]. do 2 f_equal. lia. }
  all: rewrite live_taken; eexists; split; [done|]; case_cmp; lia.
Qed.

(** Trimming the block of a RAM pbuf keeps every owned pbuf. *)
Lemma mem_trim_owned s fl out bs q off sz n :
  owned s fl out bs → (off, sz) ∈ live 0 bs → q = blk_ptr (ps_heap s) off →
  0 ≤ n ≤ sz - SIZEOF_STRUCT_MEM →
  ∃ h bs', mem_trim q n (ps_heap s) = Some (q, h) ∧
    owned (PState (ps_pbufs s) (ps_bytes s) h (ps_pools s)) fl out bs'.
Proof.
  intros [Hp Hmax Hh H1 H2 H3 H4] Hin -> Hn.
  pose proof (live_split _ _ _ _ Hin) as (l & r & -> & ->). rewrite Z.add_0_l in *.
  pose proof (hr_tail _ _ _ Hh) as T. pose proof (tail_tot _ _ _ _ T) as [Ht _].
  pose proof (tail_ok _ _ _ _ T) as Hok. apply Forall_app in Hok as [Hl Hr].
  pose proof (tot_nonneg _ Hl). pose proof (tot_nonneg _ (Forall_inv_tail Hr)).
  pose proof (Forall_inv Hr) as [Hz1 Hz2]. rewrite tot_app in Ht. simpl in Ht, Hz1, Hz2.
  assert (Hreq : req_size n ≤ sz - SIZEOF_STRUCT_MEM).
  { unfold req_size. mem_consts. Z.to_euclidean_division_equations. lia. }
  pose proof (mem_trim_spec _ _ _ _ n Hh ltac:(mem_consts; lia)) as Hs. cbv zeta in Hs.
  rewrite (proj2 (Z.leb_le _ _)) in Hs by done.
  destruct Hs as (h & E & Hh' & Hr'). exists h, (l ++ trimmed (req_size n) sz r).
  split; [exact E|]. split; cbn [ps_heap ps_pbufs ps_pools]; try done; [|by rewrite Hr'].
  intros a b Hab Hb. destruct (H3 _ _ Hab Hb) as (q & x & Hq & Ea).
  unfold blk_ptr in *. rewrite Hr'.
  destruct (live_trimmed (req_size n) sz r (0 + tot l)) as (z & Ez & _); [lia|].
  rewrite live_app in *. simpl in Hq. rewrite Ez.
  apply elem_of_app in Hq as [Hq|[[= -> ->]|Hq]%elem_of_cons].
  - exists q, x. split; [|done]. apply elem_of_app. by left.
  - exists (0 + tot l), z. split; [|done]. apply elem_of_app. right. by left.
  - exists q, x. split; [|done]. apply elem_of_app. right. by right.
Qed.

(** A RAM pbuf lies in its block. *)
Definition ram_fits (s : pstate) (bs : list blk) (c : Z * pbuf) : Prop :=
  pb_type c.2 = PBUF_RAM → ∃ off sz, (off, sz) ∈ live 0 bs ∧
    c.1 = blk_ptr (ps_heap s) off ∧ c.1 ≤ pb_payload c.2 ∧
    pb_payload c.2 + pb_len c.2 ≤ c.1 + sz - SIZEOF_STRUCT_MEM.

Lemma owned_same_types s fl out bs m :
  owned s fl out bs → (∀ k, pb_type <$> m !! k = pb_type <$> ps_pbufs s !! k) →
  owned (PState m (ps_bytes s) (ps_heap s) (ps_pools s)) fl out bs.
Proof.
  intros [Hp Hmax Hh H1 H2 H3 H4] Ht.
  assert (Hex : ∀ a (P : pbuf_type → Prop),
    (∃ c, ps_pbufs s !! a = Some c ∧ P (pb_type c)) ↔ (∃ c, m !! a = Some c ∧ P (pb_type c))).
  { intros a P. specialize (Ht a).
    destruct (m !! a) as [c|], (ps_pbufs s !! a) as [e|]; simpl in Ht; try done.
    injection Ht as Ht. split; intros (x & [= <-] & Hx); eexists; (split; [done|]); congruence. }
  split; cbn [ps_pools ps_pbufs ps_heap]; try done.
  - intros a. by rewrite H1, (Hex a (λ t, t = PBUF_POOL)).
  - intros a. by rewrite H2, (Hex a (λ t, is_ref_type t = true)).
  - intros a c Hac Hc. specialize (Ht a). rewrite Hac in Ht. simpl in Ht.
    destruct (ps_pbufs s !! a) as [e|] eqn:Ee; [|done]. injection Ht as Ht.
    apply (H3 a e); [done | congruence].
Qed.

(** The pbufs that [pbuf_free] releases, and the ones it leaves. *)
Lemma ref_split l :
  Forall ref_ok l → ∃ f rest, l = f ++ rest ∧ Forall (λ c : Z * pbuf, pb_ref c.2 = 1) f ∧
    match rest with [] => True | c :: _ => 1 < pb_ref c.2 < 65536 end.
Proof.
  induction 1 as [|c l Hc H IH]; [by exists [], []|].
  destruct (Z.eq_dec (pb_ref c.2) 1) as [E|E].
  - destruct IH as (f & rest & -> & Hf & Hr). exists (c :: f), rest. split_and!; [done| |done].
    by constructor.
  - exists [], (c :: l). unfold ref_ok in Hc. split; [done|]. split; [done|]. lia.
Qed.

(** [pbuf_free] on any chain: it only touches that chain, and releases all of
    it if nobody else holds a reference. *)
Lemma pbuf_free_chain_run s fl out bs p l :
  owned s fl out bs → pchain (ps_pbufs s) p l → Forall ref_ok l →
  ∃ c s' fl' out' bs', pbuf_free p s = Some (c, s') ∧ owned s' fl' out' bs' ∧ others_same out out' ∧
    ps_bytes s' = ps_bytes s ∧ (∀ k, k ∉ l.*1 → ps_pbufs s' !! k = ps_pbufs s !! k) ∧
    (Forall (λ c : Z * pbuf, pb_ref c.2 = 1) l → ∀ k, k ∈ l.*1 → ps_pbufs s' !! k = None).
Proof.
  intros Ho Hp Href. destruct (ref_split l Href) as (f & rest & -> & Hf & Hr).
  destruct (pbuf_free_loop_run f s fl out bs p rest 0 (chain_fuel s) Ho Hp Hf Hr)
    as (s' & fl' & out' & bs' & E & Ho' & Hs' & Hb & Hpb); [|done|].
  { pose proof (pchain_fuel _ _ _ Hp) as Hfu. rewrite length_app in Hfu. lia. }
  unfold pbuf_free. destruct (Z.eqb_spec p 0) as [->|Hp0].
  { assert (f = [] ∧ rest = []) as [-> ->].
    { destruct f as [|[a b] f]; [|by destruct Hp as (<- & ? & _)]. split; [done|].
      destruct rest as [|[a b] rest]; [done|]. by destruct Hp as (<- & ? & _). }
    exists 0, s, fl, out, bs. split_and!; try done. by intros _ k ?%elem_of_nil. }
  eexists _, s', fl', out', bs'. split_and!; [exact E | done | done | done | |].
  2: { intros Hall k Hk. destruct rest as [|c rest].
       - rewrite app_nil_r in Hk. rewrite Hpb, lookup_foldr_delete. by case_decide.
       - apply list.Forall_app in Hall as [_ Hc]. apply Forall_cons_1 in Hc as [Hc _]. lia. }
  intros k Hk. rewrite fmap_app in Hk. apply not_elem_of_app in Hk as [Hkf Hkr]. rewrite Hpb.
  destruct rest as [|[a b] rest].
  - rewrite lookup_foldr_delete. by case_decide.
  - simpl in Hkr. rewrite lookup_insert_ne by set_solver.
    rewrite lookup_foldr_delete. by case_decide.
Qed.

Lemma pbuf_free_frame s fl out bs p l :
  owned s fl out bs → pchain (ps_pbufs s) p l → Forall ref_ok l →
  ∃ c s' fl' out' bs', pbuf_free p s = Some (c, s') ∧ owned s' fl' out' bs' ∧
    ps_bytes s' = ps_bytes s ∧ ∀ k, k ∉ l.*1 → ps_pbufs s' !! k = ps_pbufs s !! k.
Proof.
  intros H1 H2 H3. destruct (pbuf_free_chain_run s fl out bs p l H1 H2 H3)
    as (c & s' & fl' & out' & bs' & E & Ho & _ & Hb & H & _). by exists c, s', fl', out', bs'.
Qed.

(** The shrinking of the heap block of the new last pbuf. *)
Lemma realloc_trim s fl out bs q b rem :
  owned s fl out bs → ps_pbufs s !! q = Some b → ram_fits s bs (q, b) → 0 ≤ rem ≤ pb_len b →
  ∃ h bs', (if bool_decide (pb_type b = PBUF_RAM) && negb (rem =? pb_len b)
            then on_heap (mem_trim q (u16 (u16 (pb_payload b - q) + rem)))
            else mret q) s
     = Some (q, PState (ps_pbufs s) (ps_bytes s) h (ps_pools s)) ∧
    owned (PState (ps_pbufs s) (ps_bytes s) h (ps_pools s)) fl out bs'.
Proof.
  intros Ho Eb Hf Hr. destruct (bool_decide_reflect (pb_type b = PBUF_RAM)) as [Et|Et]; cbn [andb].
  2: { exists (ps_heap s), bs. by destruct s. }
  destruct (negb (rem =? pb_len b)); [|exists (ps_heap s), bs; by destruct s].
  destruct (Hf Et) as (off & sz & Hin & Eq & Hlo & Hhi). cbn [fst snd] in *.
  pose proof (tail_ok _ _ _ _ (hr_tail _ _ _ (ow_heap _ _ _ _ Ho))) as Hok.
  pose proof (tail_tot _ _ _ _ (hr_tail _ _ _ (ow_heap _ _ _ _ Ho))) as [Ht _].
  pose proof (live_bounds _ _ _ _ Hok Hin) as Hb. mem_consts.
  rewrite (u16_small (pb_payload b - q)), u16_small by lia.
  destruct (mem_trim_owned s fl out bs q off sz (pb_payload b - q + rem) Ho Hin Eq)
    as (h & bs' & E & Ho'); [mem_consts; lia|].
  exists h, bs'. unfold on_heap. by rewrite E.
Qed.

(** The first pbuf stays where it is, with all of its bytes that are kept. *)
Definition same_head (n : Z) (l l' : chain) : Prop :=
  ∀ a b tl, l = (a, b) :: tl → ∃ b' tl', l' = (a, b') :: tl' ∧
    pb_payload b' = pb_payload b ∧ pb_type b' = pb_type b ∧ Z.min (pb_len b) n ≤ pb_len b'.

Lemma same_head_shrink n g l1 q b l2 b2 :
  pb_payload b2 = pb_payload b → pb_type b2 = pb_type b → (l1 = [] → pb_len b2 = n) →
  same_head n (l1 ++ (q, b) :: l2) (shrink_chain g l1 ++ [(q, b2)]).
Proof.
  intros H1 H2 H3. destruct l1 as [|[a0 c0] l1]; intros a c tl [= <- <- <-].
  - exists b2, []. split; [done|]. rewrite (H3 eq_refl). split; [done|]. split; [done | lia].
  - eexists _, _. split; [reflexivity|]. split; [done|]. split; [done|]. cbn. lia.
Qed.

Lemma pbuf_realloc_spec s fl out bs p l d n :
  owned s fl out bs → chain_at s p l d → l ≠ [] → Forall (ram_fits s bs) l →
  Forall ref_ok l → 0 ≤ n < 65536 →
  ∃ s' fl' out' bs' l', pbuf_realloc p n s = Some (tt, s') ∧ owned s' fl' out' bs' ∧
    ps_bytes s' = ps_bytes s ∧ chain_at s' p l' (take (Z.to_nat n) d) ∧
    (∀ k, k ∉ l.*1 → ps_pbufs s' !! k = ps_pbufs s !! k) ∧ same_head n l l'.
Proof.
  intros Ho Hc Hne Hfit Href Hn. pose proof (chain_at_length _ _ _ _ Hc) as Hdl.
  assert (Hhead : ∃ b0, ps_pbufs s !! p = Some b0 ∧ pb_tot_len b0 = lens l).
  { destruct l as [|[a b0] l0]; [done|].
    destruct (chain_at_head _ _ _ _ _ _ Hc) as (-> & _ & E & Et). exists b0. by rewrite Et, Hdl. }
  destruct Hhead as (b0 & E0 & Et0).
  unfold pbuf_realloc. erewrite prog_bind_step by (unfold deref; rewrite E0; reflexivity).
  rewrite Et0. destruct (Z.leb_spec (lens l) n) as [Hge|Hlt].
  { exists s, fl, out, bs, l. split_and!; try done; [by rewrite take_ge by lia|].
    intros a b tl ->. exists b, tl. split_and!; try done. lia. }
  cbv zeta. unfold gets. rewrite (prog_bind_step _ _ s (chain_fuel s) s) by done.
  destruct Hc as [Hp Hl Hd].
  destruct (pbuf_realloc_walk_spec l s p n (n - lens l) (chain_fuel s) Hp Hl ltac:(lia) Hne)
    as (l1 & q & b & l2 & m' & -> & Ew & Hrem & Hst & Hfr).
  { pose proof (pchain_fuel _ _ _ Hp). lia. }
  erewrite prog_bind_step by exact Ew. cbv beta iota. clear Ew E0 Et0 b0.
  set (g := n - lens (l1 ++ (q, b) :: l2)) in *. set (rem := n - lens l1) in *.
  pose proof (pchain_NoDup _ _ _ Hp) as Hnd. rewrite fmap_app in Hnd. simpl in Hnd.
  apply NoDup_app in Hnd as (Hnd1 & Hdj & Hnd2). apply NoDup_cons in Hnd2 as [Hq2 Hnd2].
  assert (Hq1 : q ∉ l1.*1). { intros Hin. apply (Hdj q Hin). by left. }
  apply pchain_split in Hp as (q' & Hlk & Hst0 & Hp2). destruct Hp2 as (-> & Hq0 & Eb & Hp2).
  assert (Emq : m' !! q = Some b) by (by rewrite Hfr).
  erewrite prog_bind_step by (unfold deref; cbn [ps_pbufs]; rewrite Emq; reflexivity).
  assert (Ho1 : owned (PState m' (ps_bytes s) (ps_heap s) (ps_pools s)) fl out bs).
  { apply owned_same_types; [done|]. intros k. destruct (decide (k ∈ l1.*1)) as [Hk|Hk].
    - apply list_elem_of_fmap in Hk as ([a c] & -> & Hin). cbn [fst].
      rewrite (Hst0 _ _ Hin). rewrite (Hst a (with_tot_len (u16 (pb_tot_len c + u16 g)) c)).
      + done.
      + unfold shrink_chain. apply list_elem_of_fmap. exists (a, c). done.
    - by rewrite Hfr. }
  rewrite Forall_app in Hfit. destruct Hfit as [_ Hfit]. apply Forall_inv in Hfit.
  destruct (realloc_trim _ _ _ _ q b rem Ho1 Emq Hfit Hrem) as (h & bs1 & Etr & Ho2).
  erewrite prog_bind_step by exact Etr. cbn [ps_pbufs ps_bytes ps_heap ps_pools] in *.
  erewrite prog_bind_step by (by apply upd_pbuf_step).
  erewrite prog_bind_step by (apply upd_pbuf_step; cbn [ps_pbufs]; apply lookup_insert_eq).
  cbn [ps_pbufs ps_bytes ps_heap ps_pools]. rewrite insert_insert_eq.
  set (b2 := with_tot_len rem (with_len rem b)).
  erewrite prog_bind_step by (unfold deref; cbn [ps_pbufs]; rewrite lookup_insert_eq; reflexivity).
  set (s3 := PState (<[q := b2]> m') (ps_bytes s) h (ps_pools s)).
  assert (Ho3 : owned s3 fl out bs1).
  { apply (owned_upd (PState m' (ps_bytes s) h (ps_pools s)) fl out bs1 q b); done. }
  assert (Hp3 : pchain (ps_pbufs s3) (pb_next b) l2).
  { apply (pchain_frame (ps_pbufs s)); [done|]. intros k Hk. subst s3. cbn [ps_pbufs].
    rewrite lookup_insert_ne by (intros ->; done). apply Hfr. intros Hk1.
    apply (Hdj k Hk1). by right. }
  assert (Href2 : Forall ref_ok l2).
  { apply Forall_app in Href as [_ Href]. by apply Forall_inv_tail in Href. }
  destruct (pbuf_free_frame _ _ _ _ _ _ Ho3 Hp3 Href2)
    as (c & s4 & fl4 & out4 & bs4 & Ef & Ho4 & Hb4 & Hfr4).
  assert (Efree : ∃ s5 fl5 out5 bs5,
    (when (negb (pb_next b2 =? 0)) (_ ← pbuf_free (pb_next b2); mret tt)) s3 = Some (tt, s5) ∧
    owned s5 fl5 out5 bs5 ∧ ps_bytes s5 = ps_bytes s ∧
    ∀ k, k ∉ l2.*1 → ps_pbufs s5 !! k = <[q := b2]> m' !! k).
  { change (pb_next b2) with (pb_next b). destruct (negb (pb_next b =? 0)) eqn:Enz; cbn [when].
    - exists s4, fl4, out4, bs4. split_and!; try done.
      erewrite prog_bind_step by exact Ef. done.
    - exists s3, fl, out, bs1. done. }
  destruct Efree as (s5 & fl5 & out5 & bs5 & E5 & Ho5 & Hb5 & Hfr5).
  erewrite prog_bind_step by exact E5.
  assert (E5q : ps_pbufs s5 !! q = Some b2) by (rewrite Hfr5 by done; apply lookup_insert_eq).
  rewrite (upd_pbuf_step _ _ _ _ E5q).
  eexists _, fl5, out5, bs5, (shrink_chain g l1 ++ [(q, with_next 0 b2)]).
  split; [reflexivity|]. split; [by apply (owned_upd _ _ _ _ _ b2)|]. split; [done|].
  assert (Hg : g = rem - pb_len b - lens l2).
  { subst g rem. rewrite lens_app. cbn [lens]. lia. }
  destruct (lens_ok_shrink l1 q b l2 (with_next 0 b2) g rem Hl Hg Hrem eq_refl eq_refl) as [Hlo _].
  cbn [ps_pbufs ps_bytes]. split; [|split].
  - split; cbn [ps_pbufs ps_bytes]; [| exact Hlo |].
    + apply pchain_split. exists q. split_and!; [by apply shrink_chain_linked| |].
      * intros x y Hin. assert (Hx : x ∈ l1.*1).
        { rewrite <- (shrink_chain_fst g). apply list_elem_of_fmap. by exists (x, y). }
        rewrite lookup_insert_ne by (intros ->; done).
        rewrite Hfr5 by (intros Hx2; apply (Hdj x Hx); by right).
        rewrite lookup_insert_ne by (intros ->; done). by apply Hst.
      * simpl. rewrite lookup_insert_eq. done.
    + apply pbytes_app in Hd as (u & v & -> & Eu & Ev).
      destruct (pbytes_cons _ _ _ _ _ Ev) as (w & z & -> & Ew & Ez & Hwl).
      rewrite Hb5. apply pbytes_app. exists u, (take (Z.to_nat rem) w). split_and!.
      * assert (Hul : Z.of_nat (length u) = lens l1).
        { assert (Hvl : Z.of_nat (length (w ++ z)) = lens ((q, b) :: l2))
            by (eapply pbytes_length; [by eapply lens_ok_app | done]).
          rewrite lens_app in Hdl. rewrite length_app in Hdl. lia. }
        rewrite take_app_ge by lia. f_equal. replace (Z.to_nat n - length u)%nat
          with (Z.to_nat rem) by lia. by rewrite take_app_le by lia.
      * by rewrite shrink_chain_bytes.
      * cbn [pbytes pb_payload pb_len with_next with_tot_len with_len b2].
        destruct (load_bytes_split _ _ _ _ (Z.to_nat rem) Ew) as [Ew' _]; [lia|].
        subst b2. cbn [pb_payload pb_len with_next with_tot_len with_len].
        rewrite Ew'. by rewrite app_nil_r.
  - intros k Hk. rewrite fmap_app in Hk. simpl in Hk. apply not_elem_of_app in Hk as [Hk1 Hk].
    apply not_elem_of_cons in Hk as [Hkq Hk2].
    rewrite lookup_insert_ne by done. rewrite Hfr5 by done. rewrite lookup_insert_ne by done.
    by apply Hfr.
  - apply same_head_shrink; [done..|]. intros ->. subst b2 rem. cbn. lia.
Qed.

(** ** Copying a chain into another *)

Definition nonempty_pbufs (l : chain) : Prop := Forall (λ c : Z * pbuf, 0 < pb_len c.2) l.

Lemma nonempty_lens l : lens_ok l → nonempty_pbufs l → l ≠ [] → 0 < lens l.
Proof.
  destruct l as [|[a b] l]; [done|]. intros (_ & _ & _ & Hl) Hn _.
  apply Forall_cons_1 in Hn as [Hb _]. apply lens_nonneg in Hl. simpl in *. lia.
Qed.

(** The test for packet queues never triggers on a chain without empty pbufs. *)
Lemma no_queue s p l :
  pchain (ps_pbufs s) p l → lens_ok l → nonempty_pbufs l →
  (if negb (p =? 0) then
     b ← deref p; mret ((pb_len b =? pb_tot_len b) && negb (pb_next b =? 0))
   else mret false) s = Some (false, s).
Proof.
  destruct l as [|[a b] l]; intros Hp Hl Hn.
  - simpl in Hp. subst p. done.
  - destruct Hp as (-> & Ha & E & Hp). rewrite (proj2 (Z.eqb_neq a 0)) by done. cbn [negb].
    erewrite prog_bind_step by (unfold deref; rewrite E; reflexivity).
    destruct Hl as (_ & Ht & _ & Hl). apply Forall_cons_1 in Hn as [_ Hn].
    destruct l as [|c l].
    + simpl in Hp. rewrite Hp, Z.eqb_refl, andb_false_r. done.
    + pose proof (nonempty_lens _ Hl Hn ltac:(done)). cbn [lens] in *.
      rewrite (proj2 (Z.eqb_neq (pb_len b) _)) by lia. done.
Qed.

(** Two chains do not share payload bytes. *)
Definition chains_apart (l1 l2 : chain) : Prop :=
  Forall (λ '(_, b), clear_of (pb_payload b) (pb_len b) l2) l1.

Lemma chains_apart_tail l1 c l2 : chains_apart l1 (c :: l2) → chains_apart l1 l2.
Proof.
  intros H. unfold chains_apart in *. rewrite !Forall_forall in *.
  intros [a b] Hab. specialize (H _ Hab). by apply Forall_cons_1 in H as [_ ?].
Qed.

(** [d] with [z] written over it at position [k]. *)
Definition overwrite (k : nat) (z d : bytes) : bytes :=
  take k d ++ z ++ drop (k + length z) d.

Lemma overwrite_length k z d : (k + length z ≤ length d)%nat → length (overwrite k z d) = length d.
Proof. intros. unfold overwrite. rewrite !length_app, length_take, length_drop. lia. Qed.

Lemma overwrite_inside k z x y :
  (k + length z ≤ length x)%nat → overwrite k z (x ++ y) = overwrite k z x ++ y.
Proof.
  intros. unfold overwrite. rewrite take_app_le, drop_app_le by lia. by rewrite <- !app_assoc.
Qed.

Lemma overwrite_across k z r x y :
  (k + length z = length x)%nat →
  overwrite k (z ++ r) (x ++ y) = overwrite k z x ++ overwrite 0 r y.
Proof.
  intros. unfold overwrite. rewrite take_app_le by lia. rewrite length_app.
  rewrite (drop_ge x) by lia. rewrite drop_app_ge by lia. rewrite take_0. simpl.
  rewrite app_nil_r, <- !app_assoc. do 3 f_equal. f_equal. lia.
Qed.

Lemma overwrite_twice k z r d :
  (k + length z + length r ≤ length d)%nat →
  overwrite (k + length z) r (overwrite k z d) = overwrite k (z ++ r) d.
Proof.
  intros. unfold overwrite.
  assert (Hl : length (take k d ++ z) = (k + length z)%nat)
    by (rewrite length_app, length_take; lia).
  rewrite (app_assoc (take k d) z (drop (k + length z) d)).
  rewrite (take_app_length' (take k d ++ z)) by done.
  rewrite (drop_app_ge (take k d ++ z)) by lia.
  rewrite drop_drop, Hl, length_app, <- !app_assoc. do 4 f_equal. lia.
Qed.

(** The end of one round, once the positions have been advanced. *)
Lemma copy_next k s pt to lt pf fo lf :
  pchain (ps_pbufs s) pt lt → lens_ok lt → nonempty_pbufs lt →
  pchain (ps_pbufs s) pf lf → lens_ok lf → nonempty_pbufs lf →
  (lt = [] → lf = []) →
  (if (to =? 0) && (pt =? 0) && negb (pf =? 0) then mret ERR_ARG else
   qf ← (if negb (pf =? 0) then
           b ← deref pf; mret ((pb_len b =? pb_tot_len b) && negb (pb_next b =? 0))
         else mret false);
   if qf : bool then mret ERR_VAL else
   qt ← (if negb (pt =? 0) then
           b ← deref pt; mret ((pb_len b =? pb_tot_len b) && negb (pb_next b =? 0))
         else mret false);
   if qt : bool then mret ERR_VAL else
   if negb (pf =? 0) then pbuf_copy_loop k pt to pf fo else mret ERR_OK) s
  = (if negb (pf =? 0) then pbuf_copy_loop k pt to pf fo else mret ERR_OK) s.
Proof.
  intros Hpt Hlt Hnt Hpf Hlf Hnf Hem.
  assert (Hc : (to =? 0) && (pt =? 0) && negb (pf =? 0) = false).
  { destruct (Z.eqb_spec pt 0) as [->|]; [|by rewrite andb_false_r].
    apply pchain_null in Hpt as ->. rewrite (Hem eq_refl) in Hpf. simpl in Hpf.
    subst pf. by rewrite andb_false_r. }
  rewrite Hc. erewrite prog_bind_step by (by eapply no_queue). cbv iota.
  erewrite prog_bind_step by (by eapply no_queue). done.
Qed.

Lemma pbuf_copy_loop_spec k : ∀ s pt to lt dt pf fo lf df,
  (length lt + length lf ≤ k)%nat →
  chain_at s pt lt dt → chain_at s pf lf df → lt ≠ [] → lf ≠ [] →
  nonempty_pbufs lt → nonempty_pbufs lf → payloads_disjoint lt → chains_apart lt lf →
  0 ≤ to → to < pb_len (default pbuf_uninit (snd <$> head lt)) →
  0 ≤ fo → fo < pb_len (default pbuf_uninit (snd <$> head lf)) →
  lens lf - fo ≤ lens lt - to →
  let D := drop (Z.to_nat fo) df in
  ∃ m', pbuf_copy_loop k pt to pf fo s = Some (ERR_OK, set_bytes s m') ∧
    pbytes m' lt = Some (overwrite (Z.to_nat to) D dt) ∧
    ∀ i, outside i lt → m' !! i = ps_bytes s !! i.
Proof.
  induction k as [|k IH]; intros s pt to lt dt pf fo lf df Hk Ht Hf Hlt Hlf Hnt Hnf Hdj Hap Ho1 Ho2 Hf1 Hf2 Hroom D.
  { destruct lt; [done|]. simpl in Hk. lia. }
  destruct lt as [|[t bt] lt]; [done|]. destruct lf as [|[f bf] lf]; [done|].
  cbn [head fmap option_fmap option_map snd default] in Ho2, Hf2. simpl in Ho2, Hf2.
  destruct (chain_at_head _ _ _ _ _ _ Ht) as (-> & Ht0 & Et & _).
  destruct (chain_at_head _ _ _ _ _ _ Hf) as (-> & Hf0 & Ef & _).
  pose proof Ht as [(_ & _ & _ & Hpt) (Htl0 & Htt & Htm & Htl) Hdt].
  pose proof Hf as [(_ & _ & _ & Hpf) (Hfl0 & Hft & Hfm & Hfl) Hdf].
  apply Forall_cons_1 in Hnt as [Hnt0 Hnt]. apply Forall_cons_1 in Hnf as [Hnf0 Hnf].
  destruct (pbytes_cons _ _ _ _ _ Hdt) as (xt & yt & -> & Ext & Eyt & Hxt).
  destruct (pbytes_cons _ _ _ _ _ Hdf) as (xf & yf & -> & Exf & Eyf & Hxf).
  destruct Hdj as [Hdj0 Hdj]. apply Forall_cons_1 in Hap as [Hap0 Hap].
  cbn [lens snd] in *.
  cbn [pbuf_copy_loop].
  erewrite prog_bind_step by (unfold deref; rewrite Et; reflexivity).
  erewrite prog_bind_step by (unfold deref; rewrite Ef; reflexivity).
  set (n := Z.min (pb_len bf - fo) (pb_len bt - to)).
  assert (En : (if pb_len bf - fo <=? pb_len bt - to then u16 (pb_len bf - fo)
                else u16 (pb_len bt - to)) = n).
  { subst n. pose proof (lens_nonneg _ Htl). pose proof (lens_nonneg _ Hfl).
    case_cmp; rewrite u16_small; lia. }
  rewrite En. cbv zeta.
  set (z := take (Z.to_nat n) (drop (Z.to_nat fo) xf)).
  assert (Hzl : length z = Z.to_nat n) by (subst z; rewrite length_take, length_drop; lia).
  assert (Eld : load_bytes (ps_bytes s) (pb_payload bf + fo) (Z.to_nat n) = Some z).
  { destruct (load_bytes_split _ _ _ _ (Z.to_nat fo) Exf) as [_ E1]; [lia|].
    rewrite Z2Nat.id in E1 by lia. apply (load_bytes_split _ _ _ _ (Z.to_nat n) E1). lia. }
  apply Forall_cons_1 in Hap0 as [Hapb Hap0].
  destruct (MEMCPY_ok s (pb_payload bt + to) (pb_payload bf + fo) n z) as (m1 & Em & Ecp);
    [lia | | done | |].
  { unfold disjoint_range in *. lia. }
  { intros i Hi. apply (pbytes_mapped _ _ _ _ _ Hdt (ca_lens _ _ _ _ Ht)
      (list_elem_of_here _ _)). lia. }
  erewrite prog_bind_step by exact Ecp.
  pose proof (lens_nonneg _ Htl) as Hlt0. pose proof (lens_nonneg _ Hfl) as Hlf0.
  rewrite !u16_small by lia.
  set (s1 := set_bytes s m1).
  assert (Emt : load_bytes m1 (pb_payload bt) (Z.to_nat (pb_len bt))
    = Some (overwrite (Z.to_nat to) z xt)).
  { apply (load_store_inside (ps_bytes s)); [done | by rewrite Z2Nat.id by lia | lia]. }
  assert (Eyt1 : pbytes m1 lt = Some yt).
  { rewrite <- Eyt. eapply pbytes_frame; [exact Em | done |]. rewrite Hzl, Z2Nat.id by lia.
    apply (clear_of_sub _ _ _ _ _ Hdj0); lia. }
  assert (Ef1 : pbytes m1 ((f, bf) :: lf) = Some (xf ++ yf)).
  { rewrite <- Hdf. eapply pbytes_frame; [exact Em | done |]. rewrite Hzl, Z2Nat.id by lia.
    apply (clear_of_sub (pb_payload bt) (pb_len bt)); [by constructor | lia | lia]. }
  destruct (pbytes_cons _ _ _ _ _ Ef1) as (xf' & yf' & Exy & Exf1 & Eyf1 & Hxf').
  apply app_inj_1 in Exy as [<- <-]; [|lia].
  assert (Hfrm : ∀ i, outside i ((t, bt) :: lt) → m1 !! i = ps_bytes s !! i).
  { intros i Ho. apply Forall_cons_1 in Ho as [Ho _].
    apply (store_bytes_lookup_ne _ _ _ _ _ Em). lia. }
  (* what remains once the rest has been copied by [IH] *)
  assert (Hglue : ∀ m' ys, pbytes m' lt = Some ys → (∀ i, outside i lt → m' !! i = m1 !! i) →
    pbytes m' ((t, bt) :: lt)
    = Some (overwrite (Z.to_nat to) z xt ++ ys) ∧
    ∀ i, outside i ((t, bt) :: lt) → m' !! i = ps_bytes s !! i).
  { intros m' ys Hys Hfr. split.
    - cbn [pbytes]. rewrite (load_bytes_ext m1 m').
      + by rewrite Emt, Hys.
      + intros i Hi. apply Hfr. eapply clear_outside; [exact Hdj0 | done | lia].
    - intros i Ho. pose proof Ho as Ho'. apply Forall_cons_1 in Ho' as [_ Ho'].
      rewrite Hfr by done. by apply Hfrm. }
  assert (HD : D = z ++ drop (Z.to_nat (fo + n)) (xf ++ yf)).
  { subst D z. rewrite (drop_app_le xf) by lia.
    rewrite <- (take_drop (Z.to_nat n) (drop (Z.to_nat fo) xf)) at 1. rewrite drop_drop.
    rewrite <- app_assoc. f_equal.
    replace (Z.to_nat (fo + n)) with (Z.to_nat fo + Z.to_nat n)%nat by lia.
    by rewrite (drop_app_le xf) by lia. }
  assert (Hnt1 : nonempty_pbufs ((t, bt) :: lt)) by (by constructor).
  assert (Hnf1 : nonempty_pbufs ((f, bf) :: lf)) by (by constructor).
  destruct (Z.leb_spec (pb_len bf) (fo + n)) as [Hff|Hff];
    destruct (Z.eqb_spec (to + n) (pb_len bt)) as [Htf|Htf].
  - (* both pbufs are finished *)
    rewrite (copy_next k s1 (pb_next bt) 0 lt (pb_next bf) 0 lf); try done.
    2: { intros ->. destruct lf as [|c lf]; [done|].
         pose proof (nonempty_lens _ Hfl Hnf ltac:(done)). simpl in *. lia. }
    rewrite drop_app_ge in HD by lia.
    replace (Z.to_nat (fo + n) - length xf)%nat with 0%nat in HD by lia. rewrite drop_0 in HD.
    destruct lf as [|[f2 bf2] lf].
    + simpl in Hpf. rewrite Hpf. simpl in Eyf. injection Eyf as <-. exists m1. split; [done|].
      destruct (Hglue m1 yt Eyt1 ltac:(done)) as [G1 G2]. split; [|exact G2]. rewrite G1.
      f_equal. rewrite HD, app_nil_r. symmetry. apply overwrite_inside. lia.
    + pose proof (nonempty_lens _ Hfl Hnf ltac:(done)) as Hpos.
      destruct lt as [|[t2 bt2] lt]; [simpl in *; lia|].
      pose proof Hpf as (Enf & Hf20 & _). rewrite (proj2 (Z.eqb_neq (pb_next bf) 0)) by congruence.
      cbn [negb].
      destruct (IH s1 (pb_next bt) 0 ((t2, bt2) :: lt) yt (pb_next bf) 0 ((f2, bf2) :: lf) yf)
        as (m' & E & Hb & Hfr); try done; try lia.
      * simpl in Hk. simpl. lia.
      * by eapply chains_apart_tail.
      * by apply Forall_cons_1 in Hnt as [? _].
      * by apply Forall_cons_1 in Hnf as [? _].
      * rewrite drop_0 in Hb. cbn [set_bytes ps_bytes s1] in Hfr.
        destruct (Hglue m' _ Hb Hfr) as [G1 G2]. exists m'. split; [exact E|]. split; [|exact G2].
        rewrite G1, HD. f_equal. symmetry. apply overwrite_across. lia.
  - (* the source pbuf is finished *)
    rewrite (copy_next k s1 t (to + n) ((t, bt) :: lt) (pb_next bf) 0 lf); try done.
    rewrite drop_app_ge in HD by lia.
    replace (Z.to_nat (fo + n) - length xf)%nat with 0%nat in HD by lia. rewrite drop_0 in HD.
    assert (Et1 : pbytes m1 ((t, bt) :: lt) = Some (overwrite (Z.to_nat to) z (xt ++ yt))).
    { rewrite overwrite_inside by lia. cbn [pbytes]. by rewrite Emt, Eyt1. }
    destruct lf as [|[f2 bf2] lf].
    + simpl in Hpf. rewrite Hpf. simpl in Eyf. injection Eyf as <-. exists m1. split; [done|].
      split; [|exact Hfrm]. by rewrite Et1, HD, app_nil_r.
    + pose proof (nonempty_lens _ Hfl Hnf ltac:(done)) as Hpos.
      pose proof Hpf as (Enf & Hf20 & _). rewrite (proj2 (Z.eqb_neq (pb_next bf) 0)) by congruence.
      cbn [negb].
      destruct (IH s1 t (to + n) ((t, bt) :: lt) (overwrite (Z.to_nat to) z (xt ++ yt))
                   (pb_next bf) 0 ((f2, bf2) :: lf) yf)
        as (m' & E & Hb & Hfr); try done; try lia.
      * simpl in Hk. simpl. lia.
      * constructor; [done|]. by eapply chains_apart_tail.
      * simpl. lia.
      * by apply Forall_cons_1 in Hnf as [? _].
      * cbn [lens] in *. lia.
      * exists m'. split; [exact E|]. split.
        -- rewrite Hb, HD, drop_0. f_equal.
           replace (Z.to_nat (to + n)) with (Z.to_nat to + length z)%nat by lia.
           apply overwrite_twice.
           assert (Hyl : Z.of_nat (length yf) = lens ((f2, bf2) :: lf)) by (by eapply pbytes_length).
           assert (Hyt : Z.of_nat (length yt) = lens lt) by (by eapply pbytes_length).
           rewrite length_app. lia.
        -- intros i Ho. rewrite Hfr by done. by apply Hfrm.
  - (* the destination pbuf is finished *)
    rewrite (copy_next k s1 (pb_next bt) 0 lt f (fo + n) ((f, bf) :: lf)); try done.
    2: { intros ->. simpl in *. lia. }
    destruct lt as [|[t2 bt2] lt]; [simpl in *; lia|].
    rewrite (proj2 (Z.eqb_neq f 0)) by done. cbn [negb].
    destruct (IH s1 (pb_next bt) 0 ((t2, bt2) :: lt) yt f (fo + n) ((f, bf) :: lf) (xf ++ yf))
      as (m' & E & Hb & Hfr); try done; try lia.
    + simpl in Hk. simpl. lia.
    + by apply Forall_cons_1 in Hnt as [? _].
    + cbn [lens] in *. lia.
    + cbn [set_bytes ps_bytes s1] in Hfr.
      destruct (Hglue m' _ Hb Hfr) as [G1 G2]. exists m'. split; [exact E|]. split; [|exact G2].
      rewrite G1, HD. f_equal. symmetry. apply overwrite_across. lia.
  - exfalso. subst n. lia.
Qed.
