(* ===== verification/PbufProps.v ===== *)
(** * Properties of packet buffers

    What the operations of pbuf.c guarantee to the rest of the stack, with
    concrete instances. *)

From stdpp Require Import base numbers list gmap option sorting.
From S2P Require Import Prelude Mem MemRefine MemProps Memp Pbuf PbufLemmas PbufAlloc PbufOps.

(** ** A concrete system, for the instances

    Two pbuf pools of three elements each, the heap, and the bytes of the
    pool buffers, of the heap and of a 64 byte application buffer. *)

Definition ex_descs : list memp_desc :=
  replicate 10 (MempDesc 0 0 0)
    ++ [MempDesc 16 3 536904000; MempDesc 1540 3 536910000].
Definition ex_pools : pools := Pools ex_descs (replicate 12 0) ∅.
Definition fill_bytes (a : Z) (n : nat) (m : bmem) : bmem :=
  foldr (λ i m, <[a + Z.of_nat i := Z.of_nat i mod 256]> m) m (seq 0 n).

Definition ex_bytes : bmem :=
  fill_bytes 536910000 (Z.to_nat 4620) (fill_bytes 536870912 (Z.to_nat 32768) ∅).

Lemma fill_bytes_mapped a n m i :
  a ≤ i < a + Z.of_nat n ∨ is_Some (m !! i) → is_Some (fill_bytes a n m !! i).
Proof.
  unfold fill_bytes. intros Hi.
  assert (H : ∀ ks, (∃ k, k ∈ ks ∧ i = a + Z.of_nat k) ∨ is_Some (m !! i) →
    is_Some (foldr (λ i m, <[a + Z.of_nat i := Z.of_nat i mod 256]> m) m ks !! i)).
  { induction ks as [|k ks IH]; simpl.
    - intros [(k & Hk & _)|H]; [by apply elem_of_nil in Hk | done].
    - intros H. rewrite lookup_insert. case_decide as Hd; [by eexists|]. apply IH.
      destruct H as [(k' & [->|Hk]%elem_of_cons & ->)|H]; [done | left; eauto | by right]. }
  apply H. destruct Hi as [Hi|Hi]; [left|by right].
  exists (Z.to_nat (i - a)). rewrite elem_of_seq. split; lia.
Qed.

Lemma ex_pool_mapped : mapped ex_bytes 536910000 4620.
Proof. intros i Hi. apply fill_bytes_mapped. left. lia. Qed.
Lemma ex_heap_mapped : mapped ex_bytes 536870912 MEM_SIZE_ALIGNED.
Proof. mem_consts. intros i Hi. apply fill_bytes_mapped. right. apply fill_bytes_mapped. left. lia. Qed.

Definition ex_state0 : option pstate :=
  match memp_init ex_pools with
  | Some (_, q) => Some (PState ∅ ex_bytes (mem_init 536870912) q)
  | None => None
  end.

Lemma ex_descs_ok : descs_ok ex_descs.
Proof. split; refine (bool_decide_unpack _ _); vm_compute; exact I. Qed.

Lemma ex_layout : layout_ok 536870912 ex_descs.
Proof.
  split; [mem_consts; lia|]. split.
  - assert (H : ∀ i d a, i = MEMP_PBUF ∨ i = MEMP_PBUF_POOL → ex_descs !! i = Some d →
      a ∈ elems d → a ∈ [536904000; 536904016; 536904032; 536910000; 536911540; 536913080]).
    { intros i d a [->| ->]; intros [= <-]; vm_compute (elems _); set_solver. }
    intros i d a Hi Hd Ha. specialize (H i d a Hi Hd Ha). mem_consts.
    repeat (apply elem_of_cons in H as [->|H]; [repeat split; (lia || reflexivity || (by right))|]).
    by apply elem_of_nil in H.
  - intros d [= <-]. done.
Qed.

(** The invariant does not depend on the bytes. *)
Lemma ex_owned_bytes (m : bmem) :
  ∃ q fl, memp_init ex_pools = Some (tt, q) ∧ p_descs q = ex_descs ∧
    owned (PState ∅ m (mem_init 536870912) q) fl (λ _, []) [(MEM_SIZE_ALIGNED, false)] ∧
    fl MEMP_PBUF_POOL = [536913080; 536911540; 536910000].
Proof.
  destruct (memp_init_spec ex_pools) as (q & E & Hd & Hi); [apply ex_descs_ok | done |].
  eexists q, (λ i, rev (default [] (elems <$> p_descs ex_pools !! i))).
  split; [exact E|]. split; [exact Hd|]. split; [|vm_compute; reflexivity].
  split; cbn [ps_pools ps_pbufs ps_heap].
  - exact Hi.
  - unfold MEMP_MAX. rewrite Hd. cbn. unfold MEMP_PBUF_POOL. lia.
  - by apply mem_init_repr.
  - intros a. split; [by intros ?%elem_of_nil | by intros (b & ? & _)].
  - intros a. split; [by intros ?%elem_of_nil | by intros (b & ? & _)].
  - by intros a b ?.
  - rewrite Hd. apply ex_layout.
Qed.

Lemma ex_owned0 :
  ∃ s fl, ex_state0 = Some s ∧ owned s fl (λ _, []) [(MEM_SIZE_ALIGNED, false)] ∧
    ps_pbufs s = ∅ ∧ ps_bytes s = ex_bytes ∧
    fl MEMP_PBUF_POOL = [536913080; 536911540; 536910000].
Proof.
  destruct (ex_owned_bytes ex_bytes) as (q & fl & E & _ & Ho & Hfl).
  eexists _, fl. split; [unfold ex_state0; rewrite E; reflexivity|].
  split; [exact Ho|]. split; [reflexivity|]. split; [reflexivity | exact Hfl].
Qed.

(** ** Allocation *)

(** C29: [pbuf_alloc] from the pool: if the free elements have room for the
    header offset and the length it returns a chain of fresh pool pbufs whose
    lengths add up to the request, whose payloads are aligned, lie inside
    their elements and do not overlap, the first one behind the room for the
    layer's headers; otherwise it returns [NULL] and every pbuf it took on
    the way is back in the pool (the pbufs are those from before).  In both
    cases the ownership invariant holds again. *)
Theorem pbuf_alloc_pool_correct s fl out bs layer len :
  owned s fl out bs → 0 ≤ len < 65536 →
  let n := Z.of_nat (length (fl MEMP_PBUF_POOL)) in
  ∃ p s' fl' out' bs', pbuf_alloc layer len PBUF_POOL s = Some (p, s') ∧
    owned s' fl' out' bs' ∧ ps_bytes s' = ps_bytes s ∧
    if (0 <? n) && (len <=? pool_room n (layer_offset layer)) then
      p ≠ 0 ∧ ∃ l, pchain (ps_pbufs s') p l ∧ Forall pool_elem l ∧ lens_ok l ∧
        lens l = len ∧ payloads_disjoint l ∧ grown (ps_pbufs s) (ps_pbufs s') l ∧
        head_payload l = p + SIZEOF_STRUCT_PBUF + LWIP_MEM_ALIGN_SIZE (layer_offset layer)
    else p = 0 ∧ ps_pbufs s' = ps_pbufs s.
Proof. apply pbuf_alloc_pool_spec. Qed.

Lemma pbuf_alloc_pool_correct_witness :
  ∃ s fl, ex_state0 = Some s ∧ owned s fl (λ _, []) [(MEM_SIZE_ALIGNED, false)] ∧
  (∃ p s', pbuf_alloc PBUF_RAW 3000 PBUF_POOL s = Some (p, s') ∧ p ≠ 0 ∧
    ∃ l, pchain (ps_pbufs s') p l ∧ lens l = 3000) ∧
  (∃ s', pbuf_alloc PBUF_RAW 6000 PBUF_POOL s = Some (0, s') ∧ ps_pbufs s' = ∅).
Proof.
  destruct ex_owned0 as (s & fl & E & Ho & Hp & _ & Hfl). exists s, fl. split_and!; try done.
  - destruct (pbuf_alloc_pool_correct s fl _ _ PBUF_RAW 3000 Ho ltac:(lia))
      as (p & s' & fl' & out' & bs' & Ea & _ & _ & H).
    rewrite Hfl in H. vm_compute (_ && _) in H. destruct H as (H0 & l & H1 & _ & _ & H2 & _).
    exists p, s'. split_and!; eauto.
  - destruct (pbuf_alloc_pool_correct s fl _ _ PBUF_RAW 6000 Ho ltac:(lia))
      as (p & s' & fl' & out' & bs' & Ea & _ & _ & H).
    rewrite Hfl in H. vm_compute (_ && _) in H. destruct H as [-> H].
    exists s'. rewrite Ea, H, Hp. done.
Defined.

(** ** Release *)



(** ** Contents *)

(** C28: [pbuf_take] followed by [pbuf_copy_partial] is the identity on the
    data: filling a chain from a buffer and reading any part of it back into
    another buffer gives that part of the data, and neither call touches a
    byte outside of the payloads and of the destination. *)
Theorem pbuf_take_copy_partial s p l d src n data dst len off :
  chain_at s p l d → l ≠ [] → payloads_disjoint l →
  0 ≤ n ≤ lens l → load_bytes (ps_bytes s) src (Z.to_nat n) = Some data →
  src ≠ 0 → clear_of src n l →
  dst ≠ 0 → 0 ≤ len < 65536 → 0 ≤ off < 65536 →
  mapped (ps_bytes s) dst len → clear_of dst len l →
  ∃ s1 s2 out, pbuf_take p src n s = Some (ERR_OK, s1) ∧
    chain_at s1 p l (data ++ drop (Z.to_nat n) d) ∧
    pbuf_copy_partial p dst len off s1 = Some (Z.of_nat (length out), s2) ∧
    out = take (Z.to_nat len) (drop (Z.to_nat off) (data ++ drop (Z.to_nat n) d)) ∧
    load_bytes (ps_bytes s2) dst (length out) = Some out ∧
    ∀ i, outside i l → ¬ dst ≤ i < dst + len → ps_bytes s2 !! i = ps_bytes s !! i.
Proof.
  intros Hc Hne Hdj Hn Hsrc Hs0 Hscl Hd0 Hlen Hoff Hm Hdcl.
  pose proof (chain_at_length _ _ _ _ Hc) as Hdl.
  pose proof Hc as [Hp Hl Hd]. pose proof (lens_ok_bound _ Hl).
  destruct (pbuf_take_loop_spec l s p src n 0 d data (chain_fuel s))
    as (m1 & E1 & Hb1 & Hfr1); try done; try lia.
  { by rewrite Z.add_0_r. } { by rewrite Z.add_0_r. }
  { pose proof (pchain_fuel _ _ _ Hp). lia. }
  set (s1 := set_bytes s m1).
  set (d1 := data ++ drop (Z.to_nat n) d) in *.
  assert (Hc1 : chain_at s1 p l d1) by (by split).
  assert (Hhead : ∃ b, ps_pbufs s !! p = Some b ∧ pb_tot_len b = lens l ∧ p ≠ 0).
  { destruct l as [|[a b] l']; [done|].
    destruct (chain_at_head _ _ _ _ _ _ Hc) as (-> & H0 & Eb & Et). exists b. by rewrite Et, Hdl. }
  destruct Hhead as (b & Eb & Et & Hp0).
  assert (Em1 : mapped m1 dst len).
  { intros i Hi. rewrite Hfr1; [by apply Hm|]. by eapply clear_outside. }
  destruct (pbuf_copy_partial_loop_spec l s1 p dst 0 len off d1 (chain_fuel s1))
    as (m2 & Es & E2); try done; try lia.
  { by rewrite Z.add_0_r. } { by rewrite Z.add_0_r. }
  { pose proof (pchain_fuel _ _ _ Hp) as Hf. unfold chain_fuel in *. cbn [s1 set_bytes ps_pbufs]. lia. }
  rewrite Z.add_0_r in Es. rewrite Z.add_0_l in E2.
  exists s1, (set_bytes s1 m2), (take (Z.to_nat len) (drop (Z.to_nat off) d1)).
  split_and!; try done.
  - unfold pbuf_take. rewrite (proj2 (Z.eqb_neq p 0)), (proj2 (Z.eqb_neq src 0)) by done.
    erewrite prog_bind_step by (unfold deref; rewrite Eb; reflexivity).
    rewrite Et, (proj2 (Z.ltb_ge _ _)) by lia.
    unfold gets. rewrite (prog_bind_step _ _ s (chain_fuel s) s) by done.
    erewrite prog_bind_step by exact E1. done.
  - unfold pbuf_copy_partial. rewrite (proj2 (Z.eqb_neq p 0)), (proj2 (Z.eqb_neq dst 0)) by done.
    exact E2.
  - cbn [set_bytes ps_bytes]. by eapply load_store_same.
  - intros i Ho Hi. cbn [set_bytes ps_bytes]. rewrite <- (Hfr1 i Ho).
    apply (store_bytes_lookup_ne _ _ _ _ _ Es).
    rewrite length_take. lia.
Qed.

(** A chain of two pbufs of 4 and 3 bytes, and a 16 byte buffer at 3000. *)
Definition two_chain : chain :=
  [(1000, MkPbuf 2000 1100 7 4 PBUF_REF 0 1); (2000, MkPbuf 0 2100 3 3 PBUF_REF 0 1)].
Definition two_bytes : bmem := fill_bytes 1100 4 (fill_bytes 2100 3 (fill_bytes 3000 16 ∅)).
Definition two_state : pstate :=
  PState (list_to_map two_chain) two_bytes (mem_init 536870912) ex_pools.

Lemma two_chain_at : chain_at two_state 1000 two_chain [0; 1; 2; 3; 0; 1; 2].
Proof. split; [repeat split; done | repeat split; simpl; lia | vm_compute; reflexivity]. Qed.

Lemma two_disjoint : payloads_disjoint two_chain.
Proof. repeat split; repeat constructor; unfold disjoint_range; simpl; lia. Qed.

Lemma pbuf_take_copy_partial_witness :
  ∃ s1 s2, pbuf_take 1000 3000 6 two_state = Some (ERR_OK, s1) ∧
    chain_at s1 1000 two_chain [0; 1; 2; 3; 4; 5; 2] ∧
    pbuf_copy_partial 1000 3008 4 3 s1 = Some (4, s2) ∧
    load_bytes (ps_bytes s2) 3008 4 = Some [3; 4; 5; 2].
Proof.
  destruct (pbuf_take_copy_partial two_state 1000 two_chain [0; 1; 2; 3; 0; 1; 2]
    3000 6 [0; 1; 2; 3; 4; 5] 3008 4 3 two_chain_at) as (s1 & s2 & out & H1 & H2 & H3 & H4 & H5 & _).
  - done.
  - apply two_disjoint.
  - simpl. lia.
  - vm_compute. reflexivity.
  - lia.
  - repeat constructor; unfold disjoint_range; simpl; lia.
  - lia.
  - lia.
  - lia.
  - intros i Hi. assert (Hc : i ∈ [3008; 3009; 3010; 3011]) by (rewrite !elem_of_cons; lia).
    repeat (apply elem_of_cons in Hc as [->|Hc]; [vm_compute; by eexists|]).
    by apply elem_of_nil in Hc.
  - repeat constructor; unfold disjoint_range; simpl; lia.
  - vm_compute in H4. subst out. exists s1, s2. auto.
Defined.

(** [pbuf_cat] concatenates: the head chain followed by the tail chain is
    again a well formed chain (every [tot_len] exact), with the concatenated
    contents, and no pbuf outside of the head chain is modified. *)
Theorem pbuf_cat_concat s h t lh lt dh dt :
  chain_at s h lh dh → chain_at s t lt dt → lh ≠ [] → lt ≠ [] →
  lh.*1 ## lt.*1 → lens lh + lens lt < 65536 →
  ∃ s' l', pbuf_cat h t s = Some (tt, s') ∧ chain_at s' h l' (dh ++ dt) ∧
    l'.*1 = lh.*1 ++ lt.*1 ∧ ps_bytes s' = ps_bytes s ∧
    ∀ k, k ∉ lh.*1 → ps_pbufs s' !! k = ps_pbufs s !! k.
Proof.
  intros Hh Ht H1 H2 H3 H4.
  destruct (pbuf_cat_spec s h t lh lt dh dt Hh Ht H1 H2 H3 H4) as (m' & E & Hc & Hfr).
  eexists _, _. split; [exact E|]. split; [exact Hc|]. split; [|done].
  by rewrite fmap_app, cat_chain_fst.
Qed.

(** Two single pbufs. *)
Definition sep_chain1 : chain := [(1000, MkPbuf 0 1100 4 4 PBUF_REF 0 1)].
Definition sep_chain2 : chain := [(2000, MkPbuf 0 2100 3 3 PBUF_REF 0 1)].
Definition sep_state : pstate :=
  PState (list_to_map (sep_chain1 ++ sep_chain2)) two_bytes (mem_init 536870912) ex_pools.

Lemma pbuf_cat_concat_witness :
  ∃ s' l', pbuf_cat 1000 2000 sep_state = Some (tt, s') ∧
    chain_at s' 1000 l' [0; 1; 2; 3; 0; 1; 2] ∧ l'.*1 = [1000; 2000].
Proof.
  assert (C1 : chain_at sep_state 1000 sep_chain1 [0; 1; 2; 3])
    by (split; [repeat split; done | repeat split; simpl; lia | vm_compute; reflexivity]).
  assert (C2 : chain_at sep_state 2000 sep_chain2 [0; 1; 2])
    by (split; [repeat split; done | repeat split; simpl; lia | vm_compute; reflexivity]).
  destruct (pbuf_cat_concat sep_state 1000 2000 sep_chain1 sep_chain2 _ _ C1 C2)
    as (s' & l' & H1 & H2 & H3 & _); [done | done | simpl; set_solver | simpl; lia |].
  exists s', l'. auto.
Defined.

(** [pbuf_realloc] truncates: after it the chain is well formed and
    holds the first [new_len] bytes (all of them when it was not longer), the
    pbufs that are no longer needed have lost a reference, a RAM pbuf has been
    trimmed in the heap, the ownership invariant holds and no other pbuf is
    modified. *)
Theorem pbuf_realloc_truncates s fl out bs p l d n :
  owned s fl out bs → chain_at s p l d → l ≠ [] → Forall (ram_fits s bs) l →
  Forall ref_ok l → 0 ≤ n < 65536 →
  ∃ s' fl' out' bs' l', pbuf_realloc p n s = Some (tt, s') ∧ owned s' fl' out' bs' ∧
    ps_bytes s' = ps_bytes s ∧ chain_at s' p l' (take (Z.to_nat n) d) ∧
    ∀ k, k ∉ l.*1 → ps_pbufs s' !! k = ps_pbufs s !! k.
Proof.
  intros H1 H2 H3 H4 H5 H6.
  destruct (pbuf_realloc_spec s fl out bs p l d n H1 H2 H3 H4 H5 H6)
    as (s' & fl' & out' & bs' & l' & E & Ho & Hb & Hc & Hf & _).
  by exists s', fl', out', bs', l'.
Qed.

Lemma pbytes_exists m l :
  lens_ok l → (∀ a b, (a, b) ∈ l → mapped m (pb_payload b) (pb_len b)) →
  ∃ d, pbytes m l = Some d.
Proof.
  induction l as [|[a b] l IH]; intros Hl Hm; [eauto|].
  destruct Hl as (H0 & _ & _ & Hl). destruct IH as [y Ey]; [done| |].
  { intros a' b' Hin. apply (Hm a' b'). by right. }
  destruct (proj2 (load_bytes_is_Some m (pb_payload b) (Z.to_nat (pb_len b)))) as [x Ex].
  { intros i Hi. apply (Hm a b); [by left | lia]. }
  exists (x ++ y). cbn [pbytes]. by rewrite Ex, Ey.
Qed.

(** A 3000 byte chain of the example pool. *)
Definition ex_l : chain :=
  [(536913080, MkPbuf 536911540 536913096 3000 1524 PBUF_POOL 0 1);
   (536911540, MkPbuf 0 536911556 1476 1476 PBUF_POOL 0 1)].

Lemma ex_eval :
  match ex_state0 with
  | Some s =>
      match pbuf_alloc PBUF_RAW 3000 PBUF_POOL s with
      | Some (p, s1) => Some (p, ps_pbufs s1, h_ram (ps_heap s1))
      | None => None
      end
  | None => None
  end = Some (536913080, list_to_map ex_l, 536870912).
Proof. vm_compute. reflexivity. Qed.

Lemma ex_chain :
  ∃ s fl out bs d, owned s fl out bs ∧ chain_at s 536913080 ex_l d ∧
    ps_bytes s = ex_bytes ∧ h_ram (ps_heap s) = 536870912.
Proof.
  destruct ex_owned0 as (s & fl & E & Ho & Hp & Hby & Hfl). pose proof ex_eval as Ev. rewrite E in Ev.
  destruct (pbuf_alloc_pool_spec s fl _ _ PBUF_RAW 3000 Ho ltac:(lia))
    as (p & s1 & fl' & out' & bs' & Ea & Ho1 & Hb & _).
  rewrite Ea in Ev. injection Ev as -> Epb Eram.
  assert (Hl : lens_ok ex_l) by (repeat split; simpl; lia).
  destruct (pbytes_exists ex_bytes ex_l Hl) as [d Ed].
  { intros a b Hin. apply (mapped_sub _ _ _ _ _ ex_pool_mapped);
    (apply elem_of_cons in Hin as [[= -> ->]|Hin]; [simpl; lia|];
     apply list_elem_of_singleton in Hin as [= -> ->]; simpl; lia). }
  exists s1, fl', out', bs', d. split_and!; [done | | congruence | done].
  split; [|done|by rewrite Hb, Hby]. rewrite Epb. repeat split; done.
Qed.

Lemma pbuf_realloc_truncates_witness :
  ∃ s s' l' d, chain_at s 536913080 ex_l d ∧
    pbuf_realloc 536913080 1000 s = Some (tt, s') ∧
    chain_at s' 536913080 l' (take (Z.to_nat 1000) d).
Proof.
  destruct ex_chain as (s & fl & out & bs & d & Ho & Hc & Hb & Hr).
  destruct (pbuf_realloc_truncates s fl out bs 536913080 ex_l d 1000 Ho Hc)
    as (s' & _ & _ & _ & l' & E & _ & _ & Hc' & _).
  - done.
  - repeat constructor; done.
  - repeat (constructor; [unfold ref_ok; simpl; lia|]). constructor.
  - lia.
  - exists s, s', l', d. auto.
Defined.

(** Copying a chain into a RAM pbuf that was just allocated for it. *)
Lemma copy_into_ram s s1 p b l d layer q :
  let bq := ram_pbuf q layer (lens l) in
  chain_at s p l d → nonempty_pbufs l → l ≠ [] → ps_pbufs s !! p = Some b → pb_tot_len b = lens l →
  clear_of (h_ram (ps_heap s)) MEM_SIZE_ALIGNED l →
  mapped (ps_bytes s) (h_ram (ps_heap s)) MEM_SIZE_ALIGNED →
  q ≠ 0 → ps_pbufs s !! q = None → ps_pbufs s1 = <[q := bq]> (ps_pbufs s) → ps_bytes s1 = ps_bytes s →
  h_ram (ps_heap s) ≤ q → pb_payload bq + lens l ≤ h_ram (ps_heap s) + MEM_SIZE_ALIGNED →
  ∃ m, pbuf_copy q p s1 = Some (ERR_OK, set_bytes s1 m) ∧ pbytes m [(q, bq)] = Some d ∧
    lens_ok [(q, bq)] ∧ (q ∉ l.*1) ∧ pchain (ps_pbufs s1) p l.
Proof.
  intros bq Hc Hne Hl0 Eb Et Hclr Hmap Hq0 Hnew Epb Hb1 Hlo Hhi.
  pose proof (chain_at_length _ _ _ _ Hc) as Hdl. pose proof Hc as [Hp Hl Hd].
  pose proof (lens_ok_bound _ Hl) as Hlb. pose proof (nonempty_lens _ Hl Hne Hl0) as Hlp.
  assert (Hql : (q ∉ l.*1)).
  { intros Hin. apply list_elem_of_fmap in Hin as ([a c] & Ha & Hin). simpl in Ha. subst a.
    apply (pchain_lookup _ _ _ _ _ Hp) in Hin as [? _]. congruence. }
  assert (Hp1 : pchain (ps_pbufs s1) p l).
  { rewrite Epb. apply (pchain_frame (ps_pbufs s)); [done|]. intros k Hk.
    rewrite lookup_insert_ne; [done|]. intros ->. done. }
  assert (Hpay : h_ram (ps_heap s) ≤ pb_payload bq).
  { unfold bq, ram_pbuf. cbn [pb_payload].
    assert (0 ≤ LWIP_MEM_ALIGN_SIZE (SIZEOF_STRUCT_PBUF + layer_offset layer))
      by (unfold LWIP_MEM_ALIGN_SIZE; apply Z.land_nonneg; right; cbv; done). lia. }
  assert (Ebl : pb_len bq = lens l) by done. assert (Ebt : pb_tot_len bq = lens l) by done.
  assert (Hlq : lens_ok [(q, bq)]) by (cbn [lens_ok lens]; split_and!; try done; lia).
  destruct (pbytes_exists (ps_bytes s1) [(q, bq)] Hlq) as [dq Edq].
  { intros a c Hin. apply list_elem_of_singleton in Hin as [= -> ->]. rewrite Hb1.
    apply (mapped_sub _ _ _ _ _ Hmap); [done | exact Hhi]. }
  assert (Hcq : chain_at s1 q [(q, bq)] dq).
  { split; [|done|done]. rewrite Epb. simpl. rewrite lookup_insert_eq. done. }
  pose proof (chain_at_length _ _ _ _ Hcq) as Hdq. cbn [lens] in Hdq.
  destruct l as [|[p' b'] l']; [done|]. set (l := (p', b') :: l') in *.
  assert (Hapart : chains_apart [(q, bq)] l).
  { constructor; [|constructor]. apply (clear_of_sub _ _ _ _ _ Hclr); [done | exact Hhi]. }
  destruct (pbuf_copy_loop_spec (chain_fuel s1 + chain_fuel s1) s1 q 0 [(q, bq)] dq p 0 l d)
    as (m2 & Ecp & Eb2 & Hfr2); try done.
  { pose proof (pchain_fuel _ _ _ Hp1). change (length [(q, bq)]) with 1%nat. lia. }
  { split; [done | done | by rewrite Hb1]. }
  { constructor; [|constructor]. cbn [snd]. lia. }
  { split; constructor. }
  { apply Forall_cons_1 in Hne as [Hb0 _]. exact Hb0. }
  { cbn [lens]. lia. }
  exists m2. split; [|split; [|done]].
  - destruct (chain_at_head _ _ _ _ _ _ Hc) as (-> & Hp0 & _).
    unfold pbuf_copy. rewrite (proj2 (Z.eqb_neq q 0)), (proj2 (Z.eqb_neq p' 0)) by done. cbn [orb].
    assert (Eq1 : ps_pbufs s1 !! q = Some bq) by (rewrite Epb; apply lookup_insert_eq).
    assert (Ep1 : ps_pbufs s1 !! p' = Some b).
    { rewrite Epb, lookup_insert_ne; [done|]. intros ->. congruence. }
    erewrite prog_bind_step by (unfold deref; rewrite Eq1; reflexivity).
    erewrite prog_bind_step by (unfold deref; rewrite Ep1; reflexivity).
    rewrite Et, Ebt, (proj2 (Z.ltb_ge _ _)) by lia. exact Ecp.
  - rewrite drop_0 in Eb2. etransitivity; [exact Eb2|]. f_equal. unfold overwrite. rewrite take_0. simpl.
    rewrite drop_ge by lia. apply app_nil_r.
Qed.

(** [pbuf_coalesce] on a chain whose references are all its own either
    fails to get a RAM pbuf, and then answers the old chain untouched, or
    answers a single new pbuf with the contents of the whole chain, with all
    pbufs of the old chain released. *)
Theorem pbuf_coalesce_contents s fl out bs p l d layer :
  owned s fl out bs → chain_at s p l d → (2 ≤ length l)%nat → nonempty_pbufs l →
  Forall (λ c : Z * pbuf, pb_ref c.2 = 1) l →
  clear_of (h_ram (ps_heap s)) MEM_SIZE_ALIGNED l →
  mapped (ps_bytes s) (h_ram (ps_heap s)) MEM_SIZE_ALIGNED →
  ∃ q s' fl' out' bs', pbuf_coalesce p layer s = Some (q, s') ∧ owned s' fl' out' bs' ∧
    (q = p ∧ ps_pbufs s' = ps_pbufs s ∧ ps_bytes s' = ps_bytes s ∨
     ps_pbufs s !! q = None ∧
     chain_at s' q [(q, ram_pbuf q layer (lens l))] d ∧
     (∀ a, a ∈ l.*1 → ps_pbufs s' !! a = None) ∧
     (∀ a, a ∉ l.*1 → a ≠ q → ps_pbufs s' !! a = ps_pbufs s !! a)).
Proof.
  intros Ho Hc Hlen Hne Href Hclr Hmap. pose proof (chain_at_length _ _ _ _ Hc) as Hdl.
  destruct l as [|[p' b] [|[p2 b2] l2]]; [simpl in Hlen; lia | simpl in Hlen; lia |].
  set (l := (p', b) :: (p2, b2) :: l2) in *.
  destruct (chain_at_head _ _ _ _ _ _ Hc) as (-> & Hp0 & Eb & Et). pose proof Hc as [Hp Hl _].
  assert (Hn2 : pb_next b ≠ 0) by (destruct Hp as (_ & _ & _ & -> & H & _); done).
  pose proof (lens_ok_bound _ Hl) as Hlb. pose proof (nonempty_lens _ Hl Hne ltac:(done)) as Hlp.
  unfold pbuf_coalesce. erewrite prog_bind_step by (unfold deref; rewrite Eb; reflexivity).
  rewrite (proj2 (Z.eqb_neq _ _)) by done. rewrite Et, Hdl.
  destruct (pbuf_alloc_ram_spec s fl out bs layer (lens l) Ho ltac:(lia))
    as (q & s1 & bs1 & Ea & Ho1 & Hb1 & Hz & Hnz).
  erewrite prog_bind_step by exact Ea.
  destruct (Z.eqb_spec q 0) as [->|Hq0].
  { exists p', s1, fl, out, bs1. split_and!; try done. left. auto. }
  destruct (Hnz Hq0) as (Hnew & Epb & Hq4 & Hram & Hlo & Hhi). rewrite Hram in Hlo, Hhi.
  destruct (copy_into_ram s s1 p' b l d layer q) as (m2 & Hcopy & Eb2 & Hlq & Hql & Hp1); try done;
    [by rewrite Et|].
  erewrite prog_bind_step by exact Hcopy.
  assert (Ho2 : owned (set_bytes s1 m2) fl out bs1) by (by destruct Ho1; split).
  destruct (pbuf_free_loop_spec l (set_bytes s1 m2) fl out bs1 p' [] 0 (chain_fuel s1) Ho2)
    as (s3 & fl3 & out3 & bs3 & Ef & Ho3 & Hb3 & Hpb3); try done;
    [by rewrite app_nil_r | by eapply pchain_fuel|].
  erewrite prog_bind_step by (unfold pbuf_free; rewrite (proj2 (Z.eqb_neq p' 0)) by done; exact Ef).
  exists q, s3, fl3, out3, bs3. split; [done|]. split; [done|]. right.
  cbn [set_bytes ps_pbufs ps_bytes] in Hpb3, Hb3. rewrite Epb in Hpb3. split_and!; try done.
  - split; [|exact Hlq|by rewrite Hb3].
    simpl. rewrite Hpb3, lookup_foldr_delete, decide_False, lookup_insert_eq by done. done.
  - intros a Ha. rewrite Hpb3, lookup_foldr_delete. by rewrite decide_True.
  - intros a Ha Hq. rewrite Hpb3, lookup_foldr_delete, decide_False by done.
    by rewrite lookup_insert_ne.
Qed.

Lemma pbuf_coalesce_contents_witness :
  ∃ s d q s', chain_at s 536913080 ex_l d ∧ pbuf_coalesce 536913080 PBUF_RAW s = Some (q, s') ∧
    (q = 536913080 ∨ chain_at s' q [(q, ram_pbuf q PBUF_RAW 3000)] d).
Proof.
  destruct ex_chain as (s & fl & out & bs & d & Ho & Hc & Hb & Hr).
  destruct (pbuf_coalesce_contents s fl out bs 536913080 ex_l d PBUF_RAW Ho Hc)
    as (q & s' & fl' & out' & bs' & E & _ & H).
  - simpl. lia.
  - repeat constructor; simpl; lia.
  - repeat constructor; done.
  - rewrite Hr. repeat constructor; unfold disjoint_range; mem_consts; simpl; lia.
  - rewrite Hb, Hr. exact ex_heap_mapped.
  - exists s, d, q, s'. split; [exact Hc|]. split; [exact E|].
    destruct H as [[-> _]|(_ & H & _)]; [by left | right; exact H].
Defined.

(** ** Headers *)

Definition hide (n : Z) (b : pbuf) : pbuf :=
  with_tot_len (pb_tot_len b - n) (with_len (pb_len b - n) (with_payload (pb_payload b + n) b)).

Definition header_state (s : pstate) (p : Z) (b : pbuf) : pstate :=
  PState (<[p := b]> (ps_pbufs s)) (ps_bytes s) (ps_heap s) (ps_pools s).

Lemma header_hide_run s p b n :
  ps_pbufs s !! p = Some b → p ≠ 0 → 0 < n ≤ 32767 → n ≤ pb_len b →
  pb_len b ≤ 65535 → n ≤ pb_tot_len b ≤ 65535 → p + SIZEOF_STRUCT_PBUF ≤ pb_payload b →
  pbuf_header p (- n) s = Some (0, header_state s p (hide n b)).
Proof.
  intros Eb Hp0 Hn Hlen Hl16 Ht16 Hpay. unfold pbuf_header, pbuf_header_impl.
  rewrite (proj2 (Z.eqb_neq (- n) 0)), (proj2 (Z.eqb_neq p 0)) by lia. cbn [orb].
  erewrite prog_bind_step by (unfold deref; rewrite Eb; reflexivity).
  rewrite (proj2 (Z.ltb_lt (- n) 0)) by lia. cbv zeta. rewrite u16_small by lia.
  rewrite (proj2 (Z.leb_le (- - n) (pb_len b))) by lia. cbn [negb andb].
  rewrite (prog_bind_step _ _ s true (header_state s p (with_payload (pb_payload b + n) b))).
  2: { replace (pb_payload b - - n) with (pb_payload b + n) by lia.
       destruct (pb_type b); (erewrite prog_bind_step by (by apply upd_pbuf_step));
       rewrite ?(proj2 (Z.ltb_ge _ (p + SIZEOF_STRUCT_PBUF))) by lia; done. }
  unfold header_state. cbn [negb]. do 2 step_upd. cbn [pb_len pb_tot_len with_len with_payload].
  rewrite !u16_small by lia. done.
Qed.

(** Revealing the hidden bytes, where it is allowed. *)
Lemma header_reveal_run s p b n force :
  ps_pbufs s !! p = Some b → p ≠ 0 → 0 < n ≤ 32767 → n ≤ pb_len b →
  pb_len b ≤ 65535 → n ≤ pb_tot_len b ≤ 65535 → p + SIZEOF_STRUCT_PBUF ≤ pb_payload b →
  (force || negb (is_ref_type (pb_type b))) = true →
  pbuf_header_impl p n force (header_state s p (hide n b)) = Some (0, s).
Proof.
  intros Eb Hp0 Hn Hlen Hl16 Ht16 Hpay Hf. set (s1 := header_state s p (hide n b)).
  assert (Eb1 : ps_pbufs s1 !! p = Some (hide n b)) by (apply lookup_insert_eq).
  assert (Hid : with_tot_len (u16 (pb_tot_len (hide n b) + n)) (with_len (u16 (pb_len (hide n b) + n))
      (with_payload (pb_payload (hide n b) - n) (hide n b))) = b).
  { unfold hide. cbn [pb_len pb_tot_len pb_payload with_len with_tot_len with_payload].
    rewrite !u16_small by lia. destruct b; unfold with_tot_len, with_len, with_payload; simpl.
    f_equal; lia. }
  unfold pbuf_header_impl.
  rewrite (proj2 (Z.eqb_neq n 0)), (proj2 (Z.eqb_neq p 0)) by lia. cbn [orb].
  erewrite prog_bind_step by (unfold deref; rewrite Eb1; reflexivity).
  rewrite (proj2 (Z.ltb_ge n 0)) by lia. cbn [andb].
  rewrite (prog_bind_step _ _ s1 true
    (header_state s p (with_payload (pb_payload (hide n b) - n) (hide n b)))).
  2: { rewrite (proj2 (Z.ltb_lt 0 n)) by lia. change (pb_type (hide n b)) with (pb_type b).
       destruct (pb_type b), force; try done; cbn [andb];
       (erewrite prog_bind_step by (by apply upd_pbuf_step));
       rewrite ?(proj2 (Z.ltb_ge _ (p + SIZEOF_STRUCT_PBUF))) by (simpl; lia);
       unfold s1, header_state; cbn [ps_pbufs ps_bytes ps_heap ps_pools];
       rewrite insert_insert_eq; done. }
  unfold header_state. cbn [negb]. do 2 step_upd.
  cbn [pb_len pb_tot_len pb_payload with_len with_payload] in *.
  rewrite Hid, insert_id by done. by destruct s.
Qed.

Lemma header_reveal_refused s p b n :
  ps_pbufs s !! p = Some b → p ≠ 0 → 0 < n → is_ref_type (pb_type b) = true →
  pbuf_header p n s = Some (1, s).
Proof.
  intros Eb Hp0 Hn Er. unfold pbuf_header, pbuf_header_impl.
  rewrite (proj2 (Z.eqb_neq n 0)), (proj2 (Z.eqb_neq p 0)) by lia. cbn [orb].
  erewrite prog_bind_step by (unfold deref; rewrite Eb; reflexivity).
  rewrite (proj2 (Z.ltb_ge n 0)) by lia. cbn [andb].
  destruct (pb_type b); try done; by rewrite andb_false_r.
Qed.

(** The chain after its first bytes are hidden. *)
Lemma chain_at_hide s p b l d n :
  chain_at s p ((p, b) :: l) d → 0 < n → n ≤ pb_len b →
  chain_at (header_state s p (hide n b)) p ((p, hide n b) :: l) (drop (Z.to_nat n) d).
Proof.
  intros [Hp Hl Hd] Hn Hlen. pose proof Hl as (Hb0 & Ht & Hm & Hl').
  cbn [lens] in Ht. pose proof (lens_nonneg _ Hl'). split.
  - cbn [ps_pbufs header_state]. by apply (pchain_upd_head _ _ b).
  - unfold hide. cbn [lens_ok lens pb_len pb_tot_len with_len with_tot_len]. split_and!; try done; lia.
  - cbn [header_state ps_bytes]. destruct (pbytes_cons _ _ _ _ _ Hd) as (x & y & -> & Ex & Ey & Hx).
    cbn [pbytes hide pb_payload pb_len with_len with_tot_len with_payload].
    destruct (load_bytes_split _ _ _ _ (Z.to_nat n) Ex) as [_ Ex']; [lia|].
    rewrite Z2Nat.id in Ex' by lia.
    replace (Z.to_nat (pb_len b - n)) with (Z.to_nat (pb_len b) - Z.to_nat n)%nat by lia.
    rewrite Ex', Ey. by rewrite drop_app_le by lia.
Qed.

(** [pbuf_header] with a negative increment hides the first [n] bytes of
    the chain.  Revealing them again restores the state exactly for a pbuf
    that contains its payload; for one that refers to foreign memory
    [pbuf_header] refuses without effect, while [pbuf_header_force] restores
    it. *)
Theorem pbuf_header_hide_reveal s p b l d n :
  chain_at s p ((p, b) :: l) d → 0 < n ≤ 32767 → n ≤ pb_len b →
  p + SIZEOF_STRUCT_PBUF ≤ pb_payload b →
  ∃ s1, pbuf_header p (- n) s = Some (0, s1) ∧
    chain_at s1 p ((p, hide n b) :: l) (drop (Z.to_nat n) d) ∧
    pbuf_header p n s1 = (if is_ref_type (pb_type b) then Some (1, s1) else Some (0, s)) ∧
    pbuf_header_force p n s1 = Some (0, s).
Proof.
  intros Hc Hn Hlen Hpay.
  destruct (chain_at_head _ _ _ _ _ _ Hc) as (_ & Hp0 & Eb & _).
  pose proof Hc as [_ (Hb0 & Ht & Hm & Hl') _]. cbn [lens] in Ht. pose proof (lens_nonneg _ Hl').
  exists (header_state s p (hide n b)). split; [apply header_hide_run; done || lia|].
  split; [apply chain_at_hide; done || lia|]. split.
  - destruct (is_ref_type (pb_type b)) eqn:Er.
    + apply (header_reveal_refused _ _ (hide n b)); [apply lookup_insert_eq | done | lia | done].
    + apply header_reveal_run; try done; try lia. by rewrite Er.
  - apply header_reveal_run; done || lia.
Qed.

Lemma pbuf_header_hide_reveal_witness :
  let b := MkPbuf 0 1100 4 4 PBUF_RAM 0 1 in
  let s := PState {[1000 := b]} two_bytes (mem_init 536870912) ex_pools in
  ∃ s1, pbuf_header 1000 (-3) s = Some (0, s1) ∧
    chain_at s1 1000 [(1000, hide 3 b)] [3] ∧ pbuf_header 1000 3 s1 = Some (0, s).
Proof.
  intros b s.
  destruct (pbuf_header_hide_reveal s 1000 b [] [0; 1; 2; 3] 3) as (s1 & H1 & H2 & H3 & _).
  - split; [repeat split; done | repeat split; simpl; lia | vm_compute; reflexivity].
  - lia.
  - simpl. lia.
  - unfold SIZEOF_STRUCT_PBUF. simpl. lia.
  - exists s1. auto.
Defined.

(** ** Searching *)

(** [pbuf_memfind] returns the first position at or after
    [start_offset] where the searched bytes occur in the contents of the
    chain, across pbuf boundaries, and 0xFFFF when there is none. *)
Theorem pbuf_memfind_first s p l d mem z start :
  chain_at s p l d → l ≠ [] → Forall byte_ok d → Z.of_nat (length d) < 65535 →
  load_bytes (ps_bytes s) mem (length z) = Some z → (0 < length z)%nat → 0 ≤ start →
  ∃ r, pbuf_memfind p mem (Z.of_nat (length z)) start s = Some (r, s) ∧
    (r = 65535 ∧ (∀ j, start ≤ j → j + Z.of_nat (length z) ≤ Z.of_nat (length d) → ¬ occurs z d j) ∨
     start ≤ r ∧ r + Z.of_nat (length z) ≤ Z.of_nat (length d) ∧ occurs z d r ∧
     ∀ j, start ≤ j < r → ¬ occurs z d j).
Proof.
  intros Hc Hne Hb Hd Hz Hzl Hs.
  assert (Hhead : ∃ b, ps_pbufs s !! p = Some b ∧ pb_tot_len b = Z.of_nat (length d)).
  { destruct l as [|[a b] l']; [done|].
    destruct (chain_at_head _ _ _ _ _ _ Hc) as (-> & _ & Eb & Et). eauto. }
  destruct Hhead as (b & Eb & Et). unfold pbuf_memfind.
  erewrite prog_bind_step by (unfold deref; rewrite Eb; reflexivity). rewrite Et. cbv zeta.
  destruct (Z.leb_spec (Z.of_nat (length z) + start) (Z.of_nat (length d))) as [Hle|Hgt].
  - rewrite u16_small by lia.
    destruct (pbuf_memfind_loop_spec
      (Z.to_nat (Z.of_nat (length d) - Z.of_nat (length z) + 1 - start)) s p l d mem z start
      (Z.to_nat 65537)) as (r & E & Hr); try done; try lia.
    exists r. split; [exact E|]. destruct Hr as [[-> Hr]|(Hr1 & Hr2 & Hr3)].
    + left. split; [done|]. intros j ? ?. apply Hr. lia.
    + right. split_and!; try done; lia.
  - exists 65535. split; [done|]. left. split; [done|]. intros j ? ?. lia.
Qed.

Lemma pbuf_memfind_first_witness :
  ∃ r, pbuf_memfind 1000 3002 2 0 two_state = Some (r, two_state) ∧
    (r = 65535 ∨ occurs [2; 3] [0; 1; 2; 3; 0; 1; 2] r).
Proof.
  destruct (pbuf_memfind_first two_state 1000 two_chain [0; 1; 2; 3; 0; 1; 2] 3002 [2; 3] 0
    two_chain_at) as (r & E & Hr).
  - done.
  - repeat (constructor; [unfold byte_ok; lia|]). constructor.
  - simpl. lia.
  - vm_compute. reflexivity.
  - simpl. lia.
  - lia.
  - exists r. split; [exact E|]. destruct Hr as [[-> _]|(_ & _ & H & _)]; auto.
Defined.
