(* ===== verification/Kernel.v ===== *)
(** * The RTOS kernel as an interface

    The kernel is a separate program (an ITRON kernel, included as a git
    submodule): it enters the development as the class [Kernel] of its service calls
    and the class [KernelLaws] of what the ITRON 4.0 specification documents
    about them.  The drivers of the other files are written against
    [Kernel] and proved against [KernelLaws].  Module [Sim] is a small
    executable kernel with one task that satisfies the laws; the concrete
    witnesses of the client files run on it. *)

From stdpp Require Import base numbers list gmap option.
From S2P Require Import Prelude.

(** ** Service calls *)

(** Creation packets, with the fields the callers fill in. *)
Record T_CTSK := { tskatr : Z; itskpri : Z; stksz : Z; exinf : Z; task : Z }.
Record T_CSEM := { sematr : Z; isemcnt : Z; maxsem : Z }.
Record T_CDTQ := { dtqatr : Z; dtqcnt : Z }.

(** A service call that does not return (a task that waits for ever) is
    [None]; the time a call blocks and what other tasks do meanwhile is in
    the state it returns. *)
Class Kernel (K : Type) := {
  E_OK : Z; E_NOID : Z; KOS_E_NOID : Z; E_TMOUT : Z;
  TA_ACT : Z; TA_TFIFO : Z;
  kos_init_kernel : prog K unit;
  kos_start_kernel : prog K unit;
  get_tim : prog K Z;
  sns_ctx : prog K bool;
  acre_tsk : T_CTSK → prog K Z;
  dly_tsk : Z → prog K Z;
  acre_sem : T_CSEM → prog K Z;
  del_sem : Z → prog K Z;
  pol_sem : Z → prog K Z;
  wai_sem : Z → prog K Z;
  twai_sem : Z → Z → prog K Z;
  ref_sem : Z → prog K (Z * Z);
  sig_sem : Z → prog K Z;
  isig_sem : Z → prog K Z;
  acre_dtq : T_CDTQ → prog K Z;
  del_dtq : Z → prog K Z;
  snd_dtq : Z → Z → prog K Z;
  psnd_dtq : Z → Z → prog K Z;
  rcv_dtq : Z → prog K (Z * Z);
  trcv_dtq : Z → Z → prog K (Z * Z);
  prcv_dtq : Z → prog K (Z * Z);
  loc_cpu : prog K Z;
  unl_cpu : prog K Z
}.

(** ** The documented state of the kernel objects *)

Record sem_view := Sem { sem_cnt : Z; sem_max : Z; sem_wait : nat }.
Record dtq_view :=
  Dtq { dtq_cap : Z; dtq_data : list Z; dtq_wsnd : list Z; dtq_wrcv : nat }.

Class KernelView (K : Type) := {
  sem_of : K → Z → option sem_view;
  dtq_of : K → Z → option dtq_view;
  cpu_locked : K → bool;
  in_isr : K → bool;
  tim_of : K → Z
}.

Section steps.
Context {K : Type} `{KernelView K}.

(** Only the semaphore [id] may have changed, and it is now [v]. *)
Definition sem_step (k k' : K) (id : Z) (v : option sem_view) : Prop :=
  sem_of k' id = v ∧ (∀ j, j ≠ id → sem_of k' j = sem_of k j) ∧
  (∀ j, dtq_of k' j = dtq_of k j) ∧
  cpu_locked k' = cpu_locked k ∧ in_isr k' = in_isr k ∧ tim_of k ≤ tim_of k'.

Definition dtq_step (k k' : K) (id : Z) (v : option dtq_view) : Prop :=
  dtq_of k' id = v ∧ (∀ j, j ≠ id → dtq_of k' j = dtq_of k j) ∧
  (∀ j, sem_of k' j = sem_of k j) ∧
  cpu_locked k' = cpu_locked k ∧ in_isr k' = in_isr k ∧ tim_of k ≤ tim_of k'.

(** No object changed. *)
Definition idle_step (k k' : K) : Prop :=
  (∀ j, sem_of k' j = sem_of k j) ∧ (∀ j, dtq_of k' j = dtq_of k j) ∧
  cpu_locked k' = cpu_locked k ∧ in_isr k' = in_isr k ∧ tim_of k ≤ tim_of k'.

(** Receiving from a queue: a task waiting to send gets the free place. *)
Definition refill (d : dtq_view) (q : list Z) : dtq_view :=
  match dtq_wsnd d with
  | [] => Dtq (dtq_cap d) q [] (dtq_wrcv d)
  | w :: ws => Dtq (dtq_cap d) (q ++ [w]) ws (dtq_wrcv d)
  end.

(** Sending to a queue: a waiting receiver gets the data directly. *)
Definition deliver (d : dtq_view) (m : Z) : dtq_view :=
  match dtq_wrcv d with
  | O => Dtq (dtq_cap d) (dtq_data d ++ [m]) (dtq_wsnd d) O
  | S n => Dtq (dtq_cap d) (dtq_data d) (dtq_wsnd d) n
  end.

Definition dtq_accepts (d : dtq_view) : Prop :=
  dtq_wrcv d ≠ O ∨ Z.of_nat (length (dtq_data d)) < dtq_cap d.

(** Returning a token: a waiting task gets it directly. *)
Definition give (s : sem_view) : sem_view :=
  match sem_wait s with
  | O => Sem (sem_cnt s + 1) (sem_max s) O
  | S n => Sem (sem_cnt s) (sem_max s) n
  end.
End steps.

(** ** What the specification documents *)

Class KernelLaws (K : Type) `{Kernel K} `{KernelView K} := {
  error_codes : E_NOID < 0 ∧ KOS_E_NOID < 0 ∧ E_OK = 0 ∧ E_TMOUT ≠ E_OK;
  get_tim_law k : get_tim k = Some (tim_of k, k);
  sns_ctx_law k : sns_ctx k = Some (in_isr k, k);
  loc_cpu_law k : ∃ k', loc_cpu k = Some (E_OK, k') ∧ cpu_locked k' = true;
  unl_cpu_law k : ∃ k', unl_cpu k = Some (E_OK, k') ∧ cpu_locked k' = false;
  acre_tsk_law c k : ∃ id k', acre_tsk c k = Some (id, k') ∧ id ≠ 0;
  acre_sem_law c k : ∃ id k', acre_sem c k = Some (id, k') ∧
    (0 < id ∧ sem_of k id = None ∧
       sem_step k k' id (Some (Sem (isemcnt c) (maxsem c) O))
     ∨ id < 0 ∧ idle_step k k');
  del_sem_law id k s : sem_of k id = Some s →
    ∃ k', del_sem id k = Some (E_OK, k') ∧ sem_step k k' id None;
  take_law id op k s :
    op = pol_sem id ∨ op = wai_sem id ∨ (∃ t, op = twai_sem id t) →
    sem_of k id = Some s → 0 < sem_cnt s →
    ∃ k', op k = Some (E_OK, k') ∧
      sem_step k k' id (Some (Sem (sem_cnt s - 1) (sem_max s) (sem_wait s)));
  take_missing_law id op k :
    op = pol_sem id ∨ op = wai_sem id ∨ (∃ t, op = twai_sem id t) →
    sem_of k id = None →
    ∃ er k', op k = Some (er, k') ∧ er ≠ E_OK ∧ idle_step k k';
  pol_sem_empty_law id k s : sem_of k id = Some s → sem_cnt s = 0 →
    ∃ k', pol_sem id k = Some (E_TMOUT, k') ∧ idle_step k k';
  ref_sem_law id k s : sem_of k id = Some s →
    ref_sem id k = Some ((E_OK, sem_cnt s), k);
  sig_sem_law id op k s :
    (op = sig_sem id ∧ in_isr k = false ∨ op = isig_sem id ∧ in_isr k = true) →
    sem_of k id = Some s → sem_cnt s < sem_max s ∨ sem_wait s ≠ O →
    ∃ k', op k = Some (E_OK, k') ∧ sem_step k k' id (Some (give s));
  sig_sem_missing_law id op k :
    (op = sig_sem id ∧ in_isr k = false ∨ op = isig_sem id ∧ in_isr k = true) →
    sem_of k id = None →
    ∃ er k', op k = Some (er, k') ∧ er ≠ E_OK ∧ idle_step k k';
  acre_dtq_law c k : ∃ id k', acre_dtq c k = Some (id, k') ∧
    (0 < id ∧ dtq_of k id = None ∧
       dtq_step k k' id (Some (Dtq (dtqcnt c) [] [] O))
     ∨ id < 0 ∧ idle_step k k');
  del_dtq_law id k d : dtq_of k id = Some d →
    ∃ k', del_dtq id k = Some (E_OK, k') ∧ dtq_step k k' id None;
  send_law id op m k d : op = snd_dtq id m ∨ op = psnd_dtq id m →
    dtq_of k id = Some d → dtq_accepts d →
    ∃ k', op k = Some (E_OK, k') ∧ dtq_step k k' id (Some (deliver d m));
  psnd_full_law id m k d : dtq_of k id = Some d → ¬ dtq_accepts d →
    ∃ k', psnd_dtq id m k = Some (E_TMOUT, k') ∧ idle_step k k';
  send_missing_law id op m k : op = snd_dtq id m ∨ op = psnd_dtq id m →
    dtq_of k id = None →
    ∃ er k', op k = Some (er, k') ∧ er ≠ E_OK ∧ idle_step k k';
  recv_law id op m q k d :
    op = rcv_dtq id ∨ op = prcv_dtq id ∨ (∃ t, op = trcv_dtq id t) →
    dtq_of k id = Some d → dtq_data d = m :: q →
    ∃ k', op k = Some ((E_OK, m), k') ∧ dtq_step k k' id (Some (refill d q));
  prcv_empty_law id k d : dtq_of k id = Some d →
    dtq_data d = [] → dtq_wsnd d = [] →
    ∃ v k', prcv_dtq id k = Some ((E_TMOUT, v), k') ∧ idle_step k k'
}.

(** ** A kernel with one task *)

Module Sim.

Record sim := {
  sems : gmap Z sem_view; dtqs : gmap Z dtq_view; tasks : list T_CTSK;
  locked : bool; isr : bool; now : Z
}.

(** Object identifiers 1 to 30. *)
Definition ids : list Z := seqZ 1 30.
Definition free_id {A} (m : gmap Z A) : option Z :=
  head (filter (λ i, m !! i = None) ids).

Definition set_sem (id : Z) (v : option sem_view) (k : sim) : sim :=
  Build_sim (partial_alter (λ _, v) id (sems k)) (dtqs k) (tasks k)
    (locked k) (isr k) (now k).
Definition set_dtq (id : Z) (v : option dtq_view) (k : sim) : sim :=
  Build_sim (sems k) (partial_alter (λ _, v) id (dtqs k)) (tasks k)
    (locked k) (isr k) (now k).
Definition set_locked (b : bool) (k : sim) : sim :=
  Build_sim (sems k) (dtqs k) (tasks k) b (isr k) (now k).
Definition add_task (c : T_CTSK) (k : sim) : sim :=
  Build_sim (sems k) (dtqs k) (tasks k ++ [c]) (locked k) (isr k) (now k).
Definition wait_ms (n : Z) (k : sim) : sim :=
  Build_sim (sems k) (dtqs k) (tasks k) (locked k) (isr k) (now k + Z.max 0 n).

(** [wait] is what a call on an empty object does. *)
Definition take_sem (wait : prog sim Z) (id : Z) : prog sim Z := λ k,
  match sems k !! id with
  | None => Some (-42, k)
  | Some s =>
      if 0 <? sem_cnt s
      then Some (0, set_sem id (Some (Sem (sem_cnt s - 1) (sem_max s) (sem_wait s))) k)
      else wait k
  end.
Definition give_sem (id : Z) : prog sim Z := λ k,
  match sems k !! id with
  | None => Some (-42, k)
  | Some s =>
      match sem_wait s with
      | O => if sem_cnt s <? sem_max s then Some (0, set_sem id (Some (give s)) k)
             else Some (-43, k)
      | S _ => Some (0, set_sem id (Some (give s)) k)
      end
  end.
Definition send (wait : prog sim Z) (id m : Z) : prog sim Z := λ k,
  match dtqs k !! id with
  | None => Some (-42, k)
  | Some d =>
      match dtq_wrcv d with
      | O => if Z.of_nat (length (dtq_data d)) <? dtq_cap d
             then Some (0, set_dtq id (Some (deliver d m)) k) else wait k
      | S _ => Some (0, set_dtq id (Some (deliver d m)) k)
      end
  end.
Definition recv (wait : prog sim (Z * Z)) (id : Z) : prog sim (Z * Z) := λ k,
  match dtqs k !! id with
  | None => Some ((-42, 0), k)
  | Some d =>
      match dtq_data d with
      | [] => wait k
      | m :: q => Some ((0, m), set_dtq id (Some (refill d q)) k)
      end
  end.

#[export] Instance sim_kernel : Kernel sim := {|
  E_OK := 0; E_NOID := -34; KOS_E_NOID := -34; E_TMOUT := -50;
  TA_ACT := 2; TA_TFIFO := 0;
  kos_init_kernel := mret tt; kos_start_kernel := mret tt;
  get_tim := gets now; sns_ctx := gets isr;
  acre_tsk := λ c k,
    if (length (tasks k) <? 8)%nat
    then Some (Z.of_nat (S (length (tasks k))), add_task c k) else Some (-34, k);
  dly_tsk := λ n k, Some (0, wait_ms n k);
  acre_sem := λ c k,
    match free_id (sems k) with
    | None => Some (-34, k)
    | Some id => Some (id, set_sem id (Some (Sem (isemcnt c) (maxsem c) O)) k)
    end;
  del_sem := λ id k,
    match sems k !! id with
    | None => Some (-42, k) | Some _ => Some (0, set_sem id None k) end;
  pol_sem := take_sem (mret (-50));
  wai_sem := take_sem stuck;
  twai_sem := λ id t, take_sem (λ k, Some (-50, wait_ms t k)) id;
  ref_sem := λ id k,
    match sems k !! id with
    | None => Some ((-42, 0), k) | Some s => Some ((0, sem_cnt s), k) end;
  sig_sem := give_sem; isig_sem := give_sem;
  acre_dtq := λ c k,
    match free_id (dtqs k) with
    | None => Some (-34, k)
    | Some id => Some (id, set_dtq id (Some (Dtq (dtqcnt c) [] [] O)) k)
    end;
  del_dtq := λ id k,
    match dtqs k !! id with
    | None => Some (-42, k) | Some _ => Some (0, set_dtq id None k) end;
  snd_dtq := send stuck; psnd_dtq := send (mret (-50));
  rcv_dtq := recv stuck; prcv_dtq := recv (mret (-50, 0));
  trcv_dtq := λ id t, recv (λ k, Some ((-50, 0), wait_ms t k)) id;
  loc_cpu := λ k, Some (0, set_locked true k);
  unl_cpu := λ k, Some (0, set_locked false k)
|}.

#[export] Instance sim_view : KernelView sim := {|
  sem_of := λ k id, sems k !! id; dtq_of := λ k id, dtqs k !! id;
  cpu_locked := locked; in_isr := isr; tim_of := now
|}.

Definition sim0 : sim := Build_sim ∅ ∅ [] false false 1000.

Lemma free_id_spec {A} (m : gmap Z A) id :
  free_id m = Some id → 0 < id ∧ m !! id = None.
Proof.
  unfold free_id. intros H.
  destruct (filter _ ids) as [|i l] eqn:E; simpl in H; [done|].
  simplify_eq. assert (Hi : id ∈ filter (λ i, m !! i = None) ids)
    by (rewrite E; left).
  apply list_elem_of_filter in Hi as [Hn Hi]. split; [|done].
  unfold ids in Hi. apply elem_of_seqZ in Hi. lia.
Qed.

Lemma set_sem_step id v k : sem_step k (set_sem id v k) id v.
Proof.
  repeat split; simpl; try lia; try done.
  - by rewrite lookup_partial_alter_eq.
  - intros j Hj. by rewrite lookup_partial_alter_ne.
Qed.

Lemma set_dtq_step id v k : dtq_step k (set_dtq id v k) id v.
Proof.
  repeat split; simpl; try lia; try done.
  - by rewrite lookup_partial_alter_eq.
  - intros j Hj. by rewrite lookup_partial_alter_ne.
Qed.

Lemma idle_refl (k : sim) : idle_step k k.
Proof. repeat split; simpl; lia. Qed.

#[export] Hint Resolve set_sem_step set_dtq_step idle_refl : fw.

Lemma take_sem_ok w id k s : sems k !! id = Some s → 0 < sem_cnt s →
  take_sem w id k =
  Some (0, set_sem id (Some (Sem (sem_cnt s - 1) (sem_max s) (sem_wait s))) k).
Proof.
  intros H Hc. unfold take_sem. rewrite H.
  by rewrite (proj2 (Z.ltb_lt 0 (sem_cnt s)) Hc).
Qed.

Lemma send_ok w id m k d : dtqs k !! id = Some d → dtq_accepts d →
  send w id m k = Some (0, set_dtq id (Some (deliver d m)) k).
Proof.
  intros H Ha. unfold send. rewrite H. destruct (dtq_wrcv d) eqn:E; [|done].
  destruct Ha as [|Hl]; [done|]. by rewrite (proj2 (Z.ltb_lt _ _) Hl).
Qed.

Lemma send_full w id m k d : dtqs k !! id = Some d → ¬ dtq_accepts d →
  send w id m k = w k.
Proof.
  intros H Ha. unfold send. rewrite H. unfold dtq_accepts in Ha.
  destruct (dtq_wrcv d) eqn:E; [|exfalso; apply Ha; left; done].
  destruct (Z.ltb_spec (Z.of_nat (length (dtq_data d))) (dtq_cap d)); [|done].
  exfalso. apply Ha. by right.
Qed.

Lemma give_sem_ok id k s : sems k !! id = Some s →
  sem_cnt s < sem_max s ∨ sem_wait s ≠ O →
  give_sem id k = Some (0, set_sem id (Some (give s)) k).
Proof.
  intros H Hc. unfold give_sem. rewrite H. destruct (sem_wait s); [|done].
  destruct Hc as [Hc|]; [|done]. by rewrite (proj2 (Z.ltb_lt _ _) Hc).
Qed.

#[export] Instance sim_laws : KernelLaws sim.
Proof.
  split; simpl.
  - lia.
  - done.
  - done.
  - eauto.
  - eauto.
  - intros c k. destruct (_ <? _)%nat; do 2 eexists; (split; [done|lia]).
  - intros c k. destruct (free_id (sems k)) as [id|] eqn:E.
    + apply free_id_spec in E as [? ?]. do 2 eexists. split; [done|].
      left. eauto with fw.
    + do 2 eexists. split; [done|]. right. split; [lia|]. auto with fw.
  - intros id k s ->. eauto with fw.
  - intros id op k s Hop Hs Hc. eexists. split; [|apply set_sem_step].
    destruct Hop as [->|[->|[t ->]]]; by apply take_sem_ok.
  - intros id op k Hop Hs. exists (-42), k. split; [|auto with fw].
    destruct Hop as [->|[->|[t ->]]]; unfold take_sem; by rewrite Hs.
  - intros id k s Hs Hc. exists k. unfold take_sem. rewrite Hs, Hc.
    auto with fw.
  - intros id k s ->. done.
  - intros id op k s Hop Hs Hc. eexists. split; [|apply set_sem_step].
    destruct Hop as [[-> _]|[-> _]]; by apply give_sem_ok.
  - intros id op k Hop Hs. exists (-42), k. split; [|auto with fw].
    destruct Hop as [[-> _]|[-> _]]; unfold give_sem; by rewrite Hs.
  - intros c k. destruct (free_id (dtqs k)) as [id|] eqn:E.
    + apply free_id_spec in E as [? ?]. do 2 eexists. split; [done|].
      left. eauto with fw.
    + do 2 eexists. split; [done|]. right. split; [lia|]. auto with fw.
  - intros id k d ->. eauto with fw.
  - intros id op m k d Hop Hd Ha. eexists. split; [|apply set_dtq_step].
    destruct Hop as [->| ->]; by apply send_ok.
  - intros id m k d Hd Ha. exists k. rewrite (send_full _ _ _ _ _ Hd Ha).
    auto with fw.
  - intros id op m k Hop Hd. exists (-42), k. split; [|auto with fw].
    destruct Hop as [->| ->]; unfold send; by rewrite Hd.
  - intros id op m q k d Hop Hd Hq. eexists. split; [|apply set_dtq_step].
    destruct Hop as [->|[->|[t ->]]]; unfold recv; by rewrite Hd, Hq.
  - intros id k d Hd Hq _. exists 0, k. unfold recv. rewrite Hd, Hq.
    auto with fw.
Qed.

End Sim.
