(* ===== verification/CmsisOs.v ===== *)
(** * The CMSIS-RTOS layer over the kernel ([src/src/cmsis_os_itron_wrap.c])

    Handles are the kernel's object identifiers cast to pointers, so a
    handle is a [Z] and [NULL] is 0.  Functions without static data are
    programs over the kernel state [K]; the two functions that use
    [s_isKernelRunning] run on the record [cmsis]. *)

From stdpp Require Import base numbers list gmap option.
From S2P Require Import Prelude Kernel.

Definition osOK : Z := 0.
Definition osErrorOS : Z := 255.
Definition osWaitForever : Z := 4294967295.

Inductive osPriority :=
| osPriorityIdle | osPriorityLow | osPriorityBelowNormal | osPriorityNormal
| osPriorityAboveNormal | osPriorityHigh | osPriorityRealtime | osPriorityError.

Definition osPriority_val (p : osPriority) : Z :=
  match p with
  | osPriorityIdle => -3 | osPriorityLow => -2 | osPriorityBelowNormal => -1
  | osPriorityNormal => 0 | osPriorityAboveNormal => 1
  | osPriorityHigh => 2 | osPriorityRealtime => 3 | osPriorityError => 132
  end.

Record osThreadDef_t := {
  pthread : Z; tpriority : osPriority; instances : Z; stacksize : Z
}.
Record osMessageQDef_t := { queue_sz : Z; item_sz : Z }.

Section cmsis.
Context {K : Type} `{Kernel K}.

Record cmsis := { kern : K; s_isKernelRunning : Z }.

Definition on_kern {A} (m : prog K A) : prog cmsis A := λ s,
  match m (kern s) with
  | Some (a, k) => Some (a, {| kern := k; s_isKernelRunning := s_isKernelRunning s |})
  | None => None
  end.

Definition osKernelInitialize : prog cmsis Z :=
  on_kern kos_init_kernel;; mret osOK.

Definition osKernelStart : prog cmsis Z :=
  modify (λ s, {| kern := kern s; s_isKernelRunning := 1 |});;
  on_kern kos_start_kernel;;
  mret osOK.

Definition osKernelRunning : prog cmsis Z := gets s_isKernelRunning.

Definition osKernelSysTick : prog K Z := tim ← get_tim; mret (u32 tim).

Definition osThreadCreate (thread_def : osThreadDef_t) (argument : Z) : prog K Z :=
  tskid ← acre_tsk {|
    tskatr := TA_ACT;
    itskpri := (osPriority_val osPriorityRealtime
                - osPriority_val (tpriority thread_def)) + 1;
    stksz := if stacksize thread_def =? 0 then 512 else stacksize thread_def;
    exinf := argument;
    task := pthread thread_def |};
  mret (if tskid =? KOS_E_NOID then 0 else tskid).

Definition osDelay (millisec : Z) : prog K Z := dly_tsk millisec;; mret osOK.

Definition osSemaphoreCreate (count : Z) : prog K Z :=
  semid ← acre_sem {| isemcnt := u32 count; maxsem := 4294967295; sematr := 0 |};
  mret (if semid =? E_NOID then 0 else semid).

Definition osSemaphoreWait (semaphore_id millisec : Z) : prog K Z :=
  er ← (if millisec =? 0 then pol_sem semaphore_id
        else if millisec =? osWaitForever then wai_sem semaphore_id
        else twai_sem semaphore_id millisec);
  if er =? E_OK then
    '(er, semcnt) ← ref_sem semaphore_id;
    mret (if er =? E_OK then s32 semcnt else -1)
  else mret (-1).

Definition osSemaphoreRelease (semaphore_id : Z) : prog K Z :=
  ctx ← sns_ctx;
  er ← (if (ctx : bool) then isig_sem semaphore_id else sig_sem semaphore_id);
  mret (if er =? E_OK then osOK else osErrorOS).

Definition osSemaphoreDelete (semaphore_id : Z) : prog K Z :=
  er ← del_sem semaphore_id;
  mret (if er =? E_OK then osOK else osErrorOS).

Definition osMessageCreate (queue_def : osMessageQDef_t) : prog K Z :=
  dtqid ← acre_dtq {| dtqatr := TA_TFIFO; dtqcnt := queue_sz queue_def |};
  mret (if dtqid =? E_NOID then 0 else dtqid).
End cmsis.
Arguments cmsis : clear implicits.

(** ** Lemmas *)

#[local] Set Default Proof Using "All".

Section lemmas.
Context {K : Type} `{KernelLaws K}.
Implicit Types (k : K) (id : Z).

Lemma osKernelSysTick_spec k : osKernelSysTick k = Some (u32 (tim_of k), k).
Proof. unfold osKernelSysTick. by rewrite (prog_bind_step _ _ _ _ _ (get_tim_law k)). Qed.

(** The blocking call [osSemaphoreWait] selects. *)
Definition wait_call (id millisec : Z) : prog K Z :=
  if millisec =? 0 then pol_sem id
  else if millisec =? osWaitForever then wai_sem id else twai_sem id millisec.

Lemma wait_call_cases id ms :
  wait_call id ms = pol_sem id ∨ wait_call id ms = wai_sem id ∨
  (∃ t, wait_call id ms = twai_sem id t).
Proof. unfold wait_call. repeat case_cmp; eauto. Qed.

(** A token was available: it is taken and the remaining count returned. *)
Lemma osSemaphoreWait_available k id ms s :
  sem_of k id = Some s → 0 < sem_cnt s ≤ 2147483648 →
  ∃ k', osSemaphoreWait id ms k = Some (sem_cnt s - 1, k') ∧
    sem_step k k' id (Some (Sem (sem_cnt s - 1) (sem_max s) (sem_wait s))).
Proof.
  intros Hs Hc.
  destruct (take_law id _ k s (wait_call_cases id ms) Hs) as (k' & Hop & Hst);
    [lia|].
  exists k'. split; [|done]. unfold osSemaphoreWait.
  change (if ms =? 0 then _ else _) with (wait_call id ms).
  rewrite (prog_bind_step _ _ _ _ _ Hop), Z.eqb_refl.
  rewrite (prog_bind_step _ _ _ _ _ (ref_sem_law _ _ _ (proj1 Hst))).
  rewrite Z.eqb_refl. simpl. prog_simpl. do 2 f_equal. zmod.
Qed.

(** The kernel call failed (timeout or no such semaphore): -1. *)
Lemma osSemaphoreWait_failed k id ms er k' :
  wait_call id ms k = Some (er, k') → er ≠ E_OK →
  osSemaphoreWait id ms k = Some (-1, k').
Proof.
  intros Hop Her. unfold osSemaphoreWait.
  change (if ms =? 0 then _ else _) with (wait_call id ms).
  rewrite (prog_bind_step _ _ _ _ _ Hop).
  by rewrite (proj2 (Z.eqb_neq er E_OK) Her).
Qed.

Lemma osSemaphoreWait_missing k id ms :
  sem_of k id = None →
  ∃ k', osSemaphoreWait id ms k = Some (-1, k') ∧ idle_step k k'.
Proof.
  intros Hs.
  destruct (take_missing_law id _ k (wait_call_cases id ms) Hs)
    as (er & k' & Hop & Her & Hst).
  exists k'. split; [|done]. exact (osSemaphoreWait_failed _ _ _ _ _ Hop Her).
Qed.

(** The release picks the call the context allows. *)
Lemma osSemaphoreRelease_spec k id s :
  sem_of k id = Some s → sem_cnt s < sem_max s ∨ sem_wait s ≠ O →
  ∃ k', osSemaphoreRelease id k = Some (osOK, k') ∧
    sem_step k k' id (Some (give s)).
Proof.
  intros Hs Hc. unfold osSemaphoreRelease.
  rewrite (prog_bind_step _ _ _ _ _ (sns_ctx_law k)).
  destruct (sig_sem_law id (if in_isr k then isig_sem id else sig_sem id) k s)
    as (k' & Hop & Hst); [destruct (in_isr k); auto | done | done |].
  exists k'. split; [|done]. rewrite (prog_bind_step _ _ _ _ _ Hop).
  by rewrite Z.eqb_refl.
Qed.

Lemma osSemaphoreRelease_missing k id :
  sem_of k id = None →
  ∃ k', osSemaphoreRelease id k = Some (osErrorOS, k') ∧ idle_step k k'.
Proof.
  intros Hs. unfold osSemaphoreRelease.
  rewrite (prog_bind_step _ _ _ _ _ (sns_ctx_law k)).
  destruct (sig_sem_missing_law id (if in_isr k then isig_sem id else sig_sem id) k)
    as (er & k' & Hop & Her & Hst); [destruct (in_isr k); auto | done |].
  exists k'. split; [|done]. rewrite (prog_bind_step _ _ _ _ _ Hop).
  by rewrite (proj2 (Z.eqb_neq er E_OK) Her).
Qed.

(** Creation: [NULL] exactly for [E_NOID]; every other result of the
    kernel, an error code included, becomes the handle. *)
Lemma osSemaphoreCreate_spec k count :
  0 ≤ count < 2147483648 →
  ∃ h k', osSemaphoreCreate count k = Some (h, k') ∧
    (0 < h ∧ sem_of k h = None ∧ sem_step k k' h (Some (Sem count 4294967295 O))
     ∨ h ≤ 0 ∧ idle_step k k').
Proof.
  intros Hc. unfold osSemaphoreCreate. rewrite (u32_small count) by lia.
  destruct (acre_sem_law {| sematr := 0; isemcnt := count; maxsem := 4294967295 |} k)
    as (id & k' & Hop & Hid). destruct error_codes as (Hno & _).
  rewrite (prog_bind_step _ _ _ _ _ Hop).
  destruct (Z.eqb_spec id E_NOID) as [->|Hne].
  - exists 0, k'. split; [done|]. right. split; [lia|].
    destruct Hid as [[? _]|[_ ?]]; [lia|done].
  - exists id, k'. split; [done|].
    destruct Hid as [?|[? ?]]; [by left | right; split; [lia|done]].
Qed.
End lemmas.
