(* ===== verification/SysArch.v ===== *)
(** * The lwIP port layer ([src/src/sys_arch.c])

    Mailboxes, semaphores, mutexes, threads and the critical section that
    lwIP expects from its port, on top of the CMSIS layer and of the kernel.
    A pointer argument that is only written through ([*mbox], [*sem],
    [*msg]) is returned as a value.  Module [Mbox] states what lwIP expects
    of a mailbox, a bounded queue, and what a mailbox of this port is. *)

From stdpp Require Import base numbers list gmap option.
From S2P Require Import Prelude Kernel CmsisOs Pbuf.

Definition SYS_THREAD_MAX : Z := 6.
Definition archMESG_QUEUE_LENGTH : Z := 6.
Definition SYS_ARCH_TIMEOUT : Z := 4294967295.
Definition SYS_MBOX_EMPTY : Z := SYS_ARCH_TIMEOUT.
Definition SYS_MBOX_NULL : Z := 0.
Definition SYS_SEM_NULL : Z := 0.

Section sys_arch.
Context {K : Type} `{Kernel K}.

(** The kernel and the static data of the file. *)
Record sys_arch := { os : K; s_nextthread : Z }.

Definition on_os {A} (m : prog K A) : prog sys_arch A := λ s,
  match m (os s) with
  | Some (a, k) => Some (a, {| os := k; s_nextthread := s_nextthread s |})
  | None => None
  end.

(** ** Mailboxes *)

(** The status and the new value of [*mbox]. *)
Definition sys_mbox_new (mbox size : Z) : prog K (Z * Z) :=
  dtqid ← acre_dtq {| dtqatr := TA_TFIFO; dtqcnt := archMESG_QUEUE_LENGTH |};
  if dtqid =? E_NOID then mret (ERR_MEM, mbox)
  else mret (ERR_OK, dtqid).

Definition sys_mbox_free (mbox : Z) : prog K unit := del_dtq mbox;; mret tt.

Fixpoint sys_mbox_post (fuel : nat) (mbox data : Z) : prog K unit :=
  match fuel with
  | O => stuck
  | S n =>
      er ← snd_dtq mbox data;
      if er =? E_OK then mret tt
      else osDelay 10;; sys_mbox_post n mbox data
  end.

Definition sys_mbox_trypost (mbox msg : Z) : prog K Z :=
  er ← psnd_dtq mbox msg;
  mret (if er =? E_OK then ERR_OK else ERR_MEM).

(** The result and the new value of [*msg]. *)
Definition sys_arch_mbox_fetch (mbox timeout : Z) : prog K (Z * Z) :=
  ticks0 ← osKernelSysTick;
  '(er, msg) ← (if timeout =? 0 then rcv_dtq mbox else trcv_dtq mbox timeout);
  if er =? E_OK then
    ticks1 ← osKernelSysTick;
    mret (u32 (ticks1 - ticks0), msg)
  else mret (SYS_ARCH_TIMEOUT, 0).

(** [*msg] is only written on success. *)
Definition sys_arch_mbox_tryfetch (mbox : Z) : prog K (Z * option Z) :=
  '(er, msg) ← prcv_dtq mbox;
  mret (if er =? E_OK then (ERR_OK, Some msg) else (SYS_MBOX_EMPTY, None)).

Definition sys_mbox_valid (mbox : Z) : Z := if mbox =? SYS_MBOX_NULL then 0 else 1.
Definition sys_mbox_set_invalid (mbox : Z) : Z := SYS_MBOX_NULL.

(** ** Semaphores *)

(** The status and the new value of [*sem]. *)
Definition sys_sem_new (sem count : Z) : prog K (Z * Z) :=
  sem_id ← osSemaphoreCreate count;
  if sem_id =? 0 then mret (ERR_MEM, sem) else mret (ERR_OK, sem_id).

Definition sys_arch_sem_wait (sem timeout : Z) : prog K Z :=
  ticks0 ← osKernelSysTick;
  sem_cnt ← osSemaphoreWait sem (if timeout =? 0 then osWaitForever else timeout);
  if 0 <=? sem_cnt then
    if timeout =? 0 then mret 0
    else ticks1 ← osKernelSysTick; mret (u32 (ticks1 - ticks0))
  else mret SYS_ARCH_TIMEOUT.

Definition sys_sem_signal (sem : Z) : prog K unit := osSemaphoreRelease sem;; mret tt.
Definition sys_sem_free (sem : Z) : prog K unit := osSemaphoreDelete sem;; mret tt.
Definition sys_sem_valid (sem : Z) : Z := if sem =? SYS_SEM_NULL then 0 else 1.
Definition sys_sem_set_invalid (sem : Z) : Z := SYS_SEM_NULL.

(** [sys_msleep] of lwIP's sys.c, built on these. *)
Definition sys_msleep (ms : Z) : prog K unit :=
  if 0 <? ms then
    '(err, delaysem) ← sys_sem_new 0 0;
    if err =? ERR_OK then
      sys_arch_sem_wait delaysem ms;; sys_sem_free delaysem
    else mret tt
  else mret tt.

(** Mutexes are binary semaphores ([LWIP_COMPAT_MUTEX]). *)
Definition sys_mutex_new (mutex : Z) : prog K (Z * Z) := sys_sem_new mutex 1.
Definition sys_mutex_lock (mutex : Z) : prog K unit := sys_arch_sem_wait mutex 0;; mret tt.
Definition sys_mutex_unlock (mutex : Z) : prog K unit := sys_sem_signal mutex.

(** ** Threads and initialisation *)

Definition sys_init : prog sys_arch unit :=
  modify (λ s, {| os := os s; s_nextthread := 0 |}).

Definition sys_thread_new (thread arg stacksize prio : Z) : prog sys_arch Z :=
  n ← gets s_nextthread;
  if n <? SYS_THREAD_MAX then
    id ← on_os (osThreadCreate
           {| pthread := thread; tpriority := osPriorityAboveNormal;
              instances := 1; stacksize := u32 stacksize |} arg);
    if id =? 0 then mret 0
    else
      modify (λ s, {| os := os s; s_nextthread := u16 (s_nextthread s + 1) |});;
      mret id
  else mret 0.

(** ** Critical section, assertion and time *)

Definition sys_arch_protect : prog K Z := loc_cpu;; mret 1.
Definition sys_arch_unprotect (pval : Z) : prog K unit := unl_cpu;; mret tt.

(** Locks the CPU and loops for ever. *)
Definition sys_assert : prog K unit := loc_cpu;; stuck.

Definition sys_now : prog K Z := osKernelSysTick.
End sys_arch.
Arguments sys_arch : clear implicits.

(** ** Mailboxes as bounded queues *)

Module Mbox.

Inductive call := Post (m : Z) | TryPost (m : Z) | Fetch (timeout : Z) | TryFetch.
Inductive out :=
| Posted | Tried (err : Z) | Fetched (m : Z) | TryFetched (r : Z) (m : option Z).

(** The calls of lwIP on one mailbox, by any of its threads. *)
Definition exec `{Kernel K} (fuel : nat) (id : Z) (c : call) : prog K out :=
  match c with
  | Post m => sys_mbox_post fuel id m;; mret Posted
  | TryPost m => e ← sys_mbox_trypost id m; mret (Tried e)
  | Fetch t => '(_, m) ← sys_arch_mbox_fetch id t; mret (Fetched m)
  | TryFetch => '(r, m) ← sys_arch_mbox_tryfetch id; mret (TryFetched r m)
  end.

(** A queue of at most [n] messages: a blocking call that would wait has no
    step. *)
Definition queue_call (n : nat) (c : call) : prog (list Z) out := λ q,
  match c with
  | Post m => if (length q <? n)%nat then Some (Posted, q ++ [m]) else None
  | TryPost m => if (length q <? n)%nat then Some (Tried ERR_OK, q ++ [m])
                 else Some (Tried ERR_MEM, q)
  | Fetch _ => match q with m :: q' => Some (Fetched m, q') | [] => None end
  | TryFetch => match q with
                | m :: q' => Some (TryFetched ERR_OK (Some m), q')
                | [] => Some (TryFetched SYS_MBOX_EMPTY None, [])
                end
  end.

Fixpoint run {S} (exec : call → prog S out) (cs : list call) : prog S (list out) :=
  match cs with
  | [] => mret []
  | c :: cs' => o ← exec c; os ← run exec cs'; mret (o :: os)
  end.

(** The messages a sequence of calls put in and took out. *)
Fixpoint sent (cs : list call) (os : list out) : list Z :=
  match cs, os with
  | Post m :: cs', _ :: os' => m :: sent cs' os'
  | TryPost m :: cs', Tried e :: os' =>
      if e =? ERR_OK then m :: sent cs' os' else sent cs' os'
  | _ :: cs', _ :: os' => sent cs' os'
  | _, _ => []
  end.
Fixpoint received (os : list out) : list Z :=
  match os with
  | Fetched m :: os' => m :: received os'
  | TryFetched _ (Some m) :: os' => m :: received os'
  | _ :: os' => received os'
  | [] => []
  end.

(** Facts of the bounded queue. *)
Lemma queue_call_fifo n c q o q' cs os :
  queue_call n c q = Some (o, q') → (length q ≤ n)%nat →
  (length q' ≤ n)%nat ∧
  q ++ sent (c :: cs) (o :: os) = received [o] ++ q' ++ sent cs os.
Proof.
  intros Hc Hq. destruct c; simpl in Hc.
  1,2: destruct (Nat.ltb_spec (length q) n); simplify_eq; simpl;
       rewrite ?length_app; simpl; split; try lia; by rewrite <- ?app_assoc.
  all: destruct q; simplify_eq; simpl in *; split; auto with lia.
Qed.

Lemma received_cons o os : received (o :: os) = received [o] ++ received os.
Proof. by destruct o as [| | |? []]. Qed.

Lemma queue_run_fifo n cs q os q' :
  run (queue_call n) cs q = Some (os, q') → (length q ≤ n)%nat →
  (length q' ≤ n)%nat ∧ q ++ sent cs os = received os ++ q'.
Proof.
  revert q os. induction cs as [|c cs IH]; intros q os Hr Hq.
  - simpl in Hr. injection Hr as <- <-. split; [done|]. by rewrite app_nil_r.
  - simpl in Hr. apply prog_bind_Some in Hr as (o & q1 & Hc & Hr).
    apply prog_bind_Some in Hr as (os1 & q2 & Hr & Hm). injection Hm as <- <-.
    destruct (queue_call_fifo _ _ _ _ _ cs os1 Hc Hq) as [Hq1 E].
    destruct (IH _ _ Hr Hq1) as [Hl E2]. split; [done|].
    rewrite E, E2, (received_cons o os1), <- app_assoc. done.
Qed.

#[local] Set Default Proof Using "All".

Section refine.
Context {K : Type} `{KernelLaws K}.
Implicit Types (k : K) (id : Z).

(** The mailbox [id] holds [q] and nobody waits on it. *)
Definition holds k id (q : list Z) : Prop :=
  dtq_of k id = Some (Dtq archMESG_QUEUE_LENGTH q [] O).

Lemma accepts_iff q :
  dtq_accepts (Dtq archMESG_QUEUE_LENGTH q [] O) ↔ (length q < 6)%nat.
Proof.
  unfold dtq_accepts, archMESG_QUEUE_LENGTH. simpl. split; [|right; lia].
  intros [|]; [done|lia].
Qed.

Lemma post_step fuel k id q m : holds k id q → (length q < 6)%nat →
  ∃ k', sys_mbox_post (S fuel) id m k = Some (tt, k') ∧ holds k' id (q ++ [m]).
Proof.
  intros Hh Hl. destruct (send_law id (snd_dtq id m) m k _ (or_introl eq_refl) Hh)
    as (k' & Hop & Hst & _); [by apply accepts_iff|].
  exists k'. split; [|exact Hst]. simpl.
  by rewrite (prog_bind_step _ _ _ _ _ Hop), Z.eqb_refl.
Qed.

Lemma trypost_step k id q m : holds k id q → (length q < 6)%nat →
  ∃ k', sys_mbox_trypost id m k = Some (ERR_OK, k') ∧ holds k' id (q ++ [m]).
Proof.
  intros Hh Hl. destruct (send_law id (psnd_dtq id m) m k _ (or_intror eq_refl) Hh)
    as (k' & Hop & Hst & _); [by apply accepts_iff|].
  exists k'. split; [|exact Hst]. unfold sys_mbox_trypost.
  by rewrite (prog_bind_step _ _ _ _ _ Hop), Z.eqb_refl.
Qed.

Lemma trypost_full k id q m : holds k id q → ¬ (length q < 6)%nat →
  ∃ k', sys_mbox_trypost id m k = Some (ERR_MEM, k') ∧ holds k' id q.
Proof.
  intros Hh Hl. destruct (psnd_full_law id m k _ Hh) as (k' & Hop & Hst);
    [by rewrite accepts_iff|].
  exists k'. destruct Hst as (_ & Hd & _). unfold holds. rewrite Hd.
  split; [|exact Hh]. unfold sys_mbox_trypost.
  rewrite (prog_bind_step _ _ _ _ _ Hop).
  destruct error_codes as (_ & _ & _ & Ht).
  by rewrite (proj2 (Z.eqb_neq E_TMOUT E_OK) Ht).
Qed.

(** A fetch that finds a message: the message and the elapsed time. *)
Lemma fetch_step k id m q t : holds k id (m :: q) →
  ∃ k', sys_arch_mbox_fetch id t k =
          Some ((u32 (tim_of k' - tim_of k), m), k') ∧
        holds k' id q ∧ tim_of k ≤ tim_of k'.
Proof.
  intros Hh.
  edestruct (recv_law id (if t =? 0 then rcv_dtq id else trcv_dtq id t) m q k)
    as (k' & Hop & Hst & _ & _ & _ & _ & Htm);
    [destruct (t =? 0); eauto | exact Hh | done |].
  exists k'. split; [|by split]. unfold sys_arch_mbox_fetch.
  rewrite (prog_bind_step _ _ _ _ _ (osKernelSysTick_spec k)).
  rewrite (prog_bind_step _ _ _ _ _ Hop), Z.eqb_refl.
  rewrite (prog_bind_step _ _ _ _ _ (osKernelSysTick_spec k')).
  prog_simpl. do 3 f_equal. unwrap. by rewrite <- Zminus_mod.
Qed.

Lemma tryfetch_step k id m q : holds k id (m :: q) →
  ∃ k', sys_arch_mbox_tryfetch id k = Some ((ERR_OK, Some m), k') ∧ holds k' id q.
Proof.
  intros Hh.
  edestruct (recv_law id (prcv_dtq id) m q k)
    as (k' & Hop & Hst & _); [eauto | exact Hh | done |].
  exists k'. split; [|exact Hst]. unfold sys_arch_mbox_tryfetch.
  by rewrite (prog_bind_step _ _ _ _ _ Hop), Z.eqb_refl.
Qed.

Lemma tryfetch_empty k id : holds k id [] →
  ∃ k', sys_arch_mbox_tryfetch id k = Some ((SYS_MBOX_EMPTY, None), k') ∧
        holds k' id [].
Proof.
  intros Hh. destruct (prcv_empty_law id k _ Hh) as (v & k' & Hop & _ & Hd & _);
    [done..|].
  exists k'. unfold holds. rewrite Hd. split; [|exact Hh].
  unfold sys_arch_mbox_tryfetch. rewrite (prog_bind_step _ _ _ _ _ Hop).
  destruct error_codes as (_ & _ & _ & Ht).
  by rewrite (proj2 (Z.eqb_neq E_TMOUT E_OK) Ht).
Qed.

(** One call of the port follows the queue of six messages. *)
Lemma exec_step fuel k id q c o q' :
  holds k id q → queue_call 6 c q = Some (o, q') →
  ∃ k', exec (S fuel) id c k = Some (o, k') ∧ holds k' id q'.
Proof.
  intros Hh Hc. destruct c as [m|m|t|]; simpl in Hc; unfold exec.
  - destruct (Nat.ltb_spec (length q) 6); simplify_eq.
    destruct (post_step fuel k id q m) as (k' & Hop & ?); [done..|].
    exists k'. by rewrite (prog_bind_step _ _ _ _ _ Hop).
  - destruct (Nat.ltb_spec (length q) 6); simplify_eq.
    + destruct (trypost_step k id q m) as (k' & Hop & ?); [done..|].
      exists k'. by rewrite (prog_bind_step _ _ _ _ _ Hop).
    + destruct (trypost_full k id q' m) as (k' & Hop & ?); [done | lia |].
      exists k'. by rewrite (prog_bind_step _ _ _ _ _ Hop).
  - destruct q as [|m q]; simplify_eq.
    destruct (fetch_step k id m q' t Hh) as (k' & Hop & ? & _).
    exists k'. by rewrite (prog_bind_step _ _ _ _ _ Hop).
  - destruct q as [|m q]; simplify_eq.
    + destruct (tryfetch_empty k id Hh) as (k' & Hop & ?).
      exists k'. by rewrite (prog_bind_step _ _ _ _ _ Hop).
    + destruct (tryfetch_step k id m q' Hh) as (k' & Hop & ?).
      exists k'. by rewrite (prog_bind_step _ _ _ _ _ Hop).
Qed.

Lemma run_refines fuel cs k id q os q' :
  holds k id q → run (queue_call 6) cs q = Some (os, q') →
  ∃ k', run (exec (S fuel) id) cs k = Some (os, k') ∧ holds k' id q'.
Proof.
  revert k q os. induction cs as [|c cs IH]; intros k q os Hh Hr.
  - simpl in *. injection Hr as <- <-. by exists k.
  - simpl in Hr. apply prog_bind_Some in Hr as (o & q1 & Hc & Hr).
    apply prog_bind_Some in Hr as (os1 & q2 & Hr & Hm). injection Hm as <- <-.
    destruct (exec_step fuel k id q c o q1 Hh Hc) as (k1 & Hop & Hh1).
    destruct (IH k1 q1 os1 Hh1 Hr) as (k2 & Hop2 & Hh2).
    exists k2. split; [|done]. cbn [run].
    rewrite (prog_bind_step _ _ _ _ _ Hop).
    by rewrite (prog_bind_step _ _ _ _ _ Hop2).
Qed.

(** A new mailbox: a fresh empty queue of six places, whatever size was asked
    for; or [ERR_MEM]; or a negative error code of the kernel passed on as a
    handle. *)
Lemma sys_mbox_new_spec mb size k :
  ∃ err id k', sys_mbox_new mb size k = Some ((err, id), k') ∧
    (err = ERR_OK ∧ 0 < id ∧ dtq_of k id = None ∧ holds k' id []
     ∨ err = ERR_MEM ∧ id = mb ∧ idle_step k k'
     ∨ err = ERR_OK ∧ id < 0 ∧ idle_step k k').
Proof.
  unfold sys_mbox_new.
  destruct (acre_dtq_law {| dtqatr := TA_TFIFO; dtqcnt := archMESG_QUEUE_LENGTH |} k)
    as (id & k' & Hop & Hid).
  destruct error_codes as (Hno & _). rewrite (prog_bind_step _ _ _ _ _ Hop).
  destruct (Z.eqb_spec id E_NOID) as [->|Hne].
  - exists ERR_MEM, mb, k'. split; [done|]. right. left.
    destruct Hid as [[? _]|[_ ?]]; [lia|done].
  - exists ERR_OK, id, k'. split; [done|].
    destruct Hid as [(? & ? & Hst)|[? ?]]; [left | right; right; done].
    repeat split; [done..|]. apply Hst.
Qed.

(** C27: A mailbox created by [sys_mbox_new] is, for every sequence of posts and
    fetches by lwIP's threads that does not block, a first-in first-out
    queue of exactly [archMESG_QUEUE_LENGTH] = 6 places, whatever [size] was
    requested: each call returns what the bounded queue returns ([ERR_MEM]
    of [sys_mbox_trypost] exactly when six messages are stored,
    [SYS_MBOX_EMPTY] exactly when none is), the messages accepted are the
    messages received followed by the messages stored, in order, and never
    more than six are stored. *)
Theorem mailbox_refines_queue fuel mb size k id k1 cs os q :
  sys_mbox_new mb size k = Some ((ERR_OK, id), k1) → 0 < id →
  run (queue_call 6) cs [] = Some (os, q) →
  ∃ k2, run (exec (S fuel) id) cs k1 = Some (os, k2) ∧
    dtq_of k2 id = Some (Dtq archMESG_QUEUE_LENGTH q [] O) ∧
    sent cs os = received os ++ q ∧ (length q ≤ 6)%nat.
Proof.
  intros Hn Hid Hr.
  destruct (sys_mbox_new_spec mb size k) as (err & id' & k' & Hn' & Hcase).
  rewrite Hn in Hn'. simplify_eq.
  destruct Hcase as [(_ & _ & _ & Hh)|[(? & _)|(_ & ? & _)]]; [|done|lia].
  destruct (run_refines fuel cs k' id' [] os q Hh Hr) as (k2 & Hrun & Hh2).
  destruct (queue_run_fifo 6 cs [] os q Hr) as [Hl E]; [simpl; lia|].
  by exists k2.
Qed.
End refine.

Import Sim.

Definition ex_calls : list call :=
  [TryPost 1; Post 2; TryPost 3; TryPost 4; TryPost 5; TryPost 6; TryPost 7;
   Fetch 0; TryFetch; TryPost 8; Fetch 100].

Definition ex_outs : list out :=
  [Tried 0; Posted; Tried 0; Tried 0; Tried 0; Tried 0; Tried (-1);
   Fetched 1; TryFetched 0 (Some 2); Tried 0; Fetched 3].
Definition ex_box : sim := default sim0 (snd <$> sys_mbox_new 0 2000 sim0).

Lemma mailbox_refines_queue_witness :
  ∃ k2, run (exec 1 1) ex_calls ex_box = Some (ex_outs, k2) ∧
    dtq_of k2 1 = Some (Dtq archMESG_QUEUE_LENGTH [4; 5; 6; 8] [] O) ∧
    sent ex_calls ex_outs = received ex_outs ++ [4; 5; 6; 8] ∧
    (length [4; 5; 6; 8] ≤ 6)%nat.
Proof.
  apply (mailbox_refines_queue 0 0 2000 sim0 1 ex_box ex_calls ex_outs [4; 5; 6; 8]).
  - vm_compute. reflexivity.
  - lia.
  - vm_compute. reflexivity.
Defined.

End Mbox.

(** ** Semaphores and mutexes *)

#[local] Set Default Proof Using "All".

Section semaphores.
Context {K : Type} `{KernelLaws K}.
Implicit Types (k : K) (id : Z).

Lemma wait_ms_nonzero timeout :
  0 ≤ timeout < 4294967296 →
  (if timeout =? 0 then osWaitForever else timeout) ≠ 0.
Proof. unfold osWaitForever. case_cmp; lia. Qed.

Lemma elapsed_u32 a b : u32 (u32 b - u32 a) = u32 (b - a).
Proof. unfold u32. by rewrite <- Zminus_mod. Qed.

(** A token is available: it is taken; the result is 0 for an unlimited
    wait and the elapsed time, modulo 2^32, for a limited one. *)
Lemma sys_arch_sem_wait_available k id timeout s :
  sem_of k id = Some s → 0 < sem_cnt s ≤ 2147483648 →
  ∃ k', sys_arch_sem_wait id timeout k =
          Some (if timeout =? 0 then 0 else u32 (tim_of k' - tim_of k), k') ∧
        sem_step k k' id (Some (Sem (sem_cnt s - 1) (sem_max s) (sem_wait s))).
Proof.
  intros Hs Hc. unfold sys_arch_sem_wait.
  rewrite (prog_bind_step _ _ _ _ _ (osKernelSysTick_spec k)).
  destruct (osSemaphoreWait_available k id
    (if timeout =? 0 then osWaitForever else timeout) s Hs Hc) as (k' & Hop & Hst).
  exists k'. split; [|done]. rewrite (prog_bind_step _ _ _ _ _ Hop).
  rewrite (proj2 (Z.leb_le 0 (sem_cnt s - 1))) by lia.
  destruct (timeout =? 0); [done|].
  rewrite (prog_bind_step _ _ _ _ _ (osKernelSysTick_spec k')).
  prog_simpl. by rewrite elapsed_u32.
Qed.

(** The kernel's wait fails: [SYS_ARCH_TIMEOUT]. *)
Lemma sys_arch_sem_wait_failed k id timeout er k' :
  wait_call id (if timeout =? 0 then osWaitForever else timeout) k = Some (er, k') →
  er ≠ E_OK →
  sys_arch_sem_wait id timeout k = Some (SYS_ARCH_TIMEOUT, k').
Proof.
  intros Hw Her. unfold sys_arch_sem_wait.
  rewrite (prog_bind_step _ _ _ _ _ (osKernelSysTick_spec k)).
  by rewrite (prog_bind_step _ _ _ _ _ (osSemaphoreWait_failed _ _ _ _ _ Hw Her)).
Qed.

Lemma sys_sem_signal_spec k id s :
  sem_of k id = Some s → sem_cnt s < sem_max s ∨ sem_wait s ≠ O →
  ∃ k', sys_sem_signal id k = Some (tt, k') ∧ sem_step k k' id (Some (give s)).
Proof.
  intros Hs Hc. destruct (osSemaphoreRelease_spec k id s Hs Hc) as (k' & Hop & ?).
  exists k'. split; [|done]. unfold sys_sem_signal.
  by rewrite (prog_bind_step _ _ _ _ _ Hop).
Qed.

Lemma sys_sem_new_spec sem count k :
  0 ≤ count < 256 →
  ∃ err id k', sys_sem_new sem count k = Some ((err, id), k') ∧
    (err = ERR_OK ∧ 0 < id ∧ sem_of k id = None ∧
       sem_step k k' id (Some (Sem count 4294967295 O))
     ∨ err = ERR_MEM ∧ id = sem ∧ idle_step k k'
     ∨ err = ERR_OK ∧ id < 0 ∧ idle_step k k').
Proof.
  intros Hc. unfold sys_sem_new.
  destruct (osSemaphoreCreate_spec k count) as (h & k' & Hop & Hh); [lia|].
  rewrite (prog_bind_step _ _ _ _ _ Hop).
  destruct (Z.eqb_spec h 0) as [->|Hne].
  - exists ERR_MEM, sem, k'. split; [done|]. right. left.
    destruct Hh as [[? _]|[_ ?]]; [lia|done].
  - exists ERR_OK, h, k'. split; [done|].
    destruct Hh as [Hh|[? ?]]; [by left | right; right]. split; [done|].
    split; [lia|done].
Qed.

(** The kernel says [E_OK] or [-1] comes back, and no token is lost or
    invented: the semaphore of lwIP as a counter. *)
Inductive sem_event := Wait (timeout : Z) | Signal.

Definition sem_exec (id : Z) (e : sem_event) : prog K Z :=
  match e with
  | Wait t => sys_arch_sem_wait id t
  | Signal => sys_sem_signal id;; mret 0
  end.

Fixpoint sem_run (id : Z) (es : list sem_event) : prog K (list Z) :=
  match es with
  | [] => mret []
  | e :: es' => r ← sem_exec id e; rs ← sem_run id es'; mret (r :: rs)
  end.

(** Tokens after the events, [None] when an event would wait. *)
Fixpoint tokens (n : Z) (es : list sem_event) : option Z :=
  match es with
  | [] => Some n
  | Wait _ :: es' => if 0 <? n then tokens (n - 1) es' else None
  | Signal :: es' => tokens (n + 1) es'
  end.

Lemma sem_run_tokens es k id n m :
  sem_of k id = Some (Sem n 4294967295 O) →
  0 ≤ n → n + Z.of_nat (length es) < 2147483648 → tokens n es = Some m →
  ∃ rs k', sem_run id es k = Some (rs, k') ∧
    sem_of k' id = Some (Sem m 4294967295 O) ∧ length rs = length es ∧
    (∀ i t, es !! i = Some (Wait t) → t = 0 → rs !! i = Some 0).
Proof.
  revert k n. induction es as [|e es IH]; intros k n Hs Hn Hlen Ht.
  - simpl in *. injection Ht as ->. by exists [], k.
  - assert (∃ r k1 n1, sem_exec id e k = Some (r, k1) ∧
      sem_of k1 id = Some (Sem n1 4294967295 O) ∧ tokens n1 es = Some m ∧
      0 ≤ n1 ≤ n + 1 ∧ (e = Wait 0 → r = 0)) as (r & k1 & n1 & He & Hs1 & Ht1 & Hn1 & Hr).
    { destruct e as [t|]; simpl in *.
      - destruct (Z.ltb_spec 0 n); [|done].
        destruct (sys_arch_sem_wait_available k id t _ Hs) as (k1 & Hop & Hst & _);
          simpl in *; [lia|].
        eexists _, k1, (n - 1). split; [exact Hop|]. split; [exact Hst|].
        split; [done|]. split; [lia|]. by intros [= ->].
      - destruct (sys_sem_signal_spec k id _ Hs) as (k1 & Hop & Hst & _);
          simpl in *; [lia|].
        exists 0, k1, (n + 1). rewrite (prog_bind_step _ _ _ _ _ Hop).
        split; [done|]. split; [exact Hst|]. split; [done|]. split; [lia|done]. }
    simpl in Hlen.
    destruct (IH k1 n1) as (rs & k2 & Hrun & Hs2 & Hl & Hz); [done | lia | lia | done |].
    exists (r :: rs), k2. simpl. rewrite (prog_bind_step _ _ _ _ _ He).
    rewrite (prog_bind_step _ _ _ _ _ Hrun). repeat split; [done | by rewrite Hl |].
    intros [|i] t Hi ->; simpl in *; [f_equal; apply Hr; congruence | eauto].
Qed.

(** A semaphore made by [sys_sem_new] with an initial count is a counter
    of tokens for every sequence of [sys_arch_sem_wait] and
    [sys_sem_signal], from task and interrupt context alike, in which
    no wait finds the counter at zero: every call returns, unlimited waits
    return 0, and afterwards the kernel holds exactly the initial count plus
    the signals minus the waits.  A wait on which the kernel call fails (a
    timeout, a missing semaphore) returns [SYS_ARCH_TIMEOUT] and takes no
    token of its own. *)
Theorem semaphore_counts sem count k id k1 es m :
  0 ≤ count < 256 →
  sys_sem_new sem count k = Some ((ERR_OK, id), k1) → 0 < id →
  Z.of_nat (length es) < 2147483000 → tokens count es = Some m →
  ∃ rs k2, sem_run id es k1 = Some (rs, k2) ∧
    sem_of k2 id = Some (Sem m 4294967295 O) ∧ length rs = length es ∧
    (∀ i t, es !! i = Some (Wait t) → t = 0 → rs !! i = Some 0) ∧
    (∀ t er k3, wait_call id (if t =? 0 then osWaitForever else t) k2 = Some (er, k3) →
       er ≠ E_OK → sys_arch_sem_wait id t k2 = Some (SYS_ARCH_TIMEOUT, k3)).
Proof.
  intros Hc Hnew Hid Hlen Ht.
  destruct (sys_sem_new_spec sem count k Hc) as (err & id' & k' & Hn & Hcase).
  rewrite Hnew in Hn. simplify_eq.
  destruct Hcase as [(_ & _ & _ & Hst)|[(? & _)|(_ & ? & _)]]; [|done|lia].
  destruct (sem_run_tokens es k' id' count m (proj1 Hst)) as (rs & k2 & ? & ? & ? & ?);
    [lia | lia | done |].
  exists rs, k2. repeat split; try done.
  intros t er k3. apply sys_arch_sem_wait_failed.
Qed.
End semaphores.

(** ** Threads *)

Section threads.
Context {K : Type} `{KernelLaws K}.

Record thread_req := { tr_thread : Z; tr_arg : Z; tr_stack : Z; tr_prio : Z }.

Fixpoint start_threads (rs : list thread_req) : prog (sys_arch K) (list Z) :=
  match rs with
  | [] => mret []
  | r :: rs' =>
      id ← sys_thread_new (tr_thread r) (tr_arg r) (tr_stack r) (tr_prio r);
      ids ← start_threads rs'; mret (id :: ids)
  end.

Definition started (ids : list Z) : Z :=
  Z.of_nat (length (filter (λ i, i ≠ 0) ids)).

Lemma sys_thread_new_spec th arg st prio s :
  0 ≤ s_nextthread s ≤ SYS_THREAD_MAX →
  ∃ id s', sys_thread_new th arg st prio s = Some (id, s') ∧
    s_nextthread s' = s_nextthread s + (if id =? 0 then 0 else 1) ∧
    s_nextthread s' ≤ SYS_THREAD_MAX ∧
    (s_nextthread s = SYS_THREAD_MAX → id = 0 ∧ s' = s).
Proof.
  intros Hn. unfold sys_thread_new.
  rewrite (prog_bind_step _ _ s (s_nextthread s) s eq_refl).
  destruct (Z.ltb_spec (s_nextthread s) SYS_THREAD_MAX) as [Hlt|Hge].
  - destruct (acre_tsk_law {| tskatr := TA_ACT; itskpri := 3;
        stksz := if u32 st =? 0 then 512 else u32 st; exinf := arg; task := th |} (os s))
      as (tid & k' & Hop & Htid).
    set (h := if tid =? KOS_E_NOID then 0 else tid).
    rewrite (prog_bind_step _ _ s h {| os := k'; s_nextthread := s_nextthread s |}).
    2: { assert (osThreadCreate {| pthread := th; tpriority := osPriorityAboveNormal;
           instances := 1; stacksize := u32 st |} arg (os s) = Some (h, k')) as E
           by exact (prog_bind_step _ _ _ _ _ Hop).
         unfold on_os. by rewrite E. }
    destruct (Z.eqb_spec h 0) as [->|Hh].
    + do 2 eexists. split; [done|]. simpl. repeat split; lia.
    + do 2 eexists. split; [done|]. simpl. rewrite (proj2 (Z.eqb_neq h 0) Hh).
      unfold SYS_THREAD_MAX in *. rewrite u16_small by lia. repeat split; lia.
  - do 2 eexists. split; [done|]. simpl. repeat split; lia.
Qed.

Lemma start_threads_spec rs s :
  0 ≤ s_nextthread s ≤ SYS_THREAD_MAX →
  ∃ ids s', start_threads rs s = Some (ids, s') ∧
    s_nextthread s' = s_nextthread s + started ids ∧
    s_nextthread s' ≤ SYS_THREAD_MAX ∧ length ids = length rs.
Proof.
  revert s. induction rs as [|r rs IH]; intros s Hs.
  - exists [], s. unfold started. simpl. repeat split; lia.
  - destruct (sys_thread_new_spec (tr_thread r) (tr_arg r) (tr_stack r) (tr_prio r) s Hs)
      as (id & s1 & Hop & Hc & Hm & _).
    destruct (IH s1) as (ids & s2 & Hrun & Hc2 & Hm2 & Hl).
    { destruct (id =? 0); lia. }
    exists (id :: ids), s2. simpl. rewrite (prog_bind_step _ _ _ _ _ Hop).
    rewrite (prog_bind_step _ _ _ _ _ Hrun). repeat split; [|done|by rewrite Hl].
    rewrite Hc2, Hc. unfold started. rewrite filter_cons.
    destruct (Z.eqb_spec id 0); case_decide; simpl; lia.
Qed.

(** After [sys_init], every sequence of [sys_thread_new] requests returns,
    [s_nextthread] counts exactly the requests that returned a non-[NULL]
    identifier, and at most [SYS_THREAD_MAX] = 6 of them did; once six have
    been started every further request returns [NULL] and leaves the state
    unchanged. *)
Theorem threads_bounded (s0 : sys_arch K) rs :
  ∃ s1 ids s2, sys_init s0 = Some (tt, s1) ∧ start_threads rs s1 = Some (ids, s2) ∧
    s_nextthread s2 = started ids ∧ started ids ≤ SYS_THREAD_MAX ∧
    length ids = length rs ∧
    (started ids = SYS_THREAD_MAX → ∀ th arg st prio,
       sys_thread_new th arg st prio s2 = Some (0, s2)).
Proof.
  set (s1 := {| os := os s0; s_nextthread := 0 |}).
  destruct (start_threads_spec rs s1) as (ids & s2 & Hrun & Hc & Hm & Hl);
    [unfold s1, SYS_THREAD_MAX; simpl; lia|].
  exists s1, ids, s2. simpl in Hc. repeat split; [done | lia | lia | done |].
  intros Hmax th arg st prio.
  destruct (sys_thread_new_spec th arg st prio s2) as (id & s3 & Hop & _ & _ & He).
  { unfold SYS_THREAD_MAX in *. lia. }
  destruct He as [-> ->]; [lia|]. done.
Qed.

(** The critical section of the port does not nest: whatever
    [sys_arch_protect] returned, the first [sys_arch_unprotect] unlocks the
    CPU, so the rest of an outer critical section that calls a function with
    a critical section of its own runs unprotected. *)
Theorem protect_does_not_nest (k : K) :
  ∃ p1 k1 p2 k2 k3,
    sys_arch_protect k = Some (p1, k1) ∧ cpu_locked k1 = true ∧
    sys_arch_protect k1 = Some (p2, k2) ∧ cpu_locked k2 = true ∧
    sys_arch_unprotect p2 k2 = Some (tt, k3) ∧ cpu_locked k3 = false.
Proof.
  destruct (loc_cpu_law k) as (k1 & H1' & L1).
  destruct (loc_cpu_law k1) as (k2 & H2' & L2).
  destruct (unl_cpu_law k2) as (k3 & H3' & L3).
  exists 1, k1, 1, k2, k3. unfold sys_arch_protect, sys_arch_unprotect.
  by rewrite (prog_bind_step _ _ _ _ _ H1'), (prog_bind_step _ _ _ _ _ H2'),
    (prog_bind_step _ _ _ _ _ H3').
Qed.
End threads.

Import Sim.

Definition ex_sem : sim := default sim0 (snd <$> sys_sem_new 0 1 sim0).

Lemma semaphore_counts_witness :
  ∃ rs k2, sem_run 1 [Wait 0; Signal; Wait 50; Signal; Signal] ex_sem = Some (rs, k2) ∧
    sem_of k2 1 = Some (Sem 2 4294967295 O) ∧ length rs = length [Wait 0; Signal; Wait 50; Signal; Signal] ∧
    (∀ i t, [Wait 0; Signal; Wait 50; Signal; Signal] !! i = Some (Wait t) →
       t = 0 → rs !! i = Some 0) ∧
    (∀ t er k3, wait_call 1 (if t =? 0 then osWaitForever else t) k2 = Some (er, k3) →
       er ≠ E_OK → sys_arch_sem_wait 1 t k2 = Some (SYS_ARCH_TIMEOUT, k3)).
Proof.
  apply (semaphore_counts 0 1 sim0 1 ex_sem [Wait 0; Signal; Wait 50; Signal; Signal] 2).
  - lia.
  - vm_compute. reflexivity.
  - lia.
  - simpl. lia.
  - reflexivity.
Defined.

Definition ex_reqs : list thread_req :=
  replicate 8 {| tr_thread := 16; tr_arg := 0; tr_stack := 1024; tr_prio := 3 |}.

(** Eight requests, of which six are granted. *)
Lemma threads_bounded_witness :
  ∃ s1 ids s2, sys_init {| os := sim0; s_nextthread := 5 |} = Some (tt, s1) ∧
    start_threads ex_reqs s1 = Some (ids, s2) ∧
    s_nextthread s2 = started ids ∧ started ids ≤ SYS_THREAD_MAX ∧
    length ids = length ex_reqs ∧
    (started ids = SYS_THREAD_MAX → ∀ th arg st prio,
       sys_thread_new th arg st prio s2 = Some (0, s2)).
Proof. exact (threads_bounded {| os := sim0; s_nextthread := 5 |} ex_reqs). Defined.

Lemma protect_does_not_nest_witness :
  ∃ p1 k1 p2 k2 k3,
    sys_arch_protect sim0 = Some (p1, k1) ∧ cpu_locked k1 = true ∧
    sys_arch_protect k1 = Some (p2, k2) ∧ cpu_locked k2 = true ∧
    sys_arch_unprotect p2 k2 = Some (tt, k3) ∧ cpu_locked k3 = false.
Proof. exact (protect_does_not_nest sim0). Defined.
