(* ===== verification/HalEth.v ===== *)
(** * The Ethernet driver of the HAL: descriptor rings
    (Drivers/STM32F7xx_HAL_Driver/Src/stm32f7xx_hal_eth.c)

    The part of the HAL that the network interface uses per frame: the two
    descriptor rings, the transmission of a frame, the scan for a received
    frame and the interrupt handler.  A descriptor is a record at its address;
    the registers are the fields [DMASR] (bits are cleared by writing ones
    to them), the list address registers and counters of the writes to the
    two poll demand registers. *)

From stdpp Require Import base numbers list gmap option.
From S2P Require Import Prelude.

(** ** Data *)

Record ETH_DMADescTypeDef := Desc {
  Status : Z; ControlBufferSize : Z; Buffer1Addr : Z; Buffer2NextDescAddr : Z
}.

Inductive HAL_StatusTypeDef := HAL_OK | HAL_ERROR | HAL_BUSY | HAL_TIMEOUT.
Inductive HAL_ETH_StateTypeDef :=
| HAL_ETH_STATE_RESET | HAL_ETH_STATE_READY | HAL_ETH_STATE_BUSY
| HAL_ETH_STATE_BUSY_TX | HAL_ETH_STATE_BUSY_RX | HAL_ETH_STATE_BUSY_TX_RX
| HAL_ETH_STATE_BUSY_WR | HAL_ETH_STATE_BUSY_RD | HAL_ETH_STATE_TIMEOUT
| HAL_ETH_STATE_ERROR.

Record ETH_DMARxFrameInfos := FrameInfos {
  FSRxDesc : Z; LSRxDesc : Z; SegCount : Z; frame_length : Z; frame_buffer : Z
}.

Record eth := Eth {
  descs : gmap Z ETH_DMADescTypeDef;
  TxDesc : Z; RxDesc : Z; RxFrameInfos : ETH_DMARxFrameInfos;
  State : HAL_ETH_StateTypeDef; Lock : bool;
  ChecksumMode : Z; RxMode : Z;
  DMASR : Z; DMATDLAR : Z; DMARDLAR : Z; tx_polls : nat; rx_polls : nat
}.

(** ** Constants *)

Definition ETH_TX_BUF_SIZE : Z := 1524.
Definition ETH_RX_BUF_SIZE : Z := 1524.
Definition ETH_TXBUFNB : nat := 5.
Definition ETH_RXBUFNB : nat := 5.
Definition SIZEOF_DESC : Z := 32.
Definition ETH_DMATXDESC_OWN : Z := 0x80000000.
Definition ETH_DMATXDESC_LS : Z := 0x20000000.
Definition ETH_DMATXDESC_FS : Z := 0x10000000.
Definition ETH_DMATXDESC_TCH : Z := 0x00100000.
Definition ETH_DMATXDESC_CHECKSUMTCPUDPICMPFULL : Z := 0x00C00000.
Definition ETH_DMATXDESC_TBS1 : Z := 0x00001FFF.
Definition ETH_DMARXDESC_OWN : Z := 0x80000000.
Definition ETH_DMARXDESC_FL : Z := 0x3FFF0000.
Definition ETH_DMARXDESC_FS : Z := 0x00000200.
Definition ETH_DMARXDESC_LS : Z := 0x00000100.
Definition ETH_DMARXDESC_DIC : Z := 0x80000000.
Definition ETH_DMARXDESC_RCH : Z := 0x00004000.
Definition ETH_CHECKSUM_BY_HARDWARE : Z := 0.
Definition ETH_RXINTERRUPT_MODE : Z := 1.
Definition ETH_DMASR_RBUS : Z := 0x80.
Definition ETH_DMASR_TUS : Z := 0x20.
Definition ETH_DMASR_TBUS : Z := 0x04.
Definition ETH_DMA_FLAG_R : Z := 0x40.
Definition ETH_DMA_FLAG_T : Z := 0x01.
Definition ETH_DMA_FLAG_AIS : Z := 0x8000.
Definition ETH_DMA_IT_NIS : Z := 0x10000.

(** A flag of a status word is set. *)
Definition has (s f : Z) : bool := negb (Z.land s f =? 0).

(** ** Field updates *)

Definition set_descs (v : gmap Z ETH_DMADescTypeDef) (e : eth) : eth :=
  Eth v (TxDesc e) (RxDesc e) (RxFrameInfos e) (State e) (Lock e) (ChecksumMode e)
    (RxMode e) (DMASR e) (DMATDLAR e) (DMARDLAR e) (tx_polls e) (rx_polls e).
Definition set_TxDesc (v : Z) (e : eth) : eth :=
  Eth (descs e) v (RxDesc e) (RxFrameInfos e) (State e) (Lock e) (ChecksumMode e)
    (RxMode e) (DMASR e) (DMATDLAR e) (DMARDLAR e) (tx_polls e) (rx_polls e).
Definition set_RxDesc (v : Z) (e : eth) : eth :=
  Eth (descs e) (TxDesc e) v (RxFrameInfos e) (State e) (Lock e) (ChecksumMode e)
    (RxMode e) (DMASR e) (DMATDLAR e) (DMARDLAR e) (tx_polls e) (rx_polls e).
Definition set_infos (v : ETH_DMARxFrameInfos) (e : eth) : eth :=
  Eth (descs e) (TxDesc e) (RxDesc e) v (State e) (Lock e) (ChecksumMode e)
    (RxMode e) (DMASR e) (DMATDLAR e) (DMARDLAR e) (tx_polls e) (rx_polls e).
Definition set_State (v : HAL_ETH_StateTypeDef) (e : eth) : eth :=
  Eth (descs e) (TxDesc e) (RxDesc e) (RxFrameInfos e) v (Lock e) (ChecksumMode e)
    (RxMode e) (DMASR e) (DMATDLAR e) (DMARDLAR e) (tx_polls e) (rx_polls e).
Definition set_Lock (v : bool) (e : eth) : eth :=
  Eth (descs e) (TxDesc e) (RxDesc e) (RxFrameInfos e) (State e) v (ChecksumMode e)
    (RxMode e) (DMASR e) (DMATDLAR e) (DMARDLAR e) (tx_polls e) (rx_polls e).
(** Writing [v] to [DMASR]. *)
Definition write_DMASR (v : Z) (e : eth) : eth :=
  Eth (descs e) (TxDesc e) (RxDesc e) (RxFrameInfos e) (State e) (Lock e) (ChecksumMode e)
    (RxMode e) (Z.land (DMASR e) (Z.lnot v)) (DMATDLAR e) (DMARDLAR e) (tx_polls e) (rx_polls e).
Definition set_DMATDLAR (v : Z) (e : eth) : eth :=
  Eth (descs e) (TxDesc e) (RxDesc e) (RxFrameInfos e) (State e) (Lock e) (ChecksumMode e)
    (RxMode e) (DMASR e) v (DMARDLAR e) (tx_polls e) (rx_polls e).
Definition set_DMARDLAR (v : Z) (e : eth) : eth :=
  Eth (descs e) (TxDesc e) (RxDesc e) (RxFrameInfos e) (State e) (Lock e) (ChecksumMode e)
    (RxMode e) (DMASR e) (DMATDLAR e) v (tx_polls e) (rx_polls e).
Definition write_DMATPDR (e : eth) : eth :=
  Eth (descs e) (TxDesc e) (RxDesc e) (RxFrameInfos e) (State e) (Lock e) (ChecksumMode e)
    (RxMode e) (DMASR e) (DMATDLAR e) (DMARDLAR e) (S (tx_polls e)) (rx_polls e).
Definition write_DMARPDR (e : eth) : eth :=
  Eth (descs e) (TxDesc e) (RxDesc e) (RxFrameInfos e) (State e) (Lock e) (ChecksumMode e)
    (RxMode e) (DMASR e) (DMATDLAR e) (DMARDLAR e) (tx_polls e) (S (rx_polls e)).

Definition with_Status (v : Z) (d : ETH_DMADescTypeDef) : ETH_DMADescTypeDef :=
  Desc v (ControlBufferSize d) (Buffer1Addr d) (Buffer2NextDescAddr d).
Definition with_Control (v : Z) (d : ETH_DMADescTypeDef) : ETH_DMADescTypeDef :=
  Desc (Status d) v (Buffer1Addr d) (Buffer2NextDescAddr d).
Definition with_FSRxDesc (v : Z) (i : ETH_DMARxFrameInfos) : ETH_DMARxFrameInfos :=
  FrameInfos v (LSRxDesc i) (SegCount i) (frame_length i) (frame_buffer i).
Definition with_LSRxDesc (v : Z) (i : ETH_DMARxFrameInfos) : ETH_DMARxFrameInfos :=
  FrameInfos (FSRxDesc i) v (SegCount i) (frame_length i) (frame_buffer i).
Definition with_SegCount (v : Z) (i : ETH_DMARxFrameInfos) : ETH_DMARxFrameInfos :=
  FrameInfos (FSRxDesc i) (LSRxDesc i) v (frame_length i) (frame_buffer i).
Definition with_length (v : Z) (i : ETH_DMARxFrameInfos) : ETH_DMARxFrameInfos :=
  FrameInfos (FSRxDesc i) (LSRxDesc i) (SegCount i) v (frame_buffer i).
Definition with_buffer (v : Z) (i : ETH_DMARxFrameInfos) : ETH_DMARxFrameInfos :=
  FrameInfos (FSRxDesc i) (LSRxDesc i) (SegCount i) (frame_length i) v.

(** Reading and updating the descriptor at [a]. *)
Definition desc (a : Z) : prog eth ETH_DMADescTypeDef := λ e,
  match descs e !! a with Some d => Some (d, e) | None => None end.
Definition upd_desc (a : Z) (f : ETH_DMADescTypeDef → ETH_DMADescTypeDef) : prog eth unit :=
  d ← desc a; modify (λ e, set_descs (<[a := f d]> (descs e)) e).
Definition upd_infos (f : ETH_DMARxFrameInfos → ETH_DMARxFrameInfos) : prog eth unit :=
  modify (λ e, set_infos (f (RxFrameInfos e)) e).

(** [__HAL_LOCK]: the rest of the function, or [HAL_BUSY]. *)
Definition HAL_LOCK (rest : prog eth HAL_StatusTypeDef) : prog eth HAL_StatusTypeDef :=
  l ← gets Lock;
  if (l : bool) then mret HAL_BUSY else modify (set_Lock true);; rest.
Definition HAL_UNLOCK : prog eth unit := modify (set_Lock false).

(** ** Descriptor lists *)

(** Entry [i] of a table of [n] descriptors at [tab]; the descriptor's
    memory is a global array, so it exists before it is filled in. *)
Definition tx_entry (e : eth) (tab buf : Z) (n i : nat) : ETH_DMADescTypeDef :=
  let d := default (Desc 0 0 0 0) (descs e !! (tab + SIZEOF_DESC * Z.of_nat i)) in
  Desc (if ChecksumMode e =? ETH_CHECKSUM_BY_HARDWARE
        then Z.lor ETH_DMATXDESC_TCH ETH_DMATXDESC_CHECKSUMTCPUDPICMPFULL
        else ETH_DMATXDESC_TCH)
       (ControlBufferSize d)
       (buf + Z.of_nat i * ETH_TX_BUF_SIZE)
       (if (i <? n - 1)%nat then tab + SIZEOF_DESC * Z.of_nat (i + 1) else tab).

Definition rx_entry (e : eth) (tab buf : Z) (n i : nat) : ETH_DMADescTypeDef :=
  Desc ETH_DMARXDESC_OWN
       (if RxMode e =? ETH_RXINTERRUPT_MODE
        then Z.land (Z.lor ETH_DMARXDESC_RCH ETH_RX_BUF_SIZE) (Z.lnot ETH_DMARXDESC_DIC)
        else Z.lor ETH_DMARXDESC_RCH ETH_RX_BUF_SIZE)
       (buf + Z.of_nat i * ETH_RX_BUF_SIZE)
       (if (i <? n - 1)%nat then tab + SIZEOF_DESC * Z.of_nat (i + 1) else tab).

Fixpoint fill_descs (entry : eth → nat → ETH_DMADescTypeDef) (tab : Z) (i k : nat)
    : prog eth unit :=
  match k with
  | O => mret tt
  | S k' =>
      modify (λ e, set_descs (<[tab + SIZEOF_DESC * Z.of_nat i := entry e i]> (descs e)) e);;
      fill_descs entry tab (S i) k'
  end.

Definition HAL_ETH_DMATxDescListInit (DMATxDescTab TxBuff : Z) (TxBuffCount : nat)
    : prog eth HAL_StatusTypeDef :=
  HAL_LOCK (
    modify (set_State HAL_ETH_STATE_BUSY);;
    modify (set_TxDesc DMATxDescTab);;
    fill_descs (λ e, tx_entry e DMATxDescTab TxBuff TxBuffCount) DMATxDescTab 0 TxBuffCount;;
    modify (set_DMATDLAR DMATxDescTab);;
    modify (set_State HAL_ETH_STATE_READY);;
    HAL_UNLOCK;;
    mret HAL_OK).

Definition HAL_ETH_DMARxDescListInit (DMARxDescTab RxBuff : Z) (RxBuffCount : nat)
    : prog eth HAL_StatusTypeDef :=
  HAL_LOCK (
    modify (set_State HAL_ETH_STATE_BUSY);;
    modify (set_RxDesc DMARxDescTab);;
    fill_descs (λ e, rx_entry e DMARxDescTab RxBuff RxBuffCount) DMARxDescTab 0 RxBuffCount;;
    modify (set_DMARDLAR DMARxDescTab);;
    modify (set_State HAL_ETH_STATE_READY);;
    HAL_UNLOCK;;
    mret HAL_OK).

(** ** Transmission *)

(** One pass of the loop over the buffers of a frame. *)
Definition tx_segment (FrameLength bufcount i : Z) : prog eth unit :=
  a ← gets TxDesc;
  upd_desc a (λ d, with_Status
    (Z.land (Status d) (Z.lnot (Z.lor ETH_DMATXDESC_FS ETH_DMATXDESC_LS))) d);;
  (if i =? 0
   then upd_desc a (λ d, with_Status (Z.lor (Status d) ETH_DMATXDESC_FS) d)
   else mret tt);;
  upd_desc a (with_Control (Z.land ETH_TX_BUF_SIZE ETH_DMATXDESC_TBS1));;
  (if i =? bufcount - 1
   then
     upd_desc a (λ d, with_Status (Z.lor (Status d) ETH_DMATXDESC_LS) d);;
     let size := FrameLength - (bufcount - 1) * ETH_TX_BUF_SIZE in
     upd_desc a (with_Control (Z.land size ETH_DMATXDESC_TBS1))
   else mret tt);;
  upd_desc a (λ d, with_Status (Z.lor (Status d) ETH_DMATXDESC_OWN) d);;
  d ← desc a;
  modify (set_TxDesc (Buffer2NextDescAddr d)).

Fixpoint tx_segments (FrameLength bufcount i : Z) (k : nat) : prog eth unit :=
  match k with
  | O => mret tt
  | S k' => tx_segment FrameLength bufcount i;;
            tx_segments FrameLength bufcount (i + 1) k'
  end.

Definition tx_bufcount (FrameLength : Z) : Z :=
  if ETH_TX_BUF_SIZE <? FrameLength then
    FrameLength / ETH_TX_BUF_SIZE
    + (if FrameLength mod ETH_TX_BUF_SIZE =? 0 then 0 else 1)
  else 1.

(** Handing the descriptors of the frame to the DMA engine. *)
Definition tx_handover (FrameLength bufcount : Z) : prog eth unit :=
  if bufcount =? 1 then
    a ← gets TxDesc;
    upd_desc a (λ d, with_Status
      (Z.lor (Status d) (Z.lor ETH_DMATXDESC_FS ETH_DMATXDESC_LS)) d);;
    upd_desc a (with_Control (Z.land FrameLength ETH_DMATXDESC_TBS1));;
    upd_desc a (λ d, with_Status (Z.lor (Status d) ETH_DMATXDESC_OWN) d);;
    d ← desc a;
    modify (set_TxDesc (Buffer2NextDescAddr d))
  else tx_segments FrameLength bufcount 0 (Z.to_nat bufcount).

Definition HAL_ETH_TransmitFrame (FrameLength : Z) : prog eth HAL_StatusTypeDef :=
  HAL_LOCK (
    modify (set_State HAL_ETH_STATE_BUSY);;
    if FrameLength =? 0 then
      modify (set_State HAL_ETH_STATE_READY);; HAL_UNLOCK;; mret HAL_ERROR
    else
    a ← gets TxDesc;
    d ← desc a;
    if has (Status d) ETH_DMATXDESC_OWN then
      modify (set_State HAL_ETH_STATE_BUSY_TX);; HAL_UNLOCK;; mret HAL_ERROR
    else
    let bufcount := tx_bufcount FrameLength in
    tx_handover FrameLength bufcount;;
    sr ← gets DMASR;
    (if has sr ETH_DMASR_TBUS
     then modify (write_DMASR ETH_DMASR_TBUS);; modify write_DMATPDR
     else mret tt);;
    modify (set_State HAL_ETH_STATE_READY);;
    HAL_UNLOCK;;
    mret HAL_OK).

(** ** Reception *)

(** The scan; [k] is [ETH_RXBUFNB] minus the scan counter. *)
Fixpoint rx_scan (k : nat) : prog eth HAL_StatusTypeDef :=
  a ← gets RxDesc;
  d ← desc a;
  match k with
  | S k' =>
      if has (Status d) ETH_DMARXDESC_OWN then
        modify (set_State HAL_ETH_STATE_READY);; HAL_UNLOCK;; mret HAL_ERROR
      else
      let seg := Z.land (Status d) (Z.lor ETH_DMARXDESC_FS ETH_DMARXDESC_LS) in
      if seg =? ETH_DMARXDESC_FS then
        upd_infos (with_FSRxDesc a);;
        upd_infos (with_SegCount 1);;
        modify (set_RxDesc (Buffer2NextDescAddr d));;
        rx_scan k'
      else if seg =? 0 then
        upd_infos (λ i, with_SegCount (u32 (SegCount i + 1)) i);;
        modify (set_RxDesc (Buffer2NextDescAddr d));;
        rx_scan k'
      else
        upd_infos (with_LSRxDesc a);;
        upd_infos (λ i, with_SegCount (u32 (SegCount i + 1)) i);;
        upd_infos (λ i, if SegCount i =? 1 then with_FSRxDesc a i else i);;
        upd_infos (with_length
          (u32 (Z.shiftr (Z.land (Status d) ETH_DMARXDESC_FL) 16 - 4)));;
        i ← gets RxFrameInfos;
        fs ← desc (FSRxDesc i);
        upd_infos (with_buffer (Buffer1Addr fs));;
        modify (set_RxDesc (Buffer2NextDescAddr d));;
        modify (set_State HAL_ETH_STATE_READY);;
        HAL_UNLOCK;;
        mret HAL_OK
  | O => modify (set_State HAL_ETH_STATE_READY);; HAL_UNLOCK;; mret HAL_ERROR
  end.

Definition HAL_ETH_GetReceivedFrame_IT : prog eth HAL_StatusTypeDef :=
  HAL_LOCK (modify (set_State HAL_ETH_STATE_BUSY);; rx_scan ETH_RXBUFNB).
