(* ===== verification/Ethernetif.v ===== *)
(** * The network interface driver ([src/src/ethernetif.c])

    [low_level_output] copies a chain into the transmit buffers and hands
    the descriptors to the DMA engine; [low_level_input] copies a received
    frame into a new chain and gives the descriptors back;
    [ethernetif_input] is the task that runs it.  The interrupt handler of
    the HAL is here because it calls back into this file. *)

From stdpp Require Import base numbers list gmap option.
From S2P Require Import Prelude Kernel CmsisOs Mem Memp Pbuf HalEth.

Definition TIME_WAITING_FOR_INPUT : Z := 100.

(** The Ethernet handle and descriptors, and the packet buffers. *)
Record estate := EState { es_eth : eth; es_p : pstate }.

Definition on_eth {A} (m : prog eth A) : prog estate A := λ s,
  match m (es_eth s) with
  | Some (a, e) => Some (a, EState e (es_p s))
  | None => None
  end.
Definition on_p {A} (m : prog pstate A) : prog estate A := λ s,
  match m (es_p s) with
  | Some (a, p) => Some (a, EState (es_eth s) p)
  | None => None
  end.

(** ** Transmission *)

(** The local variables of [low_level_output]. *)
Record txvars := TxVars {
  tx_buffer : Z; DmaTxDesc : Z; framelength : Z; tx_offset : Z
}.

(** The inner [while]: [left] is [byteslefttocopy], [po] is [payloadoffset];
    [inl] is the jump to [error]. *)
Fixpoint output_while (fuel : nat) (payload left po : Z) (v : txvars)
    : prog estate (Z + (Z * Z * txvars)) :=
  match fuel with
  | O => stuck
  | S fuel' =>
      if ETH_TX_BUF_SIZE <? left + tx_offset v then
        let n := ETH_TX_BUF_SIZE - tx_offset v in
        on_p (MEMCPY (tx_buffer v + tx_offset v) (payload + po) n);;
        d ← on_eth (desc (DmaTxDesc v));
        let next := Buffer2NextDescAddr d in
        d' ← on_eth (desc next);
        if has (Status d') ETH_DMATXDESC_OWN then mret (inl ERR_USE)
        else
          output_while fuel' payload (left - n) (po + n)
            (TxVars (Buffer1Addr d') next (u32 (framelength v + n)) 0)
      else mret (inr (left, po, v))
  end.

(** The loop over the chain. *)
Fixpoint output_for (fuel : nat) (q : Z) (v : txvars) : prog estate (Z + txvars) :=
  match fuel with
  | O => stuck
  | S fuel' =>
      if q =? 0 then mret (inr v) else
      d ← on_eth (desc (DmaTxDesc v));
      if has (Status d) ETH_DMATXDESC_OWN then mret (inl ERR_USE)
      else
      b ← on_p (deref q);
      r ← output_while (S (Z.to_nat (pb_len b))) (pb_payload b) (pb_len b) 0 v;
      match r with
      | inl e => mret (inl e)
      | inr (rest, po, v') =>
          on_p (MEMCPY (tx_buffer v' + tx_offset v') (pb_payload b + po) rest);;
          output_for fuel' (pb_next b)
            (TxVars (tx_buffer v') (DmaTxDesc v') (u32 (framelength v' + rest))
               (u32 (tx_offset v' + rest)))
      end
  end.

(** The code at the label [error]. *)
Definition output_error (errval : Z) : prog estate Z :=
  sr ← on_eth (gets DMASR);
  (if has sr ETH_DMASR_TUS
   then on_eth (modify (write_DMASR ETH_DMASR_TUS));; on_eth (modify write_DMATPDR)
   else mret tt);;
  mret errval.

Definition low_level_output (p : Z) : prog estate Z :=
  a ← on_eth (gets TxDesc);
  d ← on_eth (desc a);
  fuel ← on_p (gets chain_fuel);
  r ← output_for fuel p (TxVars (Buffer1Addr d) a 0 0);
  match r with
  | inl e => output_error e
  | inr v =>
      on_eth (HAL_ETH_TransmitFrame (framelength v));;
      output_error ERR_OK
  end.

(** ** Reception *)

Record rxvars := RxVars { rx_buffer : Z; dmarxdesc : Z; rx_offset : Z }.

Fixpoint input_while (fuel : nat) (payload left po : Z) (v : rxvars)
    : prog estate (Z * Z * rxvars) :=
  match fuel with
  | O => stuck
  | S fuel' =>
      if ETH_RX_BUF_SIZE <? left + rx_offset v then
        let n := ETH_RX_BUF_SIZE - rx_offset v in
        on_p (MEMCPY (payload + po) (rx_buffer v + rx_offset v) n);;
        d ← on_eth (desc (dmarxdesc v));
        let next := Buffer2NextDescAddr d in
        d' ← on_eth (desc next);
        input_while fuel' payload (left - n) (po + n) (RxVars (Buffer1Addr d') next 0)
      else mret (left, po, v)
  end.

Fixpoint input_for (fuel : nat) (q : Z) (v : rxvars) : prog estate unit :=
  match fuel with
  | O => stuck
  | S fuel' =>
      if q =? 0 then mret tt else
      b ← on_p (deref q);
      '(rest, po, v') ← input_while (S (Z.to_nat (pb_len b))) (pb_payload b) (pb_len b) 0 v;
      on_p (MEMCPY (pb_payload b + po) (rx_buffer v' + rx_offset v') rest);;
      input_for fuel' (pb_next b)
        (RxVars (rx_buffer v') (dmarxdesc v') (u32 (rx_offset v' + rest)))
  end.

(** Setting the OWN bit of the descriptors of the frame. *)
Fixpoint release_descs (k : nat) (a : Z) : prog eth unit :=
  match k with
  | O => mret tt
  | S k' =>
      upd_desc a (λ d, with_Status (Z.lor (Status d) ETH_DMARXDESC_OWN) d);;
      d ← desc a;
      release_descs k' (Buffer2NextDescAddr d)
  end.

Definition low_level_input : prog estate Z :=
  st ← on_eth HAL_ETH_GetReceivedFrame_IT;
  match st with
  | HAL_OK =>
      i ← on_eth (gets RxFrameInfos);
      let len := u16 (frame_length i) in
      p ← (if 0 <? len then on_p (pbuf_alloc PBUF_RAW len PBUF_POOL) else mret 0);
      (if p =? 0 then mret tt
       else
         fuel ← on_p (gets chain_fuel);
         input_for fuel p (RxVars (frame_buffer i) (FSRxDesc i) 0));;
      on_eth (release_descs (Z.to_nat (SegCount i)) (FSRxDesc i));;
      on_eth (upd_infos (with_SegCount 0));;
      sr ← on_eth (gets DMASR);
      (if has sr ETH_DMASR_RBUS
       then on_eth (modify (write_DMASR ETH_DMASR_RBUS));; on_eth (modify write_DMARPDR)
       else mret tt);;
      mret p
  | _ => mret 0
  end.

(** ** The input task and the interrupt *)

Section task.
Context {K : Type} `{Kernel K}.

Record ifstate := IfState { if_es : estate; if_k : K; s_xSemaphore : Z }.

Definition on_es {A} (m : prog estate A) : prog ifstate A := λ s,
  match m (if_es s) with
  | Some (a, e) => Some (a, IfState e (if_k s) (s_xSemaphore s))
  | None => None
  end.
Definition on_k {A} (m : prog K A) : prog ifstate A := λ s,
  match m (if_k s) with
  | Some (a, k) => Some (a, IfState (if_es s) k (s_xSemaphore s))
  | None => None
  end.

(** [netif->input], the function given to [netif_add]. *)
Context (netif_input : Z → prog ifstate Z).

(** The [do] loop: all frames that are ready. *)
Fixpoint input_frames (fuel : nat) : prog ifstate unit :=
  match fuel with
  | O => stuck
  | S fuel' =>
      p ← on_es low_level_input;
      if p =? 0 then mret tt
      else
        e ← netif_input p;
        (if e =? ERR_OK then mret tt else on_es (on_p (pbuf_free p);; mret tt));;
        input_frames fuel'
  end.

(** One pass of the task's endless loop. *)
Definition ethernetif_input_pass (fuel : nat) : prog ifstate unit :=
  sem ← gets s_xSemaphore;
  r ← on_k (osSemaphoreWait sem TIME_WAITING_FOR_INPUT);
  if r =? osOK then input_frames fuel else mret tt.

Definition HAL_ETH_RxCpltCallback : prog ifstate unit :=
  sem ← gets s_xSemaphore; on_k (osSemaphoreRelease sem);; mret tt.

Definition HAL_ETH_IRQHandler : prog ifstate unit :=
  sr ← on_es (on_eth (gets DMASR));
  (if Z.land sr ETH_DMA_FLAG_R =? ETH_DMA_FLAG_R then
     HAL_ETH_RxCpltCallback;;
     on_es (on_eth (modify (write_DMASR ETH_DMA_FLAG_R);;
       modify (set_State HAL_ETH_STATE_READY);; HAL_UNLOCK))
   else if Z.land sr ETH_DMA_FLAG_T =? ETH_DMA_FLAG_T then
     on_es (on_eth (modify (write_DMASR ETH_DMA_FLAG_T);;
       modify (set_State HAL_ETH_STATE_READY);; HAL_UNLOCK))
   else mret tt);;
  on_es (on_eth (modify (write_DMASR ETH_DMA_IT_NIS)));;
  sr ← on_es (on_eth (gets DMASR));
  if Z.land sr ETH_DMA_FLAG_AIS =? ETH_DMA_FLAG_AIS then
    on_es (on_eth (modify (write_DMASR ETH_DMA_FLAG_AIS);;
      modify (set_State HAL_ETH_STATE_READY);; HAL_UNLOCK))
  else mret tt.
End task.
Arguments ifstate : clear implicits.
