(* ===== verification/EthOutput.v ===== *)
(** * Transmission of a chain by the network interface driver

    The transmit ring is the list of its descriptors from [TxDesc] on.  The
    bytes of the buffers of the ring, in this order, form one stream, and
    [flat] is the address of a position of the stream.  [dma_frame] is what the
    DMA engine reads from the ring; the main result is that it reads the
    contents of the chain. *)

From stdpp Require Import base numbers list gmap option.
From S2P Require Import Prelude Mem Memp Pbuf PbufLemmas HalEth Ethernetif.

(** ** Rings *)

Abbreviation ring := (list (Z * ETH_DMADescTypeDef)).

Definition daddr (L : ring) (i : nat) : Z := default 0 (fst <$> L !! i).
Definition buf (L : ring) (i : nat) : Z := default 0 (Buffer1Addr ∘ snd <$> L !! i).
Definition busy (L : ring) (i : nat) : bool :=
  default false ((λ c, has (Status c.2) ETH_DMATXDESC_OWN) <$> L !! i).

(** The descriptors are linked in a circle. *)
Definition ring_ok (D : gmap Z ETH_DMADescTypeDef) (L : ring) : Prop :=
  NoDup L.*1 ∧
  ∀ i a d, L !! i = Some (a, d) →
    D !! a = Some d ∧ Buffer2NextDescAddr d = daddr L ((i + 1) mod length L)%nat.

(** The address of position [j] of the stream. *)
Definition flat (L : ring) (j : Z) : Z :=
  buf L (Z.to_nat (j / 1524)) + j mod 1524.

(** The buffers are mapped and do not overlap each other. *)
Definition bufs_ok (m : bmem) (L : ring) : Prop :=
  (∀ i, (i < length L)%nat → mapped m (buf L i) 1524) ∧
  (∀ i j, (i < length L)%nat → (j < length L)%nat → i ≠ j →
     disjoint_range (buf L i) 1524 (buf L j) 1524).

(** No buffer overlaps a payload. *)
Definition bufs_clear (L : ring) (l : chain) : Prop :=
  ∀ i, (i < length L)%nat → clear_of (buf L i) 1524 l.

(** [x] is at position [t] of the stream. *)
Definition written (m : bmem) (L : ring) (t : Z) (x : bytes) : Prop :=
  ∀ i b, x !! i = Some b → m !! flat L (t + Z.of_nat i) = Some b.

(** Only the positions [t .. t+n) changed. *)
Definition same_but (m m' : bmem) (L : ring) (t n : Z) : Prop :=
  (∀ a, (∀ j, t ≤ j < t + n → a ≠ flat L j) → m' !! a = m !! a) ∧
  (∀ a, is_Some (m !! a) → is_Some (m' !! a)).

Definition capacity (L : ring) : Z := Z.of_nat (length L) * 1524.

Definition put_bytes (s : estate) (m : bmem) : estate :=
  EState (es_eth s) (set_bytes (es_p s) m).

(** ** Positions *)

Lemma flat_at L (c : nat) o : 0 ≤ o < 1524 → flat L (Z.of_nat c * 1524 + o) = buf L c + o.
Proof.
  intros Ho. unfold flat.
  rewrite (Z.add_comm (Z.of_nat c * 1524) o), Z.div_add, Z.mod_add by lia.
  rewrite (Z.div_small o), (Z.mod_small o) by lia. rewrite Z.add_0_l, Nat2Z.id. done.
Qed.

Lemma flat_split j : 0 ≤ j → ∃ (c : nat) o, 0 ≤ o < 1524 ∧ j = Z.of_nat c * 1524 + o.
Proof.
  intros Hj. exists (Z.to_nat (j / 1524)), (j mod 1524).
  pose proof (Z.div_pos j 1524). rewrite Z2Nat.id by lia.
  pose proof (Z.mod_pos_bound j 1524). pose proof (Z.div_mod j 1524). lia.
Qed.

Lemma flat_inj m L i j :
  bufs_ok m L → 0 ≤ i < capacity L → 0 ≤ j < capacity L →
  flat L i = flat L j → i = j.
Proof.
  intros [_ Hd] Hi Hj E. unfold capacity in *.
  destruct (flat_split i) as (c & o & Ho & ->); [lia|].
  destruct (flat_split j) as (c' & o' & Ho' & ->); [lia|].
  rewrite !flat_at in E by done. destruct (decide (c = c')) as [->|Hc]; [lia|].
  assert (disjoint_range (buf L c) 1524 (buf L c') 1524) by (apply Hd; lia).
  unfold disjoint_range in *. lia.
Qed.

Lemma same_but_refl m L t n : same_but m m L t n.
Proof. by split. Qed.

Lemma same_but_trans m1 m2 m3 L t n k :
  0 ≤ n → 0 ≤ k →
  same_but m1 m2 L t n → same_but m2 m3 L (t + n) k → same_but m1 m3 L t (n + k).
Proof.
  intros Hn Hk [H1 H1'] [H2 H2']. split; [|eauto].
  intros a Ha. rewrite H2, H1; [done| |]; intros j Hj; apply Ha; lia.
Qed.

Lemma same_but_weaken m m' L t n k :
  n ≤ k → same_but m m' L t n → same_but m m' L t k.
Proof. intros Hk [H H']. split; [|done]. intros a Ha. apply H. intros j Hj. apply Ha. lia. Qed.

(** Earlier positions keep their bytes. *)
Lemma written_kept m0 m m' L t0 t n x :
  bufs_ok m0 L → 0 ≤ t0 → t0 + Z.of_nat (length x) ≤ t → t + n ≤ capacity L →
  written m L t0 x → same_but m m' L t n → written m' L t0 x.
Proof.
  intros Hb H0 Ht Hc Hw [Hs _] i b Hi. pose proof (lookup_lt_Some _ _ _ Hi).
  rewrite Hs; [by apply Hw|]. intros j Hj E.
  apply (flat_inj m0 L) in E; [lia | done | lia | lia].
Qed.

Lemma written_app m L t x y :
  written m L t x → written m L (t + Z.of_nat (length x)) y → written m L t (x ++ y).
Proof.
  intros Hx Hy i b Hi. apply lookup_app_Some in Hi as [Hi|[Hl Hi]]; [by apply Hx|].
  specialize (Hy _ _ Hi). rewrite <- Hy. f_equal. f_equal. lia.
Qed.

(** Storing into one buffer of the ring. *)
Lemma store_written m m' L (c : nat) o x :
  store_bytes m (buf L c + o) x = Some m' →
  0 ≤ o → o + Z.of_nat (length x) ≤ 1524 →
  written m' L (Z.of_nat c * 1524 + o) x ∧
  same_but m m' L (Z.of_nat c * 1524 + o) (Z.of_nat (length x)).
Proof.
  intros Hs Ho Hn. split; [|split].
  - intros i b Hi. pose proof (lookup_lt_Some _ _ _ Hi) as Hl.
    rewrite <- Z.add_assoc, flat_at by lia. rewrite Z.add_assoc.
    pose proof (load_store_same _ _ _ _ Hs) as Hld.
    destruct (load_bytes_split _ _ _ _ i Hld) as [_ E]; [lia|].
    destruct (length x - i)%nat as [|k] eqn:Ek; [lia|]. simpl in E.
    rewrite (drop_S x b i Hi) in E.
    destruct (m' !! (buf L c + o + Z.of_nat i)) as [b'|]; [|done].
    destruct (load_bytes m' _ k); [|done]. by injection E as ->.
  - intros a Ha. apply (store_bytes_lookup_ne _ _ _ _ _ Hs).
    destruct (Z.lt_ge_cases a (buf L c + o)); [by left|].
    destruct (Z.lt_ge_cases a (buf L c + o + Z.of_nat (length x))); [|by right].
    exfalso. apply (Ha (Z.of_nat c * 1524 + (a - buf L c))); [lia|].
    rewrite flat_at by lia. lia.
  - intros a Ha. by apply (store_bytes_dom _ _ _ _ Hs).
Qed.

(** A payload is not touched by writes to the ring. *)
Lemma same_but_payload m m' L t n a k :
  0 ≤ t → t + n ≤ capacity L → 0 ≤ k →
  (∀ i, (i < length L)%nat → disjoint_range (buf L i) 1524 a k) →
  same_but m m' L t n → load_bytes m' a (Z.to_nat k) = load_bytes m a (Z.to_nat k).
Proof.
  intros Ht Hc Hk Hd [Hs _]. apply load_bytes_ext. intros i Hi. apply Hs.
  intros j Hj ->. unfold capacity in Hc.
  destruct (flat_split j) as (c & o & Ho & ->); [lia|]. rewrite flat_at in Hi by done.
  specialize (Hd c). unfold disjoint_range in Hd. lia.
Qed.

Lemma same_but_pbytes m m' L t n l :
  0 ≤ t → t + n ≤ capacity L → lens_ok l → bufs_clear L l →
  same_but m m' L t n → pbytes m' l = pbytes m l.
Proof.
  intros Ht Hc Hl Hd Hs. induction l as [|[a b] l IH]; [done|].
  destruct Hl as (H0 & _ & _ & Hl). simpl.
  rewrite (same_but_payload m m' L t n) by (try done; intros i Hi;
    apply Hd in Hi; by apply Forall_cons_1 in Hi as [? _]).
  rewrite IH; [done | done |]. intros i Hi. apply Hd in Hi. by apply Forall_cons_1 in Hi as [_ ?].
Qed.

Lemma same_but_bufs m m' L t n : same_but m m' L t n → bufs_ok m L → bufs_ok m' L.
Proof. intros [_ Hs] [Hm Hd]. split; [|done]. intros i Hi a Ha. apply Hs. by apply (Hm i). Qed.

Lemma ring_next D L i a d :
  ring_ok D L → L !! i = Some (a, d) → (S i < length L)%nat →
  ∃ a' d', L !! S i = Some (a', d') ∧ Buffer2NextDescAddr d = a' ∧ D !! a' = Some d'.
Proof.
  intros [_ Hr] Hi Hl. destruct (Hr _ _ _ Hi) as [_ Hn].
  destruct (lookup_lt_is_Some_2 L (S i) Hl) as [[a' d'] Hi'].
  exists a', d'. split; [done|]. destruct (Hr _ _ _ Hi') as [? _]. split; [|done].
  rewrite Hn. rewrite Nat.mod_small by lia. unfold daddr.
  replace (i + 1)%nat with (S i) by lia. by rewrite Hi'.
Qed.

(** Copying [n] bytes of a payload into buffer [c]. *)
Lemma copy_to_ring s L (c : nat) o src n x :
  bufs_ok (ps_bytes (es_p s)) L → (c < length L)%nat →
  0 ≤ o → 0 ≤ n → o + n ≤ 1524 →
  load_bytes (ps_bytes (es_p s)) src (Z.to_nat n) = Some x →
  disjoint_range (buf L c) 1524 src n →
  ∃ m', on_p (MEMCPY (buf L c + o) src n) s = Some (tt, put_bytes s m') ∧
    written m' L (Z.of_nat c * 1524 + o) x ∧
    same_but (ps_bytes (es_p s)) m' L (Z.of_nat c * 1524 + o) n.
Proof.
  intros [Hm Hd] Hc Ho Hn Hon Hld Hds.
  pose proof (load_bytes_length _ _ _ _ Hld) as Hx.
  destruct (MEMCPY_ok (es_p s) (buf L c + o) src n x) as (m' & Es & Ec); try done.
  { unfold disjoint_range in *. lia. }
  { apply (mapped_sub _ _ _ _ _ (Hm c Hc)); lia. }
  exists m'. destruct (store_written _ _ L c o x Es) as [H1 H2]; [lia | lia |].
  rewrite Hx, Z2Nat.id in H2 by lia. split; [|done].
  unfold on_p. by rewrite Ec.
Qed.

(** ** The copy loops *)

(** The variables of the driver after [c * 1524 + bo] bytes, in buffer [c]. *)
Definition at_pos (L : ring) (c : nat) (bo : Z) : txvars :=
  TxVars (buf L c) (daddr L c) (Z.of_nat c * 1524 + bo) bo.

Lemma desc_step s L (i : nat) :
  ring_ok (descs (es_eth s)) L → (i < length L)%nat →
  ∃ d, on_eth (desc (daddr L i)) s = Some (d, s) ∧ buf L i = Buffer1Addr d ∧
    busy L i = has (Status d) ETH_DMATXDESC_OWN ∧
    ((S i < length L)%nat → Buffer2NextDescAddr d = daddr L (S i)).
Proof.
  intros Hr Hl. destruct (lookup_lt_is_Some_2 L i Hl) as [[a d] Hi].
  exists d. unfold daddr, buf, busy, on_eth, desc. rewrite Hi. simpl.
  destruct (proj2 Hr _ _ _ Hi) as [-> _]. split; [by destruct s|].
  split; [done|]. split; [done|]. intros Hs.
  destruct (ring_next _ _ _ _ _ Hr Hi Hs) as (a' & d' & -> & ? & _). done.
Qed.

Lemma put_bytes_id s : put_bytes s (ps_bytes (es_p s)) = s.
Proof. by destruct s as [? []]. Qed.

Section loops.
Context (L : ring) (Hcap : capacity L < 4294967296).
#[local] Set Default Proof Using "All".

Lemma output_while_spec fuel s (c : nat) payload po bo x :
  let rest := Z.of_nat (length x) in
  let t := Z.of_nat c * 1524 + bo in
  ring_ok (descs (es_eth s)) L → bufs_ok (ps_bytes (es_p s)) L →
  (c < length L)%nat → 0 ≤ bo ≤ 1524 → t + rest ≤ capacity L →
  load_bytes (ps_bytes (es_p s)) (payload + po) (length x) = Some x →
  (∀ i, (i < length L)%nat → disjoint_range (buf L i) 1524 (payload + po) rest) →
  (0 < fuel)%nat → rest + (if bo =? 1524 then 1 else 0) ≤ Z.of_nat fuel →
  (∃ m' (j : nat), output_while fuel payload rest po (at_pos L c bo) s
        = Some (inl ERR_USE, put_bytes s m') ∧
      same_but (ps_bytes (es_p s)) m' L t rest ∧
      (c < j)%nat ∧ Z.of_nat j * 1524 < t + rest ∧ busy L j = true) ∨
  (∃ m' (c' : nat) bo' (k : nat), output_while fuel payload rest po (at_pos L c bo) s
        = Some (inr (rest - Z.of_nat k, po + Z.of_nat k, at_pos L c' bo'), put_bytes s m') ∧
      same_but (ps_bytes (es_p s)) m' L t (Z.of_nat k) ∧
      written m' L t (take k x) ∧ (k ≤ length x)%nat ∧
      (c ≤ c' < length L)%nat ∧ Z.of_nat c' * 1524 + bo' = t + Z.of_nat k ∧ 0 ≤ bo' ∧
      bo' + (rest - Z.of_nat k) ≤ 1524 ∧ (c' = c ∨ Z.of_nat c' * 1524 < t + rest) ∧
      (∀ j, (c < j ≤ c')%nat → busy L j = false)).
Proof.
  revert s c po bo x. induction fuel as [|fuel IH];
    intros s c po bo x rest t Hr Hb Hc Hbo Ht Hld Hdj Hf0 Hf; [lia|].
  assert (Hf2 : rest ≤ Z.of_nat (S fuel) ∧ (bo = 1524 → rest < Z.of_nat (S fuel)))
    by (destruct (Z.eqb_spec bo 1524); lia).
  cbn [output_while]. change (tx_offset (at_pos L c bo)) with bo. unfold ETH_TX_BUF_SIZE.
  destruct (Z.ltb_spec 1524 (rest + bo)) as [Hgt|Hle].
  2: { right. exists (ps_bytes (es_p s)), c, bo, O. rewrite put_bytes_id.
       rewrite Z.sub_0_r, !Z.add_0_r. split; [reflexivity|].
       split; [apply same_but_refl|]. split; [intros i b Hi; by rewrite take_0 in Hi|].
       repeat split; lia. }
  set (k := Z.to_nat (1524 - bo)). assert (Hk : Z.of_nat k = 1524 - bo) by lia.
  assert (HSc : (S c < length L)%nat) by (unfold capacity in Ht; lia).
  destruct (load_bytes_split _ _ _ _ k Hld) as [Hld1 Hld2]; [lia|].
  destruct (copy_to_ring s L c bo (payload + po) (1524 - bo) (take k x))
    as (m1 & Ecp & Hw1 & Hs1); [done | done | lia | lia | lia | exact Hld1 | |].
  { specialize (Hdj c Hc). unfold disjoint_range in *. lia. }
  cbn [at_pos tx_buffer tx_offset DmaTxDesc framelength].
  rewrite (prog_bind_step _ _ _ _ _ Ecp).
  set (s1 := put_bytes s m1).
  assert (Hr1 : ring_ok (descs (es_eth s1)) L) by done.
  destruct (desc_step s1 L c Hr1 Hc) as (d & Hd & _ & _ & Hn).
  rewrite (prog_bind_step _ _ _ _ _ Hd), Hn by done.
  destruct (desc_step s1 L (S c) Hr1 HSc) as (d' & Hd' & Hbf & Hby & _).
  rewrite (prog_bind_step _ _ _ _ _ Hd'), <- Hby, <- Hbf.
  destruct (busy L (S c)) eqn:Eb.
  { left. exists m1, (S c). split; [done|].
    split; [apply (same_but_weaken _ _ _ _ (1524 - bo)); [lia|done]|].
    repeat split; try lia. done. }
  set (y := drop k x). assert (Hy : length y = (length x - k)%nat) by apply length_drop.
  replace (rest - (1524 - bo)) with (Z.of_nat (length y)) by lia.
  replace (po + (1524 - bo)) with (po + Z.of_nat k) by lia.
  replace (TxVars (buf L (S c)) (daddr L (S c)) _ 0) with (at_pos L (S c) 0).
  2: { unfold at_pos. f_equal. rewrite u32_small; unfold capacity in *; lia. }
  assert (Et : Z.of_nat (S c) * 1524 + 0 = t + (1524 - bo)) by (unfold t; lia).
  destruct (IH s1 (S c) (po + Z.of_nat k) 0 y) as [H|H];
    try done; try lia; try (change (0 =? 1524) with false; cbv iota; lia).
  - eapply same_but_bufs; [exact Hs1|done].
  - rewrite Z.add_assoc. unfold s1. cbn [put_bytes es_p set_bytes ps_bytes].
    rewrite <- (Nat2Z.id (length y)).
    rewrite (same_but_payload (ps_bytes (es_p s)) m1 L t (1524 - bo)); try done; try lia.
    + rewrite Nat2Z.id, Hy. exact Hld2.
    + intros i Hi. specialize (Hdj i Hi). unfold disjoint_range in *. lia.
  - intros i Hi. specialize (Hdj i Hi). unfold disjoint_range in *. lia.
  - left. destruct H as (m' & j & Hrun & Hs & Hj1 & Hj2 & Hj3).
    exists m', j. split; [exact Hrun|]. rewrite Et in Hs.
    split; [|repeat split; [lia|lia|done]].
    replace rest with ((1524 - bo) + Z.of_nat (length y)) by lia.
    eapply same_but_trans; [lia | lia | exact Hs1 | exact Hs].
  - right. destruct H as (m' & c' & bo' & k' & Hrun & Hs & Hw & Hk' & Hcc & Hpos & Hb0 & Hb1 & Hc' & Hfree).
    exists m', c', bo', (k + k')%nat. rewrite Et in Hs, Hw.
    split.
    { replace (rest - Z.of_nat (k + k')) with (Z.of_nat (length y) - Z.of_nat k') by lia.
      replace (po + Z.of_nat (k + k')) with (po + Z.of_nat k + Z.of_nat k') by lia.
      exact Hrun. }
    split; [|split].
    + rewrite Nat2Z.inj_add, Hk. eapply same_but_trans; [lia | lia | exact Hs1 | exact Hs].
    + rewrite <- take_take_drop. apply written_app.
      * eapply (written_kept (ps_bytes (es_p s)) m1); [done | lia | | | exact Hw1 | exact Hs].
        -- rewrite length_take. lia.
        -- lia.
      * rewrite length_take, Nat.min_l by lia. rewrite Hk. exact Hw.
    + repeat split; try lia. intros j Hj. destruct (decide (j = S c)) as [->|]; [done|].
      apply Hfree. lia.
Qed.

Lemma output_for_spec l fuel s (c : nat) q bo x :
  let t := Z.of_nat c * 1524 + bo in
  let total := lens l in
  ring_ok (descs (es_eth s)) L → bufs_ok (ps_bytes (es_p s)) L → bufs_clear L l →
  pchain (ps_pbufs (es_p s)) q l → lens_ok l → pbytes (ps_bytes (es_p s)) l = Some x →
  (c < length L)%nat → 0 ≤ bo ≤ 1524 → t + total ≤ capacity L →
  (length l < fuel)%nat →
  (∃ m' (j : nat), output_for fuel q (at_pos L c bo) s = Some (inl ERR_USE, put_bytes s m') ∧
      same_but (ps_bytes (es_p s)) m' L t total ∧ busy L j = true ∧
      (j = c ∨ (c < j)%nat ∧ Z.of_nat j * 1524 < t + total)) ∨
  (∃ m' (c' : nat) bo', output_for fuel q (at_pos L c bo) s
        = Some (inr (at_pos L c' bo'), put_bytes s m') ∧
      same_but (ps_bytes (es_p s)) m' L t total ∧ written m' L t x ∧
      (c ≤ c' < length L)%nat ∧ Z.of_nat c' * 1524 + bo' = t + total ∧ 0 ≤ bo' ≤ 1524 ∧
      (c' = c ∨ Z.of_nat c' * 1524 < t + total) ∧
      (l ≠ [] → ∀ j, (c ≤ j ≤ c')%nat → busy L j = false)).
Proof.
  revert fuel s c q bo x. induction l as [|[a b] l IH];
    intros [|fuel] s c q bo x t total Hr Hb Hcl Hp Hl Hx Hc Hbo Ht Hf;
    [simpl in Hf; lia| |simpl in Hf; lia|]; cbn [output_for].
  { simpl in Hp, Hx. subst q. injection Hx as <-. right.
    exists (ps_bytes (es_p s)), c, bo. rewrite put_bytes_id. simpl in total.
    split; [done|]. split; [apply same_but_refl|]. split; [by intros i b|].
    unfold total. repeat split; try lia. done. }
  destruct Hp as (-> & Ha & Eb & Hp). destruct Hl as (Hb0 & Hbt & Hbm & Hl).
  pose proof (lens_nonneg _ Hl) as Hln. simpl in Hbt.
  assert (Htot : total = pb_len b + lens l) by done.
  rewrite (proj2 (Z.eqb_neq a 0)) by done.
  destruct (desc_step s L c Hr Hc) as (d & Hd & _ & Hby & _).
  change (DmaTxDesc (at_pos L c bo)) with (daddr L c).
  rewrite (prog_bind_step _ _ _ _ _ Hd), <- Hby.
  destruct (busy L c) eqn:Ebc.
  { left. exists (ps_bytes (es_p s)), c. rewrite put_bytes_id. split; [done|].
    split; [apply same_but_refl|]. split; [done|by left]. }
  assert (Hde : on_p (deref a) s = Some (b, s)).
  { unfold on_p, deref. rewrite Eb. by destruct s. }
  rewrite (prog_bind_step _ _ _ _ _ Hde).
  destruct (pbytes_cons _ _ _ _ _ Hx) as (x1 & x2 & -> & Ex1 & Ex2 & Hx1).
  assert (Hlx : Z.of_nat (length x1) = pb_len b) by lia.
  destruct (output_while_spec (S (Z.to_nat (pb_len b))) s c (pb_payload b) 0 bo x1)
    as [H|H]; try done; try lia.
  { rewrite Z.add_0_r, Hx1. exact Ex1. }
  { intros i Hi. rewrite Z.add_0_r, Hlx. apply Hcl in Hi. by apply Forall_cons_1 in Hi as [? _]. }
  { rewrite Hlx. destruct (bo =? 1524); lia. }
  { destruct H as (m1 & j & Hrun & Hs & Hj1 & Hj2 & Hj3). rewrite Hlx in *. left. exists m1, j.
    rewrite (prog_bind_step _ _ _ _ _ Hrun). split; [done|].
    split; [apply (same_but_weaken _ _ _ _ (pb_len b)); [lia|done]|].
    split; [done|]. right. split; [done|]. unfold t. lia. }
  destruct H as (m1 & c1 & bo1 & k & Hrun & Hs1 & Hw1 & Hk & Hc1 & Hpos & Hb1 & Hb1' & Hc1' & Hfree).
  rewrite Hlx in *. rewrite (prog_bind_step _ _ _ _ _ Hrun). clear Hrun.
  cbn [at_pos tx_buffer tx_offset DmaTxDesc framelength].
  set (s1 := put_bytes s m1). set (n := pb_len b - Z.of_nat k) in *.
  assert (Hclb : ∀ i, (i < length L)%nat → disjoint_range (buf L i) 1524 (pb_payload b) (pb_len b)).
  { intros i Hi. apply Hcl in Hi. by apply Forall_cons_1 in Hi as [? _]. }
  assert (Hcl' : bufs_clear L l).
  { intros i Hi. apply Hcl in Hi. by apply Forall_cons_1 in Hi as [_ ?]. }
  assert (Hbs1 : bufs_ok m1 L) by (eapply same_but_bufs; eauto).
  destruct (copy_to_ring s1 L c1 bo1 (pb_payload b + (0 + Z.of_nat k)) n (drop k x1))
    as (m2 & Ecp & Hw2 & Hs2); [done | lia | lia | lia | lia | | |].
  { unfold s1. cbn [put_bytes es_p set_bytes ps_bytes].
    rewrite (same_but_payload (ps_bytes (es_p s)) m1 L t (Z.of_nat k)); try done; try lia.
    - destruct (load_bytes_split _ _ _ _ k Ex1) as [_ E]; [lia|].
      rewrite Z.add_0_l. replace (Z.to_nat n) with (Z.to_nat (pb_len b) - k)%nat by lia. exact E.
    - intros i Hi. specialize (Hclb i Hi). unfold disjoint_range in *. lia. }
  { specialize (Hclb c1 ltac:(lia)). unfold disjoint_range in *. lia. }
  rewrite (prog_bind_step _ _ _ _ _ Ecp). rewrite Hpos in Hw2, Hs2.
  rewrite (u32_small (bo1 + n)), (u32_small (Z.of_nat c1 * 1524 + bo1 + n))
    by (unfold capacity in *; lia).
  replace (TxVars _ _ _ _) with (at_pos L c1 (bo1 + n)) by (unfold at_pos; f_equal; lia).
  assert (Hs12 : same_but (ps_bytes (es_p s)) m2 L t (pb_len b)).
  { replace (pb_len b) with (Z.of_nat k + n) by lia.
    eapply same_but_trans; [lia | lia | exact Hs1 | exact Hs2]. }
  assert (Hw12 : written m2 L t x1).
  { rewrite <- (take_drop k x1). apply written_app.
    - eapply (written_kept m1 m1); [done | lia | | | exact Hw1 | exact Hs2];
        rewrite ?length_take; lia.
    - rewrite length_take, Nat.min_l by lia. exact Hw2. }
  assert (Et : Z.of_nat c1 * 1524 + (bo1 + n) = t + pb_len b) by lia.
  destruct (IH fuel (put_bytes s1 m2) c1 (pb_next b) (bo1 + n) x2) as [H|H]; try done; try lia.
  { eapply same_but_bufs; [exact Hs2|done]. }
  { cbn [put_bytes es_p set_bytes ps_bytes]. rewrite <- Ex2.
    apply (same_but_pbytes _ _ L t (pb_len b)); try done; lia. }
  { simpl in Hf. lia. }
  - left. destruct H as (m' & j & Hrun & Hs & Hbj & Hj). rewrite Et in Hs, Hj.
    exists m', j. split; [exact Hrun|]. split.
    { rewrite Htot. eapply same_but_trans; [lia | lia | exact Hs12 | exact Hs]. }
    split; [done|]. destruct Hj as [->|[? ?]]; [|right; split; lia].
    destruct (decide (c1 = c)) as [->|]; [by left|].
    rewrite Hfree in Hbj by lia. done.
  - right. destruct H as (m' & c' & bo' & Hrun & Hs & Hw & Hc' & Hp' & Hb' & Hlt & Hfr).
    rewrite Et in Hs, Hw, Hp', Hlt. exists m', c', bo'. split; [exact Hrun|].
    split; [rewrite Htot; eapply same_but_trans; [lia | lia | exact Hs12 | exact Hs]|].
    split.
    { apply written_app; [|rewrite Hlx; exact Hw].
      apply (written_kept m1 m2 m' L t (t + pb_len b) (lens l)); [done | lia.. | done | done]. }
    repeat split; try lia. intros _ j Hj. destruct (decide (j = c)) as [->|]; [done|].
    destruct (decide (j ≤ c1)%nat); [apply Hfree; lia|].
    destruct l as [|e l]; [|apply Hfr; [done|lia]].
    simpl in Hlt. lia.
Qed.
End loops.
