(* ===== verification/EthTransmit.v ===== *)
(** * Handing a frame to the DMA engine

    What [HAL_ETH_TransmitFrame] does to the ring, the frame the DMA engine
    then reads ([dma_frame]), and the properties of [low_level_output]. *)

From stdpp Require Import base numbers list gmap option.
From S2P Require Import Prelude Mem Memp Pbuf PbufLemmas HalEth Ethernetif EthOutput.

(** ** Flags *)

Lemma has_lor s g f : has (Z.lor s g) f = has s f || has g f.
Proof.
  unfold has. rewrite Z.land_lor_distr_l.
  destruct (Z.eqb_spec (Z.lor (Z.land s f) (Z.land g f)) 0) as [E|E].
  - apply Z.lor_eq_0_iff in E as [-> ->]. done.
  - destruct (Z.eqb_spec (Z.land s f) 0) as [E1|]; [|done].
    destruct (Z.eqb_spec (Z.land g f) 0) as [E2|]; [|done].
    rewrite E1, E2 in E. done.
Qed.

Lemma has_clear s g f : has (Z.land s (Z.lnot g)) f = has s (Z.land (Z.lnot g) f).
Proof. unfold has. by rewrite Z.land_assoc. Qed.

(** ** One descriptor *)

Definition seg_status (i bufcount st : Z) : Z :=
  let st1 := Z.land st (Z.lnot (Z.lor ETH_DMATXDESC_FS ETH_DMATXDESC_LS)) in
  let st2 := if i =? 0 then Z.lor st1 ETH_DMATXDESC_FS else st1 in
  let st3 := if i =? bufcount - 1 then Z.lor st2 ETH_DMATXDESC_LS else st2 in
  Z.lor st3 ETH_DMATXDESC_OWN.

(** The bytes of segment [i] of a frame. *)
Definition seg_size (FrameLength bufcount i : Z) : Z :=
  if i =? bufcount - 1 then FrameLength - (bufcount - 1) * ETH_TX_BUF_SIZE
  else ETH_TX_BUF_SIZE.

(** A descriptor that was handed over as segment [i] of [bufcount]. *)
Definition handed (FrameLength bufcount i : Z) (d d' : ETH_DMADescTypeDef) : Prop :=
  has (Status d') ETH_DMATXDESC_OWN = true ∧
  has (Status d') ETH_DMATXDESC_FS = (i =? 0) ∧
  has (Status d') ETH_DMATXDESC_LS = (i =? bufcount - 1) ∧
  ControlBufferSize d' = Z.land (seg_size FrameLength bufcount i) ETH_DMATXDESC_TBS1 ∧
  Buffer1Addr d' = Buffer1Addr d ∧ Buffer2NextDescAddr d' = Buffer2NextDescAddr d.

Lemma seg_status_flags i n st :
  has (seg_status i n st) ETH_DMATXDESC_OWN = true ∧
  has (seg_status i n st) ETH_DMATXDESC_FS = (i =? 0) ∧
  has (seg_status i n st) ETH_DMATXDESC_LS = (i =? n - 1).
Proof.
  unfold seg_status.
  destruct (i =? 0), (i =? n - 1); rewrite !has_lor, !has_clear;
    unfold has, ETH_DMATXDESC_OWN, ETH_DMATXDESC_FS, ETH_DMATXDESC_LS;
    cbn -[Z.land]; rewrite ?Z.land_0_r; simpl; rewrite ?orb_true_r; done.
Qed.

Lemma desc_ok e a d : descs e !! a = Some d → desc a e = Some (d, e).
Proof. unfold desc. by intros ->. Qed.

Lemma upd_desc_ok e a d f :
  descs e !! a = Some d →
  upd_desc a f e = Some (tt, set_descs (<[a := f d]> (descs e)) e).
Proof. intros H. unfold upd_desc. by rewrite (prog_bind_step _ _ _ _ _ (desc_ok _ _ _ H)). Qed.

(** Evaluation of a sequence of updates of one descriptor. *)
Ltac desc_eval Hd :=
  unfold upd_desc, desc, mbind, prog_bind, gets, modify, mret, prog_ret;
  cbn [set_descs set_TxDesc descs TxDesc]; rewrite Hd;
  repeat (cbn [set_descs set_TxDesc descs TxDesc]; rewrite ?lookup_insert_eq, ?insert_insert_eq);
  reflexivity.

Lemma tx_segment_spec FL n i e d :
  descs e !! TxDesc e = Some d →
  ∃ d', tx_segment FL n i e =
    Some (tt, set_TxDesc (Buffer2NextDescAddr d) (set_descs (<[TxDesc e := d']> (descs e)) e)) ∧
    handed FL n i d d'.
Proof.
  intros Hd. unfold tx_segment.
  rewrite (prog_bind_step _ _ e (TxDesc e) e eq_refl).
  exists (Desc (seg_status i n (Status d))
               (Z.land (seg_size FL n i) ETH_DMATXDESC_TBS1)
               (Buffer1Addr d) (Buffer2NextDescAddr d)).
  split.
  - unfold seg_status, seg_size.
    destruct (i =? 0), (i =? n - 1); desc_eval Hd.
  - destruct (seg_status_flags i n (Status d)) as (H1 & H2 & H3).
    unfold handed. cbn [Status ControlBufferSize Buffer1Addr Buffer2NextDescAddr]. done.
Qed.

(** ** The ring after a transmission *)

(** Segments [i .. i+k) of the ring were handed over, the rest is as before. *)
Definition handed_range (FL n : Z) (L : ring) (i k : nat)
    (D D' : gmap Z ETH_DMADescTypeDef) : Prop :=
  (∀ j a d, L !! j = Some (a, d) → (i ≤ j < i + k)%nat →
     ∃ d', D' !! a = Some d' ∧ handed FL n (Z.of_nat j) d d') ∧
  (∀ a, (∀ j d, L !! j = Some (a, d) → ¬ (i ≤ j < i + k)%nat) → D' !! a = D !! a).

Lemma ring_addr_inj D L i j a d d' :
  ring_ok D L → L !! i = Some (a, d) → L !! j = Some (a, d') → i = j.
Proof.
  intros [Hnd _] Hi Hj. eapply NoDup_lookup; [exact Hnd| |]; rewrite list_lookup_fmap.
  - by rewrite Hi.
  - by rewrite Hj.
Qed.

Lemma tx_segments_spec FL n D L k : ∀ i e,
  ring_ok D L → (i + k ≤ length L)%nat → (0 < length L)%nat →
  TxDesc e = daddr L (i mod length L) →
  (∀ j a d, L !! j = Some (a, d) → (i ≤ j)%nat → descs e !! a = Some d) →
  ∃ D', tx_segments FL n (Z.of_nat i) k e =
      Some (tt, set_TxDesc (daddr L ((i + k) mod length L)) (set_descs D' e)) ∧
    handed_range FL n L i k (descs e) D'.
Proof.
  induction k as [|k IH]; intros i e Hr Hk HL Htx Hd; cbn [tx_segments].
  - exists (descs e). rewrite Nat.add_0_r, <- Htx. split; [by destruct e|].
    split; [intros; lia | done].
  - rewrite Nat.mod_small in Htx by lia.
    destruct (lookup_lt_is_Some_2 L i) as [[a d] Hi]; [lia|].
    assert (Ha : TxDesc e = a) by (rewrite Htx; unfold daddr; by rewrite Hi).
    destruct (tx_segment_spec FL n (Z.of_nat i) e d) as (d' & Hs & Hh).
    { rewrite Ha. by apply (Hd i). }
    rewrite (prog_bind_step _ _ _ _ _ Hs). rewrite Ha.
    set (e1 := set_TxDesc _ _).
    replace (Z.of_nat i + 1) with (Z.of_nat (S i)) by lia.
    destruct (IH (S i) e1) as (D' & Hs' & Hh1 & Hh2); [done | lia | done | | |].
    { unfold e1. cbn. destruct (proj2 Hr _ _ _ Hi) as [_ ->]. do 2 f_equal. lia. }
    { intros j a' d'' Hj Hij. unfold e1. cbn. rewrite lookup_insert_ne.
      - apply (Hd j); [done | lia].
      - intros ->. pose proof (ring_addr_inj _ _ _ _ _ _ _ Hr Hi Hj). lia. }
    exists D'. split.
    { rewrite Hs'. replace (i + S k)%nat with (S i + k)%nat by lia. reflexivity. }
    unfold e1 in Hh2. cbn in Hh2. split.
    + intros j a' d'' Hj Hij. destruct (decide (j = i)) as [->|].
      * rewrite Hi in Hj. injection Hj as <- <-. exists d'. split; [|done].
        rewrite Hh2, lookup_insert_eq; [done|].
        intros j' d''' Hj'. pose proof (ring_addr_inj _ _ _ _ _ _ _ Hr Hi Hj'). lia.
      * apply Hh1; [done | lia].
    + intros a' Ha'. rewrite Hh2.
      * rewrite lookup_insert_ne; [done|]. intros ->. apply (Ha' i d Hi). lia.
      * intros j d'' Hj Hij. apply (Ha' j d'' Hj). lia.
Qed.

Lemma tx_bufcount_bounds FL :
  0 < FL → 1 ≤ tx_bufcount FL ∧ (tx_bufcount FL - 1) * 1524 < FL ≤ tx_bufcount FL * 1524.
Proof.
  intros H. unfold tx_bufcount, ETH_TX_BUF_SIZE.
  destruct (Z.ltb_spec 1524 FL); [|lia].
  destruct (Z.eqb_spec (FL mod 1524) 0); Z.to_euclidean_division_equations; lia.
Qed.

(** The descriptor fields after a transmission; other fields of the handle. *)
Definition transmitted (FL : Z) (L : ring) (e e' : eth) : Prop :=
  let n := tx_bufcount FL in
  handed_range FL n L 0 (Z.to_nat n) (descs e) (descs e') ∧
  TxDesc e' = daddr L (Z.to_nat n mod length L) ∧
  Lock e' = false ∧ State e' = HAL_ETH_STATE_READY ∧
  RxDesc e' = RxDesc e ∧ RxFrameInfos e' = RxFrameInfos e.

Lemma tx_finish e :
  ∃ e', (sr ← gets DMASR;
    (if has sr ETH_DMASR_TBUS
     then modify (write_DMASR ETH_DMASR_TBUS);; modify write_DMATPDR
     else mret tt);;
    modify (set_State HAL_ETH_STATE_READY);; HAL_UNLOCK;; mret HAL_OK : prog eth _) e
    = Some (HAL_OK, e') ∧
    descs e' = descs e ∧ TxDesc e' = TxDesc e ∧ Lock e' = false ∧
    State e' = HAL_ETH_STATE_READY ∧ RxDesc e' = RxDesc e ∧ RxFrameInfos e' = RxFrameInfos e.
Proof.
  rewrite (prog_bind_step _ _ e (DMASR e) e eq_refl).
  destruct (has (DMASR e) ETH_DMASR_TBUS); eexists; (split; [reflexivity|done]).
Qed.

(** The one-buffer branch hands over a single segment. *)
Lemma tx_single FL e d :
  descs e !! TxDesc e = Some d → 0 < FL ≤ 1524 →
  ∃ d', tx_handover FL 1 e = Some (tt, set_TxDesc (Buffer2NextDescAddr d)
                  (set_descs (<[TxDesc e := d']> (descs e)) e)) ∧
     handed FL 1 0 d d'.
Proof.
  intros Hd HFL. unfold tx_handover. rewrite Z.eqb_refl.
  exists (Desc (Z.lor (Z.lor (Status d) (Z.lor ETH_DMATXDESC_FS ETH_DMATXDESC_LS)) ETH_DMATXDESC_OWN)
     (Z.land FL ETH_DMATXDESC_TBS1) (Buffer1Addr d) (Buffer2NextDescAddr d)).
  split; [desc_eval Hd|].
  unfold handed, seg_size. cbn [Status ControlBufferSize Buffer1Addr Buffer2NextDescAddr].
  rewrite !has_lor. change (0 =? 1 - 1) with true. cbv iota.
  rewrite Z.sub_diag, Z.mul_0_l, Z.sub_0_r.
  repeat split; by rewrite ?orb_true_r.
Qed.

Lemma tx_handover_spec FL L e :
  let n := tx_bufcount FL in
  ring_ok (descs e) L → (0 < length L)%nat → TxDesc e = daddr L 0 →
  0 < FL → FL ≤ capacity L →
  ∃ D', tx_handover FL n e =
      Some (tt, set_TxDesc (daddr L (Z.to_nat n mod length L)) (set_descs D' e)) ∧
    handed_range FL n L 0 (Z.to_nat n) (descs e) D'.
Proof.
  intros n Hr HL Htx HFL Hcap.
  pose proof (tx_bufcount_bounds FL HFL) as [Hn1 Hn2]. fold n in Hn1, Hn2.
  destruct (lookup_lt_is_Some_2 L 0 HL) as [[a d] H0].
  assert (Ha : TxDesc e = a) by (rewrite Htx; unfold daddr; by rewrite H0).
  destruct (proj2 Hr _ _ _ H0) as [Hd Hnx].
  destruct (Z.eq_dec n 1) as [En|En].
  - destruct (tx_single FL e d) as (d' & Hrun & Hh); [by rewrite Ha | lia |].
    exists (<[TxDesc e := d']> (descs e)). rewrite En. cbn [Z.to_nat Pos.to_nat].
    split; [rewrite Hrun, Hnx; done|].
    rewrite Ha. split.
    + intros j a' d'' Hj Hij. assert (j = 0%nat) as -> by lia.
      rewrite H0 in Hj. injection Hj as <- <-. exists d'. rewrite lookup_insert_eq. done.
    + intros a' Ha'. rewrite lookup_insert_ne; [done|]. intros ->. apply (Ha' _ _ H0). lia.
  - unfold tx_handover. rewrite (proj2 (Z.eqb_neq n 1) En).
    destruct (tx_segments_spec FL n (descs e) L (Z.to_nat n) 0 e) as (D' & Hrun & Hh);
      [done | | done | | | eauto].
    + unfold capacity in Hcap. lia.
    + by rewrite Nat.Div0.mod_0_l.
    + intros j a' d'' Hj _. by apply (proj2 Hr j).
Qed.

Lemma transmit_ok FL L e :
  ring_ok (descs e) L → (0 < length L)%nat → TxDesc e = daddr L 0 → Lock e = false →
  busy L 0 = false → 0 < FL → FL ≤ capacity L →
  ∃ e', HAL_ETH_TransmitFrame FL e = Some (HAL_OK, e') ∧ transmitted FL L e e'.
Proof.
  intros Hr HL Htx Hlk Hb HFL Hcap. unfold HAL_ETH_TransmitFrame, HAL_LOCK.
  rewrite (prog_bind_step _ _ e (Lock e) e eq_refl), Hlk.
  rewrite (prog_bind_step _ _ e tt (set_Lock true e) eq_refl).
  set (e1 := set_State HAL_ETH_STATE_BUSY (set_Lock true e)).
  rewrite (prog_bind_step _ _ _ tt e1 eq_refl).
  rewrite (proj2 (Z.eqb_neq FL 0)) by lia.
  rewrite (prog_bind_step _ _ e1 (TxDesc e1) e1 eq_refl).
  destruct (lookup_lt_is_Some_2 L 0 HL) as [[a d] H0].
  assert (Hd : descs e1 !! TxDesc e1 = Some d).
  { unfold e1. cbn. rewrite Htx. unfold daddr. rewrite H0. by apply (proj2 Hr 0%nat). }
  rewrite (prog_bind_step _ _ _ _ _ (desc_ok _ _ _ Hd)).
  unfold busy in Hb. rewrite H0 in Hb. cbn in Hb. rewrite Hb. cbv zeta.
  destruct (tx_handover_spec FL L e1) as (D' & Hrun & Hh); [done..|].
  rewrite (prog_bind_step _ _ _ _ _ Hrun).
  destruct (tx_finish (set_TxDesc (daddr L (Z.to_nat (tx_bufcount FL) mod length L))
    (set_descs D' e1))) as (e' & -> & Hd' & Htx' & ? & ? & ? & ?).
  exists e'. split; [done|]. unfold transmitted. cbn in *. by rewrite Hd', Htx'.
Qed.

(** ** What the DMA engine reads *)

(** The frame in the ring from the descriptor at [a] on: the engine follows
    the descriptors it owns, the first one with the FS bit and no other, up to
    the one with the LS bit, and reads the bytes they announce. *)
Fixpoint dma_frame (fuel : nat) (D : gmap Z ETH_DMADescTypeDef) (m : bmem)
    (a : Z) (first : bool) : option bytes :=
  match fuel with
  | O => None
  | S fuel' =>
      match D !! a with
      | None => None
      | Some d =>
          if has (Status d) ETH_DMATXDESC_OWN &&
             Bool.eqb (has (Status d) ETH_DMATXDESC_FS) first then
            match load_bytes m (Buffer1Addr d)
                    (Z.to_nat (Z.land (ControlBufferSize d) ETH_DMATXDESC_TBS1)) with
            | None => None
            | Some x =>
                if has (Status d) ETH_DMATXDESC_LS then Some x
                else match dma_frame fuel' D m (Buffer2NextDescAddr d) false with
                     | Some y => Some (x ++ y)
                     | None => None
                     end
            end
          else None
      end
  end.

Lemma load_bytes_of_lookup m a y :
  (∀ i b, y !! i = Some b → m !! (a + Z.of_nat i) = Some b) →
  load_bytes m a (length y) = Some y.
Proof.
  revert a. induction y as [|b y IH]; intros a H; simpl; [done|].
  pose proof (H O b eq_refl) as H0. rewrite Z.add_0_r in H0. rewrite H0.
  rewrite (IH (a + 1)); [done|]. intros i b' Hi.
  rewrite <- (H (S i) b' Hi). f_equal. lia.
Qed.

Lemma written_load m L x (c n : nat) :
  written m L 0 x → (n ≤ 1524)%nat → (c * 1524 + n ≤ length x)%nat →
  load_bytes m (buf L c) n = Some (take n (drop (c * 1524) x)).
Proof.
  intros Hw Hn Hl.
  assert (E : length (take n (drop (c * 1524) x)) = n).
  { rewrite length_take, length_drop. lia. }
  rewrite <- E at 1. apply load_bytes_of_lookup. intros i b Hi.
  pose proof (lookup_lt_Some _ _ _ Hi). rewrite lookup_take_lt in Hi by lia.
  rewrite lookup_drop in Hi. apply Hw in Hi. rewrite <- Hi. f_equal.
  replace (0 + Z.of_nat (c * 1524 + i)) with (Z.of_nat c * 1524 + Z.of_nat i) by lia.
  by rewrite flat_at by lia.
Qed.

Lemma tbs1_small z : 0 ≤ z ≤ 1524 → Z.land (Z.land z ETH_DMATXDESC_TBS1) ETH_DMATXDESC_TBS1 = z.
Proof.
  intros Hz. rewrite <- Z.land_assoc, Z.land_diag. unfold ETH_DMATXDESC_TBS1.
  change 8191 with (2 ^ 13 - 1). rewrite land_ones_mod by lia. apply Z.mod_small. lia.
Qed.

Lemma dma_frame_handed D0 L D m x k : ∀ i,
  let FL := Z.of_nat (length x) in
  let n := tx_bufcount FL in
  ring_ok D0 L → 0 < FL ≤ capacity L → written m L 0 x →
  (∀ j a d, L !! j = Some (a, d) → (j < Z.to_nat n)%nat →
     ∃ d', D !! a = Some d' ∧ handed FL n (Z.of_nat j) d d') →
  (i + k = Z.to_nat n)%nat → (0 < k)%nat →
  dma_frame k D m (daddr L i) (i =? 0)%nat = Some (drop (i * 1524) x).
Proof.
  induction k as [|k IH]; intros i FL n Hr HFL Hw Hh Hik Hk; [lia|].
  pose proof (tx_bufcount_bounds FL ltac:(lia)) as [Hn1 Hn2]. fold n in Hn1, Hn2.
  assert (HnL : (Z.to_nat n ≤ length L)%nat) by (unfold capacity in HFL; lia).
  destruct (lookup_lt_is_Some_2 L i) as [[a d] Hi]; [lia|].
  destruct (Hh i a d Hi) as (d' & Hd' & Ho & Hfs & Hls & Hct & Hb & Hnx); [lia|].
  cbn [dma_frame]. assert (Ea : daddr L i = a) by (unfold daddr; by rewrite Hi).
  assert (Eb : Buffer1Addr d' = buf L i) by (rewrite Hb; unfold buf; by rewrite Hi).
  rewrite Ea, Hd', Ho, Hfs, Hls, Hct, Eb.
  replace (Z.of_nat i =? 0) with (i =? 0)%nat by (destruct i; done).
  rewrite eqb_reflx. cbn [andb]. unfold seg_size, ETH_TX_BUF_SIZE.
  destruct (Z.eqb_spec (Z.of_nat i) (n - 1)) as [El|El].
  - rewrite tbs1_small by lia.
    rewrite (written_load m L x i) by (done || lia).
    rewrite take_ge; [done|]. rewrite length_drop. lia.
  - rewrite (tbs1_small 1524) by lia.
    rewrite (written_load m L x i) by (done || lia).
    rewrite Hnx. destruct (proj2 Hr _ _ _ Hi) as [_ ->].
    rewrite Nat.mod_small by lia.
    pose proof (IH (i + 1)%nat) as IH'. cbv zeta in IH'. fold FL n in IH'.
    replace (i + 1 =? 0)%nat with false in IH' by (destruct i; done).
    rewrite IH'; try done; try lia.
    change (Z.to_nat 1524) with 1524%nat.
    replace ((i + 1) * 1524)%nat with (1524 + i * 1524)%nat by lia.
    rewrite Nat.add_comm, <- drop_drop. f_equal. apply take_drop.
Qed.

(** ** low_level_output *)

(** The transmit side of the driver: the ring from [TxDesc] on, its buffers
    apart from each other and from the chain [l] at [p]. *)
Record tx_ready (s : estate) (L : ring) (p : Z) (l : chain) (x : bytes) : Prop := {
  tr_ring : ring_ok (descs (es_eth s)) L;
  tr_head : TxDesc (es_eth s) = daddr L 0;
  tr_bufs : bufs_ok (ps_bytes (es_p s)) L;
  tr_clear : bufs_clear L l;
  tr_chain : pchain (ps_pbufs (es_p s)) p l;
  tr_lens : lens_ok l;
  tr_bytes : pbytes (ps_bytes (es_p s)) l = Some x;
  tr_fits : 0 < Z.of_nat (length x) ≤ capacity L;
  tr_cap : capacity L < 4294967296
}.

(** The descriptors a frame of [n] bytes needs. *)
Definition needed (n : Z) (j : nat) : Prop := j = O ∨ Z.of_nat j * 1524 < n.

Lemma output_error_ok e s :
  ∃ s', output_error e s = Some (e, s') ∧ es_p s' = es_p s ∧
    descs (es_eth s') = descs (es_eth s) ∧ TxDesc (es_eth s') = TxDesc (es_eth s) ∧
    Lock (es_eth s') = Lock (es_eth s).
Proof.
  unfold output_error.
  rewrite (prog_bind_step _ _ s (DMASR (es_eth s)) s) by (by destruct s).
  destruct (has (DMASR (es_eth s)) ETH_DMASR_TUS).
  - eexists. split; [reflexivity|done].
  - exists s. done.
Qed.

Lemma on_eth_step {A} (m : prog eth A) s r e :
  m (es_eth s) = Some (r, e) → on_eth m s = Some (r, EState e (es_p s)).
Proof. intros H. unfold on_eth. by rewrite H. Qed.

(** Both outcomes of the copy loops, from the start of the function. *)
Lemma low_level_output_loop s L p l x :
  tx_ready s L p l x →
  ∃ d, on_eth (desc (TxDesc (es_eth s))) s = Some (d, s) ∧ (0 < length L)%nat ∧
  ((∃ m' j, output_for (chain_fuel (es_p s)) p (TxVars (Buffer1Addr d) (TxDesc (es_eth s)) 0 0) s
        = Some (inl ERR_USE, put_bytes s m') ∧
      same_but (ps_bytes (es_p s)) m' L 0 (Z.of_nat (length x)) ∧
      needed (Z.of_nat (length x)) j ∧ busy L j = true) ∨
   (∃ m' v, output_for (chain_fuel (es_p s)) p (TxVars (Buffer1Addr d) (TxDesc (es_eth s)) 0 0) s
        = Some (inr v, put_bytes s m') ∧ framelength v = Z.of_nat (length x) ∧
      same_but (ps_bytes (es_p s)) m' L 0 (Z.of_nat (length x)) ∧ written m' L 0 x ∧
      ∀ j, needed (Z.of_nat (length x)) j → busy L j = false)).
Proof.
  intros [Hr Hh Hb Hcl Hp Hl Hx Hf Hcap].
  assert (HL : (0 < length L)%nat) by (unfold capacity in Hf; lia).
  destruct (desc_step s L 0 Hr HL) as (d & Hd & Hbd & _). exists d. rewrite Hh.
  split; [done|]. split; [done|]. rewrite <- Hbd.
  change (TxVars (buf L 0) (daddr L 0) 0 0) with (at_pos L 0 0).
  pose proof (pbytes_length _ _ _ Hl Hx) as Hlen.
  pose proof (pchain_fuel _ _ _ Hp) as Hfu.
  destruct (output_for_spec L Hcap l (chain_fuel (es_p s)) s 0 p 0 x) as [H|H];
    try done; try lia.
  - left. destruct H as (m' & j & Hrun & Hs & Hbj & Hj). exists m', j.
    change (Z.of_nat 0 * 1524 + 0) with 0 in *. rewrite <- Hlen in Hs, Hj.
    split_and!; try done. unfold needed. lia.
  - right. destruct H as (m' & c' & bo' & Hrun & Hs & Hw & Hc & Hpos & Hbo & Hlt & Hfree).
    change (Z.of_nat 0 * 1524 + 0) with 0 in *. rewrite <- Hlen in Hs, Hpos, Hlt.
    exists m', (at_pos L c' bo'). split_and!; try done; try (cbn [at_pos framelength]; lia).
    intros j Hj. apply Hfree; [by intros -> ; simpl in Hlen; lia|].
    unfold needed in Hj. lia.
Qed.

(** C4: When the descriptors a frame needs are free and the HAL is not locked,
    [low_level_output] returns [ERR_OK], and the frame the DMA engine then
    finds in the ring, from the old [TxDesc] on, is exactly the contents of
    the pbuf chain, for every way the chain and the frame are cut into
    pbufs and buffers; [TxDesc] moves past the descriptors handed over, the
    descriptors behind them and the chain itself are unchanged. *)
Theorem low_level_output_sends s L p l x :
  tx_ready s L p l x → Lock (es_eth s) = false →
  (∀ j, needed (Z.of_nat (length x)) j → busy L j = false) →
  let n := Z.to_nat (tx_bufcount (Z.of_nat (length x))) in
  ∃ s', low_level_output p s = Some (ERR_OK, s') ∧
    dma_frame n (descs (es_eth s')) (ps_bytes (es_p s')) (TxDesc (es_eth s)) true = Some x ∧
    TxDesc (es_eth s') = daddr L (n mod length L) ∧
    (∀ i a d, L !! i = Some (a, d) → (n ≤ i)%nat → descs (es_eth s') !! a = Some d) ∧
    ps_pbufs (es_p s') = ps_pbufs (es_p s) ∧ pbytes (ps_bytes (es_p s')) l = Some x.
Proof.
  intros Hrdy Hlk Hfree n. destruct (low_level_output_loop s L p l x Hrdy) as (d & Hd & HL & [H|H]).
  { destruct H as (m' & j & _ & _ & Hj & Hbj). rewrite Hfree in Hbj by done. done. }
  destruct H as (m' & v & Hrun & Hfl & Hs & Hw & _).
  destruct Hrdy as [Hr Hh Hb Hcl Hp Hl Hx Hf Hcap].
  unfold low_level_output.
  rewrite (prog_bind_step _ _ s (TxDesc (es_eth s)) s) by (by destruct s).
  rewrite (prog_bind_step _ _ _ _ _ Hd).
  rewrite (prog_bind_step _ _ s (chain_fuel (es_p s)) s) by (by destruct s).
  rewrite (prog_bind_step _ _ _ _ _ Hrun), Hfl.
  destruct (transmit_ok (Z.of_nat (length x)) L (es_eth (put_bytes s m')))
    as (e' & Ht & Hhand & Htx & Hlk' & _); try done; try lia.
  { apply Hfree. by left. }
  rewrite (prog_bind_step _ _ _ _ _ (on_eth_step _ _ _ _ Ht)).
  destruct (output_error_ok ERR_OK (EState e' (es_p (put_bytes s m'))))
    as (s' & -> & Ep & Ed & Et & _).
  exists s'. split; [done|]. rewrite Ep, Ed, Et. cbn [es_eth es_p put_bytes set_bytes ps_bytes ps_pbufs].
  destruct Hhand as [Hh1 Hh2].
  pose proof (tx_bufcount_bounds (Z.of_nat (length x)) ltac:(lia)) as [Hn1 _].
  split; [|split; [exact Htx|split; [|split; [done|]]]].
  - rewrite Hh. pose proof (dma_frame_handed (descs (es_eth s)) L (descs e') m' x n 0) as Hdma.
    cbv zeta in Hdma. change (0 =? 0)%nat with true in Hdma. rewrite Hdma; [by rewrite drop_0 | done | done | done | | done | unfold n; lia].
    intros j a d' Hj Hjn. apply Hh1; [done | lia].
  - intros i a d' Hi Hni. rewrite Hh2; [by apply (proj2 Hr i)|].
    intros j d'' Hj. pose proof (ring_addr_inj _ _ _ _ _ _ _ Hr Hi Hj). unfold n in *. lia.
  - rewrite <- Hx. apply (same_but_pbytes _ _ L 0 (Z.of_nat (length x))); try done. lia.
Qed.

(** When a descriptor the frame needs still belongs to the DMA engine,
    [low_level_output] returns [ERR_USE], hands nothing over (no descriptor
    and no [TxDesc] changes) and leaves the chain intact, so the caller
    can send it again. *)
Theorem low_level_output_busy s L p l x j :
  tx_ready s L p l x → needed (Z.of_nat (length x)) j → busy L j = true →
  ∃ s', low_level_output p s = Some (ERR_USE, s') ∧
    descs (es_eth s') = descs (es_eth s) ∧ TxDesc (es_eth s') = TxDesc (es_eth s) ∧
    ps_pbufs (es_p s') = ps_pbufs (es_p s) ∧ pbytes (ps_bytes (es_p s')) l = Some x.
Proof.
  intros Hrdy Hj Hbj. destruct (low_level_output_loop s L p l x Hrdy) as (d & Hd & HL & [H|H]).
  2: { destruct H as (m' & v & _ & _ & _ & _ & Hfree). rewrite Hfree in Hbj by done. done. }
  destruct H as (m' & j' & Hrun & Hs & _).
  destruct Hrdy as [Hr Hh Hb Hcl Hp Hl Hx Hf Hcap].
  unfold low_level_output.
  rewrite (prog_bind_step _ _ s (TxDesc (es_eth s)) s) by (by destruct s).
  rewrite (prog_bind_step _ _ _ _ _ Hd).
  rewrite (prog_bind_step _ _ s (chain_fuel (es_p s)) s) by (by destruct s).
  rewrite (prog_bind_step _ _ _ _ _ Hrun).
  destruct (output_error_ok ERR_USE (put_bytes s m')) as (s' & -> & Ep & Ed & Et & _).
  exists s'. rewrite Ep, Ed, Et. split_and!; try done.
  rewrite <- Hx. apply (same_but_pbytes _ _ L 0 (Z.of_nat (length x))); try done. lia.
Qed.

(** When another task holds the HAL lock, [HAL_ETH_TransmitFrame] refuses
    the frame; [low_level_output] ignores this and still returns [ERR_OK]:
    the frame is lost without a trace. *)
Theorem low_level_output_locked s L p l x :
  tx_ready s L p l x → Lock (es_eth s) = true →
  (∀ j, needed (Z.of_nat (length x)) j → busy L j = false) →
  ∃ s', low_level_output p s = Some (ERR_OK, s') ∧
    descs (es_eth s') = descs (es_eth s) ∧ TxDesc (es_eth s') = TxDesc (es_eth s).
Proof.
  intros Hrdy Hlk Hfree. destruct (low_level_output_loop s L p l x Hrdy) as (d & Hd & HL & [H|H]).
  { destruct H as (m' & j & _ & _ & Hj & Hbj). rewrite Hfree in Hbj by done. done. }
  destruct H as (m' & v & Hrun & Hfl & _).
  unfold low_level_output.
  rewrite (prog_bind_step _ _ s (TxDesc (es_eth s)) s) by (by destruct s).
  rewrite (prog_bind_step _ _ _ _ _ Hd).
  rewrite (prog_bind_step _ _ s (chain_fuel (es_p s)) s) by (by destruct s).
  rewrite (prog_bind_step _ _ _ _ _ Hrun).
  assert (Ht : HAL_ETH_TransmitFrame (framelength v) (es_eth (put_bytes s m'))
    = Some (HAL_BUSY, es_eth s)).
  { unfold HAL_ETH_TransmitFrame, HAL_LOCK.
    rewrite (prog_bind_step _ _ (es_eth (put_bytes s m')) true (es_eth s)); [done|].
    unfold gets. by rewrite <- Hlk. }
  rewrite (prog_bind_step _ _ _ _ _ (on_eth_step _ _ _ _ Ht)).
  destruct (output_error_ok ERR_OK (EState (es_eth s) (es_p (put_bytes s m'))))
    as (s' & -> & _ & Ed & Et & _).
  exists s'. by rewrite Ed, Et.
Qed.

(** ** The rings after initialisation *)

Definition table (entry : nat → ETH_DMADescTypeDef) (tab : Z) (n : nat) : ring :=
  (λ i, (tab + SIZEOF_DESC * Z.of_nat i, entry i)) <$> seq 0 n.

Lemma table_lookup entry tab n i a d :
  table entry tab n !! i = Some (a, d) ↔
  (i < n)%nat ∧ a = tab + SIZEOF_DESC * Z.of_nat i ∧ d = entry i.
Proof.
  unfold table. rewrite list_lookup_fmap, fmap_Some. split.
  - intros (j & [-> Hj]%lookup_seq & [= -> ->]). done.
  - intros (Hi & -> & ->). exists i. split; [|done]. by apply lookup_seq.
Qed.

Lemma table_at entry tab n i :
  (i < n)%nat → table entry tab n !! i = Some (tab + SIZEOF_DESC * Z.of_nat i, entry i).
Proof. intros Hi. by apply table_lookup. Qed.

Lemma table_addr entry tab n i :
  (i < n)%nat → daddr (table entry tab n) i = tab + SIZEOF_DESC * Z.of_nat i.
Proof.
  intros Hi. unfold daddr. by rewrite table_at.
Qed.

(** A table whose entries are linked in order is a ring. *)
Lemma table_ring D entry tab n :
  (0 < n)%nat →
  (∀ i, (i < n)%nat → D !! (tab + SIZEOF_DESC * Z.of_nat i) = Some (entry i)) →
  (∀ i, (i < n)%nat → Buffer2NextDescAddr (entry i) =
     if (i <? n - 1)%nat then tab + SIZEOF_DESC * Z.of_nat (i + 1) else tab) →
  ring_ok D (table entry tab n).
Proof.
  intros Hn HD Hnx. split.
  - apply NoDup_alt. intros i j a Hi Hj. rewrite list_lookup_fmap in Hi, Hj.
    apply fmap_Some in Hi as ([a1 d1] & Hi & ->). apply fmap_Some in Hj as ([a2 d2] & Hj & E).
    simpl in E. subst a2. apply table_lookup in Hi as (_ & -> & _).
    apply table_lookup in Hj as (_ & E & _). unfold SIZEOF_DESC in E. lia.
  - intros i a d (Hi & -> & ->)%table_lookup. split; [auto|].
    assert (Hl : length (table entry tab n) = n).
    { unfold table. by rewrite length_fmap, length_seq. }
    rewrite Hl, Hnx by done. destruct (Nat.ltb_spec i (n - 1)).
    + rewrite Nat.mod_small by lia. by rewrite table_addr by lia.
    + replace (i + 1)%nat with n by lia. rewrite Nat.Div0.mod_same.
      rewrite table_addr by lia. unfold SIZEOF_DESC. lia.
Qed.

Lemma fill_descs_spec entry tab k : ∀ i e,
  (∀ e i j v, (j < i)%nat →
     entry (set_descs (<[tab + SIZEOF_DESC * Z.of_nat j := v]> (descs e)) e) i = entry e i) →
  ∃ D', fill_descs entry tab i k e = Some (tt, set_descs D' e) ∧
    (∀ j, (i ≤ j < i + k)%nat → D' !! (tab + SIZEOF_DESC * Z.of_nat j) = Some (entry e j)) ∧
    (∀ a, (∀ j, (i ≤ j < i + k)%nat → a ≠ tab + SIZEOF_DESC * Z.of_nat j) →
       D' !! a = descs e !! a).
Proof.
  induction k as [|k IH]; intros i e He; cbn [fill_descs].
  - exists (descs e). split; [by destruct e|]. split; [intros; lia | done].
  - set (e1 := set_descs (<[tab + SIZEOF_DESC * Z.of_nat i := entry e i]> (descs e)) e).
    erewrite (prog_bind_step (modify _)) by reflexivity. fold e1.
    destruct (IH (S i) e1 He) as (D' & -> & H1 & H2). exists D'. split; [done|].
    unfold SIZEOF_DESC in *. split.
    + intros j Hj. destruct (decide (j = i)) as [->|].
      * rewrite H2 by (intros j' Hj'; lia). unfold e1. cbn. by rewrite lookup_insert_eq.
      * rewrite H1 by lia. unfold e1. rewrite He by lia. done.
    + intros a Ha. rewrite H2 by (intros j Hj; apply Ha; lia).
      unfold e1. cbn. apply lookup_insert_ne. intros E. apply (Ha i); [lia|done].
Qed.

Lemma entry_frame_tx tab buf0 n e i j v :
  (j < i)%nat →
  tx_entry (set_descs (<[tab + SIZEOF_DESC * Z.of_nat j := v]> (descs e)) e) tab buf0 n i
  = tx_entry e tab buf0 n i.
Proof.
  intros Hj. unfold tx_entry. cbn [set_descs descs ChecksumMode].
  rewrite lookup_insert_ne by (unfold SIZEOF_DESC; lia). done.
Qed.

Lemma desc_lists_init e ttab tbuf rtab rbuf n :
  (0 < n)%nat → Lock e = false →
  (∃ e', HAL_ETH_DMATxDescListInit ttab tbuf n e = Some (HAL_OK, e') ∧
    let L := table (tx_entry e ttab tbuf n) ttab n in
    ring_ok (descs e') L ∧ length L = n ∧ TxDesc e' = daddr L 0 ∧ Lock e' = false ∧
    ∀ i, (i < n)%nat → buf L i = tbuf + Z.of_nat i * 1524 ∧ busy L i = false) ∧
  (∃ e', HAL_ETH_DMARxDescListInit rtab rbuf n e = Some (HAL_OK, e') ∧
    let L := table (rx_entry e rtab rbuf n) rtab n in
    ring_ok (descs e') L ∧ length L = n ∧ RxDesc e' = daddr L 0 ∧ Lock e' = false ∧
    ∀ i, (i < n)%nat → buf L i = rbuf + Z.of_nat i * 1524 ∧ busy L i = true).
Proof.
  intros Hn Hlk. split.
  - unfold HAL_ETH_DMATxDescListInit, HAL_LOCK.
    rewrite (prog_bind_step _ _ e (Lock e) e eq_refl), Hlk.
    set (e1 := set_TxDesc ttab (set_State HAL_ETH_STATE_BUSY (set_Lock true e))).
    destruct (fill_descs_spec (λ e, tx_entry e ttab tbuf n) ttab n 0 e1)
      as (D' & Hf & HD & _); [intros; by apply entry_frame_tx|].
    do 3 erewrite (prog_bind_step (modify _)) by reflexivity. fold e1.
    rewrite (prog_bind_step _ _ _ _ _ Hf). eexists. split; [reflexivity|].
    cbv zeta. cbn [descs set_Lock set_State set_DMATDLAR set_descs TxDesc Lock].
    split; [|split; [|split; [|split; [done|]]]].
    + apply table_ring; [done | intros i Hi; apply HD; lia | done].
    + unfold table. by rewrite length_fmap, length_seq.
    + rewrite table_addr by done. cbn. lia.
    + intros i Hi. unfold buf, busy.
      rewrite table_at by done.
      split; [done|]. unfold tx_entry. cbn. by destruct (_ =? _).
  - unfold HAL_ETH_DMARxDescListInit, HAL_LOCK.
    rewrite (prog_bind_step _ _ e (Lock e) e eq_refl), Hlk.
    set (e1 := set_RxDesc rtab (set_State HAL_ETH_STATE_BUSY (set_Lock true e))).
    destruct (fill_descs_spec (λ e, rx_entry e rtab rbuf n) rtab n 0 e1)
      as (D' & Hf & HD & _); [done|].
    do 3 erewrite (prog_bind_step (modify _)) by reflexivity. fold e1.
    rewrite (prog_bind_step _ _ _ _ _ Hf). eexists. split; [reflexivity|].
    cbv zeta. cbn [descs set_Lock set_State set_DMARDLAR set_descs RxDesc Lock].
    split; [|split; [|split; [|split; [done|]]]].
    + apply table_ring; [done | intros i Hi; apply HD; lia | done].
    + unfold table. by rewrite length_fmap, length_seq.
    + rewrite table_addr by done. cbn. lia.
    + intros i Hi. unfold buf, busy.
      by rewrite table_at by done.
Qed.

(** The descriptor lists the driver starts with are rings:
    [HAL_ETH_DMATxDescListInit] links the [n] descriptors of the table into a
    circle that starts at [TxDesc], each with its own buffer and all of
    them free for the CPU; [HAL_ETH_DMARxDescListInit] does the same for
    [RxDesc], with every descriptor owned by the DMA engine. *)
Theorem desc_lists_are_rings e ttab tbuf rtab rbuf n :
  (0 < n)%nat → Lock e = false →
  (∃ e', HAL_ETH_DMATxDescListInit ttab tbuf n e = Some (HAL_OK, e') ∧
    let L := table (tx_entry e ttab tbuf n) ttab n in
    ring_ok (descs e') L ∧ length L = n ∧ TxDesc e' = daddr L 0 ∧ Lock e' = false ∧
    ∀ i, (i < n)%nat → buf L i = tbuf + Z.of_nat i * 1524 ∧ busy L i = false) ∧
  (∃ e', HAL_ETH_DMARxDescListInit rtab rbuf n e = Some (HAL_OK, e') ∧
    let L := table (rx_entry e rtab rbuf n) rtab n in
    ring_ok (descs e') L ∧ length L = n ∧ RxDesc e' = daddr L 0 ∧ Lock e' = false ∧
    ∀ i, (i < n)%nat → buf L i = rbuf + Z.of_nat i * 1524 ∧ busy L i = true).
Proof. apply desc_lists_init. Qed.

(** ** A concrete frame: 1600 bytes in two pbufs, a ring of three buffers *)

Definition ex_eth0 : eth :=
  Eth ∅ 0 0 (FrameInfos 0 0 0 0 0) HAL_ETH_STATE_READY false ETH_CHECKSUM_BY_HARDWARE
    ETH_RXINTERRUPT_MODE 0 0 0 O O.
Definition ex_eth : eth :=
  default ex_eth0 (snd <$> HAL_ETH_DMATxDescListInit 50000 60000 3 ex_eth0).
Definition ex_ring : ring := table (tx_entry ex_eth0 50000 60000 3) 50000 3.
Definition area (a : Z) (n : nat) : list (Z * Z) :=
  (λ i, (a + Z.of_nat i, (Z.of_nat i * Z.of_nat i + 7) mod 256)) <$> seq 0 n.
Definition ex_txchain : chain :=
  [(1000, MkPbuf 1100 2000 1600 1000 PBUF_RAM 0 1);
   (1100, MkPbuf 0 4000 600 600 PBUF_RAM 0 1)].
Definition ex_tx (e : eth) : estate :=
  EState e (PState (list_to_map ex_txchain)
    (list_to_map (area 2000 1000 ++ area 4000 600 ++ area 60000 (3 * 1524)))
    (mem_init 0) (Pools [] [] ∅)).
Definition ex_frame : bytes := (area 2000 1000 ++ area 4000 600).*2.

Definition mapped_b (m : bmem) (a n : Z) : bool :=
  forallb (λ i, bool_decide (is_Some (m !! i))) (seqZ a n).

Lemma mapped_check (m : bmem) a n : mapped_b m a n = true → mapped m a n.
Proof.
  unfold mapped_b. intros H i Hi. rewrite forallb_forall in H.
  eapply bool_decide_eq_true_1, H, list_elem_of_In, elem_of_seqZ. lia.
Qed.

Lemma ex_ring_buf i : (i < 3)%nat → buf ex_ring i = 60000 + Z.of_nat i * 1524.
Proof. intros Hi. unfold buf, ex_ring. by rewrite table_at. Qed.

Lemma ex_ring_free i : busy ex_ring i = false.
Proof. by do 4 (destruct i as [|i]; [done|]). Qed.

Lemma ex_tx_ready l :
  tx_ready (ex_tx (set_Lock l ex_eth)) ex_ring 1000 ex_txchain ex_frame.
Proof.
  assert (Hlen : length ex_ring = 3%nat) by done.
  split.
  - destruct (desc_lists_init ex_eth0 50000 60000 0 0 3) as [(e' & E & Hr & _) _];
      [lia | done |].
    replace (descs (es_eth (ex_tx (set_Lock l ex_eth)))) with (descs e'); [exact Hr|].
    unfold ex_eth. rewrite E. done.
  - done.
  - split.
    + intros i Hi. rewrite ex_ring_buf by lia. apply mapped_check. rewrite Hlen in Hi.
      do 3 (destruct i as [|i]; [vm_compute; reflexivity|]). lia.
    + intros i j Hi Hj Hij. rewrite !ex_ring_buf by lia. unfold disjoint_range. lia.
  - intros i Hi. rewrite ex_ring_buf by lia.
    repeat constructor; unfold disjoint_range; simpl; lia.
  - repeat split; done.
  - repeat split; simpl; lia.
  - vm_compute. reflexivity.
  - vm_compute. split; [done|]. by intros ?.
  - done.
Qed.

Lemma low_level_output_sends_witness :
  ∃ s', low_level_output 1000 (ex_tx ex_eth) = Some (ERR_OK, s') ∧
    dma_frame 2 (descs (es_eth s')) (ps_bytes (es_p s')) 50000 true = Some ex_frame.
Proof.
  destruct (low_level_output_sends (ex_tx ex_eth) ex_ring 1000 ex_txchain ex_frame)
    as (s' & H1 & H2 & _).
  - exact (ex_tx_ready false).
  - reflexivity.
  - intros j _. apply ex_ring_free.
  - exists s'. split; [exact H1 | exact H2].
Defined.

(** The second buffer is still being sent. *)
Definition ex_busy_ring : ring :=
  <[1%nat := (50032, with_Status ETH_DMATXDESC_OWN (tx_entry ex_eth0 50000 60000 3 1))]> ex_ring.
Definition ex_busy_eth : eth := set_descs (list_to_map ex_busy_ring) ex_eth.

Lemma ex_busy_ring_ok : ring_ok (descs ex_busy_eth) ex_busy_ring.
Proof.
  split.
  - change (NoDup [50000; 50032; 50064]). repeat constructor; set_solver.
  - intros i a d Hi.
    do 3 (destruct i as [|i]; [injection Hi as <- <-; vm_compute; split; reflexivity|]). done.
Qed.

Lemma low_level_output_busy_witness :
  ∃ s', low_level_output 1000 (ex_tx ex_busy_eth) = Some (ERR_USE, s') ∧
    descs (es_eth s') = descs ex_busy_eth ∧ TxDesc (es_eth s') = TxDesc ex_busy_eth ∧
    pbytes (ps_bytes (es_p s')) ex_txchain = Some ex_frame.
Proof.
  destruct (low_level_output_busy (ex_tx ex_busy_eth) ex_busy_ring 1000 ex_txchain ex_frame 1)
    as (s' & H1 & H2 & H3 & _ & H4).
  - destruct (ex_tx_ready false) as [Hr Hh Hb Hcl Hp Hl Hx Hf Hcap].
    assert (Hbuf : ∀ i, buf ex_busy_ring i = buf ex_ring i)
      by (intros i; by do 3 (destruct i as [|i]; [done|])).
    split; [exact ex_busy_ring_ok | reflexivity | split | | exact Hp | exact Hl | exact Hx
           | exact Hf | exact Hcap].
    + intros i Hi. rewrite Hbuf. by apply (proj1 Hb i).
    + intros i j Hi Hj. rewrite !Hbuf. by apply (proj2 Hb i j).
    + intros i Hi. rewrite Hbuf. by apply Hcl.
  - right. vm_compute. done.
  - reflexivity.
  - exists s'. split; [exact H1|]. split; [exact H2|]. split; [exact H3 | exact H4].
Defined.

Lemma low_level_output_locked_witness :
  ∃ s', low_level_output 1000 (ex_tx (set_Lock true ex_eth)) = Some (ERR_OK, s') ∧
    descs (es_eth s') = descs ex_eth ∧ TxDesc (es_eth s') = TxDesc ex_eth.
Proof.
  destruct (low_level_output_locked (ex_tx (set_Lock true ex_eth)) ex_ring 1000 ex_txchain ex_frame)
    as (s' & H1 & H2 & H3).
  - exact (ex_tx_ready true).
  - reflexivity.
  - intros j _. apply ex_ring_free.
  - exists s'. split; [exact H1|]. split; [exact H2 | exact H3].
Defined.

Lemma desc_lists_are_rings_witness :
  ∃ e', HAL_ETH_DMATxDescListInit 50000 60000 3 ex_eth0 = Some (HAL_OK, e') ∧
    ring_ok (descs e') ex_ring.
Proof.
  destruct (desc_lists_are_rings ex_eth0 50000 60000 0 0 3) as [(e' & E & Hr & _) _];
    [lia | reflexivity |].
  exists e'. split; [exact E | exact Hr].
Defined.
