(* ===== verification/EthInput.v ===== *)
(** * Reception of a frame by the network interface driver

    The copy loops of [low_level_input] read the stream of the receive ring
    (the buffers from [FSRxDesc] on) into the payloads of a chain. *)

From stdpp Require Import base numbers list gmap option.
From S2P Require Import Prelude Mem Memp Pbuf PbufLemmas PbufAlloc HalEth Ethernetif EthOutput EthTransmit.

(** ** The copy loops *)

Definition rx_at (L : ring) (c : nat) (bo : Z) : rxvars :=
  RxVars (buf L c) (daddr L c) bo.

(** [y] can be read in one piece from buffer [c]. *)
Lemma written_piece m L (c : nat) o y :
  written m L (Z.of_nat c * 1524 + o) y → 0 ≤ o → o + Z.of_nat (length y) ≤ 1524 →
  load_bytes m (buf L c + o) (length y) = Some y.
Proof.
  intros Hw Ho Hl. apply load_bytes_of_lookup. intros i b Hi.
  pose proof (lookup_lt_Some _ _ _ Hi). specialize (Hw _ _ Hi).
  rewrite <- Z.add_assoc, flat_at in Hw by lia. rewrite <- Hw. f_equal. lia.
Qed.

Lemma written_take m L t k y : written m L t y → written m L t (take k y).
Proof.
  intros Hw i b Hi. apply Hw. apply lookup_take_Some in Hi as [? _]. done.
Qed.

Lemma written_drop m L t k y :
  (k ≤ length y)%nat → written m L t y → written m L (t + Z.of_nat k) (drop k y).
Proof.
  intros Hk Hw i b Hi. rewrite lookup_drop in Hi. apply Hw in Hi. rewrite <- Hi.
  f_equal. f_equal. lia.
Qed.

(** Writes outside of the ring keep the stream. *)
Lemma written_store m m' L t a z y :
  store_bytes m a z = Some m' → 0 ≤ t → t + Z.of_nat (length y) ≤ capacity L →
  (∀ i, (i < length L)%nat → disjoint_range (buf L i) 1524 a (Z.of_nat (length z))) →
  written m L t y → written m' L t y.
Proof.
  intros Hs Ht Hc Hd Hw i b Hi. pose proof (lookup_lt_Some _ _ _ Hi). unfold capacity in Hc.
  rewrite (store_bytes_lookup_ne _ _ _ _ _ Hs); [by apply Hw|].
  destruct (flat_split (t + Z.of_nat i)) as (c & o & Ho & E); [lia|]. rewrite E, flat_at by done.
  specialize (Hd c). unfold disjoint_range in Hd. lia.
Qed.

Section loops.
Context (L : ring).

Lemma input_while_spec fuel s (c : nat) payload po bo y :
  let rest := Z.of_nat (length y) in
  let t := Z.of_nat c * 1524 + bo in
  ring_ok (descs (es_eth s)) L → (c < length L)%nat → 0 ≤ bo ≤ 1524 →
  t + rest ≤ capacity L → written (ps_bytes (es_p s)) L t y →
  mapped (ps_bytes (es_p s)) (payload + po) rest →
  (∀ i, (i < length L)%nat → disjoint_range (buf L i) 1524 (payload + po) rest) →
  (0 < fuel)%nat → rest + (if bo =? 1524 then 1 else 0) ≤ Z.of_nat fuel →
  ∃ m' (c' : nat) bo' (k : nat),
    input_while fuel payload rest po (rx_at L c bo) s
      = Some ((rest - Z.of_nat k, po + Z.of_nat k, rx_at L c' bo'), put_bytes s m') ∧
    store_bytes (ps_bytes (es_p s)) (payload + po) (take k y) = Some m' ∧
    (k ≤ length y)%nat ∧ (c ≤ c' < length L)%nat ∧
    Z.of_nat c' * 1524 + bo' = t + Z.of_nat k ∧ 0 ≤ bo' ∧
    bo' + (rest - Z.of_nat k) ≤ 1524.
Proof.
  revert s c po bo y. induction fuel as [|fuel IH];
    intros s c po bo y rest t Hr Hc Hbo Ht Hw Hm Hdj Hf0 Hf; [lia|].
  assert (Hf2 : rest ≤ Z.of_nat (S fuel) ∧ (bo = 1524 → rest < Z.of_nat (S fuel)))
    by (destruct (Z.eqb_spec bo 1524); lia).
  cbn [input_while]. change (rx_offset (rx_at L c bo)) with bo. unfold ETH_RX_BUF_SIZE.
  destruct (Z.ltb_spec 1524 (rest + bo)) as [Hgt|Hle].
  2: { exists (ps_bytes (es_p s)), c, bo, O. rewrite put_bytes_id, take_0.
       rewrite Z.sub_0_r, !Z.add_0_r. split; [reflexivity|]. split; [reflexivity|].
       repeat split; lia. }
  set (k := Z.to_nat (1524 - bo)). assert (Hk : Z.of_nat k = 1524 - bo) by lia.
  assert (HSc : (S c < length L)%nat) by (unfold capacity in Ht; lia).
  assert (Hlk : length (take k y) = k) by (rewrite length_take; lia).
  destruct (MEMCPY_ok (es_p s) (payload + po) (buf L c + bo) (1524 - bo) (take k y))
    as (m1 & Es1 & Ecp); [lia | | | |].
  { specialize (Hdj c Hc). unfold disjoint_range in *. lia. }
  { pose proof (written_piece (ps_bytes (es_p s)) L c bo (take k y)) as Hwp.
    rewrite Hlk in Hwp. apply Hwp; [by apply written_take | lia | lia]. }
  { apply (mapped_sub _ _ _ _ _ Hm); lia. }
  cbn [rx_at rx_buffer rx_offset dmarxdesc].
  assert (Ecp' : on_p (MEMCPY (payload + po) (buf L c + bo) (1524 - bo)) s
                 = Some (tt, put_bytes s m1)) by (unfold on_p; by rewrite Ecp).
  rewrite (prog_bind_step _ _ _ _ _ Ecp').
  set (s1 := put_bytes s m1).
  assert (Hr1 : ring_ok (descs (es_eth s1)) L) by done.
  destruct (desc_step s1 L c Hr1 Hc) as (d & Hd & _ & _ & Hn).
  rewrite (prog_bind_step _ _ _ _ _ Hd), Hn by done.
  destruct (desc_step s1 L (S c) Hr1 HSc) as (d' & Hd' & Hbf & _ & _).
  rewrite (prog_bind_step _ _ _ _ _ Hd'), <- Hbf.
  set (z := drop k y). assert (Hz : length z = (length y - k)%nat) by apply length_drop.
  replace (rest - (1524 - bo)) with (Z.of_nat (length z)) by lia.
  replace (po + (1524 - bo)) with (po + Z.of_nat k) by lia.
  change (RxVars (buf L (S c)) (daddr L (S c)) 0) with (rx_at L (S c) 0).
  assert (Et : Z.of_nat (S c) * 1524 + 0 = t + Z.of_nat k) by (unfold t; lia).
  destruct (IH s1 (S c) (po + Z.of_nat k) 0 z)
    as (m' & c' & bo' & k' & Hrun & Hs & Hk' & Hcc & Hpos & Hb0 & Hb1);
    try done; try lia; try (change (0 =? 1524) with false; cbv iota; lia).
  - rewrite Et. apply written_drop; [lia|].
    apply (written_store _ _ L t _ _ y Es1); [lia | lia | | done].
    intros i Hi. specialize (Hdj i Hi). rewrite Hlk. unfold disjoint_range in *. lia.
  - unfold s1. cbn [put_bytes es_p set_bytes ps_bytes].
    eapply mapped_store; [exact Es1|]. apply (mapped_sub _ _ _ _ _ Hm); lia.
  - intros i Hi. specialize (Hdj i Hi). unfold disjoint_range in *. lia.
  - exists m', c', bo', (k + k')%nat. split.
    { replace (rest - Z.of_nat (k + k')) with (Z.of_nat (length z) - Z.of_nat k') by lia.
      replace (po + Z.of_nat (k + k')) with (po + Z.of_nat k + Z.of_nat k') by lia.
      exact Hrun. }
    split.
    { rewrite <- take_take_drop, store_bytes_app, Es1, Hlk, <- Z.add_assoc. exact Hs. }
    repeat split; lia.
Qed.

Lemma input_for_spec l : ∀ fuel s (c : nat) q bo x,
  let t := Z.of_nat c * 1524 + bo in
  ring_ok (descs (es_eth s)) L → bufs_clear L l →
  pchain (ps_pbufs (es_p s)) q l → lens_ok l → payloads_disjoint l →
  is_Some (pbytes (ps_bytes (es_p s)) l) → Z.of_nat (length x) = lens l →
  (c < length L)%nat → 0 ≤ bo ≤ 1524 → t + lens l ≤ capacity L →
  written (ps_bytes (es_p s)) L t x → (length l < fuel)%nat →
  ∃ m', input_for fuel q (rx_at L c bo) s = Some (tt, put_bytes s m') ∧
    pbytes m' l = Some x ∧ (∀ i, outside i l → m' !! i = ps_bytes (es_p s) !! i).
Proof.
  induction l as [|[a b] l IH];
    intros [|fuel] s c q bo x t Hr Hcl Hp Hl Hdj [d Hd] Hx Hc Hbo Ht Hw Hf;
    [simpl in Hf; lia| |simpl in Hf; lia|]; cbn [input_for].
  { simpl in Hp, Hx. subst q. destruct x; [|simpl in Hx; lia].
    exists (ps_bytes (es_p s)). rewrite put_bytes_id. done. }
  destruct Hp as (-> & Ha & Eb & Hp). destruct Hl as (Hb0 & Hbt & Hbm & Hl).
  destruct Hdj as [Hdb Hdj].
  pose proof (lens_nonneg _ Hl) as Hln. cbn [lens] in *.
  rewrite (proj2 (Z.eqb_neq a 0)) by done.
  assert (Hde : on_p (deref a) s = Some (b, s)).
  { unfold on_p, deref. rewrite Eb. by destruct s. }
  rewrite (prog_bind_step _ _ _ _ _ Hde).
  destruct (pbytes_cons _ _ _ _ _ Hd) as (d1 & d2 & -> & Ed1 & Ed2 & Hd1).
  set (n := Z.to_nat (pb_len b)). assert (Hn : Z.of_nat n = pb_len b) by lia.
  set (x1 := take n x). set (x2 := drop n x).
  assert (Hlx1 : length x1 = n) by (unfold x1; rewrite length_take; lia).
  assert (Hlx2 : Z.of_nat (length x2) = lens l) by (unfold x2; rewrite length_drop; lia).
  assert (Hmap : mapped (ps_bytes (es_p s)) (pb_payload b) (pb_len b)).
  { intros i Hi. apply (proj1 (load_bytes_is_Some (ps_bytes (es_p s)) (pb_payload b) n));
      [eauto | lia]. }
  assert (Hclb : ∀ i, (i < length L)%nat → disjoint_range (buf L i) 1524 (pb_payload b) (pb_len b)).
  { intros i Hi. apply Hcl in Hi. by apply Forall_cons_1 in Hi as [? _]. }
  assert (Hcl' : bufs_clear L l).
  { intros i Hi. apply Hcl in Hi. by apply Forall_cons_1 in Hi as [_ ?]. }
  destruct (input_while_spec (S n) s c (pb_payload b) 0 bo x1)
    as (m1 & c1 & bo1 & k & Hrun & Hs1 & Hk & Hc1 & Hpos & Hb1 & Hb1');
    try done; rewrite ?Hlx1, ?Z.add_0_r, ?Hn; try done; try lia.
  { by apply written_take. }
  { destruct (bo =? 1524); lia. }
  rewrite Hlx1, Hn in Hrun. fold n.
  rewrite (prog_bind_step _ _ _ _ _ Hrun). cbn [rx_at rx_buffer rx_offset dmarxdesc].
  rewrite Hlx1, ?Hn in Hb1', Hk. rewrite Z.add_0_r in Hs1. rewrite Z.add_0_l.
  set (s1 := put_bytes s m1). set (r := pb_len b - Z.of_nat k) in *.
  assert (Hlt : length (take k x1) = k) by (rewrite length_take; lia).
  assert (Hld : length (drop k x1) = Z.to_nat r) by (rewrite length_drop; lia).
  assert (Hw1 : written m1 L t x).
  { apply (written_store _ _ L t _ _ x Hs1); [lia | lia | | done].
    intros i Hi. specialize (Hclb i Hi). rewrite Hlt. unfold disjoint_range in *. lia. }
  destruct (MEMCPY_ok (es_p s1) (pb_payload b + Z.of_nat k) (buf L c1 + bo1) r (drop k x1))
    as (m2 & Es2 & Ecp); [lia | | | |].
  { specialize (Hclb c1 ltac:(lia)). unfold disjoint_range in *. lia. }
  { rewrite <- Hld. apply written_piece; [|lia|rewrite Hld; lia].
    rewrite Hpos. apply written_drop; [lia|]. by apply written_take. }
  { unfold s1. cbn [put_bytes es_p set_bytes ps_bytes].
    eapply mapped_store; [exact Hs1|]. apply (mapped_sub _ _ _ _ _ Hmap); lia. }
  assert (Ecp' : on_p (MEMCPY (pb_payload b + Z.of_nat k) (buf L c1 + bo1) r) s1
                 = Some (tt, put_bytes s m2)) by (unfold on_p; by rewrite Ecp).
  rewrite (prog_bind_step _ _ _ _ _ Ecp'). rewrite u32_small by lia.
  assert (Es12 : store_bytes (ps_bytes (es_p s)) (pb_payload b) x1 = Some m2).
  { rewrite <- (take_drop k x1), store_bytes_app, Hs1, Hlt. exact Es2. }
  assert (Et : Z.of_nat c1 * 1524 + (bo1 + r) = t + pb_len b) by lia.
  destruct (IH fuel (put_bytes s m2) c1 (pb_next b) (bo1 + r) x2) as (m' & Hrun' & Hpb & Hout);
    try done; try lia.
  { cbn [put_bytes es_p set_bytes ps_bytes].
    rewrite (pbytes_frame _ _ _ _ l Es12 Hl); [by exists d2|]. by rewrite Hlx1, Hn. }
  { rewrite Et, <- Hn. apply written_drop; [lia|].
    apply (written_store _ _ L t _ _ x Es12); [lia | lia | | done].
    intros i Hi. rewrite Hlx1, Hn. auto. }
  { simpl in Hf. lia. }
  cbn [put_bytes es_p set_bytes ps_bytes] in Hout.
  exists m'. split; [exact Hrun'|]. split.
  - cbn [pbytes]. fold n. rewrite Hpb.
    rewrite (load_bytes_ext m2 m' (pb_payload b) n).
    2: { intros i Hi. apply Hout. eapply clear_outside; [exact Hdb | done | lia]. }
    rewrite <- Hlx1 at 1. rewrite (load_store_same _ _ _ _ Es12). unfold x1, x2.
    by rewrite take_drop.
  - intros i Ho. apply Forall_cons_1 in Ho as [Hob Ho]. rewrite (Hout i Ho).
    apply (store_bytes_lookup_ne _ _ _ _ _ Es12). lia.
Qed.
End loops.

(** ** The scan for a frame *)

(** The first [k] descriptors of the ring hold a frame of [n] bytes (and
    its checksum), as the DMA engine leaves them. *)
Record rx_frame (L : ring) (k : nat) (n : Z) : Prop := {
  rf_count : (0 < k ≤ length L)%nat ∧ (k ≤ ETH_RXBUFNB)%nat;
  rf_own : ∀ i a d, L !! i = Some (a, d) → (i < k)%nat →
    has (Status d) ETH_DMARXDESC_OWN = false;
  rf_seg : ∀ i a d, L !! i = Some (a, d) → (i < k)%nat →
    Z.land (Status d) (Z.lor ETH_DMARXDESC_FS ETH_DMARXDESC_LS) =
    Z.lor (if (i =? 0)%nat then ETH_DMARXDESC_FS else 0)
          (if (i =? k - 1)%nat then ETH_DMARXDESC_LS else 0);
  rf_len : ∀ a d, L !! (k - 1)%nat = Some (a, d) →
    Z.shiftr (Z.land (Status d) ETH_DMARXDESC_FL) 16 = n + 4;
  rf_pos : 0 ≤ n < 65536
}.

(** The handle after a successful scan. *)
Definition scanned (L : ring) (k : nat) (n : Z) (e : eth) : eth :=
  set_Lock false (set_State HAL_ETH_STATE_READY
    (set_RxDesc (daddr L (k mod length L))
      (set_infos (FrameInfos (daddr L 0) (daddr L (k - 1)) (Z.of_nat k) n (buf L 0)) e))).

Lemma upd_infos_ok f e : upd_infos f e = Some (tt, set_infos (f (RxFrameInfos e)) e).
Proof. done. Qed.

(** The last segment. *)
Lemma rx_scan_last L k n fuel e fs ls len0 b0 :
  ring_ok (descs e) L → rx_frame L k n →
  RxDesc e = daddr L (k - 1) → (k ≠ 1%nat → fs = daddr L 0) →
  RxFrameInfos e = FrameInfos fs ls (Z.of_nat (k - 1)) len0 b0 →
  rx_scan (S fuel) e = Some (HAL_OK, scanned L k n e).
Proof.
  intros Hr [[[Hk HkL] Hk5] Hown Hseg Hlen Hn] Hrx Hfs Hi.
  destruct (lookup_lt_is_Some_2 L (k - 1)) as [[a d] Ha]; [lia|].
  destruct (lookup_lt_is_Some_2 L 0) as [[a0 d0] H0]; [lia|].
  destruct (proj2 Hr _ _ _ Ha) as [Hd Hnx]. destruct (proj2 Hr _ _ _ H0) as [Hd0 _].
  assert (Ea : daddr L (k - 1) = a) by (unfold daddr; by rewrite Ha).
  assert (Ea0 : daddr L 0 = a0) by (unfold daddr; by rewrite H0).
  assert (Eb0 : buf L 0 = Buffer1Addr d0) by (unfold buf; by rewrite H0).
  cbn [rx_scan]. rewrite (prog_bind_step _ _ e (RxDesc e) e eq_refl), Hrx, Ea.
  rewrite (prog_bind_step _ _ _ _ _ (desc_ok _ _ _ Hd)).
  rewrite (Hown _ _ _ Ha) by lia. rewrite (Hseg _ _ _ Ha), (Hlen _ _ Ha) by lia.
  rewrite Nat.eqb_refl.
  replace (Z.lor _ ETH_DMARXDESC_LS =? ETH_DMARXDESC_FS) with false
    by (by destruct (_ =? 0)%nat).
  replace (Z.lor _ ETH_DMARXDESC_LS =? 0) with false by (by destruct (_ =? 0)%nat).
  do 4 (erewrite (prog_bind_step (upd_infos _)) by apply upd_infos_ok).
  cbn [RxFrameInfos set_infos]. rewrite Hi. unfold with_LSRxDesc, with_SegCount, with_length.
  cbn [FSRxDesc LSRxDesc SegCount frame_length frame_buffer].
  replace (u32 (Z.of_nat (k - 1) + 1)) with (Z.of_nat k)
    by (rewrite u32_small; unfold ETH_RXBUFNB in *; lia).
  replace (u32 (n + 4 - 4)) with n by (rewrite u32_small; lia).
  assert (Efs : (if Z.of_nat k =? 1 then with_FSRxDesc a (FrameInfos fs a (Z.of_nat k) len0 b0)
           else FrameInfos fs a (Z.of_nat k) len0 b0) = FrameInfos a0 a (Z.of_nat k) len0 b0).
  { destruct (Z.eqb_spec (Z.of_nat k) 1) as [E|E].
    - assert (k = 1%nat) as -> by lia. unfold with_FSRxDesc. cbn. rewrite <- Ea, <- Ea0. done.
    - rewrite Hfs, Ea0 by lia. done. }
  rewrite Efs. cbn [FSRxDesc LSRxDesc SegCount frame_length frame_buffer].
  erewrite (prog_bind_step (gets RxFrameInfos)) by reflexivity.
  cbn [RxFrameInfos set_infos FSRxDesc].
  erewrite (prog_bind_step (desc a0)) by (apply desc_ok; exact Hd0).
  erewrite (prog_bind_step (upd_infos _)) by apply upd_infos_ok.
  cbn [RxFrameInfos set_infos]. unfold with_buffer.
  cbn [FSRxDesc LSRxDesc SegCount frame_length frame_buffer].
  unfold scanned. rewrite Ea, Ea0, Eb0, Hnx.
  replace (k - 1 + 1)%nat with k by lia. reflexivity.
Qed.

(** The segments after the first. *)
Lemma rx_scan_middle L k n : ∀ j i fuel e ls len0 b0,
  ring_ok (descs e) L → rx_frame L k n →
  (0 < i)%nat → (i + j = k - 1)%nat → (j < fuel)%nat →
  RxDesc e = daddr L i →
  RxFrameInfos e = FrameInfos (daddr L 0) ls (Z.of_nat i) len0 b0 →
  rx_scan fuel e = Some (HAL_OK, scanned L k n e).
Proof.
  induction j as [|j IH]; intros i [|fuel] e ls len0 b0 Hr Hf Hi Hij Hfu Hrx Hinf; try lia.
  - apply (rx_scan_last L k n fuel e (daddr L 0) ls len0 b0); try done.
    + by replace (k - 1)%nat with i by lia.
    + by replace (k - 1)%nat with i by lia.
  - pose proof Hf as [[[Hk HkL] Hk5] Hown Hseg _ _].
    destruct (lookup_lt_is_Some_2 L i) as [[a d] Ha]; [lia|].
    destruct (proj2 Hr _ _ _ Ha) as [Hd Hnx].
    assert (Ea : daddr L i = a) by (unfold daddr; by rewrite Ha).
    cbn [rx_scan]. rewrite (prog_bind_step _ _ e (RxDesc e) e eq_refl), Hrx, Ea.
    rewrite (prog_bind_step _ _ _ _ _ (desc_ok _ _ _ Hd)).
    rewrite (Hown _ _ _ Ha), (Hseg _ _ _ Ha) by lia.
    rewrite (proj2 (Nat.eqb_neq i 0)), (proj2 (Nat.eqb_neq i (k - 1))) by lia.
    change (Z.lor 0 0 =? ETH_DMARXDESC_FS) with false. change (Z.lor 0 0 =? 0) with true.
    cbv iota.
    erewrite (prog_bind_step (upd_infos _)) by apply upd_infos_ok.
    erewrite (prog_bind_step (modify _)) by reflexivity.
    rewrite Hinf. unfold with_SegCount. cbn [FSRxDesc LSRxDesc SegCount frame_length frame_buffer].
    rewrite Hnx, Nat.mod_small by lia.
    set (e1 := set_RxDesc _ _).
    rewrite (IH (i + 1)%nat fuel e1 ls len0 b0); try done; try lia.
    unfold e1. cbn. do 2 f_equal. rewrite u32_small; unfold ETH_RXBUFNB in *; lia.
Qed.

Lemma rx_scan_ok L k n e fs ls len0 b0 :
  ring_ok (descs e) L → rx_frame L k n → RxDesc e = daddr L 0 →
  RxFrameInfos e = FrameInfos fs ls 0 len0 b0 →
  rx_scan ETH_RXBUFNB e = Some (HAL_OK, scanned L k n e).
Proof.
  intros Hr Hf Hrx Hinf. pose proof Hf as [[[Hk HkL] Hk5] Hown Hseg _ _].
  unfold ETH_RXBUFNB in *. destruct (decide (k = 1%nat)) as [->|Hk1].
  - apply (rx_scan_last L 1 n 4 e fs ls len0 b0); done.
  - destruct (lookup_lt_is_Some_2 L 0) as [[a d] Ha]; [lia|].
    destruct (proj2 Hr _ _ _ Ha) as [Hd Hnx].
    assert (Ea : daddr L 0 = a) by (unfold daddr; by rewrite Ha).
    assert (∃ f, 5%nat = S f ∧ (k - 2 < f)%nat) as (f & -> & Hf4) by (exists 4%nat; lia).
    cbn [rx_scan].
    rewrite (prog_bind_step _ _ e (RxDesc e) e eq_refl), Hrx, Ea.
    rewrite (prog_bind_step _ _ _ _ _ (desc_ok _ _ _ Hd)).
    rewrite (Hown _ _ _ Ha), (Hseg _ _ _ Ha) by lia.
    rewrite Nat.eqb_refl, (proj2 (Nat.eqb_neq 0 (k - 1))) by lia.
    change (Z.lor ETH_DMARXDESC_FS 0 =? ETH_DMARXDESC_FS) with true. cbv iota.
    do 2 (erewrite (prog_bind_step (upd_infos _)) by apply upd_infos_ok).
    erewrite (prog_bind_step (modify _)) by reflexivity.
    cbn [RxFrameInfos set_infos]. rewrite Hinf. unfold with_SegCount, with_FSRxDesc.
    cbn [FSRxDesc LSRxDesc SegCount frame_length frame_buffer].
    rewrite Hnx, Nat.mod_small by lia.
    set (e1 := set_RxDesc _ _).
    rewrite (rx_scan_middle L k n (k - 2) 1 f e1 ls len0 b0); try done; try lia.
    unfold e1. cbn. by rewrite Ea.
Qed.

(** ** Giving the descriptors back *)

Definition given_back (d : ETH_DMADescTypeDef) : ETH_DMADescTypeDef :=
  with_Status (Z.lor (Status d) ETH_DMARXDESC_OWN) d.

(** Descriptors [i .. i+k) of the ring belong to the DMA engine again. *)
Definition released (L : ring) (i k : nat) (D D' : gmap Z ETH_DMADescTypeDef) : Prop :=
  (∀ j a d, L !! j = Some (a, d) → (i ≤ j < i + k)%nat → D' !! a = Some (given_back d)) ∧
  (∀ a, (∀ j d, L !! j = Some (a, d) → ¬ (i ≤ j < i + k)%nat) → D' !! a = D !! a).

Lemma release_descs_spec D L k : ∀ i e,
  ring_ok D L → (i + k ≤ length L)%nat →
  (∀ j a d, L !! j = Some (a, d) → (i ≤ j)%nat → descs e !! a = Some d) →
  ∃ D', release_descs k (daddr L (i mod length L)) e = Some (tt, set_descs D' e) ∧
    released L i k (descs e) D'.
Proof.
  induction k as [|k IH]; intros i e Hr Hk Hd; cbn [release_descs].
  - exists (descs e). split; [by destruct e|]. split; [intros; lia | done].
  - destruct (lookup_lt_is_Some_2 L i) as [[a d] Hi]; [lia|].
    rewrite Nat.mod_small by lia.
    assert (Ea : daddr L i = a) by (unfold daddr; by rewrite Hi). rewrite Ea.
    pose proof (Hd i a d Hi ltac:(lia)) as Hda.
    rewrite (prog_bind_step _ _ _ _ _ (upd_desc_ok _ _ _ _ Hda)).
    set (e1 := set_descs _ e).
    assert (Hd1 : descs e1 !! a = Some (given_back d)) by (unfold e1; cbn; apply lookup_insert_eq).
    rewrite (prog_bind_step _ _ _ _ _ (desc_ok _ _ _ Hd1)).
    destruct (proj2 Hr _ _ _ Hi) as [_ Hnx].
    change (Buffer2NextDescAddr (given_back d)) with (Buffer2NextDescAddr d). rewrite Hnx.
    replace (i + 1)%nat with (S i) by lia.
    destruct (IH (S i) e1) as (D' & -> & Hh1 & Hh2); [done | lia | |].
    { intros j a' d'' Hj Hij. unfold e1. cbn. rewrite lookup_insert_ne.
      - apply (Hd j); [done | lia].
      - intros ->. pose proof (ring_addr_inj _ _ _ _ _ _ _ Hr Hi Hj). lia. }
    exists D'. split; [done|]. unfold e1 in Hh2. cbn in Hh2. split.
    + intros j a' d'' Hj Hij. destruct (decide (j = i)) as [->|].
      * rewrite Hi in Hj. injection Hj as <- <-. rewrite Hh2, lookup_insert_eq; [done|].
        intros j' d''' Hj'. pose proof (ring_addr_inj _ _ _ _ _ _ _ Hr Hi Hj'). lia.
      * apply (Hh1 j); [done | lia].
    + intros a' Ha'. rewrite Hh2.
      * rewrite lookup_insert_ne; [done|]. intros ->. apply (Ha' i d Hi). lia.
      * intros j d'' Hj Hij. apply (Ha' j d'' Hj). lia.
Qed.

(** ** The pool descriptions are constant *)

Definition keeps {A} (m : prog pstate A) : Prop := ∀ s a s',
  m s = Some (a, s') → p_descs (ps_pools s') = p_descs (ps_pools s).

Lemma keeps_bind {A B} (m : prog pstate A) (f : A → prog pstate B) :
  keeps m → (∀ a, keeps (f a)) → keeps (m ≫= f).
Proof.
  intros Hm Hf s b s' H. apply prog_bind_Some in H as (a & s1 & H1 & H2).
  by rewrite (Hf a _ _ _ H2), (Hm _ _ _ H1).
Qed.

Lemma keeps_same {A} (m : prog pstate A) :
  (∀ s a s', m s = Some (a, s') → ps_pools s' = ps_pools s) → keeps m.
Proof. intros H s a s' E. by rewrite (H _ _ _ E). Qed.

Lemma keeps_ret {A} (a : A) : keeps (mret a).
Proof. apply keeps_same. by intros s b s' [= <- <-]. Qed.
Lemma keeps_stuck {A} : keeps (stuck : prog pstate A).
Proof. by intros s a s' H. Qed.
Lemma keeps_gets {A} (f : pstate → A) : keeps (gets f).
Proof. apply keeps_same. by intros s b s' [= <- <-]. Qed.
Lemma keeps_deref p : keeps (deref p).
Proof. apply keeps_same. unfold deref. intros s b s'. by destruct (_ !! _) as [?|]; intros [= <- <-]. Qed.
Lemma keeps_set_pbufs m : keeps (set_pbufs m).
Proof. apply keeps_same. by intros s b s' [= <- <-]. Qed.
Lemma keeps_upd_pbuf p f : keeps (upd_pbuf p f).
Proof.
  apply keeps_bind; [apply keeps_deref|]. intros b. apply keeps_bind; [apply keeps_gets|].
  intros m. apply keeps_set_pbufs.
Qed.
Lemma keeps_on_heap {A} (m : prog heap A) : keeps (on_heap m).
Proof.
  apply keeps_same. unfold on_heap. intros s a s'.
  by destruct (m (ps_heap s)) as [[? ?]|]; intros [= <- <-].
Qed.
Lemma keeps_on_pools {A} (m : prog pools A) :
  (∀ q a q', m q = Some (a, q') → p_descs q' = p_descs q) → keeps (on_pools m).
Proof.
  intros H s a s'. unfold on_pools. destruct (m (ps_pools s)) as [[? ?]|] eqn:E; intros [= <- <-].
  cbn. eauto.
Qed.

Lemma memp_malloc_descs i q a q' : memp_malloc i q = Some (a, q') → p_descs q' = p_descs q.
Proof.
  unfold memp_malloc, do_memp_malloc_pool, get_tab, get_memp_next, set_tab. prog_simpl.
  intros H. repeat (case_match; simplify_eq/=; try done).
Qed.
Lemma memp_free_descs i p q a q' : memp_free i p q = Some (a, q') → p_descs q' = p_descs q.
Proof.
  unfold memp_free, do_memp_free_pool, get_tab, set_memp_next, set_tab. prog_simpl.
  intros H. repeat (case_match; simplify_eq/=; try done).
Qed.

Create HintDb keeps.
#[local] Hint Resolve keeps_bind keeps_ret keeps_stuck keeps_gets keeps_deref keeps_set_pbufs
  keeps_upd_pbuf keeps_on_heap : keeps.

Lemma keeps_memp_malloc i : keeps (on_pools (memp_malloc i)).
Proof. apply keeps_on_pools. intros q a q'. apply memp_malloc_descs. Qed.
Lemma keeps_memp_free i p : keeps (on_pools (memp_free i p)).
Proof. apply keeps_on_pools. intros q a q'. apply memp_free_descs. Qed.
#[local] Hint Resolve keeps_memp_malloc keeps_memp_free : keeps.

Ltac keeps_tac :=
  repeat (first
    [ progress eauto with keeps
    | apply keeps_bind; [|intros ?]
    | match goal with |- keeps (match ?x with _ => _ end) => destruct x end ]).

Lemma keeps_pbuf_free p : keeps (pbuf_free p).
Proof.
  assert (H : ∀ fuel p c, keeps (pbuf_free_loop fuel p c)).
  { induction fuel as [|fuel IH]; intros q c; cbn [pbuf_free_loop]; [apply keeps_stuck|].
    unfold pbuf_dealloc, del_pbuf. keeps_tac. }
  unfold pbuf_free. keeps_tac.
Qed.

Lemma keeps_alloc_pool layer len : keeps (pbuf_alloc layer len PBUF_POOL).
Proof.
  assert (H : ∀ fuel p r rem, keeps (pbuf_alloc_tail fuel p r rem)).
  { induction fuel as [|fuel IH]; intros p r rem; cbn [pbuf_alloc_tail]; [apply keeps_stuck|].
    pose proof keeps_pbuf_free. unfold new_pbuf. cbv zeta. keeps_tac. }
  unfold pbuf_alloc, pbuf_alloc_pool, new_pbuf. cbv zeta. keeps_tac.
Qed.

(** ** low_level_input *)

(** The receive side: a frame with contents [x] in the first [k] buffers of the
    ring, the packet buffers owned, the pool's payload areas mapped and apart
    from the receive buffers. *)
Record rx_ready (s : estate) (L : ring) (k : nat) (x : bytes)
    (fl out : nat → list Z) (bs : list blk) : Prop := {
  rr_ring : ring_ok (descs (es_eth s)) L;
  rr_head : RxDesc (es_eth s) = daddr L 0;
  rr_lock : Lock (es_eth s) = false;
  rr_count : SegCount (RxFrameInfos (es_eth s)) = 0;
  rr_frame : rx_frame L k (Z.of_nat (length x));
  rr_bytes : written (ps_bytes (es_p s)) L 0 x;
  rr_len : 0 < Z.of_nat (length x) ≤ capacity L;
  rr_owned : owned (es_p s) fl out bs;
  rr_pool : ∀ d a, p_descs (ps_pools (es_p s)) !! MEMP_PBUF_POOL = Some d → a ∈ elems d →
    mapped (ps_bytes (es_p s)) (a + SIZEOF_STRUCT_PBUF) PBUF_POOL_BUFSIZE_ALIGNED ∧
    ∀ i, (i < length L)%nat →
      disjoint_range (buf L i) 1524 (a + SIZEOF_STRUCT_PBUF) PBUF_POOL_BUFSIZE_ALIGNED
}.

Lemma pool_chain_elems s fl out bs p l a b :
  owned s fl out bs → pchain (ps_pbufs s) p l → Forall pool_elem l → (a, b) ∈ l →
  ∃ d, p_descs (ps_pools s) !! MEMP_PBUF_POOL = Some d ∧ a ∈ elems d.
Proof.
  intros Ho Hp Hpe Hin. destruct (pchain_lookup _ _ _ _ _ Hp Hin) as [Eb _].
  rewrite list.Forall_forall in Hpe. destruct (Hpe _ Hin) as (Ht & _).
  assert (Ha : a ∈ out MEMP_PBUF_POOL) by (apply (ow_pool _ _ _ _ Ho); eauto).
  destruct (lookup_lt_is_Some_2 _ _ (ow_max _ _ _ _ Ho)) as [d Hd]. exists d. split; [done|].
  destruct (ow_pools _ _ _ _ Ho) as [_ Hinv].
  destruct (Hinv _ _ Hd) as (q & _ & _ & Hperm). rewrite <- Hperm.
  apply elem_of_app. by right.
Qed.

(** The payloads of a new pool chain are mapped and apart from the buffers. *)
Lemma pool_chain_room s fl out bs p l (L : ring) m :
  owned s fl out bs → pchain (ps_pbufs s) p l → Forall pool_elem l → lens_ok l →
  (∀ d a, p_descs (ps_pools s) !! MEMP_PBUF_POOL = Some d → a ∈ elems d →
    mapped m (a + SIZEOF_STRUCT_PBUF) PBUF_POOL_BUFSIZE_ALIGNED ∧
    ∀ i, (i < length L)%nat →
      disjoint_range (buf L i) 1524 (a + SIZEOF_STRUCT_PBUF) PBUF_POOL_BUFSIZE_ALIGNED) →
  bufs_clear L l ∧ is_Some (pbytes m l).
Proof.
  intros Ho Hp Hpe Hl Hroom.
  assert (Hel : ∀ a b, (a, b) ∈ l → mapped m (pb_payload b) (pb_len b) ∧
    ∀ i, (i < length L)%nat → disjoint_range (buf L i) 1524 (pb_payload b) (pb_len b)).
  { intros a b Hin. destruct (pool_chain_elems _ _ _ _ _ _ _ _ Ho Hp Hpe Hin) as (d & Hd & Ha).
    rewrite list.Forall_forall in Hpe. destruct (Hpe _ Hin) as (_ & _ & H1 & _ & H2). cbn in H1, H2.
    destruct (Hroom _ _ Hd Ha) as [Hm Hdj]. split.
    - apply (mapped_sub _ _ _ _ _ Hm); lia.
    - intros i Hi. specialize (Hdj i Hi). unfold disjoint_range in *. lia. }
  clear Hp Ho Hroom Hpe. induction l as [|[a b] l IH].
  { split; [intros i Hi; constructor | by exists []]. }
  destruct Hl as (H0 & _ & _ & Hl).
  destruct (Hel a b) as [Hm Hdj]; [by left|].
  destruct IH as [IH1 [y Hy]]; [done | intros a' b' Hin; apply (Hel a'); by right |].
  split.
  - intros i Hi. constructor; [by apply Hdj | by apply IH1].
  - destruct (proj2 (load_bytes_is_Some m (pb_payload b) (Z.to_nat (pb_len b)))) as [z Hz].
    { intros i Hi. apply Hm. lia. }
    exists (z ++ y). simpl. by rewrite Hz, Hy.
Qed.

(** The end of the function: the descriptors go back to the DMA engine. *)
Lemma input_finish D L k p s :
  ring_ok D L → descs (es_eth s) = D → (0 < k ≤ length L)%nat →
  ∃ s', (on_eth (release_descs k (daddr L 0));;
      on_eth (upd_infos (with_SegCount 0));;
      sr ← on_eth (gets DMASR);
      (if has sr ETH_DMASR_RBUS
       then on_eth (modify (write_DMASR ETH_DMASR_RBUS));; on_eth (modify write_DMARPDR)
       else mret tt);;
      mret p : prog estate Z) s = Some (p, s') ∧
    es_p s' = es_p s ∧ released L 0 k D (descs (es_eth s')) ∧
    RxDesc (es_eth s') = RxDesc (es_eth s) ∧ SegCount (RxFrameInfos (es_eth s')) = 0 ∧
    Lock (es_eth s') = Lock (es_eth s).
Proof.
  intros Hr HD Hk. destruct (release_descs_spec D L k 0 (es_eth s)) as (D' & Hrel & Hre);
    [done | lia | |].
  { intros j a d Hj _. rewrite HD. by apply (proj2 Hr j). }
  rewrite Nat.Div0.mod_0_l in Hrel. rewrite HD in Hre.
  rewrite (prog_bind_step _ _ _ _ _ (on_eth_step _ _ _ _ Hrel)).
  erewrite (prog_bind_step (on_eth (upd_infos _))) by (apply on_eth_step, upd_infos_ok).
  erewrite (prog_bind_step (on_eth (gets DMASR))) by (apply on_eth_step; reflexivity).
  destruct (has _ ETH_DMASR_RBUS); eexists; (split; [reflexivity|]); by cbn.
Qed.

(** C5: When the DMA engine has left a frame in the receive ring,
    [low_level_input] returns a chain whose contents are exactly the bytes of
    the frame (without the checksum), for every way the frame is cut into
    buffers and pbufs, if the pool has room for it, and [NULL] with all pbufs
    back in the pool otherwise; in both cases every descriptor of the frame, and
    no other, is given back to the DMA engine, [RxDesc] stands behind the
    frame and the handle is ready for the next one. *)
Theorem low_level_input_receives s L k x fl out bs :
  rx_ready s L k x fl out bs →
  let room := pool_room (Z.of_nat (length (fl MEMP_PBUF_POOL))) 0 in
  ∃ p s' fl' out' bs', low_level_input s = Some (p, s') ∧
    owned (es_p s') fl' out' bs' ∧
    released L 0 k (descs (es_eth s)) (descs (es_eth s')) ∧
    RxDesc (es_eth s') = daddr L (k mod length L) ∧
    SegCount (RxFrameInfos (es_eth s')) = 0 ∧ Lock (es_eth s') = false ∧
    if (0 <? Z.of_nat (length (fl MEMP_PBUF_POOL))) && (Z.of_nat (length x) <=? room) then
      p ≠ 0 ∧ ∃ l, pchain (ps_pbufs (es_p s')) p l ∧ lens_ok l ∧
        pbytes (ps_bytes (es_p s')) l = Some x
    else p = 0 ∧ ps_pbufs (es_p s') = ps_pbufs (es_p s).
Proof.
  intros [Hr Hhd Hlk Hsc Hfr Hw Hlen Ho Hpool] room.
  pose proof Hfr as [[[Hk HkL] _] _ _ _ Hn].
  destruct (RxFrameInfos (es_eth s)) as [fs ls sc len0 b0] eqn:Ei. cbn in Hsc. subst sc.
  set (e1 := set_State HAL_ETH_STATE_BUSY (set_Lock true (es_eth s))).
  assert (Hget : HAL_ETH_GetReceivedFrame_IT (es_eth s)
    = Some (HAL_OK, scanned L k (Z.of_nat (length x)) e1)).
  { unfold HAL_ETH_GetReceivedFrame_IT, HAL_LOCK.
    rewrite (prog_bind_step _ _ (es_eth s) (Lock (es_eth s)) (es_eth s) eq_refl), Hlk.
    do 2 erewrite (prog_bind_step (modify _)) by reflexivity. fold e1.
    by apply (rx_scan_ok L k _ e1 fs ls len0 b0). }
  unfold low_level_input. rewrite (prog_bind_step _ _ _ _ _ (on_eth_step _ _ _ _ Hget)).
  set (e2 := scanned L k (Z.of_nat (length x)) e1). set (s2 := EState e2 (es_p s)).
  rewrite (prog_bind_step (on_eth (gets RxFrameInfos)) _ s2
    (FrameInfos (daddr L 0) (daddr L (k - 1)) (Z.of_nat k) (Z.of_nat (length x)) (buf L 0)) s2)
    by reflexivity.
  cbn [frame_length frame_buffer FSRxDesc SegCount].
  rewrite (u16_small (Z.of_nat (length x))), (proj2 (Z.ltb_lt 0 (Z.of_nat (length x)))) by lia.
  destruct (pbuf_alloc_pool_spec (es_p s) fl out bs PBUF_RAW (Z.of_nat (length x)) Ho)
    as (p & s3 & fl' & out' & bs' & Ea & Ho' & Eby & Hcase); [lia|].
  pose proof (keeps_alloc_pool _ _ _ _ _ Ea) as Hpd.
  assert (Hal : on_p (pbuf_alloc PBUF_RAW (Z.of_nat (length x)) PBUF_POOL) s2
    = Some (p, EState e2 s3)) by (unfold on_p; cbn [s2 es_p]; by rewrite Ea).
  rewrite (prog_bind_step _ _ _ _ _ Hal). cbn [layer_offset] in Hcase.
  rewrite Nat2Z.id. fold room in Hcase.
  destruct (_ && _) eqn:Eroom.
  - destruct Hcase as (Hp0 & l & Hp & Hpe & Hl & Hll & Hdj & _).
    rewrite (proj2 (Z.eqb_neq p 0) Hp0).
    destruct (pool_chain_room s3 fl' out' bs' p l L (ps_bytes (es_p s)))
      as [Hcl Hby]; try done; [by rewrite Hpd|].
    destruct (input_for_spec L l (chain_fuel s3) (EState e2 s3) 0 p 0 x)
      as (m' & Hrun & Hpb & _); cbn [es_eth es_p]; rewrite ?Eby; try done; try lia.
    { pose proof (pchain_fuel _ _ _ Hp). lia. }
    rewrite (prog_bind_step _ _ (EState e2 s3) tt (put_bytes (EState e2 s3) m')).
    2: { erewrite (prog_bind_step (on_p (gets chain_fuel))) by reflexivity. exact Hrun. }
    destruct (input_finish (descs (es_eth s)) L k p (put_bytes (EState e2 s3) m'))
      as (s' & -> & Ep & Hrel & Hrx & Hsg & Hlo); [done | done | lia |].
    exists p, s', fl', out', bs'. rewrite Ep. split; [done|].
    split; [by destruct Ho'; split|]. split; [done|]. split; [by rewrite Hrx|].
    split; [done|]. split; [by rewrite Hlo|]. split; [done|]. by exists l.
  - destruct Hcase as [-> Hpb]. rewrite Z.eqb_refl.
    rewrite (prog_bind_step _ _ (EState e2 s3) tt (EState e2 s3) eq_refl).
    destruct (input_finish (descs (es_eth s)) L k 0 (EState e2 s3))
      as (s' & -> & Ep & Hrel & Hrx & Hsg & Hlo); [done | done | lia |].
    exists 0, s', fl', out', bs'. rewrite Ep. by rewrite Hrx, Hlo.
Qed.
