(* ===== verification/EthTask.v ===== *)
(** * The input task, the receive interrupt, and a received frame

    How the semaphore couples the interrupt to the task of ethernetif.c, and
    concrete instances of the reception theorem. *)

From stdpp Require Import base numbers list gmap option.
From S2P Require Import Prelude Kernel CmsisOs Mem Memp Pbuf PbufLemmas PbufAlloc PbufProps HalEth Ethernetif EthOutput EthTransmit EthInput.

(** ** The task *)

#[local] Set Default Proof Using "All".

Lemma on_k_step {K A} (m : prog K A) (st : ifstate K) r k :
  m (if_k st) = Some (r, k) → on_k m st = Some (r, IfState (if_es st) k (s_xSemaphore st)).
Proof. intros E. unfold on_k. by rewrite E. Qed.

Section task.
Context {K : Type} `{KernelLaws K} (netif_input : Z → prog (ifstate K) Z).

(** One pass of the task that finds a token. *)
Lemma input_pass fuel st c mx w :
  sem_of (if_k st) (s_xSemaphore st) = Some (Sem c mx w) → 0 < c ≤ 2147483648 →
  ∃ k', sem_of k' (s_xSemaphore st) = Some (Sem (c - 1) mx w) ∧
    ethernetif_input_pass netif_input fuel st =
    (if c =? 1 then input_frames netif_input fuel else mret tt)
      (IfState (if_es st) k' (s_xSemaphore st)).
Proof.
  intros Hs Hc.
  destruct (osSemaphoreWait_available (if_k st) (s_xSemaphore st) TIME_WAITING_FOR_INPUT _ Hs Hc)
    as (k' & Hop & Hst & _). cbn in Hop, Hst.
  exists k'. split; [exact Hst|]. unfold ethernetif_input_pass.
  rewrite (prog_bind_step _ _ st (s_xSemaphore st) st eq_refl).
  rewrite (prog_bind_step _ _ _ _ _ (on_k_step _ _ _ _ Hop)). unfold osOK.
  destruct (Z.eqb_spec (c - 1) 0), (Z.eqb_spec c 1); try lia; done.
Qed.

(** [n] passes of the endless loop. *)
Fixpoint passes (fuel n : nat) : prog (ifstate K) unit :=
  match n with
  | O => mret tt
  | S n' => ethernetif_input_pass netif_input fuel;; passes fuel n'
  end.

Lemma passes_drain fuel n : ∀ st mx w,
  sem_of (if_k st) (s_xSemaphore st) = Some (Sem (Z.of_nat n + 1) mx w) →
  Z.of_nat n + 1 ≤ 2147483648 →
  ∃ k', passes fuel n st = Some (tt, IfState (if_es st) k' (s_xSemaphore st)) ∧
    sem_of k' (s_xSemaphore st) = Some (Sem 1 mx w).
Proof.
  induction n as [|n IH]; intros st mx w Hs Hn.
  - exists (if_k st). split; [by destruct st | exact Hs].
  - destruct (input_pass fuel st _ _ _ Hs) as (k1 & Hs1 & Hp); [lia|].
    rewrite (proj2 (Z.eqb_neq _ _)) in Hp by lia.
    replace (Z.of_nat (S n) + 1 - 1) with (Z.of_nat n + 1) in Hs1 by lia.
    destruct (IH (IfState (if_es st) k1 (s_xSemaphore st)) mx w Hs1) as (k2 & Hr & Hs2); [lia|].
    exists k2. split; [|exact Hs2]. cbn [passes].
    by rewrite (prog_bind_step _ _ _ _ _ Hp).
Qed.


End task.

Section irq.
Context {K : Type} `{KernelLaws K}.

(** The receive interrupt: when [DMASR] shows a received frame, the handler
    adds one token to the semaphore of the input task (with the interrupt
    form of the call, in interrupt context), acknowledges the receive and
    summary flags, and changes no descriptor.  It also resets the HAL lock,
    even when an interrupted task was holding it. *)
Theorem rx_interrupt_signals (st : ifstate K) s :
  sem_of (if_k st) (s_xSemaphore st) = Some s → sem_cnt s < sem_max s ∨ sem_wait s ≠ O →
  Z.land (DMASR (es_eth (if_es st))) ETH_DMA_FLAG_R = ETH_DMA_FLAG_R →
  ∃ k' e', HAL_ETH_IRQHandler st
      = Some (tt, IfState (EState e' (es_p (if_es st))) k' (s_xSemaphore st)) ∧
    sem_of k' (s_xSemaphore st) = Some (give s) ∧
    descs e' = descs (es_eth (if_es st)) ∧
    Z.land (DMASR e') ETH_DMA_FLAG_R = 0 ∧ Z.land (DMASR e') ETH_DMA_IT_NIS = 0 ∧
    Lock e' = false.
Proof.
  intros Hs Hc HR. destruct (osSemaphoreRelease_spec _ _ _ Hs Hc) as (k' & Hop & Hst & _).
  assert (Hcb : HAL_ETH_RxCpltCallback st
    = Some (tt, IfState (if_es st) k' (s_xSemaphore st))).
  { unfold HAL_ETH_RxCpltCallback.
    rewrite (prog_bind_step _ _ st (s_xSemaphore st) st eq_refl).
    by rewrite (prog_bind_step _ _ _ _ _ (on_k_step _ _ _ _ Hop)). }
  set (e := es_eth (if_es st)) in *.
  set (e1 := set_Lock false (set_State HAL_ETH_STATE_READY (write_DMASR ETH_DMA_FLAG_R e))).
  set (e2 := write_DMASR ETH_DMA_IT_NIS e1).
  set (e3 := set_Lock false (set_State HAL_ETH_STATE_READY (write_DMASR ETH_DMA_FLAG_AIS e2))).
  assert (Hfl : ∀ v f g, Z.land f (Z.lnot g) = 0 → Z.land (Z.land v (Z.lnot g)) f = 0).
  { intros v f g Hg. by rewrite <- Z.land_assoc, (Z.land_comm (Z.lnot g)), Hg, Z.land_0_r. }
  assert (Hfl2 : ∀ v f g, Z.land v f = 0 → Z.land (Z.land v (Z.lnot g)) f = 0).
  { intros v f g Hg. by rewrite <- Z.land_assoc, (Z.land_comm (Z.lnot g)), Z.land_assoc, Hg. }
  assert (Hrun : HAL_ETH_IRQHandler st = Some (tt, IfState (EState
      (if Z.land (DMASR e2) ETH_DMA_FLAG_AIS =? ETH_DMA_FLAG_AIS then e3 else e2)
      (es_p (if_es st))) k' (s_xSemaphore st))).
  { unfold HAL_ETH_IRQHandler.
    rewrite (prog_bind_step _ _ st (DMASR e) st) by (by destruct st as [[? ?] ? ?]).
    rewrite HR, Z.eqb_refl, prog_bind_assoc.
    rewrite (prog_bind_step _ _ _ _ _ Hcb).
    erewrite prog_bind_step by reflexivity. erewrite prog_bind_step by reflexivity.
    erewrite prog_bind_step by reflexivity.
    change (DMASR _) with (DMASR e2) at 1.
    by destruct (Z.land (DMASR e2) ETH_DMA_FLAG_AIS =? ETH_DMA_FLAG_AIS). }
  exists k', (if Z.land (DMASR e2) ETH_DMA_FLAG_AIS =? ETH_DMA_FLAG_AIS then e3 else e2).
  split; [exact Hrun|]. split; [exact Hst|].
  destruct (_ =? _); split_and!; try done; cbn;
    repeat (first [apply Hfl; reflexivity | apply Hfl2]).
Qed.
End irq.

Import Sim.

Definition ex_if (cnt : Z) (dmasr : Z) : ifstate sim :=
  IfState (EState (Eth ∅ 0 0 (FrameInfos 0 0 0 0 0) HAL_ETH_STATE_READY true 0 1 dmasr 0 0 O O)
             (PState ∅ ∅ (mem_init 0) (Pools [] [] ∅)))
    (Build_sim {[3 := Sem cnt 4294967295 O]} ∅ [] false true 0) 3.


Lemma rx_interrupt_signals_witness :
  ∃ k' e', HAL_ETH_IRQHandler (ex_if 0 65600)
      = Some (tt, IfState (EState e' (es_p (if_es (ex_if 0 65600)))) k' 3) ∧
    sem_of k' 3 = Some (give (Sem 0 4294967295 O)) ∧ Lock e' = false.
Proof.
  destruct (rx_interrupt_signals (ex_if 0 65600) (Sem 0 4294967295 O))
    as (k' & e' & H1 & H2 & _ & _ & _ & H3).
  - reflexivity.
  - left. simpl. lia.
  - reflexivity.
  - exists k', e'. split; [exact H1|]. split; [exact H2 | exact H3].
Defined.

(** ** A received frame of 2000 bytes in two buffers *)

Definition rx_bytes : bmem :=
  fill_bytes 536910000 (Z.to_nat 4620) (fill_bytes 600000000 (Z.to_nat 3048) ∅).
Definition rx_ring : ring :=
  [(610000000, Desc ETH_DMARXDESC_FS 17908 600000000 610000032);
   (610000032, Desc (Z.lor ETH_DMARXDESC_LS (Z.shiftl 2004 16)) 17908 600001524 610000000)].
Definition rx_data : bytes := (λ i, Z.of_nat i mod 256) <$> seq 0 2000.
Definition rx_eth : eth :=
  Eth (list_to_map rx_ring) 0 610000000 (FrameInfos 0 0 0 0 0) HAL_ETH_STATE_READY false
    ETH_CHECKSUM_BY_HARDWARE ETH_RXINTERRUPT_MODE ETH_DMASR_RBUS 0 0 O O.

Definition written_b (m : bmem) (L : ring) (x : bytes) : bool :=
  forallb (λ '(i, b), bool_decide (m !! flat L i = Some b)) (zip (seqZ 0 (Z.of_nat (length x))) x).

Lemma written_check m L x : written_b m L x = true → written m L 0 x.
Proof.
  unfold written_b. intros Hf i b Hi. rewrite forallb_forall in Hf.
  pose proof (lookup_lt_Some _ _ _ Hi).
  specialize (Hf (Z.of_nat i, b)). cbn in Hf. eapply bool_decide_eq_true_1, Hf.
  apply list_elem_of_In, list_elem_of_lookup. exists i.
  apply lookup_zip_Some. cbn. split; [|done].
  rewrite lookup_seqZ. split; lia.
Qed.

Lemma rx_ring_ok : ring_ok (list_to_map rx_ring) rx_ring.
Proof.
  split.
  - change (NoDup [610000000; 610000032]). repeat constructor; set_solver.
  - intros i a d Hi.
    do 2 (destruct i as [|i]; [injection Hi as <- <-; vm_compute; split; reflexivity|]). done.
Qed.

Lemma rx_frame_ok : rx_frame rx_ring 2 (Z.of_nat (length rx_data)).
Proof.
  split.
  - unfold ETH_RXBUFNB. simpl. lia.
  - intros i a d Hi _.
    do 2 (destruct i as [|i]; [injection Hi as <- <-; vm_compute; reflexivity|]). done.
  - intros i a d Hi _.
    do 2 (destruct i as [|i]; [injection Hi as <- <-; vm_compute; reflexivity|]). done.
  - intros a d [= <- <-]. vm_compute. reflexivity.
  - vm_compute. split; [by intros ? | reflexivity].
Qed.

Lemma rx_written : written rx_bytes rx_ring 0 rx_data.
Proof. apply written_check. vm_compute. reflexivity. Qed.

Lemma rx_room a :
  a ∈ elems (MempDesc 1540 3 536910000) →
  mapped rx_bytes (a + SIZEOF_STRUCT_PBUF) PBUF_POOL_BUFSIZE_ALIGNED ∧
  ∀ i, (i < length rx_ring)%nat →
    disjoint_range (buf rx_ring i) 1524 (a + SIZEOF_STRUCT_PBUF) PBUF_POOL_BUFSIZE_ALIGNED.
Proof.
  intros Ha. assert (H : 536910000 ≤ a ≤ 536913080).
  { vm_compute (elems _) in Ha. repeat (apply elem_of_cons in Ha as [->|Ha]; [lia|]).
    by apply elem_of_nil in Ha. }
  unfold SIZEOF_STRUCT_PBUF, PBUF_POOL_BUFSIZE_ALIGNED. split.
  - intros i Hi. apply fill_bytes_mapped. left. lia.
  - intros i Hi. unfold disjoint_range.
    do 2 (destruct i as [|i]; [cbn; lia|]). simpl in Hi. lia.
Qed.

Lemma rx_length : 0 < Z.of_nat (length rx_data) ≤ capacity rx_ring.
Proof. vm_compute. split; [reflexivity | by intros ?]. Qed.

Lemma rx_has_room :
  (0 <? Z.of_nat (length [536913080; 536911540; 536910000])) &&
  (Z.of_nat (length rx_data) <=?
     pool_room (Z.of_nat (length [536913080; 536911540; 536910000])) 0) = true.
Proof. vm_compute. reflexivity. Qed.

Lemma rx_state_ready :
  ∃ p0 h q fl, let st := EState rx_eth (PState p0 rx_bytes h q) in
    rx_ready st rx_ring 2 rx_data fl (λ _, []) [(MEM_SIZE_ALIGNED, false)] ∧
    fl MEMP_PBUF_POOL = [536913080; 536911540; 536910000].
Proof.
  destruct (ex_owned_bytes rx_bytes) as (q & fl & _ & Hpd & Ho & Hfl).
  exists ∅, (mem_init 536870912), q, fl. split; [|exact Hfl].
  split; cbn [es_eth es_p ps_bytes ps_pools].
  - exact rx_ring_ok.
  - reflexivity.
  - reflexivity.
  - reflexivity.
  - exact rx_frame_ok.
  - exact rx_written.
  - exact rx_length.
  - exact Ho.
  - intros d a Hda Ha. rewrite Hpd in Hda. injection Hda as <-. exact (rx_room a Ha).
Qed.

Lemma low_level_input_receives_witness :
  ∃ s p s' l, low_level_input s = Some (p, s') ∧ es_eth s = rx_eth ∧
    ps_bytes (es_p s) = rx_bytes ∧ p ≠ 0 ∧ pchain (ps_pbufs (es_p s')) p l ∧
    pbytes (ps_bytes (es_p s')) l = Some rx_data ∧
    released rx_ring 0 2 (descs rx_eth) (descs (es_eth s')).
Proof.
  destruct rx_state_ready as (p0 & h & q & fl & Hrdy & Hfl).
  destruct (low_level_input_receives _ rx_ring 2 rx_data fl _ _ Hrdy)
    as (p & s' & fl' & out' & bs' & Hrun & _ & Hrel & _ & _ & _ & Hif).
  exists (EState rx_eth (PState p0 rx_bytes h q)), p, s'. rewrite Hfl in Hif. cbv zeta in Hif.
  rewrite rx_has_room in Hif. destruct Hif as (Hp & l & Hch & _ & Hb). exists l.
  split; [exact Hrun|]. split; [reflexivity|]. split; [reflexivity|].
  split; [exact Hp|]. split; [exact Hch|]. split; [exact Hb | exact Hrel].
Defined.
