(* ===== verification/Chksum.v ===== *)
(** * The Internet checksum (middlewares/lwip/src/core/inet_chksum.c)

    The three versions of [lwip_standard_chksum], the second of which is
    compiled, and the checksums over memory, over chains and with the IPv4
    pseudo header.  The reference is the sum of the 16-bit words in memory
    order, reduced in ones' complement arithmetic ([oc]).  Two sums with the
    same reduction are related by [≈]; the code only adds, folds and swaps
    bytes, which all respect it. *)

From stdpp Require Import base numbers list gmap option.
From S2P Require Import Prelude Mem Memp Pbuf PbufLemmas.

(** ** Byte order (core/def.c, include/lwip/def.h) *)

Definition PP_HTONS (x : Z) : Z :=
  Z.lor (Z.shiftl (Z.land x 0xff) 8) (Z.shiftr (Z.land x 0xff00) 8).
Definition lwip_htons (n : Z) : Z := u16 (PP_HTONS n).
Definition PP_HTONL (x : Z) : Z :=
  Z.lor (Z.lor (Z.lor (Z.shiftl (Z.land x 0xff) 24) (Z.shiftl (Z.land x 0xff00) 8))
               (Z.shiftr (Z.land x 0xff0000) 8))
        (Z.shiftr (Z.land x 0xff000000) 24).
Definition lwip_htonl (n : Z) : Z := u32 (PP_HTONL n).

(** ** Macros (include/lwip/inet_chksum.h) *)

Definition FOLD_U32T (u : Z) : Z := Z.shiftr u 16 + Z.land u 0xffff.
Definition SWAP_BYTES_IN_WORD (w : Z) : Z :=
  Z.lor (Z.shiftl (Z.land w 0xff) 8) (Z.shiftr (Z.land w 0xff00) 8).

(** ** Loads *)

Definition load_u16 (m : bmem) (a : Z) : option Z :=
  match m !! a, m !! (a + 1) with
  | Some b0, Some b1 => Some (b0 + 256 * b1)
  | _, _ => None
  end.
Definition load_u32 (m : bmem) (a : Z) : option Z :=
  match load_u16 m a, load_u16 m (a + 2) with
  | Some w0, Some w1 => Some (w0 + 65536 * w1)
  | _, _ => None
  end.

(** ** Version 1 *)

Fixpoint chksum1_loop (fuel : nat) (m : bmem) (octetptr len acc : Z) : option (Z * Z * Z) :=
  match fuel with
  | O => None
  | S fuel' =>
      if 1 <? len then
        b0 ← m !! octetptr;
        b1 ← m !! (octetptr + 1);
        let src := Z.lor (u16 (Z.shiftl b0 8)) b1 in
        chksum1_loop fuel' m (octetptr + 2) (len - 2) (u32 (acc + src))
      else Some (octetptr, len, acc)
  end.

Definition lwip_standard_chksum1 (m : bmem) (dataptr len : Z) : option Z :=
  '(octetptr, len, acc) ← chksum1_loop (S (Z.to_nat len)) m dataptr len 0;
  acc ← (if 0 <? len then
           b ← m !! octetptr; Some (u32 (acc + u16 (Z.shiftl b 8)))
         else Some acc);
  let acc := FOLD_U32T acc in
  let acc := if negb (Z.land acc 0xffff0000 =? 0) then FOLD_U32T acc else acc in
  Some (lwip_htons (u16 acc)).

(** ** Version 2, the one that is compiled *)

(** [t] is assembled from the bytes [t0] and [t1]. *)
Fixpoint chksum_words (fuel : nat) (m : bmem) (ps len sum : Z) : option (Z * Z * Z) :=
  match fuel with
  | O => None
  | S fuel' =>
      if 1 <? len then
        w ← load_u16 m ps;
        chksum_words fuel' m (ps + 2) (len - 2) (u32 (sum + w))
      else Some (ps, len, sum)
  end.

Definition lwip_standard_chksum (m : bmem) (dataptr len : Z) : option Z :=
  let odd := negb (Z.land dataptr 1 =? 0) in
  '(t1, pb, len) ← (if odd && (0 <? len)
                    then b ← m !! dataptr; Some (b, dataptr + 1, len - 1)
                    else Some (0, dataptr, len));
  '(ps, len, sum) ← chksum_words (S (Z.to_nat len)) m pb len 0;
  t0 ← (if 0 <? len then m !! ps else Some 0);
  let sum := u32 (sum + (t0 + 256 * t1)) in
  let sum := FOLD_U32T sum in
  let sum := FOLD_U32T sum in
  let sum := if odd then SWAP_BYTES_IN_WORD sum else sum in
  Some (u16 sum).

(** ** Version 3 *)

Fixpoint chksum3_loop (fuel : nat) (m : bmem) (pl len sum : Z) : option (Z * Z * Z) :=
  match fuel with
  | O => None
  | S fuel' =>
      if 7 <? len then
        w ← load_u32 m pl;
        let tmp := u32 (sum + w) in
        let tmp := if tmp <? sum then u32 (tmp + 1) else tmp in
        w' ← load_u32 m (pl + 4);
        let sum := u32 (tmp + w') in
        let sum := if sum <? tmp then u32 (sum + 1) else sum in
        chksum3_loop fuel' m (pl + 8) (len - 8) sum
      else Some (pl, len, sum)
  end.

Definition lwip_standard_chksum3 (m : bmem) (dataptr len : Z) : option Z :=
  let odd := negb (Z.land dataptr 1 =? 0) in
  '(t1, ps, len) ← (if odd && (0 <? len)
                    then b ← m !! dataptr; Some (b, dataptr + 1, len - 1)
                    else Some (0, dataptr, len));
  '(pl, len, sum) ← (if negb (Z.land ps 3 =? 0) && (1 <? len)
                     then w ← load_u16 m ps; Some (ps + 2, len - 2, w)
                     else Some (ps, len, 0));
  '(pl, len, sum) ← chksum3_loop (S (Z.to_nat len)) m pl len sum;
  let sum := FOLD_U32T sum in
  '(ps, len, sum) ← chksum_words (S (Z.to_nat len)) m pl len sum;
  t0 ← (if 0 <? len then m !! ps else Some 0);
  let sum := u32 (sum + (t0 + 256 * t1)) in
  let sum := FOLD_U32T sum in
  let sum := FOLD_U32T sum in
  let sum := if odd then SWAP_BYTES_IN_WORD sum else sum in
  Some (u16 sum).

(** ** Checksums over memory and over chains *)

Definition inet_chksum (m : bmem) (dataptr len : Z) : option Z :=
  c ← lwip_standard_chksum m dataptr len; Some (u16 (Z.lnot c)).

(** [LWIP_CHKSUM] on the packet memory. *)
Definition LWIP_CHKSUM (dataptr len : Z) : prog pstate Z :=
  λ s, match lwip_standard_chksum (ps_bytes s) dataptr len with
       | Some c => Some (c, s)
       | None => None
       end.

(** The loop over a chain, shared by [inet_chksum_pbuf] and
    [inet_cksum_pseudo_base]. *)
Fixpoint chksum_chain (fuel : nat) (q acc swapped : Z) : prog pstate (Z * Z) :=
  match fuel with
  | O => stuck
  | S fuel' =>
      if q =? 0 then mret (acc, swapped) else
      b ← deref q;
      c ← LWIP_CHKSUM (pb_payload b) (pb_len b);
      let acc := FOLD_U32T (u32 (acc + c)) in
      if negb (pb_len b mod 2 =? 0)
      then chksum_chain fuel' (pb_next b) (SWAP_BYTES_IN_WORD acc) (1 - swapped)
      else chksum_chain fuel' (pb_next b) acc swapped
  end.

Definition inet_chksum_pbuf (p : Z) : prog pstate Z :=
  fuel ← gets chain_fuel;
  '(acc, swapped) ← chksum_chain fuel p 0 0;
  let acc := if negb (swapped =? 0) then SWAP_BYTES_IN_WORD acc else acc in
  mret (u16 (Z.lnot (Z.land acc 0xffff))).

(** The end of both pseudo header functions. *)
Definition pseudo_finish (acc swapped proto proto_len : Z) : Z :=
  let acc := if negb (swapped =? 0) then SWAP_BYTES_IN_WORD acc else acc in
  let acc := u32 (acc + lwip_htons (u16 proto)) in
  let acc := u32 (acc + lwip_htons proto_len) in
  let acc := FOLD_U32T acc in
  let acc := FOLD_U32T acc in
  u16 (Z.lnot (Z.land acc 0xffff)).

Definition inet_cksum_pseudo_base (p proto proto_len acc : Z) : prog pstate Z :=
  fuel ← gets chain_fuel;
  '(acc, swapped) ← chksum_chain fuel p acc 0;
  mret (pseudo_finish acc swapped proto proto_len).

(** The folded sum of the two addresses. *)
Definition pseudo_addrs (src dest : Z) : Z :=
  let acc := Z.land src 0xffff in
  let acc := u32 (acc + Z.land (Z.shiftr src 16) 0xffff) in
  let acc := u32 (acc + Z.land dest 0xffff) in
  let acc := u32 (acc + Z.land (Z.shiftr dest 16) 0xffff) in
  FOLD_U32T (FOLD_U32T acc).

Definition inet_chksum_pseudo (p proto proto_len src dest : Z) : prog pstate Z :=
  inet_cksum_pseudo_base p proto proto_len (pseudo_addrs src dest).

Definition ip_chksum_pseudo (p proto proto_len src dest : Z) : prog pstate Z :=
  inet_chksum_pseudo p proto proto_len src dest.

Fixpoint chksum_partial (fuel : nat) (q chksum_len acc swapped : Z) : prog pstate (Z * Z) :=
  match fuel with
  | O => stuck
  | S fuel' =>
      if negb (q =? 0) && (0 <? chksum_len) then
        b ← deref q;
        let chklen := if chksum_len <? pb_len b then chksum_len else pb_len b in
        c ← LWIP_CHKSUM (pb_payload b) chklen;
        let chksum_len := u16 (chksum_len - chklen) in
        let acc := FOLD_U32T (u32 (acc + c)) in
        if negb (pb_len b mod 2 =? 0)
        then chksum_partial fuel' (pb_next b) chksum_len (SWAP_BYTES_IN_WORD acc) (1 - swapped)
        else chksum_partial fuel' (pb_next b) chksum_len acc swapped
      else mret (acc, swapped)
  end.

Definition inet_cksum_pseudo_partial_base (p proto proto_len chksum_len acc : Z)
    : prog pstate Z :=
  fuel ← gets chain_fuel;
  '(acc, swapped) ← chksum_partial fuel p chksum_len acc 0;
  mret (pseudo_finish acc swapped proto proto_len).

Definition inet_chksum_pseudo_partial (p proto proto_len chksum_len src dest : Z)
    : prog pstate Z :=
  inet_cksum_pseudo_partial_base p proto proto_len chksum_len (pseudo_addrs src dest).

Definition ip_chksum_pseudo_partial (p proto proto_len chksum_len src dest : Z)
    : prog pstate Z :=
  inet_chksum_pseudo_partial p proto proto_len chksum_len src dest.

(** ** The reference *)

(** The 16-bit words of a string of bytes, in the byte order of the host. *)
Fixpoint le_sum (bs : bytes) : Z :=
  match bs with
  | [] => 0
  | [b] => b
  | b0 :: b1 :: bs' => b0 + 256 * b1 + le_sum bs'
  end.

(** Reduction of a sum to 16 bits in ones' complement: 0 only for 0. *)
Definition oc (n : Z) : Z := if n =? 0 then 0 else (n - 1) mod 65535 + 1.

(** The Internet checksum of a string of bytes, as it is stored by a little
    endian host. *)
Definition checksum (bs : bytes) : Z := 65535 - oc (le_sum bs).

(** An address as it lies in memory, and the pseudo header of RFC 793. *)
Definition addr_bytes (a : Z) : bytes :=
  [a mod 256; a / 256 mod 256; a / 65536 mod 256; a / 16777216 mod 256].
Definition pseudo_header (src dest proto proto_len : Z) : bytes :=
  addr_bytes src ++ addr_bytes dest ++ [0; proto; proto_len / 256; proto_len mod 256].
