(* ===== verification/ChksumProps.v ===== *)
(** * Properties of the Internet checksum

    Ones' complement arithmetic as a partial equivalence on sums, the
    equivalence of the three versions of [lwip_standard_chksum] with the
    reference, and the checksums of chains. *)

From stdpp Require Import base numbers list gmap option.
From S2P Require Import Prelude Mem Memp Pbuf PbufLemmas PbufOps Chksum.

(** ** Ones' complement arithmetic *)

(** The same 16-bit ones' complement number; defined on sums, which are not
    negative. *)
Definition oceq (a b : Z) : Prop :=
  0 ≤ a ∧ 0 ≤ b ∧ a mod 65535 = b mod 65535 ∧ (a = 0 ↔ b = 0).

Declare Scope oc_scope.
Infix "≈" := oceq (at level 70) : oc_scope.
Open Scope oc_scope.

#[export] Instance oceq_sym : Symmetric oceq.
Proof. intros a b (? & ? & ? & ?). split_and!; try done; lia. Qed.
#[export] Instance oceq_trans : Transitive oceq.
Proof. intros a b c (? & ? & ? & ?) (? & ? & ? & ?). split_and!; try done; lia. Qed.
#[export] Instance oceq_per : RelationClasses.PER oceq.
Proof. split; apply _. Qed.
Lemma oceq_refl a : 0 ≤ a → a ≈ a.
Proof. by intros. Qed.

(** Rewriting below a sum: the other summand must not be negative. *)
Ltac nonneg :=
  repeat first
    [ lia | assumption | apply Z.add_nonneg_nonneg | apply Z.mul_nonneg_nonneg ].
#[export] Hint Extern 1 (ProperProxy oceq _) =>
  (apply oceq_refl; solve [nonneg]) : typeclass_instances.
#[export] Instance oceq_add : Proper (oceq ==> oceq ==> oceq) Z.add.
Proof.
  intros a a' (? & ? & E & ?) b b' (? & ? & E' & ?). split_and!; try lia.
  by rewrite (Z.add_mod a), (Z.add_mod a'), E, E' by lia.
Qed.
#[export] Instance oceq_mul256 : Proper (oceq ==> oceq) (Z.mul 256).
Proof.
  intros a a' (? & ? & E & ?). split_and!; try lia.
  by rewrite (Z.mul_mod 256 a), (Z.mul_mod 256 a'), E by lia.
Qed.

Lemma oc_65536 a : 0 ≤ a → 256 * (256 * a) ≈ a.
Proof.
  intros. split_and!; try lia. rewrite Z.mul_assoc.
  replace (256 * 256 * a) with (a + a * 65535) by lia. by rewrite Z.mod_add by lia.
Qed.

Lemma oc_range n : 0 ≤ n → 0 ≤ oc n ≤ 65535.
Proof. intros. unfold oc. case_cmp; [lia|]. zmod. Qed.

Lemma oc_oceq n : 0 ≤ n → oc n ≈ n.
Proof.
  intros Hn. pose proof (oc_range n Hn). unfold oc in *. case_cmp; [by subst|].
  split_and!; try lia; zmod.
Qed.

(** A reduced number is determined by its class. *)
Lemma oc_unique r n : 0 ≤ r ≤ 65535 → r ≈ n → r = oc n.
Proof.
  intros Hr (H0 & Hn & E & Hz). unfold oc. case_cmp; [lia|]. zmod.
Qed.

Lemma oc_proper a b : a ≈ b → oc a = oc b.
Proof.
  intros H. pose proof H as (Ha & Hb & _). apply oc_unique; [by apply oc_range|].
  etrans; [by apply oc_oceq | done].
Qed.

Lemma fold_value u : FOLD_U32T u = u / 65536 + u mod 65536.
Proof.
  unfold FOLD_U32T. rewrite Z.shiftr_div_pow2 by lia. change 65535 with (2 ^ 16 - 1).
  by rewrite land_ones_mod by lia.
Qed.

Lemma fold_oceq u : 0 ≤ u → FOLD_U32T u ≈ u.
Proof. intros Hu. rewrite fold_value. split_and!; zmod. Qed.

Lemma fold_bound u : 0 ≤ u < 4294967296 → 0 ≤ FOLD_U32T u ≤ 131070.
Proof. intros Hu. rewrite fold_value. zmod. Qed.

Lemma fold_bound2 u : 0 ≤ u ≤ 131070 → 0 ≤ FOLD_U32T u ≤ 65535.
Proof. intros Hu. rewrite fold_value. zmod. Qed.

Lemma fold_twice u : 0 ≤ u < 4294967296 → FOLD_U32T (FOLD_U32T u) = oc u.
Proof.
  intros Hu. pose proof (fold_bound u Hu). apply oc_unique; [by apply fold_bound2|].
  etrans; apply fold_oceq; lia.
Qed.

Lemma swap_value w :
  0 ≤ w ≤ 65535 → SWAP_BYTES_IN_WORD w = w / 256 + (w mod 256) * 256.
Proof.
  intros Hw. unfold SWAP_BYTES_IN_WORD.
  assert (E : Z.shiftr (Z.land w 65280) 8 = w / 256).
  { rewrite Z.shiftr_land. change (Z.shiftr 65280 8) with (2 ^ 8 - 1).
    rewrite Z.shiftr_div_pow2, land_ones_mod by lia. zmod. }
  rewrite E. change 255 with (2 ^ 8 - 1). rewrite land_ones_mod by lia.
  rewrite Z.lor_comm, lor_shiftl_add; [done | lia | zmod].
Qed.

Lemma swap_range w : 0 ≤ w ≤ 65535 → 0 ≤ SWAP_BYTES_IN_WORD w ≤ 65535.
Proof. intros. rewrite swap_value by done. zmod. Qed.

Lemma swap_oceq w : 0 ≤ w ≤ 65535 → SWAP_BYTES_IN_WORD w ≈ 256 * w.
Proof.
  intros Hw. rewrite swap_value by done.
  assert (E : 256 * w = w / 256 + w mod 256 * 256 + 65535 * (w / 256)) by zmod.
  split_and!; [zmod | lia | | zmod].
  rewrite E, (Z.mul_comm 65535). by rewrite Z.mod_add by lia.
Qed.

(** ** Sums of bytes *)

Lemma pairs_ind (P : bytes → Prop) :
  P [] → (∀ b, P [b]) → (∀ b0 b1 bs, P bs → P (b0 :: b1 :: bs)) → ∀ bs, P bs.
Proof.
  intros H0 H1 H2 bs. enough (P bs ∧ ∀ b, P (b :: bs)) by tauto.
  induction bs as [|b bs [IH1 IH2]]; [auto|]. split; [apply IH2 | auto].
Qed.

Lemma le_sum_bound bs :
  Forall byte_ok bs → 0 ≤ le_sum bs ≤ 65535 * ((Z.of_nat (length bs) + 1) / 2).
Proof.
  induction bs as [| b | b0 b1 bs IH] using pairs_ind; intros H.
  - done.
  - apply Forall_cons_1 in H as [[Hb1 Hb2] _].
    change ((Z.of_nat (length [b]) + 1) / 2) with 1. cbn [le_sum]. lia.
  - apply Forall_cons_1 in H as [[Hb1 Hb2] H]. apply Forall_cons_1 in H as [[Hb3 Hb4] H].
    specialize (IH H). cbn [le_sum length].
    replace (Z.of_nat (S (S (length bs))) + 1) with (Z.of_nat (length bs) + 1 + 1 * 2) by lia.
    rewrite Z.div_add by lia. lia.
Qed.

Lemma le_sum_nonneg bs : Forall byte_ok bs → 0 ≤ le_sum bs.
Proof. intros H. apply le_sum_bound in H as [? _]. done. Qed.

Lemma le_sum_cons b bs : Forall byte_ok (b :: bs) → le_sum (b :: bs) ≈ b + 256 * le_sum bs.
Proof.
  revert b. induction bs as [|c bs IH]; intros b H.
  - apply Forall_cons_1 in H as [[Hb1 Hb2] _]. cbn. rewrite Z.add_0_r. by apply oceq_refl.
  - apply Forall_cons_1 in H as [[Hb1 Hb2] H]. specialize (IH _ H).
    apply Forall_cons_1 in H as [[Hb3 Hb4] H]. pose proof (le_sum_nonneg _ H).
    assert (E : le_sum (b :: c :: bs) ≈ b + 256 * c + le_sum bs) by (cbn; apply oceq_refl; lia).
    rewrite E. etrans; [|apply oceq_add; [by apply oceq_refl | apply oceq_mul256; symmetry; exact IH]].
    rewrite Z.mul_add_distr_l, Z.add_assoc.
    apply oceq_add; [apply oceq_refl; lia | symmetry; by apply oc_65536].
Qed.

(** The weight of what follows [n] bytes. *)
Definition weight (n : nat) : Z := if Nat.even n then 1 else 256.

Lemma weight_S n a : 0 ≤ a → 256 * (weight n * a) ≈ weight (S n) * a.
Proof.
  intros Ha. unfold weight. rewrite Nat.even_succ, <- Nat.negb_even.
  destruct (Nat.even n); cbn [negb].
  - rewrite Z.mul_1_l. apply oceq_refl. lia.
  - rewrite Z.mul_1_l. by apply oc_65536.
Qed.

Lemma weight_pos n : 0 ≤ weight n.
Proof. unfold weight. destruct (Nat.even n); lia. Qed.

Lemma le_sum_app x y :
  Forall byte_ok x → Forall byte_ok y →
  le_sum (x ++ y) ≈ le_sum x + weight (length x) * le_sum y.
Proof.
  intros Hx Hy. pose proof (le_sum_nonneg _ Hy). induction x as [|b x IH].
  - cbn [app le_sum length]. unfold weight. cbn [Nat.even].
    rewrite Z.mul_1_l, Z.add_0_l. by apply oceq_refl.
  - pose proof Hx as Hbx. apply Forall_cons_1 in Hx as [[Hb1 Hb2] Hx]. specialize (IH Hx).
    pose proof (le_sum_nonneg _ Hx). pose proof (weight_pos (length (b :: x))).
    pose proof (weight_pos (length x)). rewrite <- app_comm_cons.
    rewrite (le_sum_cons b (x ++ y)) by (constructor; [done | by apply Forall_app]).
    rewrite (le_sum_cons b x Hbx). rewrite IH, Z.mul_add_distr_l.
    rewrite Z.add_assoc. apply oceq_add; [apply oceq_refl; lia|].
    cbn [length]. by apply weight_S.
Qed.

(** ** Reading words *)

Lemma load_cons m a n b bs :
  load_bytes m a (S n) = Some (b :: bs) → m !! a = Some b ∧ load_bytes m (a + 1) n = Some bs.
Proof.
  simpl. destruct (m !! a); [|done]. destruct (load_bytes m (a + 1) n); [|done].
  by intros [= -> ->].
Qed.

Lemma load_pair m a b0 b1 bs :
  load_bytes m a (length (b0 :: b1 :: bs)) = Some (b0 :: b1 :: bs) →
  m !! a = Some b0 ∧ m !! (a + 1) = Some b1 ∧ load_u16 m a = Some (b0 + 256 * b1) ∧
  load_bytes m (a + 2) (length bs) = Some bs.
Proof.
  cbn [length]. intros H. apply load_cons in H as [H0 H]. apply load_cons in H as [H1 H].
  unfold load_u16. rewrite H0, H1. replace (a + 2) with (a + 1 + 1) by lia. done.
Qed.

(** The words and the last byte of an area. *)
Lemma chksum_words_spec bs : ∀ fuel m ps sum,
  load_bytes m ps (length bs) = Some bs → Forall byte_ok bs →
  0 ≤ sum → sum + le_sum bs < 4294967296 → (length bs < fuel)%nat →
  ∃ ps' len' sum' t0,
    chksum_words fuel m ps (Z.of_nat (length bs)) sum = Some (ps', len', sum') ∧
    (if 0 <? len' then m !! ps' else Some 0) = Some t0 ∧
    0 ≤ sum' ∧ 0 ≤ t0 ∧ sum' + t0 = sum + le_sum bs.
Proof.
  induction bs as [| b | b0 b1 bs IH] using pairs_ind; intros [|fuel] m ps sum Hl Hb Hs Hlt Hf;
    try (cbn in Hf; lia); cbn [chksum_words].
  - eexists _, _, _, 0. split; [reflexivity|]. done.
  - apply load_cons in Hl as [Hl _]. apply Forall_cons_1 in Hb as [[Hb1 Hb2] _].
    eexists _, _, _, b. split; [reflexivity|]. done.
  - apply load_pair in Hl as (H0 & H1 & Hw & Hl).
    apply Forall_cons_1 in Hb as [[Hb1 Hb2] Hb]. apply Forall_cons_1 in Hb as [[Hb3 Hb4] Hb].
    pose proof (le_sum_nonneg _ Hb). cbn [le_sum] in Hlt.
    rewrite (proj2 (Z.ltb_lt 1 _)) by (cbn [length]; lia). rewrite Hw. cbn [mbind option_bind].
    replace (Z.of_nat (length (b0 :: b1 :: bs)) - 2) with (Z.of_nat (length bs)) by (cbn [length]; lia).
    rewrite (u32_small (sum + (b0 + 256 * b1))) by lia.
    destruct (IH fuel m (ps + 2) (sum + (b0 + 256 * b1)))
      as (ps' & len' & sum' & t0 & Hr & Ht & ? & ? & E);
      [done | done | lia | lia | cbn [length] in Hf; lia|].
    exists ps', len', sum', t0. rewrite Hr. split_and!; try done. cbn [le_sum]. lia.
Qed.

(** The end shared by the second and the third version. *)
Lemma fold_swap_spec (odd : bool) s n :
  0 ≤ s < 4294967296 → (if odd then 256 * s else s) ≈ n →
  u16 (if odd then SWAP_BYTES_IN_WORD (FOLD_U32T (FOLD_U32T s)) else FOLD_U32T (FOLD_U32T s))
  = oc n.
Proof.
  intros Hs Hn. rewrite fold_twice by done.
  pose proof (oc_range s (proj1 Hs)) as Hr. pose proof (oc_oceq s (proj1 Hs)) as Ho.
  destruct odd.
  - pose proof (swap_range _ Hr). rewrite u16_small by lia. apply oc_unique; [done|].
    rewrite <- Hn. etrans; [by apply swap_oceq|]. by apply oceq_mul256.
  - rewrite u16_small by lia. apply oc_unique; [done|]. by etrans.
Qed.

(** The first byte of an area at an odd address goes to the upper half. *)
Lemma odd_head_oceq b bs :
  Forall byte_ok (b :: bs) → 256 * (256 * b + le_sum bs) ≈ le_sum (b :: bs).
Proof.
  intros H. pose proof H as H'. apply Forall_cons_1 in H' as [[Hb1 Hb2] Hb].
  pose proof (le_sum_nonneg _ Hb). rewrite (le_sum_cons b bs H), Z.mul_add_distr_l.
  apply oceq_add; [by apply oc_65536 | apply oceq_refl; lia].
Qed.

Lemma lwip_standard_chksum_spec m dataptr bs :
  load_bytes m dataptr (length bs) = Some bs → Forall byte_ok bs →
  Z.of_nat (length bs) ≤ 0x20000 →
  lwip_standard_chksum m dataptr (Z.of_nat (length bs)) = Some (oc (le_sum bs)).
Proof.
  intros Hl Hb Hlen. unfold lwip_standard_chksum.
  destruct (negb (Z.land dataptr 1 =? 0)) eqn:Eodd; cbn [andb].
  - destruct bs as [|b bs]; [done|].
    pose proof Hb as Hb'. apply Forall_cons_1 in Hb' as [[Hb1 Hb2] Hb'].
    pose proof (le_sum_bound _ Hb') as Hbd.
    assert ((Z.of_nat (length bs) + 1) / 2 <= 65536) by (cbn [length] in Hlen; zmod).
    rewrite (proj2 (Z.ltb_lt 0 _)) by (cbn [length]; lia).
    apply load_cons in Hl as [Hh Hl]. rewrite Hh. cbn [mbind option_bind].
    replace (Z.of_nat (length (b :: bs)) - 1) with (Z.of_nat (length bs)) by (cbn [length]; lia).
    destruct (chksum_words_spec bs (S (Z.to_nat (Z.of_nat (length bs)))) m (dataptr + 1) 0)
      as (ps' & len' & sum' & t0 & Hr & Ht & ? & ? & E); [done | done | lia | lia | lia |].
    rewrite Hr. cbn [mbind option_bind]. rewrite Ht. cbn [mbind option_bind].
    rewrite u32_small by lia. f_equal. apply (fold_swap_spec true); [lia|].
    rewrite <- (odd_head_oceq b bs Hb). apply oceq_mul256.
    replace (sum' + (t0 + 256 * b)) with (256 * b + le_sum bs) by lia. apply oceq_refl. lia.
  - pose proof (le_sum_bound _ Hb) as Hbd.
    assert ((Z.of_nat (length bs) + 1) / 2 <= 65536) by zmod.
    cbn [mbind option_bind].
    destruct (chksum_words_spec bs (S (Z.to_nat (Z.of_nat (length bs)))) m dataptr 0)
      as (ps' & len' & sum' & t0 & Hr & Ht & ? & ? & E); [done | done | lia | lia | lia |].
    rewrite Hr. cbn [mbind option_bind]. rewrite Ht. cbn [mbind option_bind].
    rewrite u32_small by lia. f_equal. apply (fold_swap_spec false); [lia|].
    replace (sum' + (t0 + 256 * 0)) with (le_sum bs) by lia. apply oceq_refl. lia.
Qed.

(** ** Version 1 *)

Lemma be_word b0 b1 :
  byte_ok b0 → byte_ok b1 → Z.lor (u16 (Z.shiftl b0 8)) b1 = 256 * b0 + b1.
Proof.
  intros [H1 H2] [H3 H4]. rewrite Z.shiftl_mul_pow2 by lia.
  change (2 ^ 8) with 256. rewrite u16_small by lia.
  rewrite Z.lor_comm, <- (Z.shiftl_mul_pow2 _ 8) by lia.
  rewrite lor_shiftl_add; [|lia | change (2 ^ 8) with 256; lia]. change (2 ^ 8) with 256. lia.
Qed.

Lemma be_word_oceq b0 b1 :
  byte_ok b0 → byte_ok b1 → 256 * b0 + b1 ≈ 256 * (b0 + 256 * b1).
Proof.
  intros [H1 H2] [H3 H4]. rewrite Z.mul_add_distr_l.
  apply oceq_add; [apply oceq_refl; lia | symmetry; by apply oc_65536].
Qed.

Lemma chksum1_loop_spec bs : ∀ fuel m ps acc,
  load_bytes m ps (length bs) = Some bs → Forall byte_ok bs →
  0 ≤ acc → acc + 65535 * ((Z.of_nat (length bs) + 1) / 2) < 4294967296 →
  (length bs < fuel)%nat →
  ∃ ps' len' acc' acc'',
    chksum1_loop fuel m ps (Z.of_nat (length bs)) acc = Some (ps', len', acc') ∧
    (if 0 <? len' then b ← m !! ps'; Some (u32 (acc' + u16 (Z.shiftl b 8))) else Some acc')
    = Some acc'' ∧
    0 ≤ acc'' < 4294967296 ∧ acc'' ≈ acc + 256 * le_sum bs.
Proof.
  induction bs as [| b | b0 b1 bs IH] using pairs_ind; intros [|fuel] m ps acc Hl Hb Hs Hlt Hf;
    try (cbn in Hf; lia); cbn [chksum1_loop].
  - eexists _, _, _, _. split; [reflexivity|]. split; [reflexivity|].
    change ((Z.of_nat (length []) + 1) / 2) with 0 in Hlt. cbn [le_sum].
    split; [lia|]. rewrite Z.add_0_r. by apply oceq_refl.
  - apply load_cons in Hl as [Hl _]. apply Forall_cons_1 in Hb as [[Hb1 Hb2] _].
    change ((Z.of_nat (length [b]) + 1) / 2) with 1 in Hlt.
    eexists _, _, _, (acc + 256 * b). split; [reflexivity|].
    change (0 <? Z.of_nat (length [b])) with true. cbv iota. rewrite Hl. cbn [mbind option_bind].
    rewrite Z.shiftl_mul_pow2 by lia. change (2 ^ 8) with 256.
    rewrite (u16_small (b * 256)), u32_small by lia. cbn [le_sum].
    split; [f_equal; lia|]. split; [lia|]. apply oceq_refl. lia.
  - apply load_pair in Hl as (H0 & H1 & Hw & Hl).
    apply Forall_cons_1 in Hb as [Hb1 Hb]. apply Forall_cons_1 in Hb as [Hb2 Hb].
    pose proof (le_sum_nonneg _ Hb). pose proof Hb1 as [? ?]. pose proof Hb2 as [? ?].
    replace (Z.of_nat (length (b0 :: b1 :: bs)) + 1)
      with (Z.of_nat (length bs) + 1 + 1 * 2) in Hlt by (cbn [length]; lia).
    rewrite Z.div_add in Hlt by lia.
    assert (0 ≤ (Z.of_nat (length bs) + 1) / 2) by zmod.
    rewrite (proj2 (Z.ltb_lt 1 _)) by (cbn [length]; lia). rewrite H0, H1. cbn [mbind option_bind].
    rewrite be_word by done.
    replace (Z.of_nat (length (b0 :: b1 :: bs)) - 2) with (Z.of_nat (length bs)) by (cbn [length]; lia).
    rewrite (u32_small (acc + (256 * b0 + b1))) by lia.
    destruct (IH fuel m (ps + 2) (acc + (256 * b0 + b1)))
      as (ps' & len' & acc' & acc'' & Hr & Ht & Hrange & E);
      [done | done | lia | lia | cbn [length] in Hf; lia|].
    exists ps', len', acc', acc''. rewrite Hr. split_and!; try done; try lia.
    rewrite E, (be_word_oceq b0 b1) by done. cbn [le_sum].
    rewrite (Z.mul_add_distr_l 256 (b0 + 256 * b1)), Z.add_assoc. apply oceq_refl. lia.
Qed.

Lemma high_half_clear acc :
  0 ≤ acc < 4294967296 → (Z.land acc 0xffff0000 =? 0) = true → acc ≤ 65535.
Proof.
  intros Ha E. apply Z.eqb_eq in E. assert (E' : Z.shiftr (Z.land acc 0xffff0000) 16 = 0) by (by rewrite E).
  rewrite Z.shiftr_land, Z.shiftr_div_pow2 in E' by lia.
  change (Z.shiftr 0xffff0000 16) with (2 ^ 16 - 1) in E'.
  rewrite land_ones_mod in E' by lia. change (2 ^ 16) with 65536 in E'. zmod.
Qed.

(** The second fold of the first version is skipped when it does nothing. *)
Lemma fold_cond acc :
  0 ≤ acc < 4294967296 →
  (if negb (Z.land (FOLD_U32T acc) 0xffff0000 =? 0)
   then FOLD_U32T (FOLD_U32T acc) else FOLD_U32T acc) = oc acc.
Proof.
  intros Ha. pose proof (fold_bound acc Ha).
  destruct (Z.land (FOLD_U32T acc) 0xffff0000 =? 0) eqn:E; cbn [negb]; [|by apply fold_twice].
  apply high_half_clear in E; [|lia]. apply oc_unique; [lia|]. apply fold_oceq; lia.
Qed.

Lemma lwip_standard_chksum1_spec m dataptr bs :
  load_bytes m dataptr (length bs) = Some bs → Forall byte_ok bs →
  Z.of_nat (length bs) ≤ 0x20000 →
  lwip_standard_chksum1 m dataptr (Z.of_nat (length bs)) = Some (oc (le_sum bs)).
Proof.
  intros Hl Hb Hlen. unfold lwip_standard_chksum1. pose proof (le_sum_nonneg _ Hb).
  assert ((Z.of_nat (length bs) + 1) / 2 <= 65536) by zmod.
  destruct (chksum1_loop_spec bs (S (Z.to_nat (Z.of_nat (length bs)))) m dataptr 0)
    as (ps' & len' & acc' & acc & Hr & Ht & Ha & E); [done | done | lia | lia | lia |].
  rewrite Hr. cbn [mbind option_bind]. cbn [mbind option_bind] in Ht. rewrite Ht.
  cbn [mbind option_bind].
  rewrite fold_cond by done. pose proof (oc_range acc (proj1 Ha)) as Hr'.
  unfold lwip_htons. rewrite (u16_small (oc acc)) by lia. f_equal.
  change (PP_HTONS (oc acc)) with (SWAP_BYTES_IN_WORD (oc acc)).
  pose proof (swap_range _ Hr'). rewrite u16_small by lia. apply oc_unique; [done|].
  etrans; [by apply swap_oceq|].
  etrans; [apply oceq_mul256; apply oc_oceq; lia|].
  etrans; [apply oceq_mul256; exact E|]. rewrite Z.add_0_l. by apply oc_65536.
Qed.

(** ** Version 3 *)

(** Addition with the carry added back. *)
Lemma carry_add s w :
  0 ≤ s < 4294967296 → 0 ≤ w < 4294967296 →
  let t := u32 (s + w) in
  let t' := if t <? s then u32 (t + 1) else t in
  0 ≤ t' < 4294967296 ∧ t' ≈ s + w.
Proof.
  intros Hs Hw t t'. unfold t', t, u32.
  assert (Hm : (s + w) mod 4294967296 = s + w ∧ s + w < 4294967296 ∨
               (s + w) mod 4294967296 = s + w - 4294967296 ∧ 4294967296 ≤ s + w) by zmod.
  destruct Hm as [[-> Ho] | [-> Ho]]; case_cmp; try lia.
  - split; [lia | apply oceq_refl; lia].
  - rewrite Z.mod_small by lia. split; [lia|]. split_and!; try lia.
    replace (s + w) with (s + w - 4294967296 + 1 + 65537 * 65535) at 2 by lia.
    by rewrite Z.mod_add by lia.
Qed.

Lemma load_quad m a b0 b1 b2 b3 bs :
  load_bytes m a (length (b0 :: b1 :: b2 :: b3 :: bs)) = Some (b0 :: b1 :: b2 :: b3 :: bs) →
  load_u32 m a = Some (b0 + 256 * b1 + 65536 * (b2 + 256 * b3)) ∧
  load_bytes m (a + 4) (length bs) = Some bs.
Proof.
  intros H. apply load_pair in H as (_ & _ & H1 & H).
  apply load_pair in H as (_ & _ & H2 & H).
  unfold load_u32. rewrite H1, H2. by replace (a + 4) with (a + 2 + 2) by lia.
Qed.

(** A 32-bit word counts like its two halves. *)
Lemma quad_oceq b0 b1 b2 b3 :
  Forall byte_ok [b0; b1; b2; b3] →
  let w := b0 + 256 * b1 + 65536 * (b2 + 256 * b3) in
  0 ≤ w < 4294967296 ∧ w ≈ le_sum [b0; b1; b2; b3].
Proof.
  intros Hq w. do 4 (apply Forall_cons_1 in Hq as [[? ?] Hq]).
  unfold w. cbn [le_sum]. split; [lia|]. rewrite Z.add_0_r.
  apply oceq_add; [apply oceq_refl; lia|].
  replace (65536 * (b2 + 256 * b3)) with (256 * (256 * (b2 + 256 * b3))) by lia.
  apply oc_65536. lia.
Qed.

Lemma chksum3_loop_spec fuel : ∀ m bs pl sum,
  load_bytes m pl (length bs) = Some bs → Forall byte_ok bs →
  0 ≤ sum < 4294967296 → (length bs < fuel)%nat →
  ∃ pl' rest sum',
    chksum3_loop fuel m pl (Z.of_nat (length bs)) sum = Some (pl', Z.of_nat (length rest), sum') ∧
    load_bytes m pl' (length rest) = Some rest ∧ Forall byte_ok rest ∧
    (length rest < 8)%nat ∧ 0 ≤ sum' < 4294967296 ∧ sum' + le_sum rest ≈ sum + le_sum bs.
Proof.
  induction fuel as [|fuel IH]; intros m bs pl sum Hl Hb Hs Hf; [lia|]. cbn [chksum3_loop].
  destruct (7 <? Z.of_nat (length bs)) eqn:Hlen; [apply Z.ltb_lt in Hlen | apply Z.ltb_ge in Hlen]; last first.
  { exists pl, bs, sum. pose proof (le_sum_nonneg _ Hb). repeat split; try done; try lia. }
  destruct bs as [|b0 [|b1 [|b2 [|b3 [|b4 [|b5 [|b6 [|b7 bs]]]]]]]]; cbn [length] in Hlen; try lia.
  apply load_quad in Hl as [Hw Hl]. apply load_quad in Hl as [Hw' Hl]. rewrite Hw.
  cbn [mbind option_bind]. rewrite Hw'. cbn [mbind option_bind].
  change (b0 :: b1 :: b2 :: b3 :: b4 :: b5 :: b6 :: b7 :: bs)
    with ([b0; b1; b2; b3] ++ [b4; b5; b6; b7] ++ bs) in Hb.
  apply Forall_app in Hb as [Hq Hb]. apply Forall_app in Hb as [Hq' Hb].
  pose proof (le_sum_nonneg _ Hb). pose proof (le_sum_nonneg _ Hq). pose proof (le_sum_nonneg _ Hq').
  apply quad_oceq in Hq as [Hr E]. apply quad_oceq in Hq' as [Hr' E'].
  destruct (carry_add _ _ Hs Hr) as [Ht Et]. destruct (carry_add _ _ Ht Hr') as [Ht' Et'].
  replace (Z.of_nat (length (b0 :: b1 :: b2 :: b3 :: b4 :: b5 :: b6 :: b7 :: bs)) - 8)
    with (Z.of_nat (length bs)) by (cbn [length]; lia).
  destruct (IH m bs (pl + 4 + 4) _ Hl Hb Ht') as (pl' & rest & sum' & Hx & Hy & Hz & Hn & Hs' & Es);
    [cbn [length] in Hf; lia|].
  exists pl', rest, sum'. replace (pl + 8) with (pl + 4 + 4) by lia.
  split_and!; try done; try lia. etrans; [exact Es|].
  etrans; [apply oceq_add; [|by apply oceq_refl]; etrans; [exact Et'|];
           apply oceq_add; [|exact E']; etrans; [exact Et|];
           apply oceq_add; [|exact E]; apply oceq_refl; lia|].
  cbn [le_sum]. match goal with |- ?a ≈ ?b => replace b with a by lia end.
  apply oceq_refl. cbn [le_sum] in *. lia.
Qed.

(** A word that aligns the rest to 32 bits. *)
Lemma chksum3_align m ps bs :
  load_bytes m ps (length bs) = Some bs → Forall byte_ok bs →
  ∃ pl rest sum,
    (if negb (Z.land ps 3 =? 0) && (1 <? Z.of_nat (length bs))
     then w ← load_u16 m ps; Some (ps + 2, Z.of_nat (length bs) - 2, w)
     else Some (ps, Z.of_nat (length bs), 0)) = Some (pl, Z.of_nat (length rest), sum) ∧
    load_bytes m pl (length rest) = Some rest ∧ Forall byte_ok rest ∧
    0 ≤ sum < 65536 ∧ sum + le_sum rest = le_sum bs.
Proof.
  intros Hl Hb. destruct (negb _ && _) eqn:E; [|by exists ps, bs, 0].
  apply andb_true_iff in E as [_ E]. apply Z.ltb_lt in E.
  destruct bs as [|b0 [|b1 bs]]; cbn [length] in E; try lia.
  apply load_pair in Hl as (_ & _ & Hw & Hl). rewrite Hw. cbn [mbind option_bind].
  apply Forall_cons_1 in Hb as [[? ?] Hb]. apply Forall_cons_1 in Hb as [[? ?] Hb].
  exists (ps + 2), bs, (b0 + 256 * b1). split_and!; try done; try lia.
  do 2 f_equal. cbn [length]. f_equal. lia.
Qed.

(** Everything between the first and the last byte. *)
Lemma chksum3_middle m ps bs :
  load_bytes m ps (length bs) = Some bs → Forall byte_ok bs →
  ∃ ps' len' sum' t0,
    ('(pl, len, sum) ← (if negb (Z.land ps 3 =? 0) && (1 <? Z.of_nat (length bs))
        then w ← load_u16 m ps; Some (ps + 2, Z.of_nat (length bs) - 2, w)
        else Some (ps, Z.of_nat (length bs), 0));
     '(pl, len, sum) ← chksum3_loop (S (Z.to_nat len)) m pl len sum;
     chksum_words (S (Z.to_nat len)) m pl len (FOLD_U32T sum)) = Some (ps', len', sum') ∧
    (if 0 <? len' then m !! ps' else Some 0) = Some t0 ∧
    0 ≤ sum' ∧ 0 ≤ t0 ∧ sum' + t0 < 1048576 ∧ sum' + t0 ≈ le_sum bs.
Proof.
  intros Hl Hb. destruct (chksum3_align m ps bs Hl Hb) as (pl & bs1 & sum & -> & Hl1 & Hb1 & Hs & E).
  cbn [mbind option_bind]. rewrite <- E.
  destruct (chksum3_loop_spec (S (Z.to_nat (Z.of_nat (length bs1)))) m bs1 pl sum)
    as (pl' & bs2 & sum2 & -> & Hl2 & Hb2 & Hn & Hs2 & E2); [done | done | lia | lia |].
  cbn [mbind option_bind]. pose proof (fold_bound _ Hs2). pose proof (le_sum_bound _ Hb2).
  assert ((Z.of_nat (length bs2) + 1) / 2 ≤ 4) by zmod.
  destruct (chksum_words_spec bs2 (S (Z.to_nat (Z.of_nat (length bs2)))) m pl' (FOLD_U32T sum2))
    as (ps' & len' & sum' & t0 & -> & Ht & ? & ? & E3); [done | done | lia | lia | lia |].
  exists ps', len', sum', t0. split_and!; try done; try lia; rewrite E3.
  all: assert (HE : FOLD_U32T sum2 + le_sum bs2 ≈ sum + le_sum bs1);
    [etrans; [apply oceq_add; [apply fold_oceq; lia | apply oceq_refl; lia] | exact E2]|].
  all: by destruct HE as (? & ? & ? & ?).
Qed.

Lemma lwip_standard_chksum3_spec m dataptr bs :
  load_bytes m dataptr (length bs) = Some bs → Forall byte_ok bs →
  lwip_standard_chksum3 m dataptr (Z.of_nat (length bs)) = Some (oc (le_sum bs)).
Proof.
  intros Hl Hb. unfold lwip_standard_chksum3.
  destruct (negb (Z.land dataptr 1 =? 0)) eqn:Eodd; cbn [andb].
  - destruct bs as [|b bs].
    { change (0 <? Z.of_nat (length [])) with false. cbn [mbind option_bind].
      change (1 <? Z.of_nat (length [])) with false. by rewrite andb_false_r. }
    pose proof Hb as Hb'. apply Forall_cons_1 in Hb' as [[Hb1 Hb2] Hb'].
    rewrite (proj2 (Z.ltb_lt 0 _)) by (cbn [length]; lia).
    apply load_cons in Hl as [Hh Hl]. rewrite Hh. cbn [mbind option_bind].
    replace (Z.of_nat (length (b :: bs)) - 1) with (Z.of_nat (length bs)) by (cbn [length]; lia).
    destruct (chksum3_middle m (dataptr + 1) bs Hl Hb')
      as (ps' & len' & sum' & t0 & Hr & Ht & ? & ? & ? & E).
    destruct (if negb _ && _ then _ else _) as [[[pl len] sum]|]; [|done].
    cbn [mbind option_bind] in Hr |- *. destruct (chksum3_loop _ _ _ _ _) as [[[pl2 len2] sum2]|]; [|done].
    cbn [mbind option_bind] in Hr |- *. rewrite Hr. cbn [mbind option_bind]. rewrite Ht.
    cbn [mbind option_bind]. rewrite u32_small by lia. f_equal.
    apply (fold_swap_spec true); [lia|]. rewrite <- (odd_head_oceq b bs Hb). apply oceq_mul256.
    replace (sum' + (t0 + 256 * b)) with (256 * b + (sum' + t0)) by lia.
    apply oceq_add; [apply oceq_refl; lia | done].
  - cbn [mbind option_bind]. destruct (chksum3_middle m dataptr bs Hl Hb)
      as (ps' & len' & sum' & t0 & Hr & Ht & ? & ? & ? & E).
    destruct (if negb _ && _ then _ else _) as [[[pl len] sum]|]; [|done].
    cbn [mbind option_bind] in Hr |- *. destruct (chksum3_loop _ _ _ _ _) as [[[pl2 len2] sum2]|]; [|done].
    cbn [mbind option_bind] in Hr |- *. rewrite Hr. cbn [mbind option_bind]. rewrite Ht.
    cbn [mbind option_bind]. rewrite u32_small by lia. f_equal.
    apply (fold_swap_spec false); [lia|].
    by replace (sum' + (t0 + 256 * 0)) with (sum' + t0) by lia.
Qed.

(** ** Chains *)

Lemma oceq_intro k a b : 0 ≤ a → 0 ≤ b → a = b + k * 65535 → (a = 0 ↔ b = 0) → a ≈ b.
Proof. intros ? ? -> ?. split_and!; try done; try lia. by rewrite Z.mod_add by lia. Qed.

(** The weight of the bytes that follow when the accumulator is [swapped]. *)
Definition sw (swapped : Z) : Z := if swapped =? 0 then 1 else 256.

(** One pbuf: [x] is summed and [y] is still to come.  The accumulator is
    swapped after an odd number of bytes; if nothing follows it may be
    swapped after an even one as well. *)
Lemma chain_step (odd : bool) acc swapped x y :
  0 ≤ acc ≤ 65535 → swapped = 0 ∨ swapped = 1 → Forall byte_ok x → Forall byte_ok y →
  y = [] ∨ odd = negb (Nat.even (length x)) →
  let a := FOLD_U32T (u32 (acc + oc (le_sum x))) in
  let acc' := if odd then SWAP_BYTES_IN_WORD a else a in
  let swapped' := if odd then 1 - swapped else swapped in
  0 ≤ acc' ≤ 65535 ∧ (swapped' = 0 ∨ swapped' = 1) ∧
  sw swapped' * (acc' + le_sum y) ≈ sw swapped * (acc + le_sum (x ++ y)).
Proof.
  intros Ha Hsw Hx Hy Hodd a acc' swapped'.
  pose proof (le_sum_nonneg _ Hx) as Hx0. pose proof (le_sum_nonneg _ Hy) as Hy0.
  pose proof (oc_range _ Hx0). pose proof (oc_oceq _ Hx0) as Eo.
  assert (Hr : 0 ≤ a ≤ 65535) by (unfold a; rewrite u32_small by lia; apply fold_bound2; lia).
  assert (Ea : a ≈ acc + le_sum x).
  { unfold a. rewrite u32_small by lia. etrans; [apply fold_oceq; lia|].
    apply oceq_add; [apply oceq_refl; lia | done]. }
  assert (Hs : ∀ k u v, k = 1 ∨ k = 256 → u ≈ v → k * u ≈ k * v).
  { intros k u v [-> | ->] Huv; [by rewrite !Z.mul_1_l | by apply oceq_mul256]. }
  assert (Hsw1 : sw swapped = 1 ∨ sw swapped = 256) by (unfold sw; destruct (_ =? _); auto).
  assert (Exy : acc + le_sum (x ++ y) ≈ acc + le_sum x + weight (length x) * le_sum y).
  { rewrite <- Z.add_assoc. apply oceq_add; [apply oceq_refl; lia | by apply le_sum_app]. }
  apply (Hs (sw swapped)) in Exy; [|done].
  assert (Hw : weight (length x) * le_sum y = (if odd then 256 else 1) * le_sum y).
  { destruct Hodd as [-> | ->]; [by rewrite !Z.mul_0_r|]. unfold weight. by destruct (Nat.even _). }
  rewrite Hw in Exy. unfold acc', swapped' in *. destruct odd.
  - pose proof (swap_range _ Hr). split; [done|]. split; [lia|].
    assert (Es : SWAP_BYTES_IN_WORD a + le_sum y ≈ 256 * (acc + le_sum x) + le_sum y).
    { apply oceq_add; [|by apply oceq_refl]. etrans; [by apply swap_oceq|]. by apply oceq_mul256. }
    apply (Hs (sw (1 - swapped))) in Es; [|unfold sw; destruct (_ =? _); auto].
    etrans; [exact Es|]. symmetry. etrans; [exact Exy|].
    destruct Hsw as [-> | ->]; unfold sw.
    + change (0 =? 0) with true. change (1 - 0 =? 0) with false. cbv iota.
      apply (oceq_intro (- (acc + le_sum x))); lia.
    + change (1 - 1 =? 0) with true. change (1 =? 0) with false. cbv iota.
      apply (oceq_intro (le_sum y)); lia.
  - split; [done|]. split; [done|]. symmetry. etrans; [exact Exy|]. symmetry.
    apply Hs; [done|]. rewrite Z.mul_1_l. apply oceq_add; [done | by apply oceq_refl].
Qed.

Lemma LWIP_CHKSUM_run s a x :
  load_bytes (ps_bytes s) a (length x) = Some x → Forall byte_ok x →
  Z.of_nat (length x) < 65536 →
  LWIP_CHKSUM a (Z.of_nat (length x)) s = Some (oc (le_sum x), s).
Proof. intros Hl Hb Hn. unfold LWIP_CHKSUM. by rewrite lwip_standard_chksum_spec by lia || done. Qed.

Lemma negb_mod2 n : negb (Z.of_nat n mod 2 =? 0) = negb (Nat.even n).
Proof.
  f_equal. destruct (Nat.even n) eqn:E.
  - apply Nat.even_spec in E as [k ->]. apply Z.eqb_eq. zmod.
  - apply Z.eqb_neq. intros H. apply not_true_iff_false in E. apply E, Nat.even_spec.
    exists (Z.to_nat (Z.of_nat n / 2)). zmod.
Qed.

Lemma chksum_chain_spec s l : ∀ fuel p acc swapped d,
  pchain (ps_pbufs s) p l → lens_ok l → pbytes (ps_bytes s) l = Some d → Forall byte_ok d →
  0 ≤ acc ≤ 65535 → swapped = 0 ∨ swapped = 1 → (length l < fuel)%nat →
  ∃ acc' swapped', chksum_chain fuel p acc swapped s = Some ((acc', swapped'), s) ∧
    0 ≤ acc' ≤ 65535 ∧ (swapped' = 0 ∨ swapped' = 1) ∧
    sw swapped' * acc' ≈ sw swapped * (acc + le_sum d).
Proof.
  induction l as [|[a b] l IH]; intros [|fuel] p acc swapped d Hc Hl Hd Hb Ha Hsw Hf;
    try (cbn [length] in Hf; lia); cbn [chksum_chain].
  - cbn in Hc. subst p. cbn in Hd. injection Hd as <-.
    exists acc, swapped. split; [done|]. split; [done|]. split; [done|].
    cbn [le_sum]. rewrite Z.add_0_r. apply oceq_refl. unfold sw. destruct (_ =? _); lia.
  - destruct Hc as (-> & H0 & Hp & Hc). rewrite (proj2 (Z.eqb_neq _ _)) by done.
    apply pbytes_cons in Hd as (x & y & -> & Hx & Hy & Hlx). destruct Hl as (Hn & Ht & Hbd & Hl).
    apply Forall_app in Hb as [Hbx Hby].
    pose proof (lens_nonneg _ Hl). cbn [lens] in Ht.
    assert (En : pb_len b = Z.of_nat (length x)) by lia.
    erewrite prog_bind_step by (unfold deref; rewrite Hp; reflexivity). rewrite En.
    erewrite prog_bind_step by (apply LWIP_CHKSUM_run; [by rewrite Hlx | done | lia]).
    rewrite negb_mod2.
    pose proof (chain_step (negb (Nat.even (length x))) acc swapped x y Ha Hsw Hbx Hby (or_intror eq_refl))
      as (Ha' & Hsw' & E).
    destruct (negb (Nat.even (length x))).
    all: edestruct (IH fuel (pb_next b)) as (acc' & swapped' & -> & ? & ? & E');
      [exact Hc | done | exact Hy | done | exact Ha' | exact Hsw' | cbn [length] in Hf; lia |].
    all: exists acc', swapped'; split; [done|]; split; [done|]; split; [done|]; by etrans.
Qed.

Lemma take_min {A} (x : list A) n : take (min n (length x)) x = take n x.
Proof. destruct (Nat.min_spec n (length x)) as [[? ->]|[? ->]]; [done|]. by rewrite !take_ge by lia. Qed.

(** The byte count of [chksum_partial] stops inside a pbuf, or the pbuf is
    summed whole. *)
Lemma partial_piece (n : nat) (x y : bytes) :
  let x' := take n x in let y' := take (n - length x) y in
  take n (x ++ y) = x' ++ y' ∧ (y' = [] ∨ length x' = length x).
Proof.
  intros x' y'. unfold x', y'. split; [apply take_app|]. rewrite length_take.
  destruct (decide (n < length x)%nat); [left | right; lia].
  by replace (n - length x)%nat with 0%nat by lia.
Qed.

Lemma chksum_partial_spec s l : ∀ fuel p n acc swapped d,
  pchain (ps_pbufs s) p l → lens_ok l → pbytes (ps_bytes s) l = Some d → Forall byte_ok d →
  Z.of_nat n < 65536 →
  0 ≤ acc ≤ 65535 → swapped = 0 ∨ swapped = 1 → (length l < fuel)%nat →
  ∃ acc' swapped', chksum_partial fuel p (Z.of_nat n) acc swapped s = Some ((acc', swapped'), s) ∧
    0 ≤ acc' ≤ 65535 ∧ (swapped' = 0 ∨ swapped' = 1) ∧
    sw swapped' * acc' ≈ sw swapped * (acc + le_sum (take n d)).
Proof.
  assert (Hend : ∀ acc swapped, 0 ≤ acc → sw swapped * acc ≈ sw swapped * (acc + 0)).
  { intros. rewrite Z.add_0_r. apply oceq_refl. unfold sw. destruct (_ =? _); lia. }
  induction l as [|[a b] l IH]; intros [|fuel] p n acc swapped d Hc Hl Hd Hb Hn Ha Hsw Hf;
    try (cbn [length] in Hf; lia); cbn [chksum_partial].
  - cbn in Hc. subst p. cbn in Hd. injection Hd as <-. rewrite take_nil.
    exists acc, swapped. split; [done|]. split; [done|]. split; [done|]. apply Hend. lia.
  - destruct Hc as (-> & H0 & Hp & Hc). rewrite (proj2 (Z.eqb_neq _ _)) by done. cbn [negb andb].
    destruct n as [|n'].
    { exists acc, swapped. split; [done|]. split; [done|]. split; [done|]. apply Hend. lia. }
    rewrite (proj2 (Z.ltb_lt 0 _)) by lia. set (n := S n') in *.
    apply pbytes_cons in Hd as (x & y & -> & Hx & Hy & Hlx). destruct Hl as (Hlb & Ht & Hbd & Hl).
    apply Forall_app in Hb as [Hbx Hby].
    pose proof (lens_nonneg _ Hl). cbn [lens] in Ht.
    destruct (partial_piece n x y) as [-> Hpiece].
    assert (En : (if Z.of_nat n <? pb_len b then Z.of_nat n else pb_len b)
                 = Z.of_nat (length (take n x))) by (rewrite length_take; case_cmp; lia).
    erewrite prog_bind_step by (unfold deref; rewrite Hp; reflexivity). rewrite En.
    erewrite prog_bind_step.
    2: { apply LWIP_CHKSUM_run; [|by apply Forall_take | rewrite length_take; lia].
         rewrite length_take. rewrite <- (take_min x n).
         apply (load_bytes_split _ _ (Z.to_nat (pb_len b))); [done | lia]. }
    replace (u16 (Z.of_nat n - Z.of_nat (length (take n x)))) with (Z.of_nat (n - length x)).
    2: { rewrite length_take. rewrite u16_small; lia. }
    replace (pb_len b) with (Z.of_nat (length x)) by lia. rewrite negb_mod2.
    assert (Hodd : take (n - length x) y = [] ∨
      negb (Nat.even (length x)) = negb (Nat.even (length (take n x)))).
    { destruct Hpiece as [?|<-]; auto. }
    pose proof (chain_step _ acc swapped _ _ Ha Hsw (Forall_take _ n _ Hbx)
      (Forall_take _ (n - length x) _ Hby) Hodd) as (Ha' & Hsw' & E).
    destruct (negb (Nat.even (length x))).
    all: edestruct (IH fuel (pb_next b) (n - length x)%nat) as (acc' & swapped' & -> & ? & ? & E');
      [exact Hc | done | exact Hy | done | lia | exact Ha' | exact Hsw' | cbn [length] in Hf; lia |].
    all: exists acc', swapped'; split; [done|]; split; [done|]; split; [done|]; by etrans.
Qed.

(** ** The end of the pseudo header functions *)

Lemma lnot_16 r : 0 ≤ r ≤ 65535 → u16 (Z.lnot (Z.land r 0xffff)) = 65535 - r.
Proof.
  intros Hr. change 0xffff with (2 ^ 16 - 1). rewrite land_ones_mod by lia.
  change (2 ^ 16) with 65536. rewrite Z.mod_small by lia. unfold Z.lnot, u16.
  replace (Z.pred (- r)) with (65535 - r + (-1) * 65536) by lia.
  rewrite Z.mod_add, Z.mod_small by lia. lia.
Qed.

Lemma unswap acc swapped :
  0 ≤ acc ≤ 65535 → swapped = 0 ∨ swapped = 1 →
  let r := if negb (swapped =? 0) then SWAP_BYTES_IN_WORD acc else acc in
  0 ≤ r ≤ 65535 ∧ r ≈ sw swapped * acc.
Proof.
  intros Ha [-> | ->] r; unfold r, sw; cbn.
  - split; [done|]. rewrite Z.mul_1_l. apply oceq_refl. lia.
  - split; [by apply swap_range | by apply swap_oceq].
Qed.

Lemma addr_bytes_sum a :
  0 ≤ a < 4294967296 →
  le_sum (addr_bytes a) = Z.land a 0xffff + Z.land (Z.shiftr a 16) 0xffff ∧
  0 ≤ Z.land a 0xffff ≤ 65535 ∧ 0 ≤ Z.land (Z.shiftr a 16) 0xffff ≤ 65535 ∧
  Forall byte_ok (addr_bytes a).
Proof.
  intros Ha. change 0xffff with (2 ^ 16 - 1). rewrite !land_ones_mod by lia.
  rewrite Z.shiftr_div_pow2 by lia. change (2 ^ 16) with 65536. unfold addr_bytes.
  cbn [le_sum]. split; [|split; [|split]]; [zmod | zmod | zmod |].
  repeat constructor; zmod.
Qed.

Lemma pseudo_addrs_spec src dest :
  0 ≤ src < 4294967296 → 0 ≤ dest < 4294967296 →
  0 ≤ pseudo_addrs src dest ≤ 65535 ∧
  pseudo_addrs src dest ≈ le_sum (addr_bytes src) + le_sum (addr_bytes dest).
Proof.
  intros Hs Hd. destruct (addr_bytes_sum src Hs) as (-> & ? & ? & _).
  destruct (addr_bytes_sum dest Hd) as (-> & ? & ? & _).
  unfold pseudo_addrs.
  set (s0 := Z.land src _) in *. set (s1 := Z.land (Z.shiftr src _) _) in *.
  set (d0 := Z.land dest _) in *. set (d1 := Z.land (Z.shiftr dest _) _) in *.
  rewrite (u32_small (s0 + s1)) by lia. rewrite (u32_small (s0 + s1 + d0)) by lia.
  rewrite (u32_small (s0 + s1 + d0 + d1)) by lia. rewrite fold_twice by lia.
  split; [apply oc_range; lia|]. rewrite Z.add_assoc. apply oc_oceq. lia.
Qed.

Lemma htons_value n : 0 ≤ n ≤ 65535 → lwip_htons n = n / 256 + n mod 256 * 256.
Proof.
  intros Hn. unfold lwip_htons. change (PP_HTONS n) with (SWAP_BYTES_IN_WORD n).
  pose proof (swap_range n Hn). rewrite u16_small by lia. by apply swap_value.
Qed.

Lemma pseudo_header_ok src dest proto n :
  0 ≤ src < 4294967296 → 0 ≤ dest < 4294967296 → 0 ≤ proto < 256 → 0 ≤ n < 65536 →
  Forall byte_ok (pseudo_header src dest proto n) ∧
  le_sum (pseudo_header src dest proto n)
  = le_sum (addr_bytes src) + le_sum (addr_bytes dest) + lwip_htons (u16 proto) + lwip_htons n ∧
  0 ≤ lwip_htons (u16 proto) ≤ 65535 ∧ 0 ≤ lwip_htons n ≤ 65535.
Proof.
  intros Hs Hd Hp Hn. rewrite (u16_small proto) by lia. rewrite !htons_value by lia.
  split; [|split; [|zmod]].
  - apply Forall_app. split; [by apply addr_bytes_sum|].
    apply Forall_app. split; [by apply addr_bytes_sum|]. repeat constructor; zmod.
  - unfold pseudo_header, addr_bytes. cbn [app le_sum]. zmod.
Qed.

Lemma pseudo_finish_spec acc swapped src dest proto n d :
  0 ≤ src < 4294967296 → 0 ≤ dest < 4294967296 → 0 ≤ proto < 256 → 0 ≤ n < 65536 →
  Forall byte_ok d → 0 ≤ acc ≤ 65535 → swapped = 0 ∨ swapped = 1 →
  sw swapped * acc ≈ pseudo_addrs src dest + le_sum d →
  pseudo_finish acc swapped proto n = checksum (pseudo_header src dest proto n ++ d).
Proof.
  intros Hs Hd Hp Hn Hb Ha Hsw E. unfold pseudo_finish.
  destruct (unswap acc swapped Ha Hsw) as [Hr Er]. set (r := if negb _ then _ else _) in *.
  destruct (pseudo_header_ok src dest proto n Hs Hd Hp Hn) as (Hph & Eph & ? & ?).
  destruct (pseudo_addrs_spec src dest Hs Hd) as [? Ea].
  pose proof (le_sum_nonneg _ Hb). pose proof (le_sum_nonneg _ Hph).
  rewrite (u32_small (r + _)) by lia. rewrite u32_small by lia.
  rewrite fold_twice by lia. rewrite lnot_16 by (apply oc_range; lia).
  unfold checksum. f_equal. apply oc_proper.
  symmetry. etrans; [by apply le_sum_app|].
  replace (weight (length (pseudo_header src dest proto n))) with 1 by reflexivity.
  rewrite Z.mul_1_l, Eph.
  match goal with |- ?a ≈ _ => replace a with
    (le_sum (addr_bytes src) + le_sum (addr_bytes dest) + le_sum d + lwip_htons (u16 proto)
     + lwip_htons n) by lia end.
  apply oceq_add; [|apply oceq_refl; lia]. apply oceq_add; [|apply oceq_refl; lia].
  symmetry. etrans; [exact Er|]. etrans; [exact E|]. apply oceq_add; [done | by apply oceq_refl].
Qed.

(** ** Claims *)

(** C24: the three versions of [lwip_standard_chksum] (bytes in network order;
    16-bit words with the bytes at both ends put aside, the one compiled; 32-bit
    words with the carries added back) return the same number on every area
    of up to 0x20000 bytes at any address, even or odd: the ones' complement
    sum of its 16-bit words. *)
Theorem chksum_versions_agree m dataptr bs :
  load_bytes m dataptr (length bs) = Some bs → Forall byte_ok bs →
  Z.of_nat (length bs) ≤ 0x20000 →
  let len := Z.of_nat (length bs) in
  lwip_standard_chksum m dataptr len = Some (oc (le_sum bs)) ∧
  lwip_standard_chksum1 m dataptr len = lwip_standard_chksum m dataptr len ∧
  lwip_standard_chksum3 m dataptr len = lwip_standard_chksum m dataptr len.
Proof.
  intros Hl Hb Hn len. unfold len. rewrite lwip_standard_chksum_spec by done.
  by rewrite lwip_standard_chksum1_spec, lwip_standard_chksum3_spec.
Qed.

(** C25: the checksum of a chain does not depend on how the data is cut into
    pbufs or on where their payloads lie: [inet_chksum_pbuf] is the Internet
    checksum of the concatenated contents, [inet_chksum_pseudo] the one of
    the IPv4 pseudo header followed by the contents, and
    [inet_chksum_pseudo_partial] takes the first [n] bytes of the contents.
    None of them changes the state. *)
Theorem chain_checksums s p l d src dest proto proto_len n :
  chain_at s p l d → Forall byte_ok d →
  0 ≤ src < 4294967296 → 0 ≤ dest < 4294967296 → 0 ≤ proto < 256 →
  0 ≤ proto_len < 65536 → Z.of_nat n < 65536 →
  let h := pseudo_header src dest proto proto_len in
  inet_chksum_pbuf p s = Some (checksum d, s) ∧
  ip_chksum_pseudo p proto proto_len src dest s = Some (checksum (h ++ d), s) ∧
  ip_chksum_pseudo_partial p proto proto_len (Z.of_nat n) src dest s
  = Some (checksum (h ++ take n d), s).
Proof.
  intros [Hc Hl Hd] Hb Hs Hdst Hp Hpl Hn h. pose proof (pchain_fuel _ _ _ Hc) as Hf.
  pose proof (le_sum_nonneg _ Hb). destruct (pseudo_addrs_spec src dest Hs Hdst) as [Ha _].
  assert (Hw : ∀ z, sw 0 * z = z) by (intros; apply Z.mul_1_l).
  split; [|split]; unfold inet_chksum_pbuf, ip_chksum_pseudo, inet_chksum_pseudo,
    inet_cksum_pseudo_base, ip_chksum_pseudo_partial, inet_chksum_pseudo_partial,
    inet_cksum_pseudo_partial_base;
    erewrite prog_bind_step by reflexivity.
  - destruct (chksum_chain_spec s l (chain_fuel s) p 0 0 d)
      as (acc & swapped & E & Hr & Hsw & Eq); auto; try lia.
    erewrite prog_bind_step by exact E. destruct (unswap acc swapped Hr Hsw) as [Hu Eu].
    unfold mret, prog_ret. rewrite lnot_16 by done. unfold checksum. do 3 f_equal.
    apply oc_unique; [done|]. etrans; [exact Eu|]. by rewrite Hw, Z.add_0_l in Eq.
  - destruct (chksum_chain_spec s l (chain_fuel s) p (pseudo_addrs src dest) 0 d)
      as (acc & swapped & E & Hr & Hsw & Eq); auto; try lia.
    erewrite prog_bind_step by exact E. unfold mret, prog_ret. do 2 f_equal.
    apply pseudo_finish_spec; try done. by rewrite Hw in Eq.
  - destruct (chksum_partial_spec s l (chain_fuel s) p n (pseudo_addrs src dest) 0 d)
      as (acc & swapped & E & Hr & Hsw & Eq); auto; try lia.
    erewrite prog_bind_step by exact E. unfold mret, prog_ret. do 2 f_equal.
    apply pseudo_finish_spec; try done; [by apply Forall_take|]. by rewrite Hw in Eq.
Qed.

Lemma inet_chksum_spec m a bs :
  load_bytes m a (length bs) = Some bs → Forall byte_ok bs →
  Z.of_nat (length bs) < 65536 →
  inet_chksum m a (Z.of_nat (length bs)) = Some (checksum bs).
Proof.
  intros Hl Hb Hn. unfold inet_chksum. rewrite lwip_standard_chksum_spec by done || lia.
  cbn [mbind option_bind]. f_equal. pose proof (oc_range _ (le_sum_nonneg _ Hb)) as Hr.
  unfold checksum. rewrite <- (lnot_16 (oc (le_sum bs))) by done. do 2 f_equal.
  change 0xffff with (2 ^ 16 - 1). rewrite land_ones_mod by lia. by rewrite Z.mod_small by lia.
Qed.

Lemma checksum_insert x y c :
  Forall byte_ok x → Forall byte_ok y → Nat.even (length x) = true →
  c = checksum (x ++ [0; 0] ++ y) →
  byte_ok (c mod 256) ∧ byte_ok (c / 256) ∧
  checksum (x ++ [c mod 256; c / 256] ++ y) = 0.
Proof.
  intros Hx Hy He Hc.
  assert (H0 : Forall byte_ok ([0; 0] ++ y)) by (repeat constructor; done || (apply Forall_app; done)).
  assert (H0x : Forall byte_ok (x ++ [0; 0] ++ y)) by (by apply Forall_app).
  pose proof (oc_range _ (le_sum_nonneg _ H0x)) as Hr. unfold checksum in Hc.
  assert (Hcr : 0 ≤ c ≤ 65535) by lia.
  assert (B1 : byte_ok (c mod 256)) by (unfold byte_ok; zmod).
  assert (B2 : byte_ok (c / 256)) by (unfold byte_ok; zmod).
  split; [done|]. split; [done|]. unfold checksum.
  enough (E : 65535 = oc (le_sum (x ++ [c mod 256; c / 256] ++ y))) by lia.
  apply oc_unique; [lia|]. symmetry.
  assert (H1 : Forall byte_ok ([c mod 256; c / 256] ++ y)) by (by do 2 (constructor; [done|])).
  pose proof (le_sum_app _ _ Hx H1) as E1. pose proof (le_sum_app _ _ Hx H0) as E0.
  pose proof (oc_oceq _ (le_sum_nonneg _ H0x)) as Eo.
  unfold weight in E1, E0. rewrite He in E1, E0. cbn [app le_sum] in *.
  rewrite Z.mul_1_l in *. pose proof (le_sum_nonneg _ Hx). pose proof (le_sum_nonneg _ Hy).
  etrans; [exact E1|].
  replace (le_sum x + (c mod 256 + 256 * (c / 256) + le_sum y))
    with (le_sum x + (0 + 256 * 0 + le_sum y) + c) by zmod.
  etrans; [apply oceq_add; [etrans; [symmetry; exact E0 | symmetry; exact Eo] | by apply oceq_refl; lia]|].
  apply (oceq_intro 0); lia.
Qed.

(** A checksum that [inet_chksum] computed over an area whose checksum
    field (two bytes at an even offset) is zero, stored into that field,
    makes the area verify: [inet_chksum] of the whole area is then 0.  This
    is what [icmp_input] and [ip4_input] test. *)
Theorem stored_checksum_verifies m a x y c m' :
  load_bytes m a (length (x ++ [0; 0] ++ y)) = Some (x ++ [0; 0] ++ y) →
  Forall byte_ok (x ++ [0; 0] ++ y) → Nat.even (length x) = true →
  Z.of_nat (length (x ++ [0; 0] ++ y)) < 65536 →
  inet_chksum m a (Z.of_nat (length (x ++ [0; 0] ++ y))) = Some c →
  store_bytes m (a + Z.of_nat (length x)) [c mod 256; c / 256] = Some m' →
  inet_chksum m' a (Z.of_nat (length (x ++ [0; 0] ++ y))) = Some 0.
Proof.
  intros Hl Hb He Hn Hc Hst. rewrite inet_chksum_spec in Hc by done. injection Hc as Hc.
  pose proof Hb as Hb'. apply Forall_app in Hb' as [Hx Hb']. apply Forall_app in Hb' as [_ Hy].
  destruct (checksum_insert x y c Hx Hy He (eq_sym Hc)) as (B1 & B2 & E).
  rewrite <- E. rewrite <- (inet_chksum_spec m' a).
  - by rewrite !length_app.
  - pose proof (load_store_inside _ _ _ _ _ _ _ Hl Hst) as Hls. cbn [length] in Hls.
    rewrite take_app_length, <- drop_drop, drop_app_length in Hls.
    rewrite !length_app in Hls |- *. apply Hls. cbn. lia.
  - apply Forall_app. split; [done|]. by do 2 (constructor; [done|]).
  - rewrite !length_app in Hn |- *. exact Hn.
Qed.

(** ** Instances *)

(** Two pbufs with odd lengths, the first one at an odd address. *)
Definition odd_bytes : bmem := list_to_map
  [(2001, 1); (2002, 2); (2003, 255); (2010, 254); (2011, 7); (2012, 0); (2013, 8); (2014, 200)].
Definition odd_chain : chain :=
  [(1000, MkPbuf 1100 2001 8 3 PBUF_ROM 0 1); (1100, MkPbuf 0 2010 5 5 PBUF_ROM 0 1)].
Definition odd_state : pstate :=
  PState (list_to_map odd_chain) odd_bytes (mem_init 536870912) (Pools [] [] ∅).

Lemma odd_chain_at : chain_at odd_state 1000 odd_chain [1; 2; 255; 254; 7; 0; 8; 200].
Proof. split; [by vm_compute | by vm_compute | by vm_compute]. Qed.

Lemma chksum_versions_agree_witness :
  lwip_standard_chksum1 odd_bytes 2001 3 = Some 768 ∧
  lwip_standard_chksum3 odd_bytes 2001 3 = lwip_standard_chksum odd_bytes 2001 3 ∧
  lwip_standard_chksum3 odd_bytes 2010 5 = lwip_standard_chksum odd_bytes 2010 5.
Proof.
  destruct (chksum_versions_agree odd_bytes 2001 [1; 2; 255]) as (H1 & H2 & H3);
    [by vm_compute | by repeat constructor | by vm_compute |].
  destruct (chksum_versions_agree odd_bytes 2010 [254; 7; 0; 8; 200]) as (_ & _ & H6);
    [by vm_compute | by repeat constructor | by vm_compute |].
  split; [|split; [exact H3 | exact H6]]. etrans; [exact H2|]. rewrite H1. reflexivity.
Defined.

Lemma chain_checksums_witness :
  inet_chksum_pbuf 1000 odd_state = Some (checksum [1; 2; 255; 254; 7; 0; 8; 200], odd_state) ∧
  ip_chksum_pseudo 1000 17 8 0x0100a8c0 0x0200a8c0 odd_state = Some (51565, odd_state) ∧
  ip_chksum_pseudo_partial 1000 17 8 4 0x0100a8c0 0x0200a8c0 odd_state
  = Some (checksum [192; 168; 0; 1; 192; 168; 0; 2; 0; 17; 0; 8; 1; 2; 255; 254], odd_state).
Proof.
  destruct (chain_checksums odd_state 1000 odd_chain _ 0x0100a8c0 0x0200a8c0 17 8 4 odd_chain_at)
    as (H1 & H2 & H3); [by repeat constructor | lia | lia | lia | lia | lia |].
  split; [exact H1|]. split; [|exact H3]. rewrite H2. reflexivity.
Defined.

Lemma stored_checksum_verifies_witness :
  let m : bmem := list_to_map [(100, 8); (101, 0); (102, 0); (103, 0); (104, 7)] in
  ∃ c m', inet_chksum m 100 5 = Some c ∧
    store_bytes m 102 [c mod 256; c / 256] = Some m' ∧ inet_chksum m' 100 5 = Some 0.
Proof.
  intros m. exists 65520. destruct (store_bytes m 102 [65520 mod 256; 65520 / 256]) as [m'|] eqn:E;
    [|by vm_compute in E].
  exists m'. split; [by vm_compute|]. split; [done|].
  apply (stored_checksum_verifies m 100 [8; 0] [7] 65520 m');
    [by vm_compute | by repeat constructor | done | done | by vm_compute | exact E].
Defined.
