(* ===== verification/Def.v ===== *)
(** * String helpers (middlewares/lwip/src/core/def.c)

    A [char *] is the list of the bytes from where it points to the end of
    the accessible area; reading the empty list is an access outside of it
    ([None]).  [char] is unsigned on this target.  The functions return what
    the code returns; the theorems show in particular that strings with a
    terminator are never left. *)

From stdpp Require Import base numbers list option.
From S2P Require Import Prelude.

(** [*p] and [p + 1] *)
Definition rd (p : bytes) : option (Z * bytes) :=
  match p with [] => None | c :: p' => Some (c, p') end.

(** A string and its terminator. *)
Definition cstr (s : bytes) : Prop := Forall (λ c, 0 < c < 256) s.
Definition str0 (s : bytes) : bytes := s ++ [0].

(** ** The C library functions in use *)

Fixpoint strlen (p : bytes) : option nat :=
  match p with
  | [] => None
  | c :: p' => if c =? 0 then Some O else n ← strlen p'; Some (S n)
  end.

(** 0 for equal prefixes, otherwise the difference of the first bytes that
    differ. *)
Fixpoint strncmp (p q : bytes) (n : nat) : option Z :=
  match n with
  | O => Some 0
  | S n' =>
      '(c, p') ← rd p; '(d, q') ← rd q;
      if negb (c =? d) then Some (c - d)
      else if c =? 0 then Some 0 else strncmp p' q' n'
  end.

(** ** lwip_strnstr *)

(** The result is the offset of the match, [None] inside for [NULL]. *)
Fixpoint strnstr_loop (p token : bytes) (tokenlen off n : nat) : option (option nat) :=
  match p with
  | [] => None
  | c :: p' =>
      if negb (c =? 0) && (off + tokenlen <=? n)%nat then
        t ← head token;
        r ← (if c =? t then strncmp p token tokenlen else Some 1);
        if r =? 0 then Some (Some off) else strnstr_loop p' token tokenlen (S off) n
      else Some None
  end.

Definition lwip_strnstr (buffer token : bytes) (n : nat) : option (option nat) :=
  tokenlen ← strlen token;
  if (tokenlen =? 0)%nat then Some (Some O)
  else strnstr_loop buffer token tokenlen O n.

(** ** lwip_stricmp and lwip_strnicmp *)

(** The comparison of two characters, the body of both loops: [true] when
    the loop goes on. *)
Definition chr_cmp (c1 c2 : Z) : bool :=
  if negb (c1 =? c2) then
    let c1_upc := u8 (Z.lor c1 0x20) in
    if (97 <=? c1_upc) && (c1_upc <=? 122) then
      let c2_upc := u8 (Z.lor c2 0x20) in
      if negb (c1_upc =? c2_upc) then false else true
    else false
  else true.

Fixpoint lwip_stricmp (str1 str2 : bytes) : option Z :=
  match str1 with
  | [] => None
  | c1 :: str1' =>
      '(c2, str2') ← rd str2;
      if chr_cmp c1 c2 then
        if negb (c1 =? 0) then lwip_stricmp str1' str2' else Some 0
      else Some 1
  end.

(** [while (len-- && c1 != 0)]: the length is tested after the comparison. *)
Fixpoint lwip_strnicmp (str1 str2 : bytes) (len : nat) : option Z :=
  match str1 with
  | [] => None
  | c1 :: str1' =>
      '(c2, str2') ← rd str2;
      if chr_cmp c1 c2 then
        match len with
        | O => Some 0
        | S len' => if negb (c1 =? 0) then lwip_strnicmp str1' str2' len' else Some 0
        end
      else Some 1
  end.

(** ** lwip_itoa *)

(** "zyxwvutsrqponmlkjihgfedcba9876543210123456789abcdefghijklmnopqrstuvwxyz" *)
Definition itoa_table : bytes :=
  rev (seqZ 97 26) ++ rev (seqZ 49 9) ++ seqZ 48 10 ++ seqZ 97 26.

(** The digits in the order they are written, and the last [tmp_value]. *)
Fixpoint itoa_digits (fuel : nat) (number : Z) : option (bytes * Z) :=
  match fuel with
  | O => None
  | S fuel' =>
      let tmp_value := number in
      let number := Z.quot number 10 in
      c ← itoa_table !! Z.to_nat (35 + (tmp_value - number * 10));
      if negb (number =? 0) then
        '(cs, t) ← itoa_digits fuel' number; Some (c :: cs, t)
      else Some ([c], tmp_value)
  end.

(** The exchange of the first and the last character, [ptr1] and [ptr] moving
    towards each other. *)
Fixpoint itoa_reverse (fuel : nat) (buf : bytes) (ptr1 ptr : nat) : option bytes :=
  match fuel with
  | O => None
  | S fuel' =>
      if (ptr1 <? ptr)%nat then
        tmp_char ← buf !! ptr;
        c ← buf !! ptr1;
        itoa_reverse fuel' (<[ptr1 := tmp_char]> (<[ptr := c]> buf)) (S ptr1) (pred ptr)
      else Some buf
  end.

(** What is written to [result]; [bufsize] is not used. *)
Definition lwip_itoa (bufsize : nat) (number : Z) : option bytes :=
  '(cs, tmp_value) ← itoa_digits 10 number;
  let cs := if tmp_value <? 0 then cs ++ [45] else cs in
  itoa_reverse (S (length cs)) (cs ++ [0]) O (pred (length cs)).

(** ** References *)

Definition lower (c : Z) : Z := if (65 <=? c) && (c <=? 90) then c + 32 else c.

(** [token] occurs in [s] at offset [i]. *)
Definition at_offset (token s : bytes) (i : nat) : Prop :=
  take (length token) (drop i s) = token.

(** The number that a string of decimal digits denotes. *)
Definition dec_value (ds : bytes) : Z := foldl (λ v c, v * 10 + (c - 48)) 0 ds.
Definition is_digit (c : Z) : Prop := 48 ≤ c ≤ 57.

(** ** The character comparison *)

Definition chr_cmp_ok (c1 c2 : Z) : bool :=
  bool_decide (chr_cmp c1 c2 = bool_decide (lower c1 = lower c2)).

Lemma chr_cmp_table : forallb (λ c1, forallb (chr_cmp_ok c1) (seqZ 0 256)) (seqZ 0 256) = true.
Proof. vm_compute. reflexivity. Qed.

Lemma chr_cmp_lower c1 c2 :
  byte_ok c1 → byte_ok c2 → chr_cmp c1 c2 = bool_decide (lower c1 = lower c2).
Proof.
  intros H1 H2. pose proof chr_cmp_table as H. rewrite forallb_forall in H.
  assert (Hin : ∀ c, byte_ok c → In c (seqZ 0 256)).
  { intros c Hc. apply list_elem_of_In, elem_of_seqZ. unfold byte_ok in Hc. lia. }
  specialize (H c1 (Hin _ H1)). rewrite forallb_forall in H. specialize (H c2 (Hin _ H2)).
  unfold chr_cmp_ok in H. by apply bool_decide_eq_true in H.
Qed.

Lemma lower_0 c : byte_ok c → lower c = 0 → c = 0.
Proof. unfold byte_ok, lower. intros Hc. destruct (_ && _); lia. Qed.

Lemma cstr_byte s c : cstr s → c ∈ str0 s → byte_ok c.
Proof.
  unfold str0, byte_ok. intros Hs [Hc| ->%list_elem_of_singleton]%elem_of_app; [|lia].
  unfold cstr in Hs. rewrite list.Forall_forall in Hs. apply Hs in Hc. lia.
Qed.

(** ** Comparison of strings *)

Lemma str0_cons c s : str0 (c :: s) = c :: str0 s.
Proof. done. Qed.

Lemma cstr_cons c s : cstr (c :: s) → byte_ok c ∧ c ≠ 0 ∧ cstr s.
Proof. intros [? ?]%Forall_cons_1. unfold byte_ok. split_and!; [lia | lia | lia | done]. Qed.

(** The first [n + 1] characters decide, terminators included. *)
Lemma lwip_strnicmp_spec s1 : ∀ s2 n,
  cstr s1 → cstr s2 →
  lwip_strnicmp (str0 s1) (str0 s2) n
  = Some (if bool_decide (lower <$> take (S n) (str0 s1) = lower <$> take (S n) (str0 s2))
          then 0 else 1).
Proof.
  assert (Hd : ∀ c d l k, lower c ≠ lower d →
    bool_decide (lower <$> c :: l = lower <$> d :: k) = false).
  { intros c d l k Hcd. apply bool_decide_eq_false. by intros [= ? _]. }
  induction s1 as [|c1 s1 IH]; intros s2 n H1 H2.
  - destruct s2 as [|c2 s2]; [by destruct n|]. apply cstr_cons in H2 as (Hb & H0 & _).
    rewrite str0_cons. cbn [str0 app lwip_strnicmp rd mbind option_bind take].
    assert (lower 0 ≠ lower c2) by (intros E; symmetry in E; apply lower_0 in E; tauto).
    rewrite chr_cmp_lower, bool_decide_false, Hd by done. done.
  - apply cstr_cons in H1 as (Hb1 & H0 & H1). rewrite str0_cons. destruct s2 as [|c2 s2].
    + cbn [str0 app lwip_strnicmp rd mbind option_bind take].
      assert (lower c1 ≠ lower 0) by (intros E; apply lower_0 in E; tauto).
      rewrite chr_cmp_lower, bool_decide_false, Hd by done. done.
    + apply cstr_cons in H2 as (Hb2 & _ & H2). rewrite str0_cons.
      cbn [lwip_strnicmp rd mbind option_bind]. rewrite chr_cmp_lower by done. rewrite !firstn_cons.
      destruct (decide (lower c1 = lower c2)) as [E|E]; [|by rewrite bool_decide_false, Hd].
      rewrite (bool_decide_true (lower c1 = lower c2)), (proj2 (Z.eqb_neq c1 0)) by done.
      cbn [negb]. destruct n as [|n]; [cbn; by rewrite E, bool_decide_true|].
      rewrite IH by done. f_equal. erewrite bool_decide_ext; [reflexivity|].
      rewrite !fmap_cons, E. split; [by intros -> | by intros [= ?]].
Qed.

Lemma stricmp_strnicmp p : ∀ q n, (length p ≤ n)%nat → lwip_stricmp p q = lwip_strnicmp p q n.
Proof.
  induction p as [|c p IH]; intros q n Hn; [done|]. cbn [lwip_stricmp lwip_strnicmp].
  destruct q as [|d q]; [done|]. cbn [rd mbind option_bind]. destruct (chr_cmp c d); [|done].
  destruct n as [|n]; [cbn in Hn; lia|]. rewrite (IH q n) by (cbn in Hn; lia). done.
Qed.

Lemma lwip_stricmp_spec s1 s2 :
  cstr s1 → cstr s2 →
  lwip_stricmp (str0 s1) (str0 s2)
  = Some (if bool_decide (lower <$> s1 = lower <$> s2) then 0 else 1).
Proof.
  intros H1 H2. set (n := (length (str0 s1) + length (str0 s2))%nat).
  rewrite (stricmp_strnicmp _ _ n) by lia. rewrite lwip_strnicmp_spec by done.
  rewrite !take_ge by lia. f_equal. erewrite bool_decide_ext; [reflexivity|].
  unfold str0. rewrite !fmap_app. split; [|by intros ->]. by intros [? _]%app_inj_tail.
Qed.

(** ** Search *)

Lemma strlen_str0 s rest : cstr s → strlen (s ++ 0 :: rest) = Some (length s).
Proof.
  induction s as [|c s IH]; intros H; [done|]. apply cstr_cons in H as (_ & H0 & H).
  cbn. rewrite (proj2 (Z.eqb_neq c 0)) by done. by rewrite IH.
Qed.

(** Inside a terminated string [strncmp] stays inside it. *)
Lemma strncmp_prefix t : ∀ s rest,
  cstr t → cstr s →
  ∃ r, strncmp (s ++ [0]) (t ++ 0 :: rest) (length t) = Some r ∧
       (r = 0 ↔ take (length t) s = t).
Proof.
  induction t as [|d t IH]; intros s rest Ht Hs; [exists 0; by destruct s|].
  apply cstr_cons in Ht as (Hd & Hd0 & Ht). cbn [length strncmp].
  destruct s as [|c s].
  - exists (0 - d). cbn [app rd mbind option_bind]. rewrite (proj2 (Z.eqb_neq 0 d)) by congruence.
    cbn. split; [done|]. split; [lia | done].
  - apply cstr_cons in Hs as (Hc & Hc0 & Hs). cbn [app rd mbind option_bind].
    destruct (Z.eqb_spec c d) as [->|Hne]; cbn [negb].
    + rewrite (proj2 (Z.eqb_neq d 0)) by done. destruct (IH s rest Ht Hs) as (r & E & Hr).
      exists r. split; [exact E|]. rewrite Hr. cbn. split; [by intros -> | by intros [= ->]].
    + exists (c - d). split; [done|]. cbn. split; [lia | by intros [= ? _]].
Qed.

Lemma strnstr_loop_spec t n rest s : ∀ off,
  cstr t → t ≠ [] → cstr s →
  match strnstr_loop (str0 s) (t ++ 0 :: rest) (length t) off n with
  | None => False
  | Some None => ∀ i, at_offset t s i → (n < off + i + length t)%nat
  | Some (Some k) => ∃ i, (k = off + i)%nat ∧ at_offset t s i ∧ (k + length t ≤ n)%nat ∧
      ∀ j, (j < i)%nat → ¬ at_offset t s j
  end.
Proof.
  induction s as [|c s IH]; intros off Ht Ht0 Hs.
  - cbn. intros i Hi. unfold at_offset in Hi. rewrite drop_nil, take_nil in Hi. by subst.
  - pose proof Hs as Hcs. apply cstr_cons in Hcs as (Hc & Hc0 & Hs').
    rewrite str0_cons. cbn [strnstr_loop].
    rewrite (proj2 (Z.eqb_neq c 0)) by done. cbn [negb andb].
    destruct (Nat.leb_spec (off + length t) n) as [Hle|Hgt]; last first.
    { intros i _. lia. }
    destruct t as [|d t]; [done|]. rewrite <- app_comm_cons. cbn [head mbind option_bind].
    change (d :: t ++ 0 :: rest) with ((d :: t) ++ 0 :: rest).
    set (r := if c =? d then _ else _).
    assert (Hr : ∃ z, r = Some z ∧ (z = 0 ↔ at_offset (d :: t) (c :: s) 0)).
    { unfold r, at_offset. rewrite drop_0. destruct (Z.eqb_spec c d) as [->|Hne].
      - apply (strncmp_prefix (d :: t) (d :: s) rest); done.
      - exists 1. split; [done|]. cbn. split; [done | by intros [= ? _]]. }
    destruct Hr as (z & -> & Hz). cbn [mbind option_bind].
    destruct (Z.eqb_spec z 0) as [Ez|Ez].
    + exists O. split; [lia|]. split; [tauto|]. split; [lia|]. intros j Hj. lia.
    + specialize (IH (S off) Ht Ht0 Hs').
      destruct (strnstr_loop (str0 s) _ _ _ _) as [[k|]|]; [| |done].
      * destruct IH as (i & -> & Hi & Hb & Hf). exists (S i). split; [lia|]. split; [exact Hi|].
        split; [lia|]. intros [|j] Hj; [tauto|]. apply (Hf j). lia.
      * intros [|i] Hi; [tauto|]. specialize (IH i Hi). lia.
Qed.

(** ** Decimal output *)

Lemma itoa_table_digit r :
  -9 ≤ r ≤ 9 → itoa_table !! Z.to_nat (35 + r) = Some (48 + Z.abs r).
Proof.
  intros Hr. assert (Hin : r ∈ seqZ (-9) 19) by (apply elem_of_seqZ; lia).
  assert (H : Forall (λ r, itoa_table !! Z.to_nat (35 + r) = Some (48 + Z.abs r)) (seqZ (-9) 19))
    by (vm_compute; repeat constructor).
  rewrite list.Forall_forall in H. by apply H.
Qed.

Lemma dec_value_app x y :
  dec_value (x ++ y) = dec_value x * 10 ^ Z.of_nat (length y) + dec_value y.
Proof.
  unfold dec_value. revert x. induction y as [|c y IH] using rev_ind; intros x.
  - rewrite app_nil_r. cbn. lia.
  - rewrite app_assoc, (foldl_app _ (x ++ y)), (foldl_app _ y), IH, length_app. cbn [foldl length].
    rewrite Nat2Z.inj_add, Z.pow_add_r by lia. change (10 ^ Z.of_nat 1) with 10. lia.
Qed.

(** The digits come out with the least significant one first; the first
    digit of the number is not zero, except for 0 itself. *)
Lemma itoa_digits_spec fuel : ∀ n,
  Z.abs n < 10 ^ Z.of_nat fuel → (0 < fuel)%nat →
  ∃ cs t, itoa_digits fuel n = Some (cs, t) ∧ Forall is_digit cs ∧
    dec_value (rev cs) = Z.abs n ∧ (t < 0 ↔ n < 0) ∧ (length cs ≤ fuel)%nat ∧
    (n = 0 ∧ cs = [48] ∨ ∃ cs' c, cs = cs' ++ [c] ∧ c ≠ 48).
Proof.
  induction fuel as [|fuel IH]; intros n Hn Hf; [lia|]. cbn [itoa_digits].
  rewrite Nat2Z.inj_succ, Z.pow_succ_r in Hn by lia.
  assert (Hq : Z.abs (Z.quot n 10) * 10 + Z.abs (n - Z.quot n 10 * 10) = Z.abs n ∧
               -9 ≤ n - Z.quot n 10 * 10 ≤ 9) by (Z.to_euclidean_division_equations; lia).
  destruct Hq as [Hq Hr]. set (q := Z.quot n 10) in *. rewrite itoa_table_digit by done.
  cbn [mbind option_bind]. set (d := 48 + Z.abs (n - q * 10)) in *.
  assert (Hd : is_digit d) by (unfold d, is_digit; lia).
  destruct (Z.eqb_spec q 0) as [E|E]; cbn [negb].
  - exists [d], n. split; [done|]. split; [constructor; [exact Hd | constructor]|].
    split; [unfold dec_value; cbn; unfold d; lia|]. split; [done|]. split; [cbn; lia|].
    destruct (decide (n = 0)) as [->|]; [left | right].
    + split; [done|]. unfold d. by rewrite E.
    + exists [], d. split; [done|]. unfold d. lia.
  - destruct fuel as [|fuel]; [change (10 ^ Z.of_nat 0) with 1 in Hn; lia|].
    destruct (IH q) as (cs & t & Ec & Hcs & Hv & Ht & Hlen & Hlast); [lia | lia |].
    rewrite Ec. cbn [mbind option_bind]. exists (d :: cs), t. split; [done|].
    split; [by constructor|]. split.
    { cbn [rev]. rewrite dec_value_app, Hv. cbn [length]. change (10 ^ Z.of_nat 1) with 10.
      unfold dec_value. cbn [foldl]. unfold d. lia. }
    split; [rewrite Ht; unfold q in *; clear IH; Z.to_euclidean_division_equations; lia|].
    split; [cbn [length]; lia|]. right.
    destruct Hlast as [[? _]|(cs' & c & -> & Hc)]; [lia|]. by exists (d :: cs'), c.
Qed.

(** The part between the two pointers is reversed. *)
Lemma itoa_reverse_spec fuel : ∀ pre mid post,
  (length mid < fuel)%nat →
  itoa_reverse fuel (pre ++ mid ++ post) (length pre) (pred (length pre + length mid))
  = Some (pre ++ rev mid ++ post).
Proof.
  induction fuel as [|fuel IH]; intros pre mid post Hf; [lia|]. cbn [itoa_reverse].
  destruct mid as [|c mid _] using rev_ind.
  { by rewrite (proj2 (Nat.ltb_ge _ _)) by (cbn [length]; lia). }
  destruct mid as [|a mid].
  { by rewrite (proj2 (Nat.ltb_ge _ _)) by (cbn [length app]; lia). }
  rewrite length_app in *. cbn [length] in *. rewrite (proj2 (Nat.ltb_lt _ _)) by lia.
  assert (E1 : (pre ++ ((a :: mid) ++ [c]) ++ post) !! pred (length pre + (S (length mid) + 1)) = Some c).
  { rewrite lookup_app_r by lia. rewrite <- app_assoc, lookup_app_r by (cbn; lia).
    by replace (_ - _ - _)%nat with 0%nat by (cbn [length]; lia). }
  assert (E2 : (pre ++ ((a :: mid) ++ [c]) ++ post) !! length pre = Some a).
  { rewrite lookup_app_r by lia. by rewrite Nat.sub_diag. }
  rewrite E1, E2. cbn [mbind option_bind].
  replace (<[length pre := c]> (<[pred (length pre + (S (length mid) + 1)) := a]>
    (pre ++ ((a :: mid) ++ [c]) ++ post))) with ((pre ++ [c]) ++ mid ++ (a :: post)).
  2: { rewrite (insert_app_r_alt pre) by lia. rewrite <- (app_assoc (a :: mid)).
       rewrite (insert_app_r_alt (a :: mid)) by (cbn; lia).
       replace (_ - _ - _)%nat with 0%nat by (cbn [length]; lia). cbn [app insert list_insert].
       rewrite (insert_app_r_alt pre), Nat.sub_diag by lia. cbn [insert list_insert].
       by rewrite <- app_assoc. }
  specialize (IH (pre ++ [c]) mid (a :: post)). rewrite length_app in IH. cbn [length] in IH.
  replace (S (length pre)) with (length pre + 1)%nat by lia.
  replace (pred (pred (length pre + (S (length mid) + 1))))
    with (pred (length pre + 1 + length mid)) by lia.
  rewrite IH by lia. f_equal. rewrite rev_app_distr. cbn [rev app]. by rewrite <- !app_assoc.
Qed.

(** ** Claims *)

(** the case insensitive comparisons on terminated strings: they always
    return, without reading past a terminator; [lwip_stricmp] returns 0
    exactly for strings that are equal up to the case of the ASCII letters;
    [lwip_strnicmp] with length [n] returns 0 exactly when the first [n + 1]
    characters (with the terminators) are, one more than its length. *)
Theorem string_comparisons s1 s2 n :
  cstr s1 → cstr s2 →
  lwip_stricmp (str0 s1) (str0 s2)
  = Some (if bool_decide (lower <$> s1 = lower <$> s2) then 0 else 1) ∧
  lwip_strnicmp (str0 s1) (str0 s2) n
  = Some (if bool_decide (lower <$> take (S n) (str0 s1) = lower <$> take (S n) (str0 s2))
          then 0 else 1).
Proof. intros H1 H2. split; [by apply lwip_stricmp_spec | by apply lwip_strnicmp_spec]. Qed.

(** "aBc" and "Abd" *)
Lemma string_comparisons_witness :
  lwip_stricmp (str0 [97; 66; 99]) (str0 [65; 98; 100]) = Some 1 ∧
  lwip_strnicmp (str0 [97; 66; 99]) (str0 [65; 98; 100]) 1 = Some 0 ∧
  lwip_strnicmp (str0 [97; 66; 99]) (str0 [65; 98; 100]) 2 = Some 1.
Proof.
  destruct (string_comparisons [97; 66; 99] [65; 98; 100] 1) as [H1 H2];
    [by repeat constructor | by repeat constructor |].
  destruct (string_comparisons [97; 66; 99] [65; 98; 100] 2) as [_ H3];
    [by repeat constructor | by repeat constructor |].
  rewrite H1, H2, H3. done.
Defined.

(** [lwip_strnstr] on terminated strings returns, without reading past a
    terminator, the first offset at which the token occurs and ends within
    the first [n] bytes, and [NULL] if there is none. *)
Theorem lwip_strnstr_first s t n :
  cstr s → cstr t →
  match lwip_strnstr (str0 s) (str0 t) n with
  | None => False
  | Some None => t ≠ [] ∧ ∀ i, at_offset t s i → (n < i + length t)%nat
  | Some (Some k) => at_offset t s k ∧ (t = [] ∨ (k + length t ≤ n)%nat) ∧
      ∀ j, (j < k)%nat → ¬ at_offset t s j
  end.
Proof.
  intros Hs Ht. unfold lwip_strnstr.
  change (strlen (str0 t)) with (strlen (t ++ 0 :: [])). rewrite strlen_str0 by done.
  cbn [mbind option_bind]. destruct t as [|d t].
  { cbn. split; [by unfold at_offset|]. split; [by left|]. intros j Hj. lia. }
  cbn [length Nat.eqb]. pose proof (strnstr_loop_spec (d :: t) n [] s 0 Ht ltac:(done) Hs) as H.
  cbn [length] in H. change ((d :: t) ++ [0]) with (str0 (d :: t)) in H.
  destruct (strnstr_loop _ _ _ _ _) as [[k|]|]; [| |done].
  - destruct H as (i & -> & Hi & Hn & Hf). split; [exact Hi|]. split; [right; cbn [length]; lia|].
    exact Hf.
  - split; [done|]. exact H.
Qed.

(** "ab" in "xabab", and within the first 2 bytes of it *)
Lemma lwip_strnstr_first_witness :
  lwip_strnstr (str0 [120; 97; 98; 97; 98]) (str0 [97; 98]) 5 = Some (Some 1%nat) ∧
  at_offset [97; 98] [120; 97; 98; 97; 98] 1 ∧
  lwip_strnstr (str0 [120; 97; 98; 97; 98]) (str0 [97; 98]) 2 = Some None.
Proof.
  pose proof (lwip_strnstr_first [120; 97; 98; 97; 98] [97; 98] 5
    ltac:(by repeat constructor) ltac:(by repeat constructor)) as H.
  split; [reflexivity|]. split; [|reflexivity]. exact (proj1 H).
Defined.

(** [lwip_itoa] writes the decimal representation of every 32-bit
    integer: a minus sign for the negative ones, the digits of the absolute
    value without a leading zero, and the terminator.  It uses up to twelve
    bytes, whatever [bufsize] says. *)
Theorem lwip_itoa_decimal bufsize n :
  -2147483648 ≤ n ≤ 2147483647 →
  ∃ ds, lwip_itoa bufsize n = Some ((if n <? 0 then [45] else []) ++ ds ++ [0]) ∧
    Forall is_digit ds ∧ dec_value ds = Z.abs n ∧ (1 ≤ length ds ≤ 10)%nat ∧
    (n = 0 ∧ ds = [48] ∨ ∃ c ds', ds = c :: ds' ∧ c ≠ 48).
Proof.
  intros Hn. unfold lwip_itoa.
  destruct (itoa_digits_spec 10 n) as (cs & t & -> & Hd & Hv & Ht & Hlen & Hl); [lia | lia |].
  cbn [mbind option_bind]. exists (rev cs).
  replace (t <? 0) with (n <? 0) by (destruct (Z.ltb_spec t 0), (Z.ltb_spec n 0); tauto || lia).
  set (w := if n <? 0 then cs ++ [45] else cs).
  pose proof (itoa_reverse_spec (S (length w)) [] w [0]) as Hr. cbn [app length Nat.add] in Hr.
  rewrite Hr by lia. split.
  { unfold w. destruct (n <? 0); [by rewrite rev_app_distr | done]. }
  split; [by apply Forall_rev|]. split; [exact Hv|]. rewrite length_rev.
  destruct Hl as [[-> ->]|(cs' & c & -> & Hc)].
  - split; [cbn; lia|]. by left.
  - split; [rewrite length_app in *; cbn in *; lia|]. right. rewrite rev_app_distr.
    by exists c, (rev cs').
Qed.

Lemma lwip_itoa_decimal_witness :
  lwip_itoa 4 (-2147483648) = Some [45; 50; 49; 52; 55; 52; 56; 51; 54; 52; 56; 0] ∧
  (∃ ds, lwip_itoa 4 1203 = Some (ds ++ [0]) ∧ dec_value ds = 1203).
Proof.
  split; [reflexivity|].
  destruct (lwip_itoa_decimal 4 1203) as (ds & E & _ & Hv & _); [lia|].
  exists ds. split; [exact E | exact Hv].
Defined.
