(* ===== verification/Ip4Addr.v ===== *)
(** * IPv4 addresses (middlewares/lwip/src/core/ipv4/ip4_addr.c)

    An address is the [u32_t] whose bytes lie in memory in network order, so
    on this little endian target the first byte of the dotted notation is the
    least significant one.  Strings are as in [Def]. *)

From stdpp Require Import base numbers list option.
From S2P Require Import Prelude Chksum Def.

(** ** Constants and the part of [struct netif] in use *)

Definition IPADDR_ANY : Z := 0.
Definition IPADDR_NONE : Z := 0xffffffff.
Definition IPADDR_BROADCAST : Z := 0xffffffff.
Definition IP4ADDR_STRLEN_MAX : Z := 16.
Definition NETIF_FLAG_BROADCAST : Z := 0x02.

Record netif := Netif {
  nf_ip_addr : Z;
  nf_netmask : Z;
  nf_gw : Z;
  nf_hwaddr : bytes;
  nf_flags : Z;
  nf_next : Z;                      (* the next interface of the list *)
  nf_name : bytes;
  nf_num : Z;
  nf_state : Z;
  nf_input : Z;                     (* function pointers *)
  nf_link_callback : Z;
  nf_igmp_mac_filter : Z;
  nf_client_data : list Z;
  nf_mtu : Z
}.

(** [~] on a [u32_t] *)
Definition not32 (a : Z) : Z := u32 (Z.lnot a).

Definition ip4_addr_netcmp (addr1 addr2 mask : Z) : bool := Z.land addr1 mask =? Z.land addr2 mask.

Definition ip4_addr_isbroadcast_u32 (addr : Z) (n : netif) : Z :=
  if (not32 addr =? IPADDR_ANY) || (addr =? IPADDR_ANY) then 1
  else if Z.land (nf_flags n) NETIF_FLAG_BROADCAST =? 0 then 0
  else if addr =? nf_ip_addr n then 0
  else if ip4_addr_netcmp addr (nf_ip_addr n) (nf_netmask n)
          && (Z.land addr (not32 (nf_netmask n))
              =? Z.land IPADDR_BROADCAST (not32 (nf_netmask n)))
  then 1 else 0.

(** ** Netmasks *)

(** The first zero bit from the top. *)
Fixpoint mask_ones (fuel : nat) (nm mask : Z) : option Z :=
  match fuel with
  | O => None
  | S fuel' =>
      if negb (mask =? 0) then
        if Z.land nm mask =? 0 then Some mask else mask_ones fuel' nm (Z.shiftr mask 1)
      else Some mask
  end.
(** No one below it. *)
Fixpoint mask_zeros (fuel : nat) (nm mask : Z) : option Z :=
  match fuel with
  | O => None
  | S fuel' =>
      if negb (mask =? 0) then
        if negb (Z.land nm mask =? 0) then Some 0 else mask_zeros fuel' nm (Z.shiftr mask 1)
      else Some 1
  end.

Definition ip4_addr_netmask_valid (netmask : Z) : option Z :=
  let nm_hostorder := lwip_htonl netmask in
  mask ← mask_ones 33 nm_hostorder (Z.shiftl 1 31);
  mask_zeros 33 nm_hostorder mask.

(** ** Character classes *)

Definition in_range (c lo up : Z) : bool := (lo <=? u8 c) && (u8 c <=? up).
Definition isdigit (c : Z) : bool := in_range c 48 57.
Definition isxdigit (c : Z) : bool := isdigit c || in_range c 97 102 || in_range c 65 70.
Definition islower (c : Z) : bool := in_range c 97 122.
Definition isspace (c : Z) : bool :=
  (c =? 32) || (c =? 12) || (c =? 10) || (c =? 13) || (c =? 9) || (c =? 11).

(** ** ip4addr_aton *)

(** The digits of one number; [c] is the first byte of [cp]. *)
Fixpoint aton_digits (base val : Z) (cp : bytes) : option (Z * bytes) :=
  match cp with
  | [] => None
  | c :: cp' =>
      if isdigit c then aton_digits base (u32 (u32 (val * base) + u32 (c - 48))) cp'
      else if (base =? 16) && isxdigit c then
        aton_digits base (Z.lor (u32 (Z.shiftl val 4))
                                (u32 (c + 10 - (if islower c then 97 else 65)))) cp'
      else Some (val, cp)
  end.

(** One number with its base; the inner [None] is [return 0]. *)
Definition aton_part (cp : bytes) : option (option (Z * bytes)) :=
  '(c, cp') ← rd cp;
  if negb (isdigit c) then Some None else
  '(base, cp) ← (if c =? 48 then
                   '(c, cp'') ← rd cp';
                   if (c =? 120) || (c =? 88) then Some (16, cp'') else Some (8, cp')
                 else Some (10, cp));
  r ← aton_digits base 0 cp;
  Some (Some r).

(** The numbers before the last dot, the last number, and what follows. *)
Fixpoint aton_parts (fuel : nat) (parts : list Z) (cp : bytes)
    : option (option (list Z * Z * bytes)) :=
  match fuel with
  | O => None
  | S fuel' =>
      r ← aton_part cp;
      match r with
      | None => Some None
      | Some (val, cp) =>
          '(c, cp') ← rd cp;
          if c =? 46 then
            if (3 <=? length parts)%nat then Some None
            else aton_parts fuel' (parts ++ [val]) cp'
          else Some (Some (parts, val, cp))
      end
  end.

(** The address from its parts. *)
Definition aton_concoct (parts : list Z) (val : Z) : option Z :=
  match parts with
  | [] => Some val
  | [p0] =>
      if 0xffffff <? val then None
      else if 0xff <? p0 then None
      else Some (Z.lor val (u32 (Z.shiftl p0 24)))
  | [p0; p1] =>
      if 0xffff <? val then None
      else if (0xff <? p0) || (0xff <? p1) then None
      else Some (Z.lor val (Z.lor (u32 (Z.shiftl p0 24)) (u32 (Z.shiftl p1 16))))
  | [p0; p1; p2] =>
      if 0xff <? val then None
      else if (0xff <? p0) || (0xff <? p1) || (0xff <? p2) then None
      else Some (Z.lor val (Z.lor (Z.lor (u32 (Z.shiftl p0 24)) (u32 (Z.shiftl p1 16)))
                                  (u32 (Z.shiftl p2 8))))
  | _ => Some val
  end.

(** [Some None] is the result 0, [Some (Some a)] the result 1 with [*addr = a]. *)
Definition ip4addr_aton (cp : bytes) : option (option Z) :=
  r ← aton_parts 4 [] cp;
  match r with
  | None => Some None
  | Some (parts, val, cp) =>
      '(c, _) ← rd cp;
      if negb (c =? 0) && negb (isspace c) then Some None
      else match aton_concoct parts val with
           | None => Some None
           | Some val => Some (Some (lwip_htonl val))
           end
  end.

Definition ipaddr_addr (cp : bytes) : option Z :=
  r ← ip4addr_aton cp;
  Some (match r with Some a => a | None => IPADDR_NONE end).

(** ** ip4addr_ntoa_r *)

(** The digits of a byte, least significant first, and what is left of it;
    [inv] has room for three. *)
Fixpoint ntoa_inv (room : nat) (ap : Z) : option bytes :=
  match room with
  | O => None
  | S room' =>
      let rem := ap mod 10 in
      let ap := ap / 10 in
      if negb (ap =? 0) then inv ← ntoa_inv room' ap; Some ((48 + rem) :: inv)
      else Some [48 + rem]
  end.

(** Output of characters with the test against [buflen]: [inl] is [NULL]. *)
Fixpoint ntoa_put (buflen : Z) (cs : bytes) (len : Z) (out : bytes) : bytes + (Z * bytes) :=
  match cs with
  | [] => inr (len, out)
  | c :: cs' => if buflen <=? len then inl out else ntoa_put buflen cs' (len + 1) (out ++ [c])
  end.

Fixpoint ntoa_bytes (buflen : Z) (aps : bytes) (len : Z) (out : bytes)
    : option (bytes + (Z * bytes)) :=
  match aps with
  | [] => Some (inr (len, out))
  | ap :: aps' =>
      inv ← ntoa_inv 3 ap;
      match ntoa_put buflen (rev inv ++ [46]) len out with
      | inl out => Some (inl out)
      | inr (len, out) => ntoa_bytes buflen aps' len out
      end
  end.

(** The characters in the buffer afterwards; [false] for [NULL]. *)
Definition ip4addr_ntoa_r (addr buflen : Z) : option (bool * bytes) :=
  r ← ntoa_bytes buflen (addr_bytes addr) 0 [];
  match r with
  | inl out => Some (false, out)
  | inr (_, out) => Some (true, <[pred (length out) := 0]> out)
  end.

Definition ip4addr_ntoa (addr : Z) : option (bool * bytes) :=
  ip4addr_ntoa_r addr IP4ADDR_STRLEN_MAX.

Example aton_ex : ip4addr_aton (str0 [49; 46; 50; 46; 51; 46; 52]) = Some (Some 0x04030201).
Proof. reflexivity. Qed.
Example ntoa_ex : ip4addr_ntoa 0x040302ff = Some (true, [50; 53; 53; 46; 50; 46; 51; 46; 52; 0]).
Proof. reflexivity. Qed.

(** ** Byte order *)

(** The address of the dotted quad [a.b.c.d], and its value in host order. *)
Definition quad (a b c d : Z) : Z := a + 256 * b + 65536 * c + 16777216 * d.

Lemma land_shiftl y m k : 0 ≤ k → Z.land y (Z.shiftl m k) = Z.shiftl (Z.land (Z.shiftr y k) m) k.
Proof.
  intros Hk. apply Z.bits_inj'. intros i Hi. rewrite Z.land_spec, !Z.shiftl_spec by lia.
  destruct (Z.lt_ge_cases i k).
  - rewrite (Z.testbit_neg_r m), (Z.testbit_neg_r (Z.land _ _)) by lia. apply andb_false_r.
  - rewrite Z.land_spec, Z.shiftr_spec by lia. by replace (i - k + k) with i by lia.
Qed.

Lemma lor_bytes a b c d :
  byte_ok a → byte_ok b → byte_ok c → byte_ok d →
  Z.lor d (Z.lor (Z.lor (Z.shiftl a 24) (Z.shiftl b 16)) (Z.shiftl c 8)) = quad d c b a.
Proof.
  unfold byte_ok. intros Ha Hb Hc Hd.
  replace (Z.shiftl a 24) with (Z.shiftl (Z.shiftl (Z.shiftl a 8) 8) 8)
    by (rewrite !Z.shiftl_shiftl by lia; done).
  replace (Z.shiftl b 16) with (Z.shiftl (Z.shiftl b 8) 8) by (rewrite !Z.shiftl_shiftl by lia; done).
  rewrite <- !Z.shiftl_lor. rewrite lor_shiftl_add; [|lia | change (2 ^ 8) with 256; lia].
  rewrite Z.lor_comm, lor_shiftl_add; [|lia | change (2 ^ 8) with 256; lia].
  rewrite Z.lor_comm, lor_shiftl_add; [|lia | change (2 ^ 8) with 256; lia].
  change (2 ^ 8) with 256. unfold quad. lia.
Qed.

Lemma quad_range a b c d :
  byte_ok a → byte_ok b → byte_ok c → byte_ok d → 0 ≤ quad a b c d < 4294967296.
Proof. unfold byte_ok, quad. lia. Qed.

Lemma quad_addr_bytes a b c d :
  byte_ok a → byte_ok b → byte_ok c → byte_ok d → addr_bytes (quad a b c d) = [a; b; c; d].
Proof.
  unfold byte_ok, quad, addr_bytes. intros Ha Hb Hc Hd.
  repeat (apply (f_equal2 cons); [zmod|]). done.
Qed.

Lemma quad_of_addr n :
  0 ≤ n < 4294967296 →
  ∃ a b c d, byte_ok a ∧ byte_ok b ∧ byte_ok c ∧ byte_ok d ∧ n = quad a b c d.
Proof.
  intros Hn. exists (n mod 256), (n / 256 mod 256), (n / 65536 mod 256), (n / 16777216 mod 256).
  unfold byte_ok, quad. split_and!; zmod.
Qed.

Lemma htonl_quad a b c d :
  byte_ok a → byte_ok b → byte_ok c → byte_ok d → lwip_htonl (quad a b c d) = quad d c b a.
Proof.
  intros Ha Hb Hc Hd. pose proof (quad_range d c b a Hd Hc Hb Ha) as Hr.
  unfold lwip_htonl. enough (E : PP_HTONL (quad a b c d) = quad d c b a).
  { rewrite E. by apply u32_small. }
  unfold PP_HTONL. change 0xff00 with (Z.shiftl (2 ^ 8 - 1) 8).
  change 0xff0000 with (Z.shiftl (2 ^ 8 - 1) 16). change 0xff000000 with (Z.shiftl (2 ^ 8 - 1) 24).
  change 0xff with (2 ^ 8 - 1). rewrite !land_shiftl, !land_ones_mod by lia.
  rewrite !(Z.shiftr_div_pow2 (quad _ _ _ _)) by lia.
  replace (quad a b c d mod 2 ^ 8) with a by (unfold quad, byte_ok in *; zmod).
  replace ((quad a b c d / 2 ^ 8) mod 2 ^ 8) with b by (unfold quad, byte_ok in *; zmod).
  replace ((quad a b c d / 2 ^ 16) mod 2 ^ 8) with c by (unfold quad, byte_ok in *; zmod).
  replace ((quad a b c d / 2 ^ 24) mod 2 ^ 8) with d by (unfold quad, byte_ok in *; zmod).
  rewrite Z.shiftl_shiftl, !Z.shiftr_shiftl_l by lia. cbn [Z.add Z.sub Z.opp Z.pos_sub].
  change (8 + 8) with 16. change (16 - 8) with 8. change (24 - 24) with 0. rewrite Z.shiftl_0_r.
  rewrite Z.lor_comm. by apply lor_bytes.
Qed.

(** ** Netmasks *)

Lemma land_pow2_zero n i : 0 ≤ i → (Z.land n (2 ^ i) =? 0) = negb (Z.testbit n i).
Proof.
  intros Hi. destruct (Z.testbit n i) eqn:E; cbn [negb].
  - apply Z.eqb_neq. intros H0. apply (f_equal (λ z, Z.testbit z i)) in H0.
    rewrite Z.land_spec, Z.pow2_bits_true, Z.bits_0, E in H0 by done. done.
  - apply Z.eqb_eq. apply Z.bits_inj'. intros j Hj. rewrite Z.land_spec, Z.bits_0.
    destruct (decide (i = j)) as [->|]; [by rewrite E|].
    rewrite Z.pow2_bits_false by done. apply andb_false_r.
Qed.

(** The mask with [k] bits below and including it; 0 for [k = 0]. *)
Definition level (k : nat) : Z := match k with O => 0 | S k' => 2 ^ Z.of_nat k' end.

Lemma level_shiftr k : Z.shiftr (level (S k)) 1 = level k.
Proof.
  unfold level. rewrite Z.shiftr_div_pow2 by lia. change (2 ^ 1) with 2.
  destruct k as [|k]; [done|]. rewrite Nat2Z.inj_succ, Z.pow_succ_r by lia.
  rewrite Z.mul_comm. by apply Z.div_mul.
Qed.

Lemma level_nonzero k : (level (S k) =? 0) = false.
Proof. apply Z.eqb_neq. cbn [level]. lia. Qed.

Lemma mask_ones_spec nm k : ∀ fuel, (k < fuel)%nat →
  ∃ j, (j ≤ k)%nat ∧ mask_ones fuel nm (level k) = Some (level j) ∧
    (∀ i, Z.of_nat j ≤ i < Z.of_nat k → Z.testbit nm i = true) ∧
    (∀ i, Z.of_nat j = i + 1 → Z.testbit nm i = false ∨ j = O).
Proof.
  induction k as [|k IH]; intros [|fuel] Hf; try lia; cbn [mask_ones].
  - exists O. split; [lia|]. split; [done|]. split; [intros i Hi; lia | auto].
  - rewrite level_nonzero. cbn [negb level]. rewrite land_pow2_zero by lia.
    destruct (Z.testbit nm (Z.of_nat k)) eqn:E; cbn [negb].
    + change (2 ^ Z.of_nat k) with (level (S k)). rewrite level_shiftr.
      destruct (IH fuel) as (j & Hj & Ej & Hones & Hz); [lia|].
      exists j. split; [lia|]. split; [done|]. split; [|done].
      intros i Hi. destruct (decide (i = Z.of_nat k)) as [->|]; [done|]. apply Hones. lia.
    + exists (S k). split; [lia|]. split; [done|]. split; [intros i Hi; lia|].
      intros i Hi. left. by replace i with (Z.of_nat k) by lia.
Qed.

Lemma mask_zeros_spec nm k : ∀ fuel, (k < fuel)%nat →
  ∃ r, mask_zeros fuel nm (level k) = Some r ∧ (r = 0 ∨ r = 1) ∧
    (r = 1 ↔ ∀ i, 0 ≤ i < Z.of_nat k → Z.testbit nm i = false).
Proof.
  induction k as [|k IH]; intros [|fuel] Hf; try lia; cbn [mask_zeros].
  - exists 1. split; [done|]. split; [auto|]. split; [intros _ i Hi; lia | done].
  - rewrite level_nonzero. cbn [negb level]. rewrite land_pow2_zero, negb_involutive by lia.
    destruct (Z.testbit nm (Z.of_nat k)) eqn:E.
    + exists 0. split; [done|]. split; [auto|]. split; [done|].
      intros H. rewrite (H (Z.of_nat k)) in E by lia. done.
    + change (2 ^ Z.of_nat k) with (level (S k)). rewrite level_shiftr.
      destruct (IH fuel) as (r & Er & Hr & Hiff); [lia|]. exists r.
      split; [done|]. split; [done|]. rewrite Hiff. split; intros H i Hi; [|apply H; lia].
      destruct (decide (i = Z.of_nat k)) as [->|]; [done|]. apply H. lia.
Qed.

(** The bits of a netmask with [n - k] leading ones. *)
Lemma netmask_bits n k i :
  0 ≤ k ≤ n → 0 ≤ i < n → Z.testbit (2 ^ n - 2 ^ k) i = (k <=? i).
Proof.
  intros Hk Hi. replace (2 ^ n - 2 ^ k) with (Z.shiftl (Z.ones (n - k)) k).
  - rewrite Z.shiftl_spec by lia. destruct (Z.leb_spec k i).
    + apply Z.ones_spec_low. lia.
    + apply Z.testbit_neg_r. lia.
  - rewrite Z.shiftl_mul_pow2, Z.ones_equiv by lia.
    replace (2 ^ n) with (2 ^ (n - k) * 2 ^ k) by (rewrite <- Z.pow_add_r by lia; f_equal; lia). lia.
Qed.

Lemma bits_eq_32 a b :
  0 ≤ a < 4294967296 → 0 ≤ b < 4294967296 →
  (∀ i, 0 ≤ i < 32 → Z.testbit a i = Z.testbit b i) → a = b.
Proof.
  intros Ha Hb H. apply Z.bits_inj'. intros i Hi.
  destruct (Z.lt_ge_cases i 32); [apply H; lia|].
  change 4294967296 with (2 ^ 32) in *.
  rewrite <- (Z.mod_small a (2 ^ 32)), <- (Z.mod_small b (2 ^ 32)) by lia.
  by rewrite !Z.mod_pow2_bits_high by lia.
Qed.

(** [ip4_addr_netmask_valid] always returns 0 or 1, and it returns 1
    exactly for the netmasks that are, in host order, a number of ones
    followed by zeros only (from none to 32 ones). *)
Theorem netmask_valid_iff_prefix m :
  0 ≤ m < 4294967296 →
  ∃ r, ip4_addr_netmask_valid m = Some r ∧ (r = 0 ∨ r = 1) ∧
    (r = 1 ↔ ∃ k, 0 ≤ k ≤ 32 ∧ lwip_htonl m = 2 ^ 32 - 2 ^ k).
Proof.
  intros Hm. unfold ip4_addr_netmask_valid. set (nm := lwip_htonl m).
  assert (Hnm : 0 ≤ nm < 4294967296) by (apply u32_range).
  change (Z.shiftl 1 31) with (level 32).
  destruct (mask_ones_spec nm 32 33) as (j & Hj & -> & Hones & Hz); [lia|].
  cbn [mbind option_bind].
  destruct (mask_zeros_spec nm j 33) as (r & -> & Hr & Hiff); [lia|].
  exists r. split; [done|]. split; [done|]. rewrite Hiff. split.
  - intros H. exists (Z.of_nat j). split; [lia|].
    apply bits_eq_32; [done | |].
    { assert (2 ^ Z.of_nat j ≤ 2 ^ 32) by (apply Z.pow_le_mono_r; lia).
      assert (0 < 2 ^ Z.of_nat j) by lia. lia. }
    intros i Hi. rewrite netmask_bits by lia.
    destruct (Z.leb_spec (Z.of_nat j) i); [apply Hones; lia | apply H; lia].
  - intros (k & Hk & E) i Hi. rewrite E, netmask_bits by lia. apply Z.leb_gt.
    destruct (Z.lt_ge_cases k (Z.of_nat j)); [|lia].
    destruct (Hz (Z.of_nat j - 1)) as [Hf| ->]; [lia | | lia].
    rewrite E, netmask_bits in Hf by lia. apply Z.leb_gt in Hf. lia.
Qed.

(** 255.255.255.0 and 255.0.255.0 *)
Lemma netmask_valid_iff_prefix_witness :
  ip4_addr_netmask_valid 0x00ffffff = Some 1 ∧
  (∃ k, 0 ≤ k ≤ 32 ∧ lwip_htonl 0x00ffffff = 2 ^ 32 - 2 ^ k) ∧
  ip4_addr_netmask_valid 0x00ff00ff = Some 0.
Proof.
  destruct (netmask_valid_iff_prefix 0x00ffffff) as (r & E & _ & H); [lia|].
  split; [reflexivity|]. split; [|reflexivity]. apply H.
  assert (E' : ip4_addr_netmask_valid 0x00ffffff = Some 1) by reflexivity.
  rewrite E' in E. injection E as <-. reflexivity.
Defined.

(** ** Broadcast addresses *)

Lemma testbit_not32 a i : 0 ≤ i < 32 → Z.testbit (not32 a) i = negb (Z.testbit a i).
Proof.
  intros Hi. unfold not32, u32. change 4294967296 with (2 ^ 32).
  by rewrite Z.mod_pow2_bits_low, Z.lnot_spec by lia.
Qed.

Lemma not32_zero a : 0 ≤ a < 4294967296 → (not32 a =? 0) = (a =? IPADDR_BROADCAST).
Proof.
  intros Ha. unfold not32, IPADDR_BROADCAST, Z.lnot.
  replace (u32 (Z.pred (- a))) with (4294967295 - a) by zmod.
  destruct (Z.eqb_spec (4294967295 - a) 0), (Z.eqb_spec a 4294967295); lia.
Qed.

Lemma high_bits a i : 0 ≤ a < 4294967296 → 32 ≤ i → Z.testbit a i = false.
Proof.
  intros Ha Hi. rewrite <- (Z.mod_small a (2 ^ 32)) by (change (2 ^ 32) with 4294967296; lia).
  apply Z.mod_pow2_bits_high. lia.
Qed.

Lemma lor_range32 a b : 0 ≤ a < 4294967296 → 0 ≤ b < 4294967296 → 0 ≤ Z.lor a b < 4294967296.
Proof.
  intros Ha Hb. enough (E : Z.lor a b mod 2 ^ 32 = Z.lor a b).
  { rewrite <- E. apply (Z.mod_pos_bound _ (2 ^ 32)). lia. }
  apply Z.bits_inj'. intros i Hi. destruct (Z.lt_ge_cases i 32).
  - by rewrite Z.mod_pow2_bits_low by lia.
  - by rewrite Z.mod_pow2_bits_high, Z.lor_spec, !high_bits by lia.
Qed.

(** On the same network with all host bits set: the network part of the own
    address followed by ones. *)
Lemma netcmp_broadcast addr ip mask :
  0 ≤ addr < 4294967296 → 0 ≤ ip < 4294967296 →
  (ip4_addr_netcmp addr ip mask = true ∧
   (Z.land addr (not32 mask) =? Z.land IPADDR_BROADCAST (not32 mask)) = true) ↔
  addr = Z.lor ip (not32 mask).
Proof.
  intros Ha Hip. unfold ip4_addr_netcmp. rewrite !Z.eqb_eq.
  assert (Hn : 0 ≤ not32 mask < 4294967296) by (apply u32_range).
  assert (Hb : ∀ i, 0 ≤ i < 32 → Z.testbit IPADDR_BROADCAST i = true).
  { intros i Hi. unfold IPADDR_BROADCAST. change 0xffffffff with (Z.ones 32).
    apply Z.ones_spec_low. lia. }
  split.
  - intros [H1 H2]. apply bits_eq_32; [done | by apply lor_range32 |]. intros i Hi.
    apply (f_equal (λ z, Z.testbit z i)) in H1, H2. rewrite !Z.land_spec in H1, H2.
    rewrite Hb, testbit_not32 in H2 by done. rewrite Z.lor_spec, testbit_not32 by done.
    by destruct (Z.testbit mask i), (Z.testbit addr i), (Z.testbit ip i).
  - intros ->. split; apply Z.bits_inj'; intros i Hi; rewrite !Z.land_spec, Z.lor_spec.
    + destruct (Z.lt_ge_cases i 32).
      * rewrite testbit_not32 by lia. by destruct (Z.testbit mask i), (Z.testbit ip i).
      * by rewrite (high_bits ip), (high_bits (not32 mask)) by lia.
    + destruct (Z.lt_ge_cases i 32).
      * rewrite Hb by lia. by destruct (Z.testbit (not32 mask) i), (Z.testbit ip i).
      * by rewrite (high_bits ip), (high_bits (not32 mask)), !andb_false_r by lia.
Qed.

(** [ip4_addr_isbroadcast_u32] recognises exactly 0.0.0.0,
    255.255.255.255 and, on an interface that supports broadcasts, the
    address made of the network part of the interface address and host bits
    that are all one, unless that is the address of the interface itself. *)
Theorem isbroadcast_iff addr n :
  0 ≤ addr < 4294967296 → 0 ≤ nf_ip_addr n < 4294967296 →
  ip4_addr_isbroadcast_u32 addr n = 1 ↔
  addr = 0 ∨ addr = 0xffffffff ∨
  Z.land (nf_flags n) NETIF_FLAG_BROADCAST ≠ 0 ∧ addr ≠ nf_ip_addr n ∧
  addr = Z.lor (nf_ip_addr n) (not32 (nf_netmask n)).
Proof.
  intros Ha Hip. unfold ip4_addr_isbroadcast_u32. rewrite not32_zero by done.
  unfold IPADDR_ANY. rewrite <- (netcmp_broadcast addr _ _ Ha Hip).
  destruct (Z.eqb_spec addr IPADDR_BROADCAST) as [E|E]; cbn [orb]; [tauto|].
  change IPADDR_BROADCAST with 0xffffffff in E.
  destruct (Z.eqb_spec addr 0) as [E0|E0]; [tauto|].
  destruct (Z.eqb_spec (Z.land (nf_flags n) NETIF_FLAG_BROADCAST) 0); [intuition lia|].
  destruct (Z.eqb_spec addr (nf_ip_addr n)); [intuition lia|].
  destruct (ip4_addr_netcmp _ _ _), (_ =? _); cbn [andb]; intuition (lia || done).
Qed.

(** 192.168.0.10/24: 192.168.0.255 is, 192.168.1.255 is not *)
Lemma isbroadcast_iff_witness :
  let n := Netif 0x0a00a8c0 0x00ffffff 0 [] NETIF_FLAG_BROADCAST 0 [] 0 0 0 0 0 [] 1500 in
  ip4_addr_isbroadcast_u32 0xff00a8c0 n = 1 ∧
  0xff00a8c0 = Z.lor (nf_ip_addr n) (not32 (nf_netmask n)) ∧
  ip4_addr_isbroadcast_u32 0xff01a8c0 n = 0.
Proof.
  intros n. split; [|split; reflexivity].
  apply (isbroadcast_iff 0xff00a8c0 n); [lia | cbn; lia |].
  right. right. split; [done|]. split; [done | reflexivity].
Defined.

(** ** Reading dotted quads *)

Lemma isdigit_iff c : byte_ok c → isdigit c = true ↔ is_digit c.
Proof.
  unfold byte_ok, isdigit, in_range, is_digit, u8. intros Hc. rewrite Z.mod_small by lia.
  rewrite andb_true_iff, !Z.leb_le. lia.
Qed.

Lemma digit_byte c : is_digit c → byte_ok c.
Proof. unfold is_digit, byte_ok. lia. Qed.

(** A byte that ends a decimal or octal number. *)
Definition stops (c : Z) : Prop := byte_ok c ∧ ¬ is_digit c ∧ c ≠ 120 ∧ c ≠ 88.

Lemma stops_digit c : stops c → isdigit c = false.
Proof. intros (Hb & Hd & _). apply not_true_iff_false. by rewrite isdigit_iff. Qed.

(** The value is only kept modulo 2^32. *)
Lemma aton_digits_10 ds : ∀ v c rest,
  Forall is_digit ds → stops c → 0 ≤ v →
  aton_digits 10 (u32 v) (ds ++ c :: rest)
  = Some (u32 (foldl (λ v c, v * 10 + (c - 48)) v ds), c :: rest).
Proof.
  induction ds as [|d ds IH]; intros v c rest Hds Hc Hv; cbn [aton_digits app foldl].
  - by rewrite (stops_digit c Hc).
  - apply Forall_cons_1 in Hds as [Hd Hds].
    rewrite (proj2 (isdigit_iff d (digit_byte d Hd)) Hd). unfold is_digit in Hd.
    replace (u32 (u32 (u32 v * 10) + u32 (d - 48))) with (u32 (v * 10 + (d - 48))).
    + apply IH; [done | done | lia].
    + unfold u32. rewrite Z.mul_mod_idemp_l, <- Z.add_mod by lia. done.
Qed.

(** A decimal number as [ip4addr_ntoa_r] writes it: no leading zero. *)
Definition field (ds : bytes) : Prop :=
  Forall is_digit ds ∧ (ds = [48] ∨ ∃ c ds', ds = c :: ds' ∧ c ≠ 48).

Lemma aton_part_field ds c rest :
  field ds → stops c → aton_part (ds ++ c :: rest) = Some (Some (u32 (dec_value ds), c :: rest)).
Proof.
  intros [Hds Hf] Hc. pose proof Hc as (Hcb & Hcd & H1 & H2).
  destruct Hf as [-> | (d & ds' & -> & Hd0)].
  - unfold aton_part. cbn [app rd mbind option_bind]. change (isdigit 48) with true.
    cbn [negb Z.eqb Pos.eqb]. rewrite (proj2 (Z.eqb_neq c 120)), (proj2 (Z.eqb_neq c 88)) by done.
    cbn [orb mbind option_bind aton_digits]. by rewrite (stops_digit c Hc).
  - unfold aton_part. pose proof (Forall_cons_1 _ _ _ Hds) as [Hd _].
    cbn [app rd mbind option_bind]. rewrite (proj2 (isdigit_iff d (digit_byte d Hd)) Hd). cbn [negb].
    rewrite (proj2 (Z.eqb_neq d 48)) by done. cbn [mbind option_bind].
    pose proof (aton_digits_10 (d :: ds') 0 c rest Hds Hc ltac:(lia)) as E.
    change (u32 0) with 0 in E. cbn [app] in E. by rewrite E.
Qed.

Lemma stops_dot : stops 46.
Proof. unfold stops, byte_ok, is_digit. lia. Qed.

(** What may follow an address. *)
Definition ends (c : Z) : Prop := byte_ok c ∧ (c = 0 ∨ isspace c = true).

Lemma ends_stops c : ends c → stops c ∧ c ≠ 46.
Proof.
  intros [Hb H]. unfold stops, is_digit. unfold isspace in H.
  rewrite !orb_true_iff, !Z.eqb_eq in H. split; [split; [done|]|]; lia.
Qed.

Lemma aton_parts_quad f1 f2 f3 f4 c rest :
  field f1 → field f2 → field f3 → field f4 → ends c →
  aton_parts 4 [] (f1 ++ [46] ++ f2 ++ [46] ++ f3 ++ [46] ++ f4 ++ c :: rest)
  = Some (Some ([u32 (dec_value f1); u32 (dec_value f2); u32 (dec_value f3)],
                u32 (dec_value f4), c :: rest)).
Proof.
  intros H1 H2 H3 H4 [Hs Hdot]%ends_stops.
  cbn [aton_parts app]. rewrite aton_part_field by (done || apply stops_dot).
  cbn [mbind option_bind rd Z.eqb Pos.eqb app length Nat.leb aton_parts].
  rewrite aton_part_field by (done || apply stops_dot).
  cbn [mbind option_bind rd Z.eqb Pos.eqb app length Nat.leb aton_parts].
  rewrite aton_part_field by (done || apply stops_dot).
  cbn [mbind option_bind rd Z.eqb Pos.eqb app length Nat.leb aton_parts].
  rewrite aton_part_field by done. cbn [mbind option_bind rd].
  by rewrite (proj2 (Z.eqb_neq c 46)) by done.
Qed.

Lemma u32_shiftl_byte a k : byte_ok a → 0 ≤ k ≤ 24 → u32 (Z.shiftl a k) = Z.shiftl a k.
Proof.
  unfold byte_ok. intros Ha Hk. rewrite Z.shiftl_mul_pow2 by lia. apply u32_small.
  assert (2 ^ k ≤ 2 ^ 24) by (apply Z.pow_le_mono_r; lia).
  assert (0 < 2 ^ k) by lia. change (2 ^ 24) with 16777216 in *. nia.
Qed.

Lemma aton_quad f1 f2 f3 f4 c rest :
  field f1 → field f2 → field f3 → field f4 → ends c →
  let v1 := u32 (dec_value f1) in let v2 := u32 (dec_value f2) in
  let v3 := u32 (dec_value f3) in let v4 := u32 (dec_value f4) in
  ip4addr_aton (f1 ++ [46] ++ f2 ++ [46] ++ f3 ++ [46] ++ f4 ++ c :: rest)
  = Some (if (v1 <=? 255) && (v2 <=? 255) && (v3 <=? 255) && (v4 <=? 255)
          then Some (quad v1 v2 v3 v4) else None).
Proof.
  intros H1 H2 H3 H4 Hc v1 v2 v3 v4. unfold ip4addr_aton. rewrite aton_parts_quad by done.
  cbn [mbind option_bind rd].
  replace (negb (c =? 0) && negb (isspace c)) with false
    by (destruct Hc as [_ [-> | ->]]; [done | by rewrite andb_false_r]).
  fold v1 v2 v3 v4. unfold aton_concoct.
  assert (Hr : ∀ f, 0 ≤ u32 (dec_value f)) by (intros; apply u32_range).
  pose proof (Hr f1). pose proof (Hr f2). pose proof (Hr f3). pose proof (Hr f4).
  fold v1 in H. fold v2 in H0. fold v3 in H5. fold v4 in H6.
  rewrite !Z.leb_antisym.
  destruct (Z.ltb_spec 255 v4); [by rewrite andb_false_r|].
  destruct (Z.ltb_spec 255 v1); [done|]. destruct (Z.ltb_spec 255 v2); [done|].
  destruct (Z.ltb_spec 255 v3); [done|]. cbn [orb negb andb].
  rewrite !u32_shiftl_byte by (unfold byte_ok; lia).
  rewrite lor_bytes by (unfold byte_ok; lia). by rewrite htonl_quad by (unfold byte_ok; lia).
Qed.

(** ** Writing dotted quads *)

Lemma ntoa_inv_spec b :
  byte_ok b → ∃ inv, ntoa_inv 3 b = Some inv ∧ field (rev inv) ∧ dec_value (rev inv) = b ∧
    (1 ≤ length inv ≤ 3)%nat.
Proof.
  unfold byte_ok. intros Hb. cbn [ntoa_inv].
  assert (Hdig : ∀ x, is_digit (48 + x mod 10)) by (intros; unfold is_digit; zmod).
  destruct (Z.eqb_spec (b / 10) 0) as [E1|E1]; cbn [negb mbind option_bind].
  { eexists. split; [done|]. cbn [rev app length]. split; [split|split; [|lia]].
    - by repeat constructor; apply Hdig.
    - destruct (decide (b = 0)) as [->|]; [by left|]. right. eexists _, _. split; [done|]. zmod.
    - unfold dec_value. cbn [foldl]. zmod. }
  destruct (Z.eqb_spec (b / 10 / 10) 0) as [E2|E2]; cbn [negb mbind option_bind].
  { eexists. split; [done|]. cbn [rev app length]. split; [split|split; [|lia]].
    - by repeat constructor; apply Hdig.
    - right. eexists _, _. split; [done|]. zmod.
    - unfold dec_value. cbn [foldl]. zmod. }
  assert (E3 : b / 10 / 10 / 10 = 0) by zmod. rewrite (proj2 (Z.eqb_eq _ _) E3).
  cbn [negb mbind option_bind]. eexists. split; [done|]. cbn [rev app length]. split; [split|split; [|lia]].
  - by repeat constructor; apply Hdig.
  - right. eexists _, _. split; [done|]. zmod.
  - unfold dec_value. cbn [foldl]. zmod.
Qed.

Lemma ntoa_put_spec buflen cs : ∀ len out,
  ntoa_put buflen cs len out
  = if len + Z.of_nat (length cs) <=? Z.max len buflen
    then inr (len + Z.of_nat (length cs), out ++ cs)
    else inl (out ++ take (Z.to_nat (buflen - len)) cs).
Proof.
  induction cs as [|c cs IH]; intros len out; cbn [ntoa_put].
  - cbn [length]. rewrite (proj2 (Z.leb_le _ _)) by lia. rewrite app_nil_r. do 2 f_equal. lia.
  - cbn [length]. destruct (Z.leb_spec buflen len) as [Hle|Hgt].
    + rewrite (proj2 (Z.leb_gt _ _)) by lia.
      replace (Z.to_nat (buflen - len)) with 0%nat by lia. by rewrite app_nil_r.
    + rewrite IH, <- !app_assoc.
      replace (len + 1 + Z.of_nat (length cs)) with (len + Z.of_nat (S (length cs))) by lia.
      replace (Z.max (len + 1) buflen) with buflen by lia. replace (Z.max len buflen) with buflen by lia.
      replace (Z.to_nat (buflen - len)) with (S (Z.to_nat (buflen - (len + 1)))) by lia. done.
Qed.

(** The texts of the bytes, each followed by a dot. *)
Lemma ntoa_bytes_spec aps :
  Forall byte_ok aps →
  ∃ fs, Forall2 (λ ap f, field f ∧ dec_value f = ap ∧ (1 ≤ length f ≤ 3)%nat) aps fs ∧
    ∀ buflen out, let text := concat (map (λ f, f ++ [46]) fs) in
    let len := Z.of_nat (length out) in
    ntoa_bytes buflen aps len out
    = Some (if len + Z.of_nat (length text) <=? Z.max len buflen
            then inr (len + Z.of_nat (length text), out ++ text)
            else inl (out ++ take (Z.to_nat (buflen - len)) text)).
Proof.
  induction aps as [|ap aps IH]; intros Hb.
  - exists []. split; [constructor|]. intros buflen out. cbn [map concat length ntoa_bytes].
    rewrite (proj2 (Z.leb_le _ _)) by lia. rewrite app_nil_r. do 3 f_equal. lia.
  - apply Forall_cons_1 in Hb as [Hap Hb]. destruct (ntoa_inv_spec ap Hap) as (inv & Ei & Hf & Hv & Hl).
    destruct (IH Hb) as (fs & Hfs & E). exists (rev inv :: fs).
    split; [constructor; [by rewrite length_rev|done]|]. intros buflen out.
    specialize (E buflen (out ++ rev inv ++ [46])). cbn [map concat ntoa_bytes]. rewrite Ei.
    cbn [mbind option_bind]. rewrite ntoa_put_spec.
    set (w := rev inv ++ [46]) in *. set (text := concat _) in *.
    rewrite !length_app in *. rewrite Nat2Z.inj_add in *.
    set (len := Z.of_nat (length out)) in *.
    destruct (Z.leb_spec (len + Z.of_nat (length w)) (Z.max len buflen)) as [Hle|Hgt].
    + cbn zeta in E. rewrite E. f_equal.
      assert (0 < Z.of_nat (length w)) by (unfold w; rewrite length_app; cbn; lia).
      replace (Z.max (len + Z.of_nat (length w)) buflen) with (Z.max len buflen) by lia.
      replace (len + Z.of_nat (length w) + Z.of_nat (length text))
        with (len + (Z.of_nat (length w) + Z.of_nat (length text))) by lia.
      rewrite <- !app_assoc. case_cmp; [done|]. do 2 f_equal.
      rewrite (take_app_ge w) by lia. do 2 f_equal. lia.
    + rewrite (proj2 (Z.leb_gt _ _)) by lia. rewrite take_app_le by lia. done.
Qed.

Lemma field_cstr f : field f → cstr f.
Proof. intros [H _]. unfold cstr. eapply list.Forall_impl; [exact H|]. unfold is_digit. lia. Qed.

Lemma insert_last (x : bytes) c : <[pred (length (x ++ [46])) := c]> (x ++ [46]) = x ++ [c].
Proof.
  rewrite length_app. cbn [length]. rewrite insert_app_r_alt by lia.
  by replace (pred (length x + 1) - length x)%nat with 0%nat by lia.
Qed.

(** The texts of an address, and what [ip4addr_ntoa_r] makes of them. *)
Lemma ntoa_text a b c d :
  byte_ok a → byte_ok b → byte_ok c → byte_ok d →
  ∃ f1 f2 f3 f4, field f1 ∧ field f2 ∧ field f3 ∧ field f4 ∧
    dec_value f1 = a ∧ dec_value f2 = b ∧ dec_value f3 = c ∧ dec_value f4 = d ∧
    let s := f1 ++ [46] ++ f2 ++ [46] ++ f3 ++ [46] ++ f4 in
    (7 ≤ length s ≤ 15)%nat ∧
    ∀ buflen, ip4addr_ntoa_r (quad a b c d) buflen
    = Some (if Z.of_nat (length s) <? buflen then (true, str0 s)
            else (false, take (Z.to_nat buflen) s)).
Proof.
  intros Ha Hb Hc Hd. unfold ip4addr_ntoa_r. rewrite quad_addr_bytes by done.
  destruct (ntoa_bytes_spec [a; b; c; d]) as (fs & Hfs & E); [by do 4 (constructor; [done|])|].
  apply Forall2_cons_inv_l in Hfs as (f1 & fs1 & (H1 & V1 & L1) & Hfs & ->).
  apply Forall2_cons_inv_l in Hfs as (f2 & fs2 & (H2 & V2 & L2) & Hfs & ->).
  apply Forall2_cons_inv_l in Hfs as (f3 & fs3 & (H3 & V3 & L3) & Hfs & ->).
  apply Forall2_cons_inv_l in Hfs as (f4 & fs4 & (H4 & V4 & L4) & Hfs & ->).
  apply Forall2_nil_inv_l in Hfs as ->.
  exists f1, f2, f3, f4. do 8 (split; [done|]).
  set (s := f1 ++ [46] ++ f2 ++ [46] ++ f3 ++ [46] ++ f4).
  assert (Et : concat (map (λ f, f ++ [46]) [f1; f2; f3; f4]) = s ++ [46]).
  { unfold s. cbn [map concat app]. rewrite app_nil_r. repeat (rewrite <- !app_assoc; cbn [app]). done. }
  assert (Hl : (7 ≤ length s ≤ 15)%nat).
  { unfold s. rewrite !length_app. cbn [length]. lia. }
  split; [exact Hl|]. intros buflen. specialize (E buflen []).
  change (Z.of_nat (length [])) with 0 in E. rewrite E, Et, length_app. cbn [mbind option_bind length app].
  destruct (Z.ltb_spec (Z.of_nat (length s)) buflen) as [Hlt|Hge].
  - rewrite (proj2 (Z.leb_le _ _)) by lia. by rewrite insert_last.
  - rewrite (proj2 (Z.leb_gt _ _)) by lia. rewrite take_app_le by lia. by rewrite Z.sub_0_r.
Qed.

(** [ip4addr_aton] on a dotted quad of decimal numbers without leading
    zeros, ended by the terminator or by white space, returns without
    reading further; it accepts it exactly when every number is at most 255
    modulo 2^32, and the address then has these numbers as its bytes.  (A
    number such as 4294967297 is accepted for 1.) *)
Theorem aton_dotted_quad f1 f2 f3 f4 c rest :
  field f1 → field f2 → field f3 → field f4 → ends c →
  let v1 := u32 (dec_value f1) in let v2 := u32 (dec_value f2) in
  let v3 := u32 (dec_value f3) in let v4 := u32 (dec_value f4) in
  ip4addr_aton (f1 ++ [46] ++ f2 ++ [46] ++ f3 ++ [46] ++ f4 ++ c :: rest)
  = Some (if (v1 <=? 255) && (v2 <=? 255) && (v3 <=? 255) && (v4 <=? 255)
          then Some (quad v1 v2 v3 v4) else None).
Proof. apply aton_quad. Qed.

(** "4294967297.0.0.1" and "256.0.0.1" *)
Lemma aton_dotted_quad_witness :
  ip4addr_aton (str0 [52; 50; 57; 52; 57; 54; 55; 50; 57; 55; 46; 48; 46; 48; 46; 49])
  = Some (Some (quad 1 0 0 1)) ∧
  ip4addr_aton (str0 [50; 53; 54; 46; 48; 46; 48; 46; 49]) = Some None.
Proof.
  assert (Hf : ∀ ds, Forall is_digit ds → head ds ≠ Some 48 → ds ≠ [] → field ds).
  { intros [|x l] H1 H2 H3; [done|]. split; [done|]. right. exists x, l. split; [done|]. intros ->. by apply H2. }
  assert (H0 : field [48]) by (split; [repeat constructor; done | by left]).
  assert (H1 : field [49]) by (apply Hf; [repeat constructor; done | done | done]).
  assert (He : ends 0) by (split; [done | by left]).
  split.
  - apply (aton_dotted_quad [52; 50; 57; 52; 57; 54; 55; 50; 57; 55] [48] [48] [49] 0 []); try done.
    apply Hf; [repeat constructor; done | done | done].
  - apply (aton_dotted_quad [50; 53; 54] [48] [48] [49] 0 []); try done.
    apply Hf; [repeat constructor; done | done | done].
Defined.

(** For every address [ip4addr_ntoa_r] writes a text of 7 to 15
    characters, or returns [NULL] exactly when the buffer has no room for the
    text and its terminator (having written as much as fits); the 16 bytes
    of [ip4addr_ntoa] are always enough; and [ip4addr_aton] of the text is
    the address again. *)
Theorem ntoa_aton_roundtrip addr buflen :
  0 ≤ addr < 4294967296 →
  ∃ s, (7 ≤ length s ≤ 15)%nat ∧ cstr s ∧
    ip4addr_ntoa_r addr buflen
    = Some (if Z.of_nat (length s) <? buflen then (true, str0 s)
            else (false, take (Z.to_nat buflen) s)) ∧
    ip4addr_ntoa addr = Some (true, str0 s) ∧
    ip4addr_aton (str0 s) = Some (Some addr).
Proof.
  intros Ha. destruct (quad_of_addr addr Ha) as (a & b & c & d & Hba & Hbb & Hbc & Hbd & ->).
  destruct (ntoa_text a b c d) as (f1 & f2 & f3 & f4 & H1 & H2 & H3 & H4 & V1 & V2 & V3 & V4 & Hl & E);
    try done.
  exists (f1 ++ [46] ++ f2 ++ [46] ++ f3 ++ [46] ++ f4). split; [exact Hl|]. split.
  { apply field_cstr in H1, H2, H3, H4.
    assert (Hdot : cstr [46]) by (constructor; [lia | constructor]).
    unfold cstr in *. by rewrite !Forall_app. }
  split; [apply E|]. split.
  { unfold ip4addr_ntoa. rewrite E. by rewrite (proj2 (Z.ltb_lt _ _)) by (unfold IP4ADDR_STRLEN_MAX; lia). }
  unfold str0. rewrite <- !app_assoc.
  rewrite aton_quad by (done || (split; [done | by left])).
  rewrite V1, V2, V3, V4. unfold byte_ok in *. rewrite !u32_small by lia.
  by rewrite !(proj2 (Z.leb_le _ _)) by lia.
Qed.

(** 192.168.0.1 *)
Lemma ntoa_aton_roundtrip_witness :
  ip4addr_ntoa 0x0100a8c0 = Some (true, str0 [49; 57; 50; 46; 49; 54; 56; 46; 48; 46; 49]) ∧
  ip4addr_aton (str0 [49; 57; 50; 46; 49; 54; 56; 46; 48; 46; 49]) = Some (Some 0x0100a8c0) ∧
  ip4addr_ntoa_r 0x0100a8c0 11 = Some (false, [49; 57; 50; 46; 49; 54; 56; 46; 48; 46; 49]).
Proof.
  destruct (ntoa_aton_roundtrip 0x0100a8c0 11) as (s & _ & _ & Hr & Hn & Ha); [lia|].
  assert (E : ip4addr_ntoa 0x0100a8c0 = Some (true, str0 [49; 57; 50; 46; 49; 54; 56; 46; 48; 46; 49]))
    by reflexivity.
  split; [exact E|]. rewrite Hn in E. injection E as E.
  apply app_inj_tail in E as [-> _]. split; [exact Ha | exact Hr].
Defined.
