(* ===== verification/Timeouts.v ===== *)
(** * Timeouts (middlewares/lwip/src/core/timeouts.c)

    The one list of pending timeouts of the stack, kept as a list of
    differences: every entry stores the time after the entry before it, the
    first one the time after [timeouts_last_time].  The entries are elements
    of the pool [MEMP_SYS_TIMEOUT], linked by their addresses.

    The handlers are code of other components: the cyclic timer functions of
    the protocols and what applications register are parameters, functions on
    the whole state, whose other part is [W]. *)

From stdpp Require Import base numbers list gmap option.
From S2P Require Import Prelude Memp.

(** ** Data *)

(** A handler; the argument of [cyclic_timer] is the index of its entry in
    [lwip_cyclic_timers]. *)
Inductive sys_timeout_handler : Type :=
  | tcpip_tcp_timer_h
  | cyclic_timer_h
  | user_handler_h (n : Z).

#[export] Instance sys_timeout_handler_eq_dec : EqDecision sys_timeout_handler.
Proof. solve_decision. Defined.

Record sys_timeo := SysTimeo {
  st_next : Z;
  st_time : Z;
  st_h : option sys_timeout_handler;     (* [None] is [NULL] *)
  st_arg : Z
}.

Record tstate (W : Type) := TState {
  ts_timeos : gmap Z sys_timeo;          (* the entries, by address *)
  ts_next_timeout : Z;
  ts_last_time : Z;                      (* timeouts_last_time *)
  ts_tcp_timer_active : bool;            (* tcpip_tcp_timer_active *)
  ts_core_locked : bool;                 (* lock_tcpip_core *)
  ts_now : Z;                            (* what sys_now() returns *)
  ts_pools : pools;
  ts_world : W
}.
Arguments TState {W}.
Arguments ts_timeos {W}.
Arguments ts_next_timeout {W}.
Arguments ts_last_time {W}.
Arguments ts_tcp_timer_active {W}.
Arguments ts_core_locked {W}.
Arguments ts_now {W}.
Arguments ts_pools {W}.
Arguments ts_world {W}.

Definition SYS_ARCH_TIMEOUT : Z := 0xffffffff.
Definition TCP_TMR_INTERVAL : Z := 250.

(** The intervals of [lwip_cyclic_timers] in this configuration: TCP, ARP,
    DHCP coarse and fine, IGMP, DNS. *)
Definition cyclic_intervals : list Z := [TCP_TMR_INTERVAL; 1000; 60000; 500; 100; 1000].

Section timeouts.
  Context {W : Type}.
  (** [lwip_cyclic_timers[i].handler] ([tcp_tmr] is the first one), the
      handlers of applications, [tcp_active_pcbs || tcp_tw_pcbs], and
      [sys_arch_mbox_fetch] on the mailbox of the stack. *)
  Context (cyclic_handler : nat → prog (tstate W) unit).
  Context (user_handler : Z → Z → prog (tstate W) unit).
  Context (tcp_pcbs : W → bool).
  Context (sys_arch_mbox_fetch : Z → prog (tstate W) Z).

Definition set_timeos (m : gmap Z sys_timeo) (s : tstate W) : tstate W :=
  TState m (ts_next_timeout s) (ts_last_time s) (ts_tcp_timer_active s) (ts_core_locked s)
    (ts_now s) (ts_pools s) (ts_world s).
Definition set_next_timeout (p : Z) (s : tstate W) : tstate W :=
  TState (ts_timeos s) p (ts_last_time s) (ts_tcp_timer_active s) (ts_core_locked s)
    (ts_now s) (ts_pools s) (ts_world s).
Definition set_last_time (t : Z) (s : tstate W) : tstate W :=
  TState (ts_timeos s) (ts_next_timeout s) t (ts_tcp_timer_active s) (ts_core_locked s)
    (ts_now s) (ts_pools s) (ts_world s).
Definition set_tcp_active (b : bool) (s : tstate W) : tstate W :=
  TState (ts_timeos s) (ts_next_timeout s) (ts_last_time s) b (ts_core_locked s)
    (ts_now s) (ts_pools s) (ts_world s).
Definition set_locked (b : bool) (s : tstate W) : tstate W :=
  TState (ts_timeos s) (ts_next_timeout s) (ts_last_time s) (ts_tcp_timer_active s) b
    (ts_now s) (ts_pools s) (ts_world s).
Definition set_pools (q : pools) (s : tstate W) : tstate W :=
  TState (ts_timeos s) (ts_next_timeout s) (ts_last_time s) (ts_tcp_timer_active s)
    (ts_core_locked s) (ts_now s) q (ts_world s).
Definition set_world (w : W) (s : tstate W) : tstate W :=
  TState (ts_timeos s) (ts_next_timeout s) (ts_last_time s) (ts_tcp_timer_active s)
    (ts_core_locked s) (ts_now s) (ts_pools s) w.

(** Accesses through pointers to entries. *)
Definition tderef (p : Z) : prog (tstate W) sys_timeo :=
  λ s, match ts_timeos s !! p with Some t => Some (t, s) | None => None end.
Definition tput (p : Z) (t : sys_timeo) : prog (tstate W) unit :=
  modify (λ s, set_timeos (<[p := t]> (ts_timeos s)) s).
Definition upd_time (p : Z) (f : Z → Z) : prog (tstate W) unit :=
  t ← tderef p; tput p (SysTimeo (st_next t) (f (st_time t)) (st_h t) (st_arg t)).
Definition upd_next (p q : Z) : prog (tstate W) unit :=
  t ← tderef p; tput p (SysTimeo q (st_time t) (st_h t) (st_arg t)).

Definition tpools {A} (c : prog pools A) : prog (tstate W) A :=
  λ s, match c (ts_pools s) with Some (a, q) => Some (a, set_pools q s) | None => None end.

(** The element is not an entry any more once it is free. *)
Definition free_timeo (p : Z) : prog (tstate W) unit :=
  modify (λ s, set_timeos (delete p (ts_timeos s)) s) ;;
  tpools (memp_free MEMP_SYS_TIMEOUT p).

(** [LOCK_TCPIP_CORE] blocks for ever when the lock is taken. *)
Definition LOCK_TCPIP_CORE : prog (tstate W) unit :=
  b ← gets ts_core_locked; if b : bool then stuck else modify (set_locked true).
Definition UNLOCK_TCPIP_CORE : prog (tstate W) unit := modify (set_locked false).

(** ** sys_timeout *)

(** The loop that looks for the place of the new entry [timeout]. *)
Fixpoint timeout_walk (fuel : nat) (timeout t msecs : Z) : prog (tstate W) unit :=
  match fuel with
  | O => stuck
  | S fuel' =>
      if t =? 0 then mret tt else
      tb ← tderef t;
      upd_time timeout (λ time, u32 (time - st_time tb)) ;;
      nb ← tderef timeout;
      here ← (if st_next tb =? 0 then mret true
              else nx ← tderef (st_next tb); mret (st_time nb <? st_time nx));
      if (here : bool) then
        (if negb (st_next tb =? 0)
         then upd_time (st_next tb) (λ time, u32 (time - st_time nb))
         else when (msecs <? st_time nb)
                (p ← gets ts_next_timeout; first ← tderef p;
                 upd_time timeout (λ _, u32 (msecs + st_time first)))) ;;
        upd_next timeout (st_next tb) ;;
        upd_next t timeout
      else timeout_walk fuel' timeout (st_next tb) msecs
  end.

Definition tfuel (s : tstate W) : nat := S (S (size (ts_timeos s))).

Definition sys_timeout (msecs : Z) (handler : option sys_timeout_handler) (arg : Z)
    : prog (tstate W) unit :=
  timeout ← tpools (memp_malloc MEMP_SYS_TIMEOUT);
  if timeout =? 0 then mret tt else
  now ← gets ts_now;
  next ← gets ts_next_timeout;
  diff ← (if next =? 0 then modify (set_last_time now) ;; mret 0
          else last ← gets ts_last_time; mret (u32 (now - last)));
  tput timeout (SysTimeo 0 (u32 (msecs + diff)) handler arg) ;;
  if next =? 0 then modify (set_next_timeout timeout) else
  first ← tderef next;
  if msecs <? st_time first then
    upd_time next (λ time, u32 (time - msecs)) ;;
    upd_next timeout next ;;
    modify (set_next_timeout timeout)
  else
    fuel ← gets tfuel;
    timeout_walk fuel timeout next msecs.

(** ** sys_untimeout *)

Fixpoint untimeout_walk (fuel : nat) (handler : option sys_timeout_handler) (arg prev_t t : Z)
    : prog (tstate W) unit :=
  match fuel with
  | O => stuck
  | S fuel' =>
      if t =? 0 then mret tt else
      tb ← tderef t;
      if bool_decide (st_h tb = handler) && (st_arg tb =? arg) then
        (if prev_t =? 0 then modify (set_next_timeout (st_next tb))
         else upd_next prev_t (st_next tb)) ;;
        when (negb (st_next tb =? 0))
          (upd_time (st_next tb) (λ time, u32 (time + st_time tb))) ;;
        free_timeo t
      else untimeout_walk fuel' handler arg t (st_next tb)
  end.

Definition sys_untimeout (handler : option sys_timeout_handler) (arg : Z) : prog (tstate W) unit :=
  next ← gets ts_next_timeout;
  if next =? 0 then mret tt else
  fuel ← gets tfuel;
  untimeout_walk fuel handler arg 0 next.

(** ** Handlers *)

Definition tcpip_tcp_timer : prog (tstate W) unit :=
  cyclic_handler 0 ;;
  w ← gets ts_world;
  if tcp_pcbs w then sys_timeout TCP_TMR_INTERVAL (Some tcpip_tcp_timer_h) 0
  else modify (set_tcp_active false).

Definition tcp_timer_needed : prog (tstate W) unit :=
  active ← gets ts_tcp_timer_active;
  w ← gets ts_world;
  when (negb active && tcp_pcbs w)
    (modify (set_tcp_active true) ;;
     sys_timeout TCP_TMR_INTERVAL (Some tcpip_tcp_timer_h) 0).

Definition cyclic_timer (arg : Z) : prog (tstate W) unit :=
  interval_ms ← lift (cyclic_intervals !! Z.to_nat arg);
  cyclic_handler (Z.to_nat arg) ;;
  sys_timeout interval_ms (Some cyclic_timer_h) arg.

Definition call_handler (h : sys_timeout_handler) (arg : Z) : prog (tstate W) unit :=
  match h with
  | tcpip_tcp_timer_h => tcpip_tcp_timer
  | cyclic_timer_h => cyclic_timer arg
  | user_handler_h n => user_handler n arg
  end.

(** ** sys_timeouts_init *)

Fixpoint timeouts_init_loop (idx : list nat) : prog (tstate W) unit :=
  match idx with
  | [] => mret tt
  | i :: idx' =>
      interval_ms ← lift (cyclic_intervals !! i);
      sys_timeout interval_ms (Some cyclic_timer_h) (Z.of_nat i) ;;
      timeouts_init_loop idx'
  end.

Definition sys_timeouts_init : prog (tstate W) unit :=
  timeouts_init_loop (seq 1 (pred (length cyclic_intervals))) ;;
  now ← gets ts_now;
  modify (set_last_time now).

(** ** sys_check_timeouts *)

Fixpoint check_loop (fuel : nat) (diff : Z) : prog (tstate W) unit :=
  match fuel with
  | O => stuck
  | S fuel' =>
      tmptimeout ← gets ts_next_timeout;
      if tmptimeout =? 0 then mret tt else
      t ← tderef tmptimeout;
      if st_time t <=? diff then
        last ← gets ts_last_time;
        modify (set_last_time (u32 (last + st_time t))) ;;
        modify (set_next_timeout (st_next t)) ;;
        free_timeo tmptimeout ;;
        (match st_h t with
         | None => mret tt
         | Some handler => LOCK_TCPIP_CORE ;; call_handler handler (st_arg t) ;; UNLOCK_TCPIP_CORE
         end) ;;
        check_loop fuel' (u32 (diff - st_time t))
      else mret tt
  end.

Definition sys_check_timeouts (fuel : nat) : prog (tstate W) unit :=
  next ← gets ts_next_timeout;
  if next =? 0 then mret tt else
  now ← gets ts_now;
  last ← gets ts_last_time;
  check_loop fuel (u32 (now - last)).

Definition sys_restart_timeouts : prog (tstate W) unit :=
  now ← gets ts_now; modify (set_last_time now).

Definition sys_timeouts_sleeptime : prog (tstate W) Z :=
  next ← gets ts_next_timeout;
  if next =? 0 then mret 0xffffffff else
  now ← gets ts_now;
  last ← gets ts_last_time;
  first ← tderef next;
  let diff := u32 (now - last) in
  if st_time first <? diff then mret 0 else mret (st_time first - diff).

Fixpoint sys_timeouts_mbox_fetch (fuel : nat) : prog (tstate W) unit :=
  match fuel with
  | O => stuck
  | S fuel' =>
      next ← gets ts_next_timeout;
      if next =? 0 then _ ← sys_arch_mbox_fetch 0; mret tt else
      sleeptime ← sys_timeouts_sleeptime;
      timed_out ← (if sleeptime =? 0 then mret true
                   else r ← sys_arch_mbox_fetch sleeptime; mret (r =? SYS_ARCH_TIMEOUT));
      if (timed_out : bool) then sys_check_timeouts fuel' ;; sys_timeouts_mbox_fetch fuel'
      else mret tt
  end.

End timeouts.
