(* ===== verification/TimeoutsProps.v ===== *)
(** * Properties of the timeouts

    The linked entries as a list ([tlist]), the invariant that ties them to
    the pool ([timers_ok]), the deadlines ([due]) and what the operations do
    to them. *)

From stdpp Require Import base numbers list gmap option.
From S2P Require Import Prelude Memp Timeouts.

(** What an entry does when it expires. *)
Abbreviation action := (option sys_timeout_handler * Z)%type.
(** The entries in the order of the list: address, time and action. *)
Abbreviation tentries := (list (Z * (Z * action))).

Fixpoint tlist (m : gmap Z sys_timeo) (p : Z) (l : tentries) : Prop :=
  match l with
  | [] => p = 0
  | (a, (tm, (h, g))) :: l' =>
      p = a ∧ a ≠ 0 ∧ ∃ q, m !! a = Some (SysTimeo q tm h g) ∧ tlist m q l'
  end.

(** The deadlines, counted from [base]. *)
Fixpoint due (base : Z) (l : tentries) : list (Z * action) :=
  match l with
  | [] => []
  | (_, (tm, x)) :: l' => (base + tm, x) :: due (base + tm) l'
  end.
Fixpoint total (l : tentries) : Z :=
  match l with [] => 0 | (_, (tm, _)) :: l' => tm + total l' end.

Definition head_time (l : tentries) : Z :=
  match l with [] => 0 | (_, (tm, _)) :: _ => tm end.

Definition times_ok (l : tentries) : Prop := Forall (λ e : Z * (Z * action), 0 ≤ e.2.1 < 4294967296) l.

(** A new deadline goes behind all that are not later. *)
Fixpoint insert_due (d : Z * action) (L : list (Z * action)) : list (Z * action) :=
  match L with
  | [] => [d]
  | e :: L' => if d.1 <? e.1 then d :: L else e :: insert_due d L'
  end.

(** ** Lists of entries *)

Lemma tlist_frame m m' p l :
  tlist m p l → (∀ a, a ∈ l.*1 → m' !! a = m !! a) → tlist m' p l.
Proof.
  revert p. induction l as [|[a [tm [h g]]] l IH]; intros p; [done|].
  intros (-> & H0 & q & Hq & H) Hf. split; [done|]. split; [done|]. exists q.
  split; [rewrite Hf; [done | by left]|]. apply IH; [done|]. intros b Hb. apply Hf. by right.
Qed.

Lemma tlist_insert m p l a t : tlist m p l → a ∉ l.*1 → tlist (<[a := t]> m) p l.
Proof. intros H Ha. eapply tlist_frame; [exact H|]. intros b Hb. rewrite lookup_insert_ne; set_solver. Qed.

Lemma tlist_delete m p l a : tlist m p l → a ∉ l.*1 → tlist (delete a m) p l.
Proof. intros H Ha. eapply tlist_frame; [exact H|]. intros b Hb. rewrite lookup_delete_ne; set_solver. Qed.

Lemma tlist_null m l : tlist m 0 l → l = [].
Proof. destruct l as [|[a [tm [h g]]] l]; [done|]. intros (<- & ? & _). done. Qed.

Lemma tlist_cons_nonnull m p e l : tlist m p (e :: l) → p ≠ 0.
Proof. destruct e as [a [tm [h g]]]. by intros (-> & ? & _). Qed.

Lemma tlist_size m p l : tlist m p l → NoDup l.*1 → (length l ≤ size m)%nat.
Proof.
  intros H Hnd. rewrite <- (length_fmap fst), <- size_dom.
  rewrite <- (size_list_to_set (C := gset Z) (l.*1)) by done.
  apply subseteq_size. intros k Hk. apply elem_of_list_to_set in Hk. clear Hnd.
  revert p H. induction l as [|[a [tm [h g]]] l IH]; intros p H; [by apply elem_of_nil in Hk|].
  destruct H as (_ & _ & q & Hq & H). rewrite fmap_cons in Hk.
  apply elem_of_cons in Hk as [->|Hk]; [apply elem_of_dom; by eexists | by eapply IH].
Qed.

Lemma due_shift b l : ∀ d, due (b + d) l = (λ e : Z * action, (e.1 + d, e.2)) <$> due b l.
Proof.
  revert b. induction l as [|[a [tm x]] l IH]; intros b d; [done|]. cbn [due]. rewrite fmap_cons.
  cbn [fst snd]. rewrite <- IH. by replace (b + d + tm) with (b + tm + d) by lia.
Qed.

Lemma due_app l : ∀ b l', due b (l ++ l') = due b l ++ due (b + total l) l'.
Proof.
  induction l as [|[a [tm x]] l IH]; intros b l'; cbn [due total app]; [by rewrite Z.add_0_r|].
  rewrite IH. by replace (b + (tm + total l)) with (b + tm + total l) by lia.
Qed.

Lemma total_nonneg l : times_ok l → 0 ≤ total l.
Proof.
  induction l as [|[a [tm x]] l IH]; intros H; cbn [total]; [lia|].
  apply Forall_cons_1 in H as [H Ht]. apply IH in Ht. cbn in H. lia.
Qed.

(** ** Steps *)

Section steps.
  Context {W : Type}.
Implicit Types s : tstate W.

Lemma tderef_run s p t : ts_timeos s !! p = Some t → tderef p s = Some (t, s).
Proof. intros H. unfold tderef. by rewrite H. Qed.

Lemma upd_time_run s p f t :
  ts_timeos s !! p = Some t →
  upd_time p f s
  = Some (tt, set_timeos (<[p := SysTimeo (st_next t) (f (st_time t)) (st_h t) (st_arg t)]>
                            (ts_timeos s)) s).
Proof. intros H. unfold upd_time. by erewrite prog_bind_step by (by apply tderef_run). Qed.

Lemma upd_next_run s p q t :
  ts_timeos s !! p = Some t →
  upd_next p q s
  = Some (tt, set_timeos (<[p := SysTimeo q (st_time t) (st_h t) (st_arg t)]>
                            (ts_timeos s)) s).
Proof. intros H. unfold upd_next. by erewrite prog_bind_step by (by apply tderef_run). Qed.
End steps.

(** One step of a program whose effect is known. *)
Ltac tstep := erewrite prog_bind_step by
  (first [ eapply tderef_run; cbn; by simplify_map_eq
         | eapply upd_time_run; cbn; by simplify_map_eq
         | eapply upd_next_run; cbn; by simplify_map_eq
         | reflexivity ]); cbn beta.

(** ** The loop of sys_timeout on lists *)

(** The new entry [(n, x)] goes behind the first entry that is not followed
    by an earlier one; [r] is its time after the entry before the list,
    [first] the time of the first entry of all. *)
Fixpoint ins (msecs first n : Z) (x : action) (r : Z) (l : tentries) : tentries :=
  match l with
  | [] => []
  | (a, (tm, y)) :: l' =>
      let r' := r - tm in
      match l' with
      | [] => [(a, (tm, y)); (n, (if msecs <? r' then msecs + first else r', x))]
      | (b, (tm', z)) :: l'' =>
          if r' <? tm' then (a, (tm, y)) :: (n, (r', x)) :: (b, (tm' - r', z)) :: l''
          else (a, (tm, y)) :: ins msecs first n x r' l'
      end
  end.

Lemma ins_addrs msecs first n x r l : l ≠ [] → (ins msecs first n x r l).*1 ≡ₚ n :: l.*1.
Proof.
  revert r. induction l as [|[a [tm y]] l IH]; intros r Hl; [done|]. cbn [ins].
  destruct l as [|[b [tm' z]] l]; [cbn; apply Permutation_swap|].
  destruct (_ <? _); [cbn; apply Permutation_swap|].
  rewrite fmap_cons, IH by done. cbn. apply Permutation_swap.
Qed.

Lemma timeout_walk_spec {W} (s : tstate W) n h g msecs first l : ∀ m t r fuel p0 e0,
  tlist m t l → l ≠ [] → NoDup (n :: l.*1) → times_ok l → n ≠ 0 →
  m !! n = Some (SysTimeo 0 r h g) → r < 4294967296 →
  head_time l ≤ r →
  ts_next_timeout s = p0 → p0 ≠ n → m !! p0 = Some e0 → st_time e0 = first →
  0 ≤ msecs → 0 ≤ first → (msecs < r - total l → msecs + first < 4294967296) →
  (length l < fuel)%nat →
  ∃ m', timeout_walk fuel n t msecs (set_timeos m s) = Some (tt, set_timeos m' s) ∧
    tlist m' t (ins msecs first n (h, g) r l) ∧
    (∀ k, k ∉ n :: l.*1 → m' !! k = m !! k).
Proof.
  induction l as [|[a [tm [ha ga]]] l IH]; intros m t r fuel p0 e0 Hl Hne Hnd Htm Hn0 Hn Hr Hle
    Hp0 Hpn He0 Hf Hms Hf0 Hsum Hfuel; [done|].
  destruct fuel as [|fuel]; [cbn in Hfuel; lia|]. cbn [timeout_walk].
  destruct Hl as (-> & Ha0 & q & Ha & Hl). rewrite (proj2 (Z.eqb_neq a 0)) by done.
  apply Forall_cons_1 in Htm as [Hta Htl]. cbn in Hta.
  assert (Hna : n ≠ a ∧ (n ∉ l.*1) ∧ (a ∉ l.*1) ∧ NoDup l.*1).
  { rewrite fmap_cons in Hnd. apply list.NoDup_cons in Hnd as [H1 Hnd]. apply list.NoDup_cons in Hnd as [H2 Hnd].
    apply not_elem_of_cons in H1 as [H1 H3]. done. }
  destruct Hna as (Hna & Hnl & Hal & Hndl).
  cbn [head_time] in Hle. tstep. cbn [st_time st_next]. tstep. tstep. cbn [st_time st_next st_h st_arg].
  rewrite u32_small by lia. set (r' := r - tm) in *.
  assert (Hr' : r' = r - tm) by done. clearbody r'.
  set (m1 := <[n := SysTimeo 0 r' h g]> m).
  change (set_timeos (<[n := SysTimeo 0 r' h g]> (ts_timeos (set_timeos m s))) (set_timeos m s))
    with (set_timeos m1 s).
  assert (Hm1 : m1 !! n = Some (SysTimeo 0 r' h g) ∧ ∀ k, k ≠ n → m1 !! k = m !! k).
  { unfold m1. split; [by simplify_map_eq | intros k Hk; by rewrite lookup_insert_ne]. }
  destruct Hm1 as [Hm1n Hm1]. clearbody m1.
  assert (Hm1a : m1 !! a = Some (SysTimeo q tm ha ga)) by (by rewrite Hm1).
  destruct l as [|[b [tm' [hb gb]]] l].
  - cbn in Hl. subst q. rewrite Z.eqb_refl. tstep. cbn [negb ins]. rewrite <- Hr'. cbn [total] in Hsum.
    set (rr := if msecs <? r' then msecs + first else r').
    assert (E : ∃ m2, when (msecs <? r')
        (p ← gets ts_next_timeout; first ← tderef p; upd_time n (λ _, u32 (msecs + st_time first)))
        (set_timeos m1 s) = Some (tt, set_timeos m2 s) ∧
      m2 !! n = Some (SysTimeo 0 rr h g) ∧ ∀ k, k ≠ n → m2 !! k = m !! k).
    { unfold rr. destruct (Z.ltb_spec msecs r') as [Hlt|Hge]; [|by exists m1].
      cbn [when]. tstep. erewrite prog_bind_step by (apply tderef_run; cbn; rewrite Hp0, Hm1; done).
      rewrite Hf, u32_small by lia. erewrite upd_time_run by (cbn; exact Hm1n).
      eexists. split; [reflexivity|]. split; [by simplify_map_eq|].
      intros k Hk. cbn. rewrite lookup_insert_ne by done. by apply Hm1. }
    destruct E as (m2 & E & Hm2n & Hm2). erewrite prog_bind_step by exact E.
    erewrite prog_bind_step by (apply upd_next_run; exact Hm2n).
    erewrite upd_next_run by (cbn; rewrite lookup_insert_ne, Hm2 by done; exact Ha).
    eexists. split; [reflexivity|]. cbn [st_time st_h st_arg ts_timeos set_timeos]. split.
    + split; [done|]. split; [done|]. exists n. split; [by simplify_map_eq|].
      split; [done|]. split; [done|]. exists 0. split; [|done]. by simplify_map_eq.
    + intros k Hk. apply not_elem_of_cons in Hk as [Hk1 Hk]. apply not_elem_of_cons in Hk as [Hk2 _].
      cbn in Hk2. rewrite !lookup_insert_ne by done. by apply Hm2.
  - destruct Hl as (-> & Hb0 & q' & Hb & Hl). rewrite (proj2 (Z.eqb_neq b 0)) by done. cbn [negb].
    pose proof Htl as Htl'. apply Forall_cons_1 in Htl' as [Htb _]. cbn in Htb.
    rewrite fmap_cons in Hnl, Hal, Hndl. cbn [fst] in Hnl, Hal, Hndl.
    apply not_elem_of_cons in Hnl as [Hnb Hnl']. apply not_elem_of_cons in Hal as [Hab Hal'].
    apply list.NoDup_cons in Hndl as [Hbl Hndl].
    assert (Hm1b : m1 !! b = Some (SysTimeo q' tm' hb gb)) by (by rewrite Hm1).
    erewrite (prog_bind_step (nx ← _; _)) by (tstep; reflexivity). cbn [st_time].
    cbn [ins]. rewrite <- Hr'. destruct (Z.ltb_spec r' tm') as [Hlt|Hge].
    + tstep. erewrite prog_bind_step by (apply upd_next_run; cbn; by simplify_map_eq).
      erewrite upd_next_run by (cbn; by simplify_map_eq). cbn [st_time]. rewrite u32_small by lia.
      eexists. split; [reflexivity|]. cbn [st_time st_h st_arg st_next ts_timeos set_timeos]. split.
      * split; [done|]. split; [done|]. exists n. split; [by simplify_map_eq|].
        split; [done|]. split; [done|]. exists b. split; [by simplify_map_eq|].
        split; [done|]. split; [done|]. exists q'. split; [by simplify_map_eq|].
        apply (tlist_frame m); [done|]. intros k Hk.
        rewrite !lookup_insert_ne by set_solver. apply Hm1. set_solver.
      * intros k Hk. rewrite fmap_cons in Hk. cbn in Hk.
        rewrite !lookup_insert_ne by set_solver. apply Hm1. set_solver.
    + destruct (IH m1 b r' fuel p0 e0) as (m' & E & Hl' & Hfr); try done; try lia.
      * apply (tlist_frame m); [cbn; eauto 10|]. intros k Hk. apply Hm1. set_solver.
      * apply list.NoDup_cons. split; [set_solver|]. apply list.NoDup_cons. by split.
      * by rewrite Hm1.
      * cbn [total] in Hsum |- *. lia.
      * cbn [length] in Hfuel |- *. lia.
      * exists m'. split; [exact E|]. split.
        -- split; [done|]. split; [done|]. exists b. split; [|exact Hl'].
           rewrite Hfr; [done|]. set_solver.
        -- intros k Hk. rewrite Hfr by set_solver. apply Hm1. set_solver.
Qed.

(** In front of a later entry, or behind the last one. *)
Lemma ins_due msecs first n x l : ∀ b r,
  l ≠ [] → head_time l ≤ r → r - total l ≤ msecs →
  due b (ins msecs first n x r l) = insert_due (b + r, x) (due b l).
Proof.
  induction l as [|[a [tm y]] l IH]; intros b r Hne Hle Hms; [done|].
  cbn [ins head_time total] in *. destruct l as [|[c [tm' z]] l].
  - cbn [total] in Hms. rewrite (proj2 (Z.ltb_ge msecs (r - tm))) by lia. cbn [due insert_due fst].
    rewrite (proj2 (Z.ltb_ge (b + r) (b + tm))) by lia.
    by replace (b + tm + (r - tm)) with (b + r) by lia.
  - destruct (Z.ltb_spec (r - tm) tm') as [Hlt|Hge].
    + cbn [due insert_due fst]. rewrite (proj2 (Z.ltb_ge (b + r) (b + tm))) by lia.
      rewrite (proj2 (Z.ltb_lt (b + r) (b + tm + tm'))) by lia.
      replace (b + tm + (r - tm)) with (b + r) by lia.
      by replace (b + r + (tm' - (r - tm))) with (b + tm + tm') by lia.
    + cbn [due]. rewrite IH by (done || cbn [head_time total] in *; lia). cbn [due insert_due fst].
      rewrite (proj2 (Z.ltb_ge (b + r) (b + tm))) by lia.
      by replace (b + tm + (r - tm)) with (b + r) by lia.
Qed.

(** Behind all entries when they have all expired long ago. *)
Lemma ins_due_late msecs first n x l : ∀ b r,
  l ≠ [] → times_ok l → 0 ≤ msecs → msecs < r - total l →
  due b (ins msecs first n x r l) = due b l ++ [(b + total l + (msecs + first), x)].
Proof.
  induction l as [|[a [tm y]] l IH]; intros b r Hne Htm Hms Hlt; [done|].
  cbn [ins total] in *. apply Forall_cons_1 in Htm as [Hta Htl]. cbn in Hta.
  destruct l as [|[c [tm' z]] l].
  - cbn [total] in Hlt |- *. rewrite (proj2 (Z.ltb_lt msecs (r - tm))) by lia. cbn [due app].
    by rewrite Z.add_0_r.
  - pose proof (total_nonneg _ Htl) as Hn. pose proof Htl as H. apply Forall_cons_1 in H as [Htc Ht].
    pose proof (total_nonneg _ Ht). cbn in Htc. cbn [total] in Hlt, Hn.
    rewrite (proj2 (Z.ltb_ge (r - tm) tm')) by lia. cbn [due]. rewrite IH by (done || cbn [total]; lia).
    cbn [due app total]. by replace (b + tm + (tm' + total l)) with (b + (tm + (tm' + total l))) by lia.
Qed.

Lemma ins_times msecs first n x l : ∀ r,
  times_ok l → head_time l ≤ r → r < 4294967296 → 0 ≤ msecs → 0 ≤ first →
  (msecs < r - total l → msecs + first < 4294967296) →
  times_ok (ins msecs first n x r l).
Proof.
  induction l as [|[a [tm y]] l IH]; intros r Htm Hle Hr Hms Hf Hs; [done|].
  cbn [ins head_time total] in *. apply Forall_cons_1 in Htm as [Hta Htl]. cbn in Hta.
  destruct l as [|[c [tm' z]] l].
  - cbn [total] in Hs. constructor; [done|]. constructor; [|constructor]. cbn.
    destruct (Z.ltb_spec msecs (r - tm)); lia.
  - pose proof Htl as H. apply Forall_cons_1 in H as [Htc Ht]. cbn in Htc.
    destruct (Z.ltb_spec (r - tm) tm').
    + constructor; [done|]. constructor; [cbn; lia|]. constructor; [cbn; lia|]. done.
    + constructor; [done|]. apply IH; cbn [total head_time] in *; try done; lia.
Qed.

(** ** The invariant *)

Record timers_ok {W} (s : tstate W) (fl out : nat → list Z) (l : tentries) : Prop := {
  to_pools : pools_inv (ts_pools s) fl out;
  to_pool : (MEMP_SYS_TIMEOUT < MEMP_MAX (ts_pools s))%nat;
  to_out : out MEMP_SYS_TIMEOUT ≡ₚ l.*1;
  to_list : tlist (ts_timeos s) (ts_next_timeout s) l;
  to_times : times_ok l
}.

(** The time since [timeouts_last_time]. *)
Definition elapsed {W} (s : tstate W) : Z := u32 (ts_now s - ts_last_time s).

Lemma timers_NoDup {W} (s : tstate W) fl out l :
  timers_ok s fl out l → NoDup (fl MEMP_SYS_TIMEOUT ++ l.*1) ∧ 0 ∉ fl MEMP_SYS_TIMEOUT ++ l.*1.
Proof.
  intros [Hp Hm Ho Hl Ht]. destruct (pools_inv_NoDup _ _ _ _ Hp Hm) as [Hnd H0].
  by rewrite Ho in Hnd, H0.
Qed.

(** What [sys_timeout] makes of the list. *)
Definition scheduled (diff msecs n : Z) (x : action) (l : tentries) : tentries :=
  match l with
  | [] => [(n, (msecs, x))]
  | (a, (tm, y)) :: l' =>
      if msecs <? tm then (n, (msecs + diff, x)) :: (a, (tm - msecs, y)) :: l'
      else ins msecs tm n x (msecs + diff) l
  end.

Lemma scheduled_addrs diff msecs n x l : (scheduled diff msecs n x l).*1 ≡ₚ n :: l.*1.
Proof.
  destruct l as [|[a [tm y]] l]; [done|]. cbn [scheduled].
  destruct (_ <? _); [done|]. by apply ins_addrs.
Qed.

(** What an operation on the timers leaves alone. *)
Definition same_env {W} (s s' : tstate W) : Prop :=
  ts_now s' = ts_now s ∧ ts_world s' = ts_world s ∧ ts_core_locked s' = ts_core_locked s ∧
  ts_tcp_timer_active s' = ts_tcp_timer_active s.

Lemma head_total l : times_ok l → head_time l ≤ total l.
Proof.
  destruct l as [|[a [tm y]] l]; [done|]. intros [_ H]%Forall_cons_1.
  cbn [head_time total]. pose proof (total_nonneg _ H). lia.
Qed.

(** The part of [sys_timeout] after the allocation. *)
Lemma timeout_insert_spec {W} (s : tstate W) l n msecs h g :
  tlist (ts_timeos s) (ts_next_timeout s) l → times_ok l → NoDup (n :: l.*1) → n ≠ 0 →
  0 ≤ msecs → msecs + elapsed s < 4294967296 →
  ∃ m p last,
    (now ← gets ts_now;
     next ← gets ts_next_timeout;
     diff ← (if next =? 0 then modify (set_last_time now) ;; mret 0
             else last ← gets ts_last_time; mret (u32 (now - last)));
     tput n (SysTimeo 0 (u32 (msecs + diff)) h g) ;;
     if next =? 0 then modify (set_next_timeout n) else
     first ← tderef next;
     if msecs <? st_time first then
       upd_time next (λ time, u32 (time - msecs)) ;;
       upd_next n next ;;
       modify (set_next_timeout n)
     else
       fuel ← gets tfuel;
       timeout_walk fuel n next msecs) s
    = Some (tt, set_last_time last (set_next_timeout p (set_timeos m s))) ∧
    tlist m p (scheduled (elapsed s) msecs n (h, g) l) ∧
    times_ok (scheduled (elapsed s) msecs n (h, g) l) ∧
    last = match l with [] => ts_now s | _ => ts_last_time s end.
Proof.
  intros Hl Htm Hnd Hn Hms Hlate. pose proof (u32_range (ts_now s - ts_last_time s)) as Hd.
  tstep. tstep. destruct l as [|[a [tm [ha ga]]] l].
  - cbn in Hl. rewrite Hl, Z.eqb_refl. tstep. tstep.
    exists (<[n := SysTimeo 0 (u32 (msecs + 0)) h g]> (ts_timeos s)), n, (ts_now s).
    split; [reflexivity|]. split; [|split; [|done]].
    + cbn [scheduled]. unfold elapsed in Hlate. split; [done|]. split; [done|]. exists 0.
      split; [|done]. rewrite lookup_insert_eq. rewrite Z.add_0_r, u32_small by lia. done.
    + cbn [scheduled]. constructor; [|constructor]. cbn. unfold elapsed in Hlate. lia.
  - pose proof Hl as Hl0. destruct Hl as (Ea & Ha0 & q & Ha & Hl). rewrite Ea in Hl0 |- *.
    rewrite (proj2 (Z.eqb_neq a 0)) by done. tstep. fold (elapsed s).
    apply list.NoDup_cons in Hnd as [Hna Hnd]. rewrite fmap_cons in Hna, Hnd. cbn [fst] in *.
    apply not_elem_of_cons in Hna as [Hna Hnl]. pose proof Hnd as Hnd'.
    apply list.NoDup_cons in Hnd' as [Hal Hndl].
    pose proof Htm as Htm'. apply Forall_cons_1 in Htm' as [Hta Htl]. cbn in Hta.
    rewrite (u32_small (msecs + elapsed s)) by (unfold elapsed in *; lia).
    set (m1 := <[n := SysTimeo 0 (msecs + elapsed s) h g]> (ts_timeos s)).
    rewrite (prog_bind_step (tput _ _) _ s tt (set_timeos m1 s)) by reflexivity.
    assert (Hm1a : m1 !! a = Some (SysTimeo q tm ha ga)) by (unfold m1; by simplify_map_eq).
    erewrite prog_bind_step by (apply tderef_run; exact Hm1a). cbn [st_time scheduled].
    destruct (Z.ltb_spec msecs tm) as [Hlt|Hge].
    + erewrite prog_bind_step by (apply upd_time_run; exact Hm1a).
      cbn [st_time st_next st_h st_arg ts_timeos set_timeos]. rewrite u32_small by lia.
      erewrite prog_bind_step by (eapply upd_next_run; unfold m1; cbn; by simplify_map_eq).
      exists (<[n := SysTimeo a (msecs + elapsed s) h g]> (<[a := SysTimeo q (tm - msecs) ha ga]> m1)), n,
        (ts_last_time s). split; [reflexivity|].
      split; [|split; [|done]].
      * split; [done|]. split; [done|]. exists a. split; [by simplify_map_eq|].
        split; [done|]. split; [done|]. exists q. split; [by simplify_map_eq|].
        unfold m1. repeat apply tlist_insert; done.
      * constructor; [cbn; unfold elapsed in *; lia|]. constructor; [cbn; lia|]. done.
    + tstep.
      destruct (timeout_walk_spec s n h g msecs tm ((a, (tm, (ha, ga))) :: l) m1 a
        (msecs + elapsed s) (tfuel (set_timeos m1 s)) a (SysTimeo q tm ha ga))
        as (m' & E & Hl' & _); try done; try lia.
      * apply tlist_insert; [done|]. rewrite fmap_cons. by apply not_elem_of_cons.
      * apply list.NoDup_cons. rewrite fmap_cons. split; [by apply not_elem_of_cons | done].
      * unfold m1. by simplify_map_eq.
      * cbn [head_time]. unfold elapsed. lia.
      * intros. pose proof (head_total _ Htm). cbn [head_time] in *. lia.
      * unfold tfuel. cbn [ts_timeos set_timeos]. unfold m1.
        pose proof (tlist_size _ _ _ (tlist_insert _ _ _ n (SysTimeo 0 (msecs + elapsed s) h g) Hl0
          ltac:(rewrite fmap_cons; by apply not_elem_of_cons)) ltac:(by rewrite fmap_cons)). lia.
      * eexists m', _, (ts_last_time s). split; [exact E|]. split; [|split; [|done]].
        -- rewrite Ea. exact Hl'.
        -- apply ins_times; try done; try lia; [cbn [head_time]; unfold elapsed; lia|].
           intros. pose proof (head_total _ Htm). cbn [head_time] in *. lia.
Qed.

Lemma sys_timeout_spec {W} (s : tstate W) fl out l msecs h g :
  timers_ok s fl out l → 0 ≤ msecs → msecs + elapsed s < 4294967296 →
  match fl MEMP_SYS_TIMEOUT with
  | [] => sys_timeout msecs h g s = Some (tt, s)
  | n :: fr => ∃ s' fl' out', sys_timeout msecs h g s = Some (tt, s') ∧
      timers_ok s' fl' out' (scheduled (elapsed s) msecs n (h, g) l) ∧
      fl' MEMP_SYS_TIMEOUT = fr ∧ same_env s s' ∧
      ts_last_time s' = match l with [] => ts_now s | _ => ts_last_time s end
  end.
Proof.
  intros Hok Hms Hlate. destruct (timers_NoDup _ _ _ _ Hok) as [Hnd H0].
  destruct Hok as [Hp Hm Ho Hl Ht].
  pose proof (memp_malloc_spec _ _ _ _ Hp Hm) as Hmm.
  destruct (fl MEMP_SYS_TIMEOUT) as [|n fr] eqn:Efl.
  - unfold sys_timeout. erewrite prog_bind_step by (unfold tpools; rewrite Hmm; reflexivity).
    cbn. by destruct s.
  - destruct Hmm as (q & Em & Hn0 & Hdq & Hpq). unfold sys_timeout.
    erewrite prog_bind_step by (unfold tpools; rewrite Em; reflexivity).
    rewrite (proj2 (Z.eqb_neq n 0)) by done.
    rewrite <- app_comm_cons in Hnd. pose proof Hnd as Hnd'. apply list.NoDup_cons in Hnd' as [Hnn _].
    destruct (timeout_insert_spec (set_pools q s) l n msecs h g) as (m & p & last & E & Hl' & Ht' & Hlast);
      [exact Hl | exact Ht | | done | done | exact Hlate |].
    { apply list.NoDup_cons. split; [set_solver|]. rewrite app_comm_cons in Hnd.
      by apply list.NoDup_app in Hnd as (_ & _ & ?). }
    rewrite E. eexists _, _, _. split; [reflexivity|]. split; [split; cbn|].
    + exact Hpq.
    + unfold MEMP_MAX. rewrite Hdq. exact Hm.
    + rewrite fupd_eq, Ho. symmetry. apply scheduled_addrs.
    + exact Hl'.
    + exact Ht'.
    + rewrite fupd_eq. split; [done|]. split; [done|]. exact Hlast.
Qed.

(** ** Scheduling *)

(** C30: [sys_timeout]: with a free element in the pool a new entry is
    linked, and counted from [timeouts_last_time] the deadlines are: the new
    one alone, counted from now, in an empty list; otherwise, if the first
    entry's time is at most [msecs] and not all entries are overdue, the old
    deadlines and the new one, at now + [msecs], behind those that are not
    later.  If all entries are overdue the new one comes [msecs] plus the
    time of the first entry after the last.  If the time of the first entry
    is more than [msecs], the new entry comes first, with its deadline at
    now + [msecs], but every other deadline is delayed by the time since
    [timeouts_last_time].  With an empty pool nothing happens at all. *)
Theorem sys_timeout_deadlines {W} (s : tstate W) fl out l msecs h g :
  timers_ok s fl out l → 0 ≤ msecs → msecs + elapsed s < 4294967296 →
  match fl MEMP_SYS_TIMEOUT with
  | [] => sys_timeout msecs h g s = Some (tt, s)
  | n :: fr => ∃ s' fl' out' l', sys_timeout msecs h g s = Some (tt, s') ∧
      timers_ok s' fl' out' l' ∧ l'.*1 ≡ₚ n :: l.*1 ∧ fl' MEMP_SYS_TIMEOUT = fr ∧
      same_env s s' ∧
      match l with
      | [] => ts_last_time s' = ts_now s ∧ due 0 l' = [(msecs, (h, g))]
      | _ => ts_last_time s' = ts_last_time s ∧
          due 0 l' =
            if msecs <? head_time l then (msecs + elapsed s, (h, g)) :: due (elapsed s) l
            else if elapsed s <=? total l
                 then insert_due (msecs + elapsed s, (h, g)) (due 0 l)
                 else due 0 l ++ [(total l + (msecs + head_time l), (h, g))]
      end
  end.
Proof.
  intros Hok Hms Hlate. pose proof (sys_timeout_spec s fl out l msecs h g Hok Hms Hlate) as H.
  pose proof (u32_range (ts_now s - ts_last_time s)) as Hd. fold (elapsed s) in Hd.
  destruct (fl MEMP_SYS_TIMEOUT) as [|n fr]; [exact H|].
  destruct H as (s' & fl' & out' & E & Hok' & Hfr & Henv & Hlast).
  exists s', fl', out', (scheduled (elapsed s) msecs n (h, g) l).
  split; [exact E|]. split; [exact Hok'|]. split; [apply scheduled_addrs|]. split; [exact Hfr|].
  split; [exact Henv|]. destruct l as [|[a [tm y]] l]; [done|]. split; [exact Hlast|].
  pose proof (to_times _ _ _ _ Hok) as Ht. cbn [scheduled head_time].
  destruct (Z.ltb_spec msecs tm) as [Hlt|Hge].
  - cbn [due]. rewrite !Z.add_0_l.
    by replace (msecs + elapsed s + (tm - msecs)) with (elapsed s + tm) by lia.
  - destruct (Z.leb_spec (elapsed s) (total ((a, (tm, y)) :: l))).
    + rewrite ins_due by (done || cbn [head_time total] in *; lia). by rewrite Z.add_0_l.
    + rewrite ins_due_late by (done || lia). by rewrite Z.add_0_l.
Qed.

(** ** Cancelling *)

(** The first entry with action [x], and the list without it: its time is
    given to the entry behind. *)
Fixpoint matched (x : action) (l : tentries) : option Z :=
  match l with
  | [] => None
  | (a, (_, y)) :: l' => if bool_decide (y = x) then Some a else matched x l'
  end.
Definition add_head (d : Z) (l : tentries) : tentries :=
  match l with [] => [] | (b, (tm, y)) :: l' => (b, (tm + d, y)) :: l' end.
Fixpoint cancelled (x : action) (l : tentries) : tentries :=
  match l with
  | [] => []
  | (a, (tm, y)) :: l' =>
      if bool_decide (y = x) then add_head tm l' else (a, (tm, y)) :: cancelled x l'
  end.
(** The same on deadlines. *)
Fixpoint remove_due (x : action) (L : list (Z * action)) : list (Z * action) :=
  match L with
  | [] => []
  | e :: L' => if bool_decide (e.2 = x) then L' else e :: remove_due x L'
  end.

Lemma cancelled_due x l : ∀ b, due b (cancelled x l) = remove_due x (due b l).
Proof.
  induction l as [|[a [tm y]] l IH]; intros b; [done|]. cbn [cancelled due remove_due snd].
  destruct (bool_decide (y = x)); [|cbn [due]; by rewrite IH].
  destruct l as [|[c [tm' z]] l]; [done|]. cbn [add_head due].
  by replace (b + (tm' + tm)) with (b + tm + tm') by lia.
Qed.

Lemma cancelled_addrs x l a : matched x l = Some a → l.*1 ≡ₚ a :: (cancelled x l).*1.
Proof.
  induction l as [|[c [tm y]] l IH]; [done|]. cbn [matched cancelled].
  destruct (bool_decide (y = x)).
  - intros [= ->]. destruct l as [|[d [tm' z]] l]; done.
  - intros H. rewrite !fmap_cons, IH by done. cbn. apply Permutation_swap.
Qed.

Lemma cancelled_none x l : matched x l = None → cancelled x l = l.
Proof.
  induction l as [|[c [tm y]] l IH]; [done|]. cbn [matched cancelled].
  destruct (bool_decide (y = x)); [done|]. intros H. by rewrite IH.
Qed.

Lemma cancelled_times x l : times_ok l → total l < 4294967296 → times_ok (cancelled x l).
Proof.
  induction l as [|[c [tm y]] l IH]; [done|]. cbn [cancelled total].
  intros [H Hl]%Forall_cons_1 Ht. cbn in H. destruct (bool_decide (y = x)).
  - destruct l as [|[d [tm' z]] l]; [done|]. apply Forall_cons_1 in Hl as [Hd Hl]. cbn in Hd.
    pose proof (total_nonneg _ Hl). cbn [total] in Ht. constructor; [cbn; lia | done].
  - constructor; [done|]. apply IH; [done|]. lia.
Qed.

Section untimeout.
  Context {W : Type} (s : tstate W) (h : option sys_timeout_handler) (g : Z).
  #[local] Set Default Proof Using "Type".

(** The pool takes back what was handed out. *)
Definition freed (q : pools) (o : option Z) : Prop :=
  match o with
  | None => q = ts_pools s
  | Some a => memp_free MEMP_SYS_TIMEOUT a (ts_pools s) = Some (tt, q)
  end.

Lemma untimeout_walk_spec l : ∀ m prev t fuel,
  tlist m t l → NoDup l.*1 → times_ok l → total l < 4294967296 →
  (∀ a, a ∈ l.*1 → ∃ q, memp_free MEMP_SYS_TIMEOUT a (ts_pools s) = Some (tt, q)) →
  (prev = 0 ∧ ts_next_timeout s = t ∨
   prev ≠ 0 ∧ (prev ∉ l.*1) ∧ ∃ e, m !! prev = Some e ∧ st_next e = t) →
  (length l < fuel)%nat →
  ∃ m' t' q, untimeout_walk fuel h g prev t (set_timeos m s)
    = Some (tt, set_pools q (set_next_timeout (if prev =? 0 then t' else ts_next_timeout s)
                               (set_timeos m' s))) ∧
    freed q (matched (h, g) l) ∧ tlist m' t' (cancelled (h, g) l) ∧
    (∀ k, k ∉ prev :: l.*1 → m' !! k = m !! k) ∧
    (prev ≠ 0 → ∀ e, m !! prev = Some e →
       m' !! prev = Some (SysTimeo t' (st_time e) (st_h e) (st_arg e))).
Proof.
  induction l as [|[a [tm [ha ga]]] l IH]; intros m prev t fuel Hl Hnd Htm Htot Hfree Hprev Hfuel;
    (destruct fuel as [|fuel]; [cbn [length] in Hfuel; lia|]); cbn [untimeout_walk].
  - cbn in Hl. subst t. rewrite Z.eqb_refl. exists m, 0, (ts_pools s). cbn [matched freed cancelled].
    assert (Hif : (if prev =? 0 then 0 else ts_next_timeout s) = ts_next_timeout s).
    { destruct Hprev as [[-> E]|(H & _)]; [by rewrite E | by rewrite (proj2 (Z.eqb_neq _ _))]. }
    rewrite Hif. split; [by destruct s|]. split; [done|]. split; [done|]. split; [done|].
    intros Hp e He. destruct Hprev as [[-> _]|(_ & _ & e' & He' & Hn)]; [done|].
    rewrite He in He'. injection He' as <-. rewrite He. by destruct e; cbn in *; subst.
  - destruct Hl as (-> & Ha0 & q & Ha & Hl). rewrite (proj2 (Z.eqb_neq a 0)) by done.
    rewrite fmap_cons in *. cbn [fst] in *. apply list.NoDup_cons in Hnd as [Hal Hnd].
    apply Forall_cons_1 in Htm as [Hta Htl]. cbn in Hta. cbn [total] in Htot.
    pose proof (total_nonneg _ Htl) as Htn.
    erewrite prog_bind_step by (apply tderef_run; exact Ha). cbn [st_h st_arg st_next st_time].
    cbn [matched cancelled].
    assert (Hdec : bool_decide (ha = h) && (ga =? g) = bool_decide ((ha, ga) = (h, g))).
    { destruct (Z.eqb_spec ga g) as [->|Hg].
      - rewrite andb_true_r. apply bool_decide_ext. split; [by intros -> | by intros [= ->]].
      - rewrite andb_false_r. symmetry. apply bool_decide_eq_false. by intros [= _ ->]. }
    rewrite Hdec. destruct (bool_decide ((ha, ga) = (h, g))) eqn:Ex.
    + assert (H1 : ∃ m1, (if prev =? 0 then modify (set_next_timeout q) else upd_next prev q)
          (set_timeos m s) = Some (tt, set_next_timeout (if prev =? 0 then q else ts_next_timeout s)
                                         (set_timeos m1 s)) ∧
        (∀ k, k ≠ prev ∨ prev = 0 → m1 !! k = m !! k) ∧
        (prev ≠ 0 → ∀ e, m !! prev = Some e →
           m1 !! prev = Some (SysTimeo q (st_time e) (st_h e) (st_arg e)))).
      { destruct Hprev as [[-> _]|(Hp & _ & e & He & _)].
        - exists m. split; [done|]. split; [done|]. done.
        - rewrite (proj2 (Z.eqb_neq prev 0)) by done. erewrite upd_next_run by (exact He).
          exists (<[prev := SysTimeo q (st_time e) (st_h e) (st_arg e)]> m).
          split; [reflexivity|]. split.
          + intros k [Hk|?]; [|done]. by rewrite lookup_insert_ne.
          + intros _ e' He'. rewrite He in He'. injection He' as <-. by rewrite lookup_insert_eq. }
      destruct H1 as (m1 & H1 & Hm1 & Hm1p). erewrite prog_bind_step by exact H1.
      destruct (Hfree a) as [q' Hq']; [by left|].
      assert (Hpa : prev = 0 ∨ prev ≠ a ∧ (prev ∉ l.*1)).
      { destruct Hprev as [[-> _]|(_ & Hp & _)]; [by left|]. right. by apply not_elem_of_cons in Hp. }
      assert (Hl1 : tlist m1 q l).
      { apply (tlist_frame m); [done|]. intros k Hk. apply Hm1.
        destruct Hpa as [?|[_ Hp]]; [by right|]. left. intros ->. done. }
      destruct l as [|[b [tm' [hb gb]]] l].
      * cbn in Hl. subst q. change (negb (0 =? 0)) with false. cbn [when]. tstep.
        unfold free_timeo. tstep. unfold tpools. cbn [ts_pools set_timeos set_next_timeout].
        rewrite Hq'. eexists (delete a m1), 0, q'. split; [by destruct s|].
        split; [exact Hq'|]. split; [done|]. split.
        -- intros k Hk. apply not_elem_of_cons in Hk as [Hk1 Hk]. apply not_elem_of_cons in Hk as [Hk2 _].
           rewrite lookup_delete_ne by done. apply Hm1. by left.
        -- intros Hp e He. rewrite lookup_delete_ne; [by apply Hm1p|].
           destruct Hpa as [?|[? _]]; done.
      * destruct Hl1 as (-> & Hb0 & q2 & Hb & Hl1).
        rewrite fmap_cons in Hal, Hnd, Hpa. cbn [fst] in Hal, Hnd, Hpa.
        apply not_elem_of_cons in Hal as [Hab Hal]. apply list.NoDup_cons in Hnd as [Hbl Hnd].
        apply Forall_cons_1 in Htl as [Htb Htl]. cbn in Htb. pose proof (total_nonneg _ Htl).
        cbn [total] in Htot. rewrite (proj2 (Z.eqb_neq b 0)) by done. cbn [negb when].
        erewrite prog_bind_step by (apply upd_time_run; exact Hb).
        cbn [st_next st_time st_h st_arg]. rewrite u32_small by lia.
        set (m2 := <[b := SysTimeo q2 (tm' + tm) hb gb]> m1).
        unfold free_timeo. tstep. unfold tpools.
        cbn [ts_pools set_timeos set_next_timeout]. rewrite Hq'.
        exists (delete a m2), b, q'. split; [by destruct s|].
        split; [exact Hq'|]. cbn [add_head]. split.
        { split; [done|]. split; [done|]. exists q2. unfold m2.
          split; [by rewrite lookup_delete_ne, lookup_insert_eq by done|].
          apply tlist_delete; [|done]. by apply tlist_insert. }
        unfold m2. split.
        { intros k Hk. apply not_elem_of_cons in Hk as [Hk1 Hk]. rewrite fmap_cons in Hk.
          apply not_elem_of_cons in Hk as [Hk2 Hk]. apply not_elem_of_cons in Hk as [Hk3 _].
          cbn in Hk3. rewrite lookup_delete_ne, lookup_insert_ne by done. apply Hm1. by left. }
        intros Hp e He. destruct Hpa as [?|[Hpa Hpb]]; [done|].
        apply not_elem_of_cons in Hpb as [Hpb _].
        rewrite lookup_delete_ne, lookup_insert_ne by done. by apply Hm1p.
    + destruct (IH m a q fuel) as (m' & t' & q' & E & Hfr & Hl' & Hk & Hpe); try done.
      * lia.
      * intros b Hb. apply Hfree. by right.
      * right. split; [done|]. split; [done|]. by eexists.
      * cbn [length] in Hfuel. lia.
      * rewrite (proj2 (Z.eqb_neq a 0)) in E by done.
        exists m', a, q'. split.
        { rewrite E. destruct Hprev as [[-> En]|(Hp & _)]; [by rewrite En|].
          by rewrite (proj2 (Z.eqb_neq prev 0)). }
        split; [done|]. split.
        { split; [done|]. split; [done|]. exists t'. split; [|exact Hl'].
          by rewrite (Hpe Ha0 _ Ha). }
        split.
        { intros k Hkk. apply Hk. set_solver. }
        intros Hp e He. destruct Hprev as [[-> _]|(_ & Hpl & e' & He' & Hn)]; [done|].
        rewrite Hk by set_solver. rewrite He in He'. injection He' as <-. rewrite He.
        by destruct e; cbn in *; subst.
Qed.
End untimeout.

Lemma sys_untimeout_spec {W} (s : tstate W) fl out l h g :
  timers_ok s fl out l → total l < 4294967296 →
  ∃ s' fl' out', sys_untimeout h g s = Some (tt, s') ∧
    timers_ok s' fl' out' (cancelled (h, g) l) ∧
    fl' MEMP_SYS_TIMEOUT = option_list (matched (h, g) l) ++ fl MEMP_SYS_TIMEOUT ∧
    same_env s s' ∧ ts_last_time s' = ts_last_time s.
Proof.
  intros Hok Ht. destruct (timers_NoDup _ _ _ _ Hok) as [Hnd _].
  apply list.NoDup_app in Hnd as (_ & _ & Hnd). pose proof Hok as [Hp Hm Ho Hl Htm].
  unfold sys_untimeout. tstep. destruct (Z.eqb_spec (ts_next_timeout s) 0) as [E0|E0].
  { rewrite E0 in Hl. apply tlist_null in Hl as ->. exists s, fl, out.
    split; [done|]. split; [done|]. done. }
  tstep.
  destruct (untimeout_walk_spec s h g l (ts_timeos s) 0 (ts_next_timeout s) (tfuel s))
    as (m' & t' & q & E & Hfr & Hl' & _ & _); try done.
  - intros a Ha. rewrite <- Ho in Ha. apply elem_of_Permutation in Ha as [k Hk].
    destruct (memp_free_spec _ _ _ _ _ _ Hp Hm Hk) as (q & Eq & _). by exists q.
  - by left.
  - unfold tfuel. pose proof (tlist_size _ _ _ Hl Hnd). lia.
  - replace (set_timeos (ts_timeos s) s) with s in E by (by destruct s). rewrite Z.eqb_refl in E.
    rewrite E. destruct (matched (h, g) l) as [a|] eqn:Ema; cbn [freed option_list app] in *.
    + pose proof (cancelled_addrs _ _ _ Ema) as Hperm. rewrite Hperm in Ho.
      destruct (memp_free_spec _ _ _ _ _ _ Hp Hm Ho) as (q' & Eq' & Hdq & Hpq).
      rewrite Hfr in Eq'. injection Eq' as <-.
      eexists _, _, _. split; [reflexivity|]. split; [split; cbn|].
      * exact Hpq.
      * unfold MEMP_MAX. by rewrite Hdq.
      * by rewrite fupd_eq.
      * exact Hl'.
      * by apply cancelled_times.
      * rewrite fupd_eq. done.
    + subst q. eexists _, fl, out. split; [reflexivity|]. split; [split; cbn|]; try done.
      * by rewrite cancelled_none.
      * by apply cancelled_times.
Qed.

(** [sys_untimeout] removes the first entry with the given handler and
    argument, if there is one, and gives its element back to the pool; the
    deadlines of all other entries stay what they were, and so does
    everything else. *)
Theorem sys_untimeout_deadlines {W} (s : tstate W) fl out l h g :
  timers_ok s fl out l → total l < 4294967296 →
  ∃ s' fl' out' l', sys_untimeout h g s = Some (tt, s') ∧ timers_ok s' fl' out' l' ∧
    due 0 l' = remove_due (h, g) (due 0 l) ∧
    fl' MEMP_SYS_TIMEOUT = option_list (matched (h, g) l) ++ fl MEMP_SYS_TIMEOUT ∧
    same_env s s' ∧ ts_last_time s' = ts_last_time s.
Proof.
  intros Hok Ht. destruct (sys_untimeout_spec s fl out l h g Hok Ht)
    as (s' & fl' & out' & E & Hok' & Hfl & Henv & Hlast).
  exists s', fl', out', (cancelled (h, g) l). split; [exact E|]. split; [exact Hok'|].
  split; [apply cancelled_due|]. done.
Qed.
