(* ===== verification/TimeoutsExpiry.v ===== *)
(** * Expiry of timeouts

    What [sys_check_timeouts] calls, against a contract for the handlers that
    the cyclic timers of the stack and handlers that leave the timers alone
    satisfy. *)

From stdpp Require Import base numbers list gmap option.
From S2P Require Import Prelude Memp Timeouts TimeoutsProps.

(** The actions that are due [d] after [timeouts_last_time], in their order. *)
Fixpoint expired (d : Z) (l : tentries) : list action :=
  match l with
  | [] => []
  | (_, (tm, x)) :: l' => if tm <=? d then x :: expired (d - tm) l' else []
  end.

Lemma due_lower l : ∀ b, times_ok l → Forall (λ e : Z * action, b ≤ e.1) (due b l).
Proof.
  induction l as [|[a [tm x]] l IH]; intros b Htm; [constructor|].
  apply Forall_cons_1 in Htm as [Ht Htm]. cbn in Ht. cbn [due].
  constructor; [cbn; lia|]. eapply list.Forall_impl; [by apply IH|]. intros e He. cbn in He. lia.
Qed.

(** They are the ones whose deadline has come. *)
Lemma expired_due l : ∀ d b,
  times_ok l → expired d l = snd <$> filter (λ e : Z * action, e.1 ≤ b + d) (due b l).
Proof.
  induction l as [|[a [tm x]] l IH]; intros d b Htm; [done|].
  apply Forall_cons_1 in Htm as [Ht Htm]. cbn in Ht. cbn [expired due].
  destruct (Z.leb_spec tm d) as [Hle|Hgt].
  - rewrite filter_cons_True by (cbn; lia). rewrite fmap_cons. cbn [snd]. f_equal.
    rewrite (IH (d - tm) (b + tm)) by done. f_equal.
    apply list_filter_iff. intros e. lia.
  - rewrite filter_cons_False by (cbn; lia). rewrite filter_none; [done|].
    eapply list.Forall_impl; [by apply (due_lower l (b + tm))|]. intros e He. cbn in He. lia.
Qed.

Lemma head_nonneg l : times_ok l → 0 ≤ head_time l.
Proof. destruct l as [|[a [tm x]] l]; [done|]. intros [H _]%Forall_cons_1. cbn in *. lia. Qed.

Lemma expired_length l : ∀ d, (length (expired d l) ≤ length l)%nat.
Proof.
  induction l as [|[a [tm x]] l IH]; intros d; [done|]. cbn [expired length].
  destruct (_ <=? _); cbn [length]; [|lia]. specialize (IH (d - tm)). lia.
Qed.

(** The time to sleep when nothing is due. *)
Lemma sleeptime_spec {W} (s : tstate W) fl out l :
  timers_ok s fl out l → expired (elapsed s) l = [] →
  ∃ t, sys_timeouts_sleeptime s = Some (t, s) ∧ 0 < t ∧
    match l with [] => t = 0xffffffff | _ => t = head_time l - elapsed s end.
Proof.
  intros Hok He. unfold sys_timeouts_sleeptime. tstep.
  destruct l as [|[a [tm [h g]]] l].
  - pose proof (to_list _ _ _ _ Hok) as Hl. cbn in Hl. rewrite Hl. by eexists.
  - destruct (to_list _ _ _ _ Hok) as (Ea & Ha0 & p & Ha & _).
    rewrite Ea, (proj2 (Z.eqb_neq a 0)) by done. tstep. tstep.
    erewrite prog_bind_step by (apply tderef_run; exact Ha). cbn [st_time].
    fold (elapsed s). cbn [expired] in He. destruct (Z.leb_spec tm (elapsed s)); [done|].
    rewrite (proj2 (Z.ltb_ge tm (elapsed s))) by lia. eexists. split; [reflexivity|].
    cbn [head_time]. split; [lia | done].
Qed.

(** ** New deadlines do not disturb what is due *)

Lemma filter_insert_due d e L :
  d < e.1 →
  filter (λ e : Z * action, e.1 ≤ d) (insert_due e L) = filter (λ e : Z * action, e.1 ≤ d) L.
Proof.
  intros He. induction L as [|c L IH]; cbn [insert_due].
  - by rewrite filter_cons_False by lia.
  - destruct (_ <? _); [by rewrite filter_cons_False by lia|].
    destruct (decide (c.1 ≤ d)).
    + by rewrite !filter_cons_True, IH.
    + by rewrite !filter_cons_False, IH.
Qed.

Lemma expired_scheduled d msecs n x l :
  times_ok l → times_ok (scheduled d msecs n x l) → 0 ≤ d < msecs →
  expired d (scheduled d msecs n x l) = expired d l.
Proof.
  intros Ht Ht' Hd. destruct l as [|[a [tm y]] l].
  - cbn [scheduled expired]. by rewrite (proj2 (Z.leb_gt msecs d)) by lia.
  - cbn [scheduled] in *. destruct (Z.ltb_spec msecs tm) as [Hlt|Hge].
    + cbn [expired]. by rewrite (proj2 (Z.leb_gt (msecs + d) d)), (proj2 (Z.leb_gt tm d)) by lia.
    + rewrite (expired_due _ d 0 Ht), (expired_due _ d 0 Ht'). f_equal.
      set (l0 := (a, (tm, y)) :: l) in *. pose proof (total_nonneg _ Ht).
      assert (Hh : head_time l0 = tm) by done.
      pose proof Ht as Ht0. apply Forall_cons_1 in Ht0 as [Hta _]. cbn in Hta.
      destruct (Z.le_gt_cases d (total l0)).
      * rewrite ins_due by (done || lia). apply filter_insert_due. cbn. lia.
      * rewrite ins_due_late by (done || lia). rewrite list.filter_app.
        rewrite filter_cons_False by (cbn [fst]; lia). apply app_nil_r.
Qed.

(** ** The contract of a handler *)

Section contract.
  Context {W : Type}.
(** What the contract is about: actions that may stand in the list. *)
  Context (good : action → Prop) (D : Z).

Definition all_good (l : tentries) : Prop := Forall (λ e : Z * (Z * action), good e.2.2) l.

(** Called at most [D] after [timeouts_last_time], with room in the pool: the
    handler returns, does [run] to the rest of the state, and may schedule
    entries that are not due yet. *)
Definition handler_ok (call : prog (tstate W) unit) (run : W → W) : Prop :=
  ∀ s fl out l,
    timers_ok s fl out l → fl MEMP_SYS_TIMEOUT ≠ [] → 0 ≤ elapsed s ≤ D → all_good l →
    ∃ s' fl' out' l', call s = Some (tt, s') ∧ timers_ok s' fl' out' l' ∧ all_good l' ∧
      ts_world s' = run (ts_world s) ∧ ts_now s' = ts_now s ∧
      ts_core_locked s' = ts_core_locked s ∧
      expired (elapsed s) l' = expired (elapsed s) l ∧
      (elapsed s' = elapsed s ∨ expired (elapsed s) l' = [] ∧ expired (elapsed s') l' = []).
End contract.

(** ** The loop *)

Section check.
  Context {W : Type}.
  Context (cyclic_handler : nat → prog (tstate W) unit).
  Context (user_handler : Z → Z → prog (tstate W) unit).
  Context (tcp_pcbs : W → bool).
  Context (good : action → Prop) (D : Z) (run : sys_timeout_handler → Z → W → W).
  Context (Hgood : ∀ hd g, good (Some hd, g) →
  handler_ok good D (call_handler cyclic_handler user_handler tcp_pcbs hd g) (run hd g)).
  #[local] Set Default Proof Using "All".

Definition act (w : W) (x : action) : W :=
  match x.1 with Some hd => run hd x.2 w | None => w end.

Lemma elapsed_pop (s : tstate W) tm :
  0 ≤ tm ≤ elapsed s → u32 (ts_now s - u32 (ts_last_time s + tm)) = elapsed s - tm.
Proof. unfold elapsed, u32. intros H. zmod. Qed.

(** The first entry leaves the list and its element goes back to the pool. *)
Lemma pop_first (s : tstate W) fl out a tm h g l :
  timers_ok s fl out ((a, (tm, (h, g))) :: l) →
  ∃ p q fl' out',
    ts_next_timeout s = a ∧ a ≠ 0 ∧ ts_timeos s !! a = Some (SysTimeo p tm h g) ∧
    memp_free MEMP_SYS_TIMEOUT a (ts_pools s) = Some (tt, q) ∧
    timers_ok (set_pools q (set_timeos (delete a (ts_timeos s)) (set_next_timeout p s))) fl' out' l ∧
    fl' MEMP_SYS_TIMEOUT ≠ [].
Proof.
  intros Hok. destruct (timers_NoDup _ _ _ _ Hok) as [Hnd _].
  apply list.NoDup_app in Hnd as (_ & _ & Hnd). apply list.NoDup_cons in Hnd as [Hal Hnd].
  destruct Hok as [Hp Hm Ho (Ea & Ha0 & p & Ha & Hl) Ht].
  destruct (memp_free_spec _ _ _ _ _ _ Hp Hm Ho) as (q & Eq & Hdq & Hpq).
  eexists p, q, _, _. split; [done|]. split; [done|]. split; [done|]. split; [exact Eq|].
  split; [split; cbn|].
  - exact Hpq.
  - unfold MEMP_MAX. rewrite Hdq. exact Hm.
  - by rewrite fupd_eq.
  - by apply tlist_delete.
  - by apply Forall_cons_1 in Ht as [_ ?].
  - by rewrite fupd_eq.
Qed.

Lemma timers_ok_env (s : tstate W) fl out l last b w :
  timers_ok s fl out l → timers_ok (set_last_time last (set_locked b (set_world w s))) fl out l.
Proof. intros [Hp Hm Ho Hl Ht]. by split. Qed.

Lemma check_loop_spec E : ∀ s fl out l d fuel,
  timers_ok s fl out l → all_good good l → expired d l = E → 0 ≤ d ≤ D + head_time l →
  elapsed s = d ∨ expired d l = [] ∧ expired (elapsed s) l = [] →
  ts_core_locked s = false → (length E < fuel)%nat →
  ∃ s' fl' out' l',
    check_loop cyclic_handler user_handler tcp_pcbs fuel d s = Some (tt, s') ∧
    timers_ok s' fl' out' l' ∧ all_good good l' ∧
    ts_world s' = foldl act (ts_world s) E ∧ ts_now s' = ts_now s ∧
    ts_core_locked s' = false ∧ expired (elapsed s') l' = [].
Proof.
  induction E as [|x E IH]; intros s fl out l d fuel Hok Hg HE Hd Hlate Hlock Hf;
    (destruct fuel as [|fuel]; [cbn [length] in Hf; lia|]); cbn [check_loop].
  - exists s, fl, out, l. split.
    { tstep. destruct l as [|[a [tm [h g]]] l].
      - pose proof (to_list _ _ _ _ Hok) as Hl. cbn in Hl. by rewrite Hl.
      - destruct (pop_first _ _ _ _ _ _ _ _ Hok) as (p & q & fl' & out' & Ea & Ha0 & Ha & _).
        rewrite Ea, (proj2 (Z.eqb_neq a 0)) by done.
        erewrite prog_bind_step by (apply tderef_run; exact Ha). cbn [st_time].
        cbn [expired] in HE. destruct (tm <=? d); [done|]. done. }
    split; [done|]. split; [done|]. split; [done|]. split; [done|]. split; [done|].
    destruct Hlate as [-> | [_ ?]]; done.
  - destruct l as [|[a [tm [h g]]] l]; [done|]. cbn [expired head_time] in HE, Hd.
    destruct (Z.leb_spec tm d) as [Hle|]; [|done]. injection HE as <- HE.
    destruct Hlate as [Hlate|[Hx _]]; [|cbn [expired] in Hx; by rewrite (proj2 (Z.leb_le tm d)) in Hx].
    destruct (pop_first _ _ _ _ _ _ _ _ Hok)
      as (p & q & fl' & out' & Ea & Ha0 & Ha & Eq & Hok' & Hfl').
    pose proof (to_times _ _ _ _ Hok) as Ht. apply Forall_cons_1 in Ht as [Hta _]. cbn in Hta.
    apply Forall_cons_1 in Hg as [Hgx Hg]. cbn [snd] in Hgx.
    tstep. rewrite Ea, (proj2 (Z.eqb_neq a 0)) by done.
    erewrite prog_bind_step by (apply tderef_run; exact Ha). cbn [st_time st_next st_h st_arg].
    rewrite (proj2 (Z.leb_le tm d)) by done. tstep. tstep. tstep.
    set (s1 := set_last_time (u32 (ts_last_time s + tm))
      (set_pools q (set_timeos (delete a (ts_timeos s)) (set_next_timeout p s)))).
    erewrite prog_bind_step.
    2: { unfold free_timeo. tstep. unfold tpools. cbn. rewrite Eq. reflexivity. }
    match goal with |- context [mbind _ _ ?st] => change st with s1 end.
    assert (Hd32 : d < 4294967296) by (rewrite <- Hlate; apply u32_range).
    rewrite (u32_small (d - tm)) by lia.
    assert (Hl1 : elapsed s1 = d - tm) by (rewrite <- Hlate; exact (elapsed_pop s tm ltac:(lia))).
    assert (Hok1 : timers_ok s1 fl' out' l) by (destruct Hok'; by split).
    destruct h as [hd|].
    + assert (Hoks : timers_ok (set_locked true s1) fl' out' l) by (destruct Hok1; by split).
      destruct (Hgood hd g Hgx _ _ _ _ Hoks Hfl')
        as (s2 & fl2 & out2 & l2 & Ec & Hok2 & Hg2 & Hw2 & Hn2 & Hlk2 & He2 & Hlate2);
        [change (elapsed (set_locked true s1)) with (elapsed s1); lia | done |].
      change (elapsed (set_locked true s1)) with (elapsed s1) in *. rewrite Hl1 in He2, Hlate2.
      set (s3 := set_locked false s2).
      erewrite (prog_bind_step _ _ s1 tt s3).
      2: { unfold LOCK_TCPIP_CORE. erewrite prog_bind_step; [erewrite prog_bind_step by exact Ec; reflexivity|].
           tstep. change (ts_core_locked s1) with (ts_core_locked s). rewrite Hlock. reflexivity. }
      assert (Hok3 : timers_ok s3 fl2 out2 l2) by (destruct Hok2; by split).
      pose proof (head_nonneg l2 (to_times _ _ _ _ Hok3)).
      destruct (IH s3 fl2 out2 l2 (d - tm) fuel)
        as (s' & fl3 & out3 & l3 & Ec3 & Hok4 & Hg4 & Hw & Hn & Hlk & Hex); try done;
        [by rewrite He2 | lia | cbn [length] in Hf; lia |].
      exists s', fl3, out3, l3. split; [exact Ec3|]. split; [done|]. split; [done|].
      split; [rewrite Hw; cbn [foldl]; f_equal; exact Hw2|]. split; [|done].
      rewrite Hn. exact Hn2.
    + tstep. pose proof (head_nonneg l (to_times _ _ _ _ Hok1)). destruct (IH s1 fl' out' l (d - tm) fuel) as (s' & fl2 & out2 & l2 & Ec & ? & ? & Hw & ? & ? & ?);
        try done; [lia | by left | cbn [length] in Hf; lia |].
      exists s', fl2, out2, l2. split; [exact Ec|]. done.
Qed.
End check.

(** ** The handlers of the stack keep the contract *)

(** The shortest interval of a cyclic timer is 100 ms (IGMP). *)
Definition max_late : Z := 99.

(** A cyclic timer with its index, the TCP timer, or a handler of an
    application. *)
Definition stack_action (x : action) : Prop :=
  match x.1 with
  | Some cyclic_timer_h => 0 ≤ x.2 < Z.of_nat (length cyclic_intervals)
  | _ => True
  end.

Section stack.
  Context {W : Type}.
  Context (cyclic_handler : nat → prog (tstate W) unit).
  Context (user_handler : Z → Z → prog (tstate W) unit).
  Context (tcp_pcbs : W → bool).
(** The timer functions of the protocols and the handlers of applications
    return and do not touch the timeouts. *)
  Context (tmr : nat → W → W) (usr : Z → Z → W → W).
  Context (Hcyclic : ∀ i s, cyclic_handler i s = Some (tt, set_world (tmr i (ts_world s)) s)).
  Context (Huser : ∀ n g s, user_handler n g s = Some (tt, set_world (usr n g (ts_world s)) s)).
  #[local] Set Default Proof Using "All".

Definition stack_run (hd : sys_timeout_handler) (g : Z) : W → W :=
  match hd with
  | tcpip_tcp_timer_h => tmr 0
  | cyclic_timer_h => tmr (Z.to_nat g)
  | user_handler_h n => usr n g
  end.

Lemma timers_ok_world (s : tstate W) fl out l w :
  timers_ok s fl out l → timers_ok (set_world w s) fl out l.
Proof. intros [Hp Hm Ho Hl Ht]. by split. Qed.

Lemma ins_good msecs first n x l : ∀ r,
  all_good stack_action l → stack_action x → all_good stack_action (ins msecs first n x r l).
Proof.
  induction l as [|[a [tm y]] l IH]; intros r Hl Hx; [done|]. cbn [ins].
  pose proof Hl as Hl0. apply Forall_cons_1 in Hl0 as [Hy Hl']. 
  destruct l as [|[b [tm' z]] l]; [by repeat constructor|].
  pose proof Hl' as Hl0. apply Forall_cons_1 in Hl0 as [Hz Hl0]. cbn in Hy, Hz.
  destruct (_ <? _); [by repeat constructor|]. constructor; [done|]. by apply IH.
Qed.

Lemma scheduled_good d msecs n x l :
  all_good stack_action l → stack_action x → all_good stack_action (scheduled d msecs n x l).
Proof.
  intros Hl Hx. destruct l as [|[a [tm y]] l]; [by repeat constructor|]. cbn [scheduled].
  pose proof Hl as Hl0. apply Forall_cons_1 in Hl0 as [Hy Hl']. cbn in Hy.
  destruct (_ <? _); [by repeat constructor | by apply ins_good].
Qed.

(** A handler that reschedules itself with a positive interval. *)
Lemma reschedule_ok (s : tstate W) w fl out l interval hd g :
  timers_ok s fl out l → fl MEMP_SYS_TIMEOUT ≠ [] → 0 ≤ elapsed s ≤ max_late →
  all_good stack_action l → max_late < interval ≤ 60000 → stack_action (Some hd, g) →
  ∃ s' fl' out' l',
    sys_timeout interval (Some hd) g (set_world w s) = Some (tt, s') ∧
    timers_ok s' fl' out' l' ∧ all_good stack_action l' ∧
    ts_world s' = w ∧ ts_now s' = ts_now s ∧ ts_core_locked s' = ts_core_locked s ∧
    expired (elapsed s) l' = expired (elapsed s) l ∧
    (elapsed s' = elapsed s ∨ expired (elapsed s) l' = [] ∧ expired (elapsed s') l' = []).
Proof.
  intros Hok Hfl Hlate Hg Hint Hx. unfold max_late in *.
  pose proof (sys_timeout_spec (set_world w s) fl out l interval (Some hd) g
    (timers_ok_world s fl out l w Hok)) as H.
  change (elapsed (set_world w s)) with (elapsed s) in H.
  destruct (fl MEMP_SYS_TIMEOUT) as [|n fr]; [done|].
  destruct H as (s' & fl' & out' & E & Hok' & _ & (Hn & Hw & Hlk & _) & Hlast); [lia | lia |].
  eexists s', fl', out', _. split; [exact E|]. split; [exact Hok'|].
  split; [by apply scheduled_good|]. split; [exact Hw|]. split; [exact Hn|]. split; [exact Hlk|].
  assert (He : expired (elapsed s) (scheduled (elapsed s) interval n (Some hd, g) l)
               = expired (elapsed s) l).
  { apply expired_scheduled; [apply (to_times _ _ _ _ Hok) | apply (to_times _ _ _ _ Hok') | lia]. }
  split; [exact He|]. destruct l as [|e l].
  - right. split; [exact He|]. unfold elapsed at 1. rewrite Hlast, Hn. cbn [ts_now set_world].
    rewrite Z.sub_diag. cbn [scheduled expired]. change (u32 0) with 0.
    by rewrite (proj2 (Z.leb_gt interval 0)) by lia.
  - left. unfold elapsed. by rewrite Hlast, Hn.
Qed.

Lemma stack_handlers_ok hd g :
  stack_action (Some hd, g) →
  handler_ok stack_action max_late (call_handler cyclic_handler user_handler tcp_pcbs hd g)
    (stack_run hd g).
Proof.
  intros Hx s fl out l Hok Hfl Hlate Hg. destruct hd as [| |n]; cbn [call_handler stack_run].
  - unfold tcpip_tcp_timer. erewrite prog_bind_step by apply Hcyclic. tstep.
    destruct (tcp_pcbs _).
    + by apply (reschedule_ok s _ fl out l).
    + eexists _, fl, out, l. split; [reflexivity|]. split; [destruct Hok; by split|].
      split; [done|]. split; [done|]. split; [done|]. split; [done|]. split; [done|]. by left.
  - cbn in Hx. unfold cyclic_timer.
    destruct (lookup_lt_is_Some_2 cyclic_intervals (Z.to_nat g)) as [iv Hiv]; [cbn; lia|].
    assert (Hr : max_late < iv ≤ 60000).
    { apply list_elem_of_lookup_2 in Hiv. unfold max_late.
      repeat (apply elem_of_cons in Hiv as [->|Hiv]; [unfold TCP_TMR_INTERVAL; lia|]).
      by apply elem_of_nil in Hiv. }
    erewrite prog_bind_step by (unfold lift; rewrite Hiv; reflexivity).
    erewrite prog_bind_step by apply Hcyclic.
    by apply (reschedule_ok s _ fl out l).
  - rewrite Huser. eexists _, fl, out, l. split; [reflexivity|].
    split; [by apply timers_ok_world|]. split; [done|]. split; [done|]. split; [done|].
    split; [done|]. split; [done|]. by left.
Qed.

End stack.

(** ** Instances

    A pool of ten entries; the rest of the state is the list of the handlers
    that were called. *)

Definition log := list (sys_timeout_handler * Z).
Definition ex_cyclic (i : nat) : prog (tstate log) unit :=
  modify (λ s, set_world (ts_world s ++ [(cyclic_timer_h, Z.of_nat i)]) s).
Definition ex_user (n g : Z) : prog (tstate log) unit :=
  modify (λ s, set_world (ts_world s ++ [(user_handler_h n, g)]) s).
Definition no_pcbs (w : log) : bool := false.

Definition at_time (t : Z) (s : tstate log) : tstate log :=
  TState (ts_timeos s) (ts_next_timeout s) (ts_last_time s) (ts_tcp_timer_active s)
    (ts_core_locked s) t (ts_pools s) (ts_world s).

Lemma timers_ok_at t s fl out l : timers_ok s fl out l → timers_ok (at_time t s) fl out l.
Proof. intros [Hp Hm Ho Hl Ht]. by split. Qed.

Definition ex_timer_pools : pools :=
  Pools (replicate 9 (MempDesc 0 0 0) ++ [MempDesc 16 10 536900000]) (replicate 10 0) ∅.

Lemma ex_timers0 :
  ∃ q fl, memp_init ex_timer_pools = Some (tt, q) ∧
    timers_ok (TState ∅ 0 0 false false 0 q ([] : log)) fl (λ _, []) [] ∧
    ∃ n n' fr, fl MEMP_SYS_TIMEOUT = n :: n' :: fr.
Proof.
  destruct (memp_init_spec ex_timer_pools) as (q & E & Hd & Hi);
    [split; refine (bool_decide_unpack _ _); vm_compute; exact I | done |].
  eexists q, _. split; [exact E|]. split; [split|].
  - exact Hi.
  - unfold MEMP_MAX. cbn. rewrite Hd. cbn. unfold MEMP_SYS_TIMEOUT. lia.
  - done.
  - done.
  - constructor.
  - eexists _, _, _. vm_compute. reflexivity.
Qed.

(** An entry for [user_handler_h 1] in 500 ms, started at time 0. *)
Lemma ex_timers1 :
  ∃ (s : tstate log) fl out l n fr, timers_ok s fl out l ∧ fl MEMP_SYS_TIMEOUT = n :: fr ∧
    due 0 l = [(500, (Some (user_handler_h 1), 7))] ∧ l ≠ [] ∧ head_time l = 500 ∧ total l = 500 ∧
    ts_last_time s = 0 ∧ ts_now s = 0 ∧ ts_core_locked s = false ∧ ts_world s = [] ∧
    l.*2 = [(500, (Some (user_handler_h 1), 7))].
Proof.
  destruct ex_timers0 as (q & fl & _ & Hok & n & n' & fr & Hfl).
  pose proof (sys_timeout_spec _ fl _ [] 500 (Some (user_handler_h 1)) 7 Hok) as H.
  rewrite Hfl in H.
  destruct H as (s & fl' & out' & E & Hok' & Hfl' & (Hn & Hw & Hlk & _) & Hlast); [lia | reflexivity |].
  eexists s, fl', out', _, _, _. split; [exact Hok'|]. split; [exact Hfl'|]. done.
Qed.

(** 300 ms later: the new entry is due at 400, the old one moves from 500 to 800. *)
Lemma sys_timeout_deadlines_witness :
  ∃ (s s' : tstate log) l', ts_last_time s = 0 ∧ ts_now s = 300 ∧
    sys_timeout 100 (Some (user_handler_h 2)) 0 s = Some (tt, s') ∧ ts_last_time s' = 0 ∧
    due 0 l' = [(400, (Some (user_handler_h 2), 0)); (800, (Some (user_handler_h 1), 7))].
Proof.
  destruct ex_timers1 as (s & fl & out & l & n & fr & Hok & Hfl & Hd & Hl & Hh & Ht & Hlast & _ & _ & _ & H2).
  pose proof (sys_timeout_deadlines (at_time 300 s) fl out l 100 (Some (user_handler_h 2)) 0
    (timers_ok_at 300 _ _ _ _ Hok)) as H. rewrite Hfl in H.
  assert (He : elapsed (at_time 300 s) = 300) by (unfold elapsed; cbn; by rewrite Hlast).
  destruct H as (s' & fl' & out' & l' & E & _ & _ & _ & _ & Hdue); [lia | rewrite He; lia |].
  exists (at_time 300 s), s', l'. split; [exact Hlast|]. split; [done|]. split; [exact E|].
  destruct l as [|[a [tm x]] l]; [done|]. destruct Hdue as [Hl' Hdue].
  split; [by rewrite Hl'|]. rewrite Hdue, Hh, He. destruct l as [|]; [|done].
  injection H2 as -> ->. reflexivity.
Defined.

Lemma sys_untimeout_deadlines_witness :
  ∃ (s s' : tstate log) l', ts_next_timeout s ≠ 0 ∧
    sys_untimeout (Some (user_handler_h 1)) 7 s = Some (tt, s') ∧ due 0 l' = [] ∧
    ts_next_timeout s' = 0.
Proof.
  destruct ex_timers1 as (s & fl & out & l & n & fr & Hok & Hfl & Hd & Hl & Hh & Ht & Hlast & _).
  destruct (sys_untimeout_deadlines s fl out l (Some (user_handler_h 1)) 7 Hok) as
    (s' & fl' & out' & l' & E & Hok' & Hdue & _); [lia|].
  exists s, s', l'. split.
  { destruct l as [|e l]; [done|]. eapply tlist_cons_nonnull, (to_list _ _ _ _ Hok). }
  split; [exact E|]. rewrite Hd in Hdue. split; [exact Hdue|].
  pose proof (to_list _ _ _ _ Hok') as Hl'. destruct l' as [|[a [tm x]] l']; [exact Hl' | done].
Defined.

