(* ===== verification/Etharp.v ===== *)
(** * Address resolution (middlewares/lwip/src/core/ipv4/etharp.c) and the
    Ethernet layer around it (middlewares/lwip/src/netif/ethernet.c)

    The ARP table, one queued packet per pending entry ([ARP_QUEUEING] is
    off, static entries and matching of interfaces are not configured), the
    packets of [Pbuf] and the interfaces by their pointers.  The driver
    ([netif->linkoutput]), the IP layer ([ip4_input]) and [dhcp_arp_reply]
    are parameters. *)

From stdpp Require Import base numbers list gmap option.
From S2P Require Import Prelude Mem Memp Pbuf Chksum Ip4Addr.

(** ** Constants *)

Definition ERR_BUF : Z := -2.
Definition ERR_RTE : Z := -4.
Definition ARP_TABLE_SIZE : Z := 10.
Definition ARP_MAXAGE : Z := 300.
Definition ARP_MAXPENDING : Z := 5.
Definition ARP_AGE_REREQUEST_USED_UNICAST : Z := ARP_MAXAGE - 30.
Definition ARP_AGE_REREQUEST_USED_BROADCAST : Z := ARP_MAXAGE - 15.
Definition ETHARP_FLAG_TRY_HARD : Z := 1.
Definition ETHARP_FLAG_FIND_ONLY : Z := 2.
Definition NETIF_FLAG_ETHARP : Z := 0x08.
Definition PBUF_FLAG_LLBCAST : Z := 0x08.
Definition PBUF_FLAG_LLMCAST : Z := 0x10.
Definition SIZEOF_ETH_HDR : Z := 14.
Definition SIZEOF_ETHARP_HDR : Z := 28.
Definition ETH_HWADDR_LEN : Z := 6.
Definition HWTYPE_ETHERNET : Z := 1.
Definition ARP_REQUEST : Z := 1.
Definition ARP_REPLY : Z := 2.
Definition ETHTYPE_IP : Z := 0x0800.
Definition ETHTYPE_ARP : Z := 0x0806.
Definition LL_IP4_MULTICAST_ADDR_0 : Z := 0x01.
Definition LL_IP4_MULTICAST_ADDR_1 : Z := 0x00.
Definition LL_IP4_MULTICAST_ADDR_2 : Z := 0x5e.
Definition ethbroadcast : bytes := [0xff; 0xff; 0xff; 0xff; 0xff; 0xff].
Definition ethzero : bytes := [0; 0; 0; 0; 0; 0].

Definition ip4_addr_ismulticast (a : Z) : bool :=
  Z.land a (PP_HTONL 0xf0000000) =? PP_HTONL 0xe0000000.
Definition ip4_addr_islinklocal (a : Z) : bool :=
  Z.land a (PP_HTONL 0xffff0000) =? PP_HTONL 0xa9fe0000.
Definition ip4_addr_isany (a : Z) : bool := a =? IPADDR_ANY.

(** ** State *)

Inductive etharp_state : Type :=
  | ETHARP_STATE_EMPTY
  | ETHARP_STATE_PENDING
  | ETHARP_STATE_STABLE
  | ETHARP_STATE_STABLE_REREQUESTING_1
  | ETHARP_STATE_STABLE_REREQUESTING_2.

#[export] Instance etharp_state_eq_dec : EqDecision etharp_state.
Proof. solve_decision. Defined.

(** [state >= ETHARP_STATE_STABLE] *)
Definition stable (st : etharp_state) : bool :=
  match st with ETHARP_STATE_EMPTY | ETHARP_STATE_PENDING => false | _ => true end.
Definition is_empty (st : etharp_state) : bool := bool_decide (st = ETHARP_STATE_EMPTY).

Record etharp_entry := ArpEntry {
  ae_q : Z;
  ae_ipaddr : Z;
  ae_netif : Z;
  ae_ethaddr : bytes;
  ae_ctime : Z;
  ae_state : etharp_state
}.

Definition with_q (q : Z) (e : etharp_entry) : etharp_entry :=
  ArpEntry q (ae_ipaddr e) (ae_netif e) (ae_ethaddr e) (ae_ctime e) (ae_state e).
Definition with_ipaddr (a : Z) (e : etharp_entry) : etharp_entry :=
  ArpEntry (ae_q e) a (ae_netif e) (ae_ethaddr e) (ae_ctime e) (ae_state e).
Definition with_netif (n : Z) (e : etharp_entry) : etharp_entry :=
  ArpEntry (ae_q e) (ae_ipaddr e) n (ae_ethaddr e) (ae_ctime e) (ae_state e).
Definition with_ethaddr (a : bytes) (e : etharp_entry) : etharp_entry :=
  ArpEntry (ae_q e) (ae_ipaddr e) (ae_netif e) a (ae_ctime e) (ae_state e).
Definition with_ctime (t : Z) (e : etharp_entry) : etharp_entry :=
  ArpEntry (ae_q e) (ae_ipaddr e) (ae_netif e) (ae_ethaddr e) t (ae_state e).
Definition with_state (st : etharp_state) (e : etharp_entry) : etharp_entry :=
  ArpEntry (ae_q e) (ae_ipaddr e) (ae_netif e) (ae_ethaddr e) (ae_ctime e) st.

Record astate (L : Type) := AState {
  as_table : list etharp_entry;     (* arp_table *)
  as_cached : Z;                    (* etharp_cached_entry *)
  as_netifs : gmap Z netif;         (* the interfaces, by pointer *)
  as_packets : pstate;
  as_link : L                       (* the driver and the upper layers *)
}.
Arguments AState {L}.
Arguments as_table {L}.
Arguments as_cached {L}.
Arguments as_netifs {L}.
Arguments as_packets {L}.
Arguments as_link {L}.

(** ** The sweep of etharp_find_entry *)

(** The candidates that the sweep remembers: indices ([ARP_TABLE_SIZE] for
    none) and ages. *)
Record cands := Cands {
  c_empty : Z;
  c_old_pending : Z; c_age_pending : Z;
  c_old_stable : Z; c_age_stable : Z;
  c_old_queue : Z; c_age_queue : Z
}.
Definition cands0 : cands :=
  Cands ARP_TABLE_SIZE ARP_TABLE_SIZE 0 ARP_TABLE_SIZE 0 ARP_TABLE_SIZE 0.

(** One non-empty entry that does not match. *)
Definition cand_entry (i : Z) (e : etharp_entry) (c : cands) : cands :=
  if bool_decide (ae_state e = ETHARP_STATE_PENDING) then
    if negb (ae_q e =? 0) then
      if c_age_queue c <=? ae_ctime e
      then Cands (c_empty c) (c_old_pending c) (c_age_pending c) (c_old_stable c) (c_age_stable c)
             i (ae_ctime e)
      else c
    else
      if c_age_pending c <=? ae_ctime e
      then Cands (c_empty c) i (ae_ctime e) (c_old_stable c) (c_age_stable c)
             (c_old_queue c) (c_age_queue c)
      else c
  else if stable (ae_state e) then
    if c_age_stable c <=? ae_ctime e
    then Cands (c_empty c) (c_old_pending c) (c_age_pending c) i (ae_ctime e)
           (c_old_queue c) (c_age_queue c)
    else c
  else c.

(** [inl i] is the match that ends the sweep. *)
Fixpoint find_sweep (ipaddr : option Z) (i : Z) (tab : list etharp_entry) (c : cands) : Z + cands :=
  match tab with
  | [] => inr c
  | e :: tab' =>
      if (c_empty c =? ARP_TABLE_SIZE) && is_empty (ae_state e) then
        find_sweep ipaddr (i + 1) tab'
          (Cands i (c_old_pending c) (c_age_pending c) (c_old_stable c) (c_age_stable c)
             (c_old_queue c) (c_age_queue c))
      else if negb (is_empty (ae_state e)) then
        if match ipaddr with Some a => a =? ae_ipaddr e | None => false end then inl i
        else find_sweep ipaddr (i + 1) tab' (cand_entry i e c)
      else find_sweep ipaddr (i + 1) tab' c
  end.

(** The entry that is given up when there is no empty one. *)
Definition recycle (c : cands) : option Z :=
  if c_old_stable c <? ARP_TABLE_SIZE then Some (c_old_stable c)
  else if c_old_pending c <? ARP_TABLE_SIZE then Some (c_old_pending c)
  else if c_old_queue c <? ARP_TABLE_SIZE then Some (c_old_queue c)
  else None.

Section etharp.
  Context {L : Type}.
  Context (linkoutput : Z → Z → prog (astate L) Z).
  Context (ip4_input : Z → Z → prog (astate L) unit).
  Context (dhcp_arp_reply : Z → Z → prog (astate L) unit).

Definition set_table (t : list etharp_entry) (s : astate L) : astate L :=
  AState t (as_cached s) (as_netifs s) (as_packets s) (as_link s).
Definition set_cached (i : Z) (s : astate L) : astate L :=
  AState (as_table s) i (as_netifs s) (as_packets s) (as_link s).
Definition set_packets (q : pstate) (s : astate L) : astate L :=
  AState (as_table s) (as_cached s) (as_netifs s) q (as_link s).

(** [arp_table[i]] *)
Definition entry (i : Z) : prog (astate L) etharp_entry :=
  λ s, match (if i <? 0 then None else as_table s !! Z.to_nat i) with
       | Some e => Some (e, s)
       | None => None
       end.
Definition upd_entry (i : Z) (f : etharp_entry → etharp_entry) : prog (astate L) unit :=
  e ← entry i; modify (λ s, set_table (<[Z.to_nat i := f e]> (as_table s)) s).

(** [*netif] *)
Definition the_netif (n : Z) : prog (astate L) netif :=
  λ s, match as_netifs s !! n with Some nf => Some (nf, s) | None => None end.

Definition packets {A} (c : prog pstate A) : prog (astate L) A :=
  λ s, match c (as_packets s) with Some (a, q) => Some (a, set_packets q s) | None => None end.
Definition free_pbuf (p : Z) : prog (astate L) unit := _ ← packets (pbuf_free p); mret tt.

(** Bytes of a packet. *)
Definition peek (a : Z) (n : nat) : prog (astate L) bytes :=
  packets (λ s, match load_bytes (ps_bytes s) a n with Some x => Some (x, s) | None => None end).
Definition poke (a : Z) (x : bytes) : prog (astate L) unit :=
  packets (λ s, match store_bytes (ps_bytes s) a x with
                | Some m => Some (tt, PState (ps_pbufs s) m (ps_heap s) (ps_pools s))
                | None => None
                end).
(** [u16_t] and [u32_t] in memory. *)
Definition le16 (n : Z) : bytes := [n mod 256; n / 256 mod 256].
Definition of_le (x : bytes) : Z := foldr (λ b v, b + 256 * v) 0 x.

(** ** Sending (netif/ethernet.c) *)

Definition ethernet_output (netif p : Z) (src dst : bytes) (eth_type : Z) : prog (astate L) Z :=
  let eth_type_be := lwip_htons eth_type in
  r ← packets (pbuf_header p SIZEOF_ETH_HDR);
  if negb (r =? 0) then mret ERR_BUF else
  b ← packets (deref p);
  poke (pb_payload b + 12) (le16 eth_type_be) ;;
  poke (pb_payload b) dst ;;
  poke (pb_payload b + 6) src ;;
  linkoutput netif p.

Definition etharp_raw (netif : Z) (ethsrc_addr ethdst_addr hwsrc_addr : bytes) (ipsrc_addr : Z)
    (hwdst_addr : bytes) (ipdst_addr opcode : Z) : prog (astate L) Z :=
  p ← packets (pbuf_alloc PBUF_LINK SIZEOF_ETHARP_HDR PBUF_RAM);
  if p =? 0 then mret ERR_MEM else
  b ← packets (deref p);
  let hdr := pb_payload b in
  poke (hdr + 6) (le16 (lwip_htons opcode)) ;;
  poke (hdr + 8) hwsrc_addr ;;
  poke (hdr + 18) hwdst_addr ;;
  poke (hdr + 14) (addr_bytes ipsrc_addr) ;;
  poke (hdr + 24) (addr_bytes ipdst_addr) ;;
  poke hdr (le16 (PP_HTONS HWTYPE_ETHERNET)) ;;
  poke (hdr + 2) (le16 (PP_HTONS ETHTYPE_IP)) ;;
  poke (hdr + 4) [ETH_HWADDR_LEN] ;;
  poke (hdr + 5) [4] ;;
  _ ← ethernet_output netif p ethsrc_addr ethdst_addr ETHTYPE_ARP;
  free_pbuf p ;;
  mret ERR_OK.

Definition etharp_request_dst (netif ipaddr : Z) (hw_dst_addr : bytes) : prog (astate L) Z :=
  nf ← the_netif netif;
  etharp_raw netif (nf_hwaddr nf) hw_dst_addr (nf_hwaddr nf) (nf_ip_addr nf) ethzero ipaddr
    ARP_REQUEST.

Definition etharp_request (netif ipaddr : Z) : prog (astate L) Z :=
  etharp_request_dst netif ipaddr ethbroadcast.

(** ** The table *)

(** [LWIP_DEBUG] is defined (as 0), so the entry is cleaned out completely. *)
Definition etharp_free_entry (i : Z) : prog (astate L) unit :=
  e ← entry i;
  when (negb (ae_q e =? 0)) (free_pbuf (ae_q e) ;; upd_entry i (with_q 0)) ;;
  upd_entry i (with_state ETHARP_STATE_EMPTY) ;;
  upd_entry i (with_ctime 0) ;;
  upd_entry i (with_netif 0) ;;
  upd_entry i (with_ipaddr IPADDR_ANY) ;;
  upd_entry i (with_ethaddr ethzero).

Definition etharp_find_entry (ipaddr : option Z) (flags : Z) : prog (astate L) Z :=
  tab ← gets as_table;
  match find_sweep ipaddr 0 tab cands0 with
  | inl i => mret i
  | inr c =>
      if negb (Z.land flags ETHARP_FLAG_FIND_ONLY =? 0)
         || ((c_empty c =? ARP_TABLE_SIZE) && (Z.land flags ETHARP_FLAG_TRY_HARD =? 0))
      then mret ERR_MEM
      else
        i ← (if c_empty c <? ARP_TABLE_SIZE then mret (Some (c_empty c))
             else match recycle c with
                  | None => mret None
                  | Some i => etharp_free_entry i ;; mret (Some i)
                  end);
        match i with
        | None => mret ERR_MEM
        | Some i =>
            match ipaddr with
            | Some a => upd_entry i (with_ipaddr a)
            | None => mret tt
            end ;;
            upd_entry i (with_ctime 0) ;;
            mret i
        end
  end.

Definition etharp_update_arp_entry (netif ipaddr : Z) (ethaddr : bytes) (flags : Z)
    : prog (astate L) Z :=
  nf ← the_netif netif;
  if ip4_addr_isany ipaddr || negb (ip4_addr_isbroadcast_u32 ipaddr nf =? 0)
     || ip4_addr_ismulticast ipaddr
  then mret ERR_ARG else
  i ← etharp_find_entry (Some ipaddr) flags;
  if i <? 0 then mret i else
  upd_entry i (with_state ETHARP_STATE_STABLE) ;;
  upd_entry i (with_netif netif) ;;
  upd_entry i (with_ethaddr ethaddr) ;;
  upd_entry i (with_ctime 0) ;;
  e ← entry i;
  when (negb (ae_q e =? 0))
    (let p := ae_q e in
     upd_entry i (with_q 0) ;;
     nf ← the_netif netif;
     _ ← ethernet_output netif p (nf_hwaddr nf) ethaddr ETHTYPE_IP;
     free_pbuf p) ;;
  mret ERR_OK.

Definition etharp_cleanup_one (netif i : Z) : prog (astate L) unit :=
  e ← entry i;
  when (negb (is_empty (ae_state e)) && (ae_netif e =? netif)) (etharp_free_entry i).
Fixpoint etharp_cleanup_loop (netif : Z) (is_ : list Z) : prog (astate L) unit :=
  match is_ with
  | [] => mret tt
  | i :: is_' => etharp_cleanup_one netif i ;; etharp_cleanup_loop netif is_'
  end.
Definition etharp_cleanup_netif (netif : Z) : prog (astate L) unit :=
  etharp_cleanup_loop netif (seqZ 0 ARP_TABLE_SIZE).

(** The index, and the addresses behind the returned pointers. *)
Definition etharp_find_addr (ipaddr : Z) : prog (astate L) (Z * option (bytes * Z)) :=
  i ← etharp_find_entry (Some ipaddr) ETHARP_FLAG_FIND_ONLY;
  if i <? 0 then mret (-1, None) else
  e ← entry i;
  if stable (ae_state e) then mret (i, Some (ae_ethaddr e, ae_ipaddr e)) else mret (-1, None).

Definition etharp_get_entry (i : Z) : prog (astate L) (option (Z * Z * bytes)) :=
  if negb (i <? ARP_TABLE_SIZE) then mret None else
  e ← entry i;
  if stable (ae_state e) then mret (Some (ae_ipaddr e, ae_netif e, ae_ethaddr e)) else mret None.

(** ** etharp_tmr *)

Definition etharp_tmr_one (i : Z) : prog (astate L) unit :=
  e ← entry i;
  if is_empty (ae_state e) then mret tt else
  upd_entry i (λ e, with_ctime (u16 (ae_ctime e + 1)) e) ;;
  e ← entry i;
  if (ARP_MAXAGE <=? ae_ctime e)
     || (bool_decide (ae_state e = ETHARP_STATE_PENDING) && (ARP_MAXPENDING <=? ae_ctime e))
  then etharp_free_entry i
  else if bool_decide (ae_state e = ETHARP_STATE_STABLE_REREQUESTING_1)
  then upd_entry i (with_state ETHARP_STATE_STABLE_REREQUESTING_2)
  else if bool_decide (ae_state e = ETHARP_STATE_STABLE_REREQUESTING_2)
  then upd_entry i (with_state ETHARP_STATE_STABLE)
  else when (bool_decide (ae_state e = ETHARP_STATE_PENDING))
         (_ ← etharp_request (ae_netif e) (ae_ipaddr e); mret tt).
Fixpoint etharp_tmr_loop (is_ : list Z) : prog (astate L) unit :=
  match is_ with
  | [] => mret tt
  | i :: is_' => etharp_tmr_one i ;; etharp_tmr_loop is_'
  end.
Definition etharp_tmr : prog (astate L) unit := etharp_tmr_loop (seqZ 0 ARP_TABLE_SIZE).

(** ** etharp_input *)

Definition etharp_input (p netif : Z) : prog (astate L) unit :=
  if netif =? 0 then mret tt else
  b ← packets (deref p);
  let hdr := pb_payload b in
  hwtype ← peek hdr 2;
  hwlen ← peek (hdr + 4) 1;
  protolen ← peek (hdr + 5) 1;
  proto ← peek (hdr + 2) 2;
  if negb (of_le hwtype =? PP_HTONS HWTYPE_ETHERNET) || negb (of_le hwlen =? ETH_HWADDR_LEN)
     || negb (of_le protolen =? 4) || negb (of_le proto =? PP_HTONS ETHTYPE_IP)
  then free_pbuf p else
  sip ← peek (hdr + 14) 4;
  dip ← peek (hdr + 24) 4;
  let sipaddr := of_le sip in
  let dipaddr := of_le dip in
  nf ← the_netif netif;
  let for_us := if ip4_addr_isany (nf_ip_addr nf) then false else dipaddr =? nf_ip_addr nf in
  shwaddr ← peek (hdr + 8) 6;
  _ ← etharp_update_arp_entry netif sipaddr shwaddr
        (if for_us then ETHARP_FLAG_TRY_HARD else ETHARP_FLAG_FIND_ONLY);
  opcode ← peek (hdr + 6) 2;
  (if of_le opcode =? PP_HTONS ARP_REQUEST then
     if for_us then
       shwaddr ← peek (hdr + 8) 6;
       nf ← the_netif netif;
       _ ← etharp_raw netif (nf_hwaddr nf) shwaddr (nf_hwaddr nf) (nf_ip_addr nf) shwaddr sipaddr
             ARP_REPLY;
       mret tt
     else mret tt
   else if of_le opcode =? PP_HTONS ARP_REPLY then dhcp_arp_reply netif sipaddr
   else mret tt) ;;
  free_pbuf p.

(** ** etharp_query *)

(** The loop that looks for a pbuf that has to be copied; the result is where
    [p] stands then. *)
Fixpoint copy_scan (fuel : nat) (p : Z) : prog (astate L) (bool * Z) :=
  match fuel with
  | O => stuck
  | S fuel' =>
      if p =? 0 then mret (false, p) else
      b ← packets (deref p);
      if negb (bool_decide (pb_type b = PBUF_ROM)) then mret (true, p)
      else copy_scan fuel' (pb_next b)
  end.

(** The packet to keep: a copy, or the packet itself with one more
    reference; 0 if there is no memory. *)
Definition take_over (q : Z) : prog (astate L) Z :=
  fuel ← gets (λ s, chain_fuel (as_packets s));
  '(copy_needed, p) ← copy_scan fuel q;
  if (copy_needed : bool) then
    b ← packets (deref p);
    p ← packets (pbuf_alloc PBUF_LINK (pb_tot_len b) PBUF_RAM);
    if p =? 0 then mret 0 else
    r ← packets (pbuf_copy p q);
    if negb (r =? ERR_OK) then free_pbuf p ;; mret 0 else mret p
  else packets (pbuf_ref q) ;; mret q.

Definition etharp_query (netif ipaddr q : Z) : prog (astate L) Z :=
  nf ← the_netif netif;
  if negb (ip4_addr_isbroadcast_u32 ipaddr nf =? 0) || ip4_addr_ismulticast ipaddr
     || ip4_addr_isany ipaddr
  then mret ERR_ARG else
  i ← etharp_find_entry (Some ipaddr) ETHARP_FLAG_TRY_HARD;
  if i <? 0 then mret i else
  e ← entry i;
  let is_new_entry := is_empty (ae_state e) in
  when is_new_entry
    (upd_entry i (with_state ETHARP_STATE_PENDING) ;; upd_entry i (with_netif netif)) ;;
  result ← (if is_new_entry || (q =? 0) then etharp_request netif ipaddr else mret ERR_MEM);
  if q =? 0 then mret result else
  e ← entry i;
  if stable (ae_state e) then
    modify (set_cached i) ;;
    ethernet_output netif q (nf_hwaddr nf) (ae_ethaddr e) ETHTYPE_IP
  else if bool_decide (ae_state e = ETHARP_STATE_PENDING) then
    p ← take_over q;
    if negb (p =? 0) then
      e ← entry i;
      when (negb (ae_q e =? 0)) (free_pbuf (ae_q e)) ;;
      upd_entry i (with_q p) ;;
      mret ERR_OK
    else mret ERR_MEM
  else mret result.

(** ** etharp_output *)

Definition etharp_output_to_arp_index (netif q arp_idx : Z) : prog (astate L) Z :=
  e ← entry arp_idx;
  when (bool_decide (ae_state e = ETHARP_STATE_STABLE))
    (if ARP_AGE_REREQUEST_USED_BROADCAST <=? ae_ctime e then
       r ← etharp_request netif (ae_ipaddr e);
       when (r =? ERR_OK) (upd_entry arp_idx (with_state ETHARP_STATE_STABLE_REREQUESTING_1))
     else when (ARP_AGE_REREQUEST_USED_UNICAST <=? ae_ctime e)
       (r ← etharp_request_dst netif (ae_ipaddr e) (ae_ethaddr e);
        when (r =? ERR_OK) (upd_entry arp_idx (with_state ETHARP_STATE_STABLE_REREQUESTING_1)))) ;;
  nf ← the_netif netif;
  e ← entry arp_idx;
  ethernet_output netif q (nf_hwaddr nf) (ae_ethaddr e) ETHTYPE_IP.

(** The search for a stable entry. *)
Fixpoint find_stable (dst_addr i : Z) (tab : list etharp_entry) : option Z :=
  match tab with
  | [] => None
  | e :: tab' =>
      if stable (ae_state e) && (dst_addr =? ae_ipaddr e) then Some i
      else find_stable dst_addr (i + 1) tab'
  end.

(** [mcastaddr] *)
Definition multicast_addr (ipaddr : Z) : bytes :=
  [LL_IP4_MULTICAST_ADDR_0; LL_IP4_MULTICAST_ADDR_1; LL_IP4_MULTICAST_ADDR_2;
   Z.land (ipaddr / 256 mod 256) 0x7f; ipaddr / 65536 mod 256; ipaddr / 16777216 mod 256].

Definition etharp_output (netif q ipaddr : Z) : prog (astate L) Z :=
  nf ← the_netif netif;
  if negb (ip4_addr_isbroadcast_u32 ipaddr nf =? 0) then
    ethernet_output netif q (nf_hwaddr nf) ethbroadcast ETHTYPE_IP
  else if ip4_addr_ismulticast ipaddr then
    ethernet_output netif q (nf_hwaddr nf) (multicast_addr ipaddr) ETHTYPE_IP
  else
    let outside := negb (ip4_addr_netcmp ipaddr (nf_ip_addr nf) (nf_netmask nf))
                   && negb (ip4_addr_islinklocal ipaddr) in
    if outside && ip4_addr_isany (nf_gw nf) then mret ERR_RTE else
    let dst_addr := if outside then nf_gw nf else ipaddr in
    cached ← gets as_cached;
    e ← entry cached;
    if stable (ae_state e) && (dst_addr =? ae_ipaddr e)
    then etharp_output_to_arp_index netif q cached
    else
      tab ← gets as_table;
      match find_stable dst_addr 0 tab with
      | Some i => modify (set_cached i) ;; etharp_output_to_arp_index netif q i
      | None => etharp_query netif dst_addr q
      end.

(** ** ethernet_input (netif/ethernet.c) *)

Definition mark_pbuf (p flag : Z) : prog (astate L) unit :=
  packets (upd_pbuf p (λ b, MkPbuf (pb_next b) (pb_payload b) (pb_tot_len b) (pb_len b)
                              (pb_type b) (Z.lor (pb_flags b) flag) (pb_ref b))).

Definition ethernet_input (p netif : Z) : prog (astate L) Z :=
  b ← packets (deref p);
  if pb_len b <=? SIZEOF_ETH_HDR then free_pbuf p ;; mret ERR_OK else
  let ethhdr := pb_payload b in
  type ← peek (ethhdr + 12) 2;
  dest ← peek ethhdr 6;
  (match dest with
   | d0 :: d1 :: d2 :: _ =>
       when (negb (Z.land d0 1 =? 0))
         (if d0 =? LL_IP4_MULTICAST_ADDR_0
          then when ((d1 =? LL_IP4_MULTICAST_ADDR_1) && (d2 =? LL_IP4_MULTICAST_ADDR_2))
                 (mark_pbuf p PBUF_FLAG_LLMCAST)
          else when (bool_decide (dest = ethbroadcast)) (mark_pbuf p PBUF_FLAG_LLBCAST))
   | _ => stuck
   end) ;;
  if (of_le type =? PP_HTONS ETHTYPE_IP) || (of_le type =? PP_HTONS ETHTYPE_ARP) then
    nf ← the_netif netif;
    if Z.land (nf_flags nf) NETIF_FLAG_ETHARP =? 0 then free_pbuf p ;; mret ERR_OK else
    b ← packets (deref p);
    r ← (if pb_len b <? SIZEOF_ETH_HDR then mret 1 else packets (pbuf_header p (- SIZEOF_ETH_HDR)));
    if negb (r =? 0) then free_pbuf p ;; mret ERR_OK
    else if of_le type =? PP_HTONS ETHTYPE_IP then ip4_input p netif ;; mret ERR_OK
    else etharp_input p netif ;; mret ERR_OK
  else free_pbuf p ;; mret ERR_OK.

End etharp.
