(* ===== verification/EtharpTable.v ===== *)
(** * The ARP table

    What the sweep of [etharp_find_entry] finds, the choice of the entry
    that is given up, and the invariant of the table. *)

From stdpp Require Import base numbers list gmap option.
From S2P Require Import Prelude Mem Memp Pbuf Chksum Ip4Addr Etharp.

(** ** Tables *)

Definition used (e : etharp_entry) : bool := negb (is_empty (ae_state e)).
(** The three classes of entries that can be given up. *)
Definition k_stable (e : etharp_entry) : bool := stable (ae_state e).
Definition k_pending (e : etharp_entry) : bool :=
  bool_decide (ae_state e = ETHARP_STATE_PENDING) && (ae_q e =? 0).
Definition k_queue (e : etharp_entry) : bool :=
  bool_decide (ae_state e = ETHARP_STATE_PENDING) && negb (ae_q e =? 0).

(** [i] is the first empty entry; [ARP_TABLE_SIZE] if there is none. *)
Definition first_empty (tab : list etharp_entry) (i : Z) : Prop :=
  (i = ARP_TABLE_SIZE ∧ ∀ j e, tab !! j = Some e → used e = true) ∨
  (∃ k e, i = Z.of_nat k ∧ i ≠ ARP_TABLE_SIZE ∧ tab !! k = Some e ∧ used e = false ∧
     ∀ j f, tab !! j = Some f → (j < k)%nat → used f = true).

(** [i] is the oldest entry of class [P], the last one of those. *)
Definition oldest (P : etharp_entry → bool) (tab : list etharp_entry) (i age : Z) : Prop :=
  (i = ARP_TABLE_SIZE ∧ age = 0 ∧ ∀ j e, tab !! j = Some e → P e = false) ∨
  (∃ k e, i = Z.of_nat k ∧ tab !! k = Some e ∧ P e = true ∧ age = ae_ctime e ∧
     ∀ j f, tab !! j = Some f → P f = true → ae_ctime f ≤ age ∧ ((k < j)%nat → ae_ctime f < age)).

Definition times_nonneg (tab : list etharp_entry) : Prop :=
  Forall (λ e, 0 ≤ ae_ctime e) tab.

Lemma lookup_snoc_cases {A} (l : list A) x j y :
  (l ++ [x]) !! j = Some y → l !! j = Some y ∧ (j < length l)%nat ∨ j = length l ∧ y = x.
Proof.
  intros H. destruct (decide (j < length l)%nat) as [Hj|Hj].
  - left. rewrite lookup_app_l in H by done. done.
  - right. pose proof (lookup_lt_Some _ _ _ H) as Hlt. rewrite length_app in Hlt. cbn in Hlt.
    assert (j = length l) as -> by lia. rewrite lookup_app_r, Nat.sub_diag in H by lia.
    cbn in H. split; [done|]. congruence.
Qed.

Lemma oldest_skip P tab i age e :
  oldest P tab i age → P e = false → oldest P (tab ++ [e]) i age.
Proof.
  intros [(-> & -> & H)|(k & e' & -> & Hk & HP & -> & H)] He; [left | right].
  - split; [done|]. split; [done|]. intros j f Hf.
    apply lookup_snoc_cases in Hf as [[Hf _]|[_ ->]]; [eauto | done].
  - exists k, e'. split; [done|]. split; [by apply lookup_app_l_Some|]. split; [done|].
    split; [done|]. intros j f Hf HPf.
    apply lookup_snoc_cases in Hf as [[Hf _]|[_ ->]]; [eauto | congruence].
Qed.

(** An entry of the class that is not younger becomes the candidate. *)
Lemma oldest_take P tab i age e :
  oldest P tab i age → P e = true → 0 ≤ ae_ctime e →
  if age <=? ae_ctime e
  then oldest P (tab ++ [e]) (Z.of_nat (length tab)) (ae_ctime e)
  else oldest P (tab ++ [e]) i age.
Proof.
  intros Ho He H0. destruct (Z.leb_spec age (ae_ctime e)) as [Hle|Hgt].
  - right. exists (length tab), e. split; [done|]. split; [by rewrite lookup_app_r, Nat.sub_diag|].
    split; [done|]. split; [done|]. intros j f Hf HPf.
    apply lookup_snoc_cases in Hf as [[Hf Hj]|[-> ->]]; [|lia].
    split; [|lia]. destruct Ho as [(_ & _ & Hn)|(k & e' & _ & _ & _ & -> & H)].
    + rewrite (Hn _ _ Hf) in HPf. done.
    + destruct (H _ _ Hf HPf). lia.
  - destruct Ho as [(-> & -> & H)|(k & e' & -> & Hk & HP & -> & H)]; [lia|].
    right. exists k, e'. split; [done|]. split; [by apply lookup_app_l_Some|]. split; [done|].
    split; [done|]. intros j f Hf HPf.
    apply lookup_snoc_cases in Hf as [[Hf _]|[-> ->]]; [eauto | lia].
Qed.

(** ** The sweep *)

Record cands_of (tab : list etharp_entry) (c : cands) : Prop := {
  co_empty : first_empty tab (c_empty c);
  co_stable : oldest k_stable tab (c_old_stable c) (c_age_stable c);
  co_pending : oldest k_pending tab (c_old_pending c) (c_age_pending c);
  co_queue : oldest k_queue tab (c_old_queue c) (c_age_queue c)
}.

Lemma used_cases e :
  used e = true →
  ae_state e = ETHARP_STATE_PENDING ∨ stable (ae_state e) = true ∧ ae_state e ≠ ETHARP_STATE_PENDING.
Proof. unfold used, is_empty. destruct (ae_state e); cbn; intros H; auto; done. Qed.

Lemma unused_classes e :
  used e = false → k_stable e = false ∧ k_pending e = false ∧ k_queue e = false.
Proof.
  unfold used, is_empty, k_stable, k_pending, k_queue. intros H.
  apply negb_false_iff, bool_decide_eq_true in H. by rewrite H.
Qed.

Lemma empty_found tab c e :
  cands_of tab c → used e = false → c_empty c = ARP_TABLE_SIZE →
  Z.of_nat (length tab) < ARP_TABLE_SIZE →
  cands_of (tab ++ [e])
    (Cands (Z.of_nat (length tab)) (c_old_pending c) (c_age_pending c) (c_old_stable c)
       (c_age_stable c) (c_old_queue c) (c_age_queue c)).
Proof.
  intros [He Hs Hp Hq] Hu Hemp Hlen. destruct (unused_classes e Hu) as (H1 & H2 & H3).
  split; cbn; try (by apply oldest_skip). right. exists (length tab), e.
  split; [done|]. split; [lia|]. split; [by rewrite lookup_app_r, Nat.sub_diag|]. split; [done|].
  intros j f Hf Hj. apply lookup_snoc_cases in Hf as [[Hf _]|[-> _]]; [|lia].
  destruct He as [[_ H]|(k & e' & E & E' & _)]; [eauto | congruence].
Qed.

Lemma empty_skip tab c e :
  cands_of tab c → used e = false → c_empty c ≠ ARP_TABLE_SIZE → cands_of (tab ++ [e]) c.
Proof.
  intros [He Hs Hp Hq] Hu Hemp. destruct (unused_classes e Hu) as (H1 & H2 & H3).
  split; try (by apply oldest_skip).
  destruct He as [[E _]|(k & e' & E & E' & Hk & Hu' & H)]; [done|].
  right. exists k, e'. split; [done|]. split; [done|]. split; [by apply lookup_app_l_Some|].
  split; [done|]. intros j f Hf Hj. pose proof (lookup_lt_Some _ _ _ Hk).
  apply lookup_snoc_cases in Hf as [[Hf _]|[-> _]]; [eauto | lia].
Qed.

Lemma cand_entry_of tab c e :
  cands_of tab c → used e = true → 0 ≤ ae_ctime e →
  cands_of (tab ++ [e]) (cand_entry (Z.of_nat (length tab)) e c).
Proof.
  intros [He Hs Hp Hq] Hu H0.
  assert (He' : first_empty (tab ++ [e]) (c_empty c)).
  { destruct He as [[E H]|(k & e' & E & E' & Hk & Hu' & H)]; [left | right].
    - split; [done|]. intros j f Hf. apply lookup_snoc_cases in Hf as [[Hf _]|[_ ->]]; eauto.
    - exists k, e'. split; [done|]. split; [done|]. split; [by apply lookup_app_l_Some|].
      split; [done|]. intros j f Hf Hj. apply lookup_snoc_cases in Hf as [[Hf _]|[-> ->]]; eauto. }
  unfold cand_entry. destruct (used_cases e Hu) as [Est|[Est Hne]].
  - rewrite bool_decide_true by done.
    assert (Hks : k_stable e = false) by (unfold k_stable; by rewrite Est).
    assert (Hkp : k_pending e = (ae_q e =? 0)) by (unfold k_pending; by rewrite bool_decide_true).
    assert (Hkq : k_queue e = negb (ae_q e =? 0)) by (unfold k_queue; by rewrite bool_decide_true).
    destruct (ae_q e =? 0); cbn [negb] in *.
    + pose proof (oldest_take _ _ _ _ _ Hp Hkp H0) as Ht.
      destruct (_ <=? _); split; cbn; try done; by apply oldest_skip.
    + pose proof (oldest_take _ _ _ _ _ Hq Hkq H0) as Ht.
      destruct (_ <=? _); split; cbn; try done; by apply oldest_skip.
  - rewrite bool_decide_false, Est by done.
    assert (Hkp : k_pending e = false) by (unfold k_pending; by rewrite bool_decide_false).
    assert (Hkq : k_queue e = false) by (unfold k_queue; by rewrite bool_decide_false).
    pose proof (oldest_take _ _ _ _ _ Hs Est H0) as Ht.
    destruct (_ <=? _); split; cbn; try done; by apply oldest_skip.
Qed.

(** The sweep returns the first used entry with the address, or no used entry
    has it and the candidates are right. *)
Lemma find_sweep_spec ipaddr rest : ∀ pre c,
  cands_of pre c → times_nonneg rest → Z.of_nat (length pre + length rest) ≤ ARP_TABLE_SIZE →
  match find_sweep ipaddr (Z.of_nat (length pre)) rest c with
  | inl i => ∃ k e a, i = Z.of_nat k ∧ (pre ++ rest) !! k = Some e ∧ used e = true ∧
               ipaddr = Some a ∧ ae_ipaddr e = a
  | inr c' => cands_of (pre ++ rest) c' ∧
               ∀ j e a, rest !! j = Some e → used e = true → ipaddr = Some a → ae_ipaddr e ≠ a
  end.
Proof.
  induction rest as [|e rest IH]; intros pre c Hc Ht Hlen; cbn [find_sweep].
  - rewrite app_nil_r. split; [done|]. by intros j e a ?.
  - apply Forall_cons_1 in Ht as [H0 Ht].
    replace (Z.of_nat (length pre) + 1) with (Z.of_nat (length (pre ++ [e])))
      by (rewrite length_app; cbn; lia).
    assert (Hl : Z.of_nat (length (pre ++ [e]) + length rest) ≤ ARP_TABLE_SIZE)
      by (rewrite length_app; cbn [length] in *; lia).
    assert (Hstep : ∀ c', cands_of (pre ++ [e]) c' →
      (∀ a, used e = true → ipaddr = Some a → ae_ipaddr e ≠ a) →
      match find_sweep ipaddr (Z.of_nat (length (pre ++ [e]))) rest c' with
      | inl i => ∃ k e0 a, i = Z.of_nat k ∧ (pre ++ e :: rest) !! k = Some e0 ∧ used e0 = true ∧
                   ipaddr = Some a ∧ ae_ipaddr e0 = a
      | inr c'' => cands_of (pre ++ e :: rest) c'' ∧
                   ∀ j e0 a, (e :: rest) !! j = Some e0 → used e0 = true → ipaddr = Some a →
                     ae_ipaddr e0 ≠ a
      end).
    { intros c' Hc' Hne. specialize (IH (pre ++ [e]) c' Hc' Ht Hl). rewrite <- app_assoc in IH.
      destruct (find_sweep _ _ _ _); [exact IH|]. destruct IH as [H1 H2]. split; [exact H1|].
      intros [|j] e0 a Hj; [injection Hj as <-; apply Hne | by eapply H2]. }
    destruct (is_empty (ae_state e)) eqn:Eem.
    + assert (Hu : used e = false) by (unfold used; by rewrite Eem).
      rewrite andb_true_r. cbn [negb].
      destruct (Z.eqb_spec (c_empty c) ARP_TABLE_SIZE) as [E|E].
      * apply Hstep; [|congruence]. apply empty_found; try done. cbn [length] in Hlen. lia.
      * apply Hstep; [|congruence]. by apply empty_skip.
    + assert (Hu : used e = true) by (unfold used; by rewrite Eem).
      rewrite andb_false_r. cbn [negb].
      destruct ipaddr as [a|].
      * destruct (Z.eqb_spec a (ae_ipaddr e)) as [E|E].
        -- exists (length pre), e, a. split; [done|]. split; [|done].
           by rewrite lookup_app_r, Nat.sub_diag.
        -- apply Hstep; [by apply cand_entry_of|]. intros a' _ [= ->]. congruence.
      * apply Hstep; [by apply cand_entry_of | done].
Qed.

(** ** The entry that is given up *)

(** The oldest stable entry; if there is none the oldest pending entry
    without a packet; if there is none the oldest pending entry. *)
Definition victim (tab : list etharp_entry) (k : nat) : Prop :=
  let none P := ∀ j e, tab !! j = Some e → P e = false in
  let old P := ∃ e, tab !! k = Some e ∧ P e = true ∧
    ∀ j f, tab !! j = Some f → P f = true →
      ae_ctime f ≤ ae_ctime e ∧ ((k < j)%nat → ae_ctime f < ae_ctime e) in
  old k_stable ∨ none k_stable ∧ old k_pending ∨ none k_stable ∧ none k_pending ∧ old k_queue.

Lemma oldest_cases P tab i age :
  oldest P tab i age → Z.of_nat (length tab) = ARP_TABLE_SIZE →
  (i <? ARP_TABLE_SIZE) = false ∧ (∀ j e, tab !! j = Some e → P e = false) ∨
  (i <? ARP_TABLE_SIZE) = true ∧ ∃ k e, i = Z.of_nat k ∧ tab !! k = Some e ∧ P e = true ∧
    ∀ j f, tab !! j = Some f → P f = true →
      ae_ctime f ≤ ae_ctime e ∧ ((k < j)%nat → ae_ctime f < ae_ctime e).
Proof.
  intros [(-> & _ & H)|(k & e & -> & Hk & HP & -> & H)] Hl; [left | right].
  - split; [by apply Z.ltb_ge|]. done.
  - pose proof (lookup_lt_Some _ _ _ Hk). split; [apply Z.ltb_lt; lia|]. by exists k, e.
Qed.

Lemma recycle_victim tab c :
  cands_of tab c → Z.of_nat (length tab) = ARP_TABLE_SIZE →
  (∀ j e, tab !! j = Some e → used e = true) →
  ∃ k, recycle c = Some (Z.of_nat k) ∧ victim tab k.
Proof.
  intros [_ Hs Hp Hq] Hl Hu. unfold recycle, victim.
  destruct (oldest_cases _ _ _ _ Hs Hl) as [[-> Hns]|[-> (k & e & -> & H)]]; [|eauto 10].
  destruct (oldest_cases _ _ _ _ Hp Hl) as [[-> Hnp]|[-> (k & e & -> & H)]]; [|eauto 10].
  destruct (oldest_cases _ _ _ _ Hq Hl) as [[-> Hnq]|[-> (k & e & -> & H)]]; [|eauto 10].
  exfalso. destruct tab as [|e tab]; [done|].
  specialize (Hns O e eq_refl). specialize (Hnp O e eq_refl). specialize (Hnq O e eq_refl).
  destruct (used_cases e (Hu O e eq_refl)) as [Est|[Est _]].
  - unfold k_pending in Hnp. unfold k_queue in Hnq. rewrite bool_decide_true in Hnp, Hnq by done.
    by destruct (ae_q e =? 0).
  - unfold k_stable in Hns. congruence.
Qed.

Lemma victim_used tab k : victim tab k → ∃ e, tab !! k = Some e ∧ used e = true.
Proof.
  assert (H : ∀ e, k_stable e = true ∨ k_pending e = true ∨ k_queue e = true → used e = true).
  { intros e He. destruct (used e) eqn:E; [done|].
    destruct (unused_classes e E) as (H1 & H2 & H3). intuition congruence. }
  unfold victim. intros [(e & Hk & HP & _)|[(_ & e & Hk & HP & _)|(_ & _ & e & Hk & HP & _)]];
    exists e; auto.
Qed.

(** ** The invariant *)

Record entry_ok (e : etharp_entry) : Prop := {
  eo_time : 0 ≤ ae_ctime e;
  eo_empty : ae_state e = ETHARP_STATE_EMPTY → ae_q e = 0;
  eo_pending : ae_state e = ETHARP_STATE_PENDING → ae_ctime e < ARP_MAXPENDING;
  eo_stable : stable (ae_state e) = true → ae_q e = 0 ∧ ae_ctime e < ARP_MAXAGE
}.

Record arp_ok (tab : list etharp_entry) : Prop := {
  ao_size : Z.of_nat (length tab) = ARP_TABLE_SIZE;
  ao_entries : ∀ k e, tab !! k = Some e → entry_ok e;
  ao_unique : ∀ j k e f, tab !! j = Some e → tab !! k = Some f →
    used e = true → used f = true → ae_ipaddr e = ae_ipaddr f → j = k
}.

Lemma arp_ok_times tab : arp_ok tab → times_nonneg tab.
Proof.
  intros H. apply list.Forall_forall. intros e He. apply list_elem_of_lookup in He as [k Hk].
  apply (ao_entries _ H) in Hk. apply Hk.
Qed.

(** One entry is replaced; its address is not in use elsewhere. *)
Lemma arp_ok_set tab k e :
  arp_ok tab → entry_ok e →
  (used e = true → ∀ j f, j ≠ k → tab !! j = Some f → used f = true → ae_ipaddr f ≠ ae_ipaddr e) →
  arp_ok (<[k := e]> tab).
Proof.
  intros [Hs He Hu] Hok Hne. split.
  - by rewrite length_insert.
  - intros j f Hf. apply list_lookup_insert_Some in Hf as [(-> & -> & _)|[_ Hf]]; [done | eauto].
  - intros i j f g Hf Hg Uf Ug E.
    apply list_lookup_insert_Some in Hf as [(-> & -> & _)|[Hi Hf]];
      apply list_lookup_insert_Some in Hg as [(-> & -> & _)|[Hj Hg]]; try done.
    + exfalso. eapply (Hne Uf j g); eauto.
    + exfalso. eapply (Hne Ug i f); eauto.
    + eauto.
Qed.

(** A replacement that keeps the address and does not bring an empty entry
    into use. *)
Lemma arp_ok_keep tab k e e' :
  arp_ok tab → tab !! k = Some e → entry_ok e' →
  (used e' = true → used e = true ∧ ae_ipaddr e' = ae_ipaddr e) → arp_ok (<[k := e']> tab).
Proof.
  intros H Hk Hok Hu. apply arp_ok_set; [done | done |]. intros U j f Hj Hf Uf E.
  destruct (Hu U) as [Ue Ea]. apply Hj. apply (ao_unique _ H j k f e); congruence.
Qed.
