(* ===== verification/EtharpProps.v ===== *)
(** * Properties of address resolution

    The operations of [Etharp] on the table: what [etharp_find_entry] and
    [etharp_update_arp_entry] do, the invariant of the table under every
    operation, and where [etharp_output] sends a packet. *)

From stdpp Require Import base numbers list gmap option relations.
From S2P Require Import Prelude Mem Memp Pbuf Chksum Ip4Addr Etharp EtharpTable.

(** The packets after the release of [q], if there is one. *)
Definition released (q : Z) (pk pk' : pstate) : Prop :=
  if q =? 0 then pk' = pk else ∃ r, pbuf_free q pk = Some (r, pk').

Lemma released_dec q pk : (∃ pk', released q pk pk') ∨ q ≠ 0 ∧ pbuf_free q pk = None.
Proof.
  unfold released. destruct (Z.eqb_spec q 0) as [E|E]; [left; by exists pk|].
  destruct (pbuf_free q pk) as [[r pk']|] eqn:Ef; [left; by exists pk', r | by right].
Qed.

(** An entry after [etharp_free_entry]. *)
Definition cleared : etharp_entry := ArpEntry 0 IPADDR_ANY 0 ethzero 0 ETHARP_STATE_EMPTY.

(** What [etharp_find_entry] does for address [a]: the match, an error, the
    first empty entry, or the victim. *)
Inductive found (a flags : Z) (tab : list etharp_entry) (pk : pstate)
    : Z → list etharp_entry → pstate → Prop :=
  | found_match k e :
      tab !! k = Some e → used e = true → ae_ipaddr e = a → found a flags tab pk (Z.of_nat k) tab pk
  | found_error :
      (∀ j f, tab !! j = Some f → used f = true → ae_ipaddr f ≠ a) →
      Z.land flags ETHARP_FLAG_FIND_ONLY ≠ 0 ∨
      Z.land flags ETHARP_FLAG_TRY_HARD = 0 ∧ (∀ j f, tab !! j = Some f → used f = true) →
      found a flags tab pk ERR_MEM tab pk
  | found_empty k e :
      (∀ j f, tab !! j = Some f → used f = true → ae_ipaddr f ≠ a) →
      Z.land flags ETHARP_FLAG_FIND_ONLY = 0 →
      tab !! k = Some e → used e = false →
      (∀ j f, tab !! j = Some f → (j < k)%nat → used f = true) →
      found a flags tab pk (Z.of_nat k) (<[k := with_ctime 0 (with_ipaddr a e)]> tab) pk
  | found_victim k e pk' :
      (∀ j f, tab !! j = Some f → used f = true → ae_ipaddr f ≠ a) →
      Z.land flags ETHARP_FLAG_FIND_ONLY = 0 → Z.land flags ETHARP_FLAG_TRY_HARD ≠ 0 →
      (∀ j f, tab !! j = Some f → used f = true) →
      victim tab k → tab !! k = Some e → released (ae_q e) pk pk' →
      found a flags tab pk (Z.of_nat k) (<[k := with_ipaddr a cleared]> tab) pk'.

Lemma prog_bind_None {S A B} (m : prog S A) (f : A → prog S B) s :
  m s = None → (m ≫= f) s = None.
Proof. intros H. unfold mbind, prog_bind. by rewrite H. Qed.

Section entries.
  Context {L : Type}.
  Implicit Types s : astate L.

Lemma entry_run s k e : as_table s !! k = Some e → entry (Z.of_nat k) s = Some (e, s).
Proof.
  intros H. unfold entry. rewrite (proj2 (Z.ltb_ge _ 0)) by lia. by rewrite Nat2Z.id, H.
Qed.

Lemma upd_entry_run s k e f :
  as_table s !! k = Some e →
  upd_entry (Z.of_nat k) f s = Some (tt, set_table (<[k := f e]> (as_table s)) s).
Proof.
  intros H. unfold upd_entry. erewrite prog_bind_step by (by apply entry_run).
  unfold modify. by rewrite Nat2Z.id.
Qed.

(** Several updates of one entry. *)
Lemma upd_entry_bind {A} s k e f (c : prog (astate L) A) :
  as_table s !! k = Some e →
  (upd_entry (Z.of_nat k) f ;; c) s = c (set_table (<[k := f e]> (as_table s)) s).
Proof. intros H. by erewrite prog_bind_step by (by apply upd_entry_run). Qed.

Lemma lookup_set s k e e' : as_table s !! k = Some e → as_table (set_table (<[k := e']> (as_table s)) s) !! k = Some e'.
Proof. intros H. cbn. apply list_lookup_insert_eq. by eapply lookup_lt_Some. Qed.

Lemma set_table_twice s k e1 e2 :
  set_table (<[k := e2]> (as_table (set_table (<[k := e1]> (as_table s)) s)))
    (set_table (<[k := e1]> (as_table s)) s) = set_table (<[k := e2]> (as_table s)) s.
Proof. unfold set_table. cbn. by rewrite list_insert_insert_eq. Qed.

End entries.

(** Consecutive updates of entry [k]. *)
Ltac upd_step :=
  first [ erewrite upd_entry_bind by (first [eassumption | eapply lookup_set; eassumption])
        | erewrite upd_entry_run by (first [eassumption | eapply lookup_set; eassumption]) ];
  rewrite ?set_table_twice.

Section table.
  Context {L : Type}.
  Implicit Types s : astate L.

Lemma free_entry_run s k e pk' :
  as_table s !! k = Some e → released (ae_q e) (as_packets s) pk' →
  etharp_free_entry (Z.of_nat k) s
  = Some (tt, set_packets pk' (set_table (<[k := cleared]> (as_table s)) s)).
Proof.
  intros Hk Hr. unfold etharp_free_entry. erewrite prog_bind_step by (by apply entry_run).
  set (s1 := set_packets pk' (set_table (<[k := with_q 0 e]> (as_table s)) s)).
  rewrite (prog_bind_step _ _ s tt s1).
  2: { unfold released in Hr. destruct (Z.eqb_spec (ae_q e) 0) as [E|E]; cbn [negb when].
       - subst pk'. unfold mret, prog_ret, s1. f_equal. f_equal.
         replace (with_q 0 e) with e by (destruct e; cbn in *; by subst).
         rewrite list_insert_id by done. by destruct s.
       - destruct Hr as [r Hr]. unfold free_pbuf.
         rewrite (prog_bind_step _ _ s tt (set_packets pk' s)).
         + by erewrite upd_entry_run by exact Hk.
         + erewrite prog_bind_step by (unfold packets; rewrite Hr; reflexivity). done. }
  assert (H1 : as_table s1 !! k = Some (with_q 0 e)).
  { cbn. apply list_lookup_insert_eq. by eapply lookup_lt_Some. }
  upd_step. upd_step. upd_step. upd_step. upd_step.
  unfold s1, set_table, set_packets. cbn. by rewrite list_insert_insert_eq.
Qed.

Lemma free_entry_stuck s k e :
  as_table s !! k = Some e → ae_q e ≠ 0 → pbuf_free (ae_q e) (as_packets s) = None →
  etharp_free_entry (Z.of_nat k) s = None.
Proof.
  intros Hk Hq Hr. unfold etharp_free_entry. erewrite prog_bind_step by (by apply entry_run).
  rewrite (proj2 (Z.eqb_neq _ _)) by done. cbn [negb when].
  apply prog_bind_None, prog_bind_None, prog_bind_None. unfold packets. by rewrite Hr.
Qed.

Lemma find_entry_spec s a flags :
  arp_ok (as_table s) →
  (∃ i tab' pk', etharp_find_entry (Some a) flags s = Some (i, set_packets pk' (set_table tab' s)) ∧
     found a flags (as_table s) (as_packets s) i tab' pk') ∨
  (etharp_find_entry (Some a) flags s = None ∧ Z.land flags ETHARP_FLAG_FIND_ONLY = 0 ∧
   ∃ k e, as_table s !! k = Some e ∧ ae_q e ≠ 0 ∧ pbuf_free (ae_q e) (as_packets s) = None).
Proof.
  intros Hok. pose proof (ao_size _ Hok) as Hsize. unfold etharp_find_entry.
  rewrite (prog_bind_step _ _ s (as_table s) s) by reflexivity.
  assert (Hc0 : cands_of [] cands0).
  { assert (Ho : ∀ P, oldest P [] ARP_TABLE_SIZE 0).
    { intros P. left. split; [done|]. split; [done|]. intros j e Hj. done. }
    split; [|apply Ho..]. left. split; [done|]. intros j e Hj. done. }
  pose proof (find_sweep_spec (Some a) (as_table s) [] cands0 Hc0 (arp_ok_times _ Hok)) as Hsw.
  cbn [length Nat.add app] in Hsw. specialize (Hsw ltac:(lia)). change (Z.of_nat 0) with 0 in Hsw.
  assert (Hsame : s = set_packets (as_packets s) (set_table (as_table s) s)) by (by destruct s).
  destruct (find_sweep (Some a) 0 (as_table s) cands0) as [i|c].
  { destruct Hsw as (k & e & a' & -> & Hk & Hu & [= <-] & Ha). left.
    eexists _, _, _. split; [unfold mret, prog_ret; rewrite Hsame at 1; reflexivity|].
    by eapply found_match. }
  destruct Hsw as [Hc Hno]. assert (Hno' : ∀ j f, as_table s !! j = Some f → used f = true → ae_ipaddr f ≠ a)
    by (intros j f Hf Hu; by apply (Hno j f a)).
  destruct (Z.eqb_spec (Z.land flags ETHARP_FLAG_FIND_ONLY) 0) as [Ef|Ef]; cbn [negb orb].
  2: { left. eexists _, _, _. split; [unfold mret, prog_ret; rewrite Hsame at 1; reflexivity|].
       apply found_error; [done | by left]. }
  destruct (co_empty _ _ Hc) as [[Hem Hall]|(k & e & Hem & Hne & Hk & Hu & Hfirst)].
  - rewrite Hem, Z.eqb_refl. cbn [andb].
    destruct (Z.eqb_spec (Z.land flags ETHARP_FLAG_TRY_HARD) 0) as [Et|Et].
    { left. eexists _, _, _. split; [unfold mret, prog_ret; rewrite Hsame at 1; reflexivity|].
      apply found_error; [done | by right]. }
    rewrite Z.ltb_irrefl. destruct (recycle_victim _ _ Hc Hsize Hall) as (k & -> & Hv).
    destruct (victim_used _ _ Hv) as (e & Hk & Hu).
    destruct (released_dec (ae_q e) (as_packets s)) as [[pk' Hr]|[Hq Hr]].
    + left. eexists _, _, pk'. split.
      * erewrite prog_bind_step.
        2: { erewrite prog_bind_step by (eapply free_entry_run; [exact Hk | exact Hr]). reflexivity. }
        cbn [as_table set_packets set_table].
        assert (Hk' : as_table (set_packets pk' (set_table (<[k := cleared]> (as_table s)) s)) !! k
                      = Some cleared).
        { cbn. apply list_lookup_insert_eq. by eapply lookup_lt_Some. }
        upd_step. upd_step. unfold mret, prog_ret, set_table, set_packets. cbn.
        rewrite list_insert_insert_eq. reflexivity.
      * by eapply found_victim.
    + right. split; [|split; [done | by exists k, e]]. apply prog_bind_None, prog_bind_None. by eapply free_entry_stuck.
  - rewrite (proj2 (Z.eqb_neq _ _)) by done. cbn [andb].
    assert (Hlt : (c_empty c <? ARP_TABLE_SIZE) = true).
    { apply Z.ltb_lt. rewrite <- Hsize, Hem. apply lookup_lt_Some in Hk. lia. }
    rewrite Hlt, Hem. left. eexists _, _, _. split.
    + erewrite prog_bind_step by reflexivity. cbv beta iota. upd_step. upd_step.
      unfold mret, prog_ret. rewrite Hsame at 1. reflexivity.
    + by eapply found_empty.
Qed.
(** ** The entry that was found *)

Lemma found_ok a flags tab pk i tab' pk' :
  arp_ok tab → found a flags tab pk i tab' pk' →
  (i = ERR_MEM ∧ tab' = tab ∧ pk' = pk) ∨
  ∃ k e, i = Z.of_nat k ∧ tab' !! k = Some e ∧ ae_ipaddr e = a ∧ arp_ok tab' ∧
    (∀ j f, j ≠ k → tab' !! j = Some f → used f = true → ae_ipaddr f ≠ a) ∧
    (used e = false → ae_q e = 0 ∧ ae_ctime e = 0).
Proof.
  intros Hok [k e Hk Hu Ha|Hno Hf|k e Hno Hf Hk Hu Hfirst|k e pk1 Hno Hf Ht Hall Hv Hk Hr].
  - right. exists k, e. split; [done|]. split; [done|]. split; [done|]. split; [done|]. split.
    + intros j f Hj Hjf Uf E. apply Hj. apply (ao_unique _ Hok j k f e); congruence.
    + congruence.
  - by left.
  - right. exists k, (with_ctime 0 (with_ipaddr a e)). split; [done|].
    split; [apply list_lookup_insert_eq; by eapply lookup_lt_Some|]. split; [done|].
    destruct (ao_entries _ Hok _ _ Hk) as [H1 H2 H3 H4].
    assert (Hem : ae_state e = ETHARP_STATE_EMPTY).
    { unfold used, is_empty in Hu. by apply negb_false_iff, bool_decide_eq_true in Hu. }
    split.
    { apply arp_ok_set; [done | | by unfold used; cbn; rewrite Hem].
      split; cbn; try done; rewrite Hem; done. }
    split; [|by auto].
    intros j f Hj Hjf Uf. rewrite list_lookup_insert_ne in Hjf by done. eauto.
  - right. exists k, (with_ipaddr a cleared). split; [done|].
    split; [apply list_lookup_insert_eq; by eapply lookup_lt_Some|]. split; [done|].
    split; [by apply arp_ok_set|]. split; [|done].
    intros j f Hj Hjf Uf. rewrite list_lookup_insert_ne in Hjf by done. eauto.
Qed.

(** ** Operations that do not touch the table *)

Definition same_table {A} (c : prog (astate L) A) : Prop :=
  ∀ s x s', c s = Some (x, s') → as_table s' = as_table s.

Lemma same_bind {A B} (c : prog (astate L) A) (f : A → prog (astate L) B) :
  same_table c → (∀ x, same_table (f x)) → same_table (c ≫= f).
Proof.
  intros Hc Hf s x s' H. apply prog_bind_Some in H as (y & s1 & H1 & H2).
  rewrite (Hf _ _ _ _ H2). eauto.
Qed.
Lemma same_ret {A} (x : A) : same_table (mret x).
Proof. by intros s y s' [= _ <-]. Qed.
Lemma same_packets {A} (c : prog pstate A) : same_table (packets c).
Proof. intros s x s'. unfold packets. destruct (c _) as [[a q]|]; [|done]. by intros [= _ <-]. Qed.
Lemma same_the_netif n : same_table (the_netif n).
Proof. intros s x s'. unfold the_netif. destruct (_ !! _); [|done]. by intros [= _ <-]. Qed.
Lemma same_gets {A} (f : astate L → A) : same_table (gets f).
Proof. by intros s y s' [= _ <-]. Qed.
Lemma same_stuck {A} : same_table (stuck : prog (astate L) A).
Proof. done. Qed.
Lemma same_entry i : same_table (entry i).
Proof. intros s x s'. unfold entry. destruct (i <? 0); [done|]. destruct (_ !! _); [|done]. by intros [= _ <-]. Qed.
End table.

Create HintDb arp.
#[export] Hint Resolve same_ret same_packets same_the_netif same_gets same_stuck same_entry : arp.

(** Compositions of such operations. *)
Ltac same_solve :=
  repeat first
    [ progress (intros; cbv zeta)
    | solve [auto with arp]
    | apply same_bind; [|intros]
    | match goal with |- same_table (if ?b then _ else _) => destruct b end
    | match goal with |- same_table (when ?b _) => destruct b; cbn [when] end
    | match goal with |- same_table (let '(_, _) := ?x in _) => destruct x end ].

Section generic.
  Context {L : Type}.

Lemma same_free_pbuf p : same_table (free_pbuf (L := L) p).
Proof. unfold free_pbuf. same_solve. Qed.
Lemma same_poke a x : same_table (poke (L := L) a x).
Proof. unfold poke. same_solve. Qed.
Lemma same_peek a n : same_table (peek (L := L) a n).
Proof. unfold peek. same_solve. Qed.
Lemma same_cached i : same_table (modify (set_cached (L := L) i)).
Proof. by intros s x s' [= _ <-]. Qed.
Lemma same_copy_scan fuel : ∀ p, same_table (copy_scan (L := L) fuel p).
Proof. induction fuel as [|fuel IH]; intros p; cbn [copy_scan]; same_solve. Qed.
#[local] Hint Resolve same_copy_scan same_free_pbuf : arp.
Lemma same_take_over q : same_table (take_over (L := L) q).
Proof. unfold take_over. same_solve. Qed.
End generic.
#[export] Hint Resolve same_free_pbuf same_poke same_peek same_cached same_take_over : arp.

Section sending.
  Context {L : Type}.
  Context (linkoutput : Z → Z → prog (astate L) Z).
  (** The driver does not touch the table. *)
  Context (Hlink : ∀ n p, same_table (linkoutput n p)).
  #[local] Set Default Proof Using "All".
  #[local] Hint Resolve Hlink : arp.

Lemma same_ethernet_output n p src dst t : same_table (ethernet_output linkoutput n p src dst t).
Proof. unfold ethernet_output. same_solve. Qed.
#[local] Hint Resolve same_ethernet_output : arp.
Lemma same_raw n es ed hs is' hd id op : same_table (etharp_raw linkoutput n es ed hs is' hd id op).
Proof. unfold etharp_raw. same_solve. Qed.
#[local] Hint Resolve same_raw : arp.
Lemma same_request n a : same_table (etharp_request linkoutput n a).
Proof. unfold etharp_request, etharp_request_dst. same_solve. Qed.
Lemma same_request_dst n a d : same_table (etharp_request_dst linkoutput n a d).
Proof. unfold etharp_request_dst. same_solve. Qed.
End sending.
#[export] Hint Resolve same_ethernet_output same_raw same_request same_request_dst : arp.

(** ** Operations that keep the invariant *)

(** What holds of the table after a run of [c] that returns [x]. *)
Definition triple {L A} (P : list etharp_entry → Prop) (c : prog (astate L) A)
    (Q : A → list etharp_entry → Prop) : Prop :=
  ∀ s x s', c s = Some (x, s') → P (as_table s) → Q x (as_table s').
Definition safe {L A} (c : prog (astate L) A) : Prop := triple arp_ok c (λ _, arp_ok).

Section safety.
  Context {L : Type}.
  Implicit Types s : astate L.
  Implicit Types P : list etharp_entry → Prop.

Lemma triple_same {A} (c : prog (astate L) A) P : same_table c → triple P c (λ _, P).
Proof. intros H s x s' E. by rewrite (H _ _ _ E). Qed.
Lemma triple_bind {A B} (c : prog (astate L) A) (f : A → prog (astate L) B) P Q R :
  triple P c Q → (∀ x, triple (Q x) (f x) R) → triple P (c ≫= f) R.
Proof.
  intros Hc Hf s x s' H Hok. apply prog_bind_Some in H as (y & s1 & H1 & H2). eapply Hf; eauto.
Qed.
Lemma triple_weaken {A} (c : prog (astate L) A) P P' Q :
  triple P c Q → (∀ t, P' t → P t) → triple P' c Q.
Proof. intros H HP s x s' E Hp. eauto. Qed.
Lemma triple_ret {A} (x : A) P Q : (∀ t, P t → Q x t) → triple (L := L) P (mret x) Q.
Proof. intros H s y s' [= <- <-]. apply H. Qed.

Lemma safe_same {A} (c : prog (astate L) A) : same_table c → safe c.
Proof. apply triple_same. Qed.
Lemma safe_bind {A B} (c : prog (astate L) A) (f : A → prog (astate L) B) :
  safe c → (∀ x, safe (f x)) → safe (c ≫= f).
Proof. intros Hc Hf. by apply triple_bind with (λ _, arp_ok). Qed.

Lemma entry_inv i s e s' :
  entry i s = Some (e, s') → s' = s ∧ ∃ k, i = Z.of_nat k ∧ as_table s !! k = Some e.
Proof.
  unfold entry. destruct (Z.ltb_spec i 0) as [|Hi]; [done|].
  destruct (as_table s !! Z.to_nat i) as [e'|] eqn:E; [|done]. intros [= <- <-].
  split; [done|]. exists (Z.to_nat i). by rewrite Z2Nat.id.
Qed.

Lemma upd_entry_inv i f s u s' :
  upd_entry i f s = Some (u, s') →
  ∃ k e, i = Z.of_nat k ∧ as_table s !! k = Some e ∧ s' = set_table (<[k := f e]> (as_table s)) s.
Proof.
  intros H. pose proof H as H0. unfold upd_entry in H0. apply prog_bind_Some in H0 as (e & s1 & He & _).
  apply entry_inv in He as (-> & k & -> & Hk). exists k, e. split; [done|]. split; [done|].
  rewrite (upd_entry_run _ _ _ _ Hk) in H. by injection H.
Qed.

Lemma free_entry_inv i s u s' :
  etharp_free_entry i s = Some (u, s') →
  ∃ k e pk', i = Z.of_nat k ∧ as_table s !! k = Some e ∧
    s' = set_packets pk' (set_table (<[k := cleared]> (as_table s)) s).
Proof.
  intros H. pose proof H as H0. unfold etharp_free_entry in H0.
  apply prog_bind_Some in H0 as (e & s1 & He & _). apply entry_inv in He as (-> & k & -> & Hk).
  destruct (released_dec (ae_q e) (as_packets s)) as [[pk' Hr]|[Hq Hr]].
  - rewrite (free_entry_run _ _ _ _ Hk Hr) in H. injection H as _ <-. by exists k, e, pk'.
  - by rewrite (free_entry_stuck _ _ _ Hk Hq Hr) in H.
Qed.

Lemma cleared_ok : entry_ok cleared.
Proof. by split. Qed.

Lemma free_entry_safe i : safe (etharp_free_entry (L := L) i).
Proof.
  intros s u s' H Hok. apply free_entry_inv in H as (k & e & pk' & -> & Hk & ->). cbn.
  eapply arp_ok_keep; [done | exact Hk | apply cleared_ok | done].
Qed.

(** An update that keeps the address and the use of the entry. *)
Lemma upd_safe i f :
  (∀ e, entry_ok e → entry_ok (f e) ∧ used (f e) = used e ∧ ae_ipaddr (f e) = ae_ipaddr e) →
  safe (upd_entry (L := L) i f).
Proof.
  intros Hf s u s' H Hok. apply upd_entry_inv in H as (k & e & -> & Hk & ->). cbn.
  destruct (Hf e (ao_entries _ Hok _ _ Hk)) as (H1 & H2 & H3).
  eapply arp_ok_keep; [done | exact Hk | done |]. by rewrite H2.
Qed.

Lemma find_entry_safe a flags : safe (etharp_find_entry (L := L) (Some a) flags).
Proof.
  intros s i s' H Hok. destruct (find_entry_spec s a flags Hok) as [(i' & tab' & pk' & E & Hf)|[E _]];
    rewrite E in H; [|done]. injection H as <- <-. cbn.
  destruct (found_ok _ _ _ _ _ _ _ Hok Hf) as [(_ & -> & _)|(k & e & _ & _ & _ & ? & _)]; done.
Qed.

Lemma triple_entry i P :
  triple (L := L) P (entry i) (λ e t, P t ∧ ∃ k, i = Z.of_nat k ∧ t !! k = Some e).
Proof. intros s e s' H HP. apply entry_inv in H as (-> & k & ? & ?). split; [done|]. by exists k. Qed.
Lemma triple_upd i f P (Q : () → list etharp_entry → Prop) :
  (∀ t k e, i = Z.of_nat k → t !! k = Some e → P t → Q tt (<[k := f e]> t)) →
  triple (L := L) P (upd_entry i f) Q.
Proof.
  intros H s [] s' E HP. apply upd_entry_inv in E as (k & e & ? & Hk & ->). cbn. eauto.
Qed.

Lemma cleanup_safe n is_ : safe (etharp_cleanup_loop (L := L) n is_).
Proof.
  induction is_ as [|i is_ IH]; cbn [etharp_cleanup_loop]; [apply safe_same; auto with arp|].
  apply safe_bind; [|done]. unfold etharp_cleanup_one.
  apply safe_bind; [apply safe_same; auto with arp|]. intros e.
  destruct (_ && _); cbn [when]; [apply free_entry_safe | apply safe_same; auto with arp].
Qed.
End safety.

Section operations.
  Context {L : Type}.
  Context (linkoutput : Z → Z → prog (astate L) Z).
  Context (Hlink : ∀ n p, same_table (linkoutput n p)).
  Implicit Types s : astate L.
  #[local] Set Default Proof Using "All".

(** The addresses that may stand in the table. *)
Definition unicast (a : Z) (nf : netif) : bool :=
  negb (ip4_addr_isany a || negb (ip4_addr_isbroadcast_u32 a nf =? 0) || ip4_addr_ismulticast a).

(** The end of [etharp_update_arp_entry]: the queued packet is sent. *)
Definition flush (n q : Z) (mac : bytes) : prog (astate L) Z :=
  if q =? 0 then mret ERR_OK else
  nf ← the_netif n;
  _ ← ethernet_output linkoutput n q (nf_hwaddr nf) mac ETHTYPE_IP;
  free_pbuf q ;; mret ERR_OK.

Lemma update_eq n nf a mac flags s k e tab' pk' :
  as_netifs s !! n = Some nf → unicast a nf = true →
  etharp_find_entry (Some a) flags s = Some (Z.of_nat k, set_packets pk' (set_table tab' s)) →
  tab' !! k = Some e →
  etharp_update_arp_entry linkoutput n a mac flags s
  = flush n (ae_q e) mac (set_packets pk'
      (set_table (<[k := ArpEntry 0 (ae_ipaddr e) n mac 0 ETHARP_STATE_STABLE]> tab') s)).
Proof.
  intros Hnf Hu Hf Hk. unfold etharp_update_arp_entry.
  erewrite prog_bind_step by (unfold the_netif; rewrite Hnf; reflexivity).
  unfold unicast in Hu. apply negb_true_iff in Hu. rewrite Hu.
  erewrite prog_bind_step by exact Hf. rewrite (proj2 (Z.ltb_ge _ 0)) by lia.
  set (s1 := set_packets pk' (set_table tab' s)).
  assert (Hk1 : as_table s1 !! k = Some e) by done.
  upd_step. upd_step. upd_step. upd_step.
  erewrite prog_bind_step by (apply entry_run; eapply lookup_set; exact Hk1).
  cbn [with_ctime with_ethaddr with_netif with_state ae_q ae_ipaddr ae_netif ae_ethaddr ae_state].
  unfold flush. destruct (Z.eqb_spec (ae_q e) 0) as [E|E]; cbn [negb when].
  - erewrite prog_bind_step by reflexivity. unfold mret, prog_ret. do 2 f_equal.
    unfold s1, set_packets, set_table, with_ctime, with_ethaddr, with_netif, with_state. cbn. by rewrite E.
  - rewrite prog_bind_assoc.
    erewrite (upd_entry_bind _ _ _ (with_q 0)) by (eapply lookup_set; exact Hk1).
    rewrite set_table_twice, prog_bind_assoc.
    unfold s1, set_packets, set_table. cbn.
    erewrite !prog_bind_step by (unfold the_netif; cbn; rewrite Hnf; reflexivity).
    symmetry. erewrite prog_bind_step by (unfold the_netif; cbn; rewrite Hnf; reflexivity).
    symmetry. by rewrite prog_bind_assoc.
Qed.

#[local] Hint Resolve Hlink : arp.

Lemma same_flush n q mac : same_table (flush n q mac).
Proof. unfold flush. same_solve. Qed.

Lemma update_safe n a mac flags : safe (etharp_update_arp_entry linkoutput n a mac flags).
Proof.
  intros s r s' H Hok. destruct (as_netifs s !! n) as [nf|] eqn:Hnf.
  2: { unfold etharp_update_arp_entry in H. rewrite prog_bind_None in H; [done|].
       unfold the_netif. by rewrite Hnf. }
  destruct (unicast a nf) eqn:Hu.
  2: { unfold etharp_update_arp_entry in H.
       rewrite (prog_bind_step _ _ s nf s) in H by (unfold the_netif; by rewrite Hnf).
       apply negb_false_iff in Hu. rewrite Hu in H. by injection H as _ <-. }
  destruct (find_entry_spec s a flags Hok) as [(i & tab' & pk' & E & Hf)|[E _]].
  2: { unfold etharp_update_arp_entry in H.
       rewrite (prog_bind_step _ _ s nf s) in H by (unfold the_netif; by rewrite Hnf).
       apply negb_true_iff in Hu. rewrite Hu in H. by rewrite (prog_bind_None _ _ _ E) in H. }
  destruct (found_ok _ _ _ _ _ _ _ Hok Hf) as [(-> & -> & ->)|(k & e & -> & Hk & Ha & Hok' & Hun & He)].
  - unfold etharp_update_arp_entry in H.
    rewrite (prog_bind_step _ _ s nf s) in H by (unfold the_netif; by rewrite Hnf).
    apply negb_true_iff in Hu. rewrite Hu in H. rewrite (prog_bind_step _ _ _ _ _ E) in H.
    cbn in H. by injection H as _ <-.
  - rewrite (update_eq _ _ _ mac _ _ _ _ _ _ Hnf Hu E Hk) in H. rewrite (same_flush _ _ _ _ _ _ H).
    cbn. apply arp_ok_set; [done | by split |]. cbn. rewrite Ha. intros _. exact Hun.
Qed.
End operations.
