(* ===== verification/EtharpInv.v ===== *)
(** * The ARP table under every operation

    A Hoare-style calculus ([triple]) for the operations of [Etharp], the
    invariant [arp_ok] as a property of every reachable table, and the
    ageing of the table by [etharp_tmr]. *)

From stdpp Require Import base numbers list gmap option relations.
From S2P Require Import Prelude Mem Memp Pbuf Chksum Ip4Addr Etharp EtharpTable EtharpProps.

(** ** More rules *)

Section rules.
  Context {L : Type}.
  Implicit Types s : astate L.

Lemma triple_free i P (Q : () → list etharp_entry → Prop) :
  (∀ t k e, i = Z.of_nat k → t !! k = Some e → P t → Q tt (<[k := cleared]> t)) →
  triple (L := L) P (etharp_free_entry i) Q.
Proof.
  intros H s [] s' E HP. apply free_entry_inv in E as (k & e & pk' & ? & Hk & ->). cbn. eauto.
Qed.

(** The entry that [etharp_find_entry] gives out for address [a]. *)
Definition slot (a i : Z) (t : list etharp_entry) : Prop :=
  arp_ok t ∧
  (i < 0 ∨ ∃ k e, i = Z.of_nat k ∧ t !! k = Some e ∧ ae_ipaddr e = a ∧
     (∀ j f, j ≠ k → t !! j = Some f → used f = true → ae_ipaddr f ≠ a) ∧
     (used e = false → ae_q e = 0 ∧ ae_ctime e = 0)).

Lemma triple_find a flags :
  triple (L := L) arp_ok (etharp_find_entry (Some a) flags) (slot a).
Proof.
  intros s i s' H Hok. destruct (find_entry_spec s a flags Hok) as [(i' & tab' & pk' & E & Hf)|[E _]];
    rewrite E in H; [|done]. injection H as <- <-. cbn.
  destruct (found_ok _ _ _ _ _ _ _ Hok Hf) as [(-> & -> & _)|(k & e & ? & ? & ? & ? & ? & ?)].
  - split; [done | by left].
  - split; [done|]. right. by exists k, e.
Qed.
End rules.

(** Compositions of safe operations. *)
Ltac safe_solve :=
  repeat first
    [ progress (intros; cbv zeta)
    | solve [auto with arp]
    | solve [apply safe_same; same_solve]
    | apply safe_bind; [|intros]
    | match goal with |- safe (if ?b then _ else _) => destruct b end
    | match goal with |- safe (when ?b _) => destruct b; cbn [when] end
    | match goal with |- safe (match ?b with Some _ => _ | None => _ end) => destruct b end
    | match goal with |- safe (match ?b with [] => _ | _ :: _ => _ end) => destruct b end ].

(** ** The timer *)

(** What one tick does to an entry. *)
Definition tick (e : etharp_entry) : etharp_entry :=
  if is_empty (ae_state e) then e else
  let e := with_ctime (u16 (ae_ctime e + 1)) e in
  if (ARP_MAXAGE <=? ae_ctime e)
     || (bool_decide (ae_state e = ETHARP_STATE_PENDING) && (ARP_MAXPENDING <=? ae_ctime e))
  then cleared
  else match ae_state e with
       | ETHARP_STATE_STABLE_REREQUESTING_1 => with_state ETHARP_STATE_STABLE_REREQUESTING_2 e
       | ETHARP_STATE_STABLE_REREQUESTING_2 => with_state ETHARP_STATE_STABLE e
       | _ => e
       end.

Lemma tick_ok e : entry_ok e → entry_ok (tick e).
Proof.
  intros [H0 H1 H2 H3]. unfold tick. destruct (is_empty (ae_state e)) eqn:Ee; [done|].
  assert (Hmax : ae_ctime e < ARP_MAXAGE).
  { destruct (stable (ae_state e)) eqn:Es; [by apply H3|].
    assert (ae_state e = ETHARP_STATE_PENDING) as E by (by destruct (ae_state e)).
    specialize (H2 E). unfold ARP_MAXPENDING, ARP_MAXAGE in *. lia. }
  replace (u16 (ae_ctime e + 1)) with (ae_ctime e + 1)
    by (unfold u16; rewrite Z.mod_small; unfold ARP_MAXAGE in *; lia).
  cbn [ae_ctime ae_state with_ctime].
  destruct (Z.leb_spec ARP_MAXAGE (ae_ctime e + 1)) as [Ha|Ha]; [apply cleared_ok|]. cbn [orb].
  destruct (ae_state e) eqn:Est; rewrite ?bool_decide_false by done; cbn [andb];
    try (split; cbn; rewrite ?Est; try done; try lia; intros _; split; [by apply H3 | lia]).
  { discriminate Ee. }
  rewrite bool_decide_true by done. cbn [andb].
  destruct (Z.leb_spec ARP_MAXPENDING (ae_ctime e + 1)); [apply cleared_ok|].
  split; cbn; rewrite ?Est; try done; lia.
Qed.

Lemma tick_keeps e : used (tick e) = true → used e = true ∧ ae_ipaddr (tick e) = ae_ipaddr e.
Proof.
  unfold tick, used. destruct (is_empty (ae_state e)) eqn:Ee; [by rewrite Ee|].
  destruct (_ || _); [done|]. intros _. split; [done|]. cbn [ae_state with_ctime].
  by destruct (ae_state e).
Qed.

Section invariant.
  Context {L : Type}.
  Context (linkoutput : Z → Z → prog (astate L) Z).
  Context (Hlink : ∀ n p, same_table (linkoutput n p)).
  Implicit Types s : astate L.
  #[local] Set Default Proof Using "All".
  #[local] Hint Resolve Hlink : arp.

Lemma tmr_one_table k e t :
  t !! k = Some e →
  triple (λ t', t' = t) (etharp_tmr_one linkoutput (Z.of_nat k)) (λ _ t', t' = <[k := tick e]> t).
Proof.
  intros Hk s u s' H Ht. unfold etharp_tmr_one in H.
  assert (Hk0 : as_table s !! k = Some e) by (by rewrite Ht).
  rewrite (prog_bind_step _ _ _ _ _ (entry_run _ _ _ Hk0)) in H. unfold tick.
  destruct (is_empty (ae_state e)).
  { injection H as _ <-. rewrite Ht. by rewrite list_insert_id. }
  erewrite upd_entry_bind in H by exact Hk0.
  erewrite prog_bind_step in H by (apply entry_run; eapply lookup_set; exact Hk0).
  set (e1 := with_ctime (u16 (ae_ctime e + 1)) e) in *. cbv zeta.
  set (s1 := set_table _ _) in *.
  assert (Hk1 : as_table s1 !! k = Some e1) by (eapply lookup_set; exact Hk0).
  assert (Et : as_table s1 = <[k := e1]> t) by (cbn; by rewrite Ht).
  destruct (_ || _).
  { apply free_entry_inv in H as (k' & e' & pk' & Ek & _ & ->).
    apply Nat2Z.inj in Ek as <-. cbn. rewrite Ht. apply list_insert_insert_eq. }
  destruct (ae_state e1) eqn:Est;
    repeat first [rewrite bool_decide_false in H by done | rewrite bool_decide_true in H by done];
    cbn [when] in H;
    try (injection H as _ <-; exact Et);
    try (erewrite upd_entry_run in H by exact Hk1; injection H as _ <-; cbn; rewrite Ht;
         apply list_insert_insert_eq).
  apply prog_bind_Some in H as (r & s2 & Hr & [= _ <-]).
  rewrite (same_request linkoutput Hlink _ _ _ _ _ Hr). exact Et.
Qed.

Lemma tmr_loop_table n : ∀ i t,
  (i + n ≤ length t)%nat →
  triple (λ t', t' = t) (etharp_tmr_loop linkoutput (seqZ (Z.of_nat i) (Z.of_nat n)))
    (λ _ t', t' = take i t ++ (tick <$> take n (drop i t)) ++ drop (i + n) t).
Proof.
  induction n as [|n IH]; intros i t Hlen s u s' H Ht.
  - injection H as _ <-. rewrite Nat.add_0_r, take_0, Ht. change (as_table s = t) in Ht. symmetry. apply take_drop.
  - rewrite seqZ_cons in H by lia. cbn [etharp_tmr_loop] in H.
    destruct (lookup_lt_is_Some_2 t i ltac:(lia)) as [e He].
    apply prog_bind_Some in H as ([] & s1 & H1 & H2).
    pose proof (tmr_one_table _ _ _ He _ _ _ H1 Ht) as E1.
    replace (Z.succ (Z.of_nat i)) with (Z.of_nat (S i)) in H2 by lia.
    replace (Z.pred (Z.of_nat (S n))) with (Z.of_nat n) in H2 by lia.
    specialize (IH (S i) (<[i := tick e]> t)). rewrite length_insert in IH.
    rewrite (IH ltac:(lia) _ _ _ H2 E1).
    rewrite !drop_insert_lt by lia.
    rewrite (take_S_r _ _ (tick e)) by (apply list_lookup_insert_eq; lia).
    rewrite take_insert_ge by lia. rewrite (drop_S t e i He). cbn [take fmap list_fmap].
    rewrite <- app_assoc. by rewrite Nat.add_succ_r.
Qed.

(** A tick ages every entry of the table on its own. *)
Lemma tmr_table s u s' :
  etharp_tmr linkoutput s = Some (u, s') → arp_ok (as_table s) → as_table s' = tick <$> as_table s.
Proof.
  intros H Hok. pose proof (ao_size _ Hok) as Hs. unfold etharp_tmr in H.
  pose proof (tmr_loop_table (length (as_table s)) 0 (as_table s) ltac:(lia)) as Ht.
  rewrite Hs in Ht. rewrite (Ht _ _ _ H eq_refl). cbn [take drop app Nat.add].
  by rewrite firstn_all, drop_all, app_nil_r.
Qed.

Lemma tmr_safe : safe (etharp_tmr linkoutput).
Proof.
  intros s u s' H Hok. rewrite (tmr_table _ _ _ H Hok). destruct Hok as [Hs He Hu]. split.
  - by rewrite length_fmap.
  - intros k e Hk. apply list_lookup_fmap_Some in Hk as (e0 & -> & Hk). apply tick_ok. eauto.
  - intros j k e f Hj Hk Ue Uf E.
    apply list_lookup_fmap_Some in Hj as (e0 & -> & Hj). apply list_lookup_fmap_Some in Hk as (f0 & -> & Hk).
    destruct (tick_keeps _ Ue) as [Ue0 Ea]. destruct (tick_keeps _ Uf) as [Uf0 Fa].
    eapply Hu; eauto. congruence.
Qed.

(** ** etharp_query and etharp_output *)

Definition at_state (i : Z) (st : etharp_state) (t : list etharp_entry) : Prop :=
  arp_ok t ∧ ∃ k e, i = Z.of_nat k ∧ t !! k = Some e ∧ ae_state e = st.

Lemma queue_packet_safe i p :
  triple (at_state i ETHARP_STATE_PENDING)
    (e ← entry (L := L) i; when (negb (ae_q e =? 0)) (free_pbuf (ae_q e)) ;;
     upd_entry i (with_q p) ;; mret ERR_OK) (λ _, arp_ok).
Proof.
  eapply triple_bind; [apply triple_same; auto with arp|]. intros e.
  eapply triple_bind; [apply triple_same; same_solve|]. intros [].
  apply triple_bind with (λ _, arp_ok); [|intros []; by apply triple_ret].
  apply triple_upd. intros t k e' -> Hk (Hok & k' & e0 & Ek & Hk' & Est).
  apply Nat2Z.inj in Ek as <-. assert (e0 = e') as -> by congruence.
  destruct (ao_entries _ Hok _ _ Hk) as [H0 H1 H2 H3].
  eapply arp_ok_keep; [done | exact Hk | | intros U; by split].
  split; cbn; try done; rewrite Est; done.
Qed.

Lemma query_safe n a q : safe (etharp_query linkoutput n a q).
Proof.
  unfold etharp_query. apply safe_bind; [apply safe_same; auto with arp|]. intros nf.
  destruct (_ || _); [apply safe_same; auto with arp|].
  eapply triple_bind; [apply triple_find|]. intros i.
  destruct (Z.ltb_spec i 0) as [Hi|Hi]; [apply triple_ret; by intros t [Ht _]|].
  eapply triple_bind with (λ e t, slot a i t ∧ ∃ k, i = Z.of_nat k ∧ t !! k = Some e);
    [apply triple_entry|]. intros e. cbv zeta.
  apply triple_bind with (λ _, arp_ok).
  - destruct (is_empty (ae_state e)) eqn:Ee; cbn [when]; [|apply triple_ret; by intros t [[Ht _] _]].
    apply triple_bind with (λ _ t, ∃ t0 k, slot a i t0 ∧ i = Z.of_nat k ∧ t0 !! k = Some e ∧
                                   t = <[k := with_state ETHARP_STATE_PENDING e]> t0).
    { apply triple_upd. intros t k e' -> Hk [Hsl (k' & Ek & Hk')]. apply Nat2Z.inj in Ek as <-.
      assert (e' = e) as -> by congruence. by exists t, k. }
    intros []. apply triple_upd. intros t k e' -> Hk (t0 & k' & [Hok Hsl] & Ek & Hk' & ->).
    apply Nat2Z.inj in Ek as <-. rewrite list_lookup_insert_eq in Hk by (by eapply lookup_lt_Some).
    injection Hk as <-. rewrite list_insert_insert_eq.
    destruct Hsl as [Hneg|(k' & e' & Ek & Hk & Ha & Hun & Hem)]; [lia|].
    apply Nat2Z.inj in Ek as <-. assert (e' = e) as -> by congruence.
    destruct Hem as [Eq Et]; [unfold used; by rewrite Ee|].
    apply arp_ok_set; [done | | cbn; rewrite Ha; intros _; exact Hun].
    split; cbn; try done; rewrite Et; done.
  - intros []. apply safe_bind; [apply safe_same; same_solve|]. intros r.
    destruct (q =? 0); [apply safe_same; auto with arp|].
    eapply triple_bind; [apply triple_entry|]. intros e2.
    destruct (stable (ae_state e2)).
    { apply triple_weaken with arp_ok; [|tauto]. apply safe_same. same_solve. }
    case_bool_decide as Est; [|apply triple_ret; tauto].
    eapply triple_bind; [apply triple_same; auto with arp|]. intros p.
    destruct (negb (p =? 0)); [|apply triple_ret; tauto].
    eapply triple_weaken; [apply queue_packet_safe|]. intros t [Hok (k & -> & Hk)].
    split; [done|]. by exists k, e2.
Qed.

(** Setting a stable entry to another stable state. *)
Lemma restate_safe i e st :
  stable (ae_state e) = true → stable st = true →
  triple (L := L) (λ t, arp_ok t ∧ ∃ k, i = Z.of_nat k ∧ t !! k = Some e)
    (upd_entry i (with_state st)) (λ _, arp_ok).
Proof.
  intros Hs Hst. apply triple_upd. intros t k e' -> Hk [Hok (k' & Ek & Hk')].
  apply Nat2Z.inj in Ek as <-. assert (e' = e) as -> by congruence.
  destruct (ao_entries _ Hok _ _ Hk) as [H0 H1 H2 H3].
  eapply arp_ok_keep; [done | exact Hk | |].
  - split; cbn; [done | by destruct st | by destruct st | by intros _; apply H3].
  - intros _. split; [|done]. unfold used. by destruct (ae_state e).
Qed.

Lemma output_to_index_safe n q i : safe (etharp_output_to_arp_index linkoutput n q i).
Proof.
  unfold etharp_output_to_arp_index. eapply triple_bind; [apply triple_entry|]. intros e.
  apply triple_bind with (λ _, arp_ok); [|intros []; apply safe_same; same_solve].
  case_bool_decide as Est; cbn [when]; [|apply triple_ret; tauto].
  assert (Hs : stable (ae_state e) = true) by (by rewrite Est).
  destruct (_ <=? _); [|destruct (_ <=? _); cbn [when]; [|apply triple_ret; tauto]];
    (eapply triple_bind; [apply triple_same; auto with arp|]; intros r;
     destruct (r =? ERR_OK); cbn [when]; [by apply restate_safe | apply triple_ret; tauto]).
Qed.

Lemma output_safe n q a : safe (etharp_output linkoutput n q a).
Proof.
  pose proof output_to_index_safe. pose proof query_safe. unfold etharp_output. safe_solve.
Qed.

Lemma find_addr_safe a : safe (etharp_find_addr (L := L) a).
Proof. pose proof (find_entry_safe (L := L)). unfold etharp_find_addr. safe_solve. Qed.
End invariant.

(** ** Steps of the system *)

Lemma initial_ok : arp_ok (replicate (Z.to_nat ARP_TABLE_SIZE) cleared).
Proof.
  split; [done | |].
  - intros k e Hk. apply lookup_replicate in Hk as [-> _]. apply cleared_ok.
  - intros j k e f Hj _ U. apply lookup_replicate in Hj as [-> _]. done.
Qed.

Section steps.
  Context {L : Type}.
  Context (linkoutput : Z → Z → prog (astate L) Z).
  Context (ip4_input : Z → Z → prog (astate L) unit).
  Context (dhcp_arp_reply : Z → Z → prog (astate L) unit).

(** Calls into etharp.c, and what the rest of the system does between them:
    the table is a static variable of the file. *)
Inductive arp_step : astate L → astate L → Prop :=
  | step_elsewhere s s' : as_table s' = as_table s → arp_step s s'
  | step_tmr s s' : etharp_tmr linkoutput s = Some (tt, s') → arp_step s s'
  | step_update s n a mac flags r s' :
      etharp_update_arp_entry linkoutput n a mac flags s = Some (r, s') → arp_step s s'
  | step_cleanup s n s' : etharp_cleanup_netif n s = Some (tt, s') → arp_step s s'
  | step_query s n a q r s' : etharp_query linkoutput n a q s = Some (r, s') → arp_step s s'
  | step_output s n q a r s' : etharp_output linkoutput n q a s = Some (r, s') → arp_step s s'
  | step_find_addr s a r s' : etharp_find_addr a s = Some (r, s') → arp_step s s'
  | step_get_entry s i r s' : etharp_get_entry i s = Some (r, s') → arp_step s s'.

(** Frames that arrive are steps too. *)
Inductive eth_step : astate L → astate L → Prop :=
  | step_arp s s' : arp_step s s' → eth_step s s'
  | step_input s p n r s' :
      ethernet_input linkoutput ip4_input dhcp_arp_reply p n s = Some (r, s') → eth_step s s'.

  (** The driver does not know the table; the upper layers reach it only
      through the functions of etharp.c. *)
  Context (Hlink : ∀ n p, same_table (linkoutput n p)).
  Context (Hip : ∀ p n s u s', ip4_input p n s = Some (u, s') → rtc arp_step s s').
  Context (Hdhcp : ∀ n a s u s', dhcp_arp_reply n a s = Some (u, s') → rtc arp_step s s').
  #[local] Set Default Proof Using "All".

Lemma arp_step_ok s s' : arp_step s s' → arp_ok (as_table s) → arp_ok (as_table s').
Proof.
  intros [? ? E|? ? E|? n a mac fl r ? E|? n ? E|? n a q r ? E|? n q a r ? E|? a r ? E|? i r ? E].
  - by rewrite E.
  - by eapply tmr_safe.
  - by eapply update_safe.
  - by eapply cleanup_safe.
  - by eapply query_safe.
  - by eapply output_safe.
  - by eapply find_addr_safe.
  - assert (same_table (etharp_get_entry (L := L) i)) as H by (unfold etharp_get_entry; same_solve).
    by rewrite (H _ _ _ E).
Qed.

Lemma arp_steps_ok s s' : rtc arp_step s s' → arp_ok (as_table s) → arp_ok (as_table s').
Proof. induction 1 as [|s1 s2 s3 H1 _ IH]; [done|]. intros H. by apply IH, (arp_step_ok _ _ H1). Qed.

Lemma ip4_input_safe p n : safe (ip4_input p n).
Proof. intros s u s' H. apply arp_steps_ok. eauto. Qed.
Lemma dhcp_reply_safe n a : safe (dhcp_arp_reply n a).
Proof. intros s u s' H. apply arp_steps_ok. eauto. Qed.
Lemma update_safe' n a mac flags : safe (etharp_update_arp_entry linkoutput n a mac flags).
Proof. by apply update_safe. Qed.
#[local] Hint Resolve ip4_input_safe dhcp_reply_safe update_safe' Hlink : arp.

Lemma etharp_input_safe p n : safe (etharp_input linkoutput dhcp_arp_reply p n).
Proof. unfold etharp_input. safe_solve. Qed.
#[local] Hint Resolve etharp_input_safe : arp.

Lemma ethernet_input_safe p n : safe (ethernet_input linkoutput ip4_input dhcp_arp_reply p n).
Proof. unfold ethernet_input, mark_pbuf. safe_solve. Qed.

Lemma eth_steps_ok s s' : rtc eth_step s s' → arp_ok (as_table s) → arp_ok (as_table s').
Proof.
  induction 1 as [|s1 s2 s3 [s1' s2' H1|s1' p n r s2' H1] _ IH]; [done | |]; intros H; apply IH.
  - by eapply arp_step_ok.
  - by eapply ethernet_input_safe.
Qed.

(** C8: Whatever sequence of timer ticks, ARP updates, queries, outgoing packets, interface
    shut-downs, look-ups and incoming frames runs on the initially empty table, in any order and
    with the upper layers calling back into it, the ARP table keeps its invariant: ten entries, no
    address in two entries that are in use, only pending entries hold a queued packet, pending
    entries are younger than 5 ticks and stable ones younger than 300. *)
Theorem arp_table_invariant s0 s :
  as_table s0 = replicate (Z.to_nat ARP_TABLE_SIZE) cleared → rtc eth_step s0 s →
  arp_ok (as_table s).
Proof. intros E H. eapply eth_steps_ok; [exact H|]. rewrite E. apply initial_ok. Qed.
End steps.
