(* ===== verification/EtharpResolve.v ===== *)
(** * What address resolution promises

    The ageing of entries, the entry that is chosen for a new address, the
    round trip from an ARP update to the look-up, and the next hop of
    outgoing packets. *)

From stdpp Require Import base numbers list gmap option relations.
From S2P Require Import Prelude Mem Memp Pbuf Chksum Ip4Addr Etharp EtharpTable EtharpProps EtharpInv.

(** ** Ageing *)

(** The number of ticks an entry has left. *)
Definition life (e : etharp_entry) : Z :=
  if bool_decide (ae_state e = ETHARP_STATE_PENDING) then ARP_MAXPENDING - ae_ctime e
  else ARP_MAXAGE - ae_ctime e.

(** The entries answer the same questions in the same way. *)
Definition same_binding (e f : etharp_entry) : Prop :=
  ae_ipaddr f = ae_ipaddr e ∧ ae_ethaddr f = ae_ethaddr e ∧ ae_netif f = ae_netif e ∧
  ae_q f = ae_q e ∧ stable (ae_state f) = stable (ae_state e) ∧ used f = used e.

Lemma tick_life e :
  entry_ok e → used e = true →
  0 < life e ∧
  (life e = 1 → tick e = cleared) ∧
  (1 < life e → life (tick e) = life e - 1 ∧ same_binding e (tick e)).
Proof.
  intros [H0 H1 H2 H3] Hu. unfold used in Hu. apply negb_true_iff in Hu.
  unfold tick, life. rewrite Hu.
  assert (Hmax : ae_ctime e < ARP_MAXAGE).
  { destruct (stable (ae_state e)) eqn:Es; [by apply H3|].
    assert (ae_state e = ETHARP_STATE_PENDING) as E by (by destruct (ae_state e)).
    specialize (H2 E). unfold ARP_MAXPENDING, ARP_MAXAGE in *. lia. }
  replace (u16 (ae_ctime e + 1)) with (ae_ctime e + 1)
    by (unfold u16; rewrite Z.mod_small; unfold ARP_MAXAGE in *; lia).
  cbn [ae_ctime ae_state with_ctime].
  destruct (ae_state e) eqn:Est; [discriminate Hu|..];
    first [rewrite bool_decide_true by done; specialize (H2 eq_refl)
          | rewrite bool_decide_false by done];
    cbn [andb]; rewrite ?orb_false_r;
    repeat match goal with |- context [?a <=? ?b] => destruct (Z.leb_spec a b) end; cbn [orb];
    unfold same_binding, used, ARP_MAXAGE, ARP_MAXPENDING in *;
    cbn [ae_state ae_ctime ae_ipaddr ae_ethaddr ae_netif ae_q with_ctime with_state];
    rewrite ?Est; (split; [lia|]); (split; [intros; first [done | lia] |]); intros;
    try lia; (split; [|done]);
    first [rewrite bool_decide_true by done | rewrite bool_decide_false by done]; lia.
Qed.

Lemma tick_not_pending e :
  ae_state e ≠ ETHARP_STATE_PENDING → ae_state (tick e) ≠ ETHARP_STATE_PENDING.
Proof.
  intros H. unfold tick. destruct (is_empty (ae_state e)); [done|]. cbv zeta.
  destruct (_ || _); [done|]. cbn [ae_state with_ctime].
  destruct (ae_state e) eqn:E; cbn; rewrite ?E; done.
Qed.

(** An entry that nobody touches lives for exactly [life] ticks. *)
Lemma ticks_life n : ∀ e,
  entry_ok e → used e = true →
  (Z.of_nat n < life e → entry_ok (Nat.iter n tick e) ∧ life (Nat.iter n tick e) = life e - Z.of_nat n ∧
     same_binding e (Nat.iter n tick e)) ∧
  (Z.of_nat n = life e → Nat.iter n tick e = cleared).
Proof.
  induction n as [|n IH]; intros e Hok Hu;
    [change (Nat.iter 0 tick e) with e
    |assert (Es : Nat.iter (S n) tick e = tick (Nat.iter n tick e)) by done; rewrite Es].
  - destruct (tick_life e Hok Hu) as (Hpos & _). split; [|lia]. intros _.
    split; [done|]. split; [lia | done].
  - destruct (IH e Hok Hu) as [H _]. split; intros Hn.
    + destruct H as (Hok' & Hl & Hb); [lia|]. set (f := Nat.iter n tick e) in *.
      assert (Hf : used f = true) by (by rewrite <- Hu; apply Hb).
      destruct (tick_life f Hok' Hf) as (_ & _ & H). destruct H as [H Hb']; [lia|].
      split; [by apply tick_ok|]. split; [lia|]. unfold same_binding in *. intuition congruence.
    + destruct H as (Hok' & Hl & Hb); [lia|]. set (f := Nat.iter n tick e) in *.
      assert (Hf : used f = true) by (by rewrite <- Hu; apply Hb).
      destruct (tick_life f Hok' Hf) as (_ & H & _). apply H. lia.
Qed.

Section ageing.
  Context {L : Type}.
  Context (linkoutput : Z → Z → prog (astate L) Z).
  Implicit Types s : astate L.

(** Entries that wait for no answer are aged without any other effect. *)
Lemma tmr_one_run s k e :
  as_table s !! k = Some e → entry_ok e → ae_state e ≠ ETHARP_STATE_PENDING →
  etharp_tmr_one linkoutput (Z.of_nat k) s = Some (tt, set_table (<[k := tick e]> (as_table s)) s).
Proof.
  intros Hk Hok Hst. unfold etharp_tmr_one, tick.
  rewrite (prog_bind_step _ _ _ _ _ (entry_run _ _ _ Hk)).
  destruct (is_empty (ae_state e)) eqn:Ee.
  { rewrite list_insert_id by done. by destruct s. }
  erewrite upd_entry_bind by exact Hk.
  erewrite prog_bind_step by (apply entry_run; eapply lookup_set; exact Hk).
  set (e1 := with_ctime (u16 (ae_ctime e + 1)) e). cbv zeta.
  set (s1 := set_table _ _).
  assert (Hk1 : as_table s1 !! k = Some e1) by (eapply lookup_set; exact Hk).
  assert (Hq : ae_q e1 = 0).
  { apply (eo_stable _ Hok). destruct (ae_state e); [discriminate Ee | done | done..]. }
  destruct (_ || _).
  { rewrite (free_entry_run s1 k e1 (as_packets s)); [|done|].
    - unfold s1, set_packets, set_table. cbn. by rewrite list_insert_insert_eq.
    - unfold released. by rewrite Hq. }
  change (ae_state e1) with (ae_state e).
  destruct (ae_state e) eqn:Est; [discriminate Ee | done |..];
    repeat first [rewrite bool_decide_false by done | rewrite bool_decide_true by done]; cbn [when];
    [done | |];
    erewrite upd_entry_run by exact Hk1; unfold s1; by rewrite set_table_twice.
Qed.

Lemma tmr_loop_run n : ∀ i s,
  (i + n ≤ length (as_table s))%nat →
  (∀ k e, as_table s !! k = Some e → entry_ok e ∧ ae_state e ≠ ETHARP_STATE_PENDING) →
  ∃ s', etharp_tmr_loop linkoutput (seqZ (Z.of_nat i) (Z.of_nat n)) s = Some (tt, s') ∧
    s' = set_table (as_table s') s.
Proof.
  induction n as [|n IH]; intros i s Hlen Hall.
  - exists s. split; [done | by destruct s].
  - rewrite seqZ_cons by lia. cbn [etharp_tmr_loop].
    destruct (lookup_lt_is_Some_2 (as_table s) i ltac:(lia)) as [e He].
    destruct (Hall _ _ He) as [Hok Hst].
    rewrite (prog_bind_step _ _ _ _ _ (tmr_one_run _ _ _ He Hok Hst)).
    replace (Z.succ (Z.of_nat i)) with (Z.of_nat (S i)) by lia.
    replace (Z.pred (Z.of_nat (S n))) with (Z.of_nat n) by lia.
    destruct (IH (S i) (set_table (<[i := tick e]> (as_table s)) s)) as (s' & H1 & H2).
    + cbn. rewrite length_insert. lia.
    + cbn. intros k f Hf. apply list_lookup_insert_Some in Hf as [(<- & <- & _)|[_ Hf]]; [|eauto].
      split; [by apply tick_ok | by apply tick_not_pending].
    + exists s'. split; [done|]. rewrite H2. by destruct s.
Qed.

(** [n] ticks in a row. *)
Inductive ticks : nat → astate L → astate L → Prop :=
  | ticks_0 s : ticks 0 s s
  | ticks_S n s s1 s2 :
      ticks n s s1 → etharp_tmr linkoutput s1 = Some (tt, s2) → ticks (S n) s s2.

  Context (Hlink : ∀ n p, same_table (linkoutput n p)).
  #[local] Set Default Proof Using "All".

Lemma ticks_table n s s' :
  ticks n s s' → arp_ok (as_table s) →
  arp_ok (as_table s') ∧ as_table s' = Nat.iter n tick <$> as_table s.
Proof.
  induction 1 as [s|n s s1 s2 _ IH H]; intros Hok.
  - split; [done|]. symmetry. apply list_fmap_id.
  - destruct (IH Hok) as [Hok1 E1]. split; [by eapply tmr_safe|].
    rewrite (tmr_table linkoutput Hlink _ _ _ H Hok1), E1, <- list_fmap_compose. done.
Qed.

Lemma iter_cleared n : Nat.iter n tick cleared = cleared.
Proof. induction n as [|n IH]; [done|]. cbn. unfold Nat.iter in IH. by rewrite IH. Qed.

Lemma ticks_run n s :
  arp_ok (as_table s) →
  (∀ k e, as_table s !! k = Some e → ae_state e ≠ ETHARP_STATE_PENDING) →
  ∃ s', ticks n s s' ∧ s' = set_table (as_table s') s.
Proof.
  intros Hok Hall. induction n as [|n (s1 & H1 & E1)].
  - exists s. split; [constructor | by destruct s].
  - destruct (ticks_table _ _ _ H1 Hok) as [Hok1 Et].
    destruct (tmr_loop_run (Z.to_nat ARP_TABLE_SIZE) 0 s1) as (s2 & H2 & E2).
    + pose proof (ao_size _ Hok1). lia.
    + intros k e Hk. split; [by eapply ao_entries|]. rewrite Et in Hk.
      apply list_lookup_fmap_Some in Hk as (e0 & -> & Hk). specialize (Hall _ _ Hk).
      clear -Hall. induction n as [|n IH]; [done | by apply tick_not_pending].
    + exists s2. split; [by econstructor|]. rewrite E2, E1. by destruct s.
Qed.

(** C39: An ARP entry that no traffic refreshes answers look-ups unchanged for the rest of its life
    (up to 300 ticks of [etharp_tmr], up to 5 while it waits for an answer), through all the states
    of re-requesting, and is empty from then on, whatever happens to the other entries; and the
    ticks return, without any other effect, when no entry waits for an answer. *)
Theorem arp_entries_age s :
  arp_ok (as_table s) →
  (∀ n s', ticks n s s' → ∀ k e, as_table s !! k = Some e → used e = true →
     ∃ f, as_table s' !! k = Some f ∧
       (Z.of_nat n < life e → same_binding e f) ∧ (life e ≤ Z.of_nat n → f = cleared)) ∧
  (∀ k e, as_table s !! k = Some e → used e = true →
     0 < life e ≤ ARP_MAXAGE ∧ (ae_state e = ETHARP_STATE_PENDING → life e ≤ ARP_MAXPENDING)) ∧
  ((∀ k e, as_table s !! k = Some e → ae_state e ≠ ETHARP_STATE_PENDING) →
   ∀ n, ∃ s', ticks n s s' ∧ s' = set_table (as_table s') s).
Proof.
  intros Hok. split; [|split].
  - intros n s' H k e Hk Hu. destruct (ticks_table _ _ _ H Hok) as [_ ->].
    exists (Nat.iter n tick e). split; [by rewrite list_lookup_fmap, Hk|].
    pose proof (ao_entries _ Hok _ _ Hk) as He. split; intros Hn.
    + destruct (ticks_life n e He Hu) as [Hl _]. by apply Hl.
    + destruct (tick_life e He Hu) as (Hpos & _).
      replace n with ((n - Z.to_nat (life e)) + Z.to_nat (life e))%nat by lia.
      rewrite Nat.iter_add, (proj2 (ticks_life (Z.to_nat (life e)) e He Hu)) by lia.
      apply iter_cleared.
  - intros k e Hk Hu. pose proof (ao_entries _ Hok _ _ Hk) as He.
    destruct (tick_life e He Hu) as (Hpos & _). pose proof (eo_time _ He). unfold life in *.
    case_bool_decide; unfold ARP_MAXAGE, ARP_MAXPENDING in *; split; try done; lia.
  - intros Hall n. by apply ticks_run.
Qed.
End ageing.

(** ** Choosing an entry *)

(** Every queued packet can be released. *)
Definition queues_ok {L} (s : astate L) : Prop :=
  ∀ k e, as_table s !! k = Some e → ae_q e ≠ 0 → ∃ r, pbuf_free (ae_q e) (as_packets s) = Some r.

(** [etharp_find_entry] returns the entry in use that has the address; if there is none it
    returns an error when it may not create one, else it takes the first empty entry, else, if it
    may recycle, it gives up the oldest stable entry, then the oldest pending entry without a
    packet, then the oldest pending one (whose packet it frees); it resets the entry it takes and
    touches no other. *)
Theorem find_entry_policy {L} (s : astate L) a flags :
  arp_ok (as_table s) → queues_ok s →
  ∃ i tab' pk', etharp_find_entry (Some a) flags s = Some (i, set_packets pk' (set_table tab' s)) ∧
    found a flags (as_table s) (as_packets s) i tab' pk'.
Proof.
  intros Hok Hq. destruct (find_entry_spec s a flags Hok) as [H|(_ & _ & k & e & Hk & He & Hf)]; [done|].
  destruct (Hq _ _ Hk He) as [r Hr]. congruence.
Qed.

(** ** Look-ups *)

(** The table resolves [a] to [mac]. *)
Definition binds (t : list etharp_entry) (a : Z) (mac : bytes) : Prop :=
  ∃ k e, t !! k = Some e ∧ stable (ae_state e) = true ∧ ae_ipaddr e = a ∧ ae_ethaddr e = mac.

Lemma stable_used e : stable (ae_state e) = true → used e = true.
Proof. unfold used, is_empty. by destruct (ae_state e). Qed.

Section lookup.
  Context {L : Type}.
  Implicit Types s : astate L.

Lemma find_only_match s a k e :
  arp_ok (as_table s) → as_table s !! k = Some e → used e = true → ae_ipaddr e = a →
  etharp_find_entry (Some a) ETHARP_FLAG_FIND_ONLY s = Some (Z.of_nat k, s).
Proof.
  intros Hok Hk Hu Ha.
  destruct (find_entry_spec s a ETHARP_FLAG_FIND_ONLY Hok) as [(i & t & pk & E & Hf)|(_ & E & _)];
    [|done].
  destruct Hf as [k' e' Hk' Hu' Ha'|Hno|k' e' Hno|k' e' pk' Hno]; try (exfalso; by eapply Hno; eauto).
  assert (k' = k) as -> by (eapply (ao_unique _ Hok); eauto; congruence).
  rewrite E. by destruct s.
Qed.

Lemma find_addr_stable s a k e :
  arp_ok (as_table s) → as_table s !! k = Some e → stable (ae_state e) = true → ae_ipaddr e = a →
  etharp_find_addr a s = Some ((Z.of_nat k, Some (ae_ethaddr e, a)), s).
Proof.
  intros Hok Hk Hst Ha. unfold etharp_find_addr.
  rewrite (prog_bind_step _ _ _ _ _ (find_only_match _ _ _ _ Hok Hk (stable_used _ Hst) Ha)).
  rewrite (proj2 (Z.ltb_ge _ 0)) by lia.
  rewrite (prog_bind_step _ _ _ _ _ (entry_run _ _ _ Hk)). by rewrite Hst, Ha.
Qed.
End lookup.

Section update.
  Context {L : Type}.
  Context (linkoutput : Z → Z → prog (astate L) Z).
  Context (Hlink : ∀ n p, same_table (linkoutput n p)).
  Implicit Types s : astate L.
  #[local] Set Default Proof Using "All".

(** The table after the entry that was found has got its address. *)
Lemma found_others a flags tab pk i tab' pk' k :
  found a flags tab pk i tab' pk' → i = Z.of_nat k →
  (∀ j f, j ≠ k → tab' !! j = Some f → tab !! j = Some f) ∧
  ((∃ j e, tab !! j = Some e ∧ (used e = false ∨ ae_ipaddr e = a)) →
   ∀ j f, tab !! j = Some f → stable (ae_state f) = true → ae_ipaddr f ≠ a → j ≠ k ∧ tab' !! j = Some f).
Proof.
  intros [k' e Hk Hu Ha|Hno Hf|k' e Hno Hf Hk Hu Hfirst|k' e pk1 Hno Hf Ht Hall Hv Hk Hr] Ei;
    try (apply Nat2Z.inj in Ei as ->).
  - split; [done|]. intros _ j f Hj _ Hne. split; [|done]. intros ->. congruence.
  - unfold ERR_MEM in Ei. lia.
  - split; [intros j f Hj Hf'; by rewrite list_lookup_insert_ne in Hf'|]. intros _ j f Hj Hst _.
    assert (j ≠ k). { intros ->. apply stable_used in Hst. congruence. }
    split; [done|]. by rewrite list_lookup_insert_ne.
  - split; [intros j f Hj Hf'; by rewrite list_lookup_insert_ne in Hf'|].
    intros (j & f & Hj & [Hu|Ha]) ?; [|exfalso; by eapply Hno; eauto].
    rewrite (Hall _ _ Hj) in Hu. done.
Qed.

Lemma found_q a flags tab pk i tab' pk' k e :
  found a flags tab pk i tab' pk' → i = Z.of_nat k → tab' !! k = Some e →
  (∀ j f, tab !! j = Some f → ae_q f = 0) → ae_q e = 0.
Proof.
  intros [k' e' Hk|Hno Hf|k' e' Hno Hf Hk|k' e' pk1 Hno Hf Ht Hall Hv Hk] Ei He Hq;
    try (apply Nat2Z.inj in Ei as ->); try (by eapply Hq);
    rewrite list_lookup_insert_eq in He by (by eapply lookup_lt_Some); injection He as <-; [|done].
  exact (Hq _ _ Hk).
Qed.

Lemma flush_ok n q mac s r s' : flush linkoutput n q mac s = Some (r, s') → r = ERR_OK.
Proof.
  unfold flush. destruct (q =? 0); [by intros [= <- _]|]. intros H.
  apply prog_bind_Some in H as (nf & s1 & _ & H). apply prog_bind_Some in H as (r1 & s2 & _ & H).
  apply prog_bind_Some in H as (u & s3 & _ & H). by injection H as <- _.
Qed.

(** C31: After an ARP update that may recycle ([ETHARP_FLAG_TRY_HARD]), for a unicast address, the
    look-up of the address gives the hardware address of the update; every other address resolves
    as before or, only when all entries were in use, not any more; no other binding appears.  The
    update returns [ERR_OK], and it does return when no packet is queued. *)
Theorem update_then_find s n nf a mac flags :
  arp_ok (as_table s) → as_netifs s !! n = Some nf → unicast a nf = true →
  Z.land flags ETHARP_FLAG_FIND_ONLY = 0 → Z.land flags ETHARP_FLAG_TRY_HARD ≠ 0 →
  (∀ r s', etharp_update_arp_entry linkoutput n a mac flags s = Some (r, s') →
     r = ERR_OK ∧
     (∃ k, etharp_find_addr a s' = Some ((Z.of_nat k, Some (mac, a)), s')) ∧
     (∀ b m, b ≠ a → binds (as_table s') b m → binds (as_table s) b m) ∧
     ((∃ k e, as_table s !! k = Some e ∧ (used e = false ∨ ae_ipaddr e = a)) →
      ∀ b m, b ≠ a → binds (as_table s) b m → binds (as_table s') b m)) ∧
  ((∀ k e, as_table s !! k = Some e → ae_q e = 0) →
   ∃ s', etharp_update_arp_entry linkoutput n a mac flags s = Some (ERR_OK, s')).
Proof.
  intros Hok Hnf Hu Hfo Hth.
  assert (Hfind : (∃ i tab' pk', etharp_find_entry (Some a) flags s
      = Some (i, set_packets pk' (set_table tab' s)) ∧ found a flags (as_table s) (as_packets s) i tab' pk')
    ∨ etharp_find_entry (Some a) flags s = None ∧ ∃ k e, as_table s !! k = Some e ∧ ae_q e ≠ 0).
  { destruct (find_entry_spec s a flags Hok) as [?|(? & _ & k & e & ? & ? & _)]; [by left|].
    right. split; [done|]. by exists k, e. }
  destruct Hfind as [(i & tab' & pk' & E & Hf)|[E (k & e & Hk & Hq)]].
  2: { split.
       - intros r s' H. unfold etharp_update_arp_entry in H.
         rewrite (prog_bind_step _ _ s nf s) in H by (unfold the_netif; by rewrite Hnf).
         apply negb_true_iff in Hu. rewrite Hu in H. by rewrite (prog_bind_None _ _ _ E) in H.
       - intros Hall. by rewrite (Hall _ _ Hk) in Hq. }
  destruct (found_ok _ _ _ _ _ _ _ Hok Hf) as [(-> & -> & ->)|(k & e & -> & Hk & Ha & Hok' & Hun & He)].
  { inversion Hf; subst; [unfold ERR_MEM in *; lia| |unfold ERR_MEM in *; lia..]. intuition done. }
  pose proof (update_eq linkoutput Hlink _ _ _ mac _ _ _ _ _ _ Hnf Hu E Hk) as Hup.
  rewrite Hup, Ha. set (e' := ArpEntry 0 a n mac 0 ETHARP_STATE_STABLE).
  set (s1 := set_packets _ _).
  destruct (found_others _ _ _ _ _ _ _ k Hf eq_refl) as [Hback Hforth].
  assert (Hk1 : (<[k := e']> tab') !! k = Some e')
    by (apply list_lookup_insert_eq; by eapply lookup_lt_Some).
  split.
  - intros r s' H. pose proof (same_flush linkoutput Hlink _ _ _ _ _ _ H) as Ht. cbn in Ht.
    split; [by eapply flush_ok|]. rewrite Ht. split; [|split].
    + exists k. apply (find_addr_stable s' a k e'); [|by rewrite Ht|done|done].
      rewrite Ht. apply arp_ok_set; [done | by split |]. intros _. exact Hun.
    + intros b m Hb (j & f & Hj & Hst & Hfa & Hfm).
      destruct (decide (j = k)) as [->|Hne]; [rewrite Hk1 in Hj; injection Hj as <-; by cbn in Hfa|].
      rewrite list_lookup_insert_ne in Hj by done. exists j, f. eauto.
    + intros Hroom b m Hb (j & f & Hj & Hst & Hfa & Hfm).
      destruct (Hforth Hroom j f Hj Hst ltac:(congruence)) as [Hne Hj'].
      exists j, f. by rewrite list_lookup_insert_ne.
  - intros Hall. exists s1. unfold flush.
    assert (ae_q e = 0) as ->; [|done].
    eapply found_q; [exact Hf | done | exact Hk | exact Hall].
Qed.
End update.

(** ** Outgoing packets *)

Lemma find_stable_spec a t : ∀ pre,
  match find_stable a (Z.of_nat (length pre)) t with
  | Some i => ∃ k e, i = Z.of_nat k ∧ (pre ++ t) !! k = Some e ∧ stable (ae_state e) = true ∧ ae_ipaddr e = a
  | None => ∀ j e, t !! j = Some e → stable (ae_state e) = true → ae_ipaddr e ≠ a
  end.
Proof.
  induction t as [|e t IH]; intros pre; cbn [find_stable]; [done|].
  destruct (stable (ae_state e)) eqn:Es; cbn [andb];
    [destruct (Z.eqb_spec a (ae_ipaddr e)) as [Ea|Ea]|].
  { exists (length pre), e. split; [done|]. split; [|by split].
    by rewrite lookup_app_r, Nat.sub_diag. }
  all: specialize (IH (pre ++ [e])); rewrite length_app, <- app_assoc in IH; cbn [length app] in IH;
    replace (Z.of_nat (length pre + 1)) with (Z.of_nat (length pre) + 1) in IH by lia;
    (destruct (find_stable _ _ t); [done|]); intros [|j] f Hj; [injection Hj as <-; congruence | by apply (IH j)].
Qed.

(** The address that a packet for [a] is sent to. *)
Definition next_hop (nf : netif) (a : Z) : option Z :=
  if bool_decide (Z.land a (nf_netmask nf) = Z.land (nf_ip_addr nf) (nf_netmask nf)) ||
     ip4_addr_islinklocal a then Some a
  else if nf_gw nf =? 0 then None else Some (nf_gw nf).

(** An entry that is sent to without a new request. *)
Definition fresh_enough (e : etharp_entry) : Prop :=
  ae_state e = ETHARP_STATE_STABLE → ae_ctime e < ARP_AGE_REREQUEST_USED_UNICAST.

Section output.
  Context {L : Type}.
  Context (linkoutput : Z → Z → prog (astate L) Z).
  Implicit Types s : astate L.

Lemma output_to_index_run s n nf q k e :
  as_netifs s !! n = Some nf → as_table s !! k = Some e → fresh_enough e →
  etharp_output_to_arp_index linkoutput n q (Z.of_nat k) s
  = ethernet_output linkoutput n q (nf_hwaddr nf) (ae_ethaddr e) ETHTYPE_IP s.
Proof.
  intros Hnf Hk Hfr. unfold etharp_output_to_arp_index.
  rewrite (prog_bind_step _ _ _ _ _ (entry_run _ _ _ Hk)).
  rewrite (prog_bind_step _ _ s tt s).
  2: { case_bool_decide as Est; [|done]. cbn [when]. specialize (Hfr Est).
       unfold ARP_AGE_REREQUEST_USED_BROADCAST, ARP_AGE_REREQUEST_USED_UNICAST, ARP_MAXAGE in *.
       rewrite (proj2 (Z.leb_gt _ _)) by lia. by rewrite (proj2 (Z.leb_gt _ _)) by lia. }
  rewrite (prog_bind_step _ _ s nf s) by (unfold the_netif; by rewrite Hnf).
  by rewrite (prog_bind_step _ _ _ _ _ (entry_run _ _ _ Hk)).
Qed.

(** [etharp_output] for an address that is neither broadcast nor multicast. *)
Lemma output_unicast s n nf q a :
  as_netifs s !! n = Some nf → ip4_addr_isbroadcast_u32 a nf = 0 → ip4_addr_ismulticast a = false →
  etharp_output linkoutput n q a s =
  match next_hop nf a with
  | None => Some (ERR_RTE, s)
  | Some h =>
      (e ← entry (as_cached s);
       if stable (ae_state e) && (h =? ae_ipaddr e)
       then etharp_output_to_arp_index linkoutput n q (as_cached s)
       else match find_stable h 0 (as_table s) with
            | Some i => modify (set_cached i) ;; etharp_output_to_arp_index linkoutput n q i
            | None => etharp_query linkoutput n h q
            end) s
  end.
Proof.
  intros Hnf Hb Hm. unfold etharp_output.
  rewrite (prog_bind_step _ _ s nf s) by (unfold the_netif; by rewrite Hnf).
  rewrite Hb, Hm. cbn [negb Z.eqb].
  unfold next_hop, ip4_addr_isany, ip4_addr_netcmp, IPADDR_ANY.
  rewrite bool_decide_decide.
  destruct (Z.eqb_spec (Z.land a (nf_netmask nf)) (Z.land (nf_ip_addr nf) (nf_netmask nf))) as [E|E];
    [rewrite decide_True by done | rewrite decide_False by done];
    [|destruct (ip4_addr_islinklocal a); [|destruct (nf_gw nf =? 0)]]; cbn [negb andb orb]; try done;
    rewrite (prog_bind_step _ _ s (as_cached s) s) by done;
    unfold entry; (destruct (if as_cached s <? 0 then None else as_table s !! Z.to_nat (as_cached s)) as [e|] eqn:Ee;
      [|by rewrite !prog_bind_None by (by rewrite Ee)]);
    rewrite !(prog_bind_step _ _ s e s) by (by rewrite Ee);
    destruct (_ && _); [done | | done | | done |];
    by rewrite (prog_bind_step _ _ s (as_table s) s) by done.
Qed.

(** The cached entry, and what a search for the next hop finds. *)
Lemma output_hop s n nf q a h :
  arp_ok (as_table s) → 0 ≤ as_cached s < ARP_TABLE_SIZE →
  as_netifs s !! n = Some nf → ip4_addr_isbroadcast_u32 a nf = 0 → ip4_addr_ismulticast a = false →
  next_hop nf a = Some h →
  (∃ k e, as_table s !! k = Some e ∧ stable (ae_state e) = true ∧ ae_ipaddr e = h ∧
     etharp_output linkoutput n q a s
     = etharp_output_to_arp_index linkoutput n q (Z.of_nat k) (set_cached (Z.of_nat k) s)) ∨
  (∀ mac, ¬ binds (as_table s) h mac) ∧ etharp_output linkoutput n q a s = etharp_query linkoutput n h q s.
Proof.
  intros Hok Hc Hnf Hb Hm Hh. pose proof (output_unicast s n nf q a Hnf Hb Hm) as Hout. rewrite Hh in Hout.
  destruct (lookup_lt_is_Some_2 (as_table s) (Z.to_nat (as_cached s))) as [c Hcache].
  { pose proof (ao_size _ Hok). lia. }
  assert (Hcached : as_cached s = Z.of_nat (Z.to_nat (as_cached s))) by lia.
  rewrite Hcached, (prog_bind_step _ _ _ _ _ (entry_run _ _ _ Hcache)), <- Hcached in Hout.
  pose proof (find_stable_spec h (as_table s) []) as Hfs. cbn [length app] in Hfs. change (Z.of_nat 0) with 0 in Hfs.
  destruct (stable (ae_state c) && (h =? ae_ipaddr c)) eqn:Ec.
  - apply andb_true_iff in Ec as [Ec1 Ec2]. apply Z.eqb_eq in Ec2. left. exists (Z.to_nat (as_cached s)), c.
    split; [done|]. split; [done|]. split; [done|]. rewrite <- Hcached, Hout.
    by replace (set_cached (as_cached s) s) with s by (by destruct s).
  - destruct (find_stable h 0 (as_table s)) as [i|].
    + left. destruct Hfs as (j & f & -> & Hj & Hsf & Hf). by exists j, f.
    + right. split; [|done]. intros mac (k & e & Hk & Hst & Ha & _). by destruct (Hfs _ _ Hk Hst).
Qed.

(** The frame to a resolved next hop. *)
Lemma output_resolved s n nf q a h k e :
  arp_ok (as_table s) → 0 ≤ as_cached s < ARP_TABLE_SIZE →
  as_netifs s !! n = Some nf → ip4_addr_isbroadcast_u32 a nf = 0 → ip4_addr_ismulticast a = false →
  next_hop nf a = Some h → as_table s !! k = Some e → stable (ae_state e) = true → ae_ipaddr e = h →
  fresh_enough e →
  etharp_output linkoutput n q a s
  = ethernet_output linkoutput n q (nf_hwaddr nf) (ae_ethaddr e) ETHTYPE_IP (set_cached (Z.of_nat k) s).
Proof.
  intros Hok Hc Hnf Hb Hm Hh Hk Hst Ha Hfr.
  destruct (output_hop s n nf q a h Hok Hc Hnf Hb Hm Hh) as [(j & f & Hj & Hsf & Hf & E)|[Hno _]].
  - assert (j = k) as -> by (apply (ao_unique _ Hok j k f e); try done; try (by apply stable_used); congruence).
    rewrite E. by apply output_to_index_run.
  - destruct (Hno (ae_ethaddr e)). by exists k, e.
Qed.

(** C32: A packet for a unicast address on the network of the interface, or for a link-local one,
    goes to the address itself, any other one to the gateway, and without a gateway
    [etharp_output] returns [ERR_RTE].  If the table resolves that next hop and the entry is not
    about to expire, the frame is sent to the resolved hardware address, whatever entry the cached
    index points to, and the index points to the entry then; if the table does not resolve it, the
    packet goes to [etharp_query]. *)
Theorem output_next_hop s n nf q a :
  arp_ok (as_table s) → 0 ≤ as_cached s < ARP_TABLE_SIZE →
  as_netifs s !! n = Some nf → ip4_addr_isbroadcast_u32 a nf = 0 → ip4_addr_ismulticast a = false →
  match next_hop nf a with
  | None => etharp_output linkoutput n q a s = Some (ERR_RTE, s)
  | Some h =>
      (∀ k e, as_table s !! k = Some e → stable (ae_state e) = true → ae_ipaddr e = h →
         fresh_enough e →
         etharp_output linkoutput n q a s
         = ethernet_output linkoutput n q (nf_hwaddr nf) (ae_ethaddr e) ETHTYPE_IP
             (set_cached (Z.of_nat k) s)) ∧
      ((∀ mac, ¬ binds (as_table s) h mac) →
       etharp_output linkoutput n q a s = etharp_query linkoutput n h q s)
  end.
Proof.
  intros Hok Hc Hnf Hb Hm. destruct (next_hop nf a) as [h|] eqn:Hh.
  - split; [intros k e Hk Hst Ha Hfr; by apply (output_resolved s n nf q a h)|].
    intros Hno. destruct (output_hop s n nf q a h Hok Hc Hnf Hb Hm Hh) as [(k & e & Hk & Hst & Ha & _)|[_ E]]; [|done].
    destruct (Hno (ae_ethaddr e)). by exists k, e.
  - by rewrite (output_unicast s n nf q a Hnf Hb Hm), Hh.
Qed.
End output.

(** ** Concrete runs *)

Module Examples.

(** A driver that takes every frame, and upper layers that do nothing. *)
Definition link (n p : Z) : prog (astate unit) Z := mret ERR_OK.
Definition upper (p n : Z) : prog (astate unit) unit := mret tt.

Lemma link_same n p : same_table (link n p).
Proof. apply same_ret. Qed.
Lemma upper_steps p n s u s' : upper p n s = Some (u, s') → rtc (arp_step link) s s'.
Proof. intros [= _ <-]. apply rtc_refl. Qed.

(** 192.168.0.2/24 with the gateway 192.168.0.1. *)
Definition ip4 (a b c d : Z) : Z := a + 256 * b + 65536 * c + 16777216 * d.
Definition nf0 : netif :=
  Netif (ip4 192 168 0 2) (ip4 255 255 255 0) (ip4 192 168 0 1) [2; 0; 0; 0; 0; 2] 0x0a 0 [101; 110] 0
    0 0 0 0 [] 1500.
Definition peer : bytes := [2; 0; 0; 0; 0; 1].

(** An ARP reply from the gateway, as a frame in a pbuf that somebody else holds too. *)
Definition frame : bytes :=
  ethbroadcast ++ peer ++ [8; 6] ++ [0; 1; 8; 0; 6; 4; 0; 2] ++ peer ++ [192; 168; 0; 1] ++
  [2; 0; 0; 0; 0; 2] ++ [192; 168; 0; 2].
Definition packets0 : pstate :=
  PState {[500 := MkPbuf 0 1000 42 42 PBUF_REF 0 2]}
    (list_to_map (zip (seqZ 1000 42) frame)) (mem_init 536870912) (Pools [] [] ∅).
Definition state0 : astate unit :=
  AState (replicate 10 cleared) 0 {[7 := nf0]} packets0 tt.

Lemma arp_table_invariant_witness :
  ∃ s, ethernet_input link upper upper 500 7 state0 = Some (ERR_OK, s) ∧ arp_ok (as_table s) ∧
    head (as_table s) = Some (ArpEntry 0 (ip4 192 168 0 1) 7 peer 0 ETHARP_STATE_STABLE).
Proof.
  assert (Hr : (λ r, (fst r, head (as_table (snd r)))) <$> ethernet_input link upper upper 500 7 state0
    = Some (ERR_OK, Some (ArpEntry 0 (ip4 192 168 0 1) 7 peer 0 ETHARP_STATE_STABLE)))
    by (vm_compute; reflexivity).
  destruct (ethernet_input link upper upper 500 7 state0) as [[r s]|] eqn:E; [|discriminate Hr].
  cbn in Hr. injection Hr as -> Hh. exists s. split; [done|]. split; [|done].
  apply (arp_table_invariant link upper upper link_same upper_steps upper_steps state0 s);
    [reflexivity|].
  apply rtc_once. by eapply step_input.
Defined.

(** A table with one stable entry, an old one, and a pending one. *)
Definition table1 : list etharp_entry :=
  ArpEntry 0 (ip4 192 168 0 1) 7 peer 100 ETHARP_STATE_STABLE ::
  ArpEntry 0 (ip4 192 168 0 9) 7 peer 299 ETHARP_STATE_STABLE_REREQUESTING_1 ::
  replicate 8 cleared.
Definition state1 : astate unit := AState table1 3 {[7 := nf0]} packets0 tt.

Lemma table1_ok : arp_ok table1.
Proof.
  set (e0 := ArpEntry 0 (ip4 192 168 0 1) 7 peer 100 ETHARP_STATE_STABLE).
  set (e1 := ArpEntry 0 (ip4 192 168 0 9) 7 peer 299 ETHARP_STATE_STABLE_REREQUESTING_1).
  change table1 with (<[0%nat := e0]> (<[1%nat := e1]> (replicate (Z.to_nat ARP_TABLE_SIZE) cleared))).
  apply arp_ok_set; [apply arp_ok_set; [apply initial_ok | |] | |];
    try (split; cbn; unfold ARP_MAXAGE; by try lia).
  - intros _ j f _ Hf Uf. apply lookup_replicate in Hf as [-> _]. done.
  - intros _ j f _ Hf Uf. apply list_lookup_insert_Some in Hf as [(_ & <- & _)|[_ Hf]]; [done|].
    apply lookup_replicate in Hf as [-> _]. done.
Qed.

Lemma table1_queues : ∀ k e, as_table state1 !! k = Some e → ae_q e = 0.
Proof.
  intros k e Hk. apply list_elem_of_lookup_2 in Hk. revert e Hk. apply list.Forall_forall.
  cbn. repeat constructor.
Qed.

Lemma table1_not_pending : ∀ k e, as_table state1 !! k = Some e → ae_state e ≠ ETHARP_STATE_PENDING.
Proof.
  intros k e Hk. apply list_elem_of_lookup_2 in Hk. revert e Hk. apply list.Forall_forall.
  cbn. repeat constructor; done.
Qed.

Lemma arp_entries_age_witness :
  ∃ s', ticks link 200 state1 s' ∧ as_table s' !! 0%nat = Some cleared ∧
    as_table s' !! 1%nat = Some cleared.
Proof.
  destruct (arp_entries_age link link_same state1 table1_ok) as (H1 & _ & H3).
  destruct (H3 table1_not_pending 200%nat) as (s' & Hs & _). exists s'. split; [done|].
  split.
  - destruct (H1 _ _ Hs 0%nat _ eq_refl eq_refl) as (f & -> & _ & Hf). f_equal. apply Hf. vm_compute. done.
  - destruct (H1 _ _ Hs 1%nat _ eq_refl eq_refl) as (f & -> & _ & Hf). f_equal. apply Hf. vm_compute. done.
Defined.

Lemma find_entry_policy_witness :
  ∃ tab' pk', etharp_find_entry (Some (ip4 192 168 0 5)) ETHARP_FLAG_TRY_HARD state1
    = Some (2, set_packets pk' (set_table tab' state1)) ∧
    found (ip4 192 168 0 5) ETHARP_FLAG_TRY_HARD table1 packets0 2 tab' pk'.
Proof.
  assert (Hq : queues_ok state1) by (intros k e Hk He; by destruct (He (table1_queues _ _ Hk))).
  destruct (find_entry_policy state1 (ip4 192 168 0 5) ETHARP_FLAG_TRY_HARD table1_ok Hq)
    as (i & tab' & pk' & E & Hf).
  assert (Ei : fst <$> etharp_find_entry (Some (ip4 192 168 0 5)) ETHARP_FLAG_TRY_HARD state1 = Some 2)
    by (vm_compute; reflexivity).
  rewrite E in Ei. injection Ei as ->. by exists tab', pk'.
Defined.

Lemma update_then_find_witness :
  ∃ s' k, etharp_update_arp_entry link 7 (ip4 192 168 0 5) [2; 0; 0; 0; 0; 5] ETHARP_FLAG_TRY_HARD state1
    = Some (ERR_OK, s') ∧
    etharp_find_addr (ip4 192 168 0 5) s'
    = Some ((Z.of_nat k, Some ([2; 0; 0; 0; 0; 5], ip4 192 168 0 5)), s') ∧
    binds (as_table s') (ip4 192 168 0 1) peer.
Proof.
  destruct (update_then_find link link_same state1 7 nf0 (ip4 192 168 0 5) [2; 0; 0; 0; 0; 5]
    ETHARP_FLAG_TRY_HARD table1_ok) as [H1 H2]; [done..|].
  destruct (H2 table1_queues) as [s' E]. destruct (H1 _ _ E) as (_ & [k Hk] & _ & Hkeep).
  exists s', k. split; [done|]. split; [done|]. apply Hkeep; [|done|].
  - exists 2%nat, cleared. split; [done | by left].
  - exists 0%nat. eexists. split; [reflexivity | done].
Defined.

(** 8.8.8.8 is sent to the gateway. *)
Lemma output_next_hop_witness :
  etharp_output link 7 500 (ip4 8 8 8 8) state1
  = ethernet_output link 7 500 (nf_hwaddr nf0) peer ETHTYPE_IP (set_cached 0 state1).
Proof.
  pose proof (output_next_hop link state1 7 nf0 500 (ip4 8 8 8 8) table1_ok) as H.
  destruct H as [H _]; [done | done | reflexivity | reflexivity |].
  apply (H 0%nat (ArpEntry 0 (ip4 192 168 0 1) 7 peer 100 ETHARP_STATE_STABLE)); [done..|].
  intros _. reflexivity.
Defined.
End Examples.
