(* ===== verification/LinkedList.v ===== *)
(** * Linked lists in a map

    Structures at their addresses, linked by a pointer field that [next]
    reads and ended by [NULL]: the list of interfaces of netif.c and the list
    of control blocks of udp.c have this form. *)

From stdpp Require Import base numbers list gmap option.
From S2P Require Import Prelude.

(** From [p] on, the list has exactly the addresses [l]. *)
Fixpoint llist {A} (next : A → Z) (m : gmap Z A) (p : Z) (l : list Z) : Prop :=
  match l with
  | [] => p = 0
  | x :: l' => p = x ∧ x ≠ 0 ∧ ∃ v, m !! x = Some v ∧ llist next m (next v) l'
  end.

Section llist.
  Context {A : Type} {next : A → Z}.
  Implicit Types (m : gmap Z A) (l : list Z).

Abbreviation llist := (llist next).

Lemma llist_frame m m' p l :
  llist m p l → (∀ x v, x ∈ l → m !! x = Some v → ∃ v', m' !! x = Some v' ∧ next v' = next v) →
  llist m' p l.
Proof.
  revert p. induction l as [|x l IH]; intros p; [done|]. intros (-> & Hx & v & Hv & Hl) Hm.
  split; [done|]. split; [done|]. destruct (Hm x v ltac:(set_solver) Hv) as (v' & E & En).
  exists v'. split; [done|]. rewrite En. apply IH; [done|]. intros y vx Hy. apply Hm. set_solver.
Qed.

Lemma llist_insert m p l n v :
  llist m p l → (n ∉ l) → llist (<[n := v]> m) p l.
Proof.
  intros H Hn. apply (llist_frame m); [done|]. intros x vx Hx Hm. exists vx. split; [|done].
  rewrite lookup_insert_ne; [done|]. intros ->. done.
Qed.

Lemma llist_upd m p l n v v' :
  llist m p l → m !! n = Some v → next v' = next v → llist (<[n := v']> m) p l.
Proof.
  intros H Hn E. apply (llist_frame m); [done|]. intros x vx Hx Hm.
  destruct (decide (n = x)) as [->|Hne].
  - exists v'. rewrite lookup_insert_eq. split; [done|]. congruence.
  - exists vx. by rewrite lookup_insert_ne.
Qed.

Lemma llist_length m p l : llist m p l → NoDup l → (length l ≤ size m)%nat.
Proof.
  intros H Hnd. rewrite <- (size_list_to_set (C := gset Z) l Hnd), <- size_dom. apply subseteq_size.
  intros x Hx. apply elem_of_list_to_set in Hx. apply elem_of_dom. clear Hnd.
  revert p H. induction l as [|y l IH]; intros p; [set_solver|]. intros (-> & _ & v & Hv & Hl).
  apply elem_of_cons in Hx as [->|Hx]; [done | eauto].
Qed.

Lemma llist_lookup m p l x : llist m p l → x ∈ l → ∃ v, m !! x = Some v.
Proof.
  revert p. induction l as [|y l IH]; intros p; [set_solver|]. intros (-> & _ & v & Hv & Hl) Hx.
  apply elem_of_cons in Hx as [->|Hx]; [by exists v | eauto].
Qed.

Lemma llist_nonzero m p l : llist m p l → (0 ∉ l).
Proof.
  revert p. induction l as [|x l IH]; intros p; [set_solver|]. intros (-> & Hx & v & _ & Hl).
  apply IH in Hl. set_solver.
Qed.

(** Taking [x], the successor of [y], out of the list. *)
Lemma llist_skip m p l1 y x l2 vx vy' :
  llist m p (l1 ++ y :: x :: l2) → NoDup (l1 ++ y :: x :: l2) → m !! x = Some vx → next vy' = next vx →
  llist (<[y := vy']> m) p (l1 ++ y :: l2).
Proof.
  revert p. induction l1 as [|z l1 IH]; intros p Hl Hnd Hx Hn; cbn [app] in *.
  - destruct Hl as (-> & Hy & vy & _ & _ & _ & vx' & Hx' & Hl).
    apply list.NoDup_cons in Hnd as [Hny Hnd]. apply list.NoDup_cons in Hnd as [Hnx _].
    assert (vx' = vx) as -> by congruence. split; [done|]. split; [done|]. exists vy'.
    rewrite lookup_insert_eq. split; [done|]. rewrite Hn. apply llist_insert; [done|]. set_solver.
  - destruct Hl as (-> & Hz & v & Hv & Hl). apply list.NoDup_cons in Hnd as [Hnz Hnd].
    split; [done|]. split; [done|]. exists v. rewrite lookup_insert_ne by set_solver.
    split; [done|]. by apply IH.
Qed.

(** The element after [y]. *)
Lemma llist_next m p l1 y l2 v :
  llist m p (l1 ++ y :: l2) → m !! y = Some v → llist m (next v) l2.
Proof.
  revert p. induction l1 as [|z l1 IH]; intros p Hl Hy; cbn [app] in *.
  - destruct Hl as (_ & _ & v' & Hv & Hl). congruence.
  - destruct Hl as (_ & _ & v' & _ & Hl). eauto.
Qed.

Lemma llist_det m p l1 l2 : llist m p l1 → llist m p l2 → l1 = l2.
Proof.
  revert p l2. induction l1 as [|x l1 IH]; intros p [|y l2] H1 H2; cbn in *; try done.
  - destruct H2 as (-> & Hy & _). congruence.
  - destruct H1 as (-> & Hx & _). congruence.
  - destruct H1 as (-> & _ & v & Hv & H1), H2 as (-> & _ & w & Hw & H2). f_equal.
    rewrite Hv in Hw. injection Hw as <-. by apply (IH (next v)).
Qed.
Lemma llist_head m p l : llist m p l → p ≠ 0 → p ∈ l.
Proof. destruct l as [|x l]; [done|]. intros (-> & _) _. set_solver. Qed.

Lemma remove_absent (n : Z) (l : list Z) : (n ∉ l) → filter (.≠ n) l = l.
Proof.
  induction l as [|x l IH]; intros H; [done|]. rewrite filter_cons_True by set_solver.
  f_equal. apply IH. set_solver.
Qed.

Lemma remove_middle (n : Z) (l1 l2 : list Z) :
  NoDup (l1 ++ n :: l2) → filter (.≠ n) (l1 ++ n :: l2) = l1 ++ l2.
Proof.
  intros H. apply list.NoDup_app in H as (_ & H1 & H2). apply list.NoDup_cons in H2 as [H2 _].
  rewrite list.filter_app, filter_cons_False by tauto. f_equal; apply remove_absent; set_solver.
Qed.
End llist.

(** ** Searching *)

Section search.
  Context {A : Type}.
  Implicit Types (m : gmap Z A) (P : A → bool) (l : list Z).

(** [r] is the first element of [l] that satisfies [P]. *)
Definition first_such (m : gmap Z A) (P : A → bool) (l : list Z) (r : Z) : Prop :=
  ∃ l1 l2 v, l = l1 ++ r :: l2 ∧ m !! r = Some v ∧ P v = true ∧
    ∀ x vx, x ∈ l1 → m !! x = Some vx → P vx = false.
Definition none_such (m : gmap Z A) (P : A → bool) (l : list Z) : Prop :=
  ∀ x vx, x ∈ l → m !! x = Some vx → P vx = false.

Lemma first_such_cons m P l r x v :
  m !! x = Some v → P v = false → first_such m P l r → first_such m P (x :: l) r.
Proof.
  intros Hx HP (l1 & l2 & vr & -> & Hr & HPr & Hno). exists (x :: l1), l2, vr.
  split; [done|]. split; [done|]. split; [done|]. intros y vy Hy Hm.
  apply elem_of_cons in Hy as [->|Hy]; [congruence | eauto].
Qed.
Lemma none_such_cons m P l x v :
  m !! x = Some v → P v = false → none_such m P l → none_such m P (x :: l).
Proof. intros Hx HP Hno y vy Hy Hm. apply elem_of_cons in Hy as [->|Hy]; [congruence | eauto]. Qed.

(** The result of the search among the elements [l]. *)
Definition search_result (m : gmap Z A) (P : A → bool) (l : list Z) (r : Z) : Prop :=
  r ≠ 0 ∧ first_such m P l r ∨ r = 0 ∧ none_such m P l.

Lemma search_cons m P l r x v :
  m !! x = Some v → P v = false → search_result m P l r → search_result m P (x :: l) r.
Proof.
  intros Hx HP [[H0 H]|[H0 H]]; [left | right]; (split; [done|]);
    [by eapply first_such_cons | by eapply none_such_cons].
Qed.
Lemma search_nil m P : search_result m P [] 0.
Proof. right. split; [done|]. intros x v Hx. set_solver. Qed.
Lemma search_snoc m P l r x v :
  search_result m P l r → m !! x = Some v → x ≠ 0 →
  search_result m P (l ++ [x]) (if P v && (r =? 0) then x else r).
Proof.
  intros [[Hr (l1 & l2 & vr & -> & H)]|[-> Hno]] Hx Hx0.
  - rewrite (proj2 (Z.eqb_neq r 0)), andb_false_r by done. left. split; [done|].
    exists l1, (l2 ++ [x]), vr. split; [by rewrite <- app_assoc | done].
  - rewrite Z.eqb_refl, andb_true_r. destruct (P v) eqn:E.
    + left. split; [done|]. exists l, [], v. split; [done|]. split; [done|]. split; [done | exact Hno].
    + right. split; [done|]. intros y vy Hy Hm. apply elem_of_app in Hy as [Hy|Hy]; [by eapply Hno|].
      apply list_elem_of_singleton in Hy as ->. congruence.
Qed.
End search.
