(* ===== verification/Netifs.v ===== *)
(** * Network interfaces (middlewares/lwip/src/core/netif.c)

    The linked list of interfaces, the default interface, and the changes of
    addresses and flags with the notifications they cause.  The state is
    that of [Etharp] with the globals of netif.c and ip4.c as the part above
    the ARP layer.  The reactions of TCP, UDP, IGMP and DHCP, the link
    callback and the initialisation function of the driver are parameters. *)

From stdpp Require Import base numbers list gmap option.
From S2P Require Import Prelude Mem Memp Pbuf Chksum Ip4Addr Etharp.

Definition NETIF_FLAG_UP : Z := 0x01.
Definition NETIF_FLAG_LINK_UP : Z := 0x04.
Definition NETIF_FLAG_ETHERNET : Z := 0x10.
Definition NETIF_FLAG_IGMP : Z := 0x20.
Definition NETIF_REPORT_TYPE_IPV4 : Z := 0x01.
Definition NETIF_REPORT_TYPE_IPV6 : Z := 0x02.
Definition LWIP_NETIF_CLIENT_DATA_INDEX_MAX : Z := 2.

(** ** State *)

(** [struct ip_globals] *)
Record ip_globals := IpGlobals {
  current_netif : Z;
  current_input_netif : Z;
  current_ip4_header : Z;
  current_ip_header_tot_len : Z;
  current_iphdr_src : Z;
  current_iphdr_dest : Z
}.

Record ipstate (W : Type) := IpState {
  is_netif_list : Z;
  is_netif_default : Z;
  is_netif_num : Z;
  is_client_id : Z;
  is_ip_id : Z;
  is_mcast_netif : Z;               (* ip4_default_multicast_netif *)
  is_data : ip_globals;
  is_rest : W                       (* the layers above and the driver *)
}.
Arguments IpState {W}.
Arguments is_netif_list {W}.
Arguments is_netif_default {W}.
Arguments is_netif_num {W}.
Arguments is_client_id {W}.
Arguments is_ip_id {W}.
Arguments is_mcast_netif {W}.
Arguments is_data {W}.
Arguments is_rest {W}.

Abbreviation istate W := (astate (ipstate W)).

(** Fields of an interface. *)
Definition with_ip_addr (a : Z) (n : netif) : netif :=
  Netif a (nf_netmask n) (nf_gw n) (nf_hwaddr n) (nf_flags n) (nf_next n) (nf_name n) (nf_num n)
    (nf_state n) (nf_input n) (nf_link_callback n) (nf_igmp_mac_filter n) (nf_client_data n)
    (nf_mtu n).
Definition with_netmask (a : Z) (n : netif) : netif :=
  Netif (nf_ip_addr n) a (nf_gw n) (nf_hwaddr n) (nf_flags n) (nf_next n) (nf_name n) (nf_num n)
    (nf_state n) (nf_input n) (nf_link_callback n) (nf_igmp_mac_filter n) (nf_client_data n)
    (nf_mtu n).
Definition with_gw (a : Z) (n : netif) : netif :=
  Netif (nf_ip_addr n) (nf_netmask n) a (nf_hwaddr n) (nf_flags n) (nf_next n) (nf_name n) (nf_num n)
    (nf_state n) (nf_input n) (nf_link_callback n) (nf_igmp_mac_filter n) (nf_client_data n)
    (nf_mtu n).
Definition with_flags (f : Z) (n : netif) : netif :=
  Netif (nf_ip_addr n) (nf_netmask n) (nf_gw n) (nf_hwaddr n) f (nf_next n) (nf_name n) (nf_num n)
    (nf_state n) (nf_input n) (nf_link_callback n) (nf_igmp_mac_filter n) (nf_client_data n)
    (nf_mtu n).
Definition with_nf_next (x : Z) (n : netif) : netif :=
  Netif (nf_ip_addr n) (nf_netmask n) (nf_gw n) (nf_hwaddr n) (nf_flags n) x (nf_name n) (nf_num n)
    (nf_state n) (nf_input n) (nf_link_callback n) (nf_igmp_mac_filter n) (nf_client_data n)
    (nf_mtu n).
Definition with_link_callback (c : Z) (n : netif) : netif :=
  Netif (nf_ip_addr n) (nf_netmask n) (nf_gw n) (nf_hwaddr n) (nf_flags n) (nf_next n) (nf_name n)
    (nf_num n) (nf_state n) (nf_input n) c (nf_igmp_mac_filter n) (nf_client_data n)
    (nf_mtu n).

Definition netif_is_up (n : netif) : bool := negb (Z.land (nf_flags n) NETIF_FLAG_UP =? 0).
Definition netif_is_link_up (n : netif) : bool := negb (Z.land (nf_flags n) NETIF_FLAG_LINK_UP =? 0).
Definition has_flag (n : netif) (f : Z) : bool := negb (Z.land (nf_flags n) f =? 0).
(** [flags &= ~f] on the [u8_t] *)
Definition clear_flag (f : Z) (n : netif) : netif :=
  with_flags (Z.land (nf_flags n) (u8 (Z.lnot f))) n.
Definition set_flag (f : Z) (n : netif) : netif := with_flags (Z.lor (nf_flags n) f) n.

(** What [netif_add] resets before it sets the addresses. *)
Definition reset_netif (num state input : Z) (n : netif) : netif :=
  Netif 0 0 0 (nf_hwaddr n) 0 (nf_next n) (nf_name n) num state input 0 0
    (replicate (length (nf_client_data n)) 0) (nf_mtu n).

(** A [const ip4_addr_t *]: [None] is [NULL]. *)
Definition ip4_addr_get (a : option Z) : Z := default IPADDR_ANY a.

Section netif.
  Context {W : Type}.
  Context (linkoutput : Z → Z → prog (istate W) Z).
  Context (tcp_netif_ip_addr_changed : Z → option Z → prog (istate W) unit).
  Context (udp_netif_ip_addr_changed : Z → option Z → prog (istate W) unit).
  Context (igmp_start : Z → prog (istate W) unit).
  Context (igmp_stop : Z → prog (istate W) unit).
  Context (igmp_report_groups : Z → prog (istate W) unit).
  Context (dhcp_network_changed : Z → prog (istate W) unit).
  Context (call_link_callback : Z → Z → prog (istate W) unit).

Definition ip_get {A} (f : ipstate W → A) : prog (istate W) A := gets (λ s, f (as_link s)).
Definition ip_set (f : ipstate W → ipstate W) : prog (istate W) unit :=
  modify (λ s, AState (as_table s) (as_cached s) (as_netifs s) (as_packets s) (f (as_link s))).
Definition set_list (n : Z) (i : ipstate W) : ipstate W :=
  IpState n (is_netif_default i) (is_netif_num i) (is_client_id i) (is_ip_id i) (is_mcast_netif i)
    (is_data i) (is_rest i).
Definition set_default (n : Z) (i : ipstate W) : ipstate W :=
  IpState (is_netif_list i) n (is_netif_num i) (is_client_id i) (is_ip_id i) (is_mcast_netif i)
    (is_data i) (is_rest i).
Definition set_num (n : Z) (i : ipstate W) : ipstate W :=
  IpState (is_netif_list i) (is_netif_default i) n (is_client_id i) (is_ip_id i) (is_mcast_netif i)
    (is_data i) (is_rest i).
Definition set_client_id (n : Z) (i : ipstate W) : ipstate W :=
  IpState (is_netif_list i) (is_netif_default i) (is_netif_num i) n (is_ip_id i) (is_mcast_netif i)
    (is_data i) (is_rest i).
Definition set_ip_id (n : Z) (i : ipstate W) : ipstate W :=
  IpState (is_netif_list i) (is_netif_default i) (is_netif_num i) (is_client_id i) n
    (is_mcast_netif i) (is_data i) (is_rest i).
Definition set_mcast (n : Z) (i : ipstate W) : ipstate W :=
  IpState (is_netif_list i) (is_netif_default i) (is_netif_num i) (is_client_id i) (is_ip_id i) n
    (is_data i) (is_rest i).
Definition set_data (d : ip_globals) (i : ipstate W) : ipstate W :=
  IpState (is_netif_list i) (is_netif_default i) (is_netif_num i) (is_client_id i) (is_ip_id i)
    (is_mcast_netif i) d (is_rest i).

Definition upd_netif (n : Z) (f : netif → netif) : prog (istate W) unit :=
  nf ← the_netif n;
  modify (λ s, AState (as_table s) (as_cached s) (<[n := f nf]> (as_netifs s)) (as_packets s)
                 (as_link s)).

(** Enough for a walk over the list. *)
Definition netif_fuel (s : istate W) : nat := S (S (size (as_netifs s))).

(** ** Reports *)

Definition netif_issue_reports (n report_type : Z) : prog (istate W) unit :=
  nf ← the_netif n;
  when (negb (Z.land report_type NETIF_REPORT_TYPE_IPV4 =? 0) && negb (ip4_addr_isany (nf_ip_addr nf)))
    (when (has_flag nf NETIF_FLAG_ETHARP)
       (_ ← etharp_request linkoutput n (nf_ip_addr nf); mret tt) ;;
     nf ← the_netif n;
     when (has_flag nf NETIF_FLAG_IGMP) (igmp_report_groups n)).

(** ** Addresses *)

Definition netif_set_ipaddr (n : Z) (ipaddr : option Z) : prog (istate W) unit :=
  let new_addr := ip4_addr_get ipaddr in
  nf ← the_netif n;
  when (negb (new_addr =? nf_ip_addr nf))
    (tcp_netif_ip_addr_changed (nf_ip_addr nf) (Some new_addr) ;;
     nf ← the_netif n;
     udp_netif_ip_addr_changed (nf_ip_addr nf) (Some new_addr) ;;
     upd_netif n (with_ip_addr (ip4_addr_get ipaddr)) ;;
     netif_issue_reports n NETIF_REPORT_TYPE_IPV4).

Definition netif_set_gw (n : Z) (gw : option Z) : prog (istate W) unit :=
  upd_netif n (with_gw (ip4_addr_get gw)).
Definition netif_set_netmask (n : Z) (netmask : option Z) : prog (istate W) unit :=
  upd_netif n (with_netmask (ip4_addr_get netmask)).

Definition netif_set_addr (n : Z) (ipaddr netmask gw : option Z) : prog (istate W) unit :=
  if ip4_addr_isany (ip4_addr_get ipaddr) then
    netif_set_ipaddr n ipaddr ;; netif_set_netmask n netmask ;; netif_set_gw n gw
  else
    netif_set_netmask n netmask ;; netif_set_gw n gw ;; netif_set_ipaddr n ipaddr.

(** ** The list *)

(** [init] is the initialisation function of the driver. *)
Definition netif_add (n : Z) (ipaddr netmask gw : option Z) (state : Z)
    (init : Z → prog (istate W) Z) (input : Z) : prog (istate W) Z :=
  num ← ip_get is_netif_num;
  upd_netif n (reset_netif num state input) ;;
  ip_set (set_num (u8 (num + 1))) ;;
  netif_set_addr n ipaddr netmask gw ;;
  r ← init n;
  if negb (r =? ERR_OK) then mret 0 else
  l ← ip_get is_netif_list;
  upd_netif n (with_nf_next l) ;;
  ip_set (set_list n) ;;
  nf ← the_netif n;
  when (has_flag nf NETIF_FLAG_IGMP) (igmp_start n) ;;
  mret n.

Definition netif_set_default (n : Z) : prog (istate W) unit := ip_set (set_default n).

Definition netif_set_up (n : Z) : prog (istate W) unit :=
  nf ← the_netif n;
  when (negb (has_flag nf NETIF_FLAG_UP))
    (upd_netif n (set_flag NETIF_FLAG_UP) ;;
     nf ← the_netif n;
     when (has_flag nf NETIF_FLAG_LINK_UP)
       (netif_issue_reports n (Z.lor NETIF_REPORT_TYPE_IPV4 NETIF_REPORT_TYPE_IPV6))).

Definition netif_set_down (n : Z) : prog (istate W) unit :=
  nf ← the_netif n;
  when (has_flag nf NETIF_FLAG_UP)
    (upd_netif n (clear_flag NETIF_FLAG_UP) ;;
     nf ← the_netif n;
     when (has_flag nf NETIF_FLAG_ETHARP) (etharp_cleanup_netif n)).

(** The search for the predecessor; [false] if the interface is not on the
    list. *)
Fixpoint netif_unlink (fuel : nat) (tmp n : Z) : prog (istate W) bool :=
  match fuel with
  | O => stuck
  | S fuel' =>
      if tmp =? 0 then mret false else
      t ← the_netif tmp;
      if nf_next t =? n then
        nf ← the_netif n;
        upd_netif tmp (with_nf_next (nf_next nf)) ;; mret true
      else netif_unlink fuel' (nf_next t) n
  end.

Definition netif_remove (n : Z) : prog (istate W) unit :=
  if n =? 0 then mret tt else
  nf ← the_netif n;
  when (negb (ip4_addr_isany (nf_ip_addr nf)))
    (tcp_netif_ip_addr_changed (nf_ip_addr nf) None ;;
     nf ← the_netif n;
     udp_netif_ip_addr_changed (nf_ip_addr nf) None) ;;
  nf ← the_netif n;
  when (has_flag nf NETIF_FLAG_IGMP) (igmp_stop n) ;;
  nf ← the_netif n;
  when (netif_is_up nf) (netif_set_down n) ;;
  d ← ip_get is_netif_default;
  when (d =? n) (netif_set_default 0) ;;
  l ← ip_get is_netif_list;
  if l =? n then
    nf ← the_netif n; ip_set (set_list (nf_next nf))
  else
    fuel ← gets netif_fuel;
    _ ← netif_unlink fuel l n; mret tt.

(** The name is two letters and a digit. *)
Fixpoint netif_find_loop (fuel : nat) (n num c0 c1 : Z) : prog (istate W) Z :=
  match fuel with
  | O => stuck
  | S fuel' =>
      if n =? 0 then mret 0 else
      nf ← the_netif n;
      if (num =? nf_num nf) && (c0 =? nth 0 (nf_name nf) 0) && (c1 =? nth 1 (nf_name nf) 0)
      then mret n else netif_find_loop fuel' (nf_next nf) num c0 c1
  end.
Definition netif_find (name : option (Z * Z * Z)) : prog (istate W) Z :=
  match name with
  | None => mret 0
  | Some (c0, c1, c2) =>
      fuel ← gets netif_fuel;
      l ← ip_get is_netif_list;
      netif_find_loop fuel l (u8 (c2 - 48)) c0 c1
  end.

(** ** The link *)

Definition netif_set_link_up (n : Z) : prog (istate W) unit :=
  nf ← the_netif n;
  when (negb (has_flag nf NETIF_FLAG_LINK_UP))
    (upd_netif n (set_flag NETIF_FLAG_LINK_UP) ;;
     dhcp_network_changed n ;;
     nf ← the_netif n;
     when (has_flag nf NETIF_FLAG_UP)
       (netif_issue_reports n (Z.lor NETIF_REPORT_TYPE_IPV4 NETIF_REPORT_TYPE_IPV6)) ;;
     nf ← the_netif n;
     when (negb (nf_link_callback nf =? 0)) (call_link_callback (nf_link_callback nf) n)).

Definition netif_set_link_down (n : Z) : prog (istate W) unit :=
  nf ← the_netif n;
  when (has_flag nf NETIF_FLAG_LINK_UP)
    (upd_netif n (clear_flag NETIF_FLAG_LINK_UP) ;;
     nf ← the_netif n;
     when (negb (nf_link_callback nf =? 0)) (call_link_callback (nf_link_callback nf) n)).

Definition netif_set_link_callback (n link_callback : Z) : prog (istate W) unit :=
  when (negb (n =? 0)) (upd_netif n (with_link_callback link_callback)).

Definition netif_alloc_client_data_id : prog (istate W) Z :=
  result ← ip_get is_client_id;
  ip_set (set_client_id (u8 (result + 1))) ;;
  mret (u8 (result + LWIP_NETIF_CLIENT_DATA_INDEX_MAX)).
End netif.
