(* ===== verification/NetifProps.v ===== *)
(** * The list of interfaces

    The linked list of netif.c as the list of the interfaces that were added
    and not removed, newest first, in every reachable state. *)

From stdpp Require Import base numbers list gmap option relations.
From S2P Require Import Prelude Mem Memp Pbuf Chksum Ip4Addr Etharp LinkedList Netifs.

(** ** Linked interfaces *)

Abbreviation nlist := (llist nf_next).

(** The list is [l]; the default interface is on it. *)
Record netifs_ok {W} (l : list Z) (s : istate W) : Prop := {
  no_list : nlist (as_netifs s) (is_netif_list (as_link s)) l;
  no_nodup : NoDup l;
  no_default : is_netif_default (as_link s) = 0 ∨ is_netif_default (as_link s) ∈ l
}.

(** ** Operations that keep a property of the interfaces *)

Definition holds {W A} (P : istate W → Prop) (c : prog (istate W) A) : Prop :=
  ∀ s x s', c s = Some (x, s') → P s → P s'.

(** The property does not look at the ARP table and at the packets. *)
Class NetifProp {W} (P : istate W → Prop) : Prop :=
  netif_prop s s' : as_netifs s' = as_netifs s → as_link s' = as_link s → P s → P s'.

#[export] Instance netifs_ok_prop {W} l : NetifProp (netifs_ok (W := W) l).
Proof. intros s s' E1 E2 [H1 H2 H3]. split; rewrite ?E1, ?E2; done. Qed.

Section rules.
  Context {W : Type} (P : istate W → Prop).

Lemma holds_bind {A B} (c : prog (istate W) A) (f : A → prog (istate W) B) :
  holds P c → (∀ x, holds P (f x)) → holds P (c ≫= f).
Proof.
  intros Hc Hf s x s' H Hs. apply prog_bind_Some in H as (y & s1 & H1 & H2).
  eapply Hf; [exact H2|]. by eapply Hc.
Qed.
Lemma holds_step {A B} (c : prog (istate W) A) (f : A → prog (istate W) B) s x s' :
  (c ≫= f) s = Some (x, s') → P s → holds P c → ∃ y s1, P s1 ∧ f y s1 = Some (x, s').
Proof.
  intros H Hs Hc. apply prog_bind_Some in H as (y & s1 & H1 & H2). exists y, s1.
  split; [by eapply Hc | done].
Qed.
Lemma holds_of {A} (c : prog (istate W) A) s x s' : holds P c → c s = Some (x, s') → P s → P s'.
Proof. intros H. apply H. Qed.
Lemma holds_ret {A} (x : A) : holds P (mret x).
Proof. by intros s y s' [= _ <-]. Qed.
Lemma holds_stuck {A} : holds P (stuck : prog (istate W) A).
Proof. done. Qed.
Lemma holds_gets {A} (f : istate W → A) : holds P (gets f).
Proof. by intros s y s' [= _ <-]. Qed.
Lemma holds_ip_get {A} (f : ipstate W → A) : holds P (ip_get f).
Proof. apply holds_gets. Qed.
Lemma holds_the_netif n : holds P (the_netif n).
Proof. intros s x s'. unfold the_netif. destruct (_ !! _); [|done]. by intros [= _ <-]. Qed.
Lemma holds_packets `{!NetifProp P} {A} (c : prog pstate A) : holds P (packets c).
Proof.
  intros s x s'. unfold packets. destruct (c _) as [[a q]|]; [|done]. intros [= _ <-].
  by apply netif_prop.
Qed.
Lemma holds_entry i : holds P (entry i).
Proof.
  intros s x s'. unfold entry. destruct (if i <? 0 then None else _) as [e|]; [|done].
  by intros [= _ <-].
Qed.
Lemma holds_upd_entry `{!NetifProp P} i f : holds P (upd_entry i f).
Proof.
  unfold upd_entry. apply holds_bind; [apply holds_entry|]. intros e s x s' [= _ <-].
  by apply netif_prop.
Qed.
End rules.

Create HintDb netif.
#[export] Hint Resolve holds_ret holds_stuck holds_gets holds_ip_get holds_the_netif holds_packets
  holds_entry holds_upd_entry : netif.

Ltac holds_solve :=
  repeat first
    [ progress (intros; cbv zeta)
    | solve [eauto with netif typeclass_instances]
    | apply holds_bind; [|intros]
    | match goal with |- holds _ (if ?b then _ else _) => destruct b end
    | match goal with |- holds _ (when ?b _) => destruct b; cbn [when] end ].

Section updates.
  Context {W : Type}.
  Implicit Types s : istate W.

Lemma upd_netif_inv n f s u s' :
  upd_netif n f s = Some (u, s') → ∃ nf, as_netifs s !! n = Some nf ∧
    s' = AState (as_table s) (as_cached s) (<[n := f nf]> (as_netifs s)) (as_packets s) (as_link s).
Proof.
  unfold upd_netif. intros H. apply prog_bind_Some in H as (nf & s1 & H1 & [= _ <-]).
  unfold the_netif in H1. destruct (as_netifs s !! n) as [nf'|] eqn:E; [|done].
  injection H1 as <- <-. by exists nf'.
Qed.

Lemma upd_netif_run n f s nf :
  as_netifs s !! n = Some nf →
  upd_netif n f s
  = Some (tt, AState (as_table s) (as_cached s) (<[n := f nf]> (as_netifs s)) (as_packets s) (as_link s)).
Proof.
  intros H. unfold upd_netif. by rewrite (prog_bind_step _ _ s nf s) by (unfold the_netif; by rewrite H).
Qed.

(** An update that leaves the link to the next interface alone. *)
Lemma holds_upd_netif l n f :
  (∀ nf, nf_next (f nf) = nf_next nf) → holds (netifs_ok l) (upd_netif (W := W) n f).
Proof.
  intros Hf s u s' H [H1 H2 H3]. apply upd_netif_inv in H as (nf & Hn & ->). split; [|done|done].
  cbn. by apply (llist_upd _ _ _ _ nf).
Qed.
(** Any update of an interface that is not on the list. *)
Lemma holds_upd_new l n f : (n ∉ l) → holds (netifs_ok l) (upd_netif (W := W) n f).
Proof.
  intros Hn s u s' H [H1 H2 H3]. apply upd_netif_inv in H as (nf & _ & ->). split; [|done|done].
  cbn. by apply llist_insert.
Qed.
(** Changes of the other globals. *)
Lemma holds_ip_set l (f : ipstate W → ipstate W) :
  (∀ i, is_netif_list (f i) = is_netif_list i) → (∀ i, is_netif_default (f i) = is_netif_default i) →
  holds (netifs_ok l) (ip_set f).
Proof. intros H1 H2 s u s' [= _ <-] [? ? ?]. split; cbn; rewrite ?H1, ?H2; done. Qed.
(** The walk that takes [n] out of the list behind [tmp]. *)
Lemma unlink_run n : ∀ l fuel tmp s,
  n ≠ 0 → nlist (as_netifs s) tmp l → NoDup l → tmp ≠ n → (length l < fuel)%nat →
  ∃ b m, netif_unlink fuel tmp n s
         = Some (b, AState (as_table s) (as_cached s) m (as_packets s) (as_link s)) ∧
    nlist m tmp (filter (λ x, x ≠ n) l) ∧ (∀ x, (x ∉ l) → m !! x = as_netifs s !! x).
Proof.
  intros l. induction l as [|x l IH]; intros fuel tmp s Hn0 Hl Hnd Hne Hf;
    (destruct fuel as [|fuel]; [cbn in Hf; lia|]); cbn [netif_unlink].
  - cbn in Hl. subst tmp. exists false, (as_netifs s). split; [by destruct s | done].
  - destruct Hl as (-> & Hx & t & Ht & Hl). apply list.NoDup_cons in Hnd as [Hxl Hnd].
    rewrite (proj2 (Z.eqb_neq x 0)) by done.
    rewrite (prog_bind_step _ _ s t s) by (unfold the_netif; by rewrite Ht).
    rewrite filter_cons_True by done.
    destruct (Z.eqb_spec (nf_next t) n) as [E|E].
    + destruct l as [|y l]; [cbn in Hl; congruence|].
      destruct Hl as (E' & _ & nf & Hnf & Hl). assert (y = n) as -> by congruence.
      apply list.NoDup_cons in Hnd as [Hyl Hnd].
      rewrite (prog_bind_step _ _ s nf s) by (unfold the_netif; by rewrite Hnf).
      rewrite (prog_bind_step _ _ _ _ _ (upd_netif_run x _ s t Ht)).
      exists true, (<[x := with_nf_next (nf_next nf) t]> (as_netifs s)). split; [done|].
      split; [|intros z Hz; rewrite lookup_insert_ne; [done | set_solver]].
      split; [done|]. split; [done|]. exists (with_nf_next (nf_next nf) t).
      rewrite lookup_insert_eq. split; [done|]. cbn [nf_next with_nf_next].
      rewrite filter_cons_False, remove_absent by (done || tauto).
      apply llist_insert; [done | set_solver].
    + destruct (IH fuel (nf_next t) s Hn0 Hl Hnd E) as (b & m & Hu & Hm & Hfr); [cbn in Hf; lia|].
      exists b, m. split; [done|]. split.
      * split; [done|]. split; [done|]. exists t. by rewrite (Hfr x Hxl).
      * intros z Hz. apply Hfr. set_solver.
Qed.
End updates.
#[export] Hint Resolve holds_upd_netif holds_upd_new holds_ip_set : netif.

(** ** Searching the list *)

Section searching.
  Context {W : Type}.
  Implicit Types s : istate W.

Lemma the_netif_run n nf s : as_netifs s !! n = Some nf → the_netif n s = Some (nf, s).
Proof. intros H. unfold the_netif. by rewrite H. Qed.

(** The interface has the name and the number. *)
Definition named (c0 c1 num : Z) (nf : netif) : bool :=
  (num =? nf_num nf) && (c0 =? nth 0 (nf_name nf) 0) && (c1 =? nth 1 (nf_name nf) 0).

Lemma find_loop_run num c0 c1 s : ∀ l fuel n,
  nlist (as_netifs s) n l → (length l < fuel)%nat →
  ∃ r, netif_find_loop fuel n num c0 c1 s = Some (r, s) ∧
    search_result (as_netifs s) (named c0 c1 num) l r.
Proof.
  intros l. induction l as [|x l IH]; intros [|fuel] n Hl Hf; [cbn in Hf; lia | | cbn in Hf; lia |];
    cbn [netif_find_loop].
  - cbn in Hl. subst n. exists 0. split; [done | apply search_nil].
  - destruct Hl as (-> & Hx0 & nf & Hnf & Hl). rewrite (proj2 (Z.eqb_neq x 0)) by done.
    rewrite (prog_bind_step _ _ s nf s) by (by apply the_netif_run).
    fold (named c0 c1 num nf). destruct (named c0 c1 num nf) eqn:E.
    + exists x. split; [done|]. left. split; [done|]. exists [], l, nf.
      split; [done|]. split; [done|]. split; [done|]. intros y nfy Hy. by apply elem_of_nil in Hy.
    + destruct (IH fuel (nf_next nf) Hl ltac:(cbn in Hf; lia)) as (r & -> & Hr). exists r.
      split; [done | by eapply search_cons].
Qed.

Lemma find_run l s c0 c1 c2 :
  netifs_ok l s →
  ∃ r, netif_find (Some (c0, c1, c2)) s = Some (r, s) ∧
    search_result (as_netifs s) (named c0 c1 (u8 (c2 - 48))) l r.
Proof.
  intros [Hl Hnd _]. unfold netif_find. rewrite (prog_bind_step _ _ s (netif_fuel s) s) by done.
  rewrite (prog_bind_step _ _ s (is_netif_list (as_link s)) s) by done. apply find_loop_run; [done|].
  pose proof (llist_length _ _ _ Hl Hnd). unfold netif_fuel. lia.
Qed.

(** The search for the predecessor ends. *)
Lemma unlink_ends l s n :
  netifs_ok l s → n ≠ 0 → is_netif_list (as_link s) ≠ n →
  ∃ b s', netif_unlink (netif_fuel s) (is_netif_list (as_link s)) n s = Some (b, s') ∧
    nlist (as_netifs s') (is_netif_list (as_link s')) (filter (λ x, x ≠ n) l).
Proof.
  intros [Hl Hnd _] Hn0 Hne. pose proof (llist_length _ _ _ Hl Hnd).
  destruct (unlink_run n l (netif_fuel s) _ s Hn0 Hl Hnd Hne) as (b & m & E & Hm & _); [unfold netif_fuel; lia|].
  exists b. eexists. split; [exact E | exact Hm].
Qed.
End searching.

Section steps.
  Context {W : Type}.
  Context (linkoutput : Z → Z → prog (istate W) Z).
  Context (tcp_netif_ip_addr_changed udp_netif_ip_addr_changed : Z → option Z → prog (istate W) unit).
  Context (igmp_start igmp_stop igmp_report_groups dhcp_network_changed : Z → prog (istate W) unit).
  Context (call_link_callback : Z → Z → prog (istate W) unit).

Abbreviation add := (netif_add linkoutput tcp_netif_ip_addr_changed udp_netif_ip_addr_changed igmp_start
                   igmp_report_groups).
Abbreviation set_addr := (netif_set_addr linkoutput tcp_netif_ip_addr_changed udp_netif_ip_addr_changed
                        igmp_report_groups).
Abbreviation remove := (netif_remove tcp_netif_ip_addr_changed udp_netif_ip_addr_changed igmp_stop).

(** The calls of netif.c and what else happens, with the interfaces that are
    in use: an interface is added once, and the default one is in use. *)
Inductive netif_step : list Z → istate W → list Z → istate W → Prop :=
  | nstep_add l s n a m g st init inp r s' :
      n ≠ 0 → (n ∉ l) → (∀ k, holds (netifs_ok l) (init k)) →
      add n a m g st init inp s = Some (r, s') →
      netif_step l s (if r =? 0 then l else n :: l) s'
  | nstep_remove l s n s' :
      remove n s = Some (tt, s') → netif_step l s (filter (λ x, x ≠ n) l) s'
  | nstep_set_default l s n s' :
      n = 0 ∨ n ∈ l → netif_set_default n s = Some (tt, s') → netif_step l s l s'
  | nstep_set_addr l s n a m g s' : set_addr n a m g s = Some (tt, s') → netif_step l s l s'
  | nstep_set_up l s n s' :
      netif_set_up linkoutput igmp_report_groups n s = Some (tt, s') → netif_step l s l s'
  | nstep_set_down l s n s' : netif_set_down n s = Some (tt, s') → netif_step l s l s'
  | nstep_link_up l s n s' :
      netif_set_link_up linkoutput igmp_report_groups dhcp_network_changed call_link_callback n s
      = Some (tt, s') → netif_step l s l s'
  | nstep_link_down l s n s' :
      netif_set_link_down call_link_callback n s = Some (tt, s') → netif_step l s l s'
  | nstep_link_callback l s n c s' :
      netif_set_link_callback n c s = Some (tt, s') → netif_step l s l s'
  | nstep_find l s name r s' : netif_find name s = Some (r, s') → netif_step l s l s'
  | nstep_client_id l s r s' : netif_alloc_client_data_id s = Some (r, s') → netif_step l s l s'
  | nstep_elsewhere l s s' :
      as_netifs s' = as_netifs s → is_netif_list (as_link s') = is_netif_list (as_link s) →
      is_netif_default (as_link s') = is_netif_default (as_link s) → netif_step l s l s'.

Inductive netif_steps : list Z → istate W → list Z → istate W → Prop :=
  | nsteps_refl l s : netif_steps l s l s
  | nsteps_step l s l1 s1 l2 s2 :
      netif_step l s l1 s1 → netif_steps l1 s1 l2 s2 → netif_steps l s l2 s2.

  (** The driver and the protocols leave the list alone. *)
  Context (Hlink : ∀ l n p, holds (netifs_ok l) (linkoutput n p)).
  Context (Htcp : ∀ l a b, holds (netifs_ok l) (tcp_netif_ip_addr_changed a b)).
  Context (Hudp : ∀ l a b, holds (netifs_ok l) (udp_netif_ip_addr_changed a b)).
  Context (Hstart : ∀ l n, holds (netifs_ok l) (igmp_start n)).
  Context (Hstop : ∀ l n, holds (netifs_ok l) (igmp_stop n)).
  Context (Hreport : ∀ l n, holds (netifs_ok l) (igmp_report_groups n)).
  Context (Hdhcp : ∀ l n, holds (netifs_ok l) (dhcp_network_changed n)).
  Context (Hcb : ∀ l c n, holds (netifs_ok l) (call_link_callback c n)).
  #[local] Set Default Proof Using "All".
  #[local] Hint Resolve Hlink Htcp Hudp Hstart Hstop Hreport Hdhcp Hcb : netif.

Lemma holds_request l n a : holds (netifs_ok l) (etharp_request linkoutput n a).
Proof.
  unfold etharp_request, etharp_request_dst, etharp_raw, ethernet_output, free_pbuf, poke. holds_solve.
Qed.
Lemma holds_cleanup l n : holds (netifs_ok l) (etharp_cleanup_netif (L := ipstate W) n).
Proof.
  unfold etharp_cleanup_netif. induction (seqZ 0 ARP_TABLE_SIZE) as [|i is_ IH];
    cbn [etharp_cleanup_loop]; [holds_solve|].
  unfold etharp_cleanup_one, etharp_free_entry, free_pbuf. holds_solve.
Qed.
#[local] Hint Resolve holds_request holds_cleanup : netif.

Lemma holds_reports l n t : holds (netifs_ok l) (netif_issue_reports linkoutput igmp_report_groups n t).
Proof. unfold netif_issue_reports. holds_solve. Qed.
#[local] Hint Resolve holds_reports : netif.
Lemma holds_set_addr l n a m g : holds (netifs_ok l) (set_addr n a m g).
Proof. unfold netif_set_addr, netif_set_ipaddr, netif_set_netmask, netif_set_gw. holds_solve. Qed.
Lemma holds_set_down l n : holds (netifs_ok l) (netif_set_down (W := W) n).
Proof. unfold netif_set_down. holds_solve. Qed.
#[local] Hint Resolve holds_set_addr holds_set_down : netif.

(** ** Adding and removing *)

Lemma add_ok l n a m g st init inp s r s' :
  n ≠ 0 → (n ∉ l) → (∀ k, holds (netifs_ok l) (init k)) →
  add n a m g st init inp s = Some (r, s') → netifs_ok l s →
  r = n ∧ netifs_ok (n :: l) s' ∨ r = 0 ∧ netifs_ok l s'.
Proof.
  intros Hn0 Hn Hinit H Hok. unfold netif_add in H.
  destruct (holds_step _ _ _ _ _ _ H Hok) as (num & s1 & Hok1 & H1); [holds_solve|].
  destruct (holds_step _ _ _ _ _ _ H1 Hok1) as ([] & s2 & Hok2 & H2); [by apply holds_upd_new|].
  destruct (holds_step _ _ _ _ _ _ H2 Hok2) as ([] & s3 & Hok3 & H3); [by apply holds_ip_set|].
  destruct (holds_step _ _ _ _ _ _ H3 Hok3) as ([] & s4 & Hok4 & H4); [holds_solve|].
  destruct (holds_step _ _ _ _ _ _ H4 Hok4) as (ri & s5 & Hok5 & H5); [apply Hinit|].
  clear H H1 H2 H3 H4 Hok Hok1 Hok2 Hok3 Hok4. rename H5 into H.
  destruct (negb (ri =? ERR_OK)); [injection H as <- <-; by right|].
  apply prog_bind_Some in H as (hd & s6 & [= <- <-] & H).
  apply prog_bind_Some in H as (u6 & s7 & H7 & H).
  apply upd_netif_inv in H7 as (nf & Hnf & ->).
  apply prog_bind_Some in H as (u7 & s8 & [= _ <-] & H).
  cbn [as_netifs as_link as_table as_cached as_packets] in H.
  set (s8 := AState _ _ _ _ _) in H.
  assert (Hok8 : netifs_ok (n :: l) s8).
  { destruct Hok5 as [H1 H2 H3]. split; cbn.
    - split; [done|]. split; [done|]. exists (with_nf_next (is_netif_list (as_link s5)) nf).
      rewrite lookup_insert_eq. split; [done|]. by apply llist_insert.
    - by apply list.NoDup_cons.
    - destruct H3 as [->|H3]; [by left | right; set_solver]. }
  destruct (holds_step _ _ _ _ _ _ H Hok8) as (nf8 & s9 & Hok9 & H9); [holds_solve|].
  destruct (holds_step _ _ _ _ _ _ H9 Hok9) as ([] & s10 & Hok10 & [= <- <-]); [holds_solve|].
  by left.
Qed.


Lemma remove_ok l n s u s' :
  remove n s = Some (u, s') → n ≠ 0 → netifs_ok l s → netifs_ok (filter (λ x, x ≠ n) l) s'.
Proof.
  intros H Hn0 Hok. unfold netif_remove in H. rewrite (proj2 (Z.eqb_neq n 0)) in H by done.
  destruct (holds_step _ _ _ _ _ _ H Hok) as (nf1 & s1 & Hok1 & H1); [holds_solve|].
  destruct (holds_step _ _ _ _ _ _ H1 Hok1) as ([] & s2 & Hok2 & H2); [holds_solve|].
  destruct (holds_step _ _ _ _ _ _ H2 Hok2) as (nf3 & s3 & Hok3 & H3); [holds_solve|].
  destruct (holds_step _ _ _ _ _ _ H3 Hok3) as ([] & s4 & Hok4 & H4); [holds_solve|].
  destruct (holds_step _ _ _ _ _ _ H4 Hok4) as (nf5 & s5 & Hok5 & H5); [holds_solve|].
  destruct (holds_step _ _ _ _ _ _ H5 Hok5) as ([] & s6 & Hok6 & H6); [holds_solve|].
  clear H H1 H2 H3 H4 H5 Hok Hok1 Hok2 Hok3 Hok4 Hok5.
  apply prog_bind_Some in H6 as (d & s7 & [= <- <-] & H6).
  apply prog_bind_Some in H6 as ([] & s8 & H7 & H8).
  assert (Hok8 : netifs_ok l s8 ∧ is_netif_default (as_link s8) ≠ n).
  { destruct Hok6 as [K1 K2 K3]. destruct (Z.eqb_spec (is_netif_default (as_link s6)) n);
      cbn [when] in H7; injection H7 as <-; split; [|cbn; lia| |done]; split; cbn; auto. }
  clear H7 Hok6 s6. destruct Hok8 as [[K1 K2 K3] K4].
  assert (Kd : is_netif_default (as_link s8) = 0 ∨ is_netif_default (as_link s8) ∈ filter (λ x, x ≠ n) l).
  { destruct K3 as [->|K3]; [by left | right]. by apply list_elem_of_filter. }
  apply prog_bind_Some in H8 as (hd & s9 & [= <- <-] & H).
  destruct (Z.eqb_spec (is_netif_list (as_link s8)) n) as [E|E].
  - apply prog_bind_Some in H as (nf & s9 & H9 & [= _ <-]). unfold the_netif in H9.
    destruct l as [|x l]; [cbn in K1; congruence|]. destruct K1 as (K & _ & nf' & Hnf & K1).
    assert (x = n) as -> by congruence. rewrite Hnf in H9. injection H9 as <- <-.
    apply list.NoDup_cons in K2 as [Kn K2]. rewrite filter_cons_False, remove_absent in * by (done || tauto).
    by split.
  - apply prog_bind_Some in H as (fuel & s9 & [= <- <-] & H).
    apply prog_bind_Some in H as (b & s10 & H10 & [= _ <-]).
    destruct (unlink_run n l (netif_fuel s8) _ s8 Hn0 K1 K2 E) as (b' & m & Hu & Hm & _).
    { pose proof (llist_length _ _ _ K1 K2). unfold netif_fuel. lia. }
    rewrite Hu in H10. injection H10 as <- <-. split; [done | by apply NoDup_filter | done].
Qed.

Lemma find_same name s r s' : netif_find (W := W) name s = Some (r, s') → s' = s.
Proof.
  assert (Hloop : ∀ fuel n num c0 c1 s0 r0 s0',
    netif_find_loop (W := W) fuel n num c0 c1 s0 = Some (r0, s0') → s0' = s0).
  { induction fuel as [|fuel IH]; intros n num c0 c1 s0 r0 s0'; cbn [netif_find_loop]; [done|].
    destruct (n =? 0); [by intros [= _ <-]|]. intros H.
    apply prog_bind_Some in H as (nf & s1 & H1 & H2). unfold the_netif in H1.
    destruct (as_netifs s0 !! n); [|done]. injection H1 as <- <-.
    destruct (_ && _); [by injection H2 as _ <- | by eapply IH]. }
  destruct name as [[[c0 c1] c2]|]; cbn [netif_find]; [|by intros [= _ <-]]. intros H.
  apply prog_bind_Some in H as (f & s1 & [= <- <-] & H).
  apply prog_bind_Some in H as (l & s2 & [= <- <-] & H). by eapply Hloop.
Qed.

Lemma netif_step_ok l s l' s' : netif_step l s l' s' → netifs_ok l s → netifs_ok l' s'.
Proof.
  intros Hs Hok.
  destruct Hs as [l s n a m g st init inp r s' Hn0 Hn Hi H|l s n s' H|l s n s' Hd H|l s n a m g s' H
    |l s n s' H|l s n s' H|l s n s' H|l s n s' H|l s n c s' H|l s nm r s' H|l s r s' H|l s s' H1 H2 H3];
    try (revert H Hok; unfold netif_set_up, netif_set_link_up, netif_set_link_down, netif_set_link_callback;
         apply holds_of; holds_solve; fail).
  - destruct (add_ok _ _ _ _ _ _ _ _ _ _ _ Hn0 Hn Hi H Hok) as [[-> ?]|[-> ?]]; [|done].
    by rewrite (proj2 (Z.eqb_neq n 0)).
  - destruct (decide (n = 0)) as [->|Hn0]; [|by eapply remove_ok].
    injection H as <-. rewrite remove_absent; [done|]. eapply llist_nonzero, Hok.
  - injection H as <-. destruct Hok. by split.
  - by rewrite (find_same _ _ _ _ H).
  - destruct Hok as [K1 K2 K3]. split; rewrite ?H1, ?H2, ?H3; done.
Qed.

(** C14: Whatever sequence of calls of netif.c runs, interleaved with the rest of the stack, the
    linked list of interfaces is exactly the list of the interfaces that were added and not removed,
    newest first, without duplicates and ended by [NULL], and the default interface is none or one
    of them; so removing an interface from the middle keeps all others, and the default one is reset
    when it is removed.  The walks over the list therefore end: [netif_find] returns the first
    interface with the name or [NULL], and the search for the predecessor of an interface unlinks it. *)
Theorem netif_list_refines s0 l s :
  is_netif_list (as_link s0) = 0 → is_netif_default (as_link s0) = 0 →
  netif_steps [] s0 l s →
  netifs_ok l s ∧
  (∀ c0 c1 c2, ∃ r, netif_find (Some (c0, c1, c2)) s = Some (r, s) ∧
     search_result (as_netifs s) (named c0 c1 (u8 (c2 - 48))) l r) ∧
  (∀ n, n ≠ 0 → is_netif_list (as_link s) ≠ n →
     ∃ b s', netif_unlink (netif_fuel s) (is_netif_list (as_link s)) n s = Some (b, s') ∧
       nlist (as_netifs s') (is_netif_list (as_link s')) (filter (λ x, x ≠ n) l)).
Proof.
  intros H1 H2 Hs. assert (H0 : netifs_ok [] s0) by (split; [done | constructor | by left]).
  assert (Hok : netifs_ok l s).
  { revert H0. clear H1 H2. induction Hs as [|l0 s0 l1 s1 l2 s2 H _ IH]; [done|].
    intros H0. apply IH. by eapply netif_step_ok. }
  split; [done|]. split; [intros; by apply find_run | intros; by apply unlink_ends].
Qed.
End steps.
