(* ===== verification/Ip4.v ===== *)
(** * The IPv4 layer (middlewares/lwip/src/core/ipv4/ip4.c)

    Routing over the list of interfaces, the checks on received packets and
    their delivery to the protocols, and the header of outgoing packets.
    Forwarding, reassembly and fragmentation are not configured, options are
    allowed, and checksums are left to the hardware ([CHECKSUM_GEN_IP] and
    [CHECKSUM_CHECK_IP] are 0).  The input functions of the protocols, the
    ICMP error message, the look-up of multicast groups and [netif->output]
    are parameters. *)

From stdpp Require Import base numbers list gmap option.
From S2P Require Import Prelude Mem Memp Pbuf Chksum Ip4Addr Etharp Netifs.

Definition IP_HLEN : Z := 20.
Definition IP_PROTO_ICMP : Z := 1.
Definition IP_PROTO_IGMP : Z := 2.
Definition IP_PROTO_UDP : Z := 17.
Definition IP_PROTO_TCP : Z := 6.
Definition IP_MF : Z := 0x2000.
Definition IP_OFFMASK : Z := 0x1fff.
Definition ICMP_DUR_PROTO : Z := 2.
Definition DHCP_CLIENT_PORT : Z := 68.

Definition ip4_addr_isloopback (a : Z) : bool :=
  Z.land a (PP_HTONL 0xff000000) =? PP_HTONL (Z.shiftl 127 24).
(** [IP4_ADDR(&allsystems, 224, 0, 0, 1)] *)
Definition allsystems : Z := lwip_htonl 0xe0000001.
Definition s16 (z : Z) : Z := (z + 32768) mod 65536 - 32768.

Section ip4.
  Context {W : Type}.
  Context (udp_input tcp_input icmp_input : Z → Z → prog (istate W) unit).
  Context (igmp_input : Z → Z → Z → prog (istate W) unit).
  Context (icmp_dest_unreach : Z → Z → prog (istate W) unit).
  Context (igmp_lookfor_group : Z → Z → prog (istate W) bool).
  Context (netif_output : Z → Z → Z → prog (istate W) Z).

Definition ip4_set_default_multicast_netif (n : Z) : prog (istate W) unit := ip_set (set_mcast n).

(** ** Routing *)

(** The interface can send. *)
Definition usable (nf : netif) : bool :=
  netif_is_up nf && netif_is_link_up nf && negb (ip4_addr_isany (nf_ip_addr nf)).

Fixpoint ip4_route_loop (fuel : nat) (dest n : Z) : prog (istate W) Z :=
  match fuel with
  | O => stuck
  | S fuel' =>
      if n =? 0 then mret 0 else
      nf ← the_netif n;
      if usable nf && ip4_addr_netcmp dest (nf_ip_addr nf) (nf_netmask nf) then mret n
      else if usable nf && negb (has_flag nf NETIF_FLAG_BROADCAST) && (dest =? nf_gw nf) then mret n
      else ip4_route_loop fuel' dest (nf_next nf)
  end.

Definition ip4_route (dest : Z) : prog (istate W) Z :=
  mcast ← ip_get is_mcast_netif;
  if ip4_addr_ismulticast dest && negb (mcast =? 0) then mret mcast else
  fuel ← gets netif_fuel;
  l ← ip_get is_netif_list;
  r ← ip4_route_loop fuel dest l;
  if negb (r =? 0) then mret r else
  d ← ip_get is_netif_default;
  if d =? 0 then mret 0 else
  nf ← the_netif d;
  if negb (netif_is_up nf) || negb (netif_is_link_up nf) || ip4_addr_isany (nf_ip_addr nf)
  then mret 0 else mret d.

(** ** Receiving *)

(** The interface accepts packets for the address. *)
Definition accepts (nf : netif) (dest : Z) : bool :=
  netif_is_up nf && negb (ip4_addr_isany (nf_ip_addr nf))
  && ((dest =? nf_ip_addr nf) || negb (ip4_addr_isbroadcast_u32 dest nf =? 0)).

(** The search for the interface that accepts the packet. *)
Fixpoint ip4_accept (fuel : nat) (first : bool) (dest inp netif : Z) : prog (istate W) Z :=
  match fuel with
  | O => stuck
  | S fuel' =>
      nf ← the_netif netif;
      if accepts nf dest then mret netif
      else if first && ip4_addr_isloopback dest then mret 0
      else
        next ← (if first then ip_get is_netif_list else mret (nf_next nf));
        next ← (if next =? inp then i ← the_netif inp; mret (nf_next i) else mret next);
        if next =? 0 then mret 0 else ip4_accept fuel' false dest inp next
  end.

Definition set_current (f : ip_globals → ip_globals) : prog (istate W) unit :=
  ip_set (λ i, set_data (f (is_data i)) i).

(** The interface for the packet and whether its source is checked. *)
Definition ip4_target (inp dest src : Z) : prog (istate W) (Z * bool) :=
  if ip4_addr_ismulticast dest then
    nf ← the_netif inp;
    member ← (if has_flag nf NETIF_FLAG_IGMP then igmp_lookfor_group inp dest else mret false);
    if (member : bool)
    then mret (inp, negb ((dest =? allsystems) && ip4_addr_isany src))
    else mret (0, true)
  else
    fuel ← gets netif_fuel;
    n ← ip4_accept fuel true dest inp inp;
    mret (n, true).

(** Delivery to the protocol, with the header in front of the payload. *)
Definition ip4_deliver (p inp netif iphdr iphdr_hlen dest : Z) : prog (istate W) unit :=
  _ ← packets (pbuf_header p (- iphdr_hlen));
  proto ← peek (iphdr + 9) 1;
  if of_le proto =? IP_PROTO_UDP then udp_input p inp
  else if of_le proto =? IP_PROTO_TCP then tcp_input p inp
  else if of_le proto =? IP_PROTO_ICMP then icmp_input p inp
  else if of_le proto =? IP_PROTO_IGMP then igmp_input p inp dest
  else
    nf ← the_netif netif;
    when ((ip4_addr_isbroadcast_u32 dest nf =? 0) && negb (ip4_addr_ismulticast dest))
      (_ ← packets (pbuf_header_force p iphdr_hlen);
       packets (upd_pbuf p (with_payload iphdr)) ;;
       icmp_dest_unreach p ICMP_DUR_PROTO) ;;
    free_pbuf p.

Definition drop_packet (p : Z) : prog (istate W) Z := free_pbuf p ;; mret ERR_OK.

(** The part after the length checks: is the packet for us, and from whom? *)
Definition ip4_dispatch (p inp iphdr iphdr_hlen : Z) : prog (istate W) Z :=
  dest ← peek (iphdr + 16) 4;
  let dest := of_le dest in
  set_current (λ g, IpGlobals (current_netif g) (current_input_netif g) (current_ip4_header g)
                      (current_ip_header_tot_len g) (current_iphdr_src g) dest) ;;
  src ← peek (iphdr + 12) 4;
  let src := of_le src in
  set_current (λ g, IpGlobals (current_netif g) (current_input_netif g) (current_ip4_header g)
                      (current_ip_header_tot_len g) src (current_iphdr_dest g)) ;;
  '(netif, check_ip_src) ← ip4_target inp dest src;
  '(netif, check_ip_src) ←
    (if netif =? 0 then
       proto ← peek (iphdr + 9) 1;
       if of_le proto =? IP_PROTO_UDP then
         port ← peek (iphdr + iphdr_hlen + 2) 2;
         if of_le port =? PP_HTONS DHCP_CLIENT_PORT then mret (inp, false)
         else mret (netif, check_ip_src)
       else mret (netif, check_ip_src)
     else mret (netif, check_ip_src));
  inf ← the_netif inp;
  if (check_ip_src && negb (ip4_addr_isany src))
     && (negb (ip4_addr_isbroadcast_u32 src inf =? 0) || ip4_addr_ismulticast src)
  then drop_packet p
  else if netif =? 0 then drop_packet p
  else
  off ← peek (iphdr + 6) 2;
  if negb (Z.land (of_le off) (PP_HTONS (Z.lor IP_OFFMASK IP_MF)) =? 0) then drop_packet p else
  vhl ← peek iphdr 1;
  set_current (λ g, IpGlobals netif inp iphdr (Z.land (of_le vhl) 0x0f * 4)
                      (current_iphdr_src g) (current_iphdr_dest g)) ;;
  ip4_deliver p inp netif iphdr iphdr_hlen dest ;;
  set_current (λ _, IpGlobals 0 0 0 0 IPADDR_ANY IPADDR_ANY) ;;
  mret ERR_OK.

Definition ip4_input (p inp : Z) : prog (istate W) Z :=
  b ← packets (deref p);
  let iphdr := pb_payload b in
  vhl ← peek iphdr 1;
  if negb (Z.shiftr (of_le vhl) 4 =? 4) then drop_packet p else
  let iphdr_hlen := Z.land (of_le vhl) 0x0f * 4 in
  len ← peek (iphdr + 2) 2;
  let iphdr_len := lwip_htons (of_le len) in
  when (iphdr_len <? pb_tot_len b) (packets (pbuf_realloc p iphdr_len)) ;;
  b ← packets (deref p);
  if (pb_len b <? iphdr_hlen) || (pb_tot_len b <? iphdr_len) || (iphdr_hlen <? IP_HLEN)
  then drop_packet p else
  ip4_dispatch p inp iphdr iphdr_hlen.

(** ** Sending *)

(** [dest] is [None] for [LWIP_IP_HDRINCL]. *)
Definition ip4_output_if_opt_src (p : Z) (src dest : option Z) (ttl tos proto netif ip_options optlen : Z)
    : prog (istate W) Z :=
  match dest with
  | Some dest =>
      let optlen_aligned := if optlen =? 0 then 0 else u16 (Z.land (optlen + 3) (Z.lnot 3)) in
      let ip_hlen := u16 (IP_HLEN + optlen_aligned) in
      r ← (if optlen =? 0 then mret 0 else packets (pbuf_header p (s16 optlen_aligned)));
      if negb (r =? 0) then mret ERR_BUF else
      when (negb (optlen =? 0))
        (b ← packets (deref p);
         packets (MEMCPY (pb_payload b) ip_options optlen) ;;
         when (optlen <? optlen_aligned)
           (poke (pb_payload b + optlen) (replicate (Z.to_nat (optlen_aligned - optlen)) 0))) ;;
      r ← packets (pbuf_header p IP_HLEN);
      if negb (r =? 0) then mret ERR_BUF else
      b ← packets (deref p);
      let iphdr := pb_payload b in
      poke (iphdr + 8) [u8 ttl] ;;
      poke (iphdr + 9) [u8 proto] ;;
      poke (iphdr + 16) (addr_bytes dest) ;;
      poke iphdr [u8 (Z.lor (Z.shiftl 4 4) (ip_hlen / 4))] ;;
      poke (iphdr + 1) [tos] ;;
      poke (iphdr + 2) (le16 (lwip_htons (pb_tot_len b))) ;;
      poke (iphdr + 6) (le16 0) ;;
      id ← ip_get is_ip_id;
      poke (iphdr + 4) (le16 (lwip_htons id)) ;;
      ip_set (set_ip_id (u16 (id + 1))) ;;
      poke (iphdr + 12) (addr_bytes (ip4_addr_get src)) ;;
      poke (iphdr + 10) (le16 0) ;;
      netif_output netif p dest
  | None =>
      b ← packets (deref p);
      dest ← peek (pb_payload b + 16) 4;
      netif_output netif p (of_le dest)
  end.

Definition ip4_output_if_opt (p : Z) (src dest : option Z) (ttl tos proto netif ip_options optlen : Z)
    : prog (istate W) Z :=
  src_used ← (match dest with
              | Some _ =>
                  if ip4_addr_isany (ip4_addr_get src)
                  then nf ← the_netif netif; mret (Some (nf_ip_addr nf)) else mret src
              | None => mret src
              end);
  ip4_output_if_opt_src p src_used dest ttl tos proto netif ip_options optlen.

Definition ip4_output_if (p : Z) (src dest : option Z) (ttl tos proto netif : Z) : prog (istate W) Z :=
  ip4_output_if_opt p src dest ttl tos proto netif 0 0.
Definition ip4_output_if_src (p : Z) (src dest : option Z) (ttl tos proto netif : Z)
    : prog (istate W) Z :=
  ip4_output_if_opt_src p src dest ttl tos proto netif 0 0.

Definition ip4_output (p : Z) (src : option Z) (dest ttl tos proto : Z) : prog (istate W) Z :=
  netif ← ip4_route dest;
  if netif =? 0 then mret ERR_RTE
  else ip4_output_if p src (Some dest) ttl tos proto netif.
End ip4.
