(* ===== verification/Ip4Props.v ===== *)
(** * Routing and receiving in the IPv4 layer

    Which interface a packet leaves through, and which packets are delivered
    to which protocol and with which contents. *)

From stdpp Require Import base numbers list gmap option.
From S2P Require Import Prelude Mem MemRefine Memp Pbuf PbufLemmas PbufAlloc PbufOps PbufProps Chksum Ip4Addr Etharp LinkedList Netifs NetifProps Ip4.

(** ** Routing *)

(** The interface reaches the destination directly. *)
Definition reaches (dest : Z) (nf : netif) : bool :=
  usable nf && (ip4_addr_netcmp dest (nf_ip_addr nf) (nf_netmask nf)
                || (negb (has_flag nf NETIF_FLAG_BROADCAST) && (dest =? nf_gw nf))).

(** The interfaces of the list other than [inp]. *)
Abbreviation others inp l := (filter (λ x : Z, x ≠ inp) l).

Section routing.
  Context {W : Type}.
  Implicit Types s : istate W.

Lemma route_loop_run dest s : ∀ l fuel n,
  nlist (as_netifs s) n l → (length l < fuel)%nat →
  ∃ r, ip4_route_loop fuel dest n s = Some (r, s) ∧
    (r ≠ 0 ∧ first_such (as_netifs s) (reaches dest) l r ∨
     r = 0 ∧ none_such (as_netifs s) (reaches dest) l).
Proof.
  intros l. induction l as [|x l IH]; intros [|fuel] n Hl Hf; [cbn in Hf; lia | | cbn in Hf; lia |];
    cbn [ip4_route_loop].
  - cbn in Hl. subst n. exists 0. split; [done|]. right. split; [done|]. intros x nfx Hx. set_solver.
  - destruct Hl as (-> & Hx0 & nf & Hnf & Hl). rewrite (proj2 (Z.eqb_neq x 0)) by done.
    rewrite (prog_bind_step _ _ s nf s) by (by apply the_netif_run).
    assert (Hhit : reaches dest nf = true → first_such (as_netifs s) (reaches dest) (x :: l) x).
    { intros H. exists [], l, nf. split; [done|]. split; [done|]. split; [done|]. set_solver. }
    assert (Hcase : ∀ c : prog (istate W) Z,
      (if usable nf && ip4_addr_netcmp dest (nf_ip_addr nf) (nf_netmask nf) then mret x
       else if usable nf && negb (has_flag nf NETIF_FLAG_BROADCAST) && (dest =? nf_gw nf) then mret x
       else c) = if reaches dest nf then mret x else c).
    { intros c. unfold reaches. destruct (usable nf), (ip4_addr_netcmp _ _ _), (negb _), (_ =? _); done. }
    rewrite Hcase. destruct (reaches dest nf) eqn:Er.
    + exists x. split; [done|]. left. auto.
    + destruct (IH fuel (nf_next nf) Hl ltac:(cbn in Hf; lia)) as (r & -> & Hr). exists r. split; [done|].
      destruct Hr as [[? ?]|[? ?]]; [left | right]; (split; [done|]);
        [by eapply first_such_cons | by eapply none_such_cons].
Qed.

(** C33: [ip4_route] returns, for a multicast destination, the interface set for multicast if there
    is one, otherwise the first interface of the list that is up, has a link and an address, and
    whose network contains the destination (or, for an interface without broadcasts, whose peer it
    is), otherwise the default interface if it is usable, otherwise [NULL]; it changes nothing. *)
Theorem ip4_route_first dest l s :
  netifs_ok l s →
  ∃ r, ip4_route dest s = Some (r, s) ∧
    let mcast := is_mcast_netif (as_link s) in
    let default := is_netif_default (as_link s) in
    (ip4_addr_ismulticast dest = true ∧ mcast ≠ 0 ∧ r = mcast ∨
     (ip4_addr_ismulticast dest = false ∨ mcast = 0) ∧
     (first_such (as_netifs s) (reaches dest) l r ∨
      none_such (as_netifs s) (reaches dest) l ∧
      ((∃ nf, as_netifs s !! default = Some nf ∧ usable nf = true ∧ r = default ∧ r ∈ l) ∨
       r = 0 ∧ (default = 0 ∨ ∃ nf, as_netifs s !! default = Some nf ∧ usable nf = false)))).
Proof.
  intros [Hl Hnd Hd]. unfold ip4_route. rewrite (prog_bind_step _ _ s (is_mcast_netif (as_link s)) s) by done.
  destruct (ip4_addr_ismulticast dest && negb (is_mcast_netif (as_link s) =? 0)) eqn:Em.
  { apply andb_true_iff in Em as [E1 E2]. apply negb_true_iff, Z.eqb_neq in E2.
    exists (is_mcast_netif (as_link s)). split; [done|]. by left. }
  assert (Hm : ip4_addr_ismulticast dest = false ∨ is_mcast_netif (as_link s) = 0).
  { apply andb_false_iff in Em as [?|E]; [by left | right]. by apply negb_false_iff, Z.eqb_eq in E. }
  rewrite (prog_bind_step _ _ s (netif_fuel s) s) by done.
  rewrite (prog_bind_step _ _ s (is_netif_list (as_link s)) s) by done.
  destruct (route_loop_run dest s l (netif_fuel s) _ Hl) as (r & Er & Hr).
  { pose proof (llist_length _ _ _ Hl Hnd). unfold netif_fuel. lia. }
  rewrite (prog_bind_step _ _ _ _ _ Er). destruct Hr as [[Hr0 Hr]|[-> Hr]].
  { rewrite (proj2 (Z.eqb_neq r 0)) by done. exists r. split; [done|]. right. by auto. }
  cbn [Z.eqb negb]. rewrite (prog_bind_step _ _ s (is_netif_default (as_link s)) s) by done.
  destruct (Z.eqb_spec (is_netif_default (as_link s)) 0) as [E0|E0].
  { exists 0. split; [done|]. right. split; [done|]. right. split; [done|]. right. split; [done|]. by left. }
  destruct Hd as [|Hd]; [done|]. destruct (llist_lookup _ _ _ _ Hl Hd) as [nf Hnf].
  rewrite (prog_bind_step _ _ s nf s) by (by apply the_netif_run).
  destruct (usable nf) eqn:Eu.
  - exists (is_netif_default (as_link s)). split; [|right; split; [done|]; right; split; [done|]; left; by exists nf].
    unfold usable in Eu. by destruct (netif_is_up nf), (netif_is_link_up nf), (ip4_addr_isany _).
  - exists 0. split; [|right; split; [done|]; right; split; [done|]; right; split; [done|]; right; by exists nf].
    unfold usable in Eu. by destruct (netif_is_up nf), (netif_is_link_up nf), (ip4_addr_isany _).
Qed.

(** ** The interface that accepts a packet *)

(** The part of the walk that goes on behind an interface that does not accept. *)
Lemma accept_next dest inp nfi s fuel l n :
  as_netifs s !! inp = Some nfi → inp ≠ 0 → nlist (as_netifs s) n l → NoDup l →
  (∀ x l', (length l' < length l)%nat ∨ l' = l → nlist (as_netifs s) x l' → NoDup l' → x ≠ inp → x ≠ 0 →
     ∃ r, ip4_accept fuel false dest inp x s = Some (r, s) ∧
       search_result (as_netifs s) (λ nf, accepts nf dest) (others inp l') r) →
  ∃ r, (next ← (if n =? inp then i ← the_netif inp; mret (nf_next i) else mret n);
        if next =? 0 then mret 0 else ip4_accept fuel false dest inp next) s = Some (r, s) ∧
    search_result (as_netifs s) (λ nf, accepts nf dest) (others inp l) r.
Proof.
  intros Hi Hi0 Hl Hnd Hrec.
  assert (Hgo : ∀ n' l', (length l' < length l)%nat ∨ l' = l → nlist (as_netifs s) n' l' → NoDup l' → n' ≠ inp →
    ∃ r, (if n' =? 0 then mret 0 else ip4_accept fuel false dest inp n') s = Some (r, s) ∧
      search_result (as_netifs s) (λ nf, accepts nf dest) (others inp l') r).
  { intros n' l' Hlen Hl' Hnd' Hne. destruct (Z.eqb_spec n' 0) as [->|H0]; [|by apply Hrec].
    exists 0. split; [done|]. destruct l' as [|y l']; [apply search_nil|].
    destruct Hl' as (E & Hy & _). congruence. }
  destruct (Z.eqb_spec n inp) as [->|Hne].
  - destruct l as [|x l]; [cbn in Hl; congruence|]. destruct Hl as (<- & _ & nf & Hnf & Hl).
    assert (nf = nfi) as -> by congruence. apply list.NoDup_cons in Hnd as [Hnx Hnd].
    rewrite (prog_bind_step _ _ s (nf_next nfi) s)
      by (rewrite (prog_bind_step _ _ s nfi s) by (by apply the_netif_run); done).
    rewrite filter_cons_False by tauto. apply Hgo; [left; cbn; lia | done | done |].
    intros E. destruct l as [|y l]; [cbn in Hl; congruence|]. destruct Hl as (E' & _). set_solver.
  - rewrite (prog_bind_step _ _ s n s) by done. apply Hgo; [by right | done..].
Qed.

Lemma accept_walk dest inp nfi s : ∀ k l fuel n,
  (length l ≤ k)%nat → (k ≤ fuel)%nat → as_netifs s !! inp = Some nfi → inp ≠ 0 →
  nlist (as_netifs s) n l → NoDup l → n ≠ inp → n ≠ 0 →
  ∃ r, ip4_accept fuel false dest inp n s = Some (r, s) ∧
    search_result (as_netifs s) (λ nf, accepts nf dest) (others inp l) r.
Proof.
  induction k as [|k IH]; intros l fuel n Hk Hf Hi Hi0 Hl Hnd Hne H0.
  { destruct l; [by cbn in Hl | cbn in Hk; lia]. }
  destruct fuel as [|fuel]; [lia|]. destruct l as [|x l]; [by cbn in Hl|].
  destruct Hl as (-> & _ & nf & Hnf & Hl). apply list.NoDup_cons in Hnd as [Hnx Hnd].
  cbn [ip4_accept]. rewrite (prog_bind_step _ _ s nf s) by (by apply the_netif_run).
  rewrite filter_cons_True by done. destruct (accepts nf dest) eqn:Ea.
  { exists x. split; [done|]. left. split; [done|]. exists [], (others inp l), nf.
    split; [done|]. split; [done|]. split; [done|]. set_solver. }
  cbn [andb]. rewrite (prog_bind_step _ _ s (nf_next nf) s) by done.
  destruct (accept_next dest inp nfi s fuel l (nf_next nf) Hi Hi0 Hl Hnd) as (r & E & Hr).
  - intros y l' Hlen Hl' Hnd' Hy Hy0. apply IH; try done; [|cbn in Hk; lia].
    destruct Hlen as [?| ->]; cbn in Hk; lia.
  - exists r. split; [exact E|]. by apply (search_cons _ _ _ _ _ nf).
Qed.

(** The interface the packet came in on is asked first, then the others in
    the order of the list; a loopback address is for no interface that does
    not have it. *)
Lemma accept_run dest inp nfi l s :
  netifs_ok l s → as_netifs s !! inp = Some nfi → inp ≠ 0 →
  ∃ r, ip4_accept (netif_fuel s) true dest inp inp s = Some (r, s) ∧
    (accepts nfi dest = true ∧ r = inp ∨
     accepts nfi dest = false ∧ ip4_addr_isloopback dest = true ∧ r = 0 ∨
     accepts nfi dest = false ∧ ip4_addr_isloopback dest = false ∧
     search_result (as_netifs s) (λ nf, accepts nf dest) (others inp l) r).
Proof.
  intros [Hl Hnd _] Hi Hi0. unfold netif_fuel. cbn [ip4_accept].
  rewrite (prog_bind_step _ _ s nfi s) by (by apply the_netif_run).
  destruct (accepts nfi dest) eqn:Ea; [exists inp; split; [done | by left]|]. cbn [andb].
  destruct (ip4_addr_isloopback dest) eqn:Elo; [exists 0; split; [done | right; by left]|].
  rewrite (prog_bind_step _ _ s (is_netif_list (as_link s)) s) by done.
  pose proof (llist_length _ _ _ Hl Hnd) as Hlen.
  destruct (accept_next dest inp nfi s (S (size (as_netifs s))) l _ Hi Hi0 Hl Hnd) as (r & E & Hr).
  - intros y l' Hll Hl' Hnd' Hy Hy0. apply (accept_walk dest inp nfi s (length l)); try done; [|lia].
    destruct Hll as [?| ->]; lia.
  - exists r. split; [exact E|]. right. right. auto.
Qed.
End routing.

(** ** Receiving *)

(** A field of the header in the bytes of the packet, as the code reads it. *)
Definition field (k n : nat) (d : bytes) : Z := of_le (take n (drop k d)).
Definition hdr_hlen (d : bytes) : Z := Z.land (field 0 1 d) 0x0f * 4.
Definition hdr_len (d : bytes) : Z := lwip_htons (field 2 2 d).
Definition hdr_fragment (d : bytes) : bool :=
  negb (Z.land (field 6 2 d) (PP_HTONS (Z.lor IP_OFFMASK IP_MF)) =? 0).
Definition hdr_proto (d : bytes) : Z := field 9 1 d.
Definition hdr_src (d : bytes) : Z := field 12 4 d.
Definition hdr_dest (d : bytes) : Z := field 16 4 d.

Lemma head_bytes q p b l d k n :
  chain_at q p ((p, b) :: l) d → Z.of_nat (k + n) ≤ pb_len b →
  load_bytes (ps_bytes q) (pb_payload b + Z.of_nat k) n = Some (take n (drop k d)).
Proof.
  intros [_ _ Hd] Hk. destruct (pbytes_cons _ _ _ _ _ Hd) as (x & y & -> & Ex & _ & Hx).
  destruct (load_bytes_split _ _ _ _ k Ex) as [_ E1]; [lia|].
  destruct (load_bytes_split _ _ _ _ n E1) as [E2 _]; [lia|]. rewrite E2. f_equal.
  rewrite drop_app_le by lia. rewrite take_app_le by (rewrite length_drop; lia). done.
Qed.

Lemma peek_head {W} (s : istate W) p b l d k n :
  chain_at (as_packets s) p ((p, b) :: l) d → Z.of_nat (k + n) ≤ pb_len b →
  peek (pb_payload b + Z.of_nat k) n s = Some (take n (drop k d), s).
Proof.
  intros Hc Hk. unfold peek, packets. rewrite (head_bytes _ _ _ _ _ _ _ Hc Hk). by destruct s.
Qed.

Lemma peek_head0 {W} (s : istate W) p b l d n :
  chain_at (as_packets s) p ((p, b) :: l) d → Z.of_nat n ≤ pb_len b →
  peek (pb_payload b) n s = Some (take n d, s).
Proof.
  intros Hc Hn. pose proof (peek_head s p b l d 0 n Hc Hn) as H. by rewrite Z.add_0_r in H.
Qed.

Section receiving.
  Context {W : Type}.
  Context (udp_input tcp_input icmp_input : Z → Z → prog (istate W) unit).
  Context (igmp_input : Z → Z → Z → prog (istate W) unit).
  Context (icmp_dest_unreach : Z → Z → prog (istate W) unit).
  Context (igmp_lookfor_group : Z → Z → prog (istate W) bool).
  Implicit Types s : istate W.
  #[local] Set Default Proof Using "All".

Abbreviation input := (ip4_input udp_input tcp_input icmp_input igmp_input icmp_dest_unreach igmp_lookfor_group).
Abbreviation dispatch :=
  (ip4_dispatch udp_input tcp_input icmp_input igmp_input icmp_dest_unreach igmp_lookfor_group).
Abbreviation deliver := (ip4_deliver udp_input tcp_input icmp_input igmp_input icmp_dest_unreach).

(** The bookkeeping of heap and pools that [pbuf_realloc] relies on. *)
Definition can_trim (q : pstate) (l : chain) : Prop :=
  ∃ fl out bs, owned q fl out bs ∧ Forall (ram_fits q bs) l ∧ Forall ref_ok l.

(** The version and the lengths are right: the packet is cut to its length. *)
Lemma input_lengths s p inp b l d :
  chain_at (as_packets s) p ((p, b) :: l) d →
  (hdr_len d < Z.of_nat (length d) → can_trim (as_packets s) ((p, b) :: l)) →
  Z.shiftr (field 0 1 d) 4 = 4 → IP_HLEN ≤ hdr_hlen d ≤ Z.min (pb_len b) (hdr_len d) →
  hdr_len d ≤ Z.of_nat (length d) →
  ∃ q' b' l', input p inp s = dispatch p inp (pb_payload b) (hdr_hlen d) (set_packets q' s) ∧
    chain_at q' p ((p, b') :: l') (take (Z.to_nat (hdr_len d)) d) ∧
    pb_payload b' = pb_payload b ∧ pb_type b' = pb_type b ∧
    Z.min (pb_len b) (hdr_len d) ≤ pb_len b'.
Proof.
  intros Hc Htrim Hv Hh Hlen. unfold IP_HLEN in Hh.
  destruct (chain_at_head _ _ _ _ _ _ Hc) as (_ & Hp0 & Eb & Et).
  assert (Hn : 0 ≤ hdr_len d < 65536) by (apply Z.mod_pos_bound; lia).
  unfold ip4_input.
  rewrite (prog_bind_step _ _ s b s)
    by (unfold packets, deref; rewrite Eb; by destruct s).
  cbv zeta. rewrite (prog_bind_step _ _ _ _ _ (peek_head0 s p b l d 1 Hc ltac:(lia))).
  change (of_le (take 1 d)) with (field 0 1 d). rewrite Hv. cbn [Z.eqb Pos.eqb negb].
  rewrite (prog_bind_step _ _ _ _ _ (peek_head s p b l d 2 2 Hc ltac:(lia))).
  change (lwip_htons (of_le (take 2 (drop 2 d)))) with (hdr_len d).
  assert (Hcut : ∃ q' b' l', (when (hdr_len d <? pb_tot_len b) (packets (pbuf_realloc p (hdr_len d)))) s
      = Some (tt, set_packets q' s) ∧ chain_at q' p ((p, b') :: l') (take (Z.to_nat (hdr_len d)) d) ∧
    pb_payload b' = pb_payload b ∧ pb_type b' = pb_type b ∧ Z.min (pb_len b) (hdr_len d) ≤ pb_len b').
  { destruct (Z.ltb_spec (hdr_len d) (pb_tot_len b)) as [Hlt|Hge]; cbn [when].
    - destruct (Htrim ltac:(lia)) as (fl & out & bs & Ho & Hfit & Href).
      destruct (pbuf_realloc_spec _ _ _ _ p _ d (hdr_len d) Ho Hc ltac:(done) Hfit Href Hn)
        as (q' & _ & _ & _ & l' & E & _ & _ & Hc' & _ & Hhd).
      destruct (Hhd _ _ _ eq_refl) as (b' & tl' & -> & H1 & H2 & H3).
      exists q', b', tl'. unfold packets. rewrite E. split; [done|]. auto.
    - exists (as_packets s), b, l. split; [by destruct s|].
      rewrite take_ge by lia. split; [done|]. split; [done|]. split; [done | lia]. }
  destruct Hcut as (q' & b' & l' & Ecut & Hc' & Hpay & Hty & Hmin).
  rewrite (prog_bind_step _ _ _ _ _ Ecut).
  destruct (chain_at_head _ _ _ _ _ _ Hc') as (_ & _ & Eb' & Et').
  rewrite (prog_bind_step _ _ (set_packets q' s) b' (set_packets q' s))
    by (unfold packets, deref; cbn; rewrite Eb'; done).
  change (Z.land (field 0 1 d) 15 * 4) with (hdr_hlen d). unfold IP_HLEN.
  rewrite (proj2 (Z.ltb_ge (pb_len b') (hdr_hlen d))), (proj2 (Z.ltb_ge (hdr_hlen d) 20)) by lia.
  rewrite (proj2 (Z.ltb_ge (pb_tot_len b') _)) by (rewrite Et', length_take; lia).
  cbn [orb]. exists q', b', l'. auto.
Qed.

(** The state with other [ip_data]. *)
Definition with_data (g : ip_globals) (s : istate W) : istate W :=
  AState (as_table s) (as_cached s) (as_netifs s) (as_packets s) (set_data g (as_link s)).

(** The interface that the search gives for a unicast or broadcast address. *)
Definition target_of (s : istate W) (nl : list Z) (inp : Z) (nfi : netif) (dest r : Z) : Prop :=
  accepts nfi dest = true ∧ r = inp ∨
  accepts nfi dest = false ∧ ip4_addr_isloopback dest = true ∧ r = 0 ∨
  accepts nfi dest = false ∧ ip4_addr_isloopback dest = false ∧
  search_result (as_netifs s) (λ nf, accepts nf dest) (others inp nl) r.

(** A DHCP message: a UDP packet to the client port. *)
Definition is_dhcp (d : bytes) : bool :=
  (hdr_proto d =? IP_PROTO_UDP)
  && (field (Z.to_nat (hdr_hlen d) + 2) 2 d =? PP_HTONS DHCP_CLIENT_PORT).

(** A source address that no packet may have. *)
Definition bad_source (nfi : netif) (src : Z) : bool :=
  negb (ip4_addr_isany src) && (negb (ip4_addr_isbroadcast_u32 src nfi =? 0) || ip4_addr_ismulticast src).

Lemma target_run s nl inp nfi dest src :
  netifs_ok nl s → as_netifs s !! inp = Some nfi → inp ≠ 0 → ip4_addr_ismulticast dest = false →
  ∃ r, ip4_target igmp_lookfor_group inp dest src s = Some ((r, true), s) ∧ target_of s nl inp nfi dest r.
Proof.
  intros Hok Hi Hi0 Hm. unfold ip4_target. rewrite Hm.
  destruct (accept_run dest inp nfi nl s Hok Hi Hi0) as (r & E & Hr). exists r. split; [|exact Hr].
  rewrite (prog_bind_step _ _ s (netif_fuel s) s) by done. by rewrite (prog_bind_step _ _ _ _ _ E).
Qed.

Definition finish : prog (istate W) Z :=
  set_current (λ _, IpGlobals 0 0 0 0 IPADDR_ANY IPADDR_ANY) ;; mret ERR_OK.

(** The search for the interface gives what [T] says, and changes nothing. *)
Definition target_like (inp dest src : Z) (T : Z → bool → Prop) s : Prop :=
  ∃ r chk, ip4_target igmp_lookfor_group inp dest src s = Some ((r, chk), s) ∧ T r chk.

(** The addresses decide. *)
Lemma dispatch_run s p inp b l d nfi (T : Z → bool → Prop) :
  chain_at (as_packets s) p ((p, b) :: l) d → IP_HLEN ≤ hdr_hlen d ≤ pb_len b →
  (hdr_proto d = IP_PROTO_UDP → hdr_hlen d + 4 ≤ pb_len b) → as_netifs s !! inp = Some nfi →
  (∀ g, target_like inp (hdr_dest d) (hdr_src d) T (with_data g s)) →
  ∃ r chk g, T r chk ∧ dispatch p inp (pb_payload b) (hdr_hlen d) s
    = (let dhcp := (r =? 0) && is_dhcp d in
       let netif := if dhcp then inp else r in
       if negb dhcp && (chk && bad_source nfi (hdr_src d)) then drop_packet p
       else if netif =? 0 then drop_packet p
       else if hdr_fragment d then drop_packet p
       else set_current (λ _, IpGlobals netif inp (pb_payload b) (hdr_hlen d) (hdr_src d) (hdr_dest d)) ;;
            deliver p inp netif (pb_payload b) (hdr_hlen d) (hdr_dest d) ;; finish) (with_data g s).
Proof.
  intros Hc Hh Hudp Hi HT. unfold IP_HLEN in Hh. unfold ip4_dispatch.
  rewrite (prog_bind_step _ _ _ _ _ (peek_head s p b l d 16 4 Hc ltac:(lia))).
  change (of_le (take 4 (drop 16 d))) with (hdr_dest d). cbv zeta.
  set (g0 := is_data (as_link s)).
  set (g1 := IpGlobals (current_netif g0) (current_input_netif g0) (current_ip4_header g0)
               (current_ip_header_tot_len g0) (current_iphdr_src g0) (hdr_dest d)).
  rewrite (prog_bind_step _ _ s tt (with_data g1 s)) by done.
  assert (Hc1 : chain_at (as_packets (with_data g1 s)) p ((p, b) :: l) d) by done.
  rewrite (prog_bind_step _ _ _ _ _ (peek_head _ p b l d 12 4 Hc1 ltac:(lia))).
  change (of_le (take 4 (drop 12 d))) with (hdr_src d).
  set (g := IpGlobals (current_netif g0) (current_input_netif g0) (current_ip4_header g0)
               (current_ip_header_tot_len g0) (hdr_src d) (hdr_dest d)).
  rewrite (prog_bind_step _ _ (with_data g1 s) tt (with_data g s)) by done.
  assert (Hc2 : chain_at (as_packets (with_data g s)) p ((p, b) :: l) d) by done.
  destruct (HT g) as (r & chk & Er & Hr).
  rewrite (prog_bind_step _ _ _ _ _ Er). exists r, chk, g. split; [exact Hr|].
  rewrite (prog_bind_step _ _ (with_data g s)
    (if (r =? 0) && is_dhcp d then (inp, false) else (r, chk)) (with_data g s)).
  2: { destruct (r =? 0); [|done]. cbn [andb].
       rewrite (prog_bind_step _ _ _ _ _ (peek_head _ p b l d 9 1 Hc2 ltac:(lia))).
       change (of_le (take 1 (drop 9 d))) with (hdr_proto d). unfold is_dhcp.
       destruct (Z.eqb_spec (hdr_proto d) IP_PROTO_UDP) as [Ep|Ep]; [|done]. specialize (Hudp Ep).
       replace (pb_payload b + hdr_hlen d + 2) with (pb_payload b + Z.of_nat (Z.to_nat (hdr_hlen d) + 2)) by lia.
       rewrite (prog_bind_step _ _ _ _ _ (peek_head _ p b l d (Z.to_nat (hdr_hlen d) + 2) 2 Hc2 ltac:(lia))).
       cbn [andb]. by destruct (_ =? _). }
  assert (Hrest : ∀ netif, (off ← peek (pb_payload b + 6) 2;
     if negb (Z.land (of_le off) (PP_HTONS (Z.lor IP_OFFMASK IP_MF)) =? 0) then drop_packet p else
     vhl ← peek (pb_payload b) 1;
     set_current (λ g, IpGlobals netif inp (pb_payload b) (Z.land (of_le vhl) 15 * 4) (current_iphdr_src g)
                         (current_iphdr_dest g)) ;;
     deliver p inp netif (pb_payload b) (hdr_hlen d) (hdr_dest d) ;; finish) (with_data g s)
   = (if hdr_fragment d then drop_packet p else
      set_current (λ _, IpGlobals netif inp (pb_payload b) (hdr_hlen d) (hdr_src d) (hdr_dest d)) ;;
      deliver p inp netif (pb_payload b) (hdr_hlen d) (hdr_dest d) ;; finish) (with_data g s)).
  { intros netif. rewrite (prog_bind_step _ _ _ _ _ (peek_head _ p b l d 6 2 Hc2 ltac:(lia))).
    unfold hdr_fragment. fold (field 6 2 d). destruct (negb _); [done|].
    by rewrite (prog_bind_step _ _ _ _ _ (peek_head0 _ p b l d 1 Hc2 ltac:(lia))). }
  unfold finish in Hrest. unfold bad_source.
  destruct ((r =? 0) && is_dhcp d); cbv zeta; cbn [negb andb];
    rewrite (prog_bind_step _ _ _ _ _ (the_netif_run inp nfi (with_data g s) Hi)); cbn [andb].
  - destruct (inp =? 0); [done|]. apply Hrest.
  - rewrite andb_assoc. destruct (_ && _); [done|]. destruct (r =? 0); [done|]. apply Hrest.
Qed.

(** Cutting the packet to its length does not change the header. *)
Lemma field_take k n m (d : bytes) : (k + n ≤ m)%nat → field k n (take m d) = field k n d.
Proof. intros H. unfold field. by rewrite skipn_firstn_comm, take_take, Nat.min_l by lia. Qed.

Lemma hdr_take (m : nat) d :
  (20 ≤ m)%nat → let d' := take m d in
  hdr_hlen d' = hdr_hlen d ∧ hdr_fragment d' = hdr_fragment d ∧ hdr_proto d' = hdr_proto d ∧
  hdr_src d' = hdr_src d ∧ hdr_dest d' = hdr_dest d.
Proof.
  intros Hm d'. unfold hdr_hlen, hdr_fragment, hdr_proto, hdr_src, hdr_dest, d'.
  by rewrite !field_take by lia.
Qed.

Definition protocol_input (proto p inp dest : Z) : prog (istate W) unit :=
  if proto =? IP_PROTO_UDP then udp_input p inp
  else if proto =? IP_PROTO_TCP then tcp_input p inp
  else if proto =? IP_PROTO_ICMP then icmp_input p inp
  else igmp_input p inp dest.
Definition supported (proto : Z) : Prop :=
  proto ∈ [IP_PROTO_UDP; IP_PROTO_TCP; IP_PROTO_ICMP; IP_PROTO_IGMP].

Lemma deliver_run s p inp n b l d :
  chain_at (as_packets s) p ((p, b) :: l) d → IP_HLEN ≤ hdr_hlen d ≤ pb_len b →
  p + SIZEOF_STRUCT_PBUF ≤ pb_payload b → supported (hdr_proto d) →
  let q' := header_state (as_packets s) p (hide (hdr_hlen d) b) in
  deliver p inp n (pb_payload b) (hdr_hlen d) (hdr_dest d) s
  = protocol_input (hdr_proto d) p inp (hdr_dest d) (set_packets q' s) ∧
  chain_at q' p ((p, hide (hdr_hlen d) b) :: l) (drop (Z.to_nat (hdr_hlen d)) d).
Proof.
  intros Hc Hh Hpay Hsup q'. unfold IP_HLEN in Hh.
  destruct (chain_at_head _ _ _ _ _ _ Hc) as (_ & Hp0 & Eb & _).
  pose proof Hc as [_ (Hb0 & Ht & Hm & Hl') _]. cbn [lens] in Ht. pose proof (lens_nonneg _ Hl').
  assert (Hmax : hdr_hlen d ≤ 60).
  { unfold hdr_hlen. assert (Z.land (field 0 1 d) 15 < 16); [|lia].
    change 15 with (Z.ones 4). rewrite Z.land_ones by lia. apply Z.mod_pos_bound. lia. }
  split; [|apply chain_at_hide; done || lia]. unfold ip4_deliver.
  rewrite (prog_bind_step _ _ s 0 (set_packets q' s)).
  2: { unfold packets. by rewrite (header_hide_run _ _ b) by (done || lia). }
  rewrite (prog_bind_step _ _ (set_packets q' s) (take 1 (drop 9 d)) (set_packets q' s)).
  2: { pose proof (head_bytes _ p b l d 9 1 Hc ltac:(lia)) as E. change (Z.of_nat 9) with 9 in E.
       unfold peek, packets. change (ps_bytes (as_packets (set_packets q' s))) with (ps_bytes (as_packets s)).
       by rewrite E. }
  change (of_le (take 1 (drop 9 d))) with (hdr_proto d). unfold protocol_input.
  destruct (Z.eqb_spec (hdr_proto d) IP_PROTO_UDP); [done|].
  destruct (Z.eqb_spec (hdr_proto d) IP_PROTO_TCP); [done|].
  destruct (Z.eqb_spec (hdr_proto d) IP_PROTO_ICMP); [done|].
  destruct (Z.eqb_spec (hdr_proto d) IP_PROTO_IGMP); [done|].
  unfold supported in Hsup. rewrite !elem_of_cons, elem_of_nil in Hsup. tauto.
Qed.

(** What the packet and its addresses must satisfy for the length checks. *)
Record good_header (s : istate W) (p : Z) (b : pbuf) (l : chain) (d : bytes) : Prop := {
  gh_chain : chain_at (as_packets s) p ((p, b) :: l) d;
  gh_trim : hdr_len d < Z.of_nat (length d) → can_trim (as_packets s) ((p, b) :: l);
  gh_version : Z.shiftr (field 0 1 d) 4 = 4;
  gh_hlen : IP_HLEN ≤ hdr_hlen d ≤ Z.min (pb_len b) (hdr_len d);
  gh_len : hdr_len d ≤ Z.of_nat (length d);
  gh_udp : hdr_proto d = IP_PROTO_UDP → hdr_hlen d + 4 ≤ Z.min (pb_len b) (hdr_len d)
}.

(** Both stages together. *)
Lemma input_target s p inp b l d nfi T :
  good_header s p b l d → as_netifs s !! inp = Some nfi →
  (∀ q g, target_like inp (hdr_dest d) (hdr_src d) T (with_data g (set_packets q s))) →
  ∃ r chk q' b' l' g, T r chk ∧
    let d' := take (Z.to_nat (hdr_len d)) d in
    let s' := with_data g (set_packets q' s) in
    chain_at q' p ((p, b') :: l') d' ∧ pb_payload b' = pb_payload b ∧ pb_type b' = pb_type b ∧
    Z.min (pb_len b) (hdr_len d) ≤ pb_len b' ∧
    input p inp s
    = (let dhcp := (r =? 0) && is_dhcp d' in
       let netif := if dhcp then inp else r in
       if negb dhcp && (chk && bad_source nfi (hdr_src d)) then drop_packet p
       else if netif =? 0 then drop_packet p
       else if hdr_fragment d then drop_packet p
       else set_current (λ _, IpGlobals netif inp (pb_payload b) (hdr_hlen d) (hdr_src d) (hdr_dest d)) ;;
            deliver p inp netif (pb_payload b) (hdr_hlen d) (hdr_dest d) ;; finish) s'.
Proof.
  intros [Hc Htrim Hv Hh Hlen Hudp] Hi HT. unfold IP_HLEN in Hh.
  destruct (input_lengths s p inp b l d Hc Htrim Hv Hh Hlen) as (q' & b' & l' & E & Hc' & Hpay & Hty & Hmin).
  set (d' := take (Z.to_nat (hdr_len d)) d) in *.
  destruct (hdr_take (Z.to_nat (hdr_len d)) d ltac:(lia)) as (E1 & E2 & E3 & E4 & E5). fold d' in E1, E2, E3, E4, E5.
  destruct (dispatch_run (set_packets q' s) p inp b' l' d' nfi T Hc') as (r & chk & g & Ht & Ed);
    rewrite ?E1, ?E2, ?E3, ?E4, ?E5 in *; try done.
  - unfold IP_HLEN. lia.
  - intros Hp. specialize (Hudp Hp). lia.
  - exists r, chk, q', b', l', g. split; [exact Ht|]. split; [done|]. split; [done|]. split; [done|]. split; [lia|].
    rewrite E, <- Hpay. exact Ed.
Qed.

(** The search for a unicast or broadcast address. *)
Lemma unicast_target s nl inp nfi dest src q g :
  netifs_ok nl s → as_netifs s !! inp = Some nfi → inp ≠ 0 → ip4_addr_ismulticast dest = false →
  target_like inp dest src (λ r chk, target_of s nl inp nfi dest r ∧ chk = true) (with_data g (set_packets q s)).
Proof.
  intros Hok Hi Hi0 Hm.
  destruct (target_run (with_data g (set_packets q s)) nl inp nfi dest src) as (r & E & Hr); try done; [by destruct Hok; split|].
  exists r, true. split; [exact E|]. by split.
Qed.

(** The state in which the protocol runs. *)
Lemma input_accepted s p inp b l d nfi T :
  good_header s p b l d → p + SIZEOF_STRUCT_PBUF ≤ pb_payload b → as_netifs s !! inp = Some nfi → inp ≠ 0 →
  hdr_fragment d = false → supported (hdr_proto d) →
  (∀ q g, target_like inp (hdr_dest d) (hdr_src d) T (with_data g (set_packets q s))) →
  ∃ r chk, T r chk ∧
    let payload := take (Z.to_nat (hdr_len d)) d in
    (r ≠ 0 ∧ chk && bad_source nfi (hdr_src d) = false ∨ r = 0 ∧ is_dhcp payload = true →
     ∃ q' b' l', let g := IpGlobals (if r =? 0 then inp else r) inp (pb_payload b) (hdr_hlen d) (hdr_src d) (hdr_dest d) in
       chain_at q' p ((p, b') :: l') (drop (Z.to_nat (hdr_hlen d)) payload) ∧
       pb_payload b' = pb_payload b + hdr_hlen d ∧ pb_type b' = pb_type b ∧
       Z.min (pb_len b) (hdr_len d) - hdr_hlen d ≤ pb_len b' ∧
       load_bytes (ps_bytes q') (pb_payload b) (Z.to_nat (hdr_hlen d)) = Some (take (Z.to_nat (hdr_hlen d)) d) ∧
       input p inp s = (protocol_input (hdr_proto d) p inp (hdr_dest d) ;; finish) (with_data g (set_packets q' s))).
Proof.
  intros Hgh Hpay Hi Hi0 Hfr Hsup HT. pose proof Hgh as [_ _ _ Hh Hlen _]. unfold IP_HLEN in Hh.
  destruct (input_target s p inp b l d nfi T Hgh Hi HT) as (r & chk & q' & b' & l' & g & Ht & Hc' & Hpb & Hty & Hlb & E).
  exists r, chk. split; [exact Ht|]. cbv zeta. set (d' := take (Z.to_nat (hdr_len d)) d) in *.
  destruct (hdr_take (Z.to_nat (hdr_len d)) d ltac:(lia)) as (E1 & E2 & E3 & E4 & E5). fold d' in E1, E2, E3, E4, E5.
  intros Hacc. rewrite E. cbv zeta. rewrite Hfr.
  set (n := if (r =? 0) && is_dhcp d' then inp else r).
  assert (Hn : n ≠ 0 ∧ n = (if r =? 0 then inp else r) ∧
               negb ((r =? 0) && is_dhcp d') && (chk && bad_source nfi (hdr_src d)) = false).
  { unfold n. destruct Hacc as [[Hr Hb]|[-> Hd]].
    - rewrite (proj2 (Z.eqb_neq r 0)), Hb by done. done.
    - by rewrite Hd. }
  destruct Hn as (Hn0 & Hn & ->). rewrite (proj2 (Z.eqb_neq n 0)), Hn by done.
  set (s1 := with_data (IpGlobals (if r =? 0 then inp else r) inp (pb_payload b) (hdr_hlen d) (hdr_src d)
                          (hdr_dest d)) (set_packets q' s)).
  destruct (deliver_run s1 p inp (if r =? 0 then inp else r) b' l' d') as [Ed Hcd]; try done;
    rewrite ?E1, ?E3, ?Hpb; try done; [unfold IP_HLEN; lia|].
  rewrite E1, E3, E5, Hpb in Ed. rewrite E1 in Hcd. cbn [as_packets s1 with_data set_packets] in Hcd.
  exists (header_state q' p (hide (hdr_hlen d) b')), (hide (hdr_hlen d) b'), l'.
  split; [exact Hcd|]. split; [cbn; lia|]. split; [done|]. split; [cbn; lia|]. split.
  - pose proof (head_bytes _ p b' l' d' 0 (Z.to_nat (hdr_hlen d)) Hc' ltac:(lia)) as E0.
    rewrite Z.add_0_r, Hpb in E0. cbn [header_state ps_bytes]. rewrite E0. unfold d'.
    by rewrite drop_0, take_take, Nat.min_l by lia.
  - rewrite (prog_bind_step _ _ _ tt s1) by done. unfold mbind, prog_bind. by rewrite Ed.
Qed.

Lemma input_delivered s p inp b l d nl nfi :
  good_header s p b l d → p + SIZEOF_STRUCT_PBUF ≤ pb_payload b →
  netifs_ok nl s → as_netifs s !! inp = Some nfi → inp ≠ 0 →
  ip4_addr_ismulticast (hdr_dest d) = false → hdr_fragment d = false → supported (hdr_proto d) →
  ∃ r, target_of s nl inp nfi (hdr_dest d) r ∧
    let payload := take (Z.to_nat (hdr_len d)) d in
    (r ≠ 0 ∧ bad_source nfi (hdr_src d) = false ∨ r = 0 ∧ is_dhcp payload = true →
     ∃ q' b' l', let g := IpGlobals (if r =? 0 then inp else r) inp (pb_payload b) (hdr_hlen d) (hdr_src d) (hdr_dest d) in
       chain_at q' p ((p, b') :: l') (drop (Z.to_nat (hdr_hlen d)) payload) ∧
       pb_payload b' = pb_payload b + hdr_hlen d ∧ pb_type b' = pb_type b ∧
       Z.min (pb_len b) (hdr_len d) - hdr_hlen d ≤ pb_len b' ∧
       load_bytes (ps_bytes q') (pb_payload b) (Z.to_nat (hdr_hlen d)) = Some (take (Z.to_nat (hdr_hlen d)) d) ∧
       input p inp s = (protocol_input (hdr_proto d) p inp (hdr_dest d) ;; finish) (with_data g (set_packets q' s))).
Proof.
  intros Hgh Hpay Hok Hi Hi0 Hm Hfr Hsup.
  destruct (input_accepted s p inp b l d nfi _ Hgh Hpay Hi Hi0 Hfr Hsup
    (λ q g, unicast_target s nl inp nfi (hdr_dest d) (hdr_src d) q g Hok Hi Hi0 Hm)) as (r & chk & [Ht ->] & H).
  by exists r.
Qed.

(** C13: [ip4_input] hands a packet for an address of ours, with a valid header, to the one protocol
    that its header names, cut to the length of the IP packet and without the IP header, with the
    addresses and the accepting interface recorded while the protocol runs and cleared afterwards:
    the receiving interface is asked first, then the others in the order of the list, and a DHCP
    message is accepted although no interface has its address. *)
Theorem ip4_input_delivers s p inp b l d nl nfi :
  good_header s p b l d → p + SIZEOF_STRUCT_PBUF ≤ pb_payload b →
  netifs_ok nl s → as_netifs s !! inp = Some nfi → inp ≠ 0 →
  ip4_addr_ismulticast (hdr_dest d) = false → hdr_fragment d = false → supported (hdr_proto d) →
  ∃ r, target_of s nl inp nfi (hdr_dest d) r ∧
    let payload := take (Z.to_nat (hdr_len d)) d in
    (r ≠ 0 ∧ bad_source nfi (hdr_src d) = false ∨ r = 0 ∧ is_dhcp payload = true →
     ∃ s' b' l', chain_at (as_packets s') p ((p, b') :: l') (drop (Z.to_nat (hdr_hlen d)) payload) ∧
       pb_payload b' = pb_payload b + hdr_hlen d ∧
       is_data (as_link s') = IpGlobals (if r =? 0 then inp else r) inp (pb_payload b) (hdr_hlen d)
                                (hdr_src d) (hdr_dest d) ∧
       as_netifs s' = as_netifs s ∧ as_table s' = as_table s ∧
       input p inp s = (protocol_input (hdr_proto d) p inp (hdr_dest d) ;; finish) s').
Proof.
  intros Hgh Hpay Hok Hi Hi0 Hm Hfr Hsup.
  destruct (input_delivered s p inp b l d nl nfi Hgh Hpay Hok Hi Hi0 Hm Hfr Hsup) as (r & Ht & H).
  exists r. split; [exact Ht|]. intros payload Hacc. destruct (H Hacc) as (q' & b' & l' & Hc & Hpb & _ & _ & _ & E).
  eexists _, b', l'. split; [|split; [exact Hpb|]; split; [|split; [|split; [|exact E]]]]; done.
Qed.

Lemma input_bad_version s p inp b l d :
  chain_at (as_packets s) p ((p, b) :: l) d → 1 ≤ pb_len b → Z.shiftr (field 0 1 d) 4 ≠ 4 →
  input p inp s = drop_packet p s.
Proof.
  intros Hc Hl Hv. destruct (chain_at_head _ _ _ _ _ _ Hc) as (_ & _ & Eb & _). unfold ip4_input.
  rewrite (prog_bind_step _ _ s b s) by (unfold packets, deref; rewrite Eb; by destruct s).
  cbv zeta. rewrite (prog_bind_step _ _ _ _ _ (peek_head0 s p b l d 1 Hc ltac:(lia))).
  change (of_le (take 1 d)) with (field 0 1 d). by rewrite (proj2 (Z.eqb_neq _ 4)) by done.
Qed.

(** No cutting is needed, and the lengths do not fit. *)
Lemma input_bad_length s p inp b l d :
  chain_at (as_packets s) p ((p, b) :: l) d → 4 ≤ pb_len b → Z.shiftr (field 0 1 d) 4 = 4 →
  Z.of_nat (length d) ≤ hdr_len d →
  hdr_hlen d < IP_HLEN ∨ pb_len b < hdr_hlen d ∨ Z.of_nat (length d) < hdr_len d →
  input p inp s = drop_packet p s.
Proof.
  intros Hc Hl Hv Hge Hbad. destruct (chain_at_head _ _ _ _ _ _ Hc) as (_ & _ & Eb & Et). unfold ip4_input.
  assert (Hder : packets (deref p) s = Some (b, s)) by (unfold packets, deref; rewrite Eb; by destruct s).
  rewrite (prog_bind_step _ _ _ _ _ Hder).
  cbv zeta. rewrite (prog_bind_step _ _ _ _ _ (peek_head0 s p b l d 1 Hc ltac:(lia))).
  change (of_le (take 1 d)) with (field 0 1 d). rewrite Hv. cbn [Z.eqb Pos.eqb negb].
  rewrite (prog_bind_step _ _ _ _ _ (peek_head s p b l d 2 2 Hc ltac:(lia))).
  change (lwip_htons (of_le (take 2 (drop 2 d)))) with (hdr_len d).
  rewrite (proj2 (Z.ltb_ge (hdr_len d) (pb_tot_len b))) by lia. cbn [when].
  rewrite (prog_bind_step _ _ s tt s) by done. rewrite (prog_bind_step _ _ _ _ _ Hder).
  change (Z.land (field 0 1 d) 15 * 4) with (hdr_hlen d).
  destruct (Z.ltb_spec (pb_len b) (hdr_hlen d)); [done|].
  destruct (Z.ltb_spec (pb_tot_len b) (hdr_len d)); [done|].
  destruct (Z.ltb_spec (hdr_hlen d) IP_HLEN); [done | lia].
Qed.

End receiving.
