(* ===== verification/Ip4Output.v ===== *)
(** * Sending in the IPv4 layer

    The header in front of an outgoing packet: what it holds, that the
    receiving side reads the same fields from it, and what happens when there
    is no room for it. *)

From stdpp Require Import base numbers list gmap option.
From S2P Require Import Prelude Mem Memp Pbuf PbufLemmas PbufAlloc PbufOps PbufProps Chksum ChksumProps Ip4Addr Etharp LinkedList Netifs NetifProps Ip4 Ip4Props.

(** The header of RFC 791 with no options and the checksum left to the hardware. *)
Definition header_of (ttl tos proto tot_len id src dest : Z) : bytes :=
  [0x45; tos; tot_len / 256; tot_len mod 256; id / 256; id mod 256; 0; 0; ttl; proto; 0; 0]
  ++ addr_bytes src ++ addr_bytes dest.

(** ** Room in front of a packet *)

(** The pbuf with [n] bytes more in front. *)
Definition reveal (n : Z) (b : pbuf) : pbuf :=
  with_tot_len (pb_tot_len b + n) (with_len (pb_len b + n) (with_payload (pb_payload b - n) b)).

(** New bytes become visible in front of the data: in the pbuf itself there must be room for them,
    and in foreign memory the caller must insist. *)
Lemma header_reveal_gen s p b n force :
  ps_pbufs s !! p = Some b → p ≠ 0 → 0 < n ≤ 32767 → 0 ≤ pb_len b → pb_len b ≤ pb_tot_len b →
  pb_tot_len b + n < 65536 →
  (if is_ref_type (pb_type b) then force = true else p + SIZEOF_STRUCT_PBUF ≤ pb_payload b - n) →
  pbuf_header_impl p n force s = Some (0, header_state s p (reveal n b)).
Proof.
  intros Eb Hp0 Hn Hl0 Hlt Ht Href. unfold pbuf_header_impl.
  rewrite (proj2 (Z.eqb_neq n 0)), (proj2 (Z.eqb_neq p 0)) by lia. cbn [orb].
  erewrite prog_bind_step by (unfold deref; rewrite Eb; reflexivity).
  rewrite (proj2 (Z.ltb_ge n 0)) by lia. cbn [andb].
  rewrite (prog_bind_step _ _ s true (header_state s p (with_payload (pb_payload b - n) b))).
  2: { rewrite (proj2 (Z.ltb_lt 0 n)) by lia.
       destruct (pb_type b); cbn [is_ref_type] in Href; rewrite ?Href; cbn [andb];
       (erewrite prog_bind_step by (by apply upd_pbuf_step));
       rewrite ?(proj2 (Z.ltb_ge _ (p + SIZEOF_STRUCT_PBUF))) by lia; done. }
  unfold header_state. cbn [negb]. do 2 step_upd. cbn [pb_len pb_tot_len with_len with_payload].
  rewrite !u16_small by lia. done.
Qed.

Lemma header_reveal_new s p b n :
  ps_pbufs s !! p = Some b → p ≠ 0 → 0 < n ≤ 32767 → 0 ≤ pb_len b → pb_len b ≤ pb_tot_len b →
  pb_tot_len b + n < 65536 → is_ref_type (pb_type b) = false →
  p + SIZEOF_STRUCT_PBUF ≤ pb_payload b - n →
  pbuf_header p n s = Some (0, header_state s p (reveal n b)).
Proof. intros. apply header_reveal_gen; try done. by destruct (is_ref_type (pb_type b)). Qed.

(** There is no room between the payload and the header of the pbuf. *)
Lemma header_no_room s p b n :
  ps_pbufs s !! p = Some b → p ≠ 0 → 0 < n → is_ref_type (pb_type b) = false →
  pb_payload b - n < p + SIZEOF_STRUCT_PBUF →
  pbuf_header p n s = Some (1, s).
Proof.
  intros Eb Hp0 Hn Href Hpay. unfold pbuf_header, pbuf_header_impl.
  rewrite (proj2 (Z.eqb_neq n 0)), (proj2 (Z.eqb_neq p 0)) by lia. cbn [orb].
  erewrite prog_bind_step by (unfold deref; rewrite Eb; reflexivity).
  rewrite (proj2 (Z.ltb_ge n 0)) by lia. cbn [andb].
  assert (Hid : with_payload (pb_payload b) (with_payload (pb_payload b - n) b) = b) by (by destruct b).
  rewrite (prog_bind_step _ _ s false s); [done|].
  destruct (pb_type b); try done; do 1 step_upd; rewrite (proj2 (Z.ltb_lt _ (p + SIZEOF_STRUCT_PBUF))) by lia;
    step_upd; rewrite Hid, insert_id by done; by destruct s.
Qed.

(** ** Writing the header *)

Section sending.
  Context {W : Type}.
  Implicit Types s : istate W.

(** [h] has been written at [a], [L] is the state outside of the packets, and
    nothing else has changed since [s0]. *)
Record written_at (s0 : istate W) (L : ipstate W) (a : Z) (h : bytes) (s : istate W) : Prop := {
  wa_state : s = AState (as_table s0) (as_cached s0) (as_netifs s0)
                   (set_bytes (as_packets s0) (ps_bytes (as_packets s))) L;
  wa_bytes : load_bytes (ps_bytes (as_packets s)) a (length h) = Some h;
  wa_frame : ∀ l, lens_ok l → clear_of a (Z.of_nat (length h)) l →
    pbytes (ps_bytes (as_packets s)) l = pbytes (ps_bytes (as_packets s0)) l
}.

Lemma written_start s a h :
  load_bytes (ps_bytes (as_packets s)) a (length h) = Some h → written_at s (as_link s) a h s.
Proof. intros H. split; [by destruct s as [? ? ? [] ?] | done | done]. Qed.

Lemma written_link s0 L a h s L' :
  written_at s0 L a h s →
  written_at s0 L' a h (AState (as_table s) (as_cached s) (as_netifs s) (as_packets s) L').
Proof. intros [E H1 H2]. rewrite E in *. by split. Qed.

Lemma poke_step s0 L a h s k z :
  written_at s0 L a h s → (k + length z ≤ length h)%nat →
  ∃ s', (∀ (A : Type) (c : prog (istate W) A), (poke (a + Z.of_nat k) z ;; c) s = c s') ∧
        written_at s0 L a (overwrite k z h) s'.
Proof.
  intros [E H1 H2] Hk.
  destruct (store_bytes_is_Some (ps_bytes (as_packets s)) (a + Z.of_nat k) z) as [m Em].
  { intros i Hi. apply (proj1 (load_bytes_is_Some (ps_bytes (as_packets s)) a (length h))); [eauto | lia]. }
  exists (set_packets (set_bytes (as_packets s) m) s). split.
  { intros A c. rewrite (prog_bind_step _ _ s tt (set_packets (set_bytes (as_packets s) m) s)); [done|].
    unfold poke, packets. by rewrite Em. }
  pose proof (load_store_inside _ _ _ _ _ _ _ H1 Em Hk) as Hl. split.
  - rewrite E. by cbn.
  - rewrite overwrite_length by done. exact Hl.
  - rewrite overwrite_length by done. intros l Hlens Hc. cbn [set_packets as_packets set_bytes ps_bytes].
    rewrite (pbytes_frame _ _ _ _ l Em Hlens); [by apply H2|]. apply (clear_of_sub _ _ _ _ _ Hc); lia.
Qed.

(** A sequence of writes inside the area, and what it leaves there. *)
Definition pokes {A} (a : Z) (c : prog (istate W) A) (ws : list (nat * bytes)) : prog (istate W) A :=
  foldr (λ w c, poke (a + Z.of_nat (fst w)) (snd w) ;; c) c ws.
Definition overwrites (h : bytes) (ws : list (nat * bytes)) : bytes :=
  foldl (λ h w, overwrite (fst w) (snd w) h) h ws.

Lemma pokes_run s0 L a ws : ∀ h s,
  written_at s0 L a h s → Forall (λ w, (fst w + length (snd w) ≤ length h)%nat) ws →
  ∃ s', (∀ A (c : prog (istate W) A), pokes a c ws s = c s') ∧ written_at s0 L a (overwrites h ws) s'.
Proof.
  induction ws as [|[k z] ws IH]; intros h s Hw Hf; [exists s; by split|].
  apply Forall_cons_1 in Hf as [Hk Hf]. cbn [fst snd] in Hk.
  destruct (poke_step _ _ _ _ _ k z Hw Hk) as (s1 & E1 & Hw1).
  destruct (IH _ _ Hw1) as (s2 & E2 & Hw2).
  { revert Hf. apply Forall_impl. intros w Hb. cbn beta. by rewrite overwrite_length. }
  exists s2. split; [|exact Hw2]. intros A c. 
  transitivity (pokes a c ws s1); [apply E1 | apply E2].
Qed.

(** The writes of [ip4_output_if_opt_src], in their order. *)
Definition writes_before_id (ttl tos proto tot_len dest : Z) : list (nat * bytes) :=
  [(8%nat, [ttl]); (9%nat, [proto]); (16%nat, addr_bytes dest); (0%nat, [0x45]); (1%nat, [tos]);
   (2%nat, [tot_len / 256; tot_len mod 256]); (6%nat, [0; 0])].
Definition write_id (id : Z) : list (nat * bytes) := [(4%nat, [id / 256; id mod 256])].
Definition writes_after_id (src : Z) : list (nat * bytes) :=
  [(12%nat, addr_bytes src); (10%nat, [0; 0])].

Lemma header_writes_all h ttl tos proto tot_len id src dest :
  length h = 20%nat →
  overwrites (overwrites (overwrites h (writes_before_id ttl tos proto tot_len dest)) (write_id id))
    (writes_after_id src)
  = header_of ttl tos proto tot_len id src dest.
Proof. intros H. do 20 (destruct h as [|? h]; [done|]). by destruct h. Qed.

Lemma overwrites_length h ws :
  Forall (λ w, (fst w + length (snd w) ≤ length h)%nat) ws → length (overwrites h ws) = length h.
Proof.
  revert h. induction ws as [|[k z] ws IH]; intros h Hf; [done|].
  apply Forall_cons_1 in Hf as [Hk Hf]. cbn [fst snd overwrites foldl] in *.
  change (length (overwrites (overwrite k z h) ws) = length h).
  rewrite IH; rewrite overwrite_length by done; done.
Qed.

Lemma le16_htons n : 0 ≤ n < 65536 → le16 (lwip_htons n) = [n / 256; n mod 256].
Proof. intros Hn. unfold le16. rewrite htons_value by lia. f_equal; [|f_equal]; zmod. Qed.

Lemma store_header s a ttl tos proto tot_len src dest :
  let id := is_ip_id (as_link s) in
  mapped (ps_bytes (as_packets s)) a IP_HLEN → 0 ≤ tot_len < 65536 → 0 ≤ id < 65536 →
  0 ≤ ttl < 256 → 0 ≤ proto < 256 →
  ∃ s', (∀ A (c : prog (istate W) A),
    (poke (a + 8) [u8 ttl] ;; poke (a + 9) [u8 proto] ;; poke (a + 16) (addr_bytes dest) ;;
     poke a [u8 (Z.lor (Z.shiftl 4 4) (u16 (IP_HLEN + 0) / 4))] ;; poke (a + 1) [tos] ;;
     poke (a + 2) (le16 (lwip_htons tot_len)) ;; poke (a + 6) (le16 0) ;;
     id ← ip_get is_ip_id;
     poke (a + 4) (le16 (lwip_htons id)) ;; ip_set (set_ip_id (u16 (id + 1))) ;;
     poke (a + 12) (addr_bytes src) ;; poke (a + 10) (le16 0) ;; c) s = c s') ∧
    written_at s (set_ip_id (u16 (id + 1)) (as_link s)) a (header_of ttl tos proto tot_len id src dest) s'.
Proof.
  intros id Hm Ht Hid Httl Hpr. unfold IP_HLEN in *.
  destruct (proj2 (load_bytes_is_Some (ps_bytes (as_packets s)) a 20)) as [h Eh]; [by apply Hm|].
  pose proof (load_bytes_length _ _ _ _ Eh) as Hh. rewrite <- Hh in Eh.
  rewrite (le16_htons tot_len), (u8_small ttl), (u8_small proto) by done. change (le16 0) with [0; 0].
  set (ws1 := writes_before_id ttl tos proto tot_len dest).
  assert (F1 : Forall (λ w, (fst w + length (snd w) ≤ length h)%nat) ws1) by (rewrite Hh; repeat constructor).
  destruct (pokes_run s _ a ws1 h s (written_start _ _ _ Eh) F1) as (s1 & E1 & W1).
  apply overwrites_length in F1. set (h1 := overwrites h ws1) in *.
  assert (F2 : Forall (λ w, (fst w + length (snd w) ≤ length h1)%nat) (write_id id))
    by (rewrite F1, Hh; repeat constructor).
  destruct (pokes_run s _ a (write_id id) h1 s1 W1 F2) as (s2 & E2 & W2).
  apply overwrites_length in F2. set (h2 := overwrites h1 (write_id id)) in *.
  set (L' := set_ip_id (u16 (id + 1)) (as_link s)).
  apply (written_link _ _ _ _ _ L') in W2 as W3.
  assert (F3 : Forall (λ w, (fst w + length (snd w) ≤ length h2)%nat) (writes_after_id src))
    by (rewrite F2, F1, Hh; repeat constructor).
  destruct (pokes_run s _ a (writes_after_id src) h2 _ W3 F3) as (s4 & E4 & W4).
  exists s4. split; [|unfold h2, h1, ws1 in W4; by rewrite header_writes_all in W4].
  intros A c. assert (E0 : ∀ z, poke (L := ipstate W) a z = poke (a + 0) z) by (intros; by rewrite Z.add_0_r).
  rewrite E0. etrans; [apply (E1 A)|].
  assert (Ei : is_ip_id (as_link s1) = id) by (by destruct W1 as [-> _ _]).
  rewrite (prog_bind_step _ _ s1 id s1) by (by rewrite <- Ei).
  rewrite le16_htons by done.
  etrans; [apply (E2 A)|]. rewrite <- E4.
  assert (EL : as_link s2 = as_link s) by (by destruct W2 as [-> _ _]).
  rewrite (prog_bind_step _ _ s2 tt (AState (as_table s2) (as_cached s2) (as_netifs s2) (as_packets s2) L'));
    [done|]. unfold L'. by rewrite <- EL.
Qed.

Lemma of_le_addr a : 0 ≤ a < 4294967296 → of_le (addr_bytes a) = a.
Proof.
  intros Ha. unfold addr_bytes, of_le. cbn [foldr].
  replace (a / 65536) with (a / 256 / 256) by (rewrite Z.div_div; done || lia).
  replace (a / 16777216) with (a / 256 / 256 / 256) by (rewrite !Z.div_div; done || lia).
  rewrite (Z.mod_small (a / 256 / 256 / 256)) by zmod.
  pose proof (Z.div_mod a 256 ltac:(lia)). pose proof (Z.div_mod (a / 256) 256 ltac:(lia)).
  pose proof (Z.div_mod (a / 256 / 256) 256 ltac:(lia)). lia.
Qed.

(** The receiving side reads the fields back. *)
Lemma header_fields ttl tos proto tot_len id src dest d :
  0 ≤ tot_len < 65536 → 0 ≤ src < 4294967296 → 0 ≤ dest < 4294967296 →
  let h := header_of ttl tos proto tot_len id src dest ++ d in
  Z.shiftr (field 0 1 h) 4 = 4 ∧ hdr_hlen h = IP_HLEN ∧ hdr_len h = tot_len ∧ hdr_fragment h = false ∧
  hdr_proto h = proto ∧ hdr_src h = src ∧ hdr_dest h = dest ∧ drop 20 h = d.
Proof.
  intros Ht Hs Hd h. split; [done|]. split; [done|]. split.
  { unfold hdr_len, field. cbn [h header_of app drop take of_le foldr].
    rewrite htons_value by zmod. zmod. }
  split; [done|]. split; [unfold hdr_proto, field; cbn [h header_of app drop take of_le foldr]; lia|].
  split; [by apply (of_le_addr src)|]. split; [by apply (of_le_addr dest) | done].
Qed.

(** The chain with the new header. *)
Lemma chain_with_header q p b l d m h :
  chain_at q p ((p, b) :: l) d → Z.of_nat (length h + length d) < 65536 →
  load_bytes m (pb_payload b - Z.of_nat (length h)) (length h) = Some h →
  pbytes m ((p, b) :: l) = pbytes (ps_bytes q) ((p, b) :: l) →
  chain_at (set_bytes (header_state q p (reveal (Z.of_nat (length h)) b)) m) p
    ((p, reveal (Z.of_nat (length h)) b) :: l) (h ++ d).
Proof.
  intros [Hp Hl Hd] Hlen Hh Hm. pose proof (pbytes_length _ _ _ Hl Hd) as Hld.
  destruct Hl as (Hb0 & Ht & _ & Hl'). cbn [lens] in Ht, Hld. split.
  - cbn [ps_pbufs header_state set_bytes]. by apply (pchain_upd_head _ _ b).
  - unfold reveal. cbn [lens_ok lens pb_len pb_tot_len with_len with_tot_len]. split_and!; try done; lia.
  - rewrite Hd in Hm. destruct (pbytes_cons _ _ _ _ _ Hm) as (x & y & -> & Ex & Ey & Hx).
    cbn [pbytes reveal pb_payload pb_len with_len with_tot_len with_payload set_bytes ps_bytes].
    replace (Z.to_nat (pb_len b + Z.of_nat (length h))) with (length h + Z.to_nat (pb_len b))%nat by lia.
    rewrite load_bytes_app, Hh.
    replace (pb_payload b - Z.of_nat (length h) + Z.of_nat (length h)) with (pb_payload b) by lia.
    rewrite Ex, Ey. by rewrite app_assoc.
Qed.

(** Bytes elsewhere are not touched. *)
Lemma written_elsewhere s0 L a h s c n x :
  written_at s0 L a h s → disjoint_range a (Z.of_nat (length h)) c n → 0 ≤ n < 65536 →
  load_bytes (ps_bytes (as_packets s0)) c (Z.to_nat n) = Some x →
  load_bytes (ps_bytes (as_packets s)) c (Z.to_nat n) = Some x.
Proof.
  intros [_ _ Hf] Hd Hn Hx. specialize (Hf [(0, MkPbuf 0 c n n PBUF_RAM 0 1)]). cbn in Hf.
  rewrite Hx in Hf. destruct (load_bytes (ps_bytes (as_packets s)) c (Z.to_nat n)) as [y|].
  - rewrite !app_nil_r in Hf. apply Hf; [lia|]. by constructor.
  - discriminate Hf; [lia|]. by constructor.
Qed.

(** A packet with room for headers of [n] bytes in front of the data of its
    first pbuf. *)
Record room (n : Z) (s : istate W) (p : Z) (b : pbuf) (l : chain) (d : bytes) : Prop := {
  rm_chain : chain_at (as_packets s) p ((p, b) :: l) d;
  rm_type : is_ref_type (pb_type b) = false;
  rm_room : p + SIZEOF_STRUCT_PBUF ≤ pb_payload b - n;
  rm_len : n + Z.of_nat (length d) < 65536;
  rm_mapped : mapped (ps_bytes (as_packets s)) (pb_payload b - n) n;
  rm_clear : clear_of (pb_payload b - n) n l
}.

Lemma room_le n m s p b l d : room n s p b l d → 0 ≤ m ≤ n → room m s p b l d.
Proof.
  intros [Hc Ht Hr Hl Hm Hcl] Hn. split; [done | done | lia | lia | |].
  - apply (mapped_sub _ _ _ _ _ Hm); lia.
  - apply (clear_of_sub _ _ _ _ _ Hcl); lia.
Qed.

(** Revealing room for a header. *)
Lemma room_reveal k m s p b l d :
  room (k + m) s p b l d → 0 < k < 32768 → 0 ≤ m →
  packets (pbuf_header p k) s = Some (0, set_packets (header_state (as_packets s) p (reveal k b)) s).
Proof.
  intros [Hc Ht Hr Hl _ _] Hk Hm. pose proof Hc as [_ (Hb0 & Htt & _ & Hl') _].
  destruct (chain_at_head _ _ _ _ _ _ Hc) as (_ & Hp0 & Eb & Et). cbn [lens] in Htt.
  pose proof (lens_nonneg _ Hl'). unfold packets. by rewrite (header_reveal_new _ _ b) by (done || lia).
Qed.

(** A header that has been written leaves the rest of the room. *)
Lemma room_written k m s L p b l d h s' :
  room (k + m) s p b l d → 0 ≤ m → Z.of_nat (length h) = k →
  written_at (set_packets (header_state (as_packets s) p (reveal k b)) s) L (pb_payload b - k) h s' →
  room m s' p (reveal k b) l (h ++ d).
Proof.
  intros [Hc Ht Hr Hl Hm Hcl] Hm0 Hk HW. pose proof HW as [Es Hh Hf]. rewrite Hk in Hf.
  assert (Hc1 : chain_at (as_packets s') p ((p, reveal k b) :: l) (h ++ d)).
  { rewrite Es. cbn [as_packets]. subst k.
    apply (chain_with_header (as_packets s) p b l d (ps_bytes (as_packets s')) h Hc); [lia | exact Hh |].
    apply Hf; [by destruct Hc|]. constructor; [unfold disjoint_range; cbn; lia|].
    apply (clear_of_sub _ _ _ _ _ Hcl); lia. }
  split; [exact Hc1 | done | | | |]; cbn [pb_payload reveal with_tot_len with_len with_payload].
  - lia.
  - rewrite length_app. lia.
  - intros i Hi.
    destruct (proj2 (load_bytes_is_Some (ps_bytes (as_packets s)) (pb_payload b - k - m) (Z.to_nat m))) as [x Hx].
    { intros j Hj. apply Hm. lia. }
    apply (proj1 (load_bytes_is_Some (ps_bytes (as_packets s')) (pb_payload b - k - m) (Z.to_nat m))); [|lia].
    exists x. apply (written_elsewhere _ _ _ _ _ _ m x HW); [|lia|exact Hx]. unfold disjoint_range. lia.
  - apply (clear_of_sub _ _ _ _ _ Hcl); lia.
Qed.

Context (netif_output : Z → Z → Z → prog (istate W) Z).
#[local] Set Default Proof Using "All".

Abbreviation output_if := (ip4_output_if netif_output).

Lemma output_src_run m s p b l d src dest ttl tos proto n :
  let id := is_ip_id (as_link s) in
  room (IP_HLEN + m) s p b l d → 0 ≤ m → 0 ≤ id < 65536 → 0 ≤ ttl < 256 → 0 ≤ proto < 256 →
  ∃ s', ip4_output_if_src netif_output p src (Some dest) ttl tos proto n s = netif_output n p dest s' ∧
    room m s' p (reveal IP_HLEN b) l
      (header_of ttl tos proto (IP_HLEN + Z.of_nat (length d)) id (ip4_addr_get src) dest ++ d) ∧
    (∀ f out bs, owned (as_packets s) f out bs → owned (as_packets s') f out bs) ∧
    as_link s' = set_ip_id (u16 (id + 1)) (as_link s) ∧
    as_netifs s' = as_netifs s ∧ as_table s' = as_table s ∧ as_cached s' = as_cached s.
Proof.
  intros id Hrm Hm0 Hid Httl Hpr. pose proof Hrm as [Hc _ _ Hlen Hmap _]. unfold IP_HLEN in *.
  destruct (chain_at_head _ _ _ _ _ _ Hc) as (_ & _ & _ & Et).
  set (s1 := set_packets (header_state (as_packets s) p (reveal 20 b)) s).
  destruct (store_header s1 (pb_payload b - 20) ttl tos proto (20 + Z.of_nat (length d)) (ip4_addr_get src) dest)
    as (s' & E & HW); [apply (mapped_sub _ _ _ _ _ Hmap); unfold IP_HLEN; lia | lia | done..|].
  exists s'. split; [|split; [|split]].
  - unfold ip4_output_if_src, ip4_output_if_opt_src. cbn [Z.eqb when negb].
    rewrite (prog_bind_step _ _ s 0 s) by done. cbn [Z.eqb negb].
    rewrite (prog_bind_step _ _ s tt s) by done.
    rewrite (prog_bind_step _ _ _ _ _ (room_reveal 20 m _ _ _ _ _ Hrm ltac:(lia) Hm0)).
    cbn [Z.eqb negb]. fold s1.
    rewrite (prog_bind_step _ _ s1 (reveal 20 b) s1).
    2: { unfold packets, deref. cbn [s1 set_packets as_packets header_state ps_pbufs]. by rewrite lookup_insert_eq. }
    cbv zeta. replace (pb_tot_len (reveal 20 b)) with (20 + Z.of_nat (length d)) by (cbn; lia).
    apply (E _ (netif_output n p dest)).
  - by apply (room_written 20 m s _ p b l d _ s' Hrm Hm0) in HW.
  - intros f out bs Ho. destruct HW as [-> _ _]. destruct (chain_at_head _ _ _ _ _ _ Hc) as (_ & _ & Eb & _).
    destruct (owned_upd _ _ _ _ p b (reveal 20 b) Ho Eb eq_refl). by split.
  - destruct HW as [Es _ _]. by rewrite Es.
Qed.

(** C18: [ip4_output_if] puts a header in front of the packet, with the length of the packet, the next
    identification, no fragment, the given time to live, type of service and protocol, and the
    address of the interface as the source where none is given, and hands the packet to the
    output function of the interface with its data unchanged; [ip4_input] of the receiver reads
    the same fields from it.  Nothing else but [ip_id] changes. *)
Theorem ip4_output_header s p b l d src dest ttl tos proto n nf :
  let id := is_ip_id (as_link s) in
  let used := if ip4_addr_isany (ip4_addr_get src) then nf_ip_addr nf else ip4_addr_get src in
  room IP_HLEN s p b l d → as_netifs s !! n = Some nf → 0 ≤ id < 65536 → 0 ≤ ttl < 256 → 0 ≤ proto < 256 →
  0 ≤ used < 4294967296 → 0 ≤ dest < 4294967296 →
  ∃ s' d', output_if p src (Some dest) ttl tos proto n s = netif_output n p dest s' ∧
    chain_at (as_packets s') p ((p, reveal IP_HLEN b) :: l) d' ∧
    take 20 d' = header_of ttl tos proto (IP_HLEN + Z.of_nat (length d)) id used dest ∧ drop 20 d' = d ∧
    Z.shiftr (field 0 1 d') 4 = 4 ∧ hdr_hlen d' = IP_HLEN ∧ hdr_len d' = Z.of_nat (length d') ∧
    hdr_fragment d' = false ∧ hdr_proto d' = proto ∧ hdr_src d' = used ∧ hdr_dest d' = dest ∧
    as_link s' = set_ip_id (u16 (id + 1)) (as_link s) ∧
    as_netifs s' = as_netifs s ∧ as_table s' = as_table s ∧ as_cached s' = as_cached s.
Proof.
  intros id used Hr Hnf Hid Httl Hpr Hus Hde.
  assert (Hsrc : ∃ o, output_if p src (Some dest) ttl tos proto n s
    = ip4_output_if_src netif_output p o (Some dest) ttl tos proto n s ∧ ip4_addr_get o = used).
  { unfold ip4_output_if, ip4_output_if_opt, used. destruct (ip4_addr_isany _).
    - exists (Some (nf_ip_addr nf)). split; [|done]. by rewrite (prog_bind_step _ _ s (Some (nf_ip_addr nf)) s)
        by (by rewrite (prog_bind_step _ _ s nf s) by (by apply the_netif_run)).
    - by exists src. }
  destruct Hsrc as (o & -> & Ho).
  destruct (output_src_run 0 s p b l d o dest ttl tos proto n Hr ltac:(lia) Hid Httl Hpr)
    as (s' & E & [Hc _ _ _ _ _] & _ & Hrest). pose proof (rm_len _ _ _ _ _ _ Hr). unfold IP_HLEN in *. rewrite Ho in Hc. fold id in Hc.
  destruct (header_fields ttl tos proto (20 + Z.of_nat (length d)) id used dest d)
    as (F1 & F2 & F3 & F4 & F5 & F6 & F7 & F8); [lia | done | done |].
  eexists s', _. split; [exact E|]. split; [exact Hc|]. split; [done|]. split; [exact F8|].
  split; [exact F1|]. split; [exact F2|]. split; [rewrite F3, length_app; cbn [length]; cbn; lia|]. auto.
Qed.

(** An outgoing packet that leaves no room for the IP header in front of its data, or whose data
    belongs to somebody else ([PBUF_REF], [PBUF_ROM]), is refused with [ERR_BUF], and one without a
    route with [ERR_RTE]; in both cases nothing changes and nothing is sent. *)
Theorem ip4_output_errors s p b src dest ttl tos proto :
  ps_pbufs (as_packets s) !! p = Some b → p ≠ 0 →
  (∀ n nf, as_netifs s !! n = Some nf →
    is_ref_type (pb_type b) = true ∨ pb_payload b - IP_HLEN < p + SIZEOF_STRUCT_PBUF →
    output_if p src (Some dest) ttl tos proto n s = Some (ERR_BUF, s)) ∧
  (ip4_route dest s = Some (0, s) → ip4_output netif_output p src dest ttl tos proto s = Some (ERR_RTE, s)).
Proof.
  intros Eb Hp0. split.
  - intros n nf Hnf Hbad. unfold ip4_output_if, ip4_output_if_opt.
    assert (Hu : ∃ o, (if ip4_addr_isany (ip4_addr_get src) then nf ← the_netif n; mret (Some (nf_ip_addr nf))
                       else mret src) s = Some (o, s)).
    { destruct (ip4_addr_isany _); [|by eexists]. exists (Some (nf_ip_addr nf)).
      by rewrite (prog_bind_step _ _ s nf s) by (by apply the_netif_run). }
    destruct Hu as [o Eo]. rewrite (prog_bind_step _ _ _ _ _ Eo). unfold ip4_output_if_opt_src.
    cbn [Z.eqb when negb]. rewrite (prog_bind_step _ _ s 0 s) by done. cbn [Z.eqb negb].
    rewrite (prog_bind_step _ _ s tt s) by done.
    rewrite (prog_bind_step _ _ s 1 s); [done|].
    assert (Eh : pbuf_header p IP_HLEN (as_packets s) = Some (1, as_packets s)).
    { destruct (is_ref_type (pb_type b)) eqn:Er; [by apply (header_reveal_refused _ _ b)|].
      destruct Hbad as [?|?]; [done | by apply (header_no_room _ _ b)]. }
    unfold packets. rewrite Eh. by destruct s.
  - intros Er. unfold ip4_output. by rewrite (prog_bind_step _ _ _ _ _ Er).
Qed.
End sending.
