(* ===== verification/Ip4Examples.v ===== *)
(** * A host with two interfaces

    Concrete states of the IP layer on which the theorems of NetifProps,
    Ip4Props and Ip4Output apply: two interfaces are added, one is removed, a
    UDP packet comes in, and one goes out. *)

From stdpp Require Import base numbers list gmap option.
From S2P Require Import Prelude Mem Memp Pbuf PbufLemmas PbufOps PbufProps Chksum Ip4Addr Etharp LinkedList Netifs NetifProps Ip4 Ip4Props Ip4Output.

Definition dotted (a b c d : Z) : Z := a + 256 * b + 65536 * c + 16777216 * d.

(** The parameters: a driver that takes every frame, protocols that do nothing. *)
Definition drv (n p : Z) : prog (istate unit) Z := mret ERR_OK.
Definition on_addr (a : Z) (b : option Z) : prog (istate unit) unit := mret tt.
Definition on_netif (n : Z) : prog (istate unit) unit := mret tt.
Definition on_link (c n : Z) : prog (istate unit) unit := mret tt.
Definition proto_in (p n : Z) : prog (istate unit) unit := mret tt.
Definition igmp_in (p n g : Z) : prog (istate unit) unit := mret tt.
Definition no_group (n g : Z) : prog (istate unit) bool := mret false.
Definition out (n p dest : Z) : prog (istate unit) Z := mret ERR_OK.
(** The initialisation of an interface: up, with a link and broadcasts. *)
Definition init (n : Z) : prog (istate unit) Z :=
  upd_netif n (set_flag (NETIF_FLAG_UP + NETIF_FLAG_LINK_UP + NETIF_FLAG_BROADCAST)) ;; mret ERR_OK.

Definition blank : netif := Netif 0 0 0 [2; 0; 0; 0; 0; 2] 0 0 [101; 110] 0 0 0 0 0 [] 1500.

(** A packet of [d] in a pbuf at 500 with 84 bytes in front of the data. *)
Definition packet (d : bytes) : pstate :=
  let n := Z.of_nat (length d) in
  PState {[500 := MkPbuf 0 600 n n PBUF_RAM 0 1]}
    (list_to_map (zip (seqZ 516 (84 + n)) (replicate 84 0 ++ d))) (mem_init 536870912) (Pools [] [] ∅).
Definition booted (d : bytes) : istate unit :=
  AState [] 0 {[7 := blank; 9 := blank]} (packet d) (IpState 0 0 0 0 41 0 (IpGlobals 0 0 0 0 0 0) tt).

Definition run {A} (c : prog (istate unit) A) (s : istate unit) : istate unit :=
  match c s with Some (_, s') => s' | None => s end.
Lemma run_ok {A} (c : prog (istate unit) A) s r : fst <$> c s = Some r → c s = Some (r, run c s).
Proof. unfold run. destruct (c s) as [[x s']|]; [by intros [= ->] | done]. Qed.

Definition add7 : prog (istate unit) Z :=
  netif_add drv on_addr on_addr on_netif on_netif 7 (Some (dotted 192 168 0 2)) (Some (dotted 255 255 255 0))
    (Some (dotted 192 168 0 1)) 0 init 3.
Definition add9 : prog (istate unit) Z :=
  netif_add drv on_addr on_addr on_netif on_netif 9 (Some (dotted 10 0 0 2)) (Some (dotted 255 0 0 0))
    (Some (dotted 10 0 0 1)) 0 init 3.
Definition host (d : bytes) : istate unit :=
  run (netif_set_default 7) (run add9 (run add7 (booted d))).

Lemma host_steps d :
  fst <$> add7 (booted d) = Some 7 → fst <$> add9 (run add7 (booted d)) = Some 9 →
  netif_steps drv on_addr on_addr on_netif on_netif on_netif on_netif on_link [] (booted d) [9; 7] (host d).
Proof.
  intros H7 H9. apply run_ok in H7, H9.
  eapply (nsteps_step _ _ _ _ _ _ _ _ [] _ [7]).
  { unshelve eapply (nstep_add _ _ _ _ _ _ _ _ _ _ _ _ _ _ _ _ _ _ _ _ _ _ H7);
      [done | by apply not_elem_of_nil | intros k; unfold init; holds_solve]. }
  eapply (nsteps_step _ _ _ _ _ _ _ _ [7] _ [9; 7]).
  { unshelve eapply (nstep_add _ _ _ _ _ _ _ _ _ _ _ _ _ _ _ _ _ _ _ _ _ _ H9); [done | |].
    - intros H. apply list_elem_of_singleton in H. discriminate.
    - intros k. unfold init. holds_solve. }
  eapply nsteps_step; [|apply nsteps_refl].
  apply (nstep_set_default _ _ _ _ _ _ _ _ [9; 7] _ 7).
  - right. apply elem_of_cons. right. by apply elem_of_cons; left.
  - unfold host. apply run_ok. reflexivity.
Qed.

Lemma netif_list_refines_witness :
  netifs_ok [9; 7] (host []) ∧ fst <$> netif_find (Some (101, 110, 48)) (host []) = Some 7.
Proof.
  destruct (netif_list_refines drv on_addr on_addr on_netif on_netif on_netif on_netif on_link) with
    (s0 := booted []) (l := [9; 7]) (s := host []) as (Hok & _);
    try (by unfold drv, on_addr, on_netif, on_link; intros; apply holds_ret).
  - done.
  - done.
  - apply host_steps; by vm_compute.
  - split; [exact Hok|]. by vm_compute.
Defined.

(** ** Packets *)

(** The two interfaces of the host, and the host with a packet. *)
Definition nf7 : netif :=
  Netif (dotted 192 168 0 2) (dotted 255 255 255 0) (dotted 192 168 0 1) [2; 0; 0; 0; 0; 2] 7 0 [101; 110] 0
    0 3 0 0 [] 1500.
Definition nf9 : netif :=
  Netif (dotted 10 0 0 2) (dotted 255 0 0 0) (dotted 10 0 0 1) [2; 0; 0; 0; 0; 2] 7 7 [101; 110] 1 0 3 0 0 [] 1500.
Definition running (d : bytes) : istate unit :=
  AState [] 0 {[7 := nf7; 9 := nf9]} (packet d) (IpState 9 7 2 0 41 0 (IpGlobals 0 0 0 0 0 0) tt).
(** A UDP header: from port 53 to port 4096, without data. *)
Definition udp : bytes := [0; 53; 16; 0; 0; 8; 0; 0].
Definition received : bytes :=
  header_of 64 0 IP_PROTO_UDP 28 1 (dotted 192 168 0 1) (dotted 192 168 0 2) ++ udp.
(** The same packet with a multicast source. *)
Definition spoofed : bytes :=
  header_of 64 0 IP_PROTO_UDP 28 1 (dotted 224 0 0 9) (dotted 192 168 0 2) ++ udp.

Lemma two_netifs (s : istate unit) :
  nlist (as_netifs s) (is_netif_list (as_link s)) [9; 7] →
  is_netif_default (as_link s) = 7 → netifs_ok [9; 7] s.
Proof.
  intros H1 H2. split; [done| |].
  - by apply (bool_decide_unpack (NoDup [9; 7])).
  - right. rewrite H2. by apply (bool_decide_unpack (7 ∈ [9; 7])).
Qed.


Lemma running_ok d : netifs_ok [9; 7] (running d).
Proof.
  apply two_netifs; [|done]. cbn [llist]. split; [done|]. split; [done|]. exists nf9. split; [done|].
  split; [done|]. split; [done|]. exists nf7. split; done.
Qed.

(** 192.168.0.77 is reached through interface 7, 8.8.8.8 through the default one, and 10.1.2.3 through 9. *)
Lemma ip4_route_first_witness :
  ip4_route (dotted 192 168 0 77) (running []) = Some (7, running []) ∧
  ip4_route (dotted 10 1 2 3) (running []) = Some (9, running []) ∧
  ip4_route (dotted 8 8 8 8) (running []) = Some (7, running []).
Proof.
  destruct (ip4_route_first (dotted 192 168 0 77) [9; 7] (running []) (running_ok [])) as (r1 & E1 & _).
  destruct (ip4_route_first (dotted 10 1 2 3) [9; 7] (running []) (running_ok [])) as (r2 & E2 & _).
  destruct (ip4_route_first (dotted 8 8 8 8) [9; 7] (running []) (running_ok [])) as (r3 & E3 & _).
  rewrite E1, E2, E3.
  assert (H1 : fst <$> ip4_route (dotted 192 168 0 77) (running []) = Some 7) by (vm_compute; reflexivity).
  assert (H2 : fst <$> ip4_route (dotted 10 1 2 3) (running []) = Some 9) by (vm_compute; reflexivity).
  assert (H3 : fst <$> ip4_route (dotted 8 8 8 8) (running []) = Some 7) by (vm_compute; reflexivity).
  rewrite E1 in H1. rewrite E2 in H2. rewrite E3 in H3.
  injection H1 as ->. injection H2 as ->. injection H3 as ->. done.
Defined.

Definition pb (n : Z) : pbuf := MkPbuf 0 600 n n PBUF_RAM 0 1.

Lemma packet_chain d n :
  length d = n → 0 < Z.of_nat n < 65536 → load_bytes (ps_bytes (packet d)) 600 n = Some d →
  chain_at (packet d) 500 [(500, pb (Z.of_nat n))] d.
Proof.
  intros Hd Hn Hl. split.
  - unfold packet. rewrite Hd. cbn [pchain ps_pbufs]. by repeat split.
  - cbn. lia.
  - cbn [pbytes pb pb_payload pb_len]. rewrite Nat2Z.id, Hl. by rewrite app_nil_r.
Qed.

Lemma received_good : good_header (running received) 500 (pb 28) [] received.
Proof.
  split; [apply (packet_chain received 28); [done | lia | by vm_compute] | | by vm_compute..].
  intros H. vm_compute in H. discriminate.
Qed.
Lemma spoofed_good : good_header (running spoofed) 500 (pb 28) [] spoofed.
Proof.
  split; [apply (packet_chain spoofed 28); [done | lia | by vm_compute] | | by vm_compute..].
  intros H. vm_compute in H. discriminate.
Qed.

Abbreviation input := (ip4_input proto_in proto_in proto_in igmp_in proto_in no_group).

(** The packet goes to [udp_input] without its IP header. *)
Lemma ip4_input_delivers_witness :
  ∃ s' b' l', input 500 7 (running received) = (proto_in 500 7 ;; finish) s' ∧
    chain_at (as_packets s') 500 ((500, b') :: l') udp ∧ current_iphdr_src (is_data (as_link s')) = dotted 192 168 0 1.
Proof.
  destruct (ip4_input_delivers proto_in proto_in proto_in igmp_in proto_in no_group (running received) 500 7
    (pb 28) [] received [9; 7] nf7 received_good) as (r & Ht & H);
    [done | apply running_ok | done | done | by vm_compute | by vm_compute | |].
  - by apply (bool_decide_unpack (hdr_proto received ∈ [IP_PROTO_UDP; IP_PROTO_TCP; IP_PROTO_ICMP; IP_PROTO_IGMP])).
  - assert (Hr : r = 7) by (destruct Ht as [[_ ->]|[[? _]|[? _]]]; done). subst r.
    destruct H as (s' & b' & l' & Hc & _ & Hg & _ & _ & E); [left; by vm_compute|].
    exists s', b', l'. split; [exact E|]. split; [exact Hc|]. rewrite Hg. by vm_compute.
Defined.


(** A UDP packet without a source address is sent through interface 7. *)
Lemma udp_room : room IP_HLEN (running udp) 500 (pb 8) [] udp.
Proof.
  split; [apply (packet_chain udp 8); [done | lia | by vm_compute] | by vm_compute.. | | constructor].
  intros i Hi. apply (proj1 (load_bytes_is_Some (ps_bytes (packet udp)) 580 20)); [|exact Hi].
  vm_compute. by eexists.
Qed.

Lemma ip4_output_header_witness :
  ∃ s' d', ip4_output_if out 500 None (Some (dotted 192 168 0 1)) 255 0 IP_PROTO_UDP 7 (running udp)
    = out 7 500 (dotted 192 168 0 1) s' ∧
    chain_at (as_packets s') 500 [(500, reveal IP_HLEN (pb 8))] d' ∧ hdr_src d' = dotted 192 168 0 2 ∧
    drop 20 d' = udp ∧ is_ip_id (as_link s') = 42.
Proof.
  destruct (ip4_output_header out (running udp) 500 (pb 8) [] udp None (dotted 192 168 0 1) 255 0 IP_PROTO_UDP 7
    nf7 udp_room) as (s' & d' & E & Hc & _ & Hd & _ & _ & _ & _ & _ & Hs & _ & Hl & _);
    [done | by vm_compute..|].
  exists s', d'. rewrite Hl. split; [exact E|]. split; [exact Hc|]. split; [exact Hs|]. split; [exact Hd | done].
Defined.

(** A packet in foreign memory, and an unreachable destination: the interfaces are down. *)
Definition foreign : istate unit :=
  AState [] 0 {[7 := clear_flag NETIF_FLAG_UP nf7]}
    (PState {[500 := MkPbuf 0 600 8 8 PBUF_ROM 0 1]} ∅ (mem_init 536870912) (Pools [] [] ∅))
    (IpState 7 7 1 0 41 0 (IpGlobals 0 0 0 0 0 0) tt).

Lemma ip4_output_errors_witness :
  ip4_output_if out 500 None (Some (dotted 192 168 0 1)) 255 0 IP_PROTO_UDP 7 foreign = Some (ERR_BUF, foreign) ∧
  ip4_output out 500 None (dotted 192 168 0 1) 255 0 IP_PROTO_UDP foreign = Some (ERR_RTE, foreign).
Proof.
  destruct (ip4_output_errors out foreign 500 (MkPbuf 0 600 8 8 PBUF_ROM 0 1) None (dotted 192 168 0 1) 255 0
    IP_PROTO_UDP) as [H1 H2]; [done | done |].
  split; [apply (H1 7 (clear_flag NETIF_FLAG_UP nf7)); [done | by left]|].
  apply H2. vm_compute. reflexivity.
Defined.
