(* ===== verification/Udp.v ===== *)
(** * UDP (middlewares/lwip/src/core/udp.c)

    The control blocks, their list, the choice of local ports, and the way of
    datagrams in and out.  The state is that of [Netifs] with the globals of
    udp.c and the control blocks as the part above the IP layer.  UDP-Lite,
    the options [SO_REUSE] and [IP_SOF_BROADCAST], and software checksums are
    not configured.  The receive callbacks, the ICMP error message and
    [netif->output] are parameters. *)

From stdpp Require Import base numbers list gmap option.
From S2P Require Import Prelude Mem Memp Pbuf Chksum Ip4Addr Etharp Netifs Ip4.

Definition UDP_HLEN : Z := 8.
Definition UDP_TTL : Z := 255.
Definition UDP_FLAGS_CONNECTED : Z := 0x04.
Definition UDP_FLAGS_MULTICAST_LOOP : Z := 0x08.
Definition UDP_LOCAL_PORT_RANGE_START : Z := 0xc000.
Definition UDP_LOCAL_PORT_RANGE_END : Z := 0xffff.
Definition PBUF_FLAG_MCASTLOOP : Z := 0x04.
Definition ICMP_DUR_PORT : Z := 3.

(** ** State *)

(** [struct udp_pcb]; addresses in network order, ports in host order. *)
Record udp_pcb := UdpPcb {
  up_local_ip : Z;
  up_remote_ip : Z;
  up_so_options : Z;
  up_tos : Z;
  up_ttl : Z;
  up_next : Z;
  up_flags : Z;
  up_local_port : Z;
  up_remote_port : Z;
  up_multicast_ip : Z;
  up_mcast_ttl : Z;
  up_recv : Z;                      (* function pointer *)
  up_recv_arg : Z
}.

Record ustate (U : Type) := UState {
  us_pcbs : Z;                      (* udp_pcbs *)
  us_port : Z;                      (* udp_port *)
  us_store : gmap Z udp_pcb;
  us_rest : U
}.
Arguments UState {U}.
Arguments us_pcbs {U}.
Arguments us_port {U}.
Arguments us_store {U}.
Arguments us_rest {U}.

Abbreviation tstate U := (istate (ustate U)).

Definition with_up_next (n : Z) (u : udp_pcb) : udp_pcb :=
  UdpPcb (up_local_ip u) (up_remote_ip u) (up_so_options u) (up_tos u) (up_ttl u) n (up_flags u)
    (up_local_port u) (up_remote_port u) (up_multicast_ip u) (up_mcast_ttl u) (up_recv u) (up_recv_arg u).
Definition with_local (ip port : Z) (u : udp_pcb) : udp_pcb :=
  UdpPcb ip (up_remote_ip u) (up_so_options u) (up_tos u) (up_ttl u) (up_next u) (up_flags u)
    port (up_remote_port u) (up_multicast_ip u) (up_mcast_ttl u) (up_recv u) (up_recv_arg u).
Definition with_remote (ip port flags : Z) (u : udp_pcb) : udp_pcb :=
  UdpPcb (up_local_ip u) ip (up_so_options u) (up_tos u) (up_ttl u) (up_next u) flags
    (up_local_port u) port (up_multicast_ip u) (up_mcast_ttl u) (up_recv u) (up_recv_arg u).
Definition with_recv (recv arg : Z) (u : udp_pcb) : udp_pcb :=
  UdpPcb (up_local_ip u) (up_remote_ip u) (up_so_options u) (up_tos u) (up_ttl u) (up_next u) (up_flags u)
    (up_local_port u) (up_remote_port u) (up_multicast_ip u) (up_mcast_ttl u) recv arg.

Definition connected (u : udp_pcb) : bool := negb (Z.land (up_flags u) UDP_FLAGS_CONNECTED =? 0).

Section udp.
  Context {U : Type}.
  (** The callback [recv(arg, pcb, p, addr, port)]. *)
  Context (call_recv : Z → Z → Z → Z → Z → Z → prog (tstate U) unit).
  Context (icmp_dest_unreach : Z → Z → prog (tstate U) unit).
  Context (netif_output : Z → Z → Z → prog (tstate U) Z).

Definition udp_get {A} (f : ustate U → A) : prog (tstate U) A := ip_get (λ i, f (is_rest i)).
Definition set_rest (w : ustate U) (i : ipstate (ustate U)) : ipstate (ustate U) :=
  IpState (is_netif_list i) (is_netif_default i) (is_netif_num i) (is_client_id i) (is_ip_id i)
    (is_mcast_netif i) (is_data i) w.
Definition udp_mod (f : ustate U → ustate U) : prog (tstate U) unit := ip_set (λ i, set_rest (f (is_rest i)) i).

Definition set_pcbs (n : Z) (w : ustate U) : ustate U := UState n (us_port w) (us_store w) (us_rest w).
Definition set_port (n : Z) (w : ustate U) : ustate U := UState (us_pcbs w) n (us_store w) (us_rest w).
Definition set_store (m : gmap Z udp_pcb) (w : ustate U) : ustate U :=
  UState (us_pcbs w) (us_port w) m (us_rest w).

(** [*pcb] *)
Definition the_pcb (n : Z) : prog (tstate U) udp_pcb :=
  m ← udp_get us_store; lift (m !! n).
Definition upd_pcb (n : Z) (f : udp_pcb → udp_pcb) : prog (tstate U) unit :=
  u ← the_pcb n; udp_mod (λ w, set_store (<[n := f u]> (us_store w)) w).

(** Enough for a walk over the list. *)
Definition pcb_fuel (w : ustate U) : nat := S (S (size (us_store w))).

(** ** Ports *)

(** The walk of [udp_new_port] over the list: is the port in use? *)
Fixpoint port_used (fuel : nat) (port pcb : Z) : prog (tstate U) bool :=
  match fuel with
  | O => stuck
  | S fuel' =>
      if pcb =? 0 then mret false else
      u ← the_pcb pcb;
      if up_local_port u =? port then mret true else port_used fuel' port (up_next u)
  end.

Fixpoint udp_new_port_loop (fuel : nat) (n : Z) : prog (tstate U) Z :=
  match fuel with
  | O => stuck
  | S fuel' =>
      port ← udp_get us_port;
      let port := if port =? UDP_LOCAL_PORT_RANGE_END then UDP_LOCAL_PORT_RANGE_START else u16 (port + 1) in
      udp_mod (set_port port) ;;
      f ← udp_get pcb_fuel;
      l ← udp_get us_pcbs;
      used ← port_used f port l;
      if used : bool then
        let n := u16 (n + 1) in
        if UDP_LOCAL_PORT_RANGE_END - UDP_LOCAL_PORT_RANGE_START <? n then mret 0
        else udp_new_port_loop fuel' n
      else mret port
  end.
(** The loop gives up after as many ports as there are in the range. *)
Definition udp_new_port : prog (tstate U) Z :=
  udp_new_port_loop (S (Z.to_nat (UDP_LOCAL_PORT_RANGE_END - UDP_LOCAL_PORT_RANGE_START))) 0.

(** ** Control blocks *)

Definition udp_init : prog (tstate U) unit := mret tt.

Definition udp_new : prog (tstate U) Z :=
  pcb ← packets (on_pools (memp_malloc MEMP_UDP_PCB));
  when (negb (pcb =? 0))
    (udp_mod (λ w, set_store (<[pcb := UdpPcb 0 0 0 0 UDP_TTL 0 0 0 0 0 UDP_TTL 0 0]> (us_store w)) w)) ;;
  mret pcb.
Definition udp_new_ip_type (type : Z) : prog (tstate U) Z := udp_new.

(** Is the control block on the list? *)
Fixpoint pcb_on_list (fuel : nat) (pcb ipcb : Z) : prog (tstate U) bool :=
  match fuel with
  | O => stuck
  | S fuel' =>
      if ipcb =? 0 then mret false
      else if pcb =? ipcb then mret true
      else u ← the_pcb ipcb; pcb_on_list fuel' pcb (up_next u)
  end.

(** Has another control block the address and the port? *)
Fixpoint bind_conflict (fuel : nat) (pcb ipaddr port ipcb : Z) : prog (tstate U) bool :=
  match fuel with
  | O => stuck
  | S fuel' =>
      if ipcb =? 0 then mret false else
      u ← the_pcb ipcb;
      if negb (pcb =? ipcb) && (up_local_port u =? port) && (up_local_ip u =? ipaddr) then mret true
      else bind_conflict fuel' pcb ipaddr port (up_next u)
  end.

(** [udp_pcbs] gets a new first element. *)
Definition push_pcb (pcb : Z) : prog (tstate U) unit :=
  l ← udp_get us_pcbs;
  upd_pcb pcb (with_up_next l) ;;
  udp_mod (set_pcbs pcb).

Definition udp_bind (pcb : Z) (ipaddr : option Z) (port : Z) : prog (tstate U) Z :=
  let ipaddr := ip4_addr_get ipaddr in
  if pcb =? 0 then mret ERR_VAL else
  f ← udp_get pcb_fuel;
  l ← udp_get us_pcbs;
  rebind ← pcb_on_list f pcb l;
  port ← (if port =? 0 then udp_new_port
          else
            conflict ← bind_conflict f pcb ipaddr port l;
            if conflict : bool then mret 0 else mret port);
  if port =? 0 then mret ERR_USE else
  upd_pcb pcb (with_local ipaddr port) ;;
  when (negb rebind) (push_pcb pcb) ;;
  mret ERR_OK.

(** The binding of a control block that has no port yet. *)
Definition bind_if_needed (pcb : Z) : prog (tstate U) Z :=
  u ← the_pcb pcb;
  if up_local_port u =? 0 then udp_bind pcb (Some (up_local_ip u)) (up_local_port u) else mret ERR_OK.

Definition udp_connect (pcb : Z) (ipaddr : option Z) (port : Z) : prog (tstate U) Z :=
  match ipaddr with
  | None => mret ERR_VAL
  | Some ip =>
      if pcb =? 0 then mret ERR_VAL else
      err ← bind_if_needed pcb;
      if negb (err =? ERR_OK) then mret err else
      upd_pcb pcb (λ u, with_remote ip port (Z.lor (up_flags u) UDP_FLAGS_CONNECTED) u) ;;
      f ← udp_get pcb_fuel;
      l ← udp_get us_pcbs;
      on ← pcb_on_list f pcb l;
      when (negb on) (push_pcb pcb) ;;
      mret ERR_OK
  end.

Definition udp_disconnect (pcb : Z) : prog (tstate U) unit :=
  upd_pcb pcb (λ u, with_remote IPADDR_ANY 0 (Z.land (up_flags u) (Z.lnot UDP_FLAGS_CONNECTED)) u).

Definition udp_recv (pcb recv recv_arg : Z) : prog (tstate U) unit := upd_pcb pcb (with_recv recv recv_arg).

Fixpoint udp_unlink (fuel : nat) (pcb pcb2 : Z) : prog (tstate U) unit :=
  match fuel with
  | O => stuck
  | S fuel' =>
      if pcb2 =? 0 then mret tt else
      u2 ← the_pcb pcb2;
      if negb (up_next u2 =? 0) && (up_next u2 =? pcb) then
        u ← the_pcb pcb; upd_pcb pcb2 (with_up_next (up_next u))
      else udp_unlink fuel' pcb (up_next u2)
  end.

Definition udp_remove (pcb : Z) : prog (tstate U) unit :=
  l ← udp_get us_pcbs;
  (if l =? pcb then u ← the_pcb l; udp_mod (set_pcbs (up_next u))
   else f ← udp_get pcb_fuel; udp_unlink f pcb l) ;;
  packets (on_pools (memp_free MEMP_UDP_PCB pcb)) ;;
  udp_mod (λ w, set_store (delete pcb (us_store w)) w).

Fixpoint addr_changed_loop (fuel : nat) (old_addr new_addr upcb : Z) : prog (tstate U) unit :=
  match fuel with
  | O => stuck
  | S fuel' =>
      if upcb =? 0 then mret tt else
      u ← the_pcb upcb;
      when (up_local_ip u =? old_addr) (upd_pcb upcb (with_local new_addr (up_local_port u))) ;;
      addr_changed_loop fuel' old_addr new_addr (up_next u)
  end.
Definition udp_netif_ip_addr_changed (old_addr : Z) (new_addr : option Z) : prog (tstate U) unit :=
  if negb (ip4_addr_isany old_addr) && negb (ip4_addr_isany (ip4_addr_get new_addr)) then
    f ← udp_get pcb_fuel;
    l ← udp_get us_pcbs;
    addr_changed_loop f old_addr (ip4_addr_get new_addr) l
  else mret tt.

(** ** Receiving *)

Definition udp_input_local_match (u : udp_pcb) (inp broadcast : Z) : prog (tstate U) bool :=
  g ← ip_get is_data;
  if negb (broadcast =? 0) then
    if ip4_addr_isany (up_local_ip u) || (current_iphdr_dest g =? IPADDR_BROADCAST) then mret true
    else nf ← the_netif inp; mret (ip4_addr_netcmp (up_local_ip u) (current_iphdr_dest g) (nf_netmask nf))
  else mret (ip4_addr_isany (up_local_ip u) || (up_local_ip u =? current_iphdr_dest g)).

(** The search for the control block, with the first unconnected match in
    [uncon_pcb]; a full match behind the front is moved there. *)
Fixpoint udp_input_search (fuel : nat) (inp broadcast src dest prev uncon_pcb pcb : Z) : prog (tstate U) Z :=
  match fuel with
  | O => stuck
  | S fuel' =>
      if pcb =? 0 then mret uncon_pcb else
      u ← the_pcb pcb;
      local ← (if up_local_port u =? dest then udp_input_local_match u inp broadcast else mret false);
      let uncon_pcb := if (local : bool) && negb (connected u) && (uncon_pcb =? 0) then pcb else uncon_pcb in
      g ← ip_get is_data;
      if local && (up_remote_port u =? src)
         && (ip4_addr_isany (up_remote_ip u) || (up_remote_ip u =? current_iphdr_src g)) then
        when (negb (prev =? 0))
          (upd_pcb prev (with_up_next (up_next u)) ;;
           push_pcb pcb) ;;
        mret pcb
      else udp_input_search fuel' inp broadcast src dest pcb uncon_pcb (up_next u)
  end.

(** The datagram is for [pcb], or for nobody on this host. *)
Definition udp_deliver (p pcb broadcast src : Z) : prog (tstate U) unit :=
  r ← packets (pbuf_header p (- UDP_HLEN));
  if negb (r =? 0) then free_pbuf p else
  g ← ip_get is_data;
  if negb (pcb =? 0) then
    u ← the_pcb pcb;
    if negb (up_recv u =? 0)
    then call_recv (up_recv u) (up_recv_arg u) pcb p (current_iphdr_src g) src
    else free_pbuf p
  else
    when ((broadcast =? 0) && negb (ip4_addr_ismulticast (current_iphdr_dest g)))
      (_ ← packets (pbuf_header_force p (s16 (current_ip_header_tot_len g + UDP_HLEN)));
       icmp_dest_unreach p ICMP_DUR_PORT) ;;
    free_pbuf p.

Definition udp_input (p inp : Z) : prog (tstate U) unit :=
  b ← packets (deref p);
  if pb_len b <? UDP_HLEN then free_pbuf p else
  let udphdr := pb_payload b in
  g ← ip_get is_data;
  nf ← the_netif (current_netif g);
  let broadcast := ip4_addr_isbroadcast_u32 (current_iphdr_dest g) nf in
  src ← peek udphdr 2;
  let src := lwip_htons (of_le src) in
  dest ← peek (udphdr + 2) 2;
  let dest := lwip_htons (of_le dest) in
  f ← udp_get pcb_fuel;
  l ← udp_get us_pcbs;
  pcb ← udp_input_search f inp broadcast src dest 0 0 l;
  for_us ← (if negb (pcb =? 0) then mret true
            else nfi ← the_netif inp; mret (nf_ip_addr nfi =? current_iphdr_dest g));
  if for_us : bool then udp_deliver p pcb broadcast src else free_pbuf p.

(** ** Sending *)

(** The header, in the packet itself or in a pbuf of its own in front; [None]
    when there is no memory for it. *)
Definition udp_add_header (p : Z) : prog (tstate U) (option Z) :=
  r ← packets (pbuf_header p UDP_HLEN);
  if r =? 0 then mret (Some p) else
  q ← packets (pbuf_alloc PBUF_IP UDP_HLEN PBUF_RAM);
  if q =? 0 then mret None else
  b ← packets (deref p);
  when (negb (pb_tot_len b =? 0)) (packets (pbuf_chain q p)) ;;
  mret (Some q).

(** The fields of the header, and the packet goes to the IP layer. *)
Definition udp_output_header (pcb q dst dst_port netif src_ip : Z) : prog (tstate U) Z :=
  b ← packets (deref q);
  let udphdr := pb_payload b in
  u ← the_pcb pcb;
  poke udphdr (le16 (lwip_htons (up_local_port u))) ;;
  poke (udphdr + 2) (le16 (lwip_htons dst_port)) ;;
  poke (udphdr + 6) (le16 0) ;;
  when (negb (Z.land (up_flags u) UDP_FLAGS_MULTICAST_LOOP =? 0) && ip4_addr_ismulticast dst)
    (mark_pbuf q PBUF_FLAG_MCASTLOOP) ;;
  poke (udphdr + 4) (le16 (lwip_htons (pb_tot_len b))) ;;
  let ttl := if ip4_addr_ismulticast dst then up_mcast_ttl u else up_ttl u in
  ip4_output_if_src netif_output q (Some src_ip) (Some dst) ttl (up_tos u) IP_PROTO_UDP netif.

Definition udp_sendto_if_src (pcb p : Z) (dst_ip : option Z) (dst_port netif src_ip : Z) : prog (tstate U) Z :=
  match dst_ip with
  | None => mret ERR_VAL
  | Some dst =>
      if pcb =? 0 then mret ERR_VAL else
      err ← bind_if_needed pcb;
      if negb (err =? ERR_OK) then mret err else
      hq ← udp_add_header p;
      match hq with
      | None => mret ERR_MEM
      | Some q =>
          err ← udp_output_header pcb q dst dst_port netif src_ip;
          when (negb (q =? p)) (free_pbuf q) ;;
          mret err
      end
  end.

Definition udp_sendto_if (pcb p : Z) (dst_ip : option Z) (dst_port netif : Z) : prog (tstate U) Z :=
  match dst_ip with
  | None => mret ERR_VAL
  | Some dst =>
      if pcb =? 0 then mret ERR_VAL else
      u ← the_pcb pcb;
      nf ← the_netif netif;
      if ip4_addr_isany (up_local_ip u) || ip4_addr_ismulticast (up_local_ip u)
      then udp_sendto_if_src pcb p dst_ip dst_port netif (nf_ip_addr nf)
      else if negb (up_local_ip u =? nf_ip_addr nf) then mret ERR_RTE
      else udp_sendto_if_src pcb p dst_ip dst_port netif (up_local_ip u)
  end.

Definition udp_sendto (pcb p : Z) (dst_ip : option Z) (dst_port : Z) : prog (tstate U) Z :=
  match dst_ip with
  | None => mret ERR_VAL
  | Some dst =>
      if pcb =? 0 then mret ERR_VAL else
      u ← the_pcb pcb;
      let dst_ip_route :=
        if ip4_addr_ismulticast dst && negb (ip4_addr_isany (up_multicast_ip u))
           && negb (up_multicast_ip u =? IPADDR_BROADCAST)
        then up_multicast_ip u else dst in
      netif ← ip4_route dst_ip_route;
      if netif =? 0 then mret ERR_RTE else udp_sendto_if pcb p dst_ip dst_port netif
  end.

Definition udp_send (pcb p : Z) : prog (tstate U) Z :=
  if pcb =? 0 then mret ERR_VAL else
  u ← the_pcb pcb;
  udp_sendto pcb p (Some (up_remote_ip u)) (up_remote_port u).
End udp.
