(* ===== verification/UdpList.v ===== *)
(** * The control blocks of UDP

    The list of control blocks, the choice of a local port, and binding: each
    call gives a result, and what it is. *)

From stdpp Require Import base numbers list gmap option.
From S2P Require Import Prelude Mem Memp Pbuf Chksum Ip4Addr Etharp LinkedList Netifs NetifProps Ip4 Udp.

Section state.
  Context {U : Type}.
  Implicit Types (s : tstate U) (w : ustate U).

Definition uof s : ustate U := is_rest (as_link s).
Definition with_u w s : tstate U :=
  AState (as_table s) (as_cached s) (as_netifs s) (as_packets s) (set_rest w (as_link s)).

Lemma uof_with w s : uof (with_u w s) = w.
Proof. done. Qed.
Lemma with_with w w' s : with_u w (with_u w' s) = with_u w s.
Proof. done. Qed.
Lemma with_uof s : with_u (uof s) s = s.
Proof. by destruct s as [? ? ? ? []]. Qed.

Lemma the_pcb_run n u s : us_store (uof s) !! n = Some u → the_pcb n s = Some (u, s).
Proof. intros H. unfold the_pcb. rewrite (prog_bind_step _ _ s (us_store (uof s)) s) by done. by rewrite H. Qed.
Lemma upd_pcb_run n f u s :
  us_store (uof s) !! n = Some u →
  upd_pcb n f s = Some (tt, with_u (set_store (<[n := f u]> (us_store (uof s))) (uof s)) s).
Proof. intros H. unfold upd_pcb. by rewrite (prog_bind_step _ _ s u s) by (by apply the_pcb_run). Qed.
Lemma udp_mod_run f s : udp_mod f s = Some (tt, with_u (f (uof s)) s).
Proof. done. Qed.

(** ** Walks over the list *)

(** A walk that asks for an element with a property. *)
Lemma walk_exists (walk : nat → Z → prog (tstate U) bool) (test : Z → udp_pcb → bool) s :
  (∀ fuel, walk (S fuel) 0 s = Some (false, s)) →
  (∀ fuel p u, p ≠ 0 → us_store (uof s) !! p = Some u →
     walk (S fuel) p s = if test p u then Some (true, s) else walk fuel (up_next u) s) →
  ∀ l fuel p, llist up_next (us_store (uof s)) p l → (length l < fuel)%nat →
  ∃ b, walk fuel p s = Some (b, s) ∧
    (b = true ↔ ∃ x u, x ∈ l ∧ us_store (uof s) !! x = Some u ∧ test x u = true).
Proof.
  intros Hend Hstep l. induction l as [|x l IH]; intros [|fuel] p Hl Hf; [cbn in Hf; lia | | cbn in Hf; lia |].
  - cbn in Hl. subst p. exists false. split; [done|]. split; [done|]. intros (x & u & Hx & _). set_solver.
  - destruct Hl as (-> & Hx0 & u & Hu & Hl). rewrite (Hstep _ _ u) by done. destruct (test x u) eqn:Et.
    + exists true. split; [done|]. split; [|done]. intros _. exists x, u. set_solver.
    + destruct (IH fuel (up_next u) Hl ltac:(cbn in Hf; lia)) as (b & -> & Hb). exists b. split; [done|].
      rewrite Hb. split; intros (y & v & Hy & Hv & Ht); exists y, v; [set_solver|].
      apply elem_of_cons in Hy as [->|Hy]; [congruence | done].
Qed.

Lemma port_used_run port s l fuel p :
  llist up_next (us_store (uof s)) p l → (length l < fuel)%nat →
  ∃ b, port_used fuel port p s = Some (b, s) ∧
    (b = true ↔ ∃ x u, x ∈ l ∧ us_store (uof s) !! x = Some u ∧ up_local_port u = port).
Proof.
  intros Hl Hf. destruct (walk_exists (λ f p, port_used f port p) (λ _ u, up_local_port u =? port) s)
    with (l := l) (fuel := fuel) (p := p) as (b & E & Hb); try done.
  - intros f q u Hq Hu. cbn [port_used]. rewrite (proj2 (Z.eqb_neq q 0)) by done.
    rewrite (prog_bind_step _ _ s u s) by (by apply the_pcb_run). by destruct (_ =? _).
  - exists b. split; [done|]. rewrite Hb. by setoid_rewrite Z.eqb_eq.
Qed.

Lemma pcb_on_list_run pcb s l fuel p :
  llist up_next (us_store (uof s)) p l → (length l < fuel)%nat →
  pcb_on_list fuel pcb p s = Some (bool_decide (pcb ∈ l), s).
Proof.
  intros Hl Hf. destruct (walk_exists (λ f p, pcb_on_list f pcb p) (λ x _, pcb =? x) s)
    with (l := l) (fuel := fuel) (p := p) as (b & E & Hb); try done.
  - intros f q u Hq Hu. cbn [pcb_on_list]. rewrite (proj2 (Z.eqb_neq q 0)) by done.
    destruct (pcb =? q); [done|]. by rewrite (prog_bind_step _ _ s u s) by (by apply the_pcb_run).
  - rewrite E. do 2 f_equal. apply eq_true_iff_eq. rewrite Hb, bool_decide_eq_true. split.
    + intros (x & u & Hx & _ & ->%Z.eqb_eq). done.
    + intros Hx. destruct (llist_lookup _ _ _ _ Hl Hx) as [u Hu]. exists pcb, u. by rewrite Z.eqb_refl.
Qed.

Lemma bind_conflict_run pcb ip port s l fuel p :
  llist up_next (us_store (uof s)) p l → (length l < fuel)%nat →
  ∃ b, bind_conflict fuel pcb ip port p s = Some (b, s) ∧
    (b = true ↔ ∃ x u, x ∈ l ∧ us_store (uof s) !! x = Some u ∧
       x ≠ pcb ∧ up_local_port u = port ∧ up_local_ip u = ip).
Proof.
  intros Hl Hf.
  destruct (walk_exists (λ f p, bind_conflict f pcb ip port p)
    (λ x u, negb (pcb =? x) && (up_local_port u =? port) && (up_local_ip u =? ip)) s)
    with (l := l) (fuel := fuel) (p := p) as (b & E & Hb); try done.
  - intros f q u Hq Hu. cbn [bind_conflict]. rewrite (proj2 (Z.eqb_neq q 0)) by done.
    rewrite (prog_bind_step _ _ s u s) by (by apply the_pcb_run). by destruct (_ && _).
  - exists b. split; [done|]. rewrite Hb. setoid_rewrite andb_true_iff. setoid_rewrite andb_true_iff.
    setoid_rewrite negb_true_iff. setoid_rewrite Z.eqb_neq. setoid_rewrite Z.eqb_eq. naive_solver.
Qed.

(** ** Ports *)

Definition in_port_range (n : Z) : Prop := UDP_LOCAL_PORT_RANGE_START ≤ n ≤ UDP_LOCAL_PORT_RANGE_END.
Definition port_taken (l : list Z) w (port : Z) : Prop :=
  ∃ x u, x ∈ l ∧ us_store w !! x = Some u ∧ up_local_port u = port.

(** The control blocks are linked as [l], all are bound, no two of them to
    the same address and port. *)
Record pcbs_ok (l : list Z) w : Prop := {
  po_list : llist up_next (us_store w) (us_pcbs w) l;
  po_nodup : NoDup l;
  po_port : in_port_range (us_port w);
  po_bound : ∀ x u, x ∈ l → us_store w !! x = Some u → 0 < up_local_port u < 65536;
  po_unique : ∀ x y u v, x ∈ l → y ∈ l → us_store w !! x = Some u → us_store w !! y = Some v →
    up_local_port u = up_local_port v → up_local_ip u = up_local_ip v → x = y
}.

Lemma pcbs_fuel l w : pcbs_ok l w → (length l < pcb_fuel w)%nat.
Proof. intros [Hl Hnd _ _ _]. pose proof (llist_length _ _ _ Hl Hnd). unfold pcb_fuel. lia. Qed.

(** The [i]-th port after [p] in the range, cyclically. *)
Definition nth_port (p i : Z) : Z :=
  UDP_LOCAL_PORT_RANGE_START + (p - UDP_LOCAL_PORT_RANGE_START + i) mod 16384.

Lemma next_port p i :
  in_port_range p → 0 ≤ i →
  (if nth_port p i =? UDP_LOCAL_PORT_RANGE_END then UDP_LOCAL_PORT_RANGE_START else u16 (nth_port p i + 1))
  = nth_port p (i + 1).
Proof.
  unfold in_port_range, nth_port, UDP_LOCAL_PORT_RANGE_START, UDP_LOCAL_PORT_RANGE_END. intros Hp Hi.
  pose proof (Z.mod_pos_bound (p - 0xc000 + i) 16384 ltac:(lia)) as Hb.
  replace (p - 0xc000 + (i + 1)) with (p - 0xc000 + i + 1) by lia.
  rewrite <- (Zplus_mod_idemp_l (p - 0xc000 + i)). set (k := (p - 0xc000 + i) mod 16384) in *.
  destruct (Z.eqb_spec (0xc000 + k) 0xffff) as [E|E].
  - replace k with 16383 by lia. done.
  - rewrite u16_small, Z.mod_small by lia. lia.
Qed.

Lemma nth_port_range p i : in_port_range (nth_port p i).
Proof.
  unfold in_port_range, nth_port, UDP_LOCAL_PORT_RANGE_START, UDP_LOCAL_PORT_RANGE_END.
  pose proof (Z.mod_pos_bound (p - 0xc000 + i) 16384 ltac:(lia)). lia.
Qed.

(** Every port of the range comes up within one round. *)
Lemma nth_port_all p q : in_port_range p → in_port_range q → ∃ i, 1 ≤ i ≤ 16384 ∧ nth_port p i = q.
Proof.
  unfold in_port_range, nth_port, UDP_LOCAL_PORT_RANGE_START, UDP_LOCAL_PORT_RANGE_END. intros Hp Hq.
  destruct (Z.lt_ge_cases p q) as [H|H].
  - exists (q - p). split; [lia|]. rewrite Z.mod_small by lia. lia.
  - exists (q - p + 16384). split; [lia|].
    replace (p - 0xc000 + (q - p + 16384)) with (q - 0xc000 + 1 * 16384) by lia.
    rewrite Z.mod_add, Z.mod_small by lia. lia.
Qed.

Lemma new_port_loop_run l p0 s : ∀ fuel n w,
  pcbs_ok l w → us_port w = nth_port p0 n → in_port_range p0 → 0 ≤ n < 16384 →
  16384 - n ≤ Z.of_nat fuel → (∀ i, 1 ≤ i ≤ n → port_taken l w (nth_port p0 i)) →
  ∃ r port, udp_new_port_loop fuel n (with_u w s) = Some (r, with_u (set_port port w) s) ∧
    in_port_range port ∧
    (r = port ∧ ¬ port_taken l w port ∨ r = 0 ∧ ∀ q, in_port_range q → port_taken l w q).
Proof.
  induction fuel as [|fuel IH]; intros n w Hok Hp H0 Hn Hf Ht; [lia|]. cbn [udp_new_port_loop].
  rewrite (prog_bind_step _ _ _ (nth_port p0 n) (with_u w s)) by (by rewrite <- Hp).
  rewrite next_port by (done || lia). set (port := nth_port p0 (n + 1)).
  rewrite (prog_bind_step _ _ _ _ _ (udp_mod_run _ _)), with_with, uof_with.
  set (w' := set_port port w). assert (Hrange : in_port_range port) by apply nth_port_range.
  assert (Hok' : pcbs_ok l w') by (destruct Hok; by split).
  rewrite (prog_bind_step _ _ (with_u w' s) (pcb_fuel w') (with_u w' s)) by done.
  rewrite (prog_bind_step _ _ (with_u w' s) (us_pcbs w') (with_u w' s)) by done.
  destruct (port_used_run port (with_u w' s) l (pcb_fuel w') (us_pcbs w') (po_list _ _ Hok') (pcbs_fuel _ _ Hok'))
    as (b & Eb & Hb). rewrite (prog_bind_step _ _ _ _ _ Eb). rewrite uof_with in Hb.
  destruct b.
  - assert (Hall : ∀ i, 1 ≤ i ≤ n + 1 → port_taken l w (nth_port p0 i)).
    { intros i Hi. destruct (decide (i = n + 1)) as [->|]; [|apply Ht; lia]. by apply Hb. }
    rewrite u16_small by lia. unfold UDP_LOCAL_PORT_RANGE_END, UDP_LOCAL_PORT_RANGE_START.
    destruct (Z.ltb_spec (0xffff - 0xc000) (n + 1)) as [Hend|Hmore].
    + exists 0, port. split; [done|]. split; [done|]. right. split; [done|].
      intros q Hq. destruct (nth_port_all p0 q H0 Hq) as (i & Hi & <-). apply Hall. lia.
    + destruct (IH (n + 1) w' Hok') as (r & port' & E & Hr); try done; [lia | lia |].
      exists r, port'. split; [exact E | exact Hr].
  - exists port, port. split; [done|]. split; [done|]. left. split; [done|]. intros H. by apply Hb in H.
Qed.

Lemma new_port_run l s :
  pcbs_ok l (uof s) →
  ∃ r port, udp_new_port s = Some (r, with_u (set_port port (uof s)) s) ∧ in_port_range port ∧
    (r = port ∧ ¬ port_taken l (uof s) port ∨ r = 0 ∧ ∀ q, in_port_range q → port_taken l (uof s) q).
Proof.
  intros Hok. pose proof (po_port _ _ Hok) as Hp.
  destruct (new_port_loop_run l (us_port (uof s)) s
    (S (Z.to_nat (UDP_LOCAL_PORT_RANGE_END - UDP_LOCAL_PORT_RANGE_START))) 0 (uof s) Hok) as (r & port & E & H);
    try done; try lia.
  - unfold nth_port, in_port_range, UDP_LOCAL_PORT_RANGE_START, UDP_LOCAL_PORT_RANGE_END in *.
    rewrite Z.add_0_r, Z.mod_small by lia. lia.
  - exists r, port. rewrite with_uof in E. split; [exact E | exact H].
Qed.

(** ** Changes of a control block *)

(** Nobody else on the list has the address and the port. *)
Definition unbound (l : list Z) w (n ip port : Z) : Prop :=
  ∀ y v, y ∈ l → y ≠ n → us_store w !! y = Some v → up_local_port v = port → up_local_ip v ≠ ip.

Lemma pcbs_set l w n u u' :
  pcbs_ok l w → us_store w !! n = Some u → up_next u' = up_next u →
  (n ∈ l → 0 < up_local_port u' < 65536 ∧ unbound l w n (up_local_ip u') (up_local_port u')) →
  pcbs_ok l (set_store (<[n := u']> (us_store w)) w).
Proof.
  intros [Hl Hnd Hp Hb Hu] Hn En Hnew. split; cbn; try done.
  - by apply (llist_upd _ _ _ _ u).
  - intros x v Hx. destruct (decide (n = x)) as [->|Hne].
    + rewrite lookup_insert_eq. intros [= <-]. by apply Hnew.
    + rewrite lookup_insert_ne by done. by apply Hb.
  - intros x y v v' Hx Hy. destruct (decide (x = n)) as [->|Hnx], (decide (y = n)) as [->|Hny]; [done| | |].
    + rewrite lookup_insert_eq, lookup_insert_ne by auto. intros [= <-] Hv Ep Ei.
      destruct (proj2 (Hnew Hx) y v'); done.
    + rewrite lookup_insert_eq, lookup_insert_ne by auto. intros Hv [= <-] Ep Ei.
      destruct (proj2 (Hnew Hy) x v); done.
    + rewrite !lookup_insert_ne by auto. by apply Hu.
Qed.

(** A change of anything but the local side. *)
Lemma pcbs_other l w n u u' :
  pcbs_ok l w → us_store w !! n = Some u → up_next u' = up_next u →
  up_local_port u' = up_local_port u → up_local_ip u' = up_local_ip u →
  pcbs_ok l (set_store (<[n := u']> (us_store w)) w).
Proof.
  intros Hok Hn En Ep Ei. apply (pcbs_set l w n u); try done. intros Hin. rewrite Ep, Ei.
  split; [by apply (po_bound _ _ Hok n)|]. intros y v Hy Hne Hv E1 E2.
  apply Hne. by apply (po_unique _ _ Hok y n v u).
Qed.

Lemma pcbs_push l w n u :
  pcbs_ok l w → us_store w !! n = Some u → n ≠ 0 → (n ∉ l) → 0 < up_local_port u < 65536 →
  unbound l w n (up_local_ip u) (up_local_port u) →
  pcbs_ok (n :: l) (set_pcbs n (set_store (<[n := with_up_next (us_pcbs w) u]> (us_store w)) w)).
Proof.
  intros [Hl Hnd Hp Hb Hu] Hn Hn0 Hnl Hport Hfree. split; cbn; try done.
  - split; [done|]. split; [done|]. exists (with_up_next (us_pcbs w) u). rewrite lookup_insert_eq.
    split; [done|]. by apply llist_insert.
  - by apply list.NoDup_cons.
  - intros x v Hx. destruct (decide (n = x)) as [->|Hne].
    + rewrite lookup_insert_eq. by intros [= <-].
    + rewrite lookup_insert_ne by done. apply Hb. set_solver.
  - intros x y v v' Hx Hy. destruct (decide (x = n)) as [->|Hnx], (decide (y = n)) as [->|Hny]; [done| | |].
    + rewrite lookup_insert_eq, lookup_insert_ne by auto. intros [= <-] Hv Ep Ei. cbn in Ep, Ei.
      destruct (Hfree y v'); try done. set_solver.
    + rewrite lookup_insert_eq, lookup_insert_ne by auto. intros Hv [= <-] Ep Ei. cbn in Ep, Ei.
      destruct (Hfree x v); try done. set_solver.
    + rewrite !lookup_insert_ne by auto. apply Hu; set_solver.
Qed.

Lemma push_run s n u :
  us_store (uof s) !! n = Some u →
  push_pcb n s = Some (tt, with_u (set_pcbs n (set_store
    (<[n := with_up_next (us_pcbs (uof s)) u]> (us_store (uof s))) (uof s))) s).
Proof.
  intros Hn. unfold push_pcb. rewrite (prog_bind_step _ _ s (us_pcbs (uof s)) s) by done.
  rewrite (prog_bind_step _ _ _ _ _ (upd_pcb_run _ _ u s Hn)). by rewrite udp_mod_run, with_with, uof_with.
Qed.

(** ** Binding *)

(** The port that [udp_bind] settles on, 0 if there is none. *)
Lemma bind_port_run l s pcb ip port :
  pcbs_ok l (uof s) → 0 ≤ port < 65536 →
  ∃ r w, (if port =? 0 then udp_new_port
          else conflict ← bind_conflict (pcb_fuel (uof s)) pcb ip port (us_pcbs (uof s));
               if conflict : bool then mret 0 else mret port) s = Some (r, with_u w s) ∧
    pcbs_ok l w ∧ us_store w = us_store (uof s) ∧ us_pcbs w = us_pcbs (uof s) ∧
    (r ≠ 0 ∧ unbound l (uof s) pcb ip r ∧ (port = 0 ∧ in_port_range r ∧ ¬ port_taken l (uof s) r ∨ r = port) ∨
     r = 0 ∧ (port = 0 ∧ (∀ q, in_port_range q → port_taken l (uof s) q) ∨
              port ≠ 0 ∧ ¬ unbound l (uof s) pcb ip port)).
Proof.
  intros Hok Hport. destruct (Z.eqb_spec port 0) as [->|Hp0].
  - destruct (new_port_run l s Hok) as (r & port & E & Hr & Hcase). exists r, (set_port port (uof s)).
    split; [exact E|]. split; [destruct Hok; by split|]. split; [done|]. split; [done|].
    destruct Hcase as [[-> Hfree]|[-> Hall]]; [left | right; by auto].
    assert (port ≠ 0) by (unfold in_port_range, UDP_LOCAL_PORT_RANGE_START in Hr; lia).
    split; [done|]. split; [|by left]. intros y v Hy _ Hv Ep. destruct Hfree. by exists y, v.
  - destruct (bind_conflict_run pcb ip port s l (pcb_fuel (uof s)) (us_pcbs (uof s))
      (po_list _ _ Hok) (pcbs_fuel _ _ Hok)) as (b & E & Hb).
    exists (if b then 0 else port), (uof s). rewrite (prog_bind_step _ _ _ _ _ E), with_uof.
    split; [by destruct b|]. split; [done|]. split; [done|]. split; [done|]. destruct b.
    + right. split; [done|]. right. split; [done|]. destruct (proj1 Hb eq_refl) as (x & u & Hx & Hu & Hne & Ep & Ei).
      intros H. by apply (H x u).
    + left. split; [done|]. split; [|by right]. intros y v Hy Hne Hv Ep Ei.
      assert (false = true) by (apply Hb; by exists y, v). done.
Qed.

(** The result of [udp_bind]: bound as asked, or [ERR_USE]. *)
Definition bound_as (l : list Z) w (pcb ip port : Z) (r : Z) (l' : list Z) w' : Prop :=
  pcbs_ok l' w' ∧
  (r = ERR_OK ∧ l' = (if decide (pcb ∈ l) then l else pcb :: l) ∧
     (∃ u', us_store w' !! pcb = Some u' ∧ up_local_ip u' = ip ∧
        (port = 0 ∧ in_port_range (up_local_port u') ∧ ¬ port_taken l w (up_local_port u') ∨
         up_local_port u' = port)) ∧
     (∀ x, x ≠ pcb → us_store w' !! x = us_store w !! x) ∨
   r = ERR_USE ∧ l' = l ∧ us_store w' = us_store w ∧
     (port = 0 ∧ (∀ q, in_port_range q → port_taken l w q) ∨ port ≠ 0 ∧ ¬ unbound l w pcb ip port)).

Lemma bind_run l s pcb u ip port :
  pcbs_ok l (uof s) → us_store (uof s) !! pcb = Some u → pcb ≠ 0 → 0 ≤ port < 65536 →
  ∃ r w' l', udp_bind pcb (Some ip) port s = Some (r, with_u w' s) ∧
    bound_as l (uof s) pcb ip port r l' w'.
Proof.
  intros Hok Hu Hp0 Hport. unfold udp_bind. rewrite (proj2 (Z.eqb_neq pcb 0)) by done.
  cbn [ip4_addr_get default]. rewrite (prog_bind_step _ _ s (pcb_fuel (uof s)) s) by done.
  rewrite (prog_bind_step _ _ s (us_pcbs (uof s)) s) by done.
  rewrite (prog_bind_step _ _ _ _ _ (pcb_on_list_run pcb s l _ _ (po_list _ _ Hok) (pcbs_fuel _ _ Hok))).
  destruct (bind_port_run l s pcb ip port Hok Hport) as (r & w & E & Hokw & Est & Epc & Hr).
  rewrite (prog_bind_step _ _ _ _ _ E).
  destruct Hr as [(Hr0 & Hfree & Hr)|(-> & Hno)].
  2: { exists ERR_USE, w, l. split; [done|]. split; [done|]. right. split; [done|]. by split. }
  rewrite (proj2 (Z.eqb_neq r 0)) by done.
  assert (Hr16 : 0 < r < 65536).
  { destruct Hr as [(_ & Hr & _)| ->]; [|lia].
    unfold in_port_range, UDP_LOCAL_PORT_RANGE_START, UDP_LOCAL_PORT_RANGE_END in Hr. lia. }
  assert (Huw : us_store w !! pcb = Some u) by (by rewrite Est).
  rewrite (prog_bind_step _ _ _ _ _ (upd_pcb_run pcb _ u (with_u w s) Huw)), with_with, uof_with.
  set (u1 := with_local ip r u). set (w1 := set_store (<[pcb := u1]> (us_store w)) w).
  assert (Hfree1 : unbound l w1 pcb ip r).
  { intros y v Hy Hne. unfold w1. cbn. rewrite lookup_insert_ne by done. rewrite Est. by apply Hfree. }
  assert (Hokw1 : pcbs_ok l w1).
  { apply (pcbs_set l w pcb u u1); [done | done | done |]. intros _. split; [done|].
    intros y v Hy Hne. rewrite Est. by apply Hfree. }
  assert (Hother : ∀ x, x ≠ pcb → us_store w1 !! x = us_store (uof s) !! x).
  { intros x Hx. unfold w1. cbn. by rewrite lookup_insert_ne, Est by done. }
  destruct (decide (pcb ∈ l)) as [Hin|Hin]; rewrite bool_decide_decide;
    [rewrite decide_True by done | rewrite decide_False by done]; cbn [negb when].
  - exists ERR_OK, w1, l. split; [done|]. split; [done|]. left. split; [done|]. rewrite decide_True by done.
    split; [done|]. split; [|done]. exists u1. split; [apply lookup_insert_eq|]. split; [done|]. tauto.
  - rewrite (prog_bind_step _ _ _ _ _ (push_run (with_u w1 s) pcb u1 (lookup_insert_eq _ _ _))), with_with, uof_with.
    exists ERR_OK. eexists _, (pcb :: l). split; [done|]. split; [apply pcbs_push; try done; apply lookup_insert_eq|].
    left. split; [done|]. rewrite decide_False by done. split; [done|]. split.
    + exists (with_up_next (us_pcbs w1) u1). split; [apply lookup_insert_eq|]. split; [done|]. cbn. tauto.
    + intros x Hx. cbn. rewrite lookup_insert_ne by done. by apply Hother.
Qed.

(** ** Changes of the links *)

(** A control block but for its link. *)
Definition strip (u : udp_pcb) : udp_pcb := with_up_next 0 u.
Definition same_blocks (m m' : gmap Z udp_pcb) : Prop := ∀ x, strip <$> m' !! x = strip <$> m !! x.

Lemma same_blocks_relink m x u n : m !! x = Some u → same_blocks m (<[x := with_up_next n u]> m).
Proof.
  intros Hx y. destruct (decide (x = y)) as [->|Hne].
  - by rewrite lookup_insert_eq, Hx.
  - by rewrite lookup_insert_ne.
Qed.
Lemma same_blocks_trans m1 m2 m3 : same_blocks m1 m2 → same_blocks m2 m3 → same_blocks m1 m3.
Proof. intros H1 H2 x. by rewrite H2, H1. Qed.
Lemma same_blocks_lookup m m' x v :
  same_blocks m m' → m' !! x = Some v → ∃ u, m !! x = Some u ∧ strip u = strip v.
Proof.
  intros H Hx. specialize (H x). rewrite Hx in H. cbn in H.
  destruct (m !! x) as [u|]; [|done]. exists u. split; [done|]. cbn in H. congruence.
Qed.

Lemma pcbs_relink l w l' m' p' :
  pcbs_ok l w → same_blocks (us_store w) m' → llist up_next m' p' l' → NoDup l' → (∀ x, x ∈ l' → x ∈ l) →
  pcbs_ok l' (set_pcbs p' (set_store m' w)).
Proof.
  intros [Hl Hnd Hp Hb Hu] Hs Hl' Hnd' Hsub. split; cbn; try done.
  - intros x v Hx Hv. destruct (same_blocks_lookup _ _ _ _ Hs Hv) as (u & Eu & Es).
    replace (up_local_port v) with (up_local_port (strip v)) by done. rewrite <- Es. by apply (Hb x u); auto.
  - intros x y v v' Hx Hy Hv Hv' Ep Ei. destruct (same_blocks_lookup _ _ _ _ Hs Hv) as (u & Eu & Es).
    destruct (same_blocks_lookup _ _ _ _ Hs Hv') as (u' & Eu' & Es').
    apply (Hu x y u u'); auto;
      [change (up_local_port (strip u) = up_local_port (strip u')) | change (up_local_ip (strip u) = up_local_ip (strip u'))];
      by rewrite Es, Es'.
Qed.

(** Taking a control block out of the list behind [tmp]. *)
Lemma udp_unlink_run pcb s : ∀ l fuel tmp,
  pcb ≠ 0 → llist up_next (us_store (uof s)) tmp l → NoDup l → tmp ≠ pcb → (length l < fuel)%nat →
  ∃ m, udp_unlink fuel pcb tmp s = Some (tt, with_u (set_store m (uof s)) s) ∧
    same_blocks (us_store (uof s)) m ∧ llist up_next m tmp (filter (.≠ pcb) l) ∧
    (∀ x, (x ∉ l) → m !! x = us_store (uof s) !! x).
Proof.
  intros l. induction l as [|x l IH]; intros fuel tmp Hn0 Hl Hnd Hne Hf;
    (destruct fuel as [|fuel]; [cbn in Hf; lia|]); cbn [udp_unlink].
  - cbn in Hl. subst tmp. exists (us_store (uof s)). split; [|done].
    rewrite <- (with_uof s) at 1. by destruct (uof s).
  - destruct Hl as (-> & Hx & t & Ht & Hl). apply list.NoDup_cons in Hnd as [Hxl Hnd].
    rewrite (proj2 (Z.eqb_neq x 0)) by done. rewrite (prog_bind_step _ _ _ _ _ (the_pcb_run x t s Ht)).
    rewrite filter_cons_True by done.
    destruct l as [|y l].
    { cbn in Hl. rewrite Hl. cbn [Z.eqb negb andb].
      destruct fuel as [|fuel]; [cbn in Hf; lia|]. cbn [udp_unlink Z.eqb]. exists (us_store (uof s)).
      split; [rewrite <- (with_uof s) at 1; by destruct (uof s)|]. split; [done|]. split; [|done].
      split; [done|]. split; [done|]. by exists t. }
    pose proof Hl as (Ey & Hy0 & uy & Huy & Hl2). rewrite Ey in *.
    rewrite (proj2 (Z.eqb_neq y 0)) by done. cbn [negb andb].
    destruct (Z.eqb_spec y pcb) as [->|Hyn].
    + rewrite (prog_bind_step _ _ _ _ _ (the_pcb_run pcb uy s Huy)). rewrite (upd_pcb_run x _ t s Ht).
      eexists. split; [done|]. split; [by apply same_blocks_relink|].
      apply list.NoDup_cons in Hnd as [Hpl Hnd].
      split; [|intros z Hz; rewrite lookup_insert_ne; [done | set_solver]].
      split; [done|]. split; [done|]. exists (with_up_next (up_next uy) t). rewrite lookup_insert_eq.
      split; [done|]. cbn [up_next with_up_next]. rewrite filter_cons_False, remove_absent by (done || tauto).
      apply llist_insert; [done | set_solver].
    + destruct (IH fuel y Hn0 Hl Hnd Hyn) as (m & E & Hs & Hm & Hfr); [cbn in *; lia|].
      exists m. split; [exact E|]. split; [exact Hs|]. split; [|intros z Hz; apply Hfr; set_solver].
      split; [done|]. split; [done|]. exists t. rewrite (Hfr x Hxl). split; [done|]. by rewrite Ey.
Qed.

(** ** What callers rely on *)

(** C37: [udp_new_port] ends, and gives a port of the range 49152 to 65535 that no control block on
    the list has; it gives 0 exactly when every port of the range is taken.  Nothing but the counter
    [udp_port] changes, and that stays in the range. *)
Theorem udp_new_port_free l s :
  pcbs_ok l (uof s) →
  ∃ r port, udp_new_port s = Some (r, with_u (set_port port (uof s)) s) ∧ in_port_range port ∧
    (r ≠ 0 → in_port_range r ∧ ¬ port_taken l (uof s) r) ∧
    (r = 0 ↔ ∀ q, in_port_range q → port_taken l (uof s) q).
Proof.
  intros Hok. destruct (new_port_run l s Hok) as (r & port & E & Hr & Hcase). exists r, port.
  split; [exact E|]. split; [exact Hr|]. destruct Hcase as [[-> Hfree]|[-> Hall]]; [|by split].
  split; [by split|]. split; [|intros Hall; by destruct Hfree; apply Hall].
  intros ->. unfold in_port_range, UDP_LOCAL_PORT_RANGE_START in Hr. lia.
Qed.

(** [udp_bind] returns.  It gives a control block the address and the port asked for, or for
    port 0 a free one, and puts it at the front of the list if it is not on the list; it refuses
    with [ERR_USE], changing no control block, exactly when another one on the list has the address
    and the port, or when no port is free.  All other control blocks stay as they are. *)
Theorem udp_bind_outcome l s pcb u ip port :
  pcbs_ok l (uof s) → us_store (uof s) !! pcb = Some u → pcb ≠ 0 → 0 ≤ port < 65536 →
  ∃ r w' l', udp_bind pcb (Some ip) port s = Some (r, with_u w' s) ∧
    bound_as l (uof s) pcb ip port r l' w'.
Proof. apply bind_run. Qed.
End state.
