(* ===== verification/UdpProps.v ===== *)
(** * Properties of UDP

    Which control block gets a datagram, and that the list of control blocks
    stays well formed through all calls of udp.c. *)

From stdpp Require Import base numbers list gmap option relations.
From S2P Require Import Prelude Mem MemRefine Memp Pbuf PbufLemmas PbufAlloc PbufOps PbufProps Chksum Ip4Addr Etharp LinkedList Netifs NetifProps Ip4 Ip4Props Ip4Output Udp UdpList.

(** ** The choice of the control block *)

(** What a datagram is compared with. *)
Record datagram := Datagram {
  dg_from : Z; dg_to : Z;           (* addresses *)
  dg_src : Z; dg_dest : Z;          (* ports *)
  dg_broadcast : bool;
  dg_netmask : Z                    (* of the receiving interface *)
}.

(** The control block is bound to where the datagram goes. *)
Definition local_match (d : datagram) (u : udp_pcb) : bool :=
  (up_local_port u =? dg_dest d)
  && (if dg_broadcast d
      then ip4_addr_isany (up_local_ip u) || (dg_to d =? IPADDR_BROADCAST)
           || ip4_addr_netcmp (up_local_ip u) (dg_to d) (dg_netmask d)
      else ip4_addr_isany (up_local_ip u) || (up_local_ip u =? dg_to d)).
(** It also talks to where the datagram comes from. *)
Definition full_match (d : datagram) (u : udp_pcb) : bool :=
  local_match d u && (up_remote_port u =? dg_src d)
  && (ip4_addr_isany (up_remote_ip u) || (up_remote_ip u =? dg_from d)).
Definition open_match (d : datagram) (u : udp_pcb) : bool := local_match d u && negb (connected u).

Section demux.
  Context {U : Type}.
  Implicit Types (s : tstate U) (w : ustate U).

(** The datagram that the state of the IP layer and the ports describe. *)
Definition datagram_of s (nfi : netif) (bc src dest : Z) : datagram :=
  Datagram (current_iphdr_src (is_data (as_link s))) (current_iphdr_dest (is_data (as_link s))) src dest
    (negb (bc =? 0)) (nf_netmask nfi).

Lemma local_match_run s inp nfi bc src dest u :
  as_netifs s !! inp = Some nfi →
  (if up_local_port u =? dest then udp_input_local_match u inp bc else mret false) s
  = Some (local_match (datagram_of s nfi bc src dest) u, s).
Proof.
  intros Hi. unfold local_match, datagram_of. cbn [dg_dest dg_broadcast dg_to dg_netmask].
  destruct (up_local_port u =? dest); [|done]. unfold udp_input_local_match.
  rewrite (prog_bind_step _ _ s (is_data (as_link s)) s) by done. destruct (bc =? 0); cbn [negb andb]; [done|].
  destruct (_ || _); [done|]. by rewrite (prog_bind_step _ _ s nfi s) by (by apply the_netif_run).
Qed.

(** The last element of a list, or [NULL]. *)
Definition last_or_null (l : list Z) : Z := default 0 (last l).

(** The step that moves a match to the front. *)
Lemma move_front_run l1 x l2 u s :
  pcbs_ok (l1 ++ x :: l2) (uof s) → us_store (uof s) !! x = Some u →
  ∃ w', (when (negb (last_or_null l1 =? 0))
           (upd_pcb (last_or_null l1) (with_up_next (up_next u)) ;; push_pcb x)) s = Some (tt, with_u w' s) ∧
    pcbs_ok (x :: l1 ++ l2) w' ∧ same_blocks (us_store (uof s)) (us_store w') ∧
    us_port w' = us_port (uof s) ∧ us_rest w' = us_rest (uof s).
Proof.
  intros Hok Hx. pose proof Hok as [Hl Hnd _ _ _]. unfold last_or_null.
  destruct l1 as [|y l1 _] using rev_ind.
  { cbn. exists (uof s). rewrite with_uof. split; [done|]. split; [done|]. split; [|done]. by intros z. }
  rewrite last_snoc. cbn [default from_option id]. rewrite <- app_assoc in *. cbn [app] in *.
  destruct (llist_lookup _ _ _ y Hl ltac:(set_solver)) as [uy Huy].
  assert (Hy0 : y ≠ 0) by (intros ->; eapply (llist_nonzero _ _ _ Hl); set_solver).
  assert (Hx0 : x ≠ 0) by (intros ->; eapply (llist_nonzero _ _ _ Hl); set_solver).
  assert (Hyx : y ≠ x).
  { intros ->. apply list.NoDup_app in Hnd as (_ & _ & Hnd). apply list.NoDup_cons in Hnd as [Hnd _]. set_solver. }
  rewrite (proj2 (Z.eqb_neq y 0)) by done. cbn [negb when].
  rewrite (prog_bind_step _ _ _ _ _ (upd_pcb_run y _ uy s Huy)).
  set (m1 := <[y := with_up_next (up_next u) uy]> (us_store (uof s))).
  assert (Hx1 : m1 !! x = Some u) by (unfold m1; by rewrite lookup_insert_ne).
  rewrite (push_run _ x u) by (by rewrite uof_with). rewrite with_with, uof_with. cbn [us_pcbs us_store set_store].
  eexists. split; [done|].
  assert (Hs : same_blocks (us_store (uof s)) (<[x := with_up_next (us_pcbs (uof s)) u]> m1)).
  { eapply same_blocks_trans; [by apply (same_blocks_relink _ y uy (up_next u)) | by apply same_blocks_relink]. }
  split; [|by split].
  assert (Hnd' : NoDup (x :: l1 ++ y :: l2)).
  { replace (l1 ++ y :: x :: l2) with ((l1 ++ [y]) ++ x :: l2) in Hnd by (by rewrite <- app_assoc).
    rewrite <- Permutation_middle in Hnd. by rewrite <- app_assoc in Hnd. }
  apply (pcbs_relink (l1 ++ y :: x :: l2) (uof s)); try done.
  - split; [done|]. split; [done|]. eexists. rewrite lookup_insert_eq. split; [done|]. cbn [up_next with_up_next].
    apply list.NoDup_cons in Hnd' as [Hnx _]. apply llist_insert; [|done].
    by apply (llist_skip (us_store (uof s)) _ l1 y x l2 u).
  - set_solver.
Qed.

(** The search of [udp_input] from behind [l1] on. *)
Lemma search_run inp nfi bc src dest s (d := datagram_of s nfi bc src dest) : ∀ l2 l1 fuel uncon pcb,
  pcbs_ok (l1 ++ l2) (uof s) → as_netifs s !! inp = Some nfi → (length l2 < fuel)%nat →
  llist up_next (us_store (uof s)) pcb l2 → none_such (us_store (uof s)) (full_match d) l1 →
  search_result (us_store (uof s)) (open_match d) l1 uncon →
  ∃ r w', udp_input_search fuel inp bc src dest (last_or_null l1) uncon pcb s = Some (r, with_u w' s) ∧
    same_blocks (us_store (uof s)) (us_store w') ∧ us_port w' = us_port (uof s) ∧ us_rest w' = us_rest (uof s) ∧
    (r ≠ 0 ∧ first_such (us_store (uof s)) (full_match d) (l1 ++ l2) r ∧
       pcbs_ok (r :: filter (.≠ r) (l1 ++ l2)) w' ∨
     none_such (us_store (uof s)) (full_match d) (l1 ++ l2) ∧
       search_result (us_store (uof s)) (open_match d) (l1 ++ l2) r ∧ w' = uof s).
Proof.
  intros l2. induction l2 as [|x l2 IH]; intros l1 [|fuel] uncon pcb Hok Hi Hf Hl Hno Hun;
    [cbn in Hf; lia | | cbn in Hf; lia |]; cbn [udp_input_search].
  - cbn in Hl. subst pcb. exists uncon, (uof s). rewrite with_uof, !app_nil_r in *. split; [done|].
    split; [by intros z|]. split; [done|]. split; [done|]. by right.
  - destruct Hl as (-> & Hx0 & u & Hu & Hl). rewrite (proj2 (Z.eqb_neq x 0)) by done.
    rewrite (prog_bind_step _ _ _ _ _ (the_pcb_run x u s Hu)).
    rewrite (prog_bind_step _ _ _ _ _ (local_match_run s inp nfi bc src dest u Hi)). fold d.
    rewrite (prog_bind_step _ _ s (is_data (as_link s)) s) by done. cbv zeta.
    change (local_match d u && (up_remote_port u =? src)
      && (ip4_addr_isany (up_remote_ip u) || (up_remote_ip u =? current_iphdr_src (is_data (as_link s)))))
      with (full_match d u). fold (open_match d u).
    destruct (full_match d u) eqn:Ef.
    + destruct (move_front_run l1 x l2 u s Hok Hu) as (w' & E & Hok' & Hs & Hp & Hr).
      rewrite (prog_bind_step _ _ _ _ _ E). exists x, w'. split; [done|]. split; [done|]. split; [done|].
      split; [done|]. left. split; [done|]. split.
      * exists l1, l2, u. split; [done|]. split; [done|]. split; [done | exact Hno].
      * by rewrite remove_middle by apply Hok.
    + replace (l1 ++ x :: l2) with ((l1 ++ [x]) ++ l2) in * by (by rewrite <- app_assoc).
      destruct (IH (l1 ++ [x]) fuel (if open_match d u && (uncon =? 0) then x else uncon) (up_next u))
        as (r & w' & E & H); try done; [cbn in Hf; lia | | by apply search_snoc |].
      * intros y v Hy Hv. apply elem_of_app in Hy as [Hy|Hy]; [by eapply Hno|].
        apply list_elem_of_singleton in Hy as ->. congruence.
      * exists r, w'. split; [|exact H]. rewrite <- E. unfold last_or_null at 1. rewrite last_snoc. done.
Qed.

(** ** Receiving *)

(** A port in the UDP header. *)
Definition port_at (k : nat) (d : bytes) : Z := lwip_htons (field k 2 d).

(** The control block that gets the datagram: the first full match, which is
    then at the front of the list, or else the first match that is not
    connected. *)
Definition chosen (pl : list Z) w (d : datagram) (r : Z) (pl' : list Z) w' : Prop :=
  same_blocks (us_store w) (us_store w') ∧ us_port w' = us_port w ∧ us_rest w' = us_rest w ∧
  pcbs_ok pl' w' ∧
  (r ≠ 0 ∧ first_such (us_store w) (full_match d) pl r ∧ pl' = r :: filter (.≠ r) pl ∨
   none_such (us_store w) (full_match d) pl ∧ search_result (us_store w) (open_match d) pl r ∧
     pl' = pl ∧ w' = w).

Lemma chosen_block pl w d r pl' w' :
  chosen pl w d r pl' w' → r ≠ 0 → ∃ u, us_store w' !! r = Some u ∧ local_match d u = true.
Proof.
  assert (Hstrip : ∀ u v, strip u = strip v → local_match d u = local_match d v).
  { intros u v E. change (local_match d (strip u) = local_match d (strip v)). by rewrite E. }
  intros (Hs & _ & _ & _ & [(_ & (l1 & l2 & u & _ & Hu & Hm & _) & _)|(_ & Hr & _ & ->)]) Hr0.
  - specialize (Hs r). rewrite Hu in Hs. cbn in Hs. destruct (us_store w' !! r) as [v|] eqn:Ev; [|done].
    exists v. split; [done|]. cbn in Hs. rewrite (Hstrip v u) by congruence.
    unfold full_match in Hm. by destruct (local_match d u).
  - destruct Hr as [(_ & l1 & l2 & u & _ & Hu & Hm & _)|[-> _]]; [|done]. exists u. split; [done|].
    unfold open_match in Hm. by destruct (local_match d u).
Qed.
End demux.

Section input.
  Context {U : Type}.
  Context (call_recv : Z → Z → Z → Z → Z → Z → prog (tstate U) unit).
  Context (icmp_dest_unreach : Z → Z → prog (tstate U) unit).
  Implicit Types (s : tstate U) (w : ustate U).
  #[local] Set Default Proof Using "All".

Abbreviation input := (udp_input call_recv icmp_dest_unreach).
Abbreviation deliver := (udp_deliver call_recv icmp_dest_unreach).

(** The packet and the interfaces are in place. *)
Record arrived s (p inp : Z) (b : pbuf) (l : chain) (d : bytes) (nfi nf : netif) (pl : list Z) : Prop := {
  ar_chain : chain_at (as_packets s) p ((p, b) :: l) d;
  ar_room : p + SIZEOF_STRUCT_PBUF ≤ pb_payload b;
  ar_inp : as_netifs s !! inp = Some nfi;
  ar_cur : as_netifs s !! current_netif (is_data (as_link s)) = Some nf;
  ar_pcbs : pcbs_ok pl (uof s)
}.

(** Up to the delivery. *)
Lemma input_search s p inp b l d nfi nf pl :
  arrived s p inp b l d nfi nf pl → UDP_HLEN ≤ pb_len b →
  let g := is_data (as_link s) in
  let bc := ip4_addr_isbroadcast_u32 (current_iphdr_dest g) nf in
  ∃ r pl' w', chosen pl (uof s) (datagram_of s nfi bc (port_at 0 d) (port_at 2 d)) r pl' w' ∧
    input p inp s
    = (if negb (r =? 0) || (nf_ip_addr nfi =? current_iphdr_dest g)
       then deliver p r bc (port_at 0 d) else free_pbuf p) (with_u w' s).
Proof.
  intros [Hc _ Hi Hn Hok] Hlen g bc. unfold UDP_HLEN in Hlen.
  destruct (chain_at_head _ _ _ _ _ _ Hc) as (_ & _ & Eb & _). unfold udp_input.
  rewrite (prog_bind_step _ _ s b s) by (unfold packets, deref; rewrite Eb; by destruct s).
  rewrite (proj2 (Z.ltb_ge (pb_len b) UDP_HLEN)) by (unfold UDP_HLEN; lia). cbv zeta.
  rewrite (prog_bind_step _ _ s g s) by done.
  rewrite (prog_bind_step _ _ s nf s) by (by apply the_netif_run). fold bc.
  rewrite (prog_bind_step _ _ _ _ _ (peek_head0 s p b l d 2 Hc ltac:(lia))).
  rewrite (prog_bind_step _ _ _ _ _ (peek_head s p b l d 2 2 Hc ltac:(lia))).
  change (lwip_htons (of_le (take 2 d))) with (port_at 0 d).
  change (lwip_htons (of_le (take 2 (drop 2 d)))) with (port_at 2 d).
  rewrite (prog_bind_step _ _ s (pcb_fuel (uof s)) s) by done.
  rewrite (prog_bind_step _ _ s (us_pcbs (uof s)) s) by done.
  destruct (search_run inp nfi bc (port_at 0 d) (port_at 2 d) s pl [] (pcb_fuel (uof s)) 0 (us_pcbs (uof s)))
    as (r & w' & E & Hs & Hp & Hre & Hcase); try done.
  { by apply pcbs_fuel. }
  { apply Hok. }
  { intros x v Hx. by apply elem_of_nil in Hx. }
  { apply search_nil. }
  rewrite (prog_bind_step _ _ _ _ _ E). cbn [app] in Hcase.
  assert (Hch : ∃ pl', chosen pl (uof s) (datagram_of s nfi bc (port_at 0 d) (port_at 2 d)) r pl' w').
  { destruct Hcase as [(Hr0 & Hf & Hok')|(Hno & Hr & ->)]; [exists (r :: filter (.≠ r) pl) | exists pl];
      (split; [done|]; split; [done|]; split; [done|]; split; [done|]); [left | right]; by auto. }
  destruct Hch as [pl' Hch]. exists r, pl', w'. split; [exact Hch|].
  rewrite (prog_bind_step _ _ (with_u w' s) (negb (r =? 0) || (nf_ip_addr nfi =? current_iphdr_dest g)) (with_u w' s));
    [by destruct (_ || _)|].
  destruct (r =? 0); cbn [negb orb]; [|done].
  by rewrite (prog_bind_step _ _ (with_u w' s) nfi (with_u w' s)) by (by apply the_netif_run).
Qed.

(** Going back over the UDP header and the IP header. *)
Lemma reveal_hide n k b : reveal (k + n) (hide n b) = reveal k b.
Proof. destruct b. unfold reveal, hide, with_tot_len, with_len, with_payload. cbn. f_equal; lia. Qed.
Lemma header_state_twice q p b b' : header_state (header_state q p b) p b' = header_state q p b'.
Proof. unfold header_state. cbn. by rewrite insert_insert_eq. Qed.

(** The UDP header is taken off. *)
Lemma hide_run s p inp b l d nfi nf pl w' :
  arrived s p inp b l d nfi nf pl → UDP_HLEN ≤ pb_len b →
  let s' := set_packets (header_state (as_packets s) p (hide UDP_HLEN b)) (with_u w' s) in
  packets (pbuf_header p (- UDP_HLEN)) (with_u w' s) = Some (0, s') ∧
  chain_at (as_packets s') p ((p, hide UDP_HLEN b) :: l) (drop 8 d).
Proof.
  intros [Hc Hroom _ _ _] Hlen s'. unfold UDP_HLEN in *.
  destruct (chain_at_head _ _ _ _ _ _ Hc) as (_ & Hp0 & Eb & _).
  pose proof Hc as [_ (Hb0 & Ht & Hm & Hl') _]. cbn [lens] in Ht. pose proof (lens_nonneg _ Hl').
  split.
  - unfold packets. cbn [as_packets with_u]. by rewrite (header_hide_run _ _ b) by (done || lia).
  - apply (chain_at_hide _ _ _ _ _ 8 Hc); lia.
Qed.

(** Delivery to a control block. *)
Lemma deliver_to s p inp b l d nfi nf pl r u w' bc src :
  arrived s p inp b l d nfi nf pl → UDP_HLEN ≤ pb_len b → r ≠ 0 → us_store w' !! r = Some u →
  let g := is_data (as_link s) in
  ∃ s', uof s' = w' ∧ is_data (as_link s') = g ∧ as_netifs s' = as_netifs s ∧ as_table s' = as_table s ∧
    chain_at (as_packets s') p ((p, hide UDP_HLEN b) :: l) (drop 8 d) ∧
    deliver p r bc src (with_u w' s) = (if up_recv u =? 0 then free_pbuf p else
      call_recv (up_recv u) (up_recv_arg u) r p (current_iphdr_src g) src) s'.
Proof.
  intros Har Hlen Hr Hu g. destruct (hide_run s p inp b l d nfi nf pl w' Har Hlen) as [Eh Hch8].
  set (s' := set_packets (header_state (as_packets s) p (hide UDP_HLEN b)) (with_u w' s)) in *. exists s'.
  split; [done|]. split; [done|]. split; [done|]. split; [done|]. split; [exact Hch8|].
  unfold udp_deliver. rewrite (prog_bind_step _ _ _ _ _ Eh). cbn [Z.eqb negb].
  rewrite (prog_bind_step _ _ s' g s') by done. rewrite (proj2 (Z.eqb_neq r 0)) by done. cbn [negb].
  rewrite (prog_bind_step _ _ s' u s') by (by apply the_pcb_run). by destruct (up_recv u =? 0).
Qed.

(** The IP header is still in front of the datagram. *)
Record header_before s (p : Z) (b : pbuf) (h d : bytes) : Prop := {
  hb_len : current_ip_header_tot_len (is_data (as_link s)) = Z.of_nat (length h);
  hb_range : IP_HLEN ≤ Z.of_nat (length h) ≤ 60;
  hb_total : Z.of_nat (length h + length d) < 65536;
  hb_room : is_ref_type (pb_type b) = false → p + SIZEOF_STRUCT_PBUF ≤ pb_payload b - Z.of_nat (length h);
  hb_load : load_bytes (ps_bytes (as_packets s)) (pb_payload b - Z.of_nat (length h)) (length h) = Some h
}.

(** The answer when nobody has the port. *)
Lemma deliver_unreachable s p inp b l d nfi nf pl h src :
  arrived s p inp b l d nfi nf pl → UDP_HLEN ≤ pb_len b →
  ip4_addr_ismulticast (current_iphdr_dest (is_data (as_link s))) = false → header_before s p b h d →
  ∃ s', chain_at (as_packets s') p ((p, reveal (Z.of_nat (length h)) b) :: l) (h ++ d) ∧
    as_link s' = as_link s ∧ as_netifs s' = as_netifs s ∧ as_table s' = as_table s ∧
    deliver p 0 0 src s = (icmp_dest_unreach p ICMP_DUR_PORT ;; free_pbuf p) s'.
Proof.
  intros Har Hlen Hmc [Hhl Hh60 Htot Hroom Hload]. set (g := is_data (as_link s)) in *.
  destruct (hide_run s p inp b l d nfi nf pl (uof s) Har Hlen) as [Eh _]. rewrite with_uof in Eh.
  set (s' := set_packets (header_state (as_packets s) p (hide UDP_HLEN b)) s) in *. pose proof Har as [Hc _ _ _ _].
  pose proof (chain_with_header _ p b l d (ps_bytes (as_packets s)) h Hc Htot Hload eq_refl) as Hnew.
  set (n := Z.of_nat (length h)) in *. pose proof Hc as [_ (Hb0 & Ht & Hm & Hl') _].
  destruct (chain_at_head _ _ _ _ _ _ Hc) as (_ & Hp0 & Eb & Etot).
  cbn [lens] in Ht. pose proof (lens_nonneg _ Hl'). unfold UDP_HLEN, IP_HLEN in *.
  exists (set_packets (header_state (as_packets s) p (reveal n b)) s).
  split; [exact Hnew|]. split; [done|]. split; [done|]. split; [done|].
  unfold udp_deliver. rewrite (prog_bind_step _ _ _ _ _ Eh). cbn [Z.eqb negb].
  rewrite (prog_bind_step _ _ s' g s') by done. rewrite Hmc. cbn [Z.eqb negb andb when].
  assert (Ef : packets (pbuf_header_force p (s16 (current_ip_header_tot_len g + UDP_HLEN))) s'
    = Some (0, set_packets (header_state (as_packets s) p (reveal n b)) s)).
  { unfold packets, pbuf_header_force, UDP_HLEN. rewrite Hhl. fold n.
    replace (s16 (n + 8)) with (n + 8) by (unfold s16; rewrite Z.mod_small; lia).
    rewrite (header_reveal_gen _ _ (hide 8 b)); try done; cbn; try lia.
    - unfold s'. cbn [as_packets set_packets]. by rewrite header_state_twice, reveal_hide.
    - apply lookup_insert_eq.
    - destruct (is_ref_type (pb_type b)); [done|]. specialize (Hroom eq_refl). lia. }
  unfold mbind, prog_bind. by rewrite Ef.
Qed.

(** C15: A datagram goes to the first control block of the list that is bound to its destination and
    talks to its source, which is moved to the front of the list, or else to the first one bound to
    its destination that is not connected: its receive function gets the data without the UDP
    header and the sender's address and port.  A datagram for our address and a port that nobody
    has is answered by an ICMP port unreachable message about the whole IP packet, unless it was
    sent to many hosts, and freed, as is every other one.  The list keeps its elements. *)
Theorem udp_input_demux s p inp b l d nfi nf pl :
  arrived s p inp b l d nfi nf pl → UDP_HLEN ≤ pb_len b →
  let g := is_data (as_link s) in
  let bc := ip4_addr_isbroadcast_u32 (current_iphdr_dest g) nf in
  ∃ r pl' w', chosen pl (uof s) (datagram_of s nfi bc (port_at 0 d) (port_at 2 d)) r pl' w' ∧
    (r ≠ 0 → ∃ u s', us_store w' !! r = Some u ∧ uof s' = w' ∧ is_data (as_link s') = g ∧
       as_netifs s' = as_netifs s ∧ as_table s' = as_table s ∧
       chain_at (as_packets s') p ((p, hide UDP_HLEN b) :: l) (drop 8 d) ∧
       input p inp s = (if up_recv u =? 0 then free_pbuf p else
         call_recv (up_recv u) (up_recv_arg u) r p (current_iphdr_src g) (port_at 0 d)) s') ∧
    (r = 0 → nf_ip_addr nfi ≠ current_iphdr_dest g → input p inp s = free_pbuf p s) ∧
    (∀ h, r = 0 → nf_ip_addr nfi = current_iphdr_dest g →
       bc = 0 → ip4_addr_ismulticast (current_iphdr_dest g) = false → header_before s p b h d →
       ∃ s', chain_at (as_packets s') p ((p, reveal (Z.of_nat (length h)) b) :: l) (h ++ d) ∧
         as_link s' = as_link s ∧ as_netifs s' = as_netifs s ∧ as_table s' = as_table s ∧
         input p inp s = (icmp_dest_unreach p ICMP_DUR_PORT ;; free_pbuf p) s').
Proof.
  intros Har Hlen g bc. destruct (input_search s p inp b l d nfi nf pl Har Hlen) as (r & pl' & w' & Hch & E).
  fold g bc in Hch, E. exists r, pl', w'. split; [exact Hch|]. rewrite E.
  assert (Hw : r = 0 → with_u w' s = s).
  { intros ->. destruct Hch as (_ & _ & _ & _ & [[? _]|(_ & _ & _ & ->)]); [done | apply with_uof]. }
  split; [|split].
  - intros Hr. destruct (chosen_block _ _ _ _ _ _ Hch Hr) as (u & Hu & _).
    destruct (deliver_to s p inp b l d nfi nf pl r u w' bc (port_at 0 d) Har Hlen Hr Hu) as (s' & H1 & H2 & H3 & H4 & H5 & H6).
    rewrite (proj2 (Z.eqb_neq r 0)) by done. cbn [negb orb]. rewrite H6. by exists u, s'.
  - intros Hr Hne. rewrite (Hw Hr), Hr. cbn [Z.eqb negb orb]. by rewrite (proj2 (Z.eqb_neq _ _)) by done.
  - intros h Hr Hme Hbc Hmc Hh. rewrite (Hw Hr), Hr, Hbc. cbn [Z.eqb negb orb].
    rewrite (proj2 (Z.eqb_eq _ _) Hme). by apply (deliver_unreachable s p inp b l d nfi nf pl).
Qed.
End input.
