(* ===== verification/UdpInv.v ===== *)
(** * The control blocks of UDP in every reachable state

    Whatever sequence of calls of udp.c runs, with receive functions that
    call back into it, the list of control blocks is well formed and no two
    of them have the same address and port. *)

From stdpp Require Import base numbers list gmap option relations.
From S2P Require Import Prelude Mem MemRefine Memp Pbuf PbufLemmas PbufAlloc PbufOps PbufProps Chksum Ip4Addr Etharp LinkedList Netifs NetifProps Ip4 Ip4Props Ip4Output Udp UdpList UdpProps.

Section inv.
  Context {U : Type}.
  Implicit Types (s : tstate U) (w : ustate U).

(** The list is well formed, and what is not on it has no port. *)
Record udp_inv (l : list Z) w : Prop := {
  ui_ok : pcbs_ok l w;
  ui_off : ∀ x u, us_store w !! x = Some u → (x ∉ l) → up_local_port u = 0;
  ui_null : us_store w !! 0 = None
}.
Definition udp_good s : Prop := ∃ l, udp_inv l (uof s).

#[export] Instance udp_good_prop : NetifProp udp_good.
Proof. intros s s' _ E [l H]. exists l. unfold uof in *. by rewrite E. Qed.

Lemma holds_ip_same (f : ipstate (ustate U) → ipstate (ustate U)) :
  (∀ i, is_rest (f i) = is_rest i) → holds udp_good (ip_set f).
Proof. intros Hf s x s' [= _ <-] [l H]. exists l. unfold uof in *. cbn. by rewrite Hf. Qed.

(** ** Single control blocks *)

Lemma the_pcb_inv n s u s' : the_pcb n s = Some (u, s') → us_store (uof s) !! n = Some u ∧ s' = s.
Proof.
  unfold the_pcb. rewrite (prog_bind_step _ _ s (us_store (uof s)) s) by done. unfold lift.
  destruct (_ !! _); [|done]. by intros [= <- <-].
Qed.
Lemma holds_the_pcb n : holds udp_good (the_pcb n).
Proof. intros s u s' H. by apply the_pcb_inv in H as [_ ->]. Qed.
Lemma holds_udp_get {A} (f : ustate U → A) : holds udp_good (udp_get f).
Proof. apply holds_ip_get. Qed.

Lemma upd_pcb_inv n f s x s' :
  upd_pcb n f s = Some (x, s') → ∃ u, us_store (uof s) !! n = Some u ∧
    s' = with_u (set_store (<[n := f u]> (us_store (uof s))) (uof s)) s.
Proof.
  intros H. unfold upd_pcb in H. apply prog_bind_Some in H as (u & s1 & H1 & H2).
  apply the_pcb_inv in H1 as [Hu ->]. exists u. split; [done|]. by injection H2 as _ <-.
Qed.

Lemma inv_other l w n u u' :
  udp_inv l w → us_store w !! n = Some u → up_next u' = up_next u →
  up_local_port u' = up_local_port u → up_local_ip u' = up_local_ip u →
  udp_inv l (set_store (<[n := u']> (us_store w)) w).
Proof.
  intros [Hok Hoff Hnull] Hn E1 E2 E3. assert (n ≠ 0) by congruence.
  split; [by apply (pcbs_other l w n u)| |]; cbn.
  - intros x v. destruct (decide (n = x)) as [->|Hne].
    + rewrite lookup_insert_eq. intros [= <-] Hx. rewrite E2. by apply (Hoff x).
    + rewrite lookup_insert_ne by done. apply Hoff.
  - by rewrite lookup_insert_ne.
Qed.

(** A change of the remote side, the options or the callback. *)
Lemma holds_upd_other n f :
  (∀ u, up_next (f u) = up_next u) → (∀ u, up_local_port (f u) = up_local_port u) →
  (∀ u, up_local_ip (f u) = up_local_ip u) → holds udp_good (upd_pcb n f).
Proof.
  intros H1 H2 H3 s x s' H [l Hl]. apply upd_pcb_inv in H as (u & Hu & ->). exists l. rewrite uof_with.
  by apply (inv_other l (uof s) n u).
Qed.

Lemma holds_disconnect pcb : holds udp_good (udp_disconnect pcb).
Proof. by apply holds_upd_other. Qed.
Lemma holds_set_recv pcb f a : holds udp_good (udp_recv pcb f a).
Proof. by apply holds_upd_other. Qed.

(** ** Binding *)

Lemma bound_inv l w pcb ip port r l' w' :
  udp_inv l w → pcb ≠ 0 → bound_as l w pcb ip port r l' w' → udp_inv l' w'.
Proof.
  intros [Hok Hoff Hnull] Hp0 [Hok' [(_ & -> & _ & Hother)|(_ & -> & Hst & _)]].
  - split; [done| |by rewrite Hother by done]. intros x v Hv Hx. apply (Hoff x).
    + rewrite <- Hother; [done|]. intros ->. destruct (decide (pcb ∈ l)); set_solver.
    + destruct (decide (pcb ∈ l)); set_solver.
  - split; [done| |]; by rewrite Hst.
Qed.

Lemma holds_bind_pcb pcb ip port : 0 ≤ port < 65536 → holds udp_good (udp_bind pcb ip port).
Proof.
  intros Hport s r s' H [l [Hok Hoff Hnull]].
  destruct (decide (pcb = 0)) as [->|Hp0].
  { injection H as _ <-. by exists l. }
  destruct (us_store (uof s) !! pcb) as [u|] eqn:Hu.
  - destruct (bind_run l s pcb u (ip4_addr_get ip) port Hok Hu Hp0 Hport) as (r' & w' & l' & E & Hb).
    assert (E' : udp_bind pcb (Some (ip4_addr_get ip)) port s = udp_bind pcb ip port s) by done.
    rewrite E', H in E. injection E as <- ->. exists l'. rewrite uof_with.
    by apply (bound_inv l (uof s) pcb (ip4_addr_get ip) port r).
  - unfold udp_bind in H. rewrite (proj2 (Z.eqb_neq pcb 0)) in H by done.
    rewrite (prog_bind_step _ _ s (pcb_fuel (uof s)) s) in H by done.
    rewrite (prog_bind_step _ _ s (us_pcbs (uof s)) s) in H by done.
    rewrite (prog_bind_step _ _ _ _ _ (pcb_on_list_run pcb s l _ _ (po_list _ _ Hok) (pcbs_fuel _ _ Hok))) in H.
    destruct (bind_port_run l s pcb (ip4_addr_get ip) port Hok Hport) as (r' & w & E & Hokw & Est & _).
    rewrite (prog_bind_step _ _ _ _ _ E) in H. destruct (r' =? 0).
    + injection H as _ <-. exists l. rewrite uof_with. split; [done| |]; by rewrite Est.
    + apply prog_bind_Some in H as (x & s1 & H1 & _). apply upd_pcb_inv in H1 as (u & Hu' & _).
      rewrite uof_with, Est in Hu'. congruence.
Qed.

Lemma bind_if_needed_run l s pcb u :
  udp_inv l (uof s) → us_store (uof s) !! pcb = Some u →
  ∃ r w' l', bind_if_needed pcb s = Some (r, with_u w' s) ∧ udp_inv l' w' ∧
    (r = ERR_OK → pcb ∈ l' ∧ ∃ u', us_store w' !! pcb = Some u').
Proof.
  intros [Hok Hoff Hnull] Hu. unfold bind_if_needed. rewrite (prog_bind_step _ _ _ _ _ (the_pcb_run pcb u s Hu)).
  destruct (Z.eqb_spec (up_local_port u) 0) as [E0|E0].
  - rewrite E0. assert (Hp0 : pcb ≠ 0) by congruence.
    destruct (bind_run l s pcb u (up_local_ip u) 0 Hok Hu Hp0 ltac:(lia)) as (r & w' & l' & E & Hb).
    exists r, w', l'. split; [exact E|]. split; [by apply (bound_inv l (uof s) pcb (up_local_ip u) 0 r)|].
    intros ->. destruct Hb as [_ [(_ & -> & (u' & Hu' & _) & _)|(Hr & _)]]; [|done].
    split; [destruct (decide (pcb ∈ l)); set_solver | by exists u'].
  - exists ERR_OK, (uof s), l. rewrite with_uof. split; [done|]. split; [done|]. intros _.
    split; [|by exists u]. destruct (decide (pcb ∈ l)); [done|]. by destruct E0; apply (Hoff pcb).
Qed.

Lemma holds_bind_if_needed pcb : holds udp_good (bind_if_needed pcb).
Proof.
  unfold bind_if_needed. apply holds_bind; [apply holds_the_pcb|]. intros u.
  destruct (Z.eqb_spec (up_local_port u) 0) as [->|]; [|apply holds_ret]. apply holds_bind_pcb. lia.
Qed.

(** [udp_connect] returns; the control block is then on the list. *)
Lemma connect_run l s pcb u ip port :
  udp_inv l (uof s) → us_store (uof s) !! pcb = Some u →
  ∃ r w' l', udp_connect pcb (Some ip) port s = Some (r, with_u w' s) ∧ udp_inv l' w' ∧
    (r = ERR_OK → pcb ∈ l' ∧ ∃ u', us_store w' !! pcb = Some u' ∧ up_remote_ip u' = ip ∧
       up_remote_port u' = port ∧ connected u' = true).
Proof.
  intros Hinv Hu. assert (Hp0 : pcb ≠ 0) by (intros ->; by rewrite (ui_null _ _ Hinv) in Hu).
  unfold udp_connect. rewrite (proj2 (Z.eqb_neq pcb 0)) by done.
  destruct (bind_if_needed_run l s pcb u Hinv Hu) as (r & w1 & l1 & E & Hinv1 & Hok).
  rewrite (prog_bind_step _ _ _ _ _ E). destruct (Z.eqb_spec r ERR_OK) as [->|Hr]; cbn [negb].
  2: { exists r, w1, l1. split; [done|]. split; [done|]. by intros ->. }
  destruct (Hok eq_refl) as (Hin & u1 & Hu1).
  rewrite (prog_bind_step _ _ _ _ _ (upd_pcb_run pcb _ u1 (with_u w1 s) Hu1)), with_with, uof_with.
  set (u2 := with_remote ip port (Z.lor (up_flags u1) UDP_FLAGS_CONNECTED) u1).
  set (w2 := set_store (<[pcb := u2]> (us_store w1)) w1).
  assert (Hinv2 : udp_inv l1 w2) by (by apply (inv_other l1 w1 pcb u1)).
  rewrite (prog_bind_step _ _ (with_u w2 s) (pcb_fuel w2) (with_u w2 s)) by done.
  rewrite (prog_bind_step _ _ (with_u w2 s) (us_pcbs w2) (with_u w2 s)) by done.
  pose proof (ui_ok _ _ Hinv2) as Hok2.
  rewrite (prog_bind_step _ _ _ _ _ (pcb_on_list_run pcb (with_u w2 s) l1 _ _ (po_list _ _ Hok2) (pcbs_fuel _ _ Hok2))).
  rewrite bool_decide_true by done. cbn [negb when]. exists ERR_OK, w2, l1. split; [done|]. split; [done|].
  intros _. split; [done|]. exists u2. split; [apply lookup_insert_eq|]. split; [done|]. split; [done|].
  unfold connected, u2. cbn [up_flags with_remote]. apply negb_true_iff, Z.eqb_neq. intros E0.
  apply (f_equal (λ z, Z.testbit z 2)) in E0. rewrite Z.land_spec, Z.lor_spec in E0.
  change (Z.testbit UDP_FLAGS_CONNECTED 2) with true in E0. by rewrite orb_true_r in E0.
Qed.

Lemma holds_connect pcb ip port : holds udp_good (udp_connect pcb ip port).
Proof.
  intros s r s' H [l Hl]. destruct ip as [ip|]; [|injection H as _ <-; by exists l].
  destruct (us_store (uof s) !! pcb) as [u|] eqn:Hu.
  - destruct (connect_run l s pcb u ip port Hl Hu) as (r' & w' & l' & E & Hinv & _). rewrite E in H.
    injection H as _ <-. by exists l'.
  - unfold udp_connect in H. destruct (pcb =? 0); [injection H as _ <-; by exists l|].
    apply prog_bind_Some in H as (x & s1 & H1 & _). unfold bind_if_needed in H1.
    apply prog_bind_Some in H1 as (y & s2 & H2 & _). apply the_pcb_inv in H2 as [H2 _]. congruence.
Qed.

(** ** Making and removing *)

Lemma deref_same p s b s' : packets (deref p) s = Some (b, s') → s' = s.
Proof. unfold packets, deref. destruct (_ !! _); [|done]. intros [= _ <-]. by destruct s. Qed.
Lemma peek_same a n s x s' : peek a n s = Some (x, s') → s' = s.
Proof. unfold peek, packets. destruct (load_bytes _ _ _); [|done]. intros [= _ <-]. by destruct s. Qed.
Lemma the_netif_same n s nf s' : the_netif n s = Some (nf, s') → s' = s.
Proof. unfold the_netif. destruct (_ !! _); [|done]. by intros [= _ <-]. Qed.
Lemma packets_uof {A} (c : prog pstate A) s x s' : packets c s = Some (x, s') → uof s' = uof s.
Proof. unfold packets. destruct (c _) as [[a q]|]; [|done]. by intros [= _ <-]. Qed.

Lemma new_ok s pcb s' :
  udp_new s = Some (pcb, s') → us_store (uof s) !! pcb = None → udp_good s → udp_good s'.
Proof.
  intros H Hfresh [l [Hok Hoff Hnull]]. unfold udp_new in H. apply prog_bind_Some in H as (a & s1 & H1 & H).
  apply packets_uof in H1. apply prog_bind_Some in H as (y & s2 & H2 & [= -> <-]).
  destruct (Z.eqb_spec pcb 0) as [->|Hp0]; cbn [negb when] in H2.
  { injection H2 as _ <-. exists l. rewrite H1. by split. }
  rewrite udp_mod_run in H2. injection H2 as _ <-. exists l. rewrite uof_with, H1.
  destruct Hok as [Hl Hnd Hp Hb Hu].
  assert (Hnl : (pcb ∉ l)) by (intros Hin; destruct (llist_lookup _ _ _ _ Hl Hin); congruence).
  split; cbn.
  - split; cbn; [by apply llist_insert | done | done | |].
    + intros x v Hx. rewrite lookup_insert_ne by (intros ->; done). by apply Hb.
    + intros x z v v' Hx Hz. rewrite !lookup_insert_ne by (intros ->; done). by apply Hu.
  - intros x v. destruct (decide (pcb = x)) as [->|Hne].
    + rewrite lookup_insert_eq. by intros [= <-].
    + rewrite lookup_insert_ne by done. apply Hoff.
  - by rewrite lookup_insert_ne.
Qed.

(** The list without the control block, before its memory is freed. *)
Lemma remove_list_run l s pcb u :
  udp_inv l (uof s) → us_store (uof s) !! pcb = Some u →
  ∃ m p', (if us_pcbs (uof s) =? pcb then u ← the_pcb (us_pcbs (uof s)); udp_mod (set_pcbs (up_next u))
           else f ← udp_get pcb_fuel; udp_unlink f pcb (us_pcbs (uof s))) s
          = Some (tt, with_u (set_pcbs p' (set_store m (uof s))) s) ∧
    same_blocks (us_store (uof s)) m ∧ llist up_next m p' (filter (.≠ pcb) l).
Proof.
  intros [[Hl Hnd Hp Hb Hu] Hoff Hnull] Hpcb. assert (Hp0 : pcb ≠ 0) by congruence.
  destruct (Z.eqb_spec (us_pcbs (uof s)) pcb) as [E|E].
  - destruct l as [|x l]; [cbn in Hl; congruence|]. destruct Hl as (Ex & _ & v & Hv & Hl).
    assert (x = pcb) as -> by congruence. assert (v = u) as -> by congruence. rewrite E.
    rewrite (prog_bind_step _ _ _ _ _ (the_pcb_run pcb u s Hpcb)). exists (us_store (uof s)), (up_next u).
    split; [rewrite udp_mod_run; by destruct (uof s)|]. split; [by intros y|].
    apply list.NoDup_cons in Hnd as [Hnx Hnd]. by rewrite filter_cons_False, remove_absent by (done || tauto).
  - rewrite (prog_bind_step _ _ s (pcb_fuel (uof s)) s) by done.
    destruct (udp_unlink_run pcb s l (pcb_fuel (uof s)) (us_pcbs (uof s)) Hp0 Hl Hnd E) as (m & Em & Hs & Hm & _).
    { pose proof (llist_length _ _ _ Hl Hnd). unfold pcb_fuel. lia. }
    exists m, (us_pcbs (uof s)). split; [rewrite Em; by destruct (uof s)|]. by split.
Qed.

Lemma remove_pcb_ok s pcb u x s' :
  udp_remove pcb s = Some (x, s') → us_store (uof s) !! pcb = Some u → udp_good s → udp_good s'.
Proof.
  intros H Hu [l Hinv]. unfold udp_remove in H.
  rewrite (prog_bind_step _ _ s (us_pcbs (uof s)) s) in H by done.
  destruct (remove_list_run l s pcb u Hinv Hu) as (m & p' & E & Hs & Hm).
  rewrite (prog_bind_step _ _ _ _ _ E) in H. apply prog_bind_Some in H as (y & s1 & H1 & H2).
  apply packets_uof in H1. rewrite udp_mod_run in H2. injection H2 as _ <-.
  destruct Hinv as [Hok Hoff Hnull]. exists (filter (.≠ pcb) l). rewrite uof_with, H1, uof_with. cbn.
  assert (Hok' : pcbs_ok (filter (.≠ pcb) l) (set_pcbs p' (set_store m (uof s)))).
  { apply (pcbs_relink l); try done; [by apply NoDup_filter, Hok|].
    intros z Hz. by apply list_elem_of_filter in Hz as [_ Hz]. }
  destruct Hok' as [Hl' Hnd' Hp' Hb' Hu']. cbn in *.
  assert (Hne : ∀ z, z ∈ filter (.≠ pcb) l → pcb ≠ z) by (intros z Hz; apply list_elem_of_filter in Hz as [? _]; auto).
  split; cbn.
  + split; cbn; try done.
    * apply (llist_frame m); [done|]. intros z v Hz Hv. exists v. by rewrite lookup_delete_ne by auto.
    * intros z v Hz. rewrite lookup_delete_ne by auto. by apply Hb'.
    * intros z z' v v' Hz Hz'. rewrite !lookup_delete_ne by auto. by apply Hu'.
  + intros z v Hv Hz. apply lookup_delete_Some in Hv as [Hzp Hv].
    destruct (same_blocks_lookup _ _ _ _ Hs Hv) as (v0 & Hv0 & Ev).
    replace (up_local_port v) with (up_local_port (strip v)) by done. rewrite <- Ev. apply (Hoff z v0 Hv0).
    intros Hin. apply Hz. by apply list_elem_of_filter.
  + rewrite lookup_delete_ne by congruence. specialize (Hs 0). rewrite Hnull in Hs. by destruct (m !! 0).
Qed.

(** ** Another address of the interface *)

(** A control block that was bound to the old address. *)
Definition readdress (old new : Z) (u : udp_pcb) : udp_pcb :=
  if up_local_ip u =? old then with_local new (up_local_port u) u else u.

Lemma addr_changed_run old new s : ∀ l fuel p w,
  llist up_next (us_store w) p l → NoDup l → (length l < fuel)%nat →
  ∃ m, addr_changed_loop fuel old new p (with_u w s) = Some (tt, with_u (set_store m w) s) ∧
    ∀ x, m !! x = if decide (x ∈ l) then readdress old new <$> us_store w !! x else us_store w !! x.
Proof.
  intros l. induction l as [|x l IH]; intros [|fuel] p w Hl Hnd Hf; [cbn in Hf; lia | | cbn in Hf; lia |];
    cbn [addr_changed_loop].
  - cbn in Hl. subst p. exists (us_store w). split; [by destruct w|]. intros x. by rewrite decide_False by set_solver.
  - destruct Hl as (-> & Hx0 & u & Hu & Hl). apply list.NoDup_cons in Hnd as [Hnx Hnd].
    rewrite (proj2 (Z.eqb_neq x 0)) by done. rewrite (prog_bind_step _ _ _ _ _ (the_pcb_run x u (with_u w s) Hu)).
    set (w1 := set_store (<[x := readdress old new u]> (us_store w)) w).
    rewrite (prog_bind_step _ _ (with_u w s) tt (with_u w1 s)).
    2: { unfold w1, readdress. destruct (up_local_ip u =? old); cbn [when].
         - by rewrite (upd_pcb_run x _ u (with_u w s) Hu).
         - rewrite insert_id by done. by destruct w. }
    assert (Hn : up_next (readdress old new u) = up_next u) by (unfold readdress; by destruct (_ =? _)).
    destruct (IH fuel (up_next u) w1) as (m & E & Hm); [by apply (llist_upd _ _ _ _ u) | done | cbn in Hf; lia |].
    exists m. split; [exact E|]. intros y. rewrite Hm. unfold w1. cbn [us_store set_store].
    destruct (decide (y = x)) as [->|Hyx].
    + rewrite decide_False, decide_True, lookup_insert_eq, Hu by set_solver. done.
    + rewrite lookup_insert_ne by auto. destruct (decide (y ∈ l)); [rewrite decide_True by set_solver; done|].
      rewrite decide_False by set_solver. done.
Qed.

Lemma addr_changed_ok s old new l x s' :
  udp_netif_ip_addr_changed old new s = Some (x, s') → udp_inv l (uof s) →
  (∀ y u, y ∈ l → us_store (uof s) !! y = Some u → up_local_ip u ≠ ip4_addr_get new) →
  udp_inv l (uof s').
Proof.
  intros H [Hok Hoff Hnull] Hfree. unfold udp_netif_ip_addr_changed in H.
  destruct (_ && _); [|injection H as _ <-; by split]. set (new' := ip4_addr_get new) in *.
  rewrite (prog_bind_step _ _ s (pcb_fuel (uof s)) s) in H by done.
  rewrite (prog_bind_step _ _ s (us_pcbs (uof s)) s) in H by done.
  pose proof (pcbs_fuel _ _ Hok) as Hfuel. destruct Hok as [Hl Hnd Hp Hb Hu].
  destruct (addr_changed_run old new' s l (pcb_fuel (uof s)) (us_pcbs (uof s)) (uof s) Hl Hnd Hfuel)
    as (m & E & Hm). rewrite with_uof in E. rewrite E in H. injection H as _ <-. rewrite uof_with.
  assert (Hin : ∀ y v, y ∈ l → m !! y = Some v → ∃ u, us_store (uof s) !! y = Some u ∧ v = readdress old new' u).
  { intros y v Hy. rewrite Hm, decide_True by done. destruct (us_store (uof s) !! y) as [u|]; [|done].
    intros [= <-]. by exists u. }
  assert (Hport : ∀ u, up_local_port (readdress old new' u) = up_local_port u)
    by (intros u; unfold readdress; by destruct (_ =? _)).
  split; cbn.
  - split; cbn; try done.
    + apply (llist_frame (us_store (uof s))); [done|]. intros y u Hy Hyu. exists (readdress old new' u).
      rewrite Hm, decide_True, Hyu by done. split; [done|]. unfold readdress. by destruct (_ =? _).
    + intros y v Hy Hv. destruct (Hin y v Hy Hv) as (u & Hyu & ->). rewrite Hport. by apply (Hb y).
    + intros y z v v' Hy Hz Hv Hv' Ep Ei. destruct (Hin y v Hy Hv) as (u & Hyu & ->).
      destruct (Hin z v' Hz Hv') as (u' & Hzu & ->). rewrite !Hport in Ep. apply (Hu y z u u'); try done.
      specialize (Hfree y u Hy Hyu) as Hfy. specialize (Hfree z u' Hz Hzu) as Hfz. unfold readdress in Ei.
      destruct (Z.eqb_spec (up_local_ip u) old), (Z.eqb_spec (up_local_ip u') old); cbn in Ei; congruence.
  - intros y v. rewrite Hm. intros Hv Hy. rewrite decide_False in Hv by done. by apply (Hoff y).
  - rewrite Hm. destruct (decide _); by rewrite Hnull.
Qed.
End inv.

(** ** All calls *)

Section steps.
  Context {U : Type}.
  Context (call_recv : Z → Z → Z → Z → Z → Z → prog (tstate U) unit).
  Context (icmp_dest_unreach : Z → Z → prog (tstate U) unit).
  Context (netif_output : Z → Z → Z → prog (tstate U) Z).
  Implicit Types s : tstate U.

(** The functions of udp.c that an application or netif.c calls, and what the
    rest of the system does between them.  A control block that [udp_new]
    hands out is new because [memp_malloc] is exclusive.  When an interface
    gets another address no control block may be bound to it yet. *)
Inductive udp_call : tstate U → tstate U → Prop :=
  | call_elsewhere s s' : uof s' = uof s → udp_call s s'
  | call_new s r s' : udp_new s = Some (r, s') → us_store (uof s) !! r = None → udp_call s s'
  | call_bind s pcb ip port r s' :
      0 ≤ port < 65536 → udp_bind pcb ip port s = Some (r, s') → udp_call s s'
  | call_connect s pcb ip port r s' : udp_connect pcb ip port s = Some (r, s') → udp_call s s'
  | call_disconnect s pcb s' : udp_disconnect pcb s = Some (tt, s') → udp_call s s'
  | call_set_recv s pcb f a s' : udp_recv pcb f a s = Some (tt, s') → udp_call s s'
  | call_remove s pcb u s' :
      us_store (uof s) !! pcb = Some u → udp_remove pcb s = Some (tt, s') → udp_call s s'
  | call_addr_changed s old new s' :
      (∀ y u, us_store (uof s) !! y = Some u → up_local_ip u ≠ ip4_addr_get new) →
      udp_netif_ip_addr_changed old new s = Some (tt, s') → udp_call s s'
  | call_sendto_if_src s pcb p dst port n src r s' :
      udp_sendto_if_src netif_output pcb p dst port n src s = Some (r, s') → udp_call s s'
  | call_sendto s pcb p dst port r s' :
      udp_sendto netif_output pcb p dst port s = Some (r, s') → udp_call s s'
  | call_send s pcb p r s' : udp_send netif_output pcb p s = Some (r, s') → udp_call s s'.

(** Datagrams that arrive are steps too. *)
Inductive udp_step : tstate U → tstate U → Prop :=
  | step_call s s' : udp_call s s' → udp_step s s'
  | step_udp_input s p inp s' nfi :
      as_netifs s !! inp = Some nfi →
      udp_input call_recv icmp_dest_unreach p inp s = Some (tt, s') → udp_step s s'.

  (** The layers below do not know the control blocks; the receive functions
      reach them only through the functions of udp.c. *)
  Context (Hout : ∀ n p a s r s', netif_output n p a s = Some (r, s') → uof s' = uof s).
  Context (Hicmp : ∀ p c s u s', icmp_dest_unreach p c s = Some (u, s') → uof s' = uof s).
  Context (Hrecv : ∀ f a pcb p ip port s u s', call_recv f a pcb p ip port s = Some (u, s') → rtc udp_call s s').
  #[local] Set Default Proof Using "All".

Lemma holds_out n p a : holds udp_good (netif_output n p a).
Proof. intros s r s' H [l Hl]. exists l. by rewrite (Hout _ _ _ _ _ _ H). Qed.
Lemma holds_icmp p c : holds udp_good (icmp_dest_unreach p c).
Proof. intros s r s' H [l Hl]. exists l. by rewrite (Hicmp _ _ _ _ _ H). Qed.
#[local] Hint Resolve holds_out holds_icmp holds_the_pcb holds_udp_get holds_bind_if_needed : netif.
#[local] Hint Resolve holds_ip_same : netif.

Lemma holds_output_src q src dst ttl tos proto n :
  holds udp_good (ip4_output_if_src netif_output q src dst ttl tos proto n).
Proof.
  unfold ip4_output_if_src, ip4_output_if_opt_src. destruct dst; unfold peek, poke; holds_solve.
Qed.
#[local] Hint Resolve holds_output_src : netif.

Lemma holds_sendto_if_src pcb p dst port n src :
  holds udp_good (udp_sendto_if_src netif_output pcb p dst port n src).
Proof.
  unfold udp_sendto_if_src. destruct dst as [dst|]; [|holds_solve].
  unfold udp_add_header. holds_solve. destruct x0 as [q|]; unfold udp_output_header, free_pbuf, poke, mark_pbuf; holds_solve.
Qed.
#[local] Hint Resolve holds_sendto_if_src : netif.

Lemma holds_route dest : holds udp_good (ip4_route (W := ustate U) dest).
Proof.
  assert (Hloop : ∀ fuel n, holds udp_good (ip4_route_loop (W := ustate U) fuel dest n)).
  { induction fuel as [|fuel IH]; intros n; cbn [ip4_route_loop]; holds_solve. }
  unfold ip4_route. holds_solve.
Qed.
#[local] Hint Resolve holds_route : netif.
Lemma holds_sendto pcb p dst port : holds udp_good (udp_sendto netif_output pcb p dst port).
Proof. unfold udp_sendto, udp_sendto_if. destruct dst as [dst|]; holds_solve. Qed.
#[local] Hint Resolve holds_sendto : netif.
Lemma holds_send pcb p : holds udp_good (udp_send netif_output pcb p).
Proof. unfold udp_send. holds_solve. Qed.

Lemma udp_call_ok s s' : udp_call s s' → udp_good s → udp_good s'.
Proof.
  intros [? ? E|? r ? E Hf|? pcb ip port r ? Hp E|? pcb ip port r ? E|? pcb ? E|? pcb f a ? E|? pcb u ? Hu E
    |? old new ? Hfree E|? pcb p dst port n src r ? E|? pcb p dst port r ? E|? pcb p r ? E] Hg.
  - destruct Hg as [l Hl]. exists l. by rewrite E.
  - by apply (new_ok _ _ _ E).
  - by apply (holds_bind_pcb pcb ip port Hp _ _ _ E).
  - by apply (holds_connect pcb ip port _ _ _ E).
  - by apply (holds_disconnect _ _ _ _ E).
  - by apply (holds_set_recv _ _ _ _ _ _ E).
  - by apply (remove_pcb_ok _ _ _ _ _ E Hu).
  - destruct Hg as [l Hl]. exists l. apply (addr_changed_ok _ _ _ _ _ _ E Hl). intros y v _. apply Hfree.
  - by apply (holds_sendto_if_src _ _ _ _ _ _ _ _ _ E).
  - by apply (holds_sendto _ _ _ _ _ _ _ E).
  - by apply (holds_send _ _ _ _ _ E).
Qed.

Lemma holds_recv f a pcb p ip port : holds udp_good (call_recv f a pcb p ip port).
Proof.
  intros s u s' H. apply Hrecv in H. induction H as [|s1 s2 s3 H _ IH]; [done|].
  intros Hs. apply IH. by apply (udp_call_ok s1).
Qed.
#[local] Hint Resolve holds_recv : netif.

Lemma holds_deliver p pcb bc src : holds udp_good (udp_deliver call_recv icmp_dest_unreach p pcb bc src).
Proof. unfold udp_deliver, free_pbuf. holds_solve. Qed.

Lemma udp_input_ok s p inp nfi x s' :
  as_netifs s !! inp = Some nfi → udp_input call_recv icmp_dest_unreach p inp s = Some (x, s') →
  udp_good s → udp_good s'.
Proof.
  intros Hi H [l Hinv]. unfold udp_input in H. apply prog_bind_Some in H as (b & s1 & H1 & H).
  apply deref_same in H1 as ->. destruct (_ <? _).
  { apply (holds_of udp_good _ _ _ _) in H; [done | unfold free_pbuf; holds_solve | by exists l]. }
  cbv zeta in H. apply prog_bind_Some in H as (g & s1 & [= <- <-] & H).
  apply prog_bind_Some in H as (nf & s1 & H1 & H). apply the_netif_same in H1 as ->.
  apply prog_bind_Some in H as (b1 & s1 & H1 & H). apply peek_same in H1 as ->.
  apply prog_bind_Some in H as (b2 & s1 & H1 & H). apply peek_same in H1 as ->.
  apply prog_bind_Some in H as (f & s1 & [= <- <-] & H).
  apply prog_bind_Some in H as (q & s1 & [= <- <-] & H).
  apply prog_bind_Some in H as (pcb & s1 & H1 & H).
  match type of H1 with udp_input_search _ _ ?bc ?src ?dest _ _ _ _ = _ =>
    destruct (search_run inp nfi bc src dest s l [] (pcb_fuel (uof s)) 0 (us_pcbs (uof s)))
      as (r & w' & E & Hs & _ & _ & Hcase) end;
    [apply Hinv | done | apply pcbs_fuel, Hinv | apply Hinv | by intros y v Hy%elem_of_nil | apply search_nil |].
  pose proof (eq_trans (eq_sym E) H1) as E1. injection E1 as <- <-. clear E H1.
  assert (Hg : udp_good (with_u w' s)).
  { destruct Hinv as [Hok Hoff Hnull]. rewrite <- (uof_with w' s) in Hs.
    destruct Hcase as [(Hr0 & Hf & Hok')|(_ & _ & ->)]; [|rewrite with_uof; by exists l].
    exists (r :: filter (.≠ r) l). split; [exact Hok'| |].
    - intros y v Hv Hy. destruct (same_blocks_lookup _ _ _ _ Hs Hv) as (v0 & Hv0 & Ev).
      replace (up_local_port v) with (up_local_port (strip v)) by done. rewrite <- Ev. apply (Hoff y v0 Hv0).
      intros Hin. apply Hy. apply elem_of_cons. destruct (decide (y = r)); [by left|]. right.
      by apply list_elem_of_filter.
    - specialize (Hs 0). rewrite Hnull in Hs. by destruct (us_store (uof (with_u w' s)) !! 0). }
  apply (holds_of udp_good _ _ _ _) in H; [done| | done]. pose proof holds_deliver. unfold free_pbuf. holds_solve.
Qed.

End steps.
