(* ===== verification/UdpSend.v ===== *)
(** * Sending UDP datagrams

    The headers that [udp_sendto_if_src] puts in front of the data, as the
    receiver reads them. *)

From stdpp Require Import base numbers list gmap option.
From S2P Require Import Prelude Mem MemRefine Memp Pbuf PbufLemmas PbufAlloc PbufOps PbufProps Chksum ChksumProps Ip4Addr Etharp LinkedList Netifs NetifProps Ip4 Ip4Props Ip4Output Udp UdpList UdpProps.

(** The header of RFC 768 with the checksum left to the hardware. *)
Definition udp_header_of (src dest len : Z) : bytes :=
  [src / 256; src mod 256; dest / 256; dest mod 256; len / 256; len mod 256; 0; 0].

Lemma prog_bind_ret {S A} (c : prog S A) s : (x ← c; mret x) s = c s.
Proof. unfold mbind, prog_bind. destruct (c s) as [[x s']|]; done. Qed.

Lemma port_of_bytes a r : 0 ≤ a < 65536 → lwip_htons (of_le (take 2 (a / 256 :: a mod 256 :: r))) = a.
Proof. intros Ha. cbn [take of_le foldr]. rewrite take_0. cbn. rewrite htons_value by zmod. zmod. Qed.

Lemma udp_header_fields src dest len d :
  0 ≤ src < 65536 → 0 ≤ dest < 65536 → 0 ≤ len < 65536 →
  let h := udp_header_of src dest len ++ d in
  port_at 0 h = src ∧ port_at 2 h = dest ∧ port_at 4 h = len ∧ field 6 2 h = 0 ∧ drop 8 h = d.
Proof.
  intros Hs Hd Hl h. split; [by apply port_of_bytes|]. split; [by apply port_of_bytes|].
  split; [by apply port_of_bytes|]. by split.
Qed.

Section header.
  Context {W : Type}.
  Implicit Types s : istate W.

Lemma store_udp_header s a src dest len :
  mapped (ps_bytes (as_packets s)) a UDP_HLEN → 0 ≤ src < 65536 → 0 ≤ dest < 65536 → 0 ≤ len < 65536 →
  ∃ s', (∀ A (c : prog (istate W) A),
    (poke a (le16 (lwip_htons src)) ;; poke (a + 2) (le16 (lwip_htons dest)) ;; poke (a + 6) (le16 0) ;;
     when false (mret tt) ;; poke (a + 4) (le16 (lwip_htons len)) ;; c) s = c s') ∧
    written_at s (as_link s) a (udp_header_of src dest len) s'.
Proof.
  intros Hm Hs Hd Hl. unfold UDP_HLEN in *.
  destruct (proj2 (load_bytes_is_Some (ps_bytes (as_packets s)) a 8)) as [h Eh]; [by apply Hm|].
  pose proof (load_bytes_length _ _ _ _ Eh) as Hh. rewrite <- Hh in Eh.
  rewrite !le16_htons by done. change (le16 0) with [0; 0].
  set (ws1 := [(0%nat, [src / 256; src mod 256]); (2%nat, [dest / 256; dest mod 256]); (6%nat, [0; 0])]).
  assert (F1 : Forall (λ w, (fst w + length (snd w) ≤ length h)%nat) ws1) by (rewrite Hh; repeat constructor).
  destruct (pokes_run s _ a ws1 h s (written_start _ _ _ Eh) F1) as (s1 & E1 & W1).
  apply overwrites_length in F1. set (h1 := overwrites h ws1) in *.
  set (ws2 := [(4%nat, [len / 256; len mod 256])]).
  assert (F2 : Forall (λ w, (fst w + length (snd w) ≤ length h1)%nat) ws2) by (rewrite F1, Hh; repeat constructor).
  destruct (pokes_run s _ a ws2 h1 s1 W1 F2) as (s2 & E2 & W2). exists s2. split.
  - intros A c. assert (E0 : ∀ z, poke (L := ipstate W) a z = poke (a + 0) z) by (intros; by rewrite Z.add_0_r).
    rewrite E0. etrans; [apply (E1 A)|]. cbn [when]. rewrite (prog_bind_step _ _ s1 tt s1) by done. apply (E2 A).
  - replace (udp_header_of src dest len) with (overwrites h1 ws2); [done|].
    unfold h1, ws1, ws2. clear -Hh. do 8 (destruct h as [|? h]; [done|]). by destruct h.
Qed.

End header.

(** The IP packet that carries a datagram. *)
Definition ip_datagram (u : udp_pcb) (id src dst dst_port : Z) (d : bytes) : bytes :=
  let ttl := if ip4_addr_ismulticast dst then up_mcast_ttl u else up_ttl u in
  header_of ttl (up_tos u) IP_PROTO_UDP (IP_HLEN + UDP_HLEN + Z.of_nat (length d)) id src dst
  ++ udp_header_of (up_local_port u) dst_port (UDP_HLEN + Z.of_nat (length d)) ++ d.

Lemma ip_datagram_length u id src dst dst_port d :
  Z.of_nat (length (ip_datagram u id src dst dst_port d)) = IP_HLEN + UDP_HLEN + Z.of_nat (length d).
Proof. unfold ip_datagram, IP_HLEN, UDP_HLEN. rewrite !length_app. cbn [length header_of udp_header_of]. cbn. lia. Qed.

Lemma ip_datagram_fields u id src dst dst_port d rest :
  0 ≤ up_local_port u < 65536 → 0 ≤ dst_port < 65536 → 0 ≤ src < 4294967296 → 0 ≤ dst < 4294967296 →
  IP_HLEN + UDP_HLEN + Z.of_nat (length d) < 65536 →
  let f := ip_datagram u id src dst dst_port d ++ rest in
  Z.shiftr (field 0 1 f) 4 = 4 ∧ hdr_hlen f = IP_HLEN ∧
  hdr_len f = IP_HLEN + UDP_HLEN + Z.of_nat (length d) ∧
  hdr_fragment f = false ∧ hdr_proto f = IP_PROTO_UDP ∧ hdr_src f = src ∧ hdr_dest f = dst ∧
  port_at 0 (drop 20 f) = up_local_port u ∧ port_at 2 (drop 20 f) = dst_port ∧
  port_at 4 (drop 20 f) = UDP_HLEN + Z.of_nat (length d) ∧ drop 28 f = d ++ rest.
Proof.
  intros Hlp Hdp Hsrc Hdst Hlen f. unfold IP_HLEN, UDP_HLEN in *.
  set (d1 := udp_header_of (up_local_port u) dst_port (8 + Z.of_nat (length d)) ++ d ++ rest).
  destruct (header_fields (if ip4_addr_ismulticast dst then up_mcast_ttl u else up_ttl u) (up_tos u) IP_PROTO_UDP
    (20 + 8 + Z.of_nat (length d)) id src dst d1) as (F1 & F2 & F3 & F4 & F5 & F6 & F7 & F8); [lia | done | done |].
  destruct (udp_header_fields (up_local_port u) dst_port (8 + Z.of_nat (length d)) (d ++ rest))
    as (G1 & G2 & G3 & _ & G5); [lia..|]. fold d1 in G1, G2, G3, G5.
  assert (Ef : f = header_of (if ip4_addr_ismulticast dst then up_mcast_ttl u else up_ttl u) (up_tos u) IP_PROTO_UDP
    (20 + 8 + Z.of_nat (length d)) id src dst ++ d1).
  { unfold f, ip_datagram, d1, IP_HLEN, UDP_HLEN. by rewrite <- !app_assoc. }
  change (drop 28 f) with (drop 8 (drop 20 f)). rewrite Ef, F8.
  split; [exact F1|]. split; [exact F2|]. split; [exact F3|]. split; [exact F4|]. split; [exact F5|].
  split; [exact F6|]. split; [exact F7|]. auto.
Qed.

Section send.
  Context {U : Type}.
  Context (netif_output : Z → Z → Z → prog (tstate U) Z).
  Implicit Types s : tstate U.
  #[local] Set Default Proof Using "All".

(** No copy of the packet is asked for. *)
Definition no_mcast_loop (u : udp_pcb) (dst : Z) : Prop :=
  negb (Z.land (up_flags u) UDP_FLAGS_MULTICAST_LOOP =? 0) && ip4_addr_ismulticast dst = false.

(** The UDP header is in place, and there is still room for the IP header. *)
Lemma udp_header_run m s pcb u p b l d dst dst_port n src :
  room (UDP_HLEN + m) s p b l d → 0 ≤ m → us_store (uof s) !! pcb = Some u → no_mcast_loop u dst →
  0 ≤ up_local_port u < 65536 → 0 ≤ dst_port < 65536 →
  let d1 := udp_header_of (up_local_port u) dst_port (UDP_HLEN + Z.of_nat (length d)) ++ d in
  let ttl := if ip4_addr_ismulticast dst then up_mcast_ttl u else up_ttl u in
  let s0 := set_packets (header_state (as_packets s) p (reveal UDP_HLEN b)) s in
  ∃ s1, udp_add_header p s = Some (Some p, s0) ∧
    udp_output_header netif_output pcb p dst dst_port n src s0
    = ip4_output_if_src netif_output p (Some src) (Some dst) ttl (up_tos u) IP_PROTO_UDP n s1 ∧
    room m s1 p (reveal UDP_HLEN b) l d1 ∧
    as_link s1 = as_link s ∧ as_netifs s1 = as_netifs s ∧ as_table s1 = as_table s ∧ as_cached s1 = as_cached s.
Proof.
  intros Hrm Hm0 Hu Hloop Hlp Hdp d1 ttl s0. pose proof Hrm as [Hc _ _ Hlen Hmap _]. unfold UDP_HLEN in *.
  destruct (chain_at_head _ _ _ _ _ _ Hc) as (_ & _ & _ & Et).
  destruct (store_udp_header s0 (pb_payload b - 8) (up_local_port u) dst_port (8 + Z.of_nat (length d)))
    as (s1 & E1 & W1); [|lia | lia | lia |].
  { apply (mapped_sub _ _ _ _ _ Hmap); unfold UDP_HLEN; lia. }
  exists s1. split; [|split; [|split; [|destruct W1 as [Es _ _]; by rewrite Es]]].
  - unfold udp_add_header, UDP_HLEN.
    by rewrite (prog_bind_step _ _ _ _ _ (room_reveal 8 m _ _ _ _ _ Hrm ltac:(lia) Hm0)).
  - unfold udp_output_header.
    rewrite (prog_bind_step _ _ s0 (reveal 8 b) s0).
    2: { unfold packets, deref. cbn [s0 set_packets as_packets header_state ps_pbufs]. by rewrite lookup_insert_eq. }
    cbv zeta. rewrite (prog_bind_step _ _ _ _ _ (the_pcb_run pcb u s0 Hu)). rewrite Hloop.
    replace (pb_tot_len (reveal 8 b)) with (8 + Z.of_nat (length d)) by (cbn; lia).
    apply (E1 _ (ip4_output_if_src netif_output p (Some src) (Some dst) ttl (up_tos u) IP_PROTO_UDP n)).
  - by apply (room_written 8 m s _ p b l d _ s1 Hrm Hm0) in W1.
Qed.

(** Sending through both layers. *)
Lemma sendto_run m s pcb u p b l d dst dst_port n src :
  let id := is_ip_id (as_link s) in
  room (IP_HLEN + UDP_HLEN + m) s p b l d → 0 ≤ m → us_store (uof s) !! pcb = Some u → pcb ≠ 0 →
  no_mcast_loop u dst → 0 < up_local_port u < 65536 → 0 ≤ dst_port < 65536 → 0 ≤ up_ttl u < 256 →
  0 ≤ up_mcast_ttl u < 256 → 0 ≤ id < 65536 →
  ∃ s', udp_sendto_if_src netif_output pcb p (Some dst) dst_port n src s = netif_output n p dst s' ∧
    room m s' p (reveal IP_HLEN (reveal UDP_HLEN b)) l (ip_datagram u id src dst dst_port d) ∧
    as_link s' = set_ip_id (u16 (id + 1)) (as_link s) ∧ as_netifs s' = as_netifs s ∧
    as_table s' = as_table s ∧ as_cached s' = as_cached s.
Proof.
  intros id Hr Hm0 Hu Hp0 Hloop Hlp Hdp Httl Hmttl Hid.
  replace (IP_HLEN + UDP_HLEN + m) with (UDP_HLEN + (IP_HLEN + m)) in Hr by lia.
  destruct (udp_header_run (IP_HLEN + m) s pcb u p b l d dst dst_port n src Hr ltac:(unfold IP_HLEN; lia) Hu Hloop
    ltac:(lia) Hdp) as (s1 & Ea & Eo & Hr1 & El & En & Et & Ec).
  set (d1 := udp_header_of (up_local_port u) dst_port (UDP_HLEN + Z.of_nat (length d)) ++ d) in *.
  set (ttl := if ip4_addr_ismulticast dst then up_mcast_ttl u else up_ttl u) in *.
  destruct (output_src_run netif_output m s1 p (reveal UDP_HLEN b) l d1 (Some src) dst ttl (up_tos u) IP_PROTO_UDP n Hr1 Hm0)
    as (s' & E & Hc & _ & El' & En' & Et' & Ec'); [by rewrite El | by unfold ttl; destruct (ip4_addr_ismulticast dst) | done |].
  change (ip4_addr_get (Some src)) with src in Hc. rewrite El in *. fold id in Hc, El'.
  exists s'. split; [|split; [|by rewrite <- En, <- Et, <- Ec]].
  - unfold udp_sendto_if_src. rewrite (proj2 (Z.eqb_neq pcb 0)) by done.
    rewrite (prog_bind_step _ _ s ERR_OK s).
    2: { unfold bind_if_needed. rewrite (prog_bind_step _ _ _ _ _ (the_pcb_run pcb u s Hu)).
         by rewrite (proj2 (Z.eqb_neq _ 0)) by lia. }
    cbn [Z.eqb ERR_OK negb]. rewrite (prog_bind_step _ _ _ _ _ Ea). cbv beta iota.
    rewrite Z.eqb_refl. cbn [negb when]. rewrite <- E, <- Eo. unfold mbind, prog_bind.
    by destruct (udp_output_header _ _ _ _ _ _ _ _) as [[? ?]|].
  - replace (IP_HLEN + Z.of_nat (length d1)) with (IP_HLEN + UDP_HLEN + Z.of_nat (length d)) in Hc; [exact Hc|].
    unfold d1, UDP_HLEN. rewrite length_app. cbn [length udp_header_of]. lia.
Qed.

(** [udp_sendto_if_src] of a bound control block puts a UDP header with the two ports and the
    length in front of the data and an IP header with the two addresses in front of that, and hands
    the packet to the output function of the interface; the receiver's functions read from it the
    ports, the addresses, the protocol, the lengths and the unchanged data.  The control blocks and
    the interfaces stay as they are, and [ip_id] moves on. *)
Theorem udp_datagram_headers s pcb u p b l d dst dst_port n src :
  let id := is_ip_id (as_link s) in
  room (IP_HLEN + UDP_HLEN) s p b l d → us_store (uof s) !! pcb = Some u → pcb ≠ 0 → no_mcast_loop u dst →
  0 < up_local_port u < 65536 → 0 ≤ dst_port < 65536 → 0 ≤ up_ttl u < 256 → 0 ≤ up_mcast_ttl u < 256 →
  0 ≤ id < 65536 → 0 ≤ src < 4294967296 → 0 ≤ dst < 4294967296 →
  ∃ s' d', udp_sendto_if_src netif_output pcb p (Some dst) dst_port n src s = netif_output n p dst s' ∧
    chain_at (as_packets s') p ((p, reveal IP_HLEN (reveal UDP_HLEN b)) :: l) d' ∧
    Z.shiftr (field 0 1 d') 4 = 4 ∧ hdr_hlen d' = IP_HLEN ∧ hdr_len d' = Z.of_nat (length d') ∧
    hdr_fragment d' = false ∧ hdr_proto d' = IP_PROTO_UDP ∧ hdr_src d' = src ∧ hdr_dest d' = dst ∧
    port_at 0 (drop 20 d') = up_local_port u ∧ port_at 2 (drop 20 d') = dst_port ∧
    port_at 4 (drop 20 d') = UDP_HLEN + Z.of_nat (length d) ∧ drop 28 d' = d ∧
    as_link s' = set_ip_id (u16 (id + 1)) (as_link s) ∧ as_netifs s' = as_netifs s ∧ as_table s' = as_table s.
Proof.
  intros id Hr Hu Hp0 Hloop Hlp Hdp Httl Hmttl Hid Hsrc Hdst. pose proof (rm_len _ _ _ _ _ _ Hr) as Hlen.
  destruct (sendto_run 0 s pcb u p b l d dst dst_port n src Hr ltac:(lia) Hu Hp0 Hloop Hlp Hdp Httl Hmttl Hid)
    as (s' & E & [Hc _ _ _ _ _] & El & En & Et & _). exists s', (ip_datagram u id src dst dst_port d).
  destruct (ip_datagram_fields u id src dst dst_port d []) as (F1 & F2 & F3 & F4 & F5 & F6 & F7 & F8 & F9 & F10 & F11);
    [lia | done.. |]. rewrite app_nil_r in *. rewrite ip_datagram_length. auto 20.
Qed.
End send.
