(* ===== verification/Icmp.v ===== *)
(** * ICMP (middlewares/lwip/src/core/ipv4/icmp.c)

    Echo requests are answered in the packet they came in, or in a copy of it
    when there is no room for the link header; destination unreachable
    messages quote the start of the packet.  Checksums are left to the
    hardware ([CHECKSUM_GEN_ICMP] and [CHECKSUM_CHECK_ICMP] are 0), echo
    requests to groups are not answered.  [netif->output] is a parameter. *)

From stdpp Require Import base numbers list gmap option.
From S2P Require Import Prelude Mem Memp Pbuf Chksum Ip4Addr Etharp Netifs Ip4.

Definition ICMP_ER : Z := 0.
Definition ICMP_DUR : Z := 3.
Definition ICMP_ECHO : Z := 8.
Definition ICMP_TTL : Z := 255.
Definition ICMP_DEST_UNREACH_DATASIZE : Z := 8.
(** [sizeof(struct icmp_echo_hdr)] *)
Definition ICMP_ECHO_HLEN : Z := 8.

Section icmp.
  Context {W : Type}.
  Context (netif_output : Z → Z → Z → prog (istate W) Z).

(** The copy with room for the link header; [None] stands for [icmperr]. *)
Definition icmp_echo_copy (p iphdr_in hlen : Z) : prog (istate W) (option Z) :=
  b ← packets (deref p);
  r ← packets (pbuf_alloc PBUF_LINK (u16 (pb_tot_len b + hlen)) PBUF_RAM);
  if r =? 0 then mret None else
  rb ← packets (deref r);
  if pb_len rb <? hlen + ICMP_ECHO_HLEN then free_pbuf r ;; mret None else
  packets (MEMCPY (pb_payload rb) iphdr_in hlen) ;;
  e ← packets (pbuf_header r (s16 (- hlen)));
  if negb (e =? 0) then free_pbuf r ;; mret None else
  err ← packets (pbuf_copy r p);
  if negb (err =? ERR_OK) then free_pbuf r ;; mret None else
  free_pbuf p ;; mret (Some r).

(** The packet that the answer is written to. *)
Definition icmp_echo_packet (p iphdr_in hlen : Z) : prog (istate W) (option Z) :=
  let room := hlen + PBUF_LINK_HLEN + PBUF_LINK_ENCAPSULATION_HLEN in
  e ← packets (pbuf_header p (s16 room));
  if negb (e =? 0) then icmp_echo_copy p iphdr_in hlen
  else
    e ← packets (pbuf_header p (- s16 room));
    if negb (e =? 0) then mret None else mret (Some p).

(** The answer. *)
Definition icmp_echo_reply (p inp src hlen : Z) : prog (istate W) unit :=
  b ← packets (deref p);
  let iecho := pb_payload b in
  e ← packets (pbuf_header p (s16 hlen));
  if negb (e =? 0) then mret tt else
  b ← packets (deref p);
  let iphdr := pb_payload b in
  poke (iphdr + 12) (addr_bytes src) ;;
  g ← ip_get is_data;
  poke (iphdr + 16) (addr_bytes (current_iphdr_src g)) ;;
  poke iecho [ICMP_ER] ;;
  poke (iecho + 2) (le16 0) ;;
  poke (iphdr + 8) [ICMP_TTL] ;;
  poke (iphdr + 10) (le16 0) ;;
  _ ← ip4_output_if netif_output p (Some src) None ICMP_TTL 0 IP_PROTO_ICMP inp;
  mret tt.

Definition icmp_echo (p inp iphdr_in hlen : Z) : prog (istate W) unit :=
  g ← ip_get is_data;
  let src := current_iphdr_dest g in
  if ip4_addr_ismulticast src then free_pbuf p else
  nf ← the_netif (current_netif g);
  if negb (ip4_addr_isbroadcast_u32 src nf =? 0) then free_pbuf p else
  b ← packets (deref p);
  if pb_tot_len b <? ICMP_ECHO_HLEN then free_pbuf p else
  r ← icmp_echo_packet p iphdr_in hlen;
  match r with
  | None => free_pbuf p
  | Some p => icmp_echo_reply p inp src hlen ;; free_pbuf p
  end.

Definition icmp_input (p inp : Z) : prog (istate W) unit :=
  g ← ip_get is_data;
  let iphdr_in := current_ip4_header g in
  vhl ← peek iphdr_in 1;
  let hlen := Z.land (of_le vhl) 0x0f * 4 in
  if hlen <? IP_HLEN then free_pbuf p else
  b ← packets (deref p);
  if pb_len b <? 4 then free_pbuf p else
  type ← peek (pb_payload b) 1;
  _ ← peek (pb_payload b + 1) 1;
  if of_le type =? ICMP_ECHO then icmp_echo p inp iphdr_in hlen
  else free_pbuf p.

Definition icmp_send_response (p type code : Z) : prog (istate W) unit :=
  q ← packets (pbuf_alloc PBUF_IP (ICMP_ECHO_HLEN + IP_HLEN + ICMP_DEST_UNREACH_DATASIZE) PBUF_RAM);
  if q =? 0 then mret tt else
  b ← packets (deref p);
  let iphdr := pb_payload b in
  qb ← packets (deref q);
  let icmphdr := pb_payload qb in
  poke icmphdr [u8 type] ;;
  poke (icmphdr + 1) [u8 code] ;;
  poke (icmphdr + 4) (le16 0) ;;
  poke (icmphdr + 6) (le16 0) ;;
  packets (MEMCPY (icmphdr + ICMP_ECHO_HLEN) iphdr (IP_HLEN + ICMP_DEST_UNREACH_DATASIZE)) ;;
  src ← peek (iphdr + 12) 4;
  let iphdr_src := of_le src in
  netif ← ip4_route iphdr_src;
  when (negb (netif =? 0))
    (poke (icmphdr + 2) (le16 0) ;;
     _ ← ip4_output_if netif_output q None (Some iphdr_src) ICMP_TTL 0 IP_PROTO_ICMP netif; mret tt) ;;
  free_pbuf q.

Definition icmp_dest_unreach (p t : Z) : prog (istate W) unit := icmp_send_response p ICMP_DUR t.
End icmp.
