(* ===== verification/IcmpProps.v ===== *)
(** * Properties of ICMP

    The answer to an echo request, and the message about a packet that could
    not be delivered. *)

From stdpp Require Import base numbers list gmap option.
From S2P Require Import Prelude Mem MemRefine Memp Pbuf PbufLemmas PbufAlloc PbufOps PbufProps Chksum ChksumProps Ip4Addr Etharp LinkedList Netifs NetifProps Ip4 Ip4Props Ip4Output Icmp.

(** ** Bytes that are written and bytes that are not *)

Lemma lookup_overwrite_out k z (d : bytes) i :
  (k + length z ≤ length d)%nat → (i < k ∨ k + length z ≤ i)%nat → overwrite k z d !! i = d !! i.
Proof.
  intros Hk Hi. unfold overwrite. destruct Hi as [Hi|Hi].
  - rewrite lookup_app_l by (rewrite length_take; lia). by rewrite lookup_take_lt.
  - rewrite lookup_app_r by (rewrite length_take; lia). rewrite lookup_app_r by (rewrite length_take; lia).
    rewrite lookup_drop, length_take. f_equal. lia.
Qed.

Lemma overwrite_inside_take k z (d : bytes) : (k + length z ≤ length d)%nat → take (length z) (drop k (overwrite k z d)) = z.
Proof.
  intros Hk. unfold overwrite. rewrite drop_app_ge by (rewrite length_take; lia).
  rewrite length_take, Nat.min_l, Nat.sub_diag, drop_0 by lia. by rewrite take_app_length.
Qed.

Lemma overwrite_outside k z k' n (d : bytes) :
  (k + length z ≤ length d)%nat → (k' + n ≤ k ∨ k + length z ≤ k')%nat →
  take n (drop k' (overwrite k z d)) = take n (drop k' d).
Proof.
  intros Hk Hd. apply list_eq. intros i. destruct (decide (i < n)%nat) as [Hi|Hi].
  - rewrite !lookup_take_lt, !lookup_drop by lia. apply lookup_overwrite_out; lia.
  - rewrite !lookup_take_ge by lia. done.
Qed.

Lemma field_overwrite_same k z (d : bytes) : (k + length z ≤ length d)%nat → field k (length z) (overwrite k z d) = of_le z.
Proof. intros Hk. unfold field. by rewrite overwrite_inside_take. Qed.
Lemma field_overwrite_ne k z k' n (d : bytes) :
  (k + length z ≤ length d)%nat → (k' + n ≤ k ∨ k + length z ≤ k')%nat → field k' n (overwrite k z d) = field k' n d.
Proof. intros Hk Hd. unfold field. by rewrite overwrite_outside. Qed.

(** Several writes. *)
Definition in_bounds (x : bytes) (ws : list (nat * bytes)) : Prop :=
  Forall (λ w, (fst w + length (snd w) ≤ length x)%nat) ws.
Definition misses (k n : nat) (ws : list (nat * bytes)) : Prop :=
  Forall (λ w, (k + n ≤ fst w ∨ fst w + length (snd w) ≤ k)%nat) ws.

(** Conditions on a concrete list of writes. *)
Ltac solve_writes :=
  repeat (apply Forall_cons_2; [cbn [fst snd length addr_bytes]; lia|]); apply Forall_nil_2.

Lemma overwrites_take ws : ∀ x k n, in_bounds x ws → misses k n ws →
  take n (drop k (overwrites x ws)) = take n (drop k x).
Proof.
  induction ws as [|[k' z] ws IH]; intros x k n Hb Hm; [done|].
  apply Forall_cons_1 in Hb as [Hb1 Hb]. apply Forall_cons_1 in Hm as [Hm1 Hm]. cbn [fst snd] in *.
  change (overwrites x ((k', z) :: ws)) with (overwrites (overwrite k' z x) ws). rewrite IH; [|..|done].
  - by apply overwrite_outside.
  - revert Hb. apply Forall_impl. intros w. cbn beta. by rewrite overwrite_length.
Qed.
Lemma overwrites_lookup ws x i : in_bounds x ws → misses i 1 ws → overwrites x ws !! i = x !! i.
Proof.
  intros Hb Hm. pose proof (overwrites_take ws x i 1 Hb Hm) as E. apply (f_equal (.!! 0%nat)) in E.
  rewrite !lookup_take_lt, !lookup_drop, Nat.add_0_r in E by lia. done.
Qed.
Lemma overwrites_field ws1 k z ws2 x :
  in_bounds x (ws1 ++ (k, z) :: ws2) → misses k (length z) ws2 →
  field k (length z) (overwrites x (ws1 ++ (k, z) :: ws2)) = of_le z.
Proof.
  intros Hb Hm. unfold overwrites, field. rewrite foldl_app. cbn [foldl fst snd].
  apply Forall_app in Hb as [Hb1 Hb]. apply Forall_cons_1 in Hb as [Hk Hb2]. cbn [fst snd] in Hk.
  pose proof (overwrites_length x ws1 Hb1) as Hl. fold (overwrites x ws1).
  change (foldl (λ h w, overwrite w.1 w.2 h) (overwrite k z (overwrites x ws1)) ws2)
    with (overwrites (overwrite k z (overwrites x ws1)) ws2).
  rewrite overwrites_take; [by rewrite overwrite_inside_take by lia| |done].
  revert Hb2. apply Forall_impl. intros w. cbn beta. rewrite overwrite_length by lia. by rewrite Hl.
Qed.

Section writes.
  Context {W : Type}.
  Implicit Types s : istate W.

(** Everything but the bytes of packets is as before. *)
Definition same_but_bytes s0 s : Prop :=
  s = set_packets (set_bytes (as_packets s0) (ps_bytes (as_packets s))) s0.

Lemma same_but_bytes_refl s : same_but_bytes s s.
Proof. unfold same_but_bytes. by destruct s as [? ? ? [] ?]. Qed.

(** Writing inside the first pbuf of a packet. *)
Lemma poke_chain s0 s p b l d k z :
  same_but_bytes s0 s → chain_at (as_packets s) p ((p, b) :: l) d → clear_of (pb_payload b) (pb_len b) l →
  Z.of_nat (k + length z) ≤ pb_len b →
  ∃ s', (∀ A (c : prog (istate W) A), (poke (pb_payload b + Z.of_nat k) z ;; c) s = c s') ∧
    same_but_bytes s0 s' ∧ chain_at (as_packets s') p ((p, b) :: l) (overwrite k z d).
Proof.
  intros Hs [Hp Hl Hd] Hclr Hk. destruct (pbytes_cons _ _ _ _ _ Hd) as (x & y & -> & Ex & Ey & Hx).
  destruct (store_bytes_is_Some (ps_bytes (as_packets s)) (pb_payload b + Z.of_nat k) z) as [m Em].
  { intros i Hi. apply (proj1 (load_bytes_is_Some (ps_bytes (as_packets s)) (pb_payload b) (Z.to_nat (pb_len b))));
      [eauto | lia]. }
  exists (set_packets (set_bytes (as_packets s) m) s). split; [|split].
  - intros A c. rewrite (prog_bind_step _ _ s tt (set_packets (set_bytes (as_packets s) m) s)); [done|].
    unfold poke, packets. by rewrite Em.
  - unfold same_but_bytes in *. rewrite Hs. by cbn.
  - split; [done | done|]. cbn [as_packets set_packets set_bytes ps_bytes pbytes].
    rewrite (load_store_inside _ _ _ _ _ _ _ Ex Em) by lia.
    destruct Hl as (_ & _ & _ & Hl). rewrite (pbytes_frame _ _ _ _ l Em Hl), Ey.
    + rewrite overwrite_inside by lia. done.
    + apply (clear_of_sub _ _ _ _ _ Hclr); lia.
Qed.

(** Writing to a packet does not change the other state. *)
Lemma poke_get s a z A (c : ip_globals → prog (istate W) A) :
  (poke a z ;; g ← ip_get is_data; c g) s = (poke a z ;; c (is_data (as_link s))) s.
Proof. unfold mbind, prog_bind, poke, packets. by destruct (store_bytes _ _ _). Qed.

Lemma pokes_chain s0 p b l ws : ∀ s d,
  same_but_bytes s0 s → chain_at (as_packets s) p ((p, b) :: l) d → clear_of (pb_payload b) (pb_len b) l →
  Forall (λ w, Z.of_nat (fst w + length (snd w)) ≤ pb_len b) ws →
  ∃ s', (∀ A (c : prog (istate W) A), pokes (pb_payload b) c ws s = c s') ∧
    same_but_bytes s0 s' ∧ chain_at (as_packets s') p ((p, b) :: l) (overwrites d ws).
Proof.
  induction ws as [|[k z] ws IH]; intros s d Hs Hc Hclr Hf; [exists s; by split|].
  apply Forall_cons_1 in Hf as [Hk Hf]. cbn [fst snd] in Hk.
  destruct (poke_chain s0 s p b l d k z Hs Hc Hclr Hk) as (s1 & E1 & Hs1 & Hc1).
  destruct (IH s1 _ Hs1 Hc1 Hclr Hf) as (s2 & E2 & Hs2 & Hc2). exists s2.
  split; [|by split]. intros A c. transitivity (pokes (pb_payload b) c ws s1); [apply E1 | apply E2].
Qed.
End writes.

(** ** Echo requests *)

Lemma hide_reveal n b : hide n (reveal n b) = b.
Proof. destruct b. unfold reveal, hide, with_tot_len, with_len, with_payload. cbn. f_equal; lia. Qed.

(** What is changed in the request: the addresses, the type of the message,
    the time to live and the checksums. *)
Definition echo_writes (n : nat) (src dest : Z) : list (nat * bytes) :=
  [(12%nat, addr_bytes src); (16%nat, addr_bytes dest); (n, [ICMP_ER]); ((n + 2)%nat, [0; 0]);
   (8%nat, [ICMP_TTL]); (10%nat, [0; 0])].
Definition echo_untouched (n i : nat) : Prop :=
  (i < 8 ∨ i = 9 ∨ 20 ≤ i < n ∨ i = n + 1 ∨ n + 4 ≤ i)%nat.

Lemma echo_bounds n (x : bytes) src dest :
  (20 ≤ n)%nat → (n + 4 ≤ length x)%nat →
  Forall (λ w, (fst w + length (snd w) ≤ length x)%nat) (echo_writes n src dest).
Proof. intros Hn Hx. unfold echo_writes, addr_bytes. solve_writes. Qed.

Lemma echo_length n (x : bytes) src dest :
  (20 ≤ n)%nat → (n + 4 ≤ length x)%nat → length (overwrites x (echo_writes n src dest)) = length x.
Proof. intros Hn Hx. by apply overwrites_length, echo_bounds. Qed.

(** The fields of the answer. *)
Lemma echo_fields n (x : bytes) src dest :
  (20 ≤ n)%nat → (n + 4 ≤ length x)%nat → 0 ≤ src < 4294967296 → 0 ≤ dest < 4294967296 →
  let y := overwrites x (echo_writes n src dest) in
  hdr_src y = src ∧ hdr_dest y = dest ∧ field n 1 y = ICMP_ER ∧ field 8 1 y = ICMP_TTL ∧
  (∀ i, echo_untouched n i → y !! i = x !! i).
Proof.
  intros Hn Hx Hs Hd y. pose proof (echo_bounds n x src dest Hn Hx) as Hb. unfold y, echo_writes in *.
  assert (Hf : ∀ ws1 k z ws2, echo_writes n src dest = ws1 ++ (k, z) :: ws2 → misses k (length z) ws2 →
    field k (length z) (overwrites x (echo_writes n src dest)) = of_le z).
  { intros ws1 k z ws2 E Hm. unfold echo_writes in *. rewrite E in *. by apply overwrites_field. }
  split; [|split; [|split; [|split]]].
  - rewrite <- (of_le_addr src) at 2 by done. apply (Hf [] 12%nat (addr_bytes src) _ eq_refl).
    solve_writes.
  - rewrite <- (of_le_addr dest) at 2 by done. apply (Hf [_] 16%nat (addr_bytes dest) _ eq_refl).
    solve_writes.
  - apply (Hf [_; _] n [ICMP_ER] _ eq_refl). solve_writes.
  - apply (Hf [_; _; _; _] 8%nat [ICMP_TTL] _ eq_refl). solve_writes.
  - intros i Hi. apply overwrites_lookup; [done|]. unfold echo_untouched in Hi.
    solve_writes.
Qed.

Section echo.
  Context {W : Type}.
  Context (netif_output : Z → Z → Z → prog (istate W) Z).
  Implicit Types s : istate W.
  #[local] Set Default Proof Using "All".

(** An echo request [d] with the IP header [h] in front of it, in a packet
    with room for a link header, as the driver makes them. *)
Record echo_request s (p : Z) (b : pbuf) (l : chain) (h d : bytes) (nf : netif) : Prop := {
  er_chain : chain_at (as_packets s) p ((p, b) :: l) d;
  er_type : is_ref_type (pb_type b) = false;
  er_len : 4 ≤ pb_len b ∧ ICMP_ECHO_HLEN ≤ Z.of_nat (length d);
  er_echo : field 0 1 d = ICMP_ECHO;
  er_room : p + SIZEOF_STRUCT_PBUF ≤ pb_payload b - (Z.of_nat (length h) + PBUF_LINK_HLEN);
  er_total : Z.of_nat (length h + length d) + PBUF_LINK_HLEN < 65536;
  er_hdr : current_ip4_header (is_data (as_link s)) = pb_payload b - Z.of_nat (length h);
  er_load : load_bytes (ps_bytes (as_packets s)) (pb_payload b - Z.of_nat (length h)) (length h) = Some h;
  er_hlen : hdr_hlen h = Z.of_nat (length h) ∧ IP_HLEN ≤ Z.of_nat (length h);
  er_clear : clear_of (pb_payload b - Z.of_nat (length h)) (Z.of_nat (length h) + pb_len b) l;
  er_netif : as_netifs s !! current_netif (is_data (as_link s)) = Some nf
}.

Lemma hlen_max (h : bytes) : hdr_hlen h ≤ 60.
Proof.
  unfold hdr_hlen. assert (Z.land (field 0 1 h) 15 < 16); [|lia].
  change 15 with (Z.ones 4). rewrite Z.land_ones by lia. apply Z.mod_pos_bound. lia.
Qed.

(** The packet can be used for the answer. *)
Lemma echo_packet_run s p b l h d nf :
  echo_request s p b l h d nf →
  icmp_echo_packet p (current_ip4_header (is_data (as_link s))) (Z.of_nat (length h)) s = Some (Some p, s).
Proof.
  intros [Hc Href Hlen _ Hroom Htot _ _ [Hh1 Hh2] _ _]. pose proof (hlen_max h).
  unfold PBUF_LINK_HLEN, IP_HLEN, ICMP_ECHO_HLEN in *. set (n := Z.of_nat (length h)) in *.
  destruct (chain_at_head _ _ _ _ _ _ Hc) as (_ & Hp0 & Eb & Et).
  pose proof Hc as [_ (Hb0 & Ht & Hm & Hl') _]. cbn [lens] in Ht. pose proof (lens_nonneg _ Hl').
  unfold icmp_echo_packet. cbv zeta. unfold PBUF_LINK_HLEN, PBUF_LINK_ENCAPSULATION_HLEN.
  replace (s16 (n + 14 + 0)) with (n + 14) by (unfold s16; rewrite Z.mod_small; lia).
  set (q1 := header_state (as_packets s) p (reveal (n + 14) b)).
  rewrite (prog_bind_step _ _ s 0 (set_packets q1 s)).
  2: { unfold packets. by rewrite (header_reveal_new _ _ b) by (done || lia). }
  cbn [Z.eqb negb]. rewrite (prog_bind_step _ _ (set_packets q1 s) 0 s); [done|].
  unfold packets. cbn [as_packets set_packets].
  rewrite (header_hide_run q1 p (reveal (n + 14) b)); try done; cbn; try lia; [|apply lookup_insert_eq].
  unfold q1. rewrite hide_reveal. unfold header_state. cbn. rewrite insert_insert_eq, insert_id by done.
  by destruct s as [? ? ? [] ?].
Qed.

(** The answer is written and handed to the interface. *)
Lemma echo_reply_run s p inp b l h d nf src :
  echo_request s p b l h d nf → 0 ≤ current_iphdr_src (is_data (as_link s)) < 4294967296 → 0 ≤ src < 4294967296 →
  let dest := current_iphdr_src (is_data (as_link s)) in
  ∃ s', icmp_echo_reply netif_output p inp src (Z.of_nat (length h)) s
        = (_ ← netif_output inp p dest; mret tt) s' ∧
    chain_at (as_packets s') p ((p, reveal (Z.of_nat (length h)) b) :: l)
      (overwrites (h ++ d) (echo_writes (length h) src dest)) ∧
    as_link s' = as_link s ∧ as_netifs s' = as_netifs s ∧ as_table s' = as_table s ∧ as_cached s' = as_cached s.
Proof.
  intros [Hc Href Hlen _ Hroom Htot _ Hload [Hh1 Hh2] Hclr _] Hdest Hsrc dest. pose proof (hlen_max h).
  unfold PBUF_LINK_HLEN, IP_HLEN, ICMP_ECHO_HLEN in *.
  pose proof (chain_with_header _ p b l d (ps_bytes (as_packets s)) h Hc ltac:(lia) Hload eq_refl) as Hc1.
  set (n := Z.of_nat (length h)) in *. destruct (chain_at_head _ _ _ _ _ _ Hc) as (_ & Hp0 & Eb & Et).
  pose proof Hc as [_ (Hb0 & Ht & Hm & Hl') _]. cbn [lens] in Ht. pose proof (lens_nonneg _ Hl').
  set (b1 := reveal n b) in *. set (s1 := set_packets (header_state (as_packets s) p b1) s).
  change (chain_at (as_packets s1) p ((p, b1) :: l) (h ++ d)) in Hc1.
  assert (Hpb : pb_payload b1 = pb_payload b - n ∧ pb_len b1 = n + pb_len b) by (cbn; lia).
  destruct Hpb as [Hpay1 Hlen1].
  assert (Hclr1 : clear_of (pb_payload b1) (pb_len b1) l) by (by rewrite Hpay1, Hlen1).
  set (ws := echo_writes (length h) src dest).
  assert (Hws : Forall (λ w, Z.of_nat (fst w + length (snd w)) ≤ pb_len b1) ws).
  { unfold ws, echo_writes, addr_bytes. solve_writes. }
  destruct (pokes_chain s1 p b1 l ws s1 (h ++ d) (same_but_bytes_refl _) Hc1 Hclr1 Hws) as (s2 & E2 & Hs2 & Hc2).
  exists s2. split; [|split; [exact Hc2 | unfold same_but_bytes in Hs2; by rewrite Hs2]].
  unfold icmp_echo_reply. rewrite (prog_bind_step _ _ s b s) by (unfold packets, deref; rewrite Eb; by destruct s).
  replace (s16 n) with n by (unfold s16; rewrite Z.mod_small; lia).
  rewrite (prog_bind_step _ _ s 0 s1).
  2: { unfold packets. by rewrite (header_reveal_new _ _ b) by (done || lia). }
  cbn [Z.eqb negb]. rewrite (prog_bind_step _ _ s1 b1 s1).
  2: { unfold packets, deref. cbn [s1 set_packets as_packets header_state ps_pbufs]. by rewrite lookup_insert_eq. }
  cbv zeta. replace (pb_payload b) with (pb_payload b1 + Z.of_nat (length h)) by lia.
  replace (pb_payload b1 + Z.of_nat (length h) + 2) with (pb_payload b1 + Z.of_nat (length h + 2)) by lia.
  rewrite poke_get. change (current_iphdr_src (is_data (as_link s1))) with dest.
  etrans; [apply (E2 _ (_ ← ip4_output_if netif_output p (Some src) None ICMP_TTL 0 IP_PROTO_ICMP inp; mret tt))|].
  unfold ip4_output_if, ip4_output_if_opt, ip4_output_if_opt_src. unfold mbind at 1, prog_bind at 1.
  rewrite (prog_bind_step _ _ s2 (Some src) s2) by done.
  destruct (chain_at_head _ _ _ _ _ _ Hc2) as (_ & _ & Eb2 & _).
  rewrite (prog_bind_step _ _ s2 b1 s2) by (unfold packets, deref; rewrite Eb2; by destruct s2).
  change (pb_payload b1 + 16) with (pb_payload b1 + Z.of_nat 16).
  rewrite (prog_bind_step _ _ _ _ _ (peek_head s2 p b1 l _ 16 4 Hc2 ltac:(lia))).
  change (of_le (take 4 (drop 16 (overwrites (h ++ d) ws)))) with (hdr_dest (overwrites (h ++ d) ws)).
  unfold ws. destruct (echo_fields (length h) (h ++ d) src dest) as (_ & -> & _);
    [lia | rewrite length_app; lia | done | done | done].
Qed.

End echo.
