(* ===== verification/Igmp.v ===== *)
(** * Group membership (middlewares/lwip/src/core/ipv4/igmp.c)

    The hosts' side of IGMP version 2: a list of groups per interface, headed
    by the all systems group, with a timer per group for the delayed reports.
    Where the state is kept is left open: [HasIgmp] says how it is reached
    from the rest of the state.  [netif->output], the filter function of the
    driver and [rand] are parameters, and so is the address [ra] of the local
    array with the router alert option. *)

From stdpp Require Import base numbers list gmap option.
From S2P Require Import Prelude Mem Memp Pbuf Chksum Ip4Addr Etharp Netifs Ip4.

Definition IGMP_TTL : Z := 1.
Definition IGMP_MINLEN : Z := 8.
Definition ROUTER_ALERT : Z := 0x9404.
Definition ROUTER_ALERTLEN : Z := 4.
Definition IGMP_MEMB_QUERY : Z := 0x11.
Definition IGMP_V2_MEMB_REPORT : Z := 0x16.
Definition IGMP_LEAVE_GROUP : Z := 0x17.
Definition IGMP_TMR_INTERVAL : Z := 100.
Definition IGMP_V1_DELAYING_MEMBER_TMR : Z := 1000 / IGMP_TMR_INTERVAL.
Definition IGMP_JOIN_DELAYING_MEMBER_TMR : Z := 500 / IGMP_TMR_INTERVAL.
Definition NETIF_DEL_MAC_FILTER : Z := 0.
Definition NETIF_ADD_MAC_FILTER : Z := 1.
(** behind the entry of DHCP *)
Definition LWIP_NETIF_CLIENT_DATA_INDEX_IGMP : nat := 1.

Inductive igmp_group_state :=
  | IGMP_GROUP_NON_MEMBER
  | IGMP_GROUP_DELAYING_MEMBER
  | IGMP_GROUP_IDLE_MEMBER.
#[global] Instance igmp_group_state_eq_dec : EqDecision igmp_group_state.
Proof. solve_decision. Defined.

Record igmp_group := IgmpGroup {
  ig_next : Z;
  ig_address : Z;
  ig_last_reporter : Z;
  ig_state : igmp_group_state;
  ig_timer : Z;
  ig_use : Z
}.

Definition with_ig_next (n : Z) (g : igmp_group) : igmp_group :=
  IgmpGroup n (ig_address g) (ig_last_reporter g) (ig_state g) (ig_timer g) (ig_use g).
Definition with_reporter (f : Z) (g : igmp_group) : igmp_group :=
  IgmpGroup (ig_next g) (ig_address g) f (ig_state g) (ig_timer g) (ig_use g).
Definition with_ig_state (st : igmp_group_state) (g : igmp_group) : igmp_group :=
  IgmpGroup (ig_next g) (ig_address g) (ig_last_reporter g) st (ig_timer g) (ig_use g).
Definition with_timer (t : Z) (g : igmp_group) : igmp_group :=
  IgmpGroup (ig_next g) (ig_address g) (ig_last_reporter g) (ig_state g) t (ig_use g).
Definition with_use (u : Z) (g : igmp_group) : igmp_group :=
  IgmpGroup (ig_next g) (ig_address g) (ig_last_reporter g) (ig_state g) (ig_timer g) u.

(** The groups of all interfaces, and the two addresses that [igmp_init] sets. *)
Record igmp_state := IgmpState {
  gs_groups : gmap Z igmp_group;
  gs_allsystems : Z;
  gs_allrouters : Z
}.

Class HasIgmp (W : Type) := {
  igmp_of : W → igmp_state;
  with_igmp : igmp_state → W → W;
  igmp_of_with : ∀ g w, igmp_of (with_igmp g w) = g;
  with_igmp_of : ∀ w, with_igmp (igmp_of w) w = w;
  with_igmp_with : ∀ g g' w, with_igmp g (with_igmp g' w) = with_igmp g w
}.

Section igmp.
  Context {W : Type} `{!HasIgmp W}.
  Context (netif_output : Z → Z → Z → prog (istate W) Z).
  Context (call_mac_filter : Z → Z → Z → Z → prog (istate W) unit).
  Context (LWIP_RAND : prog (istate W) Z).
  Context (ra : Z).

Definition igmp_get {A} (f : igmp_state → A) : prog (istate W) A := ip_get (λ i, f (igmp_of (is_rest i))).
Definition igmp_mod (f : igmp_state → igmp_state) : prog (istate W) unit :=
  ip_set (λ i, IpState (is_netif_list i) (is_netif_default i) (is_netif_num i) (is_client_id i) (is_ip_id i)
                 (is_mcast_netif i) (is_data i) (with_igmp (f (igmp_of (is_rest i))) (is_rest i))).
Definition set_groups (m : gmap Z igmp_group) (g : igmp_state) : igmp_state :=
  IgmpState m (gs_allsystems g) (gs_allrouters g).

Definition the_group (g : Z) : prog (istate W) igmp_group :=
  r ← igmp_get (λ st, gs_groups st !! g);
  match r with Some x => mret x | None => stuck end.
Definition upd_group (g : Z) (f : igmp_group → igmp_group) : prog (istate W) unit :=
  x ← the_group g;
  igmp_mod (λ st, set_groups (<[g := f x]> (gs_groups st)) st).
Definition group_fuel (st : igmp_state) : nat := S (S (size (gs_groups st))).

Definition netif_igmp_data (n : Z) : prog (istate W) Z :=
  nf ← the_netif n;
  match nf_client_data nf !! LWIP_NETIF_CLIENT_DATA_INDEX_IGMP with Some g => mret g | None => stuck end.
Definition with_client_data (l : list Z) (n : netif) : netif :=
  Netif (nf_ip_addr n) (nf_netmask n) (nf_gw n) (nf_hwaddr n) (nf_flags n) (nf_next n) (nf_name n) (nf_num n)
    (nf_state n) (nf_input n) (nf_link_callback n) (nf_igmp_mac_filter n) l
    (nf_mtu n).
Definition netif_set_igmp_data (n g : Z) : prog (istate W) unit :=
  nf ← the_netif n;
  if (LWIP_NETIF_CLIENT_DATA_INDEX_IGMP <? length (nf_client_data nf))%nat
  then upd_netif n (with_client_data (<[LWIP_NETIF_CLIENT_DATA_INDEX_IGMP := g]> (nf_client_data nf)))
  else stuck.

(** [if (netif->igmp_mac_filter != NULL) netif->igmp_mac_filter(...)] *)
Definition mac_filter (n addr action : Z) : prog (istate W) unit :=
  nf ← the_netif n;
  when (negb (nf_igmp_mac_filter nf =? 0)) (call_mac_filter (nf_igmp_mac_filter nf) n addr action).

Definition igmp_init : prog (istate W) unit :=
  igmp_mod (λ st, IgmpState (gs_groups st) (lwip_htonl 0xe0000001) (lwip_htonl 0xe0000002)).

(** ** The list of an interface *)

Fixpoint lookfor_loop (fuel : nat) (addr group : Z) : prog (istate W) Z :=
  match fuel with
  | O => stuck
  | S fuel' =>
      if group =? 0 then mret 0 else
      g ← the_group group;
      if ig_address g =? addr then mret group else lookfor_loop fuel' addr (ig_next g)
  end.
Definition igmp_lookfor_group (ifp addr : Z) : prog (istate W) Z :=
  group ← netif_igmp_data ifp;
  fuel ← igmp_get group_fuel;
  lookfor_loop fuel addr group.

Definition igmp_lookup_group (ifp addr : Z) : prog (istate W) Z :=
  list_head ← netif_igmp_data ifp;
  group ← igmp_lookfor_group ifp addr;
  if negb (group =? 0) then mret group else
  group ← packets (on_pools (memp_malloc MEMP_IGMP_GROUP));
  when (negb (group =? 0))
    (if list_head =? 0 then
       igmp_mod (λ st, set_groups (<[group := IgmpGroup 0 addr 0 IGMP_GROUP_NON_MEMBER 0 0]> (gs_groups st)) st) ;;
       netif_set_igmp_data ifp group
     else
       h ← the_group list_head;
       igmp_mod (λ st, set_groups (<[group := IgmpGroup (ig_next h) addr 0 IGMP_GROUP_NON_MEMBER 0 0]>
                                     (gs_groups st)) st) ;;
       upd_group list_head (with_ig_next group)) ;;
  mret group.

Fixpoint remove_loop (fuel : nat) (group tmp_group : Z) : prog (istate W) Z :=
  match fuel with
  | O => stuck
  | S fuel' =>
      if tmp_group =? 0 then mret ERR_ARG else
      t ← the_group tmp_group;
      if ig_next t =? group then
        g ← the_group group;
        upd_group tmp_group (with_ig_next (ig_next g)) ;; mret ERR_OK
      else remove_loop fuel' group (ig_next t)
  end.
Definition igmp_remove_group (n group : Z) : prog (istate W) Z :=
  head ← netif_igmp_data n;
  fuel ← igmp_get group_fuel;
  remove_loop fuel group head.

(** [memp_free(MEMP_IGMP_GROUP, group)] *)
Definition free_group (group : Z) : prog (istate W) unit :=
  packets (on_pools (memp_free MEMP_IGMP_GROUP group)) ;;
  igmp_mod (λ st, set_groups (delete group (gs_groups st)) st).

(** ** Timers and messages *)

Definition igmp_start_timer (group max_time : Z) : prog (istate W) unit :=
  t ← (if 2 <? max_time then r ← LWIP_RAND; mret (r mod max_time) else mret 1);
  upd_group group (with_timer (u16 t)) ;;
  g ← the_group group;
  when (ig_timer g =? 0) (upd_group group (with_timer 1)).

Definition igmp_delaying_member (group maxresp : Z) : prog (istate W) unit :=
  g ← the_group group;
  when (bool_decide (ig_state g = IGMP_GROUP_IDLE_MEMBER)
        || (bool_decide (ig_state g = IGMP_GROUP_DELAYING_MEMBER)
            && ((ig_timer g =? 0) || (maxresp <? ig_timer g))))
    (igmp_start_timer group maxresp ;;
     upd_group group (with_ig_state IGMP_GROUP_DELAYING_MEMBER)).

Definition igmp_ip_output_if (p : Z) (src dest : option Z) (netif : Z) : prog (istate W) Z :=
  poke ra (le16 (PP_HTONS ROUTER_ALERT) ++ le16 0) ;;
  ip4_output_if_opt netif_output p src dest IGMP_TTL 0 IP_PROTO_IGMP netif ra ROUTER_ALERTLEN.

Definition packet_chksum (dataptr len : Z) : prog (istate W) Z :=
  c ← packets (LWIP_CHKSUM dataptr len); mret (u16 (Z.lnot c)).

Definition igmp_send (netif group type : Z) : prog (istate W) unit :=
  p ← packets (pbuf_alloc PBUF_TRANSPORT IGMP_MINLEN PBUF_RAM);
  if p =? 0 then mret tt else
  b ← packets (deref p);
  let igmp := pb_payload b in
  nf ← the_netif netif;
  let src := nf_ip_addr nf in
  g ← the_group group;
  dest ← (if type =? IGMP_V2_MEMB_REPORT then
            poke (igmp + 4) (addr_bytes (ig_address g)) ;;
            upd_group group (with_reporter 1) ;;
            mret (Some (ig_address g))
          else if type =? IGMP_LEAVE_GROUP then
            allrouters ← igmp_get gs_allrouters;
            poke (igmp + 4) (addr_bytes (ig_address g)) ;;
            mret (Some allrouters)
          else mret None);
  when ((type =? IGMP_V2_MEMB_REPORT) || (type =? IGMP_LEAVE_GROUP))
    (poke igmp [u8 type] ;;
     poke (igmp + 1) [0] ;;
     poke (igmp + 2) (le16 0) ;;
     c ← packet_chksum igmp IGMP_MINLEN;
     poke (igmp + 2) (le16 c) ;;
     _ ← igmp_ip_output_if p (Some src) dest netif; mret tt) ;;
  free_pbuf p.

Definition igmp_timeout (netif group : Z) : prog (istate W) unit :=
  g ← the_group group;
  allsystems ← igmp_get gs_allsystems;
  when (bool_decide (ig_state g = IGMP_GROUP_DELAYING_MEMBER) && negb (ig_address g =? allsystems))
    (upd_group group (with_ig_state IGMP_GROUP_IDLE_MEMBER) ;;
     igmp_send netif group IGMP_V2_MEMB_REPORT).

Definition igmp_tmr_one (netif group : Z) : prog (istate W) unit :=
  g ← the_group group;
  when (0 <? ig_timer g)
    (upd_group group (with_timer (ig_timer g - 1)) ;;
     when (ig_timer g - 1 =? 0) (igmp_timeout netif group)).
Fixpoint igmp_tmr_groups (fuel : nat) (netif group : Z) : prog (istate W) unit :=
  match fuel with
  | O => stuck
  | S fuel' =>
      if group =? 0 then mret tt else
      igmp_tmr_one netif group ;;
      g ← the_group group;
      igmp_tmr_groups fuel' netif (ig_next g)
  end.
Fixpoint igmp_tmr_loop (fuel : nat) (netif : Z) : prog (istate W) unit :=
  match fuel with
  | O => stuck
  | S fuel' =>
      if netif =? 0 then mret tt else
      group ← netif_igmp_data netif;
      gf ← igmp_get group_fuel;
      igmp_tmr_groups gf netif group ;;
      nf ← the_netif netif;
      igmp_tmr_loop fuel' (nf_next nf)
  end.
Definition igmp_tmr : prog (istate W) unit :=
  fuel ← gets netif_fuel;
  l ← ip_get is_netif_list;
  igmp_tmr_loop fuel l.

(** ** Interfaces *)

Definition igmp_start (netif : Z) : prog (istate W) Z :=
  allsystems ← igmp_get gs_allsystems;
  group ← igmp_lookup_group netif allsystems;
  if negb (group =? 0) then
    upd_group group (with_ig_state IGMP_GROUP_IDLE_MEMBER) ;;
    upd_group group (λ g, with_use (u8 (ig_use g + 1)) g) ;;
    mac_filter netif allsystems NETIF_ADD_MAC_FILTER ;;
    mret ERR_OK
  else mret ERR_MEM.

Fixpoint stop_loop (fuel : nat) (netif group : Z) : prog (istate W) unit :=
  match fuel with
  | O => stuck
  | S fuel' =>
      if group =? 0 then mret tt else
      g ← the_group group;
      mac_filter netif (ig_address g) NETIF_DEL_MAC_FILTER ;;
      free_group group ;;
      stop_loop fuel' netif (ig_next g)
  end.
Definition igmp_stop (netif : Z) : prog (istate W) Z :=
  group ← netif_igmp_data netif;
  netif_set_igmp_data netif 0 ;;
  fuel ← igmp_get group_fuel;
  stop_loop fuel netif group ;;
  mret ERR_OK.

(** [maxresp] is read anew for each group. *)
Fixpoint delaying_loop (fuel : nat) (maxresp : prog (istate W) Z) (group : Z) : prog (istate W) unit :=
  match fuel with
  | O => stuck
  | S fuel' =>
      if group =? 0 then mret tt else
      r ← maxresp;
      igmp_delaying_member group r ;;
      g ← the_group group;
      delaying_loop fuel' maxresp (ig_next g)
  end.
(** All groups but the first one. *)
Definition delaying_members (netif : Z) (maxresp : prog (istate W) Z) : prog (istate W) unit :=
  group ← netif_igmp_data netif;
  group ← (if group =? 0 then mret group else g ← the_group group; mret (ig_next g));
  fuel ← igmp_get group_fuel;
  delaying_loop fuel maxresp group.
Definition igmp_report_groups (netif : Z) : prog (istate W) unit :=
  delaying_members netif (mret IGMP_JOIN_DELAYING_MEMBER_TMR).

(** ** Received messages *)

Definition query_input (igmp inp group dest : Z) : prog (istate W) unit :=
  allsystems ← igmp_get gs_allsystems;
  a ← peek (igmp + 4) 4;
  let group_address := of_le a in
  let maxresp := r ← peek (igmp + 1) 1; mret (u8 (of_le r)) in
  if (dest =? allsystems) && ip4_addr_isany group_address then
    r ← maxresp;
    when (r =? 0) (poke (igmp + 1) [IGMP_V1_DELAYING_MEMBER_TMR]) ;;
    delaying_members inp maxresp
  else if negb (ip4_addr_isany group_address) then
    group ← (if dest =? allsystems then igmp_lookfor_group inp group_address else mret group);
    when (negb (group =? 0)) (r ← maxresp; igmp_delaying_member group r)
  else mret tt.

Definition report_input (group : Z) : prog (istate W) unit :=
  g ← the_group group;
  when (bool_decide (ig_state g = IGMP_GROUP_DELAYING_MEMBER))
    (upd_group group (with_timer 0) ;;
     upd_group group (with_ig_state IGMP_GROUP_IDLE_MEMBER) ;;
     upd_group group (with_reporter 0)).

Definition igmp_input (p inp dest : Z) : prog (istate W) unit :=
  b ← packets (deref p);
  if pb_len b <? IGMP_MINLEN then free_pbuf p else
  let igmp := pb_payload b in
  c ← packet_chksum igmp (pb_len b);
  if negb (c =? 0) then free_pbuf p else
  group ← igmp_lookfor_group inp dest;
  if group =? 0 then free_pbuf p else
  type ← peek igmp 1;
  (if of_le type =? IGMP_MEMB_QUERY then query_input igmp inp group dest
   else if of_le type =? IGMP_V2_MEMB_REPORT then report_input group
   else mret tt) ;;
  free_pbuf p.

(** ** Joining and leaving *)

Definition igmp_joingroup_netif (netif groupaddr : Z) : prog (istate W) Z :=
  allsystems ← igmp_get gs_allsystems;
  if negb (ip4_addr_ismulticast groupaddr) then mret ERR_VAL
  else if groupaddr =? allsystems then mret ERR_VAL else
  nf ← the_netif netif;
  if negb (has_flag nf NETIF_FLAG_IGMP) then mret ERR_VAL else
  group ← igmp_lookup_group netif groupaddr;
  if negb (group =? 0) then
    g ← the_group group;
    when (bool_decide (ig_state g = IGMP_GROUP_NON_MEMBER))
      (when (ig_use g =? 0) (mac_filter netif groupaddr NETIF_ADD_MAC_FILTER) ;;
       igmp_send netif group IGMP_V2_MEMB_REPORT ;;
       igmp_start_timer group IGMP_JOIN_DELAYING_MEMBER_TMR ;;
       upd_group group (with_ig_state IGMP_GROUP_DELAYING_MEMBER)) ;;
    upd_group group (λ g, with_use (u8 (ig_use g + 1)) g) ;;
    mret ERR_OK
  else mret ERR_MEM.

(** The interface is one that the address selects; [None] is [NULL]. *)
Definition selected (ifaddr : option Z) (nf : netif) : bool :=
  has_flag nf NETIF_FLAG_IGMP
  && (ip4_addr_isany (ip4_addr_get ifaddr) || (nf_ip_addr nf =? ip4_addr_get ifaddr)).

Fixpoint join_loop (fuel : nat) (ifaddr : option Z) (groupaddr err netif : Z) : prog (istate W) Z :=
  match fuel with
  | O => stuck
  | S fuel' =>
      if netif =? 0 then mret err else
      nf ← the_netif netif;
      err ← (if selected ifaddr nf then igmp_joingroup_netif netif groupaddr else mret err);
      if selected ifaddr nf && negb (err =? ERR_OK) then mret err else
      nf ← the_netif netif;
      join_loop fuel' ifaddr groupaddr err (nf_next nf)
  end.
Definition igmp_joingroup (ifaddr : option Z) (groupaddr : Z) : prog (istate W) Z :=
  allsystems ← igmp_get gs_allsystems;
  if negb (ip4_addr_ismulticast groupaddr) then mret ERR_VAL
  else if groupaddr =? allsystems then mret ERR_VAL else
  fuel ← gets netif_fuel;
  l ← ip_get is_netif_list;
  join_loop fuel ifaddr groupaddr ERR_VAL l.

Definition igmp_leavegroup_netif (netif groupaddr : Z) : prog (istate W) Z :=
  allsystems ← igmp_get gs_allsystems;
  if negb (ip4_addr_ismulticast groupaddr) then mret ERR_VAL
  else if groupaddr =? allsystems then mret ERR_VAL else
  nf ← the_netif netif;
  if negb (has_flag nf NETIF_FLAG_IGMP) then mret ERR_VAL else
  group ← igmp_lookfor_group netif groupaddr;
  if negb (group =? 0) then
    g ← the_group group;
    (if ig_use g <=? 1 then
       _ ← igmp_remove_group netif group;
       g ← the_group group;
       when (negb (ig_last_reporter g =? 0)) (igmp_send netif group IGMP_LEAVE_GROUP) ;;
       mac_filter netif groupaddr NETIF_DEL_MAC_FILTER ;;
       free_group group
     else upd_group group (λ g, with_use (u8 (ig_use g - 1)) g)) ;;
    mret ERR_OK
  else mret ERR_VAL.

Fixpoint leave_loop (fuel : nat) (ifaddr : option Z) (groupaddr err netif : Z) : prog (istate W) Z :=
  match fuel with
  | O => stuck
  | S fuel' =>
      if netif =? 0 then mret err else
      nf ← the_netif netif;
      err ← (if selected ifaddr nf then
               res ← igmp_leavegroup_netif netif groupaddr;
               mret (if negb (err =? ERR_OK) then res else err)
             else mret err);
      nf ← the_netif netif;
      leave_loop fuel' ifaddr groupaddr err (nf_next nf)
  end.
Definition igmp_leavegroup (ifaddr : option Z) (groupaddr : Z) : prog (istate W) Z :=
  allsystems ← igmp_get gs_allsystems;
  if negb (ip4_addr_ismulticast groupaddr) then mret ERR_VAL
  else if groupaddr =? allsystems then mret ERR_VAL else
  fuel ← gets netif_fuel;
  l ← ip_get is_netif_list;
  leave_loop fuel ifaddr groupaddr ERR_VAL l.
End igmp.
