(* ===== verification/IgmpInv.v ===== *)
(** * What the functions of igmp.c keep

    Relations between the state before and after a function: which fields of
    the groups it can have changed.  The lists of the interfaces are the
    subject of IgmpLists. *)

From stdpp Require Import base numbers list gmap option relations.
From S2P Require Import Prelude Mem Memp Pbuf Chksum Ip4Addr Etharp LinkedList Netifs NetifProps Ip4 Igmp.

(** A timer runs exactly while a report is pending, except in the all systems
    group, for which no reports are sent. *)
Record group_ok (allsystems : Z) (g : igmp_group) : Prop := {
  gk_state : ig_state g ≠ IGMP_GROUP_NON_MEMBER;
  gk_timer : 0 ≤ ig_timer g < 65536;
  gk_pending : ig_address g ≠ allsystems → (0 < ig_timer g ↔ ig_state g = IGMP_GROUP_DELAYING_MEMBER)
}.

Section keep.
  Context {W : Type} `{!HasIgmp W}.
  Implicit Types s : istate W.

Definition gst s : igmp_state := igmp_of (is_rest (as_link s)).
Definition groups s : gmap Z igmp_group := gs_groups (gst s).
Definition with_gst (g : igmp_state) s : istate W :=
  AState (as_table s) (as_cached s) (as_netifs s) (as_packets s)
    (let i := as_link s in
     IpState (is_netif_list i) (is_netif_default i) (is_netif_num i) (is_client_id i) (is_ip_id i)
       (is_mcast_netif i) (is_data i) (with_igmp g (is_rest i))).

Lemma gst_with g s : gst (with_gst g s) = g.
Proof. apply igmp_of_with. Qed.
Lemma with_gst_same s : with_gst (gst s) s = s.
Proof. destruct s as [? ? ? ? []]. unfold with_gst, gst. cbn. by rewrite with_igmp_of. Qed.
Lemma with_gst_with g g' s : with_gst g (with_gst g' s) = with_gst g s.
Proof. unfold with_gst. cbn. by rewrite with_igmp_with. Qed.

Lemma groups_with m st s : groups (with_gst (set_groups m st) s) = m.
Proof. unfold groups. by rewrite gst_with. Qed.

(** ** Reading and writing a group *)

Lemma the_group_run x g s : groups s !! x = Some g → the_group x s = Some (g, s).
Proof.
  intros H. unfold the_group. rewrite (prog_bind_step _ _ s (groups s !! x) s) by done. by rewrite H.
Qed.
Lemma the_group_inv x s g s' : the_group x s = Some (g, s') → groups s !! x = Some g ∧ s' = s.
Proof.
  unfold the_group. rewrite (prog_bind_step _ _ s (groups s !! x) s) by done.
  destruct (groups s !! x); [|done]. by intros [= -> ->].
Qed.
Lemma igmp_mod_run f s : igmp_mod f s = Some (tt, with_gst (f (gst s)) s).
Proof. done. Qed.
Lemma upd_group_run x f g s :
  groups s !! x = Some g →
  upd_group x f s = Some (tt, with_gst (set_groups (<[x := f g]> (groups s)) (gst s)) s).
Proof. intros H. unfold upd_group. by rewrite (prog_bind_step _ _ _ _ _ (the_group_run x g s H)). Qed.
Lemma upd_group_inv x f s u s' :
  upd_group x f s = Some (u, s') → ∃ g, groups s !! x = Some g ∧
    s' = with_gst (set_groups (<[x := f g]> (groups s)) (gst s)) s.
Proof.
  intros H. unfold upd_group in H. apply prog_bind_Some in H as (g & s1 & H1 & H2).
  apply the_group_inv in H1 as [Hg ->]. exists g. split; [done|]. by injection H2 as _ <-.
Qed.

(** ** Relations on states *)

(** The interfaces are the same, and each group is related to what it was. *)
Definition like (R : Z → Z → igmp_group → igmp_group → Prop) s0 s : Prop :=
  as_netifs s = as_netifs s0 ∧ is_netif_list (as_link s) = is_netif_list (as_link s0) ∧
  gs_allsystems (gst s) = gs_allsystems (gst s0) ∧
  ∀ x, option_Forall2 (R (gs_allsystems (gst s0)) x) (groups s0 !! x) (groups s !! x).

(** Only the flag of the last reporter. *)
Definition calm : istate W → istate W → Prop := like (λ _ _ g g', with_reporter 0 g' = with_reporter 0 g).
(** Only flag, timer and state, and those in a way that keeps [group_ok], of
    the group [e] in any way. *)
Definition kin (e : option Z) (asys x : Z) (g g' : igmp_group) : Prop :=
  ig_next g' = ig_next g ∧ ig_address g' = ig_address g ∧ ig_use g' = ig_use g ∧
  (Some x ≠ e → group_ok asys g → group_ok asys g').
Definition kept (e : option Z) : istate W → istate W → Prop := like (kin e).
(** Nothing. *)
Definition quiet : istate W → istate W → Prop := λ s0 s,
  as_netifs s = as_netifs s0 ∧ is_netif_list (as_link s) = is_netif_list (as_link s0) ∧ gst s = gst s0.

Lemma kin_refl e asys x g : kin e asys x g g.
Proof. split; [done|]. split; [done|]. by split. Qed.
Lemma kin_trans e asys x g1 g2 g3 : kin e asys x g1 g2 → kin e asys x g2 g3 → kin e asys x g1 g3.
Proof.
  intros (H1 & H2 & H3 & H4) (K1 & K2 & K3 & K4). split; [congruence|]. split; [congruence|].
  split; [congruence | auto].
Qed.

Lemma like_refl R s : (∀ asys x g, R asys x g g) → like R s s.
Proof. intros HR. split; [done|]. split; [done|]. split; [done|]. intros x. destruct (_ !! x); by constructor. Qed.
Lemma like_trans R s1 s2 s3 :
  (∀ asys x g h k, R asys x g h → R asys x h k → R asys x g k) → like R s1 s2 → like R s2 s3 → like R s1 s3.
Proof.
  intros HR (H1 & H2 & H3 & H4) (K1 & K2 & K3 & K4). split; [congruence|]. split; [congruence|].
  split; [congruence|]. intros x. specialize (H4 x). specialize (K4 x). rewrite H3 in K4.
  destruct (groups s1 !! x) as [g|], (groups s2 !! x) as [h|], (groups s3 !! x) as [k|]; inversion H4; inversion K4;
    constructor. by eapply HR.
Qed.
Lemma like_weaken (R R' : Z → Z → igmp_group → igmp_group → Prop) s0 s :
  (∀ asys x g h, R asys x g h → R' asys x g h) → like R s0 s → like R' s0 s.
Proof.
  intros HR (H1 & H2 & H3 & H4). split; [done|]. split; [done|]. split; [done|].
  intros x. destruct (H4 x); constructor; auto.
Qed.
Lemma kept_refl e s : kept e s s.
Proof. apply like_refl. intros. apply kin_refl. Qed.
Lemma kept_trans e s1 s2 s3 : kept e s1 s2 → kept e s2 s3 → kept e s1 s3.
Proof. apply like_trans. intros asys x g h k. apply kin_trans. Qed.
Lemma calm_refl s : calm s s.
Proof. by apply like_refl. Qed.
Lemma calm_trans s1 s2 s3 : calm s1 s2 → calm s2 s3 → calm s1 s3.
Proof. apply like_trans. intros. congruence. Qed.
Lemma kept_any e s0 s : kept None s0 s → kept e s0 s.
Proof. apply like_weaken. intros asys x g h (H1 & H2 & H3 & H4). split; [done|]. split; [done|]. split; [done|]. auto. Qed.
Lemma calm_kept e s0 s : calm s0 s → kept e s0 s.
Proof.
  apply like_weaken. intros asys x [] [] [= -> -> -> -> ->]. split; [done|]. split; [done|]. split; [done|].
  intros _ [H1 H2 H3]. by split.
Qed.
Lemma quiet_calm s0 s : quiet s0 s → calm s0 s.
Proof.
  intros (H1 & H2 & H3). split; [done|]. split; [done|]. unfold groups. rewrite H3. split; [done|].
  intros x. destruct (_ !! x); by constructor.
Qed.

#[export] Instance like_prop R s0 : NetifProp (like R s0).
Proof. intros s s' E1 E2. unfold like, groups, gst. by rewrite E1, E2. Qed.
#[export] Instance calm_prop s0 : NetifProp (calm s0).
Proof. apply like_prop. Qed.
#[export] Instance kept_prop e s0 : NetifProp (kept e s0).
Proof. apply like_prop. Qed.

(** A write to one group. *)
Lemma like_upd R x f s g :
  (∀ asys y k, R asys y k k) → groups s !! x = Some g → (∀ asys, R asys x g (f g)) →
  like R s (with_gst (set_groups (<[x := f g]> (groups s)) (gst s)) s).
Proof.
  intros HR Hg Hf. split; [done|]. split; [done|]. rewrite gst_with. split; [done|].
  intros y. rewrite groups_with. destruct (decide (x = y)) as [<-|Hne].
  - rewrite lookup_insert_eq, Hg. by constructor.
  - rewrite lookup_insert_ne by done. destruct (groups s !! y); by constructor.
Qed.
Lemma holds_calm_upd s0 x f :
  (∀ g, with_reporter 0 (f g) = with_reporter 0 g) → holds (calm s0) (upd_group x f).
Proof.
  intros Hf s u s' H Hs. apply upd_group_inv in H as (g & Hg & ->). eapply calm_trans; [exact Hs|].
  by apply like_upd.
Qed.
Lemma holds_kept_upd s0 x f :
  (∀ g, ig_next (f g) = ig_next g ∧ ig_address (f g) = ig_address g ∧ ig_use (f g) = ig_use g) →
  holds (kept (Some x) s0) (upd_group x f).
Proof.
  intros Hf s u s' H Hs. apply upd_group_inv in H as (g & Hg & ->). eapply kept_trans; [exact Hs|].
  apply like_upd; [intros; apply kin_refl | done |]. intros asys. destruct (Hf g) as (H1 & H2 & H3).
  split; [done|]. split; [done|]. split; [done|]. intros Hne. by destruct Hne.
Qed.
Lemma kept_replace s s' x g g' :
  groups s !! x = Some g → as_netifs s' = as_netifs s → is_netif_list (as_link s') = is_netif_list (as_link s) →
  gst s' = set_groups (<[x := g']> (groups s)) (gst s) →
  ig_next g' = ig_next g → ig_address g' = ig_address g → ig_use g' = ig_use g →
  (group_ok (gs_allsystems (gst s)) g → group_ok (gs_allsystems (gst s)) g') → kept None s s'.
Proof.
  intros Hg En El Es E1 E2 E3 Hok. split; [done|]. split; [done|]. rewrite Es. split; [done|].
  intros y. unfold groups at 2. rewrite Es. cbn [gs_groups set_groups]. destruct (decide (x = y)) as [<-|Hne].
  - rewrite lookup_insert_eq, Hg. constructor. by split.
  - rewrite lookup_insert_ne by done. destruct (groups s !! y); constructor. apply kin_refl.
Qed.
Lemma holds_the_group (P : istate W → Prop) x : holds P (the_group x).
Proof. intros s g s' H. by apply the_group_inv in H as [_ ->]. Qed.
Lemma holds_ip_id R s0 i : holds (like R s0) (ip_set (set_ip_id i)).
Proof. intros s u s' [= _ <-]. done. Qed.
Lemma holds_igmp_get {A} (P : istate W → Prop) (f : igmp_state → A) : holds P (igmp_get f).
Proof. apply holds_ip_get. Qed.
Lemma holds_igmp_data (P : istate W → Prop) n : holds P (netif_igmp_data n).
Proof. unfold netif_igmp_data. apply holds_bind; [apply holds_the_netif|]. intros nf. destruct (_ !! _); [apply holds_ret | apply holds_stuck]. Qed.
End keep.

#[export] Hint Resolve holds_the_group holds_igmp_get holds_igmp_data holds_ip_id : netif.

Section functions.
  Context {W : Type} `{!HasIgmp W}.
  Context (netif_output : Z → Z → Z → prog (istate W) Z).
  Context (call_mac_filter : Z → Z → Z → Z → prog (istate W) unit).
  Context (LWIP_RAND : prog (istate W) Z).
  Context (ra : Z).
  Implicit Types s : istate W.

  (** The output functions, the filter of the driver and [rand] do not touch
      the groups and the interfaces, and [rand] is not negative. *)
  Context (Hout : ∀ n p a s r s', netif_output n p a s = Some (r, s') → quiet s s').
  Context (Hfilter : ∀ f n a k s u s', call_mac_filter f n a k s = Some (u, s') → quiet s s').
  Context (Hrand : ∀ s r s', LWIP_RAND s = Some (r, s') → quiet s s' ∧ 0 ≤ r).
  #[local] Set Default Proof Using "All".

Lemma holds_quiet {A} (c : prog (istate W) A) s0 :
  (∀ s x s', c s = Some (x, s') → quiet s s') → holds (calm s0) c.
Proof. intros H s x s' E Hs. eapply calm_trans; [exact Hs|]. by apply quiet_calm, (H s x). Qed.

Lemma holds_mac_filter s0 n a k : holds (calm s0) (mac_filter call_mac_filter n a k).
Proof.
  assert (∀ f, holds (calm s0) (call_mac_filter f n a k)) by (intros f; apply holds_quiet; apply Hfilter).
  unfold mac_filter. holds_solve.
Qed.

Lemma holds_igmp_output s0 p src dest n :
  holds (calm s0) (igmp_ip_output_if netif_output ra p src dest n).
Proof.
  assert (∀ d, holds (calm s0) (netif_output n p d)) by (intros d; apply holds_quiet; apply Hout).
  assert (∀ i, holds (calm s0) (ip_set (set_ip_id i))) by (intros; apply holds_ip_id).
  unfold igmp_ip_output_if, ip4_output_if_opt, ip4_output_if_opt_src. destruct dest; unfold peek, poke; holds_solve.
Qed.

Lemma holds_igmp_send s0 n x t : holds (calm s0) (igmp_send netif_output ra n x t).
Proof.
  pose proof holds_igmp_output. assert (holds (calm s0) (upd_group x (with_reporter 1))) by (by apply holds_calm_upd).
  unfold igmp_send, packet_chksum, free_pbuf, poke, peek. holds_solve.
Qed.

(** The calls that are calm are also kept. *)
Lemma holds_kept {A} e s0 (c : prog (istate W) A) : (∀ s1, holds (calm s1) c) → holds (kept e s0) c.
Proof.
  intros H s x s' E Hs. eapply kept_trans; [exact Hs|]. apply calm_kept. eapply (H s); [exact E|]. apply calm_refl.
Qed.

(** ** Timers *)

Lemma start_timer_inv x t s u s' :
  igmp_start_timer LWIP_RAND x t s = Some (u, s') → t < 65536 →
  ∃ g v, groups s !! x = Some g ∧ 0 < v ≤ Z.max 1 (t - 1) ∧ as_netifs s' = as_netifs s ∧
    is_netif_list (as_link s') = is_netif_list (as_link s) ∧
    gst s' = set_groups (<[x := with_timer v g]> (groups s)) (gst s).
Proof.
  intros H Ht. unfold igmp_start_timer in H. apply prog_bind_Some in H as (v & s1 & H1 & H).
  assert (Hv : quiet s s1 ∧ 0 ≤ v ≤ Z.max 1 (t - 1)).
  { destruct (Z.ltb_spec 2 t).
    - apply prog_bind_Some in H1 as (r & s2 & H1 & [= <- <-]). apply Hrand in H1 as [Hq Hr]. split; [done|].
      pose proof (Z.mod_pos_bound r t ltac:(lia)). lia.
    - injection H1 as <- <-. split; [by repeat split | lia]. }
  destruct Hv as [(Q1 & Q2 & Q3) Hv]. apply prog_bind_Some in H as ([] & s2 & H2 & H).
  apply upd_group_inv in H2 as (g & Hg & ->). assert (Eg : groups s1 = groups s) by (unfold groups; by rewrite Q3).
  rewrite Q3, Eg in *. replace (u16 v) with v in * by (unfold u16; rewrite Z.mod_small; lia).
  apply prog_bind_Some in H as (g2 & s3 & H3 & H). apply the_group_inv in H3 as [Hg2 ->].
  rewrite groups_with, lookup_insert_eq in Hg2. injection Hg2 as <-. cbn [ig_timer with_timer] in H.
  destruct (Z.eqb_spec v 0) as [->|Hv0]; cbn [when] in H.
  - apply upd_group_inv in H as (g2 & Hg2 & ->). rewrite groups_with, lookup_insert_eq in Hg2. injection Hg2 as <-.
    exists g, 1. rewrite groups_with, with_gst_with, !gst_with, insert_insert_eq. repeat split; done || lia.
  - injection H as _ <-. exists g, v. rewrite gst_with. repeat split; done || lia.
Qed.

Lemma kept_delaying s0 x r : r < 65536 → holds (kept None s0) (igmp_delaying_member LWIP_RAND x r).
Proof.
  intros Hr s u s' H Hs. eapply kept_trans; [exact Hs|]. clear Hs. unfold igmp_delaying_member in H.
  apply prog_bind_Some in H as (g & s1 & H1 & H). apply the_group_inv in H1 as [Hg ->].
  destruct (_ || _); cbn [when] in H; [|injection H as _ <-; apply kept_refl].
  apply prog_bind_Some in H as ([] & s1 & H1 & H).
  destruct (start_timer_inv _ _ _ _ _ H1 Hr) as (g1 & v & Hg1 & Hv & En & El & Eg).
  apply upd_group_inv in H as (g2 & Hg2 & ->). unfold groups in Hg2. rewrite Eg in Hg2.
  cbn [gs_groups set_groups] in Hg2. rewrite lookup_insert_eq in Hg2. injection Hg2 as <-.
  rewrite Hg in Hg1. injection Hg1 as <-.
  apply (kept_replace s _ x g (with_ig_state IGMP_GROUP_DELAYING_MEMBER (with_timer v g))); try done.
  - rewrite gst_with. unfold groups. rewrite Eg. cbn [gs_groups set_groups gs_allsystems gs_allrouters].
    by rewrite insert_insert_eq.
  - intros [_ _ _]. split; cbn; [done | lia |]. intros _. split; [done | lia].
Qed.

(** A step of the timer of one group. *)
Lemma kept_tmr_one s0 n x : holds (kept None s0) (igmp_tmr_one netif_output ra n x).
Proof.
  intros s u s' H Hs. eapply kept_trans; [exact Hs|]. clear Hs. unfold igmp_tmr_one in H.
  apply prog_bind_Some in H as (g & s1 & H1 & H). apply the_group_inv in H1 as [Hg ->].
  destruct (Z.ltb_spec 0 (ig_timer g)) as [Ht|]; cbn [when] in H; [|injection H as _ <-; apply kept_refl].
  apply prog_bind_Some in H as ([] & s1 & H1 & H). apply upd_group_inv in H1 as (g1 & Hg1 & ->).
  rewrite Hg in Hg1. injection Hg1 as <-. set (g1 := with_timer (ig_timer g - 1) g) in *.
  set (s1 := with_gst _ s) in *.
  assert (Hk1 : ig_timer g - 1 ≠ 0 ∨ ig_state g ≠ IGMP_GROUP_DELAYING_MEMBER ∨
    ig_address g = gs_allsystems (gst s) → kept None s s1).
  { intros Hc. apply (kept_replace s s1 x g g1); try done; [unfold s1; by rewrite gst_with|].
    intros [K1 K2 K3]. split; cbn; [done | lia |]. intros Ha. specialize (K3 Ha).
    destruct Hc as [Hc|[Hc|Hc]]; [|tauto | done]. split; [|lia]. intros _. by apply K3. }
  destruct (Z.eqb_spec (ig_timer g - 1) 0) as [E0|E0]; cbn [when] in H; [|injection H as _ <-; auto].
  unfold igmp_timeout in H. assert (Hg1 : groups s1 !! x = Some g1) by (unfold s1; by rewrite groups_with, lookup_insert_eq).
  rewrite (prog_bind_step _ _ _ _ _ (the_group_run x g1 s1 Hg1)) in H.
  rewrite (prog_bind_step _ _ s1 (gs_allsystems (gst s)) s1) in H by (unfold s1, igmp_get, ip_get, gets; fold (gst (with_gst (set_groups (<[x:=g1]> (groups s)) (gst s)) s)); rewrite gst_with; done).
  cbn [ig_state ig_address g1 with_timer] in H. case_bool_decide as Est; cbn [andb] in H; [|injection H as _ <-; auto].
  destruct (Z.eqb_spec (ig_address g) (gs_allsystems (gst s))) as [Ea|Ea]; cbn [negb when] in H; [injection H as _ <-; auto|].
  apply prog_bind_Some in H as ([] & s2 & H2 & H). rewrite (upd_group_run x _ g1) in H2 by done. injection H2 as <-.
  eapply kept_trans; [|eapply (holds_kept None); [intros; apply holds_igmp_send | exact H | apply kept_refl]].
  apply (kept_replace s _ x g (with_ig_state IGMP_GROUP_IDLE_MEMBER g1)); try done.
  - unfold s1. rewrite groups_with, !gst_with. cbn [set_groups gs_allsystems gs_allrouters]. by rewrite insert_insert_eq.
  - intros [K1 K2 K3]. split; cbn; [done | lia |]. intros _. split; [lia | done].
Qed.

Lemma kept_report s0 x : holds (kept None s0) (report_input x).
Proof.
  intros s u s' H Hs. eapply kept_trans; [exact Hs|]. clear Hs. unfold report_input in H.
  apply prog_bind_Some in H as (g & s1 & H1 & H). apply the_group_inv in H1 as [Hg ->].
  case_bool_decide as Est; cbn [when] in H; [|injection H as _ <-; apply kept_refl].
  rewrite (prog_bind_step _ _ _ _ _ (upd_group_run x _ g s Hg)) in H.
  erewrite prog_bind_step in H; [|apply upd_group_run; by rewrite groups_with, lookup_insert_eq].
  erewrite upd_group_run in H; [|by rewrite !groups_with, lookup_insert_eq]. injection H as _ <-.
  rewrite !groups_with, !with_gst_with, !gst_with, !insert_insert_eq.
  apply (kept_replace s _ x g (with_reporter 0 (with_ig_state IGMP_GROUP_IDLE_MEMBER (with_timer 0 g)))); try done.
  by rewrite gst_with.
Qed.
(** ** Whole functions *)

#[local] Hint Resolve kept_tmr_one kept_report : netif.

Lemma kept_delaying_members s0 n c :
  (∀ s r s', c s = Some (r, s') → r < 65536) → holds (kept None s0) c →
  holds (kept None s0) (delaying_members LWIP_RAND n c).
Proof.
  intros Hr Hc. assert (Hl : ∀ fuel x, holds (kept None s0) (delaying_loop LWIP_RAND fuel c x)).
  { induction fuel as [|fuel IH]; intros x; cbn [delaying_loop]; [apply holds_stuck|].
    destruct (x =? 0); [apply holds_ret|]. intros s u s' H Hs.
    apply prog_bind_Some in H as (r & s1 & H1 & H). pose proof (Hr _ _ _ H1) as Hr1.
    apply (holds_of _ _ _ _ _ Hc) in H1; [|done]. apply (holds_of (kept None s0)) in H; [done| |done].
    pose proof (kept_delaying s0 x r Hr1). holds_solve. }
  unfold delaying_members. holds_solve.
Qed.

Lemma kept_report_groups s0 n : holds (kept None s0) (igmp_report_groups LWIP_RAND n).
Proof.
  apply kept_delaying_members; [|apply holds_ret]. intros s r s' [= <- _]. by vm_compute.
Qed.

Lemma kept_tmr s0 : holds (kept None s0) (igmp_tmr netif_output ra).
Proof.
  assert (Hg : ∀ fuel n x, holds (kept None s0) (igmp_tmr_groups netif_output ra fuel n x))
    by (induction fuel as [|fuel IH]; intros n x; cbn [igmp_tmr_groups]; holds_solve).
  assert (Hl : ∀ fuel n, holds (kept None s0) (igmp_tmr_loop netif_output ra fuel n))
    by (induction fuel as [|fuel IH]; intros n; cbn [igmp_tmr_loop]; holds_solve).
  unfold igmp_tmr. holds_solve.
Qed.

Lemma lookfor_same (n a : Z) s r s' : igmp_lookfor_group n a s = Some (r, s') → s' = s.
Proof.
  assert (Hl : ∀ fuel x s r s', lookfor_loop fuel a x s = Some (r, s') → s' = s).
  { induction fuel as [|fuel IH]; intros x t v t' H; [done|]. cbn [lookfor_loop] in H.
    destruct (x =? 0); [by injection H as _ <-|].
    apply prog_bind_Some in H as (g & t1 & H1 & H). apply the_group_inv in H1 as [_ ->].
    destruct (_ =? a); [by injection H as _ <- | by apply IH in H]. }
  intros H. unfold igmp_lookfor_group in H. apply prog_bind_Some in H as (x & s1 & H1 & H).
  assert (s1 = s) as -> by (apply (holds_igmp_data (λ t, t = s) n s x s1 H1); done).
  apply prog_bind_Some in H as (f & s1 & [= _ <-] & H). by apply Hl in H.
Qed.
Lemma holds_lookfor (P : istate W → Prop) n a : holds P (igmp_lookfor_group n a).
Proof. intros s r s' H. by rewrite (lookfor_same n a s r s' H). Qed.
#[local] Hint Resolve holds_lookfor : netif.

Lemma kept_input s0 p n dest : holds (kept None s0) (igmp_input LWIP_RAND p n dest).
Proof.
  set (c := λ igmp, r ← peek (igmp + 1) 1; mret (u8 (of_le r)) : prog (istate W) Z).
  assert (Hc : ∀ igmp, holds (kept None s0) (c igmp)) by (intros; unfold c, peek; holds_solve).
  assert (Hu : ∀ igmp s r s', c igmp s = Some (r, s') → r < 65536).
  { intros igmp s r s' H. unfold c in H. apply prog_bind_Some in H as (y & s1 & _ & [= <- _]).
    pose proof (Z.mod_pos_bound (of_le y) 256 ltac:(lia)). unfold u8. lia. }
  assert (Hm : ∀ igmp, holds (kept None s0) (delaying_members LWIP_RAND n (c igmp)))
    by (intros igmp; apply kept_delaying_members; [apply Hu | apply Hc]).
  assert (Hd : ∀ igmp x, holds (kept None s0) (r ← c igmp; igmp_delaying_member LWIP_RAND x r)).
  { intros igmp x s u s' H Hs. apply prog_bind_Some in H as (r & s1 & H1 & H).
    eapply kept_delaying; [by eapply Hu | exact H |]. by eapply Hc. }
  assert (Hq : ∀ igmp x, holds (kept None s0) (query_input LWIP_RAND igmp n x dest)).
  { intros igmp x. unfold query_input. unfold poke. cbv zeta. fold (c igmp).
    apply holds_bind; [apply holds_igmp_get|]. intros asys. apply holds_bind; [unfold peek; holds_solve|]. intros a.
    destruct (_ && _); [|destruct (negb _)]; holds_solve. }
  unfold igmp_input, packet_chksum, free_pbuf. holds_solve.
Qed.
End functions.
