(* ===== verification/IgmpLists.v ===== *)
(** * The lists of groups

    Each interface has a linked list of its groups, the all systems group
    first.  [shape] says that the lists are well formed, that no group is on
    two of them and none is lost; [represents] gives the memberships that the
    lists stand for. *)

From stdpp Require Import base numbers list gmap option relations.
From S2P Require Import Prelude Mem Memp Pbuf Chksum Ip4Addr Etharp LinkedList Netifs NetifProps Ip4 Igmp IgmpInv.

(** How often each interface has joined each group. *)
Abbreviation memberships := (gmap (Z * Z) Z).
(** The groups of each interface. *)
Abbreviation lists := (gmap Z (list Z)).

Section lists.
  Context {W : Type} `{!HasIgmp W}.
  Implicit Types (s : istate W) (L : lists) (M : memberships).

Record shape L s : Prop := {
  sh_systems : gs_allsystems (gst s) = allsystems;
  sh_list : ∀ n nf, as_netifs s !! n = Some nf → ∃ g0,
    nf_client_data nf !! LWIP_NETIF_CLIENT_DATA_INDEX_IGMP = Some g0 ∧ llist ig_next (groups s) g0 (L !!! n);
  sh_netif : ∀ n x, x ∈ L !!! n → is_Some (as_netifs s !! n);
  sh_nodup : ∀ n, NoDup (L !!! n);
  sh_disjoint : ∀ n m x, x ∈ L !!! n → x ∈ L !!! m → n = m;
  sh_all : ∀ x g, groups s !! x = Some g → ∃ n, x ∈ L !!! n;
  sh_head : ∀ n x l g, L !!! n = x :: l → groups s !! x = Some g → ig_address g = allsystems;
  sh_fields : ∀ x g, groups s !! x = Some g → ip4_addr_ismulticast (ig_address g) = true ∧ 0 ≤ ig_use g < 256;
  sh_unique : ∀ n x y g h, x ∈ L !!! n → y ∈ L !!! n → groups s !! x = Some g → groups s !! y = Some h →
    ig_address g = ig_address h → x = y
}.

Definition fine (e : option Z) s : Prop := ∀ x g, groups s !! x = Some g → Some x ≠ e → group_ok allsystems g.

Definition represents L s M : Prop := ∀ n a u,
  M !! (n, a) = Some u ↔ ∃ x g, x ∈ L !!! n ∧ groups s !! x = Some g ∧ ig_address g = a ∧ ig_use g = u.

(** A group on a list exists. *)
Lemma shape_group L s n x : shape L s → x ∈ L !!! n → ∃ g, groups s !! x = Some g.
Proof.
  intros Hsh Hx. destruct (sh_netif _ _ Hsh n x Hx) as [nf Hnf].
  destruct (sh_list _ _ Hsh n nf Hnf) as (g0 & _ & Hl). by apply (llist_lookup _ _ _ x Hl).
Qed.
Lemma shape_null L s n : shape L s → (0 ∉ L !!! n).
Proof.
  intros Hsh Hx. destruct (sh_netif _ _ Hsh n 0 Hx) as [nf Hnf].
  destruct (sh_list _ _ Hsh n nf Hnf) as (g0 & _ & Hl). by apply (llist_nonzero _ _ _ Hl).
Qed.

(** ** Changes that the lists do not see *)

Lemma like_lookup R s s' x g' :
  like R s s' → groups s' !! x = Some g' → ∃ g, groups s !! x = Some g ∧ R (gs_allsystems (gst s)) x g g'.
Proof. intros (_ & _ & _ & H) Hg. specialize (H x). rewrite Hg in H. inversion H. eauto. Qed.
Lemma like_lookup_old R s s' x g :
  like R s s' → groups s !! x = Some g → ∃ g', groups s' !! x = Some g' ∧ R (gs_allsystems (gst s)) x g g'.
Proof. intros (_ & _ & _ & H) Hg. specialize (H x). rewrite Hg in H. inversion H. eauto. Qed.

Lemma shape_kept e L s s' : kept e s s' → shape L s → shape L s'.
Proof.
  intros Hk [H1 H2 H3 H4 H5 H6 H7 H8 H9]. pose proof Hk as (Kn & _ & Ka & _).
  assert (Hb : ∀ x g', groups s' !! x = Some g' → ∃ g, groups s !! x = Some g ∧
    ig_address g' = ig_address g ∧ ig_use g' = ig_use g).
  { intros x g' Hg'. destruct (like_lookup _ _ _ _ _ Hk Hg') as (g & Hg & _ & E1 & E2 & _). eauto. }
  split; rewrite ?Kn; try done.
  - congruence.
  - intros n nf Hnf. destruct (H2 n nf Hnf) as (g0 & Hg0 & Hl). exists g0. split; [done|].
    apply (llist_frame _ _ _ _ Hl). intros x g _ Hg.
    destruct (like_lookup_old _ _ _ _ _ Hk Hg) as (g' & Hg' & E & _). eauto.
  - intros x g' Hg'. destruct (Hb x g' Hg') as (g & Hg & _). eauto.
  - intros n x l g' Hl Hg'. destruct (Hb x g' Hg') as (g & Hg & -> & _). eauto.
  - intros x g' Hg'. destruct (Hb x g' Hg') as (g & Hg & -> & ->). eauto.
  - intros n x y g' h' Hx Hy Hg' Hh' E. destruct (Hb x g' Hg') as (g & Hg & Eg & _).
    destruct (Hb y h' Hh') as (h & Hh & Eh & _). apply (H9 n x y g h); congruence.
Qed.

Lemma fine_kept e s s' : kept e s s' → gs_allsystems (gst s) = allsystems → fine e s → fine e s'.
Proof.
  intros Hk Ha Hf x g' Hg' Hne. destruct (like_lookup _ _ _ _ _ Hk Hg') as (g & Hg & _ & _ & _ & Hok).
  rewrite Ha in Hok. apply Hok; [done|]. by apply (Hf x).
Qed.

Lemma represents_kept e L s s' M : kept e s s' → represents L s M → represents L s' M.
Proof.
  intros Hk H n a u. rewrite (H n a u). split; intros (x & g & Hx & Hg & E1 & E2).
  - destruct (like_lookup_old _ _ _ _ _ Hk Hg) as (g' & Hg' & _ & E3 & E4 & _). exists x, g'. repeat split; congruence.
  - destruct (like_lookup _ _ _ _ _ Hk Hg) as (g' & Hg' & _ & E3 & E4 & _). exists x, g'. repeat split; congruence.
Qed.

(** ** The search *)

Lemma lookfor_loop_run a s : ∀ l fuel x,
  llist ig_next (groups s) x l → (length l < fuel)%nat →
  ∃ r, lookfor_loop fuel a x s = Some (r, s) ∧ search_result (groups s) (λ g, ig_address g =? a) l r.
Proof.
  induction l as [|y l IH]; intros [|fuel] x Hl Hf; [cbn in Hf; lia | | cbn in Hf; lia |]; cbn [lookfor_loop].
  - cbn in Hl. subst x. exists 0. split; [done | apply search_nil].
  - destruct Hl as (-> & Hy0 & g & Hg & Hl). rewrite (proj2 (Z.eqb_neq y 0)) by done.
    rewrite (prog_bind_step _ _ _ _ _ (the_group_run y g s Hg)).
    destruct (ig_address g =? a) eqn:E.
    + exists y. split; [done|]. left. split; [done|]. exists [], l, g. split; [done|]. split; [done|]. split; [done|].
      by intros z v Hz%elem_of_nil.
    + destruct (IH fuel (ig_next g) Hl ltac:(cbn in Hf; lia)) as (r & Er & Hr). exists r. split; [done|].
      by apply (search_cons _ _ _ _ y g).
Qed.

Lemma lookfor_run L s n nf a :
  shape L s → as_netifs s !! n = Some nf →
  ∃ r, igmp_lookfor_group n a s = Some (r, s) ∧
       search_result (groups s) (λ g, ig_address g =? a) (L !!! n) r.
Proof.
  intros Hsh Hnf. destruct (sh_list _ _ Hsh n nf Hnf) as (g0 & Hg0 & Hl).
  unfold igmp_lookfor_group. rewrite (prog_bind_step _ _ s g0 s).
  2: { unfold netif_igmp_data. rewrite (prog_bind_step _ _ s nf s) by (by apply the_netif_run). by rewrite Hg0. }
  rewrite (prog_bind_step _ _ s (group_fuel (gst s)) s) by done.
  apply lookfor_loop_run; [exact Hl|]. pose proof (llist_length _ _ _ Hl (sh_nodup _ _ Hsh n)).
  unfold group_fuel, groups in *. lia.
Qed.

(** The interface is a member exactly if the search finds a group. *)
Lemma lookfor_member L s M n nf a :
  shape L s → represents L s M → as_netifs s !! n = Some nf →
  ∃ r, igmp_lookfor_group n a s = Some (r, s) ∧
    (r ≠ 0 → ∃ g, r ∈ L !!! n ∧ groups s !! r = Some g ∧ ig_address g = a ∧ M !! (n, a) = Some (ig_use g)) ∧
    (r = 0 → M !! (n, a) = None).
Proof.
  intros Hsh Hrep Hnf. destruct (lookfor_run L s n nf a Hsh Hnf) as (r & E & Hr). exists r. split; [exact E|].
  destruct Hr as [(Hr0 & l1 & l2 & g & El & Hg & Ha & _)|[-> Hno]]; (split; [intros Hr|]); try done.
  - apply Z.eqb_eq in Ha. exists g. assert (Hin : r ∈ L !!! n) by (rewrite El; apply elem_of_app; right; left).
    split; [done|]. split; [done|]. split; [done|]. apply Hrep. exists r, g. by repeat split.
  - intros _. apply eq_None_not_Some. intros [u Hu]. apply Hrep in Hu as (x & g & Hx & Hg & Ha & _).
    specialize (Hno x g Hx Hg). cbn in Hno. rewrite Ha, Z.eqb_refl in Hno. done.
Qed.
End lists.
