(* ===== verification/IgmpSteps.v ===== *)
(** * Joining, leaving, starting and stopping

    The functions of igmp.c that change the lists of groups implement the
    counting of memberships. *)

From stdpp Require Import base numbers list gmap option relations.
From S2P Require Import Prelude Mem Memp Pbuf Chksum Ip4Addr Etharp LinkedList Netifs NetifProps Ip4 Igmp IgmpInv IgmpLists.

Section relist.
  Context {W : Type} `{!HasIgmp W}.
  Implicit Types (s : istate W) (L : lists) (M : memberships).

Lemma list_insert L n l m : (<[n := l]> L) !!! m = if decide (m = n) then l else L !!! m.
Proof. destruct (decide (m = n)) as [->|Hm]; [apply lookup_total_insert_eq | by apply lookup_total_insert_ne]. Qed.

(** The list of one interface, on its own. *)
Record local_list (n : Z) (l : list Z) s : Prop := {
  ll_netif : ∃ nf g0, as_netifs s !! n = Some nf ∧
    nf_client_data nf !! LWIP_NETIF_CLIENT_DATA_INDEX_IGMP = Some g0 ∧ llist ig_next (groups s) g0 l;
  ll_nodup : NoDup l;
  ll_head : ∀ x l' g, l = x :: l' → groups s !! x = Some g → ig_address g = allsystems;
  ll_fields : ∀ x g, x ∈ l → groups s !! x = Some g → ip4_addr_ismulticast (ig_address g) = true ∧ 0 ≤ ig_use g < 256;
  ll_unique : ∀ x y g h, x ∈ l → y ∈ l → groups s !! x = Some g → groups s !! y = Some h →
    ig_address g = ig_address h → x = y
}.

Lemma shape_local L s n nf : shape L s → as_netifs s !! n = Some nf → local_list n (L !!! n) s.
Proof.
  intros [H1 H2 H3 H4 H5 H6 H7 H8 H9] Hnf. destruct (H2 n nf Hnf) as (g0 & Hg0 & Hl).
  split; [by exists nf, g0 | done | intros x l' g; apply H7 | intros x g _; apply H8 | intros x y g h; apply H9].
Qed.

(** The fields that the lists and the memberships depend on. *)
Definition core (g : igmp_group) : Z * Z * Z := (ig_next g, ig_address g, ig_use g).
Lemma core_lookup (m m' : gmap Z igmp_group) x g :
  core <$> m' !! x = core <$> m !! x → m !! x = Some g →
  ∃ g', m' !! x = Some g' ∧ ig_next g' = ig_next g ∧ ig_address g' = ig_address g ∧ ig_use g' = ig_use g.
Proof.
  intros E Hg. rewrite Hg in E. destruct (m' !! x) as [g'|]; [|done]. injection E as E1 E2 E3. by exists g'.
Qed.

(** The other interfaces have kept their lists. *)
Definition others_same (n : Z) L s s' : Prop :=
  (∀ m, m ≠ n → as_netifs s' !! m = as_netifs s !! m) ∧
  (∀ m x, m ≠ n → x ∈ L !!! m → core <$> groups s' !! x = core <$> groups s !! x).

Lemma shape_relist L s s' n l :
  shape L s → gs_allsystems (gst s') = allsystems → others_same n L s s' →
  (∀ m x, m ≠ n → x ∈ l → (x ∉ L !!! m)) →
  (∀ x g, groups s' !! x = Some g → x ∈ l ∨ ∃ m, m ≠ n ∧ x ∈ L !!! m) →
  local_list n l s' → shape (<[n := l]> L) s'.
Proof.
  intros [H1 H2 H3 H4 H5 H6 H7 H8 H9] Ha [Ho1 Ho2] Hd Hall [(nf & gn & Hnf & Hgn & Hl) K1 K2 K3 K4].
  pose proof (list_insert L n l) as Lt.
  assert (Hb : ∀ m x g', m ≠ n → x ∈ L !!! m → groups s' !! x = Some g' → ∃ g, groups s !! x = Some g ∧
    ig_address g = ig_address g' ∧ ig_use g = ig_use g').
  { intros m x g' Hm Hx Hg'. destruct (core_lookup (groups s') (groups s) x g') as (g & Hg & _ & E); [|done | by exists g].
    by rewrite (Ho2 m x). }
  split; [done | | | | | | | |].
  - intros m mf Hm. rewrite Lt. case_decide as E; [subst m; assert (mf = nf) as -> by congruence; eauto|].
    rewrite Ho1 in Hm by done. destruct (H2 m mf Hm) as (g1 & Hg1 & Hl1). exists g1. split; [done|].
    apply (llist_frame _ _ _ _ Hl1). intros x g Hx Hg.
    destruct (core_lookup _ _ x g (Ho2 m x E Hx) Hg) as (g' & Hg' & En & _). eauto.
  - intros m x. rewrite Lt. case_decide as E; [subst m; by exists nf|]. rewrite Ho1 by done. apply H3.
  - intros m. rewrite Lt. by case_decide.
  - intros m k x. rewrite !Lt. do 2 case_decide; subst; try done; [| |eauto]; intros Hx Hy; exfalso; by eapply Hd.
  - intros x g Hg. destruct (Hall x g Hg) as [Hx|(m & Hm & Hx)]; [exists n | exists m]; rewrite Lt.
    + by rewrite decide_True.
    + by rewrite decide_False.
  - intros m x l' g. rewrite Lt. case_decide as E; [apply K2|]. intros El Hg.
    destruct (Hb m x g E) as (g0 & Hg0 & <- & _); [rewrite El; left | done |]. by apply (H7 m x l').
  - intros x g Hg. destruct (Hall x g Hg) as [Hx|(m & Hm & Hx)]; [by apply (K3 x)|].
    destruct (Hb m x g Hm Hx Hg) as (g0 & Hg0 & <- & <-). by apply (H8 x).
  - intros m x y g h. rewrite Lt. case_decide as E; [apply K4|]. intros Hx Hy Hg Hh Eq.
    destruct (Hb m x g E Hx Hg) as (g0 & Hg0 & E1 & _). destruct (Hb m y h E Hy Hh) as (h0 & Hh0 & E2 & _).
    apply (H9 m x y g0 h0); congruence.
Qed.

Lemma represents_relist L s s' n l M M' :
  represents L s M → others_same n L s s' → (∀ m a, m ≠ n → M' !! (m, a) = M !! (m, a)) →
  (∀ a u, M' !! (n, a) = Some u ↔ ∃ x g, x ∈ l ∧ groups s' !! x = Some g ∧ ig_address g = a ∧ ig_use g = u) →
  represents (<[n := l]> L) s' M'.
Proof.
  intros Hrep [_ Ho] Hm Hn m a u. destruct (decide (m = n)) as [->|Hne].
  - by rewrite (list_insert L n l n), decide_True.
  - rewrite (list_insert L n l m), decide_False, Hm, (Hrep m a u) by done.
    split; intros (x & g & Hx & Hg & E1 & E2).
    + destruct (core_lookup _ _ x g (Ho m x Hne Hx) Hg) as (g' & Hg' & _ & E3 & E4). exists x, g'. repeat split; congruence.
    + destruct (core_lookup (groups s') (groups s) x g) as (g' & Hg' & _ & E3 & E4);
        [by rewrite (Ho m x) | done |]. exists x, g'. repeat split; congruence.
Qed.

(** ** A change of one group *)

Lemma lookup_upd s x g' y :
  groups (with_gst (set_groups (<[x := g']> (groups s)) (gst s)) s) !! y
  = if decide (y = x) then Some g' else groups s !! y.
Proof.
  rewrite groups_with. destruct (decide (y = x)) as [->|Hne]; [apply lookup_insert_eq | by apply lookup_insert_ne].
Qed.

Lemma shape_upd L s n x g g' :
  shape L s → x ∈ L !!! n → groups s !! x = Some g → ig_next g' = ig_next g → ig_address g' = ig_address g →
  0 ≤ ig_use g' < 256 → shape L (with_gst (set_groups (<[x := g']> (groups s)) (gst s)) s).
Proof.
  intros [H1 H2 H3 H4 H5 H6 H7 H8 H9] Hx Hg En Ea Hu.
  assert (Hb : ∀ y h, groups (with_gst (set_groups (<[x := g']> (groups s)) (gst s)) s) !! y = Some h →
    ∃ h0, groups s !! y = Some h0 ∧ ig_address h = ig_address h0 ∧ (0 ≤ ig_use h0 < 256 → 0 ≤ ig_use h < 256)).
  { intros y h. rewrite lookup_upd. case_decide as E; [subst; intros [= <-]|]; eauto. }
  split; try done.
  - by rewrite gst_with.
  - intros m mf Hm. destruct (H2 m mf Hm) as (g0 & Hg0 & Hl). exists g0. split; [done|].
    rewrite groups_with. by apply (llist_upd _ _ _ _ g).
  - intros y h Hh. destruct (Hb y h Hh) as (h0 & Hh0 & _). eauto.
  - intros m y l h El Hh. destruct (Hb y h Hh) as (h0 & Hh0 & -> & _). eauto.
  - intros y h Hh. destruct (Hb y h Hh) as (h0 & Hh0 & -> & Hr). destruct (H8 y h0 Hh0). auto.
  - intros m y z h k Hy Hz Hh Hk E. destruct (Hb y h Hh) as (h0 & Hh0 & Eh & _).
    destruct (Hb z k Hk) as (k0 & Hk0 & Ek & _). apply (H9 m y z h0 k0); congruence.
Qed.

Lemma represents_upd L s n x g g' M :
  shape L s → represents L s M → x ∈ L !!! n → groups s !! x = Some g → ig_address g' = ig_address g →
  represents L (with_gst (set_groups (<[x := g']> (groups s)) (gst s)) s) (<[(n, ig_address g) := ig_use g']> M).
Proof.
  intros Hsh Hrep Hx Hg Ea m a u. destruct (decide ((m, a) = (n, ig_address g))) as [E|Hne].
  - injection E as -> ->. rewrite lookup_insert_eq. split.
    + intros [= <-]. exists x, g'. rewrite lookup_upd, decide_True by done. by repeat split.
    + intros (y & h & Hy & Hh & E1 & E2). rewrite lookup_upd in Hh. case_decide as E; [congruence|].
      destruct E. by apply (sh_unique _ _ Hsh n y x h g).
  - rewrite lookup_insert_ne, (Hrep m a u) by done. split; intros (y & h & Hy & Hh & E1 & E2).
    + exists y, h. split; [done|]. rewrite lookup_upd, decide_False; [done|]. intros ->.
      apply Hne. rewrite Hg in Hh. injection Hh as <-. by rewrite (sh_disjoint _ _ Hsh m n x), E1.
    + rewrite lookup_upd in Hh. case_decide as E; [subst y; injection Hh as <-|by exists y, h].
      destruct Hne. by rewrite (sh_disjoint _ _ Hsh m n x), <- E1, Ea.
Qed.

(** ** A new group *)

(** The pool of groups does not hand out an element that is in use. *)
Definition fresh s : Prop := ∀ r q,
  on_pools (memp_malloc MEMP_IGMP_GROUP) (as_packets s) = Some (r, q) → r ≠ 0 → groups s !! r = None.
Definition new_group (next a : Z) : igmp_group := IgmpGroup next a 0 IGMP_GROUP_NON_MEMBER 0 0.

(** [l] with [r] as its first or its second element. *)
Definition put_second (r : Z) (l : list Z) : list Z := match l with [] => [r] | h :: l => h :: r :: l end.
Lemma elem_of_put_second x r l : x ∈ put_second r l ↔ x = r ∨ x ∈ l.
Proof. destruct l; cbn; rewrite !elem_of_cons, ?elem_of_nil; tauto. Qed.

(** The state with the new group in place. *)
Record added (n a r : Z) L s s' : Prop := {
  ad_systems : gs_allsystems (gst s') = gs_allsystems (gst s);
  ad_netifs : ∀ m, m ≠ n → as_netifs s' !! m = as_netifs s !! m;
  ad_list : ∃ nf g0, as_netifs s' !! n = Some nf ∧
    nf_client_data nf !! LWIP_NETIF_CLIENT_DATA_INDEX_IGMP = Some g0 ∧
    llist ig_next (groups s') g0 (put_second r (L !!! n));
  ad_new : ∃ x, groups s' !! r = Some (new_group x a);
  ad_old : ∀ x, x ≠ r → with_ig_next 0 <$> groups s' !! x = with_ig_next 0 <$> groups s !! x;
  ad_others : ∀ x, x ≠ r → (x ∉ L !!! n) → groups s' !! x = groups s !! x
}.

Lemma added_group n a r L s s' x g' :
  added n a r L s s' → groups s' !! x = Some g' → x ≠ r →
  ∃ g, groups s !! x = Some g ∧ ig_address g' = ig_address g ∧ ig_use g' = ig_use g ∧
       (group_ok allsystems g → group_ok allsystems g').
Proof.
  intros Had Hg' Hx. pose proof (ad_old _ _ _ _ _ _ Had x Hx) as E. rewrite Hg' in E.
  destruct (groups s !! x) as [g|]; [|done]. cbn in E. destruct g, g'. injection E as -> -> -> -> ->.
  eexists. split; [done|]. split; [done|]. split; [done|]. intros [H1 H2 H3]. by split.
Qed.

Lemma added_shape n a r L s s' nf :
  shape L s → as_netifs s !! n = Some nf → added n a r L s s' → r ≠ 0 → groups s !! r = None →
  ip4_addr_ismulticast a = true → (L !!! n = [] → a = allsystems) →
  (∀ x g, x ∈ L !!! n → groups s !! x = Some g → ig_address g ≠ a) →
  shape (<[n := put_second r (L !!! n)]> L) s'.
Proof.
  intros Hsh Hnf Had Hr0 Hr Ha Hnil Hno. pose proof Had as [A1 A2 A3 [y A4] A5 A6].
  pose proof (shape_local L s n nf Hsh Hnf) as [_ K1 K2 K3 K4].
  assert (Hrl : ∀ m, (r ∉ L !!! m)) by (intros m Hm; apply (shape_group _ _ _ _ Hsh) in Hm as [g Hg]; congruence).
  assert (Hd : ∀ m x, m ≠ n → x ∈ L !!! m → (x ∉ L !!! n)) by (intros m x Hm Hx Hx'; by apply Hm, (sh_disjoint _ _ Hsh m n x)).
  assert (Hb : ∀ x g', x ∈ L !!! n → groups s' !! x = Some g' →
    ∃ g, groups s !! x = Some g ∧ ig_address g' = ig_address g ∧ ig_use g' = ig_use g).
  { intros x g' Hx Hg'. destruct (added_group _ _ _ _ _ _ _ _ Had Hg') as (g & H1 & H2 & H3 & _); [by intros ->; apply (Hrl n)|].
    eauto. }
  apply (shape_relist L s s' n _ Hsh); [by rewrite A1, (sh_systems _ _ Hsh) | | | |].
  - split; [done|]. intros m x Hm Hx. rewrite A6; [done | by intros ->; apply (Hrl m) | by apply (Hd m)].
  - intros m x Hm Hx Hx'. apply elem_of_put_second in Hx as [->|Hx]; [by apply (Hrl m) | by apply (Hd m x)].
  - intros x g Hg. destruct (decide (x = r)) as [->|Hx]; [left; apply elem_of_put_second; by left|].
    destruct (added_group _ _ _ _ _ _ _ _ Had Hg Hx) as (g0 & Hg0 & _).
    destruct (sh_all _ _ Hsh x g0 Hg0) as [m Hm]. destruct (decide (m = n)) as [->|Hmn]; [left | right; eauto].
    apply elem_of_put_second. by right.
  - split; [done | | | |].
    + destruct (L !!! n) as [|h l] eqn:El; cbn; [apply NoDup_singleton|]. pose proof (Hrl n) as Hrn. rewrite El in Hrn.
      apply list.NoDup_cons in K1 as [K1 K1']. rewrite !list.NoDup_cons. set_solver.
    + intros x l' g El Hg. destruct (L !!! n) as [|h l] eqn:Eh; cbn in El; injection El as <- <-.
      * rewrite A4 in Hg. injection Hg as <-. by apply Hnil.
      * destruct (Hb h g) as (g0 & Hg0 & -> & _); [left | done |]. by apply (K2 h l).
    + intros x g Hx Hg. apply elem_of_put_second in Hx as [->|Hx].
      * rewrite A4 in Hg. injection Hg as <-. cbn. split; [done | lia].
      * destruct (Hb x g Hx Hg) as (g0 & Hg0 & -> & ->). by apply (K3 x).
    + intros x z g h Hx Hz Hg Hh E. apply elem_of_put_second in Hx, Hz.
      destruct Hx as [->|Hx], Hz as [->|Hz]; [done | | |].
      * rewrite A4 in Hg. injection Hg as <-. destruct (Hb z h Hz Hh) as (h0 & Hh0 & E1 & _).
        destruct (Hno z h0 Hz Hh0). by rewrite <- E1, <- E.
      * rewrite A4 in Hh. injection Hh as <-. destruct (Hb x g Hx Hg) as (g0 & Hg0 & E1 & _).
        destruct (Hno x g0 Hx Hg0). by rewrite <- E1, E.
      * destruct (Hb x g Hx Hg) as (g0 & Hg0 & E1 & _). destruct (Hb z h Hz Hh) as (h0 & Hh0 & E2 & _).
        apply (K4 x z g0 h0); congruence.
Qed.

Lemma added_represents n a r L s s' M :
  shape L s → represents L s M → added n a r L s s' → groups s !! r = None → M !! (n, a) = None →
  represents (<[n := put_second r (L !!! n)]> L) s' (<[(n, a) := 0]> M).
Proof.
  intros Hsh Hrep Had Hr HM. pose proof Had as [A1 A2 A3 [y A4] A5 A6].
  assert (Hrl : ∀ m, (r ∉ L !!! m)) by (intros m Hm; apply (shape_group _ _ _ _ Hsh) in Hm as [g Hg]; congruence).
  apply (represents_relist L s s' n _ M); [done | | |].
  - split; [done|]. intros m x Hm Hx. rewrite A6; [done | by intros ->; apply (Hrl m)|].
    intros Hx'. by apply Hm, (sh_disjoint _ _ Hsh m n x).
  - intros m b Hm. apply lookup_insert_ne. congruence.
  - intros b u. destruct (decide (b = a)) as [->|Hb].
    + rewrite lookup_insert_eq. split.
      * intros [= <-]. exists r, (new_group y a). split; [apply elem_of_put_second; by left|]. by repeat split.
      * intros (x & g & Hx & Hg & E1 & E2). apply elem_of_put_second in Hx as [->|Hx].
        { rewrite A4 in Hg. injection Hg as <-. by rewrite <- E2. }
        destruct (added_group _ _ _ _ _ _ _ _ Had Hg) as (g0 & Hg0 & E3 & E4 & _); [by intros ->; apply (Hrl n)|].
        assert (M !! (n, a) = Some (ig_use g0)); [|congruence]. apply Hrep. exists x, g0. repeat split; congruence.
    + rewrite lookup_insert_ne, (Hrep n b u) by congruence. split.
      * intros (x & g & Hx & Hg & E1 & E2). assert (Hxr : x ≠ r) by (intros ->; by apply (Hrl n)).
        pose proof (A5 x Hxr) as E. rewrite Hg in E. destruct (groups s' !! x) as [g'|] eqn:Hg'; [|done].
        destruct (added_group _ _ _ _ _ _ _ _ Had Hg' Hxr) as (g0 & Hg0 & E3 & E4 & _).
        exists x, g'. split; [apply elem_of_put_second; by right|]. split; [done|]. split; congruence.
      * intros (x & g & Hx & Hg & E1 & E2). apply elem_of_put_second in Hx as [->|Hx].
        { rewrite A4 in Hg. injection Hg as <-. by destruct Hb. }
        destruct (added_group _ _ _ _ _ _ _ _ Had Hg) as (g0 & Hg0 & E3 & E4 & _); [by intros ->; apply (Hrl n)|].
        exists x, g0. repeat split; congruence.
Qed.

(** [igmp_lookup_group] for an interface with an empty list. *)
Lemma added_first n a r L s nf :
  shape L s → as_netifs s !! n = Some nf → r ≠ 0 → L !!! n = [] → groups s !! r = None →
  added n a r L s
    (let s1 := with_gst (set_groups (<[r := new_group 0 a]> (groups s)) (gst s)) s in
     AState (as_table s1) (as_cached s1)
       (<[n := with_client_data (<[LWIP_NETIF_CLIENT_DATA_INDEX_IGMP := r]> (nf_client_data nf)) nf]> (as_netifs s1))
       (as_packets s1) (as_link s1)).
Proof.
  intros Hsh Hnf Hr0 Hl Hr. destruct (sh_list _ _ Hsh n nf Hnf) as (g0 & Hg0 & _).
  set (s1 := with_gst _ s). cbv zeta. set (s' := AState _ _ _ _ _).
  assert (Eg : groups s' = <[r := new_group 0 a]> (groups s)) by (exact (groups_with _ _ s)).
  assert (Es : gst s' = set_groups (<[r := new_group 0 a]> (groups s)) (gst s)) by (exact (gst_with _ s)).
  split; rewrite ?Es, ?Eg; try done.
  - intros m Hm. cbn. by rewrite lookup_insert_ne.
  - eexists _, r. cbn [s' as_netifs]. split; [apply lookup_insert_eq|]. cbn [nf_client_data with_client_data].
    split; [apply list_lookup_insert_eq; by apply lookup_lt_Some in Hg0|]. rewrite Hl. cbn [put_second llist].
    split; [done|]. split; [done|]. exists (new_group 0 a). split; [apply lookup_insert_eq | done].
  - exists 0. apply lookup_insert_eq.
  - intros x Hx. by rewrite lookup_insert_ne.
  - intros x Hx _. by rewrite lookup_insert_ne.
Qed.

(** The same with a first group [h]. *)
Lemma added_second n a r L s nf h l gh :
  shape L s → as_netifs s !! n = Some nf → r ≠ 0 → L !!! n = h :: l → groups s !! h = Some gh → groups s !! r = None →
  added n a r L s
    (with_gst (set_groups (<[h := with_ig_next r gh]> (<[r := new_group (ig_next gh) a]> (groups s))) (gst s)) s).
Proof.
  intros Hsh Hnf Hr0 Hl Hh Hr. destruct (sh_list _ _ Hsh n nf Hnf) as (g0 & Hg0 & Hll). rewrite Hl in Hll.
  pose proof (sh_nodup _ _ Hsh n) as Hnd. rewrite Hl in Hnd. apply list.NoDup_cons in Hnd as [Hnh _].
  assert (Hhr : h ≠ r) by congruence. destruct Hll as (-> & Hh0 & gh' & Hgh' & Hll). rewrite Hh in Hgh'. injection Hgh' as <-.
  assert (Hrl : (r ∉ l)) by (intros Hin; apply (llist_lookup _ _ _ _ Hll) in Hin as [g Hg]; congruence).
  split; rewrite ?groups_with, ?gst_with; try done.
  - exists nf, h. split; [done|]. split; [done|]. rewrite Hl. cbn [put_second llist]. split; [done|]. split; [done|].
    exists (with_ig_next r gh). split; [apply lookup_insert_eq|]. split; [done|]. split; [done|].
    exists (new_group (ig_next gh) a). split; [by rewrite lookup_insert_ne, lookup_insert_eq by congruence|].
    cbn [ig_next new_group]. apply llist_insert; [by apply llist_insert | done].
  - exists (ig_next gh). by rewrite lookup_insert_ne, lookup_insert_eq by congruence.
  - intros x Hx. destruct (decide (x = h)) as [->|Hxh]; [by rewrite lookup_insert_eq, Hh|].
    by rewrite !lookup_insert_ne by congruence.
  - intros x Hx Hxl. rewrite Hl in Hxl. rewrite !lookup_insert_ne; [done | congruence|]. intros ->. apply Hxl. left.
Qed.

Lemma added_packets n a r L q s s' : added n a r L (set_packets q s) s' → added n a r L s s'.
Proof. intros [H1 H2 H3 H4 H5 H6]. by split. Qed.

(** What [igmp_lookup_group] does: the group is there, or there is no memory,
    or a new group is added. *)
Lemma lookup_group_inv L s M n nf a r s' :
  shape L s → represents L s M → fresh s → as_netifs s !! n = Some nf → igmp_lookup_group n a s = Some (r, s') →
  (∃ g, r ≠ 0 ∧ s' = s ∧ r ∈ L !!! n ∧ groups s !! r = Some g ∧ ig_address g = a ∧ M !! (n, a) = Some (ig_use g)) ∨
  M !! (n, a) = None ∧ (∀ x g, x ∈ L !!! n → groups s !! x = Some g → ig_address g ≠ a) ∧
    (r = 0 ∧ quiet s s' ∨ r ≠ 0 ∧ groups s !! r = None ∧ added n a r L s s').
Proof.
  intros Hsh Hrep Hfr Hnf H. unfold igmp_lookup_group in H.
  destruct (sh_list _ _ Hsh n nf Hnf) as (g0 & Hg0 & Hll).
  rewrite (prog_bind_step _ _ s g0 s) in H.
  2: { unfold netif_igmp_data. rewrite (prog_bind_step _ _ s nf s) by (by apply the_netif_run). by rewrite Hg0. }
  destruct (lookfor_member L s M n nf a Hsh Hrep Hnf) as (y & Ey & Hy & Hn).
  rewrite (prog_bind_step _ _ _ _ _ Ey) in H. destruct (Z.eqb_spec y 0) as [Ey0|Hy0]; cbn [negb] in H.
  2: { left. injection H as <- <-. destruct (Hy Hy0) as (g & H1 & H2 & H3 & H4). by exists g. }
  right. specialize (Hn Ey0). split; [exact Hn|]. split.
  { intros x g Hx Hg Ha. assert (M !! (n, a) = Some (ig_use g)); [|congruence]. apply Hrep. by exists x, g. }
  apply prog_bind_Some in H as (x & s1 & H1 & H). unfold packets in H1.
  destruct (on_pools _ _) as [[x' q]|] eqn:Eq; [|done]. injection H1 as <- <-. specialize (Hfr x' q Eq).
  set (s1 := set_packets q s) in *. assert (Hsh1 : shape L s1) by (destruct Hsh; by split).
  destruct (Z.eqb_spec x' 0) as [->|Hx0]; cbn [negb when] in H; [left; injection H as <- <-; by repeat split|].
  specialize (Hfr Hx0). right. destruct (Z.eqb_spec g0 0) as [->|Hgn].
  - assert (Hnil : L !!! n = []) by (destruct (L !!! n) as [|z l]; [done|]; by destruct Hll as (? & ? & _); subst).
    rewrite (prog_bind_step _ _ s1 tt
      (let t := with_gst (set_groups (<[x' := new_group 0 a]> (groups s1)) (gst s1)) s1 in
       AState (as_table t) (as_cached t)
         (<[n := with_client_data (<[LWIP_NETIF_CLIENT_DATA_INDEX_IGMP := x']> (nf_client_data nf)) nf]> (as_netifs t))
         (as_packets t) (as_link t))) in H.
    + injection H as <- <-. split; [done|]. split; [done|]. by apply (added_packets _ _ _ _ q), (added_first n a x' L s1 nf).
    + rewrite (prog_bind_step _ _ _ _ _ (igmp_mod_run _ s1)). unfold netif_set_igmp_data.
      rewrite (prog_bind_step _ _ _ nf (with_gst (set_groups (<[x' := new_group 0 a]> (groups s1)) (gst s1)) s1))
        by (by apply the_netif_run).
      rewrite (proj2 (Nat.ltb_lt _ _)) by (by apply lookup_lt_Some in Hg0). by apply upd_netif_run.
  - destruct (L !!! n) as [|h l] eqn:El; [done|]. pose proof Hll as (-> & Hh0 & gh & Hgh & _).
    rewrite (prog_bind_step _ _ s1 tt
      (with_gst (set_groups (<[h := with_ig_next x' gh]> (<[x' := new_group (ig_next gh) a]> (groups s1))) (gst s1)) s1)) in H.
    + injection H as <- <-. split; [done|]. split; [done|]. by apply (added_packets _ _ _ _ q), (added_second n a x' L s1 nf h l gh).
    + rewrite (prog_bind_step _ _ _ _ _ (the_group_run h gh s1 Hgh)).
      rewrite (prog_bind_step _ _ _ _ _ (igmp_mod_run _ s1)).
      assert (Hne : h ≠ x') by (intros ->; unfold s1, groups, gst in *; cbn in *; congruence).
      rewrite (upd_group_run h _ gh).
      2: { by rewrite groups_with, lookup_insert_ne. }
      rewrite groups_with, gst_with, with_gst_with. done.
Qed.
(** ** Groups that go *)

(** The groups [D] have been taken off the list of the interface and freed. *)
Record removed (n : Z) (D l : list Z) L s s' : Prop := {
  rm_systems : gs_allsystems (gst s') = gs_allsystems (gst s);
  rm_netifs : ∀ m, m ≠ n → as_netifs s' !! m = as_netifs s !! m;
  rm_list : ∃ nf g0, as_netifs s' !! n = Some nf ∧
    nf_client_data nf !! LWIP_NETIF_CLIENT_DATA_INDEX_IGMP = Some g0 ∧ llist ig_next (groups s') g0 l;
  rm_part : ∀ z, z ∈ L !!! n ↔ z ∈ l ∨ z ∈ D;
  rm_nodup : NoDup l ∧ (∀ z, z ∈ l → (z ∉ D));
  rm_head : ∀ z l', l = z :: l' → ∃ l0, L !!! n = z :: l0;
  rm_gone : ∀ z, z ∈ D → groups s' !! z = None;
  rm_kept : ∀ z, (z ∉ D) → option_Forall2 (λ g g', ig_address g' = ig_address g ∧ ig_use g' = ig_use g ∧
    (group_ok allsystems g → group_ok allsystems g')) (groups s !! z) (groups s' !! z);
  rm_others : ∀ m z, m ≠ n → z ∈ L !!! m → core <$> groups s' !! z = core <$> groups s !! z
}.

Lemma removed_lookup n D l L s s' z g' :
  removed n D l L s s' → groups s' !! z = Some g' →
  (z ∉ D) ∧ ∃ g, groups s !! z = Some g ∧ ig_address g' = ig_address g ∧ ig_use g' = ig_use g ∧
    (group_ok allsystems g → group_ok allsystems g').
Proof.
  intros Hrm Hg'. assert (Hz : (z ∉ D)) by (intros Hz; apply (rm_gone _ _ _ _ _ _ Hrm) in Hz; congruence).
  split; [done|]. pose proof (rm_kept _ _ _ _ _ _ Hrm z Hz) as H. rewrite Hg' in H. inversion H. eauto.
Qed.

Lemma removed_shape n D l L s s' nf :
  shape L s → as_netifs s !! n = Some nf → removed n D l L s s' → shape (<[n := l]> L) s'.
Proof.
  intros Hsh Hnf Hrm. pose proof Hrm as [R1 R2 R3 R4 [R5 R5'] R6 R7 R8 R9].
  pose proof (shape_local L s n nf Hsh Hnf) as [_ K1 K2 K3 K4].
  assert (Hin : ∀ z, z ∈ l → z ∈ L !!! n) by (intros z Hz; apply R4; by left).
  apply (shape_relist L s s' n l Hsh); [by rewrite R1, (sh_systems _ _ Hsh) | by split | | |].
  - intros m z Hm Hz Hz'. by apply Hm, (sh_disjoint _ _ Hsh m n z); [|apply Hin].
  - intros z g' Hg'. destruct (removed_lookup _ _ _ _ _ _ _ _ Hrm Hg') as (Hz & g & Hg & _).
    destruct (sh_all _ _ Hsh z g Hg) as [m Hm]. destruct (decide (m = n)) as [->|Hmn]; [left | right; eauto].
    apply R4 in Hm as [Hm|Hm]; [done | by destruct Hz].
  - split; [done | done | | |].
    + intros z l' g' El Hg'. destruct (removed_lookup _ _ _ _ _ _ _ _ Hrm Hg') as (_ & g & Hg & -> & _).
      destruct (R6 z l' El) as [l0 El0]. by apply (K2 z l0).
    + intros z g' Hz Hg'. destruct (removed_lookup _ _ _ _ _ _ _ _ Hrm Hg') as (_ & g & Hg & -> & -> & _).
      by apply (K3 z); [apply Hin|].
    + intros z y g' h' Hz Hy Hg' Hh' E.
      destruct (removed_lookup _ _ _ _ _ _ _ _ Hrm Hg') as (_ & g & Hg & E1 & _).
      destruct (removed_lookup _ _ _ _ _ _ _ _ Hrm Hh') as (_ & h & Hh & E2 & _).
      apply (K4 z y g h); [by apply Hin | by apply Hin | done | done | congruence].
Qed.

Lemma removed_represents n D l L s s' M M' :
  represents L s M → removed n D l L s s' →
  (∀ m a u, M' !! (m, a) = Some u ↔ M !! (m, a) = Some u ∧
     ¬ (m = n ∧ ∃ z g, z ∈ D ∧ groups s !! z = Some g ∧ ig_address g = a)) →
  (∀ x y g h, x ∈ L !!! n → y ∈ L !!! n → groups s !! x = Some g → groups s !! y = Some h →
     ig_address g = ig_address h → x = y) →
  represents (<[n := l]> L) s' M'.
Proof.
  intros Hrep Hrm HM Hun. pose proof Hrm as [_ R2 _ R4 [_ R5] _ R7 R8 R9].
  apply (represents_relist L s s' n l M); [done | by split | |].
  - intros m a Hm. apply option_eq. intros u. rewrite HM. split; [by intros [? _]|]. intros H. split; [done|]. by intros [? _].
  - intros a u. rewrite HM, (Hrep n a u). split.
    + intros [(z & g & Hz & Hg & Ea & Eu) Hno].
      assert (HzD : (z ∉ D)) by (intros HzD; apply Hno; split; [done|]; by exists z, g).
      pose proof (R8 z HzD) as H. rewrite Hg in H. inversion H as [? g' (E1 & E2 & _) E3 E4|]. exists z, g'.
      split; [apply R4 in Hz as [?|?]; done|]. split; [done|]. split; congruence.
    + intros (z & g' & Hz & Hg' & Ea & Eu). destruct (removed_lookup _ _ _ _ _ _ _ _ Hrm Hg') as (HzD & g & Hg & E1 & E2 & _).
      assert (HzL : z ∈ L !!! n) by (apply R4; by left). split.
      * exists z, g. split; [done|]. split; [done|]. split; congruence.
      * intros (_ & y & h & Hy & Hh & Eh). apply HzD. assert (z = y) as ->; [|done].
        apply (Hun z y g h); [done | apply R4; by right | done | done | congruence].
Qed.

(** The unlinking of a group that is not the first one. *)
Lemma remove_loop_run s x gx y gy l2 : ∀ l1 fuel p,
  llist ig_next (groups s) p (l1 ++ y :: x :: l2) → NoDup (l1 ++ y :: x :: l2) → (length l1 < fuel)%nat →
  groups s !! x = Some gx → groups s !! y = Some gy →
  remove_loop fuel x p s
  = Some (ERR_OK, with_gst (set_groups (<[y := with_ig_next (ig_next gx) gy]> (groups s)) (gst s)) s).
Proof.
  induction l1 as [|z l1 IH]; intros [|fuel] p Hl Hnd Hf Hx Hy; [cbn in Hf; lia | | cbn in Hf; lia |]; cbn [remove_loop app] in *.
  - destruct Hl as (-> & Hy0 & v & Hv & Ex & Hx0 & _). rewrite (proj2 (Z.eqb_neq y 0)) by done.
    rewrite Hy in Hv. injection Hv as <-. rewrite (prog_bind_step _ _ _ _ _ (the_group_run y gy s Hy)).
    rewrite Ex, Z.eqb_refl. rewrite (prog_bind_step _ _ _ _ _ (the_group_run x gx s Hx)).
    by rewrite (prog_bind_step _ _ _ _ _ (upd_group_run y _ gy s Hy)).
  - destruct Hl as (-> & Hz0 & v & Hv & Hl). rewrite (proj2 (Z.eqb_neq z 0)) by done.
    rewrite (prog_bind_step _ _ _ _ _ (the_group_run z v s Hv)). apply list.NoDup_cons in Hnd as [Hz Hnd].
    assert (Hne : ig_next v ≠ x).
    { intros E. destruct l1 as [|w l1]; cbn [app] in Hl, Hnd; destruct Hl as (Ew & _).
      - apply list.NoDup_cons in Hnd as [Hnd _]. apply Hnd. rewrite <- Ew, E. left.
      - apply list.NoDup_cons in Hnd as [Hnd _]. apply Hnd. rewrite <- Ew, E. apply elem_of_app. right. right. left. }
    rewrite (proj2 (Z.eqb_neq _ _)) by done. apply IH; try done. cbn in Hf. lia.
Qed.
End relist.

(** ** The abstract memberships *)

Definition joined (n a : Z) (M : memberships) : memberships :=
  <[(n, a) := u8 (default 0 (M !! (n, a)) + 1)]> M.
Definition left (n a : Z) (M : memberships) : memberships :=
  match M !! (n, a) with
  | Some u => if u <=? 1 then delete (n, a) M else <[(n, a) := u - 1]> M
  | None => M
  end.
Definition stopped (n : Z) (M : memberships) : memberships := filter (λ p, p.1.1 ≠ n) M.

Section steps.
  Context {W : Type} `{!HasIgmp W}.
  Context (netif_output : Z → Z → Z → prog (istate W) Z).
  Context (call_mac_filter : Z → Z → Z → Z → prog (istate W) unit).
  Context (LWIP_RAND : prog (istate W) Z).
  Context (ra : Z).
  Implicit Types (s : istate W) (L : lists) (M : memberships).
  Context (Hout : ∀ n p a s r s', netif_output n p a s = Some (r, s') → quiet s s').
  Context (Hfilter : ∀ f n a k s u s', call_mac_filter f n a k s = Some (u, s') → quiet s s').
  Context (Hrand : ∀ s r s', LWIP_RAND s = Some (r, s') → quiet s s' ∧ 0 ≤ r).
  #[local] Set Default Proof Using "All".

(** The state is well formed and stands for the memberships [M]. *)
Record groups_inv L M s : Prop := {
  gi_shape : shape L s;
  gi_fine : fine None s;
  gi_members : represents L s M
}.

Lemma inv_kept L M s s' : kept None s s' → groups_inv L M s → groups_inv L M s'.
Proof.
  intros Hk [H1 H2 H3]. split; [by apply (shape_kept None L s) | | by apply (represents_kept None L s)].
  apply (fine_kept None s); [done | apply H1 | done].
Qed.

(** One more or one less use of a group. *)
Lemma inv_use L M s n x g u :
  groups_inv L M s → x ∈ L !!! n → groups s !! x = Some g → 0 ≤ u < 256 →
  groups_inv L (<[(n, ig_address g) := u]> M)
    (with_gst (set_groups (<[x := with_use u g]> (groups s)) (gst s)) s).
Proof.
  intros [H1 H2 H3] Hx Hg Hu. split.
  - by apply (shape_upd L s n x g).
  - intros y h. rewrite lookup_upd. case_decide as E; [|apply H2]. subst y. intros [= <-] _.
    destruct (H2 x g Hg) as [K1 K2 K3]; [done | by split].
  - by apply (represents_upd L s n x g).
Qed.

Lemma kept_start_timer s0 x t : t < 65536 → holds (kept (Some x) s0) (igmp_start_timer LWIP_RAND x t).
Proof.
  intros Ht s u s' H Hs. eapply kept_trans; [exact Hs|].
  destruct (start_timer_inv netif_output call_mac_filter LWIP_RAND ra Hout Hfilter Hrand _ _ _ _ _ H Ht) as (g & v & Hg & _ & En & El & Es).
  split; [done|]. split; [done|]. rewrite Es. split; [done|]. intros y. unfold groups at 2. rewrite Es. cbn [gs_groups set_groups].
  destruct (decide (x = y)) as [<-|Hne].
  - rewrite lookup_insert_eq, Hg. constructor. split; [done|]. split; [done|]. split; [done|]. intros Hx. by destruct Hx.
  - rewrite lookup_insert_ne by done. destruct (groups s !! y); constructor. apply kin_refl.
Qed.

(** The new group becomes a delaying member. *)
Lemma join_new L M n a x s1 u s' :
  shape L s1 → fine (Some x) s1 → represents L s1 M → x ∈ L !!! n →
  (when (0 =? 0) (mac_filter call_mac_filter n a NETIF_ADD_MAC_FILTER) ;;
   igmp_send netif_output ra n x IGMP_V2_MEMB_REPORT ;;
   igmp_start_timer LWIP_RAND x IGMP_JOIN_DELAYING_MEMBER_TMR ;;
   upd_group x (with_ig_state IGMP_GROUP_DELAYING_MEMBER)) s1 = Some (u, s') →
  groups_inv L M s' ∧ kept (Some x) s1 s'.
Proof.
  intros Hsh Hf Hrep Hx H. cbn [Z.eqb when] in H.
  apply prog_bind_Some in H as ([] & s2 & H2 & H). apply prog_bind_Some in H as ([] & s3 & H3 & H).
  apply prog_bind_Some in H as ([] & s4 & H4 & H).
  assert (K13 : kept (Some x) s1 s3).
  { apply calm_kept. eapply (holds_igmp_send netif_output call_mac_filter LWIP_RAND ra Hout Hfilter Hrand s1); [exact H3|].
    eapply (holds_mac_filter netif_output call_mac_filter LWIP_RAND ra Hout Hfilter Hrand s1); [exact H2 | apply calm_refl]. }
  assert (Ht : IGMP_JOIN_DELAYING_MEMBER_TMR < 65536) by (by vm_compute).
  assert (K14 : kept (Some x) s1 s4) by (eapply (kept_start_timer s1 x _ Ht); [exact H4 | exact K13]).
  assert (K15 : kept (Some x) s1 s') by (eapply (holds_kept_upd s1 x); [|exact H | exact K14]; done).
  split; [|exact K15]. split; [by apply (shape_kept (Some x) L s1) | | by apply (represents_kept (Some x) L s1)].
  assert (Hf' : fine (Some x) s') by (apply (fine_kept (Some x) s1); [done | apply Hsh | done]).
  intros y g Hg _. destruct (decide (y = x)) as [->|Hne]; [|apply (Hf' y g Hg); congruence].
  destruct (start_timer_inv netif_output call_mac_filter LWIP_RAND ra Hout Hfilter Hrand _ _ _ _ _ H4 Ht) as (g3 & v & Hg3 & Hv & _ & _ & E4).
  apply upd_group_inv in H as (g4 & Hg4 & ->). rewrite groups_with, lookup_insert_eq in Hg. injection Hg as <-.
  unfold groups in Hg4. rewrite E4 in Hg4. cbn [gs_groups set_groups] in Hg4. rewrite lookup_insert_eq in Hg4. injection Hg4 as <-.
  assert (Ev : IGMP_JOIN_DELAYING_MEMBER_TMR = 5) by reflexivity. rewrite Ev in Hv.
  split; cbn; [done | lia |]. intros _. split; [done | lia].
Qed.

(** The same interfaces have groups. *)
Definition same_started L L' : Prop := ∀ m, L' !!! m = [] ↔ L !!! m = [].

Lemma put_second_started L n x : L !!! n ≠ [] → same_started L (<[n := put_second x (L !!! n)]> L).
Proof. intros Hn m. rewrite list_insert. case_decide as E; [|done]. subst m. by destruct (L !!! n). Qed.

(** A new group in the state [s1] after [igmp_lookup_group]. *)
Lemma added_inv L M s n a x s1 nf :
  groups_inv L M s → as_netifs s !! n = Some nf → added n a x L s s1 → x ≠ 0 → groups s !! x = None →
  ip4_addr_ismulticast a = true → (L !!! n = [] → a = allsystems) →
  (∀ y g, y ∈ L !!! n → groups s !! y = Some g → ig_address g ≠ a) → M !! (n, a) = None →
  let L1 := <[n := put_second x (L !!! n)]> L in
  shape L1 s1 ∧ fine (Some x) s1 ∧ represents L1 s1 (<[(n, a) := 0]> M) ∧ x ∈ L1 !!! n.
Proof.
  intros [H1 H2 H3] Hnf Had Hx0 Hx Ha Hnil Hno HM L1. split; [by apply (added_shape n a x L s s1 nf)|].
  split; [|split; [by apply (added_represents n a x L s s1 M)|]].
  - intros y g Hg Hy. destruct (added_group _ _ _ _ _ _ _ _ Had Hg) as (g0 & Hg0 & _ & _ & Hok); [congruence|].
    apply Hok, (H2 y g0 Hg0). done.
  - unfold L1. rewrite list_insert, decide_True by done. apply elem_of_put_second. by left.
Qed.

(** [use++] *)
Lemma inv_join L M s n x g u s' a :
  groups_inv L M s → x ∈ L !!! n → groups s !! x = Some g → ig_address g = a → M !! (n, a) = Some (ig_use g) →
  upd_group x (λ g, with_use (u8 (ig_use g + 1)) g) s = Some (u, s') → groups_inv L (joined n a M) s'.
Proof.
  intros Hi Hx Hg Ha HM H. rewrite (upd_group_run x _ g s Hg) in H. injection H as _ <-.
  unfold joined. rewrite HM. cbn [default from_option id]. subst a. apply inv_use; try done. apply u8_range.
Qed.

Lemma join_netif_ok L M s n nf a r s' :
  groups_inv L M s → fresh s → as_netifs s !! n = Some nf → L !!! n ≠ [] →
  igmp_joingroup_netif netif_output call_mac_filter LWIP_RAND ra n a s = Some (r, s') →
  ∃ L', same_started L L' ∧ groups_inv L' (if r =? ERR_OK then joined n a M else M) s'.
Proof.
  intros Hi Hfr Hnf Hst H. pose proof Hi as [H1 H2 H3]. unfold igmp_joingroup_netif in H.
  rewrite (prog_bind_step _ _ s allsystems s) in H by (rewrite <- (sh_systems _ _ H1); done).
  destruct (ip4_addr_ismulticast a) eqn:Ea; cbn [negb] in H; [|injection H as <- <-; by exists L].
  destruct (Z.eqb_spec a allsystems) as [Eas|Eas]; [injection H as <- <-; by exists L|].
  rewrite (prog_bind_step _ _ s nf s) in H by (by apply the_netif_run).
  destruct (negb (has_flag nf NETIF_FLAG_IGMP)); [injection H as <- <-; by exists L|].
  apply prog_bind_Some in H as (x & s1 & Hl & H).
  destruct (lookup_group_inv L s M n nf a x s1 H1 H3 Hfr Hnf Hl)
    as [(g & Hx0 & -> & Hx & Hg & Hga & HM)|(HM & Hno & [[-> Hq]|(Hx0 & Hxn & Had)])].
  - rewrite (proj2 (Z.eqb_neq x 0)) in H by done. cbn [negb] in H.
    rewrite (prog_bind_step _ _ _ _ _ (the_group_run x g s Hg)) in H.
    rewrite bool_decide_false in H by (by apply (H2 x g Hg)). cbn [when] in H.
    rewrite (prog_bind_step _ _ s tt s) in H by done. apply prog_bind_Some in H as ([] & s2 & Hu & [= <- <-]).
    exists L. split; [done|]. cbn [Z.eqb ERR_OK]. by apply (inv_join L M s n x g tt).
  - cbn [Z.eqb negb] in H. injection H as <- <-. exists L. split; [done|]. cbn.
    apply (inv_kept L M s); [by apply calm_kept, quiet_calm | done].
  - rewrite (proj2 (Z.eqb_neq x 0)) in H by done. cbn [negb] in H.
    destruct (ad_new _ _ _ _ _ _ Had) as [y Hy]. rewrite (prog_bind_step _ _ _ _ _ (the_group_run x _ s1 Hy)) in H.
    cbn [ig_state new_group] in H. rewrite bool_decide_true in H by done. cbn [when ig_use] in H.
    apply prog_bind_Some in H as ([] & s2 & Hn & H). apply prog_bind_Some in H as ([] & s3 & Hu & [= <- <-]).
    destruct (added_inv L M s n a x s1 nf Hi Hnf Had Hx0 Hxn Ea ltac:(done) Hno HM) as (K1 & K2 & K3 & K4).
    set (L1 := <[n := put_second x (L !!! n)]> L) in *.
    destruct (join_new L1 _ n a x s1 tt s2 K1 K2 K3 K4 Hn) as [Hi2 Hk2].
    exists L1. split; [by apply put_second_started|]. cbn [Z.eqb ERR_OK].
    destruct (like_lookup_old _ _ _ _ _ Hk2 Hy) as (g2 & Hg2 & _ & Ea2 & Eu2 & _). cbn in Ea2, Eu2.
    rewrite (upd_group_run x _ g2 s2 Hg2) in Hu. injection Hu as <-. rewrite Eu2. unfold joined. rewrite HM. cbn [default from_option id].
    assert (E : <[(n, a) := u8 (0 + 1)]> M = <[(n, ig_address g2) := u8 (0 + 1)]> (<[(n, a) := 0]> M))
      by (by rewrite Ea2, insert_insert_eq). rewrite E. by apply inv_use.
Qed.

(** [igmp_start] *)
Lemma start_ok L M s n nf r s' :
  groups_inv L M s → fresh s → as_netifs s !! n = Some nf → igmp_start call_mac_filter n s = Some (r, s') →
  ∃ L', (∀ m, m ≠ n → L' !!! m = [] ↔ L !!! m = []) ∧ (r = ERR_OK → L' !!! n ≠ []) ∧
    groups_inv L' (if r =? ERR_OK then joined n allsystems M else M) s'.
Proof.
  intros Hi Hfr Hnf H. pose proof Hi as [H1 H2 H3]. unfold igmp_start in H.
  rewrite (prog_bind_step _ _ s allsystems s) in H by (rewrite <- (sh_systems _ _ H1); done).
  apply prog_bind_Some in H as (x & s1 & Hl & H).
  assert (Hx1 : x ≠ 0 → ∃ L1 M1 g, (∀ m, m ≠ n → L1 !!! m = [] ↔ L !!! m = []) ∧ shape L1 s1 ∧ fine (Some x) s1 ∧
    represents L1 s1 M1 ∧ joined n allsystems M1 = joined n allsystems M ∧ x ∈ L1 !!! n ∧
    groups s1 !! x = Some g ∧ ig_address g = allsystems ∧ 0 ≤ ig_timer g < 65536 ∧ M1 !! (n, allsystems) = Some (ig_use g)).
  { intros Hx. destruct (lookup_group_inv L s M n nf allsystems x s1 H1 H3 Hfr Hnf Hl)
      as [(g & _ & -> & Hxl & Hg & Hga & HM)|(HM & Hno & [[? _]|(_ & Hxn & Had)])]; [|done|].
    - exists L, M, g. split; [done|]. split; [done|]. split; [intros y h Hh _; by apply (H2 y)|].
      repeat (split; [done|]). split; [by apply (H2 x g Hg) | done].
    - destruct (added_inv L M s n allsystems x s1 nf Hi Hnf Had Hx Hxn ltac:(done) ltac:(done) Hno HM) as (K1 & K2 & K3 & K4).
      destruct (ad_new _ _ _ _ _ _ Had) as [y Hy].
      exists (<[n := put_second x (L !!! n)]> L), (<[(n, allsystems) := 0]> M), (new_group y allsystems).
      split; [intros m Hm; by rewrite list_insert, decide_False|]. repeat (split; [done|]).
      split; [unfold joined; by rewrite lookup_insert_eq, HM, insert_insert_eq|]. repeat (split; [done|]).
      apply lookup_insert_eq. }
  destruct (Z.eqb_spec x 0) as [->|Hx0]; cbn [negb] in H.
  { injection H as <- <-. exists L. split; [done|]. split; [done|]. cbn.
    destruct (lookup_group_inv L s M n nf allsystems 0 s1 H1 H3 Hfr Hnf Hl) as [(g & ? & _)|(_ & _ & [[_ Hq]|[? _]])]; [done | | done].
    apply (inv_kept L M s); [by apply calm_kept, quiet_calm | done]. }
  destruct (Hx1 Hx0) as (L1 & M1 & g & Hm & K1 & K2 & K3 & Ej & Hx & Hg & Hga & Ht & HM1).
  apply prog_bind_Some in H as ([] & s2 & E2 & H). rewrite (upd_group_run x _ g s1 Hg) in E2. injection E2 as <-.
  apply prog_bind_Some in H as ([] & s3 & E3 & H). apply prog_bind_Some in H as ([] & s4 & E4 & [= <- <-]).
  set (g2 := with_ig_state IGMP_GROUP_IDLE_MEMBER g) in *. set (s2 := with_gst _ s1) in *.
  assert (Hi2 : groups_inv L1 M1 s2).
  { split.
    - apply (shape_upd L1 s1 n x g); try done. apply (sh_fields _ _ K1 x g Hg).
    - intros y h. unfold s2. rewrite lookup_upd. case_decide as E; [|intros Hh _; apply (K2 y h Hh); congruence].
      intros [= <-] _. split; [done | done |]. intros Hne. by destruct Hne.
    - assert (E : M1 = <[(n, ig_address g) := ig_use g2]> M1) by (symmetry; apply insert_id; by rewrite Hga).
      rewrite E. by apply (represents_upd L1 s1 n x g g2 M1). }
  assert (Hg2 : groups s2 !! x = Some g2) by (unfold s2; by rewrite lookup_upd, decide_True).
  pose proof (inv_join L1 M1 s2 n x g2 tt s3 allsystems Hi2 Hx Hg2 Hga HM1 E3) as Hi3.
  exists L1. split; [done|]. split; [intros _ E; rewrite E in Hx; by apply elem_of_nil in Hx|]. cbn [Z.eqb ERR_OK].
  rewrite <- Ej. apply (inv_kept L1 _ s3); [|done].
  eapply (holds_kept netif_output call_mac_filter LWIP_RAND ra Hout Hfilter Hrand None s3); [|exact E4 | apply kept_refl].
  intros s5. by apply (holds_mac_filter netif_output call_mac_filter LWIP_RAND ra).
Qed.

(** [igmp_remove_group] and what follows it in [igmp_leavegroup_netif]. *)
Lemma leave_removed L s n nf x gx y gy l1 l2 s2 s' u :
  shape L s → as_netifs s !! n = Some nf → L !!! n = l1 ++ y :: x :: l2 → groups s !! x = Some gx → groups s !! y = Some gy →
  kept None (with_gst (set_groups (<[y := with_ig_next (ig_next gx) gy]> (groups s)) (gst s)) s) s2 →
  free_group x s2 = Some (u, s') → removed n [x] (l1 ++ y :: l2) L s s'.
Proof.
  intros Hsh Hnf El Hx Hy Hk H. destruct (sh_list _ _ Hsh n nf Hnf) as (g0 & Hg0 & Hl).
  pose proof (sh_nodup _ _ Hsh n) as Hnd. rewrite El in Hl, Hnd. set (s1 := with_gst _ s) in *.
  unfold free_group in H. apply prog_bind_Some in H as ([] & s3 & H3 & [= _ <-]).
  assert (E3 : as_netifs s3 = as_netifs s2 ∧ as_link s3 = as_link s2).
  { unfold packets in H3. destruct (on_pools _ _) as [[[] q]|]; [|done]. by injection H3 as <-. }
  destruct E3 as [En3 El3]. assert (Eg3 : gst s3 = gst s2) by (unfold gst; by rewrite El3).
  set (s' := AState _ _ _ _ _). assert (Es' : gst s' = set_groups (delete x (gs_groups (gst s2))) (gst s2)).
  { rewrite <- Eg3. exact (gst_with _ s3). }
  assert (Eg' : groups s' = delete x (groups s2)) by (unfold groups; by rewrite Es').
  assert (Hne : y ≠ x) by (intros ->; apply list.NoDup_app in Hnd as (_ & _ & Hnd); apply list.NoDup_cons in Hnd as [Hnd _]; apply Hnd; left).
  assert (Hxl : (x ∉ l1 ++ y :: l2)).
  { replace (l1 ++ y :: x :: l2) with ((l1 ++ [y]) ++ x :: l2) in Hnd by (by rewrite <- app_assoc).
    rewrite <- Permutation_middle in Hnd. apply list.NoDup_cons in Hnd as [Hnd _]. by rewrite <- app_assoc in Hnd. }
  pose proof Hk as (Kn & _ & Ka & _).
  assert (Hold : ∀ z, z ≠ x → option_Forall2 (λ g g', ig_address g' = ig_address g ∧ ig_use g' = ig_use g ∧
    (group_ok allsystems g → group_ok allsystems g') ∧ (z ≠ y → ig_next g' = ig_next g)) (groups s !! z) (groups s' !! z)).
  { intros z Hz. rewrite Eg', lookup_delete_ne by done. destruct Hk as (_ & _ & _ & Hk). specialize (Hk z).
    unfold s1 in Hk. rewrite gst_with, lookup_upd in Hk. cbn [gs_allsystems set_groups] in Hk. rewrite (sh_systems _ _ Hsh) in Hk.
    destruct (decide (z = y)) as [->|Hzy].
    - rewrite Hy. inversion Hk as [? g' (E1 & E2 & E3 & E4) Ey Eg|]. constructor. cbn in *. split; [done|]. split; [done|].
      split; [|done]. intros [K1 K2 K3]. apply E4; [done | by split].
    - inversion Hk as [g g' (E1 & E2 & E3 & E4) Ey Eg|]; constructor. auto. }
  split.
  - rewrite Es'. cbn. rewrite Ka. unfold s1. by rewrite gst_with.
  - intros m _. unfold s'. cbn [as_netifs]. by rewrite En3, Kn.
  - exists nf, g0. split; [unfold s'; cbn [as_netifs]; by rewrite En3, Kn|]. split; [done|].
    pose proof (llist_skip _ _ _ _ _ _ _ (with_ig_next (ig_next gx) gy) Hl Hnd Hx eq_refl) as Hs.
    apply (llist_frame _ _ _ _ Hs). intros z g Hz Hg. assert (Hzx : z ≠ x) by (by intros ->).
    destruct (like_lookup_old _ _ _ z g Hk) as (g' & Hg' & E & _); [unfold s1; by rewrite groups_with|].
    exists g'. split; [|done]. by rewrite Eg', lookup_delete_ne.
  - intros z. rewrite El, list_elem_of_singleton, !elem_of_app, !elem_of_cons. tauto.
  - split.
    + replace (l1 ++ y :: x :: l2) with ((l1 ++ [y]) ++ x :: l2) in Hnd by (by rewrite <- app_assoc).
      rewrite <- Permutation_middle in Hnd. apply list.NoDup_cons in Hnd as [_ Hnd]. by rewrite <- app_assoc in Hnd.
    + intros z Hz Hzx. apply list_elem_of_singleton in Hzx as ->. done.
  - intros z l' E. rewrite El. destruct l1 as [|w l1]; cbn in E |- *; injection E as -> _; by eexists.
  - intros z Hz. apply list_elem_of_singleton in Hz as ->. rewrite Eg'. apply lookup_delete_eq.
  - intros z Hz. assert (Hzx : z ≠ x) by (intros ->; apply Hz; by apply list_elem_of_singleton).
    destruct (Hold z Hzx); constructor. tauto.
  - intros m z Hm Hz. assert (HzL : (z ∉ L !!! n)) by (intros Hz'; by apply Hm, (sh_disjoint _ _ Hsh m n z)).
    rewrite El, elem_of_app, !elem_of_cons in HzL. destruct (Hold z) as [g g' (E1 & E2 & _ & E3)|]; [tauto | | done].
    cbn. unfold core. rewrite E1, E2, E3; [done | tauto].
Qed.

Lemma leave_netif_ok L M s n nf a r s' :
  groups_inv L M s → as_netifs s !! n = Some nf →
  igmp_leavegroup_netif netif_output call_mac_filter ra n a s = Some (r, s') →
  ∃ L', same_started L L' ∧ groups_inv L' (if r =? ERR_OK then left n a M else M) s'.
Proof.
  intros Hi Hnf H. pose proof Hi as [H1 H2 H3]. unfold igmp_leavegroup_netif in H.
  rewrite (prog_bind_step _ _ s allsystems s) in H by (rewrite <- (sh_systems _ _ H1); done).
  destruct (ip4_addr_ismulticast a) eqn:Ea; cbn [negb] in H; [|injection H as <- <-; by exists L].
  destruct (Z.eqb_spec a allsystems) as [Eas|Eas]; [injection H as <- <-; by exists L|].
  rewrite (prog_bind_step _ _ s nf s) in H by (by apply the_netif_run).
  destruct (negb (has_flag nf NETIF_FLAG_IGMP)); [injection H as <- <-; by exists L|].
  destruct (lookfor_member L s M n nf a H1 H3 Hnf) as (x & Ex & Hx & _). rewrite (prog_bind_step _ _ _ _ _ Ex) in H.
  destruct (Z.eqb_spec x 0) as [Hx0|Hx0]; cbn [negb] in H; [injection H as <- <-; by exists L|].
  destruct (Hx Hx0) as (gx & Hxl & Hgx & Hga & HM). rewrite (prog_bind_step _ _ _ _ _ (the_group_run x gx s Hgx)) in H.
  apply prog_bind_Some in H as ([] & s1 & H & [= <- <-]). cbn [Z.eqb ERR_OK]. unfold left. rewrite HM.
  pose proof (sh_fields _ _ H1 x gx Hgx) as [_ Hu].
  destruct (Z.leb_spec (ig_use gx) 1) as [Hle|Hgt].
  2: { rewrite (upd_group_run x _ gx s Hgx) in H. injection H as <-. exists L. split; [done|].
       replace (u8 (ig_use gx - 1)) with (ig_use gx - 1) by (unfold u8; rewrite Z.mod_small; lia).
       rewrite <- Hga. apply inv_use; [done | done | done | lia]. }
  apply list_elem_of_split in Hxl as (l1' & l2 & El). destruct (sh_list _ _ H1 n nf Hnf) as (g0 & Hg0 & Hl).
  destruct l1' as [|y l1 _] using rev_ind.
  { destruct Eas. rewrite <- Hga. by apply (sh_head _ _ H1 n x l2 gx). }
  rewrite <- app_assoc in El. cbn [app] in El. pose proof (sh_nodup _ _ H1 n) as Hnd.
  destruct (shape_group L s n y H1) as [gy Hgy]; [rewrite El; apply elem_of_app; right; left|].
  apply prog_bind_Some in H as (e & s2 & Hr & H).
  assert (Er : igmp_remove_group n x s = Some (ERR_OK, with_gst (set_groups (<[y := with_ig_next (ig_next gx) gy]> (groups s)) (gst s)) s)).
  { unfold igmp_remove_group. rewrite (prog_bind_step _ _ s g0 s).
    2: { unfold netif_igmp_data. rewrite (prog_bind_step _ _ s nf s) by (by apply the_netif_run). by rewrite Hg0. }
    rewrite (prog_bind_step _ _ s (group_fuel (gst s)) s) by done. pose proof (llist_length _ _ _ Hl Hnd) as Hlen.
    rewrite El in *. apply (remove_loop_run s x gx y gy l2 l1); try done.
    rewrite length_app in Hlen. cbn in Hlen. unfold group_fuel, groups in *. lia. }
  rewrite Er in Hr. injection Hr as <- <-. set (s2 := with_gst _ s) in *.
  apply prog_bind_Some in H as (g2 & s3 & H3' & H). apply the_group_inv in H3' as [_ ->].
  apply prog_bind_Some in H as ([] & s3 & Hsend & H). apply prog_bind_Some in H as ([] & s4 & Hfil & H).
  assert (Hk : kept None s2 s4).
  { apply calm_kept. eapply (holds_mac_filter netif_output call_mac_filter LWIP_RAND ra Hout Hfilter Hrand s2); [exact Hfil|].
    destruct (negb _); cbn [when] in Hsend; [|injection Hsend as <-; apply calm_refl].
    eapply (holds_igmp_send netif_output call_mac_filter LWIP_RAND ra Hout Hfilter Hrand s2); [exact Hsend | apply calm_refl]. }
  pose proof (leave_removed L s n nf x gx y gy l1 l2 s4 s1 tt H1 Hnf El Hgx Hgy Hk H) as Hrm.
  exists (<[n := l1 ++ y :: l2]> L). split.
  { intros m. rewrite list_insert. case_decide as E; [|done]. subst m. rewrite El. by destruct l1. }
  split; [by apply (removed_shape n [x] _ L s s1 nf) | |].
  - intros z g Hg _. destruct (removed_lookup _ _ _ _ _ _ _ _ Hrm Hg) as (_ & g1 & Hg1 & _ & _ & Hok). by apply Hok, (H2 z).
  - apply (removed_represents n [x] _ L s s1 M); [done | done | |].
    + intros m b u. split.
      * intros Hd. apply lookup_delete_Some in Hd as [Hne Hd]. split; [done|]. intros (-> & z & g & Hz & Hg & E).
        apply list_elem_of_singleton in Hz as ->. rewrite Hgx in Hg. injection Hg as <-. apply Hne. by rewrite <- E, Hga.
      * intros [Hd Hno]. apply lookup_delete_Some. split; [|done]. intros [= <- <-]. apply Hno. split; [done|].
        exists x, gx. split; [by apply list_elem_of_singleton | done].
    + intros z w g h. apply (sh_unique _ _ H1 n).
Qed.

(** [igmp_stop] *)

Lemma free_group_inv x s u s' :
  free_group x s = Some (u, s') →
  as_netifs s' = as_netifs s ∧ gst s' = set_groups (delete x (groups s)) (gst s).
Proof.
  intros H. unfold free_group in H. apply prog_bind_Some in H as ([] & s3 & H3 & [= _ <-]).
  unfold packets in H3. destruct (on_pools _ _) as [[[] q]|]; [|done]. injection H3 as <-.
  split; [done|]. exact (gst_with _ (set_packets q s)).
Qed.

Lemma stop_loop_inv n : ∀ l fuel x t u t',
  llist ig_next (groups t) x l → NoDup l → stop_loop call_mac_filter fuel n x t = Some (u, t') →
  as_netifs t' = as_netifs t ∧ gs_allsystems (gst t') = gs_allsystems (gst t) ∧
  (∀ z, z ∈ l → groups t' !! z = None) ∧
  (∀ z, (z ∉ l) → option_Forall2 (kin None (gs_allsystems (gst t)) z) (groups t !! z) (groups t' !! z)).
Proof.
  induction l as [|y l IH]; intros [|fuel] x t u t' Hl Hnd H; try done; cbn [stop_loop] in H.
  - cbn in Hl. subst x. cbn [Z.eqb] in H. injection H as _ <-. split; [done|]. split; [done|].
    split; [by intros z Hz%elem_of_nil|]. intros z _. destruct (groups t !! z); constructor. apply kin_refl.
  - destruct Hl as (-> & Hy0 & g & Hg & Hl). rewrite (proj2 (Z.eqb_neq y 0)) in H by done.
    rewrite (prog_bind_step _ _ _ _ _ (the_group_run y g t Hg)) in H. apply list.NoDup_cons in Hnd as [Hy Hnd].
    apply prog_bind_Some in H as ([] & t1 & H1 & H). apply prog_bind_Some in H as ([] & t2 & H2 & H).
    assert (Hk : kept None t t1).
    { apply calm_kept. eapply (holds_mac_filter netif_output call_mac_filter LWIP_RAND ra Hout Hfilter Hrand t); [exact H1 | apply calm_refl]. }
    pose proof Hk as (Kn & _ & Ka & Kg). apply free_group_inv in H2 as [En2 Eg2].
    assert (Eg : groups t2 = delete y (groups t1)) by (unfold groups at 1; by rewrite Eg2).
    destruct (IH fuel (ig_next g) t2 u t') as (J1 & J2 & J3 & J4); [|done | done |].
    { apply (llist_frame _ _ _ _ Hl). intros z v Hz Hv. destruct (like_lookup_old _ _ _ _ _ Hk Hv) as (v' & Hv' & E & _).
      exists v'. split; [|done]. rewrite Eg, lookup_delete_ne; [done|]. by intros ->. }
    split; [by rewrite J1, En2, Kn|]. split; [by rewrite J2, Eg2; cbn; rewrite Ka|]. split.
    + intros z Hz. apply elem_of_cons in Hz as [->|Hz]; [|by apply J3]. specialize (J4 y Hy).
      rewrite Eg, lookup_delete_eq in J4. by inversion J4.
    + intros z Hz. assert (Hzy : z ≠ y) by (intros ->; apply Hz; left).
      assert (Hzl : (z ∉ l)) by (intros Hzl; apply Hz; by right). specialize (J4 z Hzl). specialize (Kg z).
      rewrite Eg, lookup_delete_ne in J4 by done. rewrite Eg2 in J4. cbn [gs_allsystems set_groups] in J4. rewrite Ka in J4.
      destruct (groups t !! z), (groups t1 !! z), (groups t' !! z); inversion Kg; inversion J4; constructor. by eapply kin_trans.
Qed.

Lemma stop_ok L M s n nf r s' :
  groups_inv L M s → as_netifs s !! n = Some nf → igmp_stop call_mac_filter n s = Some (r, s') →
  groups_inv (<[n := []]> L) (stopped n M) s'.
Proof.
  intros [H1 H2 H3] Hnf H. destruct (sh_list _ _ H1 n nf Hnf) as (g0 & Hg0 & Hl). unfold igmp_stop in H.
  rewrite (prog_bind_step _ _ s g0 s) in H.
  2: { unfold netif_igmp_data. rewrite (prog_bind_step _ _ s nf s) by (by apply the_netif_run). by rewrite Hg0. }
  pose proof (lookup_lt_Some _ _ _ Hg0) as Hlt. set (nf' := with_client_data (<[LWIP_NETIF_CLIENT_DATA_INDEX_IGMP := 0]> (nf_client_data nf)) nf).
  set (s1 := AState (as_table s) (as_cached s) (<[n := nf']> (as_netifs s)) (as_packets s) (as_link s)).
  rewrite (prog_bind_step _ _ s tt s1) in H.
  2: { unfold netif_set_igmp_data. rewrite (prog_bind_step _ _ s nf s) by (by apply the_netif_run).
       rewrite (proj2 (Nat.ltb_lt _ _)) by done. by apply upd_netif_run. }
  rewrite (prog_bind_step _ _ s1 (group_fuel (gst s1)) s1) in H by done.
  apply prog_bind_Some in H as ([] & s2 & Hs & [= _ <-]).
  destruct (stop_loop_inv n (L !!! n) _ g0 s1 tt s2 Hl (sh_nodup _ _ H1 n) Hs) as (J1 & J2 & J3 & J4).
  change (gst s1) with (gst s) in J2, J4. change (groups s1) with (groups s) in J4.
  assert (Hrm : removed n (L !!! n) [] L s s2).
  { split.
    - done.
    - intros m Hm. rewrite J1. cbn. by rewrite lookup_insert_ne.
    - exists nf', 0. split; [rewrite J1; apply lookup_insert_eq|]. split; [by apply list_lookup_insert_eq | done].
    - intros z. rewrite elem_of_nil. tauto.
    - split; [constructor | by intros z Hz%elem_of_nil].
    - done.
    - done.
    - intros z Hz. specialize (J4 z Hz). rewrite (sh_systems _ _ H1) in J4.
      destruct J4 as [g g' (E1 & E2 & E3 & E4)|]; constructor. split; [done|]. split; [done|]. by apply E4.
    - intros m z Hm Hz. assert (HzL : (z ∉ L !!! n)) by (intros Hz'; by apply Hm, (sh_disjoint _ _ H1 m n z)).
      destruct (J4 z HzL) as [g g' (E1 & E2 & E3 & _)|]; [|done]. cbn. unfold core. by rewrite E1, E2, E3. }
  split; [by apply (removed_shape n (L !!! n) [] L s s2 nf) | |].
  - intros z g Hg _. destruct (removed_lookup _ _ _ _ _ _ _ _ Hrm Hg) as (_ & g1 & Hg1 & _ & _ & Hok). by apply Hok, (H2 z).
  - apply (removed_represents n (L !!! n) [] L s s2 M); [done | done | |].
    + intros m b u. unfold stopped. rewrite map_lookup_filter_Some. cbn [fst]. split; intros [Hd Hn]; (split; [done|]).
      * by intros [-> _].
      * intros ->. apply Hn. split; [done|]. apply H3 in Hd as (z & g & Hz & Hg & E & _). by exists z, g.
    + intros z w g h. apply (sh_unique _ _ H1 n).
Qed.
End steps.
