(* ===== verification/IgmpProps.v ===== *)
(** * Group membership as a whole

    Sequences of calls of igmp.c implement the counting of memberships; a
    query schedules the reports. *)

From stdpp Require Import base numbers list gmap option relations.
From S2P Require Import Prelude Mem Memp Pbuf Chksum Ip4Addr Etharp LinkedList Netifs NetifProps Ip4 Ip4Props Igmp IgmpInv IgmpLists IgmpSteps.

(** What a caller sees, and what it means for the memberships. *)
Inductive member_event :=
  | Start (n r : Z)
  | Stop (n : Z)
  | Join (n a r : Z)
  | Leave (n a r : Z)
  | JoinAll (a : Z)
  | LeaveAll (a : Z)
  | Other.

Definition member_spec (e : member_event) (M M' : memberships) : Prop :=
  match e with
  | Start n r => M' = if r =? ERR_OK then joined n allsystems M else M
  | Stop n => M' = stopped n M
  | Join n a r => M' = if r =? ERR_OK then joined n a M else M
  | Leave n a r => M' = if r =? ERR_OK then left n a M else M
  | JoinAll a => rtc (λ M M', ∃ n, M' = joined n a M) M M'
  | LeaveAll a => rtc (λ M M', ∃ n, M' = left n a M) M M'
  | Other => M' = M
  end.
Inductive member_specs : list member_event → memberships → memberships → Prop :=
  | specs_nil M : member_specs [] M M
  | specs_snoc es e M M' M'' : member_specs es M M' → member_spec e M' M'' → member_specs (es ++ [e]) M M''.

Section igmp.
  Context {W : Type} `{!HasIgmp W}.
  Context (netif_output : Z → Z → Z → prog (istate W) Z).
  Context (call_mac_filter : Z → Z → Z → Z → prog (istate W) unit).
  Context (LWIP_RAND : prog (istate W) Z).
  Context (ra : Z).
  Implicit Types (s : istate W) (L : lists) (M : memberships).

Abbreviation join_netif := (igmp_joingroup_netif netif_output call_mac_filter LWIP_RAND ra).
Abbreviation leave_netif := (igmp_leavegroup_netif netif_output call_mac_filter ra).

(** The first group of an interface. *)
Definition igmp_head s (n : Z) : option Z :=
  nf ← as_netifs s !! n; nf_client_data nf !! LWIP_NETIF_CLIENT_DATA_INDEX_IGMP.
(** [igmp_start] was successful on the interface. *)
Definition running s (n : Z) : Prop := ∃ g, igmp_head s n = Some g ∧ g ≠ 0.
(** The groups are left alone; new interfaces come without groups. *)
Definition elsewhere s s' : Prop :=
  gst s' = gst s ∧
  (∀ n nf, as_netifs s' !! n = Some nf →
     ∃ g, igmp_head s' n = Some g ∧ (igmp_head s n = Some g ∨ as_netifs s !! n = None ∧ g = 0)) ∧
  (∀ n, is_Some (as_netifs s !! n) → is_Some (as_netifs s' !! n)).

Definition some_join (a : Z) s s' : Prop := ∃ n r, join_netif n a s = Some (r, s').
Definition some_leave (a : Z) s s' : Prop := ∃ n r, leave_netif n a s = Some (r, s').

(** The calls.  Groups are joined on interfaces that igmp is running on, and
    the pool of groups does not hand out a group in use. *)
Inductive igmp_step : member_event → istate W → istate W → Prop :=
  | step_start s n r s' : fresh s → igmp_start call_mac_filter n s = Some (r, s') → igmp_step (Start n r) s s'
  | step_stop s n r s' : igmp_stop call_mac_filter n s = Some (r, s') → igmp_step (Stop n) s s'
  | step_join s n a r s' : fresh s → running s n → join_netif n a s = Some (r, s') → igmp_step (Join n a r) s s'
  | step_leave s n a r s' : leave_netif n a s = Some (r, s') → igmp_step (Leave n a r) s s'
  | step_joingroup s ifaddr a r s' :
      (∀ t, rtc (some_join a) s t → fresh t ∧ ∀ n, is_Some (as_netifs t !! n) → running t n) →
      igmp_joingroup netif_output call_mac_filter LWIP_RAND ra ifaddr a s = Some (r, s') →
      igmp_step (JoinAll a) s s'
  | step_leavegroup s ifaddr a r s' :
      igmp_leavegroup netif_output call_mac_filter ra ifaddr a s = Some (r, s') → igmp_step (LeaveAll a) s s'
  | step_report_groups s n s' : igmp_report_groups LWIP_RAND n s = Some (tt, s') → igmp_step Other s s'
  | step_igmp_input s p n dest s' : igmp_input LWIP_RAND p n dest s = Some (tt, s') → igmp_step Other s s'
  | step_igmp_tmr s s' : igmp_tmr netif_output ra s = Some (tt, s') → igmp_step Other s s'
  | step_elsewhere s s' : elsewhere s s' → igmp_step Other s s'.
Inductive igmp_steps : list member_event → istate W → istate W → Prop :=
  | isteps_nil s : igmp_steps [] s s
  | isteps_snoc es e s1 s2 s3 : igmp_steps es s1 s2 → igmp_step e s2 s3 → igmp_steps (es ++ [e]) s1 s3.

Lemma the_netif_inv n s nf s' : the_netif n s = Some (nf, s') → as_netifs s !! n = Some nf ∧ s' = s.
Proof. unfold the_netif. destruct (as_netifs s !! n); [|done]. by intros [= -> ->]. Qed.

(** Joining on all interfaces is joining on some, one after the other. *)
Lemma joingroup_joins ifaddr a s r s' :
  igmp_joingroup netif_output call_mac_filter LWIP_RAND ra ifaddr a s = Some (r, s') → rtc (some_join a) s s'.
Proof.
  assert (Hl : ∀ fuel err n s r s', join_loop netif_output call_mac_filter LWIP_RAND ra fuel ifaddr a err n s = Some (r, s') →
    rtc (some_join a) s s').
  { induction fuel as [|fuel IH]; intros err n t v t' H; [done|]. cbn [join_loop] in H.
    destruct (n =? 0); [injection H as _ <-; apply rtc_refl|].
    apply prog_bind_Some in H as (nf & t0 & H0 & H). apply the_netif_inv in H0 as [Hnf ->].
    apply prog_bind_Some in H as (e & t1 & H1 & H).
    assert (Ht1 : rtc (some_join a) t t1).
    { destruct (selected ifaddr nf); [|injection H1 as _ <-; apply rtc_refl]. apply rtc_once. by exists n, e. }
    destruct (_ && _); [injection H as _ <-; done|].
    apply prog_bind_Some in H as (nf' & t2 & H2 & H). apply the_netif_inv in H2 as [_ ->].
    etrans; [exact Ht1 | by apply IH in H]. }
  intros H. unfold igmp_joingroup in H. apply prog_bind_Some in H as (asys & s1 & [= _ <-] & H).
  destruct (negb _); [injection H as _ <-; apply rtc_refl|]. destruct (_ =? asys); [injection H as _ <-; apply rtc_refl|].
  apply prog_bind_Some in H as (f & s1 & [= _ <-] & H). apply prog_bind_Some in H as (l & s1 & [= _ <-] & H).
  by apply Hl in H.
Qed.

Lemma leavegroup_leaves ifaddr a s r s' :
  igmp_leavegroup netif_output call_mac_filter ra ifaddr a s = Some (r, s') → rtc (some_leave a) s s'.
Proof.
  assert (Hl : ∀ fuel err n s r s', leave_loop netif_output call_mac_filter ra fuel ifaddr a err n s = Some (r, s') →
    rtc (some_leave a) s s').
  { induction fuel as [|fuel IH]; intros err n t v t' H; [done|]. cbn [leave_loop] in H.
    destruct (n =? 0); [injection H as _ <-; apply rtc_refl|].
    apply prog_bind_Some in H as (nf & t0 & H0 & H). apply the_netif_inv in H0 as [Hnf ->].
    apply prog_bind_Some in H as (e & t1 & H1 & H).
    assert (Ht1 : rtc (some_leave a) t t1).
    { destruct (selected ifaddr nf); [|injection H1 as _ <-; apply rtc_refl].
      apply prog_bind_Some in H1 as (r1 & t3 & H1 & [= _ <-]). apply rtc_once. by exists n, r1. }
    apply prog_bind_Some in H as (nf' & t2 & H2 & H). apply the_netif_inv in H2 as [_ ->].
    etrans; [exact Ht1 | by apply IH in H]. }
  intros H. unfold igmp_leavegroup in H. apply prog_bind_Some in H as (asys & s1 & [= _ <-] & H).
  destruct (negb _); [injection H as _ <-; apply rtc_refl|]. destruct (_ =? asys); [injection H as _ <-; apply rtc_refl|].
  apply prog_bind_Some in H as (f & s1 & [= _ <-] & H). apply prog_bind_Some in H as (l & s1 & [= _ <-] & H).
  by apply Hl in H.
Qed.

Lemma running_nonempty L s n : shape L s → running s n → L !!! n ≠ [].
Proof.
  intros Hsh (g & Hg & Hg0) El. unfold igmp_head in Hg. destruct (as_netifs s !! n) as [nf|] eqn:Hnf; [|done].
  destruct (sh_list _ _ Hsh n nf Hnf) as (g0 & Hg1 & Hl). rewrite El in Hl. cbn in Hl. cbn in Hg. congruence.
Qed.

Lemma elsewhere_inv L M s s' : elsewhere s s' → groups_inv L M s → groups_inv L M s'.
Proof.
  intros (E & Hn & Hk) [[H1 H2 H3 H4 H5 H6 H7 H8 H9] F R].
  assert (Eg : groups s' = groups s) by (unfold groups; by rewrite E).
  split; [split; rewrite ?E, ?Eg; try done | |].
  - intros n nf' Hnf'. destruct (Hn n nf' Hnf') as (g & Hg & Hc). unfold igmp_head in Hg. rewrite Hnf' in Hg.
    exists g. split; [exact Hg|]. destruct Hc as [Hc|[Hc ->]].
    + unfold igmp_head in Hc. destruct (as_netifs s !! n) as [nf|] eqn:Hnf; [|done].
      destruct (H2 n nf Hnf) as (g0 & Hg0 & Hl). cbn in Hc. congruence.
    + destruct (L !!! n) as [|x l] eqn:El; [done|]. destruct (H3 n x) as [nf Hnf]; [rewrite El; left | congruence].
  - intros n x Hx. apply Hk, (H3 n x Hx).
  - intros x g Hg. rewrite Eg in Hg. by apply F.
  - intros n a u. rewrite Eg. apply R.
Qed.
End igmp.

Section refinement.
  Context {W : Type} `{!HasIgmp W}.
  Context (netif_output : Z → Z → Z → prog (istate W) Z).
  Context (call_mac_filter : Z → Z → Z → Z → prog (istate W) unit).
  Context (LWIP_RAND : prog (istate W) Z).
  Context (ra : Z).
  Implicit Types (s : istate W) (L : lists) (M : memberships).
  Context (Hout : ∀ n p a s r s', netif_output n p a s = Some (r, s') → quiet s s').
  Context (Hfilter : ∀ f n a k s u s', call_mac_filter f n a k s = Some (u, s') → quiet s s').
  Context (Hrand : ∀ s r s', LWIP_RAND s = Some (r, s') → quiet s s' ∧ 0 ≤ r).
  #[local] Set Default Proof Using "All".

(** ** One call *)

Lemma start_any L M s n r s' :
  groups_inv L M s → fresh s → igmp_start call_mac_filter n s = Some (r, s') →
  ∃ L', groups_inv L' (if r =? ERR_OK then joined n allsystems M else M) s'.
Proof.
  intros Hi Hfr H. destruct (as_netifs s !! n) as [nf|] eqn:Hnf.
  - destruct (start_ok netif_output call_mac_filter LWIP_RAND ra Hout Hfilter Hrand L M s n nf r s' Hi Hfr Hnf H)
      as (L' & _ & _ & Hi'). by exists L'.
  - unfold igmp_start, igmp_lookup_group, netif_igmp_data in H. apply prog_bind_Some in H as (a & s1 & [= _ <-] & H).
    apply prog_bind_Some in H as (x & s1 & H & _). do 2 apply prog_bind_Some in H as (? & ? & H & _).
    apply the_netif_inv in H as [H _]. congruence.
Qed.

Lemma stop_any L M s n r s' :
  groups_inv L M s → igmp_stop call_mac_filter n s = Some (r, s') → ∃ L', groups_inv L' (stopped n M) s'.
Proof.
  intros Hi H. destruct (as_netifs s !! n) as [nf|] eqn:Hnf.
  - exists (<[n := []]> L). by apply (stop_ok netif_output call_mac_filter LWIP_RAND ra Hout Hfilter Hrand L M s n nf r s').
  - unfold igmp_stop, netif_igmp_data in H. do 2 apply prog_bind_Some in H as (? & ? & H & _).
    apply the_netif_inv in H as [H _]. congruence.
Qed.

Lemma join_any L M s n a r s' :
  groups_inv L M s → fresh s → (is_Some (as_netifs s !! n) → running s n) →
  igmp_joingroup_netif netif_output call_mac_filter LWIP_RAND ra n a s = Some (r, s') →
  ∃ L', groups_inv L' (if r =? ERR_OK then joined n a M else M) s'.
Proof.
  intros Hi Hfr Hrun H. destruct (as_netifs s !! n) as [nf|] eqn:Hnf.
  - destruct (join_netif_ok netif_output call_mac_filter LWIP_RAND ra Hout Hfilter Hrand L M s n nf a r s' Hi Hfr Hnf)
      as (L' & _ & Hi'); [|done | by exists L'].
    apply (running_nonempty L s n (gi_shape _ _ _ Hi)). by apply Hrun.
  - unfold igmp_joingroup_netif in H. apply prog_bind_Some in H as (asys & s1 & [= _ <-] & H).
    destruct (negb _); [injection H as <- <-; by exists L|]. destruct (a =? asys); [injection H as <- <-; by exists L|].
    apply prog_bind_Some in H as (? & ? & H & _). apply the_netif_inv in H as [H _]. congruence.
Qed.

Lemma leave_any L M s n a r s' :
  groups_inv L M s → igmp_leavegroup_netif netif_output call_mac_filter ra n a s = Some (r, s') →
  ∃ L', groups_inv L' (if r =? ERR_OK then left n a M else M) s'.
Proof.
  intros Hi H. destruct (as_netifs s !! n) as [nf|] eqn:Hnf.
  - destruct (leave_netif_ok netif_output call_mac_filter LWIP_RAND ra Hout Hfilter Hrand L M s n nf a r s' Hi Hnf H)
      as (L' & _ & Hi'). by exists L'.
  - unfold igmp_leavegroup_netif in H. apply prog_bind_Some in H as (asys & s1 & [= _ <-] & H).
    destruct (negb _); [injection H as <- <-; by exists L|]. destruct (a =? asys); [injection H as <- <-; by exists L|].
    apply prog_bind_Some in H as (? & ? & H & _). apply the_netif_inv in H as [H _]. congruence.
Qed.

Lemma joins_all a s s' :
  rtc (some_join netif_output call_mac_filter LWIP_RAND ra a) s s' → ∀ L M, groups_inv L M s →
  (∀ t, rtc (some_join netif_output call_mac_filter LWIP_RAND ra a) s t →
     fresh t ∧ ∀ n, is_Some (as_netifs t !! n) → running t n) →
  ∃ L' M', groups_inv L' M' s' ∧ rtc (λ M M', ∃ n, M' = joined n a M) M M'.
Proof.
  induction 1 as [s|s t s' (n & r & Hst) Hr IH]; intros L M Hi Hg; [exists L, M; split; [done | apply rtc_refl]|].
  destruct (Hg s (rtc_refl _ _)) as [Hfr Hrun]. destruct (join_any L M s n a r t Hi Hfr (Hrun n) Hst) as (L1 & Hi1).
  destruct (IH _ _ Hi1) as (L' & M' & Hi' & HM).
  { intros u Hu. apply Hg. eapply rtc_l; [by exists n, r | done]. }
  exists L', M'. split; [done|]. destruct (r =? ERR_OK); [eapply rtc_l; [by exists n | done] | done].
Qed.

Lemma leaves_all a s s' :
  rtc (some_leave netif_output call_mac_filter ra a) s s' → ∀ L M, groups_inv L M s →
  ∃ L' M', groups_inv L' M' s' ∧ rtc (λ M M', ∃ n, M' = left n a M) M M'.
Proof.
  induction 1 as [s|s t s' (n & r & Hst) Hr IH]; intros L M Hi; [exists L, M; split; [done | apply rtc_refl]|].
  destruct (leave_any L M s n a r t Hi Hst) as (L1 & Hi1). destruct (IH _ _ Hi1) as (L' & M' & Hi' & HM).
  exists L', M'. split; [done|]. destruct (r =? ERR_OK); [eapply rtc_l; [by exists n | done] | done].
Qed.

Lemma igmp_step_ok L M e s s' :
  groups_inv L M s → igmp_step netif_output call_mac_filter LWIP_RAND ra e s s' →
  ∃ L' M', groups_inv L' M' s' ∧ member_spec e M M'.
Proof.
  assert (Hk : ∀ s s', kept None s s' → groups_inv L M s → ∃ L' M', groups_inv L' M' s' ∧ member_spec Other M M').
  { intros t t' Hk Hi. exists L, M. split; [by apply (inv_kept netif_output call_mac_filter LWIP_RAND ra Hout Hfilter Hrand L M t) | done]. }
  intros Hi. destruct 1 as [s n r s' Hfr H|s n r s' H|s n a r s' Hfr Hrun H|s n a r s' H|s i a r s' Hg H|s i a r s' H
    |s n s' H|s p n d s' H|s s' H|s s' H].
  - destruct (start_any L M s n r s' Hi Hfr H) as (L' & Hi'). by exists L', (if r =? ERR_OK then joined n allsystems M else M).
  - destruct (stop_any L M s n r s' Hi H) as (L' & Hi'). by exists L', (stopped n M).
  - destruct (join_any L M s n a r s' Hi Hfr (λ _, Hrun) H) as (L' & Hi'). by eexists L', _.
  - destruct (leave_any L M s n a r s' Hi H) as (L' & Hi'). by eexists L', _.
  - apply joingroup_joins in H. by apply (joins_all a s s' H L M Hi).
  - apply leavegroup_leaves in H. by apply (leaves_all a s s' H L M Hi).
  - apply (Hk s); [|done]. eapply (kept_report_groups netif_output call_mac_filter LWIP_RAND ra Hout Hfilter Hrand); [exact H | apply kept_refl].
  - apply (Hk s); [|done]. eapply (kept_input netif_output call_mac_filter LWIP_RAND ra Hout Hfilter Hrand); [exact H | apply kept_refl].
  - apply (Hk s); [|done]. eapply (kept_tmr netif_output call_mac_filter LWIP_RAND ra Hout Hfilter Hrand); [exact H | apply kept_refl].
  - exists L, M. split; [by apply (elsewhere_inv L M s) | done].
Qed.

(** Before the first call. *)
Record igmp_initial s : Prop := {
  in_groups : groups s = ∅;
  in_systems : gs_allsystems (gst s) = allsystems;
  in_netifs : ∀ n nf, as_netifs s !! n = Some nf → igmp_head s n = Some 0
}.

Lemma initial_inv s : igmp_initial s → groups_inv ∅ ∅ s.
Proof.
  intros [Hg Ha Hn]. assert (HL : ∀ n, (∅ : lists) !!! n = []) by (intros; by rewrite lookup_total_alt, lookup_empty).
  assert (HG : ∀ x, groups s !! x = None) by (intros; by rewrite Hg, lookup_empty).
  assert (HI : ∀ n (x : Z), (x ∉ (∅ : lists) !!! n)) by (intros n x; rewrite HL; apply not_elem_of_nil).
  split; [split | |]; try done; try (intros *; rewrite ?HG; done); try (intros *; intros Hx; by destruct (HI _ _ Hx)).
  - intros n nf Hnf. specialize (Hn n nf Hnf). unfold igmp_head in Hn. rewrite Hnf in Hn. exists 0. by rewrite HL.
  - intros n. rewrite HL. constructor.
  - intros x g. by rewrite HG.
  - intros n a u. rewrite lookup_empty. split; [done|]. intros (x & g & Hx & _). by destruct (HI _ _ Hx).
Qed.

Lemma igmp_steps_ok es s0 s L M0 :
  igmp_steps netif_output call_mac_filter LWIP_RAND ra es s0 s → groups_inv L M0 s0 →
  ∃ L' M, groups_inv L' M s ∧ member_specs es M0 M.
Proof.
  induction 1 as [s|es e s1 s2 s3 _ IH Hst]; intros Hi; [exists L, M0; split; [done | constructor]|].
  destruct (IH Hi) as (L1 & M1 & Hi1 & HM1). destruct (igmp_step_ok L1 M1 e s2 s3 Hi1 Hst) as (L2 & M2 & Hi2 & HM2).
  exists L2, M2. split; [done|]. by eapply specs_snoc.
Qed.
End refinement.

