(* ===== verification/IgmpQuery.v ===== *)
(** * Queries

    A general query leaves a report of every group but the first one due
    within the response time that it asks for. *)

From stdpp Require Import base numbers list gmap option relations.
From S2P Require Import Prelude Mem Memp Pbuf Chksum Ip4Addr Etharp LinkedList Netifs NetifProps Ip4 Ip4Props Igmp IgmpInv IgmpLists IgmpSteps.

Lemma read_byte {W} a b (t : istate W) :
  ps_bytes (as_packets t) !! a = Some b → byte_ok b →
  (x ← peek a 1; mret (u8 (of_le x))) t = Some (b, t).
Proof.
  intros Hb Hok. rewrite (prog_bind_step _ _ t [b] t).
  - unfold of_le, u8. cbn [foldr]. replace (b + 256 * 0) with b by lia. by rewrite Z.mod_small.
  - unfold peek, packets. cbn. rewrite Hb. by destruct t.
Qed.

Section query.
  Context {W : Type} `{!HasIgmp W}.
  Context (LWIP_RAND : prog (istate W) Z).
  Implicit Types (s : istate W) (L : lists) (M : memberships).

  (** [rand] returns a number that is not negative and leaves packets,
      groups and interfaces alone. *)
  Context (Hrand : ∀ s, ∃ r s', LWIP_RAND s = Some (r, s') ∧ 0 ≤ r ∧ quiet s s' ∧ as_packets s' = as_packets s).
  #[local] Set Default Proof Using "Hrand".

(** A report of the group is due in [v] ticks. *)
Definition due (v : Z) (g : igmp_group) : igmp_group :=
  with_ig_state IGMP_GROUP_DELAYING_MEMBER (with_timer v g).

(** The group [x] has become [g]. *)
Record regrouped (x : Z) (g : igmp_group) s s' : Prop := {
  rg_netifs : as_netifs s' = as_netifs s;
  rg_packets : as_packets s' = as_packets s;
  rg_groups : gst s' = set_groups (<[x := g]> (groups s)) (gst s)
}.

Lemma regrouped_lookup x g s s' y :
  regrouped x g s s' → groups s' !! y = if decide (y = x) then Some g else groups s !! y.
Proof.
  intros [_ _ E]. unfold groups at 1. rewrite E. cbn [gs_groups set_groups].
  destruct (decide (y = x)) as [->|Hne]; [apply lookup_insert_eq | by apply lookup_insert_ne].
Qed.

Lemma upd_regrouped x f g s :
  groups s !! x = Some g → ∃ s', upd_group x f s = Some (tt, s') ∧ regrouped x (f g) s s'.
Proof. intros Hg. rewrite (upd_group_run x f g s Hg). eexists. split; [done|]. split; [done | done | apply gst_with]. Qed.

Lemma regrouped_trans x g g' s s1 s2 : regrouped x g s s1 → regrouped x g' s1 s2 → regrouped x g' s s2.
Proof.
  intros [H1 H2 H3] [K1 K2 K3]. split; [congruence | congruence |]. rewrite K3. unfold groups. rewrite H3.
  cbn [gs_groups set_groups gs_allsystems gs_allrouters]. unfold set_groups. cbn. by rewrite insert_insert_eq.
Qed.

Lemma start_timer_run x t g s :
  groups s !! x = Some g → t < 65536 →
  ∃ s' v, igmp_start_timer LWIP_RAND x t s = Some (tt, s') ∧ 0 < v ≤ Z.max 1 t ∧ regrouped x (with_timer v g) s s'.
Proof.
  intros Hg Ht. unfold igmp_start_timer.
  assert (H1 : ∃ v s1, (if 2 <? t then r ← LWIP_RAND; mret (r mod t) else mret 1) s = Some (v, s1) ∧
    0 ≤ v ≤ Z.max 1 t ∧ quiet s s1 ∧ as_packets s1 = as_packets s).
  { destruct (Z.ltb_spec 2 t) as [H2|H2].
    - destruct (Hrand s) as (r & s1 & Er & Hr & Hq & Hp). exists (r mod t), s1.
      rewrite (prog_bind_step _ _ _ _ _ Er). pose proof (Z.mod_pos_bound r t ltac:(lia)). split; [done|]. split; [lia | done].
    - exists 1, s. split; [done|]. split; [lia|]. by repeat split. }
  destruct H1 as (v & s1 & E1 & Hv & (Q1 & _ & Q3) & Hp). rewrite (prog_bind_step _ _ _ _ _ E1).
  assert (Hg1 : groups s1 !! x = Some g) by (unfold groups; by rewrite Q3).
  destruct (upd_regrouped x (with_timer (u16 v)) g s1 Hg1) as (s2 & E2 & R2). rewrite (prog_bind_step _ _ _ _ _ E2).
  replace (u16 v) with v in * by (unfold u16; rewrite Z.mod_small; lia).
  assert (R : ∀ k s3, regrouped x k s1 s3 → regrouped x k s s3).
  { intros k s3 [K1 K2 K3]. split; [congruence | congruence |]. rewrite K3. unfold groups. by rewrite Q3. }
  assert (Hg2 : groups s2 !! x = Some (with_timer v g)) by (by rewrite (regrouped_lookup _ _ _ _ _ R2), decide_True).
  rewrite (prog_bind_step _ _ _ _ _ (the_group_run x _ s2 Hg2)). cbn [ig_timer with_timer].
  destruct (Z.eqb_spec v 0) as [Ev|Ev]; cbn [when].
  - destruct (upd_regrouped x (with_timer 1) _ s2 Hg2) as (s3 & E3 & R3). exists s3, 1. split; [exact E3|]. split; [lia|].
    apply R. by apply (regrouped_trans x _ _ s1 s2 s3 R2).
  - exists s2, v. split; [done|]. split; [lia | by apply R].
Qed.

Lemma delaying_run x r g s asys :
  groups s !! x = Some g → group_ok asys g → ig_address g ≠ asys → r < 65536 →
  ∃ s' v, igmp_delaying_member LWIP_RAND x r s = Some (tt, s') ∧ 0 < v ≤ Z.max 1 r ∧ regrouped x (due v g) s s'.
Proof.
  intros Hg [K1 K2 K3] Ha Hr. specialize (K3 Ha). unfold igmp_delaying_member.
  rewrite (prog_bind_step _ _ _ _ _ (the_group_run x g s Hg)). destruct (_ || _) eqn:Ec; cbn [when].
  - destruct (start_timer_run x r g s Hg Hr) as (s1 & v & E1 & Hv & R1). rewrite (prog_bind_step _ _ _ _ _ E1).
    assert (Hg1 : groups s1 !! x = Some (with_timer v g)) by (by rewrite (regrouped_lookup _ _ _ _ _ R1), decide_True).
    destruct (upd_regrouped x (with_ig_state IGMP_GROUP_DELAYING_MEMBER) _ s1 Hg1) as (s2 & E2 & R2).
    exists s2, v. split; [exact E2|]. split; [lia|]. by apply (regrouped_trans x _ _ s s1 s2 R1).
  - apply orb_false_elim in Ec as [E1 E2]. apply bool_decide_eq_false in E1.
    assert (Est : ig_state g = IGMP_GROUP_DELAYING_MEMBER) by (by destruct (ig_state g)).
    rewrite bool_decide_true in E2 by done. cbn [andb] in E2. apply orb_false_elim in E2 as [E2 E3].
    apply Z.eqb_neq in E2. apply Z.ltb_ge in E3. exists s, (ig_timer g). split; [done|]. split; [lia|].
    split; [done | done|]. assert (Eg : due (ig_timer g) g = g) by (unfold due; destruct g; cbn in *; by subst).
    rewrite Eg. rewrite insert_id by done. unfold groups, set_groups. by destruct (gst s).
Qed.

(** All groups of [l] have a report due within [r], the others are as
    before. *)
Record all_due (r : Z) (l : list Z) s s' : Prop := {
  du_netifs : as_netifs s' = as_netifs s;
  du_packets : as_packets s' = as_packets s;
  du_systems : gs_allsystems (gst s') = gs_allsystems (gst s);
  du_members : ∀ x g, x ∈ l → groups s !! x = Some g → ∃ v, groups s' !! x = Some (due v g) ∧ 0 < v ≤ Z.max 1 r;
  du_others : ∀ x, (x ∉ l) → groups s' !! x = groups s !! x
}.

Lemma all_due_nil r s : all_due r [] s s.
Proof. split; try done. by intros x g Hx%elem_of_nil. Qed.

Lemma all_due_cons r x g v l s s1 s2 :
  groups s !! x = Some g → 0 < v ≤ Z.max 1 r → (x ∉ l) → regrouped x (due v g) s s1 → all_due r l s1 s2 →
  all_due r (x :: l) s s2.
Proof.
  intros Hg Hv Hx R [D1 D2 D3 D4 D5]. pose proof R as [R1 R2 R3]. split; [congruence | congruence | by rewrite D3, R3 | |].
  - intros y h Hy Hh. destruct (decide (y = x)) as [->|Hne].
    + rewrite Hg in Hh. injection Hh as <-. exists v. split; [|done].
      by rewrite D5, (regrouped_lookup _ _ _ _ _ R), decide_True.
    + apply elem_of_cons in Hy as [->|Hy]; [done|]. apply D4; [done|].
      by rewrite (regrouped_lookup _ _ _ _ _ R), decide_False.
  - intros y Hy. apply not_elem_of_cons in Hy as [Hne Hy].
    by rewrite D5, (regrouped_lookup _ _ _ _ _ R), decide_False.
Qed.

Lemma delaying_loop_run r c asys q :
  r < 65536 → (∀ t, as_packets t = q → c t = Some (r, t)) → ∀ l fuel p s,
  as_packets s = q → llist ig_next (groups s) p l → NoDup l → (length l < fuel)%nat →
  (∀ x g, x ∈ l → groups s !! x = Some g → group_ok asys g ∧ ig_address g ≠ asys) →
  ∃ s', delaying_loop LWIP_RAND fuel c p s = Some (tt, s') ∧ all_due r l s s'.
Proof.
  intros Hr Hc. induction l as [|y l IH]; intros [|fuel] p s Hq Hl Hnd Hf Hok; cbn [length] in Hf; try lia; cbn [delaying_loop].
  - cbn in Hl. subst p. exists s. split; [done | apply all_due_nil].
  - destruct Hl as (-> & Hy0 & g & Hg & Hl). rewrite (proj2 (Z.eqb_neq y 0)) by done.
    rewrite (prog_bind_step _ _ _ _ _ (Hc s Hq)). apply list.NoDup_cons in Hnd as [Hy Hnd].
    destruct (Hok y g) as [Hk Ha]; [left | done |].
    destruct (delaying_run y r g s asys Hg Hk Ha Hr) as (s1 & v & E1 & Hv & R1). rewrite (prog_bind_step _ _ _ _ _ E1).
    pose proof (λ z, regrouped_lookup _ _ _ _ z R1) as Lk.
    rewrite (prog_bind_step _ _ s1 (due v g) s1) by (apply the_group_run; by rewrite Lk, decide_True).
    destruct (IH fuel (ig_next g) s1) as (s2 & E2 & D2); [by rewrite (rg_packets _ _ _ _ R1) | | done | lia | |].
    + apply (llist_frame _ _ _ _ Hl). intros z k Hz Hk'. exists k. rewrite Lk, decide_False by congruence. done.
    + intros z k Hz. rewrite Lk, decide_False by congruence. apply Hok. by right.
    + exists s2. split; [exact E2|]. by apply (all_due_cons r y g v l s s1 s2).
Qed.

(** All groups but the first one. *)
Lemma delaying_members_run L M s n nf h l r c :
  groups_inv L M s → as_netifs s !! n = Some nf → L !!! n = h :: l → r < 65536 →
  (∀ t, as_packets t = as_packets s → c t = Some (r, t)) →
  ∃ s', delaying_members LWIP_RAND n c s = Some (tt, s') ∧ all_due r l s s'.
Proof.
  intros [Hsh Hf _] Hnf El Hr Hc. destruct (sh_list _ _ Hsh n nf Hnf) as (g0 & Hg0 & Hl).
  pose proof (sh_nodup _ _ Hsh n) as Hnd. pose proof (llist_length _ _ _ Hl Hnd) as Hlen.
  destruct (shape_group L s n h Hsh) as (gh & Hgh); [rewrite El; left|].
  pose proof (sh_head _ _ Hsh n h l gh El Hgh) as Hgha. assert (Hall := λ x y, sh_unique _ _ Hsh n x y).
  rewrite El in *. destruct Hl as (-> & Hh0 & v & Hv & Hl). rewrite Hgh in Hv. injection Hv as <-.
  apply list.NoDup_cons in Hnd as [Hh Hnd]. unfold delaying_members.
  rewrite (prog_bind_step _ _ s h s).
  2: { unfold netif_igmp_data. rewrite (prog_bind_step _ _ s nf s) by (by apply the_netif_run). by rewrite Hg0. }
  rewrite (proj2 (Z.eqb_neq h 0)) by done. rewrite (prog_bind_step _ _ s (ig_next gh) s).
  2: { by rewrite (prog_bind_step _ _ _ _ _ (the_group_run h gh s Hgh)). }
  rewrite (prog_bind_step _ _ s (group_fuel (gst s)) s) by done.
  apply (delaying_loop_run r c allsystems (as_packets s)); try done.
  - cbn in Hlen. unfold group_fuel, groups in *. lia.
  - intros x g Hx Hg. split; [by apply (Hf x)|]. intros Ha. apply Hh. rewrite (Hall h x gh g); try done.
    + left.
    + by right.
    + congruence.
Qed.
End query.

(** C35: A received general query leaves every group of the interface but the
    all-systems group with a report due within the response time that
    the query gives (one second for a query of version 1, and at least one
    tick): the function returns, each of their timers is set and no later than that, and nothing
    else of the groups changes. *)
Theorem igmp_query_schedules {W : Type} `{!HasIgmp W} (LWIP_RAND : prog (istate W) Z) L M (s : istate W) n h l igmp r group :
  (∀ s, ∃ r s', LWIP_RAND s = Some (r, s') ∧ 0 ≤ r ∧ quiet s s' ∧ as_packets s' = as_packets s) →
  groups_inv L M s → is_Some (as_netifs s !! n) → L !!! n = h :: l →
  load_bytes (ps_bytes (as_packets s)) (igmp + 1) 1 = Some [r] → byte_ok r →
  load_bytes (ps_bytes (as_packets s)) (igmp + 4) 4 = Some [0; 0; 0; 0] →
  ∃ s', query_input LWIP_RAND igmp n group allsystems s = Some (tt, s') ∧
    (∀ x g, x ∈ l → groups s !! x = Some g → ∃ v, groups s' !! x = Some (due v g) ∧
       0 < v ≤ Z.max 1 (if r =? 0 then IGMP_V1_DELAYING_MEMBER_TMR else r)) ∧
    (∀ x, (x ∉ l) → groups s' !! x = groups s !! x).
Proof.
  intros Hrand Hi [nf Hnf] El Hr Hok Ha. unfold query_input.
  rewrite (prog_bind_step _ _ s allsystems s) by (rewrite <- (sh_systems _ _ (gi_shape _ _ _ Hi)); done).
  rewrite (prog_bind_step _ _ s [0; 0; 0; 0] s) by (unfold peek, packets; rewrite Ha; by destruct s).
  rewrite Z.eqb_refl. cbn [andb of_le foldr]. replace (ip4_addr_isany _) with true by done. cbv zeta. cbn [andb].
  assert (Hb : ps_bytes (as_packets s) !! (igmp + 1) = Some r) by (cbn [load_bytes] in Hr; destruct (ps_bytes (as_packets s) !! (igmp + 1)); [congruence | done]).
  rewrite (prog_bind_step _ _ s r s) by (by apply read_byte).
  set (r' := if r =? 0 then _ else r).
  assert (Hp : ∃ s1, when (r =? 0) (poke (igmp + 1) [IGMP_V1_DELAYING_MEMBER_TMR]) s = Some (tt, s1) ∧
    (∃ q, s1 = set_packets q s) ∧ ps_bytes (as_packets s1) !! (igmp + 1) = Some r' ∧ byte_ok r').
  { unfold r'. destruct (Z.eqb_spec r 0) as [E|E]; cbn [when].
    - unfold poke, packets. cbn [store_bytes]. rewrite Hb. eexists. split; [done|]. split; [by eexists|].
      split; [apply lookup_insert_eq | by vm_compute].
    - exists s. split; [done|]. split; [|done]. exists (as_packets s). by destruct s. }
  destruct Hp as (s1 & E1 & [q ->] & Hb1 & Hok1). rewrite (prog_bind_step _ _ _ _ _ E1).
  destruct (delaying_members_run LWIP_RAND Hrand L M (set_packets q s) n nf h l r' (x ← peek (igmp + 1) 1; mret (u8 (of_le x))))
    as (s2 & E2 & [D1 D2 D3 D4 D5]); try done.
  - destruct Hi as [H1 H2 H3]. by destruct H1; split; [split | |].
  - unfold byte_ok in Hok1. lia.
  - intros t Ht. apply read_byte; [by rewrite Ht | done].
  - exists s2. by split.
Qed.
