(* ===== verification/Multicast.v ===== *)
(** * Multicast packets

    The IP layer with the group code: [ip4_input] asks igmp.c whether the
    interface is a member of the group, and gives it the messages of routers
    and other hosts. *)

From stdpp Require Import base numbers list gmap option relations.
From S2P Require Import Prelude Mem Memp Pbuf PbufLemmas PbufOps Chksum Ip4Addr Etharp LinkedList Netifs NetifProps Ip4 Ip4Props Igmp IgmpInv IgmpLists IgmpSteps.

Section multicast.
  Context {W : Type} `{!HasIgmp W}.
  Context (udp_input tcp_input icmp_input : Z → Z → prog (istate W) unit).
  Context (icmp_dest_unreach : Z → Z → prog (istate W) unit).
  Context (LWIP_RAND : prog (istate W) Z).
  Implicit Types (s : istate W) (L : lists) (M : memberships).
  #[local] Set Default Proof Using "Type".

(** The test [igmp_lookfor_group(inp, dest) != NULL] of [ip4_input]. *)
Definition is_member (n a : Z) : prog (istate W) bool := g ← igmp_lookfor_group n a; mret (negb (g =? 0)).
Definition group_ip4_input : Z → Z → prog (istate W) Z :=
  ip4_input udp_input tcp_input icmp_input (igmp_input LWIP_RAND) icmp_dest_unreach is_member.
Abbreviation group_protocol := (protocol_input udp_input tcp_input icmp_input (igmp_input LWIP_RAND)).

Lemma inv_data L M q g s : groups_inv L M s → groups_inv L M (with_data g (set_packets q s)).
Proof. intros [[] H2 H3]. by split; [split | |]. Qed.

Lemma is_member_run L M s n nf a :
  groups_inv L M s → as_netifs s !! n = Some nf → is_member n a s = Some (bool_decide (is_Some (M !! (n, a))), s).
Proof.
  intros [Hsh _ Hr] Hnf. destruct (lookfor_member L s M n nf a Hsh Hr Hnf) as (x & Ex & H1 & H2).
  unfold is_member. rewrite (prog_bind_step _ _ _ _ _ Ex). unfold mret, prog_ret. do 2 f_equal.
  destruct (Z.eqb_spec x 0) as [Hx|Hx]; cbn [negb]; symmetry.
  - apply bool_decide_eq_false. rewrite (H2 Hx). by intros [].
  - apply bool_decide_eq_true. destruct (H1 Hx) as (g & _ & _ & _ & ->). done.
Qed.

(** The packet is for the interface if that is a member. *)
Lemma multicast_target L M s n nf dest src q g :
  groups_inv L M s → as_netifs s !! n = Some nf → has_flag nf NETIF_FLAG_IGMP = true → ip4_addr_ismulticast dest = true →
  target_like is_member n dest src (λ r _, r = if bool_decide (is_Some (M !! (n, dest))) then n else 0)
    (with_data g (set_packets q s)).
Proof.
  intros Hi Hnf Hfl Hm. unfold target_like, ip4_target. rewrite Hm.
  rewrite (prog_bind_step _ _ _ nf _ (the_netif_run n nf (with_data g (set_packets q s)) Hnf)), Hfl.
  rewrite (prog_bind_step _ _ _ _ _ (is_member_run L M _ n nf dest (inv_data L M q g s Hi) Hnf)).
  destruct (bool_decide _); eexists _, _; split; reflexivity.
Qed.

(** C34: The IP layer with the group code gives a multicast packet to its protocol exactly if
    the receiving interface has joined the group: then it is handed over like a packet
    for an own address, and a packet for a group that was not joined, unless it is a DHCP message, is freed. *)
Theorem multicast_for_members L M s p inp b l d nf :
  groups_inv L M s → good_header s p b l d → p + SIZEOF_STRUCT_PBUF ≤ pb_payload b →
  as_netifs s !! inp = Some nf → inp ≠ 0 → has_flag nf NETIF_FLAG_IGMP = true →
  ip4_addr_ismulticast (hdr_dest d) = true → hdr_fragment d = false → supported (hdr_proto d) →
  bad_source nf (hdr_src d) = false →
  let payload := take (Z.to_nat (hdr_len d)) d in
  (is_Some (M !! (inp, hdr_dest d)) →
     ∃ s' b' l', chain_at (as_packets s') p ((p, b') :: l') (drop (Z.to_nat (hdr_hlen d)) payload) ∧
       is_data (as_link s') = IpGlobals inp inp (pb_payload b) (hdr_hlen d) (hdr_src d) (hdr_dest d) ∧
       groups_inv L M s' ∧
       group_ip4_input p inp s = (group_protocol (hdr_proto d) p inp (hdr_dest d) ;; finish) s') ∧
  (M !! (inp, hdr_dest d) = None → is_dhcp payload = false →
     ∃ s' b' l', chain_at (as_packets s') p ((p, b') :: l') payload ∧ groups_inv L M s' ∧
       group_ip4_input p inp s = drop_packet p s').
Proof.
  intros Hi Hgh Hpay Hnf Hi0 Hfl Hm Hfr Hsup Hbad payload.
  pose proof (λ q g, multicast_target L M s inp nf (hdr_dest d) (hdr_src d) q g Hi Hnf Hfl Hm) as HT. split.
  - intros Hmem. destruct (input_accepted udp_input tcp_input icmp_input (igmp_input LWIP_RAND) icmp_dest_unreach is_member
      s p inp b l d nf _ Hgh Hpay Hnf Hi0 Hfr Hsup HT) as (r & chk & -> & H).
    rewrite bool_decide_true in H by done. destruct H as (q' & b' & l' & Hc & _ & _ & _ & _ & E).
    { left. split; [done|]. rewrite Hbad. apply andb_false_r. }
    rewrite (proj2 (Z.eqb_neq inp 0)) in E by done.
    eexists _, b', l'. split; [|split; [|split; [|exact E]]]; [exact Hc | done | by apply inv_data].
  - intros Hno Hdh. destruct (input_target udp_input tcp_input icmp_input (igmp_input LWIP_RAND) icmp_dest_unreach is_member
      s p inp b l d nf _ Hgh Hnf HT) as (r & chk & q' & b' & l' & g & -> & Hc & _ & _ & _ & E).
    rewrite bool_decide_false in E by (rewrite Hno; by intros []). fold payload in Hc, E. cbv zeta in E.
    rewrite Hdh, Hbad, !andb_false_r in E. cbn in E.
    eexists _, b', l'. split; [|split; [|exact E]]; [exact Hc | by apply inv_data].
Qed.
End multicast.
