(* ===== verification/IgmpExamples.v ===== *)
(** * A host that joins a group

    The host 192.168.0.2 starts igmp on its interface, joins 224.1.2.3 twice
    and leaves it once; then a general query comes in. *)

From stdpp Require Import base numbers list gmap option relations.
From S2P Require Import Prelude Mem Memp Pbuf PbufLemmas PbufOps Chksum Ip4Addr Etharp LinkedList Netifs NetifProps Ip4 Ip4Props Ip4Output Ip4Examples Igmp IgmpInv IgmpLists IgmpSteps IgmpProps IgmpQuery Multicast.

#[export] Instance igmp_only : HasIgmp igmp_state := {
  igmp_of := id;
  with_igmp g _ := g;
  igmp_of_with _ _ := eq_refl;
  with_igmp_of _ := eq_refl;
  with_igmp_with _ _ _ := eq_refl
}.

(** The parameters: a driver that takes every frame and filters nothing. *)
Definition sent (n p a : Z) : prog (istate igmp_state) Z := mret ERR_OK.
Definition filtered (f n a k : Z) : prog (istate igmp_state) unit := mret tt.
Definition rand7 : prog (istate igmp_state) Z := mret 7.

Definition nfg : netif :=
  Netif (dotted 192 168 0 2) (dotted 255 255 255 0) (dotted 192 168 0 1) [2; 0; 0; 0; 0; 2] 0x2f 0 [101; 110] 0
    0 3 0 0 [0; 0] 1500.
Definition group_pool : pools :=
  Pools (replicate 8 (MempDesc 16 0 0) ++ [MempDesc 24 3 400]) (replicate 8 0 ++ [400])
    {[400 := 424; 424 := 448; 448 := 0]}.
(** Room at 100 for the option and for a query, and in the heap. *)
Definition member_mem : bmem :=
  list_to_map (zip (seqZ 100 40) (replicate 40 0) ++ zip (seqZ 536870912 400) (replicate 400 0)).
Definition quiet_host : istate igmp_state :=
  AState [] 0 {[5 := nfg]} (PState ∅ member_mem (mem_init 536870912) group_pool)
    (IpState 5 5 1 0 41 0 (IpGlobals 0 0 0 0 0 0) (IgmpState ∅ 0 0)).

Definition end_of {A} (c : prog (istate igmp_state) A) (s : istate igmp_state) : istate igmp_state :=
  match c s with Some (_, s') => s' | None => s end.
Lemma end_of_ok {A} (c : prog (istate igmp_state) A) s r : fst <$> c s = Some r → c s = Some (r, end_of c s).
Proof. unfold end_of. destruct (c s) as [[x s']|]; [by intros [= ->] | done]. Qed.

Definition group1 : Z := dotted 224 1 2 3.
Abbreviation join5 := (igmp_joingroup_netif sent filtered rand7 100 5 group1).
Abbreviation leave5 := (igmp_leavegroup_netif sent filtered 100 5 group1).
Definition host0 : istate igmp_state := end_of igmp_init quiet_host.
Definition host1 : istate igmp_state := end_of (igmp_start filtered 5) host0.
Definition host2 : istate igmp_state := end_of join5 host1.
Definition host3 : istate igmp_state := end_of join5 host2.
Definition host4 : istate igmp_state := end_of (igmp_tmr sent 100) host3.
Definition host5 : istate igmp_state := end_of leave5 host4.
Definition calls : list member_event :=
  [Start 5 ERR_OK] ++ [Join 5 group1 ERR_OK] ++ [Join 5 group1 ERR_OK] ++ [Other] ++ [Leave 5 group1 ERR_OK].

Definition fresh_check (s : istate igmp_state) : bool :=
  match on_pools (memp_malloc MEMP_IGMP_GROUP) (as_packets s) with
  | Some (r, _) => bool_decide (groups s !! r = None)
  | None => true
  end.
Lemma fresh_checked s : fresh_check s = true → fresh s.
Proof.
  unfold fresh_check, fresh. intros H r q E _. rewrite E in H. by apply bool_decide_eq_true in H.
Qed.

Lemma host0_initial : igmp_initial host0.
Proof.
  split; [by vm_compute | by vm_compute |].
  intros n nf Hnf. change (({[5 := nfg]} : gmap Z netif) !! n = Some nf) in Hnf.
  apply lookup_singleton_Some in Hnf as [<- <-]. by vm_compute.
Qed.

Lemma host_runs : igmp_steps sent filtered rand7 100 calls host0 host5.
Proof.
  unfold calls. rewrite !app_assoc.
  eapply isteps_snoc; [eapply isteps_snoc; [eapply isteps_snoc; [eapply isteps_snoc; [eapply (isteps_snoc _ _ _ _ [])|]|]|]|].
  - apply isteps_nil.
  - apply (step_start _ _ _ _ host0 5 ERR_OK host1); [apply fresh_checked; by vm_compute|]. unfold host1. apply end_of_ok. by vm_compute.
  - apply (step_join _ _ _ _ host1 5 group1 ERR_OK host2); [apply fresh_checked; by vm_compute | |].
    + exists 400. split; [by vm_compute | discriminate].
    + unfold host2. apply end_of_ok. by vm_compute.
  - apply (step_join _ _ _ _ host2 5 group1 ERR_OK host3); [apply fresh_checked; by vm_compute | |].
    + exists 400. split; [by vm_compute | discriminate].
    + unfold host3. apply end_of_ok. by vm_compute.
  - apply (step_igmp_tmr _ _ _ _ host3 host4). unfold host4. apply end_of_ok. by vm_compute.
  - apply (step_leave _ _ _ _ host4 5 group1 ERR_OK host5). unfold host5. apply end_of_ok. by vm_compute.
Qed.


Lemma host5_inv : ∃ L M, groups_inv L M host5.
Proof.
  destruct (igmp_steps_ok sent filtered rand7 100) with (es := calls) (s0 := host0) (s := host5) (L := (∅ : lists)) (M0 := (∅ : memberships))
    as (L & M & Hi & _).
  - by intros n p a s r s' [= _ <-].
  - by intros f n a k s u s' [= _ <-].
  - by intros s r s' [= <- <-].
  - exact host_runs.
  - apply (initial_inv sent filtered rand7 100); [| | | exact host0_initial].
    + by intros n p a s r s' [= _ <-].
    + by intros f n a k s u s' [= _ <-].
    + by intros s r s' [= <- <-].
  - by exists L, M.
Qed.

(** A query of version 1: all bytes are zero. *)
Lemma igmp_query_schedules_witness :
  ∃ s', query_input rand7 110 5 400 allsystems host5 = Some (tt, s') ∧
    ∃ g v, groups s' !! 424 = Some (due v g) ∧ 0 < v ≤ 10.
Proof.
  destruct host5_inv as (L & M & Hi).
  assert (El : L !!! 5 = [400; 424]).
  { assert (Hnf : ∃ nf, as_netifs host5 !! 5 = Some nf ∧ nf_client_data nf !! LWIP_NETIF_CLIENT_DATA_INDEX_IGMP = Some 400).
    { eexists. split; [vm_compute; reflexivity | reflexivity]. }
    destruct Hnf as (nf & Hnf & Hc). destruct (sh_list _ _ (gi_shape _ _ _ Hi) 5 nf Hnf) as (g0 & Hg0 & Hl).
    rewrite Hc in Hg0. injection Hg0 as <-. apply (llist_det _ _ _ _ Hl).
    assert (H1 : ig_next <$> groups host5 !! 400 = Some 424) by (by vm_compute).
    assert (H2 : ig_next <$> groups host5 !! 424 = Some 0) by (by vm_compute).
    apply fmap_Some in H1 as (g1 & H1 & E1). apply fmap_Some in H2 as (g2 & H2 & E2).
    cbn [llist]. split; [reflexivity|]. split; [discriminate|]. exists g1. split; [exact H1|]. rewrite <- E1.
    split; [reflexivity|]. split; [discriminate|]. exists g2. split; [exact H2 | by symmetry]. }
  destruct (igmp_query_schedules rand7 L M host5 5 400 [424] 110 0 400) as (s' & E & Hd & _).
  - intros s. exists 7, s. by repeat split.
  - exact Hi.
  - apply (bool_decide_unpack _). by vm_compute.
  - exact El.
  - by vm_compute.
  - by vm_compute.
  - by vm_compute.
  - exists s'. split; [exact E|]. destruct (groups host5 !! 424) as [g|] eqn:Hg; [|by vm_compute in Hg].
    destruct (Hd 424 g) as (v & Hv & Hb); [by apply elem_of_cons; left | done |].
    exists g, v. split; [exact Hv|]. exact Hb.
Defined.

(** The host with a packet for the group, and with one for another group. *)
Definition to_group (g : Z) : bytes := header_of 64 0 IP_PROTO_UDP 28 1 (dotted 192 168 0 1) g ++ udp.
Abbreviation host_with d := (with_data (IpGlobals 0 0 0 0 0 0) (set_packets (packet d) host5)).
Lemma data_netifs {W} g q (s : istate W) : as_netifs (with_data g (set_packets q s)) = as_netifs s.
Proof. done. Qed.
Definition group2 : Z := dotted 224 9 9 9.
Definition other_in (p n : Z) : prog (istate igmp_state) unit := mret tt.

Lemma to_group_good g :
  g = group1 ∨ g = group2 → good_header (host_with (to_group g)) 500 (pb 28) [] (to_group g).
Proof.
  intros [->| ->]; (split; [apply (packet_chain _ 28); [done | lia | by vm_compute] | | by vm_compute..]);
    intros H; vm_compute in H; discriminate.
Qed.

Lemma multicast_for_members_witness :
  (∃ s', group_ip4_input other_in other_in other_in other_in rand7 500 5 (host_with (to_group group1))
           = (other_in 500 5 ;; finish) s') ∧
  (∃ s', group_ip4_input other_in other_in other_in other_in rand7 500 5 (host_with (to_group group2)) = drop_packet 500 s').
Proof.
  destruct host5_inv as (L & M & Hi).
  assert (Hnf : ∃ nf, as_netifs host5 !! 5 = Some nf ∧ has_flag nf NETIF_FLAG_IGMP = true ∧
    bad_source nf (dotted 192 168 0 1) = false).
  { eexists. split; [vm_compute; reflexivity|]. by vm_compute. }
  destruct Hnf as (nf & Hnf & Hfl & Hbad).
  assert (Hsup : supported IP_PROTO_UDP)
    by (by apply (bool_decide_unpack (IP_PROTO_UDP ∈ [IP_PROTO_UDP; IP_PROTO_TCP; IP_PROTO_ICMP; IP_PROTO_IGMP]))).
  split.
  - destruct (multicast_for_members other_in other_in other_in other_in rand7 L M (host_with (to_group group1)) 500 5
      (pb 28) [] (to_group group1) nf) as [H _].
    1: exact (inv_data L M _ (IpGlobals 0 0 0 0 0 0) host5 Hi).
    1: apply to_group_good; by left.
    1: by vm_compute.
    1: rewrite data_netifs; exact Hnf.
    1: discriminate.
    1: exact Hfl.
    1: by vm_compute.
    1: by vm_compute.
    1: exact Hsup.
    1: exact Hbad.
    destruct H as (s' & _ & _ & _ & _ & _ & E); [|by exists s'].
    pose proof (is_member_run L M host5 5 nf group1 Hi Hnf) as Hm.
    assert (E : fst <$> is_member 5 group1 host5 = Some true) by (by vm_compute). rewrite Hm in E.
    injection E as E. apply bool_decide_eq_true in E. exact E.
  - destruct (multicast_for_members other_in other_in other_in other_in rand7 L M (host_with (to_group group2)) 500 5
      (pb 28) [] (to_group group2) nf) as [_ H].
    1: exact (inv_data L M _ (IpGlobals 0 0 0 0 0 0) host5 Hi).
    1: apply to_group_good; by right.
    1: by vm_compute.
    1: rewrite data_netifs; exact Hnf.
    1: discriminate.
    1: exact Hfl.
    1: by vm_compute.
    1: by vm_compute.
    1: exact Hsup.
    1: exact Hbad.
    destruct H as (s' & _ & _ & _ & _ & E); [|by vm_compute | by exists s'].
    pose proof (is_member_run L M host5 5 nf group2 Hi Hnf) as Hm.
    assert (E : fst <$> is_member 5 group2 host5 = Some false) by (by vm_compute). rewrite Hm in E.
    injection E as E. apply bool_decide_eq_false in E. apply eq_None_not_Some. exact E.
Defined.
