(* ===== verification/Tcpip.v ===== *)
(** * The thread of the stack (middlewares/lwip/src/api/tcpip.c)

    All of lwIP runs in one thread, which takes messages from a mailbox:
    received packets and functions to call.  Other threads and the driver
    post messages, or take the lock of the core and call functions
    themselves.

    The state is that of Timeouts (whose lock [ts_core_locked] is
    [lock_tcpip_core]) with the state of this file as its other part: the
    kernel, the mailbox and the messages at their addresses in the pools.
    [ts_now] is the time when the thread has last asked the kernel for it,
    before and after each wait for a message. *)

From stdpp Require Import base numbers list gmap option.
From S2P Require Import Prelude Mem Memp Pbuf Etharp Netifs Kernel CmsisOs SysArch Timeouts.

Definition TCPIP_MBOX_SIZE : Z := 5.
Definition TCPIP_THREAD_STACKSIZE : Z := 1000.
Definition TCPIP_THREAD_PRIO : Z := 0.

(** The functions that messages name: the input functions of the stack and
    those of other users; [pbuf_free_int], [mem_free] and those of other
    users. *)
Inductive netif_input_fn := ethernet_input_fn | ip_input_fn | user_input_fn (n : Z).
Inductive tcpip_callback_fn := pbuf_free_int_fn | mem_free_fn | user_callback_fn (n : Z).

(** [struct tcpip_msg]: the type with the member of the union that it selects. *)
Inductive tcpip_msg :=
  | TCPIP_MSG_API (function : tcpip_callback_fn) (msg : Z)
  | TCPIP_MSG_API_CALL (function arg sem : Z)
  | TCPIP_MSG_INPKT (p netif : Z) (input_fn : netif_input_fn)
  | TCPIP_MSG_CALLBACK (function : tcpip_callback_fn) (ctx : Z)
  | TCPIP_MSG_CALLBACK_STATIC (function : tcpip_callback_fn) (ctx : Z).

Record tcpip (K C : Type) := TcpipState {
  tc_os : sys_arch K;
  tc_mbox : Z;
  tc_msgs : gmap Z tcpip_msg;
  tc_init_done : option tcpip_callback_fn;
  tc_init_done_arg : Z;
  tc_msg : Z;                            (* [msg] of [tcpip_thread] *)
  tc_core : C
}.
Arguments TcpipState {K C}.
Arguments tc_os {K C}.
Arguments tc_mbox {K C}.
Arguments tc_msgs {K C}.
Arguments tc_init_done {K C}.
Arguments tc_init_done_arg {K C}.
Arguments tc_msg {K C}.
Arguments tc_core {K C}.

Section tcpip.
  Context {K C : Type} `{!Kernel K}.
Abbreviation state := (tstate (tcpip K C)).
  (** The layers below and above: the cyclic timers and the handlers of
      applications, the input functions, [pbuf_free] and [mem_free], the
      functions that other code passes here, [netif->flags], and
      [lwip_init]. *)
  Context (cyclic_handler : nat → prog state unit).
  Context (user_handler : Z → Z → prog state unit).
  Context (tcp_pcbs : tcpip K C → bool).
  Context (ethernet_input ip_input : Z → Z → prog state Z).
  Context (user_input : Z → Z → Z → prog state Z).
  Context (pbuf_free mem_free : Z → prog state unit).
  Context (user_callback : Z → Z → prog state unit).
  Context (netif_flags : Z → prog state Z).
  Context (lwip_init : prog state unit).

Definition tc_get {A} (f : tcpip K C → A) : prog state A := gets (λ s, f (ts_world s)).
Definition tc_mod (f : tcpip K C → tcpip K C) : prog state unit := modify (λ s, set_world (f (ts_world s)) s).
Definition with_os (o : sys_arch K) (w : tcpip K C) : tcpip K C :=
  TcpipState o (tc_mbox w) (tc_msgs w) (tc_init_done w) (tc_init_done_arg w) (tc_msg w) (tc_core w).
Definition with_msgs (m : gmap Z tcpip_msg) (w : tcpip K C) : tcpip K C :=
  TcpipState (tc_os w) (tc_mbox w) m (tc_init_done w) (tc_init_done_arg w) (tc_msg w) (tc_core w).
Definition with_msg (m : Z) (w : tcpip K C) : tcpip K C :=
  TcpipState (tc_os w) (tc_mbox w) (tc_msgs w) (tc_init_done w) (tc_init_done_arg w) m (tc_core w).

Definition on_sys {A} (c : prog (sys_arch K) A) : prog state A := λ s,
  match c (tc_os (ts_world s)) with
  | Some (a, o) => Some (a, set_world (with_os o (ts_world s)) s)
  | None => None
  end.
Definition on_kernel {A} (c : prog K A) : prog state A := on_sys (on_os c).

Definition set_now (t : Z) (s : state) : state :=
  TState (ts_timeos s) (ts_next_timeout s) (ts_last_time s) (ts_tcp_timer_active s) (ts_core_locked s) t
    (ts_pools s) (ts_world s).

(** A message in a new element of its pool, and its release. *)
Definition put_msg (a : Z) (m : tcpip_msg) : prog state unit := tc_mod (λ w, with_msgs (<[a := m]> (tc_msgs w)) w).
Definition free_msg (pool : nat) (a : Z) : prog state unit :=
  tc_mod (λ w, with_msgs (delete a (tc_msgs w)) w) ;;
  tpools (memp_free pool a).

(** From here on [sys_now()] returns the time of the kernel. *)
Definition read_time : prog state unit :=
  now ← on_kernel sys_now;
  modify (set_now now).

(** [sys_arch_mbox_fetch(&mbox, &msg, timeout)] *)
Definition fetch (timeout : Z) : prog state Z :=
  mbox ← tc_get tc_mbox;
  '(r, m) ← on_kernel (sys_arch_mbox_fetch mbox timeout);
  tc_mod (with_msg m) ;;
  read_time ;;
  mret r.
Definition TCPIP_MBOX_FETCH (fuel : nat) : prog state unit :=
  read_time ;;
  sys_timeouts_mbox_fetch cyclic_handler user_handler tcp_pcbs fetch fuel.

(** ** Functions that run in the thread *)

Definition pbuf_free_int (p : Z) : prog state unit := pbuf_free p.

Definition call_input (f : netif_input_fn) (p netif : Z) : prog state Z :=
  match f with
  | ethernet_input_fn => ethernet_input p netif
  | ip_input_fn => ip_input p netif
  | user_input_fn n => user_input n p netif
  end.
Definition call_function (f : tcpip_callback_fn) (ctx : Z) : prog state unit :=
  match f with
  | pbuf_free_int_fn => pbuf_free_int ctx
  | mem_free_fn => mem_free ctx
  | user_callback_fn n => user_callback n ctx
  end.

(** ** [tcpip_thread] *)

(** Before the loop. *)
Definition tcpip_thread_start : prog state unit :=
  init_done ← tc_get tc_init_done;
  arg ← tc_get tc_init_done_arg;
  (match init_done with Some f => call_function f arg | None => mret tt end) ;;
  LOCK_TCPIP_CORE ;;
  UNLOCK_TCPIP_CORE.

(** The [switch] on the type of the message; [TCPIP_MSG_API] and
    [TCPIP_MSG_API_CALL] have no case with core locking. *)
Definition tcpip_switch (a : Z) (msg : tcpip_msg) : prog state unit :=
  match msg with
  | TCPIP_MSG_INPKT p netif input_fn =>
      _ ← call_input input_fn p netif;
      free_msg MEMP_TCPIP_MSG_INPKT a
  | TCPIP_MSG_CALLBACK function ctx =>
      call_function function ctx ;;
      free_msg MEMP_TCPIP_MSG_API a
  | TCPIP_MSG_CALLBACK_STATIC function ctx => call_function function ctx
  | TCPIP_MSG_API _ _ | TCPIP_MSG_API_CALL _ _ _ => mret tt
  end.

(** One round of the loop from one [UNLOCK_TCPIP_CORE] to the next.  The
    result is the message that was handled. *)
Definition tcpip_thread_pass (fuel : nat) : prog state (option tcpip_msg) :=
  TCPIP_MBOX_FETCH fuel ;;
  LOCK_TCPIP_CORE ;;
  a ← tc_get tc_msg;
  r ← (if a =? 0 then mret None else
       msgs ← tc_get tc_msgs;
       match msgs !! a with
       | None => stuck
       | Some msg => tcpip_switch a msg ;; mret (Some msg)
       end);
  UNLOCK_TCPIP_CORE ;;
  mret r.

(** ** Functions for other threads *)

(** [sys_mbox_trypost(&mbox, msg)] *)
Definition trypost (a : Z) : prog state Z :=
  mbox ← tc_get tc_mbox;
  on_kernel (sys_mbox_trypost mbox a).

Definition tcpip_inpkt (p inp : Z) (input_fn : netif_input_fn) : prog state Z :=
  msg ← tpools (memp_malloc MEMP_TCPIP_MSG_INPKT);
  if msg =? 0 then mret ERR_MEM else
  put_msg msg (TCPIP_MSG_INPKT p inp input_fn) ;;
  r ← trypost msg;
  if negb (r =? ERR_OK) then free_msg MEMP_TCPIP_MSG_INPKT msg ;; mret ERR_MEM
  else mret ERR_OK.

Definition tcpip_input (p inp : Z) : prog state Z :=
  flags ← netif_flags inp;
  if negb (Z.land flags (Z.lor NETIF_FLAG_ETHARP NETIF_FLAG_ETHERNET) =? 0) then tcpip_inpkt p inp ethernet_input_fn
  else tcpip_inpkt p inp ip_input_fn.

(** [fuel] is for the repetitions in [sys_mbox_post]. *)
Definition tcpip_callback_with_block (fuel : nat) (function : tcpip_callback_fn) (ctx : Z) (block : bool)
    : prog state Z :=
  msg ← tpools (memp_malloc MEMP_TCPIP_MSG_API);
  if msg =? 0 then mret ERR_MEM else
  put_msg msg (TCPIP_MSG_CALLBACK function ctx) ;;
  if block then
    mbox ← tc_get tc_mbox;
    on_kernel (sys_mbox_post fuel mbox msg) ;;
    mret ERR_OK
  else
    r ← trypost msg;
    if negb (r =? ERR_OK) then free_msg MEMP_TCPIP_MSG_API msg ;; mret ERR_MEM
    else mret ERR_OK.

(** The functions that other threads pass are programs of theirs. *)
Definition tcpip_send_msg_wait_sem (fn : Z → prog state unit) (apimsg : Z) : prog state Z :=
  LOCK_TCPIP_CORE ;;
  fn apimsg ;;
  UNLOCK_TCPIP_CORE ;;
  mret ERR_OK.

Definition tcpip_api_call (fn : Z → prog state Z) (call : Z) : prog state Z :=
  LOCK_TCPIP_CORE ;;
  err ← fn call;
  UNLOCK_TCPIP_CORE ;;
  mret err.

Definition tcpip_callbackmsg_new (function : tcpip_callback_fn) (ctx : Z) : prog state Z :=
  msg ← tpools (memp_malloc MEMP_TCPIP_MSG_API);
  if msg =? 0 then mret 0 else
  put_msg msg (TCPIP_MSG_CALLBACK_STATIC function ctx) ;;
  mret msg.
Definition tcpip_callbackmsg_delete (msg : Z) : prog state unit := free_msg MEMP_TCPIP_MSG_API msg.
Definition tcpip_trycallback (msg : Z) : prog state Z := trypost msg.

Definition pbuf_free_callback (p : Z) : prog state Z := tcpip_callback_with_block 0 pbuf_free_int_fn p false.
Definition mem_free_callback (m : Z) : prog state Z := tcpip_callback_with_block 0 mem_free_fn m false.

(** [tcpip_thread] is thread 1; the mutex is new and free. *)
Definition tcpip_init (initfunc : option tcpip_callback_fn) (arg : Z) : prog state unit :=
  lwip_init ;;
  tc_mod (λ w, TcpipState (tc_os w) (tc_mbox w) (tc_msgs w) initfunc arg (tc_msg w) (tc_core w)) ;;
  mbox ← tc_get tc_mbox;
  '(_, mbox) ← on_kernel (sys_mbox_new mbox TCPIP_MBOX_SIZE);
  tc_mod (λ w, TcpipState (tc_os w) mbox (tc_msgs w) (tc_init_done w) (tc_init_done_arg w) (tc_msg w) (tc_core w)) ;;
  modify (set_locked false) ;;
  _ ← on_sys (sys_thread_new 1 0 TCPIP_THREAD_STACKSIZE TCPIP_THREAD_PRIO);
  mret tt.
End tcpip.
