(* ===== verification/TcpipProps.v ===== *)
(** * The queue of the thread

    The mailbox, the pools and the messages together are a queue of what the
    thread has to do: each message that was accepted is handled once, in the
    order of the posts, and its element goes back to its pool. *)

From stdpp Require Import base numbers list gmap option.
From S2P Require Import Prelude Mem Memp Pbuf Etharp Netifs Kernel CmsisOs SysArch Timeouts Tcpip.

(** The pool that a message comes from; static messages stay with their
    owner. *)
Definition pool_of (m : tcpip_msg) : nat :=
  match m with TCPIP_MSG_INPKT _ _ _ => MEMP_TCPIP_MSG_INPKT | _ => MEMP_TCPIP_MSG_API end.
Definition is_static (m : tcpip_msg) : bool :=
  match m with TCPIP_MSG_CALLBACK_STATIC _ _ => true | _ => false end.
Abbreviation tqueue := (list (Z * tcpip_msg)).
Definition dynamic (q : tqueue) : tqueue := filter (λ x : Z * tcpip_msg, is_static x.2 = false) q.

Section queue.
  Context {K C : Type} {KK : Kernel K} {KV : KernelView K} {KL : KernelLaws K}.
Abbreviation state := (tstate (tcpip K C)).
  Implicit Types (s : state) (q : tqueue).
  #[local] Set Default Proof Using "Type*".

Definition kernel_of s : K := os (tc_os (ts_world s)).

(** The queue [q] of messages with their addresses. *)
Record serving (fl out : nat → list Z) q s : Prop := {
  sv_pools : pools_inv (ts_pools s) fl out;
  sv_api : (MEMP_TCPIP_MSG_API < MEMP_MAX (ts_pools s))%nat;
  sv_inpkt : (MEMP_TCPIP_MSG_INPKT < MEMP_MAX (ts_pools s))%nat;
  sv_mbox : Mbox.holds (kernel_of s) (tc_mbox (ts_world s)) q.*1;
  sv_queue : ∀ a m, (a, m) ∈ q → tc_msgs (ts_world s) !! a = Some m;
  sv_msgs : ∀ a m, tc_msgs (ts_world s) !! a = Some m → a ∈ out (pool_of m);
  sv_once : NoDup (dynamic q).*1;
  sv_room : (length q ≤ 6)%nat
}.
Definition served q s : Prop := ∃ fl out, serving fl out q s.

(** Everything but the queue may have changed. *)
Definition undisturbed s s' : Prop :=
  ts_core_locked s' = ts_core_locked s ∧ tc_mbox (ts_world s') = tc_mbox (ts_world s) ∧
  tc_msgs (ts_world s') = tc_msgs (ts_world s) ∧
  dtq_of (kernel_of s') (tc_mbox (ts_world s)) = dtq_of (kernel_of s) (tc_mbox (ts_world s)) ∧
  MEMP_MAX (ts_pools s') = MEMP_MAX (ts_pools s) ∧
  ∀ fl out, pools_inv (ts_pools s) fl out → ∃ fl' out', pools_inv (ts_pools s') fl' out' ∧
    out' MEMP_TCPIP_MSG_API = out MEMP_TCPIP_MSG_API ∧ out' MEMP_TCPIP_MSG_INPKT = out MEMP_TCPIP_MSG_INPKT.
(** A function that leaves the queue alone. *)
Definition minds_own {A} (c : prog state A) : Prop := ∀ s r s', c s = Some (r, s') → undisturbed s s'.

Lemma undisturbed_refl s : undisturbed s s.
Proof. repeat (split; [done|]). eauto. Qed.

Lemma serving_undisturbed fl out q s s' :
  serving fl out q s → undisturbed s s' → ∃ fl' out', serving fl' out' q s' ∧
    out' MEMP_TCPIP_MSG_API = out MEMP_TCPIP_MSG_API ∧ out' MEMP_TCPIP_MSG_INPKT = out MEMP_TCPIP_MSG_INPKT.
Proof.
  intros [H1 H2 H3 H4 H5 H6 H7 H8] (U1 & U2 & U3 & U4 & U5 & U6).
  destruct (U6 fl out H1) as (fl' & out' & Hp & E1 & E2). exists fl', out'. split; [|done]. split; rewrite ?U3, ?U5; try done.
  - unfold Mbox.holds in *. by rewrite U2, U4.
  - intros a m Hm. destruct m; cbn; rewrite ?E1, ?E2; by apply (H6 a _ Hm).
Qed.

(** ** Operations on the pools and on the messages *)

Lemma pool_of_lt fl out q s m : serving fl out q s → (pool_of m < MEMP_MAX (ts_pools s))%nat.
Proof. intros Hs. destruct m; apply Hs. Qed.

Lemma pool_of_cases m : pool_of m = MEMP_TCPIP_MSG_API ∨ pool_of m = MEMP_TCPIP_MSG_INPKT.
Proof. destruct m; auto. Qed.

(** A new message: none, or one that nobody has. *)
Lemma alloc_msg fl out q s m :
  serving fl out q s →
  match fl (pool_of m) with
  | [] => tpools (memp_malloc (pool_of m)) s = Some (0, s)
  | a :: l => ∃ s', a ≠ 0 ∧ tpools (memp_malloc (pool_of m)) s = Some (a, set_pools (ts_pools s') s) ∧
      put_msg a m (set_pools (ts_pools s') s) = Some (tt, s') ∧
      (a ∉ q.*1) ∧ tc_msgs (ts_world s') !! a = Some m ∧ a ∈ fupd out (pool_of m) (a :: out (pool_of m)) (pool_of m) ∧
      ts_core_locked s' = ts_core_locked s ∧ kernel_of s' = kernel_of s ∧
      serving (fupd fl (pool_of m) l) (fupd out (pool_of m) (a :: out (pool_of m))) q s'
  end.
Proof.
  intros Hs. pose proof Hs as [H1 H2 H3 H4 H5 H6 H7 H8]. pose proof (pool_of_lt _ _ _ _ m Hs) as Hlt.
  pose proof (memp_malloc_spec _ _ _ _ H1 Hlt) as Hm. destruct (fl (pool_of m)) as [|a l] eqn:Efl.
  { unfold tpools. rewrite Hm. by destruct s. }
  destruct Hm as (p & Em & Ha0 & Hd & Hp).
  assert (Hfree : ∀ m', tc_msgs (ts_world s) !! a ≠ Some m').
  { intros m' Hm'. apply H6 in Hm'. assert (Ha : a ∈ fl (pool_of m) ++ out (pool_of m)) by (rewrite Efl; left).
    destruct (decide (pool_of m' = pool_of m)) as [E|E].
    - rewrite E in Hm'. destruct (pools_inv_NoDup _ _ _ _ H1 Hlt) as [Hnd _]. rewrite Efl in Hnd.
      apply list.NoDup_cons in Hnd as [Hnd _]. apply Hnd, elem_of_app. by right.
    - apply (pools_inv_disjoint _ _ _ (pool_of m) (pool_of m') a H1 Hlt); [destruct m'; done | done | done |].
      apply elem_of_app. by right. }
  assert (Haq : (a ∉ q.*1)).
  { intros Hq. apply list_elem_of_fmap in Hq as ([a' m'] & -> & Hq). apply H5 in Hq. by apply (Hfree m'). }
  set (s' := set_world (with_msgs (<[a := m]> (tc_msgs (ts_world s))) (ts_world s)) (set_pools p s)).
  assert (Et : tpools (memp_malloc (pool_of m)) s = Some (a, set_pools p s)) by (unfold tpools; by rewrite Em).
  exists s'. split; [done|]. split; [done|]. split; [done|].
  split; [done|]. split; [apply lookup_insert_eq|]. split; [rewrite fupd_eq; left|]. split; [done|]. split; [done|].
  split; cbn; try done.
  - unfold MEMP_MAX. by rewrite Hd.
  - unfold MEMP_MAX. by rewrite Hd.
  - intros b m' Hb. rewrite lookup_insert_ne; [by apply H5|]. intros ->. apply Haq, list_elem_of_fmap. by exists (b, m').
  - intros b m' Hb. destruct (decide (b = a)) as [->|Hne].
    + rewrite lookup_insert_eq in Hb. injection Hb as <-. rewrite fupd_eq. left.
    + rewrite lookup_insert_ne in Hb by done. destruct (decide (pool_of m' = pool_of m)) as [E|E].
      * rewrite E, fupd_eq, <- E. right. by apply H6.
      * rewrite fupd_ne by done. by apply H6.
Qed.

(** The release of a message that is not in the queue. *)
Lemma free_msg_run fl out q s a m :
  serving fl out q s → tc_msgs (ts_world s) !! a = Some m → (a ∉ q.*1) →
  ∃ l s', free_msg (pool_of m) a s = Some (tt, s') ∧ out (pool_of m) ≡ₚ a :: l ∧
    serving (fupd fl (pool_of m) (a :: fl (pool_of m))) (fupd out (pool_of m) l) q s' ∧
    ts_core_locked s' = ts_core_locked s.
Proof.
  intros Hs Hm Hq. pose proof Hs as [H1 H2 H3 H4 H5 H6 H7 H8]. pose proof (pool_of_lt _ _ _ _ m Hs) as Hlt.
  destruct (list_elem_of_split _ _ (H6 a m Hm)) as (l1 & l2 & Hout).
  assert (Ho : out (pool_of m) ≡ₚ a :: l1 ++ l2) by (rewrite Hout; symmetry; apply Permutation_middle).
  destruct (memp_free_spec _ _ _ _ _ _ H1 Hlt Ho) as (p & Ep & Hd & Hp).
  eexists (l1 ++ l2), _. split; [|split; [exact Ho|]].
  { unfold free_msg. rewrite (prog_bind_step _ _ s tt (set_world (with_msgs (delete a (tc_msgs (ts_world s))) (ts_world s)) s)) by done.
    unfold tpools. change (ts_pools (set_world _ s)) with (ts_pools s). rewrite Ep. reflexivity. }
  split; [|done]. split; cbn; try done.
  - unfold MEMP_MAX. by rewrite Hd.
  - unfold MEMP_MAX. by rewrite Hd.
  - intros b m' Hb. rewrite lookup_delete_ne; [by apply H5|]. intros ->. apply Hq, list_elem_of_fmap. by exists (b, m').
  - intros b m' Hb. apply lookup_delete_Some in Hb as [Hne Hb].
    destruct (decide (pool_of m' = pool_of m)) as [E|E]; [|rewrite fupd_ne by done; by apply H6].
    rewrite E, fupd_eq. apply H6 in Hb. rewrite E, Ho in Hb. apply elem_of_cons in Hb as [->|Hb]; [done|exact Hb].
Qed.

(** ** The mailbox *)

Definition set_kernel (k : K) s : state :=
  set_world (with_os {| os := k; s_nextthread := s_nextthread (tc_os (ts_world s)) |} (ts_world s)) s.

Lemma on_kernel_run {A} (c : prog K A) s x k :
  c (kernel_of s) = Some (x, k) → on_kernel c s = Some (x, set_kernel k s).
Proof. intros E. unfold on_kernel, on_sys, on_os. unfold kernel_of in E. by rewrite E. Qed.

Lemma serving_kernel fl out q q' s k :
  serving fl out q s → Mbox.holds k (tc_mbox (ts_world s)) q'.*1 →
  (∀ a m, (a, m) ∈ q' → tc_msgs (ts_world s) !! a = Some m) → NoDup (dynamic q').*1 → (length q' ≤ 6)%nat →
  serving fl out q' (set_kernel k s).
Proof. intros [H1 H2 H3 H4 H5 H6 H7 H8] K1 K2 K3 K4. by split. Qed.

(** The message [a] is at the end of the mailbox. *)
Lemma serving_post fl out q s a m k :
  serving fl out q s → tc_msgs (ts_world s) !! a = Some m → (is_static m = false → (a ∉ q.*1)) →
  Mbox.holds k (tc_mbox (ts_world s)) (q ++ [(a, m)]).*1 → (length q < 6)%nat →
  serving fl out (q ++ [(a, m)]) (set_kernel k s).
Proof.
  intros Hs Hm Hst Hk Hl. pose proof Hs as [H1 H2 H3 H4 H5 H6 H7 H8].
  apply (serving_kernel _ _ q); [done | done | | | rewrite length_app; cbn; lia].
  - intros b m' [Hb|Hb]%elem_of_app; [by apply H5|]. apply list_elem_of_singleton in Hb as [= -> ->]. done.
  - unfold dynamic. rewrite list.filter_app, fmap_app. fold (dynamic q). destruct (is_static m) eqn:Em.
    { rewrite filter_cons_False by (cbn; congruence). by rewrite app_nil_r. }
    rewrite filter_cons_True by done. cbn. apply list.NoDup_app. split; [done|]. split; [|apply NoDup_singleton].
    intros b Hb ->%list_elem_of_singleton. apply (Hst eq_refl).
    apply list_elem_of_fmap in Hb as (x & -> & Hb). apply list_elem_of_filter in Hb as [_ Hb].
    apply list_elem_of_fmap. by exists x.
Qed.

Lemma trypost_run fl out q s a m :
  serving fl out q s → tc_msgs (ts_world s) !! a = Some m → (is_static m = false → (a ∉ q.*1)) →
  ∃ k, (length q < 6)%nat ∧ trypost a s = Some (ERR_OK, set_kernel k s) ∧
         serving fl out (q ++ [(a, m)]) (set_kernel k s)
     ∨ length q = 6%nat ∧ trypost a s = Some (ERR_MEM, set_kernel k s) ∧ serving fl out q (set_kernel k s).
Proof.
  intros Hs Hm Hst. pose proof Hs as [H1 H2 H3 H4 H5 H6 H7 H8]. unfold trypost.
  destruct (Nat.lt_ge_cases (length q) 6) as [Hl|Hl].
  - destruct (Mbox.trypost_step (kernel_of s) (tc_mbox (ts_world s)) q.*1 a H4) as (k & E & Hk); [by rewrite length_fmap|].
    exists k. left. split; [done|]. split.
    + rewrite (prog_bind_step _ _ s (tc_mbox (ts_world s)) s) by done. by apply on_kernel_run.
    + apply serving_post; try done. by rewrite fmap_app.
  - destruct (Mbox.trypost_full (kernel_of s) (tc_mbox (ts_world s)) q.*1 a H4) as (k & E & Hk); [rewrite length_fmap; lia|].
    exists k. right. split; [lia|]. split.
    + rewrite (prog_bind_step _ _ s (tc_mbox (ts_world s)) s) by done. by apply on_kernel_run.
    + by apply (serving_kernel _ _ q).
Qed.

(** [tcpip_inpkt] and [tcpip_callback_with_block] without blocking. *)
Definition post_msg (m : tcpip_msg) : prog state Z :=
  msg ← tpools (memp_malloc (pool_of m));
  if msg =? 0 then mret ERR_MEM else
  put_msg msg m ;;
  r ← trypost msg;
  if negb (r =? ERR_OK) then free_msg (pool_of m) msg ;; mret ERR_MEM else mret ERR_OK.

Lemma post_msg_run fl out q s m :
  serving fl out q s →
  ∃ r s' fl' out', post_msg m s = Some (r, s') ∧ ts_core_locked s' = ts_core_locked s ∧
    (fl (pool_of m) ≠ [] ∧ (length q < 6)%nat ∧ r = ERR_OK ∧
       (∃ a, serving fl' out' (q ++ [(a, m)]) s' ∧ out' = fupd out (pool_of m) (a :: out (pool_of m))) ∨
     (fl (pool_of m) = [] ∨ length q = 6%nat) ∧ r = ERR_MEM ∧ serving fl' out' q s' ∧
       fl' (pool_of m) = fl (pool_of m) ∧ ∀ i, out' i ≡ₚ out i).
Proof.
  intros Hs. pose proof (alloc_msg fl out q s m Hs) as Ha. unfold post_msg.
  destruct (fl (pool_of m)) as [|a l] eqn:Efl.
  { rewrite (prog_bind_step _ _ _ _ _ Ha). exists ERR_MEM, s, fl, out. split; [done|]. split; [done|]. right. auto 6. }
  destruct Ha as (s1 & Ha0 & E1 & E2 & Haq & Hm & _ & Hlk & Hk & Hs1).
  rewrite (prog_bind_step _ _ _ _ _ E1), (proj2 (Z.eqb_neq a 0)) by done. rewrite (prog_bind_step _ _ _ _ _ E2).
  destruct (trypost_run _ _ _ _ a m Hs1 Hm (λ _, Haq)) as (k & [(Hl & E3 & Hs2)|(Hl & E3 & Hs2)]);
    rewrite (prog_bind_step _ _ _ _ _ E3).
  - eexists ERR_OK, _, _, _. split; [done|]. split; [exact Hlk|]. left. split; [done|]. split; [done|]. split; [done|]. eauto.
  - destruct (free_msg_run _ _ _ _ a m Hs2 Hm Haq) as (l' & s3 & E4 & Ho & Hs3 & Hlk3).
    cbn [negb Z.eqb ERR_MEM ERR_OK]. eexists ERR_MEM, s3, _, _.
    split; [by rewrite (prog_bind_step _ _ _ _ _ E4)|]. split; [by rewrite Hlk3|]. right. split; [by right|]. split; [done|].
    split; [exact Hs3|]. rewrite !fupd_eq in *. split; [done|]. intros i. unfold fupd. case_decide as Ei; [|done]. subst i.
    by apply (Permutation_cons_inv (a := a)).
Qed.

(** [tcpip_inpkt] either puts the packet at the end of the queue of the thread, when there is a free
    message and a free place in the mailbox, or says [ERR_MEM], with the queue as before and no
    message lost from the pool: its caller still owns the packet exactly in the second case. *)
Theorem tcpip_inpkt_outcome fl out q s p inp f :
  serving fl out q s →
  ∃ r s' fl' out', tcpip_inpkt p inp f s = Some (r, s') ∧ ts_core_locked s' = ts_core_locked s ∧
    (fl MEMP_TCPIP_MSG_INPKT ≠ [] ∧ (length q < 6)%nat ∧ r = ERR_OK ∧
       (∃ a, serving fl' out' (q ++ [(a, TCPIP_MSG_INPKT p inp f)]) s') ∨
     (fl MEMP_TCPIP_MSG_INPKT = [] ∨ length q = 6%nat) ∧ r = ERR_MEM ∧ serving fl' out' q s' ∧
       fl' MEMP_TCPIP_MSG_INPKT = fl MEMP_TCPIP_MSG_INPKT).
Proof.
  intros Hs. destruct (post_msg_run fl out q s (TCPIP_MSG_INPKT p inp f) Hs) as (r & s' & fl' & out' & E & Hlk & Hc).
  exists r, s', fl', out'. split; [exact E|]. split; [exact Hlk|].
  destruct Hc as [(H1 & H2 & H3 & a & H4 & _)|(H1 & H2 & H3 & H4 & _)]; [left | right]; eauto 6.
Qed.
End queue.

(** ** The thread *)

Section thread.
  Context {K C : Type} {KK : Kernel K} {KV : KernelView K} {KL : KernelLaws K}.
Abbreviation state := (tstate (tcpip K C)).
  Context (cyclic_handler : nat → prog state unit).
  Context (user_handler : Z → Z → prog state unit).
  Context (tcp_pcbs : tcpip K C → bool).
  Context (ethernet_input ip_input : Z → Z → prog state Z).
  Context (user_input : Z → Z → Z → prog state Z).
  Context (pbuf_free mem_free : Z → prog state unit).
  Context (user_callback : Z → Z → prog state unit).
  Implicit Types (s : state) (q : tqueue).
  #[local] Set Default Proof Using "All".

Abbreviation pass :=
  (tcpip_thread_pass cyclic_handler user_handler tcp_pcbs ethernet_input ip_input user_input pbuf_free mem_free user_callback).
Abbreviation switch := (tcpip_switch ethernet_input ip_input user_input pbuf_free mem_free user_callback).

(** The state when the thread has read the time. *)
Definition timed s : state := set_now (u32 (tim_of (kernel_of s))) s.
(** No timeout is due, and the wait for a message that is there does not take
    as long as the value that stands for a timeout. *)
Definition settled s : Prop :=
  ts_next_timeout s = 0 ∨
  ∃ t, sys_timeouts_sleeptime (timed s) = Some (t, timed s) ∧ t ≠ 0 ∧
    ∀ r m k, sys_arch_mbox_fetch (tc_mbox (ts_world s)) t (kernel_of s) = Some ((r, m), k) → r ≠ SYS_ARCH_TIMEOUT.

Lemma set_kernel_same s : set_kernel (kernel_of s) s = s.
Proof. by destruct s as [? ? ? ? ? ? ? [[] ? ? ? ? ? ?]]. Qed.

Lemma read_time_run s : read_time s = Some (tt, timed s).
Proof.
  unfold read_time, timed. rewrite (prog_bind_step _ _ s (u32 (tim_of (kernel_of s))) s); [done|].
  rewrite (on_kernel_run _ _ _ _ (osKernelSysTick_spec _)). by rewrite set_kernel_same.
Qed.

(** The first message has left the mailbox. *)
Definition taken (a : Z) (k : K) s : state :=
  timed (set_world (with_msg a (ts_world (set_kernel k s))) (set_kernel k s)).

Lemma fetch_run s t a m q fl out :
  serving fl out ((a, m) :: q) s →
  ∃ r k, sys_arch_mbox_fetch (tc_mbox (ts_world s)) t (kernel_of s) = Some ((r, a), k) ∧
    fetch t s = Some (r, taken a k s) ∧ serving fl out q (taken a k s).
Proof.
  intros [H1 H2 H3 H4 H5 H6 H7 H8]. destruct (Mbox.fetch_step _ _ _ _ t H4) as (k & E & Hk & _).
  eexists _, k. split; [exact E|]. split.
  - unfold fetch. rewrite (prog_bind_step _ _ s (tc_mbox (ts_world s)) s) by done.
    rewrite (prog_bind_step _ _ _ _ _ (on_kernel_run _ s _ _ E)). cbv beta iota.
    rewrite (prog_bind_step _ _ _ tt (set_world (with_msg a (ts_world (set_kernel k s))) (set_kernel k s))) by done.
    by rewrite (prog_bind_step _ _ _ _ _ (read_time_run _)).
  - split; try done.
    + intros b m' Hb. apply (H5 b m'). by right.
    + unfold dynamic in H7 |- *. destruct (decide (is_static m = false)) as [Em|Em].
      * rewrite filter_cons_True in H7 by done. by apply list.NoDup_cons in H7 as [_ H7].
      * by rewrite filter_cons_False in H7.
    + cbn in H8. lia.
Qed.

Lemma serving_timed fl out q s : serving fl out q s → serving fl out q (timed s).
Proof. intros []. by split. Qed.

Lemma mbox_fetch_run fuel s a m q fl out :
  serving fl out ((a, m) :: q) s → settled s →
  ∃ k, TCPIP_MBOX_FETCH cyclic_handler user_handler tcp_pcbs (S fuel) s = Some (tt, taken a k (timed s)) ∧
    serving fl out q (taken a k (timed s)).
Proof.
  intros Hs Hset. unfold TCPIP_MBOX_FETCH. rewrite (prog_bind_step _ _ _ _ _ (read_time_run s)).
  apply serving_timed in Hs. cbn [sys_timeouts_mbox_fetch].
  rewrite (prog_bind_step _ _ (timed s) (ts_next_timeout s) (timed s)) by done.
  destruct (Z.eqb_spec (ts_next_timeout s) 0) as [E|E].
  - destruct (fetch_run (timed s) 0 a m q fl out Hs) as (r & k & _ & E1 & Hs1). exists k.
    by rewrite (prog_bind_step _ _ _ _ _ E1).
  - destruct Hset as [?|(t & Et & Ht & Hr)]; [done|]. rewrite (prog_bind_step _ _ _ _ _ Et), (proj2 (Z.eqb_neq t 0)) by done.
    destruct (fetch_run (timed s) t a m q fl out Hs) as (r & k & E0 & E1 & Hs1). exists k. split; [|done].
    rewrite (prog_bind_step _ _ (timed s) false (taken a k (timed s))); [done|].
    rewrite (prog_bind_step _ _ _ _ _ E1). specialize (Hr r a k E0). by rewrite (proj2 (Z.eqb_neq r _)).
Qed.

(** A round of the thread with a message in the mailbox. *)
Lemma tcpip_pass_split fuel s a m q fl out :
  serving fl out ((a, m) :: q) s → settled s → ts_core_locked s = false →
  ∃ s1, serving fl out q s1 ∧ ts_core_locked s1 = true ∧ tc_msgs (ts_world s1) = tc_msgs (ts_world s) ∧
    tc_core (ts_world s1) = tc_core (ts_world s) ∧
    pass (S fuel) s = (switch a m ;; UNLOCK_TCPIP_CORE ;; mret (Some m)) s1.
Proof.
  intros Hs Hset Hlk. destruct (mbox_fetch_run fuel s a m q fl out Hs Hset) as (k & E & Hs1).
  set (s0 := taken a k (timed s)) in *. exists (set_locked true s0).
  split; [destruct Hs1; by split|]. split; [done|]. split; [done|]. split; [done|].
  unfold tcpip_thread_pass. rewrite (prog_bind_step _ _ _ _ _ E).
  rewrite (prog_bind_step _ _ s0 tt (set_locked true s0)).
  2: { unfold LOCK_TCPIP_CORE. rewrite (prog_bind_step _ _ s0 false s0); [done|]. unfold gets. do 2 f_equal. exact Hlk. }
  rewrite (prog_bind_step _ _ (set_locked true s0) a (set_locked true s0)) by done.
  assert (Ha : a ≠ 0).
  { pose proof (sv_queue _ _ _ _ Hs a m ltac:(left)) as Hm. apply (sv_msgs _ _ _ _ Hs) in Hm.
    destruct (pools_inv_NoDup _ _ _ (pool_of m) (sv_pools _ _ _ _ Hs)) as [_ H0]; [by eapply pool_of_lt|].
    intros ->. apply H0, elem_of_app. by right. }
  rewrite (proj2 (Z.eqb_neq a 0)) by done.
  assert (Hin : (msgs ← tc_get tc_msgs;
      match msgs !! a with None => stuck | Some msg => switch a msg ;; mret (Some msg) end) (set_locked true s0)
    = (switch a m ;; mret (Some m)) (set_locked true s0)).
  { rewrite (prog_bind_step _ _ (set_locked true s0) (tc_msgs (ts_world s)) (set_locked true s0)) by done.
    by rewrite (sv_queue _ _ _ _ Hs a m ltac:(left)). }
  unfold mbind, prog_bind in Hin |- *. rewrite Hin. by destruct (switch a m (set_locked true s0)) as [[[] s2]|].
Qed.

(** A round of the thread with a message in the mailbox and no timeout due takes the first message of
    the queue and runs exactly its function, with the lock held and the rest of the queue as it was; it
    unlocks when that function has returned. *)
Theorem tcpip_pass_runs_first fuel s a m q fl out :
  serving fl out ((a, m) :: q) s → settled s → ts_core_locked s = false →
  ∃ s1, serving fl out q s1 ∧ ts_core_locked s1 = true ∧ tc_msgs (ts_world s1) = tc_msgs (ts_world s) ∧
    tc_core (ts_world s1) = tc_core (ts_world s) ∧
    pass (S fuel) s = (switch a m ;; UNLOCK_TCPIP_CORE ;; mret (Some m)) s1.
Proof. exact (tcpip_pass_split fuel s a m q fl out). Qed.
End thread.
