(* ===== verification/TcpipFifo.v ===== *)
(** * All interleavings

    What any number of threads may do with the functions of tcpip.c, and what
    the thread of the stack does with their messages. *)

From stdpp Require Import base numbers list gmap option.
From S2P Require Import Prelude Mem Memp Pbuf Etharp Netifs Kernel CmsisOs SysArch Timeouts Tcpip TcpipProps.

Inductive tevent := Posted (m : tcpip_msg) | Handled (m : tcpip_msg).
Definition posted (es : list tevent) : list tcpip_msg :=
  omap (λ e, match e with Posted m => Some m | Handled _ => None end) es.
Definition handled (es : list tevent) : list tcpip_msg :=
  omap (λ e, match e with Handled m => Some m | Posted _ => None end) es.

(** The packets in the queue. *)
Definition is_packet (m : tcpip_msg) : bool := match m with TCPIP_MSG_INPKT _ _ _ => true | _ => false end.
Definition queued_packets (q : tqueue) : list Z := (filter (λ x : Z * tcpip_msg, is_packet x.2 = true) q).*1.
(** Every message for a packet that is in use is in the queue. *)
Definition tidy (out : nat → list Z) (q : tqueue) : Prop := out MEMP_TCPIP_MSG_INPKT ≡ₚ queued_packets q.

Lemma queued_packets_app q q' : queued_packets (q ++ q') = queued_packets q ++ queued_packets q'.
Proof. unfold queued_packets. by rewrite list.filter_app, fmap_app. Qed.

Lemma tidy_post out q a m :
  tidy out q → tidy (fupd out (pool_of m) (a :: out (pool_of m))) (q ++ [(a, m)]).
Proof.
  unfold tidy. intros H. rewrite queued_packets_app. destruct m; cbn [pool_of];
    try (rewrite fupd_ne by done; unfold queued_packets at 2; rewrite filter_cons_False by done; by rewrite app_nil_r).
  rewrite fupd_eq. unfold queued_packets at 2. rewrite filter_cons_True by done. cbn. rewrite H. apply Permutation_cons_append.
Qed.

Section fifo.
  Context {K C : Type} {KK : Kernel K} {KV : KernelView K} {KL : KernelLaws K}.
Abbreviation state := (tstate (tcpip K C)).
  Context (cyclic_handler : nat → prog state unit).
  Context (user_handler : Z → Z → prog state unit).
  Context (tcp_pcbs : tcpip K C → bool).
  Context (ethernet_input ip_input : Z → Z → prog state Z).
  Context (user_input : Z → Z → Z → prog state Z).
  Context (pbuf_free mem_free : Z → prog state unit).
  Context (user_callback : Z → Z → prog state unit).
  Implicit Types (s : state) (q : tqueue).

Abbreviation pass :=
  (tcpip_thread_pass cyclic_handler user_handler tcp_pcbs ethernet_input ip_input user_input pbuf_free mem_free user_callback).
Abbreviation switch := (tcpip_switch ethernet_input ip_input user_input pbuf_free mem_free user_callback).

(** What the mailbox holds. *)
Definition box s : option dtq_view := dtq_of (kernel_of s) (tc_mbox (ts_world s)).
Definition if_ok (r : Z) (m : tcpip_msg) : list tevent := if r =? ERR_OK then [Posted m] else [].

(** A call that has to wait has no step before it goes on: the thread waits
    for a message, a blocking post for a free place.  Timeouts that the thread
    handles while it waits are steps of their own ([step_elsewhere]), like
    everything that other code does without the queue. *)
Inductive tcpip_step : list tevent → state → state → Prop :=
  | step_inpkt s p n f r s' :
      tcpip_inpkt p n f s = Some (r, s') → tcpip_step (if_ok r (TCPIP_MSG_INPKT p n f)) s s'
  | step_callback s fuel f x r s' :
      tcpip_callback_with_block fuel f x false s = Some (r, s') → tcpip_step (if_ok r (TCPIP_MSG_CALLBACK f x)) s s'
  | step_callback_block s fuel f x r s' d :
      box s = Some d → dtq_accepts d → tcpip_callback_with_block (S fuel) f x true s = Some (r, s') →
      tcpip_step (if_ok r (TCPIP_MSG_CALLBACK f x)) s s'
  | step_callbackmsg_new s f x r s' : tcpip_callbackmsg_new f x s = Some (r, s') → tcpip_step [] s s'
  | step_callbackmsg_delete s a f x d u s' :
      tc_msgs (ts_world s) !! a = Some (TCPIP_MSG_CALLBACK_STATIC f x) → box s = Some d → (a ∉ dtq_data d) →
      tcpip_callbackmsg_delete a s = Some (u, s') → tcpip_step [] s s'
  | step_trycallback s a f x r s' :
      tc_msgs (ts_world s) !! a = Some (TCPIP_MSG_CALLBACK_STATIC f x) →
      tcpip_trycallback a s = Some (r, s') → tcpip_step (if_ok r (TCPIP_MSG_CALLBACK_STATIC f x)) s s'
  | step_pass s fuel d r s' :
      box s = Some d → dtq_data d ≠ [] → settled s → ts_core_locked s = false → pass (S fuel) s = Some (r, s') →
      tcpip_step (match r with Some m => [Handled m] | None => [] end) s s'
  | step_api_call s fn x r s' : minds_own (fn x) → tcpip_api_call fn x s = Some (r, s') → tcpip_step [] s s'
  | step_send_msg s fn x r s' : minds_own (fn x) → tcpip_send_msg_wait_sem fn x s = Some (r, s') → tcpip_step [] s s'
  | step_elsewhere s s' : undisturbed s s' → tcpip_step [] s s'.
Inductive tcpip_steps : list tevent → state → state → Prop :=
  | tsteps_nil s : tcpip_steps [] s s
  | tsteps_snoc es e s1 s2 s3 : tcpip_steps es s1 s2 → tcpip_step e s2 s3 → tcpip_steps (es ++ e) s1 s3.

  (** The functions that the thread calls leave the queue alone. *)
  Context (Hethernet : ∀ p n, minds_own (ethernet_input p n)).
  Context (Hip : ∀ p n, minds_own (ip_input p n)).
  Context (Huser : ∀ f p n, minds_own (user_input f p n)).
  Context (Hpbuf : ∀ p, minds_own (pbuf_free p)).
  Context (Hmem : ∀ p, minds_own (mem_free p)).
  Context (Hcb : ∀ f x, minds_own (user_callback f x)).
  #[local] Set Default Proof Using "All".

Definition in_order es q s : Prop := ∃ fl out, serving fl out q s ∧ tidy out q ∧ posted es = handled es ++ q.*2.

Lemma in_order_undisturbed es q s s' : in_order es q s → undisturbed s s' → in_order es q s'.
Proof.
  intros (fl & out & Hs & Ht & E) Hu. destruct (serving_undisturbed _ _ _ _ _ Hs Hu) as (fl' & out' & Hs' & E1 & E2).
  exists fl', out'. split; [done|]. split; [|done]. unfold tidy. by rewrite E2.
Qed.

Lemma in_order_post es q s q' m s' fl out :
  in_order es q s → serving fl out q' s' → tidy out q' → q'.*2 = q.*2 ++ [m] → in_order (es ++ [Posted m]) q' s'.
Proof.
  intros (_ & _ & _ & _ & E) Hs Ht Eq. exists fl, out. split; [done|]. split; [done|].
  unfold posted, handled in *. rewrite !omap_app. cbn. by rewrite E, Eq, app_nil_r, app_assoc.
Qed.

(** A call that posts a new message or fails. *)
Lemma in_order_post_msg es q s m r s' :
  in_order es q s → post_msg m s = Some (r, s') → ∃ q', in_order (es ++ if_ok r m) q' s'.
Proof.
  intros Hin Hp. pose proof Hin as (fl & out & Hs & Ht & E).
  destruct (post_msg_run fl out q s m Hs) as (r' & s1 & fl' & out' & E1 & _ & Hc). rewrite Hp in E1. injection E1 as <- <-.
  destruct Hc as [(_ & _ & -> & a & Hs' & ->)|(_ & -> & Hs' & _ & Ho)].
  - exists (q ++ [(a, m)]). eapply in_order_post; [exact Hin | exact Hs' | by apply tidy_post | by rewrite fmap_app].
  - exists q. cbn. rewrite app_nil_r. exists fl', out'. split; [done|]. split; [|done]. unfold tidy. by rewrite Ho.
Qed.

Lemma head_once fl out a m q s : serving fl out ((a, m) :: q) s → is_static m = false → (a ∉ q.*1).
Proof.
  intros Hs Hm Ha. apply list_elem_of_fmap in Ha as ([b m'] & -> & Hb). cbn in *.
  pose proof (sv_queue _ _ _ _ Hs b m ltac:(left)) as H1. rewrite (sv_queue _ _ _ _ Hs b m') in H1 by (by right).
  injection H1 as ->. pose proof (sv_once _ _ _ _ Hs) as Hn. unfold dynamic in Hn. rewrite filter_cons_True in Hn by done.
  apply list.NoDup_cons in Hn as [Hn _]. apply Hn, list_elem_of_fmap. exists (b, m). split; [done|].
  by apply list_elem_of_filter.
Qed.

(** The function of the message runs, and the message goes back to its pool. *)
Lemma switch_ok fl out q s a m u s' :
  serving fl out q s → tc_msgs (ts_world s) !! a = Some m → (is_static m = false → (a ∉ q.*1)) →
  out MEMP_TCPIP_MSG_INPKT ≡ₚ queued_packets ((a, m) :: q) → switch a m s = Some (u, s') →
  ∃ fl' out', serving fl' out' q s' ∧ tidy out' q.
Proof.
  intros Hs Hm Hst Ho H.
  assert (Hcall : ∀ {A} (c : prog state A) x s1, minds_own c → c s = Some (x, s1) →
    ∃ fl1 out1, serving fl1 out1 q s1 ∧ out1 MEMP_TCPIP_MSG_INPKT = out MEMP_TCPIP_MSG_INPKT ∧
      tc_msgs (ts_world s1) !! a = Some m).
  { intros A c x s1 Hc E. apply Hc in E. destruct (serving_undisturbed _ _ _ _ _ Hs E) as (fl1 & out1 & Hs1 & _ & E2).
    destruct E as (_ & _ & Em & _). exists fl1, out1. by rewrite Em. }
  assert (Hcf : ∀ f x, minds_own (call_function pbuf_free mem_free user_callback f x)) by (intros f x; destruct f; cbn; unfold pbuf_free_int; auto).
  assert (Hci : ∀ f p n, minds_own (call_input ethernet_input ip_input user_input f p n)) by (intros f p n; destruct f; cbn; auto).
  assert (Hnp : is_packet m = false → tidy out q).
  { intros Hp. unfold tidy. rewrite Ho. unfold queued_packets. by rewrite filter_cons_False by (cbn; congruence). }
  destruct m as [f x|f x y|p n f|f x|f x]; cbn [tcpip_switch] in H.
  - injection H as _ <-. exists fl, out. split; [done | by apply Hnp].
  - injection H as _ <-. exists fl, out. split; [done | by apply Hnp].
  - apply prog_bind_Some in H as (r & s1 & H1 & H). destruct (Hcall _ _ _ _ (Hci f p n) H1) as (fl1 & out1 & Hs1 & Eo & Em).
    destruct (free_msg_run _ _ _ _ a _ Hs1 Em (Hst eq_refl)) as (l & s2 & E2 & Hl & Hs2 & _). cbn [pool_of] in E2, Hl, Hs2.
    rewrite H in E2. injection E2 as _ <-. eexists _, _. split; [exact Hs2|]. unfold tidy. rewrite fupd_eq.
    rewrite Eo, Ho in Hl. unfold queued_packets in Hl. rewrite filter_cons_True in Hl by done. cbn in Hl.
    symmetry. by apply (Permutation_cons_inv (a := a)).
  - apply prog_bind_Some in H as (r & s1 & H1 & H). destruct (Hcall _ _ _ _ (Hcf f x) H1) as (fl1 & out1 & Hs1 & Eo & Em).
    destruct (free_msg_run _ _ _ _ a _ Hs1 Em (Hst eq_refl)) as (l & s2 & E2 & Hl & Hs2 & _). cbn [pool_of] in E2, Hl, Hs2.
    rewrite H in E2. injection E2 as _ <-. eexists _, _. split; [exact Hs2|]. unfold tidy. rewrite fupd_ne, Eo by done. by apply Hnp.
  - destruct (Hcall _ _ _ _ (Hcf f x) H) as (fl1 & out1 & Hs1 & Eo & _). exists fl1, out1. split; [done|].
    unfold tidy. rewrite Eo. by apply Hnp.
Qed.

Lemma in_order_pass es q s fuel d r s' :
  in_order es q s → box s = Some d → dtq_data d ≠ [] → settled s → ts_core_locked s = false → pass (S fuel) s = Some (r, s') →
  ∃ q', in_order (es ++ match r with Some m => [Handled m] | None => [] end) q' s'.
Proof.
  intros (fl & out & Hs & Ht & E) Hb Hd Hset Hlk H.
  destruct q as [|[a m] q].
  { pose proof (sv_mbox _ _ _ _ Hs) as Hm. unfold Mbox.holds in Hm. unfold box in Hb. rewrite Hm in Hb. injection Hb as <-. done. }
  pose proof (head_once _ _ _ _ _ _ Hs) as Hon. pose proof (sv_queue _ _ _ _ Hs a m ltac:(left)) as Hm.
  destruct (tcpip_pass_split cyclic_handler user_handler tcp_pcbs ethernet_input ip_input user_input pbuf_free mem_free
    user_callback fuel s a m q fl out Hs Hset Hlk) as (s1 & Hs1 & _ & Em & _ & Ep). rewrite Ep in H.
  apply prog_bind_Some in H as (u & s2 & H2 & H). apply prog_bind_Some in H as ([] & s3 & H3 & [= <- <-]). injection H3 as <-.
  destruct (switch_ok fl out q s1 a m u s2 Hs1) as (fl' & out' & Hs2 & Ht2); [by rewrite Em | done | exact Ht | exact H2 |].
  exists q, fl', out'. split; [by destruct Hs2; split|]. split; [done|].
  unfold posted, handled in *. rewrite !omap_app. cbn. rewrite app_nil_r, E. cbn. by rewrite <- app_assoc.
Qed.

Lemma in_order_block es q s fuel f x r s' d :
  in_order es q s → box s = Some d → dtq_accepts d → tcpip_callback_with_block (S fuel) f x true s = Some (r, s') →
  ∃ q', in_order (es ++ if_ok r (TCPIP_MSG_CALLBACK f x)) q' s'.
Proof.
  intros Hin Hb Hd H. pose proof Hin as (fl & out & Hs & Ht & E). set (m := TCPIP_MSG_CALLBACK f x) in *.
  pose proof (sv_mbox _ _ _ _ Hs) as Hmb. unfold Mbox.holds in Hmb. unfold box in Hb. rewrite Hmb in Hb. injection Hb as <-.
  apply Mbox.accepts_iff in Hd. rewrite length_fmap in Hd.
  pose proof (alloc_msg fl out q s m Hs) as Ha. unfold tcpip_callback_with_block in H. change MEMP_TCPIP_MSG_API with (pool_of m) in H.
  destruct (fl (pool_of m)) as [|a l] eqn:Efl.
  { rewrite (prog_bind_step _ _ _ _ _ Ha) in H. injection H as <- <-. exists q. cbn. rewrite app_nil_r. by exists fl, out. }
  destruct Ha as (s1 & Ha0 & E1 & E2 & Haq & Hm & _ & _ & Hk & Hs1).
  rewrite (prog_bind_step _ _ _ _ _ E1), (proj2 (Z.eqb_neq a 0)), (prog_bind_step _ _ _ _ _ E2) in H by done.
  rewrite (prog_bind_step _ _ s1 (tc_mbox (ts_world s1)) s1) in H by done.
  destruct (Mbox.post_step fuel (kernel_of s1) (tc_mbox (ts_world s1)) q.*1 a (sv_mbox _ _ _ _ Hs1)) as (k & Ek & Hh);
    [by rewrite length_fmap|].
  rewrite (prog_bind_step _ _ _ _ _ (on_kernel_run _ s1 _ _ Ek)) in H. injection H as <- <-.
  exists (q ++ [(a, m)]). eapply in_order_post; [exact Hin | | by apply tidy_post | by rewrite fmap_app].
  apply (serving_post _ _ q s1 a m k Hs1 Hm (λ _, Haq)); [by rewrite fmap_app | done].
Qed.

Lemma locked_undisturbed {A} (c : prog state A) s (r : A) s' :
  minds_own c → (LOCK_TCPIP_CORE ;; x ← c; UNLOCK_TCPIP_CORE ;; mret x) s = Some (r, s') → undisturbed s s'.
Proof.
  intros Hc H. unfold LOCK_TCPIP_CORE in H. apply prog_bind_Some in H as ([] & s1 & H1 & H).
  apply prog_bind_Some in H1 as (b & s0 & [= <- <-] & H1). destruct (ts_core_locked s) eqn:Hlk; [done|]. injection H1 as <-.
  apply prog_bind_Some in H as (x & s2 & H2 & H). apply prog_bind_Some in H as ([] & s3 & [= <-] & [= _ <-]).
  apply Hc in H2 as (U1 & U2 & U3 & U4 & U5 & U6). split; [done|]. split; [exact U2|]. split; [exact U3|].
  split; [exact U4|]. split; [exact U5 | exact U6].
Qed.

Lemma in_order_step es q s e s' :
  in_order es q s → tcpip_step e s s' → ∃ q', in_order (es ++ e) q' s'.
Proof.
  intros Hin Hst. destruct Hst as [s p n f r s' H|s fuel f x r s' H|s fuel f x r s' d Hb Hd H|s f x r s' H
    |s a f x d u s' Hm Hb Ha H|s a f x r s' Hm H|s fuel d r s' Hb Hd Hset Hlk H|s fn x r s' Hf H|s fn x r s' Hf H|s s' Hu].
  - by apply (in_order_post_msg es q s).
  - by apply (in_order_post_msg es q s).
  - by apply (in_order_block es q s fuel f x r s' d).
  - rewrite app_nil_r. pose proof Hin as (fl & out & Hs & Ht & E). set (m := TCPIP_MSG_CALLBACK_STATIC f x).
    pose proof (alloc_msg fl out q s m Hs) as Ha. unfold tcpip_callbackmsg_new in H. change MEMP_TCPIP_MSG_API with (pool_of m) in H.
    destruct (fl (pool_of m)) as [|a l] eqn:Efl.
    { rewrite (prog_bind_step _ _ _ _ _ Ha) in H. injection H as <- <-. by exists q, fl, out. }
    destruct Ha as (s1 & Ha0 & E1 & E2 & _ & _ & _ & _ & _ & Hs1).
    rewrite (prog_bind_step _ _ _ _ _ E1), (proj2 (Z.eqb_neq a 0)), (prog_bind_step _ _ _ _ _ E2) in H by done.
    injection H as _ <-. eexists q, _, _. split; [exact Hs1|]. split; [|done]. unfold tidy. by rewrite fupd_ne.
  - rewrite app_nil_r. pose proof Hin as (fl & out & Hs & Ht & E). pose proof (sv_mbox _ _ _ _ Hs) as Hmb.
    unfold Mbox.holds in Hmb. unfold box in Hb. rewrite Hmb in Hb. injection Hb as <-. cbn in Ha.
    destruct (free_msg_run fl out q s a _ Hs Hm Ha) as (l & s2 & E2 & _ & Hs2 & _). cbn [pool_of] in E2.
    unfold tcpip_callbackmsg_delete in H. rewrite E2 in H. injection H as _ <-. eexists q, _, _. split; [exact Hs2|]. split; [|done].
    unfold tidy. cbn [pool_of]. by rewrite fupd_ne.
  - pose proof Hin as (fl & out & Hs & Ht & E). set (m := TCPIP_MSG_CALLBACK_STATIC f x) in *.
    destruct (trypost_run fl out q s a m Hs Hm) as (k & [(_ & E1 & Hs1)|(_ & E1 & Hs1)]); [done | |];
      unfold tcpip_trycallback in H; rewrite E1 in H; injection H as <- <-.
    + exists (q ++ [(a, m)]). eapply in_order_post; [exact Hin | exact Hs1 | | by rewrite fmap_app].
      unfold tidy. rewrite queued_packets_app. unfold queued_packets at 2. rewrite filter_cons_False by done. by rewrite app_nil_r.
    + exists q. cbn. rewrite app_nil_r. by exists fl, out.
  - by apply (in_order_pass es q s fuel d).
  - rewrite app_nil_r. exists q. eapply in_order_undisturbed; [exact Hin|]. by apply (locked_undisturbed (fn x) s r s').
  - rewrite app_nil_r. exists q. eapply in_order_undisturbed; [exact Hin|].
    apply (locked_undisturbed (fn x ;; mret ERR_OK) s r s').
    + intros t v t' Hv. apply prog_bind_Some in Hv as ([] & t1 & Hv & [= _ <-]). by apply Hf in Hv.
    + unfold tcpip_send_msg_wait_sem in H. unfold mbind, prog_bind in *. destruct (LOCK_TCPIP_CORE s) as [[[] s1]|]; [|done].
      by destruct (fn x s1) as [[[] s2]|].
  - rewrite app_nil_r. exists q. by apply (in_order_undisturbed es q s).
Qed.

Lemma in_order_steps es s0 s :
  tcpip_steps es s0 s → in_order [] [] s0 → ∃ q, in_order es q s.
Proof.
  induction 1 as [s|es e s1 s2 s3 _ IH Hst]; intros H0; [by exists []|].
  destruct (IH H0) as [q Hq]. by apply (in_order_step es q s2).
Qed.
End fifo.

