(* ===== verification/TcpipExamples.v ===== *)
(** * Two messages for the thread

    A received packet and a function are posted; the thread handles the
    packet. *)

From stdpp Require Import base numbers list gmap option.
From S2P Require Import Prelude Mem Memp Pbuf Etharp Netifs Kernel CmsisOs SysArch Timeouts Tcpip TcpipProps TcpipFifo.
Import Sim.

Abbreviation state := (tstate (tcpip sim unit)).
Definition two_pools : pools :=
  Pools (replicate 6 (MempDesc 0 0 0) ++ [MempDesc 16 2 4000; MempDesc 16 2 8000]) (replicate 8 0) ∅.
Definition fresh_pools : pools := match memp_init two_pools with Some (_, p) => p | None => two_pools end.
Definition waiting : state :=
  TState ∅ 0 0 false false 0 fresh_pools
    (TcpipState {| os := Mbox.ex_box; s_nextthread := 0 |} 1 ∅ None 0 0 tt).

(** The functions do nothing. *)
Definition no_timer (i : nat) : prog state unit := mret tt.
Definition no_handler (n g : Z) : prog state unit := mret tt.
Definition no_conns (w : tcpip sim unit) : bool := false.
Definition takes (p n : Z) : prog state Z := mret ERR_OK.
Definition takes_for (f p n : Z) : prog state Z := mret ERR_OK.
Definition frees (p : Z) : prog state unit := mret tt.
Definition called (f x : Z) : prog state unit := mret tt.

Lemma ret_minds_own {A} (x : A) : minds_own (mret x : prog state A).
Proof. intros s r s' [= _ <-]. apply undisturbed_refl. Qed.

Definition box_fl (i : nat) : list Z := rev (default [] (elems <$> p_descs two_pools !! i)).

Lemma waiting_serving : serving box_fl (λ _, []) [] waiting.
Proof.
  destruct (memp_init_spec two_pools) as (p & E & Hd & Hi);
    [split; refine (bool_decide_unpack _ _); vm_compute; exact I | done |].
  assert (Ep : fresh_pools = p) by (unfold fresh_pools; by rewrite E).
  split; cbn [ts_pools waiting]; rewrite ?Ep; try done.
  - unfold MEMP_MAX. rewrite Hd. unfold MEMP_TCPIP_MSG_API. cbn. lia.
  - unfold MEMP_MAX. rewrite Hd. unfold MEMP_TCPIP_MSG_INPKT. cbn. lia.
  - by intros a m Ha%elem_of_nil.
  - constructor.
  - cbn. lia.
Qed.

Definition then_of {A} (c : prog state A) (s : state) : state := match c s with Some (_, s') => s' | None => s end.
Lemma then_ok {A} (c : prog state A) s r : fst <$> c s = Some r → c s = Some (r, then_of c s).
Proof. unfold then_of. destruct (c s) as [[x s']|]; [by intros [= ->] | done]. Qed.

Abbreviation round := (tcpip_thread_pass no_timer no_handler no_conns takes takes takes_for frees frees called).
Definition one : state := then_of (tcpip_inpkt 500 5 ethernet_input_fn) waiting.
Definition two : state := then_of (pbuf_free_callback 600) one.
Definition three : state := then_of (round 1) two.
Definition the_packet : tcpip_msg := TCPIP_MSG_INPKT 500 5 ethernet_input_fn.
Definition the_callback : tcpip_msg := TCPIP_MSG_CALLBACK pbuf_free_int_fn 600.

Lemma tcpip_inpkt_outcome_witness :
  ∃ a fl out, serving fl out [(a, the_packet)] one.
Proof.
  destruct (tcpip_inpkt_outcome _ _ _ _ 500 5 ethernet_input_fn waiting_serving) as (r & s' & fl & out & E & _ & Hc).
  assert (Es : one = s') by (unfold one, then_of; by rewrite E). rewrite Es.
  destruct Hc as [(_ & _ & _ & a & Hs)|([Hf|Hl] & _)].
  - exists a, fl, out. exact Hs.
  - exfalso. vm_compute in Hf. discriminate.
  - exfalso. discriminate.
Defined.

Lemma three_steps :
  tcpip_steps no_timer no_handler no_conns takes takes takes_for frees frees called
    [Posted the_packet; Posted the_callback; Handled the_packet] waiting three.
Proof.
  apply (tsteps_snoc _ _ _ _ _ _ _ _ _ [Posted the_packet; Posted the_callback] [Handled the_packet] waiting two three).
  - apply (tsteps_snoc _ _ _ _ _ _ _ _ _ [Posted the_packet] [Posted the_callback] waiting one two).
    + apply (tsteps_snoc _ _ _ _ _ _ _ _ _ [] [Posted the_packet] waiting waiting one); [apply tsteps_nil|].
      apply (step_inpkt _ _ _ _ _ _ _ _ _ waiting 500 5 ethernet_input_fn ERR_OK one).
      unfold one. apply then_ok. by vm_compute.
    + apply (step_callback _ _ _ _ _ _ _ _ _ one 0 pbuf_free_int_fn 600 ERR_OK two).
      unfold two. apply then_ok. by vm_compute.
  - eapply (step_pass _ _ _ _ _ _ _ _ _ two 0 _ (Some the_packet) three).
    + vm_compute. reflexivity.
    + discriminate.
    + left. by vm_compute.
    + by vm_compute.
    + unfold three. apply then_ok. by vm_compute.
Qed.


Lemma tcpip_pass_runs_first_witness :
  ∃ s1, ts_core_locked s1 = true ∧
    round 1 one = (_ ← takes 500 5; free_msg MEMP_TCPIP_MSG_INPKT 8016 ;; UNLOCK_TCPIP_CORE ;; mret (Some the_packet)) s1.
Proof.
  destruct (post_msg_run _ _ _ _ the_packet waiting_serving) as (r & s' & fl & out & E & _ & Hc).
  assert (Es : one = s') by (unfold one, then_of; change (tcpip_inpkt 500 5 ethernet_input_fn waiting) with (post_msg the_packet waiting); by rewrite E).
  destruct Hc as [(_ & _ & _ & a & Hs & _)|([Hf|Hl] & _)]; [|exfalso; vm_compute in Hf; discriminate | exfalso; discriminate].
  rewrite <- Es in Hs.
  destruct (tcpip_pass_runs_first no_timer no_handler no_conns takes takes takes_for frees frees called 0 one a the_packet
    [] fl out Hs) as (s1 & _ & Hlk & _ & _ & Ep).
  - left. by vm_compute.
  - by vm_compute.
  - exists s1. split; [exact Hlk|]. rewrite Ep.
    assert (Ea : a = 8016).
    { pose proof (sv_queue _ _ _ _ Hs a the_packet ltac:(left)) as Hm.
      assert (Em : map_to_list (tc_msgs (ts_world one)) = [(8016, the_packet)]) by (by vm_compute).
      apply elem_of_map_to_list in Hm. rewrite Em in Hm. apply list_elem_of_singleton in Hm. congruence. }
    subst a. reflexivity.
Defined.
