(* ===== verification/TcpBase.v ===== *)
(** * Data of TCP (middlewares/lwip/src/include/lwip/tcp.h, priv/tcp_priv.h,
    prot/tcp.h)

    The control blocks, the segments, the four lists of control blocks and the
    global variables of core/tcp.c and core/tcp_in.c, with the macros that
    work on them and the functions of core/tcp.c that release segments.  The
    configuration has no window scaling, no timestamps, no queue of segments
    out of sequence, no backlog, no address reuse; [TCP_OVERSIZE] is the
    segment size.  Where the variables are kept is left open: [HasTcp] says how
    they are reached.  [TcpEnv] has what TCP calls: [netif->output] under the
    IP layer, the start of the timer, and the functions of the application. *)

From stdpp Require Import base numbers list gmap option.
From S2P Require Import Prelude Mem Memp Pbuf Chksum Ip4Addr Etharp Netifs Ip4.

(** ** Constants *)

Definition ERR_INPROGRESS : Z := -5.
Definition ERR_ALREADY : Z := -9.
Definition ERR_ISCONN : Z := -10.
Definition ERR_CONN : Z := -11.
Definition ERR_ABRT : Z := -13.
Definition ERR_RST : Z := -14.
Definition ERR_CLSD : Z := -15.

Definition TCP_HLEN : Z := 20.
Definition TCP_TTL : Z := 255.
Definition TCP_MSS : Z := 1460.
Definition TCP_WND : Z := 2 * TCP_MSS.
Definition TCP_SND_BUF : Z := 4 * TCP_MSS.
Definition TCP_SND_QUEUELEN : Z := 8.
Definition TCP_SNDQUEUELEN_OVERFLOW : Z := 0xffff - 3.
Definition TCP_OVERSIZE : Z := TCP_MSS.
Definition TCP_WND_UPDATE_THRESHOLD : Z := Z.min (TCP_WND / 4) (TCP_MSS * 4).
Definition TCP_MAXRTX : Z := 12.
Definition TCP_SYNMAXRTX : Z := 6.
Definition TCP_SLOW_INTERVAL : Z := 500.
Definition TCP_FIN_WAIT_TIMEOUT : Z := 20000.
Definition TCP_SYN_RCVD_TIMEOUT : Z := 20000.
Definition TCP_MSL : Z := 60000.
Definition TCP_KEEPIDLE_DEFAULT : Z := 7200000.
Definition TCP_KEEPINTVL_DEFAULT : Z := 75000.
Definition TCP_MAXIDLE : Z := 9 * TCP_KEEPINTVL_DEFAULT.
Definition TCP_PRIO_NORMAL : Z := 64.
Definition TCP_PRIO_MAX : Z := 127.
Definition SOF_KEEPALIVE : Z := 0x08.
Definition SOF_INHERITED : Z := 0x0c.

(** Flags of the header, of a control block, of input processing, of a
    segment, of [tcp_write], and of a pbuf. *)
Definition TCP_FIN : Z := 0x01.
Definition TCP_SYN : Z := 0x02.
Definition TCP_RST : Z := 0x04.
Definition TCP_PSH : Z := 0x08.
Definition TCP_ACK : Z := 0x10.
Definition TCP_FLAGS : Z := 0x3f.
Definition TF_ACK_DELAY : Z := 0x01.
Definition TF_ACK_NOW : Z := 0x02.
Definition TF_INFR : Z := 0x04.
Definition TF_CLOSEPEND : Z := 0x08.
Definition TF_RXCLOSED : Z := 0x10.
Definition TF_FIN : Z := 0x20.
Definition TF_NODELAY : Z := 0x40.
Definition TF_NAGLEMEMERR : Z := 0x80.
Definition TF_RESET : Z := 0x08.
Definition TF_CLOSED : Z := 0x10.
Definition TF_GOT_FIN : Z := 0x20.
Definition TF_SEG_OPTS_MSS : Z := 0x01.
Definition TCP_WRITE_FLAG_COPY : Z := 0x01.
Definition TCP_WRITE_FLAG_MORE : Z := 0x02.
Definition PBUF_FLAG_PUSH : Z := 0x01.
Definition PBUF_FLAG_TCP_FIN : Z := 0x20.
Definition LWIP_TCP_OPT_EOL : Z := 0.
Definition LWIP_TCP_OPT_NOP : Z := 1.
Definition LWIP_TCP_OPT_MSS : Z := 2.
Definition LWIP_TCP_OPT_LEN_MSS : Z := 4.

(** Is a flag set? *)
Definition flag (w f : Z) : bool := negb (Z.land w f =? 0).
Definition unset (w f : Z) : Z := Z.land w (Z.lnot f).

(** ** Sequence numbers: differences in 32 bits, taken with their sign *)

Definition TCP_SEQ_LT (a b : Z) : bool := s32 (u32 a - u32 b) <? 0.
Definition TCP_SEQ_LEQ (a b : Z) : bool := s32 (u32 a - u32 b) <=? 0.
Definition TCP_SEQ_GT (a b : Z) : bool := 0 <? s32 (u32 a - u32 b).
Definition TCP_SEQ_GEQ (a b : Z) : bool := 0 <=? s32 (u32 a - u32 b).
(** is b<=a<=c? *)
Definition TCP_SEQ_BETWEEN (a b c : Z) : bool := TCP_SEQ_GEQ a b && TCP_SEQ_LEQ a c.

(** ** Control blocks and segments *)

Inductive tcp_state :=
  | CLOSED | LISTEN | SYN_SENT | SYN_RCVD | ESTABLISHED | FIN_WAIT_1
  | FIN_WAIT_2 | CLOSE_WAIT | CLOSING | LAST_ACK | TIME_WAIT.
#[global] Instance tcp_state_eq_dec : EqDecision tcp_state.
Proof. solve_decision. Defined.

(** The value of the enumeration constant. *)
Definition state_num (st : tcp_state) : Z :=
  match st with
  | CLOSED => 0 | LISTEN => 1 | SYN_SENT => 2 | SYN_RCVD => 3 | ESTABLISHED => 4 | FIN_WAIT_1 => 5
  | FIN_WAIT_2 => 6 | CLOSE_WAIT => 7 | CLOSING => 8 | LAST_ACK => 9 | TIME_WAIT => 10
  end.
Definition state_is (st st' : tcp_state) : bool := bool_decide (st = st').

(** What [struct tcp_pcb] and [struct tcp_pcb_listen] begin with; addresses
    in network order, ports in host order. *)
Record tcp_common := TcpCommon {
  co_local_ip : Z;                  (* IP_PCB *)
  co_remote_ip : Z;
  co_so_options : Z;
  co_tos : Z;
  co_ttl : Z;
  co_next : Z;                      (* TCP_PCB_COMMON *)
  co_callback_arg : Z;
  co_state : tcp_state;
  co_prio : Z;
  co_local_port : Z
}.

(** [struct tcp_pcb] *)
Record tcp_pcb := TcpPcb {
  tp_com : tcp_common;
  tp_remote_port : Z;
  tp_flags : Z;
  tp_polltmr : Z;
  tp_pollinterval : Z;
  tp_last_timer : Z;
  tp_tmr : Z;
  tp_rcv_nxt : Z;
  tp_rcv_wnd : Z;
  tp_rcv_ann_wnd : Z;
  tp_rcv_ann_right_edge : Z;
  tp_rtime : Z;
  tp_mss : Z;
  tp_rttest : Z;
  tp_rtseq : Z;
  tp_sa : Z;
  tp_sv : Z;
  tp_rto : Z;
  tp_nrtx : Z;
  tp_dupacks : Z;
  tp_lastack : Z;
  tp_cwnd : Z;
  tp_ssthresh : Z;
  tp_snd_nxt : Z;
  tp_snd_wl1 : Z;
  tp_snd_wl2 : Z;
  tp_snd_lbb : Z;
  tp_snd_wnd : Z;
  tp_snd_wnd_max : Z;
  tp_snd_buf : Z;
  tp_snd_queuelen : Z;
  tp_unsent_oversize : Z;
  tp_unsent : Z;                    (* struct tcp_seg * *)
  tp_unacked : Z;
  tp_refused_data : Z;              (* struct pbuf * *)
  tp_listener : Z;                  (* struct tcp_pcb_listen * *)
  tp_sent : Z;                      (* function pointers *)
  tp_recv : Z;
  tp_connected : Z;
  tp_poll : Z;
  tp_errf : Z;
  tp_keep_idle : Z;
  tp_persist_cnt : Z;
  tp_persist_backoff : Z;
  tp_keep_cnt_sent : Z
}.

(** [struct tcp_pcb_listen] *)
Record tcp_pcb_listen := TcpPcbListen {
  tl_com : tcp_common;
  tl_accept : Z
}.

(** What a [struct tcp_pcb *] may point to. *)
Inductive tcp_cb := CbPcb (p : tcp_pcb) | CbListen (l : tcp_pcb_listen).

(** [struct tcp_seg] *)
Record tcp_seg := TcpSeg {
  sg_next : Z;
  sg_p : Z;
  sg_len : Z;
  sg_flags : Z;
  sg_tcphdr : Z
}.

(** The static variables of tcp_in.c. *)
Record tcp_in := TcpIn {
  ti_inseg : tcp_seg;
  ti_tcphdr : Z;
  ti_tcphdr_optlen : Z;
  ti_tcphdr_opt1len : Z;
  ti_tcphdr_opt2 : Z;
  ti_tcp_optidx : Z;
  ti_seqno : Z;
  ti_ackno : Z;
  ti_recv_acked : Z;
  ti_tcplen : Z;
  ti_flags : Z;
  ti_recv_flags : Z;
  ti_recv_data : Z;
  ti_input_pcb : Z
}.

(** The elements of the array [tcp_pcb_lists], in its order. *)
Inductive pcb_list := LISTEN_PCBS | BOUND_PCBS | ACTIVE_PCBS | TW_PCBS.
Definition tcp_pcb_lists : list pcb_list := [LISTEN_PCBS; BOUND_PCBS; ACTIVE_PCBS; TW_PCBS].

(** The variables of tcp.c with the structures of the pools. *)
Record tcp_vars := TcpVars {
  tv_port : Z;
  tv_iss : Z;
  tv_ticks : Z;
  tv_timer : Z;
  tv_timer_ctr : Z;
  tv_listen_pcbs : Z;
  tv_bound_pcbs : Z;
  tv_active_pcbs : Z;
  tv_tw_pcbs : Z;
  tv_pcbs_changed : Z;
  tv_cbs : gmap Z tcp_cb;
  tv_segs : gmap Z tcp_seg;
  tv_in : tcp_in
}.

(** ** Assignments to single fields

    [set_field eta proj x v] is the structure [x] with [v] in the field
    [proj]; [eta x] lists the fields of [x]. *)

Ltac set_field eta proj x v :=
  let t := eval cbv beta delta [eta] in (eta x) in
  let t := eval pattern (proj x) in t in
  match t with ?f _ => let r := eval cbv beta in (f v) in exact r end.

Definition tcp_common_eta (c : tcp_common) : tcp_common :=
  TcpCommon (co_local_ip c) (co_remote_ip c) (co_so_options c) (co_tos c) (co_ttl c) (co_next c)
    (co_callback_arg c) (co_state c) (co_prio c) (co_local_port c).
Definition set_co_local_ip (v : Z) (c : tcp_common) : tcp_common := ltac:(set_field tcp_common_eta co_local_ip c v).
Definition set_co_remote_ip (v : Z) (c : tcp_common) : tcp_common := ltac:(set_field tcp_common_eta co_remote_ip c v).
Definition set_co_so_options (v : Z) (c : tcp_common) : tcp_common := ltac:(set_field tcp_common_eta co_so_options c v).
Definition set_co_tos (v : Z) (c : tcp_common) : tcp_common := ltac:(set_field tcp_common_eta co_tos c v).
Definition set_co_ttl (v : Z) (c : tcp_common) : tcp_common := ltac:(set_field tcp_common_eta co_ttl c v).
Definition set_co_next (v : Z) (c : tcp_common) : tcp_common := ltac:(set_field tcp_common_eta co_next c v).
Definition set_co_callback_arg (v : Z) (c : tcp_common) : tcp_common := ltac:(set_field tcp_common_eta co_callback_arg c v).
Definition set_co_state (v : tcp_state) (c : tcp_common) : tcp_common := ltac:(set_field tcp_common_eta co_state c v).
Definition set_co_prio (v : Z) (c : tcp_common) : tcp_common := ltac:(set_field tcp_common_eta co_prio c v).
Definition set_co_local_port (v : Z) (c : tcp_common) : tcp_common := ltac:(set_field tcp_common_eta co_local_port c v).

Definition tcp_pcb_eta (p : tcp_pcb) : tcp_pcb :=
  TcpPcb (tp_com p) (tp_remote_port p) (tp_flags p) (tp_polltmr p) (tp_pollinterval p)
    (tp_last_timer p) (tp_tmr p) (tp_rcv_nxt p) (tp_rcv_wnd p) (tp_rcv_ann_wnd p)
    (tp_rcv_ann_right_edge p) (tp_rtime p) (tp_mss p) (tp_rttest p) (tp_rtseq p) (tp_sa p) (tp_sv p)
    (tp_rto p) (tp_nrtx p) (tp_dupacks p) (tp_lastack p) (tp_cwnd p) (tp_ssthresh p) (tp_snd_nxt p)
    (tp_snd_wl1 p) (tp_snd_wl2 p) (tp_snd_lbb p) (tp_snd_wnd p) (tp_snd_wnd_max p) (tp_snd_buf p)
    (tp_snd_queuelen p) (tp_unsent_oversize p) (tp_unsent p) (tp_unacked p) (tp_refused_data p)
    (tp_listener p) (tp_sent p) (tp_recv p) (tp_connected p) (tp_poll p) (tp_errf p) (tp_keep_idle
    p) (tp_persist_cnt p) (tp_persist_backoff p) (tp_keep_cnt_sent p).
Definition set_com (v : tcp_common) (p : tcp_pcb) : tcp_pcb := ltac:(set_field tcp_pcb_eta tp_com p v).
Definition set_remote_port (v : Z) (p : tcp_pcb) : tcp_pcb := ltac:(set_field tcp_pcb_eta tp_remote_port p v).
Definition set_flags (v : Z) (p : tcp_pcb) : tcp_pcb := ltac:(set_field tcp_pcb_eta tp_flags p v).
Definition set_polltmr (v : Z) (p : tcp_pcb) : tcp_pcb := ltac:(set_field tcp_pcb_eta tp_polltmr p v).
Definition set_pollinterval (v : Z) (p : tcp_pcb) : tcp_pcb := ltac:(set_field tcp_pcb_eta tp_pollinterval p v).
Definition set_last_timer (v : Z) (p : tcp_pcb) : tcp_pcb := ltac:(set_field tcp_pcb_eta tp_last_timer p v).
Definition set_tmr (v : Z) (p : tcp_pcb) : tcp_pcb := ltac:(set_field tcp_pcb_eta tp_tmr p v).
Definition set_rcv_nxt (v : Z) (p : tcp_pcb) : tcp_pcb := ltac:(set_field tcp_pcb_eta tp_rcv_nxt p v).
Definition set_rcv_wnd (v : Z) (p : tcp_pcb) : tcp_pcb := ltac:(set_field tcp_pcb_eta tp_rcv_wnd p v).
Definition set_rcv_ann_wnd (v : Z) (p : tcp_pcb) : tcp_pcb := ltac:(set_field tcp_pcb_eta tp_rcv_ann_wnd p v).
Definition set_rcv_ann_right_edge (v : Z) (p : tcp_pcb) : tcp_pcb := ltac:(set_field tcp_pcb_eta tp_rcv_ann_right_edge p v).
Definition set_rtime (v : Z) (p : tcp_pcb) : tcp_pcb := ltac:(set_field tcp_pcb_eta tp_rtime p v).
Definition set_mss (v : Z) (p : tcp_pcb) : tcp_pcb := ltac:(set_field tcp_pcb_eta tp_mss p v).
Definition set_rttest (v : Z) (p : tcp_pcb) : tcp_pcb := ltac:(set_field tcp_pcb_eta tp_rttest p v).
Definition set_rtseq (v : Z) (p : tcp_pcb) : tcp_pcb := ltac:(set_field tcp_pcb_eta tp_rtseq p v).
Definition set_sa (v : Z) (p : tcp_pcb) : tcp_pcb := ltac:(set_field tcp_pcb_eta tp_sa p v).
Definition set_sv (v : Z) (p : tcp_pcb) : tcp_pcb := ltac:(set_field tcp_pcb_eta tp_sv p v).
Definition set_rto (v : Z) (p : tcp_pcb) : tcp_pcb := ltac:(set_field tcp_pcb_eta tp_rto p v).
Definition set_nrtx (v : Z) (p : tcp_pcb) : tcp_pcb := ltac:(set_field tcp_pcb_eta tp_nrtx p v).
Definition set_dupacks (v : Z) (p : tcp_pcb) : tcp_pcb := ltac:(set_field tcp_pcb_eta tp_dupacks p v).
Definition set_lastack (v : Z) (p : tcp_pcb) : tcp_pcb := ltac:(set_field tcp_pcb_eta tp_lastack p v).
Definition set_cwnd (v : Z) (p : tcp_pcb) : tcp_pcb := ltac:(set_field tcp_pcb_eta tp_cwnd p v).
Definition set_ssthresh (v : Z) (p : tcp_pcb) : tcp_pcb := ltac:(set_field tcp_pcb_eta tp_ssthresh p v).
Definition set_snd_nxt (v : Z) (p : tcp_pcb) : tcp_pcb := ltac:(set_field tcp_pcb_eta tp_snd_nxt p v).
Definition set_snd_wl1 (v : Z) (p : tcp_pcb) : tcp_pcb := ltac:(set_field tcp_pcb_eta tp_snd_wl1 p v).
Definition set_snd_wl2 (v : Z) (p : tcp_pcb) : tcp_pcb := ltac:(set_field tcp_pcb_eta tp_snd_wl2 p v).
Definition set_snd_lbb (v : Z) (p : tcp_pcb) : tcp_pcb := ltac:(set_field tcp_pcb_eta tp_snd_lbb p v).
Definition set_snd_wnd (v : Z) (p : tcp_pcb) : tcp_pcb := ltac:(set_field tcp_pcb_eta tp_snd_wnd p v).
Definition set_snd_wnd_max (v : Z) (p : tcp_pcb) : tcp_pcb := ltac:(set_field tcp_pcb_eta tp_snd_wnd_max p v).
Definition set_snd_buf (v : Z) (p : tcp_pcb) : tcp_pcb := ltac:(set_field tcp_pcb_eta tp_snd_buf p v).
Definition set_snd_queuelen (v : Z) (p : tcp_pcb) : tcp_pcb := ltac:(set_field tcp_pcb_eta tp_snd_queuelen p v).
Definition set_unsent_oversize (v : Z) (p : tcp_pcb) : tcp_pcb := ltac:(set_field tcp_pcb_eta tp_unsent_oversize p v).
Definition set_unsent (v : Z) (p : tcp_pcb) : tcp_pcb := ltac:(set_field tcp_pcb_eta tp_unsent p v).
Definition set_unacked (v : Z) (p : tcp_pcb) : tcp_pcb := ltac:(set_field tcp_pcb_eta tp_unacked p v).
Definition set_refused_data (v : Z) (p : tcp_pcb) : tcp_pcb := ltac:(set_field tcp_pcb_eta tp_refused_data p v).
Definition set_listener (v : Z) (p : tcp_pcb) : tcp_pcb := ltac:(set_field tcp_pcb_eta tp_listener p v).
Definition set_sent (v : Z) (p : tcp_pcb) : tcp_pcb := ltac:(set_field tcp_pcb_eta tp_sent p v).
Definition set_recv (v : Z) (p : tcp_pcb) : tcp_pcb := ltac:(set_field tcp_pcb_eta tp_recv p v).
Definition set_connected (v : Z) (p : tcp_pcb) : tcp_pcb := ltac:(set_field tcp_pcb_eta tp_connected p v).
Definition set_poll (v : Z) (p : tcp_pcb) : tcp_pcb := ltac:(set_field tcp_pcb_eta tp_poll p v).
Definition set_errf (v : Z) (p : tcp_pcb) : tcp_pcb := ltac:(set_field tcp_pcb_eta tp_errf p v).
Definition set_keep_idle (v : Z) (p : tcp_pcb) : tcp_pcb := ltac:(set_field tcp_pcb_eta tp_keep_idle p v).
Definition set_persist_cnt (v : Z) (p : tcp_pcb) : tcp_pcb := ltac:(set_field tcp_pcb_eta tp_persist_cnt p v).
Definition set_persist_backoff (v : Z) (p : tcp_pcb) : tcp_pcb := ltac:(set_field tcp_pcb_eta tp_persist_backoff p v).
Definition set_keep_cnt_sent (v : Z) (p : tcp_pcb) : tcp_pcb := ltac:(set_field tcp_pcb_eta tp_keep_cnt_sent p v).

Definition set_local_ip (v : Z) (p : tcp_pcb) : tcp_pcb := set_com (set_co_local_ip v (tp_com p)) p.
Definition set_remote_ip (v : Z) (p : tcp_pcb) : tcp_pcb := set_com (set_co_remote_ip v (tp_com p)) p.
Definition set_state (v : tcp_state) (p : tcp_pcb) : tcp_pcb := set_com (set_co_state v (tp_com p)) p.
Definition set_local_port (v : Z) (p : tcp_pcb) : tcp_pcb := set_com (set_co_local_port v (tp_com p)) p.
Definition set_callback_arg (v : Z) (p : tcp_pcb) : tcp_pcb := set_com (set_co_callback_arg v (tp_com p)) p.
Definition set_so_options (v : Z) (p : tcp_pcb) : tcp_pcb := set_com (set_co_so_options v (tp_com p)) p.
Abbreviation tp_local_ip p := (co_local_ip (tp_com p)).
Abbreviation tp_remote_ip p := (co_remote_ip (tp_com p)).
Abbreviation tp_state p := (co_state (tp_com p)).
Abbreviation tp_local_port p := (co_local_port (tp_com p)).
Abbreviation tp_callback_arg p := (co_callback_arg (tp_com p)).

Definition tcp_seg_eta (s : tcp_seg) : tcp_seg :=
  TcpSeg (sg_next s) (sg_p s) (sg_len s) (sg_flags s) (sg_tcphdr s).
Definition set_sg_next (v : Z) (s : tcp_seg) : tcp_seg := ltac:(set_field tcp_seg_eta sg_next s v).
Definition set_sg_p (v : Z) (s : tcp_seg) : tcp_seg := ltac:(set_field tcp_seg_eta sg_p s v).
Definition set_sg_len (v : Z) (s : tcp_seg) : tcp_seg := ltac:(set_field tcp_seg_eta sg_len s v).
Definition set_sg_flags (v : Z) (s : tcp_seg) : tcp_seg := ltac:(set_field tcp_seg_eta sg_flags s v).
Definition set_sg_tcphdr (v : Z) (s : tcp_seg) : tcp_seg := ltac:(set_field tcp_seg_eta sg_tcphdr s v).

Definition tcp_in_eta (i : tcp_in) : tcp_in :=
  TcpIn (ti_inseg i) (ti_tcphdr i) (ti_tcphdr_optlen i) (ti_tcphdr_opt1len i) (ti_tcphdr_opt2 i)
    (ti_tcp_optidx i) (ti_seqno i) (ti_ackno i) (ti_recv_acked i) (ti_tcplen i) (ti_flags i)
    (ti_recv_flags i) (ti_recv_data i) (ti_input_pcb i).
Definition set_ti_inseg (v : tcp_seg) (i : tcp_in) : tcp_in := ltac:(set_field tcp_in_eta ti_inseg i v).
Definition set_ti_tcphdr (v : Z) (i : tcp_in) : tcp_in := ltac:(set_field tcp_in_eta ti_tcphdr i v).
Definition set_ti_tcphdr_optlen (v : Z) (i : tcp_in) : tcp_in := ltac:(set_field tcp_in_eta ti_tcphdr_optlen i v).
Definition set_ti_tcphdr_opt1len (v : Z) (i : tcp_in) : tcp_in := ltac:(set_field tcp_in_eta ti_tcphdr_opt1len i v).
Definition set_ti_tcphdr_opt2 (v : Z) (i : tcp_in) : tcp_in := ltac:(set_field tcp_in_eta ti_tcphdr_opt2 i v).
Definition set_ti_tcp_optidx (v : Z) (i : tcp_in) : tcp_in := ltac:(set_field tcp_in_eta ti_tcp_optidx i v).
Definition set_ti_seqno (v : Z) (i : tcp_in) : tcp_in := ltac:(set_field tcp_in_eta ti_seqno i v).
Definition set_ti_ackno (v : Z) (i : tcp_in) : tcp_in := ltac:(set_field tcp_in_eta ti_ackno i v).
Definition set_ti_recv_acked (v : Z) (i : tcp_in) : tcp_in := ltac:(set_field tcp_in_eta ti_recv_acked i v).
Definition set_ti_tcplen (v : Z) (i : tcp_in) : tcp_in := ltac:(set_field tcp_in_eta ti_tcplen i v).
Definition set_ti_flags (v : Z) (i : tcp_in) : tcp_in := ltac:(set_field tcp_in_eta ti_flags i v).
Definition set_ti_recv_flags (v : Z) (i : tcp_in) : tcp_in := ltac:(set_field tcp_in_eta ti_recv_flags i v).
Definition set_ti_recv_data (v : Z) (i : tcp_in) : tcp_in := ltac:(set_field tcp_in_eta ti_recv_data i v).
Definition set_ti_input_pcb (v : Z) (i : tcp_in) : tcp_in := ltac:(set_field tcp_in_eta ti_input_pcb i v).

Definition tcp_vars_eta (v0 : tcp_vars) : tcp_vars :=
  TcpVars (tv_port v0) (tv_iss v0) (tv_ticks v0) (tv_timer v0) (tv_timer_ctr v0) (tv_listen_pcbs v0)
    (tv_bound_pcbs v0) (tv_active_pcbs v0) (tv_tw_pcbs v0) (tv_pcbs_changed v0) (tv_cbs v0) (tv_segs
    v0) (tv_in v0).
Definition set_tv_port (v : Z) (v0 : tcp_vars) : tcp_vars := ltac:(set_field tcp_vars_eta tv_port v0 v).
Definition set_tv_iss (v : Z) (v0 : tcp_vars) : tcp_vars := ltac:(set_field tcp_vars_eta tv_iss v0 v).
Definition set_tv_ticks (v : Z) (v0 : tcp_vars) : tcp_vars := ltac:(set_field tcp_vars_eta tv_ticks v0 v).
Definition set_tv_timer (v : Z) (v0 : tcp_vars) : tcp_vars := ltac:(set_field tcp_vars_eta tv_timer v0 v).
Definition set_tv_timer_ctr (v : Z) (v0 : tcp_vars) : tcp_vars := ltac:(set_field tcp_vars_eta tv_timer_ctr v0 v).
Definition set_tv_listen_pcbs (v : Z) (v0 : tcp_vars) : tcp_vars := ltac:(set_field tcp_vars_eta tv_listen_pcbs v0 v).
Definition set_tv_bound_pcbs (v : Z) (v0 : tcp_vars) : tcp_vars := ltac:(set_field tcp_vars_eta tv_bound_pcbs v0 v).
Definition set_tv_active_pcbs (v : Z) (v0 : tcp_vars) : tcp_vars := ltac:(set_field tcp_vars_eta tv_active_pcbs v0 v).
Definition set_tv_tw_pcbs (v : Z) (v0 : tcp_vars) : tcp_vars := ltac:(set_field tcp_vars_eta tv_tw_pcbs v0 v).
Definition set_tv_pcbs_changed (v : Z) (v0 : tcp_vars) : tcp_vars := ltac:(set_field tcp_vars_eta tv_pcbs_changed v0 v).
Definition set_tv_cbs (v : gmap Z tcp_cb) (v0 : tcp_vars) : tcp_vars := ltac:(set_field tcp_vars_eta tv_cbs v0 v).
Definition set_tv_segs (v : gmap Z tcp_seg) (v0 : tcp_vars) : tcp_vars := ltac:(set_field tcp_vars_eta tv_segs v0 v).
Definition set_tv_in (v : tcp_in) (v0 : tcp_vars) : tcp_vars := ltac:(set_field tcp_vars_eta tv_in v0 v).

(** [pcb->flags |= f] and [pcb->flags &= ~f] *)
Definition or_flags (f : Z) (p : tcp_pcb) : tcp_pcb := set_flags (Z.lor (tp_flags p) f) p.
Definition and_not_flags (f : Z) (p : tcp_pcb) : tcp_pcb := set_flags (unset (tp_flags p) f) p.
Definition tcp_ack_now : tcp_pcb → tcp_pcb := or_flags TF_ACK_NOW.
Definition tcp_ack (p : tcp_pcb) : tcp_pcb :=
  if flag (tp_flags p) TF_ACK_DELAY then or_flags TF_ACK_NOW (and_not_flags TF_ACK_DELAY p)
  else or_flags TF_ACK_DELAY p.

Definition common_of (b : tcp_cb) : tcp_common :=
  match b with CbPcb p => tp_com p | CbListen l => tl_com l end.
Definition set_common (c : tcp_common) (b : tcp_cb) : tcp_cb :=
  match b with
  | CbPcb p => CbPcb (set_com c p)
  | CbListen l => CbListen (TcpPcbListen c (tl_accept l))
  end.
Definition cb_next (b : tcp_cb) : Z := co_next (common_of b).

Definition head_of (l : pcb_list) (v : tcp_vars) : Z :=
  match l with
  | LISTEN_PCBS => tv_listen_pcbs v | BOUND_PCBS => tv_bound_pcbs v
  | ACTIVE_PCBS => tv_active_pcbs v | TW_PCBS => tv_tw_pcbs v
  end.
Definition set_head (l : pcb_list) (n : Z) (v : tcp_vars) : tcp_vars :=
  match l with
  | LISTEN_PCBS => set_tv_listen_pcbs n v | BOUND_PCBS => set_tv_bound_pcbs n v
  | ACTIVE_PCBS => set_tv_active_pcbs n v | TW_PCBS => set_tv_tw_pcbs n v
  end.

(** ** Access to the variables *)

Class HasTcp (W : Type) := {
  tcp_of : W → tcp_vars;
  with_tcp : tcp_vars → W → W;
  tcp_of_with : ∀ v w, tcp_of (with_tcp v w) = v;
  with_tcp_of : ∀ w, with_tcp (tcp_of w) w = w;
  with_tcp_with : ∀ v v' w, with_tcp v (with_tcp v' w) = with_tcp v w
}.

(** What TCP calls: the output function of the interfaces, the start of the
    TCP timer (core/timeouts.c), the callbacks of the application by their
    function pointers, and the pointers to the two functions of tcp.c that
    serve as callbacks. *)
Class TcpEnv (W : Type) := {
  netif_output : Z → Z → Z → prog (istate W) Z;
  tcp_timer_needed : prog (istate W) unit;
  call_accept : Z → Z → Z → Z → prog (istate W) Z;       (* fn arg newpcb err *)
  call_recv : Z → Z → Z → Z → Z → prog (istate W) Z;     (* fn arg pcb p err *)
  call_sent : Z → Z → Z → Z → prog (istate W) Z;         (* fn arg pcb len *)
  call_connected : Z → Z → Z → Z → prog (istate W) Z;    (* fn arg pcb err *)
  call_poll : Z → Z → Z → prog (istate W) Z;             (* fn arg pcb *)
  call_errf : Z → Z → Z → prog (istate W) unit;          (* fn arg err *)
  fn_tcp_accept_null : Z;
  fn_tcp_recv_null : Z
}.

(** The contents of a structure that has just been allocated: garbage. *)
Definition uninit : Z := 3452816845.

Section tcp_data.
  Context {W : Type} `{HT : HasTcp W} `{TE : TcpEnv W}.

Definition tcp_get {A} (f : tcp_vars → A) : prog (istate W) A := ip_get (λ i, f (tcp_of (is_rest i))).
Definition tcp_mod (f : tcp_vars → tcp_vars) : prog (istate W) unit :=
  ip_set (λ i, IpState (is_netif_list i) (is_netif_default i) (is_netif_num i) (is_client_id i) (is_ip_id i)
                 (is_mcast_netif i) (is_data i) (with_tcp (f (tcp_of (is_rest i))) (is_rest i))).

(** [*pcb] as either structure, as its common part, as a [struct tcp_pcb] and
    as a [struct tcp_pcb_listen]. *)
Definition the_cb (n : Z) : prog (istate W) tcp_cb := r ← tcp_get (λ v, tv_cbs v !! n); lift r.
Definition put_cb (n : Z) (b : tcp_cb) : prog (istate W) unit :=
  tcp_mod (λ v, set_tv_cbs (<[n := b]> (tv_cbs v)) v).
Definition com (n : Z) : prog (istate W) tcp_common := b ← the_cb n; mret (common_of b).
Definition upd_com (n : Z) (f : tcp_common → tcp_common) : prog (istate W) unit :=
  b ← the_cb n; put_cb n (set_common (f (common_of b)) b).
Definition tcb (n : Z) : prog (istate W) tcp_pcb :=
  b ← the_cb n; match b with CbPcb p => mret p | CbListen _ => stuck end.
Definition upd_tcb (n : Z) (f : tcp_pcb → tcp_pcb) : prog (istate W) unit :=
  p ← tcb n; put_cb n (CbPcb (f p)).
Definition lcb (n : Z) : prog (istate W) tcp_pcb_listen :=
  b ← the_cb n; match b with CbPcb _ => stuck | CbListen l => mret l end.

(** [*seg] *)
Definition the_seg (n : Z) : prog (istate W) tcp_seg := r ← tcp_get (λ v, tv_segs v !! n); lift r.
Definition put_seg (n : Z) (x : tcp_seg) : prog (istate W) unit :=
  tcp_mod (λ v, set_tv_segs (<[n := x]> (tv_segs v)) v).
Definition upd_seg (n : Z) (f : tcp_seg → tcp_seg) : prog (istate W) unit := x ← the_seg n; put_seg n (f x).

(** Enough for a walk over a list of control blocks, of segments. *)
Definition cb_fuel (v : tcp_vars) : nat := S (S (size (tv_cbs v))).
Definition seg_fuel (v : tcp_vars) : nat := S (S (size (tv_segs v))).

(** [memp_free] of the three pools *)
Definition free_tcb (n : Z) : prog (istate W) unit :=
  packets (on_pools (memp_free MEMP_TCP_PCB n)) ;; tcp_mod (λ v, set_tv_cbs (delete n (tv_cbs v)) v).
Definition free_lcb (n : Z) : prog (istate W) unit :=
  packets (on_pools (memp_free MEMP_TCP_PCB_LISTEN n)) ;; tcp_mod (λ v, set_tv_cbs (delete n (tv_cbs v)) v).
Definition free_seg (n : Z) : prog (istate W) unit :=
  packets (on_pools (memp_free MEMP_TCP_SEG n)) ;; tcp_mod (λ v, set_tv_segs (delete n (tv_segs v)) v).

(** ** The TCP header: src 0, dest 2, seqno 4, ackno 8, _hdrlen_rsvd_flags 12,
    wnd 14, chksum 16, urgp 18 *)

Definition rd16 (a : Z) : prog (istate W) Z := x ← peek a 2; mret (of_le x).
Definition rd32 (a : Z) : prog (istate W) Z := x ← peek a 4; mret (of_le x).
Definition wr16 (a v : Z) : prog (istate W) unit := poke a (le16 v).
Definition wr32 (a v : Z) : prog (istate W) unit := poke a (addr_bytes v).

Definition TCPH_HDRLEN (h : Z) : prog (istate W) Z :=
  x ← rd16 (h + 12); mret (Z.shiftr (lwip_htons x) 12).
Definition TCPH_FLAGS (h : Z) : prog (istate W) Z :=
  x ← rd16 (h + 12); mret (Z.land (lwip_htons x) TCP_FLAGS).
Definition TCPH_FLAGS_SET (h flags : Z) : prog (istate W) unit :=
  x ← rd16 (h + 12);
  wr16 (h + 12) (Z.lor (Z.land x (PP_HTONS (Z.lnot TCP_FLAGS))) (lwip_htons flags)).
Definition TCPH_HDRLEN_FLAGS_SET (h len flags : Z) : prog (istate W) unit :=
  wr16 (h + 12) (lwip_htons (Z.lor (u16 (Z.shiftl len 12)) flags)).
Definition TCPH_SET_FLAG (h flags : Z) : prog (istate W) unit :=
  x ← rd16 (h + 12); wr16 (h + 12) (Z.lor x (lwip_htons flags)).

(** [lwip_ntohl(seg->tcphdr->seqno)] *)
Definition seg_seqno (x : tcp_seg) : prog (istate W) Z :=
  n ← rd32 (sg_tcphdr x + 4); mret (lwip_htonl n).
Definition TCP_TCPLEN (x : tcp_seg) : prog (istate W) Z :=
  fl ← TCPH_FLAGS (sg_tcphdr x);
  mret (sg_len x + if flag fl (Z.lor TCP_FIN TCP_SYN) then 1 else 0).

Definition LWIP_TCP_OPT_LENGTH (flags : Z) : Z :=
  if flag flags TF_SEG_OPTS_MSS then LWIP_TCP_OPT_LEN_MSS else 0.
Definition TCP_BUILD_MSS_OPTION (mss : Z) : Z := lwip_htonl (Z.lor 0x02040000 (Z.land mss 0xffff)).

(** ** Lists of control blocks *)

Definition TCP_REG (l : pcb_list) (npcb : Z) : prog (istate W) unit :=
  h ← tcp_get (head_of l);
  upd_com npcb (set_co_next h) ;;
  tcp_mod (set_head l npcb) ;;
  tcp_timer_needed.

Fixpoint rmv_loop (fuel : nat) (tcp_tmp_pcb npcb : Z) : prog (istate W) unit :=
  match fuel with
  | O => stuck
  | S fuel' =>
      if tcp_tmp_pcb =? 0 then mret tt else
      c ← com tcp_tmp_pcb;
      if co_next c =? npcb then n ← com npcb; upd_com tcp_tmp_pcb (set_co_next (co_next n))
      else rmv_loop fuel' (co_next c) npcb
  end.
Definition TCP_RMV (l : pcb_list) (npcb : Z) : prog (istate W) unit :=
  h ← tcp_get (head_of l);
  (if h =? npcb then c ← com h; tcp_mod (set_head l (co_next c))
   else fuel ← tcp_get cb_fuel; rmv_loop fuel h npcb) ;;
  upd_com npcb (set_co_next 0).

Definition TCP_REG_ACTIVE (npcb : Z) : prog (istate W) unit :=
  TCP_REG ACTIVE_PCBS npcb ;; tcp_mod (set_tv_pcbs_changed 1).
Definition TCP_RMV_ACTIVE (npcb : Z) : prog (istate W) unit :=
  TCP_RMV ACTIVE_PCBS npcb ;; tcp_mod (set_tv_pcbs_changed 1).

(** ** Releasing segments (core/tcp.c) *)

Definition tcp_seg_free (seg : Z) : prog (istate W) unit :=
  when (negb (seg =? 0))
    (x ← the_seg seg;
     when (negb (sg_p x =? 0)) (free_pbuf (sg_p x)) ;;
     free_seg seg).

Fixpoint segs_free_loop (fuel : nat) (seg : Z) : prog (istate W) unit :=
  match fuel with
  | O => stuck
  | S fuel' =>
      if seg =? 0 then mret tt else
      x ← the_seg seg;
      tcp_seg_free seg ;;
      segs_free_loop fuel' (sg_next x)
  end.
Definition tcp_segs_free (seg : Z) : prog (istate W) unit :=
  fuel ← tcp_get seg_fuel; segs_free_loop fuel seg.

Definition tcp_pcb_purge (pcb : Z) : prog (istate W) unit :=
  c ← com pcb;
  when (negb (state_is (co_state c) CLOSED) && negb (state_is (co_state c) TIME_WAIT)
        && negb (state_is (co_state c) LISTEN))
    (p ← tcb pcb;
     when (negb (tp_refused_data p =? 0))
       (free_pbuf (tp_refused_data p) ;; upd_tcb pcb (set_refused_data 0)) ;;
     upd_tcb pcb (set_rtime (-1)) ;;
     p ← tcb pcb;
     tcp_segs_free (tp_unsent p) ;;
     p ← tcb pcb;
     tcp_segs_free (tp_unacked p) ;;
     upd_tcb pcb (λ p, set_unacked 0 (set_unsent 0 p)) ;;
     upd_tcb pcb (set_unsent_oversize 0)).

(** [tcp_next_iss]; the variable [iss] is static there. *)
Definition tcp_next_iss : prog (istate W) Z :=
  iss ← tcp_get tv_iss;
  t ← tcp_get tv_ticks;
  tcp_mod (set_tv_iss (u32 (iss + t))) ;;
  mret (u32 (iss + t)).

Definition tcp_eff_send_mss (sendmss dest : Z) : prog (istate W) Z :=
  outif ← ip4_route dest;
  if outif =? 0 then mret sendmss else
  nf ← the_netif outif;
  let mtu := s16 (nf_mtu nf) in
  if mtu =? 0 then mret sendmss
  else mret (Z.min sendmss (u16 (mtu - IP_HLEN - TCP_HLEN))).
End tcp_data.
