(* ===== verification/TcpOut.v ===== *)
(** * Sending of TCP (middlewares/lwip/src/core/tcp_out.c)

    The queue of unsent segments that [tcp_write] and [tcp_enqueue_flags]
    fill, the window and Nagle's algorithm in [tcp_output], retransmissions,
    and the segments without data: acknowledgements, resets, keepalives and
    window probes.  Checksums are left to the hardware. *)

From stdpp Require Import base numbers list gmap option.
From S2P Require Import Prelude Mem Memp Pbuf Chksum Ip4Addr Etharp Netifs Ip4 TcpBase.

Section tcp_out.
  Context {W : Type} `{HT : HasTcp W} `{TE : TcpEnv W}.

(** [ip_output_if] of this build *)
Definition ip_output_if (p src dest ttl tos proto netif : Z) : prog (istate W) Z :=
  ip4_output_if netif_output p (Some src) (Some dest) ttl tos proto netif.

(** ** Segments *)

Definition tcp_output_alloc_header (pcb optlen datalen seqno_be : Z) : prog (istate W) Z :=
  q ← packets (pbuf_alloc PBUF_IP (u16 (TCP_HLEN + optlen + datalen)) PBUF_RAM);
  when (negb (q =? 0))
    (b ← packets (deref q);
     let tcphdr := pb_payload b in
     p ← tcb pcb;
     wr16 tcphdr (lwip_htons (tp_local_port p)) ;;
     wr16 (tcphdr + 2) (lwip_htons (tp_remote_port p)) ;;
     wr32 (tcphdr + 4) seqno_be ;;
     wr32 (tcphdr + 8) (lwip_htonl (tp_rcv_nxt p)) ;;
     TCPH_HDRLEN_FLAGS_SET tcphdr (5 + optlen / 4) TCP_ACK ;;
     wr16 (tcphdr + 14) (lwip_htons (tp_rcv_ann_wnd p)) ;;
     wr16 (tcphdr + 16) 0 ;;
     wr16 (tcphdr + 18) 0 ;;
     upd_tcb pcb (set_rcv_ann_right_edge (u32 (tp_rcv_nxt p + tp_rcv_ann_wnd p)))) ;;
  mret q.

(** 0 is [NULL]: the pool is empty, or there is no room for the header. *)
Definition tcp_create_segment (pcb q flags seqno optflags : Z) : prog (istate W) Z :=
  let optlen := LWIP_TCP_OPT_LENGTH optflags in
  seg ← packets (on_pools (memp_malloc MEMP_TCP_SEG));
  if seg =? 0 then free_pbuf q ;; mret 0 else
  b ← packets (deref q);
  put_seg seg (TcpSeg 0 q (u16 (pb_tot_len b - optlen)) optflags uninit) ;;
  r ← packets (pbuf_header q TCP_HLEN);
  if negb (r =? 0) then tcp_seg_free seg ;; mret 0 else
  x ← the_seg seg;
  b ← packets (deref (sg_p x));
  let tcphdr := pb_payload b in
  upd_seg seg (set_sg_tcphdr tcphdr) ;;
  p ← tcb pcb;
  wr16 tcphdr (lwip_htons (tp_local_port p)) ;;
  wr16 (tcphdr + 2) (lwip_htons (tp_remote_port p)) ;;
  wr32 (tcphdr + 4) (lwip_htonl seqno) ;;
  TCPH_HDRLEN_FLAGS_SET tcphdr (5 + optlen / 4) flags ;;
  wr16 (tcphdr + 18) 0 ;;
  mret seg.

(** The last segment of a queue that is not empty. *)
Fixpoint last_seg (fuel : nat) (seg : Z) : prog (istate W) Z :=
  match fuel with
  | O => stuck
  | S fuel' =>
      x ← the_seg seg;
      if sg_next x =? 0 then mret seg else last_seg fuel' (sg_next x)
  end.

(** [cur_seg] walks to the first segment that is not before [seg], which is
    linked in there; [prev] is the segment that [cur_seg] is the [next] field
    of, 0 for the head of the queue. *)
Fixpoint insert_by_seqno (fuel : nat) (set_queue : Z → prog (istate W) unit) (prev cur seg : Z)
    : prog (istate W) unit :=
  match fuel with
  | O => stuck
  | S fuel' =>
      before ← (if cur =? 0 then mret false
                else
                  c ← the_seg cur; cs ← seg_seqno c;
                  x ← the_seg seg; xs ← seg_seqno x;
                  mret (TCP_SEQ_LT cs xs));
      if before : bool then
        c ← the_seg cur; insert_by_seqno fuel' set_queue cur (sg_next c) seg
      else
        upd_seg seg (set_sg_next cur) ;;
        if prev =? 0 then set_queue seg else upd_seg prev (set_sg_next seg)
  end.

(** ** Queueing *)

Definition tcp_enqueue_flags (pcb flags : Z) : prog (istate W) Z :=
  p ← tcb pcb;
  if ((TCP_SND_QUEUELEN <=? tp_snd_queuelen p) || (TCP_SNDQUEUELEN_OVERFLOW <? tp_snd_queuelen p))
     && negb (flag flags TCP_FIN)
  then upd_tcb pcb (or_flags TF_NAGLEMEMERR) ;; mret ERR_MEM else
  let optflags := if flag flags TCP_SYN then TF_SEG_OPTS_MSS else 0 in
  let optlen := LWIP_TCP_OPT_LENGTH optflags in
  q ← packets (pbuf_alloc PBUF_TRANSPORT optlen PBUF_RAM);
  if q =? 0 then upd_tcb pcb (or_flags TF_NAGLEMEMERR) ;; mret ERR_MEM else
  p ← tcb pcb;
  seg ← tcp_create_segment pcb q flags (tp_snd_lbb p) optflags;
  if seg =? 0 then upd_tcb pcb (or_flags TF_NAGLEMEMERR) ;; mret ERR_MEM else
  p ← tcb pcb;
  (if tp_unsent p =? 0 then upd_tcb pcb (set_unsent seg)
   else
     fuel ← tcp_get seg_fuel;
     useg ← last_seg fuel (tp_unsent p);
     upd_seg useg (set_sg_next seg)) ;;
  upd_tcb pcb (set_unsent_oversize 0) ;;
  when (flag flags TCP_SYN || flag flags TCP_FIN)
    (upd_tcb pcb (λ p, set_snd_lbb (u32 (tp_snd_lbb p + 1)) p)) ;;
  when (flag flags TCP_FIN) (upd_tcb pcb (or_flags TF_FIN)) ;;
  x ← the_seg seg;
  n ← packets (pbuf_clen (sg_p x));
  upd_tcb pcb (λ p, set_snd_queuelen (u16 (tp_snd_queuelen p + n)) p) ;;
  mret ERR_OK.

Definition tcp_send_fin (pcb : Z) : prog (istate W) Z :=
  p ← tcb pcb;
  marked ← (if tp_unsent p =? 0 then mret false
            else
              fuel ← tcp_get seg_fuel;
              last_unsent ← last_seg fuel (tp_unsent p);
              x ← the_seg last_unsent;
              fl ← TCPH_FLAGS (sg_tcphdr x);
              if flag fl (Z.lor TCP_SYN (Z.lor TCP_FIN TCP_RST)) then mret false
              else
                TCPH_SET_FLAG (sg_tcphdr x) TCP_FIN ;;
                upd_tcb pcb (or_flags TF_FIN) ;;
                mret true);
  if marked : bool then mret ERR_OK else tcp_enqueue_flags pcb TCP_FIN.

(** The pbuf and the room behind its data ([*oversize]); 0 is [NULL]. *)
Definition tcp_pbuf_prealloc (layer : pbuf_layer) (length max_length pcb apiflags : Z) (first_seg : bool)
    : prog (istate W) (Z * Z) :=
  p ← tcb pcb;
  let alloc :=
    if (length <? max_length)
       && (flag apiflags TCP_WRITE_FLAG_MORE
           || (negb (flag (tp_flags p) TF_NODELAY)
               && (negb first_seg || negb (tp_unsent p =? 0) || negb (tp_unacked p =? 0))))
    then Z.min max_length (LWIP_MEM_ALIGN_SIZE (length + TCP_OVERSIZE)) else length in
  q ← packets (pbuf_alloc layer alloc PBUF_RAM);
  if q =? 0 then mret (0, 0) else
  b ← packets (deref q);
  packets (upd_pbuf q (with_tot_len length)) ;;
  packets (upd_pbuf q (with_len length)) ;;
  mret (q, u16 (pb_len b - length)).

Definition tcp_write_checks (pcb len : Z) : prog (istate W) Z :=
  p ← tcb pcb;
  if negb (state_is (tp_state p) ESTABLISHED) && negb (state_is (tp_state p) CLOSE_WAIT)
     && negb (state_is (tp_state p) SYN_SENT) && negb (state_is (tp_state p) SYN_RCVD)
  then mret ERR_CONN
  else if len =? 0 then mret ERR_OK
  else if tp_snd_buf p <? len then upd_tcb pcb (or_flags TF_NAGLEMEMERR) ;; mret ERR_MEM
  else if (TCP_SND_QUEUELEN <=? tp_snd_queuelen p) || (TCP_SNDQUEUELEN_OVERFLOW <? tp_snd_queuelen p)
  then upd_tcb pcb (or_flags TF_NAGLEMEMERR) ;; mret ERR_MEM
  else mret ERR_OK.

(** The local variables of [tcp_write]. *)
Record tcp_write_locals := WriteLocals {
  wl_pos : Z;
  wl_queuelen : Z;
  wl_oversize : Z;
  wl_oversize_used : Z;
  wl_concat_p : Z;
  wl_extendlen : Z;
  wl_seg : Z;
  wl_prev_seg : Z;
  wl_queue : Z
}.

(** The last pbuf of a chain. *)
Fixpoint last_pbuf (fuel : nat) (p : Z) : prog (istate W) Z :=
  match fuel with
  | O => stuck
  | S fuel' =>
      b ← packets (deref p);
      if pb_next b =? 0 then mret p else last_pbuf fuel' (pb_next b)
  end.

(** Phases 1 and 2: what fits behind the last unsent segment; [false] is
    [goto memerr]. *)
Definition write_extend (pcb arg len apiflags mss_local last_unsent queuelen : Z)
    : prog (istate W) (bool * tcp_write_locals) :=
  u ← the_seg last_unsent;
  let unsent_optlen := LWIP_TCP_OPT_LENGTH (sg_flags u) in
  let space := u16 (mss_local - (sg_len u + unsent_optlen)) in
  p ← tcb pcb;
  let oversize := tp_unsent_oversize p in
  let oversize_used := if 0 <? oversize then Z.min space (Z.min oversize len) else 0 in
  let seg := if 0 <? oversize then last_unsent else 0 in
  let pos := oversize_used in
  let oversize := oversize - oversize_used in
  let space := space - oversize_used in
  if (pos <? len) && (0 <? space) && (0 <? sg_len u) then
    let seglen := Z.min space (len - pos) in
    let seg := last_unsent in
    if flag apiflags TCP_WRITE_FLAG_COPY then
      '(concat_p, os) ← tcp_pbuf_prealloc PBUF_RAW seglen space pcb apiflags true;
      if concat_p =? 0 then mret (false, WriteLocals pos queuelen oversize oversize_used 0 0 seg 0 0) else
      b ← packets (deref concat_p);
      packets (MEMCPY (pb_payload b) (arg + pos) seglen) ;;
      n ← packets (pbuf_clen concat_p);
      mret (true, WriteLocals (pos + seglen) (u16 (queuelen + n)) os oversize_used concat_p 0 seg 0 0)
    else
      fuel ← gets (λ s, chain_fuel (as_packets s));
      l ← last_pbuf fuel (sg_p u);
      b ← packets (deref l);
      if bool_decide (pb_type b = PBUF_ROM) && (pb_payload b + pb_len b =? arg) then
        mret (true, WriteLocals (pos + seglen) queuelen oversize oversize_used 0 seglen seg 0 0)
      else
        concat_p ← packets (pbuf_alloc PBUF_RAW seglen PBUF_ROM);
        if concat_p =? 0 then mret (false, WriteLocals pos queuelen oversize oversize_used 0 0 seg 0 0) else
        packets (upd_pbuf concat_p (with_payload (arg + pos))) ;;
        n ← packets (pbuf_clen concat_p);
        mret (true, WriteLocals (pos + seglen) (u16 (queuelen + n)) oversize oversize_used concat_p 0 seg 0 0)
  else mret (true, WriteLocals pos queuelen oversize oversize_used 0 0 seg 0 0).

(** The pbuf of a new segment and the new value of [oversize]; [None] is
    [goto memerr]. *)
Definition write_pbuf (pcb arg apiflags mss_local pos seglen oversize : Z) (first_seg : bool)
    : prog (istate W) (option (Z * Z)) :=
  if flag apiflags TCP_WRITE_FLAG_COPY then
    '(q, os) ← tcp_pbuf_prealloc PBUF_TRANSPORT seglen mss_local pcb apiflags first_seg;
    if q =? 0 then mret None else
    b ← packets (deref q);
    packets (MEMCPY (pb_payload b) (arg + pos) seglen) ;;
    mret (Some (q, os))
  else
    p2 ← packets (pbuf_alloc PBUF_TRANSPORT seglen PBUF_ROM);
    if p2 =? 0 then mret None else
    packets (upd_pbuf p2 (with_payload (arg + pos))) ;;
    q ← packets (pbuf_alloc PBUF_TRANSPORT 0 PBUF_RAM);
    if q =? 0 then free_pbuf p2 ;; mret None else
    packets (pbuf_cat q p2) ;;
    mret (Some (q, oversize)).

(** Phase 3: the rest in segments of its own. *)
Fixpoint write_segs (fuel : nat) (pcb arg len apiflags mss_local : Z) (w : tcp_write_locals)
    : prog (istate W) (bool * tcp_write_locals) :=
  match fuel with
  | O => stuck
  | S fuel' =>
      if negb (wl_pos w <? len) then mret (true, w) else
      let left := len - wl_pos w in
      let seglen := Z.min left mss_local in
      r ← write_pbuf pcb arg apiflags mss_local (wl_pos w) seglen (wl_oversize w) (wl_queue w =? 0);
      match r with
      | None => mret (false, w)
      | Some (q, oversize) =>
          n ← packets (pbuf_clen q);
          let queuelen := u16 (wl_queuelen w + n) in
          if (TCP_SND_QUEUELEN <? queuelen) || (TCP_SNDQUEUELEN_OVERFLOW <? queuelen)
          then free_pbuf q ;; mret (false, w) else
          p ← tcb pcb;
          seg ← tcp_create_segment pcb q 0 (u32 (tp_snd_lbb p + wl_pos w)) 0;
          if seg =? 0 then mret (false, w) else
          when (negb (wl_queue w =? 0)) (upd_seg (wl_prev_seg w) (set_sg_next seg)) ;;
          write_segs fuel' pcb arg len apiflags mss_local
            (WriteLocals (u16 (wl_pos w + seglen)) queuelen oversize (wl_oversize_used w) (wl_concat_p w)
               (wl_extendlen w) seg seg (if wl_queue w =? 0 then seg else wl_queue w))
      end
  end.

(** [p->tot_len += n] along a chain, and [n] bytes of [arg] behind its last pbuf. *)
Fixpoint append_oversize (fuel : nat) (p arg n : Z) : prog (istate W) unit :=
  match fuel with
  | O => stuck
  | S fuel' =>
      if p =? 0 then mret tt else
      b ← packets (deref p);
      packets (upd_pbuf p (with_tot_len (u16 (pb_tot_len b + n)))) ;;
      when (pb_next b =? 0)
        (packets (MEMCPY (pb_payload b + pb_len b) arg n) ;;
         packets (upd_pbuf p (with_len (u16 (pb_len b + n))))) ;;
      append_oversize fuel' (pb_next b) arg n
  end.
(** The same for read-only data that goes on in memory. *)
Fixpoint extend_rom (fuel : nat) (p n : Z) : prog (istate W) unit :=
  match fuel with
  | O => stuck
  | S fuel' =>
      b ← packets (deref p);
      packets (upd_pbuf p (with_tot_len (u16 (pb_tot_len b + n)))) ;;
      if pb_next b =? 0 then packets (upd_pbuf p (with_len (u16 (pb_len b + n))))
      else extend_rom fuel' (pb_next b) n
  end.

Definition add_seg_len (seg n : Z) : prog (istate W) unit :=
  upd_seg seg (λ x, set_sg_len (u16 (sg_len x + n)) x).

(** All memory is there: the changes to the queue of unsent segments. *)
Definition write_commit (pcb arg len apiflags last_unsent : Z) (w : tcp_write_locals) : prog (istate W) unit :=
  fuel ← gets (λ s, chain_fuel (as_packets s));
  when (0 <? wl_oversize_used w)
    (u ← the_seg last_unsent;
     append_oversize fuel (sg_p u) arg (wl_oversize_used w) ;;
     add_seg_len last_unsent (wl_oversize_used w)) ;;
  upd_tcb pcb (set_unsent_oversize (wl_oversize w)) ;;
  (if negb (wl_concat_p w =? 0) then
     u ← the_seg last_unsent;
     packets (pbuf_cat (sg_p u) (wl_concat_p w)) ;;
     b ← packets (deref (wl_concat_p w));
     add_seg_len last_unsent (pb_tot_len b)
   else
     when (0 <? wl_extendlen w)
       (u ← the_seg last_unsent;
        extend_rom fuel (sg_p u) (wl_extendlen w) ;;
        add_seg_len last_unsent (wl_extendlen w))) ;;
  (if last_unsent =? 0 then upd_tcb pcb (set_unsent (wl_queue w))
   else upd_seg last_unsent (set_sg_next (wl_queue w))) ;;
  upd_tcb pcb (λ p, set_snd_lbb (u32 (tp_snd_lbb p + len)) p) ;;
  upd_tcb pcb (λ p, set_snd_buf (u16 (tp_snd_buf p - len)) p) ;;
  upd_tcb pcb (set_snd_queuelen (wl_queuelen w)) ;;
  when (negb (wl_seg w =? 0))
    (x ← the_seg (wl_seg w);
     when (negb (sg_tcphdr x =? 0) && negb (flag apiflags TCP_WRITE_FLAG_MORE))
       (TCPH_SET_FLAG (sg_tcphdr x) TCP_PSH)).

Definition tcp_write (pcb arg len apiflags : Z) : prog (istate W) Z :=
  p ← tcb pcb;
  let mss_local := Z.min (tp_mss p) (tp_snd_wnd_max p / 2) in
  let mss_local := if mss_local =? 0 then tp_mss p else mss_local in
  if arg =? 0 then mret ERR_ARG else
  err ← tcp_write_checks pcb len;
  if negb (err =? ERR_OK) then mret err else
  p ← tcb pcb;
  fuel ← tcp_get seg_fuel;
  last_unsent ← (if tp_unsent p =? 0 then mret 0 else last_seg fuel (tp_unsent p));
  '(ok, w) ← (if tp_unsent p =? 0 then mret (true, WriteLocals 0 (tp_snd_queuelen p) 0 0 0 0 0 0 0)
              else write_extend pcb arg len apiflags mss_local last_unsent (tp_snd_queuelen p));
  '(ok, w) ← (if ok : bool then write_segs (S (Z.to_nat len)) pcb arg len apiflags mss_local w
              else mret (false, w));
  if ok : bool then write_commit pcb arg len apiflags last_unsent w ;; mret ERR_OK else
  upd_tcb pcb (or_flags TF_NAGLEMEMERR) ;;
  when (negb (wl_concat_p w =? 0)) (free_pbuf (wl_concat_p w)) ;;
  when (negb (wl_queue w =? 0)) (tcp_segs_free (wl_queue w)) ;;
  mret ERR_MEM.

(** ** Sending *)

Definition tcp_send_empty_ack (pcb : Z) : prog (istate W) Z :=
  p ← tcb pcb;
  q ← tcp_output_alloc_header pcb 0 0 (lwip_htonl (tp_snd_nxt p));
  if q =? 0 then upd_tcb pcb (or_flags (Z.lor TF_ACK_DELAY TF_ACK_NOW)) ;; mret ERR_BUF else
  p ← tcb pcb;
  netif ← ip4_route (tp_remote_ip p);
  err ← (if netif =? 0 then mret ERR_RTE
         else ip_output_if q (tp_local_ip p) (tp_remote_ip p) (co_ttl (tp_com p)) (co_tos (tp_com p))
                IP_PROTO_TCP netif);
  free_pbuf q ;;
  upd_tcb pcb (if err =? ERR_OK then and_not_flags (Z.lor TF_ACK_DELAY TF_ACK_NOW)
               else or_flags (Z.lor TF_ACK_DELAY TF_ACK_NOW)) ;;
  mret err.

Definition tcp_output_segment (seg pcb netif : Z) : prog (istate W) Z :=
  x ← the_seg seg;
  b ← packets (deref (sg_p x));
  if negb (pb_ref b =? 1) then mret ERR_OK else
  let tcphdr := sg_tcphdr x in
  p ← tcb pcb;
  wr32 (tcphdr + 8) (lwip_htonl (tp_rcv_nxt p)) ;;
  wr16 (tcphdr + 14) (lwip_htons (tp_rcv_ann_wnd p)) ;;
  upd_tcb pcb (set_rcv_ann_right_edge (u32 (tp_rcv_nxt p + tp_rcv_ann_wnd p))) ;;
  when (flag (sg_flags x) TF_SEG_OPTS_MSS)
    (mss ← tcp_eff_send_mss TCP_MSS (tp_remote_ip p);
     wr32 (tcphdr + TCP_HLEN) (TCP_BUILD_MSS_OPTION mss)) ;;
  when (tp_rtime p <? 0) (upd_tcb pcb (set_rtime 0)) ;;
  when (tp_rttest p =? 0)
    (t ← tcp_get tv_ticks;
     n ← seg_seqno x;
     upd_tcb pcb (λ p, set_rtseq n (set_rttest t p))) ;;
  let len := u16 (tcphdr - pb_payload b) in
  packets (upd_pbuf (sg_p x) (λ b, with_len (u16 (pb_len b - len)) b)) ;;
  packets (upd_pbuf (sg_p x) (λ b, with_tot_len (u16 (pb_tot_len b - len)) b)) ;;
  packets (upd_pbuf (sg_p x) (with_payload tcphdr)) ;;
  wr16 (tcphdr + 16) 0 ;;
  p ← tcb pcb;
  ip_output_if (sg_p x) (tp_local_ip p) (tp_remote_ip p) (co_ttl (tp_com p)) (co_tos (tp_com p))
    IP_PROTO_TCP netif.

(** [lwip_ntohl(seg->tcphdr->seqno) - pcb->lastack + seg->len > wnd] *)
Definition beyond_window (pcb seg wnd : Z) : prog (istate W) bool :=
  x ← the_seg seg;
  n ← seg_seqno x;
  p ← tcb pcb;
  mret (wnd <? u32 (n - tp_lastack p + sg_len x)).

(** [tcp_do_output_nagle] *)
Definition tcp_do_output_nagle (pcb : Z) : prog (istate W) bool :=
  p ← tcb pcb;
  if (tp_unacked p =? 0) || flag (tp_flags p) (Z.lor TF_NODELAY TF_INFR) then mret true else
  full ← (if tp_unsent p =? 0 then mret false
          else x ← the_seg (tp_unsent p); mret (negb (sg_next x =? 0) || (tp_mss p <=? sg_len x)));
  mret (full || (tp_snd_buf p =? 0) || (TCP_SND_QUEUELEN <=? tp_snd_queuelen p)).

(** A segment that was sent goes from the head of [unsent] to [unacked], whose
    last segment is [useg]; answers the new last segment. *)
Definition output_enqueue (pcb seg useg : Z) : prog (istate W) Z :=
  x ← the_seg seg;
  upd_tcb pcb (set_unsent (sg_next x)) ;;
  upd_tcb pcb (λ p, if state_is (tp_state p) SYN_SENT then p
                    else and_not_flags (Z.lor TF_ACK_DELAY TF_ACK_NOW) p) ;;
  n ← seg_seqno x;
  tl ← TCP_TCPLEN x;
  let snd_nxt := u32 (n + tl) in
  upd_tcb pcb (λ p, if TCP_SEQ_LT (tp_snd_nxt p) snd_nxt then set_snd_nxt snd_nxt p else p) ;;
  if negb (0 <? tl) then tcp_seg_free seg ;; mret useg else
  upd_seg seg (set_sg_next 0) ;;
  p ← tcb pcb;
  if tp_unacked p =? 0 then upd_tcb pcb (set_unacked seg) ;; mret seg else
  u ← the_seg useg;
  un ← seg_seqno u;
  if TCP_SEQ_LT n un then
    fuel ← tcp_get seg_fuel;
    insert_by_seqno fuel (λ h, upd_tcb pcb (set_unacked h)) 0 (tp_unacked p) seg ;; mret useg
  else upd_seg useg (set_sg_next seg) ;; mret seg.

(** The loop of [tcp_output]: [ERR_OK], or the error of a segment. *)
Fixpoint output_loop (fuel : nat) (pcb netif wnd seg useg : Z) : prog (istate W) Z :=
  match fuel with
  | O => stuck
  | S fuel' =>
      if seg =? 0 then mret ERR_OK else
      beyond ← beyond_window pcb seg wnd;
      if beyond : bool then mret ERR_OK else
      nagle ← tcp_do_output_nagle pcb;
      p ← tcb pcb;
      if negb nagle && negb (flag (tp_flags p) (Z.lor TF_NAGLEMEMERR TF_FIN)) then mret ERR_OK else
      x ← the_seg seg;
      when (negb (state_is (tp_state p) SYN_SENT)) (TCPH_SET_FLAG (sg_tcphdr x) TCP_ACK) ;;
      err ← tcp_output_segment seg pcb netif;
      if negb (err =? ERR_OK) then upd_tcb pcb (or_flags TF_NAGLEMEMERR) ;; mret err else
      useg ← output_enqueue pcb seg useg;
      p ← tcb pcb;
      output_loop fuel' pcb netif wnd (tp_unsent p) useg
  end.

Definition output_done (pcb : Z) : prog (istate W) Z :=
  upd_tcb pcb (λ p, if tp_unsent p =? 0 then set_unsent_oversize 0 p else p) ;;
  upd_tcb pcb (and_not_flags TF_NAGLEMEMERR) ;;
  mret ERR_OK.

Definition tcp_output (pcb : Z) : prog (istate W) Z :=
  inp ← tcp_get (λ v, ti_input_pcb (tv_in v));
  if inp =? pcb then mret ERR_OK else
  p ← tcb pcb;
  let wnd := Z.min (tp_snd_wnd p) (tp_cwnd p) in
  let seg := tp_unsent p in
  ack ← (if flag (tp_flags p) TF_ACK_NOW
         then (if seg =? 0 then mret true else beyond_window pcb seg wnd) else mret false);
  if ack : bool then tcp_send_empty_ack pcb else
  fuel ← tcp_get seg_fuel;
  useg ← (if tp_unacked p =? 0 then mret 0 else last_seg fuel (tp_unacked p));
  netif ← ip4_route (tp_remote_ip p);
  if netif =? 0 then mret ERR_RTE else
  when (ip4_addr_isany (tp_local_ip p))
    (nf ← the_netif netif; upd_tcb pcb (set_local_ip (nf_ip_addr nf))) ;;
  beyond ← (if seg =? 0 then mret false else beyond_window pcb seg wnd);
  if (beyond : bool) && (0 <? wnd) && (wnd =? tp_snd_wnd p) && (tp_unacked p =? 0) then
    upd_tcb pcb (λ p, if tp_persist_backoff p =? 0 then set_persist_backoff 1 (set_persist_cnt 0 p) else p) ;;
    output_done pcb
  else
    err ← output_loop fuel pcb netif wnd seg useg;
    if negb (err =? ERR_OK) then mret err else output_done pcb.

(** [local_ip] and [remote_ip] point to addresses that do not change here. *)
Definition tcp_rst (seqno ackno local_ip remote_ip local_port remote_port : Z) : prog (istate W) unit :=
  q ← packets (pbuf_alloc PBUF_IP TCP_HLEN PBUF_RAM);
  if q =? 0 then mret tt else
  b ← packets (deref q);
  let tcphdr := pb_payload b in
  wr16 tcphdr (lwip_htons local_port) ;;
  wr16 (tcphdr + 2) (lwip_htons remote_port) ;;
  wr32 (tcphdr + 4) (lwip_htonl seqno) ;;
  wr32 (tcphdr + 8) (lwip_htonl ackno) ;;
  TCPH_HDRLEN_FLAGS_SET tcphdr (TCP_HLEN / 4) (Z.lor TCP_RST TCP_ACK) ;;
  wr16 (tcphdr + 14) (PP_HTONS TCP_WND) ;;
  wr16 (tcphdr + 16) 0 ;;
  wr16 (tcphdr + 18) 0 ;;
  netif ← ip4_route remote_ip;
  when (negb (netif =? 0))
    (_ ← ip_output_if q local_ip remote_ip TCP_TTL 0 IP_PROTO_TCP netif; mret tt) ;;
  free_pbuf q.

(** ** Retransmission *)

(** [if (pcb->nrtx < 0xFF) ++pcb->nrtx] and [pcb->rttest = 0] *)
Definition count_rexmit (p : tcp_pcb) : tcp_pcb :=
  set_rttest 0 (if tp_nrtx p <? 0xff then set_nrtx (tp_nrtx p + 1) p else p).

Definition tcp_rexmit_rto (pcb : Z) : prog (istate W) unit :=
  p ← tcb pcb;
  when (negb (tp_unacked p =? 0))
    (fuel ← tcp_get seg_fuel;
     seg ← last_seg fuel (tp_unacked p);
     upd_seg seg (set_sg_next (tp_unsent p)) ;;
     upd_tcb pcb (set_unsent (tp_unacked p)) ;;
     upd_tcb pcb (set_unacked 0) ;;
     upd_tcb pcb count_rexmit ;;
     _ ← tcp_output pcb; mret tt).

Definition tcp_rexmit (pcb : Z) : prog (istate W) unit :=
  p ← tcb pcb;
  when (negb (tp_unacked p =? 0))
    (let seg := tp_unacked p in
     x ← the_seg seg;
     upd_tcb pcb (set_unacked (sg_next x)) ;;
     fuel ← tcp_get seg_fuel;
     insert_by_seqno fuel (λ h, upd_tcb pcb (set_unsent h)) 0 (tp_unsent p) seg ;;
     x ← the_seg seg;
     when (sg_next x =? 0) (upd_tcb pcb (set_unsent_oversize 0)) ;;
     upd_tcb pcb count_rexmit).

Definition tcp_rexmit_fast (pcb : Z) : prog (istate W) unit :=
  p ← tcb pcb;
  when (negb (tp_unacked p =? 0) && negb (flag (tp_flags p) TF_INFR))
    (tcp_rexmit pcb ;;
     upd_tcb pcb (λ p,
       let ssthresh := Z.min (tp_cwnd p) (tp_snd_wnd p) / 2 in
       let ssthresh := if ssthresh <? 2 * tp_mss p then u16 (2 * tp_mss p) else ssthresh in
       set_rtime 0 (or_flags TF_INFR (set_cwnd (u16 (ssthresh + 3 * tp_mss p)) (set_ssthresh ssthresh p))))).

Definition tcp_keepalive (pcb : Z) : prog (istate W) Z :=
  p ← tcb pcb;
  q ← tcp_output_alloc_header pcb 0 0 (lwip_htonl (u32 (tp_snd_nxt p - 1)));
  if q =? 0 then mret ERR_MEM else
  p ← tcb pcb;
  netif ← ip4_route (tp_remote_ip p);
  err ← (if netif =? 0 then mret ERR_RTE
         else ip_output_if q (tp_local_ip p) (tp_remote_ip p) (co_ttl (tp_com p)) 0 IP_PROTO_TCP netif);
  free_pbuf q ;;
  mret err.

Definition tcp_zero_window_probe (pcb : Z) : prog (istate W) Z :=
  p ← tcb pcb;
  let seg := if tp_unacked p =? 0 then tp_unsent p else tp_unacked p in
  if seg =? 0 then mret ERR_OK else
  x ← the_seg seg;
  fl ← TCPH_FLAGS (sg_tcphdr x);
  let is_fin := flag fl TCP_FIN && (sg_len x =? 0) in
  seqno ← rd32 (sg_tcphdr x + 4);
  q ← tcp_output_alloc_header pcb 0 (if is_fin then 0 else 1) seqno;
  if q =? 0 then mret ERR_MEM else
  b ← packets (deref q);
  (if is_fin then TCPH_FLAGS_SET (pb_payload b) (Z.lor TCP_ACK TCP_FIN)
   else
     sb ← packets (deref (sg_p x));
     _ ← packets (pbuf_copy_partial (sg_p x) (pb_payload b + TCP_HLEN) 1 (u16 (pb_tot_len sb - sg_len x)));
     mret tt) ;;
  n ← seg_seqno x;
  let snd_nxt := u32 (n + 1) in
  upd_tcb pcb (λ p, if TCP_SEQ_LT (tp_snd_nxt p) snd_nxt then set_snd_nxt snd_nxt p else p) ;;
  p ← tcb pcb;
  netif ← ip4_route (tp_remote_ip p);
  err ← (if netif =? 0 then mret ERR_RTE
         else ip_output_if q (tp_local_ip p) (tp_remote_ip p) (co_ttl (tp_com p)) 0 IP_PROTO_TCP netif);
  free_pbuf q ;;
  mret err.
End tcp_out.
