(* ===== verification/Tcp.v ===== *)
(** * Connections of TCP (middlewares/lwip/src/core/tcp.c)

    The life of control blocks: creation, binding, listening, connecting,
    closing, aborting, the choice of a victim when the pool is empty, and the
    two timers.  Loops that call the application have their fuel as an
    argument. *)

From stdpp Require Import base numbers list gmap option.
From S2P Require Import Prelude Mem Memp Pbuf Chksum Ip4Addr Etharp Netifs Ip4 TcpBase TcpOut.

(** As initial send MSS, we use TCP_MSS but limit it to 536. *)
Definition INITIAL_MSS : Z := if 536 <? TCP_MSS then 536 else TCP_MSS.
Definition TCP_LOCAL_PORT_RANGE_START : Z := 0xc000.
Definition TCP_LOCAL_PORT_RANGE_END : Z := 0xffff.
Definition tcp_backoff : list Z := [1; 2; 3; 4; 5; 6; 7; 7; 7; 7; 7; 7; 7].
Definition tcp_persist_backoff : list Z := [3; 6; 12; 24; 48; 96; 120].

Section tcp.
  Context {W : Type} `{HT : HasTcp W} `{TE : TcpEnv W}.

(** ** Removing control blocks *)

Definition tcp_pcb_remove (l : pcb_list) (pcb : Z) : prog (istate W) unit :=
  TCP_RMV l pcb ;;
  tcp_pcb_purge pcb ;;
  c ← com pcb;
  (if negb (state_is (co_state c) TIME_WAIT) && negb (state_is (co_state c) LISTEN) then
     p ← tcb pcb;
     when (flag (tp_flags p) TF_ACK_DELAY)
       (upd_tcb pcb (or_flags TF_ACK_NOW) ;; _ ← tcp_output pcb; mret tt)
   else mret tt) ;;
  upd_com pcb (set_co_state CLOSED) ;;
  upd_com pcb (set_co_local_port 0).
Definition TCP_PCB_REMOVE_ACTIVE (pcb : Z) : prog (istate W) unit :=
  tcp_pcb_remove ACTIVE_PCBS pcb ;; tcp_mod (set_tv_pcbs_changed 1).

Definition TCP_EVENT_ERR (errf arg err : Z) : prog (istate W) unit :=
  when (negb (errf =? 0)) (call_errf errf arg err).

Definition tcp_abandon (pcb : Z) (reset : bool) : prog (istate W) unit :=
  c ← com pcb;
  if state_is (co_state c) TIME_WAIT then tcp_pcb_remove TW_PCBS pcb ;; free_tcb pcb else
  p ← tcb pcb;
  let seqno := tp_snd_nxt p in
  let ackno := tp_rcv_nxt p in
  let errf := tp_errf p in
  let errf_arg := tp_callback_arg p in
  '(send_rst, local_port) ←
    (if state_is (tp_state p) CLOSED then
       when (negb (tp_local_port p =? 0)) (TCP_RMV BOUND_PCBS pcb) ;; mret (false, 0)
     else TCP_PCB_REMOVE_ACTIVE pcb ;; mret (reset, tp_local_port p));
  p ← tcb pcb;
  when (negb (tp_unacked p =? 0)) (tcp_segs_free (tp_unacked p)) ;;
  when (negb (tp_unsent p =? 0)) (tcp_segs_free (tp_unsent p)) ;;
  when (send_rst : bool)
    (tcp_rst seqno ackno (tp_local_ip p) (tp_remote_ip p) local_port (tp_remote_port p)) ;;
  free_tcb pcb ;;
  TCP_EVENT_ERR errf errf_arg ERR_ABRT.

Definition tcp_abort (pcb : Z) : prog (istate W) unit := tcp_abandon pcb true.

(** [if (pcb->listener == lpcb) pcb->listener = NULL] along a list; the walk
    goes over control blocks of connections. *)
Fixpoint remove_listener_loop (fuel : nat) (pcb lpcb : Z) : prog (istate W) unit :=
  match fuel with
  | O => stuck
  | S fuel' =>
      if pcb =? 0 then mret tt else
      p ← tcb pcb;
      when (tp_listener p =? lpcb) (upd_tcb pcb (set_listener 0)) ;;
      remove_listener_loop fuel' (co_next (tp_com p)) lpcb
  end.
Definition tcp_remove_listener (l : pcb_list) (lpcb : Z) : prog (istate W) unit :=
  h ← tcp_get (head_of l); fuel ← tcp_get cb_fuel; remove_listener_loop fuel h lpcb.
Definition tcp_listen_closed (pcb : Z) : prog (istate W) unit :=
  tcp_remove_listener BOUND_PCBS pcb ;;
  tcp_remove_listener ACTIVE_PCBS pcb ;;
  tcp_remove_listener TW_PCBS pcb.

(** ** Closing *)

(** (of core/tcp_in.c) *)
Definition tcp_trigger_input_pcb_close : prog (istate W) unit :=
  tcp_mod (λ v, set_tv_in (set_ti_recv_flags (Z.lor (ti_recv_flags (tv_in v)) TF_CLOSED) (tv_in v)) v).

Definition tcp_close_shutdown_fin (pcb : Z) : prog (istate W) Z :=
  p ← tcb pcb;
  let send_fin (next : tcp_state) : prog (istate W) Z :=
    err ← tcp_send_fin pcb;
    when (err =? ERR_OK) (upd_tcb pcb (set_state next)) ;;
    (if err =? ERR_OK then _ ← tcp_output pcb; mret tt
     else when (err =? ERR_MEM) (upd_tcb pcb (or_flags TF_CLOSEPEND))) ;;
    mret err in
  match tp_state p with
  | SYN_RCVD => send_fin FIN_WAIT_1
  | ESTABLISHED => send_fin FIN_WAIT_1
  | CLOSE_WAIT => send_fin LAST_ACK
  | _ => mret ERR_OK
  end.

(** The connection is reset because received data was not taken. *)
Definition close_reset (pcb : Z) (p : tcp_pcb) : prog (istate W) Z :=
  tcp_rst (tp_snd_nxt p) (tp_rcv_nxt p) (tp_local_ip p) (tp_remote_ip p) (tp_local_port p) (tp_remote_port p) ;;
  tcp_pcb_purge pcb ;;
  TCP_RMV_ACTIVE pcb ;;
  p ← tcb pcb;
  (if state_is (tp_state p) ESTABLISHED then
     upd_tcb pcb (set_state TIME_WAIT) ;; TCP_REG TW_PCBS pcb
   else
     inp ← tcp_get (λ v, ti_input_pcb (tv_in v));
     if inp =? pcb then tcp_trigger_input_pcb_close else free_tcb pcb) ;;
  mret ERR_OK.

Definition tcp_close_shutdown (pcb : Z) (rst_on_unacked_data : bool) : prog (istate W) Z :=
  c ← com pcb;
  reset ← (if rst_on_unacked_data && (state_is (co_state c) ESTABLISHED || state_is (co_state c) CLOSE_WAIT)
           then p ← tcb pcb; mret (negb (tp_refused_data p =? 0) || negb (tp_rcv_wnd p =? TCP_WND))
           else mret false);
  if reset : bool then p ← tcb pcb; close_reset pcb p else
  match co_state c with
  | CLOSED =>
      when (negb (co_local_port c =? 0)) (TCP_RMV BOUND_PCBS pcb) ;; free_tcb pcb ;; mret ERR_OK
  | LISTEN =>
      tcp_listen_closed pcb ;; tcp_pcb_remove LISTEN_PCBS pcb ;; free_lcb pcb ;; mret ERR_OK
  | SYN_SENT => TCP_PCB_REMOVE_ACTIVE pcb ;; free_tcb pcb ;; mret ERR_OK
  | _ => tcp_close_shutdown_fin pcb
  end.

Definition tcp_close (pcb : Z) : prog (istate W) Z :=
  c ← com pcb;
  when (negb (state_is (co_state c) LISTEN)) (upd_tcb pcb (or_flags TF_RXCLOSED)) ;;
  tcp_close_shutdown pcb true.

Definition tcp_shutdown (pcb : Z) (shut_rx shut_tx : bool) : prog (istate W) Z :=
  c ← com pcb;
  if state_is (co_state c) LISTEN then mret ERR_CONN else
  when shut_rx (upd_tcb pcb (or_flags TF_RXCLOSED)) ;;
  if shut_rx && shut_tx then tcp_close_shutdown pcb true else
  when shut_rx
    (p ← tcb pcb;
     when (negb (tp_refused_data p =? 0))
       (free_pbuf (tp_refused_data p) ;; upd_tcb pcb (set_refused_data 0))) ;;
  if shut_tx then
    match co_state c with
    | SYN_RCVD | ESTABLISHED | CLOSE_WAIT => tcp_close_shutdown pcb shut_rx
    | _ => mret ERR_CONN
    end
  else mret ERR_OK.

(** ** The receive window *)

Definition tcp_update_rcv_ann_wnd (pcb : Z) : prog (istate W) Z :=
  p ← tcb pcb;
  let new_right_edge := u32 (tp_rcv_nxt p + tp_rcv_wnd p) in
  if TCP_SEQ_GEQ new_right_edge (tp_rcv_ann_right_edge p + Z.min (TCP_WND / 2) (tp_mss p)) then
    upd_tcb pcb (set_rcv_ann_wnd (tp_rcv_wnd p)) ;;
    mret (u32 (new_right_edge - tp_rcv_ann_right_edge p))
  else
    (if TCP_SEQ_GT (tp_rcv_nxt p) (tp_rcv_ann_right_edge p) then upd_tcb pcb (set_rcv_ann_wnd 0)
     else upd_tcb pcb (set_rcv_ann_wnd (u16 (u32 (tp_rcv_ann_right_edge p - tp_rcv_nxt p))))) ;;
    mret 0.

Definition tcp_recved (pcb len : Z) : prog (istate W) unit :=
  upd_tcb pcb (λ p, set_rcv_wnd (u16 (tp_rcv_wnd p + len)) p) ;;
  upd_tcb pcb (λ p,
    if TCP_WND <? tp_rcv_wnd p then set_rcv_wnd TCP_WND p
    else if (tp_rcv_wnd p =? 0) && (state_is (tp_state p) CLOSE_WAIT || state_is (tp_state p) LAST_ACK)
    then set_rcv_wnd TCP_WND p else p) ;;
  wnd_inflation ← tcp_update_rcv_ann_wnd pcb;
  when (TCP_WND_UPDATE_THRESHOLD <=? s32 wnd_inflation)
    (upd_tcb pcb tcp_ack_now ;; _ ← tcp_output pcb; mret tt).

Definition tcp_recv_null (arg pcb p err : Z) : prog (istate W) Z :=
  if negb (p =? 0) then
    b ← packets (deref p);
    tcp_recved pcb (pb_tot_len b) ;;
    free_pbuf p ;;
    mret ERR_OK
  else if err =? ERR_OK then tcp_close pcb
  else mret ERR_OK.

Definition tcp_accept_null (arg pcb err : Z) : prog (istate W) Z := tcp_abort pcb ;; mret ERR_ABRT.

(** ** Events *)

(** A call through the pointer [recv], which may point into tcp.c. *)
Definition recv_fn (recv arg pcb p err : Z) : prog (istate W) Z :=
  if recv =? fn_tcp_recv_null then tcp_recv_null arg pcb p err else call_recv recv arg pcb p err.
Definition accept_fn (accept arg pcb err : Z) : prog (istate W) Z :=
  if accept =? fn_tcp_accept_null then tcp_accept_null arg pcb err else call_accept accept arg pcb err.

Definition TCP_EVENT_ACCEPT (lpcb pcb arg err : Z) : prog (istate W) Z :=
  l ← lcb lpcb;
  if negb (tl_accept l =? 0) then accept_fn (tl_accept l) arg pcb err else mret ERR_ARG.
Definition TCP_EVENT_SENT (pcb space : Z) : prog (istate W) Z :=
  p ← tcb pcb;
  if negb (tp_sent p =? 0) then call_sent (tp_sent p) (tp_callback_arg p) pcb space else mret ERR_OK.
Definition TCP_EVENT_RECV (pcb q err : Z) : prog (istate W) Z :=
  p ← tcb pcb;
  if negb (tp_recv p =? 0) then recv_fn (tp_recv p) (tp_callback_arg p) pcb q err
  else tcp_recv_null 0 pcb q err.
Definition TCP_EVENT_CLOSED (pcb : Z) : prog (istate W) Z :=
  p ← tcb pcb;
  if negb (tp_recv p =? 0) then recv_fn (tp_recv p) (tp_callback_arg p) pcb 0 ERR_OK else mret ERR_OK.
Definition TCP_EVENT_CONNECTED (pcb err : Z) : prog (istate W) Z :=
  p ← tcb pcb;
  if negb (tp_connected p =? 0) then call_connected (tp_connected p) (tp_callback_arg p) pcb err
  else mret ERR_OK.
Definition TCP_EVENT_POLL (pcb : Z) : prog (istate W) Z :=
  p ← tcb pcb;
  if negb (tp_poll p =? 0) then call_poll (tp_poll p) (tp_callback_arg p) pcb else mret ERR_OK.

(** The FIN behind data that was refused or delivered. *)
Definition grow_for_fin (p : tcp_pcb) : tcp_pcb :=
  if tp_rcv_wnd p =? TCP_WND then p else set_rcv_wnd (u16 (tp_rcv_wnd p + 1)) p.

Definition tcp_process_refused_data (pcb : Z) : prog (istate W) Z :=
  p ← tcb pcb;
  let refused_data := tp_refused_data p in
  b ← packets (deref refused_data);
  let refused_flags := pb_flags b in
  upd_tcb pcb (set_refused_data 0) ;;
  err ← TCP_EVENT_RECV pcb refused_data ERR_OK;
  if err =? ERR_OK then
    if flag refused_flags PBUF_FLAG_TCP_FIN then
      upd_tcb pcb grow_for_fin ;;
      err ← TCP_EVENT_CLOSED pcb;
      mret (if err =? ERR_ABRT then ERR_ABRT else ERR_OK)
    else mret ERR_OK
  else if err =? ERR_ABRT then mret ERR_ABRT
  else upd_tcb pcb (set_refused_data refused_data) ;; mret ERR_INPROGRESS.

(** ** Ports and addresses *)

Fixpoint port_in_list (fuel : nat) (port pcb : Z) : prog (istate W) bool :=
  match fuel with
  | O => stuck
  | S fuel' =>
      if pcb =? 0 then mret false else
      c ← com pcb;
      if co_local_port c =? port then mret true else port_in_list fuel' port (co_next c)
  end.
Fixpoint port_in_lists (ls : list pcb_list) (port : Z) : prog (istate W) bool :=
  match ls with
  | [] => mret false
  | l :: ls' =>
      h ← tcp_get (head_of l);
      fuel ← tcp_get cb_fuel;
      used ← port_in_list fuel port h;
      if used : bool then mret true else port_in_lists ls' port
  end.

Fixpoint tcp_new_port_loop (fuel : nat) (n : Z) : prog (istate W) Z :=
  match fuel with
  | O => stuck
  | S fuel' =>
      port ← tcp_get tv_port;
      let port := if port =? TCP_LOCAL_PORT_RANGE_END then TCP_LOCAL_PORT_RANGE_START else u16 (port + 1) in
      tcp_mod (set_tv_port port) ;;
      used ← port_in_lists tcp_pcb_lists port;
      if used : bool then
        let n := u16 (n + 1) in
        if TCP_LOCAL_PORT_RANGE_END - TCP_LOCAL_PORT_RANGE_START <? n then mret 0
        else tcp_new_port_loop fuel' n
      else mret port
  end.
(** The loop gives up after as many ports as there are in the range. *)
Definition tcp_new_port : prog (istate W) Z :=
  tcp_new_port_loop (S (Z.to_nat (TCP_LOCAL_PORT_RANGE_END - TCP_LOCAL_PORT_RANGE_START))) 0.

(** Has a control block of the list the port, on an address that overlaps? *)
Fixpoint tcp_bind_conflict (fuel : nat) (ipaddr port cpcb : Z) : prog (istate W) bool :=
  match fuel with
  | O => stuck
  | S fuel' =>
      if cpcb =? 0 then mret false else
      c ← com cpcb;
      if (co_local_port c =? port)
         && (ip4_addr_isany (co_local_ip c) || ip4_addr_isany ipaddr || (co_local_ip c =? ipaddr))
      then mret true
      else tcp_bind_conflict fuel' ipaddr port (co_next c)
  end.
Fixpoint tcp_bind_conflicts (ls : list pcb_list) (ipaddr port : Z) : prog (istate W) bool :=
  match ls with
  | [] => mret false
  | l :: ls' =>
      h ← tcp_get (head_of l);
      fuel ← tcp_get cb_fuel;
      used ← tcp_bind_conflict fuel ipaddr port h;
      if used : bool then mret true else tcp_bind_conflicts ls' ipaddr port
  end.

Definition tcp_bind (pcb : Z) (ipaddr : option Z) (port : Z) : prog (istate W) Z :=
  let ipaddr := ip4_addr_get ipaddr in
  if pcb =? 0 then mret ERR_VAL else
  c ← com pcb;
  if negb (state_is (co_state c) CLOSED) then mret ERR_VAL else
  new ← (if port =? 0 then tcp_new_port else mret port);
  if new =? 0 then mret ERR_BUF else
  conflict ← (if port =? 0 then mret false else tcp_bind_conflicts tcp_pcb_lists ipaddr port);
  if conflict : bool then mret ERR_USE else
  when (negb (ip4_addr_isany ipaddr)) (upd_com pcb (set_co_local_ip ipaddr)) ;;
  upd_com pcb (set_co_local_port new) ;;
  TCP_REG BOUND_PCBS pcb ;;
  mret ERR_OK.

(** The new control block (0 is [NULL]) and [*err]. *)
Definition tcp_listen_with_backlog_and_err (pcb backlog : Z) : prog (istate W) (Z * Z) :=
  c ← com pcb;
  if negb (state_is (co_state c) CLOSED) then mret (0, ERR_CLSD) else
  if state_is (co_state c) LISTEN then mret (pcb, ERR_ALREADY) else
  lpcb ← packets (on_pools (memp_malloc MEMP_TCP_PCB_LISTEN));
  if lpcb =? 0 then mret (0, ERR_MEM) else
  put_cb lpcb (CbListen (TcpPcbListen
    (TcpCommon (co_local_ip c) uninit (co_so_options c) (co_tos c) (co_ttl c) uninit (co_callback_arg c)
       LISTEN (co_prio c) (co_local_port c)) uninit)) ;;
  when (negb (co_local_port c =? 0)) (TCP_RMV BOUND_PCBS pcb) ;;
  free_tcb pcb ;;
  l ← lcb lpcb;
  put_cb lpcb (CbListen (TcpPcbListen (tl_com l) fn_tcp_accept_null)) ;;
  TCP_REG LISTEN_PCBS lpcb ;;
  mret (lpcb, ERR_OK).
Definition tcp_listen_with_backlog (pcb backlog : Z) : prog (istate W) Z :=
  '(lpcb, _) ← tcp_listen_with_backlog_and_err pcb backlog; mret lpcb.

(** The assignments of [tcp_connect] before the SYN. *)
Definition connect_fields (iss mss connected : Z) (p : tcp_pcb) : tcp_pcb :=
  let p := set_snd_lbb (u32 (iss - 1)) (set_snd_wl2 (u32 (iss - 1)) (set_lastack (u32 (iss - 1))
             (set_snd_nxt iss (set_rcv_nxt 0 p)))) in
  let p := set_snd_wnd TCP_WND (set_rcv_ann_right_edge 0
             (set_rcv_wnd TCP_WND (set_rcv_ann_wnd TCP_WND p))) in
  set_connected connected (set_cwnd 1 (set_mss mss p)).

Definition tcp_connect (pcb : Z) (ipaddr : option Z) (port connected : Z) : prog (istate W) Z :=
  match ipaddr with
  | None => mret ERR_VAL
  | Some ip =>
      if pcb =? 0 then mret ERR_VAL else
      c ← com pcb;
      if negb (state_is (co_state c) CLOSED) then mret ERR_ISCONN else
      upd_tcb pcb (set_remote_ip ip) ;;
      upd_tcb pcb (set_remote_port port) ;;
      routed ← (if ip4_addr_isany (co_local_ip c) then
                  netif ← ip4_route ip;
                  if netif =? 0 then mret false
                  else nf ← the_netif netif; upd_tcb pcb (set_local_ip (nf_ip_addr nf)) ;; mret true
                else mret true);
      if negb routed then mret ERR_RTE else
      let old_local_port := co_local_port c in
      new ← (if old_local_port =? 0
             then n ← tcp_new_port; upd_tcb pcb (set_local_port n) ;; mret n else mret old_local_port);
      if new =? 0 then mret ERR_BUF else
      iss ← tcp_next_iss;
      mss ← tcp_eff_send_mss INITIAL_MSS ip;
      upd_tcb pcb (connect_fields iss mss connected) ;;
      ret ← tcp_enqueue_flags pcb TCP_SYN;
      when (ret =? ERR_OK)
        (upd_tcb pcb (set_state SYN_SENT) ;;
         when (negb (old_local_port =? 0)) (TCP_RMV BOUND_PCBS pcb) ;;
         TCP_REG_ACTIVE pcb ;;
         _ ← tcp_output pcb; mret tt) ;;
      mret ret
  end.

(** ** Creation *)

(** The walks for the control block that has been inactive longest: the best
    so far is [inactive] with [inactivity]. *)
Fixpoint kill_prio_loop (fuel : nat) (pcb mprio inactivity inactive : Z) : prog (istate W) Z :=
  match fuel with
  | O => stuck
  | S fuel' =>
      if pcb =? 0 then mret inactive else
      p ← tcb pcb;
      t ← tcp_get tv_ticks;
      let idle := u32 (t - tp_tmr p) in
      if (co_prio (tp_com p) <=? mprio) && (inactivity <=? idle)
      then kill_prio_loop fuel' (co_next (tp_com p)) (co_prio (tp_com p)) idle pcb
      else kill_prio_loop fuel' (co_next (tp_com p)) mprio inactivity inactive
  end.
Definition tcp_kill_prio (prio : Z) : prog (istate W) unit :=
  h ← tcp_get tv_active_pcbs;
  fuel ← tcp_get cb_fuel;
  inactive ← kill_prio_loop fuel h (Z.min TCP_PRIO_MAX prio) 0 0;
  when (negb (inactive =? 0)) (tcp_abort inactive).

Fixpoint kill_loop (fuel : nat) (which : tcp_state → bool) (pcb inactivity inactive : Z) : prog (istate W) Z :=
  match fuel with
  | O => stuck
  | S fuel' =>
      if pcb =? 0 then mret inactive else
      p ← tcb pcb;
      t ← tcp_get tv_ticks;
      let idle := u32 (t - tp_tmr p) in
      if which (tp_state p) && (inactivity <=? idle)
      then kill_loop fuel' which (co_next (tp_com p)) idle pcb
      else kill_loop fuel' which (co_next (tp_com p)) inactivity inactive
  end.
Definition tcp_kill_state (st : tcp_state) : prog (istate W) unit :=
  h ← tcp_get tv_active_pcbs;
  fuel ← tcp_get cb_fuel;
  inactive ← kill_loop fuel (λ st', state_is st' st) h 0 0;
  when (negb (inactive =? 0)) (tcp_abandon inactive false).
Definition tcp_kill_timewait : prog (istate W) unit :=
  h ← tcp_get tv_tw_pcbs;
  fuel ← tcp_get cb_fuel;
  inactive ← kill_loop fuel (λ _, true) h 0 0;
  when (negb (inactive =? 0)) (tcp_abort inactive).

(** The attempts of [tcp_alloc], each after it has made room. *)
Fixpoint tcp_alloc_retry (kills : list (prog (istate W) unit)) : prog (istate W) Z :=
  pcb ← packets (on_pools (memp_malloc MEMP_TCP_PCB));
  match kills with
  | [] => mret pcb
  | k :: kills' => if pcb =? 0 then k ;; tcp_alloc_retry kills' else mret pcb
  end.

(** The control block that [tcp_alloc] fills in. *)
Definition new_tcb (prio ticks timer_ctr : Z) : tcp_pcb :=
  TcpPcb (TcpCommon 0 0 0 0 TCP_TTL 0 0 CLOSED prio 0)
    0 0 0 0 timer_ctr ticks 0 TCP_WND TCP_WND 0 (-1) INITIAL_MSS 0 0 0 (3000 / TCP_SLOW_INTERVAL)
    (3000 / TCP_SLOW_INTERVAL) 0 0 0 1 TCP_SND_BUF 0 0 0 0 0 0 TCP_SND_BUF 0 0 0 0 0 0
    0 fn_tcp_recv_null 0 0 0 TCP_KEEPIDLE_DEFAULT 0 0 0.

Definition tcp_alloc (prio : Z) : prog (istate W) Z :=
  pcb ← tcp_alloc_retry [tcp_kill_timewait; tcp_kill_state LAST_ACK; tcp_kill_state CLOSING; tcp_kill_prio prio];
  when (negb (pcb =? 0))
    (t ← tcp_get tv_ticks;
     c ← tcp_get tv_timer_ctr;
     put_cb pcb (CbPcb (new_tcb prio t c))) ;;
  mret pcb.
Definition tcp_new : prog (istate W) Z := tcp_alloc TCP_PRIO_NORMAL.
Definition tcp_new_ip_type (type : Z) : prog (istate W) Z := tcp_alloc TCP_PRIO_NORMAL.

(** ** Settings *)

Definition tcp_init : prog (istate W) unit := mret tt.
Definition tcp_setprio (pcb prio : Z) : prog (istate W) unit := upd_com pcb (set_co_prio prio).
Definition tcp_arg (pcb arg : Z) : prog (istate W) unit :=
  when (negb (pcb =? 0)) (upd_com pcb (set_co_callback_arg arg)).
Definition tcp_recv (pcb recv : Z) : prog (istate W) unit := when (negb (pcb =? 0)) (upd_tcb pcb (set_recv recv)).
Definition tcp_sent (pcb sent : Z) : prog (istate W) unit := when (negb (pcb =? 0)) (upd_tcb pcb (set_sent sent)).
Definition tcp_err (pcb err : Z) : prog (istate W) unit := when (negb (pcb =? 0)) (upd_tcb pcb (set_errf err)).
Definition tcp_accept (pcb accept : Z) : prog (istate W) unit :=
  if pcb =? 0 then mret tt else
  c ← com pcb;
  when (state_is (co_state c) LISTEN) (l ← lcb pcb; put_cb pcb (CbListen (TcpPcbListen (tl_com l) accept))).
Definition tcp_poll (pcb poll interval : Z) : prog (istate W) unit :=
  upd_tcb pcb (λ p, set_pollinterval interval (set_poll poll p)).

Fixpoint addr_changed_pcblist (fuel : nat) (old_addr pcb : Z) : prog (istate W) unit :=
  match fuel with
  | O => stuck
  | S fuel' =>
      if pcb =? 0 then mret tt else
      c ← com pcb;
      when (co_local_ip c =? old_addr) (tcp_abort pcb) ;;
      next ← (if co_local_ip c =? old_addr then mret (co_next c) else c ← com pcb; mret (co_next c));
      addr_changed_pcblist fuel' old_addr next
  end.
Fixpoint addr_changed_listen (fuel : nat) (old_addr new_addr lpcb : Z) : prog (istate W) unit :=
  match fuel with
  | O => stuck
  | S fuel' =>
      if lpcb =? 0 then mret tt else
      c ← com lpcb;
      when (co_local_ip c =? old_addr) (upd_com lpcb (set_co_local_ip new_addr)) ;;
      addr_changed_listen fuel' old_addr new_addr (co_next c)
  end.
Definition tcp_netif_ip_addr_changed (old_addr : Z) (new_addr : option Z) : prog (istate W) unit :=
  if ip4_addr_isany old_addr then mret tt else
  h ← tcp_get tv_active_pcbs;
  fuel ← tcp_get cb_fuel;
  addr_changed_pcblist fuel old_addr h ;;
  h ← tcp_get tv_bound_pcbs;
  fuel ← tcp_get cb_fuel;
  addr_changed_pcblist fuel old_addr h ;;
  if ip4_addr_isany (ip4_addr_get new_addr) then mret tt else
  h ← tcp_get tv_listen_pcbs;
  fuel ← tcp_get cb_fuel;
  addr_changed_listen fuel old_addr (ip4_addr_get new_addr) h.

(** ** The slow timer *)

(** The connection persists or retransmits. *)
Definition slow_retransmit (pcb : Z) : prog (istate W) unit :=
  p ← tcb pcb;
  if 0 <? tp_persist_backoff p then
    backoff_cnt ← lift (tcp_persist_backoff !! Z.to_nat (tp_persist_backoff p - 1));
    when (tp_persist_cnt p <? backoff_cnt) (upd_tcb pcb (set_persist_cnt (u8 (tp_persist_cnt p + 1)))) ;;
    p ← tcb pcb;
    when (backoff_cnt <=? tp_persist_cnt p)
      (err ← tcp_zero_window_probe pcb;
       when (err =? ERR_OK)
         (upd_tcb pcb (λ p, set_persist_cnt 0 p) ;;
          upd_tcb pcb (λ p, if tp_persist_backoff p <? Z.of_nat (length tcp_persist_backoff)
                            then set_persist_backoff (u8 (tp_persist_backoff p + 1)) p else p)))
  else
    upd_tcb pcb (λ p, if 0 <=? tp_rtime p then set_rtime (s16 (tp_rtime p + 1)) p else p) ;;
    p ← tcb pcb;
    when (negb (tp_unacked p =? 0) && (tp_rto p <=? tp_rtime p))
      (rto ← (if state_is (tp_state p) SYN_SENT then mret (tp_rto p)
              else
                b ← lift (tcp_backoff !! Z.to_nat (Z.min (tp_nrtx p) (Z.of_nat (length tcp_backoff) - 1)));
                mret (s16 (Z.shiftl (Z.shiftr (tp_sa p) 3 + tp_sv p) b)));
       let ssthresh := Z.shiftr (Z.min (tp_cwnd p) (tp_snd_wnd p)) 1 in
       let ssthresh := if ssthresh <? u16 (Z.shiftl (tp_mss p) 1) then u16 (Z.shiftl (tp_mss p) 1) else ssthresh in
       upd_tcb pcb (λ p, set_cwnd (tp_mss p) (set_ssthresh ssthresh (set_rtime 0 (set_rto rto p)))) ;;
       tcp_rexmit_rto pcb).

(** Has the time of the connection run out? The two answers are [pcb_remove]
    and [pcb_reset]. *)
Definition slow_checks (pcb : Z) : prog (istate W) (bool * bool) :=
  p ← tcb pcb;
  t ← tcp_get tv_ticks;
  let idle := u32 (t - tp_tmr p) in
  let fin_wait_2 := state_is (tp_state p) FIN_WAIT_2 && flag (tp_flags p) TF_RXCLOSED
                    && (TCP_FIN_WAIT_TIMEOUT / TCP_SLOW_INTERVAL <? idle) in
  keep ← (if flag (co_so_options (tp_com p)) SOF_KEEPALIVE
             && (state_is (tp_state p) ESTABLISHED || state_is (tp_state p) CLOSE_WAIT) then
            if u32 (tp_keep_idle p + TCP_MAXIDLE) / TCP_SLOW_INTERVAL <? idle then mret true
            else
              when (u32 (tp_keep_idle p + tp_keep_cnt_sent p * TCP_KEEPINTVL_DEFAULT) / TCP_SLOW_INTERVAL <? idle)
                (err ← tcp_keepalive pcb;
                 when (err =? ERR_OK)
                   (upd_tcb pcb (λ p, set_keep_cnt_sent (u8 (tp_keep_cnt_sent p + 1)) p))) ;;
              mret false
          else mret false);
  p ← tcb pcb;
  let idle := u32 (t - tp_tmr p) in
  let syn_rcvd := state_is (tp_state p) SYN_RCVD && (TCP_SYN_RCVD_TIMEOUT / TCP_SLOW_INTERVAL <? idle) in
  let last_ack := state_is (tp_state p) LAST_ACK && (2 * TCP_MSL / TCP_SLOW_INTERVAL <? idle) in
  mret (fin_wait_2 || keep || syn_rcvd || last_ack, keep).

(** [prev->next = pcb->next], or the head of the list *)
Definition unlink_after (l : pcb_list) (prev pcb : Z) : prog (istate W) unit :=
  c ← com pcb;
  if negb (prev =? 0) then upd_com prev (set_co_next (co_next c)) else tcp_mod (set_head l (co_next c)).

(** One control block: answers [prev] and [pcb] for the next pass, [None] for
    [goto tcp_slowtmr_start]. *)
Definition slow_remove (prev pcb : Z) (pcb_reset : bool) : prog (istate W) (option (Z * Z)) :=
  p ← tcb pcb;
  let err_fn := tp_errf p in
  tcp_pcb_purge pcb ;;
  unlink_after ACTIVE_PCBS prev pcb ;;
  p ← tcb pcb;
  when pcb_reset
    (tcp_rst (tp_snd_nxt p) (tp_rcv_nxt p) (tp_local_ip p) (tp_remote_ip p) (tp_local_port p) (tp_remote_port p)) ;;
  p ← tcb pcb;
  free_tcb pcb ;;
  tcp_mod (set_tv_pcbs_changed 0) ;;
  TCP_EVENT_ERR err_fn (tp_callback_arg p) ERR_ABRT ;;
  changed ← tcp_get tv_pcbs_changed;
  mret (if changed =? 0 then Some (prev, co_next (tp_com p)) else None).

Definition slow_poll (prev : Z) : prog (istate W) (option (Z * Z)) :=
  p ← tcb prev;
  let next := co_next (tp_com p) in
  let polltmr := u8 (tp_polltmr p + 1) in
  upd_tcb prev (set_polltmr polltmr) ;;
  if negb (tp_pollinterval p <=? polltmr) then mret (Some (prev, next)) else
  upd_tcb prev (set_polltmr 0) ;;
  tcp_mod (set_tv_pcbs_changed 0) ;;
  err ← TCP_EVENT_POLL prev;
  changed ← tcp_get tv_pcbs_changed;
  if negb (changed =? 0) then mret None else
  when (err =? ERR_OK) (_ ← tcp_output prev; mret tt) ;;
  mret (Some (prev, next)).

Definition slow_pcb (prev pcb : Z) : prog (istate W) (option (Z * Z)) :=
  c ← tcp_get tv_timer_ctr;
  upd_tcb pcb (set_last_timer c) ;;
  p ← tcb pcb;
  dead ← (if state_is (tp_state p) SYN_SENT && (TCP_SYNMAXRTX <=? tp_nrtx p) then mret true
          else if TCP_MAXRTX <=? tp_nrtx p then mret true
          else slow_retransmit pcb ;; mret false);
  '(pcb_remove, pcb_reset) ← slow_checks pcb;
  if dead || pcb_remove then slow_remove prev pcb pcb_reset else slow_poll pcb.

Fixpoint slow_loop (fuel : nat) (prev pcb : Z) : prog (istate W) unit :=
  match fuel with
  | O => stuck
  | S fuel' =>
      if pcb =? 0 then mret tt else
      p ← tcb pcb;
      c ← tcp_get tv_timer_ctr;
      if tp_last_timer p =? c then slow_loop fuel' prev (co_next (tp_com p)) else
      r ← slow_pcb prev pcb;
      match r with
      | Some (prev, pcb) => slow_loop fuel' prev pcb
      | None => h ← tcp_get tv_active_pcbs; slow_loop fuel' 0 h
      end
  end.

(** The control blocks in TIME-WAIT. *)
Fixpoint slow_tw_loop (fuel : nat) (prev pcb : Z) : prog (istate W) unit :=
  match fuel with
  | O => stuck
  | S fuel' =>
      if pcb =? 0 then mret tt else
      p ← tcb pcb;
      t ← tcp_get tv_ticks;
      if 2 * TCP_MSL / TCP_SLOW_INTERVAL <? u32 (t - tp_tmr p) then
        tcp_pcb_purge pcb ;;
        unlink_after TW_PCBS prev pcb ;;
        p ← tcb pcb;
        free_tcb pcb ;;
        slow_tw_loop fuel' prev (co_next (tp_com p))
      else slow_tw_loop fuel' pcb (co_next (tp_com p))
  end.

Definition tcp_slowtmr (fuel : nat) : prog (istate W) unit :=
  tcp_mod (λ v, set_tv_ticks (u32 (tv_ticks v + 1)) v) ;;
  tcp_mod (λ v, set_tv_timer_ctr (u8 (tv_timer_ctr v + 1)) v) ;;
  h ← tcp_get tv_active_pcbs;
  slow_loop fuel 0 h ;;
  h ← tcp_get tv_tw_pcbs;
  f ← tcp_get cb_fuel;
  slow_tw_loop f 0 h.

(** ** The fast timer *)

(** One control block: answers the next one, [None] for [goto
    tcp_fasttmr_start]. *)
Definition fast_pcb (pcb : Z) : prog (istate W) (option Z) :=
  c ← tcp_get tv_timer_ctr;
  upd_tcb pcb (set_last_timer c) ;;
  p ← tcb pcb;
  when (flag (tp_flags p) TF_ACK_DELAY)
    (upd_tcb pcb tcp_ack_now ;;
     _ ← tcp_output pcb;
     upd_tcb pcb (and_not_flags (Z.lor TF_ACK_DELAY TF_ACK_NOW))) ;;
  p ← tcb pcb;
  when (flag (tp_flags p) TF_CLOSEPEND)
    (upd_tcb pcb (and_not_flags TF_CLOSEPEND) ;;
     _ ← tcp_close_shutdown_fin pcb; mret tt) ;;
  p ← tcb pcb;
  let next := co_next (tp_com p) in
  if tp_refused_data p =? 0 then mret (Some next) else
  tcp_mod (set_tv_pcbs_changed 0) ;;
  _ ← tcp_process_refused_data pcb;
  changed ← tcp_get tv_pcbs_changed;
  mret (if changed =? 0 then Some next else None).

Fixpoint fast_loop (fuel : nat) (pcb : Z) : prog (istate W) unit :=
  match fuel with
  | O => stuck
  | S fuel' =>
      if pcb =? 0 then mret tt else
      p ← tcb pcb;
      c ← tcp_get tv_timer_ctr;
      if tp_last_timer p =? c then fast_loop fuel' (co_next (tp_com p)) else
      r ← fast_pcb pcb;
      match r with
      | Some next => fast_loop fuel' next
      | None => h ← tcp_get tv_active_pcbs; fast_loop fuel' h
      end
  end.
Definition tcp_fasttmr (fuel : nat) : prog (istate W) unit :=
  tcp_mod (λ v, set_tv_timer_ctr (u8 (tv_timer_ctr v + 1)) v) ;;
  h ← tcp_get tv_active_pcbs;
  fast_loop fuel h.

Definition tcp_tmr (fuel : nat) : prog (istate W) unit :=
  tcp_fasttmr fuel ;;
  t ← tcp_get tv_timer;
  tcp_mod (set_tv_timer (u8 (t + 1))) ;;
  when (flag (u8 (t + 1)) 1) (tcp_slowtmr fuel).

Fixpoint txnow_loop (fuel : nat) (pcb : Z) : prog (istate W) unit :=
  match fuel with
  | O => stuck
  | S fuel' =>
      if pcb =? 0 then mret tt else
      p ← tcb pcb;
      when (flag (tp_flags p) TF_NAGLEMEMERR) (_ ← tcp_output pcb; mret tt) ;;
      p ← tcb pcb;
      txnow_loop fuel' (co_next (tp_com p))
  end.
Definition tcp_txnow : prog (istate W) unit :=
  h ← tcp_get tv_active_pcbs; fuel ← tcp_get cb_fuel; txnow_loop fuel h.
End tcp.
