(* ===== verification/TcpIn.v ===== *)
(** * Reception of TCP (middlewares/lwip/src/core/tcp_in.c)

    The search for the connection of a segment, the state machine
    [tcp_process], the acknowledgements and the data in [tcp_receive], and the
    options.  Segments out of order are not kept ([TCP_QUEUE_OOSEQ] is 0).
    The static variables of the file are the record [tcp_in] of [TcpBase]. *)

From stdpp Require Import base numbers list gmap option.
From S2P Require Import Prelude Mem Memp Pbuf Chksum Ip4Addr Etharp Netifs Ip4 TcpBase TcpOut Tcp.

Definition LWIP_TCP_CALC_INITIAL_CWND (mss : Z) : Z := u16 (Z.min (4 * mss) (Z.max (2 * mss) 4380)).

Section tcp_in.
  Context {W : Type} `{HT : HasTcp W} `{TE : TcpEnv W}.

(** A static variable of the file, and an assignment. *)
Definition tin {A} (f : tcp_in → A) : prog (istate W) A := tcp_get (λ v, f (tv_in v)).
Definition tin_mod (f : tcp_in → tcp_in) : prog (istate W) unit :=
  tcp_mod (λ v, set_tv_in (f (tv_in v)) v).

(** ** Options *)

Definition tcp_getoptbyte : prog (istate W) Z :=
  opt2 ← tin ti_tcphdr_opt2;
  idx ← tin ti_tcp_optidx;
  opt1len ← tin ti_tcphdr_opt1len;
  tin_mod (set_ti_tcp_optidx (u16 (idx + 1))) ;;
  if (opt2 =? 0) || (idx <? opt1len) then
    h ← tin ti_tcphdr; x ← peek (h + TCP_HLEN + idx) 1; mret (of_le x)
  else x ← peek (opt2 + u8 (idx - opt1len)) 1; mret (of_le x).

Fixpoint parseopt_loop (fuel : nat) (pcb : Z) : prog (istate W) unit :=
  match fuel with
  | O => stuck
  | S fuel' =>
      idx ← tin ti_tcp_optidx;
      optlen ← tin ti_tcphdr_optlen;
      if negb (idx <? optlen) then mret tt else
      opt ← tcp_getoptbyte;
      if opt =? LWIP_TCP_OPT_EOL then mret tt
      else if opt =? LWIP_TCP_OPT_NOP then parseopt_loop fuel' pcb
      else if opt =? LWIP_TCP_OPT_MSS then
        n ← tcp_getoptbyte;
        idx ← tin ti_tcp_optidx;
        if negb (n =? LWIP_TCP_OPT_LEN_MSS) || (optlen <? idx - 2 + LWIP_TCP_OPT_LEN_MSS) then mret tt else
        hi ← tcp_getoptbyte;
        lo ← tcp_getoptbyte;
        let mss := Z.lor (u16 (Z.shiftl hi 8)) lo in
        upd_tcb pcb (set_mss (if (TCP_MSS <? mss) || (mss =? 0) then TCP_MSS else mss)) ;;
        parseopt_loop fuel' pcb
      else
        data ← tcp_getoptbyte;
        if data <? 2 then mret tt else
        tin_mod (λ i, set_ti_tcp_optidx (u16 (ti_tcp_optidx i + (data - 2))) i) ;;
        parseopt_loop fuel' pcb
  end.
(** Every pass moves the index on; one unit per byte is enough. *)
Definition tcp_parseopt (pcb : Z) : prog (istate W) unit :=
  optlen ← tin ti_tcphdr_optlen;
  if optlen =? 0 then mret tt else
  tin_mod (set_ti_tcp_optidx 0) ;;
  parseopt_loop (S (Z.to_nat optlen)) pcb.

(** ** Acknowledgements (first part of [tcp_receive]) *)

(** The window of the peer: [wnd] is the field of the segment. *)
Definition update_snd_wnd (seqno ackno wnd : Z) (p : tcp_pcb) : tcp_pcb :=
  if TCP_SEQ_LT (tp_snd_wl1 p) seqno
     || ((tp_snd_wl1 p =? seqno) && TCP_SEQ_LT (tp_snd_wl2 p) ackno)
     || ((tp_snd_wl2 p =? ackno) && (tp_snd_wnd p <? wnd))
  then
    let p := set_snd_wnd wnd p in
    let p := if tp_snd_wnd_max p <? tp_snd_wnd p then set_snd_wnd_max (tp_snd_wnd p) p else p in
    let p := set_snd_wl2 ackno (set_snd_wl1 seqno p) in
    if tp_snd_wnd p =? 0 then
      if tp_persist_backoff p =? 0 then set_persist_backoff 1 (set_persist_cnt 0 p) else p
    else if 0 <? tp_persist_backoff p then set_persist_backoff 0 p else p
  else p.

(** An acknowledgement that is not newer than the last one. *)
Definition receive_dupack (pcb ackno tcplen right_wnd_edge : Z) : prog (istate W) unit :=
  p ← tcb pcb;
  let found_dupack := (tcplen =? 0) && (u32 (tp_snd_wl2 p + tp_snd_wnd p) =? right_wnd_edge)
                      && (0 <=? tp_rtime p) && (tp_lastack p =? ackno) in
  if found_dupack then
    let dupacks := if tp_dupacks p <? u8 (tp_dupacks p + 1) then tp_dupacks p + 1 else tp_dupacks p in
    upd_tcb pcb (set_dupacks dupacks) ;;
    if 3 <? dupacks then
      upd_tcb pcb (λ p, if tp_cwnd p <? u16 (tp_cwnd p + tp_mss p) then set_cwnd (u16 (tp_cwnd p + tp_mss p)) p
                        else p)
    else when (dupacks =? 3) (tcp_rexmit_fast pcb)
  else upd_tcb pcb (set_dupacks 0).

(** Congestion control and timers at a new acknowledgement; stuck on a
    division by zero. *)
Definition ack_cwnd (ackno : Z) (p : tcp_pcb) : option tcp_pcb :=
  let p := if flag (tp_flags p) TF_INFR then set_cwnd (tp_ssthresh p) (and_not_flags TF_INFR p) else p in
  let p := set_rto (s16 (Z.shiftr (tp_sa p) 3 + tp_sv p)) (set_nrtx 0 p) in
  let p := set_lastack ackno (set_dupacks 0 p) in
  if state_num ESTABLISHED <=? state_num (tp_state p) then
    if tp_cwnd p <? tp_ssthresh p then
      Some (if tp_cwnd p <? u16 (tp_cwnd p + tp_mss p) then set_cwnd (u16 (tp_cwnd p + tp_mss p)) p else p)
    else if tp_cwnd p =? 0 then None
    else
      let new_cwnd := u16 (tp_cwnd p + tp_mss p * tp_mss p / tp_cwnd p) in
      Some (if tp_cwnd p <? new_cwnd then set_cwnd new_cwnd p else p)
  else Some p.

(** A segment that was acknowledged is counted and released. *)
Definition release_acked (pcb seg : Z) (x : tcp_seg) : prog (istate W) unit :=
  n ← packets (pbuf_clen (sg_p x));
  upd_tcb pcb (λ p, set_snd_queuelen (u16 (tp_snd_queuelen p - n)) p) ;;
  tin_mod (λ i, set_ti_recv_acked (u16 (ti_recv_acked i + sg_len x)) i) ;;
  tcp_seg_free seg.

(** The number behind the last byte of a segment. *)
Definition seg_end (x : tcp_seg) : prog (istate W) Z :=
  n ← seg_seqno x; l ← TCP_TCPLEN x; mret (u32 (n + l)).

Fixpoint unacked_loop (fuel : nat) (pcb ackno : Z) : prog (istate W) unit :=
  match fuel with
  | O => stuck
  | S fuel' =>
      p ← tcb pcb;
      let next := tp_unacked p in
      if next =? 0 then mret tt else
      x ← the_seg next;
      e ← seg_end x;
      if negb (TCP_SEQ_LEQ e ackno) then mret tt else
      upd_tcb pcb (set_unacked (sg_next x)) ;;
      release_acked pcb next x ;;
      unacked_loop fuel' pcb ackno
  end.

(** Segments that were queued again and are acknowledged before they are
    sent again. *)
Fixpoint unsent_loop (fuel : nat) (pcb ackno : Z) : prog (istate W) unit :=
  match fuel with
  | O => stuck
  | S fuel' =>
      p ← tcb pcb;
      let next := tp_unsent p in
      if next =? 0 then mret tt else
      x ← the_seg next;
      e ← seg_end x;
      if negb (TCP_SEQ_BETWEEN ackno e (tp_snd_nxt p)) then mret tt else
      upd_tcb pcb (set_unsent (sg_next x)) ;;
      when (sg_next x =? 0) (upd_tcb pcb (set_unsent_oversize 0)) ;;
      release_acked pcb next x ;;
      unsent_loop fuel' pcb ackno
  end.

Definition receive_new_ack (pcb ackno : Z) : prog (istate W) unit :=
  p ← tcb pcb;
  p' ← lift (ack_cwnd ackno p);
  put_cb pcb (CbPcb p') ;;
  fuel ← tcp_get seg_fuel;
  unacked_loop fuel pcb ackno ;;
  upd_tcb pcb (λ p, set_rtime (if tp_unacked p =? 0 then -1 else 0) p) ;;
  upd_tcb pcb (set_polltmr 0).

(** The estimate of the round trip time; [m] is an [s16_t]. *)
Definition update_rtt (ticks ackno : Z) (p : tcp_pcb) : tcp_pcb :=
  if negb (tp_rttest p =? 0) && TCP_SEQ_LT (tp_rtseq p) ackno then
    let m := s16 (ticks - tp_rttest p) in
    let m := s16 (m - Z.shiftr (tp_sa p) 3) in
    let sa := s16 (tp_sa p + m) in
    let m := if m <? 0 then s16 (- m) else m in
    let m := s16 (m - Z.shiftr (tp_sv p) 2) in
    let sv := s16 (tp_sv p + m) in
    set_rttest 0 (set_rto (s16 (Z.shiftr sa 3 + sv)) (set_sv sv (set_sa sa p)))
  else p.

Definition receive_ack (pcb : Z) : prog (istate W) unit :=
  seqno ← tin ti_seqno;
  ackno ← tin ti_ackno;
  tcplen ← tin ti_tcplen;
  h ← tin ti_tcphdr;
  wnd ← rd16 (h + 14);
  p ← tcb pcb;
  let right_wnd_edge := u32 (tp_snd_wnd p + tp_snd_wl2 p) in
  upd_tcb pcb (update_snd_wnd seqno ackno wnd) ;;
  p ← tcb pcb;
  (if TCP_SEQ_LEQ ackno (tp_lastack p) then receive_dupack pcb ackno tcplen right_wnd_edge
   else if TCP_SEQ_BETWEEN ackno (tp_lastack p + 1) (tp_snd_nxt p) then receive_new_ack pcb ackno
   else _ ← tcp_send_empty_ack pcb; mret tt) ;;
  fuel ← tcp_get seg_fuel;
  unsent_loop fuel pcb ackno ;;
  acked ← tin ti_recv_acked;
  upd_tcb pcb (λ p, set_snd_buf (u16 (tp_snd_buf p + acked)) p) ;;
  t ← tcp_get tv_ticks;
  upd_tcb pcb (update_rtt t ackno).

(** ** Data (second part of [tcp_receive]) *)

(** The pbufs that [off] bytes fill are emptied; answers the pbuf that holds
    the first byte that stays, and what is left of [off] there. *)
Fixpoint trim_loop (fuel : nat) (p off new_tot_len : Z) : prog (istate W) (Z * Z) :=
  match fuel with
  | O => stuck
  | S fuel' =>
      b ← packets (deref p);
      if pb_len b <? off then
        packets (upd_pbuf p (with_tot_len new_tot_len)) ;;
        packets (upd_pbuf p (with_len 0)) ;;
        trim_loop fuel' (pb_next b) (off - pb_len b) new_tot_len
      else mret (p, off)
  end.

(** The segment begins before [rcv_nxt]: cut off what was received already. *)
Definition trim_front (rcv_nxt : Z) : prog (istate W) unit :=
  seqno ← tin ti_seqno;
  seg ← tin ti_inseg;
  let p := sg_p seg in
  let off := s32 (rcv_nxt - seqno) in
  b ← packets (deref p);
  (if pb_len b <? off then
     let new_tot_len := u16 (pb_tot_len b - off) in
     fuel ← gets (λ s, chain_fuel (as_packets s));
     '(q, off) ← trim_loop fuel p off new_tot_len;
     _ ← packets (pbuf_header q (s16 (- off))); mret tt
   else _ ← packets (pbuf_header p (s16 (- off))); mret tt) ;;
  tin_mod (λ i, set_ti_inseg (set_sg_len (u16 (sg_len (ti_inseg i) - u16 (u32 (rcv_nxt - seqno)))) (ti_inseg i)) i) ;;
  tin_mod (set_ti_seqno rcv_nxt) ;;
  wr32 (sg_tcphdr seg + 4) rcv_nxt.

(** The segment is longer than the window: cut off its end, and the FIN. *)
Definition trim_end (rcv_wnd : Z) : prog (istate W) unit :=
  seg ← tin ti_inseg;
  fl ← TCPH_FLAGS (sg_tcphdr seg);
  when (flag fl TCP_FIN) (TCPH_FLAGS_SET (sg_tcphdr seg) (unset fl TCP_FIN)) ;;
  fl ← TCPH_FLAGS (sg_tcphdr seg);
  let len := if flag fl TCP_SYN then u16 (rcv_wnd - 1) else rcv_wnd in
  tin_mod (λ i, set_ti_inseg (set_sg_len len (ti_inseg i)) i) ;;
  packets (pbuf_realloc (sg_p seg) len) ;;
  seg ← tin ti_inseg;
  tl ← TCP_TCPLEN seg;
  tin_mod (set_ti_tcplen (u16 tl)).

(** The segment that was expected next. *)
Definition receive_next (pcb : Z) : prog (istate W) unit :=
  seg ← tin ti_inseg;
  tl ← TCP_TCPLEN seg;
  tin_mod (set_ti_tcplen (u16 tl)) ;;
  p ← tcb pcb;
  tcplen ← tin ti_tcplen;
  when (tp_rcv_wnd p <? tcplen) (trim_end (tp_rcv_wnd p)) ;;
  seqno ← tin ti_seqno;
  tcplen ← tin ti_tcplen;
  upd_tcb pcb (set_rcv_nxt (u32 (seqno + tcplen))) ;;
  upd_tcb pcb (λ p, set_rcv_wnd (u16 (tp_rcv_wnd p - tcplen)) p) ;;
  _ ← tcp_update_rcv_ann_wnd pcb;
  seg ← tin ti_inseg;
  b ← packets (deref (sg_p seg));
  when (0 <? pb_tot_len b)
    (tin_mod (set_ti_recv_data (sg_p seg)) ;;
     tin_mod (λ i, set_ti_inseg (set_sg_p 0 (ti_inseg i)) i)) ;;
  fl ← TCPH_FLAGS (sg_tcphdr seg);
  when (flag fl TCP_FIN) (tin_mod (λ i, set_ti_recv_flags (Z.lor (ti_recv_flags i) TF_GOT_FIN) i)) ;;
  upd_tcb pcb tcp_ack.

Definition receive_data (pcb : Z) : prog (istate W) unit :=
  p ← tcb pcb;
  seqno ← tin ti_seqno;
  tcplen ← tin ti_tcplen;
  if (0 <? tcplen) && (state_num (tp_state p) <? state_num CLOSE_WAIT) then
    (if TCP_SEQ_BETWEEN (tp_rcv_nxt p) (seqno + 1) (seqno + tcplen - 1) then trim_front (tp_rcv_nxt p)
     else when (TCP_SEQ_LT seqno (tp_rcv_nxt p)) (upd_tcb pcb tcp_ack_now)) ;;
    seqno ← tin ti_seqno;
    if TCP_SEQ_BETWEEN seqno (tp_rcv_nxt p) (tp_rcv_nxt p + tp_rcv_wnd p - 1) then
      if tp_rcv_nxt p =? seqno then receive_next pcb
      else _ ← tcp_send_empty_ack pcb; mret tt
    else _ ← tcp_send_empty_ack pcb; mret tt
  else
    when (negb (TCP_SEQ_BETWEEN seqno (tp_rcv_nxt p) (tp_rcv_nxt p + tp_rcv_wnd p - 1)))
      (upd_tcb pcb tcp_ack_now).

Definition tcp_receive (pcb : Z) : prog (istate W) unit :=
  fl ← tin ti_flags;
  when (flag fl TCP_ACK) (receive_ack pcb) ;;
  receive_data pcb.

(** ** The state machine *)

(** The reset that answers the current segment. *)
Definition reset_segment : prog (istate W) unit :=
  ackno ← tin ti_ackno;
  seqno ← tin ti_seqno;
  tcplen ← tin ti_tcplen;
  h ← tin ti_tcphdr;
  dest ← rd16 (h + 2);
  src ← rd16 h;
  g ← ip_get is_data;
  tcp_rst ackno (u32 (seqno + tcplen)) (current_iphdr_dest g) (current_iphdr_src g) dest src.

Definition process_rst (pcb : Z) : prog (istate W) Z :=
  p ← tcb pcb;
  seqno ← tin ti_seqno;
  ackno ← tin ti_ackno;
  let acceptable := if state_is (tp_state p) SYN_SENT then ackno =? tp_snd_nxt p else seqno =? tp_rcv_nxt p in
  when (negb (state_is (tp_state p) SYN_SENT) && negb acceptable
        && TCP_SEQ_BETWEEN seqno (tp_rcv_nxt p) (tp_rcv_nxt p + tp_rcv_wnd p))
    (upd_tcb pcb tcp_ack_now) ;;
  if acceptable then
    tin_mod (λ i, set_ti_recv_flags (Z.lor (ti_recv_flags i) TF_RESET) i) ;;
    upd_tcb pcb (and_not_flags TF_ACK_DELAY) ;;
    mret ERR_RST
  else mret ERR_OK.

(** The fields of a connection that the peer has accepted. *)
Definition syn_acked (seqno ackno wnd mss : Z) (p : tcp_pcb) : tcp_pcb :=
  let rcv_nxt := u32 (seqno + 1) in
  let p := set_lastack ackno (set_rcv_ann_right_edge rcv_nxt (set_rcv_nxt rcv_nxt p)) in
  let p := set_snd_wl1 (u32 (seqno - 1)) (set_snd_wnd_max wnd (set_snd_wnd wnd p)) in
  let p := set_mss mss (set_state ESTABLISHED p) in
  set_snd_queuelen (u16 (tp_snd_queuelen p - 1)) (set_cwnd (LWIP_TCP_CALC_INITIAL_CWND mss) p).

Definition process_syn_sent (pcb : Z) : prog (istate W) Z :=
  p ← tcb pcb;
  fl ← tin ti_flags;
  seqno ← tin ti_seqno;
  ackno ← tin ti_ackno;
  if flag fl TCP_ACK && flag fl TCP_SYN && (ackno =? u32 (tp_lastack p + 1)) then
    h ← tin ti_tcphdr;
    wnd ← rd16 (h + 14);
    mss ← tcp_eff_send_mss (tp_mss p) (tp_remote_ip p);
    upd_tcb pcb (syn_acked seqno ackno wnd mss) ;;
    p ← tcb pcb;
    let rseg := if tp_unacked p =? 0 then tp_unsent p else tp_unacked p in
    x ← the_seg rseg;
    upd_tcb pcb (if tp_unacked p =? 0 then set_unsent (sg_next x) else set_unacked (sg_next x)) ;;
    tcp_seg_free rseg ;;
    upd_tcb pcb (λ p, if tp_unacked p =? 0 then set_rtime (-1) p else set_nrtx 0 (set_rtime 0 p)) ;;
    err ← TCP_EVENT_CONNECTED pcb ERR_OK;
    if err =? ERR_ABRT then mret ERR_ABRT else
    upd_tcb pcb tcp_ack_now ;; mret ERR_OK
  else if flag fl TCP_ACK then
    reset_segment ;;
    p ← tcb pcb;
    when (tp_nrtx p <? TCP_SYNMAXRTX) (upd_tcb pcb (set_rtime 0) ;; tcp_rexmit_rto pcb) ;;
    mret ERR_OK
  else mret ERR_OK.

(** [if (recv_flags & TF_GOT_FIN) { tcp_ack_now(pcb); pcb->state = CLOSE_WAIT; }] *)
Definition fin_close_wait (pcb : Z) : prog (istate W) unit :=
  rf ← tin ti_recv_flags;
  when (flag rf TF_GOT_FIN) (upd_tcb pcb tcp_ack_now ;; upd_tcb pcb (set_state CLOSE_WAIT)).

Definition process_syn_rcvd (pcb : Z) : prog (istate W) Z :=
  p ← tcb pcb;
  fl ← tin ti_flags;
  seqno ← tin ti_seqno;
  ackno ← tin ti_ackno;
  if flag fl TCP_ACK then
    if TCP_SEQ_BETWEEN ackno (tp_lastack p + 1) (tp_snd_nxt p) then
      upd_tcb pcb (set_state ESTABLISHED) ;;
      err ← (if tp_listener p =? 0 then mret ERR_VAL
             else TCP_EVENT_ACCEPT (tp_listener p) pcb (tp_callback_arg p) ERR_OK);
      if negb (err =? ERR_OK) then
        when (negb (err =? ERR_ABRT)) (tcp_abort pcb) ;; mret ERR_ABRT
      else
        tcp_receive pcb ;;
        tin_mod (λ i, if ti_recv_acked i =? 0 then i else set_ti_recv_acked (ti_recv_acked i - 1) i) ;;
        upd_tcb pcb (λ p, set_cwnd (LWIP_TCP_CALC_INITIAL_CWND (tp_mss p)) p) ;;
        fin_close_wait pcb ;;
        mret ERR_OK
    else reset_segment ;; mret ERR_OK
  else
    when (flag fl TCP_SYN && (seqno =? u32 (tp_rcv_nxt p - 1))) (tcp_rexmit pcb) ;;
    mret ERR_OK.

(** Does the segment acknowledge everything, our FIN included? *)
Definition fin_acked (pcb : Z) : prog (istate W) bool :=
  fl ← tin ti_flags;
  ackno ← tin ti_ackno;
  p ← tcb pcb;
  mret (flag fl TCP_ACK && (ackno =? tp_snd_nxt p) && (tp_unsent p =? 0)).

Definition enter_time_wait (pcb : Z) : prog (istate W) unit :=
  tcp_pcb_purge pcb ;;
  TCP_RMV_ACTIVE pcb ;;
  upd_tcb pcb (set_state TIME_WAIT) ;;
  TCP_REG TW_PCBS pcb.

Definition process_fin_wait_1 (pcb : Z) : prog (istate W) unit :=
  tcp_receive pcb ;;
  rf ← tin ti_recv_flags;
  acked ← fin_acked pcb;
  if flag rf TF_GOT_FIN then
    upd_tcb pcb tcp_ack_now ;;
    if acked : bool then enter_time_wait pcb else upd_tcb pcb (set_state CLOSING)
  else when acked (upd_tcb pcb (set_state FIN_WAIT_2)).

Definition process_state (pcb : Z) : prog (istate W) Z :=
  p ← tcb pcb;
  match tp_state p with
  | SYN_SENT => process_syn_sent pcb
  | SYN_RCVD => process_syn_rcvd pcb
  | CLOSE_WAIT | ESTABLISHED => tcp_receive pcb ;; fin_close_wait pcb ;; mret ERR_OK
  | FIN_WAIT_1 => process_fin_wait_1 pcb ;; mret ERR_OK
  | FIN_WAIT_2 =>
      tcp_receive pcb ;;
      rf ← tin ti_recv_flags;
      when (flag rf TF_GOT_FIN) (upd_tcb pcb tcp_ack_now ;; enter_time_wait pcb) ;;
      mret ERR_OK
  | CLOSING =>
      tcp_receive pcb ;;
      acked ← fin_acked pcb;
      when acked (enter_time_wait pcb) ;;
      mret ERR_OK
  | LAST_ACK =>
      tcp_receive pcb ;;
      acked ← fin_acked pcb;
      when acked (tin_mod (λ i, set_ti_recv_flags (Z.lor (ti_recv_flags i) TF_CLOSED) i)) ;;
      mret ERR_OK
  | _ => mret ERR_OK
  end.

Definition tcp_process (pcb : Z) : prog (istate W) Z :=
  fl ← tin ti_flags;
  if flag fl TCP_RST then process_rst pcb else
  p ← tcb pcb;
  if flag fl TCP_SYN && negb (state_is (tp_state p) SYN_SENT) && negb (state_is (tp_state p) SYN_RCVD)
  then upd_tcb pcb tcp_ack_now ;; mret ERR_OK else
  t ← tcp_get tv_ticks;
  upd_tcb pcb (λ p, if flag (tp_flags p) TF_RXCLOSED then p else set_tmr t p) ;;
  upd_tcb pcb (set_keep_cnt_sent 0) ;;
  tcp_parseopt pcb ;;
  process_state pcb.

(** ** Listening and TIME-WAIT *)

(** The fields of a connection that the peer asks for. *)
Definition syn_received (dest src local_port src_port seqno iss arg lpcb opts : Z) (p : tcp_pcb) : tcp_pcb :=
  let p := set_local_port local_port (set_remote_ip src (set_local_ip dest p)) in
  let rcv_nxt := u32 (seqno + 1) in
  let p := set_rcv_nxt rcv_nxt (set_state SYN_RCVD (set_remote_port src_port p)) in
  let p := set_snd_nxt iss (set_snd_wl2 iss (set_rcv_ann_right_edge rcv_nxt p)) in
  let p := set_snd_wl1 (u32 (seqno - 1)) (set_snd_lbb iss (set_lastack iss p)) in
  set_so_options opts (set_listener lpcb (set_callback_arg arg p)).

Definition tcp_listen_input (lpcb : Z) : prog (istate W) unit :=
  fl ← tin ti_flags;
  if flag fl TCP_RST then mret tt
  else if flag fl TCP_ACK then reset_segment
  else if negb (flag fl TCP_SYN) then mret tt else
  c ← com lpcb;
  npcb ← tcp_alloc (co_prio c);
  if npcb =? 0 then
    c ← com lpcb;
    _ ← TCP_EVENT_ACCEPT lpcb 0 (co_callback_arg c) ERR_MEM; mret tt
  else
  c ← com lpcb;
  g ← ip_get is_data;
  h ← tin ti_tcphdr;
  src ← rd16 h;
  wnd ← rd16 (h + 14);
  seqno ← tin ti_seqno;
  iss ← tcp_next_iss;
  upd_tcb npcb (syn_received (current_iphdr_dest g) (current_iphdr_src g) (co_local_port c) src seqno iss
                  (co_callback_arg c) lpcb (Z.land (co_so_options c) SOF_INHERITED)) ;;
  TCP_REG_ACTIVE npcb ;;
  tcp_parseopt npcb ;;
  upd_tcb npcb (λ p, set_snd_wnd_max wnd (set_snd_wnd wnd p)) ;;
  p ← tcb npcb;
  mss ← tcp_eff_send_mss (tp_mss p) (tp_remote_ip p);
  upd_tcb npcb (set_mss mss) ;;
  rc ← tcp_enqueue_flags npcb (Z.lor TCP_SYN TCP_ACK);
  if negb (rc =? ERR_OK) then tcp_abandon npcb false
  else _ ← tcp_output npcb; mret tt.

Definition tcp_timewait_input (pcb : Z) : prog (istate W) unit :=
  fl ← tin ti_flags;
  if flag fl TCP_RST then mret tt else
  p ← tcb pcb;
  seqno ← tin ti_seqno;
  if flag fl TCP_SYN && TCP_SEQ_BETWEEN seqno (tp_rcv_nxt p) (tp_rcv_nxt p + tp_rcv_wnd p)
  then reset_segment else
  when (negb (flag fl TCP_SYN) && flag fl TCP_FIN) (t ← tcp_get tv_ticks; upd_tcb pcb (set_tmr t)) ;;
  tcplen ← tin ti_tcplen;
  when (0 <? tcplen) (upd_tcb pcb (or_flags TF_ACK_NOW) ;; _ ← tcp_output pcb; mret tt).

(** ** The search for the connection *)

(** Is it the connection of the segment? *)
Definition four_tuple (p : tcp_pcb) (src dest src_ip dest_ip : Z) : bool :=
  (tp_remote_port p =? src) && (tp_local_port p =? dest) && (tp_remote_ip p =? src_ip)
  && (tp_local_ip p =? dest_ip).

(** A control block behind the front of its list is moved there. *)
Definition move_to_front (l : pcb_list) (prev pcb : Z) : prog (istate W) unit :=
  when (negb (prev =? 0))
    (c ← com pcb;
     upd_com prev (set_co_next (co_next c)) ;;
     h ← tcp_get (head_of l);
     upd_com pcb (set_co_next h) ;;
     tcp_mod (set_head l pcb)).

Fixpoint find_active (fuel : nat) (src dest src_ip dest_ip prev pcb : Z) : prog (istate W) Z :=
  match fuel with
  | O => stuck
  | S fuel' =>
      if pcb =? 0 then mret 0 else
      p ← tcb pcb;
      if four_tuple p src dest src_ip dest_ip then move_to_front ACTIVE_PCBS prev pcb ;; mret pcb
      else find_active fuel' src dest src_ip dest_ip pcb (co_next (tp_com p))
  end.
Fixpoint find_timewait (fuel : nat) (src dest src_ip dest_ip pcb : Z) : prog (istate W) Z :=
  match fuel with
  | O => stuck
  | S fuel' =>
      if pcb =? 0 then mret 0 else
      p ← tcb pcb;
      if four_tuple p src dest src_ip dest_ip then mret pcb
      else find_timewait fuel' src dest src_ip dest_ip (co_next (tp_com p))
  end.
Fixpoint find_listen (fuel : nat) (dest dest_ip prev lpcb : Z) : prog (istate W) Z :=
  match fuel with
  | O => stuck
  | S fuel' =>
      if lpcb =? 0 then mret 0 else
      c ← com lpcb;
      if (co_local_port c =? dest) && ((co_local_ip c =? dest_ip) || ip4_addr_isany (co_local_ip c))
      then move_to_front LISTEN_PCBS prev lpcb ;; mret lpcb
      else find_listen fuel' dest dest_ip lpcb (co_next c)
  end.

(** ** Input *)

(** The header and its options are taken off; [false] drops the segment. *)
Definition input_header (p tcphdr : Z) : prog (istate W) bool :=
  hl ← TCPH_HDRLEN tcphdr;
  let hdrlen_bytes := u8 (hl * 4) in
  b ← packets (deref p);
  if (hdrlen_bytes <? TCP_HLEN) || (pb_tot_len b <? hdrlen_bytes) then mret false else
  let optlen := hdrlen_bytes - TCP_HLEN in
  tin_mod (λ i, set_ti_tcphdr_opt2 0 (set_ti_tcphdr_optlen optlen i)) ;;
  if hdrlen_bytes <=? pb_len b then
    tin_mod (set_ti_tcphdr_opt1len optlen) ;;
    _ ← packets (pbuf_header p (- hdrlen_bytes));
    mret true
  else
    _ ← packets (pbuf_header p (- TCP_HLEN));
    b ← packets (deref p);
    let opt1len := pb_len b in
    tin_mod (set_ti_tcphdr_opt1len opt1len) ;;
    let opt2len := u16 (optlen - opt1len) in
    _ ← packets (pbuf_header p (s16 (- opt1len)));
    nb ← packets (deref (pb_next b));
    if pb_len nb <? opt2len then mret false else
    tin_mod (set_ti_tcphdr_opt2 (pb_payload nb)) ;;
    _ ← packets (pbuf_header (pb_next b) (s16 (- opt2len)));
    packets (upd_pbuf p (λ b, with_tot_len (u16 (pb_tot_len b - opt2len)) b)) ;;
    mret true.

(** The fields of the header in host order, in place and in the variables. *)
Definition input_fields (p tcphdr : Z) : prog (istate W) unit :=
  src ← rd16 tcphdr; wr16 tcphdr (lwip_htons src) ;;
  dest ← rd16 (tcphdr + 2); wr16 (tcphdr + 2) (lwip_htons dest) ;;
  n ← rd32 (tcphdr + 4); wr32 (tcphdr + 4) (lwip_htonl n) ;;
  tin_mod (set_ti_seqno (lwip_htonl n)) ;;
  a ← rd32 (tcphdr + 8); wr32 (tcphdr + 8) (lwip_htonl a) ;;
  tin_mod (set_ti_ackno (lwip_htonl a)) ;;
  w ← rd16 (tcphdr + 14); wr16 (tcphdr + 14) (lwip_htons w) ;;
  fl ← TCPH_FLAGS tcphdr;
  tin_mod (set_ti_flags fl) ;;
  b ← packets (deref p);
  tin_mod (set_ti_tcplen (u16 (pb_tot_len b + if flag fl (Z.lor TCP_FIN TCP_SYN) then 1 else 0))).

(** [true] is [goto aborted] in the three parts below. *)
Definition input_sent (pcb : Z) : prog (istate W) bool :=
  acked ← tin ti_recv_acked;
  if negb (0 <? acked) then mret false else
  err ← TCP_EVENT_SENT pcb acked;
  if err =? ERR_ABRT then mret true else tin_mod (set_ti_recv_acked 0) ;; mret false.

Definition input_data (pcb : Z) : prog (istate W) bool :=
  d ← tin ti_recv_data;
  if d =? 0 then mret false else
  p ← tcb pcb;
  if flag (tp_flags p) TF_RXCLOSED then free_pbuf d ;; tcp_abort pcb ;; mret true else
  err ← TCP_EVENT_RECV pcb d ERR_OK;
  if err =? ERR_ABRT then mret true else
  when (negb (err =? ERR_OK)) (upd_tcb pcb (set_refused_data d)) ;;
  mret false.

Definition input_fin (pcb : Z) : prog (istate W) bool :=
  rf ← tin ti_recv_flags;
  if negb (flag rf TF_GOT_FIN) then mret false else
  p ← tcb pcb;
  if negb (tp_refused_data p =? 0) then mark_pbuf (tp_refused_data p) PBUF_FLAG_TCP_FIN ;; mret false else
  upd_tcb pcb grow_for_fin ;;
  err ← TCP_EVENT_CLOSED pcb;
  mret (err =? ERR_ABRT).

(** What the application hears of the segment. *)
Definition input_events (pcb : Z) : prog (istate W) unit :=
  rf ← tin ti_recv_flags;
  if flag rf TF_RESET then
    p ← tcb pcb;
    TCP_EVENT_ERR (tp_errf p) (tp_callback_arg p) ERR_RST ;;
    tcp_pcb_remove ACTIVE_PCBS pcb ;;
    free_tcb pcb
  else
  aborted ← input_sent pcb;
  if aborted : bool then mret tt else
  rf ← tin ti_recv_flags;
  if flag rf TF_CLOSED then
    p ← tcb pcb;
    when (negb (flag (tp_flags p) TF_RXCLOSED)) (TCP_EVENT_ERR (tp_errf p) (tp_callback_arg p) ERR_CLSD) ;;
    tcp_pcb_remove ACTIVE_PCBS pcb ;;
    free_tcb pcb
  else
  aborted ← input_data pcb;
  if aborted : bool then mret tt else
  aborted ← input_fin pcb;
  if aborted : bool then mret tt else
  tin_mod (set_ti_input_pcb 0) ;;
  _ ← tcp_output pcb; mret tt.

(** Data that the application refused comes first; [true] is [goto aborted]. *)
Definition input_refused (pcb : Z) : prog (istate W) bool :=
  p ← tcb pcb;
  if tp_refused_data p =? 0 then mret false else
  err ← tcp_process_refused_data pcb;
  stop ← (if err =? ERR_ABRT then mret true
          else p ← tcb pcb; tcplen ← tin ti_tcplen; mret (negb (tp_refused_data p =? 0) && (0 <? tcplen)));
  if negb stop then mret false else
  p ← tcb pcb;
  when (tp_rcv_ann_wnd p =? 0) (_ ← tcp_send_empty_ack pcb; mret tt) ;;
  mret true.

Definition input_connection (p pcb tcphdr : Z) : prog (istate W) unit :=
  b ← packets (deref p);
  tin_mod (λ i, set_ti_inseg (TcpSeg 0 p (pb_tot_len b) (sg_flags (ti_inseg i)) tcphdr) i) ;;
  tin_mod (λ i, set_ti_recv_acked 0 (set_ti_recv_flags 0 (set_ti_recv_data 0 i))) ;;
  fl ← tin ti_flags;
  when (flag fl TCP_PSH) (mark_pbuf p PBUF_FLAG_PUSH) ;;
  aborted ← input_refused pcb;
  (if aborted : bool then mret tt
   else
     tin_mod (set_ti_input_pcb pcb) ;;
     err ← tcp_process pcb;
     when (negb (err =? ERR_ABRT)) (input_events pcb)) ;;
  tin_mod (λ i, set_ti_recv_data 0 (set_ti_input_pcb 0 i)) ;;
  seg ← tin ti_inseg;
  when (negb (sg_p seg =? 0))
    (free_pbuf (sg_p seg) ;; tin_mod (λ i, set_ti_inseg (set_sg_p 0 (ti_inseg i)) i)).

(** Whose segment is it? *)
Definition input_demux (p tcphdr : Z) : prog (istate W) unit :=
  src ← rd16 tcphdr;
  dest ← rd16 (tcphdr + 2);
  g ← ip_get is_data;
  let src_ip := current_iphdr_src g in
  let dest_ip := current_iphdr_dest g in
  fuel ← tcp_get cb_fuel;
  h ← tcp_get tv_active_pcbs;
  pcb ← find_active fuel src dest src_ip dest_ip 0 h;
  if negb (pcb =? 0) then input_connection p pcb tcphdr else
  h ← tcp_get tv_tw_pcbs;
  pcb ← find_timewait fuel src dest src_ip dest_ip h;
  if negb (pcb =? 0) then tcp_timewait_input pcb ;; free_pbuf p else
  h ← tcp_get tv_listen_pcbs;
  lpcb ← find_listen fuel dest dest_ip 0 h;
  if negb (lpcb =? 0) then tcp_listen_input lpcb ;; free_pbuf p else
  fl ← TCPH_FLAGS tcphdr;
  when (negb (flag fl TCP_RST)) reset_segment ;;
  free_pbuf p.

Definition tcp_input (p inp : Z) : prog (istate W) unit :=
  b ← packets (deref p);
  let tcphdr := pb_payload b in
  tin_mod (set_ti_tcphdr tcphdr) ;;
  if pb_len b <? TCP_HLEN then free_pbuf p else
  g ← ip_get is_data;
  nf ← the_netif (current_netif g);
  if negb (ip4_addr_isbroadcast_u32 (current_iphdr_dest g) nf =? 0)
     || ip4_addr_ismulticast (current_iphdr_dest g)
  then free_pbuf p else
  ok ← input_header p tcphdr;
  if negb ok then free_pbuf p else
  input_fields p tcphdr ;;
  input_demux p tcphdr.
End tcp_in.
