(* ===== verification/TcpLemmas.v ===== *)
(** * Runs of TCP functions

    How single accesses to the variables, control blocks, segments and packets
    change the state, the state of one connection as a configuration, and the
    order of sequence numbers. *)

From stdpp Require Import base numbers list gmap option.
From S2P Require Import Prelude Mem Memp Pbuf PbufLemmas PbufOps Chksum Ip4Addr Etharp Netifs Ip4 TcpBase TcpOut Tcp TcpIn.

(** ** Sequence numbers *)

(** Numbers that differ by less than half of the range compare like the
    positions in the stream that they stand for. *)
Definition near (a b : Z) : Prop := -2147483648 ≤ a - b < 2147483648.

Lemma s32_diff a b : near a b → s32 (u32 a - u32 b) = a - b.
Proof. unfold near. intros H. zmod. Qed.
Lemma seq_lt a b : near a b → TCP_SEQ_LT a b = (a <? b).
Proof. intros H. unfold TCP_SEQ_LT. rewrite s32_diff by done. repeat case_cmp; lia. Qed.
Lemma seq_leq a b : near a b → TCP_SEQ_LEQ a b = (a <=? b).
Proof. intros H. unfold TCP_SEQ_LEQ. rewrite s32_diff by done. repeat case_cmp; lia. Qed.
Lemma seq_gt a b : near a b → TCP_SEQ_GT a b = (b <? a).
Proof. intros H. unfold TCP_SEQ_GT. rewrite s32_diff by done. repeat case_cmp; lia. Qed.
Lemma seq_geq a b : near a b → TCP_SEQ_GEQ a b = (b <=? a).
Proof. intros H. unfold TCP_SEQ_GEQ. rewrite s32_diff by done. repeat case_cmp; lia. Qed.
Lemma seq_between a b c : near a b → near a c → TCP_SEQ_BETWEEN a b c = (b <=? a) && (a <=? c).
Proof. intros H1 H2. unfold TCP_SEQ_BETWEEN. by rewrite seq_geq, seq_leq. Qed.

Lemma u32_add_l a b : u32 (u32 a + b) = u32 (a + b).
Proof. zmod. Qed.
(** The comparisons do not care whether their arguments are reduced. *)
Lemma u32_u32 a : u32 (u32 a) = u32 a.
Proof. zmod. Qed.
Lemma u32_eq a b : near a b → u32 a = u32 b → a = b.
Proof. unfold near. intros. zmod. Qed.

(** ** Accesses *)

Section runs.
  Context {W : Type} `{HT : HasTcp W} `{TE : TcpEnv W}.
  Implicit Types (s : istate W) (v : tcp_vars).

Definition vars s : tcp_vars := tcp_of (is_rest (as_link s)).
Definition with_vars v s : istate W :=
  AState (as_table s) (as_cached s) (as_netifs s) (as_packets s)
    (let i := as_link s in
     IpState (is_netif_list i) (is_netif_default i) (is_netif_num i) (is_client_id i) (is_ip_id i)
       (is_mcast_netif i) (is_data i) (with_tcp v (is_rest i))).

Lemma vars_with v s : vars (with_vars v s) = v.
Proof. apply tcp_of_with. Qed.
Lemma with_vars_same s : with_vars (vars s) s = s.
Proof. destruct s as [? ? ? ? []]. unfold with_vars, vars. cbn. by rewrite with_tcp_of. Qed.
Lemma with_vars_with v v' s : with_vars v (with_vars v' s) = with_vars v s.
Proof. unfold with_vars. cbn. by rewrite with_tcp_with. Qed.

Lemma tcp_mod_run f s : tcp_mod f s = Some (tt, with_vars (f (vars s)) s).
Proof. done. Qed.
Lemma the_cb_run n b s : tv_cbs (vars s) !! n = Some b → the_cb n s = Some (b, s).
Proof. intros H. unfold the_cb. rewrite (prog_bind_step _ _ s (tv_cbs (vars s) !! n) s) by done. by rewrite H. Qed.
Lemma the_cb_inv n b s s' : the_cb n s = Some (b, s') → tv_cbs (vars s) !! n = Some b ∧ s' = s.
Proof.
  unfold the_cb. rewrite (prog_bind_step _ _ s (tv_cbs (vars s) !! n) s) by done.
  destruct (_ !! n); [|done]. by intros [= -> ->].
Qed.
Lemma com_run n b s : tv_cbs (vars s) !! n = Some b → com n s = Some (common_of b, s).
Proof. intros H. unfold com. by rewrite (prog_bind_step _ _ _ _ _ (the_cb_run n b s H)). Qed.
Lemma tcb_run n p s : tv_cbs (vars s) !! n = Some (CbPcb p) → tcb n s = Some (p, s).
Proof. intros H. unfold tcb. by rewrite (prog_bind_step _ _ _ _ _ (the_cb_run n _ s H)). Qed.
Lemma tcb_inv n p s s' : tcb n s = Some (p, s') → tv_cbs (vars s) !! n = Some (CbPcb p) ∧ s' = s.
Proof.
  unfold tcb. intros H. apply prog_bind_Some in H as ([q|l] & s1 & H1 & H2); [|done].
  apply the_cb_inv in H1 as [H1 ->]. by injection H2 as -> ->.
Qed.

Definition put_cb_state (n : Z) (b : tcp_cb) s : istate W :=
  with_vars (set_tv_cbs (<[n := b]> (tv_cbs (vars s))) (vars s)) s.
Lemma upd_com_run n b f s :
  tv_cbs (vars s) !! n = Some b →
  upd_com n f s = Some (tt, put_cb_state n (set_common (f (common_of b)) b) s).
Proof. intros H. unfold upd_com. by rewrite (prog_bind_step _ _ _ _ _ (the_cb_run n b s H)). Qed.
Lemma upd_com_inv n f s x s' :
  upd_com n f s = Some (x, s') → ∃ b, tv_cbs (vars s) !! n = Some b ∧
    s' = put_cb_state n (set_common (f (common_of b)) b) s.
Proof.
  unfold upd_com. intros H. apply prog_bind_Some in H as (b & s1 & H1 & H2).
  apply the_cb_inv in H1 as [H1 ->]. exists b. split; [done|]. by injection H2 as _ <-.
Qed.
Lemma upd_tcb_run n p f s :
  tv_cbs (vars s) !! n = Some (CbPcb p) → upd_tcb n f s = Some (tt, put_cb_state n (CbPcb (f p)) s).
Proof. intros H. unfold upd_tcb. by rewrite (prog_bind_step _ _ _ _ _ (tcb_run n p s H)). Qed.
Lemma upd_tcb_inv n f s x s' :
  upd_tcb n f s = Some (x, s') → ∃ p, tv_cbs (vars s) !! n = Some (CbPcb p) ∧
    s' = put_cb_state n (CbPcb (f p)) s.
Proof.
  unfold upd_tcb. intros H. apply prog_bind_Some in H as (p & s1 & H1 & H2).
  apply tcb_inv in H1 as [H1 ->]. exists p. split; [done|]. by injection H2 as _ <-.
Qed.
Lemma the_seg_run n x s : tv_segs (vars s) !! n = Some x → the_seg n s = Some (x, s).
Proof. intros H. unfold the_seg. rewrite (prog_bind_step _ _ s (tv_segs (vars s) !! n) s) by done. by rewrite H. Qed.

Lemma packets_run {A} (c : prog pstate A) s a q :
  c (as_packets s) = Some (a, q) → packets c s = Some (a, set_packets q s).
Proof. intros H. unfold packets. by rewrite H. Qed.
(** Reading a packet changes nothing. *)
Lemma packets_read {A} (c : prog pstate A) s a :
  c (as_packets s) = Some (a, as_packets s) → packets c s = Some (a, s).
Proof. intros H. rewrite (packets_run c s a _ H). by destruct s. Qed.
Lemma deref_run p b (q : pstate) : ps_pbufs q !! p = Some b → deref p q = Some (b, q).
Proof. intros H. unfold deref. by rewrite H. Qed.
Lemma peek_run a n x s : load_bytes (ps_bytes (as_packets s)) a n = Some x → peek a n s = Some (x, s).
Proof. intros H. unfold peek. apply packets_read. by rewrite H. Qed.

(** ** The state of one connection

    [conf pcb s p i q] is [s] with the control block [p] at [pcb], the static
    variables [i] of tcp_in.c and the packets [q]. *)

Definition conf (pcb : Z) s (p : tcp_pcb) (i : tcp_in) (q : pstate) : istate W :=
  set_packets q (with_vars (set_tv_in i (set_tv_cbs (<[pcb := CbPcb p]> (tv_cbs (vars s))) (vars s))) s).

Lemma conf_same pcb s p :
  tv_cbs (vars s) !! pcb = Some (CbPcb p) → s = conf pcb s p (tv_in (vars s)) (as_packets s).
Proof.
  intros H. unfold conf. rewrite insert_id by done.
  replace (set_tv_in _ _) with (vars s) by (by destruct (vars s)). rewrite with_vars_same. by destruct s.
Qed.
Lemma vars_conf pcb s p i q :
  vars (conf pcb s p i q) = set_tv_in i (set_tv_cbs (<[pcb := CbPcb p]> (tv_cbs (vars s))) (vars s)).
Proof. unfold conf. apply (vars_with _ s). Qed.
Lemma conf_lookup pcb s p i q : tv_cbs (vars (conf pcb s p i q)) !! pcb = Some (CbPcb p).
Proof. rewrite vars_conf. cbn. apply lookup_insert_eq. Qed.
Lemma conf_packets pcb s p i q : as_packets (conf pcb s p i q) = q.
Proof. done. Qed.
Lemma conf_tcb pcb s p i q : tcb pcb (conf pcb s p i q) = Some (p, conf pcb s p i q).
Proof. apply tcb_run, conf_lookup. Qed.
Lemma conf_upd pcb s p i q f : upd_tcb pcb f (conf pcb s p i q) = Some (tt, conf pcb s (f p) i q).
Proof.
  rewrite (upd_tcb_run _ p) by apply conf_lookup. do 2 f_equal. unfold put_cb_state. rewrite vars_conf.
  unfold conf, with_vars. cbn. by rewrite insert_insert_eq, with_tcp_with.
Qed.
Lemma conf_put pcb s p i q p' : put_cb pcb (CbPcb p') (conf pcb s p i q) = Some (tt, conf pcb s p' i q).
Proof.
  unfold put_cb. rewrite tcp_mod_run, vars_conf. do 2 f_equal.
  unfold conf, with_vars. cbn. by rewrite insert_insert_eq, with_tcp_with.
Qed.
Lemma conf_get {A} pcb s p i q (f : tcp_in → A) : tin f (conf pcb s p i q) = Some (f i, conf pcb s p i q).
Proof.
  unfold tin, tcp_get, ip_get, gets. change (tcp_of _) with (vars (conf pcb s p i q)). by rewrite vars_conf.
Qed.
Lemma conf_mod pcb s p i q f : tin_mod f (conf pcb s p i q) = Some (tt, conf pcb s p (f i) q).
Proof.
  unfold tin_mod. rewrite tcp_mod_run, vars_conf. do 2 f_equal. unfold conf, with_vars. cbn.
  by rewrite with_tcp_with.
Qed.
Lemma conf_ticks pcb s p i q : tcp_get tv_ticks (conf pcb s p i q) = Some (tv_ticks (vars s), conf pcb s p i q).
Proof.
  unfold tcp_get, ip_get, gets. change (tcp_of _) with (vars (conf pcb s p i q)). by rewrite vars_conf.
Qed.
Lemma conf_run {A} pcb s p i q (c : prog pstate A) a q' :
  c q = Some (a, q') → packets c (conf pcb s p i q) = Some (a, conf pcb s p i q').
Proof. intros H. by rewrite (packets_run c (conf pcb s p i q) a q' H). Qed.
Lemma conf_read {A} pcb s p i q (c : prog pstate A) a :
  c q = Some (a, q) → packets c (conf pcb s p i q) = Some (a, conf pcb s p i q).
Proof. apply conf_run. Qed.
Lemma conf_peek pcb s p i q a n x :
  load_bytes (ps_bytes q) a n = Some x → peek a n (conf pcb s p i q) = Some (x, conf pcb s p i q).
Proof. intros H. by apply peek_run. Qed.
Lemma conf_poke pcb s p i q a x m :
  store_bytes (ps_bytes q) a x = Some m → poke a x (conf pcb s p i q) = Some (tt, conf pcb s p i (set_bytes q m)).
Proof. intros H. unfold poke. apply conf_run. by rewrite H. Qed.
End runs.

(** One access at the front of a program that runs on a configuration. *)
Ltac conf_step :=
  lazymatch goal with
  | |- context [(tcb _ ≫= _) (conf _ _ _ _ _)] => rewrite (prog_bind_step _ _ _ _ _ (conf_tcb _ _ _ _ _))
  | |- context [(tin _ ≫= _) (conf _ _ _ _ _)] => rewrite (prog_bind_step _ _ _ _ _ (conf_get _ _ _ _ _ _))
  | |- context [(tin_mod _ ≫= _) (conf _ _ _ _ _)] => rewrite (prog_bind_step _ _ _ _ _ (conf_mod _ _ _ _ _ _))
  | |- context [(upd_tcb _ _ ≫= _) (conf _ _ _ _ _)] => rewrite (prog_bind_step _ _ _ _ _ (conf_upd _ _ _ _ _ _))
  | |- context [(tcp_get tv_ticks ≫= _) (conf _ _ _ _ _)] => rewrite (prog_bind_step _ _ _ _ _ (conf_ticks _ _ _ _ _))
  end.
