(* ===== verification/TcpStates.v ===== *)
(** * The states of a connection

    [tcp_process] moves a connection along the diagram of RFC 793.  What the
    functions under it do to one control block is followed with the rules of
    [NetifProps.holds]. *)

From stdpp Require Import base numbers list gmap option.
From S2P Require Import Prelude Mem Memp Pbuf PbufLemmas PbufOps Chksum Ip4Addr Etharp LinkedList Netifs NetifProps Ip4 TcpBase TcpOut Tcp TcpIn TcpLemmas.

(** The interface and the timer are not concerned with connections. *)
Class EnvKeeps {W : Type} `{HT : HasTcp W} `{TE : TcpEnv W} : Prop := {
  output_keeps n x dest s e s' : netif_output n x dest s = Some (e, s') → vars s' = vars (W := W) s;
  timer_keeps s u s' : tcp_timer_needed s = Some (u, s') → vars s' = vars (W := W) s
}.

Section keep.
  Context {W : Type} `{HT : HasTcp W} `{TE : TcpEnv W} {EK : @EnvKeeps W HT TE}.
  Implicit Types (s : istate W) (Φ : tcp_pcb → tcp_in → Prop).

(** The control block [pcb] and the input variables satisfy [Φ]. *)
Definition conn pcb Φ s : Prop :=
  ∃ tp, tv_cbs (vars s) !! pcb = Some (CbPcb tp) ∧ Φ tp (tv_in (vars s)).

Lemma conn_vars pcb Φ s s' : vars s' = vars s → conn pcb Φ s → conn pcb Φ s'.
Proof. intros E (tp & H). exists tp. by rewrite E. Qed.

#[export] Instance conn_prop pcb Φ : NetifProp (conn pcb Φ).
Proof. intros s s' _ E. apply conn_vars. unfold vars. by rewrite E. Qed.

Lemma conn_ip_set pcb Φ f : (∀ i, is_rest (f i) = is_rest i) → holds (conn pcb Φ) (ip_set (W := W) f).
Proof. intros Hf s x s' [= _ <-]. apply conn_vars. unfold vars. cbn. by rewrite Hf. Qed.
Lemma holds_tcp_get pcb Φ {A} (f : tcp_vars → A) : holds (conn pcb Φ) (tcp_get f).
Proof. apply holds_ip_get. Qed.
Lemma holds_tin pcb Φ {A} (f : tcp_in → A) : holds (conn pcb Φ) (tin f).
Proof. apply holds_ip_get. Qed.
Lemma holds_lift pcb Φ {A} (o : option A) : holds (conn pcb Φ) (lift o).
Proof. intros s x s'. destruct o; [|done]. by intros [= _ <-]. Qed.

Lemma holds_tcp_mod pcb Φ f :
  (∀ v tp, tv_cbs v !! pcb = Some (CbPcb tp) → Φ tp (tv_in v) →
     ∃ tp', tv_cbs (f v) !! pcb = Some (CbPcb tp') ∧ Φ tp' (tv_in (f v))) →
  holds (conn pcb Φ) (tcp_mod f).
Proof.
  intros Hf s x s' [= _ <-] (tp & H1 & H2). destruct (Hf (vars s) tp H1 H2) as (tp' & H).
  exists tp'. unfold vars at 1 2. cbn. rewrite tcp_of_with. exact H.
Qed.
Lemma holds_tin_mod pcb Φ f : (∀ tp i, Φ tp i → Φ tp (f i)) → holds (conn pcb Φ) (tin_mod f).
Proof. intros Hf. apply holds_tcp_mod. intros v tp H1 H2. exists tp. split; [done|]. by apply Hf. Qed.
Lemma holds_the_cb pcb Φ n : holds (conn pcb Φ) (the_cb n).
Proof. intros s b s' H. by apply the_cb_inv in H as [_ ->]. Qed.
Lemma holds_tcb pcb Φ n : holds (conn pcb Φ) (tcb n).
Proof. intros s b s' H. by apply tcb_inv in H as [_ ->]. Qed.
Lemma holds_com pcb Φ n : holds (conn pcb Φ) (com n).
Proof. unfold com. apply holds_bind; [apply holds_the_cb|]. intros. apply holds_ret. Qed.
Lemma holds_the_seg pcb Φ n : holds (conn pcb Φ) (the_seg n).
Proof. unfold the_seg. apply holds_bind; [apply holds_tcp_get|]. intros. apply holds_lift. Qed.
Lemma holds_put_seg pcb Φ n x : holds (conn pcb Φ) (put_seg n x).
Proof. apply holds_tcp_mod. intros v tp H1 H2. by exists tp. Qed.
Lemma holds_upd_seg pcb Φ n f : holds (conn pcb Φ) (upd_seg n f).
Proof. unfold upd_seg. apply holds_bind; [apply holds_the_seg|]. intros. apply holds_put_seg. Qed.
Lemma holds_free_seg pcb Φ n : holds (conn pcb Φ) (free_seg n).
Proof.
  unfold free_seg. apply holds_bind; [apply holds_packets, conn_prop|]. intros _.
  apply holds_tcp_mod. intros v tp H1 H2. by exists tp.
Qed.
Lemma holds_peek pcb Φ a n : holds (conn pcb Φ) (peek a n).
Proof. apply holds_packets, conn_prop. Qed.
Lemma holds_poke pcb Φ a x : holds (conn pcb Φ) (poke a x).
Proof. apply holds_packets, conn_prop. Qed.

(** An update of any control block, and of its common part. *)
Lemma holds_upd_tcb pcb Φ n f : (∀ tp i, Φ tp i → Φ (f tp) i) → holds (conn pcb Φ) (upd_tcb n f).
Proof.
  intros Hf s x s' H (tp & H1 & H2). apply upd_tcb_inv in H as (p & Hp & ->).
  unfold conn, put_cb_state. rewrite vars_with. cbn. destruct (decide (n = pcb)) as [->|Hne].
  - exists (f p). rewrite lookup_insert_eq. split; [done|]. apply Hf. by simplify_eq.
  - exists tp. by rewrite lookup_insert_ne.
Qed.
Lemma holds_upd_com pcb Φ n f :
  (∀ tp i, Φ tp i → Φ (set_com (f (tp_com tp)) tp) i) → holds (conn pcb Φ) (upd_com n f).
Proof.
  intros Hf s x s' H (tp & H1 & H2). apply upd_com_inv in H as (b & Hb & ->).
  unfold conn, put_cb_state. rewrite vars_with. cbn. destruct (decide (n = pcb)) as [->|Hne].
  - rewrite H1 in Hb. injection Hb as <-. eexists. rewrite lookup_insert_eq. split; [done|]. by apply Hf.
  - exists tp. by rewrite lookup_insert_ne.
Qed.
Lemma holds_output pcb Φ n x dest : holds (conn pcb Φ) (netif_output n x dest).
Proof using EK. intros s e s' H. apply conn_vars. by eapply output_keeps. Qed.
Lemma holds_timer pcb Φ : holds (conn pcb Φ) tcp_timer_needed.
Proof using EK. intros s e s' H. apply conn_vars. by eapply timer_keeps. Qed.
End keep.

Create HintDb tcp_keep.
#[export] Hint Resolve holds_ret holds_stuck holds_gets holds_ip_get holds_the_netif holds_packets conn_prop
  holds_tcp_get holds_tin holds_lift holds_the_cb holds_tcb holds_com holds_the_seg holds_put_seg holds_upd_seg
  holds_free_seg holds_peek holds_poke holds_output holds_timer : tcp_keep.

(** An update keeps what it does not write. *)
Ltac keep_field :=
  let H := fresh in
  intros ? ? H; unfold count_rexmit, update_snd_wnd, update_rtt, tcp_ack, tcp_ack_now, or_flags, and_not_flags;
  cbv beta zeta;
  repeat match goal with |- context [if ?b then _ else _] => destruct b end; exact H.

Ltac keep_solve :=
  repeat first
    [ progress (intros; cbv zeta)
    | solve [eauto with tcp_keep typeclass_instances]
    | apply holds_upd_tcb; keep_field
    | apply holds_upd_com; keep_field
    | apply holds_tin_mod; keep_field
    | apply conn_ip_set; done
    | match goal with |- holds _ (_ ≫= _) => apply holds_bind; [|intros] end
    | match goal with |- holds _ (match ?x with pair _ _ => _ end) => destruct x end
    | match goal with |- holds _ (if ?b then _ else _) => destruct b end
    | match goal with |- holds _ (match ?o with Some _ => _ | None => _ end) => destruct o end
    | match goal with |- holds _ (when ?b _) => destruct b; cbn [when] end ].

Section functions.
  Context {W : Type} `{HT : HasTcp W} `{TE : TcpEnv W} {EK : @EnvKeeps W HT TE}.
  Implicit Types (s : istate W) (Φ : tcp_pcb → tcp_in → Prop).
  #[local] Set Default Proof Using "All".

(** ** Functions that touch no control block *)

Lemma holds_rd16 pcb Φ a : holds (conn pcb Φ) (rd16 a).
Proof. unfold rd16. keep_solve. Qed.
Lemma holds_rd32 pcb Φ a : holds (conn pcb Φ) (rd32 a).
Proof. unfold rd32. keep_solve. Qed.
Lemma holds_wr16 pcb Φ a v : holds (conn pcb Φ) (wr16 a v).
Proof. apply holds_poke. Qed.
Lemma holds_wr32 pcb Φ a v : holds (conn pcb Φ) (wr32 a v).
Proof. apply holds_poke. Qed.
#[local] Hint Resolve holds_rd16 holds_rd32 holds_wr16 holds_wr32 : tcp_keep.
Lemma holds_TCPH_FLAGS pcb Φ h : holds (conn pcb Φ) (TCPH_FLAGS h).
Proof. unfold TCPH_FLAGS. keep_solve. Qed.
Lemma holds_TCPH_FLAGS_SET pcb Φ h fl : holds (conn pcb Φ) (TCPH_FLAGS_SET h fl).
Proof. unfold TCPH_FLAGS_SET. keep_solve. Qed.
Lemma holds_TCPH_HDRLEN_FLAGS_SET pcb Φ h n fl : holds (conn pcb Φ) (TCPH_HDRLEN_FLAGS_SET h n fl).
Proof. unfold TCPH_HDRLEN_FLAGS_SET. keep_solve. Qed.
Lemma holds_seg_seqno pcb Φ x : holds (conn pcb Φ) (seg_seqno x).
Proof. unfold seg_seqno. keep_solve. Qed.
#[local] Hint Resolve holds_TCPH_FLAGS holds_TCPH_FLAGS_SET holds_TCPH_HDRLEN_FLAGS_SET holds_seg_seqno : tcp_keep.
Lemma holds_TCP_TCPLEN pcb Φ x : holds (conn pcb Φ) (TCP_TCPLEN x).
Proof. unfold TCP_TCPLEN. keep_solve. Qed.
#[local] Hint Resolve holds_TCP_TCPLEN : tcp_keep.
Lemma holds_seg_end pcb Φ x : holds (conn pcb Φ) (seg_end x).
Proof. unfold seg_end. keep_solve. Qed.
Lemma holds_free_pbuf pcb Φ x : holds (conn pcb Φ) (free_pbuf x).
Proof. unfold free_pbuf. keep_solve. Qed.
#[local] Hint Resolve holds_seg_end holds_free_pbuf : tcp_keep.
Lemma holds_seg_free pcb Φ x : holds (conn pcb Φ) (tcp_seg_free x).
Proof. unfold tcp_seg_free. keep_solve. Qed.
#[local] Hint Resolve holds_seg_free : tcp_keep.
Lemma holds_segs_free_loop pcb Φ fuel : ∀ x, holds (conn pcb Φ) (segs_free_loop fuel x).
Proof. induction fuel as [|fuel IH]; intros x; cbn [segs_free_loop]; keep_solve. Qed.
#[local] Hint Resolve holds_segs_free_loop : tcp_keep.
Lemma holds_segs_free pcb Φ x : holds (conn pcb Φ) (tcp_segs_free x).
Proof. unfold tcp_segs_free. keep_solve. Qed.
Lemma holds_trim_loop pcb Φ fuel : ∀ p off t, holds (conn pcb Φ) (trim_loop fuel p off t).
Proof. induction fuel as [|fuel IH]; intros p off t; cbn [trim_loop]; keep_solve. Qed.
Lemma holds_route_loop pcb Φ dest fuel : ∀ n, holds (conn pcb Φ) (ip4_route_loop (W := W) fuel dest n).
Proof. induction fuel as [|fuel IH]; intros n; cbn [ip4_route_loop]; keep_solve. Qed.
#[local] Hint Resolve holds_segs_free holds_trim_loop holds_route_loop : tcp_keep.
Lemma holds_ip4_route pcb Φ dest : holds (conn pcb Φ) (ip4_route (W := W) dest).
Proof. unfold ip4_route. keep_solve. Qed.
Lemma holds_ip_output pcb Φ p src dest ttl tos proto n :
  holds (conn pcb Φ) (ip_output_if p src dest ttl tos proto n).
Proof.
  unfold ip_output_if, ip4_output_if, ip4_output_if_opt, ip4_output_if_opt_src. keep_solve.
Qed.
#[local] Hint Resolve holds_ip4_route holds_ip_output : tcp_keep.

(** ** Reception does not change the state *)

Section in_state.
  Context (pcb : Z) (st : tcp_state).

Abbreviation in_st := (conn pcb (λ tp _, tp_state tp = st)).

Lemma keep_alloc_header n o d q : holds in_st (tcp_output_alloc_header n o d q).
Proof. unfold tcp_output_alloc_header. keep_solve. Qed.
#[local] Hint Resolve keep_alloc_header : tcp_keep.
Lemma keep_send_empty_ack n : holds in_st (tcp_send_empty_ack n).
Proof. unfold tcp_send_empty_ack. keep_solve. Qed.
#[local] Hint Resolve keep_send_empty_ack : tcp_keep.
Lemma keep_insert set_head fuel : (∀ h, holds in_st (set_head h)) →
  ∀ prev h seg, holds in_st (insert_by_seqno fuel set_head prev h seg).
Proof. intros Hs. induction fuel as [|fuel IH]; intros prev h seg; cbn [insert_by_seqno]; keep_solve. Qed.
Lemma keep_rexmit n : holds in_st (tcp_rexmit n).
Proof. unfold tcp_rexmit. keep_solve. apply keep_insert. keep_solve. Qed.
#[local] Hint Resolve keep_rexmit : tcp_keep.
Lemma keep_rexmit_fast n : holds in_st (tcp_rexmit_fast n).
Proof. unfold tcp_rexmit_fast. keep_solve. Qed.
#[local] Hint Resolve keep_rexmit_fast : tcp_keep.
Lemma keep_dupack n a t r : holds in_st (receive_dupack n a t r).
Proof. unfold receive_dupack. keep_solve. Qed.
Lemma keep_release n x y : holds in_st (release_acked n x y).
Proof. unfold release_acked. keep_solve. Qed.
#[local] Hint Resolve keep_dupack keep_release : tcp_keep.
Lemma keep_unacked_loop n a fuel : holds in_st (unacked_loop fuel n a).
Proof. induction fuel as [|fuel IH]; cbn [unacked_loop]; keep_solve. Qed.
Lemma keep_unsent_loop n a fuel : holds in_st (unsent_loop fuel n a).
Proof. induction fuel as [|fuel IH]; cbn [unsent_loop]; keep_solve. Qed.
#[local] Hint Resolve keep_unacked_loop keep_unsent_loop : tcp_keep.

Lemma ack_cwnd_state a p p' : ack_cwnd a p = Some p' → tp_state p' = tp_state p.
Proof.
  unfold ack_cwnd. cbv zeta. destruct (flag _ _); repeat (destruct (_ <=? _) || destruct (_ <? _) || destruct (_ =? _));
    intros [= <-]; done.
Qed.
Lemma keep_new_ack n a : holds in_st (receive_new_ack n a).
Proof.
  unfold receive_new_ack. intros s x s' H Hs.
  apply prog_bind_Some in H as (p & s1 & H1 & H). apply tcb_inv in H1 as [Hp ->].
  destruct (ack_cwnd a p) as [p'|] eqn:E; [|done]. rewrite (prog_bind_step _ _ s p' s) in H by done.
  assert (Hput : put_cb n (CbPcb p') s = upd_tcb n (λ _, p') s).
  { unfold upd_tcb. by rewrite (prog_bind_step _ _ _ _ _ (tcb_run n p s Hp)). }
  apply prog_bind_Some in H as (y & s1 & H1 & H). rewrite Hput in H1.
  assert (Hs1 : in_st s1).
  { destruct Hs as (tp & Ht & Hst). apply upd_tcb_inv in H1 as (p0 & Hp0 & ->). unfold conn, put_cb_state.
    rewrite vars_with. cbn. destruct (decide (n = pcb)) as [->|Hne].
    - exists p'. rewrite lookup_insert_eq. split; [done|]. rewrite (ack_cwnd_state _ _ _ E). by simplify_eq.
    - exists tp. by rewrite lookup_insert_ne. }
  revert H Hs1. match goal with |- ?c s1 = _ → _ => assert (Hc : holds in_st c) by keep_solve end. apply Hc.
Qed.
#[local] Hint Resolve keep_new_ack : tcp_keep.
Lemma keep_receive_ack n : holds in_st (receive_ack n).
Proof. unfold receive_ack. keep_solve. Qed.
Lemma keep_trim_front r : holds in_st (trim_front r).
Proof. unfold trim_front. keep_solve. Qed.
Lemma keep_trim_end r : holds in_st (trim_end r).
Proof. unfold trim_end. keep_solve. Qed.
Lemma keep_update_ann_wnd n : holds in_st (tcp_update_rcv_ann_wnd n).
Proof. unfold tcp_update_rcv_ann_wnd. keep_solve. Qed.
#[local] Hint Resolve keep_receive_ack keep_trim_front keep_trim_end keep_update_ann_wnd : tcp_keep.
Lemma keep_receive_next n : holds in_st (receive_next n).
Proof. unfold receive_next. keep_solve. Qed.
#[local] Hint Resolve keep_receive_next : tcp_keep.
Lemma keep_receive n : holds in_st (tcp_receive n).
Proof. unfold tcp_receive, receive_data. keep_solve. Qed.
Lemma keep_getoptbyte : holds in_st tcp_getoptbyte.
Proof. unfold tcp_getoptbyte. keep_solve. Qed.
#[local] Hint Resolve keep_getoptbyte : tcp_keep.
Lemma keep_parseopt_loop n fuel : holds in_st (parseopt_loop fuel n).
Proof. induction fuel as [|fuel IH]; cbn [parseopt_loop]; keep_solve. Qed.
#[local] Hint Resolve keep_parseopt_loop : tcp_keep.
Lemma keep_parseopt n : holds in_st (tcp_parseopt n).
Proof. unfold tcp_parseopt. keep_solve. Qed.
Lemma keep_process_rst n : holds in_st (process_rst n).
Proof. unfold process_rst. keep_solve. Qed.
End in_state.

(** ** The end of a connection *)

Section ending.
  Context (pcb : Z) (Φ : tcp_pcb → tcp_in → Prop).
  Context (Φ_com : ∀ tp i c, co_state c = tp_state tp → Φ tp i → Φ (set_com c tp) i).
  Context (Φ_purge : ∀ tp i, Φ tp i → Φ (set_refused_data 0 tp) i ∧ Φ (set_rtime (-1) tp) i ∧
             Φ (set_unacked 0 (set_unsent 0 tp)) i ∧ Φ (set_unsent_oversize 0 tp) i).

Lemma holds_set_head l h : holds (conn (W := W) pcb Φ) (tcp_mod (set_head l h)).
Proof. apply holds_tcp_mod. intros v tp H1 H2. exists tp. by destruct l. Qed.
Lemma holds_pcbs_changed n : holds (conn (W := W) pcb Φ) (tcp_mod (set_tv_pcbs_changed n)).
Proof. apply holds_tcp_mod. intros v tp H1 H2. by exists tp. Qed.
Lemma holds_set_next n h : holds (conn (W := W) pcb Φ) (upd_com n (set_co_next h)).
Proof. apply holds_upd_com. intros tp i H. by apply Φ_com. Qed.
#[local] Hint Resolve holds_set_head holds_pcbs_changed holds_set_next : tcp_keep.
Lemma holds_rmv_loop n fuel : ∀ x, holds (conn (W := W) pcb Φ) (rmv_loop fuel x n).
Proof. induction fuel as [|fuel IH]; intros x; cbn [rmv_loop]; keep_solve. Qed.
#[local] Hint Resolve holds_rmv_loop : tcp_keep.
Lemma holds_RMV_ACTIVE n : holds (conn (W := W) pcb Φ) (TCP_RMV_ACTIVE n).
Proof. unfold TCP_RMV_ACTIVE, TCP_RMV. keep_solve. Qed.
Lemma holds_REG l n : holds (conn pcb Φ) (TCP_REG l n).
Proof. unfold TCP_REG. keep_solve. Qed.
Lemma holds_purge n : holds (conn (W := W) pcb Φ) (tcp_pcb_purge n).
Proof. unfold tcp_pcb_purge. keep_solve; apply holds_upd_tcb; intros tp i H; by destruct (Φ_purge tp i H) as (? & ? & ? & ?). Qed.
End ending.

Lemma time_wait_run pcb s tp u s' :
  enter_time_wait pcb s = Some (u, s') → tv_cbs (vars s) !! pcb = Some (CbPcb tp) →
  ∃ tp', tv_cbs (vars s') !! pcb = Some (CbPcb tp') ∧ tp_state tp' = TIME_WAIT ∧ tp_snd_nxt tp' = tp_snd_nxt tp ∧
    tv_in (vars s') = tv_in (vars s).
Proof.
  intros H Hc. set (i0 := tv_in (vars s)). set (nx := tp_snd_nxt tp).
  set (Φ1 := λ (tp : tcp_pcb) (i : tcp_in), tp_snd_nxt tp = nx ∧ i = i0).
  set (Φ2 := λ (tp : tcp_pcb) (i : tcp_in), tp_state tp = TIME_WAIT ∧ tp_snd_nxt tp = nx ∧ i = i0).
  assert (H0 : conn pcb Φ1 s) by (by exists tp).
  unfold enter_time_wait in H.
  apply (holds_step (conn pcb Φ1)) in H as (? & s1 & H1 & H); [|done|by apply holds_purge].
  apply (holds_step (conn pcb Φ1)) in H as (? & s2 & H2 & H); [|done|by apply holds_RMV_ACTIVE].
  apply prog_bind_Some in H as (? & s3 & E3 & H).
  assert (H3 : conn pcb Φ2 s3).
  { destruct H2 as (tp2 & Hc2 & Hn2). rewrite (upd_tcb_run _ _ _ _ Hc2) in E3. injection E3 as _ <-.
    exists (set_state TIME_WAIT tp2). unfold put_cb_state. rewrite vars_with. cbn. by rewrite lookup_insert_eq. }
  assert (H4 : conn pcb Φ2 s').
  { revert H H3. apply holds_REG; [|by intros].
    intros tp' i c Hs (Ha & Hb). split; [by rewrite <- Ha|done]. }
  destruct H4 as (tp' & Hc' & Ha & Hb & Hi). by exists tp'.
Qed.

(** ** Transitions *)

(** The diagram of RFC 793 for segments: [fin] when the FIN of the peer is
    reached, [acked] when all that was sent is acknowledged, our FIN included. *)
Definition next_state (fin acked : bool) (st : tcp_state) : tcp_state :=
  match st with
  | ESTABLISHED => if fin then CLOSE_WAIT else ESTABLISHED
  | FIN_WAIT_1 => if fin then if acked then TIME_WAIT else CLOSING
                  else if acked then FIN_WAIT_2 else FIN_WAIT_1
  | FIN_WAIT_2 => if fin then TIME_WAIT else FIN_WAIT_2
  | CLOSING => if acked then TIME_WAIT else CLOSING
  | _ => st
  end.

(** The three-way handshake is over, and the connection is not in TIME-WAIT. *)
Definition synchronized (st : tcp_state) : bool :=
  match st with
  | ESTABLISHED | FIN_WAIT_1 | FIN_WAIT_2 | CLOSE_WAIT | CLOSING | LAST_ACK => true
  | _ => false
  end.

(** The segment acknowledges everything. *)
Definition all_acked (tp : tcp_pcb) (i : tcp_in) : Prop := flag (ti_flags i) TCP_ACK = true ∧ ti_ackno i = tp_snd_nxt tp.

Definition moved pcb st s' : Prop :=
  ∃ tp' acked, tv_cbs (vars (W := W) s') !! pcb = Some (CbPcb tp') ∧
    tp_state tp' = next_state (flag (ti_recv_flags (tv_in (vars s'))) TF_GOT_FIN) acked st ∧
    (acked = true → all_acked tp' (tv_in (vars s'))).

Lemma fin_acked_inv pcb s b s' tp :
  fin_acked pcb s = Some (b, s') → tv_cbs (vars s) !! pcb = Some (CbPcb tp) →
  s' = s ∧ (b = true → all_acked tp (tv_in (vars s))).
Proof.
  intros H Hc. unfold fin_acked in H. rewrite (prog_bind_step _ _ s (ti_flags (tv_in (vars s))) s) in H by done.
  rewrite (prog_bind_step _ _ s (ti_ackno (tv_in (vars s))) s) in H by done.
  rewrite (prog_bind_step _ _ _ _ _ (tcb_run _ _ _ Hc)) in H. injection H as <- <-. split; [done|].
  intros Hb. apply andb_true_iff in Hb as [Hb _]. apply andb_true_iff in Hb as [H1 H2]. apply Z.eqb_eq in H2. by split.
Qed.

(** Assignments to the state, and to flags of the control block. *)
Lemma upd_keeps pcb f s u s' tp :
  upd_tcb pcb f s = Some (u, s') → tv_cbs (vars s) !! pcb = Some (CbPcb tp) →
  tv_cbs (vars s') !! pcb = Some (CbPcb (f tp)) ∧ tv_in (vars s') = tv_in (vars s).
Proof.
  intros H Hc. rewrite (upd_tcb_run _ _ _ _ Hc) in H. injection H as _ <-. unfold put_cb_state.
  rewrite vars_with. cbn. by rewrite lookup_insert_eq.
Qed.

Lemma move_close_wait pcb s err s' tp :
  (fin_close_wait pcb ;; mret ERR_OK) s = Some (err, s') → tv_cbs (vars s) !! pcb = Some (CbPcb tp) →
  tp_state tp = ESTABLISHED ∨ tp_state tp = CLOSE_WAIT → moved pcb (tp_state tp) s'.
Proof.
  intros H Hc Hst. unfold fin_close_wait in H.
  apply prog_bind_Some in H as (? & s1 & H1 & [= _ <-]).
  rewrite (prog_bind_step _ _ s (ti_recv_flags (tv_in (vars s))) s) in H1 by done.
  destruct (flag (ti_recv_flags (tv_in (vars s))) TF_GOT_FIN) eqn:Ef; cbn [when] in H1.
  - apply prog_bind_Some in H1 as (? & s2 & H2 & H3). destruct (upd_keeps _ _ _ _ _ _ H2 Hc) as [Hc2 Hi2].
    destruct (upd_keeps _ _ _ _ _ _ H3 Hc2) as [Hc3 Hi3]. eexists _, false. split; [exact Hc3|].
    rewrite Hi3, Hi2, Ef. split; [|done]. by destruct Hst as [-> | ->].
  - injection H1 as _ <-. exists tp, false. split; [done|]. rewrite Ef. split; [|done]. by destruct Hst as [-> | ->].
Qed.

Lemma move_fin_wait_1 pcb s err s' tp :
  (process_fin_wait_1 pcb ;; mret ERR_OK) s = Some (err, s') → tv_cbs (vars s) !! pcb = Some (CbPcb tp) →
  tp_state tp = FIN_WAIT_1 → moved pcb FIN_WAIT_1 s'.
Proof.
  intros H Hc Hst. apply prog_bind_Some in H as (? & s1 & H & [= _ <-]). unfold process_fin_wait_1 in H.
  apply (holds_step (conn pcb (λ tp _, tp_state tp = FIN_WAIT_1))) in H as (? & s2 & (tp2 & Hc2 & Hs2) & H);
    [|by exists tp|apply keep_receive].
  rewrite (prog_bind_step _ _ s2 (ti_recv_flags (tv_in (vars s2))) s2) in H by done.
  apply prog_bind_Some in H as (acked & s3 & H3 & H). destruct (fin_acked_inv _ _ _ _ _ H3 Hc2) as [-> Hack].
  destruct (flag (ti_recv_flags (tv_in (vars s2))) TF_GOT_FIN) eqn:Ef.
  - apply prog_bind_Some in H as (? & s4 & H4 & H). destruct (upd_keeps _ _ _ _ _ _ H4 Hc2) as [Hc4 Hi4].
    destruct acked.
    + destruct (time_wait_run _ _ _ _ _ H Hc4) as (tp5 & Hc5 & Hs5 & Hn5 & Hi5). exists tp5, true.
      rewrite Hi5, Hi4, Ef. split; [done|]. split; [done|]. intros _. destruct (Hack eq_refl) as [Ha Hb].
      split; [done|]. by rewrite Hn5.
    + destruct (upd_keeps _ _ _ _ _ _ H Hc4) as [Hc5 Hi5]. eexists _, false. split; [exact Hc5|].
      by rewrite Hi5, Hi4, Ef.
  - destruct acked; cbn [when] in H.
    + destruct (upd_keeps _ _ _ _ _ _ H Hc2) as [Hc5 Hi5]. eexists _, true. split; [exact Hc5|]. rewrite Hi5, Ef.
      split; [done|]. intros _. by apply Hack.
    + injection H as _ <-. exists tp2, false. split; [done|]. by rewrite Ef.
Qed.

(** The states in which only the FIN of the peer is waited for, or only the
    acknowledgement of ours. *)
Lemma receive_first pcb st s {A} (k : unit → prog (istate W) A) x s' tp :
  (tcp_receive pcb ≫= k) s = Some (x, s') → tv_cbs (vars s) !! pcb = Some (CbPcb tp) → tp_state tp = st →
  ∃ s2 tp2, tv_cbs (vars s2) !! pcb = Some (CbPcb tp2) ∧ tp_state tp2 = st ∧ k tt s2 = Some (x, s').
Proof.
  intros H Hc Hst.
  apply (holds_step (conn pcb (λ tp _, tp_state tp = st))) in H as ([] & s2 & (tp2 & Hc2 & Hs2) & H);
    [|by exists tp|apply keep_receive]. by exists s2, tp2.
Qed.

Lemma process_state_moves pcb s err s' tp :
  process_state pcb s = Some (err, s') → tv_cbs (vars s) !! pcb = Some (CbPcb tp) →
  synchronized (tp_state tp) = true → moved pcb (tp_state tp) s'.
Proof.
  intros H Hc Hsy. unfold process_state in H. rewrite (prog_bind_step _ _ _ _ _ (tcb_run _ _ _ Hc)) in H.
  destruct (tp_state tp) eqn:Est; try done.
  - apply (receive_first pcb ESTABLISHED) with (tp := tp) in H as (s2 & tp2 & Hc2 & Hs2 & H); [|done|done].
    rewrite <- Hs2. apply (move_close_wait _ _ _ _ _ H Hc2). by left.
  - by apply (move_fin_wait_1 _ _ _ _ _ H Hc).
  - apply (receive_first pcb FIN_WAIT_2) with (tp := tp) in H as (s2 & tp2 & Hc2 & Hs2 & H); [|done|done].
    rewrite (prog_bind_step _ _ s2 (ti_recv_flags (tv_in (vars s2))) s2) in H by done.
    apply prog_bind_Some in H as (? & s3 & H & [= _ <-]).
    destruct (flag (ti_recv_flags (tv_in (vars s2))) TF_GOT_FIN) eqn:Ef; cbn [when] in H.
    + apply prog_bind_Some in H as (? & s4 & H4 & H). destruct (upd_keeps _ _ _ _ _ _ H4 Hc2) as [Hc4 Hi4].
      destruct (time_wait_run _ _ _ _ _ H Hc4) as (tp5 & Hc5 & Hs5 & _ & Hi5). exists tp5, false.
      by rewrite Hi5, Hi4, Ef.
    + injection H as _ <-. exists tp2, false. by rewrite Ef.
  - apply (receive_first pcb CLOSE_WAIT) with (tp := tp) in H as (s2 & tp2 & Hc2 & Hs2 & H); [|done|done].
    rewrite <- Hs2. apply (move_close_wait _ _ _ _ _ H Hc2). by right.
  - apply (receive_first pcb CLOSING) with (tp := tp) in H as (s2 & tp2 & Hc2 & Hs2 & H); [|done|done].
    apply prog_bind_Some in H as (acked & s3 & H3 & H). destruct (fin_acked_inv _ _ _ _ _ H3 Hc2) as [-> Hack].
    apply prog_bind_Some in H as (? & s4 & H & [= _ <-]). destruct acked; cbn [when] in H.
    + destruct (time_wait_run _ _ _ _ _ H Hc2) as (tp5 & Hc5 & Hs5 & Hn5 & Hi5). exists tp5, true.
      split; [done|]. split; [done|]. intros _. destruct (Hack eq_refl) as [Ha Hb]. unfold all_acked. by rewrite Hi5, Hn5.
    + injection H as _ <-. by exists tp2, false.
  - apply (receive_first pcb LAST_ACK) with (tp := tp) in H as (s2 & tp2 & Hc2 & Hs2 & H); [|done|done].
    apply prog_bind_Some in H as (acked & s3 & H3 & H). destruct (fin_acked_inv _ _ _ _ _ H3 Hc2) as [-> Hack].
    apply prog_bind_Some in H as (? & s4 & H & [= _ <-]).
    assert (H4 : conn pcb (λ tp _, tp_state tp = LAST_ACK) s4).
    { revert H. match goal with |- ?c s2 = _ → _ => assert (Hh : holds (conn pcb (λ tp _, tp_state tp = LAST_ACK)) c) by keep_solve end.
      intros H. apply (Hh _ _ _ H). by exists tp2. }
    destruct H4 as (tp4 & Hc4 & Hs4). by exists tp4, false.
Qed.

End functions.
