(* ===== verification/TcpTyped.v ===== *)
(** * The types of the fields of a connection

    Integers of the source have a width; here they are [Z].  Reception keeps
    every field of the control block and of the static variables of tcp_in.c
    within its C type. *)

From stdpp Require Import base numbers list gmap option.
From S2P Require Import Prelude Mem Memp Pbuf PbufLemmas PbufOps Chksum ChksumProps Ip4Addr Etharp LinkedList Netifs NetifProps Ip4 TcpBase TcpOut Tcp TcpIn TcpLemmas TcpStates.

Definition is_u8 (z : Z) : Prop := 0 ≤ z < 256.
Definition is_u16 (z : Z) : Prop := 0 ≤ z < 65536.
Definition is_u32 (z : Z) : Prop := 0 ≤ z < 4294967296.
Definition is_s16 (z : Z) : Prop := -32768 ≤ z < 32768.

(** [struct tcp_pcb] *)
Record pcb_typed (p : tcp_pcb) : Prop := {
  ty_remote_port : is_u16 (tp_remote_port p);
  ty_flags : is_u8 (tp_flags p);
  ty_polltmr : is_u8 (tp_polltmr p);
  ty_pollinterval : is_u8 (tp_pollinterval p);
  ty_last_timer : is_u8 (tp_last_timer p);
  ty_tmr : is_u32 (tp_tmr p);
  ty_rcv_nxt : is_u32 (tp_rcv_nxt p);
  ty_rcv_wnd : is_u16 (tp_rcv_wnd p);
  ty_rcv_ann_wnd : is_u16 (tp_rcv_ann_wnd p);
  ty_rcv_ann_right_edge : is_u32 (tp_rcv_ann_right_edge p);
  ty_rtime : is_s16 (tp_rtime p);
  ty_mss : is_u16 (tp_mss p);
  ty_rttest : is_u32 (tp_rttest p);
  ty_rtseq : is_u32 (tp_rtseq p);
  ty_sa : is_s16 (tp_sa p);
  ty_sv : is_s16 (tp_sv p);
  ty_rto : is_s16 (tp_rto p);
  ty_nrtx : is_u8 (tp_nrtx p);
  ty_dupacks : is_u8 (tp_dupacks p);
  ty_lastack : is_u32 (tp_lastack p);
  ty_cwnd : is_u16 (tp_cwnd p);
  ty_ssthresh : is_u16 (tp_ssthresh p);
  ty_snd_nxt : is_u32 (tp_snd_nxt p);
  ty_snd_wl1 : is_u32 (tp_snd_wl1 p);
  ty_snd_wl2 : is_u32 (tp_snd_wl2 p);
  ty_snd_lbb : is_u32 (tp_snd_lbb p);
  ty_snd_wnd : is_u16 (tp_snd_wnd p);
  ty_snd_wnd_max : is_u16 (tp_snd_wnd_max p);
  ty_snd_buf : is_u16 (tp_snd_buf p);
  ty_snd_queuelen : is_u16 (tp_snd_queuelen p);
  ty_unsent_oversize : is_u16 (tp_unsent_oversize p);
  ty_keep_idle : is_u32 (tp_keep_idle p);
  ty_persist_cnt : is_u8 (tp_persist_cnt p);
  ty_persist_backoff : is_u8 (tp_persist_backoff p);
  ty_keep_cnt_sent : is_u8 (tp_keep_cnt_sent p)
}.

(** The static variables that are numbers. *)
Record in_typed (i : tcp_in) : Prop := {
  ty_seqno : is_u32 (ti_seqno i);
  ty_ackno : is_u32 (ti_ackno i);
  ty_recv_acked : is_u16 (ti_recv_acked i);
  ty_tcplen : is_u16 (ti_tcplen i);
  ty_recv_flags : is_u8 (ti_recv_flags i)
}.

Lemma s16_range z : is_s16 (s16 z).
Proof. unfold is_s16, s16. zmod. Qed.
Lemma high_u8 a n : is_u8 a → 8 ≤ n → Z.testbit a n = false.
Proof.
  unfold is_u8. intros Ha Hn. rewrite <- (Z.mod_small a (2 ^ 8)) by (change (2 ^ 8) with 256; lia).
  apply Z.mod_pow2_bits_high. lia.
Qed.
Lemma u8_bits z : (∀ n, 8 ≤ n → Z.testbit z n = false) → is_u8 z.
Proof.
  intros Hz. enough (E : z mod 2 ^ 8 = z). { rewrite <- E. apply (Z.mod_pos_bound _ (2 ^ 8)). lia. }
  apply Z.bits_inj'. intros n Hn. destruct (Z.lt_ge_cases n 8).
  - by rewrite Z.mod_pow2_bits_low by lia.
  - by rewrite Z.mod_pow2_bits_high, Hz by lia.
Qed.
Lemma lor_u8 a b : is_u8 a → is_u8 b → is_u8 (Z.lor a b).
Proof. intros Ha Hb. apply u8_bits. intros n Hn. by rewrite Z.lor_spec, !high_u8. Qed.
Lemma unset_u8 a b : is_u8 a → is_u8 (unset a b).
Proof. intros Ha. apply u8_bits. intros n Hn. unfold unset. by rewrite Z.land_spec, high_u8. Qed.

#[local] Hint Resolve s16_range lor_u8 unset_u8 u8_range u16_range u32_range : core.

(** Fields that are not written keep their type, the others get a value of it. *)
Ltac typed_pcb :=
  intros; repeat match goal with H : pcb_typed _ |- _ => destruct H end;
  constructor; cbn; try assumption; unfold is_u8, is_u16, is_u32, is_s16 in *;
  first [apply u8_range | apply u16_range | apply u32_range | apply s16_range | lia].

Lemma typed_or_flags f p : is_u8 f → pcb_typed p → pcb_typed (or_flags f p).
Proof. intros Hf H. destruct H. constructor; cbn; try assumption. by apply lor_u8. Qed.
Lemma typed_and_not_flags f p : pcb_typed p → pcb_typed (and_not_flags f p).
Proof. intros H. destruct H. constructor; cbn; try assumption. by apply unset_u8. Qed.
Lemma typed_ack p : pcb_typed p → pcb_typed (tcp_ack p).
Proof.
  intros H. unfold tcp_ack. destruct (flag _ _); [|by apply typed_or_flags].
  apply typed_or_flags; [done | by apply typed_and_not_flags].
Qed.
Lemma typed_snd_wnd seqno ackno wnd p :
  is_u32 seqno → is_u32 ackno → is_u16 wnd → pcb_typed p → pcb_typed (update_snd_wnd seqno ackno wnd p).
Proof.
  intros Hs Ha Hw. unfold update_snd_wnd. cbv zeta.
  repeat match goal with |- context [if ?b then _ else _] => destruct b end; typed_pcb.
Qed.
Lemma typed_ack_cwnd ackno p p' : is_u32 ackno → pcb_typed p → ack_cwnd ackno p = Some p' → pcb_typed p'.
Proof.
  intros Ha Hp. unfold ack_cwnd. cbv zeta. set (p0 := if flag (tp_flags p) TF_INFR then _ else p).
  assert (H0 : pcb_typed p0).
  { subst p0. destruct (flag _ _); [|done]. apply (typed_and_not_flags TF_INFR) in Hp as Hp'. destruct Hp, Hp'.
    constructor; cbn in *; assumption. }
  clearbody p0. set (p1 := set_lastack ackno _).
  assert (H1 : pcb_typed p1) by (subst p1; revert H0; typed_pcb). clearbody p1.
  repeat match goal with |- context [if ?b then _ else _] => destruct b end; intros [= <-]; try done; revert H1; typed_pcb.
Qed.
Lemma typed_rtt t ackno p : pcb_typed p → pcb_typed (update_rtt t ackno p).
Proof. unfold update_rtt. cbv zeta. destruct (_ && _); [typed_pcb | done]. Qed.
Lemma typed_rexmit p : pcb_typed p → pcb_typed (count_rexmit p).
Proof.
  unfold count_rexmit. destruct (Z.ltb_spec (tp_nrtx p) 0xff); typed_pcb.
Qed.

Section typed.
  Context {W : Type} `{HT : HasTcp W} `{TE : TcpEnv W} {EK : @EnvKeeps W HT TE}.
  Implicit Types s : istate W.
  #[local] Set Default Proof Using "All".

(** The control block [pcb] and the variables have their types. *)
Definition typed (pcb : Z) : istate W → Prop := conn pcb (λ tp i, pcb_typed tp ∧ in_typed i).

(** What is read has its type. *)
Lemma typed_tin {A B} pcb (f : tcp_in → A) (P : A → Prop) (k : A → prog (istate W) B) :
  (∀ i, in_typed i → P (f i)) → (∀ x, P x → holds (typed pcb) (k x)) → holds (typed pcb) (tin f ≫= k).
Proof.
  intros Hf Hk s x s' H Hs. pose proof Hs as (tp & _ & _ & Hi).
  rewrite (prog_bind_step _ _ s (f (tv_in (vars s))) s) in H by done. exact (Hk _ (Hf _ Hi) s x s' H Hs).
Qed.
Lemma typed_tcb {B} pcb (k : tcp_pcb → prog (istate W) B) :
  (∀ p, pcb_typed p → holds (typed pcb) (k p)) → holds (typed pcb) (tcb pcb ≫= k).
Proof.
  intros Hk s x s' H Hs. pose proof Hs as (tp & Hc & Hp & _).
  rewrite (prog_bind_step _ _ _ _ _ (tcb_run _ _ _ Hc)) in H. exact (Hk _ Hp s x s' H Hs).
Qed.
Lemma typed_upd pcb f : (∀ p, pcb_typed p → pcb_typed (f p)) → holds (typed pcb) (upd_tcb pcb f).
Proof. intros Hf. apply holds_upd_tcb. intros tp i [H1 H2]. split; [by apply Hf | done]. Qed.
Lemma typed_mod pcb f : (∀ i, in_typed i → in_typed (f i)) → holds (typed pcb) (tin_mod (W := W) f).
Proof. intros Hf. apply holds_tin_mod. intros tp i [H1 H2]. split; [done | by apply Hf]. Qed.
Lemma typed_next pcb n h : holds (typed pcb) (upd_com (W := W) n (set_co_next h)).
Proof. apply holds_upd_com. intros tp i [H1 H2]. split; [|done]. destruct H1. by constructor. Qed.
End typed.

#[local] Hint Resolve holds_rd16 holds_rd32 holds_wr16 holds_wr32 holds_TCPH_FLAGS holds_TCPH_FLAGS_SET
  holds_TCPH_HDRLEN_FLAGS_SET holds_seg_seqno holds_TCP_TCPLEN holds_seg_end holds_free_pbuf holds_seg_free
  holds_trim_loop holds_ip4_route holds_ip_output : tcp_keep.

Ltac typed_in :=
  let H := fresh in
  intros ? H; destruct H; constructor; cbn; try assumption;
  first [apply u16_range | by apply lor_u8].
Ltac typed_fields :=
  first [ by apply typed_ack | by apply typed_rexmit | by apply typed_rtt
        | by apply typed_or_flags | by apply typed_and_not_flags | typed_pcb ].
Ltac typed_step :=
  first
    [ progress (intros; cbv zeta)
    | solve [unfold typed; eauto with tcp_keep typeclass_instances]
    | match goal with |- holds _ (tcb _ ≫= _) => apply typed_tcb; intros end
    | match goal with |- holds _ (tin ti_seqno ≫= _) => apply (typed_tin _ ti_seqno is_u32); [by intros ? []|intros] end
    | match goal with |- holds _ (tin ti_ackno ≫= _) => apply (typed_tin _ ti_ackno is_u32); [by intros ? []|intros] end
    | match goal with |- holds _ (upd_tcb _ _) => apply typed_upd; intros; typed_fields end
    | match goal with |- holds _ (tin_mod _) => apply typed_mod; typed_in end
    | match goal with |- holds _ (_ ≫= _) => apply holds_bind; [|intros] end
    | match goal with |- holds _ (match ?x with pair _ _ => _ end) => destruct x end
    | match goal with |- holds _ (if ?b then _ else _) => destruct b end
    | match goal with |- holds _ (when ?b _) => destruct b; cbn [when] end ].
Ltac typed_solve := repeat typed_step.

Section receive_typed.
  Context {W : Type} `{HT : HasTcp W} `{TE : TcpEnv W} {EK : @EnvKeeps W HT TE}.
  Implicit Types s : istate W.
  Context (pcb : Z).
  #[local] Set Default Proof Using "All".

Abbreviation ty := (typed (W := W) pcb).

Lemma typed_alloc_header o d q : holds ty (tcp_output_alloc_header pcb o d q).
Proof. unfold tcp_output_alloc_header. typed_solve. Qed.
#[local] Hint Resolve typed_alloc_header : tcp_keep.
Lemma typed_send_empty_ack : holds ty (tcp_send_empty_ack pcb).
Proof. unfold tcp_send_empty_ack. typed_solve; apply typed_upd; intros; destruct (_ =? _); by (apply typed_or_flags || apply typed_and_not_flags). Qed.
#[local] Hint Resolve typed_send_empty_ack : tcp_keep.
Lemma typed_insert set_head fuel : (∀ h, holds ty (set_head h)) →
  ∀ prev h seg, holds ty (insert_by_seqno fuel set_head prev h seg).
Proof. intros Hs. induction fuel as [|fuel IH]; intros prev h seg; cbn [insert_by_seqno]; typed_solve. Qed.
Lemma typed_tcp_rexmit : holds ty (tcp_rexmit pcb).
Proof. unfold tcp_rexmit. typed_solve. apply typed_insert. typed_solve. Qed.
#[local] Hint Resolve typed_tcp_rexmit : tcp_keep.

Lemma typed_fast p :
  pcb_typed p →
  let ssthresh := Z.min (tp_cwnd p) (tp_snd_wnd p) / 2 in
  let ssthresh := if ssthresh <? 2 * tp_mss p then u16 (2 * tp_mss p) else ssthresh in
  pcb_typed (set_rtime 0 (or_flags TF_INFR (set_cwnd (u16 (ssthresh + 3 * tp_mss p)) (set_ssthresh ssthresh p)))).
Proof.
  intros Hp. pose proof (ty_cwnd p Hp) as Hc. pose proof (ty_snd_wnd p Hp) as Hw. cbv zeta.
  set (h := if _ <? _ then _ else _).
  assert (Hh : is_u16 h).
  { unfold h, is_u16 in *. destruct (_ <? _); [apply u16_range|]. Z.to_euclidean_division_equations; lia. }
  clearbody h. pose proof (lor_u8 (tp_flags p) TF_INFR (ty_flags p Hp) ltac:(done)). typed_pcb.
Qed.
Lemma typed_rexmit_fast : holds ty (tcp_rexmit_fast pcb).
Proof. unfold tcp_rexmit_fast. typed_solve. apply typed_upd. intros. by apply typed_fast. Qed.
#[local] Hint Resolve typed_rexmit_fast : tcp_keep.
Lemma typed_dupack a t r : holds ty (receive_dupack pcb a t r).
Proof.
  unfold receive_dupack. apply typed_tcb. intros p Hp. cbv zeta.
  assert (Hd : is_u8 (if tp_dupacks p <? u8 (tp_dupacks p + 1) then tp_dupacks p + 1 else tp_dupacks p)).
  { pose proof (ty_dupacks p Hp). unfold is_u8 in *. pose proof (u8_range (tp_dupacks p + 1)).
    destruct (Z.ltb_spec (tp_dupacks p) (u8 (tp_dupacks p + 1))); lia. }
  revert Hd. generalize (if tp_dupacks p <? u8 (tp_dupacks p + 1) then tp_dupacks p + 1 else tp_dupacks p). intros d Hd.
  typed_solve. apply typed_upd. intros p0 Hp0. destruct (_ <? u16 _); [typed_pcb | done].
Qed.
Lemma typed_release x y : holds ty (release_acked pcb x y).
Proof. unfold release_acked. typed_solve. Qed.
#[local] Hint Resolve typed_dupack typed_release : tcp_keep.
Lemma typed_unacked_loop a fuel : holds ty (unacked_loop fuel pcb a).
Proof. induction fuel as [|fuel IH]; cbn [unacked_loop]; typed_solve. Qed.
Lemma typed_unsent_loop a fuel : holds ty (unsent_loop fuel pcb a).
Proof. induction fuel as [|fuel IH]; cbn [unsent_loop]; typed_solve. Qed.
#[local] Hint Resolve typed_unacked_loop typed_unsent_loop : tcp_keep.

Lemma typed_lift_bind {A B} (o : option A) (k : A → prog (istate W) B) :
  (∀ x, o = Some x → holds ty (k x)) → holds ty (lift o ≫= k).
Proof.
  intros Hk s x s' H Hs. destruct o as [a|]; [|done]. rewrite (prog_bind_step _ _ s a s) in H by done.
  exact (Hk a eq_refl s x s' H Hs).
Qed.
Lemma typed_put p : pcb_typed p → holds ty (put_cb pcb (CbPcb p)).
Proof.
  intros Hp. apply holds_tcp_mod. intros v tp _ [_ Hi]. exists p. cbn. by rewrite lookup_insert_eq.
Qed.
Lemma typed_new_ack a : is_u32 a → holds ty (receive_new_ack pcb a).
Proof.
  intros Ha. unfold receive_new_ack. apply typed_tcb. intros p Hp. apply typed_lift_bind. intros p' Hp'.
  apply holds_bind; [apply typed_put; by apply (typed_ack_cwnd a p) | intros _]. typed_solve.
  apply typed_upd. intros p0 Hp0. destruct (tp_unacked p0 =? 0); typed_pcb.
Qed.
#[local] Hint Resolve typed_new_ack : tcp_keep.

(** The window field of the header of the segment is in two bytes. *)
Definition wnd_bytes s : Prop :=
  ∀ x, load_bytes (ps_bytes (as_packets s)) (ti_tcphdr (tv_in (vars s)) + 14) 2 = Some x → Forall byte_ok x.

Lemma rd16_inv a s w s' :
  rd16 a s = Some (w, s') → s' = s ∧ ∃ x, load_bytes (ps_bytes (as_packets s)) a 2 = Some x ∧ w = of_le x.
Proof.
  unfold rd16, peek, packets. intros H. apply prog_bind_Some in H as (x & s1 & H1 & [= <- <-]).
  destruct (load_bytes _ a 2) as [y|]; [|done]. injection H1 as <- <-. split; [by destruct s | by exists y].
Qed.
Lemma wnd_range x m a : load_bytes m a 2 = Some x → Forall byte_ok x → is_u16 (of_le x).
Proof.
  intros Hx Hb. apply load_bytes_length in Hx. destruct x as [|b [|c [|]]]; try done.
  apply Forall_cons_1 in Hb as [H1 Hb]. apply Forall_cons_1 in Hb as [H2 _]. unfold byte_ok, is_u16 in *.
  cbn [of_le foldr]. lia.
Qed.

Lemma typed_receive_ack s u s' : typed pcb s → wnd_bytes s → receive_ack pcb s = Some (u, s') → typed pcb s'.
Proof.
  intros Hs Hw H. unfold receive_ack in H. pose proof Hs as (tp & _ & _ & [T1 T2 _ _ _]).
  set (i := tv_in (vars s)) in *.
  rewrite (prog_bind_step _ _ s (ti_seqno i) s), (prog_bind_step _ _ s (ti_ackno i) s) in H by done.
  rewrite (prog_bind_step _ _ s (ti_tcplen i) s), (prog_bind_step _ _ s (ti_tcphdr i) s) in H by done.
  apply prog_bind_Some in H as (w & s1 & H1 & H). apply rd16_inv in H1 as (-> & x & Hx & ->).
  pose proof (wnd_range _ _ _ Hx (Hw x Hx)) as Hr. revert H Hs. generalize dependent (of_le x). intros w Hr.
  match goal with |- ?c s = _ → _ => assert (Hc : holds ty c) end; [|apply Hc].
  typed_solve. apply typed_upd. intros. by apply typed_snd_wnd.
Qed.

Lemma typed_trim_front r : is_u32 r → holds ty (trim_front r).
Proof. intros Hr. unfold trim_front. typed_solve. Qed.
Lemma typed_trim_end r : holds ty (trim_end r).
Proof. unfold trim_end. typed_solve. Qed.
Lemma typed_ann_wnd : holds ty (tcp_update_rcv_ann_wnd pcb).
Proof. unfold tcp_update_rcv_ann_wnd. typed_solve. Qed.
#[local] Hint Resolve typed_trim_front typed_trim_end typed_ann_wnd ty_rcv_nxt : tcp_keep.
Lemma typed_receive_next : holds ty (receive_next pcb).
Proof. unfold receive_next. typed_solve. Qed.
#[local] Hint Resolve typed_receive_next : tcp_keep.
Lemma typed_receive_data : holds ty (receive_data pcb).
Proof. unfold receive_data, tcp_ack_now. typed_solve. Qed.
End receive_typed.

