(* ===== verification/TcpTrim.v ===== *)
(** * Cutting off the front of a received segment

    [tcp_receive] drops the bytes that it has already by emptying the pbufs in
    front and moving the payload of the next one.  The rest of the chain keeps
    its bytes. *)

From stdpp Require Import base numbers list gmap option.
From S2P Require Import Prelude Mem MemRefine Memp Pbuf PbufLemmas PbufAlloc PbufOps PbufProps Chksum Ip4Addr Etharp Netifs Ip4 TcpBase TcpOut Tcp TcpIn TcpLemmas.

(** The chain without its first [off] bytes; [T] is what stays. *)
Fixpoint trim_chain (T off : Z) (l : chain) : chain :=
  match l with
  | [] => []
  | (a, b) :: l' =>
      if pb_len b <? off then (a, with_len 0 (with_tot_len T b)) :: trim_chain T (off - pb_len b) l'
      else (a, hide off b) :: l'
  end.

(** A pbuf whose payload can be moved: it holds the payload itself, or refers
    to it. *)
Definition movable (c : Z * pbuf) : Prop :=
  c.1 + SIZEOF_STRUCT_PBUF ≤ pb_payload c.2 ∧ pb_len c.2 ≤ 32767.

Lemma trim_chain_fst T off l : (trim_chain T off l).*1 = l.*1.
Proof.
  revert off. induction l as [|[a b] l IH]; intros off; [done|]. cbn [trim_chain].
  destruct (_ <? _); [|done]. cbn [fmap list_fmap fst]. f_equal. apply IH.
Qed.

Lemma trim_chain_linked T off p l : linked p l 0 → linked p (trim_chain T off l) 0.
Proof.
  revert p off. induction l as [|[a b] l IH]; intros p off; [done|]. cbn [trim_chain linked]. intros (-> & Ha & H).
  destruct (_ <? _); cbn [linked]; (split; [done|]); (split; [done|]); [by apply IH | done].
Qed.

Lemma trim_chain_lens T off l :
  lens_ok l → 0 < off ≤ lens l → T = lens l - off →
  lens_ok (trim_chain T off l) ∧ lens (trim_chain T off l) = T.
Proof.
  intros Hl. revert off. induction l as [|[a b] l IH]; intros off Ho HT; [cbn in *; lia|].
  pose proof Hl as (Hb & Ht & Hm & Hl'). pose proof (lens_nonneg _ Hl') as H0. cbn [lens] in *.
  cbn [trim_chain]. destruct (Z.ltb_spec (pb_len b) off) as [Hlt|Hge].
  - destruct (IH Hl' (off - pb_len b)) as [H1 H2]; [lia | lia |].
    split; cbn [lens_ok lens with_len with_tot_len pb_len pb_tot_len]; [|lia]. split_and!; try done; lia.
  - split; cbn [lens_ok lens hide with_len with_tot_len with_payload pb_len pb_tot_len]; [|lia].
    split_and!; try done; lia.
Qed.

Lemma trim_chain_bytes m T off l d :
  lens_ok l → 0 < off ≤ lens l → pbytes m l = Some d →
  pbytes m (trim_chain T off l) = Some (drop (Z.to_nat off) d).
Proof.
  intros Hl. revert off d. induction l as [|[a b] l IH]; intros off d Ho Hd; [cbn in *; lia|].
  pose proof Hl as (Hb & _ & _ & Hl'). cbn [lens] in Ho.
  destruct (pbytes_cons _ _ _ _ _ Hd) as (x & y & -> & Ex & Ey & Hx).
  cbn [trim_chain]. destruct (Z.ltb_spec (pb_len b) off) as [Hlt|Hge].
  - cbn [pbytes with_len with_tot_len pb_len pb_payload Z.to_nat load_bytes].
    rewrite (IH Hl' (off - pb_len b) y) by (done || lia). rewrite drop_app_ge by lia.
    replace (Z.to_nat (off - pb_len b)) with (Z.to_nat off - length x)%nat by (rewrite Hx; lia). done.
  - cbn [pbytes hide with_len with_tot_len with_payload pb_len pb_payload].
    destruct (load_bytes_split _ _ _ _ (Z.to_nat off) Ex) as [_ Ex']; [lia|].
    rewrite Z2Nat.id in Ex' by lia.
    replace (Z.to_nat (pb_len b - off)) with (Z.to_nat (pb_len b) - Z.to_nat off)%nat by lia.
    rewrite Ex', Ey. by rewrite drop_app_le by lia.
Qed.

(** What the other operations need of the pbufs of the chain stays true. *)
Lemma trim_chain_forall (P : Z * pbuf → Prop) T off l :
  0 < off → Forall P l → (∀ a b, (a, b) ∈ l → P (a, b) → P (a, with_len 0 (with_tot_len T b))) →
  (∀ a b o, (a, b) ∈ l → 0 < o ≤ pb_len b → P (a, b) → P (a, hide o b)) → Forall P (trim_chain T off l).
Proof.
  intros Ho H H1 H2. revert off Ho. induction H as [|[a b] l Hb H IH]; intros off Ho; [constructor|].
  cbn [trim_chain]. destruct (Z.ltb_spec (pb_len b) off).
  - constructor; [apply H1; [by left | done]|]. apply IH; [| |lia].
    + intros x y Hx. apply H1. by right.
    + intros x y o Hx. apply H2. by right.
  - constructor; [apply H2; [by left | lia | done] | done].
Qed.

Lemma trim_chain_types T off l :
  (λ c : Z * pbuf, (c.1, pb_type c.2)) <$> trim_chain T off l = (λ c, (c.1, pb_type c.2)) <$> l.
Proof.
  revert off. induction l as [|[a b] l IH]; intros off; [done|]. cbn [trim_chain].
  destruct (_ <? _); [|done]. cbn [fmap list_fmap]. f_equal. apply IH.
Qed.

Section trim.
  Context {W : Type} `{HT : HasTcp W} `{TE : TcpEnv W}.
  Implicit Types s : istate W.

(** The packets with other pbufs in the map. *)
Abbreviation with_pbufs q m := (PState m (ps_bytes q) (ps_heap q) (ps_pools q)).

(** [pbuf_header] moves the payload of a pbuf forward. *)
Lemma header_forward q p b n :
  ps_pbufs q !! p = Some b → p ≠ 0 → movable (p, b) → 0 < n ≤ pb_len b → pb_len b ≤ pb_tot_len b < 65536 →
  pbuf_header p (s16 (- n)) q = Some (0, with_pbufs q (<[p := hide n b]> (ps_pbufs q))).
Proof.
  intros Hb Hp [Hm1 Hm2] Hn Ht. cbn [fst snd] in *. replace (s16 (- n)) with (- n) by (unfold s16; zmod).
  by rewrite (header_hide_run q p b n) by (done || lia).
Qed.

Lemma trim_loop_run pcb s tp i T : ∀ l q p off fuel,
  pchain (ps_pbufs q) p l → lens_ok l → 0 < off ≤ lens l → T = lens l - off → Forall movable l →
  (length l < fuel)%nat →
  ∃ m', ('(x, o) ← trim_loop fuel p off T; _ ← packets (pbuf_header x (s16 (- o))); mret tt)
          (conf pcb s tp i q) = Some (tt, conf pcb s tp i (with_pbufs q m')) ∧
    stored m' (trim_chain T off l) ∧ ∀ k, k ∉ l.*1 → m' !! k = ps_pbufs q !! k.
Proof.
  induction l as [|[a b] l IH]; intros q p off [|fuel] Hp Hl Ho HTot Hm Hf; try (cbn in *; lia).
  pose proof (pchain_NoDup _ _ _ Hp) as Hnd. apply list.NoDup_cons in Hnd as [Ha _].
  destruct Hp as (-> & Ha0 & Eb & Hp). pose proof Hl as (Hb & Ht & H16 & Hl'). cbn [lens] in *.
  pose proof (lens_nonneg _ Hl'). apply Forall_cons_1 in Hm as [Hmb Hm].
  cbn [trim_loop trim_chain]. rewrite prog_bind_assoc.
  rewrite (prog_bind_step _ _ _ b _ (conf_read _ _ _ _ _ _ _ (deref_run _ _ _ Eb))).
  destruct (Z.ltb_spec (pb_len b) off) as [Hlt|Hge].
  - set (b' := with_len 0 (with_tot_len T b)). set (q' := with_pbufs q (<[a := b']> (ps_pbufs q))).
    rewrite prog_bind_assoc, (prog_bind_step _ _ _ _ _ (conf_run _ _ _ _ _ _ _ _ (upd_pbuf_step _ _ b _ Eb))).
    assert (Eb1 : ps_pbufs (with_pbufs q (<[a := with_tot_len T b]> (ps_pbufs q))) !! a = Some (with_tot_len T b))
      by apply lookup_insert_eq.
    rewrite prog_bind_assoc, (prog_bind_step _ _ _ _ _ (conf_run _ _ _ _ _ _ _ _ (upd_pbuf_step _ _ _ _ Eb1))).
    cbn [ps_pbufs ps_bytes ps_heap ps_pools]. rewrite insert_insert_eq.
    destruct (IH q' (pb_next b) (off - pb_len b) fuel) as (m' & E & Hs & Hk); try done; try (cbn in Hf; lia).
    + apply (pchain_frame (ps_pbufs q)); [done|]. intros x Hx. cbn. rewrite lookup_insert_ne; [done|]. by intros ->.
    + exists m'. split; [exact E|]. split.
      * intros x y Hx. apply elem_of_cons in Hx as [[= -> ->]|Hx]; [|by apply Hs].
        rewrite Hk by done. cbn. by rewrite lookup_insert_eq.
      * intros k Hkn. rewrite Hk by set_solver. cbn. rewrite lookup_insert_ne by set_solver. done.
  - rewrite (prog_bind_step _ _ (conf pcb s tp i q) (a, off) (conf pcb s tp i q)) by done. cbv beta iota.
    rewrite (prog_bind_step _ _ _ _ _ (conf_run _ _ _ _ _ _ _ _
               (header_forward q a b off Eb Ha0 Hmb ltac:(lia) ltac:(lia)))).
    eexists. split; [reflexivity|]. split.
    + intros x y Hx. apply elem_of_cons in Hx as [[= -> ->]|Hx]; [by rewrite lookup_insert_eq|].
      rewrite lookup_insert_ne; [by eapply pchain_lookup|]. intros ->. apply Ha. by apply (list_elem_of_fmap_2 fst _ (x, y)).
    + intros k Hk. rewrite lookup_insert_ne by set_solver. done.
Qed.

(** The part of [trim_front] that changes the packet. *)
Lemma trim_packet pcb s tp i q p l d off :
  chain_at q p l d → l ≠ [] → 0 < off ≤ Z.of_nat (length d) → Forall movable l →
  let T := Z.of_nat (length d) - off in
  ∃ m', (b ← packets (deref p);
         if pb_len b <? off then
           let new_tot_len := u16 (pb_tot_len b - off) in
           fuel ← gets (λ s, chain_fuel (as_packets s));
           '(x, o) ← trim_loop fuel p off new_tot_len;
           _ ← packets (pbuf_header x (s16 (- o))); mret tt
         else _ ← packets (pbuf_header p (s16 (- off))); mret tt)
        (conf pcb s tp i q) = Some (tt, conf pcb s tp i (with_pbufs q m')) ∧
    chain_at (with_pbufs q m') p (trim_chain T off l) (drop (Z.to_nat off) d) ∧
    ∀ k, k ∉ l.*1 → m' !! k = ps_pbufs q !! k.
Proof.
  intros Hc Hne Ho Hm T. pose proof (chain_at_length _ _ _ _ Hc) as Hlen. pose proof Hc as [Hp Hl Hd].
  destruct l as [|[a b] l]; [done|]. destruct (chain_at_head _ _ _ _ _ _ Hc) as (-> & Ha0 & Eb & Et).
  pose proof (lens_ok_bound _ Hl) as H16.
  rewrite (prog_bind_step _ _ _ b _ (conf_read _ _ _ _ _ _ _ (deref_run _ _ _ Eb))).
  assert (Hrun : ∃ m', (if pb_len b <? off then
       let new_tot_len := u16 (pb_tot_len b - off) in
       fuel ← gets (λ s, chain_fuel (as_packets s));
       '(x, o) ← trim_loop fuel a off new_tot_len;
       _ ← packets (pbuf_header x (s16 (- o))); mret tt
     else _ ← packets (pbuf_header a (s16 (- off))); mret tt) (conf pcb s tp i q)
     = Some (tt, conf pcb s tp i (with_pbufs q m')) ∧
     stored m' (trim_chain T off ((a, b) :: l)) ∧ ∀ k, k ∉ (((a, b) :: l) : chain).*1 → m' !! k = ps_pbufs q !! k).
  { cbv zeta. replace (u16 (pb_tot_len b - off)) with T by (rewrite u16_small; lia).
    pose proof (pchain_fuel _ _ _ Hp) as Hf.
    destruct (trim_loop_run pcb s tp i T ((a, b) :: l) q a off (chain_fuel q) Hp Hl ltac:(lia) ltac:(lia) Hm ltac:(lia))
      as (m' & E & Hs).
    exists m'. split; [|exact Hs]. destruct (Z.ltb_spec (pb_len b) off) as [Hlt|Hge].
    - rewrite (prog_bind_step _ _ _ (chain_fuel q) (conf pcb s tp i q)) by done. exact E.
    - rewrite <- E. destruct (chain_fuel q) as [|f] eqn:Ef; [cbn in Hf; lia|]. cbn [trim_loop].
      rewrite prog_bind_assoc. rewrite (prog_bind_step _ _ _ b _ (conf_read _ _ _ _ _ _ _ (deref_run _ _ _ Eb))).
      by rewrite (proj2 (Z.ltb_ge _ _) Hge). }
  destruct Hrun as (m' & E & Hs & Hk). exists m'. split; [exact E|]. split; [|exact Hk].
  destruct (trim_chain_lens T off ((a, b) :: l) Hl ltac:(lia) ltac:(lia)) as [Hl' _].
  split; [|done|].
  - apply (pchain_split m' a (trim_chain T off ((a, b) :: l)) []) || idtac.
    rewrite <- (app_nil_r (trim_chain T off ((a, b) :: l))). apply pchain_split. exists 0.
    rewrite <- (app_nil_r ((a, b) :: l)) in Hp. apply pchain_split in Hp as (x & Hx & _ & Hx0). cbn in Hx0. subst x.
    split; [by apply trim_chain_linked|]. by split.
  - apply trim_chain_bytes; [done | lia | done].
Qed.
End trim.
