(* ===== verification/TcpReceive.v ===== *)
(** * The data of a received segment

    [receive_data], the second part of [tcp_receive], against the stream of the
    peer: a segment that was cut from the stream is handed on without what was
    received before and without what does not fit the window. *)

From stdpp Require Import base numbers list gmap option.
From S2P Require Import Prelude Mem MemRefine Memp Pbuf PbufLemmas PbufAlloc PbufOps PbufProps Chksum Ip4Addr Etharp Netifs Ip4 TcpBase TcpOut Tcp TcpIn TcpLemmas TcpTrim.

(** ** The flags of a header *)

Definition hdr_flags (m : bmem) (h fl : Z) : Prop :=
  ∃ x y, load_bytes m (h + 12) 2 = Some [x; y] ∧ byte_ok x ∧ byte_ok y ∧ fl = Z.land y 63.

(** All pairs of bytes. *)
Lemma bytes_forallb (P : Z → Z → bool) :
  forallb (λ x, forallb (P x) (seqZ 0 256)) (seqZ 0 256) = true →
  ∀ x y, byte_ok x → byte_ok y → P x y = true.
Proof.
  intros H x y Hx Hy. unfold byte_ok in *. rewrite forallb_forall in H.
  pose proof (H x ltac:(apply list_elem_of_In, elem_of_seqZ; lia)) as H1. rewrite forallb_forall in H1.
  apply H1, list_elem_of_In, elem_of_seqZ. lia.
Qed.

Lemma flags_of_bytes x y :
  byte_ok x → byte_ok y → Z.land (lwip_htons (of_le [x; y])) TCP_FLAGS = Z.land y 63.
Proof.
  intros Hx Hy. apply Z.eqb_eq. revert x y Hx Hy.
  refine (bytes_forallb (λ x y, Z.land (lwip_htons (of_le [x; y])) TCP_FLAGS =? Z.land y 63) _).
  by vm_compute.
Qed.

(** What [TCPH_FLAGS_SET] stores to clear the FIN. *)
Lemma clear_fin_bytes x y :
  byte_ok x → byte_ok y →
  le16 (Z.lor (Z.land (of_le [x; y]) (PP_HTONS (Z.lnot TCP_FLAGS)))
              (lwip_htons (unset (Z.land y 63) TCP_FIN))) = [x; Z.land y 254].
Proof.
  intros Hx Hy. apply (bool_decide_eq_true_1 _). revert x y Hx Hy.
  refine (bytes_forallb (λ x y, bool_decide (le16 (Z.lor (Z.land (of_le [x; y]) (PP_HTONS (Z.lnot TCP_FLAGS)))
              (lwip_htons (unset (Z.land y 63) TCP_FIN))) = [x; Z.land y 254])) _).
  by vm_compute.
Qed.

Lemma fin_cleared y :
  byte_ok y → Z.land (Z.land y 254) 63 = unset (Z.land y 63) TCP_FIN ∧ byte_ok (Z.land y 254).
Proof.
  intros Hy. assert (H : (Z.land (Z.land y 254) 63 =? unset (Z.land y 63) TCP_FIN)
    && (0 <=? Z.land y 254) && (Z.land y 254 <? 256) = true).
  { refine (bytes_forallb (λ _ y, (Z.land (Z.land y 254) 63 =? unset (Z.land y 63) TCP_FIN)
      && (0 <=? Z.land y 254) && (Z.land y 254 <? 256)) _ 0 y _ Hy); [by vm_compute | done]. }
  unfold byte_ok. reflect_bool. lia.
Qed.

(** Single flags. *)
Lemma flag_lor w f g : flag w (Z.lor f g) = flag w f || flag w g.
Proof.
  unfold flag. rewrite Z.land_lor_distr_r. pose proof (Z.lor_eq_0_iff (Z.land w f) (Z.land w g)).
  repeat case_cmp; try done; lia.
Qed.
Lemma unset_none w f : flag w f = false → unset w f = w.
Proof.
  unfold flag, unset. intros H. reflect_bool.
  rewrite <- Z.ldiff_land. rewrite <- (Z.lor_ldiff_and w f) at 2. rewrite H. by rewrite Z.lor_0_r.
Qed.
Lemma flag_unset w f : flag (unset w f) f = false.
Proof.
  unfold flag, unset. rewrite <- Z.land_assoc, (Z.land_comm (Z.lnot f)), Z.land_lnot_diag. by rewrite Z.land_0_r.
Qed.
Lemma flag_unset_other w f g : Z.land (Z.lnot f) g = g → flag (unset w f) g = flag w g.
Proof. intros H. unfold flag, unset. by rewrite <- Z.land_assoc, H. Qed.

Lemma prog_ret_bind {S A B} (a : A) (f : A → prog S B) s : (mret a ≫= f) s = f a s.
Proof. done. Qed.

Section receive.
  Context {W : Type} `{HT : HasTcp W} `{TE : TcpEnv W}.
  Implicit Types s : istate W.

Lemma flags_run pcb s tp i q h fl :
  hdr_flags (ps_bytes q) h fl → TCPH_FLAGS h (conf pcb s tp i q) = Some (fl, conf pcb s tp i q).
Proof.
  intros (x & y & E & Hx & Hy & ->). unfold TCPH_FLAGS, rd16. rewrite prog_bind_assoc.
  rewrite (prog_bind_step _ _ _ _ _ (conf_peek _ _ _ _ _ _ _ _ E)).
  change (Some (Z.land (lwip_htons (of_le [x; y])) TCP_FLAGS, conf pcb s tp i q)
          = Some (Z.land y 63, conf pcb s tp i q)).
  by rewrite flags_of_bytes.
Qed.

(** A write into the header. *)
Lemma hdr_flags_frame m a z m' h fl :
  store_bytes m a z = Some m' → a + Z.of_nat (length z) ≤ h + 12 → hdr_flags m h fl → hdr_flags m' h fl.
Proof.
  intros Hs Ha (x & y & E & H). exists x, y. split; [|done]. rewrite <- E. apply load_bytes_ext.
  intros j Hj. apply (store_bytes_lookup_ne _ _ _ _ _ Hs). lia.
Qed.

Lemma clear_fin_run pcb s tp i q h fl :
  hdr_flags (ps_bytes q) h fl →
  ∃ m z, TCPH_FLAGS_SET h (unset fl TCP_FIN) (conf pcb s tp i q) = Some (tt, conf pcb s tp i (set_bytes q m)) ∧
    store_bytes (ps_bytes q) (h + 12) z = Some m ∧ length z = 2%nat ∧ hdr_flags m h (unset fl TCP_FIN).
Proof.
  intros (x & y & E & Hx & Hy & ->). destruct (fin_cleared y Hy) as [Hf Hy'].
  destruct (store_bytes_is_Some (ps_bytes q) (h + 12) [x; Z.land y 254]) as [m Em].
  { apply (load_bytes_is_Some (ps_bytes q) (h + 12) 2). eauto. }
  exists m, [x; Z.land y 254]. split_and!; try done.
  - unfold TCPH_FLAGS_SET, rd16, wr16. rewrite prog_bind_assoc.
    rewrite (prog_bind_step _ _ _ _ _ (conf_peek _ _ _ _ _ _ _ _ E)).
    rewrite (prog_bind_step _ _ (conf pcb s tp i q) (of_le [x; y]) (conf pcb s tp i q)) by done.
    rewrite clear_fin_bytes by done. by apply conf_poke.
  - exists x, (Z.land y 254). split; [|done]. by apply (load_store_same _ _ _ _ Em).
Qed.

(** ** The segment *)

(** The bytes of the heap are memory. *)
Definition heap_mapped (q : pstate) : Prop := mapped (ps_bytes q) (h_ram (ps_heap q)) MEM_SIZE_ALIGNED.

(** The segment of the input variables: the packet [p] with the data [d], whose
    header with the flags [fl] is in memory at [h] and not in the data. *)
Record segment (q : pstate) (i : tcp_in) (p h : Z) (l : chain) (d : bytes) (fl : Z) : Prop := {
  se_seg : ∃ f, ti_inseg i = TcpSeg 0 p (Z.of_nat (length d)) f h;
  se_chain : chain_at q p l d;
  se_some : l ≠ [];
  se_hdr : mapped (ps_bytes q) h TCP_HLEN;
  se_clear : clear_of h TCP_HLEN l;
  se_flags : hdr_flags (ps_bytes q) h fl;
  se_move : Forall movable l;
  se_ref : Forall ref_ok l;
  se_own : ∃ f out bs, owned q f out bs ∧ Forall (ram_fits q bs) l;
  se_heap : heap_mapped q
}.

(** What is left when the data can be handed on. *)
Record accepted (q : pstate) (i : tcp_in) (p h : Z) (d : bytes) (fl : Z) : Prop := {
  ac_seg : ∃ f, ti_inseg i = TcpSeg 0 p (Z.of_nat (length d)) f h;
  ac_chain : ∃ l, chain_at q p l d ∧ l ≠ [];
  ac_flags : hdr_flags (ps_bytes q) h fl;
  ac_own : ∃ f out bs, owned q f out bs
}.

Lemma segment_accepted q i p h l d fl : segment q i p h l d fl → accepted q i p h d fl.
Proof. intros []. split; try done; [by exists l|]. destruct se_own0 as (f & out & bs & H & _). eauto. Qed.

Lemma segment_length q i p h l d fl : segment q i p h l d fl → Z.of_nat (length d) < 65536.
Proof.
  intros H. pose proof (se_chain _ _ _ _ _ _ _ H) as Hc. rewrite (chain_at_length _ _ _ _ Hc).
  apply lens_ok_bound, Hc.
Qed.

Lemma lens_ok_len l a b : lens_ok l → (a, b) ∈ l → 0 ≤ pb_len b.
Proof.
  induction l as [|[a' b'] l IH]; [by intros _ ?%elem_of_nil|]. intros (H0 & _ & _ & Hl).
  intros [[= -> ->]|H]%elem_of_cons; [done | by apply IH].
Qed.

(** Trimming keeps what the operations on the chain need. *)
Lemma trim_clear T off l a n : 0 < off → clear_of a n l → clear_of a n (trim_chain T off l).
Proof.
  intros Ho H. apply trim_chain_forall; [done | done | |]; intros x b; unfold disjoint_range; cbn; lia.
Qed.
Lemma trim_movable T off l : 0 < off → Forall movable l → Forall movable (trim_chain T off l).
Proof.
  intros Ho H. apply trim_chain_forall; [done | done | |]; intros x b; unfold movable; cbn; lia.
Qed.
Lemma trim_ref T off l : 0 < off → Forall ref_ok l → Forall ref_ok (trim_chain T off l).
Proof. intros Ho H. by apply trim_chain_forall. Qed.
Lemma trim_fits T off l q q' bs :
  0 < off → lens_ok l → ps_heap q' = ps_heap q → Forall (ram_fits q bs) l →
  Forall (ram_fits q' bs) (trim_chain T off l).
Proof.
  intros Ho Hl Hh H.
  assert (H' : Forall (λ c : Z * pbuf, 0 ≤ pb_len c.2 ∧ ram_fits q' bs c) l).
  { apply list.Forall_forall. intros [a b] Hin. split; [exact (lens_ok_len l a b Hl Hin)|].
    rewrite list.Forall_forall in H. specialize (H _ Hin). unfold ram_fits in *. by rewrite Hh. }
  apply (list.Forall_impl (λ c : Z * pbuf, 0 ≤ pb_len c.2 ∧ ram_fits q' bs c) _ (trim_chain T off l));
    [|intros c [_ Hc]; exact Hc].
  apply trim_chain_forall; [done | done | |]; unfold ram_fits; cbn.
  - intros a b _ [H0 Hf]. split; [done|]. intros Ht. destruct (Hf Ht) as (o & sz & ? & ? & ? & ?).
    exists o, sz. split_and!; try done; lia.
  - intros a b o' _ Hr [H0 Hf]. split; [lia|]. intros Ht. destruct (Hf Ht) as (o & sz & ? & ? & ? & ?).
    exists o, sz. split_and!; try done; lia.
Qed.

Lemma owned_set_bytes q f out bs m : owned q f out bs → owned (set_bytes q m) f out bs.
Proof. intros []. by split. Qed.

Lemma types_same m m' p (l l' : chain) :
  pchain m p l → pchain m' p l' →
  (λ c : Z * pbuf, (c.1, pb_type c.2)) <$> l' = (λ c, (c.1, pb_type c.2)) <$> l →
  (∀ k, k ∉ l.*1 → m' !! k = m !! k) → ∀ k, pb_type <$> m' !! k = pb_type <$> m !! k.
Proof.
  intros Hp Hp' Ht Hk k. destruct (decide (k ∈ l.*1)) as [Hin|Hin]; [|by rewrite Hk].
  apply list_elem_of_fmap in Hin as ([a b] & -> & Hin). cbn [fst].
  pose proof (list_elem_of_fmap_2 (λ c : Z * pbuf, (c.1, pb_type c.2)) _ _ Hin) as Hin'. rewrite <- Ht in Hin'.
  apply list_elem_of_fmap in Hin' as ([a' b'] & [= -> E] & Hin'). cbn in E.
  destruct (pchain_lookup _ _ _ _ _ Hp Hin) as [-> _], (pchain_lookup _ _ _ _ _ Hp' Hin') as [-> _]. cbn. by rewrite E.
Qed.

(** Both cuts write into the header. *)
Lemma segment_store q i p h l d fl fl' a z m :
  segment q i p h l d fl → store_bytes (ps_bytes q) a z = Some m →
  h ≤ a → a + Z.of_nat (length z) ≤ h + TCP_HLEN → hdr_flags m h fl' → segment (set_bytes q m) i p h l d fl'.
Proof.
  intros [Hs [Hp Hl Hd] Hn Hm Hc Hf H1 H2 H3 H4] Em Ha Hz Hf'. split; try done.
  - split; [done | done|]. cbn. rewrite (pbytes_frame _ _ _ _ l Em Hl); [done|].
    apply (clear_of_sub _ _ _ _ _ Hc); lia.
  - by apply (mapped_store _ _ _ _ _ _ Em).
  - destruct H3 as (f & out & bs & Ho & H3). exists f, out, bs. split; [|done]. by apply owned_set_bytes.
  - by apply (mapped_store _ _ _ _ _ _ Em).
Qed.

(** The input variables when the front of the segment is cut off. *)
Definition trimmed (rcv_nxt n : Z) (i : tcp_in) : tcp_in :=
  set_ti_seqno rcv_nxt (set_ti_inseg (set_sg_len n (ti_inseg i)) i).

Lemma trim_front_run pcb s tp i q p h l d fl x off :
  segment q i p h l d fl → ti_seqno i = u32 x → 0 < off ≤ Z.of_nat (length d) →
  ∃ q' l', trim_front (u32 (x + off)) (conf pcb s tp i q)
      = Some (tt, conf pcb s tp (trimmed (u32 (x + off)) (Z.of_nat (length d) - off) i) q') ∧
    segment q' (trimmed (u32 (x + off)) (Z.of_nat (length d) - off) i) p h l' (drop (Z.to_nat off) d) fl.
Proof.
  intros H Hx Ho. pose proof (segment_length _ _ _ _ _ _ _ H) as H16.
  pose proof H as [[f Es] Hc Hne Hmap Hclr Hf Hmv Href (f0 & out & bs & Hown & Hfit) Hheap].
  assert (Hoff : s32 (u32 (x + off) - u32 x) = off) by zmod.
  unfold trim_front. do 2 conf_step. rewrite Es, Hx, Hoff. cbn [sg_p].
  destruct (trim_packet pcb s tp i q p l d off Hc Hne Ho Hmv) as (m' & E & Hc' & Hk).
  set (q1 := PState m' (ps_bytes q) (ps_heap q) (ps_pools q)) in *.
  set (T := Z.of_nat (length d) - off) in *. set (rn := u32 (x + off)) in *.
  assert (H1 : segment q1 (trimmed rn T i) p h (trim_chain T off l) (drop (Z.to_nat off) d) fl).
  { split; try done.
    - exists f. cbn. rewrite Es. unfold set_sg_len. f_equal. rewrite length_drop. lia.
    - destruct l as [|[]]; [done|]. cbn. by destruct (_ <? _).
    - apply trim_clear; [lia | done].
    - apply trim_movable; [lia | done].
    - apply trim_ref; [lia | done].
    - exists f0, out, bs. split; [|apply (trim_fits _ _ _ q); [lia | apply Hc | done | done]].
      apply owned_same_types; [done|]. apply (types_same _ _ p l (trim_chain T off l)); [apply Hc | apply Hc' | apply trim_chain_types | done]. }
  destruct (store_bytes_is_Some (ps_bytes q1) (h + 4) (addr_bytes rn)) as [m Em].
  { intros j Hj. apply Hmap. revert Hj. change (length (addr_bytes rn)) with 4%nat. unfold TCP_HLEN. lia. }
  exists (set_bytes q1 m), (trim_chain T off l). split.
  - assert (Hb : ∃ b, ps_pbufs q !! p = Some b).
    { destruct l as [|[a b] l]; [done|]. exists b. by destruct (chain_at_head _ _ _ _ _ _ Hc) as (-> & _ & ? & _). }
    destruct Hb as [b Hb]. pose proof (conf_read pcb s tp i q _ _ (deref_run _ _ _ Hb)) as Er.
    rewrite (prog_bind_step _ _ _ _ _ Er) in E. rewrite (prog_bind_step _ _ _ _ _ Er).
    rewrite (prog_bind_step _ _ _ _ _ E). do 2 conf_step.
    unfold wr32. cbn [sg_tcphdr]. rewrite (conf_poke pcb s tp _ q1 (h + 4) (addr_bytes rn) m Em).
    do 2 f_equal. unfold trimmed. rewrite Es. cbn [sg_len].
    replace (u16 (Z.of_nat (length d) - u16 (u32 (rn - u32 x)))) with T by (unfold rn, T; zmod). done.
  - apply (segment_store _ _ _ _ _ _ _ _ _ _ _ H1 Em); [lia | cbn; unfold TCP_HLEN; lia|].
    apply (hdr_flags_frame _ _ _ _ _ _ Em); [cbn; lia | done].
Qed.

(** ** The end *)

Lemma tcplen_run pcb s tp i q h fl p n f :
  hdr_flags (ps_bytes q) h fl →
  TCP_TCPLEN (TcpSeg 0 p n f h) (conf pcb s tp i q)
  = Some (n + (if flag fl (Z.lor TCP_FIN TCP_SYN) then 1 else 0), conf pcb s tp i q).
Proof. intros H. unfold TCP_TCPLEN. cbn [sg_tcphdr]. by rewrite (prog_bind_step _ _ _ _ _ (flags_run _ _ _ _ _ _ _ H)). Qed.

(** The input variables when the end of the segment is cut off. *)
Definition cut (wnd : Z) (i : tcp_in) : tcp_in :=
  set_ti_tcplen wnd (set_ti_inseg (set_sg_len wnd (ti_inseg i)) i).

Lemma clear_fin_segment pcb s tp i q p h l d fl :
  segment q i p h l d fl →
  ∃ q', when (flag fl TCP_FIN) (TCPH_FLAGS_SET h (unset fl TCP_FIN)) (conf pcb s tp i q)
      = Some (tt, conf pcb s tp i q') ∧ segment q' i p h l d (unset fl TCP_FIN).
Proof.
  intros H. destruct (flag fl TCP_FIN) eqn:Ef; cbn [when].
  - destruct (clear_fin_run pcb s tp i q h fl (se_flags _ _ _ _ _ _ _ H)) as (m & z & E & Em & Hz & Hf).
    exists (set_bytes q m). split; [done|].
    apply (segment_store _ _ _ _ _ _ _ _ _ _ _ H Em); [lia | rewrite Hz; unfold TCP_HLEN; lia | done].
  - exists q. split; [done|]. by rewrite unset_none.
Qed.

Lemma trim_end_run pcb s tp i q p h l d fl wnd :
  segment q i p h l d fl → flag fl TCP_SYN = false → 0 ≤ wnd ≤ Z.of_nat (length d) →
  ∃ q', trim_end wnd (conf pcb s tp i q) = Some (tt, conf pcb s tp (cut wnd i) q') ∧
    accepted q' (cut wnd i) p h (take (Z.to_nat wnd) d) (unset fl TCP_FIN).
Proof.
  intros H Hsyn Hw. pose proof (segment_length _ _ _ _ _ _ _ H) as H16.
  pose proof H as [[f Es] _ _ _ _ Hf _ _ _ _]. unfold trim_end. conf_step. rewrite Es. cbn [sg_tcphdr sg_p].
  rewrite (prog_bind_step _ _ _ _ _ (flags_run _ _ _ _ _ _ _ Hf)).
  destruct (clear_fin_segment pcb s tp i q p h l d fl H) as (q1 & E1 & H1).
  rewrite (prog_bind_step _ _ _ _ _ E1).
  pose proof H1 as [_ Hc Hne _ _ Hf1 _ Href (f0 & out & bs & Hown & Hfit) _].
  rewrite (prog_bind_step _ _ _ _ _ (flags_run _ _ _ _ _ _ _ Hf1)).
  assert (Hs1 : flag (unset fl TCP_FIN) TCP_SYN = false) by (rewrite flag_unset_other; done).
  rewrite Hs1. conf_step.
  destruct (pbuf_realloc_spec q1 f0 out bs p l d wnd Hown Hc Hne Hfit Href ltac:(lia))
    as (q2 & f' & out' & bs' & l' & E2 & Hown2 & Hb2 & Hc2 & _ & Hh2).
  rewrite (prog_bind_step _ _ _ _ _ (conf_run _ _ _ _ _ _ _ _ E2)).
  conf_step. cbn [ti_inseg set_ti_inseg]. rewrite Es. unfold set_sg_len at 1. cbn [sg_next sg_p sg_len sg_flags sg_tcphdr].
  assert (Hf2 : hdr_flags (ps_bytes q2) h (unset fl TCP_FIN)) by (by rewrite Hb2).
  rewrite (prog_bind_step _ _ _ _ _ (tcplen_run _ _ _ _ _ _ _ _ _ _ Hf2)).
  rewrite flag_lor, Hs1, flag_unset. cbn [orb]. rewrite conf_mod.
  exists q2. split.
  - do 2 f_equal. unfold cut. rewrite Es. rewrite u16_small by lia. by rewrite Z.add_0_r.
  - split; [| | done | by exists f', out', bs'].
    + exists f. cbn. rewrite Es, length_take. unfold set_sg_len. cbn. f_equal. lia.
    + exists l'. split; [done|]. destruct l as [|[a b] l]; [done|].
      destruct (Hh2 a b l eq_refl) as (b' & tl' & -> & _). done.
Qed.

(** ** Handing the data on *)

(** [tcp_update_rcv_ann_wnd] on the control block. *)
Definition announce (p : tcp_pcb) : tcp_pcb :=
  let new_right_edge := u32 (tp_rcv_nxt p + tp_rcv_wnd p) in
  set_rcv_ann_wnd
    (if TCP_SEQ_GEQ new_right_edge (tp_rcv_ann_right_edge p + Z.min (TCP_WND / 2) (tp_mss p)) then tp_rcv_wnd p
     else if TCP_SEQ_GT (tp_rcv_nxt p) (tp_rcv_ann_right_edge p) then 0
     else u16 (u32 (tp_rcv_ann_right_edge p - tp_rcv_nxt p))) p.

Lemma announce_run pcb s tp i q :
  ∃ r, tcp_update_rcv_ann_wnd pcb (conf pcb s tp i q) = Some (r, conf pcb s (announce tp) i q).
Proof.
  unfold tcp_update_rcv_ann_wnd, announce. conf_step. destruct (TCP_SEQ_GEQ _ _).
  - conf_step. eexists. done.
  - destruct (TCP_SEQ_GT _ _); conf_step; eexists; done.
Qed.

(** The control block when [n] numbers were taken. *)
Definition received (n : Z) (p : tcp_pcb) : tcp_pcb :=
  tcp_ack (announce (set_rcv_wnd (tp_rcv_wnd p - n) (set_rcv_nxt (u32 (tp_rcv_nxt p + n)) p))).

(** The input variables when [n] bytes in the packet [p], and [f] FINs, are
    handed on. *)
Definition handed_on (p n f : Z) (i : tcp_in) : tcp_in :=
  let i := set_ti_tcplen (n + f) (set_ti_inseg (set_sg_len n (ti_inseg i)) i) in
  let i := if 0 <? n then set_ti_inseg (set_sg_p 0 (ti_inseg i)) (set_ti_recv_data p i) else i in
  if f =? 1 then set_ti_recv_flags (Z.lor (ti_recv_flags i) TF_GOT_FIN) i else i.

(** What follows the cuts. *)
Lemma hand_on_run pcb s tp i q p h d fl n f :
  accepted q i p h d fl → flag fl TCP_SYN = false → n = Z.of_nat (length d) →
  f = (if flag fl TCP_FIN then 1 else 0) → ti_seqno i = tp_rcv_nxt tp → ti_tcplen i = n + f →
  n + f ≤ tp_rcv_wnd tp < 65536 →
  ( seqno ← tin ti_seqno; tcplen ← tin ti_tcplen;
    upd_tcb pcb (set_rcv_nxt (u32 (seqno + tcplen))) ;;
    upd_tcb pcb (λ p, set_rcv_wnd (u16 (tp_rcv_wnd p - tcplen)) p) ;;
    _ ← tcp_update_rcv_ann_wnd pcb;
    seg ← tin ti_inseg;
    b ← packets (deref (sg_p seg));
    when (0 <? pb_tot_len b)
      (tin_mod (set_ti_recv_data (sg_p seg)) ;; tin_mod (λ i, set_ti_inseg (set_sg_p 0 (ti_inseg i)) i)) ;;
    fl ← TCPH_FLAGS (sg_tcphdr seg);
    when (flag fl TCP_FIN) (tin_mod (λ i, set_ti_recv_flags (Z.lor (ti_recv_flags i) TF_GOT_FIN) i)) ;;
    upd_tcb pcb tcp_ack ) (conf pcb s tp i q)
  = Some (tt, conf pcb s (received (n + f) tp) (handed_on p n f i) q).
Proof.
  intros [[g Es] (l & Hc & Hne) Hf _] Hsyn Hn Hfin Hseq Htl Hw.
  do 4 conf_step. rewrite Hseq, Htl. cbn [tp_rcv_wnd set_rcv_nxt].
  rewrite (u16_small (tp_rcv_wnd tp - (n + f))) by (destruct (flag fl TCP_FIN); lia).
  destruct (announce_run pcb s (set_rcv_wnd (tp_rcv_wnd tp - (n + f)) (set_rcv_nxt (u32 (tp_rcv_nxt tp + (n + f))) tp)) i q)
    as [r Er]. rewrite (prog_bind_step _ _ _ _ _ Er). conf_step. rewrite Es. cbn [sg_p sg_tcphdr].
  destruct l as [|[a b] l]; [done|]. destruct (chain_at_head _ _ _ _ _ _ Hc) as (-> & Ha & Eb & Et).
  rewrite (prog_bind_step _ _ _ _ _ (conf_read _ _ _ _ _ _ _ (deref_run _ _ _ Eb))). rewrite Et, <- Hn.
  unfold handed_on. rewrite Es.
  assert (Ei : i = set_ti_tcplen (n + f) (set_ti_inseg (set_sg_len n (TcpSeg 0 a (Z.of_nat (length d)) g h)) i)).
  { destruct i. cbn in *. unfold set_ti_tcplen, set_ti_inseg, set_sg_len. cbn. by subst. }
  rewrite <- Ei.
  destruct (0 <? n); cbn [when].
  - rewrite prog_bind_assoc. do 2 conf_step. rewrite (prog_bind_step _ _ _ _ _ (flags_run _ _ _ _ _ _ _ Hf)).
    destruct (flag fl TCP_FIN); rewrite Hfin; cbn [when Z.eqb Pos.eqb].
    + conf_step. by rewrite conf_upd.
    + rewrite prog_ret_bind. by rewrite conf_upd.
  - rewrite prog_ret_bind.
    rewrite (prog_bind_step _ _ _ _ _ (flags_run _ _ _ _ _ _ _ Hf)).
    destruct (flag fl TCP_FIN); rewrite Hfin; cbn [when Z.eqb Pos.eqb].
    + conf_step. by rewrite conf_upd.
    + rewrite prog_ret_bind. by rewrite conf_upd.
Qed.

(** The bytes and the FIN that the window takes of [d]. *)
Definition fits (wnd : Z) (d : bytes) : Z := Z.min (Z.of_nat (length d)) wnd.
Definition fin_fits (wnd fl : Z) (d : bytes) : Z :=
  if flag fl TCP_FIN && (Z.of_nat (length d) <? wnd) then 1 else 0.

Lemma receive_next_run pcb s tp i q p h l d fl :
  segment q i p h l d fl → flag fl TCP_SYN = false → ti_seqno i = tp_rcv_nxt tp → 0 < tp_rcv_wnd tp < 65536 →
  Z.of_nat (length d) < 65535 →
  let n := fits (tp_rcv_wnd tp) d in
  let f := fin_fits (tp_rcv_wnd tp) fl d in
  ∃ q' fl', receive_next pcb (conf pcb s tp i q)
      = Some (tt, conf pcb s (received (n + f) tp) (handed_on p n f i) q') ∧
    accepted q' (cut n i) p h (take (Z.to_nat n) d) fl'.
Proof.
  intros H Hsyn Hseq Hw Hd n f. pose proof H as [[g Es] _ _ _ _ Hf _ _ _ _].
  assert (Hfin : flag fl (Z.lor TCP_FIN TCP_SYN) = flag fl TCP_FIN) by (rewrite flag_lor, Hsyn; apply orb_false_r).
  unfold receive_next. conf_step. rewrite Es. rewrite (prog_bind_step _ _ _ _ _ (tcplen_run _ _ _ _ _ _ _ _ _ _ Hf)), Hfin.
  do 3 conf_step. cbn [ti_tcplen set_ti_tcplen].
  set (t := u16 _). assert (Ht : t = Z.of_nat (length d) + if flag fl TCP_FIN then 1 else 0).
  { unfold t. apply u16_small. destruct (flag fl TCP_FIN); lia. }
  set (i1 := set_ti_tcplen t i). assert (H1 : segment q i1 p h l d fl) by (destruct H; by split).
  destruct (Z.ltb_spec (tp_rcv_wnd tp) t) as [Hlt|Hge]; cbn [when].
  - assert (Hn : n = tp_rcv_wnd tp) by (unfold n, fits; destruct (flag fl TCP_FIN); lia).
    assert (Hf0 : f = 0).
    { unfold f, fin_fits. destruct (flag fl TCP_FIN); [|done]. case_cmp; [lia | done]. }
    destruct (trim_end_run pcb s tp i1 q p h l d fl n H1 Hsyn) as (q' & E & Hacc).
    { unfold n, fits. lia. }
    rewrite Hn in E. rewrite (prog_bind_step _ _ _ _ _ E), <- Hn.
    exists q', (unset fl TCP_FIN). rewrite Hf0. split; [|done].
    rewrite (hand_on_run pcb s tp (cut n i1) q' p h (take (Z.to_nat n) d) (unset fl TCP_FIN) n 0 Hacc); try done.
    + rewrite flag_unset_other; done.
    + rewrite length_take. unfold n, fits. lia.
    + by rewrite flag_unset.
    + by rewrite Z.add_0_r.
    + lia.
  - rewrite prog_ret_bind. exists q, fl.
    assert (Hn : n = Z.of_nat (length d)) by (unfold n, fits; destruct (flag fl TCP_FIN); lia).
    assert (Hf1 : f = if flag fl TCP_FIN then 1 else 0).
    { unfold f, fin_fits. destruct (flag fl TCP_FIN); [|done]. case_cmp; [done | lia]. }
    assert (Hcut : cut n i1 = cut n i) by (by destruct i).
    split.
    + rewrite (hand_on_run pcb s tp i1 q p h d fl n f (segment_accepted _ _ _ _ _ _ _ H1)); try done.
      * rewrite Hf1, Hn. done.
      * rewrite Hf1, Hn. lia.
    + rewrite take_ge by lia. apply segment_accepted in H as []. split; try done.
      exists g. cbn. rewrite Es, Hn. done.
Qed.

(** ** Acceptance *)

(** The comparisons of [tcp_receive], on positions. *)
Lemma between_u32 r x a y b :
  near r (x + a) → near r (y + b) →
  TCP_SEQ_BETWEEN (u32 r) (u32 x + a) (u32 y + b) = (x + a <=? r) && (r <=? y + b).
Proof.
  intros H1 H2. rewrite <- (seq_between r (x + a) (y + b)) by done.
  unfold TCP_SEQ_BETWEEN, TCP_SEQ_GEQ, TCP_SEQ_LEQ. by rewrite u32_u32, !u32_add_l.
Qed.
Lemma lt_u32 x r : near x r → TCP_SEQ_LT (u32 x) (u32 r) = (x <? r).
Proof. intros H. rewrite <- (seq_lt x r) by done. unfold TCP_SEQ_LT. by rewrite !u32_u32. Qed.
Lemma window_u32 x r w :
  near x r → near x (r + w - 1) →
  TCP_SEQ_BETWEEN (u32 x) (u32 r) (u32 r + w - 1) = (r <=? x) && (x <=? r + w - 1).
Proof.
  intros H1 H2. rewrite <- (Z.add_0_r (u32 r)) at 1. rewrite <- Z.add_sub_assoc.
  rewrite between_u32; [by rewrite Z.add_0_r, Z.add_sub_assoc | |]; unfold near in *; lia.
Qed.

(** The data of the segment from [rcv_nxt] on. *)
Definition fresh (x r : Z) (d : bytes) : bytes := drop (Z.to_nat (r - x)) d.

(** The segment begins at [rcv_nxt], or before it and is cut. *)
Lemma align_run pcb s tp i q p h l d fl x r :
  segment q i p h l d fl → ti_seqno i = u32 x → tp_rcv_nxt tp = u32 r →
  ti_tcplen i = Z.of_nat (length d) + (if flag fl TCP_FIN then 1 else 0) → x ≤ r < x + ti_tcplen i →
  let i' := trimmed (u32 r) (Z.of_nat (length (fresh x r d))) i in
  ∃ q' l', (if TCP_SEQ_BETWEEN (tp_rcv_nxt tp) (ti_seqno i + 1) (ti_seqno i + ti_tcplen i - 1)
            then trim_front (tp_rcv_nxt tp)
            else when (TCP_SEQ_LT (ti_seqno i) (tp_rcv_nxt tp)) (upd_tcb pcb tcp_ack_now)) (conf pcb s tp i q)
           = Some (tt, conf pcb s tp i' q') ∧
    segment q' i' p h l' (fresh x r d) fl.
Proof.
  intros H Hx Hr Ht Hxr i'. pose proof (segment_length _ _ _ _ _ _ _ H) as H16.
  assert (Hlen : Z.of_nat (length (fresh x r d)) = Z.of_nat (length d) - (r - x)).
  { unfold fresh. rewrite length_drop. destruct (flag fl TCP_FIN); lia. }
  rewrite Hr, Hx, <- Z.add_sub_assoc. rewrite between_u32 by (unfold near; destruct (flag fl TCP_FIN); lia).
  rewrite lt_u32 by (unfold near; destruct (flag fl TCP_FIN); lia).
  destruct (Z.eq_dec x r) as [<-|Hne].
  - replace (x + 1 <=? x) with false by (symmetry; apply Z.leb_gt; lia). rewrite Z.ltb_irrefl. cbn [andb when].
    assert (Ei : i' = i).
    { destruct (se_seg _ _ _ _ _ _ _ H) as [f Es]. unfold i', trimmed. rewrite Hlen, <- Hx, Es.
      unfold set_sg_len. cbn. rewrite Z.sub_diag, Z.sub_0_r, <- Es. by destruct i. }
    exists q, l. rewrite Ei. split; [done|]. unfold fresh. by rewrite Z.sub_diag.
  - replace (x + 1 <=? r) with true by (symmetry; apply Z.leb_le; lia).
    replace (r <=? x + (ti_tcplen i - 1)) with true by (symmetry; apply Z.leb_le; lia). cbn [andb].
    destruct (trim_front_run pcb s tp i q p h l d fl x (r - x) H Hx) as (q' & l' & E & H');
      [destruct (flag fl TCP_FIN); lia|].
    replace (x + (r - x)) with r in * by lia. rewrite <- Hlen in *. by exists q', l'.
Qed.

Lemma receive_data_accept pcb s tp i q p h l d fl x r :
  segment q i p h l d fl → flag fl TCP_SYN = false → ti_seqno i = u32 x → tp_rcv_nxt tp = u32 r →
  ti_tcplen i = Z.of_nat (length d) + (if flag fl TCP_FIN then 1 else 0) → x ≤ r < x + ti_tcplen i →
  0 < tp_rcv_wnd tp < 65536 → Z.of_nat (length d) < 65535 → state_num (tp_state tp) < state_num CLOSE_WAIT →
  let rest := fresh x r d in
  let i' := trimmed (u32 r) (Z.of_nat (length rest)) i in
  let n := fits (tp_rcv_wnd tp) rest in
  let f := fin_fits (tp_rcv_wnd tp) fl rest in
  ∃ q' fl', receive_data pcb (conf pcb s tp i q)
      = Some (tt, conf pcb s (received (n + f) tp) (handed_on p n f i') q') ∧
    accepted q' (cut n i') p h (take (Z.to_nat n) rest) fl'.
Proof.
  intros H Hsyn Hx Hr Ht Hxr Hw Hd Hst rest i' n f.
  destruct (align_run pcb s tp i q p h l d fl x r H Hx Hr Ht Hxr) as (q1 & l1 & E1 & H1).
  unfold receive_data. do 3 conf_step.
  replace (0 <? ti_tcplen i) with true by (symmetry; apply Z.ltb_lt; lia).
  rewrite (proj2 (Z.ltb_lt _ _) Hst). cbn [andb]. rewrite (prog_bind_step _ _ _ _ _ E1). conf_step.
  rewrite Hr. cbn [ti_seqno trimmed set_ti_seqno]. rewrite window_u32 by (unfold near; lia).
  replace (r <=? r) with true by (symmetry; apply Z.leb_refl).
  replace (r <=? r + tp_rcv_wnd tp - 1) with true by (symmetry; apply Z.leb_le; lia).
  cbn [andb]. rewrite Z.eqb_refl.
  apply (receive_next_run pcb s tp i' q1 p h l1 rest fl); try done.
  unfold rest, fresh. rewrite length_drop. lia.
Qed.
End receive.
