(* ===== verification/TcpOptions.v ===== *)
(** * The options of a segment

    [tcp_parseopt] against a parser of lists of bytes, which finds the maximum
    segment size of every well-formed list of options. *)

From stdpp Require Import base numbers list gmap option.
From S2P Require Import Prelude Mem Memp Pbuf PbufLemmas PbufOps Chksum ChksumProps Ip4Addr Etharp Netifs Ip4 TcpBase TcpOut Tcp TcpIn TcpLemmas TcpTrim TcpReceive.

(** ** Options *)

(** RFC 793: one byte, or a kind, a length that counts both, and data. *)
Inductive tcp_option := OptNop | OptMss (v : Z) | OptOther (kind : Z) (data : bytes).

Definition option_ok (o : tcp_option) : Prop :=
  match o with
  | OptNop => True
  | OptMss v => 0 ≤ v < 65536
  | OptOther k d => 2 < k < 256 ∧ (length d ≤ 253)%nat
  end.
Definition encode (o : tcp_option) : bytes :=
  match o with
  | OptNop => [1]
  | OptMss v => [2; 4; v / 256; v mod 256]
  | OptOther k d => k :: Z.of_nat (length d) + 2 :: d
  end.

(** The size that is used: at most ours, and not zero. *)
Definition limit_mss (v : Z) : Z := if (TCP_MSS <? v) || (v =? 0) then TCP_MSS else v.
(** The last one counts. *)
Definition take_option (mss : Z) (o : tcp_option) : Z := match o with OptMss v => limit_mss v | _ => mss end.

(** The parser: [n] bounds the number of options.  It stops at the end mark,
    at the end of the bytes, and at an option whose length is wrong. *)
Fixpoint parse_mss (n : nat) (l : bytes) (mss : Z) : Z :=
  match n, l with
  | S n', k :: l1 =>
      if k =? 0 then mss
      else if k =? 1 then parse_mss n' l1 mss
      else match l1 with
           | [] => mss
           | len :: l2 =>
               if k =? 2 then
                 match l2 with
                 | hi :: lo :: l3 => if len =? 4 then parse_mss n' l3 (limit_mss (256 * hi + lo)) else mss
                 | _ => mss
                 end
               else if len <? 2 then mss else parse_mss n' (drop (Z.to_nat (len - 2)) l2) mss
           end
  | _, _ => mss
  end.
Definition options_mss (l : bytes) (mss : Z) : Z := parse_mss (length l) l mss.

(** More steps than bytes change nothing. *)
Lemma parse_mss_enough n n' l mss : (length l ≤ n)%nat → (length l ≤ n')%nat → parse_mss n l mss = parse_mss n' l mss.
Proof.
  revert n' l mss. induction n as [|n IH]; intros [|n'] [|k l] mss H H'; cbn [length] in *; try lia; [done..|].
  cbn [parse_mss]. destruct (k =? 0); [done|]. destruct (k =? 1); [apply IH; lia|].
  destruct l as [|len l]; [done|]. cbn [length] in *. destruct (k =? 2).
  - destruct l as [|hi [|lo l]]; try done. cbn [length] in *. destruct (len =? 4); [apply IH; lia | done].
  - destruct (len <? 2); [done|]. apply IH; rewrite length_drop; lia.
Qed.
Lemma parse_options n l mss : (length l ≤ n)%nat → parse_mss n l mss = options_mss l mss.
Proof. intros H. by apply parse_mss_enough. Qed.

(** Well-formed options, then the end mark and padding, or nothing. *)
Lemma options_mss_encode os : ∀ tl mss,
  Forall option_ok os → tl = [] ∨ (∃ pad, tl = 0 :: pad) →
  options_mss (concat (encode <$> os) ++ tl) mss = foldl take_option mss os.
Proof.
  induction os as [|o os IH]; intros tl mss Hok Htl.
  - by destruct Htl as [->|(pad & ->)].
  - apply Forall_cons_1 in Hok as [Ho Hok]. rewrite fmap_cons. cbn [concat foldl]. rewrite <- app_assoc, <- (IH tl) by done.
    set (l := concat (encode <$> os) ++ tl). unfold options_mss at 1. destruct o as [|v|k d].
    + exact (parse_options (length l) l mss (le_n _)).
    + cbn in Ho. cbn [take_option].
      change (parse_mss (S (S (S (length l)))) l (limit_mss (256 * (v / 256) + v mod 256)) = options_mss l (limit_mss v)).
      replace (256 * (v / 256) + v mod 256) with v by zmod. apply parse_options. lia.
    + destruct Ho as [Hk Hd]. cbn [encode app length take_option].
      assert (Hn : (length l ≤ S (length (d ++ l)))%nat) by (rewrite length_app; lia).
      revert Hn. generalize (S (length (d ++ l))). intros n Hn. cbn [parse_mss].
      rewrite (proj2 (Z.eqb_neq k 0)), (proj2 (Z.eqb_neq k 1)), (proj2 (Z.eqb_neq k 2)) by lia.
      rewrite (proj2 (Z.ltb_ge _ _)) by lia. replace (Z.to_nat _) with (length d) by lia.
      rewrite drop_app_length. by apply parse_options.
Qed.

(** ** The bytes in memory *)

(** Where byte [k] of the options is: behind the header, or in the next pbuf. *)
Definition opt_addr (i : tcp_in) (k : Z) : Z :=
  if (ti_tcphdr_opt2 i =? 0) || (k <? ti_tcphdr_opt1len i) then ti_tcphdr i + TCP_HLEN + k
  else ti_tcphdr_opt2 i + (k - ti_tcphdr_opt1len i).
(** The options [l], and the byte behind them, can be read. *)
Record options_at (m : bmem) (i : tcp_in) (l : bytes) : Prop := {
  op_len : Z.of_nat (length l) = ti_tcphdr_optlen i;
  op_max : ti_tcphdr_optlen i ≤ 40;
  op_split : 0 ≤ ti_tcphdr_opt1len i;
  op_bytes k b : l !! k = Some b → m !! opt_addr i (Z.of_nat k) = Some b ∧ byte_ok b;
  op_behind : ∃ b, m !! opt_addr i (ti_tcphdr_optlen i) = Some b ∧ byte_ok b
}.

Section options.
  Context {W : Type} `{HT : HasTcp W} `{TE : TcpEnv W}.
  Implicit Types s : istate W.

Lemma load_one (m : bmem) a b : m !! a = Some b → load_bytes m a 1 = Some [b].
Proof. intros H. cbn [load_bytes]. by rewrite H. Qed.

Lemma getoptbyte_run pcb s p i q k b :
  0 ≤ k ≤ 40 → 0 ≤ ti_tcphdr_opt1len i → ti_tcp_optidx i = k → ps_bytes q !! opt_addr i k = Some b →
  tcp_getoptbyte (conf pcb s p i q) = Some (b, conf pcb s p (set_ti_tcp_optidx (k + 1) i) q).
Proof.
  intros Hk H1 Hi Hb. unfold tcp_getoptbyte. do 3 conf_step. conf_step. rewrite Hi, (u16_small (k + 1)) by lia.
  unfold opt_addr in Hb.
  destruct ((ti_tcphdr_opt2 i =? 0) || (k <? ti_tcphdr_opt1len i)) eqn:E.
  - conf_step. cbn [ti_tcphdr set_ti_tcp_optidx].
    change (ti_tcphdr (set_ti_tcp_optidx (k + 1) i)) with (ti_tcphdr i).
    rewrite (prog_bind_step _ _ _ _ _ (conf_peek _ _ _ _ _ _ _ _ (load_one _ _ _ Hb))).
    unfold mret, prog_ret. do 2 f_equal. cbn. lia.
  - apply orb_false_iff in E as [_ E]. apply Z.ltb_ge in E.
    rewrite u8_small by lia. rewrite (prog_bind_step _ _ _ _ _ (conf_peek _ _ _ _ _ _ _ _ (load_one _ _ _ Hb))).
    unfold mret, prog_ret. do 2 f_equal. cbn. lia.
Qed.

Lemma option_byte m i l k :
  options_at m i l → 0 ≤ k ≤ ti_tcphdr_optlen i →
  ∃ b, m !! opt_addr i k = Some b ∧ byte_ok b ∧ (k < ti_tcphdr_optlen i → drop (Z.to_nat k) l = b :: drop (Z.to_nat (k + 1)) l).
Proof.
  intros [Hl _ _ Hb He] Hk. destruct (decide (k = ti_tcphdr_optlen i)) as [->|Hne].
  - destruct He as (b & H1 & H2). exists b. split; [done|]. split; [done|]. lia.
  - destruct (lookup_lt_is_Some_2 l (Z.to_nat k)) as [b Eb]; [lia|]. destruct (Hb _ _ Eb) as [H1 H2].
    rewrite Z2Nat.id in H1 by lia. exists b. split; [done|]. split; [done|]. intros _.
    rewrite (drop_S _ _ _ Eb). do 2 f_equal. lia.
Qed.

(** Reading byte [k]. *)
Lemma getopt_at pcb s p i q l k b :
  options_at (ps_bytes q) i l → 0 ≤ k ≤ ti_tcphdr_optlen i → ps_bytes q !! opt_addr i k = Some b →
  tcp_getoptbyte (conf pcb s p (set_ti_tcp_optidx k i) q) = Some (b, conf pcb s p (set_ti_tcp_optidx (k + 1) i) q).
Proof.
  intros [_ Hm Hs _ _] Hk Hb. apply (getoptbyte_run pcb s p (set_ti_tcp_optidx k i) q k b); [|done|done|done]. lia.
Qed.

Lemma mss_same p : set_mss (tp_mss p) p = p.
Proof. by destruct p. Qed.

Lemma parseopt_loop_run pcb s i q l :
  options_at (ps_bytes q) i l → ∀ fuel p k n,
  0 ≤ k → ti_tcphdr_optlen i - k < Z.of_nat fuel → (0 < fuel)%nat → (length (drop (Z.to_nat k) l) ≤ n)%nat →
  ∃ k', parseopt_loop fuel pcb (conf pcb s p (set_ti_tcp_optidx k i) q)
    = Some (tt, conf pcb s (set_mss (parse_mss n (drop (Z.to_nat k) l) (tp_mss p)) p) (set_ti_tcp_optidx k' i) q).
Proof.
  intros Ho. pose proof Ho as [Hl Hmax Hs _ _].
  induction fuel as [|fuel IH]; intros p k n Hk Hf Hf0 Hn; [lia|]. cbn [parseopt_loop]. do 2 conf_step.
  change (ti_tcphdr_optlen (set_ti_tcp_optidx k i)) with (ti_tcphdr_optlen i).
  change (ti_tcp_optidx (set_ti_tcp_optidx k i)) with k.
  destruct (Z.ltb_spec k (ti_tcphdr_optlen i)) as [Hlt|Hge]; cbn [negb].
  2: { exists k. rewrite drop_ge by lia. destruct n; cbn [parse_mss]; by rewrite mss_same. }
  destruct (option_byte _ _ _ k Ho ltac:(lia)) as (b & Eb & Hb & Hd). rewrite Hd in * by done. cbn [length] in Hn.
  destruct n as [|n]; [lia|]. cbn [parse_mss].
  rewrite (prog_bind_step _ _ _ _ _ (getopt_at _ _ _ _ _ _ k _ Ho ltac:(lia) Eb)).
  unfold LWIP_TCP_OPT_EOL, LWIP_TCP_OPT_NOP, LWIP_TCP_OPT_MSS, LWIP_TCP_OPT_LEN_MSS.
  destruct (b =? 0); [exists (k + 1); by rewrite mss_same|].
  destruct (b =? 1); [apply IH; lia|].
  destruct (option_byte _ _ _ (k + 1) Ho ltac:(lia)) as (c & Ec & Hc & Hd1).
  assert (E1 := getopt_at pcb s p i q l (k + 1) c Ho ltac:(lia) Ec). replace (k + 1 + 1) with (k + 2) in * by lia.
  destruct (b =? 2).
  - rewrite (prog_bind_step _ _ _ _ _ E1). conf_step. change (ti_tcp_optidx (set_ti_tcp_optidx (k + 2) i)) with (k + 2).
    destruct (Z.ltb_spec (ti_tcphdr_optlen i) (k + 2 - 2 + 4)) as [Hsh|Hlo]; [rewrite orb_true_r | rewrite orb_false_r].
    { exists (k + 2). rewrite <- mss_same at 1. do 4 f_equal.
      assert (Hlen : (length (drop (Z.to_nat (k + 1)) l) ≤ 2)%nat) by (rewrite length_drop; lia).
      destruct (drop _ l) as [|len [|hi [|lo l3]]]; cbn in Hlen; try done; lia. }
    rewrite Hd1 by lia.
    destruct (option_byte _ _ _ (k + 2) Ho ltac:(lia)) as (hi & Ehi & Hhi & Hd2).
    destruct (option_byte _ _ _ (k + 3) Ho ltac:(lia)) as (lo & Elo & Hlo' & Hd3).
    replace (k + 1 + 1) with (k + 2) by lia. rewrite Hd2 by lia. replace (k + 2 + 1) with (k + 3) by lia. rewrite Hd3 by lia.
    destruct (c =? 4); cbn [negb]; [|exists (k + 2); by rewrite mss_same].
    rewrite (prog_bind_step _ _ _ _ _ (getopt_at _ _ _ _ _ _ (k + 2) _ Ho ltac:(lia) Ehi)).
    replace (k + 2 + 1) with (k + 3) by lia.
    rewrite (prog_bind_step _ _ _ _ _ (getopt_at _ _ _ _ _ _ (k + 3) _ Ho ltac:(lia) Elo)). conf_step.
    rewrite be_word by done.
    destruct (IH (set_mss (limit_mss (256 * hi + lo)) p) (k + 3 + 1) n) as (k' & E'); [lia | lia | lia | |].
    { revert Hn. rewrite Hd1 by lia. replace (k + 1 + 1) with (k + 2) by lia. rewrite Hd2 by lia.
      replace (k + 2 + 1) with (k + 3) by lia. rewrite Hd3 by lia. cbn. lia. }
    exists k'. exact E'.
  - rewrite (prog_bind_step _ _ _ _ _ E1). destruct (decide (k + 1 < ti_tcphdr_optlen i)) as [Hin|Hend].
    + rewrite Hd1 by done. destruct (c <? 2) eqn:E2; [exists (k + 2); by rewrite mss_same|]. apply Z.ltb_ge in E2. conf_step.
      change (ti_tcp_optidx (set_ti_tcp_optidx (k + 2) i)) with (k + 2). unfold byte_ok in *.
      rewrite u16_small by lia. replace (k + 1 + 1) with (k + 2) by lia. rewrite drop_drop.
      replace (Z.to_nat (k + 2) + Z.to_nat (c - 2))%nat with (Z.to_nat (k + 2 + (c - 2))) by lia.
      apply IH; [lia | lia | lia |]. rewrite length_drop. rewrite length_drop in Hn. lia.
    + rewrite (drop_ge l (Z.to_nat (k + 1))) by lia. destruct (c <? 2) eqn:E2; [exists (k + 2); by rewrite mss_same|].
      apply Z.ltb_ge in E2. conf_step. change (ti_tcp_optidx (set_ti_tcp_optidx (k + 2) i)) with (k + 2). unfold byte_ok in *.
      rewrite u16_small by lia. destruct (IH p (k + 2 + (c - 2)) n) as (k' & E'); [lia | lia | lia | |].
      { rewrite length_drop. lia. }
      exists k'. rewrite drop_ge in E' by lia. destruct n; exact E'.
Qed.

Lemma parse_mss_range n : ∀ l mss, 0 < mss ≤ TCP_MSS → Forall byte_ok l → 0 < parse_mss n l mss ≤ TCP_MSS.
Proof.
  induction n as [|n IH]; intros l mss Hm Hb; [done|]. destruct l as [|k l]; [done|]. cbn [parse_mss].
  apply Forall_cons_1 in Hb as [_ Hb]. destruct (k =? 0); [done|]. destruct (k =? 1); [by apply IH|].
  destruct l as [|len l]; [done|]. apply Forall_cons_1 in Hb as [_ Hb]. destruct (k =? 2).
  - destruct l as [|hi [|lo l]]; try done. destruct (len =? 4); [|done].
    apply Forall_cons_1 in Hb as [Hhi Hb]. apply Forall_cons_1 in Hb as [Hlo Hb]. apply IH; [|done].
    unfold limit_mss, byte_ok, TCP_MSS in *. destruct (Z.ltb_spec 1460 (256 * hi + lo)); cbn [orb]; [lia|].
    destruct (Z.eqb_spec (256 * hi + lo) 0); lia.
  - destruct (len <? 2); [done|]. apply IH; [done|]. by apply Forall_drop.
Qed.

(** C21: [tcp_parseopt] returns on any bytes, in one pbuf or in two, never reads further than one byte
    behind the options and changes nothing but [mss], to what the reference parser finds.  On the
    encoding of any list of options, ended by the end mark or by the header, that is the last maximum
    segment size among them, limited to ours; and [mss] stays above 0 and not above [TCP_MSS] even on
    malformed options. *)
Theorem tcp_parseopt_mss pcb s tp l :
  tv_cbs (vars s) !! pcb = Some (CbPcb tp) → options_at (ps_bytes (as_packets s)) (tv_in (vars s)) l →
  (∃ s', tcp_parseopt pcb s = Some (tt, s') ∧ as_packets s' = as_packets s ∧
     tv_cbs (vars s') = <[pcb := CbPcb (set_mss (options_mss l (tp_mss tp)) tp)]> (tv_cbs (vars s))) ∧
  (∀ os tl, l = concat (encode <$> os) ++ tl → Forall option_ok os → tl = [] ∨ (∃ pad, tl = 0 :: pad) →
     options_mss l (tp_mss tp) = foldl take_option (tp_mss tp) os) ∧
  (0 < tp_mss tp ≤ TCP_MSS → 0 < options_mss l (tp_mss tp) ≤ TCP_MSS).
Proof.
  intros Hc Ho. split; [|split].
  - set (i := tv_in (vars s)) in *. pose proof (op_len _ _ _ Ho) as Hl.
    assert (E : ∃ i', tcp_parseopt pcb (conf pcb s tp i (as_packets s)) = Some (tt, conf pcb s (set_mss (options_mss l (tp_mss tp)) tp) i' (as_packets s))).
    { unfold tcp_parseopt. conf_step.
      destruct (Z.eqb_spec (ti_tcphdr_optlen i) 0) as [Hz|Hz].
      - exists i. assert (l = []) as -> by (apply length_zero_iff_nil; lia).
        change (options_mss [] (tp_mss tp)) with (tp_mss tp). by rewrite mss_same.
      - conf_step. destruct (parseopt_loop_run pcb s i (as_packets s) l Ho (S (Z.to_nat (ti_tcphdr_optlen i))) tp 0 (length l))
          as (k' & E); [lia | lia | lia | done |]. eexists. exact E. }
    destruct E as (i' & E). unfold i in E. rewrite <- (conf_same pcb s tp Hc) in E. eexists. split; [exact E|]. split; [done|]. by rewrite vars_conf.
  - intros os tl -> Hos Htl. by apply options_mss_encode.
  - intros Hm. apply parse_mss_range; [done|]. apply list.Forall_forall. intros b Hb.
    apply list_elem_of_lookup in Hb as [k Hk]. by apply (op_bytes _ _ _ Ho k b).
Qed.
End options.
