(* ===== verification/TcpWindow.v ===== *)
(** * The window that is announced to the peer

    The right edge of the window is where [rcv_nxt] and [rcv_ann_wnd] of the
    last segment sent put it.  It never moves back, and never past the room
    that the connection has. *)

From stdpp Require Import base numbers list gmap option.
From S2P Require Import Prelude Mem Memp Pbuf PbufLemmas PbufOps Chksum Ip4Addr Etharp Netifs Ip4 TcpBase TcpOut Tcp TcpIn TcpLemmas TcpTrim TcpReceive.

(** The connection has received up to position [r] and announced the edge [e]. *)
Record window (r e : Z) (tp : tcp_pcb) : Prop := {
  wi_nxt : tp_rcv_nxt tp = u32 r;
  wi_edge : tp_rcv_ann_right_edge tp = u32 e;
  wi_wnd : 0 ≤ tp_rcv_wnd tp ≤ TCP_WND;
  wi_room : e ≤ r + tp_rcv_wnd tp;
  wi_near : r - 1073741824 ≤ e;
  wi_mss : 0 ≤ tp_mss tp < 65536
}.

(** The edge that the next segment announces. *)
Definition next_edge (r : Z) (tp : tcp_pcb) : Z := r + tp_rcv_ann_wnd tp.
Definition edge_ok (r e : Z) (tp : tcp_pcb) : Prop := Z.max e r ≤ next_edge r tp ≤ r + tp_rcv_wnd tp.

Lemma geq_u32 x a y b : near (x + a) (y + b) → TCP_SEQ_GEQ (u32 (u32 x + a)) (u32 y + b) = (y + b <=? x + a).
Proof. intros H. rewrite <- (seq_geq (x + a) (y + b)) by done. unfold TCP_SEQ_GEQ. by rewrite u32_u32, !u32_add_l. Qed.
Lemma gt_u32 x y : near x y → TCP_SEQ_GT (u32 x) (u32 y) = (y <? x).
Proof. intros H. rewrite <- (seq_gt x y) by done. unfold TCP_SEQ_GT. by rewrite !u32_u32. Qed.

Lemma announce_window r e tp : window r e tp → window r e (announce tp) ∧ edge_ok r e (announce tp).
Proof.
  intros H. pose proof H as [Hn He Hw Hr Hnear Hm]. split; [by destruct H|].
  unfold edge_ok, next_edge, announce. cbv zeta. cbn [tp_rcv_ann_wnd tp_rcv_wnd set_rcv_ann_wnd]. rewrite Hn, He.
  change (TCP_WND / 2) with 1460. change TCP_WND with 2920 in *.
  rewrite geq_u32 by (unfold near; lia). rewrite gt_u32 by (unfold near; lia).
  destruct (Z.leb_spec (e + Z.min 1460 (tp_mss tp)) (r + tp_rcv_wnd tp)); [lia|].
  destruct (Z.ltb_spec e r); [lia|].
  replace (u16 (u32 (u32 e - u32 r))) with (e - r) by zmod. lia.
Qed.

(** The room after the application has read [len] bytes. *)
Definition recved (len : Z) (tp : tcp_pcb) : tcp_pcb :=
  let w := u16 (tp_rcv_wnd tp + len) in
  set_rcv_wnd (if (TCP_WND <? w) || ((w =? 0) && (state_is (tp_state tp) CLOSE_WAIT || state_is (tp_state tp) LAST_ACK))
               then TCP_WND else w) tp.

Lemma recved_window r e tp len :
  window r e tp → 0 ≤ len → tp_rcv_wnd tp + len < 65536 →
  window r e (recved len tp) ∧ Z.min (tp_rcv_wnd tp + len) TCP_WND ≤ tp_rcv_wnd (recved len tp).
Proof.
  intros [Hn He Hw Hr Hnear Hm] Hl Hs.
  assert (Hge : Z.min (tp_rcv_wnd tp + len) TCP_WND ≤ tp_rcv_wnd (recved len tp) ≤ TCP_WND).
  { unfold recved. cbv zeta. cbn [tp_rcv_wnd set_rcv_wnd]. rewrite u16_small by lia.
    destruct (Z.ltb_spec TCP_WND (tp_rcv_wnd tp + len)); cbn [orb]; [lia|]. destruct (_ && _); lia. }
  split; [|lia]. split; try done; [lia|]. lia.
Qed.

Section window.
  Context {W : Type} `{HT : HasTcp W} `{TE : TcpEnv W}.
  Implicit Types s : istate W.

(** The answer of [tcp_update_rcv_ann_wnd] is how far the edge moves. *)
Lemma update_window_run pcb s tp i q r e :
  window r e tp → ∃ v, tcp_update_rcv_ann_wnd pcb (conf pcb s tp i q) = Some (v, conf pcb s (announce tp) i q) ∧
    (v = 0 ∨ v = next_edge r (announce tp) - e).
Proof.
  intros [Hn He Hw Hr Hnear Hm]. unfold tcp_update_rcv_ann_wnd, announce, next_edge. conf_step. rewrite Hn, He.
  destruct (TCP_SEQ_GEQ _ _).
  - conf_step. eexists. split; [done|]. right. cbn. rewrite u32_add_l. change TCP_WND with 2920 in *. zmod.
  - destruct (TCP_SEQ_GT _ _); conf_step; eexists; (split; [done|]); by left.
Qed.

(** C20: The right edge of the window that a connection has announced to its peer never moves back
    and never lies past the room that the connection has: [tcp_update_rcv_ann_wnd] returns and makes
    the next announcement lie between the last one and the end of the room, and so does
    [tcp_recved], which gives the bytes that the application has read back as room, up to [TCP_WND]
    in all, and sends an answer when the edge has moved by the threshold. *)
Theorem tcp_window_edge pcb s tp i q r e :
  window r e tp →
  (∃ v tp', tcp_update_rcv_ann_wnd pcb (conf pcb s tp i q) = Some (v, conf pcb s tp' i q) ∧
     window r e tp' ∧ tp_rcv_wnd tp' = tp_rcv_wnd tp ∧
     Z.max e r ≤ r + tp_rcv_ann_wnd tp' ≤ r + tp_rcv_wnd tp') ∧
  ∀ len, 0 ≤ len → tp_rcv_wnd tp + len < 65536 →
    ∃ v tp', tcp_recved pcb len (conf pcb s tp i q)
        = when (TCP_WND_UPDATE_THRESHOLD <=? s32 v) (upd_tcb pcb tcp_ack_now ;; _ ← tcp_output pcb; mret tt)
            (conf pcb s tp' i q) ∧
      (v = 0 ∨ v = r + tp_rcv_ann_wnd tp' - e) ∧ window r e tp' ∧
      Z.min (tp_rcv_wnd tp + len) TCP_WND ≤ tp_rcv_wnd tp' ∧
      Z.max e r ≤ r + tp_rcv_ann_wnd tp' ≤ r + tp_rcv_wnd tp'.
Proof.
  intros H. split.
  - destruct (update_window_run pcb s tp i q r e H) as (v & E & _). destruct (announce_window r e tp H) as [H1 H2].
    by exists v, (announce tp).
  - intros len Hl Hs. destruct (recved_window r e tp len H Hl Hs) as [H1 H2].
    destruct (update_window_run pcb s (recved len tp) i q r e H1) as (v & E & Hv).
    destruct (announce_window r e _ H1) as [H3 H4]. exists v, (announce (recved len tp)).
    split; [|done]. unfold tcp_recved. do 2 conf_step.
    match goal with |- context [conf pcb s ?x i q] => replace x with (recved len tp) end.
    + by rewrite (prog_bind_step _ _ _ _ _ E).
    + unfold recved. cbv zeta. cbn [tp_rcv_wnd set_rcv_wnd tp_state].
      destruct (TCP_WND <? _); cbn [orb]; [done|].
      change (tp_state (set_rcv_wnd (u16 (tp_rcv_wnd tp + len)) tp)) with (tp_state tp). by destruct (_ && _).
Qed.
End window.
