(* ===== verification/TcpAck.v ===== *)
(** * Acknowledgements without data

    [tcp_send_empty_ack]: the header that the peer gets, and that the call
    returns and leaves the receiving side of the connection as it was. *)

From stdpp Require Import base numbers list gmap option.
From S2P Require Import Prelude Mem MemRefine Memp Pbuf PbufLemmas PbufAlloc PbufOps PbufProps Chksum ChksumProps Ip4Addr Etharp LinkedList Netifs NetifProps Ip4 Ip4Props Ip4Output TcpBase TcpOut Tcp TcpIn TcpLemmas TcpTrim TcpReceive.

(** ** The header *)

(** The header of RFC 793 without options; the checksum is left to the
    hardware. *)
Definition tcp_header_of (src dest seqno ackno flags wnd : Z) : bytes :=
  [src / 256; src mod 256; dest / 256; dest mod 256] ++ addr_bytes (lwip_htonl seqno)
  ++ addr_bytes (lwip_htonl ackno) ++ [0x50; flags; wnd / 256; wnd mod 256; 0; 0; 0; 0].

Lemma htonl_htonl v : 0 ≤ v < 4294967296 → lwip_htonl (lwip_htonl v) = v.
Proof.
  intros Hv. destruct (quad_of_addr v Hv) as (a & b & c & d & Ha & Hb & Hc & Hd & ->). by rewrite !htonl_quad.
Qed.
Lemma htonl_range v : 0 ≤ lwip_htonl v < 4294967296.
Proof. unfold lwip_htonl. zmod. Qed.

(** [tcp_input] of the peer reads the fields back. *)
Lemma tcp_header_fields src dest seqno ackno flags wnd d :
  0 ≤ src < 65536 → 0 ≤ dest < 65536 → 0 ≤ seqno < 4294967296 → 0 ≤ ackno < 4294967296 →
  0 ≤ flags < 64 → 0 ≤ wnd < 65536 →
  let h := tcp_header_of src dest seqno ackno flags wnd ++ d in
  lwip_htons (field 0 2 h) = src ∧ lwip_htons (field 2 2 h) = dest ∧ lwip_htonl (field 4 4 h) = seqno ∧
  lwip_htonl (field 8 4 h) = ackno ∧ Z.shiftr (lwip_htons (field 12 2 h)) 12 = 5 ∧
  Z.land (lwip_htons (field 12 2 h)) TCP_FLAGS = flags ∧ lwip_htons (field 14 2 h) = wnd ∧ drop 20 h = d.
Proof.
  intros Hs Hd Hn Ha Hf Hw h.
  assert (H2 : ∀ v, 0 ≤ v < 65536 → lwip_htons (of_le [v / 256; v mod 256]) = v).
  { intros v Hv. cbn [of_le foldr]. rewrite htons_value by zmod. zmod. }
  assert (H4 : ∀ v, 0 ≤ v < 4294967296 → lwip_htonl (of_le (addr_bytes (lwip_htonl v))) = v).
  { intros v Hv. rewrite of_le_addr by apply htonl_range. by apply htonl_htonl. }
  assert (H12 : lwip_htons (of_le [0x50; flags]) = 20480 + flags).
  { cbn [of_le foldr]. rewrite htons_value by lia. zmod. }
  split; [by apply H2|]. split; [by apply H2|]. split; [by apply H4|]. split; [by apply H4|].
  split; [change (field 12 2 h) with (of_le [0x50; flags]); rewrite H12, Z.shiftr_div_pow2 by lia; zmod|].
  split; [|split; [by apply H2 | done]].
  change (field 12 2 h) with (of_le [0x50; flags]). rewrite H12.
  change TCP_FLAGS with (Z.ones 6). rewrite Z.land_ones by lia. zmod.
Qed.

Section ack.
  Context {W : Type} `{HT : HasTcp W} `{TE : TcpEnv W}.
  Implicit Types s : istate W.

Lemma store_tcp_header s a src dest seqno ackno wnd :
  mapped (ps_bytes (as_packets s)) a TCP_HLEN → 0 ≤ src < 65536 → 0 ≤ dest < 65536 → 0 ≤ wnd < 65536 →
  ∃ s', (∀ A (c : prog (istate W) A),
    (wr16 a (lwip_htons src) ;; wr16 (a + 2) (lwip_htons dest) ;; wr32 (a + 4) (lwip_htonl seqno) ;;
     wr32 (a + 8) (lwip_htonl ackno) ;; TCPH_HDRLEN_FLAGS_SET a (5 + 0 / 4) TCP_ACK ;;
     wr16 (a + 14) (lwip_htons wnd) ;; wr16 (a + 16) 0 ;; wr16 (a + 18) 0 ;; c) s = c s') ∧
    written_at s (as_link s) a (tcp_header_of src dest seqno ackno TCP_ACK wnd) s'.
Proof.
  intros Hm Hs Hd Hw. unfold TCP_HLEN in *.
  destruct (proj2 (load_bytes_is_Some (ps_bytes (as_packets s)) a 20)) as [h Eh]; [by apply Hm|].
  pose proof (load_bytes_length _ _ _ _ Eh) as Hh. rewrite <- Hh in Eh.
  unfold wr16, wr32, TCPH_HDRLEN_FLAGS_SET, wr16. rewrite !le16_htons by done.
  change (le16 0) with [0; 0]. change (le16 (lwip_htons (Z.lor (u16 (Z.shiftl (5 + 0 / 4) 12)) TCP_ACK))) with [0x50; 0x10].
  set (ws := [(0%nat, [src / 256; src mod 256]); (2%nat, [dest / 256; dest mod 256]);
              (4%nat, addr_bytes (lwip_htonl seqno)); (8%nat, addr_bytes (lwip_htonl ackno)); (12%nat, [0x50; 0x10]);
              (14%nat, [wnd / 256; wnd mod 256]); (16%nat, [0; 0]); (18%nat, [0; 0])]).
  assert (F : Forall (λ w, (fst w + length (snd w) ≤ length h)%nat) ws) by (rewrite Hh; repeat constructor).
  destruct (pokes_run s _ a ws h s (written_start _ _ _ Eh) F) as (s1 & E1 & W1). exists s1. split.
  - intros A c. assert (E0 : ∀ z, poke (L := ipstate W) a z = poke (a + 0) z) by (intros; by rewrite Z.add_0_r).
    rewrite E0. apply (E1 A).
  - replace (tcp_header_of src dest seqno ackno TCP_ACK wnd) with (overwrites h ws); [done|].
    unfold ws. clear -Hh. do 20 (destruct h as [|? h]; [done|]). by destruct h.
Qed.

(** ** The packet *)

(** Where the fields of a header come from are within their types. *)
Record pcb_ranges (p : tcp_pcb) : Prop := {
  pr_local : 0 ≤ tp_local_port p < 65536;
  pr_remote : 0 ≤ tp_remote_port p < 65536;
  pr_nxt : 0 ≤ tp_rcv_nxt p < 4294967296;
  pr_snd : 0 ≤ tp_snd_nxt p < 4294967296;
  pr_ann : 0 ≤ tp_rcv_ann_wnd p < 65536;
  pr_ttl : 0 ≤ co_ttl (tp_com p) < 256;
  pr_lip : 0 < tp_local_ip p < 4294967296;
  pr_rip : 0 ≤ tp_remote_ip p < 4294967296
}.

(** The edge of the window that the peer is told. *)
Definition announced (p : tcp_pcb) : tcp_pcb :=
  set_rcv_ann_right_edge (u32 (tp_rcv_nxt p + tp_rcv_ann_wnd p)) p.

(** A configuration in which a header was written. *)
Lemma conf_written pcb s tp i q a h s' :
  written_at (conf pcb s tp i q) (as_link (conf pcb s tp i q)) a h s' →
  s' = conf pcb s tp i (set_bytes q (ps_bytes (as_packets s'))).
Proof. intros [E _ _]. rewrite E at 1. done. Qed.

Definition ack_pbuf (x : Z) : pbuf := ram_pbuf x PBUF_IP TCP_HLEN.

Lemma alloc_header_run pcb s tp i q f out bs seqno :
  owned q f out bs → heap_mapped q → pcb_ranges tp →
  let h := tcp_header_of (tp_local_port tp) (tp_remote_port tp) seqno (tp_rcv_nxt tp) TCP_ACK (tp_rcv_ann_wnd tp) in
  ∃ x q' bs', tcp_output_alloc_header pcb 0 0 (lwip_htonl seqno) (conf pcb s tp i q)
      = Some (x, conf pcb s (if x =? 0 then tp else announced tp) i q') ∧ owned q' f out bs' ∧
    (x ≠ 0 → room IP_HLEN (conf pcb s (announced tp) i q') x (ack_pbuf x) [] h).
Proof.
  intros Ho Hm [H1 H2 _ _ H5 _ _ _] h.
  destruct (pbuf_alloc_ram_spec q f out bs PBUF_IP TCP_HLEN Ho ltac:(unfold TCP_HLEN; lia))
    as (x & q1 & bs' & E & Ho1 & Hb1 & _ & Hx).
  unfold tcp_output_alloc_header. change (u16 (TCP_HLEN + 0 + 0)) with TCP_HLEN.
  rewrite (prog_bind_step _ _ _ _ _ (conf_run _ _ _ _ _ _ _ _ E)).
  destruct (Z.eqb_spec x 0) as [->|Hx0]; cbn [negb when].
  { exists 0, q1, bs'. split; [done|]. by split. }
  destruct (Hx Hx0) as (_ & Hpb & Hal & Hram & Hlo & Hhi).
  assert (Eb : ps_pbufs q1 !! x = Some (ack_pbuf x)) by (rewrite Hpb; apply lookup_insert_eq).
  set (a := pb_payload (ack_pbuf x)).
  assert (Ha : a = x + 52) by done.
  assert (Hma : mapped (ps_bytes q1) (a - IP_HLEN) (IP_HLEN + TCP_HLEN)).
  { intros j Hj. rewrite Hb1. apply Hm. rewrite <- Hram. unfold IP_HLEN, TCP_HLEN in *.
    change (pb_payload (ram_pbuf x PBUF_IP 20)) with a in Hhi. lia. }
  rewrite prog_bind_assoc. rewrite (prog_bind_step _ _ _ _ _ (conf_read _ _ _ _ _ _ _ (deref_run _ _ _ Eb))).
  cbv zeta. rewrite prog_bind_assoc. conf_step. fold a.
  destruct (store_tcp_header (conf pcb s tp i q1) a (tp_local_port tp) (tp_remote_port tp) seqno (tp_rcv_nxt tp)
    (tp_rcv_ann_wnd tp)) as (s2 & E2 & HW2); [|done..|].
  { apply (mapped_sub _ _ _ _ _ Hma); unfold IP_HLEN, TCP_HLEN; lia. }
  pose proof (conf_written _ _ _ _ _ _ _ _ HW2) as Es2.
  set (m2 := ps_bytes (as_packets s2)) in *.
  exists x, (set_bytes q1 m2), bs'. split; [|split; [by apply owned_set_bytes|]].
  - rewrite (proj2 (Z.eqb_neq x 0) Hx0).
    rewrite (prog_bind_step _ _ _ tt (conf pcb s (announced tp) i (set_bytes q1 m2))); [done|].
    rewrite E2, Es2. by rewrite conf_upd.
  - intros _. pose proof HW2 as [_ Hld Hfr]. split; [| done | | | |].
    + split.
      * split; [done|]. split; [done|]. split; [exact Eb|]. done.
      * split_and!; done.
      * transitivity (match load_bytes m2 a (length h) with Some z => Some (z ++ []) | None => None end); [done|].
        assert (Hld' : load_bytes m2 a (length h) = Some h) by exact Hld. rewrite Hld'. by rewrite app_nil_r.
    + fold a. rewrite Ha. unfold IP_HLEN, SIZEOF_STRUCT_PBUF. lia.
    + done.
    + fold a. intros j Hj. change (is_Some (m2 !! j)).
      destruct (Hma j ltac:(unfold IP_HLEN, TCP_HLEN in *; lia)) as [v Hv].
      destruct (proj2 (load_bytes_is_Some (ps_bytes q1) j 1)) as [y Hy].
      { intros k Hk. replace k with j by lia. by rewrite Hv. }
      assert (Hdis : disjoint_range a (Z.of_nat (length h)) j 1) by (right; right; right; unfold IP_HLEN in Hj; lia).
      pose proof (written_elsewhere _ _ _ _ _ j 1 y HW2 Hdis ltac:(lia) Hy) as Hy2.
      apply (proj1 (load_bytes_is_Some m2 j 1)); [eauto | lia].
    + constructor.
Qed.

(** ** Sending it *)

Lemma prog_bind_eq {A B} (c c' : prog (istate W) A) (k : A → prog (istate W) B) s s' :
  c s = c' s' → (c ≫= k) s = (c' ≫= k) s'.
Proof. unfold mbind, prog_bind. by intros ->. Qed.

(** A search for a route does not look at the connection or at packets. *)
Lemma route_loop_conf pcb s tp i q dest : ∀ fuel n,
  ip4_route_loop fuel dest n (conf pcb s tp i q)
  = match ip4_route_loop fuel dest n s with Some (r, _) => Some (r, conf pcb s tp i q) | None => None end.
Proof.
  induction fuel as [|fuel IH]; intros n; [done|]. cbn [ip4_route_loop]. destruct (n =? 0); [done|].
  unfold the_netif, mbind, prog_bind. change (as_netifs (conf pcb s tp i q)) with (as_netifs s).
  destruct (as_netifs s !! n) as [nf|]; [|done].
  destruct (_ && _); [done|]. destruct (_ && _); [done|]. apply IH.
Qed.
Lemma route_conf l s dest :
  netifs_ok l s → ∃ n, ip4_route dest s = Some (n, s) ∧
    ∀ pcb tp i q, ip4_route dest (conf pcb s tp i q) = Some (n, conf pcb s tp i q).
Proof.
  intros [Hl Hnd Hd]. destruct (route_loop_run dest s l (netif_fuel s) _ Hl) as (r & Er & _).
  { pose proof (llist_length _ _ _ Hl Hnd). unfold netif_fuel. lia. }
  set (d := is_netif_default (as_link s)) in *.
  assert (Hall : ∃ n, ∀ c : istate W, as_netifs c = as_netifs s → is_mcast_netif (as_link c) = is_mcast_netif (as_link s) →
    is_netif_list (as_link c) = is_netif_list (as_link s) → is_netif_default (as_link c) = d →
    ip4_route_loop (netif_fuel s) dest (is_netif_list (as_link s)) c = Some (r, c) → ip4_route dest c = Some (n, c)).
  { destruct (ip4_addr_ismulticast dest && negb (is_mcast_netif (as_link s) =? 0)) eqn:Em.
    { exists (is_mcast_netif (as_link s)). intros c _ E1 _ _ _. unfold ip4_route.
      rewrite (prog_bind_step _ _ c (is_mcast_netif (as_link c)) c) by done. by rewrite E1, Em. }
    assert (Hdef : ∃ n, ∀ c : istate W, as_netifs c = as_netifs s →
      (if negb (r =? 0) then mret r else if d =? 0 then mret 0 else
       nf ← the_netif d;
       if negb (netif_is_up nf) || negb (netif_is_link_up nf) || ip4_addr_isany (nf_ip_addr nf)
       then mret 0 else mret d) c = Some (n, c)).
    { destruct (r =? 0); [|by exists r]. destruct (Z.eqb_spec d 0) as [|Hd0]; [by exists 0|].
      destruct Hd as [|Hd]; [done|]. destruct (llist_lookup _ _ _ _ Hl Hd) as [nf Hnf].
      destruct (negb (netif_is_up nf) || negb (netif_is_link_up nf) || ip4_addr_isany (nf_ip_addr nf)) eqn:Eu;
        [exists 0 | exists d]; intros c E1; cbn [negb];
        by rewrite (prog_bind_step _ _ c nf c) by (apply the_netif_run; by rewrite E1); rewrite Eu. }
    destruct Hdef as [n Hn]. exists n. intros c E0 E1 E2 E3 E4. unfold ip4_route.
    rewrite (prog_bind_step _ _ c (is_mcast_netif (as_link c)) c) by done. rewrite E1, Em.
    rewrite (prog_bind_step _ _ c (netif_fuel c) c) by done.
    rewrite (prog_bind_step _ _ c (is_netif_list (as_link c)) c) by done.
    unfold netif_fuel. rewrite E0, E2. rewrite (prog_bind_step _ _ _ _ _ E4). rewrite <- (Hn c E0), <- E3.
    by destruct (negb (r =? 0)). }
  destruct Hall as [n Hn]. exists n. split; [by apply Hn|]. intros pcb tp i q. apply Hn; try done.
  rewrite route_loop_conf. by rewrite Er.
Qed.

(** The rest of [tcp_send_empty_ack] from the call of the interface on. *)
Definition after_output (pcb x : Z) (c : prog (istate W) Z) : prog (istate W) Z :=
  err ← c;
  free_pbuf x ;;
  upd_tcb pcb (if err =? ERR_OK then and_not_flags (Z.lor TF_ACK_DELAY TF_ACK_NOW)
               else or_flags (Z.lor TF_ACK_DELAY TF_ACK_NOW)) ;;
  mret err.

(** The IP packet with the acknowledgement. *)
Definition ack_packet (p : tcp_pcb) (id : Z) : bytes :=
  header_of (co_ttl (tp_com p)) (co_tos (tp_com p)) IP_PROTO_TCP (IP_HLEN + TCP_HLEN) id (tp_local_ip p) (tp_remote_ip p)
  ++ tcp_header_of (tp_local_port p) (tp_remote_port p) (tp_snd_nxt p) (tp_rcv_nxt p) TCP_ACK (tp_rcv_ann_wnd p).

Lemma ack_output_run pcb s tp i q f out bs l :
  let id := is_ip_id (as_link s) in
  owned q f out bs → heap_mapped q → pcb_ranges tp → netifs_ok l s → 0 ≤ id < 65536 →
  (∃ q' bs', tcp_send_empty_ack pcb (conf pcb s tp i q)
      = Some (ERR_BUF, conf pcb s (or_flags (Z.lor TF_ACK_DELAY TF_ACK_NOW) tp) i q') ∧ owned q' f out bs') ∨
  ∃ x n s1 bs', ip4_route (tp_remote_ip tp) s = Some (n, s) ∧ x ≠ 0 ∧
    tcp_send_empty_ack pcb (conf pcb s tp i q)
    = after_output pcb x (if n =? 0 then mret ERR_RTE else netif_output n x (tp_remote_ip tp)) s1 ∧
    owned (as_packets s1) f out bs' ∧ vars s1 = vars (conf pcb s (announced tp) i q) ∧
    (∃ b, ps_pbufs (as_packets s1) !! x = Some b ∧ pb_next b = 0 ∧ pb_ref b = 1) ∧
    (n ≠ 0 → ∃ b, chain_at (as_packets s1) x [(x, b)] (ack_packet tp id)).
Proof.
  intros id Ho Hm Hr Hn Hid. pose proof Hr as [_ _ _ _ _ Httl Hlip _].
  destruct (alloc_header_run pcb s tp i q f out bs (tp_snd_nxt tp) Ho Hm Hr) as (x & q1 & bs' & E1 & Ho1 & Hroom).
  unfold tcp_send_empty_ack. conf_step. rewrite (prog_bind_step _ _ _ _ _ E1).
  destruct (Z.eqb_spec x 0) as [->|Hx0].
  { left. exists q1, bs'. rewrite (prog_bind_step _ _ _ _ _ (conf_upd _ _ _ _ _ _)). by split. }
  right. specialize (Hroom Hx0). conf_step. change (tp_remote_ip (announced tp)) with (tp_remote_ip tp).
  set (s0 := conf pcb s (announced tp) i q1) in *.
  destruct (route_conf l s (tp_remote_ip tp) Hn) as (n & En & En'). specialize (En' pcb (announced tp) i q1).
  fold s0 in En'. rewrite (prog_bind_step _ _ _ _ _ En').
  destruct (Z.eqb_spec n 0) as [->|Hn0].
  { exists x, 0, s0, bs'. split; [done|]. split; [done|]. split; [done|]. split; [done|].
    split; [unfold s0; by rewrite !vars_conf|]. split; [|done].
    destruct (chain_at_head _ _ _ _ _ _ (rm_chain _ _ _ _ _ _ Hroom)) as (_ & _ & Eb & _). by exists (ack_pbuf x). }
  set (ttl := co_ttl (tp_com tp)). set (tos := co_tos (tp_com tp)).
  destruct (output_src_run netif_output 0 s0 x (ack_pbuf x) [] _ (Some (tp_local_ip tp)) (tp_remote_ip tp) ttl tos
    IP_PROTO_TCP n Hroom ltac:(lia) Hid Httl ltac:(done)) as (s1 & E2 & Hroom1 & Hown1 & El1 & _).
  assert (E3 : ip_output_if x (tp_local_ip (announced tp)) (tp_remote_ip (announced tp)) (co_ttl (tp_com (announced tp)))
    (co_tos (tp_com (announced tp))) IP_PROTO_TCP n s0 = netif_output n x (tp_remote_ip tp) s1).
  { unfold ip_output_if, ip4_output_if, ip4_output_if_opt.
    change (ip4_addr_get (Some (tp_local_ip (announced tp)))) with (tp_local_ip tp).
    assert (Hany : ip4_addr_isany (tp_local_ip tp) = false) by (apply Z.eqb_neq; intros E0; unfold IPADDR_ANY in E0; lia).
    rewrite Hany.
    rewrite prog_ret_bind. exact E2. }
  exists x, n, s1, bs'. rewrite (proj2 (Z.eqb_neq n 0)) by done.
  split; [done|]. split; [done|]. split; [by apply prog_bind_eq|]. split; [by apply Hown1|].
  split; [unfold vars; rewrite El1; exact (eq_trans (vars_conf pcb s _ i q1) (eq_sym (vars_conf pcb s _ i q)))|].
  pose proof (rm_chain _ _ _ _ _ _ Hroom1) as Hc1. destruct (chain_at_head _ _ _ _ _ _ Hc1) as (_ & _ & Eb & _).
  split; [by eexists; split; [exact Eb|]|]. intros _. eexists. exact Hc1.
Qed.

(** What the stack asks of [netif->output]: it returns, the connections are not
    its business, and the packet stays the caller's. *)
Class OutputLaws : Prop := output_returns : ∀ n x dest s f out bs b,
  owned (as_packets s) f out bs → ps_pbufs (as_packets s) !! x = Some b → pb_next b = 0 → pb_ref b = 1 →
  ∃ err s' f' out' bs' b', netif_output n x dest s = Some (err, s') ∧ vars s' = vars s ∧
    owned (as_packets s') f' out' bs' ∧ ps_pbufs (as_packets s') !! x = Some b' ∧ pb_next b' = 0 ∧
    0 < pb_ref b' < 65536.

(** The call returns.  It writes the flags and the announced edge of the
    window of the control block, and no other variable of TCP. *)
Lemma send_empty_ack_run `{OL : OutputLaws} pcb s tp i q f out bs l :
  owned q f out bs → heap_mapped q → pcb_ranges tp → netifs_ok l s → 0 ≤ is_ip_id (as_link s) < 65536 →
  ∃ err s' fl edge f' out' bs', tcp_send_empty_ack pcb (conf pcb s tp i q) = Some (err, s') ∧
    vars s' = vars (conf pcb s (set_flags fl (set_rcv_ann_right_edge edge tp)) i q) ∧
    owned (as_packets s') f' out' bs'.
Proof.
  intros Ho Hm Hr Hn Hid.
  destruct (ack_output_run pcb s tp i q f out bs l Ho Hm Hr Hn Hid)
    as [(q' & bs' & E & Ho')|(x & n & s1 & bs' & _ & Hx0 & E & Ho1 & Hv1 & (b & Eb & Hb1 & Hb2) & _)].
  { exists ERR_BUF, (conf pcb s (or_flags (Z.lor TF_ACK_DELAY TF_ACK_NOW) tp) i q').
    exists (Z.lor (tp_flags tp) (Z.lor TF_ACK_DELAY TF_ACK_NOW)), (tp_rcv_ann_right_edge tp), f, out, bs'.
    split; [done|]. split; [rewrite !vars_conf; by destruct tp|]. done. }
  rewrite E. clear E.
  assert (Hout : ∃ err s2 f2 out2 bs2 b2,
    (if n =? 0 then mret ERR_RTE else netif_output n x (tp_remote_ip tp)) s1 = Some (err, s2) ∧ vars s2 = vars s1 ∧
    owned (as_packets s2) f2 out2 bs2 ∧ ps_pbufs (as_packets s2) !! x = Some b2 ∧ pb_next b2 = 0 ∧ 0 < pb_ref b2 < 65536).
  { destruct (n =? 0); [|by eapply OL]. exists ERR_RTE, s1, f, out, bs', b. split_and!; try done; lia. }
  destruct Hout as (err & s2 & f2 & out2 & bs2 & b2 & E2 & Hv2 & Ho2 & Eb2 & Hn2 & Hr2).
  unfold after_output. rewrite (prog_bind_step _ _ _ _ _ E2).
  destruct (pbuf_free_frame _ _ _ _ x [(x, b2)] Ho2) as (c & q3 & f3 & out3 & bs3 & E3 & Ho3 & _).
  { split; [done|]. split; [done|]. by split. }
  { by constructor. }
  rewrite (prog_bind_step _ _ s2 tt (set_packets q3 s2)).
  2: { unfold free_pbuf. by rewrite (prog_bind_step _ _ _ _ _ (packets_run _ _ _ _ E3)). }
  set (s3 := set_packets q3 s2) in *.
  assert (Hv3 : vars s3 = vars (conf pcb s (announced tp) i q)) by (rewrite <- Hv1, <- Hv2; done).
  assert (Hcb : tv_cbs (vars s3) !! pcb = Some (CbPcb (announced tp))) by (rewrite Hv3; apply conf_lookup).
  rewrite (prog_bind_step _ _ _ _ _ (upd_tcb_run pcb (announced tp) _ s3 Hcb)).
  set (m := Z.lor TF_ACK_DELAY TF_ACK_NOW).
  exists err, (put_cb_state pcb (CbPcb ((if err =? ERR_OK then and_not_flags m else or_flags m) (announced tp))) s3).
  exists (if err =? ERR_OK then unset (tp_flags tp) m else Z.lor (tp_flags tp) m), (u32 (tp_rcv_nxt tp + tp_rcv_ann_wnd tp)).
  exists f3, out3, bs3. split; [done|]. split; [|done].
  unfold put_cb_state. rewrite vars_with, Hv3, !vars_conf. cbn [tv_cbs set_tv_cbs set_tv_in].
  rewrite insert_insert_eq. by destruct (err =? ERR_OK).
Qed.

(** C23: Unless there is no memory for it, [tcp_send_empty_ack] of a connection with a route gives the
    interface of the route one packet that is nothing but an IP header between the two addresses and
    a TCP header in which [tcp_input] of the peer reads the two ports, [snd_nxt] as the sequence
    number, [rcv_nxt] as the acknowledgement, the announced window, and no flag but ACK; without
    memory it says [ERR_BUF] and notes in the flags of the connection that it owes an answer. *)
Theorem tcp_ack_header pcb s tp i q f out bs l n :
  let id := is_ip_id (as_link s) in
  owned q f out bs → heap_mapped q → pcb_ranges tp → netifs_ok l s → 0 ≤ id < 65536 →
  ip4_route (tp_remote_ip tp) s = Some (n, s) → n ≠ 0 →
  (∃ q', tcp_send_empty_ack pcb (conf pcb s tp i q)
     = Some (ERR_BUF, conf pcb s (or_flags (Z.lor TF_ACK_DELAY TF_ACK_NOW) tp) i q')) ∨
  ∃ x s1 b d, tcp_send_empty_ack pcb (conf pcb s tp i q)
      = after_output pcb x (netif_output n x (tp_remote_ip tp)) s1 ∧
    chain_at (as_packets s1) x [(x, b)] d ∧ length d = 40%nat ∧
    hdr_proto d = IP_PROTO_TCP ∧ hdr_src d = tp_local_ip tp ∧ hdr_dest d = tp_remote_ip tp ∧ hdr_len d = 40 ∧
    let h := drop 20 d in
    lwip_htons (field 0 2 h) = tp_local_port tp ∧ lwip_htons (field 2 2 h) = tp_remote_port tp ∧
    lwip_htonl (field 4 4 h) = tp_snd_nxt tp ∧ lwip_htonl (field 8 4 h) = tp_rcv_nxt tp ∧
    Z.shiftr (lwip_htons (field 12 2 h)) 12 = 5 ∧ Z.land (lwip_htons (field 12 2 h)) TCP_FLAGS = TCP_ACK ∧
    lwip_htons (field 14 2 h) = tp_rcv_ann_wnd tp.
Proof.
  intros id Ho Hm Hr Hn Hid Hroute Hn0.
  destruct (ack_output_run pcb s tp i q f out bs l Ho Hm Hr Hn Hid)
    as [(q' & bs' & E & _)|(x & n' & s1 & bs' & En & Hx0 & E & _ & _ & _ & Hc)]; [left; by exists q'|right].
  assert (n' = n) as -> by congruence. destruct (Hc Hn0) as [b Hb]. rewrite (proj2 (Z.eqb_neq n 0) Hn0) in E.
  destruct Hr as [H1 H2 H3 H4 H5 H6 H7 H8].
  set (h := tcp_header_of (tp_local_port tp) (tp_remote_port tp) (tp_snd_nxt tp) (tp_rcv_nxt tp) TCP_ACK (tp_rcv_ann_wnd tp)).
  destruct (header_fields (co_ttl (tp_com tp)) (co_tos (tp_com tp)) IP_PROTO_TCP (IP_HLEN + TCP_HLEN) id
    (tp_local_ip tp) (tp_remote_ip tp) h) as (_ & _ & F3 & _ & F5 & F6 & F7 & F8); [done | lia | done |].
  destruct (tcp_header_fields (tp_local_port tp) (tp_remote_port tp) (tp_snd_nxt tp) (tp_rcv_nxt tp) TCP_ACK
    (tp_rcv_ann_wnd tp) []) as (G1 & G2 & G3 & G4 & G5 & G6 & G7 & _); [done..|].
  rewrite app_nil_r in *. exists x, s1, b, (ack_packet tp id). split; [exact E|]. split; [exact Hb|].
  split; [done|]. split; [exact F5|]. split; [exact F6|]. split; [exact F7|]. split; [exact F3|].
  change (drop 20 (ack_packet tp id)) with h. auto 10.
Qed.
End ack.
