(* ===== verification/TcpQueue.v ===== *)
(** * The queues of a connection

    The lists [unacked] and [unsent] of a control block with the segments
    they hold, and what an acknowledgement does to them. *)

From stdpp Require Import base numbers list gmap option sorting.
From S2P Require Import Prelude Mem MemRefine Memp Pbuf PbufLemmas PbufAlloc PbufOps PbufProps Chksum ChksumProps Ip4Addr Etharp LinkedList Netifs NetifProps Ip4 Ip4Props Ip4Output TcpBase TcpOut Tcp TcpIn TcpLemmas TcpTrim TcpReceive TcpAck.

(** ** Segments and queues *)

(** A segment of a queue: its address, its structure without the link, the
    position of its first byte in the stream, the flags of its header and its
    packet. *)
Record out_seg := OutSeg {
  os_addr : Z;
  os_seg : tcp_seg;
  os_pos : Z;
  os_flags : Z;
  os_chain : chain
}.
Implicit Types (o : out_seg) (os ua us : list out_seg).

(** The position behind it; SYN and FIN count. *)
Definition os_end o : Z :=
  os_pos o + (sg_len (os_seg o) + if flag (os_flags o) (Z.lor TCP_FIN TCP_SYN) then 1 else 0).

(** The bytes and the pbufs of a list of segments. *)
Fixpoint data_len os : Z := match os with [] => 0 | o :: os' => sg_len (os_seg o) + data_len os' end.
Fixpoint pbuf_count os : Z := match os with [] => 0 | o :: os' => Z.of_nat (length (os_chain o)) + pbuf_count os' end.

(** The segments that an acknowledgement of everything before [a] covers, and
    the others. *)
Definition covered (a : Z) os : list out_seg := filter (λ o, os_end o ≤ a) os.
Definition pending (a : Z) os : list out_seg := filter (λ o, ¬ os_end o ≤ a) os.

(** The segments from [h] on are [os]. *)
Definition unlinked (x : tcp_seg) : tcp_seg := set_sg_next 0 x.
Fixpoint seg_list (m : gmap Z tcp_seg) (h : Z) os : Prop :=
  match os with
  | [] => h = 0
  | o :: os' => h = os_addr o ∧ os_addr o ≠ 0 ∧
      ∃ x, m !! os_addr o = Some x ∧ unlinked x = os_seg o ∧ seg_list m (sg_next x) os'
  end.

(** The header and the packet of a segment. *)
Record seg_ok (q : pstate) o : Prop := {
  so_pos : load_bytes (ps_bytes q) (sg_tcphdr (os_seg o) + 4) 4 = Some (addr_bytes (lwip_htonl (u32 (os_pos o))));
  so_flags : hdr_flags (ps_bytes q) (sg_tcphdr (os_seg o)) (os_flags o);
  so_chain : pchain (ps_pbufs q) (sg_p (os_seg o)) (os_chain o);
  so_some : os_chain o ≠ [];
  so_ref : Forall ref_ok (os_chain o);
  so_len : os_pos o < os_end o
}.

(** All segments of a connection: they are different, so are their packets,
    and the pool has handed them out. *)
Definition chain_addrs os : list Z := os ≫= λ o, (os_chain o).*1.
Record sendq (q : pstate) (out : nat → list Z) os : Prop := {
  sq_ok : Forall (seg_ok q) os;
  sq_diff : NoDup (os_addr <$> os);
  sq_apart : NoDup (chain_addrs os);
  sq_pool : Forall (λ o, os_addr o ∈ out MEMP_TCP_SEG) os
}.

#[export] Instance sendq_perm q out : Proper ((≡ₚ) ==> iff) (sendq q out).
Proof.
  assert (H : ∀ os os', os ≡ₚ os' → sendq q out os → sendq q out os').
  { intros os os' Hp [H1 H2 H3 H4]. split.
    - by rewrite <- Hp.
    - by rewrite <- Hp.
    - unfold chain_addrs in *. by rewrite <- Hp.
    - by rewrite <- Hp. }
  intros os os' Hp. split; by apply H.
Qed.

Lemma seg_list_delete m h os n : seg_list m h os → (n ∉ os_addr <$> os) → seg_list (delete n m) h os.
Proof.
  revert h. induction os as [|o os IH]; intros h H Hn; [done|]. destruct H as (-> & H0 & x & Hm & Hx & H).
  rewrite fmap_cons in Hn. split; [done|]. split; [done|]. exists x. rewrite lookup_delete_ne by set_solver.
  split; [done|]. split; [done|]. apply IH; [done | set_solver].
Qed.

Lemma seg_list_length m h os : seg_list m h os → NoDup (os_addr <$> os) → (length os ≤ size m)%nat.
Proof.
  intros H Hnd. rewrite <- (length_fmap os_addr), <- (size_list_to_set (C := gset Z) _ Hnd), <- size_dom.
  apply subseteq_size. intros x Hx. apply elem_of_list_to_set in Hx. apply elem_of_dom. clear Hnd.
  revert h H. induction os as [|o os IH]; intros h; [set_solver|]. intros (-> & _ & y & Hm & _ & H).
  rewrite fmap_cons in Hx. apply elem_of_cons in Hx as [->|Hx]; [done | eauto].
Qed.

(** Segments in the order of the stream, without overlap: what is covered is
    the front of the queue. *)
Definition ascending os : Prop := StronglySorted (λ o o', os_end o ≤ os_pos o') os.

Lemma none_covered a o os q :
  ascending (o :: os) → Forall (seg_ok q) os → ¬ os_end o ≤ a → covered a (o :: os) = [] ∧ pending a (o :: os) = o :: os.
Proof.
  intros Ha Hok Ho. apply StronglySorted_inv in Ha as [Ha Hle].
  assert (H : Forall (λ o, ¬ os_end o ≤ a) (o :: os)).
  { constructor; [done|]. apply list.Forall_forall. intros x Hx.
    pose proof (proj1 (list.Forall_forall _ _) Hle x Hx) as H1. cbv beta in H1.
    pose proof (so_len _ _ (proj1 (list.Forall_forall _ _) Hok x Hx)). lia. }
  split; [by apply filter_none | by apply filter_all].
Qed.
Lemma first_covered a o os :
  os_end o ≤ a → covered a (o :: os) = o :: covered a os ∧ pending a (o :: os) = pending a os.
Proof. intros H. unfold covered, pending. rewrite filter_cons_True, filter_cons_False by lia. done. Qed.

Lemma covered_sublist a os : covered a os `sublist_of` os.
Proof.
  unfold covered. induction os as [|o os IH]; [done|]. rewrite filter_cons.
  case_decide; [by apply sublist_skip | by apply sublist_cons].
Qed.
Lemma apart_sublist os os' : NoDup (chain_addrs os') → os `sublist_of` os' → NoDup (chain_addrs os).
Proof.
  intros Hn Hs. apply (sublist_NoDup _ _ Hn). clear Hn. unfold chain_addrs.
  induction Hs; rewrite ?bind_cons; [done | by apply sublist_app | by apply sublist_inserts_l].
Qed.

(** ** What is released *)

(** From [q] to [q'], only the packets of [os] are touched, and they are gone
    unless somebody else holds them. *)
Record released (q q' : pstate) os : Prop := {
  re_bytes : ps_bytes q' = ps_bytes q;
  re_keep k : k ∉ chain_addrs os → ps_pbufs q' !! k = ps_pbufs q !! k;
  re_gone o k : o ∈ os → Forall (λ c : Z * pbuf, pb_ref c.2 = 1) (os_chain o) → k ∈ (os_chain o).*1 → ps_pbufs q' !! k = None
}.

Lemma released_none q : released q q [].
Proof. split; [done|done|]. by intros o k ?%elem_of_nil. Qed.
Lemma released_trans q q1 q2 os os' :
  released q q1 os → released q1 q2 os' → NoDup (chain_addrs (os ++ os')) → released q q2 (os ++ os').
Proof.
  intros [H1 H2 H3] [G1 G2 G3] Hnd. unfold chain_addrs in Hnd. rewrite bind_app in Hnd.
  apply list.NoDup_app in Hnd as (_ & Hd & _). split.
  - by rewrite G1.
  - intros k Hk. unfold chain_addrs in Hk. rewrite bind_app, not_elem_of_app in Hk. destruct Hk. by rewrite G2, H2.
  - intros o k Ho Href Hk. apply elem_of_app in Ho as [Ho|Ho]; [|by apply (G3 o)].
    rewrite G2; [by apply (H3 o)|]. apply Hd. apply list_elem_of_bind. by exists o.
Qed.

Section queue.
  Context {W : Type} `{HT : HasTcp W} `{TE : TcpEnv W}.
  Implicit Types s : istate W.

(** [s] with the segments [m]. *)
Definition with_segs (m : gmap Z tcp_seg) s : istate W := with_vars (set_tv_segs m (vars s)) s.

Lemma conf_the_seg pcb s m p i q n x :
  m !! n = Some x → the_seg n (conf pcb (with_segs m s) p i q) = Some (x, conf pcb (with_segs m s) p i q).
Proof. intros H. apply the_seg_run. rewrite vars_conf. unfold with_segs. by rewrite vars_with. Qed.
Lemma conf_seg_fuel pcb s m p i q :
  tcp_get seg_fuel (conf pcb (with_segs m s) p i q) = Some (S (S (size m)), conf pcb (with_segs m s) p i q).
Proof.
  unfold tcp_get, ip_get, gets. change (tcp_of _) with (vars (conf pcb (with_segs m s) p i q)).
  rewrite vars_conf. unfold with_segs. by rewrite vars_with.
Qed.
Lemma conf_del_seg pcb s m p i q n :
  tcp_mod (λ v, set_tv_segs (delete n (tv_segs v)) v) (conf pcb (with_segs m s) p i q)
  = Some (tt, conf pcb (with_segs (delete n m) s) p i q).
Proof.
  rewrite tcp_mod_run, vars_conf. do 2 f_equal. unfold conf, with_segs, with_vars, vars. cbn.
  by rewrite !with_tcp_with, !tcp_of_with.
Qed.

(** A segment goes back to its pool. *)
Lemma free_seg_run pcb s m p i q f out bs n :
  owned q f out bs → n ∈ out MEMP_TCP_SEG →
  ∃ q' f' out', free_seg n (conf pcb (with_segs m s) p i q) = Some (tt, conf pcb (with_segs (delete n m) s) p i q') ∧
    owned q' f' out' bs ∧ (∀ a, a ∈ out MEMP_TCP_SEG → a ≠ n → a ∈ out' MEMP_TCP_SEG) ∧
    ps_bytes q' = ps_bytes q ∧ ps_pbufs q' = ps_pbufs q.
Proof.
  intros Ho Hin. apply list_elem_of_split in Hin as (l1 & l2 & El). pose proof Ho as [Hp Hmax Hh H1 H2 H3 H4].
  destruct (memp_free_spec _ _ _ MEMP_TCP_SEG n (l1 ++ l2) Hp) as (r & Er & Hd & Hr).
  { unfold MEMP_PBUF_POOL, MEMP_TCP_SEG in *. lia. }
  { rewrite El. by rewrite Permutation_middle. }
  exists (PState (ps_pbufs q) (ps_bytes q) (ps_heap q) r), (fupd f MEMP_TCP_SEG (n :: f MEMP_TCP_SEG)),
    (fupd out MEMP_TCP_SEG (l1 ++ l2)). split_and!; try done.
  - unfold free_seg. erewrite prog_bind_step; [by apply conf_del_seg|]. apply conf_run. unfold on_pools. by rewrite Er.
  - split; cbn [ps_pools ps_pbufs ps_heap]; try done.
    + unfold MEMP_MAX in *. by rewrite Hd.
    + by rewrite Hd.
  - intros a Ha Hne. rewrite fupd_eq, El in *. set_solver.
Qed.

(** Fields of the header of a segment. *)
Lemma seg_end_run pcb s p i q o x :
  seg_ok q o → unlinked x = os_seg o → seg_end x (conf pcb s p i q) = Some (u32 (os_end o), conf pcb s p i q).
Proof.
  intros [Hp Hf _ _ _ _] Hx. unfold os_end. rewrite <- Hx in *. unfold seg_end, seg_seqno, rd32. rewrite !prog_bind_assoc.
  rewrite (prog_bind_step _ _ _ _ _ (conf_peek _ _ _ _ _ _ _ _ Hp)), prog_ret_bind, prog_ret_bind.
  unfold TCP_TCPLEN. rewrite prog_bind_assoc, (prog_bind_step _ _ _ _ _ (flags_run _ _ _ _ _ _ _ Hf)), prog_ret_bind.
  rewrite of_le_addr by apply htonl_range. rewrite htonl_htonl by apply u32_range.
  by rewrite u32_add_l.
Qed.

Lemma clen_loop_run q : ∀ l p n fuel,
  pchain (ps_pbufs q) p l → (length l < fuel)%nat → 0 ≤ n →
  pbuf_clen_loop fuel p (u16 n) q = Some (u16 (n + Z.of_nat (length l)), q).
Proof.
  induction l as [|[a b] l IH]; intros p n [|fuel] Hp Hf Hn; cbn [pbuf_clen_loop length] in *; try lia.
  - rewrite Hp, Z.eqb_refl. cbn. by rewrite Z.add_0_r.
  - destruct Hp as (-> & Ha & Eb & Hp). rewrite (proj2 (Z.eqb_neq a 0)) by done.
    rewrite (prog_bind_step _ _ _ _ _ (deref_run _ _ _ Eb)).
    replace (u16 (u16 n + 1)) with (u16 (n + 1)) by zmod. rewrite (IH (pb_next b) (n + 1)) by (done || lia).
    do 3 f_equal. lia.
Qed.
Lemma clen_run q p l :
  pchain (ps_pbufs q) p l → pbuf_clen p q = Some (u16 (Z.of_nat (length l)), q).
Proof.
  intros Hp. unfold pbuf_clen. rewrite (prog_bind_step _ _ q (chain_fuel q) q) by done.
  pose proof (pchain_fuel _ _ _ Hp). apply (clen_loop_run q l p 0); [done | lia | lia].
Qed.

(** ** One segment is acknowledged *)

Lemma sendq_keep q q' out out' o os :
  sendq q out (o :: os) → ps_bytes q' = ps_bytes q → (∀ k, k ∉ (os_chain o).*1 → ps_pbufs q' !! k = ps_pbufs q !! k) →
  (∀ a, a ∈ out MEMP_TCP_SEG → a ≠ os_addr o → a ∈ out' MEMP_TCP_SEG) → sendq q' out' os.
Proof.
  intros [H1 H2 H3 H4] Hb Hk Hout. apply Forall_cons_1 in H1 as [_ H1]. apply Forall_cons_1 in H4 as [_ H4].
  rewrite fmap_cons in H2. apply list.NoDup_cons in H2 as [Hn H2]. unfold chain_addrs in *. rewrite bind_cons in H3.
  apply list.NoDup_app in H3 as (_ & Hd & H3). split; [|done|done|].
  - apply list.Forall_forall. intros o' Ho'. pose proof (proj1 (list.Forall_forall _ _) H1 o' Ho') as [G1 G2 G3 G4 G5 G6].
    split; rewrite ?Hb; try done. apply (pchain_frame (ps_pbufs q)); [done|]. intros a Ha. apply Hk. intros Ha'.
    apply (Hd a Ha'). apply list_elem_of_bind. by exists o'.
  - apply list.Forall_forall. intros o' Ho'. pose proof (proj1 (list.Forall_forall _ _) H4 o' Ho') as Hin.
    apply Hout; [done|]. intros E. apply Hn. rewrite <- E. apply list_elem_of_fmap. by exists o'.
Qed.

Lemma release_run pcb s m p i q f out bs o os x :
  owned q f out bs → sendq q out (o :: os) → m !! os_addr o = Some x → unlinked x = os_seg o → os_addr o ≠ 0 →
  ∃ q' f' out' bs',
    release_acked pcb (os_addr o) x (conf pcb (with_segs m s) p i q)
    = Some (tt, conf pcb (with_segs (delete (os_addr o) m) s)
                  (set_snd_queuelen (u16 (tp_snd_queuelen p - Z.of_nat (length (os_chain o)))) p)
                  (set_ti_recv_acked (u16 (ti_recv_acked i + sg_len (os_seg o))) i) q') ∧
    owned q' f' out' bs' ∧ sendq q' out' os ∧ released q q' [o].
Proof.
  intros Ho Hq Hm Hx H0. pose proof Hq as [H1 _ _ H4]. apply Forall_cons_1 in H1 as [[_ _ Hc Hne Hr _] _].
  apply Forall_cons_1 in H4 as [Hin _].
  destruct (pbuf_free_chain_run q f out bs _ _ Ho Hc Hr) as (c & q1 & f1 & out1 & bs1 & E1 & Ho1 & Hs1 & Hb1 & Hk1 & Hg1).
  rewrite <- Hx in Hc, E1. rewrite <- Hx. change (sg_p (unlinked x)) with (sg_p x) in *. change (sg_len (unlinked x)) with (sg_len x).
  assert (Hp0 : sg_p x ≠ 0) by (destruct (os_chain o) as [|[a b] l]; [done|]; by destruct Hc as (-> & ? & _)).
  assert (Hin1 : os_addr o ∈ out1 MEMP_TCP_SEG) by (by rewrite Hs1).
  set (p' := set_snd_queuelen (u16 (tp_snd_queuelen p - Z.of_nat (length (os_chain o)))) p).
  set (i' := set_ti_recv_acked (u16 (ti_recv_acked i + sg_len x)) i).
  destruct (free_seg_run pcb s m p' i' q1 f1 out1 bs1 (os_addr o) Ho1 Hin1) as (q2 & f2 & out2 & E2 & Ho2 & Hout & Hb2 & Hpb2).
  exists q2, f2, out2, bs1. split_and!; try done.
  - unfold release_acked. rewrite (prog_bind_step _ _ _ _ _ (conf_read _ _ _ _ _ _ _ (clen_run _ _ _ Hc))).
    conf_step. conf_step. cbn beta.
    replace (u16 (tp_snd_queuelen p - u16 (Z.of_nat (length (os_chain o))))) with
      (u16 (tp_snd_queuelen p - Z.of_nat (length (os_chain o)))) by zmod.
    unfold tcp_seg_free. rewrite (proj2 (Z.eqb_neq _ 0) H0). cbn [negb when].
    rewrite (prog_bind_step _ _ _ _ _ (conf_the_seg _ _ _ _ _ _ _ _ Hm)), (proj2 (Z.eqb_neq _ 0) Hp0). cbn [negb when].
    unfold free_pbuf. rewrite prog_bind_assoc, (prog_bind_step _ _ _ _ _ (conf_run _ _ _ _ _ _ _ _ E1)), prog_ret_bind.
    exact E2.
  - apply (sendq_keep q q2 out out2 o os Hq); [by rewrite Hb2, Hb1 | | ].
    + intros k Hk. by rewrite Hpb2, Hk1.
    + intros a Ha. apply Hout. by rewrite Hs1.
  - assert (Ha : chain_addrs [o] = (os_chain o).*1) by (unfold chain_addrs; cbn; by rewrite app_nil_r).
    split.
    + by rewrite Hb2, Hb1.
    + intros k. rewrite Ha, Hpb2. apply Hk1.
    + intros o' k ->%list_elem_of_singleton. rewrite Hpb2. intros Hall. by apply Hg1.
Qed.

(** ** The loops *)

(** The segments that stay when [os] are released. *)
Fixpoint drop_segs os (m : gmap Z tcp_seg) : gmap Z tcp_seg :=
  match os with [] => m | o :: os' => drop_segs os' (delete (os_addr o) m) end.
(** The counts after the release of [os]. *)
Definition count_down os (p : tcp_pcb) : tcp_pcb := set_snd_queuelen (u16 (tp_snd_queuelen p - pbuf_count os)) p.
Definition count_acked os (i : tcp_in) : tcp_in := set_ti_recv_acked (u16 (ti_recv_acked i + data_len os)) i.

Lemma count_down_none p : 0 ≤ tp_snd_queuelen p < 65536 → count_down [] p = p.
Proof. intros H. unfold count_down. cbn [pbuf_count]. rewrite Z.sub_0_r, u16_small by done. by destruct p. Qed.
Lemma count_acked_none i : 0 ≤ ti_recv_acked i < 65536 → count_acked [] i = i.
Proof. intros H. unfold count_acked. cbn [data_len]. rewrite Z.add_0_r, u16_small by done. by destruct i. Qed.
Lemma count_down_cons o os p :
  count_down os (set_snd_queuelen (u16 (tp_snd_queuelen p - Z.of_nat (length (os_chain o)))) p) = count_down (o :: os) p.
Proof.
  unfold count_down. cbn [pbuf_count]. set (n := Z.of_nat (length (os_chain o))).
  replace (u16 (tp_snd_queuelen p - (n + pbuf_count os))) with (u16 (u16 (tp_snd_queuelen p - n) - pbuf_count os)) by zmod.
  by destruct p.
Qed.
Lemma count_acked_cons o os i :
  count_acked os (set_ti_recv_acked (u16 (ti_recv_acked i + sg_len (os_seg o))) i) = count_acked (o :: os) i.
Proof.
  unfold count_acked. cbn [data_len]. set (n := sg_len (os_seg o)).
  replace (u16 (ti_recv_acked i + (n + data_len os))) with (u16 (u16 (ti_recv_acked i + n) + data_len os)) by zmod.
  by destruct i.
Qed.

Lemma leq_u32 x a : near x a → TCP_SEQ_LEQ (u32 x) (u32 a) = (x <=? a).
Proof. intros H. rewrite <- seq_leq by done. unfold TCP_SEQ_LEQ. by rewrite !u32_u32. Qed.

(** The queue [ua] of [unacked], with the other segments [os0]. *)
Lemma unacked_run pcb s a os0 : ∀ ua fuel m p i q f out bs,
  owned q f out bs → sendq q out (ua ++ os0) → seg_list m (tp_unacked p) ua → ascending ua →
  Forall (λ o, near (os_end o) a) ua → 0 ≤ tp_snd_queuelen p < 65536 → 0 ≤ ti_recv_acked i < 65536 →
  (length ua < fuel)%nat →
  ∃ h q' f' out' bs', let rel := covered a ua in
    unacked_loop fuel pcb (u32 a) (conf pcb (with_segs m s) p i q)
    = Some (tt, conf pcb (with_segs (drop_segs rel m) s) (set_unacked h (count_down rel p)) (count_acked rel i) q') ∧
    seg_list (drop_segs rel m) h (pending a ua) ∧ owned q' f' out' bs' ∧ sendq q' out' (pending a ua ++ os0) ∧
    released q q' rel.
Proof.
  induction ua as [|o ua IH]; intros [|fuel] m p i q f out bs Ho Hq Hl Ha Hn Hql Hra Hf; cbn [length] in Hf; try lia;
    cbn [unacked_loop]; conf_step.
  - cbn [seg_list] in Hl. rewrite Hl, Z.eqb_refl. exists 0, q, f, out, bs. cbn. split_and!; try done.
    + rewrite count_down_none, count_acked_none by done. do 3 f_equal. destruct p; cbn in *. by subst.
    + apply released_none.
  - destruct Hl as (Eh & H0 & x & Hm & Hx & Hl). rewrite Eh, (proj2 (Z.eqb_neq _ 0) H0).
    rewrite (prog_bind_step _ _ _ _ _ (conf_the_seg _ _ _ _ _ _ _ _ Hm)).
    pose proof (Forall_inv (sq_ok _ _ _ Hq)) as Hok.
    rewrite (prog_bind_step _ _ _ _ _ (seg_end_run _ _ _ _ _ _ _ Hok Hx)), leq_u32 by (by inversion Hn).
    destruct (Z.leb_spec (os_end o) a) as [Hle|Hgt]; cbn [negb].
    2: { destruct (none_covered a o ua q Ha) as [-> ->]; [|lia|].
         { pose proof (sq_ok _ _ _ Hq) as G. apply Forall_cons_1 in G as [_ G]. by apply list.Forall_app in G as [G _]. }
          exists (os_addr o), q, f, out, bs. cbn zeta.
         split_and!; try done.
         - rewrite count_down_none, count_acked_none by done. cbn. do 3 f_equal. destruct p; cbn in *. by subst.
         - split; [done|]. split; [done|]. by exists x.
         - apply released_none. }
    destruct (first_covered a o ua Hle) as [-> ->]. conf_step.
    destruct (release_run pcb s m (set_unacked (sg_next x) p) i q f out bs o (ua ++ os0) x Ho Hq Hm Hx H0)
      as (q1 & f1 & out1 & bs1 & E1 & Ho1 & Hq1 & Hr1).
    rewrite (prog_bind_step _ _ _ _ _ E1).
    apply StronglySorted_inv in Ha as [Ha _]. apply Forall_cons_1 in Hn as [_ Hn].
    assert (Hnd : os_addr o ∉ os_addr <$> ua).
    { pose proof (sq_diff _ _ _ Hq) as Hd. cbn [app] in Hd. rewrite fmap_cons, fmap_app in Hd.
      apply list.NoDup_cons in Hd as [Hd _]. set_solver. }
    match type of E1 with _ = Some (_, conf _ _ ?p1 ?i1 _) => set (p1' := p1) in *; set (i1' := i1) in * end.
    destruct (IH fuel (delete (os_addr o) m) p1' i1' q1 f1 out1 bs1) as (h & q2 & f2 & out2 & bs2 & E2 & Hl2 & Ho2 & Hq2 & Hr2);
      [exact Ho1 | exact Hq1 | | done | done | apply u16_range | apply u16_range | lia | ].
    { cbn. by apply seg_list_delete. }
    exists h, q2, f2, out2, bs2. cbn zeta. split_and!; try done.
    + rewrite E2. do 3 f_equal; [|apply count_acked_cons]. rewrite <- (count_down_cons o). by destruct p.
    + apply (released_trans q q1 q2 [o]); [done|done|]. apply (apart_sublist _ _ (sq_apart _ _ _ Hq)).
      cbn [app]. apply sublist_skip, sublist_inserts_r, covered_sublist.
Qed.

Lemma between_reduced a x n :
  near a x → near a n → TCP_SEQ_BETWEEN (u32 a) (u32 x) (u32 n) = (x <=? a) && (a <=? n).
Proof. intros H1 H2. rewrite <- seq_between by done. unfold TCP_SEQ_BETWEEN, TCP_SEQ_GEQ, TCP_SEQ_LEQ. by rewrite !u32_u32. Qed.
Lemma near_sym a b : near a b → a - b ≠ -2147483648 → near b a.
Proof. unfold near. lia. Qed.

(** The queue [us] of [unsent]; segments in it may have been sent before. *)
Lemma unsent_run pcb s a nx os0 : ∀ us fuel m p i q f out bs,
  owned q f out bs → sendq q out (us ++ os0) → seg_list m (tp_unsent p) us → ascending us →
  Forall (λ o, near a (os_end o)) us → tp_snd_nxt p = u32 nx → near a nx → a ≤ nx →
  0 ≤ tp_snd_queuelen p < 65536 → 0 ≤ ti_recv_acked i < 65536 → (length us < fuel)%nat →
  ∃ h ov q' f' out' bs', let rel := covered a us in
    unsent_loop fuel pcb (u32 a) (conf pcb (with_segs m s) p i q)
    = Some (tt, conf pcb (with_segs (drop_segs rel m) s) (set_unsent h (set_unsent_oversize ov (count_down rel p)))
                  (count_acked rel i) q') ∧
    seg_list (drop_segs rel m) h (pending a us) ∧ owned q' f' out' bs' ∧ sendq q' out' (pending a us ++ os0) ∧
    released q q' rel.
Proof.
  induction us as [|o us IH]; intros [|fuel] m p i q f out bs Ho Hq Hl Ha Hn Hnx Hna Hle' Hql Hra Hf;
    cbn [length] in Hf; try lia; cbn [unsent_loop]; conf_step.
  - cbn [seg_list] in Hl. rewrite Hl, Z.eqb_refl. exists 0, (tp_unsent_oversize p), q, f, out, bs. cbn. split_and!; try done.
    + rewrite count_down_none, count_acked_none by done. do 3 f_equal. destruct p; cbn in *. by subst.
    + apply released_none.
  - destruct Hl as (Eh & H0 & x & Hm & Hx & Hl). rewrite Eh, (proj2 (Z.eqb_neq _ 0) H0).
    rewrite (prog_bind_step _ _ _ _ _ (conf_the_seg _ _ _ _ _ _ _ _ Hm)).
    pose proof (Forall_inv (sq_ok _ _ _ Hq)) as Hok. apply Forall_cons_1 in Hn as [Hno Hn].
    rewrite (prog_bind_step _ _ _ _ _ (seg_end_run _ _ _ _ _ _ _ Hok Hx)), Hnx, between_reduced by done.
    rewrite (proj2 (Z.leb_le a nx) Hle'), andb_true_r.
    destruct (Z.leb_spec (os_end o) a) as [Hle|Hgt]; cbn [negb].
    2: { destruct (none_covered a o us q Ha) as [-> ->]; [|lia|].
         { pose proof (sq_ok _ _ _ Hq) as G. apply Forall_cons_1 in G as [_ G]. by apply list.Forall_app in G as [G _]. }
          exists (os_addr o), (tp_unsent_oversize p), q, f, out, bs.
         cbn zeta. split_and!; try done.
         - rewrite count_down_none, count_acked_none by done. cbn. do 3 f_equal. destruct p; cbn in *. by subst.
         - split; [done|]. split; [done|]. by exists x.
         - apply released_none. }
    destruct (first_covered a o us Hle) as [-> ->]. conf_step.
    set (p0 := set_unsent (sg_next x) p).
    set (p1 := if sg_next x =? 0 then set_unsent_oversize 0 p0 else p0).
    assert (Ew : ∀ A (c : prog (istate W) A),
      (when (sg_next x =? 0) (upd_tcb pcb (set_unsent_oversize 0)) ;; c) (conf pcb (with_segs m s) p0 i q)
      = c (conf pcb (with_segs m s) p1 i q)).
    { intros A c. subst p1. destruct (_ =? 0); cbn [when]; [by conf_step | by rewrite prog_ret_bind]. }
    rewrite Ew. destruct (release_run pcb s m p1 i q f out bs o (us ++ os0) x Ho Hq Hm Hx H0)
      as (q1 & f1 & out1 & bs1 & E1 & Ho1 & Hq1 & Hr1).
    rewrite (prog_bind_step _ _ _ _ _ E1).
    apply StronglySorted_inv in Ha as [Ha _].
    assert (Hnd : os_addr o ∉ os_addr <$> us).
    { pose proof (sq_diff _ _ _ Hq) as Hd. cbn [app] in Hd. rewrite fmap_cons, fmap_app in Hd.
      apply list.NoDup_cons in Hd as [Hd _]. set_solver. }
    assert (Hp1 : tp_snd_queuelen p1 = tp_snd_queuelen p ∧ tp_unsent p1 = sg_next x ∧ tp_snd_nxt p1 = tp_snd_nxt p).
    { subst p1 p0. by destruct (_ =? 0). }
    destruct Hp1 as (Hp1 & Hp2 & Hp3).
    match type of E1 with _ = Some (_, conf _ _ ?p2 ?i2 _) => set (p2' := p2) in *; set (i2' := i2) in * end.
    destruct (IH fuel (delete (os_addr o) m) p2' i2' q1 f1 out1 bs1) as (h & ov & q2 & f2 & out2 & bs2 & E2 & Hl2 & Ho2 & Hq2 & Hr2);
      [done | done | | done | done | by rewrite <- Hnx, <- Hp3 | done | done | apply u16_range | apply u16_range | lia | ].
    { cbn. rewrite Hp2. by apply seg_list_delete. }
    exists h, ov, q2, f2, out2, bs2. cbn zeta. split_and!; try done.
    + rewrite E2. do 3 f_equal; [|apply count_acked_cons]. subst p2'. rewrite count_down_cons. subst p1 p0.
      unfold count_down. destruct (_ =? 0); by destruct p.
    + apply (released_trans q q1 q2 [o]); [done|done|]. apply (apart_sublist _ _ (sq_apart _ _ _ Hq)).
      cbn [app]. apply sublist_skip, sublist_inserts_r, covered_sublist.
Qed.

(** ** An acknowledgement *)

(** What the updates of windows, timers and congestion control leave. *)
Definition same_queues (p p' : tcp_pcb) : Prop :=
  tp_unacked p' = tp_unacked p ∧ tp_unsent p' = tp_unsent p ∧ tp_snd_nxt p' = tp_snd_nxt p ∧
  tp_snd_queuelen p' = tp_snd_queuelen p ∧ tp_snd_buf p' = tp_snd_buf p.

Lemma update_snd_wnd_same seqno ackno wnd p :
  let p' := update_snd_wnd seqno ackno wnd p in
  same_queues p p' ∧ tp_lastack p' = tp_lastack p ∧ tp_cwnd p' = tp_cwnd p ∧ tp_ssthresh p' = tp_ssthresh p.
Proof.
  unfold update_snd_wnd. cbv zeta.
  repeat match goal with |- context [if ?b then _ else _] => destruct b end; by destruct p.
Qed.
Lemma ack_cwnd_run ackno p :
  0 < tp_cwnd p → 0 < tp_ssthresh p →
  ∃ p', ack_cwnd ackno p = Some p' ∧ same_queues p p' ∧ tp_lastack p' = ackno ∧ tp_nrtx p' = 0 ∧ tp_dupacks p' = 0.
Proof.
  intros Hc Hs. unfold ack_cwnd. cbv zeta. set (p0 := if flag (tp_flags p) TF_INFR then _ else p).
  assert (H : 0 < tp_cwnd p0 ∧ same_queues p p0) by (subst p0; destruct (flag _ _); by destruct p).
  destruct H as [Hc0 H]. set (p1 := set_lastack ackno _).
  assert (H1 : 0 < tp_cwnd p1 ∧ same_queues p p1 ∧ tp_lastack p1 = ackno ∧ tp_nrtx p1 = 0 ∧ tp_dupacks p1 = 0) by done.
  clearbody p1. clear p0 Hc0 H. destruct H1 as (Hc1 & H1).
  destruct (_ <=? _); [|by exists p1]. destruct (_ <? tp_ssthresh p1).
  - destruct (_ <? _); eexists; (split; [done|]); by destruct p1.
  - destruct (Z.eqb_spec (tp_cwnd p1) 0); [lia|]. destruct (_ <? _); eexists; (split; [done|]); by destruct p1.
Qed.
Lemma update_rtt_same t ackno p :
  let p' := update_rtt t ackno p in
  same_queues p p' ∧ tp_lastack p' = tp_lastack p ∧ tp_nrtx p' = tp_nrtx p ∧ tp_rtime p' = tp_rtime p.
Proof. unfold update_rtt. cbv zeta. destruct (_ && _); by destruct p. Qed.

Lemma drop_segs_lookup os : ∀ m n, drop_segs os m !! n = if decide (n ∈ os_addr <$> os) then None else m !! n.
Proof.
  induction os as [|o os IH]; intros m n; cbn [drop_segs].
  - case_decide as H; [by apply elem_of_nil in H | done].
  - rewrite IH. destruct (decide (n ∈ os_addr <$> os)) as [H|H], (decide (n ∈ os_addr <$> o :: os)) as [H'|H']; try done.
    + rewrite fmap_cons in H'. set_solver.
    + rewrite fmap_cons in H'. apply elem_of_cons in H' as [->|H']; [apply lookup_delete_eq | done].
    + rewrite fmap_cons in H'. rewrite lookup_delete_ne; [done|]. set_solver.
Qed.
Lemma seg_list_drop m h os rel :
  seg_list m h os → (∀ n, n ∈ os_addr <$> os → n ∉ os_addr <$> rel) → seg_list (drop_segs rel m) h os.
Proof.
  revert m. induction rel as [|o rel IH]; intros m H Hn; [done|]. cbn [drop_segs]. apply IH.
  - apply seg_list_delete; [done|]. intros Hin. apply (Hn _ Hin). rewrite fmap_cons. by left.
  - intros n Hin Hin'. apply (Hn _ Hin). rewrite fmap_cons. by right.
Qed.

(** The queues of the connection [tp] in the state [s]. *)
Record send_queues s (tp : tcp_pcb) ua us : Prop := {
  sd_own : ∃ f out bs, owned (as_packets s) f out bs ∧ sendq (as_packets s) out (ua ++ us);
  sd_unacked : seg_list (tv_segs (vars s)) (tp_unacked tp) ua;
  sd_unsent : seg_list (tv_segs (vars s)) (tp_unsent tp) us;
  sd_unacked_asc : ascending ua;
  sd_unsent_asc : ascending us;
  sd_len : 0 ≤ tp_snd_queuelen tp < 65536
}.

Lemma with_segs_same s : with_segs (tv_segs (vars s)) s = s.
Proof. unfold with_segs. replace (set_tv_segs _ _) with (vars s) by (by destruct (vars s)). apply with_vars_same. Qed.
Lemma segs_of_conf pcb s m p i q : tv_segs (vars (conf pcb (with_segs m s) p i q)) = m.
Proof. rewrite vars_conf. unfold with_segs. by rewrite vars_with. Qed.

(** The timer of retransmissions runs while something is not acknowledged. *)
Definition timer_of os : Z := match os with [] => -1 | _ => 0 end.
Lemma timer_head m h os : seg_list m h os → (if h =? 0 then -1 else 0) = timer_of os.
Proof.
  destruct os as [|o os]; cbn [seg_list timer_of]; [by intros ->|]. intros (-> & H & _).
  by rewrite (proj2 (Z.eqb_neq _ 0) H).
Qed.

Lemma new_ack_run pcb s a us m p i q f out bs ua :
  owned q f out bs → sendq q out (ua ++ us) → seg_list m (tp_unacked p) ua → ascending ua →
  Forall (λ o, near (os_end o) a) ua → 0 ≤ tp_snd_queuelen p < 65536 → 0 ≤ ti_recv_acked i < 65536 →
  0 < tp_cwnd p → 0 < tp_ssthresh p →
  ∃ p' q' f' out' bs', let rel := covered a ua in
    receive_new_ack pcb (u32 a) (conf pcb (with_segs m s) p i q)
    = Some (tt, conf pcb (with_segs (drop_segs rel m) s) p' (count_acked rel i) q') ∧
    (seg_list (drop_segs rel m) (tp_unacked p') (pending a ua) ∧ tp_unsent p' = tp_unsent p ∧
     tp_snd_nxt p' = tp_snd_nxt p ∧ tp_snd_buf p' = tp_snd_buf p ∧
     tp_snd_queuelen p' = u16 (tp_snd_queuelen p - pbuf_count rel) ∧ tp_lastack p' = u32 a ∧ tp_nrtx p' = 0 ∧
     tp_rtime p' = timer_of (pending a ua)) ∧
    owned q' f' out' bs' ∧ sendq q' out' (pending a ua ++ us) ∧ released q q' rel.
Proof.
  intros Ho Hq Hl Ha Hn Hql Hra Hc Hss. destruct (ack_cwnd_run (u32 a) p Hc Hss) as (p1 & E1 & (S1 & S2 & S3 & S4 & S5) & L1 & N1 & _).
  destruct (unacked_run pcb s a us ua (S (S (size m))) m p1 i q f out bs Ho Hq) as (h & q2 & f2 & out2 & bs2 & E2 & Hl2 & Ho2 & Hq2 & Hr2);
    [by rewrite S1 | done | done | by rewrite S4 | done | |].
  { pose proof (sq_diff _ _ _ Hq) as Hd. rewrite fmap_app in Hd. apply list.NoDup_app in Hd as (Hd & _ & _).
    pose proof (seg_list_length _ _ _ Hl Hd). lia. }
  eexists _, q2, f2, out2, bs2. cbv zeta. split.
  - unfold receive_new_ack. conf_step. rewrite E1. unfold lift.
    rewrite (prog_bind_step _ _ (conf pcb (with_segs m s) p i q) p1 (conf pcb (with_segs m s) p i q)) by done.
    rewrite (prog_bind_step _ _ _ _ _ (conf_put _ _ _ _ _ _)), (prog_bind_step _ _ _ _ _ (conf_seg_fuel _ _ _ _ _ _)).
    rewrite (prog_bind_step _ _ _ _ _ E2). conf_step. rewrite conf_upd. reflexivity.
  - split; [|done]. cbn. rewrite (timer_head _ _ _ Hl2), S4. by split_and!.
Qed.

Lemma pending_apart a ua us q out n :
  sendq q out (ua ++ us) → n ∈ os_addr <$> us → n ∉ os_addr <$> covered a ua.
Proof.
  intros Hq Hn Hn'. pose proof (sq_diff _ _ _ Hq) as Hd. rewrite fmap_app in Hd.
  apply list.NoDup_app in Hd as (_ & Hd & _). apply list_elem_of_fmap in Hn' as (o & -> & Ho).
  apply (Hd (os_addr o)); [|done]. apply list_elem_of_fmap. exists o. split; [done|].
  apply (elem_of_sublist _ _ _ Ho), covered_sublist.
Qed.
Lemma pending_ascending a os : ascending os → ascending (pending a os).
Proof.
  unfold ascending, pending. induction 1 as [|o os H IH Ho]; [constructor|]. rewrite filter_cons.
  case_decide; [|done]. constructor; [done|]. apply list.Forall_forall. intros o' Ho'.
  apply list_elem_of_filter in Ho' as [_ Ho']. by apply (proj1 (list.Forall_forall _ _) Ho).
Qed.
Lemma near_range la a n : la < a < la + 2147483648 → la < n < la + 2147483648 → near a n.
Proof. unfold near. lia. Qed.
Lemma recv_acked_range os i : 0 ≤ ti_recv_acked (count_acked os i) < 65536.
Proof. apply u16_range. Qed.

Lemma data_len_app os os' : data_len (os ++ os') = data_len os + data_len os'.
Proof. induction os as [|o os IH]; cbn [app data_len]; [done | rewrite IH; lia]. Qed.
Lemma pbuf_count_app os os' : pbuf_count (os ++ os') = pbuf_count os + pbuf_count os'.
Proof. induction os as [|o os IH]; cbn [app pbuf_count]; [done | rewrite IH; lia]. Qed.

(** The tests of [tcp_receive] on an acknowledgement of new data. *)
Lemma new_ack_test la a nx :
  la < a ≤ nx → nx < la + 2147483648 →
  TCP_SEQ_LEQ (u32 a) (u32 la) = false ∧ TCP_SEQ_BETWEEN (u32 a) (u32 la + 1) (u32 nx) = true.
Proof.
  intros Ha Hn. rewrite leq_u32 by (unfold near; lia). split; [apply Z.leb_gt; lia|].
  replace (TCP_SEQ_BETWEEN (u32 a) (u32 la + 1) (u32 nx)) with (TCP_SEQ_BETWEEN (u32 a) (u32 (la + 1)) (u32 nx)).
  - rewrite between_reduced by (unfold near; lia). apply andb_true_iff. split; apply Z.leb_le; lia.
  - unfold TCP_SEQ_BETWEEN, TCP_SEQ_GEQ. by rewrite u32_add_l, !u32_u32.
Qed.

(** Both queues, from the acknowledgement to the counters. *)
Lemma ack_queues_run pcb s a nx m p i q f out bs ua us :
  owned q f out bs → sendq q out (ua ++ us) → seg_list m (tp_unacked p) ua → seg_list m (tp_unsent p) us →
  ascending ua → ascending us → Forall (λ o, near (os_end o) a ∧ near a (os_end o)) (ua ++ us) →
  tp_snd_nxt p = u32 nx → near a nx → a ≤ nx →
  0 ≤ tp_snd_queuelen p < 65536 → 0 ≤ ti_recv_acked i < 65536 → 0 < tp_cwnd p → 0 < tp_ssthresh p →
  let rel := covered a ua ++ covered a us in
  let m' := drop_segs (covered a us) (drop_segs (covered a ua) m) in
  let i' := count_acked (covered a us) (count_acked (covered a ua) i) in
  ∃ p' q' f' out' bs',
    (∀ A (c : prog (istate W) A),
      (receive_new_ack pcb (u32 a) ;; fuel ← tcp_get seg_fuel; unsent_loop fuel pcb (u32 a) ;; c)
        (conf pcb (with_segs m s) p i q) = c (conf pcb (with_segs m' s) p' i' q')) ∧
    (seg_list m' (tp_unacked p') (pending a ua) ∧ seg_list m' (tp_unsent p') (pending a us) ∧
     tp_snd_buf p' = tp_snd_buf p ∧ tp_snd_queuelen p' = u16 (tp_snd_queuelen p - pbuf_count rel) ∧
     tp_lastack p' = u32 a ∧ tp_nrtx p' = 0 ∧ tp_rtime p' = timer_of (pending a ua)) ∧
    owned q' f' out' bs' ∧ sendq q' out' (pending a ua ++ pending a us) ∧ released q q' rel.
Proof.
  intros Ho Hq Hl1 Hl2 Ha1 Ha2 Hn Hnx Hna Hle Hql Hra Hc Hss rel m' i'. apply list.Forall_app in Hn as [Hn1 Hn2].
  destruct (new_ack_run pcb s a us m p i q f out bs ua Ho Hq Hl1 Ha1) as
    (p1 & q1 & f1 & out1 & bs1 & E1 & (H1 & H2 & H3 & H4 & H5 & H6 & H7 & H8) & Ho1 & Hq1 & Hr1); try done.
  { eapply list.Forall_impl; [exact Hn1|]. by intros o []. }
  set (m1 := drop_segs (covered a ua) m) in *.
  destruct (unsent_run pcb s a nx (pending a ua) us (S (S (size m1))) m1 p1 (count_acked (covered a ua) i) q1 f1 out1 bs1)
    as (h & ov & q2 & f2 & out2 & bs2 & E2 & Hl & Ho2 & Hq2 & Hr2); try done.
  - by rewrite Permutation_app_comm.
  - rewrite H2. apply seg_list_drop; [done|]. intros n. by apply (pending_apart a ua us q out).
  - eapply list.Forall_impl; [exact Hn2|]. by intros o [].
  - by rewrite H3.
  - rewrite H5. apply u16_range.
  - apply recv_acked_range.
  - assert (Hl : seg_list m1 (tp_unsent p1) us).
    { rewrite H2. apply seg_list_drop; [done|]. intros n. by apply (pending_apart a ua us q out). }
    pose proof (sq_diff _ _ _ Hq) as Hd. rewrite fmap_app in Hd. apply list.NoDup_app in Hd as (_ & _ & Hd).
    pose proof (seg_list_length _ _ _ Hl Hd). lia.
  - eexists _, q2, f2, out2, bs2. split_and!.
    + intros A c. rewrite (prog_bind_step _ _ _ _ _ E1), (prog_bind_step _ _ _ _ _ (conf_seg_fuel _ _ _ _ _ _)).
      rewrite (prog_bind_step _ _ _ _ _ E2). reflexivity.
    + cbn. apply seg_list_drop; [done|]. intros n Hn. rewrite Permutation_app_comm in Hq1.
      by apply (pending_apart a us (pending a ua) q1 out1).
    + done.
    + done.
    + cbn. rewrite H5. unfold rel. rewrite pbuf_count_app. zmod.
    + done.
    + done.
    + done.
    + done.
    + by rewrite Permutation_app_comm.
    + apply (released_trans q q1 q2); [done|done|]. apply (apart_sublist _ _ (sq_apart _ _ _ Hq)).
      apply sublist_app; apply covered_sublist.
Qed.

(** C9: An acknowledgement of new data (everything before position [a], above the last acknowledgement
    [la] and not above what was sent) releases exactly the segments that it covers, in [unacked] and,
    for segments that were queued again, in [unsent]: they and their packets go back to their pools,
    all other segments and packets stay as they are and in order; [lastack], the room in the send
    buffer, the length of the queue and the count for the application move by what was released, and
    the timer of retransmissions is stopped just when nothing is left to be acknowledged. *)
Theorem tcp_ack_releases pcb s tp ua us la a nx :
  tv_cbs (vars s) !! pcb = Some (CbPcb tp) → send_queues s tp ua us →
  mapped (ps_bytes (as_packets s)) (ti_tcphdr (tv_in (vars s))) TCP_HLEN →
  tp_lastack tp = u32 la → tp_snd_nxt tp = u32 nx → ti_ackno (tv_in (vars s)) = u32 a →
  la < a ≤ nx → nx < la + 2147483648 → Forall (λ o, la < os_end o < la + 2147483648) (ua ++ us) →
  ti_recv_acked (tv_in (vars s)) = 0 → 0 < tp_cwnd tp → 0 < tp_ssthresh tp →
  let rel := covered a ua ++ covered a us in
  ∃ s' tp', receive_ack pcb s = Some (tt, s') ∧ tv_cbs (vars s') = <[pcb := CbPcb tp']> (tv_cbs (vars s)) ∧
    send_queues s' tp' (pending a ua) (pending a us) ∧ released (as_packets s) (as_packets s') rel ∧
    (∀ n, tv_segs (vars s') !! n = if decide (n ∈ os_addr <$> rel) then None else tv_segs (vars s) !! n) ∧
    tp_lastack tp' = u32 a ∧ tp_nrtx tp' = 0 ∧ tp_rtime tp' = timer_of (pending a ua) ∧
    tp_snd_buf tp' = u16 (tp_snd_buf tp + u16 (data_len rel)) ∧
    tp_snd_queuelen tp' = u16 (tp_snd_queuelen tp - pbuf_count rel) ∧
    ti_recv_acked (tv_in (vars s')) = u16 (data_len rel).
Proof.
  intros Hc [(f & out & bs & Ho & Hq) Hl1 Hl2 Ha1 Ha2 Hql] Hm Hla Hnx Hack Ha Hnear Hends Hra Hcw Hss rel.
  set (i := tv_in (vars s)) in *. set (q := as_packets s) in *. set (m := tv_segs (vars s)) in *.
  destruct (proj2 (load_bytes_is_Some (ps_bytes q) (ti_tcphdr i + 14) 2)) as [w Ew].
  { intros k Hk. apply Hm. unfold TCP_HLEN. lia. }
  set (p1 := update_snd_wnd (ti_seqno i) (u32 a) (of_le w) tp).
  destruct (update_snd_wnd_same (ti_seqno i) (u32 a) (of_le w) tp) as ((S1 & S2 & S3 & S4 & S5) & S6 & S7 & S8).
  destruct (ack_queues_run pcb s a nx m p1 i q f out bs ua us) as
    (p2 & q2 & f2 & out2 & bs2 & E2 & (G1 & G2 & G3 & G4 & G5 & G6 & G7) & Ho2 & Hq2 & Hr2); try done;
    try (unfold p1; rewrite ?S1, ?S2, ?S3, ?S4, ?S7, ?S8; done).
  { eapply list.Forall_impl; [exact Hends|]. cbn. intros o Hoo. split; apply (near_range la); lia. }
  { apply (near_range la); lia. }
  { lia. }
  { rewrite Hra. lia. }
  set (i2 := count_acked (covered a us) (count_acked (covered a ua) i)) in *.
  assert (Ei2 : ti_recv_acked i2 = u16 (data_len rel)).
  { unfold i2, count_acked, rel. cbn. rewrite Hra, data_len_app. zmod. }
  set (p3 := set_snd_buf (u16 (tp_snd_buf p2 + ti_recv_acked i2)) p2).
  set (p4 := update_rtt (tv_ticks (vars s)) (u32 a) p3).
  destruct (update_rtt_same (tv_ticks (vars s)) (u32 a) p3) as ((T1 & T2 & T3 & T4 & T5) & T6 & T7 & T8).
  set (m2 := drop_segs (covered a us) (drop_segs (covered a ua) m)) in *.
  exists (conf pcb (with_segs m2 s) p4 i2 q2), p4.
  assert (E : receive_ack pcb s = Some (tt, conf pcb (with_segs m2 s) p4 i2 q2)).
  { rewrite (conf_same pcb s tp Hc), <- (with_segs_same s) at 1. fold i q m. unfold receive_ack.
    do 4 conf_step. unfold rd16. rewrite prog_bind_assoc, (prog_bind_step _ _ _ _ _ (conf_peek _ _ _ _ _ _ _ _ Ew)), prog_ret_bind.
    conf_step. conf_step. conf_step. rewrite Hack. fold p1.
    assert (Hlast : tp_lastack p1 = u32 la) by (unfold p1; by rewrite S6).
    assert (Hnxt : tp_snd_nxt p1 = u32 nx) by (unfold p1; by rewrite S3).
    destruct (new_ack_test la a nx Ha Hnear) as [Hb1 Hb2]. rewrite Hlast, Hnxt, Hb1, Hb2, E2. conf_step. conf_step.
    conf_step. rewrite conf_upd.
    unfold with_segs at 2. rewrite vars_with. reflexivity. }
  split; [exact E|]. rewrite vars_conf. unfold with_segs at 1. rewrite vars_with. split; [done|].
  split_and!.
  - split; rewrite ?segs_of_conf; unfold p4; rewrite ?T1, ?T2, ?T4.
    + exists f2, out2, bs2. by split.
    + exact G1.
    + exact G2.
    + by apply pending_ascending.
    + by apply pending_ascending.
    + cbn. rewrite G4. apply u16_range.
  - exact Hr2.
  - intros n. cbn. unfold with_segs. rewrite vars_with. cbn. unfold m2, rel. rewrite !drop_segs_lookup, fmap_app.
    repeat case_decide; set_solver.
  - unfold p4. rewrite T6. exact G5.
  - unfold p4. rewrite T7. exact G6.
  - unfold p4. rewrite T8. exact G7.
  - unfold p4. rewrite T5. unfold p3. rewrite Ei2. change (u16 (tp_snd_buf p2 + u16 (data_len rel)) = u16 (tp_snd_buf tp + u16 (data_len rel))).
    rewrite G3. unfold p1. by rewrite S5.
  - unfold p4. rewrite T4. cbn. rewrite G4. unfold p1. by rewrite S4.
  - exact Ei2.
Qed.
End queue.
