(* ===== verification/TcpRexmit.v ===== *)
(** * Segments that are sent again

    [tcp_rexmit] (after duplicate acknowledgements) and [tcp_rexmit_rto]
    (after a time-out) put segments back from [unacked] to [unsent]. *)

From stdpp Require Import base numbers list gmap option sorting.
From S2P Require Import Prelude Mem MemRefine Memp Pbuf PbufLemmas PbufAlloc PbufOps PbufProps Chksum ChksumProps Ip4Addr Etharp LinkedList Netifs NetifProps Ip4 Ip4Props Ip4Output TcpBase TcpOut Tcp TcpIn TcpLemmas TcpTrim TcpReceive TcpAck TcpQueue.

Implicit Types (o : out_seg) (os ua us : list out_seg).

(** Where [o] belongs among [os]. *)
Fixpoint insert_seg o os : list out_seg :=
  match os with
  | [] => [o]
  | x :: os' => if os_pos x <? os_pos o then x :: insert_seg o os' else o :: os
  end.

Lemma insert_seg_perm o os : insert_seg o os ≡ₚ o :: os.
Proof.
  induction os as [|x os IH]; cbn [insert_seg]; [done|]. destruct (_ <? _); [|done]. rewrite IH. apply Permutation_swap.
Qed.
(** The order is kept when [o] overlaps with none of [os]. *)
Lemma insert_seg_ascending o os :
  ascending os → Forall (λ x, os_pos x < os_end x) os → os_pos o < os_end o →
  Forall (λ x, os_end x ≤ os_pos o ∨ os_end o ≤ os_pos x) os → ascending (insert_seg o os).
Proof.
  intros Ha Hp Ho Hd. induction os as [|x os IH]; cbn [insert_seg]; [repeat constructor|].
  apply StronglySorted_inv in Ha as [Ha Hle]. apply Forall_cons_1 in Hp as [Hpx Hp]. apply Forall_cons_1 in Hd as [Hdx Hd].
  destruct (Z.ltb_spec (os_pos x) (os_pos o)).
  - constructor; [by apply IH|]. rewrite insert_seg_perm. constructor; [lia | done].
  - constructor; [by constructor|]. constructor; [lia|]. apply list.Forall_forall. intros y Hy.
    pose proof (proj1 (list.Forall_forall _ _) Hle y Hy) as H1. cbv beta in H1. lia.
Qed.

(** ** Links *)

(** A change of a segment that is not in the list. *)
Lemma seg_list_insert m h os n x : seg_list m h os → (n ∉ os_addr <$> os) → seg_list (<[n := x]> m) h os.
Proof.
  revert h. induction os as [|o os IH]; intros h H Hn; [done|]. destruct H as (-> & H0 & y & Hm & Hy & H).
  rewrite fmap_cons in Hn. split; [done|]. split; [done|]. exists y. rewrite lookup_insert_ne by set_solver.
  split; [done|]. split; [done|]. apply IH; [done | set_solver].
Qed.

(** The list [os'] is hung behind the last segment of [os]. *)
Lemma seg_list_join m os o : ∀ h h' os' x,
  seg_list m h (os ++ [o]) → seg_list m h' os' → NoDup (os_addr <$> ((os ++ [o]) ++ os')) →
  m !! os_addr o = Some x →
  seg_list (<[os_addr o := set_sg_next h' x]> m) h ((os ++ [o]) ++ os').
Proof.
  induction os as [|y os IH]; intros h h' os' x H H' Hnd Hx.
  - destruct H as (-> & H0 & z & Hm & Hz & _). rewrite Hx in Hm. injection Hm as <-.
    cbn [app] in *. rewrite fmap_cons in Hnd. apply list.NoDup_cons in Hnd as [Hn _].
    split; [done|]. split; [done|]. exists (set_sg_next h' x). rewrite lookup_insert_eq.
    split; [done|]. split; [exact Hz|]. by apply seg_list_insert.
  - destruct H as (-> & H0 & z & Hm & Hz & H). cbn [app] in *. rewrite fmap_cons in Hnd. apply list.NoDup_cons in Hnd as [Hn Hnd].
    split; [done|]. split; [done|]. exists z. rewrite lookup_insert_ne.
    + split; [done|]. split; [done|]. by apply IH.
    + intros E. apply Hn. rewrite <- E. rewrite <- app_assoc, fmap_app, fmap_app. set_solver.
Qed.

Section rexmit.
  Context {W : Type} `{HT : HasTcp W} `{TE : TcpEnv W}.
  Implicit Types s : istate W.

Lemma conf_upd_seg pcb s m p i q n x f :
  m !! n = Some x →
  upd_seg n f (conf pcb (with_segs m s) p i q) = Some (tt, conf pcb (with_segs (<[n := f x]> m) s) p i q).
Proof.
  intros H. unfold upd_seg. rewrite (prog_bind_step _ _ _ _ _ (conf_the_seg _ _ _ _ _ _ _ _ H)).
  unfold put_seg. rewrite tcp_mod_run, vars_conf. do 2 f_equal. unfold conf, with_segs, with_vars, vars. cbn.
  by rewrite !with_tcp_with, !tcp_of_with.
Qed.
Lemma seqno_run pcb s p i q o x :
  seg_ok q o → unlinked x = os_seg o → seg_seqno x (conf pcb s p i q) = Some (u32 (os_pos o), conf pcb s p i q).
Proof.
  intros [Hp _ _ _ _ _] Hx. rewrite <- Hx in Hp. unfold seg_seqno, rd32. rewrite prog_bind_assoc.
  rewrite (prog_bind_step _ _ _ _ _ (conf_peek _ _ _ _ _ _ _ _ Hp)), prog_ret_bind.
  rewrite of_le_addr by apply htonl_range. by rewrite htonl_htonl by apply u32_range.
Qed.

(** ** All segments, after a time-out *)

Lemma last_seg_run pcb s m p i q o : ∀ os h fuel,
  seg_list m h (os ++ [o]) → (length os < fuel)%nat →
  last_seg fuel h (conf pcb (with_segs m s) p i q) = Some (os_addr o, conf pcb (with_segs m s) p i q).
Proof.
  induction os as [|x os IH]; intros h [|fuel] H Hf; cbn [length] in Hf; try lia; cbn [last_seg app] in *;
    destruct H as (-> & H0 & y & Hm & Hy & H); rewrite (prog_bind_step _ _ _ _ _ (conf_the_seg _ _ _ _ _ _ _ _ Hm)).
  - cbn in H. by rewrite H.
  - assert (Hn : sg_next y ≠ 0) by (destruct os; by destruct H as (-> & ? & _)).
    rewrite (proj2 (Z.eqb_neq _ 0) Hn). apply IH; [done | lia].
Qed.

Lemma rexmit_rto_run pcb s m p i q ua us :
  ua ≠ [] → seg_list m (tp_unacked p) ua → seg_list m (tp_unsent p) us → NoDup (os_addr <$> ua ++ us) →
  ∃ m', tcp_rexmit_rto pcb (conf pcb (with_segs m s) p i q)
    = (_ ← tcp_output pcb; mret tt)
        (conf pcb (with_segs m' s) (count_rexmit (set_unacked 0 (set_unsent (tp_unacked p) p))) i q) ∧
    seg_list m' (tp_unacked p) (ua ++ us).
Proof.
  intros Hne H1 H2 Hnd. destruct (exists_last Hne) as (os & o & ->).
  assert (Hx : ∃ x, m !! os_addr o = Some x).
  { clear -H1. revert H1. generalize (tp_unacked p). induction os as [|y os IH]; intros h H.
    - destruct H as (_ & _ & x & H & _). by exists x.
    - destruct H as (_ & _ & x & _ & _ & H). by apply (IH (sg_next x)). }
  destruct Hx as [x Hx]. exists (<[os_addr o := set_sg_next (tp_unsent p) x]> m). split; [|by apply seg_list_join].
  assert (H0 : tp_unacked p ≠ 0) by (destruct os; by destruct H1 as (-> & ? & _)).
  unfold tcp_rexmit_rto. conf_step. rewrite (proj2 (Z.eqb_neq _ 0) H0). cbn [negb when].
  rewrite (prog_bind_step _ _ _ _ _ (conf_seg_fuel _ _ _ _ _ _)).
  assert (Hlen : (length os < S (S (size m)))%nat).
  { rewrite fmap_app in Hnd. apply list.NoDup_app in Hnd as (Hd & _ & _).
    pose proof (seg_list_length _ _ _ H1 Hd) as Hl. rewrite length_app in Hl. cbn in Hl. lia. }
  rewrite (prog_bind_step _ _ _ _ _ (last_seg_run _ _ _ _ _ _ _ _ _ _ H1 Hlen)).
  rewrite (prog_bind_step _ _ _ _ _ (conf_upd_seg _ _ _ _ _ _ _ _ _ Hx)). do 3 conf_step. by destruct p.
Qed.

(** ** The first segment, after duplicate acknowledgements *)

(** Where [prev] says: in the head of the queue or in the segment before. *)
Definition link_at (m : gmap Z tcp_seg) (p : tcp_pcb) (prev cur : Z) o us : Prop :=
  (prev = 0 → tp_unsent p = cur) ∧
  (prev ≠ 0 → (prev ∉ os_addr <$> o :: us) ∧ ∃ y, m !! prev = Some y ∧ sg_next y = cur).
Definition linked_to (h prev : Z) (m m' : gmap Z tcp_seg) o us : Prop :=
  ∀ n, n ∉ os_addr <$> o :: us → m' !! n = if (n =? prev) && negb (prev =? 0) then set_sg_next h <$> m !! n else m !! n.

Lemma link_run pcb s m p i q o x us prev cur :
  m !! os_addr o = Some x → unlinked x = os_seg o → os_addr o ≠ 0 → seg_list m cur us → NoDup (os_addr <$> o :: us) →
  link_at m p prev cur o us →
  ∃ m', (upd_seg (os_addr o) (set_sg_next cur) ;;
         if prev =? 0 then upd_tcb pcb (set_unsent (os_addr o)) else upd_seg prev (set_sg_next (os_addr o)))
          (conf pcb (with_segs m s) p i q)
        = Some (tt, conf pcb (with_segs m' s) (if prev =? 0 then set_unsent (os_addr o) p else p) i q) ∧
    seg_list m' (os_addr o) (o :: us) ∧ linked_to (os_addr o) prev m m' o us.
Proof.
  intros Hm Hx H0 Hl Hnd [_ Hp]. rewrite fmap_cons in Hnd. apply list.NoDup_cons in Hnd as [Hno Hnd].
  set (m1 := <[os_addr o := set_sg_next cur x]> m).
  assert (H1 : ∀ m', m' !! os_addr o = Some (set_sg_next cur x) → seg_list m' cur us → seg_list m' (os_addr o) (o :: us)).
  { intros m' Hm' Hl'. split; [done|]. split; [done|]. exists (set_sg_next cur x). by split_and!. }
  rewrite (prog_bind_step _ _ _ _ _ (conf_upd_seg _ _ _ _ _ _ _ _ _ Hm)). fold m1.
  destruct (Z.eqb_spec prev 0) as [->|Hprev].
  - exists m1. rewrite conf_upd. split; [done|]. split.
    + apply H1; [by unfold m1; rewrite lookup_insert_eq | by apply seg_list_insert].
    + intros n Hn. rewrite fmap_cons, not_elem_of_cons in Hn. destruct Hn as [Hn _]. unfold m1.
      rewrite lookup_insert_ne by done. cbn. by rewrite andb_false_r.
  - destruct (Hp Hprev) as (Hn & y & Hy & Ey). rewrite fmap_cons, not_elem_of_cons in Hn. destruct Hn as [Hn1 Hn2].
    assert (Hy1 : m1 !! prev = Some y) by (unfold m1; by rewrite lookup_insert_ne).
    exists (<[prev := set_sg_next (os_addr o) y]> m1). rewrite (conf_upd_seg _ _ _ _ _ _ _ _ _ Hy1). split; [done|]. split.
    + apply H1; [unfold m1; by rewrite lookup_insert_ne, lookup_insert_eq | apply seg_list_insert; [by apply seg_list_insert | done]].
    + intros n Hn. rewrite fmap_cons, not_elem_of_cons in Hn. destruct Hn as [Hn _].
      rewrite (proj2 (Z.eqb_neq prev 0) Hprev), andb_true_r. destruct (Z.eqb_spec n prev) as [->|Hne].
      * by rewrite lookup_insert_eq, Hy.
      * unfold m1. by rewrite !lookup_insert_ne.
Qed.

Lemma insert_run pcb s i q o x : ∀ us fuel m p prev cur,
  m !! os_addr o = Some x → unlinked x = os_seg o → os_addr o ≠ 0 → seg_ok q o →
  seg_list m cur us → Forall (seg_ok q) us → NoDup (os_addr <$> o :: us) → Forall (λ u, near (os_pos u) (os_pos o)) us →
  link_at m p prev cur o us → (length us < fuel)%nat →
  ∃ h m', insert_by_seqno fuel (λ h, upd_tcb pcb (set_unsent h)) prev cur (os_addr o) (conf pcb (with_segs m s) p i q)
    = Some (tt, conf pcb (with_segs m' s) (if prev =? 0 then set_unsent h p else p) i q) ∧
    seg_list m' h (insert_seg o us) ∧ linked_to h prev m m' o us.
Proof.
  induction us as [|u us IH]; intros [|fuel] m p prev cur Hm Hx H0 Hok Hl Hoks Hnd Hnear Hp Hf; cbn [length] in Hf; try lia;
    cbn [insert_by_seqno].
  - cbn in Hl. subst cur. rewrite Z.eqb_refl, prog_ret_bind. cbn [insert_seg]. exists (os_addr o).
    by apply (link_run _ _ _ _ _ _ _ x).
  - pose proof Hl as (-> & Hu & y & Hy & Ey & Hl'). apply Forall_cons_1 in Hoks as [Hoku Hoks].
    apply Forall_cons_1 in Hnear as [Hnu Hnear]. rewrite (proj2 (Z.eqb_neq _ 0) Hu), !prog_bind_assoc.
    rewrite (prog_bind_step _ _ _ _ _ (conf_the_seg _ _ _ _ _ _ _ _ Hy)), prog_bind_assoc.
    rewrite (prog_bind_step _ _ _ _ _ (seqno_run _ _ _ _ _ _ _ Hoku Ey)), prog_bind_assoc.
    rewrite (prog_bind_step _ _ _ _ _ (conf_the_seg _ _ _ _ _ _ _ _ Hm)), prog_bind_assoc.
    rewrite (prog_bind_step _ _ _ _ _ (seqno_run _ _ _ _ _ _ _ Hok Hx)), prog_ret_bind, lt_u32 by done.
    cbn [insert_seg]. destruct (os_pos u <? os_pos o).
    2: { exists (os_addr o). by apply (link_run _ _ _ _ _ _ _ x). }
    rewrite (prog_bind_step _ _ _ _ _ (conf_the_seg _ _ _ _ _ _ _ _ Hy)).
    rewrite !fmap_cons in Hnd. apply list.NoDup_cons in Hnd as [Hno Hnd]. pose proof Hnd as [Hnu' Hnd']%list.NoDup_cons.
    rewrite not_elem_of_cons in Hno. destruct Hno as [Hno1 Hno2].
    destruct (IH fuel m p (os_addr u) (sg_next y)) as (h & m' & E & Hl2 & Hm'); try done; [| |lia|].
    { rewrite fmap_cons. by constructor. }
    { split; [done|]. intros _. split; [rewrite fmap_cons; set_solver | by exists y]. }
    rewrite (proj2 (Z.eqb_neq _ 0) Hu) in E. exists (os_addr u), m'. destruct Hp as [Hp1 Hp2]. split_and!.
    + rewrite E. destruct (Z.eqb_spec prev 0) as [Hz|Hz]; [|done]. do 3 f_equal. specialize (Hp1 Hz). destruct p; cbn in *. by subst.
    + split; [done|]. split; [done|]. exists (set_sg_next h y). rewrite Hm' by (rewrite fmap_cons; set_solver).
      rewrite Z.eqb_refl, (proj2 (Z.eqb_neq _ 0) Hu), Hy. cbn. by split_and!.
    + intros n Hn. rewrite !fmap_cons, !not_elem_of_cons in Hn. destruct Hn as (Hn1 & Hn2 & Hn3).
      rewrite Hm' by (rewrite fmap_cons; set_solver). rewrite (proj2 (Z.eqb_neq n (os_addr u)) Hn2). cbn [andb].
      destruct (Z.eqb_spec n prev) as [->|Hne]; [|done]. destruct (Z.eqb_spec prev 0) as [Hz|Hz]; [done|]. cbn [negb andb].
      destruct (Hp2 Hz) as (_ & z & Hz1 & Hz2). rewrite Hz1. cbn. f_equal. destruct z; cbn in *. by subst.
Qed.

Lemma seg_list_lookup m os o : ∀ h, seg_list m h os → o ∈ os → ∃ x, m !! os_addr o = Some x ∧ unlinked x = os_seg o.
Proof.
  induction os as [|u os IH]; intros h H Ho; [by apply elem_of_nil in Ho|]. destruct H as (_ & _ & x & Hx & Ex & H).
  apply elem_of_cons in Ho as [->|Ho]; [by exists x | by apply (IH (sg_next x))].
Qed.
Lemma seg_list_ext m m' os : ∀ h,
  seg_list m h os → (∀ n, n ∈ os_addr <$> os → m' !! n = m !! n) → seg_list m' h os.
Proof.
  induction os as [|u os IH]; intros h H He; [done|]. destruct H as (-> & H0 & x & Hx & Ex & H).
  rewrite fmap_cons in He. split; [done|]. split; [done|]. exists x. rewrite He by (by left). split; [done|]. split; [done|].
  apply IH; [done|]. intros n Hn. apply He. by right.
Qed.
Lemma perm_insert o ua us : ua ++ insert_seg o us ≡ₚ o :: ua ++ us.
Proof. by rewrite insert_seg_perm, Permutation_middle. Qed.

Lemma rexmit_run pcb s m p i q out o ua us :
  sendq q out (o :: ua ++ us) → seg_list m (tp_unacked p) (o :: ua) → seg_list m (tp_unsent p) us →
  Forall (λ u, near (os_pos u) (os_pos o)) us →
  ∃ m' p', tcp_rexmit pcb (conf pcb (with_segs m s) p i q) = Some (tt, conf pcb (with_segs m' s) (count_rexmit p') i q) ∧
    seg_list m' (tp_unacked p') ua ∧ seg_list m' (tp_unsent p') (insert_seg o us) ∧
    tp_snd_queuelen p' = tp_snd_queuelen p ∧ tp_nrtx p' = tp_nrtx p.
Proof.
  intros Hq Hl1 Hl2 Hn. destruct Hl1 as (E1 & H0 & x & Hx & Ex & Hl1). pose proof Hq as [Hok Hd _ _].
  apply Forall_cons_1 in Hok as [Hok Hoks]. apply list.Forall_app in Hoks as [_ Hoks].
  rewrite fmap_cons, fmap_app in Hd. apply list.NoDup_cons in Hd as [Hno Hd]. apply list.NoDup_app in Hd as (_ & Hd & Hdu).
  assert (Hnd : NoDup (os_addr <$> o :: us)) by (rewrite fmap_cons; constructor; [set_solver | done]).
  set (p1 := set_unacked (sg_next x) p).
  destruct (insert_run pcb s i q o x us (S (S (size m))) m p1 0 (tp_unsent p)) as (h & m' & E & Hl3 & Hm'); try done.
  { pose proof (seg_list_length _ _ _ Hl2 Hdu). lia. }
  destruct (seg_list_lookup m' (insert_seg o us) o h Hl3) as (x' & Hx' & _); [rewrite insert_seg_perm; by left|].
  set (p2 := set_unsent h p1) in *. set (p3 := if sg_next x' =? 0 then set_unsent_oversize 0 p2 else p2).
  exists m', p3. split_and!.
  - unfold tcp_rexmit. conf_step. rewrite E1, (proj2 (Z.eqb_neq _ 0) H0). cbn [negb when].
    rewrite (prog_bind_step _ _ _ _ _ (conf_the_seg _ _ _ _ _ _ _ _ Hx)). conf_step. fold p1.
    rewrite (prog_bind_step _ _ _ _ _ (conf_seg_fuel _ _ _ _ _ _)), (prog_bind_step _ _ _ _ _ E).
    rewrite (prog_bind_step _ _ _ _ _ (conf_the_seg _ _ _ _ _ _ _ _ Hx')). cbn [Z.eqb]. unfold p3.
    destruct (sg_next x' =? 0); cbn [when]; [conf_step | rewrite prog_ret_bind]; apply conf_upd.
  - replace (tp_unacked p3) with (sg_next x) by (unfold p3; destruct (sg_next x' =? 0); reflexivity).
    apply (seg_list_ext m); [done|]. intros n Hin. rewrite Hm'; [by rewrite andb_false_r|].
    rewrite fmap_cons, not_elem_of_cons. split; [intros ->; set_solver | by apply Hd].
  - replace (tp_unsent p3) with h by (unfold p3; destruct (sg_next x' =? 0); reflexivity). done.
  - unfold p3. by destruct (sg_next x' =? 0).
  - unfold p3. by destruct (sg_next x' =? 0).
Qed.

(** Segments of the two queues do not overlap, and are of one window. *)
Definition disjoint_queues ua us : Prop :=
  ∀ o x, o ∈ ua → x ∈ us → (os_end x ≤ os_pos o ∨ os_end o ≤ os_pos x) ∧ near (os_pos x) (os_pos o).

(** C19: Sending again loses no segment.  [tcp_rexmit] moves the first segment that is not acknowledged
    to its place in the order of the stream in [unsent] and leaves all others where they were;
    [tcp_rexmit_rto] puts all segments that are not acknowledged in front of [unsent], in their order,
    before it calls [tcp_output].  Neither touches a packet; both count the attempt up to 255 and give
    up the measurement of the round trip. *)
Theorem tcp_rexmit_requeues pcb s tp ua us :
  tv_cbs (vars s) !! pcb = Some (CbPcb tp) → send_queues s tp ua us → disjoint_queues ua us →
  (∀ o ua', ua = o :: ua' →
     ∃ s' tp', tcp_rexmit pcb s = Some (tt, s') ∧ tv_cbs (vars s') = <[pcb := CbPcb tp']> (tv_cbs (vars s)) ∧
       send_queues s' tp' ua' (insert_seg o us) ∧ as_packets s' = as_packets s ∧
       tp_nrtx tp' = (if tp_nrtx tp <? 255 then tp_nrtx tp + 1 else tp_nrtx tp) ∧ tp_rttest tp' = 0) ∧
  (ua ≠ [] →
     ∃ s' tp', tcp_rexmit_rto pcb s = (_ ← tcp_output pcb; mret tt) s' ∧
       tv_cbs (vars s') = <[pcb := CbPcb tp']> (tv_cbs (vars s)) ∧ as_packets s' = as_packets s ∧
       tp_unacked tp' = 0 ∧ seg_list (tv_segs (vars s')) (tp_unsent tp') (ua ++ us) ∧
       (ascending (ua ++ us) → send_queues s' tp' [] (ua ++ us)) ∧
       tp_nrtx tp' = (if tp_nrtx tp <? 255 then tp_nrtx tp + 1 else tp_nrtx tp) ∧ tp_rttest tp' = 0).
Proof.
  intros Hc [(f & out & bs & Ho & Hq) Hl1 Hl2 Ha1 Ha2 Hql] Hdis.
  assert (Es : s = conf pcb (with_segs (tv_segs (vars s)) s) tp (tv_in (vars s)) (as_packets s)).
  { rewrite (with_segs_same s). by apply conf_same. }
  assert (Hcbs : ∀ m p i q, tv_cbs (vars (conf pcb (with_segs m s) p i q)) = <[pcb := CbPcb p]> (tv_cbs (vars s))).
  { intros m p i q. rewrite vars_conf. unfold with_segs. by rewrite vars_with. }
  assert (Hnrtx : ∀ p, tp_nrtx p = tp_nrtx tp →
    tp_nrtx (count_rexmit p) = (if tp_nrtx tp <? 255 then tp_nrtx tp + 1 else tp_nrtx tp) ∧ tp_rttest (count_rexmit p) = 0).
  { intros p Hp. unfold count_rexmit. rewrite <- Hp. by destruct (_ <? _). }
  assert (Hsame : ∀ p, tp_unacked (count_rexmit p) = tp_unacked p ∧ tp_unsent (count_rexmit p) = tp_unsent p ∧
    tp_snd_queuelen (count_rexmit p) = tp_snd_queuelen p).
  { intros p. unfold count_rexmit. destruct (tp_nrtx p <? 0xff); by split_and!. }
  split.
  - intros o ua' ->. assert (Hnear : Forall (λ u, near (os_pos u) (os_pos o)) us).
    { apply list.Forall_forall. intros u Hu. by apply (Hdis o u ltac:(by left) Hu). }
    destruct (rexmit_run pcb s _ tp (tv_in (vars s)) (as_packets s) out o ua' us Hq Hl1 Hl2 Hnear)
      as (m' & p' & E & G1 & G2 & G3 & G4). rewrite <- Es in E.
    destruct (Hsame p') as (S1 & S2 & S3). eexists _, _. split; [exact E|]. split; [apply Hcbs|].
    split; [|split; [done | by apply Hnrtx]]. apply StronglySorted_inv in Ha1 as [Ha1 _].
    pose proof (sq_ok _ _ _ Hq) as Hok. apply Forall_cons_1 in Hok as [Hok Hoks]. apply list.Forall_app in Hoks as [_ Hoks].
    split; rewrite ?segs_of_conf, ?S1, ?S2, ?S3, ?G3; try done.
    + exists f, out, bs. split; [done|]. by rewrite perm_insert.
    + apply insert_seg_ascending; [done| |by apply (so_len _ _ Hok)|].
      * eapply list.Forall_impl; [exact Hoks|]. intros u Hu. by apply (so_len _ _ Hu).
      * apply list.Forall_forall. intros u Hu. by apply (Hdis o u ltac:(by left) Hu).
  - intros Hne. destruct (rexmit_rto_run pcb s _ tp (tv_in (vars s)) (as_packets s) ua us Hne Hl1 Hl2 (sq_diff _ _ _ Hq))
      as (m' & E & G). rewrite <- Es in E. eexists _, _. split; [exact E|]. split; [apply Hcbs|]. split; [done|].
    set (p' := set_unacked 0 _) in *. destruct (Hsame p') as (S1 & S2 & S3). rewrite segs_of_conf, S1, S2.
    split; [done|]. split; [exact G|]. split; [|by apply Hnrtx]. intros Hasc.
    split; rewrite ?segs_of_conf, ?S1, ?S2, ?S3; try done; [by exists f, out, bs | constructor].
Qed.
End rexmit.
