(* ===== verification/TcpStream.v ===== *)
(** * The stream that a connection delivers

    [receive_data] on every segment, and what reaches the application over any
    sequence of segments of one stream: a prefix of the stream, in its order. *)

From stdpp Require Import base numbers list gmap option relations.
From S2P Require Import Prelude Mem MemRefine Memp Pbuf PbufLemmas PbufAlloc PbufOps PbufProps Chksum ChksumProps Ip4Addr Etharp LinkedList Netifs NetifProps Ip4 Ip4Props Ip4Output TcpBase TcpOut Tcp TcpIn TcpLemmas TcpTrim TcpReceive TcpAck.

Section stream.
  Context {W : Type} `{HT : HasTcp W} `{TE : TcpEnv W}.
  Implicit Types s : istate W.

(** What a segment needs to be answered: the connection, the interfaces and the
    counter of [ip4_output] are as the stack keeps them. *)
Record ready (s : istate W) (tp : tcp_pcb) : Prop := {
  rd_ranges : pcb_ranges tp;
  rd_wnd : 0 ≤ tp_rcv_wnd tp < 65536;
  rd_netifs : ∃ l, netifs_ok l s;
  rd_id : 0 ≤ is_ip_id (as_link s) < 65536
}.

(** The segment at position [x] is the one that the receiver at position [r]
    takes data of. *)
Definition taken (tp : tcp_pcb) (x r len : Z) : bool :=
  (x <=? r) && (r <? x + len) && (0 <? tp_rcv_wnd tp) && (state_num (tp_state tp) <? state_num CLOSE_WAIT).

(** Only the flags and the announced edge of the window are written. *)
Definition same_receiver (tp tp' : tcp_pcb) : Prop :=
  ∃ fl edge, tp' = set_flags fl (set_rcv_ann_right_edge edge tp).

Lemma same_receiver_refl tp : same_receiver tp tp.
Proof. exists (tp_flags tp), (tp_rcv_ann_right_edge tp). by destruct tp. Qed.

Context {OL : @OutputLaws W HT TE}.
#[local] Set Default Proof Using "All".

Lemma ack_only pcb s tp i q f out bs :
  owned q f out bs → heap_mapped q → ready s tp →
  ∃ s' tp', (_ ← tcp_send_empty_ack pcb; mret tt) (conf pcb s tp i q) = Some (tt, s') ∧
    vars s' = vars (conf pcb s tp' i q) ∧ same_receiver tp tp'.
Proof.
  intros Ho Hh [H1 H2 [l H3] H4].
  destruct (send_empty_ack_run pcb s tp i q f out bs l Ho Hh H1 H3 H4) as (err & s' & fl & edge & _ & _ & _ & E & Hv & _).
  exists s', (set_flags fl (set_rcv_ann_right_edge edge tp)). rewrite (prog_bind_step _ _ _ _ _ E).
  split; [done|]. split; [done|]. by exists fl, edge.
Qed.

Lemma ready_ack_now s tp : ready s tp → ready s (tcp_ack_now tp).
Proof. intros [[] H2 H3 H4]. by split. Qed.
Lemma same_receiver_ack_now tp tp' : same_receiver (tcp_ack_now tp) tp' → same_receiver tp tp'.
Proof. intros (fl & edge & ->). by exists fl, edge. Qed.

(** The segment is answered, and nothing of it is handed on. *)
Definition refused (pcb : Z) s (tp : tcp_pcb) (i : tcp_in) (q : pstate) (r : option (unit * istate W)) : Prop :=
  ∃ s' tp' i', r = Some (tt, s') ∧ vars s' = vars (conf pcb s tp' i' q) ∧ same_receiver tp tp' ∧
    ti_recv_data i' = ti_recv_data i ∧ ti_recv_flags i' = ti_recv_flags i.

Lemma ack_refused pcb s tp tp1 i i1 q q1 f out bs :
  owned q1 f out bs → heap_mapped q1 → ready s tp → tp1 = tp ∨ tp1 = tcp_ack_now tp →
  ti_recv_data i1 = ti_recv_data i → ti_recv_flags i1 = ti_recv_flags i →
  refused pcb s tp i q ((_ ← tcp_send_empty_ack pcb; mret tt) (conf pcb s tp1 i1 q1)).
Proof.
  intros Ho Hh Hr Ht H1 H2.
  assert (Hr1 : ready s tp1) by (destruct Ht as [->| ->]; [done | by apply ready_ack_now]).
  destruct (ack_only pcb s tp1 i1 q1 f out bs Ho Hh Hr1) as (s' & tp' & E & Hv & Hs).
  exists s', tp', i1. split; [done|]. split; [rewrite Hv, !vars_conf; done|]. split; [|done].
  destruct Ht as [->| ->]; [done | by apply same_receiver_ack_now].
Qed.

(** What [tcp_receive] does with a segment that does not cover [rcv_nxt]. *)
Lemma outside_run pcb s tp i q p h l d fl x r :
  segment q i p h l d fl → ready s tp → ti_seqno i = u32 x → tp_rcv_nxt tp = u32 r →
  0 < ti_tcplen i ≤ 65536 → -1073741824 ≤ x - r ≤ 1073741824 →
  r < x ∨ x + ti_tcplen i ≤ r ∨ tp_rcv_wnd tp = 0 ∧ x = r →
  refused pcb s tp i q
    (( (if TCP_SEQ_BETWEEN (tp_rcv_nxt tp) (ti_seqno i + 1) (ti_seqno i + ti_tcplen i - 1) then trim_front (tp_rcv_nxt tp)
        else when (TCP_SEQ_LT (ti_seqno i) (tp_rcv_nxt tp)) (upd_tcb pcb tcp_ack_now)) ;;
       seqno ← tin ti_seqno;
       if TCP_SEQ_BETWEEN seqno (tp_rcv_nxt tp) (tp_rcv_nxt tp + tp_rcv_wnd tp - 1) then
         if tp_rcv_nxt tp =? seqno then receive_next pcb else _ ← tcp_send_empty_ack pcb; mret tt
       else _ ← tcp_send_empty_ack pcb; mret tt ) (conf pcb s tp i q)).
Proof.
  intros Hseg Hr Hx Hn Ht Hnear Hout. pose proof (rd_wnd _ _ Hr) as Hw.
  destruct (se_own _ _ _ _ _ _ _ Hseg) as (f & out & bs & Ho & _). pose proof (se_heap _ _ _ _ _ _ _ Hseg) as Hh.
  rewrite Hx, Hn. rewrite <- (Z.add_sub_assoc (u32 x)).
  rewrite between_u32 by (unfold near; lia). rewrite lt_u32 by (unfold near; lia).
  replace ((x + 1 <=? r) && (r <=? x + (ti_tcplen i - 1))) with false
    by (symmetry; apply andb_false_iff; rewrite !Z.leb_gt; lia).
  assert (Hgo : ∀ tp1, tp1 = tp ∨ tp1 = tcp_ack_now tp → refused pcb s tp i q
    ((seqno ← tin ti_seqno;
      if TCP_SEQ_BETWEEN seqno (u32 r) (u32 r + tp_rcv_wnd tp - 1) then
        if u32 r =? seqno then receive_next pcb else _ ← tcp_send_empty_ack pcb; mret tt
      else _ ← tcp_send_empty_ack pcb; mret tt) (conf pcb s tp1 i q))).
  { intros tp1 Htp. conf_step. rewrite Hx, window_u32 by (unfold near; lia).
    destruct (_ && _) eqn:Ew.
    - reflect_bool. assert (Hne : u32 r <> u32 x) by (intros E; apply u32_eq in E; [lia | unfold near; lia]).
      rewrite (proj2 (Z.eqb_neq _ _) Hne). by apply (ack_refused _ _ _ _ _ _ _ _ f out bs).
    - by apply (ack_refused _ _ _ _ _ _ _ _ f out bs). }
  destruct (x <? r); cbn [when].
  - rewrite (prog_bind_step _ _ _ _ _ (conf_upd _ _ _ _ _ _)). apply Hgo. by right.
  - rewrite prog_ret_bind. apply Hgo. by left.
Qed.

Lemma receive_data_refuse pcb s tp i q p h l d fl x r :
  segment q i p h l d fl → ready s tp → ti_seqno i = u32 x → tp_rcv_nxt tp = u32 r →
  ti_tcplen i = Z.of_nat (length d) + (if flag fl TCP_FIN then 1 else 0) → -1073741824 ≤ x - r ≤ 1073741824 →
  taken tp x r (ti_tcplen i) = false → refused pcb s tp i q (receive_data pcb (conf pcb s tp i q)).
Proof.
  intros Hseg Hr Hx Hn Ht Hnear Htk. pose proof (segment_length _ _ _ _ _ _ _ Hseg) as H16.
  pose proof (rd_wnd _ _ Hr) as Hw. unfold receive_data. do 3 conf_step.
  destruct ((0 <? ti_tcplen i) && (state_num (tp_state tp) <? state_num CLOSE_WAIT)) eqn:Ec.
  - apply andb_true_iff in Ec as [Et Es]. apply Z.ltb_lt in Et.
    assert (Ht' : 0 < ti_tcplen i ≤ 65536) by (destruct (flag fl TCP_FIN); lia).
    unfold taken in Htk. rewrite Es, andb_true_r in Htk.
    destruct (Z_lt_dec x r) as [Hlt|Hge]; [destruct (Z_lt_dec r (x + ti_tcplen i)) as [Hov|]|].
    + replace (x <=? r) with true in Htk by (symmetry; apply Z.leb_le; lia).
      replace (r <? x + ti_tcplen i) with true in Htk by (symmetry; apply Z.ltb_lt; lia). cbn [andb] in Htk.
      apply Z.ltb_ge in Htk.
      destruct (align_run pcb s tp i q p h l d fl x r Hseg Hx Hn Ht ltac:(lia)) as (q1 & l1 & E1 & H1).
      rewrite (prog_bind_step _ _ _ _ _ E1). conf_step. rewrite Hn. cbn [ti_seqno trimmed set_ti_seqno].
      rewrite window_u32 by (unfold near; lia).
      replace (r <=? r + tp_rcv_wnd tp - 1) with false by (symmetry; apply Z.leb_gt; lia). rewrite andb_false_r.
      destruct (se_own _ _ _ _ _ _ _ H1) as (f & out & bs & Ho & _).
      apply (ack_refused _ _ _ _ _ _ _ _ f out bs Ho (se_heap _ _ _ _ _ _ _ H1) Hr); by auto.
    + apply (outside_run pcb s tp i q p h l d fl x r); try done. lia.
    + apply (outside_run pcb s tp i q p h l d fl x r); try done.
      destruct (Z.eq_dec x r) as [->|]; [|lia]. right; right. split; [|done].
      rewrite Z.leb_refl in Htk. replace (r <? r + ti_tcplen i) with true in Htk by (symmetry; apply Z.ltb_lt; lia).
      cbn [andb] in Htk. apply Z.ltb_ge in Htk. lia.
  - destruct (negb _); cbn [when].
    + rewrite conf_upd. exists (conf pcb s (tcp_ack_now tp) i q), (tcp_ack_now tp), i.
      split; [done|]. split; [done|]. split; [|done]. apply same_receiver_ack_now, same_receiver_refl.
    + exists (conf pcb s tp i q), tp, i. split; [done|]. split; [done|]. split; [apply same_receiver_refl | done].
Qed.

(** ** Every segment *)

(** The connection [pcb] is the control block [tp]. *)
Definition connection s (pcb : Z) (tp : tcp_pcb) : Prop := tv_cbs (vars s) !! pcb = Some (CbPcb tp).
Abbreviation input_of s := (tv_in (vars s)).

(** The segment in the input variables, at position [x] of a stream that
    begins with the number [isn], and the flags of its header. *)
Record arrived s (isn : Z) (p h : Z) (d : bytes) (fl x : Z) : Prop := {
  ar_segment : ∃ l, segment (as_packets s) (input_of s) p h l d fl;
  ar_syn : flag fl TCP_SYN = false;
  ar_seqno : ti_seqno (input_of s) = u32 (isn + x);
  ar_tcplen : ti_tcplen (input_of s) = Z.of_nat (length d) + (if flag fl TCP_FIN then 1 else 0);
  ar_length : Z.of_nat (length d) < 65535
}.

(** What the application gets: the packet in [recv_data]. *)
Definition delivers s (d : bytes) : Prop :=
  ti_recv_data (input_of s) = 0 ∧ d = [] ∨
  ti_recv_data (input_of s) ≠ 0 ∧ ∃ l, chain_at (as_packets s) (ti_recv_data (input_of s)) l d.

(** The bytes, and the FIN, that are taken of the segment. *)
Definition taken_data (tp : tcp_pcb) (x k : Z) (d : bytes) : bytes :=
  take (Z.to_nat (fits (tp_rcv_wnd tp) (fresh x k d))) (fresh x k d).
Definition taken_fin (tp : tcp_pcb) (x k fl : Z) (d : bytes) : Z :=
  fin_fits (tp_rcv_wnd tp) fl (fresh x k d).

Lemma taken_data_length tp x k d :
  0 ≤ tp_rcv_wnd tp → Z.of_nat (length (taken_data tp x k d)) = fits (tp_rcv_wnd tp) (fresh x k d).
Proof. intros H. unfold taken_data, fits. rewrite length_take. lia. Qed.

Lemma received_nxt n tp : tp_rcv_nxt (received n tp) = u32 (tp_rcv_nxt tp + n).
Proof. unfold received, tcp_ack. by destruct (flag _ _). Qed.
Lemma received_wnd n tp : tp_rcv_wnd (received n tp) = tp_rcv_wnd tp - n.
Proof. unfold received, tcp_ack. by destruct (flag _ _). Qed.
Lemma handed_data p n f i : ti_recv_data (handed_on p n f i) = if 0 <? n then p else ti_recv_data i.
Proof. unfold handed_on. by destruct (0 <? n), (f =? 1). Qed.
Lemma handed_flags p n f i :
  ti_recv_flags (handed_on p n f i) = if f =? 1 then Z.lor (ti_recv_flags i) TF_GOT_FIN else ti_recv_flags i.
Proof. unfold handed_on. by destruct (0 <? n), (f =? 1). Qed.

Lemma vars_after pcb s tp i q s' :
  vars s' = vars (conf pcb s tp i q) → connection s' pcb tp ∧ input_of s' = i.
Proof. intros H. unfold connection. rewrite H. split; [apply conf_lookup|]. by rewrite vars_conf. Qed.

Lemma receive_outcome s pcb tp isn k p h d fl x :
  connection s pcb tp → ready s tp → tp_rcv_nxt tp = u32 (isn + k) → arrived s isn p h d fl x →
  ti_recv_data (input_of s) = 0 → -1073741824 ≤ x - k ≤ 1073741824 →
  let n := taken_data tp x k d in
  let f := taken_fin tp x k fl d in
  ∃ s' tp', receive_data pcb s = Some (tt, s') ∧ connection s' pcb tp' ∧
    if taken tp x k (ti_tcplen (input_of s)) then
      tp_rcv_nxt tp' = u32 (isn + (k + Z.of_nat (length n) + f)) ∧
      tp_rcv_wnd tp' = tp_rcv_wnd tp - Z.of_nat (length n) - f ∧ delivers s' n ∧
      ti_recv_flags (input_of s')
      = (if f =? 1 then Z.lor (ti_recv_flags (input_of s)) TF_GOT_FIN else ti_recv_flags (input_of s))
    else
      tp_rcv_nxt tp' = tp_rcv_nxt tp ∧ tp_rcv_wnd tp' = tp_rcv_wnd tp ∧ delivers s' [] ∧
      ti_recv_flags (input_of s') = ti_recv_flags (input_of s).
Proof.
  intros Hc Hr Hk [[l Hseg] Hsyn Hx Ht Hd] Hrd Hnear n f. pose proof (rd_wnd _ _ Hr) as Hw.
  pose proof (f_equal (receive_data pcb) (conf_same pcb s tp Hc)) as Hs.
  set (i := input_of s) in *. set (q := as_packets s) in *.
  assert (Htk : taken tp x k (ti_tcplen i) = taken tp (isn + x) (isn + k) (ti_tcplen i)).
  { unfold taken. replace (isn + x <=? isn + k) with (x <=? k) by (repeat case_cmp; done || lia).
    replace (isn + k <? isn + x + ti_tcplen i) with (k <? x + ti_tcplen i) by (repeat case_cmp; done || lia). done. }
  destruct (taken tp x k (ti_tcplen i)) eqn:Etk.
  - symmetry in Htk. unfold taken in Htk. reflect_bool.
    destruct (receive_data_accept pcb s tp i q p h l d fl (isn + x) (isn + k) Hseg Hsyn Hx Hk Ht ltac:(lia) ltac:(lia) Hd ltac:(lia))
      as (q' & fl' & E & Hacc).
    replace (isn + k - (isn + x)) with (k - x) in * by lia.
    assert (Ef : fresh (isn + x) (isn + k) d = fresh x k d) by (unfold fresh; do 2 f_equal; lia). rewrite Ef in *.
    set (N := fits (tp_rcv_wnd tp) (fresh x k d)) in *. set (F := fin_fits (tp_rcv_wnd tp) fl (fresh x k d)) in *.
    set (i1 := trimmed _ _ i) in *. set (i' := handed_on p N F i1) in *.
    eexists _, _. split; [by rewrite Hs|]. split; [apply conf_lookup|].
    assert (HN : Z.of_nat (length n) = N) by (apply taken_data_length; lia). rewrite HN.
    split; [|split; [|split]].
    + rewrite received_nxt, Hk, u32_add_l. f_equal. unfold f, taken_fin. fold F. lia.
    + rewrite received_wnd. unfold f, taken_fin. fold F. lia.
    + destruct Hacc as [_ (l' & Hc' & Hne') _ _]. unfold delivers. rewrite vars_conf. cbn [tv_in set_tv_in].
      unfold i'. rewrite handed_data. destruct (Z.ltb_spec 0 N) as [HN0|HN0].
      * right. split; [|by exists l']. destruct l' as [|[a b] l']; [done|].
        by destruct (chain_at_head _ _ _ _ _ _ Hc') as (-> & ? & _).
      * left. split; [done|]. apply nil_length_inv. lia.
    + rewrite vars_conf. cbn [tv_in set_tv_in]. unfold i'. by rewrite handed_flags.
  - symmetry in Htk.
    destruct (receive_data_refuse pcb s tp i q p h l d fl (isn + x) (isn + k) Hseg Hr Hx Hk Ht ltac:(lia) Htk)
      as (s' & tp' & i' & E & Hv & (fl' & edge & ->) & H1 & H2).
    destruct (vars_after _ _ _ _ _ _ Hv) as [Hc' Hi']. eexists s', _. split; [by rewrite Hs|]. split; [exact Hc'|].
    rewrite Hi'. split; [done|]. split; [done|]. split; [|done]. left. by rewrite Hi', H1.
Qed.

(** C10: [tcp_receive] handles the data of every segment without SYN, at any distance of less than
    2^30 from [rcv_nxt]: if the segment covers [rcv_nxt], the window is open and the peer has not
    finished, it hands on exactly the bytes from [rcv_nxt] on that fit the window, however the packet
    is cut into pbufs, and the FIN if there is room behind them, and moves [rcv_nxt] and the window by
    what it took; of any other segment it hands on nothing and leaves both alone.  It returns in every
    case, also when it has to answer and there is no memory or no route for the answer. *)
Theorem tcp_receive_segment s pcb tp isn k p h d fl x :
  connection s pcb tp → ready s tp → tp_rcv_nxt tp = u32 (isn + k) → arrived s isn p h d fl x →
  ti_recv_data (input_of s) = 0 → -1073741824 ≤ x - k ≤ 1073741824 →
  let rest := drop (Z.to_nat (k - x)) d in
  let n := Z.min (Z.of_nat (length rest)) (tp_rcv_wnd tp) in
  let f := if flag fl TCP_FIN && (Z.of_nat (length rest) <? tp_rcv_wnd tp) then 1 else 0 in
  ∃ s' tp', receive_data pcb s = Some (tt, s') ∧ connection s' pcb tp' ∧
    if (x <=? k) && (k <? x + ti_tcplen (input_of s)) && (0 <? tp_rcv_wnd tp)
       && (state_num (tp_state tp) <? state_num CLOSE_WAIT)
    then
      tp_rcv_nxt tp' = u32 (isn + (k + n + f)) ∧ tp_rcv_wnd tp' = tp_rcv_wnd tp - n - f ∧
      delivers s' (take (Z.to_nat n) rest) ∧
      ti_recv_flags (input_of s')
      = (if f =? 1 then Z.lor (ti_recv_flags (input_of s)) TF_GOT_FIN else ti_recv_flags (input_of s))
    else
      tp_rcv_nxt tp' = tp_rcv_nxt tp ∧ tp_rcv_wnd tp' = tp_rcv_wnd tp ∧ delivers s' [] ∧
      ti_recv_flags (input_of s') = ti_recv_flags (input_of s).
Proof.
  intros Hc Hr Hk Ha Hrd Hnear rest n f.
  destruct (receive_outcome s pcb tp isn k p h d fl x Hc Hr Hk Ha Hrd Hnear) as (s' & tp' & E & Hc' & H).
  rewrite taken_data_length in H by apply (rd_wnd _ _ Hr). by exists s', tp'.
Qed.

(** ** Sequences of segments *)

(** The segment was cut from the stream at [x]; a FIN is at its end. *)
Definition cut_from (stream : bytes) (x : Z) (d : bytes) (fl : Z) : Prop :=
  0 ≤ x ∧ d = take (length d) (drop (Z.to_nat x) stream) ∧
  (flag fl TCP_FIN = true → x + Z.of_nat (length d) = Z.of_nat (length stream)).

(** What happens to a connection whose peer sends [stream]: a segment of the
    stream arrives, not further than 2^30 numbers from what was received, in any
    order and any number of times; or something else happens that leaves
    [rcv_nxt] alone.  The second component is what the application got. *)
Inductive stream_step (pcb isn : Z) (stream : bytes) : istate W * bytes → istate W * bytes → Prop :=
| step_segment s s' got new tp p h d fl x :
    connection s pcb tp → ready s tp → arrived s isn p h d fl x → ti_recv_data (input_of s) = 0 →
    cut_from stream x d fl → -1073741824 < x - Z.of_nat (length got) < 1073741824 →
    receive_data pcb s = Some (tt, s') → delivers s' new →
    stream_step pcb isn stream (s, got) (s', got ++ new)
| step_other s s' got tp tp' :
    connection s pcb tp → connection s' pcb tp' → tp_rcv_nxt tp' = tp_rcv_nxt tp →
    stream_step pcb isn stream (s, got) (s', got).

(** [rcv_nxt] stands for the number of bytes that were delivered, and the FIN. *)
Definition in_order (pcb isn : Z) (stream : bytes) (c : istate W * bytes) : Prop :=
  ∃ k tp, connection c.1 pcb tp ∧ tp_rcv_nxt tp = u32 (isn + k) ∧ c.2 = take (Z.to_nat k) stream ∧
    0 ≤ k ≤ Z.of_nat (length stream) + 1.

Lemma cut_from_length stream x d fl :
  cut_from stream x d fl → Z.of_nat (length d) ≤ Z.max 0 (Z.of_nat (length stream) - x).
Proof. intros (Hx & Hd & _). rewrite Hd, length_take, length_drop. lia. Qed.

(** The bytes that are taken come next in the stream. *)
Lemma taken_next stream tp x k d fl :
  cut_from stream x d fl → x ≤ k ≤ x + Z.of_nat (length d) → 0 ≤ tp_rcv_wnd tp →
  taken_data tp x k d = take (length (taken_data tp x k d)) (drop (Z.to_nat k) stream).
Proof.
  intros (Hx & Hd & _) Hk Hw.
  assert (Hf : fresh x k d = take (length (fresh x k d)) (drop (Z.to_nat k) stream)).
  { unfold fresh at 1. rewrite Hd at 1. rewrite skipn_firstn_comm, drop_drop. unfold fresh. rewrite length_drop.
    f_equal. f_equal. lia. }
  unfold taken_data. rewrite length_take. rewrite Hf at 2. rewrite take_take. done.
Qed.

Lemma delivers_det s d d' : delivers s d → delivers s d' → d = d'.
Proof.
  intros [[H1 ->]|[H1 (l & [Hp _ Hb])]] [[H2 ->]|[H2 (l' & [Hp' _ Hb'])]]; try done.
  pose proof (pchain_det _ _ _ _ Hp Hp') as Hl. rewrite Hl in Hb. congruence.
Qed.

Lemma stream_step_in_order pcb isn stream c c' :
  stream_step pcb isn stream c c' → in_order pcb isn stream c → in_order pcb isn stream c'.
Proof.
  intros [s s' got new tp p h d fl x Hc Hr Ha Hrd Hcut Hnear E Hnew | s s' got tp tp' Hc Hc' Hn] (k & tp0 & H1 & H2 & H3 & H4).
  2: { cbn in *. unfold connection in *. assert (tp0 = tp) as -> by congruence. exists k, tp'. by rewrite Hn. }
  cbn [fst snd] in *. assert (tp0 = tp) as -> by (unfold connection in *; congruence). clear H1.
  assert (Hg : Z.of_nat (length got) = Z.min k (Z.of_nat (length stream))) by (rewrite H3, length_take; lia).
  pose proof (rd_wnd _ _ Hr) as Hw.
  destruct (receive_outcome s pcb tp isn k p h d fl x Hc Hr H2 Ha Hrd ltac:(lia)) as (s1 & tp' & E1 & Hc' & Hout).
  rewrite E in E1. injection E1 as <-.
  destruct (taken tp x k (ti_tcplen (input_of s))) eqn:Etk.
  - destruct Hout as (Hn & _ & Hdel & _). rewrite (delivers_det _ _ _ Hnew Hdel).
    unfold taken in Etk. rewrite (ar_tcplen _ _ _ _ _ _ _ Ha) in Etk.
    assert (Hk : x ≤ k < x + (Z.of_nat (length d) + (if flag fl TCP_FIN then 1 else 0))) by (reflect_bool; lia).
    clear Etk. pose proof (cut_from_length _ _ _ _ Hcut) as Hld. pose proof Hcut as (Hx0 & _ & Hfin).
    assert (Hks : x ≤ k ≤ x + Z.of_nat (length d)) by (destruct (flag fl TCP_FIN); lia).
    pose proof (taken_next stream tp x k d fl Hcut Hks ltac:(lia)) as Hnext.
    pose proof (taken_data_length tp x k d ltac:(lia)) as HN.
    set (nw := taken_data tp x k d) in *. set (f := taken_fin tp x k fl d) in *.
    assert (Hfr : Z.of_nat (length (fresh x k d)) = Z.of_nat (length d) - (k - x))
      by (unfold fresh; rewrite length_drop; lia).
    assert (Hf : f = 0 ∧ k + Z.of_nat (length nw) ≤ Z.of_nat (length stream) ∨
                 f = 1 ∧ k + Z.of_nat (length nw) = Z.of_nat (length stream)).
    { unfold f, taken_fin, fin_fits. unfold fits in HN. destruct (flag fl TCP_FIN) eqn:Efin; cbn [andb].
      - specialize (Hfin eq_refl). case_cmp; [right | left]; lia.
      - left. lia. }
    exists (k + Z.of_nat (length nw) + f), tp'. split; [done|]. split; [done|]. cbn [fst snd]. split; [|lia].
    transitivity (take (Z.to_nat k) stream ++ take (length nw) (drop (Z.to_nat k) stream)); [by rewrite <- Hnext, H3|].
    clearbody nw f. destruct Hf as [[-> Hf]|[-> Hf]].
    + replace (Z.to_nat (k + Z.of_nat (length nw) + 0)) with (Z.to_nat k + length nw)%nat by lia.
      apply take_take_drop.
    + rewrite (take_ge stream (Z.to_nat (_ + 1))) by lia.
      rewrite (take_ge (drop _ _)) by (rewrite length_drop; lia). apply take_drop.
  - destruct Hout as (Hn & _ & Hdel & _). rewrite (delivers_det _ _ _ Hnew Hdel), app_nil_r.
    exists k, tp'. cbn [fst snd]. by rewrite Hn.
Qed.

(** C2: Whatever segments of its peer's stream arrive at a connection, in any order, lost, repeated,
    overlapping or longer than the window, and whatever else happens between them, the bytes that
    [tcp_receive] hands to the application are a prefix of the stream in its order, and [rcv_nxt]
    acknowledges exactly these bytes, and the FIN only behind the last of them. *)
Theorem tcp_receive_prefix pcb isn stream s0 s got tp0 :
  connection s0 pcb tp0 → tp_rcv_nxt tp0 = u32 isn →
  rtc (stream_step pcb isn stream) (s0, []) (s, got) →
  ∃ k tp, connection s pcb tp ∧ tp_rcv_nxt tp = u32 (isn + k) ∧ got = take (Z.to_nat k) stream ∧
    0 ≤ k ≤ Z.of_nat (length stream) + 1.
Proof.
  intros Hc Hn Hrun.
  assert (H0 : in_order pcb isn stream (s0, [])) by (exists 0, tp0; rewrite Z.add_0_r; split_and!; done || lia).
  apply (rtc_ind_r (in_order pcb isn stream) (s0, []) H0) in Hrun; [exact Hrun|].
  intros c c' _ Hstep Hin. by apply (stream_step_in_order _ _ _ c c').
Qed.
End stream.
