(* ===== verification/TcpExamples.v ===== *)
(** * A connection

    A host 192.168.0.2 with one connection, port 80, to 192.168.0.1, port
    5000, and the first segment of 3000 bytes of its peer, on which the
    theorems of TcpAck, TcpWindow, TcpStates, TcpTyped, TcpOptions and TcpStream
    apply. *)

From stdpp Require Import base numbers list gmap option relations.
From S2P Require Import Prelude Mem Memp Pbuf PbufLemmas PbufAlloc PbufOps PbufProps Chksum Ip4Addr Etharp LinkedList Netifs NetifProps Ip4 Ip4Props Ip4Output Ip4Examples TcpBase TcpOut Tcp TcpIn TcpLemmas TcpStates TcpTyped TcpTrim TcpReceive TcpOptions TcpWindow TcpAck TcpStream.

(** The variables of TCP are all that there is. *)
#[export, refine] Instance only_tcp : HasTcp tcp_vars :=
  { tcp_of := λ v, v; with_tcp v _ := v; tcp_of_with := _; with_tcp_of := _; with_tcp_with := _ }.
Proof. all: done. Defined.

(** The interface takes every packet, the application agrees to everything. *)
#[export] Instance quiet : TcpEnv tcp_vars := {
  netif_output n p d := mret ERR_OK;
  tcp_timer_needed := mret tt;
  call_accept f a pcb err := mret ERR_OK;
  call_recv f a pcb p err := mret ERR_OK;
  call_sent f a pcb n := mret ERR_OK;
  call_connected f a pcb e := mret ERR_OK;
  call_poll f a pcb := mret ERR_OK;
  call_errf f a e := mret tt;
  fn_tcp_accept_null := 1;
  fn_tcp_recv_null := 2
}.

#[export] Instance quiet_output : @OutputLaws tcp_vars _ _.
Proof.
  intros n x dest s f out bs b Ho Hb Hn Hr. exists ERR_OK, s, f, out, bs, b. split_and!; try done; lia.
Qed.
#[export] Instance quiet_keeps : @EnvKeeps tcp_vars _ _.
Proof. split; by intros * [= _ <-]. Qed.

Definition nf : netif :=
  Netif (dotted 192 168 0 2) (dotted 255 255 255 0) (dotted 192 168 0 1) [2; 0; 0; 0; 0; 2] 0x0f 0 [101; 110] 0
    0 3 0 0 [] 1500.
(** Established; the next byte of the peer is number 1000. *)
Definition peer_conn : tcp_pcb :=
  set_rcv_nxt 1000 (set_rcv_ann_right_edge 3920 (set_remote_port 5000 (set_snd_nxt 6511 (set_lastack 6511
    (set_com (TcpCommon (dotted 192 168 0 2) (dotted 192 168 0 1) 0 0 TCP_TTL 0 0 ESTABLISHED 64 80)
      (new_tcb 64 0 0)))))).
(** The header of the segment: the flags at 13 are ACK. *)
Definition hdr : Z := 536870912 + 2563.
Definition input1 : tcp_in :=
  TcpIn (TcpSeg 0 536913080 3000 0 hdr) hdr 0 0 0 0 1000 6511 0 3000 TCP_ACK 0 0 0.
Definition variables : tcp_vars := TcpVars 0xc000 6510 0 0 0 0 0 700 0 0 {[700 := CbPcb peer_conn]} ∅ input1.
Definition node (q : pstate) : istate tcp_vars :=
  AState [] 0 {[5 := nf]} q (IpState 5 5 1 0 41 0 (IpGlobals 5 5 0 20 (dotted 192 168 0 1) (dotted 192 168 0 2)) variables).

Lemma node_netif_list q : netifs_ok [5] (node q).
Proof.
  split.
  - cbn [llist]. split; [done|]. split; [done|]. exists nf. by split.
  - apply NoDup_singleton.
  - right. by apply list_elem_of_singleton.
Qed.
Lemma conn_ranges : pcb_ranges peer_conn.
Proof. by split. Qed.
Lemma node_ready q : ready (node q) peer_conn.
Proof. split; [apply conn_ranges | done | exists [5]; apply node_netif_list | done]. Qed.
Lemma node_connection q : connection (node q) 700 peer_conn.
Proof. done. Qed.

(** The bytes of the example memory. *)
Lemma fill_lookup a n m i :
  fill_bytes a n m !! i = if (a <=? i) && (i <? a + Z.of_nat n) then Some ((i - a) mod 256) else m !! i.
Proof.
  unfold fill_bytes.
  assert (H : ∀ ks, foldr (λ i m, <[a + Z.of_nat i := Z.of_nat i mod 256]> m) m ks !! i
    = if bool_decide (Z.to_nat (i - a) ∈ ks) && (a <=? i) then Some ((i - a) mod 256) else m !! i).
  { induction ks as [|k ks IH]; [done|]. cbn [foldr]. destruct (decide (a + Z.of_nat k = i)) as [Hk|Hk].
    - rewrite Hk, lookup_insert_eq. rewrite bool_decide_eq_true_2 by (apply elem_of_cons; left; lia). replace (a <=? i) with true by (symmetry; apply Z.leb_le; lia).
      cbn. do 2 f_equal. lia.
    - rewrite lookup_insert_ne, IH by done. destruct (Z.leb_spec a i); [|by rewrite !andb_false_r]. rewrite !andb_true_r.
      rewrite (bool_decide_ext (Z.to_nat (i - a) ∈ k :: ks) (Z.to_nat (i - a) ∈ ks)); [done|].
      rewrite elem_of_cons. split; [intros [?|?]; [lia|done] | by right]. }
  rewrite H. destruct (Z.leb_spec a i); [|by rewrite andb_false_r]. rewrite andb_true_r. cbn [andb].
  destruct (Z.ltb_spec i (a + Z.of_nat n)).
  - rewrite bool_decide_eq_true_2 by (apply elem_of_seq; lia). done.
  - rewrite bool_decide_eq_false_2 by (rewrite elem_of_seq; lia). done.
Qed.

Lemma ex_hdr_flags : hdr_flags ex_bytes hdr TCP_ACK.
Proof.
  exists 15, 16. split; [|done]. unfold hdr, ex_bytes. cbn [load_bytes].
  rewrite !fill_lookup, !Z2Nat.id by lia. reflexivity.
Qed.

Lemma node_segment :
  ∃ q f out bs d, owned q f out bs ∧ heap_mapped q ∧ segment q input1 536913080 hdr ex_l d TCP_ACK ∧ length d = 3000%nat.
Proof.
  destruct ex_chain as (q & f & out & bs & d & Ho & Hc & Hb & Hr).
  assert (Hd : length d = 3000%nat) by (pose proof (chain_at_length _ _ _ _ Hc) as E; cbn in E; lia).
  assert (Hm : heap_mapped q) by (unfold heap_mapped; rewrite Hr, Hb; apply ex_heap_mapped).
  exists q, f, out, bs, d. split; [done|]. split; [done|]. split; [|done]. split.
  - exists 0. rewrite Hd. done.
  - done.
  - done.
  - apply (mapped_sub _ _ _ _ _ Hm); rewrite Hr; unfold hdr, TCP_HLEN; mem_consts; lia.
  - repeat (constructor; [unfold disjoint_range, hdr, TCP_HLEN; cbn; lia|]). constructor.
  - rewrite Hb. apply ex_hdr_flags.
  - repeat (constructor; [unfold movable, SIZEOF_STRUCT_PBUF; cbn; lia|]). constructor.
  - repeat (constructor; [unfold ref_ok; cbn; lia|]). constructor.
  - exists f, out, bs. split; [done|]. repeat (constructor; [done|]). constructor.
  - done.
Qed.

Lemma segment_arrived q d :
  segment q input1 536913080 hdr ex_l d TCP_ACK → length d = 3000%nat → arrived (node q) 1000 536913080 hdr d TCP_ACK 0.
Proof.
  intros Hs Hd. split; [by exists ex_l | done | done | by rewrite Hd | by rewrite Hd].
Qed.

(** The first 2920 bytes are taken. *)
Lemma tcp_receive_segment_witness :
  ∃ q d s' tp', length d = 3000%nat ∧ receive_data 700 (node q) = Some (tt, s') ∧ connection s' 700 tp' ∧
    tp_rcv_nxt tp' = 3920 ∧ tp_rcv_wnd tp' = 0 ∧ delivers s' (take 2920 d).
Proof.
  destruct node_segment as (q & f & out & bs & d & Ho & Hm & Hs & Hd).
  destruct (tcp_receive_segment (node q) 700 peer_conn 1000 0 536913080 hdr d TCP_ACK 0 (node_connection q)
    (node_ready q) ltac:(done) (segment_arrived q d Hs Hd) ltac:(done) ltac:(lia)) as (s' & tp' & E & Hc & H).
  exists q, d, s', tp'. rewrite !drop_0, Hd in H. destruct H as (H1 & H2 & H3 & _).
  split; [done|]. split; [done|]. split; [done|]. split; [exact H1|]. split; [exact H2|]. exact H3.
Defined.

(** The segment arrives at the connection with the whole stream of its peer. *)
Lemma tcp_receive_prefix_witness :
  ∃ q stream s' got, rtc (stream_step 700 1000 stream) (node q, []) (s', got) ∧ (length got = 2920)%nat ∧
    ∃ k tp, connection s' 700 tp ∧ tp_rcv_nxt tp = u32 (1000 + k) ∧ got = take (Z.to_nat k) stream ∧
      0 ≤ k ≤ Z.of_nat (length stream) + 1.
Proof.
  destruct node_segment as (q & f & out & bs & d & Ho & Hm & Hs & Hd).
  destruct (receive_outcome (node q) 700 peer_conn 1000 0 536913080 hdr d TCP_ACK 0 (node_connection q)
    (node_ready q) ltac:(done) (segment_arrived q d Hs Hd) ltac:(done) ltac:(lia)) as (s' & tp' & E & Hc & H).
  assert (Hlen : Z.of_nat (length (taken_data peer_conn 0 0 d)) = 2920).
  { rewrite taken_data_length by done. unfold fits, fresh. rewrite drop_0, Hd. done. }
  change (taken peer_conn 0 0 (ti_tcplen (tv_in (vars (node q))))) with true in H. destruct H as (_ & _ & Hdel & _).
  assert (Hrun : rtc (stream_step 700 1000 d) (node q, []) (s', [] ++ taken_data peer_conn 0 0 d)).
  { apply rtc_once. apply (step_segment _ _ _ _ _ [] _ peer_conn 536913080 hdr d TCP_ACK 0); try done.
    - apply node_ready.
    - by apply segment_arrived.
    - split; [done|]. split; [by rewrite drop_0, take_ge|done]. }
  exists q, d, s', ([] ++ taken_data peer_conn 0 0 d). split; [exact Hrun|]. split; [cbn [app]; lia|].
  exact (tcp_receive_prefix 700 1000 d (node q) s' _ peer_conn (node_connection q) ltac:(done) Hrun).
Defined.

Lemma node_route q : ip4_route (tp_remote_ip peer_conn) (node q) = Some (5, node q).
Proof. reflexivity. Qed.

Lemma node_conf q : node q = conf 700 (node q) peer_conn input1 q.
Proof. exact (conf_same 700 (node q) peer_conn (node_connection q)). Qed.

Lemma tcp_ack_header_witness :
  ∃ q, (∃ r, tcp_send_empty_ack 700 (node q) = Some (ERR_BUF, r)) ∨
    ∃ x (s1 : istate tcp_vars) b d, chain_at (as_packets s1) x [(x, b)] d ∧ length d = 40%nat ∧ lwip_htonl (field 8 4 (drop 20 d)) = 1000.
Proof.
  destruct node_segment as (q & f & out & bs & d & Ho & Hm & _). exists q.
  destruct (tcp_ack_header 700 (node q) peer_conn input1 q f out bs [5] 5 Ho Hm conn_ranges (node_netif_list q) ltac:(done)
    (node_route q) ltac:(done)) as [(q' & E)|(x & s1 & b & d' & _ & Hc & Hl & _ & _ & _ & _ & _ & _ & _ & H & _)].
  - left. rewrite <- node_conf in E. eexists. exact E.
  - right. exists x, s1, b, d'. split; [exact Hc|]. split; [exact Hl | exact H].
Defined.

(** All of the window is announced; the application reads 500 bytes of 1000. *)
Lemma tcp_window_edge_witness :
  ∃ q tp v tp', window 2000 3920 tp ∧
    tcp_recved 700 500 (conf 700 (node q) tp input1 q)
    = when (TCP_WND_UPDATE_THRESHOLD <=? s32 v) (upd_tcb 700 tcp_ack_now ;; _ ← tcp_output 700; mret tt)
        (conf 700 (node q) tp' input1 q) ∧
    3920 ≤ 2000 + tp_rcv_ann_wnd tp' ≤ 2000 + tp_rcv_wnd tp'.
Proof.
  destruct node_segment as (q & _). exists q.
  pose (tp := set_rcv_wnd 1920 (set_rcv_nxt 2000 peer_conn)). exists tp.
  assert (Hw : window 2000 3920 tp) by (split; done).
  destruct (proj2 (tcp_window_edge 700 (node q) tp input1 q 2000 3920 Hw) 500 ltac:(lia) ltac:(done))
    as (v & tp' & E & _ & _ & _ & H). exists v, tp'. split; [exact Hw|]. split; [exact E|].
  change (Z.max 3920 2000) with 3920 in H. exact H.
Defined.

(** A segment without data, in FIN-WAIT-1, that acknowledges our FIN. *)
Definition closing_conn : tcp_pcb := set_state FIN_WAIT_1 peer_conn.
Definition closing : istate tcp_vars :=
  with_vars (TcpVars 0xc000 6510 0 0 0 0 0 700 0 0 {[700 := CbPcb closing_conn]} ∅
    (TcpIn (TcpSeg 0 536913080 0 0 536910500) 536910500 0 0 0 0 1000 6511 0 0 TCP_ACK 0 0 0))
    (node (PState ∅ (fill_bytes 536910500 32 ∅) (mem_init 536870912) ex_pools)).


(** A header with a size of 536, padding and an option that has no length. *)
Definition opt_bytes : bytes := [1; 2; 4; 2; 24; 1; 3; 0].
Definition opt_in : tcp_in := TcpIn (TcpSeg 0 0 0 0 hdr) hdr 8 8 0 0 1000 6511 0 0 TCP_SYN 0 0 0.
Definition opt_mem : bmem :=
  list_to_map (imap (λ k b, (hdr + TCP_HLEN + Z.of_nat k, b)) (opt_bytes ++ [0])).
Definition opt_node : istate tcp_vars :=
  with_vars (TcpVars 0xc000 6510 0 0 0 0 0 700 0 0 {[700 := CbPcb peer_conn]} ∅ opt_in)
    (node (PState ∅ opt_mem (mem_init 536870912) ex_pools)).

Lemma opt_node_options : options_at (ps_bytes (as_packets opt_node)) (tv_in (vars opt_node)) opt_bytes.
Proof.
  split; [done | done | done | |].
  - intros k b Hk. assert (Hlt := lookup_lt_Some _ _ _ Hk). cbn in Hlt.
    do 8 (destruct k as [|k]; [injection Hk as <-; split; [vm_compute; reflexivity | done]|]). lia.
  - exists 0. split; [vm_compute; reflexivity | done].
Qed.

Lemma tcp_parseopt_mss_witness :
  ∃ s' tp', tcp_parseopt 700 opt_node = Some (tt, s') ∧ tv_cbs (vars s') !! 700 = Some (CbPcb tp') ∧ tp_mss tp' = 536.
Proof.
  destruct (tcp_parseopt_mss 700 opt_node peer_conn opt_bytes ltac:(done) opt_node_options) as ((s' & E & _ & Hc) & _ & _).
  eexists s', _. split; [exact E|]. rewrite Hc, lookup_insert_eq. split; [reflexivity|]. vm_compute. reflexivity.
Defined.

