(* ===== verification/TcpQueueExamples.v ===== *)
(** * A connection with a segment that is not acknowledged

    The host of [TcpExamples] has sent 3000 bytes; their acknowledgement
    arrives, or they are sent again. *)

From stdpp Require Import base numbers list gmap option sorting.
From S2P Require Import Prelude Mem MemRefine Memp Pbuf PbufLemmas PbufAlloc PbufOps PbufProps Chksum Ip4Addr Etharp LinkedList Netifs NetifProps Ip4 TcpBase TcpOut Tcp TcpIn TcpLemmas TcpTrim TcpReceive TcpAck TcpQueue TcpRexmit TcpStream TcpExamples.

(** Pools with room for two segments and three pbufs of each kind. *)
Definition seg_descs : list memp_desc :=
  replicate 3 (MempDesc 0 0 0) ++ [MempDesc 20 2 536906000] ++ replicate 6 (MempDesc 0 0 0)
    ++ [MempDesc 16 3 536904000; MempDesc 1540 3 536910000].
Definition seg_pools : pools := Pools seg_descs (replicate 12 0) ∅.
Definition seg_bytes : bmem := fill_bytes 536871000 64 ∅.

Lemma seg_layout : layout_ok 536870912 seg_descs.
Proof.
  destruct ex_layout as (H1 & H2 & H3). split; [done|]. split.
  - intros i d a [-> | ->]; [apply (H2 MEMP_PBUF); auto | apply (H2 MEMP_PBUF_POOL); auto].
  - exact H3.
Qed.

Lemma seg_owned0 :
  ∃ r fl, memp_init seg_pools = Some (tt, r) ∧
    owned (PState ∅ seg_bytes (mem_init 536870912) r) fl (λ _, []) [(MEM_SIZE_ALIGNED, false)].
Proof.
  destruct (memp_init_spec seg_pools) as (r & E & Hd & Hi).
  { split; refine (bool_decide_unpack _ _); vm_compute; exact I. }
  { done. }
  eexists r, (λ i, rev (default [] (elems <$> p_descs seg_pools !! i))). split; [exact E|].
  split; cbn [ps_pools ps_pbufs ps_heap].
  - exact Hi.
  - unfold MEMP_MAX. rewrite Hd. cbn. unfold MEMP_PBUF_POOL. lia.
  - by apply mem_init_repr.
  - intros a. split; [by intros ?%elem_of_nil | by intros (b & ? & _)].
  - intros a. split; [by intros ?%elem_of_nil | by intros (b & ? & _)].
  - by intros a b ?.
  - rewrite Hd. apply seg_layout.
Qed.

(** A segment from the pool. *)
Lemma seg_malloc_owned q f out bs a r :
  owned q f out bs → memp_malloc MEMP_TCP_SEG (ps_pools q) = Some (a, r) → a ≠ 0 →
  ∃ f' out', owned (PState (ps_pbufs q) (ps_bytes q) (ps_heap q) r) f' out' bs ∧ a ∈ out' MEMP_TCP_SEG.
Proof.
  intros [Hp Hmax Hh H1 H2 H3 H4] E Ha.
  assert (Hi : (MEMP_TCP_SEG < MEMP_MAX (ps_pools q))%nat) by (unfold MEMP_TCP_SEG, MEMP_PBUF_POOL in *; lia).
  pose proof (memp_malloc_spec _ _ _ _ Hp Hi) as H. destruct (f MEMP_TCP_SEG) as [|x l].
  - rewrite E in H. injection H as -> _. done.
  - destruct H as (r' & E' & _ & Hd & Hinv). rewrite E in E'. injection E' as <- <-.
    eexists _, _. split; [|rewrite fupd_eq; by left].
    split; cbn [ps_pools ps_pbufs ps_heap]; [exact Hinv | unfold MEMP_MAX in *; by rewrite Hd | done.. | by rewrite Hd].
Qed.

Lemma seg_eval :
  match memp_init seg_pools with
  | Some (_, r) =>
      match pbuf_alloc PBUF_RAW 3000 PBUF_POOL (PState ∅ seg_bytes (mem_init 536870912) r) with
      | Some (p, s1) =>
          match memp_malloc MEMP_TCP_SEG (ps_pools s1) with
          | Some (a, _) => Some (p, a, ps_pbufs s1)
          | None => None
          end
      | None => None
      end
  | None => None
  end = Some (536913080, 536906020, list_to_map ex_l).
Proof. vm_compute. reflexivity. Qed.

(** The packets, with the chain of the segment at 536906020. *)
Lemma seg_packets :
  ∃ q f out bs, owned q f out bs ∧ ps_bytes q = seg_bytes ∧ ps_pbufs q = list_to_map ex_l ∧
    536906020 ∈ out MEMP_TCP_SEG.
Proof.
  destruct seg_owned0 as (r & fl & E & Ho). pose proof seg_eval as Ev. rewrite E in Ev.
  destruct (pbuf_alloc_pool_spec _ fl _ _ PBUF_RAW 3000 Ho ltac:(lia)) as (p & s1 & fl' & out' & bs' & Ea & Ho1 & Hb & _).
  rewrite Ea in Ev. destruct (memp_malloc MEMP_TCP_SEG (ps_pools s1)) as [[a r1]|] eqn:Em; [|done].
  injection Ev as -> -> Epb. destruct (seg_malloc_owned _ _ _ _ _ _ Ho1 Em) as (f2 & out2 & Ho2 & Hin); [done|].
  eexists _, f2, out2, bs'. split; [exact Ho2|]. cbn. by rewrite Hb, Epb.
Qed.

(** The header of the segment, the connection, and the acknowledgement. *)
Definition seg_hdr : Z := 536871003.
Definition sent_seg : tcp_seg := TcpSeg 0 536913080 3000 0 seg_hdr.
Definition sent_out : out_seg := OutSeg 536906020 sent_seg 117967114 TCP_ACK ex_l.
Definition sent_conn : tcp_pcb :=
  set_unacked 536906020 (set_snd_queuelen 2 (set_snd_nxt 117970114 (set_lastack 117967114 peer_conn))).
Definition sent_input : tcp_in := TcpIn (TcpSeg 0 0 0 0 seg_hdr) seg_hdr 0 0 0 0 1000 117970114 0 0 TCP_ACK 0 0 0.
Definition sent_node (q : pstate) : istate tcp_vars :=
  with_vars (TcpVars 0xc000 6510 0 0 0 0 0 700 0 0 {[700 := CbPcb sent_conn]} {[536906020 := sent_seg]} sent_input) (node q).

Lemma sent_queues q f out bs :
  owned q f out bs → ps_bytes q = seg_bytes → ps_pbufs q = list_to_map ex_l → 536906020 ∈ out MEMP_TCP_SEG →
  send_queues (sent_node q) sent_conn [sent_out] [].
Proof.
  intros Ho Hb Hp Hin. split; try done.
  - exists f, out, bs. split; [done|]. cbn [app]. split.
    + constructor; [|constructor]. split; cbn -[list_to_map]; rewrite ?Hb, ?Hp.
      * vm_compute. reflexivity.
      * exists 15, 16. split; [vm_compute; reflexivity | done].
      * repeat split; done.
      * done.
      * repeat (constructor; [unfold ref_ok; cbn; lia|]). constructor.
      * done.
    + apply NoDup_singleton.
    + refine (bool_decide_unpack _ _). vm_compute. exact I.
    + by constructor.
  - split; [done|]. split; [done|]. by exists sent_seg.
  - repeat constructor.
  - constructor.
Qed.

Lemma tcp_ack_releases_witness :
  ∃ q s' tp', receive_ack 700 (sent_node q) = Some (tt, s') ∧ tv_cbs (vars s') !! 700 = Some (CbPcb tp') ∧
    tv_segs (vars s') !! 536906020 = None ∧ tp_lastack tp' = 117970114 ∧ tp_snd_queuelen tp' = 0 ∧ tp_rtime tp' = -1.
Proof.
  destruct seg_packets as (q & f & out & bs & Ho & Hb & Hp & Hin).
  destruct (tcp_ack_releases 700 (sent_node q) sent_conn [sent_out] [] 117967114 117970114 117970114)
    as (s' & tp' & E & Hc & _ & _ & Hs & H1 & _ & H2 & _ & H3 & _); try done.
  - by apply (sent_queues q f out bs).
  - intros k Hk. cbn [as_packets sent_node with_vars node]. rewrite Hb. apply fill_bytes_mapped. left.
    change (536871003 ≤ k < 536871003 + 20) in Hk. lia.
  - repeat constructor.
  - exists q, s', tp'. split; [done|]. rewrite Hc, lookup_insert_eq. split; [done|]. rewrite Hs. done.
Defined.

Lemma tcp_rexmit_requeues_witness :
  ∃ q s' tp', tcp_rexmit 700 (sent_node q) = Some (tt, s') ∧ tv_cbs (vars s') !! 700 = Some (CbPcb tp') ∧
    send_queues s' tp' [] [sent_out] ∧ tp_nrtx tp' = 1.
Proof.
  destruct seg_packets as (q & f & out & bs & Ho & Hb & Hp & Hin).
  destruct (tcp_rexmit_requeues 700 (sent_node q) sent_conn [sent_out] []) as [H _]; [done | | |].
  - by apply (sent_queues q f out bs).
  - intros o x _ Hx. by apply elem_of_nil in Hx.
  - destruct (H sent_out [] eq_refl) as (s' & tp' & E & Hc & Hq & _ & Hn & _). exists q, s', tp'.
    split; [done|]. rewrite Hc, lookup_insert_eq. done.
Defined.
