(* ===== verification/TcpFindings.v ===== *)
(** * Runs of TCP that leave the intended path

    Concrete runs on a small host, each of a behaviour that the comments of
    the code or the rules of priv/tcp_priv.h exclude. *)

From stdpp Require Import base numbers list gmap option.
From S2P Require Import Prelude Mem Memp Pbuf PbufProps Chksum Ip4Addr Etharp Netifs Ip4 Ip4Examples TcpBase TcpOut Tcp TcpIn TcpLemmas TcpExamples.

(** Three control blocks, two listening ones, four segments, three pbufs for
    references and three for packets. *)
Definition descs : list memp_desc :=
  [MempDesc 0 0 0; MempDesc 160 3 536900000; MempDesc 32 2 536901000; MempDesc 16 4 536902000]
   ++ replicate 6 (MempDesc 0 0 0) ++ [MempDesc 16 3 536904000; MempDesc 1540 3 536910000].
Definition fresh_pools : pools :=
  match memp_init (Pools descs (replicate 12 0) ∅) with Some (_, q) => q | None => Pools [] [] ∅ end.
Definition no_input : tcp_in := TcpIn (TcpSeg 0 0 0 0 0) 0 0 0 0 0 0 0 0 0 0 0 0 0.
Definition host : istate tcp_vars :=
  AState [] 0 {[5 := nf]}
    (PState ∅ (fill_bytes 536910000 4620 (fill_bytes 536870912 2000 ∅)) (mem_init 536870912) fresh_pools)
    (IpState 5 5 1 0 41 0 (IpGlobals 5 5 0 20 (dotted 192 168 0 1) (dotted 192 168 0 2))
      (TcpVars 0xc000 6510 0 0 0 0 0 0 0 0 ∅ ∅ no_input)).

Definition be16 (n : Z) : bytes := [n / 256; n mod 256].
Definition be32 (n : Z) : bytes := [n / 16777216; n / 65536 mod 256; n / 256 mod 256; n mod 256].
Definition bytes_of (src dst seq ack fl wnd : Z) (opts d : bytes) : bytes :=
  be16 src ++ be16 dst ++ be32 seq ++ be32 ack ++ [(5 + Z.of_nat (length opts) / 4) * 16; fl] ++ be16 wnd
  ++ [0; 0; 0; 0] ++ opts ++ d.
(** A segment arrives in a pbuf of the pool. *)
Definition arrive (E : TcpEnv tcp_vars) (x : bytes) : prog (istate tcp_vars) unit :=
  p ← packets (pbuf_alloc PBUF_IP (Z.of_nat (length x)) PBUF_POOL);
  b ← packets (deref p);
  poke (pb_payload b) x ;;
  tcp_input p 5.

(** A server on port 80; the peer connects from the port [src]. *)
Definition serve (accept : Z) : prog (istate tcp_vars) unit :=
  p ← tcp_new; _ ← tcp_bind p None 80; l ← tcp_listen_with_backlog p 5;
  when (negb (accept =? 0)) (tcp_accept l accept).
Definition syn (src : Z) : bytes := bytes_of src 80 1000 0 2 8192 [2; 4; 5; 180] [].
Definition ack (src ackno : Z) : bytes := bytes_of src 80 1001 ackno 16 8192 [] [].

Definition observe {A B} (f : istate tcp_vars → B) (r : option (A * istate tcp_vars)) : option B :=
  match r with Some (_, s) => Some (f s) | None => None end.

(** ** A second bind *)

(** [tcp_bind] of a control block that is bound links it to itself: the list of
    bound control blocks is a cycle. *)
Theorem tcp_bind_twice_cycle :
  (p ← tcp_new; _ ← tcp_bind p None 80; r ← tcp_bind p None 81; c ← com p; h ← tcp_get tv_bound_pcbs;
   mret (r, bool_decide (co_next c = p), bool_decide (h = p))) host
  ≫= (λ x, Some (fst x)) = Some (ERR_OK, true, true).
Proof. vm_compute. reflexivity. Qed.

(** ** A second listen *)

(** The test for [ERR_ALREADY] comes after one that excludes it. *)
Theorem tcp_listen_twice_closed :
  (p ← tcp_new; _ ← tcp_bind p None 80; l ← tcp_listen_with_backlog p 5; tcp_listen_with_backlog_and_err l 5) host
  ≫= (λ x, Some (fst x)) = Some (0, ERR_CLSD).
Proof. vm_compute. reflexivity. Qed.

(** ** No room for a connection *)

(** The three connections of the pool are more important than a fourth. *)
Definition full (accept : Z) : prog (istate tcp_vars) unit :=
  serve accept ;;
  arrive quiet (syn 5001) ;; arrive quiet (syn 5002) ;; arrive quiet (syn 5003) ;;
  tcp_setprio 536900000 TCP_PRIO_MAX ;; tcp_setprio 536900160 TCP_PRIO_MAX ;; tcp_setprio 536900320 TCP_PRIO_MAX.

(** Then a SYN makes [tcp_listen_input] call the accept function with [NULL];
    the default one aborts it, and [tcp_abort] reads through the pointer.  With
    an accept function of the application the SYN is dropped. *)
Theorem tcp_accept_null_derefs :
  observe (λ _, tt) (full 0 host) = Some tt ∧
  (full 0 ;; arrive quiet (syn 5004)) host = None ∧
  observe (λ _, tt) ((full 100 ;; arrive quiet (syn 5004)) host) = Some tt.
Proof. vm_compute. done. Qed.

(** ** An application that aborts *)

(** The receive function 10 refuses data, 11 aborts the connection, 12 closes
    it when there is data. *)
Definition app_recv (f pcb p : Z) : prog (istate tcp_vars) Z :=
  if f =? 10 then mret ERR_MEM
  else if f =? 11 then free_pbuf p ;; tcp_abort pcb ;; mret ERR_ABRT
  else if p =? 0 then mret ERR_OK
  else free_pbuf p ;; _ ← tcp_close pcb; mret ERR_OK.
(** The poll function aborts the connection that its argument is. *)
Definition app : TcpEnv tcp_vars := {|
  netif_output n p d := mret ERR_OK;
  tcp_timer_needed := mret tt;
  call_accept f a pcb err := mret ERR_OK;
  call_recv f a pcb p err := app_recv f pcb p;
  call_sent f a pcb n := mret ERR_OK;
  call_connected f a pcb e := mret ERR_OK;
  call_poll f a pcb := tcp_abort a ;; mret ERR_OK;
  call_errf f a e := mret tt;
  fn_tcp_accept_null := 1;
  fn_tcp_recv_null := 2
|}.

(** One connection that is established; its control block. *)
Definition established : prog (istate tcp_vars) Z :=
  serve 100 ;; arrive app (syn 5001) ;; iss ← tcp_get tv_iss; arrive app (ack 5001 (iss + 1)) ;;
  tcp_get tv_active_pcbs.
Definition hello (fl seq iss : Z) : bytes := bytes_of 5001 80 seq (iss + 1) fl 8192 [] [104; 101; 108; 108; 111].

(** When the application aborts while it is offered the data that it refused
    before, [tcp_input] goes on with the control block that was released. *)
Definition refused_then (f : Z) : prog (istate tcp_vars) unit :=
  c ← established; tcp_recv c 10 ;; iss ← tcp_get tv_iss;
  arrive app (hello 24 1001 iss) ;; tcp_recv c f ;; arrive app (hello 24 1006 iss).
Theorem tcp_input_uses_freed :
  refused_then 11 host = None ∧ observe (λ _, tt) (refused_then 10 host) = Some tt.
Proof. vm_compute. done. Qed.

(** The application closes the connection from its receive function when data
    and FIN arrive together: the control block is taken from the list of active
    connections, put on no list and not released. *)
Theorem tcp_close_leaks :
  observe (λ s, (tv_active_pcbs (vars s), tv_tw_pcbs (vars s), tv_bound_pcbs (vars s),
                 bool_decide (is_Some (tv_cbs (vars s) !! 536900320))))
    ((c ← established; tcp_recv c 12 ;; iss ← tcp_get tv_iss; arrive app (hello 25 1001 iss) ;; mret c) host)
  = Some (0, 0, 0, true).
Proof. vm_compute. reflexivity. Qed.

(** ** The slow timer *)

(** Three connections: the first is polled, and its poll function aborts the
    second; the third has waited too long in SYN-RCVD. *)
Definition three : prog (istate tcp_vars) unit :=
  a ← tcp_new; d ← tcp_new; b ← tcp_new;
  upd_tcb b (set_state SYN_RCVD) ;; upd_tcb d (set_state ESTABLISHED) ;; upd_tcb a (set_state ESTABLISHED) ;;
  TCP_REG_ACTIVE b ;; TCP_REG_ACTIVE d ;; TCP_REG_ACTIVE a ;;
  tcp_arg a d ;; tcp_poll a 30 1 ;; upd_tcb b (set_tmr (u32 (- 1000))).
Definition slow_run : prog (istate tcp_vars) unit := three ;; tcp_slowtmr (TE := app) 20.

(** The walk starts again because the list has changed.  The first connection
    is passed over as done, but is not remembered as the one in front of the
    third, so that its removal removes both: the first connection is allocated
    and established, and on no list. *)
Theorem tcp_slowtmr_loses_connection :
  observe (λ s, (tv_active_pcbs (vars s), size (tv_cbs (vars s)),
                 match tv_cbs (vars s) !! 536900320 with Some (CbPcb p) => Some (tp_state p) | _ => None end))
    (slow_run host)
  = Some (0, 1%nat, Some ESTABLISHED).
Proof. vm_compute. reflexivity. Qed.
