(* ===== verification/Stack.v ===== *)
(** * The stack put together

    The parameters of the layers are instantiated by each other: [netif->output]
    is [etharp_output], the protocols of [ip4_input] are [udp_input] and
    [icmp_input], the upper layer of [ethernet_input] is [ip4_input].  What is
    left as parameters is the driver ([netif->linkoutput]), the receive
    functions of the applications, TCP, IGMP and DHCP. *)

From stdpp Require Import base numbers list gmap option.
From S2P Require Import Prelude Mem MemRefine Memp Pbuf PbufLemmas PbufAlloc PbufOps PbufProps Chksum ChksumProps Ip4Addr Etharp EtharpTable EtharpProps EtharpResolve LinkedList Netifs NetifProps Ip4 Ip4Props Ip4Output Udp UdpList UdpProps UdpSend Icmp.

Section stack.
  Context {U : Type}.
  Context (linkoutput : Z → Z → prog (tstate U) Z).
  Context (call_recv : Z → Z → Z → Z → Z → Z → prog (tstate U) unit).
  Context (tcp_input : Z → Z → prog (tstate U) unit).
  Context (igmp_input : Z → Z → Z → prog (tstate U) unit).
  Context (igmp_lookfor_group : Z → Z → prog (tstate U) bool).
  Context (dhcp_arp_reply : Z → Z → prog (tstate U) unit).

(** [netif->output] as [ethernetif_init] sets it. *)
Definition stack_output : Z → Z → Z → prog (tstate U) Z := etharp_output linkoutput.
Definition stack_unreach : Z → Z → prog (tstate U) unit := icmp_dest_unreach stack_output.
Definition stack_udp_input : Z → Z → prog (tstate U) unit := udp_input call_recv stack_unreach.
Definition stack_ip4_input : Z → Z → prog (tstate U) Z :=
  ip4_input stack_udp_input tcp_input (icmp_input stack_output) igmp_input stack_unreach igmp_lookfor_group.
Definition stack_ethernet_input : Z → Z → prog (tstate U) Z :=
  ethernet_input linkoutput (λ p n, _ ← stack_ip4_input p n; mret tt) dhcp_arp_reply.

Definition netif_input (p inp : Z) : prog (tstate U) Z :=
  nf ← the_netif inp;
  if negb (Z.land (nf_flags nf) (Z.lor NETIF_FLAG_ETHARP NETIF_FLAG_ETHERNET) =? 0)
  then stack_ethernet_input p inp else stack_ip4_input p inp.

Definition stack_sendto_if_src : Z → Z → option Z → Z → Z → Z → prog (tstate U) Z := udp_sendto_if_src stack_output.
End stack.

(** ** Frames *)

Definition eth_header (dst src : bytes) (type : Z) : bytes := dst ++ src ++ [type / 256; type mod 256].

Lemma eth_fields dst src type d :
  length dst = 6%nat → length src = 6%nat → 0 ≤ type < 65536 →
  let f := eth_header dst src type ++ d in
  take 6 f = dst ∧ lwip_htons (field 12 2 f) = type ∧ drop 14 f = d.
Proof.
  intros Hd Hs Ht f. unfold f, eth_header, field.
  do 6 (destruct dst as [|? dst]; [done|]). destruct dst; [|done].
  do 6 (destruct src as [|? src]; [done|]). destruct src; [|done].
  split; [done|]. split; [by apply (port_of_bytes type d) | done].
Qed.

(** The header of a unicast frame with an IP packet. *)
Definition unicast_header (eth : bytes) : Prop :=
  length eth = 14%nat ∧ Z.land (field 0 1 eth) 1 = 0 ∧ field 12 2 eth = PP_HTONS ETHTYPE_IP.

Lemma eth_header_unicast dst src :
  length dst = 6%nat → length src = 6%nat → Z.land (field 0 1 dst) 1 = 0 →
  unicast_header (eth_header dst src ETHTYPE_IP).
Proof.
  intros Hd Hs Hu. split; [unfold eth_header; rewrite !length_app, Hd, Hs; done|]. revert Hd Hs Hu.
  unfold eth_header, field. intros Hd Hs Hu.
  do 6 (destruct dst as [|? dst]; [done|]). destruct dst; [|done].
  do 6 (destruct src as [|? src]; [done|]). by destruct src.
Qed.

Section frames.
  Context {W : Type}.
  Context (linkoutput : Z → Z → prog (istate W) Z).
  Implicit Types s : istate W.
  #[local] Set Default Proof Using "All".

(** [ethernet_output] puts the header in front of the packet. *)
Lemma ethernet_output_run m s n p b l d src dst type :
  room (SIZEOF_ETH_HDR + m) s p b l d → 0 ≤ m → length src = 6%nat → length dst = 6%nat → 0 ≤ type < 65536 →
  ∃ s', ethernet_output linkoutput n p src dst type s = linkoutput n p s' ∧
    room m s' p (reveal SIZEOF_ETH_HDR b) l (eth_header dst src type ++ d) ∧
    as_link s' = as_link s ∧ as_netifs s' = as_netifs s ∧ as_table s' = as_table s ∧ as_cached s' = as_cached s.
Proof.
  intros Hrm Hm0 Hsrc Hdst Hty. pose proof Hrm as [_ _ _ _ Hmap _]. unfold SIZEOF_ETH_HDR in *.
  set (s1 := set_packets (header_state (as_packets s) p (reveal 14 b)) s).
  destruct (proj2 (load_bytes_is_Some (ps_bytes (as_packets s1)) (pb_payload b - 14) 14)) as [h Eh].
  { intros i Hi. apply Hmap. lia. }
  pose proof (load_bytes_length _ _ _ _ Eh) as Hh. rewrite <- Hh in Eh.
  set (ws := [(12%nat, [type / 256; type mod 256]); (0%nat, dst); (6%nat, src)]).
  assert (F : Forall (λ w, (fst w + length (snd w) ≤ length h)%nat) ws).
  { rewrite Hh. repeat (apply Forall_cons_2; [cbn; lia|]). apply Forall_nil_2. }
  destruct (pokes_run s1 _ (pb_payload b - 14) ws h s1 (written_start _ _ _ Eh) F) as (s' & E & HW).
  replace (overwrites h ws) with (eth_header dst src type) in HW.
  2: { unfold ws, eth_header. clear -Hh Hsrc Hdst. do 14 (destruct h as [|? h]; [done|]). destruct h; [|done].
       do 6 (destruct dst as [|? dst]; [done|]). destruct dst; [|done].
       do 6 (destruct src as [|? src]; [done|]). by destruct src. }
  exists s'. split; [|split; [|destruct HW as [Es _ _]; by rewrite Es]].
  - unfold ethernet_output. rewrite le16_htons by done.
    rewrite (prog_bind_step _ _ _ _ _ (room_reveal 14 m _ _ _ _ _ Hrm ltac:(lia) Hm0)). cbn [Z.eqb negb]. fold s1.
    rewrite (prog_bind_step _ _ s1 (reveal 14 b) s1).
    2: { unfold packets, deref. cbn [s1 set_packets as_packets header_state ps_pbufs]. by rewrite lookup_insert_eq. }
    rewrite <- (E _ (linkoutput n p)). unfold pokes, ws. cbn [foldr fst snd]. by rewrite Z.add_0_r.
  - apply (room_written 14 m s _ p b l d _ s' Hrm Hm0) in HW; [exact HW|].
    unfold eth_header. rewrite !length_app, Hsrc, Hdst. done.
Qed.

Context (ip4_in dhcp_arp_reply : Z → Z → prog (istate W) unit).

(** A frame for this station. *)
Record ip_frame s (p inp : Z) (b : pbuf) (l : chain) (f : bytes) (nfi : netif) : Prop := {
  if_chain : chain_at (as_packets s) p ((p, b) :: l) f;
  if_room : p + SIZEOF_STRUCT_PBUF ≤ pb_payload b;
  if_len : SIZEOF_ETH_HDR < pb_len b;
  if_unicast : Z.land (field 0 1 f) 1 = 0;
  if_type : field 12 2 f = PP_HTONS ETHTYPE_IP;
  if_netif : as_netifs s !! inp = Some nfi;
  if_flags : Z.land (nf_flags nfi) NETIF_FLAG_ETHARP ≠ 0
}.

Lemma ethernet_input_run s p inp b l f nfi :
  ip_frame s p inp b l f nfi →
  let q := header_state (as_packets s) p (hide SIZEOF_ETH_HDR b) in
  ethernet_input linkoutput ip4_in dhcp_arp_reply p inp s = (ip4_in p inp ;; mret ERR_OK) (set_packets q s) ∧
  chain_at q p ((p, hide SIZEOF_ETH_HDR b) :: l) (drop 14 f).
Proof.
  intros [Hc Hroom Hlen Huni Hty Hi Hfl] q. unfold SIZEOF_ETH_HDR in *.
  destruct (chain_at_head _ _ _ _ _ _ Hc) as (_ & Hp0 & Eb & Et).
  pose proof Hc as [_ (Hb0 & Ht & Hm & Hl') _]. cbn [lens] in Ht. pose proof (lens_nonneg _ Hl').
  split; [|apply (chain_at_hide _ _ _ _ _ 14 Hc); lia].
  assert (Hder : packets (deref p) s = Some (b, s)) by (unfold packets, deref; rewrite Eb; by destruct s).
  unfold ethernet_input. rewrite (prog_bind_step _ _ _ _ _ Hder).
  rewrite (proj2 (Z.leb_gt (pb_len b) SIZEOF_ETH_HDR)) by (unfold SIZEOF_ETH_HDR; lia). cbv zeta.
  rewrite (prog_bind_step _ _ _ _ _ (peek_head s p b l f 12 2 Hc ltac:(lia))).
  rewrite (prog_bind_step _ _ _ _ _ (peek_head0 s p b l f 6 Hc ltac:(lia))).
  change (of_le (take 2 (drop 12 f))) with (field 12 2 f). rewrite Hty, Z.eqb_refl. cbn [orb].
  assert (Hf6 : (6 ≤ length f)%nat) by lia. unfold field in Huni.
  do 6 (destruct f as [|? f]; [cbn in Hf6; lia|]). cbn [take drop of_le foldr] in Huni |- *.
  rewrite Z.mul_0_r, Z.add_0_r in Huni. rewrite Huni. cbn [Z.eqb negb when].
  rewrite (prog_bind_step _ _ s tt s) by done.
  rewrite (prog_bind_step _ _ s nfi s) by (by apply the_netif_run). rewrite (proj2 (Z.eqb_neq _ 0)) by done.
  rewrite (prog_bind_step _ _ _ _ _ Hder).
  rewrite (proj2 (Z.ltb_ge (pb_len b) SIZEOF_ETH_HDR)) by (unfold SIZEOF_ETH_HDR; lia).
  rewrite (prog_bind_step _ _ s 0 (set_packets q s)); [done|].
  unfold packets, SIZEOF_ETH_HDR. by rewrite (header_hide_run _ _ b) by (done || lia).
Qed.
End frames.

(** ** From one host to another *)

Section receive.
  Context {U : Type}.
  Context (linkoutput : Z → Z → prog (tstate U) Z).
  Context (call_recv : Z → Z → Z → Z → Z → Z → prog (tstate U) unit).
  Context (tcp_input : Z → Z → prog (tstate U) unit).
  Context (igmp_input : Z → Z → Z → prog (tstate U) unit).
  Context (igmp_lookfor_group : Z → Z → prog (tstate U) bool).
  Context (dhcp_arp_reply : Z → Z → prog (tstate U) unit).
  Implicit Types s : tstate U.
  #[local] Set Default Proof Using "All".

Abbreviation eth_input :=
  (stack_ethernet_input linkoutput call_recv tcp_input igmp_input igmp_lookfor_group dhcp_arp_reply).

(** The frame [f] is in a pbuf chain of a host whose interface has the
    address [dst]; padding can be cut off. *)
Record received s (p inp : Z) (b : pbuf) (l : chain) (f pad : bytes) (nfi : netif) (nl pl : list Z) (dst : Z) : Prop := {
  rc_chain : chain_at (as_packets s) p ((p, b) :: l) (f ++ pad);
  rc_room : p + SIZEOF_STRUCT_PBUF ≤ pb_payload b;
  rc_netif : as_netifs s !! inp = Some nfi;
  rc_flags : Z.land (nf_flags nfi) NETIF_FLAG_ETHARP ≠ 0;
  rc_headers : SIZEOF_ETH_HDR + IP_HLEN + UDP_HLEN ≤ pb_len b;
  rc_trim : pad ≠ [] →
    can_trim (header_state (as_packets s) p (hide SIZEOF_ETH_HDR b)) ((p, hide SIZEOF_ETH_HDR b) :: l);
  rc_netifs : netifs_ok nl s;
  rc_inp : inp ≠ 0;
  rc_accepts : accepts nfi dst = true;
  rc_pcbs : pcbs_ok pl (uof s)
}.

(** The first of several steps decides. *)
Lemma finish_twice (c : prog (tstate U) unit) s :
  ((_ ← (c ;; finish); mret tt) ;; mret ERR_OK) s = (c ;; finish) s.
Proof. unfold mbind, prog_bind. by destruct (c s) as [[[] s']|]. Qed.

Lemma received_frame s p inp b l eth x pad nfi nl pl dst :
  received s p inp b l (eth ++ x) pad nfi nl pl dst → unicast_header eth → ip_frame s p inp b l ((eth ++ x) ++ pad) nfi.
Proof.
  intros [Hc Hroom Hi Hfl Hlen _ _ _ _ _] (He & Hu & Hty). split; try done.
  - revert Hlen. unfold SIZEOF_ETH_HDR, IP_HLEN, UDP_HLEN. lia.
  - rewrite <- Hu. unfold field. by rewrite <- app_assoc, !drop_0, take_app_le by lia.
  - rewrite <- Hty. unfold field. rewrite <- app_assoc, drop_app_le, take_app_le by (rewrite ?length_drop; lia). done.
Qed.

Lemma datagram_header s p inp b l pad nfi nl pl u id src dst dport d eth :
  received s p inp b l (eth ++ ip_datagram u id src dst dport d) pad nfi nl pl dst → unicast_header eth →
  0 ≤ up_local_port u < 65536 → 0 ≤ dport < 65536 → 0 ≤ src < 4294967296 → 0 ≤ dst < 4294967296 →
  IP_HLEN + UDP_HLEN + Z.of_nat (length d) < 65536 →
  good_header (set_packets (header_state (as_packets s) p (hide SIZEOF_ETH_HDR b)) s) p (hide SIZEOF_ETH_HDR b) l
    (ip_datagram u id src dst dport d ++ pad).
Proof.
  intros Hrc Heth Hlp Hdp Hsrc Hdst Hld. pose proof (received_frame _ _ _ _ _ _ _ _ _ _ _ _ Hrc Heth) as Hfr.
  destruct Hrc as [_ _ _ _ Hlen Htrim _ _ _ _]. destruct Heth as [Heth _].
  destruct (ethernet_input_run linkoutput (λ _ _, mret tt) dhcp_arp_reply s p inp b l _ nfi Hfr) as [_ Hc'].
  rewrite <- app_assoc in Hc'. rewrite drop_app_length' in Hc' by done.
  destruct (ip_datagram_fields u id src dst dport d pad Hlp Hdp Hsrc Hdst Hld)
    as (F1 & F2 & F3 & F4 & F5 & F6 & F7 & _ & _ & _ & F11).
  pose proof (ip_datagram_length u id src dst dport d) as Hil.
  unfold IP_HLEN, UDP_HLEN, SIZEOF_ETH_HDR in *.
  split; rewrite ?F2, ?F3, ?length_app; cbn [pb_len hide with_len with_tot_len with_payload] in *.
  - exact Hc'.
  - intros Hlt. apply Htrim. intros ->. cbn in Hlt. lia.
  - exact F1.
  - unfold IP_HLEN. cbn. lia.
  - lia.
  - cbn. lia.
Qed.

(** The frame goes through Ethernet, IP and UDP to the receive function. *)
Lemma stack_receive s p inp b l pad nfi nl pl u id src dst dport d eth :
  received s p inp b l (eth ++ ip_datagram u id src dst dport d) pad nfi nl pl dst → unicast_header eth →
  0 ≤ up_local_port u < 65536 → 0 ≤ dport < 65536 → 0 ≤ src < 4294967296 → 0 ≤ dst < 4294967296 →
  IP_HLEN + UDP_HLEN + Z.of_nat (length d) < 65536 →
  ip4_addr_ismulticast dst = false → bad_source nfi src = false →
  let bc := ip4_addr_isbroadcast_u32 dst nfi in
  let dg := Datagram src dst (up_local_port u) dport (negb (bc =? 0)) (nf_netmask nfi) in
  ∃ r pl' w', chosen pl (uof s) dg r pl' w' ∧
    (r ≠ 0 → ∃ v s' b' l', us_store w' !! r = Some v ∧ uof s' = w' ∧
       chain_at (as_packets s') p ((p, b') :: l') d ∧ as_netifs s' = as_netifs s ∧ as_table s' = as_table s ∧
       eth_input p inp s = ((if up_recv v =? 0 then free_pbuf p else
         call_recv (up_recv v) (up_recv_arg v) r p src (up_local_port u)) ;; finish) s').
Proof.
  intros Hrc Heth Hlp Hdp Hsrc Hdst Hld Hmc Hbad bc dg.
  pose proof Hrc as [_ Hroom Hi _ Hlen _ Hnl Hi0 Hacc Hpl].
  pose proof (received_frame _ _ _ _ _ _ _ _ _ _ _ _ Hrc Heth) as Hfr.
  pose proof (datagram_header s p inp b l pad nfi nl pl u id src dst dport d eth Hrc Heth Hlp Hdp Hsrc Hdst Hld) as Hgh.
  destruct (ethernet_input_run linkoutput (λ p n, _ ← stack_ip4_input linkoutput call_recv tcp_input igmp_input igmp_lookfor_group p n; mret tt)
    dhcp_arp_reply s p inp b l _ nfi Hfr) as [Ein _].
  set (s1 := set_packets _ s) in *.
  set (x := ip_datagram u id src dst dport d ++ pad) in *.
  destruct (ip_datagram_fields u id src dst dport d pad Hlp Hdp Hsrc Hdst Hld)
    as (F1 & F2 & F3 & F4 & F5 & F6 & F7 & F8 & F9 & _ & _). fold x in F1, F2, F3, F4, F5, F6, F7, F8, F9.
  destruct (input_delivered (stack_udp_input linkoutput call_recv) tcp_input (icmp_input (stack_output linkoutput)) igmp_input
    (stack_unreach linkoutput) igmp_lookfor_group s1 p inp (hide SIZEOF_ETH_HDR b) l x nl nfi Hgh) as (r & Ht & Hdel);
    rewrite ?F4, ?F5, ?F7; try done.
  { cbn. unfold SIZEOF_ETH_HDR. lia. }
  { destruct Hnl. by split. }
  { by apply (bool_decide_unpack (IP_PROTO_UDP ∈ [IP_PROTO_UDP; IP_PROTO_TCP; IP_PROTO_ICMP; IP_PROTO_IGMP])). }
  assert (r = inp) as ->.
  { rewrite F7 in Ht. destruct Ht as [[_ ?]|[[Ha _]|[Ha _]]]; [done | congruence..]. }
  destruct Hdel as (q' & b' & l' & Hc & Hpb & _ & Hlb & _ & Eip); [left; by rewrite F6|].
  rewrite (proj2 (Z.eqb_neq inp 0)) in Eip by done. set (s2 := with_data _ _) in Eip.
  rewrite F3 in Hc. pose proof (ip_datagram_length u id src dst dport d) as Hil. rewrite F2 in Hc, Hpb, Hlb. rewrite F3 in Hlb.
  rewrite <- Hil, Nat2Z.id in Hc. unfold x in Hc. rewrite take_app_length in Hc.
  set (y := drop (Z.to_nat IP_HLEN) (ip_datagram u id src dst dport d)) in *.
  assert (Har : arrived s2 p inp b' l' y nfi nfi pl).
  { split; [exact Hc | | exact Hi | exact Hi | exact Hpl]. rewrite Hpb. cbn. unfold IP_HLEN, SIZEOF_ETH_HDR. lia. }
  assert (Hl8 : UDP_HLEN ≤ pb_len b').
  { revert Hlb Hlen. cbn. unfold IP_HLEN, UDP_HLEN, SIZEOF_ETH_HDR. lia. }
  destruct (ip_datagram_fields u id src dst dport d [] Hlp Hdp Hsrc Hdst Hld)
    as (_ & _ & _ & _ & _ & _ & _ & G1 & G2 & _ & G3). rewrite !app_nil_r in G1, G2, G3.
  change (drop 20 (ip_datagram u id src dst dport d)) with y in G1, G2.
  change (drop 28 (ip_datagram u id src dst dport d)) with (drop 8 y) in G3.
  destruct (input_search call_recv (stack_unreach linkoutput) s2 p inp b' l' y nfi nfi pl Har Hl8)
    as (r & pl' & w' & Hch & Eu). rewrite G1, G2 in Hch.
  assert (Ga : current_iphdr_src (is_data (as_link s2)) = src) by exact F6.
  assert (Gb : current_iphdr_dest (is_data (as_link s2)) = dst) by exact F7.
  rewrite Gb in Hch, Eu. fold bc in Hch, Eu.
  exists r, pl', w'. split.
  { replace dg with (datagram_of s2 nfi bc (up_local_port u) dport); [exact Hch|].
    unfold datagram_of, dg. by rewrite Ga, Gb. }
  intros Hr. destruct (chosen_block _ _ _ _ _ _ Hch Hr) as (v & Hv & _).
  destruct (deliver_to call_recv (stack_unreach linkoutput) s2 p inp b' l' y nfi nfi pl r v w' bc (up_local_port u) Har Hl8 Hr Hv)
    as (s' & H1 & H2 & H3 & H4 & H5 & H6).
  exists v, s', (hide UDP_HLEN b'), l'. split; [exact Hv|]. split; [exact H1|]. rewrite G3, ?app_nil_r in H5. rewrite Ga in H6.
  split; [exact H5|]. split; [exact H3|]. split; [exact H4|].
  unfold stack_ethernet_input. rewrite Ein, <- finish_twice. unfold stack_ip4_input, mbind, prog_bind in Eip |- *.
  rewrite Eip, F5. cbn [protocol_input]. unfold protocol_input, stack_udp_input. cbn [Z.eqb IP_PROTO_UDP Pos.eqb].
  rewrite Eu, G1, (proj2 (Z.eqb_neq r 0)) by done. cbn [negb orb]. by rewrite H6.
Qed.
(** The ARP table of the sender has the hardware address for [dst]. *)
Record resolved s (n : Z) (nf : netif) (dst : Z) (mac : bytes) : Prop := {
  rv_table : arp_ok (as_table s);
  rv_cached : 0 ≤ as_cached s < ARP_TABLE_SIZE;
  rv_netif : as_netifs s !! n = Some nf;
  rv_unicast : ip4_addr_isbroadcast_u32 dst nf = 0 ∧ ip4_addr_ismulticast dst = false;
  rv_entry : ∃ k e, next_hop nf dst = Some (ae_ipaddr e) ∧ as_table s !! k = Some e ∧
    stable (ae_state e) = true ∧ fresh_enough e ∧ ae_ethaddr e = mac;
  rv_length : length (nf_hwaddr nf) = 6%nat ∧ length mac = 6%nat
}.

(** The control block can send. *)
Record sendable s (pcb : Z) (u : udp_pcb) (dst : Z) : Prop := {
  sd_pcb : us_store (uof s) !! pcb = Some u;
  sd_null : pcb ≠ 0;
  sd_loop : no_mcast_loop u dst;
  sd_port : 0 < up_local_port u < 65536;
  sd_ttl : 0 ≤ up_ttl u < 256 ∧ 0 ≤ up_mcast_ttl u < 256;
  sd_id : 0 ≤ is_ip_id (as_link s) < 65536
}.

Lemma stack_send s pcb u p b l d dst dport n src nf mac :
  room (IP_HLEN + UDP_HLEN + SIZEOF_ETH_HDR) s p b l d → sendable s pcb u dst → resolved s n nf dst mac →
  0 ≤ dport < 65536 →
  ∃ s' b', stack_sendto_if_src linkoutput pcb p (Some dst) dport n src s = linkoutput n p s' ∧
    chain_at (as_packets s') p ((p, b') :: l)
      (eth_header mac (nf_hwaddr nf) ETHTYPE_IP ++ ip_datagram u (is_ip_id (as_link s)) src dst dport d).
Proof.
  intros Hrm [Hu Hp0 Hloop Hlp [Httl Hmttl] Hid] [Harp Hcache Hnf [Hbc Hmc] (k & e & Hh & Hk & Hst & Hfr & <-) [Hhw Hmac]] Hdp.
  destruct (sendto_run (stack_output linkoutput) SIZEOF_ETH_HDR s pcb u p b l d dst dport n src Hrm)
    as (s1 & E1 & Hr1 & El1 & En1 & Et1 & Ec1); try done.
  pose proof (output_resolved linkoutput s1 n nf p dst (ae_ipaddr e) k e) as Eo. rewrite En1, Et1, Ec1 in Eo.
  set (s2 := set_cached (Z.of_nat k) s1) in Eo. set (x := ip_datagram u _ src dst dport d) in *.
  assert (Hr2 : room (SIZEOF_ETH_HDR + 0) s2 p (reveal IP_HLEN (reveal UDP_HLEN b)) l x) by (destruct Hr1; by split).
  destruct (ethernet_output_run linkoutput 0 s2 n p _ l x (nf_hwaddr nf) (ae_ethaddr e) ETHTYPE_IP Hr2)
    as (s3 & E3 & [Hc3 _ _ _ _ _] & _); [lia | done | done | done |].
  eexists s3, _. split; [|exact Hc3]. unfold stack_sendto_if_src. rewrite E1, <- E3. by apply Eo.
Qed.

(** C3: A datagram travels from one host to another.  The sender's [udp_sendto_if_src], through its
    UDP, IP, ARP and Ethernet layers, hands the driver one frame, when its ARP table resolves the
    next hop; and on a host that has this frame in a pbuf chain, padded or not, on an interface
    with the destination address, [ethernet_input] through its Ethernet, IP and UDP layers hands
    exactly the data that was sent, with the sender's address and port, to the receive function of
    the control block chosen for it. *)
Theorem datagram_end_to_end s pcb u p b l d dst dport n src nf mac :
  room (IP_HLEN + UDP_HLEN + SIZEOF_ETH_HDR) s p b l d → sendable s pcb u dst → resolved s n nf dst mac →
  Z.land (field 0 1 mac) 1 = 0 → 0 ≤ dport < 65536 → 0 ≤ src < 4294967296 → 0 ≤ dst < 4294967296 →
  let f := eth_header mac (nf_hwaddr nf) ETHTYPE_IP ++ ip_datagram u (is_ip_id (as_link s)) src dst dport d in
  (∃ s' b', stack_sendto_if_src linkoutput pcb p (Some dst) dport n src s = linkoutput n p s' ∧
     chain_at (as_packets s') p ((p, b') :: l) f) ∧
  (∀ t q inp c m pad nfi nl pl, received t q inp c m f pad nfi nl pl dst → bad_source nfi src = false →
      let bc := ip4_addr_isbroadcast_u32 dst nfi in
      let dg := Datagram src dst (up_local_port u) dport (negb (bc =? 0)) (nf_netmask nfi) in
      ∃ r pl' w', chosen pl (uof t) dg r pl' w' ∧
        (r ≠ 0 → ∃ v t' c' m', us_store w' !! r = Some v ∧ uof t' = w' ∧
           chain_at (as_packets t') q ((q, c') :: m') d ∧
           eth_input q inp t = ((if up_recv v =? 0 then free_pbuf q else
             call_recv (up_recv v) (up_recv_arg v) r q src (up_local_port u)) ;; finish) t')).
Proof.
  intros Hrm Hsd Hrv Huni Hdp Hsrc Hdst f. pose proof (rm_len _ _ _ _ _ _ Hrm) as Hlen. unfold SIZEOF_ETH_HDR in Hlen.
  split; [by apply (stack_send s pcb u p b l d dst dport n src nf mac)|].
  intros t q inp c m pad nfi nl pl Hrc Hbad bc dg. destruct Hsd as [_ _ _ Hlp _ _]. destruct Hrv as [_ _ _ [_ Hmc] _ [Hhw Hmac]].
  destruct (stack_receive t q inp c m pad nfi nl pl u (is_ip_id (as_link s)) src dst dport d _ Hrc) as (r & pl' & w' & Hch & Hr);
    [by apply eth_header_unicast | lia | done | done | done | lia | done | done |].
  exists r, pl', w'. split; [exact Hch|]. intros Hr0. destruct (Hr Hr0) as (v & t' & c' & m' & H1 & H2 & H3 & _ & _ & H4).
  by exists v, t', c', m'.
Qed.
End receive.
