(* ===== verification/StackExamples.v ===== *)
(** * Datagrams between two hosts

    A host 192.168.0.2 with two control blocks on its list and one more, on
    which the theorems of UdpList, UdpProps, UdpInv, UdpSend, IcmpProps and
    Stack apply. *)

From stdpp Require Import base numbers list gmap option relations.
From S2P Require Import Prelude Mem Memp Pbuf PbufLemmas PbufOps PbufProps Chksum Ip4Addr Etharp EtharpTable EtharpInv EtharpResolve LinkedList Netifs NetifProps Ip4 Ip4Props Ip4Output Ip4Examples Udp UdpList UdpProps UdpInv UdpSend Icmp IcmpProps Stack.

Definition nf5 : netif :=
  Netif (dotted 192 168 0 2) (dotted 255 255 255 0) (dotted 192 168 0 1) [2; 0; 0; 0; 0; 2] 0x0f 0 [101; 110] 0
    0 3 0 0 [] 1500.
(** Bound to port 5000 of any address; to port 6000 of our address and
    connected to port 7000 of the peer; not bound. *)
Definition server : udp_pcb := UdpPcb 0 0 0 0 255 340 0 5000 0 0 255 11 12.
Definition client : udp_pcb :=
  UdpPcb (dotted 192 168 0 2) (dotted 192 168 0 1) 0 0 255 0 UDP_FLAGS_CONNECTED 6000 7000 0 255 21 22.
Definition idle : udp_pcb := UdpPcb 0 0 0 0 255 0 0 0 0 0 255 0 0.

Definition blocks : ustate unit :=
  UState 300 49152 {[300 := server; 340 := client; 380 := idle]} tt.
Definition globals0 : ip_globals := IpGlobals 0 0 0 0 0 0.
Definition globals1 : ip_globals :=
  IpGlobals 5 5 580 20 (dotted 192 168 0 1) (dotted 192 168 0 2).
Definition node (g : ip_globals) (d : bytes) : tstate unit :=
  AState EtharpResolve.Examples.table1 3 {[5 := nf5]} (packet d) (IpState 5 5 1 0 41 0 g blocks).

(** The driver takes every frame, the receive functions return. *)
Definition to_link (n p : Z) : prog (tstate unit) Z := mret ERR_OK.
Definition on_recv (f a pcb p ip port : Z) : prog (tstate unit) unit := mret tt.
Definition on_unreach (p c : Z) : prog (tstate unit) unit := mret tt.
Definition on_output (n p a : Z) : prog (tstate unit) Z := mret ERR_OK.
Definition no_tcp (p n : Z) : prog (tstate unit) unit := mret tt.
Definition no_igmp (p n g : Z) : prog (tstate unit) unit := mret tt.
Definition no_member (n g : Z) : prog (tstate unit) bool := mret false.

Lemma blocks_ok : pcbs_ok [300; 340] blocks.
Proof.
  split.
  - cbn [llist]. split; [done|]. split; [done|]. exists server. split; [done|]. split; [done|]. split; [done|].
    exists client. split; [done|]. done.
  - by apply (bool_decide_unpack (NoDup [300; 340])).
  - by vm_compute.
  - intros x u Hx Hu. apply elem_of_cons in Hx as [->|Hx]; [|apply list_elem_of_singleton in Hx as ->];
      vm_compute in Hu; injection Hu as <-; cbn; lia.
  - intros x y u v Hx Hy Hu Hv.
    apply elem_of_cons in Hx as [->|Hx]; [|apply list_elem_of_singleton in Hx as ->];
    (apply elem_of_cons in Hy as [->|Hy]; [|apply list_elem_of_singleton in Hy as ->]);
      vm_compute in Hu, Hv; injection Hu as <-; injection Hv as <-; done.
Qed.

Lemma node_netifs g d : netifs_ok [5] (node g d).
Proof.
  split.
  - cbn [llist]. split; [done|]. split; [done|]. exists nf5. by split.
  - apply NoDup_singleton.
  - right. by apply list_elem_of_singleton.
Qed.

(** ** Ports *)

(** The first free port is 49153. *)
Lemma udp_new_port_free_witness :
  ∃ s', udp_new_port (node globals0 []) = Some (49153, s') ∧ ¬ port_taken [300; 340] blocks 49153.
Proof.
  destruct (udp_new_port_free [300; 340] (node globals0 []) blocks_ok) as (r & port & E & _ & Hfree & _).
  assert (H : fst <$> udp_new_port (node globals0 []) = Some 49153) by (vm_compute; reflexivity).
  rewrite E in H. injection H as ->. eexists. split; [exact E|]. by apply Hfree.
Defined.

(** Port 5000 of any address is taken, port 5001 is not. *)
Lemma udp_bind_outcome_witness :
  (∃ s', udp_bind 380 (Some 0) 5000 (node globals0 []) = Some (ERR_USE, s') ∧ uof s' = blocks) ∧
  (∃ s', udp_bind 380 (Some 0) 5001 (node globals0 []) = Some (ERR_OK, s') ∧ pcbs_ok [380; 300; 340] (uof s')).
Proof.
  split.
  - destruct (udp_bind_outcome [300; 340] (node globals0 []) 380 idle 0 5000 blocks_ok) as (r & w & l' & E & H);
      [done | done | lia |].
    assert (Hr : fst <$> udp_bind 380 (Some 0) 5000 (node globals0 []) = Some ERR_USE) by (vm_compute; reflexivity).
    rewrite E in Hr. injection Hr as ->. eexists. split; [exact E|].
    assert (Hu : (λ r, us_pcbs (uof (snd r))) <$> udp_bind 380 (Some 0) 5000 (node globals0 []) = Some 300)
      by (vm_compute; reflexivity).
    assert (Hp : (λ r, us_port (uof (snd r))) <$> udp_bind 380 (Some 0) 5000 (node globals0 []) = Some 49152)
      by (vm_compute; reflexivity).
    rewrite E in Hu, Hp. cbn in Hu, Hp. injection Hu as Hu. injection Hp as Hp. rewrite uof_with.
    destruct H as [_ [[? _]|(_ & _ & Hs & _)]]; [done|]. destruct w as [a b c []]. cbn in *. by subst.
  - destruct (udp_bind_outcome [300; 340] (node globals0 []) 380 idle 0 5001 blocks_ok) as (r & w & l' & E & H);
      [done | done | lia |].
    assert (Hr : fst <$> udp_bind 380 (Some 0) 5001 (node globals0 []) = Some ERR_OK) by (vm_compute; reflexivity).
    rewrite E in Hr. injection Hr as ->. eexists. split; [exact E|]. rewrite uof_with.
    destruct H as [Hok [(_ & -> & _)|[? _]]]; [|done]. rewrite decide_False in Hok; [exact Hok|].
    by apply (bool_decide_unpack (380 ∉ [300; 340])).
Defined.

(** ** Receiving *)

(** From port 7000 to port 6000, with four bytes of data. *)
Definition payload : bytes := [1; 2; 3; 4].
Definition to_client : bytes := udp_header_of 7000 6000 12 ++ payload.

Lemma node_arrived : arrived (node globals1 to_client) 500 5 (pb 12) [] to_client nf5 nf5 [300; 340].
Proof.
  split; [apply (packet_chain to_client 12); [done | lia | by vm_compute] | done | done | done | apply blocks_ok].
Qed.

(** The connected control block gets the data and moves to the front. *)
Lemma udp_input_demux_witness :
  ∃ s', udp_input on_recv on_unreach 500 5 (node globals1 to_client)
      = on_recv 21 22 340 500 (dotted 192 168 0 1) 7000 s' ∧
    chain_at (as_packets s') 500 [(500, hide UDP_HLEN (pb 12))] payload ∧ pcbs_ok [340; 300] (uof s').
Proof.
  destruct (udp_input_demux on_recv on_unreach (node globals1 to_client) 500 5 (pb 12) [] to_client nf5 nf5
    [300; 340] node_arrived) as (r & pl' & w' & Hch & Hto & _); [done|].
  destruct Hch as (Hs & _ & _ & Hok & [(Hr & (l1 & l2 & v & El & Hv & Hf & _) & ->)|(Hno & _)]).
  2: { assert (Hin : 340 ∈ [300; 340]) by (by apply (bool_decide_unpack (340 ∈ [300; 340]))).
       specialize (Hno 340 client Hin eq_refl). vm_compute in Hno. discriminate. }
  assert (Hr340 : r = 340).
  { assert (Hin : r ∈ [300; 340]) by (rewrite El; apply elem_of_app; right; by apply elem_of_cons; left).
    apply elem_of_cons in Hin as [->|Hin]; [|by apply list_elem_of_singleton in Hin].
    vm_compute in Hv. injection Hv as <-. vm_compute in Hf. discriminate. }
  subst r. destruct (Hto Hr) as (u & s' & Hu & Es & _ & _ & _ & Hc & E).
  assert (Hx : up_recv u = 21 ∧ up_recv_arg u = 22).
  { specialize (Hs 340). rewrite Hu in Hs. cbn in Hs. injection Hs as _ _ _ _ _ _ _ _ _ _ Ef Ea. by split. }
  destruct Hx as [Ef Ea]. rewrite Ef, Ea in E. exists s'. split; [exact E|]. split; [exact Hc|]. by rewrite Es.
Defined.

(** ** The life of two control blocks *)

Definition after {S A} (c : prog S A) (s : S) : S := match c s with Some (_, s') => s' | None => s end.
Lemma after_ok {S A} (c : prog S A) s r : fst <$> c s = Some r → c s = Some (r, after c s).
Proof. unfold after. destruct (c s) as [[x s']|]; [by intros [= ->] | done]. Qed.

Definition powered : tstate unit :=
  AState [] 0 {[5 := nf5]}
    (PState ∅ ∅ (mem_init 536870912) (Pools [MempDesc 40 2 300] [300] {[300 := 340; 340 := 0]}))
    (IpState 5 5 1 0 41 0 globals0 (UState 0 UDP_LOCAL_PORT_RANGE_START ∅ tt)).
Definition opened : tstate unit := after udp_new powered.
Definition bound : tstate unit := after (udp_bind 300 None 5000) opened.
Definition opened2 : tstate unit := after udp_new bound.
Definition linked : tstate unit := after (udp_connect 340 (Some (dotted 192 168 0 1)) 7000) opened2.

Lemma powered_steps : rtc (udp_step on_recv on_unreach on_output) powered linked.
Proof.
  assert (H1 : fst <$> udp_new powered = Some 300) by (vm_compute; reflexivity).
  assert (H2 : fst <$> udp_bind 300 None 5000 opened = Some ERR_OK) by (vm_compute; reflexivity).
  assert (H3 : fst <$> udp_new bound = Some 340) by (vm_compute; reflexivity).
  assert (H4 : fst <$> udp_connect 340 (Some (dotted 192 168 0 1)) 7000 opened2 = Some ERR_OK)
    by (vm_compute; reflexivity).
  apply after_ok in H1, H2, H3, H4.
  eapply rtc_l; [apply step_call, (call_new _ _ _ _ H1); by vm_compute|].
  eapply rtc_l; [eapply step_call, call_bind; [|exact H2]; lia|].
  eapply rtc_l; [apply step_call, (call_new _ _ _ _ H3); by vm_compute|].
  eapply rtc_l; [eapply step_call, call_connect; exact H4|]. apply rtc_refl.
Qed.


(** ** Sending *)

Lemma node_room : room (IP_HLEN + UDP_HLEN + SIZEOF_ETH_HDR) (node globals0 payload) 500 (pb 4) [] payload.
Proof.
  split; [apply (packet_chain payload 4); [done | lia | by vm_compute] | by vm_compute.. | | constructor].
  intros i Hi. apply (proj1 (load_bytes_is_Some (ps_bytes (packet payload)) 558 42)); [|exact Hi].
  vm_compute. by eexists.
Qed.

Lemma udp_datagram_headers_witness :
  ∃ s' d', udp_sendto_if_src on_output 340 500 (Some (dotted 192 168 0 1)) 7000 5 (dotted 192 168 0 2)
             (node globals0 payload) = on_output 5 500 (dotted 192 168 0 1) s' ∧
    hdr_len d' = Z.of_nat (length d') ∧ port_at 0 (drop 20 d') = 6000 ∧ port_at 2 (drop 20 d') = 7000 ∧
    drop 28 d' = payload.
Proof.
  destruct (udp_datagram_headers on_output (node globals0 payload) 340 client 500 (pb 4) [] payload
    (dotted 192 168 0 1) 7000 5 (dotted 192 168 0 2)) as (s' & d' & E & _ & _ & _ & F1 & _ & _ & _ & _ & F2 & F3 & _ & F4 & _);
    [apply (room_le _ _ _ _ _ _ _ node_room); vm_compute; by split | by vm_compute | done | by vm_compute..|].
  exists s', d'. split; [exact E|]. split; [exact F1|]. split; [exact F2|]. split; [exact F3 | exact F4].
Defined.

(** ** Echo *)

(** An echo request of the peer with identifier 1, sequence number 2 and two bytes of data. *)
Definition ping_header : bytes := header_of 64 0 IP_PROTO_ICMP 30 1 (dotted 192 168 0 1) (dotted 192 168 0 2).
Definition ping : bytes := [ICMP_ECHO; 0; 0; 0; 0; 1; 0; 2; 97; 98].
Definition pinged : tstate unit :=
  AState [] 0 {[5 := nf5]}
    (PState {[500 := MkPbuf 0 600 10 10 PBUF_RAM 0 1]}
       (list_to_map (zip (seqZ 516 94) (replicate 64 0 ++ ping_header ++ ping))) (mem_init 536870912) (Pools [] [] ∅))
    (IpState 5 5 1 0 41 0 globals1 blocks).

Lemma pinged_request : echo_request pinged 500 (pb 10) [] ping_header ping nf5.
Proof.
  split; [split; [by cbn | cbn; lia | vm_compute; reflexivity] | done | vm_compute; by split | done | done | done
    | done | vm_compute; reflexivity | vm_compute; by split | constructor | done].
Qed.


(** ** From one host to the other *)

(** The frame that the peer at 192.168.0.1 has received, in its padded form. *)
Definition sent : bytes :=
  eth_header EtharpResolve.Examples.peer (nf_hwaddr nf5) ETHTYPE_IP
  ++ ip_datagram client 41 (dotted 192 168 0 2) (dotted 192 168 0 1) 5000 payload.
Definition nf6 : netif :=
  Netif (dotted 192 168 0 1) (dotted 255 255 255 0) 0 EtharpResolve.Examples.peer 0x0f 0 [101; 110] 0 0 3 0 0 [] 1500.
Definition peer_node : tstate unit :=
  AState [] 0 {[6 := nf6]} (packet sent) (IpState 6 6 1 0 7 0 globals0 blocks).

Lemma peer_received : received peer_node 500 6 (pb 46) [] sent [] nf6 [6] [300; 340] (dotted 192 168 0 1).
Proof.
  split; [| done | done | done | done | done | | done | by vm_compute | apply blocks_ok].
  - rewrite app_nil_r. apply (packet_chain sent 46); [done | lia | by vm_compute].
  - split; [|apply NoDup_singleton | right; by apply list_elem_of_singleton].
    cbn [llist]. split; [done|]. split; [done|]. exists nf6. by split.
Qed.

Lemma node_sendable : sendable (node globals0 payload) 340 client (dotted 192 168 0 1).
Proof. split; [done | done | done | cbn; lia | cbn; lia | cbn; lia]. Qed.

Lemma node_resolved : resolved (node globals0 payload) 5 nf5 (dotted 192 168 0 1) EtharpResolve.Examples.peer.
Proof.
  split; [apply EtharpResolve.Examples.table1_ok | by vm_compute | done | by vm_compute | | done].
  exists 0%nat, (ArpEntry 0 (dotted 192 168 0 1) 7 EtharpResolve.Examples.peer 100 ETHARP_STATE_STABLE).
  split; [by vm_compute|]. split; [done|]. split; [done|]. split; [|done]. intros _. by vm_compute.
Qed.

(** A datagram that fits the server only. *)
Lemma chosen_server d r pl' w' :
  full_match d server = false → full_match d client = false → open_match d server = true →
  chosen [300; 340] blocks d r pl' w' → r = 300 ∧ w' = blocks.
Proof.
  intros Hs Hc Ho (_ & _ & _ & _ & Hch).
  assert (Hb : ∀ x v, x ∈ [300; 340] → us_store blocks !! x = Some v → (x = 300 ∧ v = server) ∨ v = client).
  { intros x v Hx Hv. apply elem_of_cons in Hx as [->|Hx]; [left | right; apply list_elem_of_singleton in Hx as ->];
      vm_compute in Hv; by injection Hv as <-. }
  assert (Hin : ∀ l1 l2, [300; 340] = l1 ++ r :: l2 → r ∈ [300; 340])
    by (intros l1 l2 ->; apply elem_of_app; right; by apply elem_of_cons; left).
  destruct Hch as [(_ & (l1 & l2 & v & El & Hv & Hf & _) & _)|(_ & Hr & _ & Hw)].
  - destruct (Hb r v (Hin _ _ El) Hv) as [[_ ->]| ->]; congruence.
  - split; [|exact Hw]. destruct Hr as [(_ & l1 & l2 & v & El & Hv & Hf & Hno)|[-> Hno]].
    + destruct l1 as [|y l1]; [by injection El as <- _|]. injection El as <- _.
      rewrite (Hno 300 server) in Ho; [done | by apply elem_of_cons; left | done].
    + rewrite (Hno 300 server) in Ho; [done | by apply elem_of_cons; left | done].
Qed.

(** Our client sends four bytes to port 5000 of the peer, whose server gets them. *)
Lemma datagram_end_to_end_witness :
  ∃ s' t', stack_sendto_if_src to_link 340 500 (Some (dotted 192 168 0 1)) 5000 5 (dotted 192 168 0 2)
             (node globals0 payload) = to_link 5 500 s' ∧
    stack_ethernet_input to_link on_recv no_tcp no_igmp no_member no_tcp 500 6 peer_node
      = (on_recv 11 12 300 500 (dotted 192 168 0 2) 6000 ;; finish) t' ∧
    ∃ c m, chain_at (as_packets t') 500 ((500, c) :: m) payload.
Proof.
  destruct (datagram_end_to_end to_link on_recv no_tcp no_igmp no_member no_tcp (node globals0 payload) 340 client 500
    (pb 4) [] payload (dotted 192 168 0 1) 5000 5 (dotted 192 168 0 2) nf5 EtharpResolve.Examples.peer)
    as [(s' & b' & E & _) Hin];
    [apply node_room | apply node_sendable | apply node_resolved | by vm_compute | by vm_compute.. |].
  destruct (Hin peer_node 500 6 (pb 46) [] [] nf6 [6] [300; 340] peer_received) as (r & pl' & w' & Hch & Hto);
    [by vm_compute|].
  apply chosen_server in Hch as [-> ->]; [|by vm_compute | by vm_compute | by vm_compute].
  destruct Hto as (v & t' & c & m & Hv & _ & Ht & Er); [done|]. vm_compute in Hv. injection Hv as <-.
  exists s', t'. split; [exact E|]. split; [exact Er|]. exists c, m. exact Ht.
Defined.
